(* ===== verification/_CoqProject ===== *)
-Q . S2P
Prelude.v
KGoodixProto.v
KMpProto.v
UGoodixProto.v
KWorld.v
KEspi.v
KTransport.v
KCmd.v
KUapi.v
KUapiConc.v
KIrq.v
KTrace.v
KProbe.v
UWorld.v
UDev.v
UCommon.v
UXfer.v
USensorCfg.v
UCmds.v
UAgree.v
UDecoder.v
UPlain.v
UFdt.v
UFpn.v
UTls.v
UTlsSvc.v
UProvision.v
USession.v
USessionCalls.v
USessionRun.v
USessionEvents.v
LImage.v
LDriver.v
LDriverRun.v
LDriverInv.v
LDriverOps.v
LDriverProps.v
