(* ===== verification/Prelude.v ===== *)
(** * The GXFP5130 fingerprint sensor: driver, library and libfprint driver

    The repository has a Linux kernel driver for the Goodix GXFP5130 sensor
    ([src/kernel/]), a userspace library on top of it ([src/userspace/]), which
    [src/libfprint/libfprint/drivers/gxfpmoc/] carries as a byte-for-byte copy, and a
    driver for libfprint on top of that ([src/libfprint/libfprint/drivers/gxfp.c]). This
    development models all three, as they are written, with the part of libfprint the last
    one runs through, and proves what makes them correct.

    ** The program

    The sensor talks through a mailbox of an eSPI bridge: a memory-mapped window and three
    GPIO lines. A packet on the wire is an inner body (command, length, payload, checksum)
    in an outer MP frame (flags, length, header checksum), behind an eSPI wrapper when it
    is written. The kernel driver reassembles received frames in its interrupt thread,
    window by window, and queues each as a record behind a character device; write(2)
    sends one packet. The library opens the device, sends requests and waits for the
    records that answer them; on top are its commands, the sensor configuration, finger
    detection, and a TLS connection with the sensor through which images come. A session
    ties these together: requests of its caller, records of the device and the passage of
    time go in, modes, events and images come out. The libfprint driver owns a session: it
    pumps it from the main loop and turns its events into calls of libfprint's image
    device, whose changes of state call the driver back.

    ** The files, and the code they model

    - [Prelude]: machine integers, checked buffers, the state monad, shared lemmas.
    - [KGoodixProto], [KMpProto] (kernel/proto): builders and parsers.
    - [KWorld] (kernel/hw, gxfp_priv.h): the device record, and the world: every access to
      a register, GPIO line, clock or allocation is an event of a trace; what the hardware
      answers is a function of the trace.
    - [KEspi] (kernel/transport): [gxfp_espi_write], [gxfp_espi_irq_read_step],
      [gxfp_espi_read]. [KTransport]: the class that states what commands rely on, and the
      instance that discharges it with [KEspi].
    - [KCmd] (kernel/cmd): the exchange loop [gxfp_xfer], version, state, session
      recovery, reset.
    - [KUapi] (kernel/driver/gxfp_uapi_*.c): the queue, read, write, ioctl, open,
      registration and removal, run alone; [KUapiConc]: the same calls as a step relation,
      at the grain of the mutex and the spinlock, with the interrupt thread, any number of
      readers, and the removal interleaved.
    - [KIrq] (gxfp_irq.c), [KTrace] (gxfp_trace.c), [KProbe] (gxfp_acpi.c,
      gxfp_platform.c, gxfp_main.c): interrupt thread, debug ring, probe and remove.
    - [UWorld]: the system-call interface of the library (a class of answers that are
      functions of the calls made so far); [UDev] (io/dev.c); [UGoodixProto]
      (proto/goodix_proto.c); [UCommon] (algo/common.c); [UXfer] (cmd/goodix_xfer.c);
      [USensorCfg] (algo/sensor_cfg.c); [UCmds] (the other files of cmd/ and
      flow/device_recovery.c); [UAgree]: driver against library.
    - [UDecoder] (algo/image/decoder.c), [UPlain] (algo/image/plain.c: the decrypted image
      stream), [UFpn] (algo/image/fpn.c), [UFdt] (cmd/fdt_cmd.c, flow/fdt.c: finger
      detection), [UProvision] (algo/payload/provision.c).
    - [UTls] (tls/tls_engine_mbedtls.c): the engine between mbedTLS, a class with its
      documented laws, and the device; [UTlsSvc] (tls/tls_service.c): the state machine of
      handshake, capture and extraction.
    - [USession] (flow/session.c): the session and its invariant; [USessionCalls]: each
      call keeps it; [USessionRun]: whole sessions; [USessionEvents]: which events each
      call can raise in each mode.
    - [LImage] (fpi-image-device.c, fp-image-device.c, and what they use of fpi-device.c
      and fp-device.c): libfprint's image device, over the table of functions of a driver;
      [LDriver] (drivers/gxfp.c): the driver, the table it is, and the main loop as a
      sequence of its sources; [LDriverRun], [LDriverInv]: the joint states of driver,
      image device and session, and what the session's events make of them; [LDriverOps]:
      every step of the program and of the main loop; [LDriverProps]: its theorems.

    Definitions keep the names of the C functions, and follow their statements. A
    computation is a function of the state that returns a C return code, the out
    parameters and the new state. [None] as the result of a computation is undefined
    behaviour or a failed assertion: an access outside an object, a NULL dereference,
    signed overflow where it can happen, [g_assert], or a loop that runs out of fuel. A
    theorem that gives a result [Some _] is then also the absence of all of these. Pointers
    are options, error codes negative integers, unsigned conversions explicit. [wp m Q w]
    (total) and [wlp m Q w] (partial) are the results of a computation that satisfy [Q].

    ** What is proved

    - Codecs: round trips, exactness of the parsers, detection of corrupted bytes,
      agreement of the driver's and the library's implementations.
    - Receive path: an invariant of the reassembly for any mailbox contents, delivery in
      exactly ceil(len/0xe00) steps from a sensor that advances, and the queue as a FIFO of
      whole records under every interleaving ([KUapiConc.rxq_linearizable], a refinement by
      rule induction).
    - Character device: read(2) and write(2) on every path: which error, in which order,
      what reaches the sensor and what leaves the queue.
    - Commands of the driver: an exchange succeeds only with an answer that is checked as
      its request asks, and does succeed on a sensor that answers.
    - Probe and removal: all or nothing, for every answer of the platform.
    - Library: requests return whatever the device does, within their timeout, and succeed
      only with a packet of the expected command (whose checksum the library does not test);
      recovery sends each command of its plan once and then the reset, whose result it
      returns; write and read of the library meet those of the driver; the
      configuration patcher is total and seals its checksum; the image decoder equals a
      reference that names the source of each pixel; the image stream's checksum is
      CRC-32/MPEG-2 and its scan finds the first image; the correction of the fixed pattern
      stays in range in IEEE doubles; finger detection keeps its invariant under any
      sequence of calls and records, and a wait for a finger to leave ends; a sealed
      payload opens to its key.
    - TLS: the engine's receive queue refines a byte stream; the service keeps its
      invariant under any sequence of calls, its waits end within their timeout on a clock
      that runs, an image is delivered once.
    - Session: from its initialisation every sequence of calls is defined, terminates and
      follows the transitions of the modes; closing always completes; a capture's image is
      decoded, corrected and handed over once; a service that is lost stays lost.
    - libfprint driver: every sequence of steps of the program and of the main loop is
      defined and keeps the image device and the session together, an action never hangs,
      a cancellation or a suspension ends it - up to one step, an alternative of those
      theorems ([LDriverOps.enroll_lost]): a scan that nobody cancelled ends while an error
      has the device down, and the enrollment goes on. What follows that step is proved
      apart ([LDriverProps.enroll_after_error_deaf]); the invariant does not hold there. Only
      [g_assert] and memory errors are excluded: a [g_return_if_fail] that fails is a
      message and a return.

    Third-party code is behind classes, and its laws are named: [KenvOk] (the mailbox and
    the kernel), [KfifoOk] (kfifo), [PlatformOk]; [UenvOk], [UwriteOk], [UclockOk],
    [UfiniteOk] (the operating system under the library), [MbedtlsOk], [MbedcryptoOk],
    [HostOk] (files). Concrete instances, such as [script_env], [plain_tls] and [demo_host],
    satisfy them, and the witnesses run on those.

    ** Fuel and bounds

    Loops over a count use [forN], which is structural. The loops with fuel are: the
    exchange loop of [KCmd] (bounded by its own packet limit), the waiting loop of [UXfer]
    (fuel is the number of calls that fit in the timeout under [UWorld.UclockOk]: a clock
    that advances by a millisecond in at most [B] calls; [UXfer.request_returns] shows it
    is enough; 500 * B for a request of the session, 2000 * B for all of an opening),
    [USensorCfg.patch_loop] (64 turns for a section of at most 255 bytes),
    [UCommon.grow_cap] (64 doublings), the loops of the decoder (one turn per sample, per
    byte), the extraction of [UTlsSvc] ([UTls.pull_fuel] turns, one per byte that mbedTLS
    can still decrypt or hand over) and the records one look at the device takes (at most
    the [N] it delivers, [UfiniteOk]). Calls of the libfprint driver nest: a change of state
    fails, the device is deactivated, and that changes its state; [LDriverProps.NESTING], 3,
    is enough. A theorem about a loop gives its result, so it also shows that the fuel is
    enough.

    ** What is not modelled

    Logging and error texts; [free]; memory ordering below the locks; the registration
    macros of the modules. mbedTLS, the cryptographic primitives, udev, the environment and
    files are parameters. Of libfprint: prints, minutiae extraction and matching (a scan
    brings their results), the clock and the exponential of its temperature model (the band
    each update finds is given), critical sections, which the driver does not enter, contexts,
    storage on the device, the other drivers, NBIS and SIGFM. The demos are command lines
    around the library. *)

From Stdlib Require Import ZArith Lia.
From stdpp Require Import prelude list.

Open Scope Z_scope.

(** * Machine integers *)

(** [uN x] is the value C stores when [x] is converted to an N-bit unsigned
    type, [s16]/[s32] the same for the signed types (two's complement). *)
Definition u8 (x : Z) : Z := x mod 2 ^ 8.
Definition u16 (x : Z) : Z := x mod 2 ^ 16.
Definition u32 (x : Z) : Z := x mod 2 ^ 32.
Definition u64 (x : Z) : Z := x mod 2 ^ 64.
Definition s16 (x : Z) : Z := (x + 2 ^ 15) mod 2 ^ 16 - 2 ^ 15.
Definition s32 (x : Z) : Z := (x + 2 ^ 31) mod 2 ^ 32 - 2 ^ 31.

Definition is_u8 (x : Z) : Prop := 0 <= x < 2 ^ 8.
Definition is_u16 (x : Z) : Prop := 0 <= x < 2 ^ 16.
Definition is_u32 (x : Z) : Prop := 0 <= x < 2 ^ 32.
Definition is_u64 (x : Z) : Prop := 0 <= x < 2 ^ 64.

(** * Bytes, buffers and pointers *)

Abbreviation bytes := (list Z).

(** A C pointer: [None] is NULL. A pointer into a byte buffer is the rest of
    the buffer from the byte it points at. *)
Abbreviation ptr := option.

(** [if (p) *p = v;] *)
Definition setp {A} (p : ptr A) (v : A) : ptr A := (λ _, v) <$> p.

Definition bytes_ok (l : bytes) : Prop := Forall is_u8 l.
Definition zlen {A} (l : list A) : Z := Z.of_nat (length l).

(** Every access to memory is checked: [None] is an access outside the object
    (or through NULL), which C leaves undefined. *)
Definition rd (b : bytes) (i : Z) : option Z :=
  if 0 <=? i then b !! Z.to_nat i else None.

Definition ztake (n : Z) (b : bytes) : bytes := take (Z.to_nat n) b.
Definition zdrop (n : Z) (b : bytes) : bytes := drop (Z.to_nat n) b.

(** [slice b off len]: the bytes a [memcpy] reads from [b + off]. *)
Definition slice (b : bytes) (off len : Z) : option bytes :=
  if (0 <=? off) && (0 <=? len) && (off + len <=? zlen b)
  then Some (ztake len (zdrop off b)) else None.

(** [blit dst off src]: [memcpy (dst + off, src, length src)]. *)
Definition blit (dst : bytes) (off : Z) (src : bytes) : option bytes :=
  if (0 <=? off) && (off + zlen src <=? zlen dst)
  then Some (ztake off dst ++ src ++ zdrop (off + zlen src) dst) else None.

(** [wr b i v]: [b[i] = v]. *)
Definition wr (b : bytes) (i v : Z) : option bytes := blit b i [v].

Definition zeros (n : Z) : bytes := replicate (Z.to_nat n) 0.

(** [memcpy (dst + doff, src + soff, len)]. *)
Definition memcpy (dst : bytes) (doff : Z) (src : bytes) (soff len : Z) : option bytes :=
  s ← slice src soff len; blit dst doff s.

(** [memset (dst, 0, len)]. *)
Definition memset0 (dst : bytes) (len : Z) : option bytes := blit dst 0 (zeros len).

(** Little-endian encoding on [n] bytes, and its inverse. *)
Fixpoint le_enc (n : nat) (v : Z) : bytes :=
  match n with
  | O => []
  | S n => v mod 256 :: le_enc n (v / 256)
  end.

Fixpoint le_dec (l : bytes) : Z :=
  match l with
  | [] => 0
  | b :: l => b + 256 * le_dec l
  end.

(** * Error numbers (Linux ABI) *)

Definition EPERM : Z := 1.
Definition ENOENT : Z := 2.
Definition EINTR : Z := 4.
Definition EIO : Z := 5.
Definition EAGAIN : Z := 11.
Definition ENOMEM : Z := 12.
Definition EFAULT : Z := 14.
Definition EBUSY : Z := 16.
Definition ENODEV : Z := 19.
Definition EINVAL : Z := 22.
Definition ENOTTY : Z := 25.
Definition ENOSPC : Z := 28.
Definition EPIPE : Z := 32.
Definition ENODATA : Z := 61.
Definition EBADMSG : Z := 74.
Definition EOVERFLOW : Z := 75.
Definition EMSGSIZE : Z := 90.
Definition ETIMEDOUT : Z := 110.
Definition EALREADY : Z := 114.
Definition ECANCELED : Z := 125.
Definition EPROBE_DEFER : Z := 517.

(** * The state monad with undefined behaviour *)

(** A computation over the state [W]: [None] is undefined behaviour (an access
    outside its object). C return codes are ordinary values. *)
Definition M (W A : Type) : Type := W → option (A * W).

#[export] Instance M_ret {W} : MRet (M W) := λ A a w, Some (a, w).
#[export] Instance M_bind {W} : MBind (M W) := λ A B f m w,
  match m w with
  | Some (a, w') => f a w'
  | None => None
  end.

Definition lift {W A} (o : option A) : M W A := λ w,
  match o with
  | Some a => Some (a, w)
  | None => None
  end.
Definition getw {W} : M W W := λ w, Some (w, w).
Definition gets {W A} (f : W → A) : M W A := λ w, Some (f w, w).
Definition modw {W} (f : W → W) : M W () := λ w, Some ((), f w).
Definition ub {W A} : M W A := λ _, None.

(** Run a computation over a part of the state. *)
Definition zoom {W V A} (get : W → V) (set : V → W → W) (m : M V A) : M W A := λ w,
  match m (get w) with
  | Some (a, v) => Some (a, set v w)
  | None => None
  end.

(** [when c m]: [if (c) m;] *)
Definition when {W} (c : bool) (m : M W ()) : M W () :=
  if c then m else mret ().

(** Total-correctness weakest precondition: [m] is defined and its result
    satisfies [Q]. *)
Definition wp {W A} (m : M W A) (Q : A → W → Prop) (w : W) : Prop :=
  match m w with
  | Some (a, w') => Q a w'
  | None => False
  end.

(** [for (i = i0; i < i0 + n; i++) acc = body (i, acc);] *)
Fixpoint forN {F : Type → Type} `{MRet F, MBind F} {A}
    (n : nat) (i : Z) (body : Z → A → F A) (acc : A) : F A :=
  match n with
  | O => mret acc
  | S n => acc' ← body i acc; forN n (i + 1) body acc'
  end.

(** * Lemmas *)

Create HintDb gxfp.
Create Rewrite HintDb gxfp.

(** Linear arithmetic with division and modulo by constants. *)
Ltac zdm := Z.to_euclidean_division_equations; lia.

(** Unfold the integer conversions, then [zdm]. *)
Ltac zint :=
  unfold u8, u16, u32, u64, s16, s32, is_u8, is_u16, is_u32, is_u64 in *;
  zdm.

Lemma eqb_shift a b c d : (a = b ↔ c = d) → (a =? b) = (c =? d).
Proof. intros H. destruct (Z.eqb_spec a b), (Z.eqb_spec c d); tauto. Qed.

(** ** Lengths *)

Lemma zlen_nonneg {A} (l : list A) : 0 <= zlen l.
Proof. unfold zlen; lia. Qed.

Lemma zlen_nil {A} : @zlen A [] = 0.
Proof. done. Qed.

Lemma zlen_cons {A} (x : A) l : zlen (x :: l) = 1 + zlen l.
Proof. unfold zlen; simpl length; lia. Qed.

Lemma zlen_app {A} (l k : list A) : zlen (l ++ k) = zlen l + zlen k.
Proof. unfold zlen; rewrite length_app; lia. Qed.

Lemma zlen_zeros n : 0 <= n → zlen (zeros n) = n.
Proof. intros; unfold zlen, zeros; rewrite length_replicate; lia. Qed.

Lemma zlen_ztake n l : 0 <= n <= zlen l → zlen (ztake n l) = n.
Proof. unfold zlen, ztake; intros; rewrite length_take; lia. Qed.

Lemma zlen_zdrop n l : 0 <= n <= zlen l → zlen (zdrop n l) = zlen l - n.
Proof. unfold zlen, zdrop; intros; rewrite length_drop; lia. Qed.

Lemma zlen_insert {A} (l : list A) n x : zlen (<[n := x]> l) = zlen l.
Proof. unfold zlen. by rewrite length_insert. Qed.

Lemma zlen_0 {A} (l : list A) : zlen l = 0 → l = [].
Proof. destruct l; [done|]. rewrite zlen_cons. pose proof (zlen_nonneg l). lia. Qed.

Lemma zlen_pos_inv {A} (l : list A) n :
  zlen l = n → 0 < n → ∃ x k, l = x :: k ∧ zlen k = n - 1.
Proof.
  intros Hl Hn. destruct l as [|x k]; [rewrite zlen_nil in Hl; lia|].
  rewrite zlen_cons in Hl. exists x, k. split; [done|lia].
Qed.

Lemma zlen_3_inv {A} (l : list A) : zlen l = 3 → ∃ a b c, l = [a; b; c].
Proof.
  intros Hl. destruct (zlen_pos_inv l 3) as (a & k & -> & Hk); [done|lia|].
  destruct (zlen_pos_inv k 2) as (b & k' & -> & Hk'); [lia..|].
  destruct (zlen_pos_inv k' 1) as (c & k'' & -> & Hk''); [lia..|].
  rewrite (zlen_0 k'') by lia. eauto.
Qed.

(** Normalise the lengths of the buffers in the context and the goal. *)
Ltac zlens :=
  rewrite ?zlen_cons, ?zlen_app in *;
  change (@zlen Z []) with 0 in *.

#[export] Hint Rewrite @zlen_cons @zlen_app : gxfp.

(** ** Taking and dropping *)

Lemma ztake_zdrop n l : ztake n l ++ zdrop n l = l.
Proof. apply take_drop. Qed.

Lemma ztake_app n a b : zlen a = n → ztake n (a ++ b) = a.
Proof. intros <-. unfold ztake, zlen. rewrite Nat2Z.id. apply take_app_length. Qed.

Lemma zdrop_app n a b : zlen a = n → zdrop n (a ++ b) = b.
Proof. intros <-. unfold zdrop, zlen. rewrite Nat2Z.id. apply drop_app_length. Qed.

Lemma ztake_all n l : zlen l = n → ztake n l = l.
Proof. intros. rewrite <- (app_nil_r l) at 1. by apply ztake_app. Qed.

Lemma ztake_ztake n m l : 0 <= n <= m → ztake n (ztake m l) = ztake n l.
Proof. intros. unfold ztake. rewrite take_take. f_equal. lia. Qed.

Lemma zdrop_zdrop n m l : 0 <= n → 0 <= m → zdrop n (zdrop m l) = zdrop (m + n) l.
Proof. intros. unfold zdrop. rewrite drop_drop. f_equal. lia. Qed.

Lemma zdrop_cons n x l : 0 <= n → zdrop (n + 1) (x :: l) = zdrop n l.
Proof. intros. unfold zdrop. by replace (Z.to_nat (n + 1)) with (S (Z.to_nat n)) by lia. Qed.

Lemma ztake_add n m l : 0 <= n → 0 <= m → ztake (n + m) l = ztake n l ++ ztake m (zdrop n l).
Proof.
  intros. unfold ztake, zdrop. rewrite Z2Nat.inj_add by lia.
  symmetry. apply take_take_drop.
Qed.

Lemma ztake_0 l : ztake 0 l = [].
Proof. done. Qed.

Lemma zdrop_0 l : zdrop 0 l = l.
Proof. done. Qed.

(** A buffer split at an offset and a length. *)
Lemma split3 (b : bytes) off len :
  0 <= off → 0 <= len → off + len <= zlen b →
  ∃ p m q, b = p ++ m ++ q ∧ zlen p = off ∧ zlen m = len.
Proof.
  intros Ho Hl Hb. exists (ztake off b), (ztake len (zdrop off b)), (zdrop (off + len) b).
  split_and!.
  - rewrite <- (zdrop_zdrop len off) by lia. by rewrite !ztake_zdrop.
  - apply zlen_ztake; lia.
  - apply zlen_ztake. rewrite zlen_zdrop; lia.
Qed.

(** ** Checked accesses *)

Lemma rd_app_r a b i : zlen a <= i → rd (a ++ b) i = rd b (i - zlen a).
Proof.
  intros Hi. pose proof (zlen_nonneg a). unfold rd.
  rewrite !(proj2 (Z.leb_le _ _)) by lia.
  rewrite lookup_app_r by (unfold zlen in *; lia). f_equal. unfold zlen in *; lia.
Qed.

Lemma rd_app_l a b i : i < zlen a → rd (a ++ b) i = rd a i.
Proof.
  intros Hi. unfold rd. destruct (Z.leb_spec 0 i); [|done].
  rewrite lookup_app_l; [done|]. unfold zlen in *; lia.
Qed.

Lemma rd_middle a v b i : zlen a = i → rd (a ++ v :: b) i = Some v.
Proof. intros <-. rewrite rd_app_r by lia. by rewrite Z.sub_diag. Qed.

Lemma rd_Some b i : 0 <= i < zlen b → is_Some (rd b i).
Proof.
  intros. unfold rd. rewrite (proj2 (Z.leb_le _ _)) by lia.
  apply lookup_lt_is_Some. unfold zlen in *; lia.
Qed.

Lemma rd_ok b i v : bytes_ok b → rd b i = Some v → is_u8 v.
Proof.
  unfold rd. intros Hb. destruct (0 <=? i); [|done]. intros Hv.
  by apply (Forall_lookup_1 _ _ _ _ Hb Hv).
Qed.

Lemma slice_Some b off len :
  0 <= off → 0 <= len → off + len <= zlen b →
  slice b off len = Some (ztake len (zdrop off b)).
Proof.
  intros. unfold slice. rewrite !(proj2 (Z.leb_le _ _)) by lia. done.
Qed.

Lemma slice_inv b off len s :
  slice b off len = Some s →
  0 <= off ∧ 0 <= len ∧ off + len <= zlen b ∧ s = ztake len (zdrop off b) ∧ zlen s = len.
Proof.
  unfold slice. destruct (0 <=? off) eqn:E1; [|done].
  destruct (0 <=? len) eqn:E2; [|done]. destruct (off + len <=? zlen b) eqn:E3; [|done].
  simpl. intros [= <-]. split_and!; try lia; [done|].
  apply zlen_ztake. rewrite zlen_zdrop; lia.
Qed.

Lemma slice_app p m q off len :
  zlen p = off → zlen m = len → slice (p ++ m ++ q) off len = Some m.
Proof.
  intros Hp Hm. pose proof (zlen_nonneg p). pose proof (zlen_nonneg m).
  pose proof (zlen_nonneg q).
  rewrite slice_Some by (rewrite ?zlen_app; lia).
  by rewrite zdrop_app, ztake_app.
Qed.

Lemma slice_full b len : zlen b = len → slice b 0 len = Some b.
Proof.
  intros <-. rewrite slice_Some by (pose proof (zlen_nonneg b); lia).
  by rewrite zdrop_0, ztake_all.
Qed.

Lemma slice_prefix m q len : zlen m = len → slice (m ++ q) 0 len = Some m.
Proof. by apply (slice_app []). Qed.

Lemma blit_app p m q off s :
  zlen p = off → zlen s = zlen m → blit (p ++ m ++ q) off s = Some (p ++ s ++ q).
Proof.
  intros Hp Hs. pose proof (zlen_nonneg p). pose proof (zlen_nonneg q).
  unfold blit. rewrite !(proj2 (Z.leb_le _ _)) by (rewrite ?zlen_app; lia). simpl.
  rewrite ztake_app by done.
  rewrite (app_assoc p m q), (zdrop_app _ (p ++ m)) by (rewrite zlen_app; lia). done.
Qed.

Lemma blit_eq b off s p m q :
  b = p ++ m ++ q → zlen p = off → zlen s = zlen m → blit b off s = Some (p ++ s ++ q).
Proof. intros ->. apply blit_app. Qed.

Lemma wr_app p x q i v : zlen p = i → wr (p ++ x :: q) i v = Some (p ++ v :: q).
Proof. intros. unfold wr. by apply (blit_app p [x] q). Qed.

Lemma wr_0 x q v : wr (x :: q) 0 v = Some (v :: q).
Proof. by apply (wr_app []). Qed.

Lemma wr_1 a x q v : wr (a :: x :: q) 1 v = Some (a :: v :: q).
Proof. by apply (wr_app [a]). Qed.

Lemma wr_2 a b x q v : wr (a :: b :: x :: q) 2 v = Some (a :: b :: v :: q).
Proof. by apply (wr_app [a; b]). Qed.

Lemma wr_3 a b c x q v : wr (a :: b :: c :: x :: q) 3 v = Some (a :: b :: c :: v :: q).
Proof. by apply (wr_app [a; b; c]). Qed.

Lemma wr_4 a b c d x q v :
  wr (a :: b :: c :: d :: x :: q) 4 v = Some (a :: b :: c :: d :: v :: q).
Proof. by apply (wr_app [a; b; c; d]). Qed.

Lemma wr_5 a b c d e x q v :
  wr (a :: b :: c :: d :: e :: x :: q) 5 v = Some (a :: b :: c :: d :: e :: v :: q).
Proof. by apply (wr_app [a; b; c; d; e]). Qed.

Lemma memset0_full b n : zlen b = n → memset0 b n = Some (zeros n).
Proof.
  intros Hb. pose proof (zlen_nonneg b). unfold memset0.
  rewrite (blit_eq b 0 (zeros n) [] b []);
    [by rewrite app_nil_r|by rewrite app_nil_r|done|rewrite zlen_zeros; lia].
Qed.

Lemma zeros_add n m : 0 <= n → 0 <= m → zeros (n + m) = zeros n ++ zeros m.
Proof. intros. unfold zeros. rewrite <- replicate_add. f_equal. lia. Qed.

Lemma blit_inv d off s d' :
  blit d off s = Some d' →
  0 <= off ∧ off + zlen s <= zlen d ∧
  d' = ztake off d ++ s ++ zdrop (off + zlen s) d ∧ zlen d' = zlen d.
Proof.
  unfold blit. destruct (0 <=? off) eqn:E1; [|done].
  destruct (off + zlen s <=? zlen d) eqn:E2; [|done]. simpl. intros [= <-].
  pose proof (zlen_nonneg s).
  split_and!; [lia|lia|done|]. rewrite !zlen_app, zlen_ztake, zlen_zdrop; lia.
Qed.

Lemma blit_Some d off s :
  0 <= off → off + zlen s <= zlen d →
  blit d off s = Some (ztake off d ++ s ++ zdrop (off + zlen s) d).
Proof. intros. unfold blit. rewrite !(proj2 (Z.leb_le _ _)) by lia. done. Qed.

(** ** Byte buffers *)

Lemma bytes_ok_app a b : bytes_ok (a ++ b) ↔ bytes_ok a ∧ bytes_ok b.
Proof. apply Forall_app. Qed.

Lemma bytes_ok_cons x a : bytes_ok (x :: a) ↔ is_u8 x ∧ bytes_ok a.
Proof. apply Forall_cons. Qed.

Lemma bytes_ok_ztake n l : bytes_ok l → bytes_ok (ztake n l).
Proof. apply Forall_take. Qed.

Lemma bytes_ok_zdrop n l : bytes_ok l → bytes_ok (zdrop n l).
Proof. apply Forall_drop. Qed.

Lemma bytes_ok_zeros n : bytes_ok (zeros n).
Proof. apply Forall_replicate. unfold is_u8; lia. Qed.

Lemma bytes_ok_nil : bytes_ok [].
Proof. constructor. Qed.

#[export] Hint Resolve bytes_ok_ztake bytes_ok_zdrop bytes_ok_zeros bytes_ok_nil : gxfp.

(** ** Little-endian encodings *)

Lemma length_le_enc n v : length (le_enc n v) = n.
Proof. revert v. induction n; intros; simpl; auto. Qed.

Lemma zlen_le_enc n v : zlen (le_enc n v) = Z.of_nat n.
Proof. unfold zlen. by rewrite length_le_enc. Qed.

Lemma le_enc_ok n v : bytes_ok (le_enc n v).
Proof.
  revert v. induction n; intros; simpl; [constructor|].
  constructor; [unfold is_u8; zdm|apply IHn].
Qed.

Lemma le_dec_enc n v : le_dec (le_enc n v) = v mod 256 ^ Z.of_nat n.
Proof.
  revert v. induction n as [|n IH]; intros v.
  - by rewrite Z.mod_1_r.
  - simpl le_enc. simpl le_dec. rewrite IH.
    replace (256 ^ Z.of_nat (S n)) with (256 * 256 ^ Z.of_nat n)
      by (rewrite Nat2Z.inj_succ, Z.pow_succ_r; lia).
    rewrite Z.rem_mul_r; lia.
Qed.

Lemma le_dec_bound l : bytes_ok l → 0 <= le_dec l < 256 ^ zlen l.
Proof.
  unfold zlen. induction 1 as [|b l Hb _ IH]; [simpl; lia|].
  simpl le_dec. simpl length. rewrite Nat2Z.inj_succ, Z.pow_succ_r by lia.
  unfold is_u8 in Hb. lia.
Qed.

Lemma le_enc_dec l n : bytes_ok l → length l = n → le_enc n (le_dec l) = l.
Proof.
  intros Hl <-. induction Hl as [|b l Hb _ IH]; [done|].
  simpl. unfold is_u8 in Hb. f_equal.
  - zdm.
  - by replace ((b + 256 * le_dec l) / 256) with (le_dec l) by zdm.
Qed.

#[export] Hint Rewrite zlen_le_enc : gxfp.
#[export] Hint Resolve le_enc_ok : gxfp.

(** ** The bit operations of the C code *)

Lemma land_255 x : Z.land x 255 = x mod 256.
Proof. change 255 with (Z.ones 8). by rewrite Z.land_ones. Qed.

Lemma land_7 x : Z.land x 7 = x mod 8.
Proof. change 7 with (Z.ones 3). by rewrite Z.land_ones. Qed.

Lemma land_15 x : Z.land x 15 = x mod 16.
Proof. change 15 with (Z.ones 4). by rewrite Z.land_ones. Qed.

Lemma shiftr_div x n : 0 <= n → Z.shiftr x n = x / 2 ^ n.
Proof. apply Z.shiftr_div_pow2. Qed.

Lemma testbit_above a n m : 0 <= a < 2 ^ n → 0 <= n <= m → Z.testbit a m = false.
Proof.
  intros Ha Hm. destruct (Z.eq_dec a 0) as [->|]; [apply Z.testbit_0_l|].
  apply Z.bits_above_log2; [lia|].
  assert (Z.log2 a < n) by (apply Z.log2_lt_pow2; lia). lia.
Qed.

Lemma lor_shiftl a b n : 0 <= n → 0 <= a < 2 ^ n → Z.lor a (Z.shiftl b n) = a + b * 2 ^ n.
Proof.
  intros Hn Ha. rewrite <- Z.shiftl_mul_pow2 by done.
  assert (Hz : Z.land a (Z.shiftl b n) = 0).
  { apply Z.bits_inj'. intros m Hm. rewrite Z.land_spec, Z.testbit_0_l.
    destruct (Z.lt_ge_cases m n).
    - rewrite Z.shiftl_spec_low by done. apply andb_false_r.
    - by rewrite (testbit_above a n) by lia. }
  rewrite Z.add_nocarry_lxor by done. by rewrite Z.lxor_lor.
Qed.

(** Reading a 16-bit little-endian field the way the C code does. *)
Lemma lor16 a b : is_u8 a → Z.lor a (Z.shiftl b 8) = a + 256 * b.
Proof. unfold is_u8. intros. rewrite lor_shiftl by lia. lia. Qed.

(** ** Reasoning about computations *)

Section wp_rules.
Context {W : Type}.

Lemma wp_ret {A} (a : A) Q (w : W) : Q a w → wp (mret a) Q w.
Proof. done. Qed.

Lemma wp_bind {A B} (m : M W A) (f : A → M W B) Q w :
  wp m (λ a w', wp (f a) Q w') w → wp (m ≫= f) Q w.
Proof. unfold wp, mbind, M_bind. by destruct (m w) as [[a w']|]. Qed.

Lemma wp_bind_inv {A B} (m : M W A) (f : A → M W B) Q w :
  wp (m ≫= f) Q w → wp m (λ a w', wp (f a) Q w') w.
Proof. unfold wp, mbind, M_bind. by destruct (m w) as [[a w']|]. Qed.

Lemma wp_mono {A} (m : M W A) (P Q : A → W → Prop) w :
  wp m P w → (∀ a w', P a w' → Q a w') → wp m Q w.
Proof. unfold wp. destruct (m w) as [[a w']|]; auto. Qed.

Lemma wp_and {A} (m : M W A) (P Q : A → W → Prop) w :
  wp m P w → wp m Q w → wp m (λ a w', P a w' ∧ Q a w') w.
Proof. unfold wp. destruct (m w) as [[a w']|]; auto. Qed.

Lemma wp_lift {A} (o : option A) a Q (w : W) :
  o = Some a → Q a w → wp (lift o) Q w.
Proof. by intros ->. Qed.

Lemma wp_getw Q (w : W) : Q w w → wp getw Q w.
Proof. done. Qed.

Lemma wp_gets {A} (f : W → A) Q w : Q (f w) w → wp (gets f) Q w.
Proof. done. Qed.

Lemma wp_modw (f : W → W) Q w : Q () (f w) → wp (modw f) Q w.
Proof. done. Qed.

Lemma wp_eq {A} (m : M W A) Q w a w' : m w = Some (a, w') → Q a w' → wp m Q w.
Proof. unfold wp. by intros ->. Qed.

Lemma wp_ext {A} (m m' : M W A) Q w : m w = m' w → wp m' Q w → wp m Q w.
Proof. unfold wp. by intros ->. Qed.

Lemma wp_elim {A} (m : M W A) Q w a w' : wp m Q w → m w = Some (a, w') → Q a w'.
Proof. unfold wp. intros H Em. by rewrite Em in H. Qed.

Lemma wp_inv {A} (m : M W A) Q w : wp m Q w → ∃ a w', m w = Some (a, w') ∧ Q a w'.
Proof. unfold wp. destruct (m w) as [[a w']|]; [eauto|done]. Qed.

Lemma run_bind {A B} (m : M W A) (f : A → M W B) w a w' :
  m w = Some (a, w') → (m ≫= f) w = f a w'.
Proof. unfold mbind, M_bind. by intros ->. Qed.

Lemma ret_run {A} (a : A) (w : W) : (mret a : M W A) w = Some (a, w).
Proof. done. Qed.

Lemma bind_ret {A B} (a : A) (f : A → M W B) w : (mret a ≫= f) w = f a w.
Proof. done. Qed.

Lemma bind_ext {A B} (m : M W A) (f g : A → M W B) w :
  (∀ a w', f a w' = g a w') → (m ≫= f) w = (m ≫= g) w.
Proof. intros H. unfold mbind, M_bind. by destruct (m w) as [[a w']|]. Qed.

Lemma bind_lift {A B} (a : A) (f : A → M W B) w : (lift (Some a) ≫= f) w = f a w.
Proof. done. Qed.

Lemma bind_getw {B} (f : W → M W B) w : (getw ≫= f) w = f w w.
Proof. done. Qed.

Lemma bind_gets {A B} (h : W → A) (f : A → M W B) w : (gets h ≫= f) w = f (h w) w.
Proof. done. Qed.

Lemma bind_assoc {A B C} (m : M W A) (f : A → M W B) (g : B → M W C) w :
  ((m ≫= f) ≫= g) w = (m ≫= λ a, f a ≫= g) w.
Proof. unfold mbind, M_bind. by destruct (m w) as [[a w']|]. Qed.

Lemma bind_inv {A B} (m : M W A) (f : A → M W B) w b w'' :
  (m ≫= f) w = Some (b, w'') → ∃ a w', m w = Some (a, w') ∧ f a w' = Some (b, w'').
Proof. unfold mbind, M_bind. destruct (m w) as [[a w']|]; [eauto|done]. Qed.

(** A [for] loop preserves an invariant indexed by the loop counter. *)
Lemma wp_forN {A} (Inv : Z → A → W → Prop) (body : Z → A → M W A) n i acc w :
  Inv i acc w →
  (∀ j a w', i <= j < i + Z.of_nat n → Inv j a w' → wp (body j a) (Inv (j + 1)) w') →
  wp (forN n i body acc) (Inv (i + Z.of_nat n)) w.
Proof.
  revert i acc w. induction n as [|n IH]; intros i acc w H0 Hstep; cbn [forN].
  - apply wp_ret. by replace (i + Z.of_nat 0) with i by lia.
  - apply wp_bind. eapply wp_mono; [apply Hstep; [lia|done]|].
    intros a w' Ha. replace (i + Z.of_nat (S n)) with (i + 1 + Z.of_nat n) by lia.
    apply IH; [done|]. intros j b w'' Hj. apply Hstep. lia.
Qed.
End wp_rules.

(** Run the first statement of a sequence, by the lemma that gives its result. *)
Tactic Notation "mstep" uconstr(H) := erewrite run_bind by (eapply H; first [eassumption | reflexivity]); cbv beta iota.

(** The same for loops over pure computations. *)
Lemma forN_option {A} (Inv : Z → A → Prop) (body : Z → A → option A) n i acc :
  Inv i acc →
  (∀ j a, i <= j < i + Z.of_nat n → Inv j a → ∃ a', body j a = Some a' ∧ Inv (j + 1) a') →
  ∃ a', forN n i body acc = Some a' ∧ Inv (i + Z.of_nat n) a'.
Proof.
  revert i acc. induction n as [|n IH]; intros i acc H0 Hstep; cbn [forN].
  - exists acc. by replace (i + Z.of_nat 0) with i by lia.
  - destruct (Hstep i acc) as (a' & E & Ha'); [lia|done|].
    replace (i + Z.of_nat (S n)) with (i + 1 + Z.of_nat n) by lia.
    change (mbind (M:=option) ?f ?o) with (o ≫= f). rewrite E. simpl.
    apply IH; [done|]. intros j b Hj. apply Hstep. lia.
Qed.

(** Bodies that agree on the indexes of the loop. *)
Lemma forN_ext {A} (f g : Z → A → option A) n i acc :
  (∀ j a, i <= j < i + Z.of_nat n → f j a = g j a) → forN n i f acc = forN n i g acc.
Proof.
  revert i acc. induction n as [|n IH]; intros i acc H; cbn [forN]; [done|].
  rewrite H by lia. unfold mbind, option_bind. destruct (g i acc) as [a|]; [|done]. apply IH. intros j b Hj. apply H. lia.
Qed.

(** Undefined behaviour never follows a computation that is defined. *)
Lemma opt_bind_inv {A B} (o : option A) (f : A → option B) b :
  o ≫= f = Some b → ∃ a, o = Some a ∧ f a = Some b.
Proof. destruct o; simpl; eauto; done. Qed.
