(* ===== verification/KGoodixProto.v ===== *)
(** The Goodix command body: [kernel/proto/gxfp_goodix_proto.c].

    A body is [cmd, len_lo, len_hi, payload, checksum] where [len] counts the
    payload and the checksum byte. [goodix_frame] is that wire format; the
    theorems show that the builder emits exactly it, that the parser accepts
    exactly its extensions, and what the checksum detects. *)
From Stdlib Require Import ZArith Lia.
From stdpp Require Import prelude list.
From S2P Require Import Prelude.

Open Scope Z_scope.

(** * The code *)

Definition GXFP_GOODIX_PAYLOAD_U16_MAX : Z := 65280. (* 0xFF00 *)

Record gxfp_frame_parsed := {
  valid : bool;
  proto_checksum_ok : bool;
  cmd : Z;
  decl_len : Z;
  payload : ptr bytes;
  payload_len : Z;
  proto_checksum : Z
}.

(** [memset (out, 0, sizeof out)] *)
Definition frame_zero : gxfp_frame_parsed :=
  {| valid := false; proto_checksum_ok := false; cmd := 0; decl_len := 0;
     payload := None; payload_len := 0; proto_checksum := 0 |}.

Definition gxfp_goodix_proto_checksum (cmd decl_len : Z) (payload : ptr bytes)
    (payload_len : Z) : option Z :=
  let sum0 := u32 (cmd + Z.land decl_len 255 + Z.land (Z.shiftr decl_len 8) 255) in
  sum ← forN (Z.to_nat payload_len) 0 (λ i sum,
          p ← payload;
          v ← rd p i;
          Some (u32 (sum + v))) sum0;
  Some (u8 (170 - u8 sum)).

Definition gxfp_parse_goodix_body (buf : ptr bytes) (buf_len : Z)
    (out : ptr gxfp_frame_parsed) : option (bool * ptr gxfp_frame_parsed) :=
  match out, buf with
  | Some _, Some b =>
    if buf_len <? 4 then Some (false, out) else
    (* memset (out, 0, sizeof out) *)
    let out := Some frame_zero in
    cmd ← rd b 0;
    b1 ← rd b 1;
    b2 ← rd b 2;
    let decl_len := u16 (Z.lor b1 (Z.shiftl b2 8)) in
    if decl_len <? 1 then Some (false, out) else
    let payload_len := u16 (decl_len - 1) in
    let need := 3 + payload_len + 1 in
    if buf_len <? need then Some (false, out) else
    let payload := Some (zdrop 3 b) in
    proto_ck ← rd b (3 + payload_len);
    ck ← gxfp_goodix_proto_checksum cmd decl_len payload payload_len;
    Some (true, Some {| cmd := cmd; decl_len := decl_len; payload := payload;
                        payload_len := payload_len; proto_checksum := proto_ck;
                        proto_checksum_ok := ck =? proto_ck; valid := true |})
  | _, _ => Some (false, out)
  end.

(** The frame is written to the front of [out]; the int result is the length
    or a negative errno. *)
Definition gxfp_goodix_build_frame (cmd : Z) (payload : ptr bytes) (payload_len : Z)
    (out : ptr bytes) (out_cap : Z) : option (Z * ptr bytes) :=
  match out with
  | None => Some (- EINVAL, out)
  | Some o =>
    if out_cap <? 4 then Some (- EINVAL, out) else
    if negb (payload_len =? 0) && bool_decide (payload = None) then Some (- EINVAL, out) else
    if GXFP_GOODIX_PAYLOAD_U16_MAX <? payload_len then Some (- EOVERFLOW, out) else
    let decl_len := u16 (1 + payload_len) in
    let total := 1 + 2 + payload_len + 1 in
    if out_cap <? total then Some (- EMSGSIZE, out) else
    o ← wr o 0 cmd;
    o ← wr o 1 (u8 (Z.land decl_len 255));
    o ← wr o 2 (u8 (Z.land (Z.shiftr decl_len 8) 255));
    o ← (if negb (payload_len =? 0)
         then p ← payload; memcpy o 3 p 0 payload_len
         else Some o);
    ck ← gxfp_goodix_proto_checksum cmd decl_len payload payload_len;
    o ← wr o (3 + payload_len) ck;
    Some (total, Some o)
  end.

(** * The wire format *)

Definition zsum (l : bytes) : Z := foldr Z.add 0 l.

(** The checksum byte makes the sum of the frame's bytes 0xAA modulo 256. *)
Definition goodix_ck (cmd : Z) (pl : bytes) : Z :=
  (170 - (cmd + (1 + zlen pl) mod 256 + (1 + zlen pl) / 256 mod 256 + zsum pl)) mod 256.

Definition goodix_frame (cmd : Z) (pl : bytes) : bytes :=
  cmd :: (1 + zlen pl) mod 256 :: (1 + zlen pl) / 256 mod 256 ::
  pl ++ [goodix_ck cmd pl].

(** A body whose checksum byte may be wrong. *)
Definition goodix_body (cmd : Z) (pl : bytes) (ck : Z) : bytes :=
  cmd :: (1 + zlen pl) mod 256 :: (1 + zlen pl) / 256 mod 256 :: pl ++ [ck].

(** A payload that the builder accepts. *)
Definition payload_ok (pl : bytes) : Prop :=
  bytes_ok pl ∧ zlen pl <= GXFP_GOODIX_PAYLOAD_U16_MAX.

(** * Lemmas *)

Lemma zsum_app a b : zsum (a ++ b) = zsum a + zsum b.
Proof. induction a; simpl; lia. Qed.

Lemma checksum_loop pre pl rest s :
  is_u32 s →
  forN (length pl) (zlen pre) (λ i sum,
      p ← Some (pre ++ pl ++ rest); v ← rd p i; Some (u32 (sum + v))) s
  = Some (u32 (s + zsum pl)).
Proof.
  revert pre s. induction pl as [|x pl IH]; intros pre s Hs.
  - simpl. f_equal. zint.
  - cbn [length forN]. simpl. rewrite rd_middle by done. simpl.
    specialize (IH (pre ++ [x]) (u32 (s + x))).
    rewrite zlen_app, zlen_cons, zlen_nil in IH.
    replace (zlen pre + (1 + 0)) with (zlen pre + 1) in IH by lia.
    rewrite <- app_assoc in IH. simpl in IH. rewrite IH by zint. f_equal. zint.
Qed.

Lemma goodix_checksum_spec cmd pl rest :
  is_u16 (1 + zlen pl) →
  gxfp_goodix_proto_checksum cmd (1 + zlen pl) (Some (pl ++ rest)) (zlen pl)
  = Some (goodix_ck cmd pl).
Proof.
  intros Hl. unfold gxfp_goodix_proto_checksum.
  replace (Z.to_nat (zlen pl)) with (length pl) by (unfold zlen; lia).
  change 0 with (zlen (A:=Z) []) at 1.
  rewrite (checksum_loop [] pl rest) by zint. simpl. f_equal.
  rewrite !land_255, shiftr_div by lia. change (2 ^ 8) with 256.
  unfold goodix_ck. zint.
Qed.

Lemma goodix_checksum_nil cmd p :
  gxfp_goodix_proto_checksum cmd 1 p 0 = Some (goodix_ck cmd []).
Proof. unfold gxfp_goodix_proto_checksum, goodix_ck. change (zlen (A:=Z) []) with 0. simpl.
  change (Z.land 1 255) with 1. change (Z.land (Z.shiftr 1 8) 255) with 0. f_equal. zint.
Qed.

Lemma goodix_ck_u8 cmd pl : is_u8 (goodix_ck cmd pl).
Proof. unfold goodix_ck; zint. Qed.

Lemma zlen_goodix_body c pl ck : zlen (goodix_body c pl ck) = zlen pl + 4.
Proof. unfold goodix_body. rewrite !zlen_cons, zlen_app, zlen_cons, zlen_nil. lia. Qed.

Lemma zlen_goodix_frame cmd pl : zlen (goodix_frame cmd pl) = zlen pl + 4.
Proof. unfold goodix_frame. rewrite !zlen_cons, zlen_app, zlen_cons, zlen_nil. lia. Qed.

Lemma goodix_frame_ok cmd pl : is_u8 cmd → bytes_ok pl → bytes_ok (goodix_frame cmd pl).
Proof.
  intros. unfold goodix_frame. rewrite !bytes_ok_cons, bytes_ok_app, bytes_ok_cons.
  split_and!; auto using goodix_ck_u8 with gxfp; zint.
Qed.

#[export] Hint Rewrite zlen_goodix_frame : gxfp.
#[export] Hint Resolve goodix_frame_ok goodix_ck_u8 : gxfp.

(** The builder on an accepted payload. *)
Lemma build_frame_run cmd pl rest o cap :
  zlen pl <= GXFP_GOODIX_PAYLOAD_U16_MAX → is_u8 cmd → zlen pl + 4 <= cap <= zlen o →
  gxfp_goodix_build_frame cmd (Some (pl ++ rest)) (zlen pl) (Some o) cap
  = Some (zlen pl + 4, Some (goodix_frame cmd pl ++ zdrop (zlen pl + 4) o)).
Proof.
  intros Hpl Hc Hcap. pose proof (zlen_nonneg pl).
  unfold GXFP_GOODIX_PAYLOAD_U16_MAX in *.
  unfold gxfp_goodix_build_frame, GXFP_GOODIX_PAYLOAD_U16_MAX.
  rewrite (bool_decide_eq_false_2 (Some _ = None)) by done. rewrite andb_false_r.
  rewrite !(proj2 (Z.ltb_ge _ _)) by lia.
  replace (u16 (1 + zlen pl)) with (1 + zlen pl) by zint.
  destruct (split3 o 3 (zlen pl)) as (h & m & q & -> & Hh & Hm); [lia..|].
  rewrite !zlen_app in Hcap.
  destruct (zlen_3_inv h Hh) as (h0 & h1 & h2 & ->).
  destruct q as [|q0 q]; [rewrite zlen_nil in Hcap; lia|].
  simpl ([h0; h1; h2] ++ _).
  rewrite wr_0. simpl. rewrite wr_1. simpl. rewrite wr_2. simpl.
  assert (Hcopy : ∀ a b c,
    (if negb (zlen pl =? 0) then memcpy (a :: b :: c :: m ++ q0 :: q) 3 (pl ++ rest) 0 (zlen pl)
     else Some (a :: b :: c :: m ++ q0 :: q)) = Some (a :: b :: c :: pl ++ q0 :: q)).
  { intros a b c. destruct (Z.eqb_spec (zlen pl) 0) as [E|E]; simpl.
    - rewrite E in Hm. by rewrite (zlen_0 m), (zlen_0 pl).
    - unfold memcpy. rewrite slice_prefix by done. simpl.
      by apply (blit_app [a; b; c] m). }
  rewrite Hcopy. simpl. rewrite goodix_checksum_spec by zint. simpl.
  rewrite !app_comm_cons, wr_app
    by (rewrite !zlen_cons; lia).
  simpl. f_equal. f_equal; [lia|]. f_equal.
  unfold goodix_frame. rewrite !land_255, shiftr_div by lia. change (2 ^ 8) with 256.
  replace (u8 ((1 + zlen pl) mod 256)) with ((1 + zlen pl) mod 256) by zint.
  replace (u8 ((1 + zlen pl) / 256 mod 256)) with ((1 + zlen pl) / 256 mod 256) by zint.
  simpl. rewrite <- app_assoc. simpl. do 3 f_equal. f_equal. f_equal.
  replace (h0 :: h1 :: h2 :: m ++ q0 :: q) with (([h0; h1; h2] ++ m ++ [q0]) ++ q)
    by (simpl; by rewrite <- app_assoc).
  rewrite zdrop_app; [done|]. rewrite !zlen_app, !zlen_cons, !zlen_nil. lia.
Qed.

(** The parser on a buffer whose declared length fits. *)
Lemma parse_body_run c l h pl ck rest buf_len o :
  is_u8 l → is_u8 h → l + 256 * h = 1 + zlen pl →
  zlen pl + 4 <= buf_len →
  gxfp_parse_goodix_body (Some (c :: l :: h :: pl ++ ck :: rest)) buf_len (Some o)
  = Some (true, Some {| valid := true; proto_checksum_ok := goodix_ck c pl =? ck;
                        cmd := c; decl_len := 1 + zlen pl;
                        payload := Some (pl ++ ck :: rest);
                        payload_len := zlen pl; proto_checksum := ck |}).
Proof.
  intros Hl Hh Hdl Hlen. pose proof (zlen_nonneg pl).
  unfold gxfp_parse_goodix_body.
  rewrite !(proj2 (Z.ltb_ge buf_len 4)) by lia.
  change (rd (c :: ?t) 0) with (Some c). change (rd (c :: ?a :: ?t) 1) with (Some a).
  change (rd (c :: ?a :: ?b :: ?t) 2) with (Some b). cbn [mbind option_bind].
  rewrite lor16 by done. rewrite Hdl.
  replace (u16 (1 + zlen pl)) with (1 + zlen pl) by zint.
  rewrite !(proj2 (Z.ltb_ge (1 + zlen pl) 1)) by lia.
  replace (u16 (1 + zlen pl - 1)) with (zlen pl) by zint.
  rewrite !(proj2 (Z.ltb_ge buf_len _)) by lia.
  change (zdrop 3 (c :: l :: h :: ?t)) with t.
  rewrite !app_comm_cons, rd_middle by (rewrite !zlen_cons; lia). cbn [mbind option_bind].
  rewrite goodix_checksum_spec by zint. done.
Qed.

(** The cases the parser refuses. *)
Lemma parse_body_short b buf_len o :
  buf_len < 4 → gxfp_parse_goodix_body (Some b) buf_len (Some o) = Some (false, Some o).
Proof. intros. unfold gxfp_parse_goodix_body. by rewrite (proj2 (Z.ltb_lt _ _)) by lia. Qed.

Lemma parse_body_refused c l h t buf_len o :
  is_u8 l → is_u8 h → 4 <= buf_len → l + 256 * h < 1 ∨ buf_len < l + 256 * h + 3 →
  gxfp_parse_goodix_body (Some (c :: l :: h :: t)) buf_len (Some o)
  = Some (false, Some frame_zero).
Proof.
  intros Hl Hh H4 Hr. unfold gxfp_parse_goodix_body.
  rewrite !(proj2 (Z.ltb_ge buf_len 4)) by lia.
  change (rd (c :: ?t) 0) with (Some c). change (rd (c :: ?a :: ?t) 1) with (Some a).
  change (rd (c :: ?a :: ?b :: ?t) 2) with (Some b). cbn [mbind option_bind].
  rewrite lor16 by done.
  replace (u16 (l + 256 * h)) with (l + 256 * h) by zint.
  destruct (Z.ltb_spec (l + 256 * h) 1); [done|].
  replace (u16 (l + 256 * h - 1)) with (l + 256 * h - 1) by zint.
  by rewrite (proj2 (Z.ltb_lt buf_len _)) by lia.
Qed.

(** Every buffer of at least four bytes is of one of the two shapes above. *)
Lemma body_cases b buf_len :
  bytes_ok b → 4 <= buf_len <= zlen b →
  ∃ c l h t, b = c :: l :: h :: t ∧ is_u8 c ∧ is_u8 l ∧ is_u8 h ∧ bytes_ok t ∧
    ((l + 256 * h < 1 ∨ buf_len < l + 256 * h + 3) ∨
     (∃ pl ck rest, t = pl ++ ck :: rest ∧ l + 256 * h = 1 + zlen pl ∧
        zlen pl + 4 <= buf_len)).
Proof.
  intros Hb Hlen.
  destruct b as [|c [|l [|h t]]]; zlens; try lia.
  rewrite !bytes_ok_cons in Hb. destruct Hb as (Hc & Hl & Hh & Ht).
  exists c, l, h, t. split_and!; try done.
  destruct (decide (l + 256 * h < 1)) as [|H1]; [auto|].
  destruct (decide (buf_len < l + 256 * h + 3)) as [|H2]; [auto|right].
  destruct (split3 t (l + 256 * h - 1) 1) as (p & m & q & -> & Hp & Hm); [lia..|].
  destruct (zlen_pos_inv m 1) as (x & k & -> & Hk); [done|lia|].
  rewrite (zlen_0 k) by lia. exists p, x, q. split_and!; [done|lia..].
Qed.

(** The parser either refuses a buffer or has found a complete body in it. *)
Lemma parse_body_dec b buf_len o :
  bytes_ok b → 0 <= buf_len <= zlen b →
  (∃ f, gxfp_parse_goodix_body (Some b) buf_len (Some o) = Some (false, Some f)) ∨
  (∃ c pl ck rest, b = goodix_body c pl ck ++ rest ∧ zlen pl + 4 <= buf_len ∧
     zlen pl < 65535 ∧ is_u8 c ∧ is_u8 ck ∧ bytes_ok pl ∧
     gxfp_parse_goodix_body (Some b) buf_len (Some o)
     = Some (true, Some {| valid := true; proto_checksum_ok := goodix_ck c pl =? ck;
                           cmd := c; decl_len := 1 + zlen pl;
                           payload := Some (pl ++ ck :: rest);
                           payload_len := zlen pl; proto_checksum := ck |})).
Proof.
  intros Hb Hlen. destruct (Z.lt_ge_cases buf_len 4) as [H4|H4].
  { left. rewrite parse_body_short by done. eauto. }
  destruct (body_cases b buf_len Hb) as (c & l & h & t & -> & Hc & Hl & Hh & Ht & Hcase); [lia|].
  destruct Hcase as [Hr|(pl & ck & rest & -> & Hdl & Hfit)].
  { left. rewrite parse_body_refused by done. eauto. }
  right. pose proof (zlen_nonneg pl).
  rewrite bytes_ok_app, bytes_ok_cons in Ht. destruct Ht as (Hpl & Hck & _).
  exists c, pl, ck, rest. split_and!; try done.
  - unfold goodix_body. cbn [app]. rewrite <- app_assoc. cbn [app].
    rewrite <- Hdl. f_equal. f_equal; [zint|]. f_equal. zint.
  - unfold is_u8 in *. lia.
  - by apply parse_body_run.
Qed.

(** * Properties *)

(** Round trip. A frame built into a buffer of capacity [cap] is parsed
    back with the command, the payload and a valid checksum, whatever follows it
    in memory. *)
Theorem goodix_build_parse_roundtrip c pl rest o cap out :
  is_u8 c → payload_ok pl → zlen pl + 4 <= cap → cap <= zlen o →
  ∃ o', gxfp_goodix_build_frame c (Some (pl ++ rest)) (zlen pl) (Some o) cap
        = Some (zlen pl + 4, Some o') ∧
    zlen o' = zlen o ∧
    ∀ more buf_len, zlen pl + 4 <= buf_len →
    ∃ f, gxfp_parse_goodix_body (Some (o' ++ more)) buf_len (Some out) = Some (true, Some f) ∧
      valid f = true ∧ proto_checksum_ok f = true ∧ cmd f = c ∧
      payload_len f = zlen pl ∧ (p ← payload f; slice p 0 (payload_len f)) = Some pl.
Proof.
  intros Hc [Hpl Hmax] Hcap Ho. pose proof (zlen_nonneg pl).
  unfold GXFP_GOODIX_PAYLOAD_U16_MAX in Hmax.
  eexists. split; [apply build_frame_run; unfold GXFP_GOODIX_PAYLOAD_U16_MAX; auto with lia|].
  split; [rewrite zlen_app, zlen_goodix_frame, zlen_zdrop; lia|].
  intros more buf_len Hlen. unfold goodix_frame.
  rewrite <- app_assoc. simpl app. rewrite <- app_assoc. simpl app.
  rewrite parse_body_run by zint.
  eexists. split; [done|]. cbn -[slice]. rewrite Z.eqb_refl.
  by rewrite slice_prefix.
Qed.

Lemma goodix_build_parse_roundtrip_witness :
  is_u8 168 ∧ ∃ o', gxfp_goodix_build_frame 168 (Some [1]) 1 (Some (zeros 8)) 8
    = Some (5, Some o').
Proof.
  split; [unfold is_u8; lia|].
  destruct (goodix_build_parse_roundtrip 168 [1] [] (zeros 8) 8 frame_zero) as (o' & H & _).
  - unfold is_u8; lia.
  - split; [repeat constructor; unfold is_u8; lia|vm_compute; discriminate].
  - vm_compute; discriminate.
  - vm_compute; discriminate.
  - exists o'. exact H.
Defined.

(** C14: the parser never reads outside the [buf_len] bytes it is given, and it
    reports a valid checksum exactly on the extensions of well-formed frames. *)
Theorem goodix_parse_exact b buf_len out :
  bytes_ok b → 0 <= buf_len <= zlen b →
  ∃ ok o', gxfp_parse_goodix_body (Some b) buf_len (Some out) = Some (ok, o') ∧
    (ok = true → ∃ f, o' = Some f ∧ valid f = true ∧ payload f = Some (zdrop 3 b) ∧
       0 <= payload_len f ∧ payload_len f + 4 <= buf_len) ∧
    ((ok = true ∧ ∃ f, o' = Some f ∧ proto_checksum_ok f = true) ↔
     ∃ c pl rest, b = goodix_frame c pl ++ rest ∧ zlen pl < 2 ^ 16 - 1 ∧
       zlen pl + 4 <= buf_len).
Proof.
  intros Hb Hlen. destruct (Z.lt_ge_cases buf_len 4) as [H4|H4].
  { rewrite parse_body_short by done. eexists _, _. split; [done|]. split; [done|].
    split; [by intros []|]. intros (c & pl & rest & _ & _ & ?).
    pose proof (zlen_nonneg pl). lia. }
  destruct (body_cases b buf_len Hb) as (c & l & h & t & -> & Hc & Hl & Hh & Ht & Hcase); [lia|].
  destruct Hcase as [Hr|(pl & ck & rest & -> & Hdl & Hfit)].
  - rewrite parse_body_refused by done. eexists _, _. split; [done|]. split; [done|].
    split; [by intros []|]. intros (c' & pl & rest & [= -> -> -> ->] & Hm & Hfit).
    pose proof (zlen_nonneg pl). zint.
  - rewrite (parse_body_run c l h pl ck rest buf_len) by done.
    pose proof (zlen_nonneg pl).
    eexists _, _. split; [done|]. split.
    { intros _. eexists. split; [done|]. simpl. split_and!; [done|done|lia|lia]. }
    split.
    + intros (_ & f & [= <-] & Hck). simpl in Hck. apply Z.eqb_eq in Hck.
      exists c, pl, rest. unfold goodix_frame. simpl. rewrite <- app_assoc, Hck. simpl.
      split_and!; [|unfold is_u8 in *; lia|lia]. f_equal. f_equal; [zint|]. f_equal. zint.
    + intros (c' & pl' & rest' & E & Hm & Hfit'). split; [done|]. eexists. split; [done|].
      simpl. unfold goodix_frame in E. simpl in E. rewrite <- app_assoc in E. simpl in E.
      injection E as -> El Eh E.
      assert (Hll : zlen pl = zlen pl') by (pose proof (zlen_nonneg pl'); zint).
      apply app_inj_1 in E as [-> [= -> ->]]; [|unfold zlen in Hll; lia].
      apply Z.eqb_refl.
Qed.

Lemma goodix_parse_exact_witness :
  ∃ f, gxfp_parse_goodix_body (Some (goodix_frame 174 [1; 2])) 6 (Some frame_zero)
       = Some (true, Some f) ∧ proto_checksum_ok f = true.
Proof.
  destruct (goodix_parse_exact (goodix_frame 174 [1; 2]) 6 frame_zero)
    as (ok & o' & E & _ & _ & Hok).
  - apply goodix_frame_ok; [unfold is_u8; lia|].
    repeat constructor; unfold is_u8; lia.
  - split; [lia|]. vm_compute. discriminate.
  - destruct Hok as (-> & f & -> & Hf).
    + exists 174, [1; 2], []. split; [reflexivity|]. split; vm_compute; [reflexivity|discriminate].
    + exists f. auto.
Defined.

Lemma zsum_insert l i v x :
  l !! i = Some x → zsum (<[i := v]> l) = zsum l - x + v.
Proof.
  intros Hi. rewrite <- (take_drop_middle l i x Hi) at 2.
  rewrite (insert_take_drop l i v) by (by eapply lookup_lt_Some).
  rewrite !zsum_app. simpl. lia.
Qed.

(** The checksum detects the corruption of any one byte of the command, the
    payload or the checksum itself. *)
Theorem goodix_corruption_detected c pl rest i v out buf_len :
  bytes_ok (c :: pl) → zlen pl < 2 ^ 16 - 1 → is_u8 v → zlen pl + 4 <= buf_len →
  i = 0%nat ∨ (3 <= i)%nat → (i < length (goodix_frame c pl))%nat →
  goodix_frame c pl !! i ≠ Some v →
  ∃ f, gxfp_parse_goodix_body (Some (<[i := v]> (goodix_frame c pl) ++ rest)) buf_len (Some out)
       = Some (true, Some f) ∧ proto_checksum_ok f = false.
Proof.
  intros Hb Hmax Hv Hlen Hi Hin Hne. rewrite bytes_ok_cons in Hb. destruct Hb as [Hc Hpl].
  pose proof (zlen_nonneg pl).
  (* the corrupted frame is still parsed as some command, payload and checksum *)
  assert (∃ c' pl' ck', <[i := v]> (goodix_frame c pl)
    = c' :: (1 + zlen pl) mod 256 :: (1 + zlen pl) / 256 mod 256 :: pl' ++ [ck'] ∧
    zlen pl' = zlen pl ∧ goodix_ck c' pl' ≠ ck') as (c' & pl' & ck' & E & Hl' & Hck).
  { unfold goodix_frame in *. destruct Hi as [->|Hi].
    - exists v, pl, (goodix_ck c pl). split_and!; [done..|].
      intros Hck. apply Hne. simpl. f_equal. unfold goodix_ck in Hck. zint.
    - destruct i as [|[|[|i]]]; [lia..|]. simpl in *.
      destruct (decide (i < length pl)%nat) as [Hp|Hp].
      + exists c, (<[i := v]> pl), (goodix_ck c pl). rewrite insert_app_l by done.
        split_and!; [done|unfold zlen; by rewrite length_insert|].
        destruct (lookup_lt_is_Some_2 pl i Hp) as [x Hx].
        rewrite lookup_app_l, Hx in Hne by done.
        assert (is_u8 x) by (by eapply Forall_lookup_1).
        unfold goodix_ck. rewrite (zsum_insert pl i v x) by done.
        unfold zlen. rewrite length_insert. intros Hck. apply Hne. f_equal. zint.
      + exists c, pl, v. rewrite length_app in Hin. simpl in Hin.
        replace i with (length pl + 0)%nat by lia. rewrite insert_app_r.
        split_and!; [done..|]. intros Hck. apply Hne.
        replace i with (length pl + 0)%nat by lia. rewrite lookup_app_r by lia.
        replace (length pl + 0 - length pl)%nat with 0%nat by lia. simpl. by rewrite Hck. }
  rewrite E. cbn [app]. rewrite <- app_assoc. cbn [app].
  rewrite (parse_body_run c' _ _ pl' ck') by zint.
  eexists. split; [done|]. simpl. by apply Z.eqb_neq.
Qed.

Lemma goodix_corruption_detected_witness :
  ∃ f, gxfp_parse_goodix_body (Some (<[4%nat := 9]> (goodix_frame 174 [1; 2]) ++ [])) 6
         (Some frame_zero) = Some (true, Some f) ∧ proto_checksum_ok f = false.
Proof.
  apply (goodix_corruption_detected 174 [1; 2] [] 4 9 frame_zero 6).
  - repeat constructor; unfold is_u8; lia.
  - reflexivity.
  - unfold is_u8; lia.
  - vm_compute; discriminate.
  - right; lia.
  - vm_compute; lia.
  - vm_compute; discriminate.
Defined.

(** The builder on every branch, errors included. *)
Lemma build_frame_errors c pl len o cap :
  (cap < 4 → gxfp_goodix_build_frame c pl len (Some o) cap = Some (- EINVAL, Some o)) ∧
  (4 <= cap → pl = None → len ≠ 0 →
     gxfp_goodix_build_frame c pl len (Some o) cap = Some (- EINVAL, Some o)) ∧
  (4 <= cap → pl ≠ None → GXFP_GOODIX_PAYLOAD_U16_MAX < len →
     gxfp_goodix_build_frame c pl len (Some o) cap = Some (- EOVERFLOW, Some o)) ∧
  (4 <= cap → pl ≠ None → len <= GXFP_GOODIX_PAYLOAD_U16_MAX → cap < len + 4 →
     gxfp_goodix_build_frame c pl len (Some o) cap = Some (- EMSGSIZE, Some o)).
Proof.
  unfold gxfp_goodix_build_frame. split_and!.
  - intros. by rewrite (proj2 (Z.ltb_lt _ _)).
  - intros ? -> ?. rewrite (proj2 (Z.ltb_ge _ _)) by lia.
    by rewrite (proj2 (Z.eqb_neq _ _)), bool_decide_eq_true_2.
  - intros ? Hp ?. rewrite (proj2 (Z.ltb_ge cap 4)) by lia.
    rewrite (bool_decide_eq_false_2 _ Hp), andb_false_r. by rewrite (proj2 (Z.ltb_lt _ _)).
  - intros ? Hp ? ?. rewrite (proj2 (Z.ltb_ge cap 4)) by lia.
    rewrite (bool_decide_eq_false_2 _ Hp), andb_false_r.
    rewrite (proj2 (Z.ltb_ge _ len)) by lia. by rewrite (proj2 (Z.ltb_lt _ _)) by lia.
Qed.
