(* ===== verification/KMpProto.v ===== *)
(** The MP transport frame: [kernel/proto/gxfp_mp_proto.c].

    A frame is [flags, len_lo, len_hi, head checksum, payload]; the high nibble
    of [flags] is the channel type and the head checksum is the sum of the
    three bytes before it. [mp_frame] is that wire format. *)
From Stdlib Require Import ZArith Lia.
From stdpp Require Import prelude list.
From S2P Require Import Prelude.

Open Scope Z_scope.

(** * The code *)

Definition GXFP_GOODIX_MP_LEN_MAX : Z := 27648. (* 0x6c00 *)
Definition GXFP_MP_TYPE_A : Z := 10.
Definition GXFP_MP_TYPE_B : Z := 11.
Definition GXFP_MP_TYPE_C : Z := 12.

Record gxfp_mp_frame_parsed := {
  mp_valid : bool;
  mp_flags : Z;
  mp_payload_len : Z;
  mp_payload : ptr bytes
}.

Definition mp_frame_zero : gxfp_mp_frame_parsed :=
  {| mp_valid := false; mp_flags := 0; mp_payload_len := 0; mp_payload := None |}.

(** [out_mp_len] is NULL or points at a length, which is written. *)
Definition gxfp_check_mp_head (buf : ptr bytes) (buf_len : Z) (out_mp_len : ptr Z)
    : option (bool * ptr Z) :=
  let out_mp_len := (λ _, 0) <$> out_mp_len in
  match buf with
  | None => Some (false, out_mp_len)
  | Some b =>
    if buf_len <? 4 then Some (false, out_mp_len) else
    flags ← rd b 0;
    let type := Z.shiftr flags 4 in
    if negb (type =? GXFP_MP_TYPE_A) && negb (type =? GXFP_MP_TYPE_B) &&
       negb (type =? GXFP_MP_TYPE_C) then Some (false, out_mp_len) else
    b1 ← rd b 1;
    b2 ← rd b 2;
    let mp_len := u16 (Z.lor b1 (Z.shiftl b2 8)) in
    if u16 GXFP_GOODIX_MP_LEN_MAX <=? mp_len then Some (false, out_mp_len) else
    let ck_expect := u8 (flags + b1 + b2) in
    b3 ← rd b 3;
    if negb (b3 =? ck_expect) then Some (false, out_mp_len) else
    Some (true, (λ _, mp_len) <$> out_mp_len)
  end.

Definition gxfp_parse_mp_frame (buf : ptr bytes) (buf_len : Z)
    (out : ptr gxfp_mp_frame_parsed) : option (bool * ptr gxfp_mp_frame_parsed) :=
  match out, buf with
  | Some _, Some b =>
    if buf_len <? 4 then Some (false, out) else
    let out := Some mp_frame_zero in
    '(ok, mp_len) ← gxfp_check_mp_head buf 4 (Some 0);
    if negb ok then Some (false, out) else
    mp_len ← mp_len;
    let total := 4 + mp_len in
    if buf_len <? total then Some (false, out) else
    flags ← rd b 0;
    Some (true, Some {| mp_flags := flags; mp_payload_len := mp_len;
                        mp_payload := Some (zdrop 4 b); mp_valid := true |})
  | _, _ => Some (false, out)
  end.

Definition gxfp_mp_build_frame (mp_type : Z) (payload : ptr bytes) (payload_len : Z)
    (out : ptr bytes) (out_cap : Z) : option (Z * ptr bytes) :=
  match out with
  | None => Some (- EINVAL, out)
  | Some o =>
    if out_cap <? 4 then Some (- EINVAL, out) else
    if negb (payload_len =? 0) && bool_decide (payload = None) then Some (- EINVAL, out) else
    if GXFP_GOODIX_MP_LEN_MAX <? payload_len then Some (- EOVERFLOW, out) else
    if negb (mp_type =? GXFP_MP_TYPE_A) && negb (mp_type =? GXFP_MP_TYPE_B) &&
       negb (mp_type =? GXFP_MP_TYPE_C) then Some (- EINVAL, out) else
    let mp_len := u16 payload_len in
    let total := 4 + payload_len in
    if out_cap <? total then Some (- EMSGSIZE, out) else
    let flags := u8 (Z.shiftl mp_type 4) in
    o ← wr o 0 flags;
    o ← wr o 1 (u8 (Z.land mp_len 255));
    o ← wr o 2 (u8 (Z.land (Z.shiftr mp_len 8) 255));
    o0 ← rd o 0;
    o1 ← rd o 1;
    o2 ← rd o 2;
    o ← wr o 3 (u8 (o0 + o1 + o2));
    o ← (if negb (payload_len =? 0)
         then p ← payload; memcpy o 4 p 0 payload_len
         else Some o);
    Some (total, Some o)
  end.

(** * The wire format *)

Definition mp_type_ok (t : Z) : Prop :=
  t = GXFP_MP_TYPE_A ∨ t = GXFP_MP_TYPE_B ∨ t = GXFP_MP_TYPE_C.

Definition mp_head (flags len : Z) : bytes :=
  [flags; len mod 256; len / 256 mod 256;
   (flags + len mod 256 + len / 256 mod 256) mod 256].

Definition mp_frame (flags : Z) (pl : bytes) : bytes := mp_head flags (zlen pl) ++ pl.

(** * Lemmas *)

Lemma zlen_mp_frame flags pl : zlen (mp_frame flags pl) = 4 + zlen pl.
Proof. unfold mp_frame, mp_head. rewrite zlen_app, !zlen_cons, zlen_nil. lia. Qed.

Lemma mp_frame_ok flags pl : is_u8 flags → bytes_ok pl → bytes_ok (mp_frame flags pl).
Proof.
  intros. unfold mp_frame, mp_head. rewrite bytes_ok_app, !bytes_ok_cons.
  split_and!; auto with gxfp; zint.
Qed.

#[export] Hint Rewrite zlen_mp_frame : gxfp.
#[export] Hint Resolve mp_frame_ok : gxfp.

Lemma mp_type_test t :
  mp_type_ok t →
  negb (t =? GXFP_MP_TYPE_A) && negb (t =? GXFP_MP_TYPE_B) && negb (t =? GXFP_MP_TYPE_C)
  = false.
Proof. by intros [->|[->| ->]]. Qed.

Lemma mp_type_test_inv t :
  negb (t =? GXFP_MP_TYPE_A) && negb (t =? GXFP_MP_TYPE_B) && negb (t =? GXFP_MP_TYPE_C)
  = false → mp_type_ok t.
Proof. unfold mp_type_ok, GXFP_MP_TYPE_A, GXFP_MP_TYPE_B, GXFP_MP_TYPE_C. lia. Qed.

(** The head check decides exactly the heads of frames. *)
Lemma check_mp_head_spec f l h k t buf_len o :
  is_u8 f → is_u8 l → is_u8 h → is_u8 k → 4 <= buf_len →
  ∃ ok : bool, gxfp_check_mp_head (Some (f :: l :: h :: k :: t)) buf_len (Some o)
        = Some (ok, Some (if ok then l + 256 * h else 0)) ∧
    (ok = true ↔ mp_type_ok (Z.shiftr f 4) ∧ l + 256 * h < GXFP_GOODIX_MP_LEN_MAX ∧
       [f; l; h; k] = mp_head f (l + 256 * h)).
Proof.
  intros Hf Hl Hh Hk Hlen. unfold gxfp_check_mp_head.
  rewrite !(proj2 (Z.ltb_ge buf_len 4)) by lia.
  change (rd (f :: ?t) 0) with (Some f). change (rd (f :: ?a :: ?t) 1) with (Some a).
  change (rd (f :: ?a :: ?b :: ?t) 2) with (Some b).
  change (rd (f :: ?a :: ?b :: ?c :: ?t) 3) with (Some c). cbn [mbind option_bind fmap option_fmap option_map].
  destruct (negb _ && _ && _) eqn:Et.
  { exists false. split; [done|]. split; [done|]. intros (Ht & _).
    rewrite mp_type_test in Et by done. done. }
  apply mp_type_test_inv in Et. cbn [mbind option_bind]. rewrite lor16 by done.
  change (u16 GXFP_GOODIX_MP_LEN_MAX) with GXFP_GOODIX_MP_LEN_MAX.
  replace (u16 (l + 256 * h)) with (l + 256 * h) by zint.
  destruct (Z.leb_spec GXFP_GOODIX_MP_LEN_MAX (l + 256 * h)).
  { exists false. split; [done|]. split; [done|]. intros (_ & ? & _). lia. }
  destruct (Z.eqb_spec k (u8 (f + l + h))) as [E|E]; simpl.
  - exists true. split; [done|]. split; [|done]. intros _. split_and!; [done|done|].
    unfold mp_head. rewrite E. unfold u8. repeat (f_equal; try zint).
  - exists false. split; [done|]. split; [done|]. intros (_ & _ & Eh).
    unfold mp_head in Eh. injection Eh as _ _ Ek. zint.
Qed.

Lemma mp_build_run t pl rest o cap :
  mp_type_ok t → zlen pl <= GXFP_GOODIX_MP_LEN_MAX → 4 + zlen pl <= cap <= zlen o →
  gxfp_mp_build_frame t (Some (pl ++ rest)) (zlen pl) (Some o) cap
  = Some (4 + zlen pl, Some (mp_frame (16 * t) pl ++ zdrop (4 + zlen pl) o)).
Proof.
  intros Ht Hpl Hcap. pose proof (zlen_nonneg pl).
  unfold gxfp_mp_build_frame. rewrite mp_type_test by done.
  rewrite (bool_decide_eq_false_2 (Some _ = None)) by done. rewrite andb_false_r.
  rewrite !(proj2 (Z.ltb_ge _ _)) by lia.
  assert (Hu : u16 (zlen pl) = zlen pl)
    by (unfold GXFP_GOODIX_MP_LEN_MAX in *; zint).
  rewrite Hu, !land_255, shiftr_div by lia. change (2 ^ 8) with 256.
  replace (u8 (Z.shiftl t 4)) with (16 * t)
    by (by destruct Ht as [->|[->| ->]]).
  replace (u8 (zlen pl mod 256)) with (zlen pl mod 256) by zint.
  replace (u8 (zlen pl / 256 mod 256)) with (zlen pl / 256 mod 256) by zint.
  destruct (split3 o 4 (zlen pl)) as (h & m & q & -> & Hh & Hm); [lia..|].
  destruct (zlen_pos_inv h 4) as (h0 & h' & -> & Hh'); [done|lia|].
  destruct (zlen_3_inv h') as (h1 & h2 & h3 & ->); [lia|].
  cbn [app]. rewrite wr_0. cbn [mbind option_bind]. rewrite wr_1. cbn [mbind option_bind].
  rewrite wr_2. cbn [mbind option_bind].
  change (rd (?x :: ?t) 0) with (Some x). change (rd (?x :: ?a :: ?t) 1) with (Some a).
  change (rd (?x :: ?a :: ?b :: ?t) 2) with (Some b). cbn [mbind option_bind].
  rewrite wr_3. cbn [mbind option_bind].
  assert (Hz : zdrop (4 + zlen pl) (h0 :: h1 :: h2 :: h3 :: m ++ q) = q).
  { apply (zdrop_app _ ([h0; h1; h2; h3] ++ m) q).
    rewrite zlen_app, !zlen_cons, zlen_nil. lia. }
  rewrite Hz. unfold mp_frame, mp_head, u8. cbn [app].
  destruct (Z.eqb_spec (zlen pl) 0) as [E|E]; cbn [negb].
  - rewrite E in Hm. rewrite (zlen_0 m), (zlen_0 pl) by done. done.
  - cbn [mbind option_bind]. unfold memcpy. rewrite slice_prefix by done.
    cbn [mbind option_bind].
    by rewrite (blit_eq _ _ _ [_; _; _; _] m q) by done.
Qed.

(** The parser on a complete frame. *)
Lemma parse_mp_run flags pl rest buf_len o :
  is_u8 flags → mp_type_ok (Z.shiftr flags 4) → zlen pl < GXFP_GOODIX_MP_LEN_MAX →
  4 + zlen pl <= buf_len →
  gxfp_parse_mp_frame (Some (mp_frame flags pl ++ rest)) buf_len (Some o)
  = Some (true, Some {| mp_valid := true; mp_flags := flags; mp_payload_len := zlen pl;
                        mp_payload := Some (pl ++ rest) |}).
Proof.
  intros Hf Ht Hmax Hfit. pose proof (zlen_nonneg pl). unfold gxfp_parse_mp_frame.
  rewrite (proj2 (Z.ltb_ge buf_len 4)) by lia. unfold mp_frame, mp_head. cbn [app].
  edestruct (check_mp_head_spec flags (zlen pl mod 256) (zlen pl / 256 mod 256))
    as (ok & E & Hok); [done|zint|zint| |reflexivity|rewrite E]; [zint|].
  unfold GXFP_GOODIX_MP_LEN_MAX in *.
  assert (Hd : zlen pl mod 256 + 256 * (zlen pl / 256 mod 256) = zlen pl) by zint.
  rewrite Hd in *. cbn [mbind option_bind].
  assert (ok = true) as -> by (by apply Hok). cbn [negb mbind option_bind].
  by rewrite (proj2 (Z.ltb_ge buf_len _)) by lia.
Qed.

(** The parser either refuses a buffer or has found a complete frame in it. *)
Lemma parse_mp_dec b buf_len o :
  bytes_ok b → 0 <= buf_len <= zlen b →
  (∃ f, gxfp_parse_mp_frame (Some b) buf_len (Some o) = Some (false, Some f)) ∨
  (∃ flags pl rest, b = mp_frame flags pl ++ rest ∧ mp_type_ok (Z.shiftr flags 4) ∧
     zlen pl < GXFP_GOODIX_MP_LEN_MAX ∧ 4 + zlen pl <= buf_len ∧ is_u8 flags ∧
     gxfp_parse_mp_frame (Some b) buf_len (Some o)
     = Some (true, Some {| mp_valid := true; mp_flags := flags; mp_payload_len := zlen pl;
                           mp_payload := Some (pl ++ rest) |})).
Proof.
  intros Hb Hlen. unfold gxfp_parse_mp_frame.
  destruct (Z.ltb_spec buf_len 4) as [H4|H4]; [left; eauto|].
  destruct b as [|f [|l [|h [|k t]]]]; zlens; try lia.
  rewrite !bytes_ok_cons in Hb. destruct Hb as (Hf & Hl & Hh & Hk & Ht).
  destruct (check_mp_head_spec f l h k t 4 0) as (ok & E & Hok); [done..|].
  rewrite E. cbn [mbind option_bind]. destruct ok; cbn [negb]; [|left; eauto].
  destruct (proj1 Hok eq_refl) as (Hty & Hm & Hhd). cbn [mbind option_bind].
  destruct (Z.ltb_spec buf_len (4 + (l + 256 * h))) as [Hs|Hs]; [left; eauto|].
  right. exists f, (ztake (l + 256 * h) t), (zdrop (l + 256 * h) t).
  unfold mp_frame. rewrite zlen_ztake, ztake_zdrop by (unfold is_u8 in *; lia).
  rewrite <- Hhd, <- app_assoc, ztake_zdrop. split_and!; done.
Qed.

(** * Properties *)

(** The MP parser never reads outside the [buf_len] bytes it is given, and
    it accepts exactly the buffers that start with a complete frame of type A, B
    or C whose payload is shorter than 0x6c00 bytes. *)
Theorem mp_parse_exact b buf_len out :
  bytes_ok b → 0 <= buf_len <= zlen b →
  ∃ ok o', gxfp_parse_mp_frame (Some b) buf_len (Some out) = Some (ok, o') ∧
    (ok = true ↔ ∃ flags pl rest, b = mp_frame flags pl ++ rest ∧
       mp_type_ok (Z.shiftr flags 4) ∧ zlen pl < GXFP_GOODIX_MP_LEN_MAX ∧
       4 + zlen pl <= buf_len) ∧
    (∀ flags pl rest, ok = true → b = mp_frame flags pl ++ rest →
       zlen pl < GXFP_GOODIX_MP_LEN_MAX →
       ∃ f, o' = Some f ∧ mp_valid f = true ∧ mp_flags f = flags ∧
         mp_payload_len f = zlen pl ∧ mp_payload f = Some (pl ++ rest)).
Proof.
  intros Hb Hlen. unfold gxfp_parse_mp_frame.
  destruct (Z.ltb_spec buf_len 4) as [H4|H4].
  { eexists _, _. split; [done|]. split; [|done]. split; [done|].
    intros (? & pl & ? & _ & _ & _ & ?). pose proof (zlen_nonneg pl). lia. }
  destruct b as [|f [|l [|h [|k t]]]]; zlens; try lia.
  rewrite !bytes_ok_cons in Hb. destruct Hb as (Hf & Hl & Hh & Hk & Ht).
  destruct (check_mp_head_spec f l h k t 4 0) as (ok & E & Hok); [done..|].
  rewrite E. cbn [mbind option_bind].
  (* decomposing the buffer as a frame determines its head and payload *)
  assert (Hdec : ∀ flags pl rest, f :: l :: h :: k :: t = mp_frame flags pl ++ rest →
      zlen pl < GXFP_GOODIX_MP_LEN_MAX →
      flags = f ∧ [f; l; h; k] = mp_head f (l + 256 * h) ∧ l + 256 * h = zlen pl ∧
      t = pl ++ rest).
  { intros flags pl rest Ef Hm. unfold mp_frame, mp_head in Ef. cbn [app] in Ef.
    injection Ef as -> -> -> -> ->. pose proof (zlen_nonneg pl).
    unfold GXFP_GOODIX_MP_LEN_MAX in *.
    assert (Hd : zlen pl mod 256 + 256 * (zlen pl / 256 mod 256) = zlen pl) by zint.
    rewrite Hd. done. }
  destruct ok; cbn [negb]; cycle 1.
  { eexists _, _. split; [done|]. split; [|done]. split; [done|].
    intros (flags & pl & rest & Ef & Hty & Hm & _).
    destruct (Hdec _ _ _ Ef Hm) as (-> & Hhd & Hll & _). apply Hok.
    rewrite Hll in *. done. }
  destruct (proj1 Hok eq_refl) as (Hty & Hm & Hhd). cbn [mbind option_bind].
  destruct (Z.ltb_spec buf_len (4 + (l + 256 * h))) as [Hs|Hs].
  { eexists _, _. split; [done|]. split; [|done]. split; [done|].
    intros (flags & pl & rest & Ef & _ & Hm' & ?).
    destruct (Hdec _ _ _ Ef Hm') as (_ & _ & Hll & _). lia. }
  change (rd (f :: ?x) 0) with (Some f). cbn [mbind option_bind].
  eexists _, _. split; [done|]. split.
  - split; [|done]. intros _.
    exists f, (ztake (l + 256 * h) t), (zdrop (l + 256 * h) t).
    unfold mp_frame. rewrite zlen_ztake by (unfold is_u8 in *; lia).
    split_and!; [|done|done|lia].
    rewrite <- Hhd. cbn [app]. by rewrite ztake_zdrop.
  - intros flags pl rest _ Ef Hm'. destruct (Hdec _ _ _ Ef Hm') as (-> & _ & Hll & ->).
    eexists. split; [done|]. simpl. done.
Qed.

Lemma mp_parse_exact_witness :
  ∃ f, gxfp_parse_mp_frame (Some (mp_frame 160 [7; 8] ++ [9])) 7 (Some mp_frame_zero)
       = Some (true, Some f) ∧ mp_payload_len f = 2.
Proof.
  destruct (mp_parse_exact (mp_frame 160 [7; 8] ++ [9]) 7 mp_frame_zero)
    as (ok & o' & E & Hiff & Hout).
  - repeat constructor; vm_compute; try discriminate; reflexivity.
  - split; vm_compute; discriminate.
  - destruct (Hout 160 [7; 8] [9]) as (f & -> & _ & _ & Hlen & _).
    + apply Hiff. exists 160, [7; 8], [9]. split; [reflexivity|].
      split; [left; reflexivity|]. split; vm_compute; [reflexivity|discriminate].
    + reflexivity.
    + reflexivity.
    + exists f. split; [|exact Hlen]. rewrite E. f_equal. f_equal. apply Hiff.
      exists 160, [7; 8], [9]. split; [reflexivity|].
      split; [left; reflexivity|]. split; vm_compute; [reflexivity|discriminate].
Defined.

(** C15: round trip, and its limit. Every frame built with a payload shorter than
    0x6c00 bytes is parsed back; at exactly 0x6c00 bytes the builder still
    succeeds and the parser refuses what it built. *)
Theorem mp_build_parse_boundary t pl o cap out :
  mp_type_ok t → bytes_ok pl → zlen pl <= GXFP_GOODIX_MP_LEN_MAX →
  4 + zlen pl <= cap → cap <= zlen o →
  ∃ o', gxfp_mp_build_frame t (Some pl) (zlen pl) (Some o) cap
        = Some (4 + zlen pl, Some o') ∧
    (zlen pl < GXFP_GOODIX_MP_LEN_MAX → ∃ f,
       gxfp_parse_mp_frame (Some o') (4 + zlen pl) (Some out) = Some (true, Some f) ∧
       Z.shiftr (mp_flags f) 4 = t ∧ mp_payload_len f = zlen pl ∧
       (p ← mp_payload f; slice p 0 (mp_payload_len f)) = Some pl) ∧
    (zlen pl = GXFP_GOODIX_MP_LEN_MAX →
       gxfp_parse_mp_frame (Some o') (4 + zlen pl) (Some out) = Some (false, Some mp_frame_zero)).
Proof.
  intros Ht Hpl Hmax Hcap Ho. pose proof (zlen_nonneg pl).
  assert (Hty : Z.shiftr (16 * t) 4 = t) by (by destruct Ht as [->|[->| ->]]).
  assert (Hfl : is_u8 (16 * t)) by (by destruct Ht as [->|[->| ->]]).
  eexists. split; [rewrite <- (app_nil_r pl) at 1; apply mp_build_run; auto with lia|].
  set (rest := zdrop (4 + zlen pl) o). unfold mp_frame, mp_head. cbn [app].
  unfold gxfp_parse_mp_frame. rewrite !(proj2 (Z.ltb_ge (4 + zlen pl) 4)) by lia.
  edestruct (check_mp_head_spec (16 * t) (zlen pl mod 256) (zlen pl / 256 mod 256))
    as (ok & E & Hok); [done|zint|zint| |reflexivity|rewrite E]; [zint|].
  unfold GXFP_GOODIX_MP_LEN_MAX in *.
  assert (Hd : zlen pl mod 256 + 256 * (zlen pl / 256 mod 256) = zlen pl) by zint.
  rewrite Hd in *. cbn [mbind option_bind]. split; intros Hlen.
  - destruct ok; cbn [negb mbind option_bind].
    + rewrite Z.ltb_irrefl. change (rd (?x :: ?y) 0) with (Some x). cbn [mbind option_bind].
      eexists. split; [done|]. cbn [mp_flags mp_payload_len mp_payload].
      split_and!; [done|done|]. cbn [mbind option_bind].
      change (zdrop 4 (?a :: ?b :: ?c :: ?d :: ?e)) with e. by apply slice_prefix.
    + exfalso. enough (false = true) by done. apply Hok. split_and!; [by rewrite Hty|lia|done].
  - destruct ok; [|done]. apply proj1 in Hok. destruct (Hok eq_refl) as (_ & ? & _). lia.
Qed.

Lemma mp_build_parse_boundary_witness :
  ∃ f, gxfp_parse_mp_frame (Some (mp_frame 176 [5] ++ [])) 5 (Some mp_frame_zero)
       = Some (true, Some f) ∧ mp_payload_len f = 1.
Proof.
  destruct (mp_build_parse_boundary GXFP_MP_TYPE_B [5] (zeros 5) 5 mp_frame_zero)
    as (o' & Hb & Hp & _).
  - right; left; reflexivity.
  - repeat constructor; vm_compute; try discriminate; reflexivity.
  - vm_compute; discriminate.
  - vm_compute; discriminate.
  - vm_compute; discriminate.
  - vm_compute in Hb. injection Hb as <-.
    destruct Hp as (f & Hf & _ & Hl & _); [reflexivity|]. exists f. split; [exact Hf|exact Hl].
Defined.
