(* ===== verification/UGoodixProto.v ===== *)
(** The Goodix command body in user space: [userspace/src/proto/goodix_proto.c].

    The library has its own copy of the kernel's codec. The theorem shows that
    the two copies agree on every input, error codes for a too small output
    buffer apart, so the wire-format theorems of [KGoodixProto] hold for both. *)
From Stdlib Require Import ZArith Lia.
From stdpp Require Import prelude list.
From S2P Require Import Prelude.
From S2P Require Import KGoodixProto.

Open Scope Z_scope.

(** * The code *)

(** goodix_constants.h *)
Definition GOODIX_CHECKSUM_SEED : Z := 170.
Definition GOODIX_MP_TYPE_CMD : Z := 10.
Definition GOODIX_MP_TYPE_TLS : Z := 11.
Definition GOODIX_MP_TYPE_NOTICE : Z := 12.
Definition GOODIX_MP_FLAGS_FROM_TYPE (t : Z) : Z := u8 (Z.shiftl (Z.land t 15) 4).
Definition GOODIX_PAYLOAD_MAX : Z := 65280.

Definition gxfp_goodix_proto_checksum (cmd decl_len : Z) (payload : ptr bytes)
    (payload_len : Z) : option Z :=
  let sum0 := u32 (cmd + Z.land decl_len 255 + Z.land (Z.shiftr decl_len 8) 255) in
  sum ← forN (Z.to_nat payload_len) 0 (λ i sum,
          p ← payload;
          v ← rd p i;
          Some (u32 (sum + v))) sum0;
  Some (u8 (GOODIX_CHECKSUM_SEED - u8 sum)).

Definition gxfp_goodix_build_frame (cmd : Z) (payload : ptr bytes) (payload_len : Z)
    (out : ptr bytes) (out_cap : Z) : option (Z * ptr bytes) :=
  match out with
  | None => Some (- EINVAL, out)
  | Some o =>
    if negb (payload_len =? 0) && bool_decide (payload = None) then Some (- EINVAL, out) else
    if GOODIX_PAYLOAD_MAX <? payload_len then Some (- EOVERFLOW, out) else
    let decl_len := u16 (1 + payload_len) in
    let total := 1 + 2 + payload_len + 1 in
    if out_cap <? total then Some (- ENOSPC, out) else
    o ← wr o 0 cmd;
    o ← wr o 1 (u8 (Z.land decl_len 255));
    o ← wr o 2 (u8 (Z.land (Z.shiftr decl_len 8) 255));
    o ← (if negb (payload_len =? 0)
         then p ← payload; memcpy o 3 p 0 payload_len
         else Some o);
    ck ← gxfp_goodix_proto_checksum cmd decl_len payload payload_len;
    o ← wr o (3 + payload_len) ck;
    Some (total, Some o)
  end.

Definition gxfp_parse_goodix_body (buf : ptr bytes) (buf_len : Z)
    (out : ptr gxfp_frame_parsed) : option (bool * ptr gxfp_frame_parsed) :=
  match buf, out with
  | Some b, Some _ =>
    if buf_len <? 4 then Some (false, out) else
    let out := Some frame_zero in
    cmd ← rd b 0;
    b1 ← rd b 1;
    b2 ← rd b 2;
    let decl_len := u16 (Z.lor b1 (Z.shiftl b2 8)) in
    if decl_len <? 1 then Some (false, out) else
    let payload_len := u16 (decl_len - 1) in
    let need := 3 + payload_len + 1 in
    if buf_len <? need then Some (false, out) else
    let payload := Some (zdrop 3 b) in
    proto_ck ← rd b (3 + payload_len);
    ck ← gxfp_goodix_proto_checksum cmd decl_len payload payload_len;
    Some (true, Some {| cmd := cmd; decl_len := decl_len; payload := payload;
                        payload_len := payload_len; proto_checksum := proto_ck;
                        proto_checksum_ok := ck =? proto_ck; valid := true |})
  | _, _ => Some (false, out)
  end.

(** * Lemmas *)

Lemma user_checksum_eq cmd dl pl len :
  gxfp_goodix_proto_checksum cmd dl pl len
  = KGoodixProto.gxfp_goodix_proto_checksum cmd dl pl len.
Proof. done. Qed.

Lemma user_parse_eq buf buf_len out :
  gxfp_parse_goodix_body buf buf_len out
  = KGoodixProto.gxfp_parse_goodix_body buf buf_len out.
Proof. by destruct buf, out. Qed.

Lemma user_build_eq cmd pl len out cap :
  0 <= len → len + 4 <= cap →
  gxfp_goodix_build_frame cmd pl len out cap
  = KGoodixProto.gxfp_goodix_build_frame cmd pl len out cap.
Proof.
  intros Hl Hcap. destruct out as [o|]; [|done].
  unfold gxfp_goodix_build_frame, KGoodixProto.gxfp_goodix_build_frame.
  rewrite !(proj2 (Z.ltb_ge cap _)) by lia. done.
Qed.

Lemma user_build_run cmd pl rest o cap :
  zlen pl <= GOODIX_PAYLOAD_MAX → is_u8 cmd → zlen pl + 4 <= cap <= zlen o →
  gxfp_goodix_build_frame cmd (Some (pl ++ rest)) (zlen pl) (Some o) cap
  = Some (zlen pl + 4, Some (goodix_frame cmd pl ++ zdrop (zlen pl + 4) o)).
Proof.
  intros. rewrite user_build_eq by (try apply zlen_nonneg; lia). by apply build_frame_run.
Qed.

(** * Properties *)

(** C16: the kernel's and the library's codecs are interchangeable. They parse
    every buffer alike, they build every frame alike, and when the output buffer
    is too small for the payload both refuse: the library with -ENOSPC where the
    kernel says -EINVAL or -EMSGSIZE. *)
Theorem codecs_agree c pl len o cap buf buf_len out :
  pl ≠ None → 0 <= len <= GOODIX_PAYLOAD_MAX →
  gxfp_parse_goodix_body buf buf_len out
    = KGoodixProto.gxfp_parse_goodix_body buf buf_len out ∧
  (len + 4 <= cap →
    gxfp_goodix_build_frame c pl len (Some o) cap
    = KGoodixProto.gxfp_goodix_build_frame c pl len (Some o) cap) ∧
  (cap < len + 4 →
    gxfp_goodix_build_frame c pl len (Some o) cap = Some (- ENOSPC, Some o) ∧
    KGoodixProto.gxfp_goodix_build_frame c pl len (Some o) cap
    = Some (if cap <? 4 then - EINVAL else - EMSGSIZE, Some o)).
Proof.
  intros Hp Hlen. split_and!.
  - apply user_parse_eq.
  - intros. apply user_build_eq; lia.
  - intros Hcap. destruct (build_frame_errors c pl len o cap) as (E1 & _ & _ & E4).
    split.
    + unfold gxfp_goodix_build_frame. rewrite (bool_decide_eq_false_2 _ Hp), andb_false_r.
      rewrite (proj2 (Z.ltb_ge _ len)) by lia. by rewrite (proj2 (Z.ltb_lt cap _)) by lia.
    + destruct (Z.ltb_spec cap 4); [by apply E1|apply E4; [lia|done|apply Hlen|lia]].
Qed.

Lemma codecs_agree_witness :
  gxfp_goodix_build_frame 1 (Some [5]) 1 (Some [0; 0]) 2 = Some (- ENOSPC, Some [0; 0]).
Proof.
  apply (codecs_agree 1 (Some [5]) 1 [0; 0] 2 None 0 None).
  - discriminate.
  - split; vm_compute; discriminate.
  - reflexivity.
Defined.
