(* ===== verification/KWorld.v ===== *)
(** The world the kernel driver acts on, and its hardware accessors:
    [kernel/include/gxfp_priv.h], [kernel/include/gxfp_constants.h],
    [kernel/hw/gxfp_delay.c], [kernel/hw/gxfp_gpio.c], [kernel/hw/gxfp_mmio.c].

    The state is the device structure, the trace of everything the driver has
    done to the hardware so far, and a schedule of allocation failures. The
    sensor is the class [Kenv]: what the mailbox window shows is a function of
    the trace, so a sensor may answer writes, GPIO edges and delays as it likes. *)
From Stdlib Require Import ZArith Lia.
From stdpp Require Import prelude list.
From S2P Require Import Prelude.

Open Scope Z_scope.

(** * Constants (gxfp_constants.h) *)

Definition GXFP_MAILBOX_MIN_SIZE : Z := 4096. (* 0x1000 *)
Definition GXFP_READ_CHUNK_MAX : Z := 3584. (* 0xe00 *)
Definition GXFP_TX_BUFFER_SIZE : Z := 512. (* 0x200 *)
Definition GXFP_DEFAULT_RETRY_COUNT : Z := 8.
Definition GXFP_DEFAULT_TIMEOUT_US : Z := 15000.
Definition GXFP_RESET_DELAY_US : Z := 200000.
Definition GXFP_FRAME_ALIGNMENT : Z := 8.
Definition GXFP_ESPI_WRAPPER_MAGIC : Z := 240. (* 0xF0 *)
Definition GXFP_ESPI_SEQ16_INIT : Z := 34945. (* 0x8881 *)
Definition GXFP_MAX_VERSION_RAW : Z := 512.
Definition GXFP_MAX_VERSION_ASCII : Z := 32.
Definition GXFP_MAX_MCU_STATE_PAYLOAD : Z := 256.

(** * The device (struct gxfp_dev, its hw and irq members) *)

(** [mailbox_mmio]: the offset of the mapped window, NULL when not mapped. *)
Record gxfp_hw := {
  mailbox_mmio : ptr Z;
  mailbox_size : Z;
  gpio_write_done : bool;
  gpio_read_done : bool;
  gpio_irq : bool;
  irq : Z
}.

Record gxfp_irq := {
  rx_buf : ptr bytes;
  rx_cap : Z;
  rx_tmp : ptr bytes;
  assem_active : bool;
  assem_total : Z;
  assem_copied : Z
}.

Record gxfp_dev := {
  mailbox_seq16 : Z;
  dev_hw : gxfp_hw;
  dev_irq : gxfp_irq
}.

(** * The world *)

Inductive gpio_line := WRITE_DONE | READ_DONE.

Inductive event :=
| EvWriteq (off v : Z)
| EvWmb
| EvRmb
| EvGpio (g : gpio_line) (v : Z)
| EvUdelay (us : Z)
| EvUsleep (lo hi : Z)
| EvMsleep (ms : Z).

Record kworld := {
  w_dev : ptr gxfp_dev;
  w_trace : list event;
  w_oom : list bool
}.

(** What is outside the driver: the bytes the mailbox shows, the contents of
    fresh memory, and the two clocks the driver reads (realtime as seconds and
    nanoseconds, monotonic as nanoseconds). *)
Class Kenv := {
  mailbox_at : list event → bytes;
  uninit : list event → Z → bytes;
  ktime_real : list event → Z * Z;
  ktime_ns : list event → Z
}.

(** The window has the size the ACPI resource declares, memory holds bytes. *)
Class KenvOk (E : Kenv) (size : Z) := {
  mailbox_len : ∀ tr, zlen (mailbox_at tr) = size;
  mailbox_bytes : ∀ tr, bytes_ok (mailbox_at tr);
  uninit_len : ∀ tr n, 0 <= n → zlen (uninit tr n) = n;
  uninit_bytes : ∀ tr n, bytes_ok (uninit tr n)
}.

(** * Setters *)

Definition set_irq (i : gxfp_irq) (d : gxfp_dev) : gxfp_dev :=
  {| mailbox_seq16 := mailbox_seq16 d; dev_hw := dev_hw d; dev_irq := i |}.
Definition set_seq16 (s : Z) (d : gxfp_dev) : gxfp_dev :=
  {| mailbox_seq16 := s; dev_hw := dev_hw d; dev_irq := dev_irq d |}.
Definition set_rx_buf (b : ptr bytes) (i : gxfp_irq) : gxfp_irq :=
  {| rx_buf := b; rx_cap := rx_cap i; rx_tmp := rx_tmp i; assem_active := assem_active i;
     assem_total := assem_total i; assem_copied := assem_copied i |}.
Definition set_rx_tmp (b : ptr bytes) (i : gxfp_irq) : gxfp_irq :=
  {| rx_buf := rx_buf i; rx_cap := rx_cap i; rx_tmp := b; assem_active := assem_active i;
     assem_total := assem_total i; assem_copied := assem_copied i |}.
Definition set_assem (a : bool) (t c : Z) (i : gxfp_irq) : gxfp_irq :=
  {| rx_buf := rx_buf i; rx_cap := rx_cap i; rx_tmp := rx_tmp i; assem_active := a;
     assem_total := t; assem_copied := c |}.

(** * Primitive actions *)

Section actions.
Context {E : Kenv}.

Definition emit (e : event) : M kworld () := modw (λ w,
  {| w_dev := w_dev w; w_trace := w_trace w ++ [e]; w_oom := w_oom w |}).

(** [gdev == NULL] *)
Definition gdev_null : M kworld bool := gets (λ w, bool_decide (w_dev w = None)).

(** [gdev->...]: undefined when [gdev] is NULL. *)
Definition gdev : M kworld gxfp_dev := w ← getw; lift (w_dev w).

Definition mod_gdev (f : gxfp_dev → gxfp_dev) : M kworld () :=
  d ← gdev;
  modw (λ w, {| w_dev := Some (f d); w_trace := w_trace w; w_oom := w_oom w |}).

(** [kmalloc]: fails when the schedule says so; the memory is not cleared. *)
Definition kmalloc (n : Z) : M kworld (ptr bytes) := λ w,
  let w' := {| w_dev := w_dev w; w_trace := w_trace w; w_oom := tail (w_oom w) |} in
  match w_oom w with
  | true :: _ => Some (None, w')
  | _ => Some (Some (uninit (w_trace w) n), w')
  end.

(** An array on the stack with no initialiser. *)
Definition stack_array (n : Z) : M kworld bytes := gets (λ w, uninit (w_trace w) n).

Definition readq (addr : Z) : M kworld Z :=
  w ← getw;
  b ← lift (slice (mailbox_at (w_trace w)) addr 8);
  mret (le_dec b).
End actions.

Definition writeq (v addr : Z) : M kworld () := emit (EvWriteq addr v).

(** GPIO descriptors may be NULL: gpiod_set_value_cansleep then does nothing. *)
Definition gpiod_set_value_cansleep (g : gpio_line) (desc : bool) (v : Z) : M kworld () :=
  when desc (emit (EvGpio g v)).

(** * hw/gxfp_delay.c *)

Definition gxfp_busy_wait_us (us : Z) : M kworld () :=
  if us =? 0 then mret () else
  if us <=? 2000 then emit (EvUdelay us) else
  emit (EvUsleep us (us + 200)).

(** * hw/gxfp_gpio.c *)

Definition GXFP_GPIO_PULSE_HIGH_US : Z := 4000.
Definition GXFP_GPIO_READ_DONE_CLEAR_DELAY_US : Z := 200.
Definition GXFP_GPIO_READ_DONE_HIGH_US : Z := 50.
Definition GXFP_GPIO_WRITE_DONE_FORCE_DEASSERT : bool := true.
Definition GXFP_GPIO_WRITE_DONE_PRE_US : Z := 50.

Definition gxfp_gpio_pulse_delay_us (us : Z) : M kworld () :=
  when (negb (us =? 0)) (gxfp_busy_wait_us us).

Definition gxfp_gpio_pulse_write_done : M kworld () :=
  n ← gdev_null;
  when (GXFP_GPIO_WRITE_DONE_FORCE_DEASSERT && negb n)
    (d ← gdev;
     when (gpio_write_done (dev_hw d))
       (gpiod_set_value_cansleep WRITE_DONE (gpio_write_done (dev_hw d)) 0;;
        gxfp_gpio_pulse_delay_us GXFP_GPIO_WRITE_DONE_PRE_US));;
  d ← gdev;
  gpiod_set_value_cansleep WRITE_DONE (gpio_write_done (dev_hw d)) 1;;
  gxfp_gpio_pulse_delay_us GXFP_GPIO_PULSE_HIGH_US;;
  gpiod_set_value_cansleep WRITE_DONE (gpio_write_done (dev_hw d)) 0;;
  gxfp_gpio_pulse_delay_us GXFP_GPIO_READ_DONE_CLEAR_DELAY_US.

Definition gxfp_gpio_set_read_done (value : Z) : M kworld () :=
  n ← gdev_null;
  if (n : bool) then mret () else
  d ← gdev;
  if negb (gpio_read_done (dev_hw d)) then mret () else
  gpiod_set_value_cansleep READ_DONE (gpio_read_done (dev_hw d))
    (if negb (value =? 0) then 1 else 0);;
  when (value =? 0) (gxfp_gpio_pulse_delay_us GXFP_GPIO_READ_DONE_CLEAR_DELAY_US).

Definition gxfp_gpio_pulse_read_done : M kworld () :=
  gxfp_gpio_set_read_done 1;;
  gxfp_gpio_pulse_delay_us GXFP_GPIO_READ_DONE_HIGH_US;;
  gxfp_gpio_set_read_done 0.

Definition gxfp_gpio_force_done_deassert (dev : bool) : M kworld () :=
  n ← gdev_null;
  if negb dev || n then mret () else
  d ← gdev;
  if negb (gpio_write_done (dev_hw d)) || negb (gpio_read_done (dev_hw d)) then mret () else
  gpiod_set_value_cansleep WRITE_DONE (gpio_write_done (dev_hw d)) 0;;
  gpiod_set_value_cansleep READ_DONE (gpio_read_done (dev_hw d)) 0.

(** * hw/gxfp_mmio.c *)

Definition gxfp_mmio_write_qword_aligned (mmio : ptr Z) (buf : ptr bytes) (len : Z)
    : M kworld Z :=
  match mmio, buf with
  | Some base, Some b =>
    if negb (len mod 8 =? 0) then mret (- EINVAL) else
    let qwords := len / 8 in
    forN (Z.to_nat qwords) 0 (λ i _,
      v ← lift (slice b (i * 8) 8);
      writeq (le_dec v) (base + i * 8)) ();;
    emit EvWmb;;
    mret 0
  | _, _ => mret (- EINVAL)
  end.

Definition gxfp_mmio_read_qword_aligned {E : Kenv} (buf : ptr bytes) (mmio : ptr Z) (len : Z)
    : M kworld (Z * ptr bytes) :=
  match mmio, buf with
  | Some base, Some b =>
    if negb (len mod 8 =? 0) then mret (- EINVAL, buf) else
    let qwords := len / 8 in
    b ← forN (Z.to_nat qwords) 0 (λ i b,
          v ← readq (base + i * 8);
          lift (blit b (i * 8) (le_enc 8 v))) b;
    emit EvRmb;;
    mret (0, Some b)
  | _, _ => mret (- EINVAL, buf)
  end.


(** * What the actions do *)

(** The world after the actions [evs]. *)
Definition push (evs : list event) (w : kworld) : kworld :=
  {| w_dev := w_dev w; w_trace := w_trace w ++ evs; w_oom := w_oom w |}.

(** The contents of the window memory after the actions of a trace. *)
Fixpoint mem_after (tr : list event) (m : bytes) : option bytes :=
  match tr with
  | [] => Some m
  | EvWriteq off v :: tr => m' ← blit m off (le_enc 8 v); mem_after tr m'
  | _ :: tr => mem_after tr m
  end.

(** The trace with the actions that cannot change what the sensor sees removed. *)
Definition gpio_edges (g : gpio_line) (tr : list event) : list Z :=
  omap (λ e, match e with
             | EvGpio g' v => match g, g' with
                              | WRITE_DONE, WRITE_DONE | READ_DONE, READ_DONE => Some v
                              | _, _ => None
                              end
             | _ => None
             end) tr.

(** The 64-bit writes that send [b] from offset [off] on. *)
Fixpoint qwrites (n : nat) (off : Z) (b : bytes) : list event :=
  match n with
  | O => []
  | S n => EvWriteq off (le_dec (ztake 8 b)) :: qwrites n (off + 8) (zdrop 8 b)
  end.

Lemma push_nil w : push [] w = w.
Proof. destruct w. unfold push; simpl. by rewrite app_nil_r. Qed.

Lemma push_push a b w : push b (push a w) = push (a ++ b) w.
Proof. unfold push; simpl. by rewrite <- app_assoc. Qed.

Lemma emit_run e w : emit e w = Some ((), push [e] w).
Proof. done. Qed.

(** Run the actions at the head of the computation. *)
Ltac msimp :=
  repeat (cbn -[push mailbox_at];
          first [rewrite (run_bind _ _ _ _ _ (emit_run _ _)) | rewrite emit_run
                | rewrite bind_assoc | rewrite bind_ret | rewrite ret_run
                | rewrite bind_lift | rewrite bind_getw | rewrite bind_gets]);
  rewrite ?push_push; cbn -[push mailbox_at].

Lemma gdev_null_run w d : w_dev w = Some d → gdev_null w = Some (false, w).
Proof. intros Hd. unfold gdev_null, gets. by rewrite Hd. Qed.

Lemma gdev_run w d : w_dev w = Some d → gdev w = Some (d, w).
Proof. intros Hd. unfold gdev, mbind, M_bind, getw, lift. by rewrite Hd. Qed.

(** The world with another device structure. *)
Definition set_dev (d : gxfp_dev) (w : kworld) : kworld :=
  {| w_dev := Some d; w_trace := w_trace w; w_oom := w_oom w |}.

(** The world after an allocation. *)
Definition pop_oom (w : kworld) : kworld :=
  {| w_dev := w_dev w; w_trace := w_trace w; w_oom := tail (w_oom w) |}.

Lemma kmalloc_run {E : Kenv} n w :
  kmalloc n w = Some (match w_oom w with
                      | true :: _ => None
                      | _ => Some (uninit (w_trace w) n)
                      end, pop_oom w).
Proof. unfold kmalloc, pop_oom. destruct (w_oom w) as [|[] l]; reflexivity. Qed.

Lemma set_dev_set_dev d d' w : set_dev d (set_dev d' w) = set_dev d w.
Proof. done. Qed.

Lemma push_set_dev d evs w : push evs (set_dev d w) = set_dev d (push evs w).
Proof. done. Qed.

Lemma mod_gdev_run f w d : w_dev w = Some d → mod_gdev f w = Some ((), set_dev (f d) w).
Proof. intros Hd. unfold mod_gdev. mstep (gdev_run w d Hd). done. Qed.

(** The events of each GPIO operation, as the descriptors allow. *)
Definition write_done_events (desc : bool) : list event :=
  if desc then
    [EvGpio WRITE_DONE 0; EvUdelay 50; EvGpio WRITE_DONE 1; EvUsleep 4000 4200;
     EvGpio WRITE_DONE 0; EvUdelay 200]
  else [EvUsleep 4000 4200; EvUdelay 200].

Definition set_read_done_events (desc : bool) (v : Z) : list event :=
  if desc then
    if v =? 0 then [EvGpio READ_DONE 0; EvUdelay 200] else [EvGpio READ_DONE 1]
  else [].

Definition read_done_events (desc : bool) : list event :=
  set_read_done_events desc 1 ++ EvUdelay 50 :: set_read_done_events desc 0.

Lemma pulse_write_done_run w d :
  w_dev w = Some d →
  gxfp_gpio_pulse_write_done w
  = Some ((), push (write_done_events (gpio_write_done (dev_hw d))) w).
Proof.
  intros Hd. unfold gxfp_gpio_pulse_write_done.
  mstep (gdev_null_run w d Hd). unfold GXFP_GPIO_WRITE_DONE_FORCE_DEASSERT. cbn [negb andb when].
  destruct (gpio_write_done (dev_hw d)) eqn:Hg.
  - erewrite run_bind; last first.
    { mstep (gdev_run w d Hd). rewrite Hg. msimp. reflexivity. }
    mstep (gdev_run (push [EvGpio WRITE_DONE 0; EvUdelay 50] w) d Hd). rewrite Hg.
    msimp. reflexivity.
  - erewrite run_bind; last first.
    { mstep (gdev_run w d Hd). rewrite Hg. msimp. reflexivity. }
    mstep (gdev_run w d Hd). rewrite Hg. msimp. reflexivity.
Qed.

Lemma set_read_done_run v w d :
  w_dev w = Some d →
  gxfp_gpio_set_read_done v w
  = Some ((), push (set_read_done_events (gpio_read_done (dev_hw d)) v) w).
Proof.
  intros Hd. unfold gxfp_gpio_set_read_done, set_read_done_events.
  mstep (gdev_null_run w d Hd). cbn [negb].
  mstep (gdev_run w d Hd).
  destruct (gpio_read_done (dev_hw d)) eqn:Hg; cbn [negb]; [|by rewrite push_nil].
  destruct (v =? 0); msimp; done.
Qed.

Lemma pulse_read_done_run w d :
  w_dev w = Some d →
  gxfp_gpio_pulse_read_done w
  = Some ((), push (read_done_events (gpio_read_done (dev_hw d))) w).
Proof.
  intros Hd. unfold gxfp_gpio_pulse_read_done, read_done_events.
  mstep (set_read_done_run 1 w d Hd).
  rewrite (run_bind _ _ _ () (push [EvUdelay 50]
    (push (set_read_done_events (gpio_read_done (dev_hw d)) 1) w))) by done.
  rewrite (set_read_done_run 0 _ d) by done.
  by rewrite !push_push.
Qed.

(** Writing the window sends the buffer as consecutive 64-bit words. *)
Lemma forN_write_run base b n k w :
  0 <= k → (k + Z.of_nat n) * 8 <= zlen b →
  forN n k (λ i _, v ← lift (slice b (i * 8) 8); writeq (le_dec v) (base + i * 8)) () w
  = Some ((), push (qwrites n (base + k * 8) (zdrop (k * 8) b)) w).
Proof.
  revert k w. induction n as [|n IH]; intros k w Hk Hb; cbn [forN qwrites].
  - by rewrite push_nil.
  - rewrite slice_Some by lia. unfold writeq. msimp. rewrite IH by lia. rewrite push_push. cbn [app]. do 3 f_equal.
    rewrite zdrop_zdrop by lia.
    by replace ((k + 1) * 8) with (k * 8 + 8) by lia; rewrite Z.add_assoc.
Qed.

Lemma mmio_write_run base b w :
  zlen b mod 8 = 0 →
  gxfp_mmio_write_qword_aligned (Some base) (Some b) (zlen b) w
  = Some (0, push (qwrites (Z.to_nat (zlen b / 8)) base b ++ [EvWmb]) w).
Proof.
  intros Hm. pose proof (zlen_nonneg b). unfold gxfp_mmio_write_qword_aligned.
  rewrite Hm. cbn [negb Z.eqb]. cbv zeta.
  erewrite run_bind by (apply forN_write_run; [lia|]; rewrite Z2Nat.id; zdm).
  replace (base + 0 * 8) with base by lia. rewrite zdrop_0.
  msimp. done.
Qed.

(** Those words, as memory, are the buffer. *)
Lemma qwrites_mem n off b p m q :
  bytes_ok b → zlen b = Z.of_nat n * 8 → zlen p = off → zlen m = zlen b →
  mem_after (qwrites n off b) (p ++ m ++ q) = Some (p ++ b ++ q).
Proof.
  revert off b p m. induction n as [|n IH]; intros off b p m Hb Hl Hp Hm; cbn [qwrites mem_after].
  - rewrite (zlen_0 b), (zlen_0 m) by lia. done.
  - rewrite <- (ztake_zdrop 8 m).
    assert (zlen (ztake 8 m) = 8) by (apply zlen_ztake; lia).
    assert (zlen (ztake 8 b) = 8) by (apply zlen_ztake; lia).
    rewrite le_enc_dec by (auto using bytes_ok_ztake; unfold zlen in *; lia).
    rewrite <- (app_assoc (ztake 8 m)).
    rewrite (blit_app p (ztake 8 m)) by lia. cbn [mbind option_bind].
    rewrite app_assoc. rewrite IH.
    + rewrite <- app_assoc. by rewrite (app_assoc (ztake 8 b)), ztake_zdrop.
    + auto with gxfp.
    + rewrite zlen_zdrop; lia.
    + rewrite zlen_app. lia.
    + rewrite !zlen_zdrop; lia.
Qed.

Lemma mem_after_app a b m : mem_after (a ++ b) m = mem_after a m ≫= mem_after b.
Proof.
  revert m. induction a as [|[off v| | | | | |] a IH]; intros m; cbn [mem_after app]; auto.
  by destruct (blit m off (le_enc 8 v)); cbn [mbind option_bind].
Qed.

Section window.
Context {E : Kenv} {size : Z} {EO : KenvOk E size}.

(** Reading the window copies it into the front of the buffer. *)
Lemma forN_read_run base n k (b : bytes) w win :
  mailbox_at (w_trace w) = win →
  0 <= base → 0 <= k → base + (k + Z.of_nat n) * 8 <= size →
  (k + Z.of_nat n) * 8 <= zlen b →
  forN n k (λ i b, v ← readq (base + i * 8); lift (blit b (i * 8) (le_enc 8 v))) b w
  = Some (ztake (k * 8) b ++ ztake (Z.of_nat n * 8) (zdrop (base + k * 8) win)
            ++ zdrop ((k + Z.of_nat n) * 8) b, w).
Proof.
  intros Hw Hbase. revert k b. induction n as [|n IH]; intros k b Hk Hs Hb; cbn [forN].
  - replace ((k + Z.of_nat 0) * 8) with (k * 8) by lia.
    rewrite ztake_0. cbn [app]. by rewrite ztake_zdrop.
  - pose proof (mailbox_len (w_trace w)) as Hlen. pose proof (mailbox_bytes (w_trace w)) as Hok.
    rewrite Hw in Hlen, Hok.
    assert (zlen (ztake 8 (zdrop (base + k * 8) win)) = 8) as H8
      by (apply zlen_ztake; rewrite zlen_zdrop; lia).
    erewrite run_bind; last first.
    { unfold readq. rewrite bind_assoc, bind_getw, Hw, slice_Some by lia.
      rewrite bind_assoc, bind_lift, bind_ret.
      rewrite le_enc_dec by (auto with gxfp; unfold zlen in *; lia).
      rewrite blit_Some by (rewrite ?H8; lia). reflexivity. }
    rewrite H8.
    assert (zlen (ztake (k * 8) b) = k * 8) by (apply zlen_ztake; lia).
    rewrite IH; [|lia|lia|rewrite !zlen_app, zlen_zdrop; lia].
    do 2 f_equal. replace ((k + 1) * 8) with (k * 8 + 8) by lia.
    rewrite (app_assoc (ztake (k * 8) b) (ztake 8 _)).
    rewrite (ztake_app _ (ztake (k * 8) b ++ _)) by (rewrite zlen_app; lia).
    rewrite <- !app_assoc. f_equal.
    replace (Z.of_nat (S n) * 8) with (8 + Z.of_nat n * 8) by lia.
    rewrite ztake_add by lia. rewrite <- app_assoc. f_equal.
    rewrite zdrop_zdrop by lia. replace (base + k * 8 + 8) with (base + (k * 8 + 8)) by lia.
    f_equal. replace ((k + 1 + Z.of_nat n) * 8) with (k * 8 + 8 + Z.of_nat n * 8) by lia.
    rewrite <- (zdrop_zdrop (Z.of_nat n * 8) (k * 8 + 8)) by lia.
    rewrite (app_assoc _ _ (zdrop _ b)), zdrop_app by (rewrite zlen_app; lia).
    rewrite zdrop_zdrop by lia. f_equal. lia.
Qed.

Lemma mmio_read_run b base len w :
  len mod 8 = 0 → 0 <= len <= zlen b → 0 <= base → base + len <= size →
  gxfp_mmio_read_qword_aligned (Some b) (Some base) len w
  = Some ((0, Some (ztake len (zdrop base (mailbox_at (w_trace w))) ++ zdrop len b)),
          push [EvRmb] w).
Proof.
  intros Hm Hl Hb Hs. unfold gxfp_mmio_read_qword_aligned.
  rewrite Hm. cbn [negb Z.eqb]. cbv zeta.
  erewrite run_bind by (apply forN_read_run; [done|lia|lia| |]; rewrite Z2Nat.id; zdm).
  rewrite Z2Nat.id by zdm. replace (base + 0 * 8) with base by lia.
  replace ((0 + len / 8) * 8) with len by zdm. replace (len / 8 * 8) with len by zdm.
  change (ztake (0 * 8) b) with (@nil Z). cbn [app]. done.
Qed.
End window.
