(* ===== verification/KEspi.v ===== *)
(** The eSPI mailbox transport: [kernel/transport/gxfp_espi_common.c],
    [gxfp_espi_tx.c], [gxfp_espi_rx_irq.c] and [gxfp_espi_rx_sync.c].

    Packets to the sensor are wrapped in an 8-byte header and written to the
    window in 64-bit words; packets from the sensor are read in windows of
    0xe00 bytes, one READ_DONE pulse apart, and reassembled. *)
From Stdlib Require Import ZArith Lia.
From stdpp Require Import prelude list.
From S2P Require Import Prelude KMpProto KWorld.

Open Scope Z_scope.

(** * The code *)

Definition GXFP_ESPI_RX_OFF : Z := 512. (* 0x200 *)
Definition GXFP_ESPI_CHUNK_MAX : Z := GXFP_READ_CHUNK_MAX.
Definition GXFP_ESPI_ALIGN : Z := GXFP_FRAME_ALIGNMENT.

(** [gdev->hw.mailbox_mmio + off]; adding to NULL is undefined. *)
Definition mmio_plus (base : ptr Z) (off : Z) : option Z := b ← base; Some (b + off).

Definition gxfp_espi_irq_assem_reset : M kworld () :=
  mod_gdev (λ d, set_irq (set_assem false 0 0 (dev_irq d)) d).

(** Chunk, padding and (where asked for) the length read. *)
Definition gxfp_espi_rx_chunk_calc (remain : Z) (do_read : ptr Z) : Z * Z * ptr Z :=
  let chunk := remain `min` GXFP_ESPI_CHUNK_MAX in
  let pad := Z.land (GXFP_ESPI_ALIGN - Z.land chunk (GXFP_ESPI_ALIGN - 1))
                    (GXFP_ESPI_ALIGN - 1) in
  (chunk, pad, setp do_read (chunk + pad)).

Section rx.
Context {E : Kenv}.

Definition gxfp_espi_rx_read_window (dst : ptr bytes) : M kworld (Z * ptr bytes) :=
  d ← gdev;
  addr ← lift (mmio_plus (mailbox_mmio (dev_hw d)) GXFP_ESPI_RX_OFF);
  '(ret, dst) ← gxfp_mmio_read_qword_aligned dst (Some addr) GXFP_ESPI_CHUNK_MAX;
  if negb (ret =? 0) then mret (- EIO, dst) else mret (0, dst).

Definition gxfp_espi_rx_start_packet (rx_buf : ptr bytes) (rx_cap : Z) (validate_head : bool)
    (out_total out_first_chunk : ptr Z) : M kworld (Z * ptr bytes * ptr Z * ptr Z) :=
  '(ret, rx_buf) ← gxfp_espi_rx_read_window rx_buf;
  if negb (ret =? 0) then mret (ret, rx_buf, out_total, out_first_chunk) else
  '(bad, mp_len) ← (
    if validate_head then
      '(ok, l) ← lift (gxfp_check_mp_head rx_buf 4 (Some 0));
      l ← lift l;
      mret (negb ok, l)
    else
      b ← lift rx_buf;
      b1 ← lift (rd b 1);
      b2 ← lift (rd b 2);
      mret (false, u16 (Z.lor b1 (Z.shiftl b2 8))));
  if (bad : bool) then mret (- EBADMSG, rx_buf, out_total, out_first_chunk) else
  let total := 4 + mp_len in
  if (total =? 0) || (rx_cap <? total)
  then mret (- EMSGSIZE, rx_buf, out_total, out_first_chunk) else
  mret (0, rx_buf, setp out_total total,
        setp out_first_chunk (total `min` GXFP_ESPI_CHUNK_MAX)).

(** The first window of a packet ([irq_read_step] with no assembly under way). *)
Definition irq_read_first (rx_buf : ptr bytes) (rx_cap : Z) (out_rx_len : ptr Z)
    (complete : ptr bool) : M kworld (Z * ptr bytes * ptr Z * ptr bool) :=
  '(ret, rx_buf, total, first_chunk) ←
    gxfp_espi_rx_start_packet rx_buf rx_cap true (Some 0) (Some 0);
  if negb (ret =? 0) then
    gxfp_espi_irq_assem_reset;;
    mret (ret, rx_buf, out_rx_len, complete)
  else
  total ← lift total;
  first_chunk ← lift first_chunk;
  mod_gdev (λ d, set_irq (set_assem true total first_chunk (dev_irq d)) d);;
  d ← gdev;
  let copied := assem_copied (dev_irq d) in
  if total <=? copied then
    gxfp_gpio_set_read_done 1;;
    gxfp_espi_irq_assem_reset;;
    mret (0, rx_buf, setp out_rx_len total, setp complete true)
  else
  gxfp_gpio_pulse_read_done;;
  mret (0, rx_buf, setp out_rx_len copied, complete).

(** A further window of the packet being assembled. *)
Definition irq_read_next (rx_buf : ptr bytes) (rx_cap : Z) (out_rx_len : ptr Z)
    (complete : ptr bool) : M kworld (Z * ptr bytes * ptr Z * ptr bool) :=
  d ← gdev;
  let total := assem_total (dev_irq d) in
  let copied := assem_copied (dev_irq d) in
  if (total =? 0) || (copied =? 0) || (rx_cap <? copied) then
    gxfp_espi_irq_assem_reset;;
    mret (- EINVAL, rx_buf, out_rx_len, complete)
  else
  let remain := if copied <? total then total - copied else 0 in
  let tmp := rx_tmp (dev_irq d) in
  let '(chunk, pad, _) := gxfp_espi_rx_chunk_calc remain None in
  if chunk =? 0 then
    gxfp_espi_irq_assem_reset;;
    mret (0, rx_buf, setp out_rx_len total, setp complete true)
  else
  if rx_cap <? copied + chunk then
    gxfp_espi_irq_assem_reset;;
    mret (- EMSGSIZE, rx_buf, out_rx_len, complete)
  else
  if bool_decide (tmp = None) then
    gxfp_espi_irq_assem_reset;;
    mret (- ENODEV, rx_buf, out_rx_len, complete)
  else
  '(ret, tmp) ← gxfp_espi_rx_read_window tmp;
  mod_gdev (λ d, set_irq (set_rx_tmp tmp (dev_irq d)) d);;
  if negb (ret =? 0) then
    gxfp_espi_irq_assem_reset;;
    mret (ret, rx_buf, out_rx_len, complete)
  else
  b ← lift rx_buf;
  t ← lift tmp;
  b ← lift (memcpy b copied t 0 chunk);
  let rx_buf := Some b in
  let copied := copied + chunk in
  mod_gdev (λ d, set_irq (set_assem (assem_active (dev_irq d)) (assem_total (dev_irq d))
                            copied (dev_irq d)) d);;
  if copied <? total then
    gxfp_gpio_pulse_read_done;;
    mret (0, rx_buf, setp out_rx_len copied, complete)
  else
  gxfp_gpio_set_read_done 1;;
  gxfp_espi_irq_assem_reset;;
  mret (0, rx_buf, setp out_rx_len total, setp complete true).

Definition gxfp_espi_irq_read_step (rx_buf : ptr bytes) (rx_cap : Z) (out_rx_len : ptr Z)
    (complete : ptr bool) : M kworld (Z * ptr bytes * ptr Z * ptr bool) :=
  let complete := setp complete false in
  let out_rx_len := setp out_rx_len 0 in
  n ← gdev_null;
  if n || bool_decide (rx_buf = None) || (rx_cap <? GXFP_ESPI_CHUNK_MAX)
  then mret (- EINVAL, rx_buf, out_rx_len, complete) else
  d ← gdev;
  if bool_decide (mailbox_mmio (dev_hw d) = None)
  then mret (- ENODEV, rx_buf, out_rx_len, complete) else
  if mailbox_size (dev_hw d) <? GXFP_ESPI_RX_OFF + GXFP_ESPI_CHUNK_MAX
  then mret (- ENODEV, rx_buf, out_rx_len, complete) else
  if negb (assem_active (dev_irq d))
  then irq_read_first rx_buf rx_cap out_rx_len complete
  else irq_read_next rx_buf rx_cap out_rx_len complete.

(** The loop of [gxfp_espi_read_assemble]; [fuel] bounds its iterations. *)
Fixpoint read_assemble_loop (fuel : nat) (dst : bytes) (dst_cap total off : Z)
    : M kworld (Z * bytes) :=
  if negb (off <? total) then mret (0, dst) else
  match fuel with
  | O => ub
  | S fuel =>
    let remain := total - off in
    d ← gdev;
    let tmp := rx_tmp (dev_irq d) in
    let '(chunk, pad, _) := gxfp_espi_rx_chunk_calc remain None in
    if bool_decide (tmp = None) then mret (- ENODEV, dst) else
    if dst_cap <? off + chunk then mret (- EMSGSIZE, dst) else
    '(ret, tmp) ← gxfp_espi_rx_read_window tmp;
    mod_gdev (λ d, set_irq (set_rx_tmp tmp (dev_irq d)) d);;
    if negb (ret =? 0) then mret (ret, dst) else
    t ← lift tmp;
    dst ← lift (memcpy dst off t 0 chunk);
    let off := off + chunk in
    when (off <? total)
      (gxfp_gpio_pulse_read_done;;
       gxfp_busy_wait_us GXFP_DEFAULT_TIMEOUT_US);;
    read_assemble_loop fuel dst dst_cap total off
  end.

Definition gxfp_espi_read_assemble (dst : ptr bytes) (dst_cap : Z) (out_len : ptr Z)
    : M kworld (Z * ptr bytes * ptr Z) :=
  n ← gdev_null;
  if n || bool_decide (dst = None) || (dst_cap <? GXFP_ESPI_CHUNK_MAX)
  then mret (- EINVAL, dst, out_len) else
  d ← gdev;
  if bool_decide (mailbox_mmio (dev_hw d) = None) then mret (- ENODEV, dst, out_len) else
  if mailbox_size (dev_hw d) <? GXFP_ESPI_RX_OFF + GXFP_ESPI_CHUNK_MAX
  then mret (- ENODEV, dst, out_len) else
  b ← lift dst;
  b ← lift (memset0 b dst_cap);
  '(ret, dst, total, first_chunk) ←
    gxfp_espi_rx_start_packet (Some b) dst_cap false (Some 0) (Some 0);
  if negb (ret =? 0) then mret (ret, dst, out_len) else
  b ← lift dst;
  total ← lift total;
  off ← lift first_chunk;
  '(ret, b) ← read_assemble_loop (Z.to_nat total) b dst_cap total off;
  if negb (ret =? 0) then mret (ret, Some b, out_len) else
  gxfp_gpio_pulse_read_done;;
  mret (0, Some b, setp out_len total).

Definition gxfp_espi_read (rx_buf : ptr bytes) (rx_cap : Z) (out_rx_len : ptr Z)
    : M kworld (Z * ptr bytes * ptr Z) :=
  n ← gdev_null;
  if n || bool_decide (rx_buf = None) || (rx_cap =? 0)
  then mret (- EINVAL, rx_buf, out_rx_len) else
  d ← gdev;
  if bool_decide (mailbox_mmio (dev_hw d) = None)
  then mret (- ENODEV, rx_buf, out_rx_len) else
  gxfp_espi_read_assemble rx_buf rx_cap out_rx_len.

Definition gxfp_espi_write (mp_frame : ptr bytes) (mp_frame_len : Z) : M kworld Z :=
  n ← gdev_null;
  if n || bool_decide (mp_frame = None) || (mp_frame_len =? 0) then mret (- EINVAL) else
  d ← gdev;
  if bool_decide (mailbox_mmio (dev_hw d) = None) then mret (- ENODEV) else
  let pad := Z.land (GXFP_ESPI_ALIGN - Z.land mp_frame_len (GXFP_ESPI_ALIGN - 1))
                    (GXFP_ESPI_ALIGN - 1) in
  let tx_len := u64 (8 + mp_frame_len + pad) in
  if GXFP_TX_BUFFER_SIZE <? tx_len then mret (- EOVERFLOW) else
  tx ← kmalloc tx_len;
  if bool_decide (tx = None) then mret (- ENOMEM) else
  tx ← lift tx;
  tx ← lift (memset0 tx tx_len);
  tx ← lift (wr tx 0 GXFP_ESPI_WRAPPER_MAGIC);
  tx ← lift (wr tx 1 (u8 (Z.land mp_frame_len 255)));
  tx ← lift (wr tx 2 (u8 (Z.land (Z.shiftr mp_frame_len 8) 255)));
  tx0 ← lift (rd tx 0);
  tx1 ← lift (rd tx 1);
  tx2 ← lift (rd tx 2);
  tx ← lift (wr tx 3 (u8 (Z.land (tx0 + tx1 + tx2) 255)));
  (* atomic_inc_return (&gdev->mailbox_seq16) *)
  mod_gdev (λ d, set_seq16 (s32 (mailbox_seq16 d + 1)) d);;
  d ← gdev;
  let seq16 := u16 (Z.land (mailbox_seq16 d) 65535) in
  tx ← lift (wr tx 4 (u8 (Z.land seq16 255)));
  tx ← lift (wr tx 5 (u8 (Z.land (Z.shiftr seq16 8) 255)));
  src ← lift mp_frame;
  tx ← lift (memcpy tx 8 src 0 mp_frame_len);
  ret ← gxfp_mmio_write_qword_aligned (mailbox_mmio (dev_hw d)) (Some tx)
          (Z.land (tx_len + (GXFP_ESPI_ALIGN - 1)) (Z.lnot (GXFP_ESPI_ALIGN - 1)));
  if negb (ret =? 0) then mret (- EIO) else
  gxfp_gpio_pulse_write_done;;
  mret 0.

Definition gxfp_espi_xfer (mp_frame : ptr bytes) (mp_frame_len : Z) (rx_buf : ptr bytes)
    (rx_cap : Z) (out_rx_len : ptr Z) : M kworld (Z * ptr bytes * ptr Z) :=
  ret ← gxfp_espi_write mp_frame mp_frame_len;
  if negb (ret =? 0) then mret (ret, rx_buf, out_rx_len) else
  gxfp_busy_wait_us 1000;;
  gxfp_espi_read rx_buf rx_cap out_rx_len.
End rx.

(** * What the operations do *)

(** The mailbox of [d] is mapped at [base] inside a window of [size] bytes, and
    has the size the ACPI probe insists on. *)
Definition mapped (size base : Z) (d : gxfp_dev) : Prop :=
  mailbox_mmio (dev_hw d) = Some base ∧ 0 <= base ∧ base + GXFP_MAILBOX_MIN_SIZE <= size ∧
  GXFP_MAILBOX_MIN_SIZE <= mailbox_size (dev_hw d).

(** The device with an assembly in the given state. *)
Definition with_assem (a : bool) (t c : Z) (d : gxfp_dev) : gxfp_dev :=
  set_irq (set_assem a t c (dev_irq d)) d.
Definition with_tmp (t : bytes) (d : gxfp_dev) : gxfp_dev :=
  set_irq (set_rx_tmp (Some t) (dev_irq d)) d.

(** The length field and the validity of a packet head. *)
Definition head_len (b : bytes) : Z :=
  match b with
  | _ :: l :: h :: _ => l + 256 * h
  | _ => 0
  end.
Definition head_ok (b : bytes) : bool :=
  match gxfp_check_mp_head (Some b) 4 (Some 0) with
  | Some (ok, _) => ok
  | None => false
  end.

(** The verdict of [rx_start_packet] on the window [b]. *)
Definition start_ret (validate : bool) (cap : Z) (b : bytes) : Z :=
  if validate && negb (head_ok b) then - EBADMSG else
  if cap <? 4 + head_len b then - EMSGSIZE else 0.

Section rx_lemmas.
Context {E : Kenv} {size : Z} {EO : KenvOk E size}.

(** What the receive window of a mailbox mapped at [base] shows. *)
Definition rx_window (base : Z) (w : kworld) : bytes :=
  ztake GXFP_ESPI_CHUNK_MAX (zdrop (base + GXFP_ESPI_RX_OFF) (mailbox_at (w_trace w))).

Lemma rx_window_ok base w :
  0 <= base → base + GXFP_MAILBOX_MIN_SIZE <= size →
  zlen (rx_window base w) = GXFP_ESPI_CHUNK_MAX ∧ bytes_ok (rx_window base w).
Proof using EO.
  intros Hb Hs. unfold rx_window, GXFP_ESPI_CHUNK_MAX, GXFP_READ_CHUNK_MAX,
    GXFP_ESPI_RX_OFF, GXFP_MAILBOX_MIN_SIZE in *.
  pose proof (mailbox_len (w_trace w)). pose proof (mailbox_bytes (w_trace w)).
  split; [|auto with gxfp]. apply zlen_ztake. rewrite zlen_zdrop; lia.
Qed.

Lemma read_window_run base b w d :
  w_dev w = Some d → mapped size base d → GXFP_ESPI_CHUNK_MAX <= zlen b →
  gxfp_espi_rx_read_window (Some b) w
  = Some ((0, Some (rx_window base w ++ zdrop GXFP_ESPI_CHUNK_MAX b)), push [EvRmb] w).
Proof using EO.
  intros Hd (Hm & Hb & Hs & _) Hl. unfold gxfp_espi_rx_read_window.
  mstep (gdev_run w d Hd). rewrite Hm. cbn [mmio_plus mbind option_bind].
  rewrite bind_lift.
  unfold GXFP_ESPI_CHUNK_MAX, GXFP_READ_CHUNK_MAX, GXFP_MAILBOX_MIN_SIZE in *.
  erewrite run_bind; last first.
  { apply (mmio_read_run (size:=size)); [done|lia| |]; unfold GXFP_ESPI_RX_OFF; lia. }
  done.
Qed.

Lemma check_head_ok b :
  bytes_ok b → 4 <= zlen b →
  gxfp_check_mp_head (Some b) 4 (Some 0)
  = Some (head_ok b, Some (if head_ok b then head_len b else 0)).
Proof.
  intros Hb Hl. destruct b as [|f [|l [|h [|k t]]]]; zlens; try lia.
  rewrite !bytes_ok_cons in Hb. destruct Hb as (? & ? & ? & ? & _).
  destruct (check_mp_head_spec f l h k t 4 0) as (ok & Eh & _); [done..|].
  unfold head_ok. by rewrite Eh.
Qed.

Lemma head_len_bound b : bytes_ok b → 0 <= head_len b < 65536.
Proof.
  intros Hb. destruct b as [|f [|l [|h t]]]; simpl; try lia.
  rewrite !bytes_ok_cons in Hb. unfold is_u8 in Hb. lia.
Qed.

Lemma head_ok_app a b : 4 <= zlen a → head_ok (a ++ b) = head_ok a.
Proof. intros. destruct a as [|f [|l [|h [|k t]]]]; zlens; try lia. done. Qed.

Lemma head_len_app a b : 4 <= zlen a → head_len (a ++ b) = head_len a.
Proof. intros. destruct a as [|f [|l [|h t]]]; zlens; try lia. done. Qed.

Lemma head_ok_take b : 4 <= zlen b → head_ok (ztake 4 b) = head_ok b.
Proof.
  intros. rewrite <- (head_ok_app (ztake 4 b) (zdrop 4 b)), ztake_zdrop; [done|].
  rewrite zlen_ztake; lia.
Qed.

Lemma head_len_take b : 4 <= zlen b → head_len (ztake 4 b) = head_len b.
Proof.
  intros. rewrite <- (head_len_app (ztake 4 b) (zdrop 4 b)), ztake_zdrop; [done|].
  rewrite zlen_ztake; lia.
Qed.

Lemma start_packet_run v cap base b w d :
  w_dev w = Some d → mapped size base d → GXFP_ESPI_CHUNK_MAX <= zlen b →
  let win := rx_window base w in
  let ret := start_ret v cap win in
  gxfp_espi_rx_start_packet (Some b) cap v (Some 0) (Some 0) w
  = Some ((ret, Some (win ++ zdrop GXFP_ESPI_CHUNK_MAX b),
           Some (if ret =? 0 then 4 + head_len win else 0),
           Some (if ret =? 0 then (4 + head_len win) `min` GXFP_ESPI_CHUNK_MAX else 0)),
          push [EvRmb] w).
Proof using EO.
  intros Hd Hmap Hl win ret. pose proof Hmap as (_ & Hb & Hs & _).
  destruct (rx_window_ok base w Hb Hs) as (Hwl & Hwb). fold win in Hwl, Hwb.
  unfold gxfp_espi_rx_start_packet. mstep (read_window_run base b w d Hd Hmap Hl).
  fold win. cbn [Z.eqb negb].
  unfold GXFP_ESPI_CHUNK_MAX, GXFP_READ_CHUNK_MAX in *.
  pose proof (head_len_bound win Hwb) as Hh.
  assert (Hck : gxfp_check_mp_head (Some (win ++ zdrop 3584 b)) 4 (Some 0)
                = Some (head_ok win, Some (if head_ok win then head_len win else 0))).
  { destruct win as [|f [|l [|h [|k t]]]]; zlens; try lia.
    rewrite <- (check_head_ok (f :: l :: h :: k :: t)) by (zlens; done || lia). done. }
  destruct v.
  - rewrite Hck, !bind_assoc, bind_lift, !bind_assoc, bind_lift, bind_ret.
    unfold ret, start_ret. cbn [andb].
    destruct (head_ok win); cbn [negb]; [|done].
    replace (4 + head_len win =? 0) with false by lia. cbn [orb].
    destruct (cap <? 4 + head_len win); done.
  - unfold ret, start_ret. cbn [andb].
    destruct win as [|f [|l [|h t]]]; zlens; try lia. cbn [head_len app] in *.
    rewrite !bytes_ok_cons in Hwb. destruct Hwb as (_ & Hl' & Hh' & _).
    rewrite bind_assoc, bind_lift, bind_assoc.
    change (rd (?x :: ?y :: ?z) 1) with (Some y).
    change (rd (?x :: ?y :: ?z :: ?t) 2) with (Some z).
    rewrite bind_lift, bind_assoc, bind_lift, bind_ret, lor16 by done.
    replace (u16 (l + 256 * h)) with (l + 256 * h) by zint.
    replace (4 + (l + 256 * h) =? 0) with false by (unfold is_u8 in *; lia). cbn [orb].
    destruct (cap <? 4 + (l + 256 * h)); done.
Qed.
End rx_lemmas.

Lemma assem_reset_run w d :
  w_dev w = Some d →
  gxfp_espi_irq_assem_reset w = Some ((), set_dev (with_assem false 0 0 d) w).
Proof. intros Hd. unfold gxfp_espi_irq_assem_reset. by rewrite (mod_gdev_run _ w d). Qed.

Lemma chunk_calc_run remain :
  gxfp_espi_rx_chunk_calc remain None
  = (remain `min` GXFP_ESPI_CHUNK_MAX, (- (remain `min` GXFP_ESPI_CHUNK_MAX)) mod 8, None).
Proof.
  unfold gxfp_espi_rx_chunk_calc, GXFP_ESPI_ALIGN, GXFP_FRAME_ALIGNMENT.
  change (8 - 1) with 7. rewrite !land_7. f_equal. f_equal. zdm.
Qed.

Section step_lemmas.
Context {E : Kenv} {size : Z} {EO : KenvOk E size}.
Context (base : Z) (d : gxfp_dev).
Context (Hmap : mapped size base d).

Lemma read_first_run b cap out c w :
  w_dev w = Some d → GXFP_ESPI_CHUNK_MAX <= zlen b →
  let win := rx_window base w in
  let b' := Some (win ++ zdrop GXFP_ESPI_CHUNK_MAX b) in
  let ret := start_ret true cap win in
  let total := 4 + head_len win in
  irq_read_first (Some b) cap out c w
  = Some (if negb (ret =? 0)
          then ((ret, b', out, c), set_dev (with_assem false 0 0 d) (push [EvRmb] w))
          else if total <=? GXFP_ESPI_CHUNK_MAX
          then ((0, b', setp out total, setp c true),
                set_dev (with_assem false 0 0 d)
                  (push (EvRmb :: set_read_done_events (gpio_read_done (dev_hw d)) 1) w))
          else ((0, b', setp out GXFP_ESPI_CHUNK_MAX, c),
                set_dev (with_assem true total GXFP_ESPI_CHUNK_MAX d)
                  (push (EvRmb :: read_done_events (gpio_read_done (dev_hw d))) w))).
Proof using EO Hmap.
  intros Hd Hl win b' ret total. unfold irq_read_first.
  mstep (start_packet_run true cap base b w d Hd Hmap Hl). fold win ret total. fold b'.
  destruct (ret =? 0) eqn:Er; cbn [negb]; cycle 1.
  { mstep (assem_reset_run (push [EvRmb] w) d Hd). done. }
  rewrite !bind_lift. mstep (mod_gdev_run _ (push [EvRmb] w) d Hd).
  mstep (gdev_run). cbn [assem_copied dev_irq set_irq set_assem].
  unfold total. destruct (Z.leb_spec (4 + head_len win) GXFP_ESPI_CHUNK_MAX).
  - rewrite Z.min_l by done. rewrite Z.leb_refl.
    mstep (set_read_done_run 1).
    mstep (assem_reset_run).
    rewrite ret_run, push_set_dev, set_dev_set_dev, push_push. done.
  - rewrite Z.min_r by lia. rewrite (proj2 (Z.leb_gt _ _)) by done.
    mstep (pulse_read_done_run).
    rewrite ret_run, push_set_dev, push_push. done.
Qed.

Lemma read_next_run b cap out c w t :
  w_dev w = Some d → rx_tmp (dev_irq d) = Some t → zlen t = GXFP_ESPI_CHUNK_MAX →
  let total := assem_total (dev_irq d) in
  let copied := assem_copied (dev_irq d) in
  let win := rx_window base w in
  let chunk := (total - copied) `min` GXFP_ESPI_CHUNK_MAX in
  let b' := Some (ztake copied b ++ ztake chunk win ++ zdrop (copied + chunk) b) in
  0 < copied → copied < total → total <= cap → cap <= zlen b →
  irq_read_next (Some b) cap out c w
  = Some (if copied + chunk <? total
          then ((0, b', setp out (copied + chunk), c),
                set_dev (with_assem (assem_active (dev_irq d)) total (copied + chunk)
                           (with_tmp win d))
                  (push (EvRmb :: read_done_events (gpio_read_done (dev_hw d))) w))
          else ((0, b', setp out total, setp c true),
                set_dev (with_assem false 0 0 (with_tmp win d))
                  (push (EvRmb :: set_read_done_events (gpio_read_done (dev_hw d)) 1) w))).
Proof using EO Hmap.
  intros Hd Ht Htl total copied win chunk b' Hc0 Hct Htc Hcb.
  pose proof Hmap as (_ & Hb & Hs & _).
  destruct (rx_window_ok base w Hb Hs) as (Hwl & _). fold win in Hwl.
  unfold irq_read_next. mstep (gdev_run w d Hd). fold total copied.
  replace (total =? 0) with false by lia. replace (copied =? 0) with false by lia.
  replace (cap <? copied) with false by lia. cbn [orb].
  replace (copied <? total) with true by lia. rewrite chunk_calc_run. fold chunk.
  unfold GXFP_ESPI_CHUNK_MAX, GXFP_READ_CHUNK_MAX in *.
  replace (chunk =? 0) with false by (unfold chunk; lia).
  replace (cap <? copied + chunk) with false by (unfold chunk; lia).
  rewrite Ht, bool_decide_eq_false_2 by done.
  erewrite run_bind; last first.
  { apply (read_window_run base t w d Hd Hmap). unfold GXFP_ESPI_CHUNK_MAX, GXFP_READ_CHUNK_MAX. lia. }
  fold win. unfold GXFP_ESPI_CHUNK_MAX, GXFP_READ_CHUNK_MAX.
  rewrite (zlen_0 (zdrop 3584 t)), app_nil_r by (rewrite zlen_zdrop; lia).
  mstep (mod_gdev_run (λ d, set_irq (set_rx_tmp (Some win) (dev_irq d)) d)
           (push [EvRmb] w) d Hd).
  cbn [Z.eqb negb]. rewrite !bind_lift. unfold memcpy at 1.
  rewrite slice_Some, zdrop_0 by (unfold chunk; lia). cbn [mbind option_bind].
  assert (Hck : zlen (ztake chunk win) = chunk) by (apply zlen_ztake; unfold chunk; lia).
  rewrite blit_Some by (rewrite ?Hck; unfold chunk; lia). rewrite bind_lift, Hck.
  fold b'. mstep mod_gdev_run.
  destruct (copied + chunk <? total).
  - mstep (pulse_read_done_run).
    rewrite ret_run, set_dev_set_dev, push_set_dev, push_push. done.
  - mstep (set_read_done_run 1).
    mstep (assem_reset_run).
    rewrite ret_run, set_dev_set_dev, push_set_dev, set_dev_set_dev, push_push. done.
Qed.

(** The guards of a step, passed: what remains is the first or a further window. *)
Lemma irq_step_run b cap out c w :
  w_dev w = Some d → GXFP_ESPI_CHUNK_MAX <= cap →
  gxfp_espi_irq_read_step (Some b) cap out c w
  = if assem_active (dev_irq d)
    then irq_read_next (Some b) cap (setp out 0) (setp c false) w
    else irq_read_first (Some b) cap (setp out 0) (setp c false) w.
Proof using Hmap.
  intros Hd Hc. destruct Hmap as (Hm & _ & _ & Hsz).
  unfold gxfp_espi_irq_read_step. mstep (gdev_null_run w d Hd).
  rewrite (bool_decide_eq_false_2 (Some b = None)) by done. cbn [orb].
  rewrite (proj2 (Z.ltb_ge _ _) Hc). mstep (gdev_run w d Hd).
  rewrite Hm, bool_decide_eq_false_2 by done.
  unfold GXFP_MAILBOX_MIN_SIZE, GXFP_ESPI_RX_OFF, GXFP_ESPI_CHUNK_MAX, GXFP_READ_CHUNK_MAX in *.
  rewrite (proj2 (Z.ltb_ge _ _)) by lia.
  by destruct (assem_active (dev_irq d)).
Qed.
End step_lemmas.

(** * The interrupt path *)

(** The assembly state between two interrupts. *)
Definition irq_inv (cap : Z) (d : gxfp_dev) : Prop :=
  (∀ t, rx_tmp (dev_irq d) = Some t → zlen t = GXFP_ESPI_CHUNK_MAX) ∧
  (assem_active (dev_irq d) = true →
   0 < assem_copied (dev_irq d) < assem_total (dev_irq d) ∧ assem_total (dev_irq d) <= cap).

Section irq_path.
Context {E : Kenv} {size : Z} {EO : KenvOk E size}.

Lemma read_next_no_tmp b cap out c w d :
  w_dev w = Some d → rx_tmp (dev_irq d) = None → irq_inv cap d →
  assem_active (dev_irq d) = true →
  irq_read_next b cap out c w
  = Some ((- ENODEV, b, out, c), set_dev (with_assem false 0 0 d) w).
Proof.
  intros Hd Ht (_ & Hi) Ha. destruct (Hi Ha) as (Hc & Hcap). unfold irq_read_next.
  mstep (gdev_run w d Hd).
  replace (assem_total (dev_irq d) =? 0) with false by lia.
  replace (assem_copied (dev_irq d) =? 0) with false by lia.
  replace (cap <? assem_copied (dev_irq d)) with false by lia. cbn [orb].
  replace (assem_copied (dev_irq d) <? assem_total (dev_irq d)) with true by lia.
  rewrite chunk_calc_run. unfold GXFP_ESPI_CHUNK_MAX, GXFP_READ_CHUNK_MAX.
  rewrite (proj2 (Z.eqb_neq _ _)) by lia. rewrite (proj2 (Z.ltb_ge _ _)) by lia.
  rewrite Ht, bool_decide_eq_true_2 by done. mstep assem_reset_run. done.
Qed.

Lemma zlen_window_blit base w (b : bytes) :
  0 <= base → base + GXFP_MAILBOX_MIN_SIZE <= size → GXFP_ESPI_CHUNK_MAX <= zlen b →
  zlen (rx_window base w ++ zdrop GXFP_ESPI_CHUNK_MAX b) = zlen b.
Proof using EO.
  intros Hb Hs Hl. destruct (rx_window_ok base w Hb Hs) as (Hw & _).
  rewrite zlen_app, Hw, zlen_zdrop; unfold GXFP_ESPI_CHUNK_MAX, GXFP_READ_CHUNK_MAX in *; lia.
Qed.

(** What holds after one interrupt: the result of the step and the device. *)
Definition irq_post (base cap : Z)
    (r : option (Z * ptr bytes * ptr Z * ptr bool * kworld)) : Prop :=
  ∃ ret b' out' c' d' w', r = Some ((ret, Some b', Some out', Some c'), w') ∧
    w_dev w' = Some d' ∧ mapped size base d' ∧ irq_inv cap d' ∧ zlen b' = cap ∧
    (if bool_decide (ret = 0)
     then 0 < out' <= cap ∧ c' = negb (assem_active (dev_irq d')) ∧
          (c' = false → assem_copied (dev_irq d') = out')
     else ret ∈ [- EBADMSG; - EMSGSIZE; - ENODEV] ∧ out' = 0 ∧ c' = false ∧
          assem_active (dev_irq d') = false).

Ltac irq_post_tac Hmap :=
  eexists _, _, _, _, _, _; split; [reflexivity|]; split; [reflexivity|];
  split; [exact Hmap|].

Lemma read_first_post base d w b cap out c :
  w_dev w = Some d → mapped size base d → irq_inv cap d →
  GXFP_ESPI_CHUNK_MAX <= cap → zlen b = cap →
  irq_post base cap (irq_read_first (Some b) cap (setp (Some out) 0) (setp (Some c) false) w).
Proof using EO.
  intros Hd Hmap Hinv Hcap Hb. pose proof Hmap as (_ & Hb0 & Hs & _).
  rewrite (read_first_run base d Hmap) by lia || done. cbv zeta.
  pose proof (zlen_window_blit base w b Hb0 Hs ltac:(lia)).
  assert (Hhl := head_len_bound _ (proj2 (rx_window_ok base w Hb0 Hs))).
  unfold start_ret. cbn [andb]. set (win := rx_window base w) in *.
  unfold GXFP_ESPI_CHUNK_MAX, GXFP_READ_CHUNK_MAX in *.
  destruct (head_ok win); [cbn [negb]; destruct (Z.ltb_spec cap (4 + head_len win))|];
    cbn [negb Z.eqb Z.opp EBADMSG EMSGSIZE].
  2: destruct (Z.leb_spec (4 + head_len win) 3584).
  all: irq_post_tac Hmap.
  all: (split; [split; [apply Hinv|cbn; try done; lia]|]); (split; [lia|]).
  all: cbn; split_and!; try done; try lia; set_solver.
Qed.

Lemma read_next_post base d w b cap out c :
  w_dev w = Some d → mapped size base d → irq_inv cap d → zlen b = cap →
  assem_active (dev_irq d) = true →
  irq_post base cap (irq_read_next (Some b) cap (setp (Some out) 0) (setp (Some c) false) w).
Proof using EO.
  intros Hd Hmap Hinv Hb Ha. pose proof Hmap as (_ & Hb0 & Hs & _).
  destruct (rx_tmp (dev_irq d)) as [t|] eqn:Ht; cycle 1.
  { rewrite (read_next_no_tmp _ cap _ _ w d) by done. irq_post_tac Hmap.
    split; [split; [apply Hinv|done]|]. split; [done|]. cbn. split_and!; try done. set_solver. }
  destruct Hinv as (Htl & Hi). destruct (Hi Ha) as (Hc & Htot).
  rewrite (read_next_run base d Hmap _ _ _ _ _ t) by (lia || done || auto). cbv zeta.
  destruct (rx_window_ok base w Hb0 Hs) as (Hwl & _). set (win := rx_window base w) in *.
  unfold GXFP_ESPI_CHUNK_MAX, GXFP_READ_CHUNK_MAX in *.
  set (copied := assem_copied _) in *. set (total := assem_total _) in *.
  assert (zlen (ztake copied b ++ ztake ((total - copied) `min` 3584) win
            ++ zdrop (copied + (total - copied) `min` 3584) b) = cap)
    by (rewrite !zlen_app, !zlen_ztake, zlen_zdrop by lia; lia).
  destruct (Z.ltb_spec (copied + (total - copied) `min` 3584) total).
  all: irq_post_tac Hmap.
  all: (split; [split; [cbn; intros ? [= <-]; done|cbn; try done; lia]|]); (split; [done|]).
  all: cbn; rewrite ?Ha; split_and!; try done; try lia.
Qed.

(** C4: whatever the sensor shows in the mailbox, one interrupt step is
    defined (no access outside a buffer), keeps the receive buffer's size and
    the assembly invariant, reports completion exactly when it leaves no
    assembly under way, and abandons the assembly on every error. *)
Theorem irq_step_invariant base d w b cap out c :
  w_dev w = Some d → mapped size base d → irq_inv cap d →
  GXFP_ESPI_CHUNK_MAX <= cap → zlen b = cap →
  irq_post base cap (gxfp_espi_irq_read_step (Some b) cap (Some out) (Some c) w).
Proof using EO.
  intros Hd Hmap Hinv Hcap Hb.
  rewrite (irq_step_run (size:=size) base d Hmap b cap (Some out) (Some c) w Hd Hcap).
  destruct (assem_active (dev_irq d)) eqn:Ha.
  - by apply read_next_post with d.
  - by apply read_first_post with d.
Qed.
End irq_path.

(** * A sensor that serves a packet *)

(** The READ_DONE pulses the driver has given, counted when the line is raised
    (the driver never looks at the window while it is high). *)
Fixpoint read_pulses (tr : list event) : Z :=
  match tr with
  | [] => 0
  | EvGpio READ_DONE v :: tr => (if v =? 0 then 0 else 1) + read_pulses tr
  | _ :: tr => read_pulses tr
  end.

Lemma read_pulses_app a b : read_pulses (a ++ b) = read_pulses a + read_pulses b.
Proof. induction a as [|[| | |[|] v| | |] a IH]; cbn [read_pulses app]; rewrite ?IH; lia. Qed.

Lemma read_pulses_nonneg tr : 0 <= read_pulses tr.
Proof. induction tr as [|[| | |[|] v| | |] a IH]; cbn [read_pulses]; try destruct (v =? 0); lia. Qed.

(** After the trace [tr0], the sensor shows window [k] of the packet once the
    driver has pulsed READ_DONE [k] times. *)
Definition serves {E : Kenv} (base : Z) (pkt : bytes) (tr0 : list event) : Prop :=
  ∀ s, let k := read_pulses s * GXFP_ESPI_CHUNK_MAX in
    k < zlen pkt →
    let n := (zlen pkt - k) `min` GXFP_ESPI_CHUNK_MAX in
    slice (mailbox_at (tr0 ++ s)) (base + GXFP_ESPI_RX_OFF) n = slice pkt k n.

(** A complete packet whose head is sound. *)
Definition packet_ok (cap : Z) (pkt : bytes) : Prop :=
  bytes_ok pkt ∧ 4 <= zlen pkt ∧ zlen pkt = 4 + head_len pkt ∧ zlen pkt <= cap ∧
  head_ok pkt = true.

(** Interrupt steps until one completes a packet or fails. *)
Fixpoint irq_steps {E : Kenv} (n : nat) (b : ptr bytes) (cap : Z)
    : M kworld (Z * ptr bytes * ptr Z * ptr bool) :=
  match n with
  | O => mret (0, b, Some 0, Some false)
  | S n =>
    '(ret, b, o, c) ← gxfp_espi_irq_read_step b cap (Some 0) (Some false);
    match ret, c with
    | 0, Some false => irq_steps n b cap
    | _, _ => mret (ret, b, o, c)
    end
  end.

Section serving.
Context {E : Kenv} {size : Z} {EO : KenvOk E size}.
Context (base cap : Z) (pkt : bytes) (tr0 : list event).
Context (Hserve : serves base pkt tr0) (Hpkt : packet_ok cap pkt).

(** The part of the window that the packet fills. *)
Lemma serve_window w s n :
  w_trace w = tr0 ++ s → 0 <= base → base + GXFP_MAILBOX_MIN_SIZE <= size →
  let k := read_pulses s * GXFP_ESPI_CHUNK_MAX in
  k < zlen pkt → 0 <= n <= (zlen pkt - k) `min` GXFP_ESPI_CHUNK_MAX →
  ztake n (rx_window base w) = ztake n (zdrop k pkt).
Proof using EO Hserve.
  intros Hw Hb Hs k Hk Hn. pose proof (Hserve s) as H. cbv zeta in H. fold k in H.
  specialize (H Hk). pose proof (read_pulses_nonneg s).
  pose proof (mailbox_len (w_trace w)) as Hml.
  unfold GXFP_ESPI_CHUNK_MAX, GXFP_READ_CHUNK_MAX, GXFP_ESPI_RX_OFF, GXFP_MAILBOX_MIN_SIZE in *.
  rewrite Hw in Hml.
  rewrite !slice_Some in H by lia. injection H as H.
  unfold rx_window, GXFP_ESPI_CHUNK_MAX, GXFP_READ_CHUNK_MAX, GXFP_ESPI_RX_OFF. rewrite Hw.
  rewrite ztake_ztake by lia.
  rewrite <- (ztake_ztake n ((zlen pkt - k) `min` 3584) (zdrop k pkt)) by lia.
  rewrite <- H. rewrite ztake_ztake by lia. done.
Qed.

Lemma serve_head w s :
  w_trace w = tr0 ++ s → 0 <= base → base + GXFP_MAILBOX_MIN_SIZE <= size →
  read_pulses s = 0 →
  head_ok (rx_window base w) = true ∧ head_len (rx_window base w) = zlen pkt - 4.
Proof using EO Hserve Hpkt.
  intros Hw Hb Hs H0. destruct Hpkt as (_ & H4 & Hlen & _ & Hok).
  pose proof (serve_window w s 4 Hw Hb Hs) as H. cbv zeta in H. rewrite H0, zdrop_0 in H.
  destruct (rx_window_ok base w Hb Hs) as (Hwl & _).
  unfold GXFP_ESPI_CHUNK_MAX, GXFP_READ_CHUNK_MAX in *. specialize (H ltac:(lia) ltac:(lia)).
  rewrite <- (head_ok_take (rx_window base w)), <- (head_len_take (rx_window base w)), H by lia.
  rewrite head_ok_take, head_len_take by done. split; [done|lia].
Qed.

(** The packet has been received up to the window the sensor shows next. *)
Definition assembling (w : kworld) (b : bytes) (s : list event) : Prop :=
  ∃ d t, w_dev w = Some d ∧ mapped size base d ∧ gpio_read_done (dev_hw d) = true ∧
    rx_tmp (dev_irq d) = Some t ∧ zlen t = GXFP_ESPI_CHUNK_MAX ∧
    rx_cap (dev_irq d) = cap ∧
    assem_active (dev_irq d) = true ∧ assem_total (dev_irq d) = zlen pkt ∧
    w_trace w = tr0 ++ s ∧ zlen b = cap ∧
    let copied := read_pulses s * GXFP_ESPI_CHUNK_MAX in
    assem_copied (dev_irq d) = copied ∧ 0 < copied < zlen pkt ∧
    ztake copied b = ztake copied pkt.

(** The packet has been received. *)
Definition received (w : kworld) (b : bytes) (n : Z) : Prop :=
  ztake (zlen pkt) b = pkt ∧ zlen b = cap ∧
  ∃ d t s, w_dev w = Some d ∧ mapped size base d ∧ gpio_read_done (dev_hw d) = true ∧
    rx_tmp (dev_irq d) = Some t ∧ zlen t = GXFP_ESPI_CHUNK_MAX ∧ rx_cap (dev_irq d) = cap ∧
    assem_active (dev_irq d) = false ∧ w_trace w = tr0 ++ s ∧ read_pulses s = n.

Lemma assembling_step w b s o :
  assembling w b s → GXFP_ESPI_CHUNK_MAX <= cap →
  ∃ b' w' s', let last := zlen pkt <=? (read_pulses s + 1) * GXFP_ESPI_CHUNK_MAX in
    gxfp_espi_irq_read_step (Some b) cap (Some o) (Some false) w
    = Some ((0, Some b', Some (if last then zlen pkt else read_pulses s' * GXFP_ESPI_CHUNK_MAX),
             Some last), w') ∧
    if last then received w' b' (read_pulses s + 1)
    else assembling w' b' s' ∧ read_pulses s' = read_pulses s + 1.
Proof using EO Hserve Hpkt.
  intros (d & t & Hd & Hmap & Hg & Ht & Htl & Hrc & Ha & Htot & Hw & Hb & Hc & Hc0 & Hpre) Hbc.
  destruct Hpkt as (_ & _ & _ & Hcap & _). pose proof Hmap as (_ & Hb0 & Hs & _).
  destruct (rx_window_ok base w Hb0 Hs) as (Hwl & _).
  rewrite (irq_step_run (size:=size) base d Hmap b cap _ _ w Hd Hbc), Ha.
  rewrite (read_next_run base d Hmap b cap _ _ w t) by (done || lia).
  rewrite Htot, Hc, Hg, Ha. pose proof (serve_window w s) as Hwin. cbv zeta in Hwin.
  unfold GXFP_ESPI_CHUNK_MAX, GXFP_READ_CHUNK_MAX in *.
  set (copied := read_pulses s * 3584) in *. set (n := (zlen pkt - copied) `min` 3584) in *.
  rewrite (Hwin n) by (done || lia).
  assert (zlen (ztake copied b) = copied) by (apply zlen_ztake; lia).
  assert (zlen (ztake n (zdrop copied pkt)) = n)
    by (rewrite zlen_ztake; rewrite ?zlen_zdrop; lia).
  assert (Hpre' : ztake (copied + n) (ztake copied b ++ ztake n (zdrop copied pkt)
             ++ zdrop (copied + n) b) = ztake (copied + n) pkt).
  { rewrite app_assoc, ztake_app by (rewrite zlen_app; lia). by rewrite Hpre, ztake_add by lia. }
  assert (Hlen' : zlen (ztake copied b ++ ztake n (zdrop copied pkt) ++ zdrop (copied + n) b)
                  = cap) by (rewrite !zlen_app, zlen_zdrop; lia).
  set (b' := ztake copied b ++ _) in *.
  destruct (Z.ltb_spec (copied + n) (zlen pkt)) as [Hmore|Hdone].
  - exists b', (set_dev (with_assem true (zlen pkt) (copied + n) (with_tmp (rx_window base w) d))
                 (push (EvRmb :: read_done_events true) w)), (s ++ EvRmb :: read_done_events true).
    replace (zlen pkt <=? (read_pulses s + 1) * 3584) with false by lia.
    rewrite read_pulses_app. cbn. replace ((read_pulses s + (1 + (0 + 0))) * 3584) with (copied + n) by lia.
    split; [reflexivity|]. split; [|lia]. eexists _, (rx_window base w).
    split; [reflexivity|]. cbn. rewrite read_pulses_app, Hw, <- app_assoc. cbn.
    unfold GXFP_ESPI_CHUNK_MAX, GXFP_READ_CHUNK_MAX.
    replace ((read_pulses s + (1 + (0 + 0))) * 3584) with (copied + n) by lia. split_and!; done || lia.
  - exists b', (set_dev (with_assem false 0 0 (with_tmp (rx_window base w) d))
                 (push (EvRmb :: set_read_done_events true 1) w)), s.
    replace (zlen pkt <=? (read_pulses s + 1) * 3584) with true by lia.
    split; [reflexivity|]. assert (copied + n = zlen pkt) as Hcn by lia. rewrite Hcn in Hpre'.
    split; [by rewrite Hpre', ztake_all|]. split; [done|].
    exists (with_assem false 0 0 (with_tmp (rx_window base w) d)), (rx_window base w),
      (s ++ EvRmb :: set_read_done_events true 1).
    cbn. rewrite Hw, <- app_assoc, read_pulses_app. cbn. split_and!; done || lia.
Qed.

(** The first window, read into the front of a buffer. *)
Lemma first_window w b :
  w_trace w = tr0 → 0 <= base → base + GXFP_MAILBOX_MIN_SIZE <= size →
  zlen b = cap → GXFP_ESPI_CHUNK_MAX <= cap →
  let b' := rx_window base w ++ zdrop GXFP_ESPI_CHUNK_MAX b in
  let n := zlen pkt `min` GXFP_ESPI_CHUNK_MAX in
  zlen b' = cap ∧ ztake n b' = ztake n pkt.
Proof using EO Hserve Hpkt.
  intros Hw Hb0 Hs Hb Hbc b' n. pose proof Hpkt as (_ & H4 & _ & Hcap & _).
  destruct (rx_window_ok base w Hb0 Hs) as (Hwl & _). rewrite <- (app_nil_r tr0) in Hw.
  pose proof (serve_window w [] n Hw Hb0 Hs) as Hwin.
  unfold n, b', GXFP_ESPI_CHUNK_MAX, GXFP_READ_CHUNK_MAX in *. cbn [read_pulses] in Hwin.
  rewrite zdrop_0 in Hwin. split; [rewrite zlen_app, zlen_zdrop; lia|].
  rewrite <- Hwin by lia. rewrite <- (ztake_ztake _ 3584 (_ ++ _)) by lia. by rewrite ztake_app.
Qed.

Lemma first_step w d t b o :
  w_dev w = Some d → mapped size base d → gpio_read_done (dev_hw d) = true →
  rx_tmp (dev_irq d) = Some t → zlen t = GXFP_ESPI_CHUNK_MAX →
  rx_cap (dev_irq d) = cap → assem_active (dev_irq d) = false → w_trace w = tr0 → zlen b = cap →
  GXFP_ESPI_CHUNK_MAX <= cap →
  ∃ b' w' s', let last := zlen pkt <=? GXFP_ESPI_CHUNK_MAX in
    gxfp_espi_irq_read_step (Some b) cap (Some o) (Some false) w
    = Some ((0, Some b', Some (if last then zlen pkt else GXFP_ESPI_CHUNK_MAX),
             Some last), w') ∧
    if last then received w' b' 1 else assembling w' b' s' ∧ read_pulses s' = 1.
Proof using EO Hserve Hpkt.
  intros Hd Hmap Hg Ht Htl Hrc Ha Hw Hb Hbc. pose proof Hmap as (_ & Hb0 & Hs & _).
  pose proof Hpkt as (_ & H4 & _ & Hcap & _).
  destruct (first_window w b Hw Hb0 Hs Hb Hbc) as (Hlen & Hpre).
  rewrite <- (app_nil_r tr0) in Hw.
  destruct (serve_head w [] Hw Hb0 Hs eq_refl) as (Hok & Hhl).
  rewrite (irq_step_run (size:=size) base d Hmap b cap _ _ w Hd Hbc), Ha.
  rewrite (read_first_run base d Hmap b cap _ _ w) by (done || lia).
  cbv zeta. unfold start_ret. rewrite Hok, Hhl, Hg. cbn [andb negb].
  unfold GXFP_ESPI_CHUNK_MAX, GXFP_READ_CHUNK_MAX in *.
  replace (4 + (zlen pkt - 4)) with (zlen pkt) by lia.
  rewrite (proj2 (Z.ltb_ge _ _)) by lia. cbn [negb Z.eqb].
  set (b' := rx_window base w ++ zdrop 3584 b) in *.
  destruct (Z.leb_spec (zlen pkt) 3584) as [Hle|Hgt].
  - exists b', (set_dev (with_assem false 0 0 d)
                 (push (EvRmb :: set_read_done_events true 1) w)), [].
    split; [reflexivity|]. rewrite Z.min_l in Hpre by done.
    split; [by rewrite Hpre, ztake_all|]. split; [done|].
    exists (with_assem false 0 0 d), t, (EvRmb :: set_read_done_events true 1).
    rewrite app_nil_r in Hw. cbn. rewrite Hw. done.
  - exists b', (set_dev (with_assem true (zlen pkt) 3584 d)
                 (push (EvRmb :: read_done_events true) w)), (EvRmb :: read_done_events true).
    split; [reflexivity|]. split; [|done]. eexists _, t. split; [reflexivity|].
    rewrite Z.min_r in Hpre by lia. rewrite app_nil_r in Hw. cbn. rewrite Hw.
    unfold GXFP_ESPI_CHUNK_MAX, GXFP_READ_CHUNK_MAX. split_and!; done || lia.
Qed.

Lemma assembling_steps m : ∀ w b s,
  assembling w b s → GXFP_ESPI_CHUNK_MAX <= cap →
  let left := (zlen pkt - 1) / GXFP_ESPI_CHUNK_MAX + 1 - read_pulses s in
  ∃ b' o c w', irq_steps m (Some b) cap w = Some ((0, Some b', Some o, Some c), w') ∧
    c = bool_decide (left <= Z.of_nat m) ∧
    (c = true → o = zlen pkt ∧ received w' b' ((zlen pkt - 1) / GXFP_ESPI_CHUNK_MAX + 1)).
Proof using EO Hserve Hpkt.
  induction m as [|m IH]; intros w b s Has Hbc left.
  { destruct Has as (_ & _ & _ & _ & _ & _ & _ & _ & _ & _ & _ & _ & _ & Hc & _).
    eexists _, _, _, _. split; [reflexivity|]. split; [|done].
    rewrite bool_decide_eq_false_2; [done|].
    unfold left, GXFP_ESPI_CHUNK_MAX, GXFP_READ_CHUNK_MAX in *. zdm. }
  cbn [irq_steps].
  destruct (assembling_step w b s 0 Has Hbc) as (b1 & w1 & s1 & E1 & Hpost).
  erewrite run_bind by exact E1. cbv beta iota.
  destruct Has as (_ & _ & _ & _ & _ & _ & _ & _ & _ & _ & _ & _ & _ & Hc & _).
  destruct (Z.leb_spec (zlen pkt) ((read_pulses s + 1) * GXFP_ESPI_CHUNK_MAX)) as [Hl|Hl].
  - eexists _, _, _, _. split; [reflexivity|].
    assert (left = 1) as H1
      by (unfold left, GXFP_ESPI_CHUNK_MAX, GXFP_READ_CHUNK_MAX in *; zdm).
    split; [symmetry; apply bool_decide_eq_true_2; lia|]. intros _. split; [done|].
    unfold left in H1. by replace ((zlen pkt - 1) / GXFP_ESPI_CHUNK_MAX) with (read_pulses s) by lia.
  - destruct Hpost as (Has' & Hp).
    destruct (IH w1 b1 s1 Has' Hbc) as (b2 & o & c & w2 & E2 & Hcc & Hfin).
    rewrite E2. eexists _, _, _, _. split; [reflexivity|]. split; [|done].
    rewrite Hcc. apply bool_decide_ext. unfold left. lia.
Qed.

(** A sensor that shows window [k] of a packet after [k] READ_DONE pulses
    gets its packet through: the packet is complete after exactly
    ceil(len / 0xe00) interrupt steps and not before, the receive buffer then
    starts with it, and the driver has raised READ_DONE once per window. *)
Theorem irq_reassembly m w d t b :
  w_dev w = Some d → mapped size base d → gpio_read_done (dev_hw d) = true →
  rx_tmp (dev_irq d) = Some t → zlen t = GXFP_ESPI_CHUNK_MAX →
  rx_cap (dev_irq d) = cap → assem_active (dev_irq d) = false → w_trace w = tr0 → zlen b = cap →
  GXFP_ESPI_CHUNK_MAX <= cap →
  ∃ b' o c w', irq_steps m (Some b) cap w = Some ((0, Some b', Some o, Some c), w') ∧
    c = bool_decide ((zlen pkt - 1) / GXFP_ESPI_CHUNK_MAX + 1 <= Z.of_nat m) ∧
    (c = true → o = zlen pkt ∧ received w' b' ((zlen pkt - 1) / GXFP_ESPI_CHUNK_MAX + 1)).
Proof using EO Hserve Hpkt.
  intros Hd Hmap Hg Ht Htl Hrc Ha Hw Hb Hbc. pose proof Hpkt as (_ & H4 & _ & Hcap & _).
  destruct m as [|m].
  { eexists _, _, _, _. split; [reflexivity|]. split; [|done].
    rewrite bool_decide_eq_false_2; [done|].
    unfold GXFP_ESPI_CHUNK_MAX, GXFP_READ_CHUNK_MAX in *. zdm. }
  cbn [irq_steps].
  destruct (first_step w d t b 0) as (b1 & w1 & s1 & E1 & Hpost); [done..|].
  erewrite run_bind by exact E1. cbv beta iota.
  destruct (Z.leb_spec (zlen pkt) GXFP_ESPI_CHUNK_MAX) as [Hl|Hl].
  - eexists _, _, _, _. split; [reflexivity|].
    assert ((zlen pkt - 1) / GXFP_ESPI_CHUNK_MAX = 0) as ->
      by (unfold GXFP_ESPI_CHUNK_MAX, GXFP_READ_CHUNK_MAX in *; zdm).
    split; [symmetry; apply bool_decide_eq_true_2; lia|done].
  - destruct Hpost as (Has & Hp).
    destruct (assembling_steps m w1 b1 s1 Has Hbc) as (b2 & o & c & w2 & E2 & Hcc & Hfin).
    rewrite E2. eexists _, _, _, _. split; [reflexivity|]. split; [|done].
    rewrite Hcc. apply bool_decide_ext. lia.
Qed.

(** ** The synchronous path *)

(** What the synchronous reader has assembled at [off]: it reads its second
    window before it has pulsed READ_DONE. *)
Definition sync_image (off : Z) : bytes :=
  ztake (off `min` GXFP_ESPI_CHUNK_MAX) pkt ++ ztake (off - GXFP_ESPI_CHUNK_MAX) pkt.

Definition sync_state (w : kworld) (s : list event) (k : Z) (b : bytes) : Prop :=
  ∃ d t, w_dev w = Some d ∧ mapped size base d ∧ gpio_read_done (dev_hw d) = true ∧
    rx_tmp (dev_irq d) = Some t ∧ zlen t = GXFP_ESPI_CHUNK_MAX ∧
    w_trace w = tr0 ++ s ∧ read_pulses s = k ∧ zlen b = cap.

Lemma sync_chunk w s k b :
  sync_state w s k b → 0 <= k → let off := (k + 1) * GXFP_ESPI_CHUNK_MAX in
  off < zlen pkt → ztake off b = sync_image off →
  let n := (zlen pkt - off) `min` GXFP_ESPI_CHUNK_MAX in
  let b' := ztake off b ++ ztake n (rx_window base w) ++ zdrop (off + n) b in
  zlen b' = cap ∧ ztake (off + n) b' = sync_image (off + n).
Proof using EO Hserve Hpkt.
  intros (d & t & Hd & Hmap & Hg & Ht & Htl & Hw & Hk & Hb) Hk0 off Hoff Hpre n b'.
  pose proof Hmap as (_ & Hb0 & Hs & _). destruct Hpkt as (_ & _ & _ & Hcap & _).
  destruct (rx_window_ok base w Hb0 Hs) as (Hwl & _).
  pose proof (serve_window w s n Hw Hb0 Hs) as Hwin. cbv zeta in Hwin. rewrite Hk in Hwin.
  unfold sync_image, GXFP_ESPI_CHUNK_MAX, GXFP_READ_CHUNK_MAX in *.
  specialize (Hwin ltac:(lia) ltac:(lia)).
  assert (zlen (ztake off b) = off) by (apply zlen_ztake; lia).
  assert (zlen (ztake n (rx_window base w)) = n) by (apply zlen_ztake; lia).
  split; [unfold b'; rewrite !zlen_app, zlen_zdrop; lia|].
  unfold b'. rewrite app_assoc, ztake_app by (rewrite zlen_app; lia).
  rewrite Hpre, Hwin, <- app_assoc. rewrite !Z.min_r by lia. f_equal.
  replace (off + n - 3584) with (k * 3584 + n) by lia.
  rewrite ztake_add by lia. do 2 f_equal. lia.
Qed.

(** Nothing is left to read. *)
Lemma read_assemble_done fuel b n w : read_assemble_loop fuel b cap n n w = Some ((0, b), w).
Proof using Type. destruct fuel; cbn [read_assemble_loop]; by rewrite Z.ltb_irrefl. Qed.

Lemma sync_loop fuel : ∀ w s k b,
  sync_state w s k b → 0 <= k → let off := (k + 1) * GXFP_ESPI_CHUNK_MAX in
  off < zlen pkt → zlen pkt - off <= Z.of_nat fuel → ztake off b = sync_image off →
  ∃ b' w' s' k', read_assemble_loop fuel b cap (zlen pkt) off w = Some ((0, b'), w') ∧
    sync_state w' s' k' b' ∧ ztake (zlen pkt) b' = sync_image (zlen pkt).
Proof using EO Hserve Hpkt.
  induction fuel as [|fuel IH]; intros w s k b Hst Hk0 off Hoff Hfuel Hpre; [lia|].
  destruct (sync_chunk w s k b Hst Hk0 Hoff Hpre) as (Hlen' & Hpre').
  destruct Hst as (d & t & Hd & Hmap & Hg & Ht & Htl & Hw & Hk & Hb).
  pose proof Hmap as (_ & Hb0 & Hs & _). destruct Hpkt as (_ & _ & _ & Hcap & _).
  destruct (rx_window_ok base w Hb0 Hs) as (Hwl & _).
  cbn [read_assemble_loop]. replace (off <? zlen pkt) with true by lia. cbn [negb].
  mstep (gdev_run w d Hd). rewrite chunk_calc_run, Ht, bool_decide_eq_false_2 by done.
  fold off in Hlen', Hpre'. set (n := (zlen pkt - off) `min` GXFP_ESPI_CHUNK_MAX) in *.
  assert (0 < n <= 3584 ∧ off + n <= zlen pkt) as (Hn & Hoffn)
    by (unfold n, GXFP_ESPI_CHUNK_MAX, GXFP_READ_CHUNK_MAX in *; lia).
  assert (0 <= off) by (unfold off, GXFP_ESPI_CHUNK_MAX, GXFP_READ_CHUNK_MAX; lia).
  replace (cap <? off + n) with false by lia.
  mstep (read_window_run base t w d Hd Hmap ltac:(lia)).
  mstep mod_gdev_run. cbn [Z.eqb negb].
  rewrite (zlen_0 (zdrop _ t)), app_nil_r by (rewrite zlen_zdrop; unfold GXFP_ESPI_CHUNK_MAX, GXFP_READ_CHUNK_MAX in *; lia).
  rewrite bind_lift. unfold memcpy. unfold GXFP_ESPI_CHUNK_MAX, GXFP_READ_CHUNK_MAX in Hwl.
  rewrite slice_Some, zdrop_0 by lia. cbn [mbind option_bind].
  assert (Hck : zlen (ztake n (rx_window base w)) = n) by (apply zlen_ztake; lia).
  rewrite blit_Some by lia. rewrite bind_lift, Hck. set (b' := ztake off b ++ _) in *.
  destruct (Z.ltb_spec (off + n) (zlen pkt)) as [Hmore|Hdone]; cbn [when].
  - assert (n = 3584) as Hn'
      by (unfold n, GXFP_ESPI_CHUNK_MAX, GXFP_READ_CHUNK_MAX in *; lia).
    replace (off + n) with ((k + 1 + 1) * GXFP_ESPI_CHUNK_MAX) in *
      by (unfold off, GXFP_ESPI_CHUNK_MAX, GXFP_READ_CHUNK_MAX; lia).
    rewrite bind_assoc. mstep pulse_read_done_run. unfold gxfp_busy_wait_us at 1. msimp.
    eapply (IH _ (s ++ EvRmb :: read_done_events true ++ [EvUsleep 15000 15200]));
      [|lia|lia|unfold GXFP_ESPI_CHUNK_MAX, GXFP_READ_CHUNK_MAX in *; lia|done].
    eexists _, (rx_window base w). split; [reflexivity|]. cbn.
    rewrite Hg, Hw, <- !app_assoc, read_pulses_app, Hk. cbn. split_and!; done || lia.
  - rewrite bind_ret. assert (off + n = zlen pkt) as Hn' by lia. rewrite Hn' in *.
    eexists b', _, (s ++ [EvRmb]), k.
    split; [by apply read_assemble_done|].
    split; [|done]. eexists _, (rx_window base w). split; [reflexivity|]. cbn.
    rewrite Hw, <- app_assoc, read_pulses_app, Hk. cbn. split_and!; done || lia.
Qed.

(** What follows the first window. *)
Lemma sync_rest w b :
  sync_state w [EvRmb] 0 b →
  ztake (zlen pkt `min` GXFP_ESPI_CHUNK_MAX) b = ztake (zlen pkt `min` GXFP_ESPI_CHUNK_MAX) pkt →
  ∃ b' w' d', read_assemble_loop (Z.to_nat (zlen pkt)) b cap (zlen pkt) (zlen pkt `min` GXFP_ESPI_CHUNK_MAX) w
              = Some ((0, b'), w') ∧ w_dev w' = Some d' ∧
    ztake (zlen pkt) b' = ztake (zlen pkt `min` GXFP_ESPI_CHUNK_MAX) pkt ++ ztake (zlen pkt - GXFP_ESPI_CHUNK_MAX) pkt ∧
    (zlen pkt <= GXFP_ESPI_CHUNK_MAX → ztake (zlen pkt) b' = pkt).
Proof using EO Hserve Hpkt.
  intros Hst Hpre. destruct (Z.lt_ge_cases GXFP_ESPI_CHUNK_MAX (zlen pkt)) as [Hgt|Hle].
  - rewrite Z.min_r in Hpre |- * by lia.
    destruct (sync_loop (Z.to_nat (zlen pkt)) _ _ 0 b Hst) as (b' & w' & s' & k' & E1 & (d' & _ & Hd' & _) & Him);
      [lia|lia|unfold GXFP_ESPI_CHUNK_MAX, GXFP_READ_CHUNK_MAX in *; lia| |].
    { unfold sync_image. change ((0 + 1) * GXFP_ESPI_CHUNK_MAX) with GXFP_ESPI_CHUNK_MAX.
      rewrite Z.min_id, Z.sub_diag, ztake_0, app_nil_r. done. }
    change ((0 + 1) * GXFP_ESPI_CHUNK_MAX) with GXFP_ESPI_CHUNK_MAX in E1.
    unfold sync_image in Him. rewrite Z.min_r in Him by lia. exists b', w', d'. split_and!; done || lia.
  - rewrite Z.min_l in Hpre |- * by lia. destruct Hst as (d & _ & Hd & _). exists b, w, d.
    split; [by apply read_assemble_done|]. split; [done|]. rewrite Hpre.
    replace (ztake (zlen pkt - GXFP_ESPI_CHUNK_MAX) pkt) with (@nil Z)
      by (unfold ztake; by replace (Z.to_nat _) with 0%nat by lia).
    rewrite app_nil_r. split; [done|]. intros _. by apply ztake_all.
Qed.

(** C17: the synchronous reader against the same sensor. It succeeds with the
    packet's length, and the bytes are the packet's only up to the first
    window: from 0xe00 on they are the packet's first bytes once more,
    because the second window is read before READ_DONE is pulsed. *)
Theorem sync_read_repeats_window w d t b out :
  w_dev w = Some d → mapped size base d → gpio_read_done (dev_hw d) = true →
  rx_tmp (dev_irq d) = Some t → zlen t = GXFP_ESPI_CHUNK_MAX →
  w_trace w = tr0 → zlen b = cap → GXFP_ESPI_CHUNK_MAX <= cap →
  ∃ b' w', gxfp_espi_read (Some b) cap (Some out) w
           = Some ((0, Some b', Some (zlen pkt)), w') ∧
    ztake (zlen pkt) b' = ztake (zlen pkt `min` GXFP_ESPI_CHUNK_MAX) pkt ++
                          ztake (zlen pkt - GXFP_ESPI_CHUNK_MAX) pkt ∧
    (zlen pkt <= GXFP_ESPI_CHUNK_MAX → ztake (zlen pkt) b' = pkt).
Proof using EO Hserve Hpkt.
  intros Hd Hmap Hg Ht Htl Hw Hb Hbc. pose proof Hpkt as (_ & H4 & _ & Hcap & _).
  pose proof Hmap as (Hm & Hb0 & Hs & Hsz).
  rewrite <- (app_nil_r tr0) in Hw.
  destruct (serve_head w [] Hw Hb0 Hs eq_refl) as (_ & Hhl).
  unfold gxfp_espi_read. mstep (gdev_null_run w d Hd).
  rewrite !(bool_decide_eq_false_2 (Some b = None)) by done. cbn [orb].
  rewrite (proj2 (Z.eqb_neq cap 0)) by lia. mstep (gdev_run w d Hd). rewrite Hm.
  rewrite (bool_decide_eq_false_2 (Some base = None)) by done.
  unfold gxfp_espi_read_assemble. mstep (gdev_null_run w d Hd).
  rewrite !(bool_decide_eq_false_2 (Some b = None)) by done. cbn [orb].
  rewrite (proj2 (Z.ltb_ge cap _) Hbc). mstep (gdev_run w d Hd). rewrite Hm.
  rewrite (bool_decide_eq_false_2 (Some base = None)) by done.
  rewrite (proj2 (Z.ltb_ge _ _)) by (unfold GXFP_MAILBOX_MIN_SIZE, GXFP_ESPI_RX_OFF, GXFP_ESPI_CHUNK_MAX, GXFP_READ_CHUNK_MAX in *; lia).
  rewrite bind_lift. unfold memset0.
  rewrite (blit_eq b 0 _ [] b []) by (rewrite ?app_nil_r; try done; rewrite zlen_zeros; lia).
  rewrite bind_lift. cbn [app]. rewrite app_nil_r.
  assert (Hz : zlen (zeros cap) = cap) by (apply zlen_zeros; lia).
  mstep (start_packet_run false cap base (zeros cap) w d Hd Hmap ltac:(lia)).
  unfold start_ret. cbn [andb]. rewrite Hhl.
  replace (4 + (zlen pkt - 4)) with (zlen pkt) by lia.
  rewrite (proj2 (Z.ltb_ge cap _)) by lia. cbn [Z.eqb negb]. rewrite !bind_lift.
  rewrite app_nil_r in Hw. destruct (first_window w (zeros cap) Hw Hb0 Hs Hz Hbc) as (Hb1 & Hpre).
  set (b1 := rx_window base w ++ _) in *.
  assert (Hst : sync_state (push [EvRmb] w) [EvRmb] 0 b1).
  { exists d, t. cbn. rewrite Hw. split_and!; done. }
  destruct (sync_rest _ b1 Hst Hpre) as (b' & w' & d' & E1 & Hd' & Him).
  erewrite run_bind by exact E1. cbn [Z.eqb negb]. mstep (pulse_read_done_run w' d' Hd').
  eexists _, _. split; [reflexivity|exact Him].
Qed.
End serving.

(** * Sending *)

(** The padding that completes the last 64-bit word. *)
Definition pad8 (n : Z) : Z := (- n) mod 8.

(** A packet as it lies in the mailbox: the 8-byte wrapper, the MP frame, the
    padding. *)
Definition espi_packet (seq : Z) (mp : bytes) : bytes :=
  let l := zlen mp in
  [240; l mod 256; l / 256 mod 256; (240 + l mod 256 + l / 256 mod 256) mod 256;
   seq mod 256; seq / 256 mod 256; 0; 0] ++ mp ++ zeros (pad8 l).

Definition next_seq (d : gxfp_dev) : Z := s32 (mailbox_seq16 d + 1).

(** The actions of a successful write. *)
Definition write_events (base : Z) (d : gxfp_dev) (mp : bytes) : list event :=
  let p := espi_packet (next_seq d mod 65536) mp in
  qwrites (Z.to_nat (zlen p / 8)) base p ++
  EvWmb :: write_done_events (gpio_write_done (dev_hw d)).

Lemma zlen_espi_packet seq mp : zlen (espi_packet seq mp) = 8 + zlen mp + pad8 (zlen mp).
Proof.
  unfold espi_packet, pad8. rewrite !zlen_app, zlen_zeros by zdm. rewrite !zlen_cons.
  change (@zlen Z []) with 0. lia.
Qed.

Lemma espi_packet_ok seq mp : bytes_ok mp → bytes_ok (espi_packet seq mp).
Proof.
  intros. unfold espi_packet. rewrite !bytes_ok_app, !bytes_ok_cons.
  split_and!; auto with gxfp; zint.
Qed.

(** The wrapper's bytes as the code computes them. *)
Lemma espi_head_bytes l :
  u8 (Z.land l 255) = l mod 256 ∧ u8 (Z.land (Z.shiftr l 8) 255) = l / 256 mod 256.
Proof.
  rewrite !land_255, shiftr_div by lia. unfold u8. change (2 ^ 8) with 256.
  by rewrite !Z.mod_mod by lia.
Qed.

Lemma write_pad l : Z.land (8 - Z.land l 7) 7 = pad8 l.
Proof. rewrite !land_7; unfold pad8; zdm. Qed.

Section tx_lemmas.
Context {E : Kenv} {size : Z} {EO : KenvOk E size}.

(** The part of the write after the buffer has been allocated and cleared. *)
Lemma write_filled w d base mp rest n :
  w_dev w = Some d → mailbox_mmio (dev_hw d) = Some base → bytes_ok mp →
  0 < zlen mp <= 504 → n = 8 + zlen mp + pad8 (zlen mp) →
  (tx ← lift (wr (zeros n) 0 GXFP_ESPI_WRAPPER_MAGIC);
   tx ← lift (wr tx 1 (u8 (Z.land (zlen mp) 255)));
   tx ← lift (wr tx 2 (u8 (Z.land (Z.shiftr (zlen mp) 8) 255)));
   tx0 ← lift (rd tx 0);
   tx1 ← lift (rd tx 1);
   tx2 ← lift (rd tx 2);
   tx ← lift (wr tx 3 (u8 (Z.land (tx0 + tx1 + tx2) 255)));
   mod_gdev (λ d, set_seq16 (s32 (mailbox_seq16 d + 1)) d);;
   d ← gdev;
   let seq16 := u16 (Z.land (mailbox_seq16 d) 65535) in
   tx ← lift (wr tx 4 (u8 (Z.land seq16 255)));
   tx ← lift (wr tx 5 (u8 (Z.land (Z.shiftr seq16 8) 255)));
   src ← lift (Some (mp ++ rest));
   tx ← lift (memcpy tx 8 src 0 (zlen mp));
   ret ← gxfp_mmio_write_qword_aligned (mailbox_mmio (dev_hw d)) (Some tx)
           (Z.land (n + 7) (Z.lnot 7));
   if negb (ret =? 0) then mret (- EIO) else
   gxfp_gpio_pulse_write_done;;
   mret 0) w
  = Some (0, set_dev (set_seq16 (next_seq d) d) (push (write_events base d mp) w)).
Proof.
  intros Hd Hm Hmp Hl Hn. assert (Hp : 0 <= pad8 (zlen mp) < 8) by (unfold pad8; zdm).
  assert (Hn8 : n mod 8 = 0) by (rewrite Hn; unfold pad8; zdm).
  destruct (espi_head_bytes (zlen mp)) as (-> & ->).
  rewrite Hn at 1. rewrite !zeros_add by lia. rewrite <- app_assoc.
  set (t := zeros (zlen mp) ++ zeros (pad8 (zlen mp))).
  change (zeros 8 ++ t) with (0 :: 0 :: 0 :: 0 :: 0 :: 0 :: 0 :: 0 :: t).
  rewrite wr_0, bind_lift, wr_1, bind_lift, wr_2, bind_lift.
  change (rd (?x :: ?t) 0) with (Some x). change (rd (?x :: ?a :: ?t) 1) with (Some a).
  change (rd (?x :: ?a :: ?b :: ?t) 2) with (Some b).
  rewrite !bind_lift, wr_3, bind_lift.
  mstep mod_gdev_run. fold (next_seq d). mstep gdev_run.
  cbv zeta. cbn [mailbox_seq16 set_seq16 dev_hw].
  set (seq := u16 (Z.land (next_seq d) 65535)).
  destruct (espi_head_bytes seq) as (-> & ->).
  rewrite wr_4, bind_lift, wr_5, !bind_lift. unfold memcpy. rewrite slice_prefix by done.
  cbn [mbind option_bind]. unfold t.
  rewrite (blit_eq _ 8 mp [_; _; _; _; _; _; _; _] (zeros (zlen mp)) (zeros (pad8 (zlen mp))))
    by (done || (rewrite zlen_zeros; lia)).
  rewrite bind_lift, Hm. rewrite land_255.
  replace (u8 ((GXFP_ESPI_WRAPPER_MAGIC + zlen mp mod 256 + zlen mp / 256 mod 256) mod 256))
    with ((240 + zlen mp mod 256 + zlen mp / 256 mod 256) mod 256)
    by (unfold GXFP_ESPI_WRAPPER_MAGIC; zint).
  assert (Hseq : seq = next_seq d mod 65536).
  { unfold seq. change 65535 with (Z.ones 16). rewrite Z.land_ones by lia. zint. }
  rewrite Hseq. change ([?a; ?b; ?c; ?e; ?f; ?g; 0; 0] ++ mp ++ ?z)
    with (espi_packet (next_seq d mod 65536) mp).
  set (p := espi_packet _ mp).
  assert (Hpl : zlen p = n) by (unfold p; rewrite zlen_espi_packet; lia).
  assert (Hal : Z.land (n + 7) (Z.lnot 7) = zlen p).
  { change (Z.lnot 7) with (Z.lnot (Z.ones 3)). rewrite <- Z.ldiff_land, Z.ldiff_ones_r by lia.
    rewrite Z.shiftl_mul_pow2, Z.shiftr_div_pow2 by lia. rewrite Hpl. zdm. }
  rewrite Hal. erewrite run_bind by (apply mmio_write_run; by rewrite Hpl).
  cbn [Z.eqb negb]. mstep pulse_write_done_run.
  rewrite ret_run, !push_set_dev, push_push. unfold write_events. fold p.
  by rewrite <- app_assoc.
Qed.

Lemma write_events_mem base d mp p m q :
  bytes_ok mp → zlen p = base → zlen m = zlen (espi_packet (next_seq d mod 65536) mp) →
  mem_after (write_events base d mp) (p ++ m ++ q)
  = Some (p ++ espi_packet (next_seq d mod 65536) mp ++ q).
Proof.
  intros Hmp Hp Hm. unfold write_events. set (k := espi_packet _ _) in *.
  assert (Hk : zlen k mod 8 = 0)
    by (unfold k; rewrite zlen_espi_packet; unfold pad8; zdm).
  pose proof (zlen_nonneg k). rewrite mem_after_app.
  erewrite qwrites_mem; [|by apply espi_packet_ok|rewrite Z2Nat.id; zdm|done|done].
  cbn [mbind option_bind]. by destruct (gpio_write_done (dev_hw d)).
Qed.

(** A write, on every path. *)
Lemma espi_write_run w d base mp rest :
  w_dev w = Some d → mailbox_mmio (dev_hw d) = Some base → bytes_ok mp →
  0 < zlen mp < 2 ^ 63 →
  gxfp_espi_write (Some (mp ++ rest)) (zlen mp) w
  = Some (if 504 <? zlen mp then (- EOVERFLOW, w) else
          match w_oom w with
          | true :: _ => (- ENOMEM, pop_oom w)
          | _ => (0, set_dev (set_seq16 (next_seq d) d)
                       (push (write_events base d mp) (pop_oom w)))
          end).
Proof using EO.
  intros Hd Hm Hmp Hl.
  assert (Hp : 0 <= pad8 (zlen mp) < 8 ∧ (8 + zlen mp + pad8 (zlen mp)) mod 8 = 0)
    by (unfold pad8; zdm).
  unfold gxfp_espi_write. mstep (gdev_null_run w d Hd).
  rewrite bool_decide_eq_false_2 by done. cbn [orb].
  replace (zlen mp =? 0) with false by lia. mstep (gdev_run w d Hd).
  rewrite Hm, bool_decide_eq_false_2 by done.
  unfold GXFP_ESPI_ALIGN, GXFP_FRAME_ALIGNMENT. change (8 - 1) with 7.
  rewrite write_pad. cbv zeta.
  replace (u64 (8 + zlen mp + pad8 (zlen mp))) with (8 + zlen mp + pad8 (zlen mp)) by zint.
  unfold GXFP_TX_BUFFER_SIZE.
  destruct (Z.ltb_spec 504 (zlen mp)) as [H504|H504].
  { rewrite (proj2 (Z.ltb_lt 512 _)) by (unfold pad8 in *; zdm). done. }
  rewrite (proj2 (Z.ltb_ge 512 _)) by (unfold pad8 in *; zdm).
  set (n := 8 + zlen mp + pad8 (zlen mp)) in *.
  assert (Hu : zlen (uninit (w_trace w) n) = n) by (apply uninit_len; lia).
  mstep kmalloc_run. destruct (w_oom w) as [|[] oom];
    [|by rewrite bool_decide_eq_true_2|]; rewrite bool_decide_eq_false_2 by done.
  all: rewrite bind_lift, memset0_full, bind_lift by done; apply write_filled; done || lia.
Qed.

(** What a write puts on the wire, on every path. A frame of at most 504
    bytes is sent as the wrapper, the frame and the padding, in order, followed
    by one WRITE_DONE pulse, under the next sequence number; whatever the
    window held before, it holds exactly the packet after. A longer frame is
    refused with EOVERFLOW and nothing happens; without memory nothing
    happens either. *)
Theorem espi_write_wire w d base mp rest :
  w_dev w = Some d → mailbox_mmio (dev_hw d) = Some base → bytes_ok mp →
  0 < zlen mp < 2 ^ 63 →
  gxfp_espi_write (Some (mp ++ rest)) (zlen mp) w
  = Some (if 504 <? zlen mp then (- EOVERFLOW, w) else
          match w_oom w with
          | true :: _ => (- ENOMEM, pop_oom w)
          | _ => (0, set_dev (set_seq16 (next_seq d) d)
                       (push (write_events base d mp) (pop_oom w)))
          end) ∧
  (∀ p m q, zlen p = base → zlen m = zlen (espi_packet (next_seq d mod 65536) mp) →
     mem_after (write_events base d mp) (p ++ m ++ q)
     = Some (p ++ espi_packet (next_seq d mod 65536) mp ++ q)).
Proof using EO.
  intros Hd Hm Hmp Hl. split; [by apply espi_write_run|]. intros. by apply write_events_mem.
Qed.
End tx_lemmas.

(** * A concrete sensor, and the theorems at work on it *)

(** [b] followed by zeros up to [n] bytes. *)
Definition fill (n : Z) (b : bytes) : bytes := ztake n (b ++ zeros n).

Lemma zlen_fill n b : 0 <= n → zlen (fill n b) = n.
Proof.
  intros Hn. pose proof (zlen_nonneg b). apply zlen_ztake.
  rewrite zlen_app, (zlen_zeros n Hn). lia.
Qed.

(** A sensor that serves the one packet [pkt], and memory filled with 0x5a. *)
Definition packet_env (pkt : bytes) : Kenv :=
  {| mailbox_at tr := zeros 512 ++ fill 3584 (zdrop (read_pulses tr * 3584) pkt);
     uninit _ n := replicate (Z.to_nat n) 90;
     ktime_real _ := (0, 0);
     ktime_ns _ := 0 |}.

Lemma packet_env_ok pkt : bytes_ok pkt → KenvOk (packet_env pkt) 4096.
Proof.
  intros Hp. split; cbn [mailbox_at uninit packet_env]; unfold fill.
  - intros tr. pose proof (zlen_nonneg (zdrop (read_pulses tr * 3584) pkt)).
    rewrite zlen_app, zlen_ztake, zlen_zeros by (rewrite ?zlen_app, ?zlen_zeros; lia). lia.
  - intros tr. rewrite bytes_ok_app. split; [auto with gxfp|].
    apply bytes_ok_ztake, bytes_ok_app. auto with gxfp.
  - intros _ n Hn. unfold zlen. rewrite length_replicate. lia.
  - intros _ n. apply Forall_replicate. unfold is_u8. lia.
Qed.

Lemma packet_env_serves pkt : serves (E:=packet_env pkt) 0 pkt [].
Proof.
  intros s k Hk n. cbn [mailbox_at packet_env app]. fold k.
  pose proof (read_pulses_nonneg s).
  unfold GXFP_ESPI_CHUNK_MAX, GXFP_READ_CHUNK_MAX, GXFP_ESPI_RX_OFF in *.
  assert (Hz : zlen (zdrop k pkt) = zlen pkt - k) by (apply zlen_zdrop; lia).
  assert (Hf : zlen (fill 3584 (zdrop k pkt)) = 3584) by (apply zlen_fill; lia).
  fold k. assert (zlen (zeros 512) = 512) by done. rewrite !slice_Some by (rewrite ?zlen_app; lia). f_equal.
  rewrite zdrop_app by (rewrite zlen_zeros; lia). unfold fill.
  rewrite ztake_ztake by lia. unfold ztake. rewrite take_app_le; [done|].
  unfold zlen in *. lia.
Qed.

Definition demo_dev : gxfp_dev :=
  {| mailbox_seq16 := GXFP_ESPI_SEQ16_INIT;
     dev_hw := {| mailbox_mmio := Some 0; mailbox_size := 4096; gpio_write_done := true;
                  gpio_read_done := true; gpio_irq := true; irq := 1 |};
     dev_irq := {| rx_buf := Some (zeros 8192); rx_cap := 8192; rx_tmp := Some (zeros 3584);
                   assem_active := false; assem_total := 0; assem_copied := 0 |} |}.
Definition demo_world : kworld := {| w_dev := Some demo_dev; w_trace := []; w_oom := [] |}.

(** A packet of 4004 bytes: two windows. *)
Definition demo_pkt : bytes := mp_frame 160 (replicate 4000 7).

Lemma demo_pkt_ok : packet_ok 8192 demo_pkt.
Proof.
  split; [apply mp_frame_ok; [unfold is_u8; lia|apply Forall_replicate; unfold is_u8; lia]|].
  by vm_compute.
Qed.

Lemma demo_mapped : mapped 4096 0 demo_dev.
Proof. by vm_compute. Qed.

Lemma irq_step_invariant_witness :
  irq_post (size:=4096) 0 8192
    (gxfp_espi_irq_read_step (E:=packet_env demo_pkt) (Some (zeros 8192)) 8192
       (Some 0) (Some false) demo_world).
Proof.
  apply (irq_step_invariant (EO := packet_env_ok demo_pkt (proj1 demo_pkt_ok))
           0 demo_dev demo_world (zeros 8192) 8192 0 false).
  - reflexivity.
  - exact demo_mapped.
  - split; [intros t Ht; injection Ht as <-; reflexivity|discriminate].
  - vm_compute; discriminate.
  - reflexivity.
Defined.

Lemma irq_reassembly_witness :
  ∃ b' o c w', irq_steps (E:=packet_env demo_pkt) 2 (Some (zeros 8192)) 8192 demo_world
     = Some ((0, Some b', Some o, Some c), w') ∧ c = true ∧ ztake 4004 b' = demo_pkt.
Proof.
  destruct (irq_reassembly (EO := packet_env_ok demo_pkt (proj1 demo_pkt_ok)) 0 8192 demo_pkt []
    (packet_env_serves demo_pkt) demo_pkt_ok 2 demo_world demo_dev (zeros 3584) (zeros 8192))
    as (b' & o & c & w' & Erun & Hc & Hfin); try reflexivity.
  - exact demo_mapped.
  - vm_compute; discriminate.
  - exists b', o, c, w'. split; [exact Erun|].
    assert (Ht : c = true) by (rewrite Hc; vm_compute; reflexivity).
    split; [exact Ht|]. exact (proj1 (proj2 (Hfin Ht))).
Defined.

Lemma sync_read_repeats_window_witness :
  ∃ b' w', gxfp_espi_read (E:=packet_env demo_pkt) (Some (zeros 8192)) 8192 (Some 0) demo_world
     = Some ((0, Some b', Some 4004), w') ∧
     ztake 4004 b' = ztake 3584 demo_pkt ++ ztake 420 demo_pkt ∧
     ztake 4004 b' ≠ demo_pkt.
Proof.
  destruct (sync_read_repeats_window (EO := packet_env_ok demo_pkt (proj1 demo_pkt_ok)) 0 8192
    demo_pkt [] (packet_env_serves demo_pkt) demo_pkt_ok demo_world demo_dev (zeros 3584)
    (zeros 8192) 0) as (b' & w' & Erun & Hb & _); try reflexivity.
  - exact demo_mapped.
  - vm_compute; discriminate.
  - exists b', w'. split; [exact Erun|]. split; [exact Hb|].
    change (zlen demo_pkt) with 4004 in Hb. rewrite Hb. vm_compute. discriminate.
Defined.

Lemma espi_write_wire_witness :
  ∃ w', gxfp_espi_write (E:=packet_env demo_pkt) (Some ([160; 1; 0; 161; 9] ++ [])) 5 demo_world
        = Some (0, w') ∧
    mem_after (w_trace w') ([] ++ zeros 16 ++ [])
    = Some ([240; 5; 0; 245; 130; 136; 0; 0; 160; 1; 0; 161; 9; 0; 0; 0]).
Proof.
  destruct (espi_write_wire (EO := packet_env_ok demo_pkt (proj1 demo_pkt_ok)) demo_world demo_dev
    0 [160; 1; 0; 161; 9] []) as (Erun & Hmem).
  - reflexivity.
  - reflexivity.
  - repeat constructor; vm_compute; try discriminate; reflexivity.
  - vm_compute; split; reflexivity.
  - eexists. split; [exact Erun|]. exact (Hmem [] (zeros 16) [] eq_refl eq_refl).
Defined.
