(* ===== verification/KTransport.v ===== *)
(** What the transport promises to the commands: an interface, and the proof
    that [KEspi] implements it for every sensor.

    The contract of [gxfp_espi_xfer] says that an exchange is defined whatever
    the sensor shows, sends at most one packet, keeps the device usable, and on
    success returns what the receive path read. *)
From Stdlib Require Import ZArith Lia.
From stdpp Require Import prelude list.
From S2P Require Import Prelude KMpProto KWorld KEspi.

Open Scope Z_scope.

(** The packets sent in a trace: each write of the window ends in a barrier. *)
Fixpoint sends (tr : list event) : Z :=
  match tr with
  | [] => 0
  | EvWmb :: tr => 1 + sends tr
  | _ :: tr => sends tr
  end.

(** [w'] continues [w]: the trace has grown by at most [n] packets and the
    device is still fit for use. *)
Definition continues (fit : gxfp_dev → Prop) (n : Z) (w w' : kworld) : Prop :=
  ∃ d s, w_dev w' = Some d ∧ fit d ∧ w_trace w' = w_trace w ++ s ∧ sends s <= n.

(** An exchange that ends in [w'] with the packet [rx] of [len] bytes. *)
Definition exchanged {E : Kenv} (w' : kworld) (rx : bytes) (len : Z) : Prop :=
  bytes_ok rx ∧ 4 <= len <= GXFP_MAILBOX_MIN_SIZE ∧
  ∃ w1 b o, gxfp_espi_read (Some b) GXFP_MAILBOX_MIN_SIZE (Some o) w1
            = Some ((0, Some rx, Some len), w').

Class TransportOk {E : Kenv} (fit : gxfp_dev → Prop) := {
  xfer_contract : ∀ w d frame rest b o,
    w_dev w = Some d → fit d → bytes_ok frame → 0 < zlen frame <= GXFP_TX_BUFFER_SIZE →
    zlen b = GXFP_MAILBOX_MIN_SIZE →
    wp (gxfp_espi_xfer (Some (frame ++ rest)) (zlen frame) (Some b) GXFP_MAILBOX_MIN_SIZE (Some o))
       (λ r w', let '(ret, rx, o') := r in ∃ b' l, rx = Some b' ∧ o' = Some l ∧
          continues fit 1 w w' ∧ zlen b' = GXFP_MAILBOX_MIN_SIZE ∧
          (ret = 0 → exchanged w' b' l)) w;
  fit_mailbox : ∀ d, fit d → mailbox_mmio (dev_hw d) ≠ None ∧
    GXFP_MAILBOX_MIN_SIZE <= mailbox_size (dev_hw d)
}.

(** * Lemmas on traces *)

Lemma sends_app a b : sends (a ++ b) = sends a + sends b.
Proof. induction a as [|[| | | | | |] a IH]; cbn [sends app]; rewrite ?IH; lia. Qed.

Lemma sends_nonneg a : 0 <= sends a.
Proof. induction a as [|[| | | | | |] a IH]; cbn [sends]; lia. Qed.

Lemma sends_qwrites n off b : sends (qwrites n off b) = 0.
Proof. revert off b. induction n; intros; cbn [qwrites sends]; auto. Qed.

Lemma sends_read_done desc : sends (read_done_events desc) = 0.
Proof. by destruct desc. Qed.

Lemma continues_refl fit w d : w_dev w = Some d → fit d → continues fit 0 w w.
Proof. intros. exists d, []. rewrite app_nil_r. cbn. split_and!; done. Qed.

Lemma continues_trans fit n m k w1 w2 w3 :
  continues fit n w1 w2 → continues fit m w2 w3 → n + m <= k → continues fit k w1 w3.
Proof.
  intros (d1 & s1 & _ & _ & E1 & H1) (d2 & s2 & Hd & Hf & E2 & H2) Hk.
  exists d2, (s1 ++ s2). rewrite E2, E1, <- app_assoc, sends_app. split_and!; done || lia.
Qed.

Lemma continues_dev fit n w w' : continues fit n w w' → ∃ d, w_dev w' = Some d ∧ fit d.
Proof. intros (d & s & Hd & Hf & _). eauto. Qed.

Lemma continues_push (fit : gxfp_dev → Prop) w d evs :
  w_dev w = Some d → fit d → sends evs = 0 → continues fit 0 w (push evs w).
Proof. intros Hd Hf Hs. exists d, evs. cbn. split_and!; done || lia. Qed.

(** * The eSPI transport keeps the contract *)

(** A device after probe: mailbox mapped, scratch buffer allocated. *)
Definition espi_fit (size base : Z) (d : gxfp_dev) : Prop :=
  mapped size base d ∧ ∃ t, rx_tmp (dev_irq d) = Some t ∧ zlen t = GXFP_ESPI_CHUNK_MAX.

Section espi.
Context {E : Kenv} {size : Z} {EO : KenvOk E size}.
Context (base : Z).

(** What else a client wants to know of the device, as far as the transport
    cannot change it: it touches the sequence number and the scratch buffer. *)
Context (Inv : gxfp_dev → Prop).
Context (Hseq : ∀ s d, Inv d → Inv (set_seq16 s d)).
Context (Htmp : ∀ t d, Inv d → Inv (set_irq (set_rx_tmp t (dev_irq d)) d)).

Abbreviation fit := (λ d, espi_fit size base d ∧ Inv d).

Lemma read_loop_wp fuel : ∀ w d b cap total off,
  w_dev w = Some d → fit d → zlen b = cap → bytes_ok b → total <= cap →
  0 <= off → total - off <= Z.of_nat fuel →
  wp (read_assemble_loop fuel b cap total off)
     (λ r w', continues fit 0 w w' ∧ zlen r.2 = cap ∧ bytes_ok r.2) w.
Proof using EO Hseq Htmp.
  induction fuel as [|fuel IH]; intros w d b cap total off Hd Hfit Hb Hok Hcap Hoff Hfuel;
    cbn [read_assemble_loop].
  { rewrite (proj2 (Z.ltb_ge off total)) by lia. cbn [negb]. apply wp_ret. split; [|done].
    by apply continues_refl with d. }
  destruct (Z.ltb_spec off total) as [Hlt|]; cbn [negb]; cycle 1.
  { apply wp_ret. split; [|done]. by apply continues_refl with d. }
  pose proof Hfit as ((Hmap & t & Ht & Htl) & HI). pose proof Hmap as (_ & Hb0 & Hs & _).
  destruct (rx_window_ok base w Hb0 Hs) as (Hwl & Hwb).
  apply wp_bind. eapply wp_eq; [by apply gdev_run|].
  rewrite chunk_calc_run, Ht, bool_decide_eq_false_2 by done.
  unfold GXFP_ESPI_CHUNK_MAX, GXFP_READ_CHUNK_MAX in *.
  set (n := (total - off) `min` 3584).
  rewrite (proj2 (Z.ltb_ge cap _)) by lia.
  apply wp_bind. eapply wp_eq; [apply (read_window_run base t w d Hd Hmap);
    unfold GXFP_ESPI_CHUNK_MAX, GXFP_READ_CHUNK_MAX; lia|].
  cbv beta iota. apply wp_bind. eapply wp_eq; [by eapply mod_gdev_run|]. cbn [Z.eqb negb].
  unfold GXFP_ESPI_CHUNK_MAX, GXFP_READ_CHUNK_MAX.
  rewrite (zlen_0 (zdrop _ t)), app_nil_r by (rewrite zlen_zdrop; lia).
  apply wp_bind. eapply wp_lift; [done|]. apply wp_bind. unfold memcpy.
  rewrite slice_Some, zdrop_0 by lia. cbn [mbind option_bind].
  assert (Hck : zlen (ztake n (rx_window base w)) = n) by (apply zlen_ztake; lia).
  rewrite blit_Some by lia. eapply wp_lift; [done|]. rewrite Hck.
  set (b' := ztake off b ++ _).
  assert (zlen b' = cap ∧ bytes_ok b') as (Hb' & Hok').
  { unfold b'. rewrite !zlen_app, Hck, zlen_ztake, zlen_zdrop, !bytes_ok_app by lia.
    split_and!; auto with gxfp. lia. }
  set (d' := set_irq _ d). assert (Hfit' : fit d')
    by (split; [split; [done|]; eexists; by split|by apply Htmp]).
  apply wp_bind. eapply wp_mono with
    (P := λ _ w', continues fit 0 w w').
  - destruct (off + n <? total); cbn [when].
    + apply wp_bind. eapply wp_eq; [by eapply pulse_read_done_run|].
      unfold wp, gxfp_busy_wait_us at 1. cbn -[read_done_events].
      exists d', (EvRmb :: read_done_events (gpio_read_done (dev_hw d)) ++ [EvUsleep 15000 15200]).
      cbn. rewrite <- !app_assoc. cbn. rewrite sends_app, sends_read_done. done.
    + apply wp_ret. exists d', [EvRmb]. done.
  - intros _ w2 Hc. destruct (continues_dev _ _ _ _ Hc) as (d2 & Hd2 & Hfit2).
    eapply wp_mono; [eapply (IH w2 d2); try done; lia|]. intros r w3 (Hc3 & Hr).
    split; [|done]. by eapply continues_trans.
Qed.

(** The receive path on an arbitrary sensor. *)
Lemma espi_read_wp w d b o :
  w_dev w = Some d → fit d → zlen b = GXFP_MAILBOX_MIN_SIZE →
  wp (gxfp_espi_read (Some b) GXFP_MAILBOX_MIN_SIZE (Some o))
     (λ r w', let '(ret, rx, o') := r in ∃ b' l, rx = Some b' ∧ o' = Some l ∧
        continues fit 0 w w' ∧ zlen b' = GXFP_MAILBOX_MIN_SIZE ∧
        bytes_ok b' ∧ (ret = 0 → 4 <= l <= GXFP_MAILBOX_MIN_SIZE)) w.
Proof using EO Hseq Htmp.
  intros Hd Hfit Hb. pose proof Hfit as ((Hmap & t & Ht & Htl) & HI).
  pose proof Hmap as (Hm & Hb0 & Hs & Hsz).
  destruct (rx_window_ok base w Hb0 Hs) as (Hwl & Hwb).
  unfold gxfp_espi_read. apply wp_bind. eapply wp_eq; [by eapply gdev_null_run|].
  rewrite !(bool_decide_eq_false_2 (Some b = None)) by done. cbn [orb Z.eqb GXFP_MAILBOX_MIN_SIZE].
  apply wp_bind. eapply wp_eq; [by apply gdev_run|]. rewrite Hm, bool_decide_eq_false_2 by done.
  unfold gxfp_espi_read_assemble. apply wp_bind. eapply wp_eq; [by eapply gdev_null_run|].
  rewrite !(bool_decide_eq_false_2 (Some b = None)) by done. cbn [orb].
  rewrite (proj2 (Z.ltb_ge _ _)) by (vm_compute; done).
  apply wp_bind. eapply wp_eq; [by apply gdev_run|].
  rewrite Hm, bool_decide_eq_false_2 by done.
  unfold GXFP_MAILBOX_MIN_SIZE, GXFP_ESPI_RX_OFF, GXFP_ESPI_CHUNK_MAX, GXFP_READ_CHUNK_MAX in *.
  rewrite (proj2 (Z.ltb_ge _ _)) by lia.
  apply wp_bind. eapply wp_lift; [done|]. apply wp_bind. rewrite memset0_full by done.
  eapply wp_lift; [done|]. assert (Hz : zlen (zeros 4096) = 4096) by done.
  apply wp_bind. eapply wp_eq;
    [apply (start_packet_run false 4096 base (zeros 4096) w d Hd Hmap); by vm_compute|].
  cbv zeta beta iota. unfold GXFP_ESPI_CHUNK_MAX, GXFP_READ_CHUNK_MAX.
  set (b1 := rx_window base w ++ _).
  assert (zlen b1 = 4096 ∧ bytes_ok b1) as (Hb1 & Hok1).
  { unfold b1. rewrite zlen_app, Hwl, bytes_ok_app. split; [done|]. auto with gxfp. }
  pose proof (head_len_bound _ Hwb) as Hh. set (hl := head_len _) in *.
  unfold start_ret. cbn [andb]. destruct (Z.ltb_spec 4096 (4 + head_len (rx_window base w))) as [Hlt|Hge].
  { cbn [Z.eqb negb Z.opp EMSGSIZE]. apply wp_ret. eexists _, _. split; [done|]. split; [done|].
    split; [by eapply continues_push|]. done. }
  fold hl in Hge |- *. cbn [Z.eqb negb]. do 3 (apply wp_bind; eapply wp_lift; [done|]).
  apply wp_bind. eapply wp_mono.
  { apply (read_loop_wp _ (push [EvRmb] w) d b1 4096); try done; lia. }
  intros [ret b2] w2 (Hc & Hb2 & Hok2). cbn in Hb2, Hok2.
  assert (Hc0 : continues fit 0 w w2).
  { eapply continues_trans; [eapply (continues_push _ w d [EvRmb]); done|exact Hc|done]. }
  destruct (Z.eqb_spec ret 0) as [->|Hr]; cbn [negb]; cycle 1.
  { apply wp_ret. eexists _, _. split; [done|]. split; [done|]. done. }
  destruct (continues_dev _ _ _ _ Hc) as (d2 & Hd2 & Hf2).
  apply wp_bind. eapply wp_eq; [by eapply pulse_read_done_run|]. apply wp_ret.
  eexists _, _. split; [done|]. split; [done|]. split.
  { eapply (continues_trans _ 0 0); [exact Hc0| |done]. eapply continues_push; try done.
    apply sends_read_done. }
  split_and!; try done; lia.
Qed.

Lemma write_events_sends d mp : sends (write_events base d mp) = 1.
Proof.
  unfold write_events. rewrite sends_app, sends_qwrites. cbn [sends].
  by destruct (gpio_write_done (dev_hw d)).
Qed.

Lemma espi_write_wp w d frame rest :
  w_dev w = Some d → fit d → bytes_ok frame → 0 < zlen frame <= GXFP_TX_BUFFER_SIZE →
  wp (gxfp_espi_write (Some (frame ++ rest)) (zlen frame))
     (λ ret w', continues fit 1 w w') w.
Proof using EO Hseq Htmp.
  intros Hd Hfit Hf Hl. pose proof Hfit as ((Hmap & t & Ht & Htl) & HI). pose proof Hmap as (Hm & _).
  unfold GXFP_TX_BUFFER_SIZE in *.
  unfold wp. rewrite (espi_write_run w d base frame rest) by (done || lia).
  assert (H0 : ∀ evs d', fit d' → sends evs <= 1 →
    continues fit 1 w (set_dev d' (push evs (pop_oom w)))) by (intros evs d' ??; by exists d', evs).
  destruct (504 <? zlen frame); [by exists d, []; cbn; rewrite app_nil_r|].
  destruct (w_oom w) as [|[] ?]; [|by exists d, []; cbn; rewrite app_nil_r|];
    (apply H0; [split; [by split; [|exists t]|by apply Hseq]|]); by rewrite write_events_sends.
Qed.

(** The interface is implemented. *)
Lemma espi_transport_with : TransportOk fit.
Proof using EO Hseq Htmp.
  split; [|intros d (((Hm & _ & _ & Hsz) & _) & _); by rewrite Hm].
  intros w d frame rest b o Hd Hfit Hf Hl Hb. unfold gxfp_espi_xfer.
  apply wp_bind. eapply wp_mono; [by eapply espi_write_wp|]. intros ret w1 Hc1.
  destruct (Z.eqb_spec ret 0) as [->|Hr]; cbn [negb]; cycle 1.
  { apply wp_ret. eexists _, _. split; [done|]. split; [done|]. split_and!; done. }
  apply wp_bind. eapply wp_eq; [reflexivity|]. cbv beta.
  destruct (continues_dev _ _ _ _ Hc1) as (d1 & Hd1 & Hf1).
  set (w2 := {| w_dev := _ |}).
  pose proof (espi_read_wp w2 d1 b o Hd1 Hf1 Hb) as Hrd. unfold wp in Hrd |- *.
  destruct (gxfp_espi_read (Some b) _ (Some o) w2) as [[[[ret rx] o'] w3]|] eqn:Er; [|done].
  destruct Hrd as (b' & l & -> & -> & Hc2 & Hb' & Hok & Hlen).
  eexists _, _. split; [done|]. split; [done|]. split.
  { eapply (continues_trans _ 1 0); [exact Hc1| |done].
    eapply (continues_trans _ 0 0); [|exact Hc2|done].
    apply (continues_push _ w1 d1 [EvUdelay 1000]); done. }
  split; [done|]. intros ->. split; [done|]. split; [by apply Hlen|]. by exists w2, b, o.
Qed.
End espi.

Section espi_plain.
Context {E : Kenv} {size : Z} {EO : KenvOk E size}.
Context (base : Z).

(** A packet that fits the first window is read as it is. *)
Lemma espi_read_single w d b o :
  w_dev w = Some d → espi_fit size base d → zlen b = GXFP_MAILBOX_MIN_SIZE →
  let win := rx_window base w in
  4 + head_len win <= GXFP_ESPI_CHUNK_MAX →
  gxfp_espi_read (Some b) GXFP_MAILBOX_MIN_SIZE (Some o) w
  = Some ((0, Some (win ++ zeros 512), Some (4 + head_len win)),
          push (EvRmb :: read_done_events (gpio_read_done (dev_hw d))) w).
Proof using EO.
  intros Hd (Hmap & _) Hb win Hh. pose proof Hmap as (Hm & Hb0 & Hs & Hsz).
  destruct (rx_window_ok base w Hb0 Hs) as (Hwl & Hwb).
  pose proof (head_len_bound win Hwb) as Hh0.
  unfold gxfp_espi_read. mstep (gdev_null_run w d Hd).
  rewrite !(bool_decide_eq_false_2 (Some b = None)) by done. cbn [orb Z.eqb GXFP_MAILBOX_MIN_SIZE].
  mstep (gdev_run w d Hd). rewrite Hm, bool_decide_eq_false_2 by done.
  unfold gxfp_espi_read_assemble. mstep (gdev_null_run w d Hd).
  rewrite !(bool_decide_eq_false_2 (Some b = None)) by done. cbn [orb].
  rewrite (proj2 (Z.ltb_ge _ _)) by (vm_compute; done). mstep (gdev_run w d Hd).
  rewrite Hm, bool_decide_eq_false_2 by done.
  unfold GXFP_MAILBOX_MIN_SIZE, GXFP_ESPI_RX_OFF, GXFP_ESPI_CHUNK_MAX, GXFP_READ_CHUNK_MAX in *.
  rewrite (proj2 (Z.ltb_ge _ _)) by lia.
  rewrite bind_lift, memset0_full, bind_lift by done.
  mstep (start_packet_run false 4096 base (zeros 4096) w d Hd Hmap ltac:(by vm_compute)).
  fold win. unfold start_ret. cbn [andb]. rewrite (proj2 (Z.ltb_ge 4096 _)) by lia.
  cbn [Z.eqb negb]. rewrite !bind_lift. unfold GXFP_ESPI_CHUNK_MAX, GXFP_READ_CHUNK_MAX.
  rewrite Z.min_l by lia. erewrite run_bind; last first.
  { destruct (Z.to_nat (4 + head_len win)); cbn [read_assemble_loop]; rewrite Z.ltb_irrefl; reflexivity. }
  cbn [Z.eqb negb]. mstep (pulse_read_done_run (push [EvRmb] w) d Hd).
  by rewrite ret_run, push_push.
Qed.

Lemma continues_impl (fit fit' : gxfp_dev → Prop) n w w' :
  (∀ d, fit d → fit' d) → continues fit n w w' → continues fit' n w w'.
Proof. intros H (d & s & ? & ? & ? & ?). exists d, s. auto. Qed.

#[export] Instance espi_transport_ok : TransportOk (espi_fit size base).
Proof using EO.
  pose proof (espi_transport_with (EO:=EO) base (λ _, True) (λ _ _ _, I) (λ _ _ _, I)) as T.
  split; [|intros d Hf; by apply (fit_mailbox (TransportOk:=T))].
  intros w d frame rest b o Hd Hf Hok Hl Hb.
  eapply wp_mono; [by apply (xfer_contract (TransportOk:=T) w d)|].
  intros [[ret rx] o'] w' (b' & l & -> & -> & Hc & Hrest). eexists _, _. split; [done|]. split; [done|].
  split; [|done]. eapply continues_impl; [|exact Hc]. by intros d' (? & _).
Qed.
End espi_plain.
