(* ===== verification/KCmd.v ===== *)
(** Commands to the sensor: [kernel/cmd/gxfp_cmd.c], [gxfp_cmd_version.c],
    [gxfp_cmd_mcu_state.c], [gxfp_cmd_mcu_config.c] and [gxfp_cmd_reset.c].

    A command is built as a Goodix body in an MP frame, sent through the eSPI
    transport and answered by a frame of the expected command; a failed attempt
    is repeated. The log lines ([dev_dbg], [gxfp_trace_logf]) are left out. *)
From Stdlib Require Import ZArith Lia.
From stdpp Require Import prelude list.
From S2P Require Import Prelude KGoodixProto KMpProto KWorld KEspi KTransport.

Open Scope Z_scope.

(** * gxfp_cmd.c *)

(** Command bytes (gxfp_constants.h) *)
Definition GXFP_CMD_FIRMWARE_VERSION : Z := 168. (* 0xA8 *)
Definition GXFP_CMD_TRIGGER_MCU_STATE : Z := 175. (* 0xAF *)
Definition GXFP_CMD_QUERY_MCU_STATE : Z := 174. (* 0xAE *)
Definition GXFP_CMD_ACK : Z := 176. (* 0xB0 *)
Definition GXFP_CMD_UPLOAD_CONFIG_MCU : Z := 144. (* 0x90 *)
Definition GXFP_CMD_NOTIFY_POWER_STATE : Z := 14. (* 0x0E *)
Definition GXFP_CMD_PROTOCOL_INIT : Z := 1. (* 0x01 *)
Definition GXFP_CMD_SLEEP_CLEANUP : Z := 210. (* 0xD2 *)
Definition GXFP_CMD_RESET_DEVICE : Z := 161. (* 0xA1 *)
Definition GXFP_CMD_TLS_UNLOCK : Z := 212. (* 0xD4 *)

(** The request; the places the answer goes to are the pointers of [xfer_out]. *)
Record gxfp_xfer_req := {
  req_cmd : Z;
  expect_cmd : Z;
  require_proto_ck_ok : bool;
  tries : Z;
  retry_delay_us : Z;
  req_payload : ptr bytes;
  req_payload_len : Z;
  resp_payload_cap : Z
}.

Record xfer_out := {
  resp_payload : ptr bytes;
  out_resp_payload_len : ptr Z;
  out_frame : ptr gxfp_frame_parsed
}.

(** [*req->out_frame = p; req->out_frame->payload = resp_payload;] *)
Definition set_payload (p : gxfp_frame_parsed) (b : ptr bytes) : gxfp_frame_parsed :=
  {| valid := valid p; proto_checksum_ok := proto_checksum_ok p; cmd := cmd p;
     decl_len := decl_len p; payload := b; payload_len := payload_len p;
     proto_checksum := proto_checksum p |}.

Section cmd.
Context {E : Kenv}.

(** What an attempt makes of the bytes received: try again, or a result. *)
Definition xfer_accept (req : gxfp_xfer_req) (out : xfer_out) (rx : bytes) (rx_len : Z)
    : option (option (Z * xfer_out)) :=
  '(ok, mp) ← gxfp_parse_mp_frame (Some rx) (rx_len `min` GXFP_MAILBOX_MIN_SIZE)
                (Some mp_frame_zero);
  if negb ok then Some None else
  mp ← mp;
  '(ok, p) ← gxfp_parse_goodix_body (mp_payload mp) (mp_payload_len mp) (Some frame_zero);
  p ← p;
  if negb ok || negb (valid p) then Some None else
  if require_proto_ck_ok req && negb (proto_checksum_ok p) then Some None else
  if negb (cmd p =? expect_cmd req) then Some None else
  match resp_payload out with
  | Some r =>
    if resp_payload_cap req <? payload_len p then Some (Some (- EMSGSIZE, out)) else
    src ← payload p;
    r ← memcpy r 0 src 0 (payload_len p);
    Some (Some (0, {| resp_payload := Some r;
                      out_resp_payload_len := setp (out_resp_payload_len out) (payload_len p);
                      out_frame := setp (out_frame out) (set_payload p (Some r)) |}))
  | None =>
    Some (Some (0, {| resp_payload := None;
                      out_resp_payload_len := setp (out_resp_payload_len out) (payload_len p);
                      out_frame := setp (out_frame out) (set_payload p None) |}))
  end.

(** [for (t = 0; t < tries; t++)] *)
Fixpoint xfer_loop (n : nat) (req : gxfp_xfer_req) (out : xfer_out) (tx : bytes)
    (frame_len : Z) (rx : ptr bytes) (rx_len : ptr Z) : M kworld (Z * xfer_out) :=
  match n with
  | O => mret (- ETIMEDOUT, out)
  | S n =>
    '(ret, rx, rx_len) ← gxfp_espi_xfer (Some tx) frame_len rx GXFP_MAILBOX_MIN_SIZE rx_len;
    if negb (ret =? 0) then
      gxfp_busy_wait_us (retry_delay_us req);;
      xfer_loop n req out tx frame_len rx rx_len
    else
    b ← lift rx;
    len ← lift rx_len;
    r ← lift (xfer_accept req out b len);
    match r with
    | None =>
      gxfp_busy_wait_us (retry_delay_us req);;
      xfer_loop n req out tx frame_len rx rx_len
    | Some res => mret res
    end
  end.

Definition gxfp_xfer (req : gxfp_xfer_req) (out : xfer_out) : M kworld (Z * xfer_out) :=
  n ← gdev_null;
  if (n : bool) then mret (- EINVAL, out) else
  if negb (req_payload_len req =? 0) && bool_decide (req_payload req = None)
  then mret (- EINVAL, out) else
  if negb (bool_decide (resp_payload out = None)) && (resp_payload_cap req =? 0)
  then mret (- EINVAL, out) else
  if bool_decide (resp_payload out = None) && negb (resp_payload_cap req =? 0)
  then mret (- EINVAL, out) else
  tx ← kmalloc GXFP_TX_BUFFER_SIZE;
  if bool_decide (tx = None) then mret (- ENOMEM, out) else
  body ← kmalloc GXFP_TX_BUFFER_SIZE;
  if bool_decide (body = None) then mret (- ENOMEM, out) else
  rx ← kmalloc GXFP_MAILBOX_MIN_SIZE;
  if bool_decide (rx = None) then mret (- ENOMEM, out) else
  '(body_len, body) ← lift (gxfp_goodix_build_frame (req_cmd req) (req_payload req)
                              (req_payload_len req) body GXFP_TX_BUFFER_SIZE);
  if body_len <? 0 then mret (body_len, out) else
  '(frame_len, tx) ← lift (gxfp_mp_build_frame GXFP_MP_TYPE_A body body_len
                             tx GXFP_TX_BUFFER_SIZE);
  if frame_len <? 0 then mret (frame_len, out) else
  tx ← lift tx;
  xfer_loop (Z.to_nat (if tries req =? 0 then 1 else tries req)) req out tx frame_len
    rx (Some 0).

Definition gxfp_cmd_xfer (req_cmd : Z) (req_payload : ptr bytes) (req_payload_len : Z)
    (expect_cmd : Z) (resp_payload : ptr bytes) (resp_payload_cap : Z)
    (out_resp_payload_len : ptr Z) (tries retry_delay_us : Z) : M kworld (Z * xfer_out) :=
  let out := {| resp_payload := resp_payload; out_resp_payload_len := out_resp_payload_len;
                out_frame := Some frame_zero |} in
  if bool_decide (resp_payload = None) || (resp_payload_cap =? 0)
  then mret (- EINVAL, out) else
  '(ret, out) ← gxfp_xfer
    {| req_cmd := req_cmd; expect_cmd := expect_cmd; require_proto_ck_ok := true;
       tries := tries; retry_delay_us := retry_delay_us; req_payload := req_payload;
       req_payload_len := req_payload_len; resp_payload_cap := resp_payload_cap |} out;
  if negb (ret =? 0) then mret (ret, out) else
  mret (0, out).

(** * gxfp_cmd_mcu_config.c, gxfp_cmd_reset.c *)

(** A command that is acknowledged: the acknowledgement goes to an array of
    [cap] bytes on the stack and only its arrival matters. *)
Definition ack_cmd (c : Z) (pl : bytes) (cap tries : Z) : M kworld Z :=
  ack ← stack_array cap;
  '(rc, _) ← gxfp_cmd_xfer c (Some pl) (zlen pl) GXFP_CMD_ACK (Some ack) cap (Some 0)
               tries GXFP_DEFAULT_TIMEOUT_US;
  mret rc.

Definition gxfp_cmd_upload_config_mcu (cfg : ptr bytes) (cfg_len : Z) : M kworld Z :=
  n ← gdev_null;
  if (n : bool) then mret (- EINVAL) else
  if bool_decide (cfg = None) || (cfg_len =? 0) then mret (- EINVAL) else
  ack ← stack_array 32;
  '(rc, _) ← gxfp_cmd_xfer GXFP_CMD_UPLOAD_CONFIG_MCU cfg cfg_len GXFP_CMD_ACK (Some ack) 32
               (Some 0) GXFP_DEFAULT_RETRY_COUNT GXFP_DEFAULT_TIMEOUT_US;
  mret rc.

Definition gxfp_cmd_notify_power_state (state : Z) : M kworld Z :=
  n ← gdev_null;
  if (n : bool) then mret (- EINVAL) else
  ack_cmd GXFP_CMD_NOTIFY_POWER_STATE [state] 8 1.

Definition gxfp_cmd_sleep_cleanup (post_delay_ms : Z) : M kworld Z :=
  n ← gdev_null;
  if (n : bool) then mret (- EINVAL) else
  rc ← ack_cmd GXFP_CMD_SLEEP_CLEANUP [0; 0] 8 1;
  when (negb (post_delay_ms =? 0)) (emit (EvMsleep post_delay_ms));;
  mret rc.

Definition GXFP_RESET_FLAG_SENSOR : Z := 1.
Definition GXFP_RESET_FLAG_MCU : Z := 2.
Definition GXFP_RESET_FLAG_MCU_SENSOR : Z := Z.lor GXFP_RESET_FLAG_MCU GXFP_RESET_FLAG_SENSOR.

Definition gxfp_cmd_reset_device (reset_flags : Z) : M kworld Z :=
  n ← gdev_null;
  if (n : bool) then mret (- EINVAL) else
  ack_cmd GXFP_CMD_RESET_DEVICE [reset_flags; 20] 8 1.

Definition gxfp_cmd_tls_unlock : M kworld Z :=
  n ← gdev_null;
  if (n : bool) then mret (- EINVAL) else
  ack_cmd GXFP_CMD_TLS_UNLOCK [0; 0] 8 1.

Definition gxfp_cmd_protocol_init : M kworld Z :=
  n ← gdev_null;
  if (n : bool) then mret (- EINVAL) else
  ack_cmd GXFP_CMD_PROTOCOL_INIT [0; 0; 0; 0] 8 1.

(** [for (tries = 0; tries < total; tries++) { r = act (); if (!r) break;
    if ((tries + 1) < total) pause (); }], with [n] rounds left. *)
Fixpoint retry_loop (n : nat) (act : M kworld Z) (pause : M kworld ()) (r : Z) : M kworld Z :=
  match n with
  | O => mret r
  | S n =>
    r ← act;
    if r =? 0 then mret r else
    when (bool_decide (n ≠ 0%nat)) pause;;
    retry_loop n act pause r
  end.

(** [if (r && !rc) rc = r;] *)
Definition first_err (rc r : Z) : Z := if negb (r =? 0) && (rc =? 0) then r else rc.

Definition gxfp_cmd_recover_session (unstick_tls : bool) : M kworld Z :=
  n ← gdev_null;
  if (n : bool) then mret (- EINVAL) else
  let rc := 0 in
  r ← retry_loop 3 (gxfp_cmd_notify_power_state 1) (emit (EvUsleep 10000 11000)) 0;
  let rc := first_err rc r in
  gxfp_busy_wait_us GXFP_RESET_DELAY_US;;
  rc ← (if unstick_tls then
          r ← gxfp_cmd_protocol_init;
          let rc := first_err rc r in
          gxfp_busy_wait_us 1000;;
          r ← gxfp_cmd_tls_unlock;
          let rc := first_err rc r in
          gxfp_busy_wait_us 1000;;
          mret rc
        else mret rc);
  r ← gxfp_cmd_sleep_cleanup 200;
  let rc := first_err rc r in
  r ← retry_loop 6 (gxfp_cmd_reset_device GXFP_RESET_FLAG_MCU_SENSOR)
        (gxfp_busy_wait_us 500000) r;
  let rc := first_err rc r in
  gxfp_busy_wait_us GXFP_RESET_DELAY_US;;
  mret rc.

(** * gxfp_cmd_version.c *)

Record gxfp_get_version_result := {
  status : Z;
  gpio_status : Z;
  tx_status : Z;
  rx_status : Z;
  bytes_read : Z;
  version_ascii : bytes;
  raw : bytes
}.

(** The loop of [gxfp_extract_ascii_version]: [j] characters copied so far. *)
Fixpoint ascii_loop (n : nat) (j : Z) (data out : bytes) : option (Z * bytes) :=
  match n with
  | O => Some (j, out)
  | S n =>
    ch ← rd data j;
    if (ch =? 0) || (ch <? 32) || (126 <? ch) then Some (j, out) else
    out ← wr out j ch;
    ascii_loop n (j + 1) data out
  end.

Definition gxfp_extract_ascii_version (data : ptr bytes) (out : ptr bytes) (out_len : Z)
    : option (bool * ptr bytes) :=
  match out with
  | None => Some (false, out)
  | Some o =>
    if out_len =? 0 then Some (false, out) else
    o ← wr o 0 0;
    match data with
    | None => Some (false, Some o)
    | Some d =>
      '(j, o) ← ascii_loop (Z.to_nat (out_len - 1)) 0 d o;
      o ← wr o j 0;
      Some (negb (j =? 0), Some o)
    end
  end.

Definition version_result (st gpio tx rx n : Z) (a r : bytes) : gxfp_get_version_result :=
  {| status := u32 st; gpio_status := u32 gpio; tx_status := u32 tx; rx_status := u32 rx;
     bytes_read := n; version_ascii := a; raw := r |}.

(** [out] is not read, and always written. *)
Definition gxfp_cmd_get_version : M kworld (Z * gxfp_get_version_result) :=
  payload ← stack_array GXFP_MAX_VERSION_RAW;
  let a0 := zeros GXFP_MAX_VERSION_ASCII in
  let r0 := zeros GXFP_MAX_VERSION_RAW in
  d ← gdev;
  if bool_decide (mailbox_mmio (dev_hw d) = None) ||
     (mailbox_size (dev_hw d) <? GXFP_MAILBOX_MIN_SIZE)
  then mret (- ENODEV, version_result (- ENODEV) (- ENODEV) (- ENODEV) (- ENODEV) 0 a0 r0) else
  '(ret, x) ← gxfp_cmd_xfer GXFP_CMD_FIRMWARE_VERSION (Some [1]) 1 GXFP_CMD_FIRMWARE_VERSION
                (Some payload) GXFP_MAX_VERSION_RAW (Some 0)
                GXFP_DEFAULT_RETRY_COUNT GXFP_DEFAULT_TIMEOUT_US;
  if negb (ret =? 0) then mret (ret, version_result ret 0 0 ret 0 a0 r0) else
  payload ← lift (resp_payload x);
  rx_len ← lift (out_resp_payload_len x);
  let n := u32 (rx_len `min` GXFP_MAX_VERSION_RAW) in
  r ← lift (memcpy r0 0 payload 0 n);
  '(_, a) ← lift (gxfp_extract_ascii_version (Some payload) (Some a0) GXFP_MAX_VERSION_ASCII);
  a ← lift a;
  c0 ← lift (rd a 0);
  if c0 =? 0 then mret (0, version_result (- ENODATA) 0 0 0 n a r) else
  mret (0, version_result 0 0 0 0 n a r).

(** * gxfp_cmd_mcu_state.c *)

Definition GXFP_MCU_STATE_LEN : Z := 20.

Record gxfp_mcu_state := {
  version : Z;
  b1_raw : Z;
  is_pov_image_valid : Z;
  is_tls_connected : Z;
  is_tls_used : Z;
  is_locked : Z;
  reserved : bytes
}.

Definition mcu_state_zero : gxfp_mcu_state :=
  {| version := 0; b1_raw := 0; is_pov_image_valid := 0; is_tls_connected := 0;
     is_tls_used := 0; is_locked := 0; reserved := zeros 18 |}.

Definition gxfp_cmd_parse_mcu_state_payload (buf : ptr bytes) (len : Z)
    (out : ptr gxfp_mcu_state) : option (Z * ptr gxfp_mcu_state) :=
  match buf, out with
  | Some b, Some _ =>
    let out := Some mcu_state_zero in
    if len <? GXFP_MCU_STATE_LEN then Some (- EBADMSG, out) else
    b0 ← rd b 0;
    b1 ← rd b 1;
    res ← memcpy (zeros 18) 0 b 2 18;
    Some (0, Some {| version := b0; b1_raw := b1;
                     is_pov_image_valid := u8 (Z.land (Z.shiftr b1 0) 1);
                     is_tls_connected := u8 (Z.land (Z.shiftr b1 1) 1);
                     is_tls_used := u8 (Z.land (Z.shiftr b1 2) 1);
                     is_locked := u8 (Z.land (Z.shiftr b1 3) 1);
                     reserved := res |})
  | _, _ => Some (- EINVAL, out)
  end.

Definition gxfp_do_query_mcu_state (out : ptr gxfp_mcu_state)
    : M kworld (Z * ptr gxfp_mcu_state) :=
  payload ← stack_array GXFP_MAX_MCU_STATE_PAYLOAD;
  if bool_decide (is_Some out) then
    let out := Some mcu_state_zero in
    d ← gdev;
    if bool_decide (mailbox_mmio (dev_hw d) = None) ||
       (mailbox_size (dev_hw d) <? GXFP_MAILBOX_MIN_SIZE) then mret (- ENODEV, out) else
    ts ← gets (λ w, ktime_real (w_trace w));
    let ts_u16 := u16 (u64 (u64 (Z.rem ts.1 60) * 1000) + u64 ts.2 / 1000000) in
    let trigger := [85; u8 (Z.land ts_u16 255); u8 (Z.land (Z.shiftr ts_u16 8) 255); 0; 0] in
    '(ret, x) ← gxfp_cmd_xfer GXFP_CMD_TRIGGER_MCU_STATE (Some trigger) 5
                  GXFP_CMD_QUERY_MCU_STATE (Some payload) GXFP_MAX_MCU_STATE_PAYLOAD (Some 0)
                  GXFP_DEFAULT_RETRY_COUNT GXFP_DEFAULT_TIMEOUT_US;
    if negb (ret =? 0) then mret (ret, out) else
    payload_len ← lift (out_resp_payload_len x);
    '(ret, out) ← lift (gxfp_cmd_parse_mcu_state_payload (resp_payload x) payload_len out);
    if negb (ret =? 0) then mret (ret, out) else
    mret (0, out)
  else mret (- EINVAL, out).

Definition gxfp_cmd_query_mcu_state (out : ptr gxfp_mcu_state)
    : M kworld (Z * ptr gxfp_mcu_state) := gxfp_do_query_mcu_state out.
End cmd.

(** * Lemmas *)

(** The outcome [out'] is what the exchange should return for the packet [rx]:
    a body of the expected command, with a good checksum where one is asked for. *)
Definition answered (req : gxfp_xfer_req) (out out' : xfer_out) (rx : bytes) (len : Z) : Prop :=
  ∃ flags pl ck trail rest,
    rx = mp_frame flags (goodix_body (expect_cmd req) pl ck ++ trail) ++ rest ∧
    zlen rx - zlen rest <= len ∧
    (require_proto_ck_ok req = true → ck = goodix_ck (expect_cmd req) pl) ∧
    out_resp_payload_len out' = setp (out_resp_payload_len out) (zlen pl) ∧
    match resp_payload out with
    | Some r => zlen pl <= resp_payload_cap req ∧
                resp_payload out' = Some (pl ++ zdrop (zlen pl) r)
    | None => resp_payload out' = None
    end.

(** The answer's buffer is as long as the request says. *)
Definition resp_ok (req : gxfp_xfer_req) (out : xfer_out) : Prop :=
  ∀ r, resp_payload out = Some r → 0 < resp_payload_cap req <= zlen r.

Lemma memcpy_front r pl t :
  zlen pl <= zlen r → memcpy r 0 (pl ++ t) 0 (zlen pl) = Some (pl ++ zdrop (zlen pl) r).
Proof.
  intros Hl. pose proof (zlen_nonneg pl). unfold memcpy. rewrite slice_prefix by done.
  cbn [mbind option_bind]. by rewrite blit_Some by lia.
Qed.

Lemma xfer_accept_spec req out rx len :
  bytes_ok rx → 0 <= len <= GXFP_MAILBOX_MIN_SIZE → zlen rx = GXFP_MAILBOX_MIN_SIZE →
  resp_ok req out →
  ∃ v, xfer_accept req out rx len = Some v ∧
    match v with
    | None => True
    | Some (ret, out') =>
      (ret = - EMSGSIZE ∧ out' = out) ∨ (ret = 0 ∧ answered req out out' rx len)
    end.
Proof.
  intros Hrx Hlen Hrl Hresp. unfold xfer_accept. rewrite Z.min_l by lia.
  destruct (parse_mp_dec rx len mp_frame_zero Hrx) as
    [(f & ->)|(flags & mpl & rest & Erx & _ & _ & Hfit & _ & ->)]; [lia|by eexists|].
  cbn [mbind option_bind negb mp_payload mp_payload_len].
  assert (Hmpl : bytes_ok (mpl ++ rest)).
  { rewrite Erx in Hrx. unfold mp_frame in Hrx. rewrite !bytes_ok_app in Hrx.
    apply bytes_ok_app. tauto. }
  pose proof (zlen_nonneg mpl) as H0. pose proof (zlen_nonneg rest).
  destruct (parse_body_dec (mpl ++ rest) (zlen mpl) frame_zero Hmpl) as
    [(f & ->)|(c & pl & ck & rest2 & Eb & Hpl & _ & _ & _ & _ & ->)];
    [rewrite zlen_app; lia|by eexists|].
  cbn [mbind option_bind negb orb valid proto_checksum_ok cmd payload_len payload].
  destruct (require_proto_ck_ok req && negb (goodix_ck c pl =? ck)) eqn:Eck; [by eexists|].
  destruct (Z.eqb_spec c (expect_cmd req)) as [->|]; cbn [negb]; [|by eexists].
  (* the body lies inside the frame *)
  assert (Hin : ∃ trail, mpl = goodix_body (expect_cmd req) pl ck ++ trail).
  { exists (zdrop (zlen pl + 4) mpl).
    rewrite <- (ztake_zdrop (zlen pl + 4) mpl) at 1. f_equal.
    pose proof (zlen_nonneg pl).
    rewrite <- (ztake_app (zlen pl + 4) (goodix_body (expect_cmd req) pl ck) rest2)
      by apply zlen_goodix_body.
    rewrite <- Eb. rewrite <- (ztake_ztake (zlen pl + 4) (zlen mpl) (mpl ++ rest)) by lia.
    by rewrite (ztake_app (zlen mpl) mpl). }
  destruct Hin as (trail & Etrail).
  assert (Hans : ∀ out', out_resp_payload_len out' = setp (out_resp_payload_len out) (zlen pl) →
      match resp_payload out with
      | Some r => zlen pl <= resp_payload_cap req ∧
                  resp_payload out' = Some (pl ++ zdrop (zlen pl) r)
      | None => resp_payload out' = None
      end → answered req out out' rx len).
  { intros out' H1 H2. exists flags, pl, ck, trail, rest. rewrite <- Etrail.
    split; [done|]. rewrite Erx, zlen_app, zlen_mp_frame. split; [lia|].
    split; [|done]. intros Hreq. rewrite Hreq in Eck. cbn in Eck. lia. }
  destruct (resp_payload out) as [r|] eqn:Er.
  - destruct (Z.ltb_spec (resp_payload_cap req) (zlen pl)) as [|Hcap].
    { eexists. split; [done|]. by left. }
    pose proof (Hresp r Er). rewrite memcpy_front by lia. cbn [mbind option_bind].
    eexists. split; [done|]. right. split; [done|]. by apply Hans.
  - eexists. split; [done|]. right. split; [done|]. by apply Hans.
Qed.

Section contract.
Context {E : Kenv} {fit : gxfp_dev → Prop} {T : TransportOk fit}.

(** The result of an exchange of at most [n] attempts. *)
Definition xfer_post (req : gxfp_xfer_req) (out : xfer_out) (n : Z) (w : kworld)
    (r : Z * xfer_out) (w' : kworld) : Prop :=
  continues fit n w w' ∧
  if bool_decide (r.1 = 0)
  then ∃ rx len w1, exchanged w1 rx len ∧ continues fit n w w1 ∧ continues fit 0 w1 w' ∧
         answered req out r.2 rx len
  else r.2 = out.

Lemma busy_wait_wp us w d :
  w_dev w = Some d → fit d → wp (gxfp_busy_wait_us us) (λ _ w', continues fit 0 w w') w.
Proof.
  intros Hd Hf. unfold gxfp_busy_wait_us, wp.
  destruct (us =? 0); [by apply continues_refl with d|].
  destruct (us <=? 2000); by eapply (continues_push _ w d [_]).
Qed.

Lemma xfer_loop_wp n : ∀ req out tx rest rx o w d,
  w_dev w = Some d → fit d → resp_ok req out → bytes_ok tx →
  0 < zlen tx <= GXFP_TX_BUFFER_SIZE → zlen rx = GXFP_MAILBOX_MIN_SIZE →
  wp (xfer_loop n req out (tx ++ rest) (zlen tx) (Some rx) (Some o))
     (λ r w', xfer_post req out (Z.of_nat n) w r w' ∧
              r.1 ∈ [0; - EMSGSIZE; - ETIMEDOUT]) w.
Proof using T.
  induction n as [|n IH]; intros req out tx rest rx o w d Hd Hf Hresp Htx Hl Hrx; cbn [xfer_loop].
  { apply wp_ret. split; [|set_solver]. split; [by apply continues_refl with d|done]. }
  apply wp_bind. eapply wp_mono; [by eapply xfer_contract|].
  intros [[ret rx'] o'] w1 (b' & l & -> & -> & Hc & Hb' & Hok).
  assert (Hretry : wp (gxfp_busy_wait_us (retry_delay_us req);;
      xfer_loop n req out (tx ++ rest) (zlen tx) (Some b') (Some l))
     (λ r w', xfer_post req out (Z.of_nat (S n)) w r w' ∧
              r.1 ∈ [0; - EMSGSIZE; - ETIMEDOUT]) w1).
  { destruct (continues_dev _ _ _ _ Hc) as (d1 & Hd1 & Hf1).
    apply wp_bind. eapply wp_mono; [by eapply busy_wait_wp|]. intros [] w2 Hc2.
    destruct (continues_dev _ _ _ _ Hc2) as (d2 & Hd2 & Hf2).
    eapply wp_mono; [by eapply IH|]. intros r w3 ((Hc3 & Hres) & Hr). split; [|done].
    assert (Hc02 : continues fit 1 w w2) by (eapply (continues_trans _ 1 0); done).
    split; [eapply (continues_trans _ 1 (Z.of_nat n)); try done; lia|].
    destruct (bool_decide (r.1 = 0)); [|done].
    destruct Hres as (rx1 & len & w4 & Hex & Hc4 & Hc5 & Ha).
    exists rx1, len, w4. split_and!; try done.
    eapply (continues_trans _ 1 (Z.of_nat n)); try done; lia. }
  destruct (Z.eqb_spec ret 0) as [->|Hr]; cbn [negb]; [|done].
  apply wp_bind. eapply wp_lift; [done|]. apply wp_bind. eapply wp_lift; [done|].
  destruct (Hok eq_refl) as (Hbok & Hlen & Hex).
  destruct (xfer_accept_spec req out b' l) as (v & Ev & Hv); [done|lia|done|done|].
  apply wp_bind. eapply wp_lift; [done|]. destruct v as [[ret out']|]; [|done].
  apply wp_ret. assert (Hcn : continues fit (Z.of_nat (S n)) w w1).
  { destruct Hc as (d1 & s & ? & ? & ? & ?). exists d1, s. split_and!; try done. lia. }
  destruct Hv as [(-> & ->)|(-> & Ha)]; (split; [split; [done|]|set_solver]); [done|].
  cbn. exists b', l, w1. split_and!; try done.
  destruct (continues_dev _ _ _ _ Hc) as (d1 & Hd1 & Hf1). by eapply continues_refl.
Qed.
End contract.

(** The two frames of a request, built in buffers of 512 bytes. *)
Lemma build_request c pl rest body tx :
  is_u8 c → bytes_ok pl → zlen body = 512 → zlen tx = 512 →
  ∃ n body', gxfp_goodix_build_frame c (Some (pl ++ rest)) (zlen pl) (Some body) 512
             = Some (n, Some body') ∧
    if zlen pl <=? 504 then
      0 <= n ∧ ∃ frame tail, gxfp_mp_build_frame GXFP_MP_TYPE_A (Some body') n (Some tx) 512
         = Some (zlen frame, Some (frame ++ tail)) ∧
        frame = mp_frame 160 (goodix_frame c pl) ∧ bytes_ok frame ∧ 0 < zlen frame <= 512
    else n ∈ [- EMSGSIZE; - EOVERFLOW] ∨ 0 <= n ∧
         ∃ tx', gxfp_mp_build_frame GXFP_MP_TYPE_A (Some body') n (Some tx) 512
                = Some (- EMSGSIZE, Some tx').
Proof.
  intros Hc Hpl Hb Ht. pose proof (zlen_nonneg pl).
  destruct (Z.le_gt_cases (zlen pl) 508) as [Hs|Hs].
  - eexists _, _. split; [apply build_frame_run; try done; unfold GXFP_GOODIX_PAYLOAD_U16_MAX; lia|].
    destruct (Z.leb_spec (zlen pl) 504) as [H4|H4].
    + split; [lia|]. pose proof (zlen_goodix_frame c pl) as Hg.
      pose proof (mp_build_run GXFP_MP_TYPE_A (goodix_frame c pl) (zdrop (zlen pl + 4) body)
        tx 512) as Hm. rewrite Hg in Hm. unfold GXFP_GOODIX_MP_LEN_MAX in Hm.
      exists (mp_frame 160 (goodix_frame c pl)), (zdrop (4 + (zlen pl + 4)) tx).
      split; [rewrite Hm; [by rewrite zlen_mp_frame, Hg|by left|lia|lia]|].
      split; [done|]. rewrite zlen_mp_frame, Hg. split; [|lia].
      apply mp_frame_ok; [unfold is_u8; lia|auto with gxfp].
    + right. split; [lia|]. unfold gxfp_mp_build_frame, GXFP_GOODIX_MP_LEN_MAX.
      rewrite (bool_decide_eq_false_2 (Some _ = None)), andb_false_r by done.
      rewrite !(proj2 (Z.ltb_ge _ _)) by lia. cbn [negb andb Z.eqb GXFP_MP_TYPE_A Pos.eqb].
      rewrite (proj2 (Z.ltb_lt _ _)) by lia. eauto.
  - rewrite (proj2 (Z.leb_gt _ _)) by lia. unfold gxfp_goodix_build_frame.
    rewrite (bool_decide_eq_false_2 (Some _ = None)), andb_false_r by done. change (512 <? 4) with false. cbv iota.
    destruct (GXFP_GOODIX_PAYLOAD_U16_MAX <? zlen pl).
    { eexists _, _. split; [done|]. left. set_solver. }
    rewrite (proj2 (Z.ltb_lt _ _)) by lia. eexists _, _. split; [done|]. left. set_solver.
Qed.

Section commands.
Context {E : Kenv} {size : Z} {EO : KenvOk E size} {fit : gxfp_dev → Prop} {T : TransportOk fit}.

Lemma kmalloc_wp n w d :
  0 <= n → w_dev w = Some d → fit d →
  wp (kmalloc n) (λ p w', continues fit 0 w w' ∧
                    ∀ b, p = Some b → zlen b = n ∧ bytes_ok b) w.
Proof using EO.
  intros Hn Hd Hf. unfold wp. rewrite kmalloc_run. split.
  - exists d, []. cbn. by rewrite app_nil_r.
  - intros b Hb. assert (b = uninit (w_trace w) n) as -> by (destruct (w_oom w) as [|[]]; by simplify_eq).
    split; [by apply uninit_len|apply uninit_bytes].
Qed.

(** An exchange, on every path. *)
Lemma xfer_wp req out pl rest w d :
  w_dev w = Some d → fit d → resp_ok req out →
  is_Some (resp_payload out) → is_u8 (req_cmd req) → bytes_ok pl →
  req_payload req = Some (pl ++ rest) → req_payload_len req = zlen pl → 0 <= tries req →
  wp (gxfp_xfer req out)
     (λ r w', xfer_post (fit:=fit) req out (Z.max 1 (tries req)) w r w' ∧
              r.1 ∈ [0; - ENOMEM; - EMSGSIZE; - EOVERFLOW; - ETIMEDOUT] ∧
              (504 < zlen pl → r.1 ≠ 0 ∧ continues fit 0 w w')) w.
Proof using EO T.
  intros Hd Hf Hresp (r & Hr) Hc Hpl Hrp Hrl Htries. unfold gxfp_xfer.
  set (k := Z.max 1 (tries req)).
  assert (Hfail : ∀ e w', e ∈ [- ENOMEM; - EMSGSIZE; - EOVERFLOW] → continues fit 0 w w' →
    xfer_post (fit:=fit) req out k w (e, out) w' ∧
    e ∈ [0; - ENOMEM; - EMSGSIZE; - EOVERFLOW; - ETIMEDOUT] ∧
    (504 < zlen pl → e ≠ 0 ∧ continues fit 0 w w')).
  { intros e w' He Hc'. assert (e ≠ 0) by (intros ->; set_solver by lia).
    split; [|split; [set_solver|done]]. split; [|by rewrite bool_decide_eq_false_2].
    eapply (continues_trans _ 0 0); [exact Hc'| |lia].
    destruct (continues_dev _ _ _ _ Hc') as (d' & ? & ?). by eapply continues_refl. }
  pose proof (zlen_nonneg pl). pose proof (Hresp r Hr).
  apply wp_bind. eapply wp_eq; [by eapply gdev_null_run|]. cbv iota.
  rewrite Hr, Hrp, !bool_decide_eq_false_2, andb_false_r by done. cbn [negb andb].
  rewrite (proj2 (Z.eqb_neq (resp_payload_cap req) 0)) by lia.
  apply wp_bind. eapply wp_mono; [eapply kmalloc_wp; try done; by vm_compute|].
  intros [tx|] w1 (Hc1 & Htx); cycle 1.
  { rewrite bool_decide_eq_true_2 by done. apply wp_ret, Hfail; [set_solver|done]. }
  rewrite bool_decide_eq_false_2 by done. destruct (Htx tx eq_refl) as (Htl & _).
  destruct (continues_dev _ _ _ _ Hc1) as (d1 & Hd1 & Hf1).
  apply wp_bind. eapply wp_mono; [eapply (kmalloc_wp _ w1 d1); try done; by vm_compute|].
  intros [body|] w2 (Hc2 & Hbody); (assert (Hc02 : continues fit 0 w w2) by
    by eapply (continues_trans _ 0 0)); cycle 1.
  { rewrite bool_decide_eq_true_2 by done. apply wp_ret, Hfail; [set_solver|done]. }
  rewrite bool_decide_eq_false_2 by done. destruct (Hbody body eq_refl) as (Hbl & _).
  destruct (continues_dev _ _ _ _ Hc2) as (d2 & Hd2 & Hf2).
  apply wp_bind. eapply wp_mono; [eapply (kmalloc_wp _ w2 d2); try done; by vm_compute|].
  intros [rx|] w3 (Hc3 & Hrx); (assert (Hc03 : continues fit 0 w w3) by
    by eapply (continues_trans _ 0 0)); cycle 1.
  { rewrite bool_decide_eq_true_2 by done. apply wp_ret, Hfail; [set_solver|done]. }
  rewrite bool_decide_eq_false_2 by done. destruct (Hrx rx eq_refl) as (Hrxl & _).
  destruct (continues_dev _ _ _ _ Hc3) as (d3 & Hd3 & Hf3).
  destruct (build_request (req_cmd req) pl rest body tx) as (n & body' & Eb & Hcase);
    [done..|]. rewrite Hrl. unfold GXFP_TX_BUFFER_SIZE in *.
  apply wp_bind. eapply wp_lift; [exact Eb|].
  destruct (Z.leb_spec (zlen pl) 504) as [H504|H504].
  - destruct Hcase as (Hn & frame & tail & Em & _ & Hfo & Hfl).
    rewrite (proj2 (Z.ltb_ge n 0)) by lia.
    apply wp_bind. eapply wp_lift; [exact Em|]. cbv beta iota. rewrite (proj2 (Z.ltb_ge (zlen frame) 0)) by lia.
    apply wp_bind. eapply wp_lift; [done|].
    eapply wp_mono; [by eapply xfer_loop_wp|]. intros v w4 ((Hc4 & Hres) & Hv).
    assert (Hk : Z.of_nat (Z.to_nat (if tries req =? 0 then 1 else tries req)) = k)
      by (unfold k; destruct (Z.eqb_spec (tries req) 0); lia). rewrite Hk in *.
    split; [|split; [set_solver|lia]]. split; [by eapply (continues_trans _ 0 k)|].
    destruct (bool_decide (v.1 = 0)); [|done].
    destruct Hres as (rx' & len & w5 & Hex & Hc5 & Hc6 & Ha). exists rx', len, w5.
    split_and!; try done. by eapply (continues_trans _ 0 k).
  - destruct Hcase as [He|(Hn & tx' & Em)].
    + assert (n < 0) by (set_solver by lia). rewrite (proj2 (Z.ltb_lt n 0)) by lia.
      apply wp_ret, Hfail; [set_solver|done].
    + rewrite (proj2 (Z.ltb_ge n 0)) by lia.
      apply wp_bind. eapply wp_lift; [exact Em|]. cbn [Z.ltb Z.opp EMSGSIZE Z.compare].
      apply wp_ret, Hfail; [set_solver|done].
Qed.
(** C5: an exchange against any sensor and any schedule of allocation
    failures is defined, sends at most [tries] packets (one when [tries] is 0),
    and returns 0 only with the payload of a body of the expected command that
    the transport received (with a valid checksum where the request asks for
    it); otherwise it leaves the caller's buffers alone. *)
Theorem xfer_sound req out pl rest w d :
  w_dev w = Some d → fit d → resp_ok req out →
  is_Some (resp_payload out) → is_u8 (req_cmd req) → bytes_ok pl →
  req_payload req = Some (pl ++ rest) → req_payload_len req = zlen pl → 0 <= tries req →
  wp (gxfp_xfer req out)
     (λ r w', xfer_post (fit:=fit) req out (Z.max 1 (tries req)) w r w' ∧
              r.1 ∈ [0; - ENOMEM; - EMSGSIZE; - EOVERFLOW; - ETIMEDOUT] ∧
              (504 < zlen pl → r.1 ≠ 0 ∧ continues fit 0 w w')) w.
Proof using EO T. apply xfer_wp. Qed.

(** The commands' exchange. *)
Lemma cmd_xfer_wp c pl exp r cap tries delay w d :
  w_dev w = Some d → fit d → is_u8 c → bytes_ok pl → 0 < cap <= zlen r → 0 <= tries →
  wp (gxfp_cmd_xfer c (Some pl) (zlen pl) exp (Some r) cap (Some 0) tries delay)
     (λ v w', continues fit (Z.max 1 tries) w w' ∧
        (v.1 = 0 → ∃ flags p trail rest rx len w1, exchanged w1 rx len ∧
           rx = mp_frame flags (goodix_frame exp p ++ trail) ++ rest ∧ zlen p <= cap ∧
           out_resp_payload_len v.2 = Some (zlen p) ∧
           resp_payload v.2 = Some (p ++ zdrop (zlen p) r))) w.
Proof using EO T.
  intros Hd Hf Hc Hpl Hcap Htries. unfold gxfp_cmd_xfer.
  rewrite bool_decide_eq_false_2, (proj2 (Z.eqb_neq cap 0)) by (done || lia). cbn [orb].
  set (req := Build_gxfp_xfer_req _ _ _ _ _ _ _ _). set (out := Build_xfer_out _ _ _).
  assert (Hresp : resp_ok req out) by (intros r' [= <-]; done).
  apply wp_bind. eapply wp_mono.
  { eapply (xfer_wp req out pl [] w d); try done. cbn. by rewrite app_nil_r. }
  intros [ret out'] w1 ((Hc1 & Hres) & _).
  assert (Hgo : ret = 0 → ∃ flags p trail rest rx len w1, exchanged w1 rx len ∧
           rx = mp_frame flags (goodix_frame exp p ++ trail) ++ rest ∧ zlen p <= cap ∧
           out_resp_payload_len out' = Some (zlen p) ∧
           resp_payload out' = Some (p ++ zdrop (zlen p) r)).
  { intros ->. cbn in Hres. destruct Hres as (rx & len & w2 & Hex & _ & _ & flags & p & ck & trail
      & rest & Erx & _ & Hck & Hol & Hpc & Hp). specialize (Hck eq_refl). subst ck.
    exists flags, p, trail, rest, rx, len, w2. split_and!; done. }
  destruct (Z.eqb_spec ret 0) as [->|Hr]; cbn [negb]; apply wp_ret; by split; [|auto].
Qed.

Lemma ack_cmd_wp c pl cap tries w d :
  w_dev w = Some d → fit d → is_u8 c → bytes_ok pl → 0 < cap → 0 <= tries →
  wp (ack_cmd c pl cap tries) (λ _ w', continues fit (Z.max 1 tries) w w') w.
Proof using EO T.
  intros Hd Hf Hc Hpl Hcap Htries. unfold ack_cmd.
  apply wp_bind. apply wp_gets. apply wp_bind.
  eapply wp_mono; [eapply cmd_xfer_wp; try done; rewrite uninit_len; lia|].
  intros [rc x] w1 (Hc1 & _). by apply wp_ret.
Qed.

(** ** Recovery *)

Lemma guarded_wp (m : M kworld Z) Q w d :
  w_dev w = Some d → wp m Q w →
  wp (n ← gdev_null; if (n : bool) then mret (- EINVAL) else m) Q w.
Proof. intros Hd Hm. apply wp_bind. by eapply wp_eq; [eapply gdev_null_run|]. Qed.

(** A step of a sequence of commands: defined on a fit device, with at most
    [n] packets. *)
Definition step_ok {A} (n : Z) (m : M kworld A) : Prop :=
  ∀ w d, w_dev w = Some d → fit d → wp m (λ _ w', continues fit n w w') w.

Lemma step_bind {A B} n m (a : M kworld A) (b : A → M kworld B) :
  step_ok n a → (∀ x, step_ok m (b x)) → step_ok (n + m) (a ≫= b).
Proof.
  intros Ha Hb w d Hd Hf. apply wp_bind. eapply wp_mono; [by eapply Ha|]. intros x w1 Hc1.
  destruct (continues_dev _ _ _ _ Hc1) as (d1 & ? & ?).
  eapply wp_mono; [by eapply Hb|]. intros y w2 Hc2. exact (continues_trans _ n m _ _ _ _ Hc1 Hc2 (Z.le_refl _)).
Qed.

Lemma step_ret {A} (x : A) : step_ok 0 (mret x).
Proof. intros w d Hd Hf. apply wp_ret. by eapply continues_refl. Qed.

Lemma step_emit e : sends [e] = 0 → step_ok 0 (emit e).
Proof. intros He w d Hd Hf. by eapply wp_eq; [apply emit_run|]; eapply continues_push. Qed.

Lemma step_wait us : step_ok 0 (gxfp_busy_wait_us us).
Proof. intros w d Hd Hf. by eapply busy_wait_wp. Qed.

Lemma step_guard n m : step_ok n m →
  step_ok n (c ← gdev_null; if (c : bool) then mret (- EINVAL) else m).
Proof. intros Hm w d Hd Hf. eapply guarded_wp; [done|]. by eapply Hm. Qed.

Lemma step_weaken {A} n m (a : M kworld A) : step_ok n a → n <= m → step_ok m a.
Proof.
  intros Ha Hnm w d Hd Hf. eapply wp_mono; [by eapply Ha|].
  intros ? w' (d' & s & ? & ? & ? & ?). exists d', s. split_and!; try done. lia.
Qed.

Lemma step_ack c pl cap : is_u8 c → bytes_ok pl → 0 < cap → step_ok 1 (ack_cmd c pl cap 1).
Proof using EO T. intros Hc Hpl Hcap w d Hd Hf. by eapply ack_cmd_wp. Qed.

Lemma step_retry n act pause r :
  step_ok 1 act → step_ok 0 pause → step_ok (Z.of_nat n) (retry_loop n act pause r).
Proof.
  intros Ha Hp. revert r. induction n as [|n IH]; intros r; cbn [retry_loop].
  - apply step_ret.
  - replace (Z.of_nat (S n)) with (1 + Z.of_nat n) by lia. apply step_bind; [done|].
    intros x. destruct (x =? 0); [eapply step_weaken; [apply step_ret|lia]|].
    replace (Z.of_nat n) with (0 + Z.of_nat n) by lia. apply step_bind; [|intros _; apply IH].
    destruct (bool_decide _); [done|apply step_ret].
Qed.

Ltac step_ack_tac :=
  apply step_guard, step_ack; [by vm_compute| |lia];
  rewrite ?bytes_ok_cons; split_and!; auto with gxfp; by vm_compute.

Lemma notify_ok state : is_u8 state → step_ok 1 (gxfp_cmd_notify_power_state state).
Proof using EO T. intros. step_ack_tac. Qed.

Lemma reset_ok f : is_u8 f → step_ok 1 (gxfp_cmd_reset_device f).
Proof using EO T. intros. step_ack_tac. Qed.

Lemma unlock_ok : step_ok 1 gxfp_cmd_tls_unlock.
Proof using EO T. step_ack_tac. Qed.

Lemma init_ok : step_ok 1 gxfp_cmd_protocol_init.
Proof using EO T. step_ack_tac. Qed.

Lemma sleep_ok ms : step_ok 1 (gxfp_cmd_sleep_cleanup ms).
Proof using EO T.
  apply step_guard. replace 1 with (1 + (0 + 0)) by lia. apply step_bind.
  - apply step_ack; [by vm_compute| |lia].
    rewrite ?bytes_ok_cons; split_and!; auto with gxfp; by vm_compute.
  - intros rc. apply step_bind; [|intros; apply step_ret].
    destruct (negb _); [by apply step_emit|apply step_ret].
Qed.

(** The steps of a recovery, in order, each with the pause after it. *)
Definition then_pause (act : M kworld Z) (pause : M kworld ()) : M kworld Z :=
  r ← act; pause;; mret r.

Definition recovery_steps (unstick_tls : bool) : list (M kworld Z) :=
  [then_pause (retry_loop 3 (gxfp_cmd_notify_power_state 1) (emit (EvUsleep 10000 11000)) 0)
     (gxfp_busy_wait_us GXFP_RESET_DELAY_US)] ++
  (if unstick_tls
   then [then_pause gxfp_cmd_protocol_init (gxfp_busy_wait_us 1000);
         then_pause gxfp_cmd_tls_unlock (gxfp_busy_wait_us 1000)]
   else []) ++
  [gxfp_cmd_sleep_cleanup 200;
   then_pause (retry_loop 6 (gxfp_cmd_reset_device GXFP_RESET_FLAG_MCU_SENSOR)
                 (gxfp_busy_wait_us 500000) 0)
     (gxfp_busy_wait_us GXFP_RESET_DELAY_US)].

(** All steps run, whatever the results. *)
Fixpoint run_all (l : list (M kworld Z)) : M kworld (list Z) :=
  match l with
  | [] => mret []
  | m :: l => r ← m; rs ← run_all l; mret (r :: rs)
  end.

Definition first_failure (rs : list Z) : Z := foldl first_err 0 rs.

Lemma run_all_ok ns l : Forall2 step_ok ns l → step_ok (foldr Z.add 0 ns) (run_all l).
Proof.
  induction 1 as [|n m ns l Hm _ IH]; cbn [run_all foldr]; [apply step_ret|].
  apply step_bind; [done|]. intros r. rewrite <- (Z.add_0_r (foldr _ _ _)).
  apply step_bind; [done|]. intros; apply step_ret.
Qed.

Lemma then_pause_ok n (act : M kworld Z) us :
  step_ok n act → step_ok n (then_pause act (gxfp_busy_wait_us us)).
Proof.
  intros Ha. replace n with (n + (0 + 0)) by lia. apply step_bind; [done|].
  intros r. apply step_bind; [apply step_wait|intros; apply step_ret].
Qed.

Lemma recover_as_steps unstick w d :
  w_dev w = Some d →
  gxfp_cmd_recover_session unstick w
  = (rs ← run_all (recovery_steps unstick); mret (first_failure rs)) w.
Proof.
  intros Hd. unfold gxfp_cmd_recover_session. mstep (gdev_null_run w d Hd).
  destruct unstick; cbn [recovery_steps app run_all]; unfold then_pause;
    repeat first [rewrite bind_assoc | rewrite bind_ret | apply bind_ext; intros ? ?];
    reflexivity.
Qed.

Lemma recovery_steps_ok (unstick : bool) :
  step_ok (if unstick then 12 else 10) (run_all (recovery_steps unstick)).
Proof using EO T.
  assert (is_u8 1 ∧ is_u8 GXFP_RESET_FLAG_MCU_SENSOR) as (H1 & H3) by (by vm_compute).
  assert (Hn : step_ok 3 (then_pause (retry_loop 3 (gxfp_cmd_notify_power_state 1)
      (emit (EvUsleep 10000 11000)) 0) (gxfp_busy_wait_us GXFP_RESET_DELAY_US))).
  { apply then_pause_ok, (step_retry 3); [by apply notify_ok|by apply step_emit]. }
  assert (Hr : step_ok 6 (then_pause (retry_loop 6
      (gxfp_cmd_reset_device GXFP_RESET_FLAG_MCU_SENSOR) (gxfp_busy_wait_us 500000) 0)
      (gxfp_busy_wait_us GXFP_RESET_DELAY_US))).
  { apply then_pause_ok, (step_retry 6); [by apply reset_ok|apply step_wait]. }
  pose proof (then_pause_ok _ _ 1000 init_ok) as Hi.
  pose proof (then_pause_ok _ _ 1000 unlock_ok) as Hu.
  pose proof (sleep_ok 200) as Hs. destruct unstick.
  - apply (run_all_ok [3; 1; 1; 1; 6]).
    repeat first [assumption|apply List.Forall2_nil|apply List.Forall2_cons].
  - apply (run_all_ok [3; 1; 6]).
    repeat first [assumption|apply List.Forall2_nil|apply List.Forall2_cons].
Qed.

Lemma first_failure_0 rs : first_failure rs = 0 ↔ Forall (λ r, r = 0) rs.
Proof.
  unfold first_failure. enough (H : ∀ acc, foldl first_err acc rs = 0 ↔ acc = 0 ∧ Forall (λ r, r = 0) rs)
    by (rewrite H; naive_solver).
  induction rs as [|r rs IH]; intros acc; cbn [foldl]; [naive_solver|].
  rewrite IH, Forall_cons. unfold first_err.
  destruct (Z.eqb_spec r 0), (Z.eqb_spec acc 0); cbn [negb andb]; naive_solver.
Qed.

(** Session recovery. *)
Lemma recover_session_run (unstick : bool) w d :
  w_dev w = Some d → fit d →
  ∃ rs w', run_all (recovery_steps unstick) w = Some (rs, w') ∧
    gxfp_cmd_recover_session unstick w = Some (first_failure rs, w') ∧
    continues fit (if unstick then 12 else 10) w w' ∧
    (first_failure rs = 0 ↔ Forall (λ r, r = 0) rs).
Proof using EO T.
  intros Hd Hf.
  destruct (wp_inv _ _ _ (recovery_steps_ok unstick w d Hd Hf)) as (rs & w' & Er & Hc).
  exists rs, w'. split; [done|]. rewrite (recover_as_steps unstick w d Hd). split.
  { by rewrite (run_bind _ _ _ _ _ Er). }
  split; [done|]. apply first_failure_0.
Qed.

(** Recovery runs all its steps in order (notify with up to 3 attempts,
    protocol init and TLS unlock when asked, sleep, reset with up to 6), none
    skipped because an earlier one failed; it is defined against any sensor,
    sends at most 10 packets (12 with the TLS steps), and returns the first
    failure. *)
Theorem recover_session_steps (unstick : bool) w d :
  w_dev w = Some d → fit d →
  ∃ rs w', run_all (recovery_steps unstick) w = Some (rs, w') ∧
    gxfp_cmd_recover_session unstick w = Some (first_failure rs, w') ∧
    continues fit (if unstick then 12 else 10) w w' ∧
    (first_failure rs = 0 ↔ Forall (λ r, r = 0) rs).
Proof using EO T. apply recover_session_run. Qed.

(** ** Firmware version *)

(** The longest printable prefix. *)
Fixpoint printable (l : bytes) : bytes :=
  match l with
  | [] => []
  | c :: l => if (c =? 0) || (c <? 32) || (126 <? c) then [] else c :: printable l
  end.

Lemma printable_length l : zlen (printable l) <= zlen l.
Proof.
  induction l as [|c l IH]; cbn [printable]; [lia|].
  pose proof (zlen_nonneg l). destruct (_ || _); zlens; lia.
Qed.

Lemma printable_head l c t : printable l = c :: t → c ≠ 0.
Proof.
  destruct l as [|x l]; cbn [printable]; [done|].
  destruct (_ || _) eqn:Ex; [done|]. intros [= <- _]. lia.
Qed.

Lemma ascii_loop_run n : ∀ p q x o,
  Z.of_nat n <= zlen q → Z.of_nat n <= zlen o → zlen x = zlen p →
  let t := printable (ztake (Z.of_nat n) q) in
  ascii_loop n (zlen p) (p ++ q) (x ++ o)
  = Some (zlen p + zlen t, x ++ t ++ zdrop (zlen t) o).
Proof.
  induction n as [|n IH]; intros p q x o Hq Ho Hx t; cbn [ascii_loop].
  { subst t. change (printable _) with (@nil Z). change (zlen (A:=Z) []) with 0.
    cbn [app]. rewrite zdrop_0. do 2 f_equal. lia. }
  destruct q as [|c q]; [zlens; lia|]. destruct o as [|y o]; [zlens; lia|]. zlens.
  rewrite rd_middle by done. cbn [mbind option_bind].
  assert (Ht : ztake (Z.of_nat (S n)) (c :: q) = c :: ztake (Z.of_nat n) q)
    by (unfold ztake; rewrite !Nat2Z.id; done).
  subst t. rewrite Ht. cbn [printable]. destruct (_ || _).
  { change (zlen (A:=Z) []) with 0. rewrite zdrop_0. cbn [app]. do 2 f_equal. lia. }
  rewrite wr_app by done. cbn [mbind option_bind].
  specialize (IH (p ++ [c]) q (x ++ [c]) o). rewrite <- !app_assoc in IH. cbn [app] in IH.
  rewrite !zlen_app in IH. change (zlen [c]) with 1 in IH. rewrite IH by lia.
  pose proof (zlen_nonneg (printable (ztake (Z.of_nat n) q))).
  rewrite zlen_cons, Z.add_assoc, <- app_assoc. cbn [app].
  by rewrite (Z.add_comm 1), zdrop_cons by apply zlen_nonneg.
Qed.

(** Whatever the bytes are, the text is a printable prefix with its NUL. *)
Lemma extract_run d o n :
  1 <= n → n - 1 <= zlen d → n <= zlen o →
  let t := printable (ztake (n - 1) d) in
  gxfp_extract_ascii_version (Some d) (Some o) n
  = Some (negb (zlen t =? 0), Some (t ++ 0 :: zdrop (zlen t + 1) o)).
Proof.
  intros Hn Hd Ho t. unfold gxfp_extract_ascii_version.
  rewrite (proj2 (Z.eqb_neq n 0)) by lia. destruct o as [|y o]; [zlens; lia|]. zlens.
  rewrite wr_0. cbn [mbind option_bind].
  pose proof (ascii_loop_run (Z.to_nat (n - 1)) [] d [] (0 :: o)) as Hl.
  cbn [app] in Hl. change (zlen (A:=Z) []) with 0 in Hl. rewrite Z2Nat.id in Hl by lia.
  rewrite Hl by (zlens; lia). cbn [mbind option_bind]. fold t. rewrite Z.add_0_l.
  assert (Htl : zlen t <= n - 1).
  { unfold t. etransitivity; [apply printable_length|]. rewrite zlen_ztake; lia. }
  pose proof (zlen_nonneg t).
  assert (Hw : wr (t ++ zdrop (zlen t) (0 :: o)) (zlen t) 0
               = Some (t ++ 0 :: zdrop (zlen t + 1) (0 :: o))).
  { rewrite <- (zdrop_zdrop 1 (zlen t)) by lia.
    destruct (zlen_pos_inv (zdrop (zlen t) (0 :: o)) (zlen (0 :: o) - zlen t))
      as (h & k & Eh & _); [apply zlen_zdrop; zlens; lia|zlens; lia|].
    rewrite Eh, wr_app by done. done. }
  rewrite Hw. cbn [mbind option_bind]. by rewrite !zdrop_cons by lia.
Qed.

(** The version query. *)
Lemma get_version_wp w d :
  w_dev w = Some d → fit d →
  let stack := uninit (w_trace w) GXFP_MAX_VERSION_RAW in
  wp gxfp_cmd_get_version
     (λ r w', let '(ret, v) := r in continues fit GXFP_DEFAULT_RETRY_COUNT w w' ∧
        if bool_decide (ret = 0) then
          ∃ pl, zlen pl <= GXFP_MAX_VERSION_RAW ∧ bytes_read v = zlen pl ∧
            raw v = pl ++ zeros (GXFP_MAX_VERSION_RAW - zlen pl) ∧
            let text := printable (ztake 31 (pl ++ zdrop (zlen pl) stack)) in
            version_ascii v = text ++ zeros (GXFP_MAX_VERSION_ASCII - zlen text) ∧
            status v = (if bool_decide (text = []) then u32 (- ENODATA) else 0)
        else status v = u32 ret ∧ version_ascii v = zeros GXFP_MAX_VERSION_ASCII) w.
Proof using EO T.
  intros Hd Hf stack. unfold gxfp_cmd_get_version.
  apply wp_bind. apply wp_gets. fold stack.
  apply wp_bind. eapply wp_eq; [by apply gdev_run|].
  destruct (fit_mailbox d Hf) as (Hm & Hsz).
  rewrite bool_decide_eq_false_2 by done. rewrite (proj2 (Z.ltb_ge _ _) Hsz). cbn [orb].
  assert (Hst : zlen stack = 512) by (apply uninit_len; vm_compute; done).
  unfold GXFP_MAX_VERSION_RAW, GXFP_MAX_VERSION_ASCII in *.
  assert (H1 : bytes_ok [1]) by (apply bytes_ok_cons; split; [by vm_compute|constructor]).
  apply wp_bind. eapply wp_mono.
  { eapply (cmd_xfer_wp GXFP_CMD_FIRMWARE_VERSION [1] GXFP_CMD_FIRMWARE_VERSION stack 512
              GXFP_DEFAULT_RETRY_COUNT); try done; try lia; by vm_compute. }
  intros [ret x] w1 (Hc1 & Hok). cbn [fst snd] in Hok.
  destruct (Z.eqb_spec ret 0) as [->|Hr]; cbn [negb]; cycle 1.
  { apply wp_ret. split; [exact Hc1|]. by rewrite bool_decide_eq_false_2. }
  destruct (Hok eq_refl) as (_ & pl & _ & _ & _ & _ & _ & _ & _ & Hpl & Hol & Hrp).
  pose proof (zlen_nonneg pl). rewrite Hrp, Hol.
  do 2 (apply wp_bind; eapply wp_lift; [done|]).
  replace (u32 (zlen pl `min` 512)) with (zlen pl) by (rewrite Z.min_l by lia; zint).
  apply wp_bind. eapply wp_lift; [apply memcpy_front; rewrite zlen_zeros; lia|].
  assert (Hz : ∀ n m, 0 <= n <= m → zdrop n (zeros m) = zeros (m - n)).
  { intros n m Hnm. replace m with (n + (m - n)) at 1 by lia. rewrite zeros_add by lia.
    apply zdrop_app, zlen_zeros. lia. }
  set (buf := pl ++ zdrop (zlen pl) stack).
  assert (Hbuf : zlen buf = 512) by (unfold buf; rewrite zlen_app, zlen_zdrop; lia).
  set (text := printable (ztake 31 buf)).
  assert (Htl : zlen text <= 31).
  { unfold text. etransitivity; [apply printable_length|]. rewrite zlen_ztake; lia. }
  pose proof (zlen_nonneg text).
  apply wp_bind. eapply wp_lift; [apply (extract_run buf (zeros 32) 32); [lia|lia|by vm_compute]|].
  cbv beta iota. apply wp_bind. eapply wp_lift; [done|].
  change (32 - 1) with 31. fold text. rewrite Hz by lia.
  assert (Hasc : text ++ 0 :: zeros (32 - (zlen text + 1)) = text ++ zeros (32 - zlen text)).
  { f_equal. replace (32 - zlen text) with (1 + (32 - (zlen text + 1))) by lia.
    by rewrite zeros_add by lia. }
  rewrite Hasc, Hz by lia.
  assert (Hrd : rd (text ++ zeros (32 - zlen text)) 0 = Some (hd 0 text))
    by (destruct text; done).
  apply wp_bind. eapply wp_lift; [exact Hrd|].
  destruct text as [|c t] eqn:Et; cbn [hd].
  - apply wp_ret. split; [exact Hc1|]. exists pl. fold buf. subst text. rewrite Et.
    split_and!; done.
  - assert (c <> 0) as Hc by by eapply printable_head. rewrite (proj2 (Z.eqb_neq c 0)) by done.
    apply wp_ret. split; [exact Hc1|]. exists pl. fold buf. subst text. rewrite Et.
    split_and!; done.
Qed.

(** A version query is defined against any sensor. On success the raw
    bytes are the reply, zero-filled, and the text is the longest printable
    prefix of the first 31 bytes of the buffer the reply was copied into:
    past the reply's end those are the bytes the stack held before. *)
Theorem get_version_result w d :
  w_dev w = Some d → fit d →
  let stack := uninit (w_trace w) GXFP_MAX_VERSION_RAW in
  wp gxfp_cmd_get_version
     (λ r w', let '(ret, v) := r in continues fit GXFP_DEFAULT_RETRY_COUNT w w' ∧
        if bool_decide (ret = 0) then
          ∃ pl, zlen pl <= GXFP_MAX_VERSION_RAW ∧ bytes_read v = zlen pl ∧
            raw v = pl ++ zeros (GXFP_MAX_VERSION_RAW - zlen pl) ∧
            let text := printable (ztake 31 (pl ++ zdrop (zlen pl) stack)) in
            version_ascii v = text ++ zeros (GXFP_MAX_VERSION_ASCII - zlen text) ∧
            status v = (if bool_decide (text = []) then u32 (- ENODATA) else 0)
        else status v = u32 ret ∧ version_ascii v = zeros GXFP_MAX_VERSION_ASCII) w.
Proof using EO T. apply get_version_wp. Qed.

(** ** MCU state *)

Definition mcu_state_of (b0 b1 : Z) (res : bytes) : gxfp_mcu_state :=
  {| version := b0; b1_raw := b1;
     is_pov_image_valid := Z.b2z (Z.testbit b1 0);
     is_tls_connected := Z.b2z (Z.testbit b1 1);
     is_tls_used := Z.b2z (Z.testbit b1 2);
     is_locked := Z.b2z (Z.testbit b1 3);
     reserved := res |}.

Lemma state_bit b k : 0 <= k → u8 (Z.land (Z.shiftr b k) 1) = Z.b2z (Z.testbit b k).
Proof.
  intros Hk. change 1 with (Z.ones 1) at 1. rewrite Z.land_ones by lia.
  rewrite Z.testbit_odd, Zmod_odd. by destruct (Z.odd _).
Qed.

Lemma parse_mcu_state_run b0 b1 res rest len o :
  zlen res = 18 → len <= 20 + zlen rest →
  gxfp_cmd_parse_mcu_state_payload (Some (b0 :: b1 :: res ++ rest)) len (Some o)
  = Some (if len <? 20 then (- EBADMSG, Some mcu_state_zero)
          else (0, Some (mcu_state_of b0 b1 res))).
Proof.
  intros Hres Hlen. unfold gxfp_cmd_parse_mcu_state_payload, GXFP_MCU_STATE_LEN.
  destruct (len <? 20); [done|].
  change (rd (?x :: ?t) 0) with (Some x). change (rd (?x :: ?a :: ?t) 1) with (Some a).
  cbn [mbind option_bind]. unfold memcpy.
  rewrite (slice_app [b0; b1] res rest) by done. cbn [mbind option_bind].
  rewrite (blit_eq _ 0 res [] (zeros 18) []) by (by rewrite ?app_nil_r). cbn [mbind option_bind].
  rewrite !state_bit by lia. cbn [app]. by rewrite app_nil_r.
Qed.

(** The state query. *)
Lemma query_mcu_state_wp w d o :
  w_dev w = Some d → fit d →
  wp (gxfp_cmd_query_mcu_state (Some o))
     (λ r w', let '(ret, out) := r in continues fit GXFP_DEFAULT_RETRY_COUNT w w' ∧
        (if bool_decide (ret = 0)
         then ∃ b0 b1 res rest flags trail more rx len w1, exchanged w1 rx len ∧
           rx = mp_frame flags (goodix_frame GXFP_CMD_QUERY_MCU_STATE
                                  (b0 :: b1 :: res ++ rest) ++ trail) ++ more ∧
           zlen res = 18 ∧ out = Some (mcu_state_of b0 b1 res)
         else out = Some mcu_state_zero)) w.
Proof using EO T.
  intros Hd Hf. unfold gxfp_cmd_query_mcu_state, gxfp_do_query_mcu_state.
  apply wp_bind. apply wp_gets. set (stack := uninit _ _).
  rewrite (bool_decide_eq_true_2 (is_Some (Some o))) by by eexists.
  destruct (fit_mailbox d Hf) as (Hm & Hsz).
  apply wp_bind. eapply wp_eq; [by apply gdev_run|].
  rewrite bool_decide_eq_false_2 by done. rewrite (proj2 (Z.ltb_ge _ _) Hsz). cbn [orb].
  apply wp_bind. apply wp_gets. cbv zeta.
  set (ts := u16 _). set (trig := [85; _; _; 0; 0]).
  assert (Htrig : bytes_ok trig).
  { unfold trig. rewrite !bytes_ok_cons. split_and!; try apply bytes_ok_nil; zint. }
  assert (Hst : zlen stack = 256) by (apply uninit_len; vm_compute; done).
  unfold GXFP_MAX_MCU_STATE_PAYLOAD.
  apply wp_bind. eapply wp_mono.
  { eapply (cmd_xfer_wp GXFP_CMD_TRIGGER_MCU_STATE trig GXFP_CMD_QUERY_MCU_STATE stack 256
              GXFP_DEFAULT_RETRY_COUNT); try done; try lia; by vm_compute. }
  intros [ret x] w1 (Hc1 & Hok). cbn [fst snd] in Hok.
  destruct (Z.eqb_spec ret 0) as [->|Hr]; cbn [negb]; cycle 1.
  { apply wp_ret. split; [exact Hc1|]. by rewrite bool_decide_eq_false_2. }
  destruct (Hok eq_refl) as (flags & pl & trail & rest & rx & len & w2 & Hex & Erx & Hpl & Hol & Hrp).
  pose proof (zlen_nonneg pl). rewrite Hrp, Hol.
  apply wp_bind. eapply wp_lift; [done|].
  destruct (Z.lt_ge_cases (zlen pl) 20) as [H20|H20].
  - assert (Hbad : gxfp_cmd_parse_mcu_state_payload (Some (pl ++ zdrop (zlen pl) stack)) (zlen pl)
      (Some mcu_state_zero) = Some (- EBADMSG, Some mcu_state_zero)).
    { unfold gxfp_cmd_parse_mcu_state_payload, GXFP_MCU_STATE_LEN.
      by rewrite (proj2 (Z.ltb_lt _ _)) by lia. }
    apply wp_bind. eapply wp_lift; [exact Hbad|]. cbn [Z.eqb negb Z.opp EBADMSG].
    apply wp_ret. split; [exact Hc1|]. done.
  - destruct (split3 pl 2 18) as (h & res & more & -> & Hh & Hres); [lia..|].
    destruct (zlen_pos_inv h 2) as (b0 & h' & -> & Hh'); [done|lia|].
    destruct (zlen_pos_inv h' 1) as (b1 & h'' & -> & Hh''); [lia..|].
    assert (h'' = []) as -> by (apply zlen_0; lia). rewrite !zlen_app, !zlen_cons in *.
    change (zlen (A:=Z) []) with 0 in *. cbn [app] in *. rewrite <- app_assoc.
    apply wp_bind. eapply wp_lift; [apply parse_mcu_state_run; [done|]|].
    { rewrite zlen_app. pose proof (zlen_nonneg (zdrop (1 + (1 + 0) + (zlen res + zlen more)) stack)). lia. }
    rewrite (proj2 (Z.ltb_ge _ _)) by lia. cbn [Z.eqb negb]. apply wp_ret.
    split; [exact Hc1|]. cbn. exists b0, b1, res, more, flags, trail, rest, rx, len, w2. done.
Qed.

(** A state query is defined against any sensor and clock; on success the
    state is decoded from the first 20 bytes of a reply whose checksum is
    right, one flag per bit of byte 1, and on failure it is all zero. *)
Theorem query_mcu_state_result w d o :
  w_dev w = Some d → fit d →
  wp (gxfp_cmd_query_mcu_state (Some o))
     (λ r w', let '(ret, out) := r in continues fit GXFP_DEFAULT_RETRY_COUNT w w' ∧
        (if bool_decide (ret = 0)
         then ∃ b0 b1 res rest flags trail more rx len w1, exchanged w1 rx len ∧
           rx = mp_frame flags (goodix_frame GXFP_CMD_QUERY_MCU_STATE
                                  (b0 :: b1 :: res ++ rest) ++ trail) ++ more ∧
           zlen res = 18 ∧ out = Some (mcu_state_of b0 b1 res)
         else out = Some mcu_state_zero)) w.
Proof using EO T. apply query_mcu_state_wp. Qed.
End commands.

(** * A sensor that answers *)

Section delivery.
Context {E : Kenv} {size : Z} {EO : KenvOk E size}.
Context (base : Z).

Lemma kmalloc_ok n w :
  w_oom w = [] → kmalloc n w = Some (Some (uninit (w_trace w) n), w).
Proof. intros Ho. rewrite kmalloc_run, Ho. destruct w; cbn in *. by subst. Qed.

(** One exchange with a sensor whose answer fits a window. *)
Lemma espi_xfer_delivers w d frame rest b o pkt :
  w_dev w = Some d → espi_fit size base d → w_oom w = [] →
  bytes_ok frame → 0 < zlen frame <= 504 → zlen b = GXFP_MAILBOX_MIN_SIZE →
  4 <= zlen pkt <= GXFP_ESPI_CHUNK_MAX → zlen pkt = 4 + head_len pkt →
  (∀ tr, sends (w_trace w) < sends tr →
     slice (mailbox_at tr) (base + GXFP_ESPI_RX_OFF) (zlen pkt) = Some pkt) →
  ∃ t w', gxfp_espi_xfer (Some (frame ++ rest)) (zlen frame) (Some b) GXFP_MAILBOX_MIN_SIZE
            (Some o) w = Some ((0, Some (pkt ++ t), Some (zlen pkt)), w') ∧
    bytes_ok (pkt ++ t) ∧ zlen (pkt ++ t) = GXFP_MAILBOX_MIN_SIZE ∧
    sends (w_trace w') = sends (w_trace w) + 1.
Proof using EO.
  intros Hd Hfit Ho Hf Hl Hb Hp Hh Hans. pose proof Hfit as (Hmap & t & Ht & Htl).
  pose proof Hmap as (Hm & Hb0 & Hs & Hsz).
  pose proof (espi_write_run w d base frame rest Hd Hm Hf ltac:(lia)) as Hw.
  rewrite (proj2 (Z.ltb_ge 504 _)), Ho in Hw by lia.
  unfold gxfp_espi_xfer. erewrite run_bind by exact Hw. cbn [Z.eqb negb].
  set (w1 := set_dev _ _). erewrite run_bind by reflexivity. cbv beta.
  set (w2 := {| w_dev := _ |}).
  assert (Hsend : sends (w_trace w2) = sends (w_trace w) + 1).
  { unfold w2, w1. cbn. rewrite !sends_app, write_events_sends. cbn. lia. }
  destruct (rx_window_ok base w2 Hb0 Hs) as (Hwl & Hwb).
  assert (Hwin : ztake (zlen pkt) (rx_window base w2) = pkt).
  { specialize (Hans (w_trace w2) ltac:(lia)). apply slice_inv in Hans as (_ & _ & _ & Hpk & _).
    unfold rx_window. rewrite ztake_ztake by lia. done. }
  assert (Hhl : 4 + head_len (rx_window base w2) = zlen pkt).
  { rewrite Hh, <- Hwin. f_equal. rewrite <- (ztake_zdrop (zlen pkt) (rx_window base w2)) at 1.
    apply head_len_app. rewrite zlen_ztake; lia. }
  exists (zdrop (zlen pkt) (rx_window base w2) ++ zeros 512).
  eexists. split.
  { rewrite (espi_read_single (size:=size) base w2 (set_seq16 (next_seq d) d) b o eq_refl)
      by (done || lia).
    rewrite Hhl. do 5 f_equal. rewrite <- (ztake_zdrop (zlen pkt) (rx_window base w2)) at 1.
    by rewrite Hwin, <- app_assoc. }
  rewrite app_assoc. rewrite <- Hwin at 1 3. rewrite ztake_zdrop.
  split; [apply bytes_ok_app; auto with gxfp|]. split; [by rewrite zlen_app, Hwl|].
  cbn [w_trace push]. rewrite sends_app, Hsend. cbn [sends]. rewrite sends_read_done. lia.
Qed.

Lemma xfer_accept_good req out c p rest len r :
  expect_cmd req = c → is_u8 c → zlen p < 27000 → resp_payload out = Some r →
  zlen p <= resp_payload_cap req → resp_payload_cap req <= zlen r →
  zlen p + 8 <= len <= GXFP_MAILBOX_MIN_SIZE →
  ∃ out', xfer_accept req out (mp_frame 160 (goodix_frame c p) ++ rest) len = Some (Some (0, out')) ∧
    resp_payload out' = Some (p ++ zdrop (zlen p) r) ∧
    out_resp_payload_len out' = setp (out_resp_payload_len out) (zlen p).
Proof.
  intros He Hc Hp Hr Hcap Hrl Hlen. pose proof (zlen_nonneg p). unfold xfer_accept.
  rewrite Z.min_l by lia.
  rewrite parse_mp_run; [|by vm_compute|by left|rewrite zlen_goodix_frame; unfold GXFP_GOODIX_MP_LEN_MAX; lia
    |rewrite zlen_goodix_frame; lia].
  cbn [mbind option_bind negb mp_payload mp_payload_len]. unfold goodix_frame at 1. cbn [app].
  rewrite <- app_assoc. cbn [app]. rewrite parse_body_run by (zint || rewrite zlen_goodix_frame; lia).
  cbn [mbind option_bind negb orb valid proto_checksum_ok cmd payload_len payload].
  rewrite Z.eqb_refl, He, Z.eqb_refl. cbn [negb]. rewrite andb_false_r, Hr.
  rewrite (proj2 (Z.ltb_ge _ _)) by lia. rewrite memcpy_front by lia. cbn [mbind option_bind].
  eexists. done.
Qed.

(** An answer as the mailbox shows it. *)
Lemma answer_len exp p :
  zlen p + 8 <= 3584 →
  zlen (mp_frame 160 (goodix_frame exp p)) = zlen p + 8 ∧
  zlen (mp_frame 160 (goodix_frame exp p)) = 4 + head_len (mp_frame 160 (goodix_frame exp p)).
Proof.
  intros Hp. pose proof (zlen_nonneg p). assert (Hl : zlen (mp_frame 160 (goodix_frame exp p)) = zlen p + 8)
    by (rewrite zlen_mp_frame, zlen_goodix_frame; lia).
  split; [done|]. rewrite Hl. unfold mp_frame, mp_head. cbn [app head_len]. rewrite zlen_goodix_frame. zdm.
Qed.

(** C7: delivery. Against a sensor that, once a packet has been sent, shows a
    well-formed answer of the expected command that fits a window, a command
    succeeds with the answer's payload, in one exchange, with one packet sent. *)
Theorem cmd_xfer_delivers c pl exp p r cap ntries delay w d :
  w_dev w = Some d → espi_fit size base d → w_oom w = [] →
  is_u8 c → bytes_ok pl → zlen pl <= 496 → is_u8 exp → bytes_ok p →
  0 < cap <= zlen r → zlen p <= cap → zlen p + 8 <= GXFP_ESPI_CHUNK_MAX → 0 <= ntries →
  (∀ tr, sends (w_trace w) < sends tr →
     slice (mailbox_at tr) (base + GXFP_ESPI_RX_OFF) (zlen p + 8)
     = Some (mp_frame 160 (goodix_frame exp p))) →
  ∃ x w', gxfp_cmd_xfer c (Some pl) (zlen pl) exp (Some r) cap (Some 0) ntries delay w
          = Some ((0, x), w') ∧
    resp_payload x = Some (p ++ zdrop (zlen p) r) ∧
    out_resp_payload_len x = Some (zlen p) ∧
    sends (w_trace w') = sends (w_trace w) + 1.
Proof using EO.
  intros Hd Hfit Ho Hc Hpl Hplen Hexp Hp Hcap Hpc Hps Htries Hans.
  pose proof (zlen_nonneg pl). pose proof (zlen_nonneg p).
  unfold GXFP_ESPI_CHUNK_MAX, GXFP_READ_CHUNK_MAX in *.
  destruct (answer_len exp p Hps) as (Hpk & Hhl). set (pkt := mp_frame 160 (goodix_frame exp p)) in *.
  unfold gxfp_cmd_xfer. rewrite bool_decide_eq_false_2, (proj2 (Z.eqb_neq cap 0)) by (done || lia).
  cbn [orb]. unfold gxfp_xfer. cbn [req_payload req_payload_len resp_payload_cap resp_payload tries req_cmd].
  rewrite bind_assoc. mstep (gdev_null_run w d Hd).
  rewrite !bool_decide_eq_false_2, andb_false_r by done. cbn [negb andb].
  rewrite (proj2 (Z.eqb_neq cap 0)) by lia.
  do 3 (rewrite bind_assoc; mstep kmalloc_ok; rewrite bool_decide_eq_false_2 by done).
  rewrite bind_assoc.
  destruct (build_request c pl [] (uninit (w_trace w) 512) (uninit (w_trace w) 512))
    as (n & body' & Eb & Hcase); [done|done|by apply uninit_len|by apply uninit_len|].
  rewrite app_nil_r in Eb. unfold GXFP_TX_BUFFER_SIZE. rewrite Eb, bind_lift.
  rewrite (proj2 (Z.leb_le _ _)) in Hcase by lia.
  destruct Hcase as (Hn & frame & tail & Em & Hfe & Hfo & Hfl).
  rewrite (proj2 (Z.ltb_ge n 0)) by lia. rewrite bind_assoc, Em, bind_lift.
  rewrite (proj2 (Z.ltb_ge (zlen frame) 0)) by lia. rewrite bind_assoc, bind_lift.
  assert (Hfl' : zlen frame <= 504)
    by (rewrite Hfe, zlen_mp_frame, zlen_goodix_frame; lia).
  assert (Hk : ∃ k, Z.to_nat (if ntries =? 0 then 1 else ntries) = S k).
  { destruct (Z.eqb_spec ntries 0); [by exists 0%nat|]. exists (Z.to_nat (ntries - 1)). lia. }
  destruct Hk as (k & ->). cbn [xfer_loop]. rewrite bind_assoc.
  destruct (espi_xfer_delivers w d frame tail (uninit (w_trace w) GXFP_MAILBOX_MIN_SIZE) 0 pkt)
    as (t & w' & Ex & Hok & Hxl & Hsends); try done; try lia.
  { by apply uninit_len. }
  { unfold GXFP_ESPI_CHUNK_MAX, GXFP_READ_CHUNK_MAX. lia. }
  { rewrite Hpk. done. }
  erewrite run_bind by exact Ex. cbn [Z.eqb negb].
  rewrite !bind_assoc, bind_lift, !bind_assoc, bind_lift, bind_assoc.
  set (req := Build_gxfp_xfer_req _ _ _ _ _ _ _ _). set (out := Build_xfer_out _ _ _).
  destruct (xfer_accept_good req out exp p t (zlen pkt) r) as (out' & Ea & H1 & H2);
    try done; try (cbn; lia); [unfold GXFP_MAILBOX_MIN_SIZE; lia|].
  fold pkt in Ea. rewrite Ea, bind_lift, bind_ret. cbn [Z.eqb negb].
  exists out', w'. done.
Qed.
End delivery.

(** * The theorems at work *)

(** A sensor that always shows [pkt]. *)
Definition const_env (fillb : Z) (pkt : bytes) : Kenv :=
  {| mailbox_at _ := zeros 512 ++ fill 3584 pkt;
     uninit _ n := replicate (Z.to_nat n) fillb;
     ktime_real _ := (0, 0);
     ktime_ns _ := 0 |}.

Lemma const_env_ok f pkt : is_u8 f → bytes_ok pkt → KenvOk (const_env f pkt) 4096.
Proof.
  intros Hf Hp. split; cbn [mailbox_at uninit const_env].
  - intros _. by rewrite zlen_app, zlen_fill by lia.
  - intros _. apply bytes_ok_app. split; [auto with gxfp|].
    apply bytes_ok_ztake, bytes_ok_app. auto with gxfp.
  - intros _ n Hn. unfold zlen. rewrite length_replicate. lia.
  - intros _ n. by apply Forall_replicate.
Qed.

Lemma demo_fit : espi_fit 4096 0 demo_dev.
Proof. split; [by vm_compute|]. by exists (zeros 3584). Qed.

(** A version reply of two characters, without a NUL. *)
Definition version_reply : bytes := mp_frame 160 (goodix_frame GXFP_CMD_FIRMWARE_VERSION [49; 50]).

Lemma version_reply_ok : bytes_ok version_reply.
Proof. repeat constructor; by vm_compute. Qed.

Definition demo_req : gxfp_xfer_req :=
  {| req_cmd := 168; expect_cmd := 168; require_proto_ck_ok := true; tries := 3;
     retry_delay_us := 100; req_payload := Some [1]; req_payload_len := 1;
     resp_payload_cap := 8 |}.
Definition demo_out : xfer_out :=
  {| resp_payload := Some (zeros 8); out_resp_payload_len := Some 0; out_frame := None |}.

(** Version text from a stack that holds 0x5a bytes: the two characters of the
    reply are followed by 29 that the sensor never sent. *)
Example version_reads_stack :
  match gxfp_cmd_get_version (E := const_env 90 version_reply) demo_world with
  | Some ((ret, v), _) => ret = 0 ∧ bytes_read v = 2 ∧
      version_ascii v = [49; 50] ++ replicate 29 90 ++ [0]
  | None => False
  end.
Proof. vm_compute. repeat split. Qed.

Definition demo_env : Kenv := const_env 0 version_reply.

Lemma demo_env_ok : KenvOk demo_env 4096.
Proof. apply const_env_ok; [by vm_compute|apply version_reply_ok]. Qed.

Lemma demo_transport : TransportOk (E:=demo_env) (espi_fit 4096 0).
Proof. exact (espi_transport_ok (EO:=demo_env_ok) 0). Qed.

Lemma xfer_sound_witness :
  wp (gxfp_xfer (E:=demo_env) demo_req demo_out)
    (λ r w', xfer_post (E:=demo_env) (fit:=espi_fit 4096 0) demo_req demo_out 3 demo_world r w' ∧
             r.1 ∈ [0; - ENOMEM; - EMSGSIZE; - EOVERFLOW; - ETIMEDOUT] ∧
             (504 < zlen [1] → r.1 ≠ 0 ∧ continues (espi_fit 4096 0) 0 demo_world w'))
    demo_world.
Proof.
  apply (xfer_sound (EO:=demo_env_ok) (T:=demo_transport) demo_req demo_out [1] [] demo_world demo_dev).
  - reflexivity.
  - exact demo_fit.
  - intros r Hr. injection Hr as <-. split; [reflexivity|vm_compute; discriminate].
  - eexists; reflexivity.
  - split; [discriminate|reflexivity].
  - apply bytes_ok_cons. split; [split; [discriminate|reflexivity]|constructor].
  - reflexivity.
  - reflexivity.
  - discriminate.
Defined.

Lemma recover_session_steps_witness :
  ∃ rs w', gxfp_cmd_recover_session (E:=demo_env) true demo_world = Some (first_failure rs, w').
Proof.
  destruct (recover_session_steps (EO:=demo_env_ok) (T:=demo_transport) true demo_world demo_dev)
    as (rs & w' & _ & E & _).
  - reflexivity.
  - exact demo_fit.
  - exists rs, w'. exact E.
Defined.

Lemma get_version_result_witness :
  ∃ r w', gxfp_cmd_get_version (E:=demo_env) demo_world = Some (r, w') ∧
    continues (espi_fit 4096 0) 8 demo_world w'.
Proof.
  destruct (wp_inv _ _ _ (get_version_result (EO:=demo_env_ok) (T:=demo_transport)
    demo_world demo_dev eq_refl demo_fit)) as ([ret v] & w' & E & Hc & _).
  exists (ret, v), w'. split; [exact E|exact Hc].
Defined.

Lemma query_mcu_state_result_witness :
  ∃ r w', gxfp_cmd_query_mcu_state (E:=demo_env) (Some mcu_state_zero) demo_world = Some (r, w') ∧
    continues (espi_fit 4096 0) 8 demo_world w'.
Proof.
  destruct (wp_inv _ _ _ (query_mcu_state_result (EO:=demo_env_ok) (T:=demo_transport)
    demo_world demo_dev mcu_state_zero eq_refl demo_fit)) as ([ret v] & w' & E & Hc & _).
  exists (ret, v), w'. split; [exact E|exact Hc].
Defined.

Lemma cmd_xfer_delivers_witness :
  ∃ x w', gxfp_cmd_xfer (E:=demo_env) 168 (Some [1]) 1 168 (Some (zeros 8)) 8 (Some 0) 3 100 demo_world
          = Some ((0, x), w') ∧ resp_payload x = Some [49; 50; 0; 0; 0; 0; 0; 0].
Proof.
  destruct (cmd_xfer_delivers (EO:=demo_env_ok) 0 168 [1] 168 [49; 50] (zeros 8) 8 3 100
    demo_world demo_dev) as (x & w' & E & Hx & _).
  - reflexivity.
  - exact demo_fit.
  - reflexivity.
  - split; [discriminate|reflexivity].
  - apply bytes_ok_cons. split; [split; [discriminate|reflexivity]|constructor].
  - discriminate.
  - split; [discriminate|reflexivity].
  - repeat constructor; discriminate.
  - split; [reflexivity|discriminate].
  - discriminate.
  - discriminate.
  - discriminate.
  - intros tr _. vm_compute. reflexivity.
  - exists x, w'. split; [exact E|exact Hx].
Defined.
