(* ===== verification/KUapi.v ===== *)
(** The character device of the driver: [kernel/driver/gxfp_uapi_fifo.c],
    [gxfp_uapi_ctrl.c], [gxfp_uapi_misc.c] and the record formats of
    [kernel/include/uapi/linux/gxfp_ioctl.h].

    Packets received by the interrupt thread are queued in a kfifo as records
    (header and payload) that read(2) hands out one at a time; write(2) sends a
    packet; open(2) admits one reader; an ioctl flushes the queue. Every part of
    a handler that runs under a spinlock is one definition, so that [KUapiConc]
    can interleave them. The kernel's kfifo is the interface [Kfifo]. *)
From Stdlib Require Import ZArith Lia.
From stdpp Require Import prelude list.
From S2P Require Import Prelude KMpProto KWorld KEspi.

Open Scope Z_scope.

(** * The kernel's byte queue *)

Class Kfifo := {
  fifo : Type;
  kfifo_init : fifo → Z → Z * fifo;
  kfifo_reset : fifo → fifo;
  kfifo_len : fifo → Z;
  kfifo_avail : fifo → Z;
  kfifo_is_empty : fifo → bool;
  kfifo_in : fifo → bytes → Z * fifo;
  kfifo_out : fifo → Z → bytes * fifo;
  kfifo_out_peek : fifo → Z → bytes
}.

(** Its documented behaviour: a bounded queue of bytes, in order; [kfifo_in]
    queues what fits, [kfifo_out] takes what there is. *)
Class KfifoOk (K : Kfifo) := {
  fifo_size : fifo → Z;
  contents : fifo → bytes;
  fifo_bounded : ∀ f, zlen (contents f) <= fifo_size f;
  init_spec : ∀ f n r f', kfifo_init f n = (r, f') →
    r = 0 → fifo_size f' = n ∧ contents f' = [];
  reset_spec : ∀ f, contents (kfifo_reset f) = [] ∧ fifo_size (kfifo_reset f) = fifo_size f;
  len_spec : ∀ f, kfifo_len f = zlen (contents f);
  avail_spec : ∀ f, kfifo_avail f = fifo_size f - zlen (contents f);
  empty_spec : ∀ f, kfifo_is_empty f = bool_decide (contents f = []);
  in_spec : ∀ f b, let n := zlen b `min` kfifo_avail f in
    (kfifo_in f b).1 = n ∧ contents (kfifo_in f b).2 = contents f ++ ztake n b ∧
    fifo_size (kfifo_in f b).2 = fifo_size f;
  out_spec : ∀ f n, 0 <= n →
    (kfifo_out f n).1 = ztake n (contents f) ∧
    contents (kfifo_out f n).2 = zdrop n (contents f) ∧
    fifo_size (kfifo_out f n).2 = fifo_size f;
  peek_spec : ∀ f n, 0 <= n → kfifo_out_peek f n = ztake n (contents f)
}.

(** * gxfp_ioctl.h *)

Definition GXFP_IOCTL_TX_PAYLOAD_MAX : Z := 508.
Definition GXFP_IOCTL_FLUSH_RXQ : Z := 18193. (* _IO ('G', 0x11) *)
Definition U32_MAX : Z := 4294967295.

Record gxfp_tap_hdr := {
  th_len : Z;
  th_type : Z;
  th_rsvd0 : Z;
  th_ts_ns : Z;
  th_head16 : bytes
}.

(** [sizeof (struct gxfp_tap_hdr)]: the compiler aligns [ts_ns] to 8 bytes. *)
Definition TAP_HDR_SIZE : Z := 40.

Definition tap_hdr_bytes (h : gxfp_tap_hdr) : bytes :=
  le_enc 4 (th_len h) ++ le_enc 4 (th_type h) ++ le_enc 4 (th_rsvd0 h) ++ zeros 4 ++
  le_enc 8 (th_ts_ns h) ++ th_head16 h.

(** [hdr.len] of a header read back as bytes. *)
Definition tap_hdr_len (b : bytes) : Z := le_dec (ztake 4 b).

Record gxfp_tx_pkt_hdr := {
  tx_mp_flags : Z;
  tx_pad0 : Z;
  tx_payload_len : Z;
  tx_flags : Z
}.
Definition TX_PKT_HDR_SIZE : Z := 8.

Definition tx_pkt_hdr_of (b : bytes) : option gxfp_tx_pkt_hdr :=
  b0 ← rd b 0;
  b1 ← rd b 1;
  l ← slice b 2 2;
  f ← slice b 4 4;
  Some {| tx_mp_flags := b0; tx_pad0 := b1; tx_payload_len := le_dec l; tx_flags := le_dec f |}.

(** * State *)

Section uapi.
Context {K : Kfifo} {E : Kenv}.

(** struct gxfp_dev, its uapi member. *)
Record gxfp_uapi := {
  misc_registered : bool;
  rxq_fifo : fifo;
  rxq_buf : bool;
  rxq_inited : bool;
  rxq_reader_open : bool
}.

Record uworld := {
  u_k : kworld;
  u_uapi : gxfp_uapi
}.

(** struct file: [f_mode & FMODE_READ], [f_flags & O_NONBLOCK]; [private_data]
    is the device or NULL. *)
Record file := {
  f_read : bool;
  f_nonblock : bool;
  private_data : bool
}.

Definition get_uapi : M uworld gxfp_uapi := gets u_uapi.
Definition mod_uapi (f : gxfp_uapi → gxfp_uapi) : M uworld () :=
  modw (λ u, {| u_k := u_k u; u_uapi := f (u_uapi u) |}).
Definition in_kernel {A} (m : M kworld A) : M uworld A :=
  zoom u_k (λ k u, {| u_k := k; u_uapi := u_uapi u |}) m.

Definition set_fifo (f : fifo) (s : gxfp_uapi) : gxfp_uapi :=
  {| misc_registered := misc_registered s; rxq_fifo := f; rxq_buf := rxq_buf s;
     rxq_inited := rxq_inited s; rxq_reader_open := rxq_reader_open s |}.
Definition set_reader (b : bool) (s : gxfp_uapi) : gxfp_uapi :=
  {| misc_registered := misc_registered s; rxq_fifo := rxq_fifo s; rxq_buf := rxq_buf s;
     rxq_inited := rxq_inited s; rxq_reader_open := b |}.
Definition set_misc (b : bool) (s : gxfp_uapi) : gxfp_uapi :=
  {| misc_registered := b; rxq_fifo := rxq_fifo s; rxq_buf := rxq_buf s;
     rxq_inited := rxq_inited s; rxq_reader_open := rxq_reader_open s |}.
Definition set_inited (b : bool) (s : gxfp_uapi) : gxfp_uapi :=
  {| misc_registered := misc_registered s; rxq_fifo := rxq_fifo s; rxq_buf := rxq_buf s;
     rxq_inited := b; rxq_reader_open := rxq_reader_open s |}.
Definition set_buf (b : bool) (s : gxfp_uapi) : gxfp_uapi :=
  {| misc_registered := misc_registered s; rxq_fifo := rxq_fifo s; rxq_buf := b;
     rxq_inited := rxq_inited s; rxq_reader_open := rxq_reader_open s |}.

(** * gxfp_uapi_fifo.c *)

Definition gxfp_uapi_rxq_flush_locked : M uworld () :=
  n ← in_kernel gdev_null;
  s ← get_uapi;
  when (negb (n || negb (rxq_inited s))) (mod_uapi (λ s, set_fifo (kfifo_reset (rxq_fifo s)) s)).

(** Before the lock: check, parse, build the header. *)
Definition push_prepare (buf : ptr bytes) (len : Z) : M uworld (option (gxfp_tap_hdr * bytes)) :=
  n ← in_kernel gdev_null;
  s ← get_uapi;
  if n || negb (rxq_inited s) || bool_decide (buf = None) || (len =? 0) then mret None else
  '(ok, mp) ← lift (gxfp_parse_mp_frame buf len (Some mp_frame_zero));
  mp ← lift mp;
  if negb ok || negb (mp_valid mp) then mret None else
  if U32_MAX <? mp_payload_len mp then mret None else
  ts ← gets (λ u, ktime_ns (w_trace (u_k u)));
  pl ← lift (mp_payload mp);
  h16 ← lift (memcpy (zeros 16) 0 pl 0 (mp_payload_len mp `min` 16));
  body ← lift (slice pl 0 (mp_payload_len mp));
  mret (Some ({| th_len := u32 (mp_payload_len mp); th_type := u32 (Z.shiftr (mp_flags mp) 4);
                 th_rsvd0 := 0; th_ts_ns := u64 ts; th_head16 := h16 |}, body)).

(** Under the lock: queue the record whole, or drop it. *)
Definition push_commit (hdr : gxfp_tap_hdr) (payload : bytes) : M uworld () :=
  s ← get_uapi;
  if negb (rxq_inited s) then mret () else
  let need := TAP_HDR_SIZE + zlen payload in
  if kfifo_avail (rxq_fifo s) <? need then mret () else
  mod_uapi (λ s, set_fifo (kfifo_in (rxq_fifo s) (tap_hdr_bytes hdr)).2 s);;
  mod_uapi (λ s, set_fifo (kfifo_in (rxq_fifo s) payload).2 s).

Definition gxfp_uapi_rxq_push (buf : ptr bytes) (len : Z) : M uworld () :=
  r ← push_prepare buf len;
  match r with
  | Some (hdr, payload) => push_commit hdr payload
  | None => mret ()
  end.

Definition gxfp_uapi_rxq_push_packet (buf : ptr bytes) (len : Z) : M uworld () :=
  gxfp_uapi_rxq_push buf len.

Definition gxfp_uapi_rxq_ready : M uworld bool :=
  s ← get_uapi;
  mret (rxq_inited s && negb (kfifo_is_empty (rxq_fifo s))).

(** One round of [gxfp_uapi_wait_nonempty]: a result, or wait. *)
Definition wait_check (f : file) : M uworld (option Z) :=
  s ← get_uapi;
  if negb (rxq_inited s) then mret (Some (- ENODEV)) else
  if negb (kfifo_is_empty (rxq_fifo s)) then mret (Some 0) else
  if f_nonblock f then mret (Some (- EAGAIN)) else mret None.

(** The loop: [wait_event] is [wait_event_interruptible] on the queue, which
    returns 0 when woken with its condition true and an error on a signal. *)
Fixpoint gxfp_uapi_wait_nonempty (fuel : nat) (wait_event : M uworld Z) (f : file)
    : M uworld Z :=
  match fuel with
  | O => ub
  | S fuel =>
    r ← wait_check f;
    match r with
    | Some ret => mret ret
    | None =>
      ret ← wait_event;
      if negb (ret =? 0) then mret ret else gxfp_uapi_wait_nonempty fuel wait_event f
    end
  end.

Definition gxfp_uapi_peek_need (count : Z) (out_need : ptr Z) : M uworld (Z * ptr Z) :=
  if bool_decide (out_need = None) then mret (- EINVAL, out_need) else
  s ← get_uapi;
  if negb (rxq_inited s) then mret (- ENODEV, out_need) else
  if kfifo_len (rxq_fifo s) <? TAP_HDR_SIZE then mret (- EIO, out_need) else
  let hdr := kfifo_out_peek (rxq_fifo s) TAP_HDR_SIZE in
  if negb (zlen hdr =? TAP_HDR_SIZE) then mret (- EIO, out_need) else
  let need := TAP_HDR_SIZE + tap_hdr_len hdr in
  if kfifo_len (rxq_fifo s) <? need then mret (- EIO, out_need) else
  if count <? need then mret (- EMSGSIZE, out_need) else
  mret (0, setp out_need need).

(** [tmp] receives the bytes taken out. *)
Definition gxfp_uapi_pop_record (tmp : bytes) (need : Z) (out_popped : ptr Z)
    : M uworld (Z * bytes * ptr Z) :=
  if bool_decide (out_popped = None) then mret (- EINVAL, tmp, out_popped) else
  s ← get_uapi;
  if negb (rxq_inited s) then mret (- ENODEV, tmp, out_popped) else
  let '(b, f) := kfifo_out (rxq_fifo s) need in
  mod_uapi (set_fifo f);;
  tmp ← lift (blit tmp 0 b);
  mret (0, tmp, setp out_popped (zlen b)).

(** The end of read(2): what was taken out, to the caller. [copy_to_user]
    faults when the caller's buffer is shorter. *)
Definition read_copyout (ubuf tmp : bytes) (popped need : Z) : option (Z * bytes) :=
  if negb (popped =? need) then Some (- EIO, ubuf) else
  src ← slice tmp 0 popped;
  match blit ubuf 0 src with
  | None => Some (- EFAULT, ubuf)
  | Some ubuf => Some (s32 popped, ubuf)
  end.

(** read(2) with the mutex held, after the queue was found not empty: the size
    of the record, a buffer, the record, the copy to the caller. *)
Definition read_record (ubuf : bytes) (count : Z) : M uworld (Z * bytes) :=
  '(ret, need) ← gxfp_uapi_peek_need count (Some 0);
  if negb (ret =? 0) then mret (ret, ubuf) else
  need ← lift need;
  tmp ← in_kernel (kmalloc need);
  if bool_decide (tmp = None) then mret (- ENOMEM, ubuf) else
  tmp ← lift tmp;
  '(ret, tmp, popped) ← gxfp_uapi_pop_record tmp need (Some 0);
  if negb (ret =? 0) then mret (ret, ubuf) else
  popped ← lift popped;
  lift (read_copyout ubuf tmp popped need).

(** [lock_ret] is the result of mutex_lock_interruptible. *)
Definition gxfp_uapi_read (fuel : nat) (wait_event : M uworld Z) (lock_ret : Z)
    (f : file) (ubuf : bytes) (count : Z) : M uworld (Z * bytes) :=
  s ← get_uapi;
  if negb (private_data f) || negb (rxq_inited s) then mret (- ENODEV, ubuf) else
  if count =? 0 then mret (0, ubuf) else
  if negb (lock_ret =? 0) then mret (lock_ret, ubuf) else
  ret ← gxfp_uapi_wait_nonempty fuel wait_event f;
  if negb (ret =? 0) then mret (ret, ubuf) else
  read_record ubuf count.

Definition EPOLLIN : Z := 1.
Definition EPOLLERR : Z := 8.
Definition EPOLLRDNORM : Z := 64.

Definition gxfp_uapi_poll (f : file) : M uworld Z :=
  s ← get_uapi;
  if negb (private_data f) || negb (rxq_inited s) then mret EPOLLERR else
  s ← get_uapi;
  if negb (rxq_inited s) then mret EPOLLERR else
  mret (if negb (kfifo_is_empty (rxq_fifo s)) then Z.lor EPOLLIN EPOLLRDNORM else 0).

(** * gxfp_uapi_ctrl.c *)

(** [capable] is the kernel's answer to capable (CAP_SYS_ADMIN). *)
Definition gxfp_uapi_open (capable : bool) (f : file) : M uworld (Z * file) :=
  if negb capable then mret (- EPERM, f) else
  let opened := {| f_read := f_read f; f_nonblock := f_nonblock f; private_data := true |} in
  if f_read f then
    s ← get_uapi;
    if negb (rxq_inited s) then mret (- ENODEV, f) else
    if rxq_reader_open s then mret (- EBUSY, f) else
    mod_uapi (set_reader true);;
    mret (0, opened)
  else mret (0, opened).

Definition gxfp_uapi_release (f : file) : M uworld Z :=
  if negb (private_data f) then mret 0 else
  when (f_read f) (mod_uapi (set_reader false));;
  mret 0.

(** [ubuf] is the accessible part of the caller's buffer: copy_from_user fails
    when it asks for more. *)
Definition gxfp_uapi_write (f : file) (ubuf : ptr bytes) (count : Z) : M uworld Z :=
  match ubuf with
  | None => mret (- ENODEV)
  | Some ub =>
    if negb (private_data f) then mret (- ENODEV) else
    if count <? TX_PKT_HDR_SIZE then mret (- EINVAL) else
    match slice ub 0 TX_PKT_HDR_SIZE with
    | None => mret (- EFAULT)
    | Some h =>
      txh ← lift (tx_pkt_hdr_of h);
      let payload_len := tx_payload_len txh in
      if GXFP_IOCTL_TX_PAYLOAD_MAX <? payload_len then mret (- EINVAL) else
      let need := TX_PKT_HDR_SIZE + payload_len in
      if negb (count =? need) then mret (- EINVAL) else
      mp ← in_kernel (kmalloc (4 + payload_len));
      if bool_decide (mp = None) then mret (- ENOMEM) else
      mp ← lift mp;
      mp ← lift (wr mp 0 (tx_mp_flags txh));
      mp ← lift (wr mp 1 (u8 (Z.land payload_len 255)));
      mp ← lift (wr mp 2 (u8 (Z.land (Z.shiftr payload_len 8) 255)));
      b0 ← lift (rd mp 0);
      b1 ← lift (rd mp 1);
      b2 ← lift (rd mp 2);
      mp ← lift (wr mp 3 (u8 (b0 + b1 + b2)));
      match (if negb (payload_len =? 0) then slice ub TX_PKT_HDR_SIZE payload_len else Some []) with
      | None => mret (- EFAULT)
      | Some pl =>
        mp ← lift (blit mp 4 pl);
        ret ← in_kernel (gxfp_espi_write (Some mp) (4 + payload_len));
        if negb (ret =? 0) then mret ret else mret count
      end
    end
  end.

Definition gxfp_uapi_unlocked_ioctl (lock_ret : Z) (f : file) (cmd : Z) : M uworld Z :=
  if negb (private_data f) then mret (- ENODEV) else
  if cmd =? GXFP_IOCTL_FLUSH_RXQ then
    if negb (lock_ret =? 0) then mret lock_ret else
    gxfp_uapi_rxq_flush_locked;;
    mret 0
  else mret (- ENOTTY).

(** * gxfp_uapi_misc.c *)

Definition GXFP_RXQ_FIFO_BYTES : Z := 1048576. (* SZ_1M *)

(** [misc_ret] is the result of misc_register. *)
Definition gxfp_uapi_register (misc_ret : Z) : M uworld Z :=
  n ← in_kernel gdev_null;
  if (n : bool) then mret (- EINVAL) else
  s ← get_uapi;
  if misc_registered s then mret 0 else
  mod_uapi (λ s, set_reader false (set_inited false s));;
  b ← in_kernel (kmalloc GXFP_RXQ_FIFO_BYTES);
  if bool_decide (b = None) then mod_uapi (set_buf false);; mret (- ENOMEM) else
  mod_uapi (set_buf true);;
  s ← get_uapi;
  let '(rc, f) := kfifo_init (rxq_fifo s) GXFP_RXQ_FIFO_BYTES in
  mod_uapi (set_fifo f);;
  if negb (rc =? 0) then mod_uapi (set_buf false);; mret rc else
  mod_uapi (set_inited true);;
  if negb (misc_ret =? 0) then
    mod_uapi (λ s, set_inited false (set_buf false s));;
    mret misc_ret
  else
  mod_uapi (set_misc true);;
  mret 0.

(** Before the mutex, and under it. *)
Definition unregister_misc : M uworld bool :=
  n ← in_kernel gdev_null;
  if (n : bool) then mret false else
  s ← get_uapi;
  if negb (misc_registered s) && negb (rxq_inited s) then mret false else
  when (misc_registered s) (mod_uapi (set_misc false));;
  s ← get_uapi;
  mret (rxq_inited s).

Definition unregister_rxq : M uworld () :=
  mod_uapi (λ s, set_fifo (kfifo_reset (rxq_fifo s)) (set_reader false (set_inited false s)));;
  mod_uapi (set_buf false).

Definition gxfp_uapi_unregister : M uworld () :=
  go ← unregister_misc;
  when go unregister_rxq.
End uapi.

(** * A list as the byte queue *)

(** A size and the bytes; bytes past the size do not count. *)
#[export] Instance list_kfifo : Kfifo :=
  let cont (f : Z * bytes) := ztake f.1 f.2 in
  let size (f : Z * bytes) := Z.max 0 f.1 in
  {| fifo := Z * bytes;
     kfifo_init f n := if n <? 0 then (- EINVAL, f) else (0, (n, []));
     kfifo_reset f := (f.1, []);
     kfifo_len f := zlen (cont f);
     kfifo_avail f := size f - zlen (cont f);
     kfifo_is_empty f := bool_decide (cont f = []);
     kfifo_in f b := let n := zlen b `min` (size f - zlen (cont f)) in
                     (n, (f.1, cont f ++ ztake n b));
     kfifo_out f n := (ztake n (cont f), (f.1, zdrop n (cont f)));
     kfifo_out_peek f n := ztake n (cont f) |}.

Lemma zlen_ztake_le n l : zlen (ztake n l) <= Z.max 0 n.
Proof. unfold zlen, ztake. rewrite length_take. lia. Qed.

Lemma ztake_short n l : zlen l <= Z.max 0 n → ztake n l = l.
Proof. unfold zlen, ztake. intros. apply take_ge. lia. Qed.

#[export] Instance list_kfifo_ok : KfifoOk list_kfifo.
Proof.
  refine {| fifo_size (f : @fifo list_kfifo) := Z.max 0 f.1;
            contents (f : @fifo list_kfifo) := ztake f.1 f.2 |}.
  - intros [n b]. apply zlen_ztake_le.
  - intros [n0 b0] n r [n' b'] Hi Hr. cbn in *. subst r. destruct (Z.ltb_spec n 0).
    + by injection Hi.
    + injection Hi as <- <-. cbn. split; [lia|apply take_nil].
  - intros [n b]. cbn. split; [apply take_nil|done].
  - done.
  - done.
  - done.
  - intros [n b] x. cbn. pose proof (zlen_ztake_le n b). pose proof (zlen_nonneg x).
    split_and!; [done| |done]. apply ztake_short. rewrite zlen_app.
    pose proof (zlen_ztake_le (zlen x `min` (Z.max 0 n - zlen (ztake n b))) x) as Hm.
    revert Hm. generalize (zlen (ztake (zlen x `min` (Z.max 0 n - zlen (ztake n b))) x)).
    intros m Hm. lia.
  - intros [n b] k Hk. cbn. split_and!; [done| |done]. apply ztake_short.
    pose proof (zlen_ztake_le n b). unfold zlen, zdrop in *. rewrite length_drop. lia.
  - done.
Defined.

(** * Records *)

Abbreviation record := (gxfp_tap_hdr * bytes)%type.

Definition rec_bytes (r : record) : bytes := tap_hdr_bytes r.1 ++ r.2.

(** What a queued record's header says of its payload. *)
Definition rec_ok (r : record) : Prop :=
  th_len r.1 = zlen r.2 ∧ zlen r.2 < 2 ^ 32 ∧ zlen (th_head16 r.1) = 16.

Definition queue_bytes (q : list record) : bytes := concat (rec_bytes <$> q).

Lemma zlen_tap_hdr h : zlen (th_head16 h) = 16 → zlen (tap_hdr_bytes h) = TAP_HDR_SIZE.
Proof. intros. unfold tap_hdr_bytes. rewrite !zlen_app, !zlen_le_enc, zlen_zeros by lia. unfold TAP_HDR_SIZE. lia. Qed.

Lemma zlen_rec r : rec_ok r → zlen (rec_bytes r) = TAP_HDR_SIZE + zlen r.2.
Proof. intros (_ & _ & H). unfold rec_bytes. by rewrite zlen_app, zlen_tap_hdr. Qed.

Lemma tap_hdr_len_rec r rest : rec_ok r → tap_hdr_len (ztake TAP_HDR_SIZE (rec_bytes r ++ rest)) = zlen r.2.
Proof.
  intros (Hl & Hb & Hh). unfold rec_bytes. rewrite <- app_assoc, ztake_app by by apply zlen_tap_hdr.
  unfold tap_hdr_len, tap_hdr_bytes. rewrite ztake_app by apply zlen_le_enc.
  rewrite le_dec_enc, Hl. pose proof (zlen_nonneg r.2). change (256 ^ Z.of_nat 4) with (2 ^ 32).
  apply Z.mod_small. lia.
Qed.

Lemma queue_cons r q : queue_bytes (r :: q) = rec_bytes r ++ queue_bytes q.
Proof. done. Qed.

Lemma queue_snoc r q : queue_bytes (q ++ [r]) = queue_bytes q ++ rec_bytes r.
Proof. unfold queue_bytes. rewrite fmap_app, concat_app. cbn. by rewrite app_nil_r. Qed.

Section handlers.
Context {K : Kfifo} {KO : KfifoOk K} {E : Kenv} {size : Z} {EO : KenvOk E size}.

Definition u_fifo (u : uworld) : fifo := rxq_fifo (u_uapi u).
Definition u_contents (u : uworld) : bytes := contents (u_fifo u).
Definition u_inited (u : uworld) : bool := rxq_inited (u_uapi u).

(** The world with another queue. *)
Definition with_fifo (f : fifo) (u : uworld) : uworld :=
  {| u_k := u_k u; u_uapi := set_fifo f (u_uapi u) |}.

Lemma in_kernel_run {A} (m : M kworld A) u a k :
  m (u_k u) = Some (a, k) → in_kernel m u = Some (a, {| u_k := k; u_uapi := u_uapi u |}).
Proof. intros Hm. unfold in_kernel, zoom. by rewrite Hm. Qed.

Lemma u_null_run u d : w_dev (u_k u) = Some d → in_kernel gdev_null u = Some (false, u).
Proof.
  intros Hd. erewrite in_kernel_run by (by eapply gdev_null_run). by destruct u.
Qed.

Lemma get_uapi_run u : get_uapi u = Some (u_uapi u, u).
Proof. done. Qed.

(** A record is queued whole at the end, or not at all when it does not fit. *)
Lemma push_commit_run h p u :
  rec_ok (h, p) →
  ∃ f, push_commit h p u = Some ((), with_fifo f u) ∧
    contents f = (if u_inited u && (TAP_HDR_SIZE + zlen p <=? fifo_size (u_fifo u) - zlen (u_contents u))
                  then u_contents u ++ rec_bytes (h, p) else u_contents u) ∧
    fifo_size f = fifo_size (u_fifo u).
Proof.
  intros Hok. unfold push_commit, u_inited, u_contents, u_fifo.
  rewrite (run_bind _ _ _ _ _ (get_uapi_run u)).
  assert (Hsame : u = with_fifo (rxq_fifo (u_uapi u)) u) by (by destruct u as [k []]).
  destruct (rxq_inited (u_uapi u)) eqn:Hi; cbn [negb andb]; cycle 1.
  { exists (rxq_fifo (u_uapi u)). by rewrite <- Hsame. }
  cbv zeta. set (f0 := rxq_fifo (u_uapi u)) in *. rewrite avail_spec.
  destruct (Z.ltb_spec (fifo_size f0 - zlen (contents f0)) (TAP_HDR_SIZE + zlen p)) as [Hlt|Hge].
  { exists f0. rewrite (proj2 (Z.leb_gt _ _)) by done. by rewrite <- Hsame. }
  rewrite (proj2 (Z.leb_le _ _)) by done. pose proof (zlen_nonneg p).
  assert (Hh : zlen (tap_hdr_bytes h) = TAP_HDR_SIZE) by (apply zlen_tap_hdr, Hok).
  unfold TAP_HDR_SIZE in *.
  destruct (in_spec f0 (tap_hdr_bytes h)) as (_ & Hc1 & Hs1). rewrite avail_spec in Hc1.
  rewrite Z.min_l, ztake_all in Hc1 by lia.
  destruct (in_spec (kfifo_in f0 (tap_hdr_bytes h)).2 p) as (_ & Hc2 & Hs2).
  rewrite avail_spec, Hs1, Hc1, zlen_app in Hc2. rewrite Z.min_l, ztake_all in Hc2 by lia.
  exists (kfifo_in (kfifo_in f0 (tap_hdr_bytes h)).2 p).2.
  split; [done|]. split; [|by rewrite Hs2]. rewrite Hc2, <- app_assoc. done.
Qed.
(** ** Queueing a packet *)

Definition hdr_of (ts flags : Z) (pl : bytes) : gxfp_tap_hdr :=
  {| th_len := zlen pl; th_type := Z.shiftr flags 4; th_rsvd0 := 0; th_ts_ns := u64 ts;
     th_head16 := ztake 16 pl ++ zeros (16 - zlen pl `min` 16) |}.

Lemma hdr_of_ok ts flags pl : zlen pl < 2 ^ 32 → rec_ok (hdr_of ts flags pl, pl).
Proof.
  intros Hl. split; [done|]. split; [done|]. cbn. pose proof (zlen_nonneg pl).
  rewrite zlen_app, zlen_zeros by lia. unfold ztake, zlen in *. rewrite length_take. lia.
Qed.

Lemma push_prepare_frame flags pl rest len u d :
  w_dev (u_k u) = Some d → u_inited u = true → is_u8 flags → mp_type_ok (Z.shiftr flags 4) →
  zlen pl < GXFP_GOODIX_MP_LEN_MAX → 4 + zlen pl <= len →
  push_prepare (Some (mp_frame flags pl ++ rest)) len u
  = Some (Some (hdr_of (ktime_ns (w_trace (u_k u))) flags pl, pl), u).
Proof.
  intros Hd Hi Hf Ht Hmax Hlen. pose proof (zlen_nonneg pl). unfold push_prepare.
  rewrite (run_bind _ _ _ _ _ (u_null_run u d Hd)). rewrite (run_bind _ _ _ _ _ (get_uapi_run u)).
  unfold u_inited in Hi. rewrite Hi, bool_decide_eq_false_2 by done. cbn [negb orb].
  rewrite (proj2 (Z.eqb_neq len 0)) by lia.
  rewrite parse_mp_run by done. rewrite !bind_lift. cbn [negb orb mp_valid mp_payload_len mp_payload mp_flags].
  unfold GXFP_GOODIX_MP_LEN_MAX, U32_MAX in *. rewrite (proj2 (Z.ltb_ge _ _)) by lia.
  rewrite bind_gets, bind_lift. unfold memcpy.
  destruct (split3 (pl ++ rest) 0 (zlen pl `min` 16)) as (p & m & q & Epq & Hp & Hm);
    [lia|lia|rewrite zlen_app; pose proof (zlen_nonneg rest); lia|].
  rewrite (zlen_0 p) in Epq by lia. cbn [app] in Epq. rewrite Epq, (slice_prefix m q (zlen pl `min` 16) Hm).
  assert (Hm' : m = ztake 16 pl).
  { rewrite <- (ztake_app (zlen pl `min` 16) m q Hm), <- Epq.
    destruct (Z.le_gt_cases (zlen pl) 16).
    - rewrite Z.min_l, ztake_app by done. unfold ztake, zlen in *. rewrite take_ge; [done|lia].
    - rewrite Z.min_r by lia. unfold ztake, zlen in *. rewrite take_app_le; [done|lia]. }
  cbn [mbind option_bind]. rewrite blit_Some by (rewrite ?Hm; change (zlen (zeros 16)) with 16; lia).
  rewrite bind_lift, Hm. rewrite <- Epq, slice_prefix, bind_lift by done. rewrite ret_run.
  do 4 f_equal. unfold hdr_of. f_equal.
  - unfold u32. apply Z.mod_small. lia.
  - unfold u32. apply Z.mod_small. rewrite shiftr_div by lia. unfold is_u8 in Hf. zdm.
  - change (ztake 0 (zeros 16)) with (@nil Z). cbn [app]. rewrite Hm'. f_equal.
    replace (zeros 16) with (zeros (zlen pl `min` 16 + (16 - zlen pl `min` 16))) by (f_equal; lia).
    rewrite zeros_add by lia. rewrite Z.add_0_l. apply zdrop_app, zlen_zeros. lia.
Qed.

(** A received frame, through parsing and queueing. *)
Lemma push_frame_run flags pl rest len u d :
  w_dev (u_k u) = Some d → u_inited u = true → is_u8 flags → mp_type_ok (Z.shiftr flags 4) →
  zlen pl < GXFP_GOODIX_MP_LEN_MAX → 4 + zlen pl <= len →
  let r := (hdr_of (ktime_ns (w_trace (u_k u))) flags pl, pl) in
  ∃ f, gxfp_uapi_rxq_push_packet (Some (mp_frame flags pl ++ rest)) len u
       = Some ((), with_fifo f u) ∧
    fifo_size f = fifo_size (u_fifo u) ∧
    contents f = (if TAP_HDR_SIZE + zlen pl <=? fifo_size (u_fifo u) - zlen (u_contents u)
                  then u_contents u ++ rec_bytes r else u_contents u) ∧
    zlen (rec_bytes r) = TAP_HDR_SIZE + zlen pl.
Proof.
  intros Hd Hi Hf Ht Hmax Hlen r. unfold gxfp_uapi_rxq_push_packet, gxfp_uapi_rxq_push.
  erewrite run_bind by (by eapply push_prepare_frame).
  assert (Hok : rec_ok r) by (apply hdr_of_ok; unfold GXFP_GOODIX_MP_LEN_MAX in *; lia).
  destruct (push_commit_run _ _ u Hok) as (f & Ef & Hc & Hs).
  exists f. rewrite Hi in Hc. split_and!; [done|done|done|by apply zlen_rec].
Qed.

(** A received frame is queued whole, with its length, type, clock and first
    16 bytes in the header, if the record fits the space left, and otherwise
    leaves the queue exactly as it was. *)
Theorem rxq_push_record flags pl rest len u d :
  w_dev (u_k u) = Some d → u_inited u = true → is_u8 flags → mp_type_ok (Z.shiftr flags 4) →
  zlen pl < GXFP_GOODIX_MP_LEN_MAX → 4 + zlen pl <= len →
  let r := (hdr_of (ktime_ns (w_trace (u_k u))) flags pl, pl) in
  ∃ f, gxfp_uapi_rxq_push_packet (Some (mp_frame flags pl ++ rest)) len u
       = Some ((), with_fifo f u) ∧
    fifo_size f = fifo_size (u_fifo u) ∧
    contents f = (if TAP_HDR_SIZE + zlen pl <=? fifo_size (u_fifo u) - zlen (u_contents u)
                  then u_contents u ++ rec_bytes r else u_contents u) ∧
    zlen (rec_bytes r) = TAP_HDR_SIZE + zlen pl.
Proof. apply push_frame_run. Qed.

(** ** Taking a record *)

Lemma peek_need_run r q count u :
  u_inited u = true → u_contents u = queue_bytes (r :: q) → rec_ok r →
  let need := TAP_HDR_SIZE + zlen r.2 in
  gxfp_uapi_peek_need count (Some 0) u
  = Some (if count <? need then (- EMSGSIZE, Some 0) else (0, Some need), u).
Proof using KO.
  intros Hi Hc Hr need. unfold gxfp_uapi_peek_need. rewrite bool_decide_eq_false_2 by done.
  rewrite (run_bind _ _ _ _ _ (get_uapi_run u)). unfold u_inited, u_contents, u_fifo in *.
  rewrite Hi. cbn [negb]. rewrite queue_cons in Hc. rewrite len_spec, peek_spec, Hc by (unfold TAP_HDR_SIZE; lia).
  pose proof (zlen_nonneg r.2). pose proof (zlen_nonneg (queue_bytes q)).
  rewrite (zlen_app (rec_bytes r)), zlen_rec by done. unfold TAP_HDR_SIZE in *.
  rewrite (proj2 (Z.ltb_ge _ 40)) by lia. cbv zeta.
  rewrite zlen_ztake by (rewrite zlen_app, zlen_rec by done; unfold TAP_HDR_SIZE; lia).
  rewrite Z.eqb_refl. cbn [negb]. change 40 with TAP_HDR_SIZE.
  rewrite tap_hdr_len_rec by done. rewrite (proj2 (Z.ltb_ge _ (TAP_HDR_SIZE + zlen r.2)))
    by (unfold TAP_HDR_SIZE; lia). change (TAP_HDR_SIZE + zlen r.2) with need. by destruct (count <? need).
Qed.

Lemma pop_record_run r q tmp u :
  u_inited u = true → u_contents u = queue_bytes (r :: q) → rec_ok r →
  let need := TAP_HDR_SIZE + zlen r.2 in zlen tmp = need →
  ∃ f, gxfp_uapi_pop_record tmp need (Some 0) u
       = Some ((0, rec_bytes r, Some need), with_fifo f u) ∧
    contents f = queue_bytes q ∧ fifo_size f = fifo_size (u_fifo u).
Proof using KO.
  intros Hi Hc Hr need Ht. unfold gxfp_uapi_pop_record. rewrite bool_decide_eq_false_2 by done.
  rewrite (run_bind _ _ _ _ _ (get_uapi_run u)). unfold u_inited, u_contents, u_fifo in *.
  rewrite Hi. cbn [negb]. rewrite queue_cons in Hc. pose proof (zlen_nonneg r.2).
  assert (Hrl : zlen (rec_bytes r) = need) by by apply zlen_rec.
  destruct (out_spec (rxq_fifo (u_uapi u)) need) as (Hb & Hcf & Hs);
    [unfold need, TAP_HDR_SIZE; lia|].
  destruct (kfifo_out (rxq_fifo (u_uapi u)) need) as [b f]. cbn [fst snd] in *.
  rewrite Hc, ztake_app in Hb by done. rewrite Hc, zdrop_app in Hcf by done. subst b.
  exists f. split; [|done]. erewrite run_bind by reflexivity.
  rewrite (blit_eq tmp 0 (rec_bytes r) [] tmp []) by (rewrite ?app_nil_r; done || lia).
  cbn [app]. rewrite bind_lift, app_nil_r, Hrl. done.
Qed.

(** read(2) on a queue of records. *)
Lemma read_record_run r q ubuf count u :
  u_inited u = true → u_contents u = queue_bytes (r :: q) → rec_ok r →
  fifo_size (u_fifo u) <= GXFP_RXQ_FIFO_BYTES →
  let need := TAP_HDR_SIZE + zlen r.2 in
  ∃ ret ubuf' u', read_record ubuf count u = Some ((ret, ubuf'), u') ∧
    u_inited u' = true ∧
    if count <? need then ret = - EMSGSIZE ∧ ubuf' = ubuf ∧ u_contents u' = u_contents u else
    match w_oom (u_k u) with
    | true :: _ => ret = - ENOMEM ∧ ubuf' = ubuf ∧ u_contents u' = u_contents u
    | _ => u_contents u' = queue_bytes q ∧
      if need <=? zlen ubuf then ret = need ∧ ubuf' = rec_bytes r ++ zdrop need ubuf
      else ret = - EFAULT ∧ ubuf' = ubuf
    end.
Proof using KO EO.
  intros Hi Hc Hr Hsize need. pose proof (zlen_nonneg r.2).
  assert (Hneed : 0 <= need) by (unfold need, TAP_HDR_SIZE; lia).
  assert (Hrl : zlen (rec_bytes r) = need) by by apply zlen_rec.
  assert (Hsmall : need < 2 ^ 31).
  { pose proof (fifo_bounded (u_fifo u)) as Hb. unfold u_contents in Hc.
    rewrite Hc, queue_cons, zlen_app, Hrl in Hb. pose proof (zlen_nonneg (queue_bytes q)).
    unfold GXFP_RXQ_FIFO_BYTES in *. lia. }
  unfold read_record. erewrite run_bind by (by apply (peek_need_run r q)).
  fold need. destruct (count <? need).
  { cbn [negb Z.eqb Z.opp EMSGSIZE]. eexists _, _, _. split; [done|]. done. }
  cbn [negb Z.eqb]. rewrite bind_lift.
  erewrite run_bind by (eapply in_kernel_run, kmalloc_run).
  set (u1 := {| u_k := _; u_uapi := _ |}).
  assert (Hgo : ∀ b, zlen b = need → ∃ ret ubuf' u',
    (tmp ← lift (Some b);
     '(ret, tmp, popped) ← gxfp_uapi_pop_record tmp need (Some 0);
     if negb (ret =? 0) then mret (ret, ubuf) else
     popped ← lift popped;
     lift (read_copyout ubuf tmp popped need)) u1 = Some ((ret, ubuf'), u') ∧ u_inited u' = true ∧ u_contents u' = queue_bytes q ∧
      if need <=? zlen ubuf then ret = need ∧ ubuf' = rec_bytes r ++ zdrop need ubuf
      else ret = - EFAULT ∧ ubuf' = ubuf).
  { intros b Hb. rewrite bind_lift.
    destruct (pop_record_run r q b u1 Hi Hc Hr Hb) as (f & Ef & Hcf & _).
    erewrite run_bind by exact Ef. cbn [negb Z.eqb]. rewrite bind_lift. unfold read_copyout.
    rewrite Z.eqb_refl. cbn [negb]. rewrite slice_full by done. cbn [mbind option_bind].
    unfold blit. rewrite Hrl. cbn [Z.leb Z.compare andb].
    destruct (Z.leb_spec (0 + need) (zlen ubuf)) as [Hle|Hgt].
    - rewrite (proj2 (Z.leb_le need _)) by lia. eexists _, _, _. split; [done|].
      assert (s32 need = need) by (unfold need, TAP_HDR_SIZE in *; zint).
      rewrite Z.add_0_l. split_and!; done.
    - rewrite (proj2 (Z.leb_gt need _)) by lia. eexists _, _, _. split; [done|]. done. }
  destruct (w_oom (u_k u)) as [|[] oom]; cbn [bool_decide].
  2: { rewrite bool_decide_eq_true_2 by done. eexists _, _, _. split; [done|]. done. }
  all: rewrite bool_decide_eq_false_2 by done.
  all: destruct (Hgo (uninit (w_trace (u_k u)) need)) as (ret & b' & u' & Er & Hi' & Hc' & Hres);
    [by apply uninit_len|]; eexists _, _, _; split; [exact Er|]; done.
Qed.

(** A queue of whole records, in the buffer the driver allocates. *)
Definition queued (u : uworld) (rs : list record) : Prop :=
  u_contents u = queue_bytes rs ∧ Forall rec_ok rs ∧ fifo_size (u_fifo u) <= GXFP_RXQ_FIFO_BYTES.

(** What read(2) does to the queue [r :: q] of [u]: a short count, or no memory,
    takes nothing; a buffer that faults loses the record. *)
Definition takes (r : record) (q : list record) (ubuf : bytes) (count : Z) (u : uworld)
    (ret : Z) (ubuf' : bytes) (u' : uworld) : Prop :=
  let need := TAP_HDR_SIZE + zlen r.2 in
  u_inited u' = true ∧
  if count <? need then ret = - EMSGSIZE ∧ ubuf' = ubuf ∧ u_contents u' = u_contents u else
  match w_oom (u_k u) with
  | true :: _ => ret = - ENOMEM ∧ ubuf' = ubuf ∧ u_contents u' = u_contents u
  | _ => u_contents u' = queue_bytes q ∧
    if need <=? zlen ubuf then ret = need ∧ ubuf' = rec_bytes r ++ zdrop need ubuf
    else ret = - EFAULT ∧ ubuf' = ubuf
  end.

(** The documented behaviour of wait_event_interruptible on the queue: it leaves
    records behind, whatever was queued meanwhile, and comes back with 0 only when
    its condition holds. *)
Definition wakes (wait_event : M uworld Z) (u : uworld) : Prop :=
  ∃ wret u1 rs1, wait_event u = Some (wret, u1) ∧ queued u1 rs1 ∧
    (wret = 0 → u_inited u1 = true → rs1 ≠ []).

Lemma queue_empty_spec u rs :
  queued u rs → kfifo_is_empty (u_fifo u) = bool_decide (rs = []).
Proof using KO.
  intros (Hc & Hok & _). rewrite empty_spec. change (contents (u_fifo u)) with (u_contents u).
  rewrite Hc. destruct rs as [|r q]; [done|]. rewrite (bool_decide_eq_false_2 (r :: q = [])) by done.
  apply bool_decide_eq_false_2. intros E0. apply (f_equal zlen) in E0.
  apply Forall_cons in Hok as (Hr & _). rewrite queue_cons, zlen_app, zlen_rec, zlen_nil in E0 by done.
  pose proof (zlen_nonneg r.2). pose proof (zlen_nonneg (queue_bytes q)). unfold TAP_HDR_SIZE in *. lia.
Qed.

(** One round of the wait. *)
Lemma wait_round_run f u rs :
  queued u rs →
  wait_check f u = Some (if negb (u_inited u) then Some (- ENODEV) else
                         match rs with
                         | _ :: _ => Some 0
                         | [] => if f_nonblock f then Some (- EAGAIN) else None
                         end, u).
Proof using KO.
  intros Hq. unfold wait_check. rewrite (run_bind _ _ _ _ _ (get_uapi_run u)).
  change (rxq_inited (u_uapi u)) with (u_inited u). destruct (u_inited u); cbn [negb]; [|done].
  change (rxq_fifo (u_uapi u)) with (u_fifo u). rewrite (queue_empty_spec u rs Hq).
  destruct rs; cbn; [by destruct (f_nonblock f)|done].
Qed.

(** The wait: two rounds are enough. *)
Lemma wait_nonempty_run fuel wait_event f u rs :
  (2 <= fuel)%nat → queued u rs → u_inited u = true → (rs = [] → wakes wait_event u) →
  gxfp_uapi_wait_nonempty fuel wait_event f u =
    match rs with
    | _ :: _ => Some (0, u)
    | [] => if f_nonblock f then Some (- EAGAIN, u) else
        '(wret, u1) ← wait_event u;
        Some (if negb (wret =? 0) then wret else if negb (u_inited u1) then - ENODEV else 0, u1)
    end.
Proof using KO.
  intros Hfuel Hq Hi Hw. destruct fuel as [|[|fuel]]; [lia..|]. cbn [gxfp_uapi_wait_nonempty].
  rewrite (run_bind _ _ _ _ _ (wait_round_run f u rs Hq)), Hi. cbn [negb].
  destruct rs as [|r q]; [|done]. destruct (f_nonblock f) eqn:Enb; [done|].
  destruct (Hw eq_refl) as (wret & u1 & rs1 & Ew & Hq1 & Hne). rewrite (run_bind _ _ _ _ _ Ew), Ew.
  cbn [mbind option_bind]. destruct (Z.eqb_spec wret 0) as [->|]; cbn [negb]; [|done].
  rewrite (run_bind _ _ _ _ _ (wait_round_run f u1 rs1 Hq1)).
  destruct (u_inited u1) eqn:Hi1; cbn [negb]; [|done].
  destruct rs1; [by destruct (Hne eq_refl eq_refl)|done].
Qed.

Lemma read_record_takes r q ubuf count u :
  u_inited u = true → queued u (r :: q) →
  ∃ ret ubuf' u', read_record ubuf count u = Some ((ret, ubuf'), u') ∧
    takes r q ubuf count u ret ubuf' u'.
Proof using KO EO.
  intros Hi (Hc & Hok & Hs). apply Forall_cons in Hok as (Hr & _).
  by apply read_record_run.
Qed.

(** C13: read(2), every call on a device whose queue holds the records [rs]. It
    refuses a file that was not opened or a device that is gone (ENODEV), asks
    nothing for a count of 0, and gives up when a signal interrupts the wait for
    the mutex; none of these touches the queue. With the mutex, a queue [r :: q]
    gives its head: copied out whole and taken off, or left there when the count
    is short (EMSGSIZE) or memory is lacking (ENOMEM), or lost when the caller's
    buffer faults (EFAULT). On an empty queue a nonblocking read returns EAGAIN
    and a blocking one waits: a signal ends it, the removal of the device ends it
    with ENODEV, and otherwise the head of the queue it wakes up to is read the
    same way. *)
Theorem read_takes_head fuel wait_event lock_ret f rs ubuf count u :
  (2 <= fuel)%nat → queued u rs → (rs = [] → wakes wait_event u) →
  ∃ ret ubuf' u', gxfp_uapi_read fuel wait_event lock_ret f ubuf count u
                  = Some ((ret, ubuf'), u') ∧
    let refused e v := ret = e ∧ ubuf' = ubuf ∧ u' = v in
    if negb (private_data f) || negb (u_inited u) then refused (- ENODEV) u
    else if count =? 0 then refused 0 u
    else if negb (lock_ret =? 0) then refused lock_ret u
    else match rs with
    | r :: q => takes r q ubuf count u ret ubuf' u'
    | [] =>
      if f_nonblock f then refused (- EAGAIN) u else
      ∃ wret u1, wait_event u = Some (wret, u1) ∧
        if negb (wret =? 0) then refused wret u1
        else if negb (u_inited u1) then refused (- ENODEV) u1
        else ∃ r q, queued u1 (r :: q) ∧ takes r q ubuf count u1 ret ubuf' u'
    end.
Proof using KO EO.
  intros Hfuel Hq Hw. unfold gxfp_uapi_read.
  rewrite (run_bind _ _ _ _ _ (get_uapi_run u)). change (rxq_inited (u_uapi u)) with (u_inited u).
  destruct (negb (private_data f) || negb (u_inited u)) eqn:Ep; [by eexists _, _, _|].
  apply orb_false_iff in Ep as (_ & Hi%negb_false_iff).
  destruct (count =? 0); [by eexists _, _, _|].
  destruct (negb (lock_ret =? 0)); [by eexists _, _, _|].
  pose proof (wait_nonempty_run fuel wait_event f u rs Hfuel Hq Hi Hw) as Hrun.
  destruct rs as [|r q].
  2: { rewrite (run_bind _ _ _ _ _ Hrun). by apply read_record_takes. }
  destruct (f_nonblock f); [rewrite (run_bind _ _ _ _ _ Hrun); by eexists _, _, _|].
  destruct (Hw eq_refl) as (wret & u1 & rs1 & Ew & Hq1 & Hne). rewrite Ew in Hrun.
  cbn [mbind option_bind] in Hrun. rewrite (run_bind _ _ _ _ _ Hrun).
  destruct (Z.eqb_spec wret 0) as [->|H0]; cbn [negb].
  2: { rewrite (proj2 (Z.eqb_neq wret 0)) by done. eexists _, _, _. split; [done|].
       exists wret, u1. by rewrite (proj2 (Z.eqb_neq wret 0)). }
  destruct (u_inited u1) eqn:Hi1; cbn [negb].
  2: { eexists _, _, _. split; [done|]. exists 0, u1. by rewrite Hi1. }
  destruct rs1 as [|r q]; [by destruct (Hne eq_refl eq_refl)|].
  destruct (read_record_takes r q ubuf count u1 Hi1 Hq1) as (ret & ubuf' & u' & Er & Ht).
  eexists _, _, _. split; [exact Er|]. exists 0, u1. rewrite Hi1. split; [done|]. by exists r, q.
Qed.

(** ** Sending a packet *)

(** What the caller hands to write(2): the header, then the payload. *)
Definition tx_packet (flags pad : Z) (fl pl : bytes) : bytes :=
  flags :: pad :: le_enc 2 (zlen pl) ++ fl ++ pl.

Lemma tx_hdr_read flags pad fl pl rest :
  zlen fl = 4 → zlen pl < 65536 →
  slice (tx_packet flags pad fl pl ++ rest) 0 TX_PKT_HDR_SIZE
  = Some (flags :: pad :: le_enc 2 (zlen pl) ++ fl) ∧
  tx_pkt_hdr_of (flags :: pad :: le_enc 2 (zlen pl) ++ fl)
  = Some {| tx_mp_flags := flags; tx_pad0 := pad; tx_payload_len := zlen pl;
            tx_flags := le_dec fl |} ∧
  slice (tx_packet flags pad fl pl ++ rest) TX_PKT_HDR_SIZE (zlen pl) = Some pl.
Proof.
  intros Hfl Hpl. pose proof (zlen_nonneg pl).
  assert (Hh : zlen (flags :: pad :: le_enc 2 (zlen pl) ++ fl) = TX_PKT_HDR_SIZE)
    by (rewrite !zlen_cons, zlen_app, zlen_le_enc; unfold TX_PKT_HDR_SIZE; lia).
  assert (Ep : tx_packet flags pad fl pl ++ rest
               = (flags :: pad :: le_enc 2 (zlen pl) ++ fl) ++ pl ++ rest)
    by (unfold tx_packet; cbn [app]; by rewrite <- !app_assoc).
  split_and!.
  - rewrite Ep. by apply slice_prefix.
  - unfold tx_pkt_hdr_of. change (rd (?x :: ?t) 0) with (Some x).
    change (rd (?x :: ?a :: ?t) 1) with (Some a). cbn [mbind option_bind].
    assert (E2 : slice (flags :: pad :: le_enc 2 (zlen pl) ++ fl) 2 2 = Some (le_enc 2 (zlen pl)))
      by (apply (slice_app [flags; pad] (le_enc 2 (zlen pl)) fl); [done|apply zlen_le_enc]).
    rewrite E2. cbn [mbind option_bind].
    assert (E4 : slice (flags :: pad :: le_enc 2 (zlen pl) ++ fl) 4 4 = Some fl).
    { rewrite <- (app_nil_r fl) at 1.
      apply (slice_app ([flags; pad] ++ le_enc 2 (zlen pl)) fl []); [by rewrite zlen_app|done]. }
    rewrite E4. cbn [mbind option_bind]. rewrite le_dec_enc. do 2 f_equal.
    change (256 ^ Z.of_nat 2) with 65536. apply Z.mod_small. lia.
  - rewrite Ep. by apply slice_app.
Qed.

(** The buffer that becomes the MP frame. *)
Lemma fill_mp_local (b : bytes) flags pl :
  zlen b = 4 + zlen pl → zlen pl <= GXFP_IOCTL_TX_PAYLOAD_MAX →
  ∃ b4, (mp ← wr b 0 flags;
         mp ← wr mp 1 (u8 (Z.land (zlen pl) 255));
         mp ← wr mp 2 (u8 (Z.land (Z.shiftr (zlen pl) 8) 255));
         b0 ← rd mp 0; b1 ← rd mp 1; b2 ← rd mp 2;
         wr mp 3 (u8 (b0 + b1 + b2))) = Some b4 ∧
    blit b4 4 pl = Some (mp_frame flags pl).
Proof.
  intros Hb Hpl. pose proof (zlen_nonneg pl).
  destruct (split3 b 0 4) as (p & h & q & -> & Hp & Hh); [lia..|].
  assert (p = []) as -> by (apply zlen_0; lia). cbn [app] in *.
  destruct (zlen_pos_inv h 4) as (h0 & h' & -> & Hh'); [done|lia|].
  destruct (zlen_3_inv h') as (h1 & h2 & h3 & ->); [lia|]. cbn [app].
  destruct (espi_head_bytes (zlen pl)) as (-> & ->).
  rewrite wr_0. cbn [mbind option_bind]. rewrite wr_1. cbn [mbind option_bind].
  rewrite wr_2. cbn [mbind option_bind].
  change (rd (?x :: ?t) 0) with (Some x). change (rd (?x :: ?a :: ?t) 1) with (Some a).
  change (rd (?x :: ?a :: ?b :: ?t) 2) with (Some b). cbn [mbind option_bind].
  rewrite wr_3. eexists. split; [done|].
  assert (Hq : zlen pl = zlen q)
    by (cbn [app] in Hb; rewrite !zlen_cons in Hb; lia).
  match goal with
  | |- blit (?a :: ?b :: ?c :: ?d :: q) 4 pl = _ =>
    rewrite (blit_eq (a :: b :: c :: d :: q) 4 pl [a; b; c; d] q [])
      by (rewrite ?app_nil_r; done)
  end.
  by rewrite app_nil_r.
Qed.

(** The payload length a readable header announces. *)
Definition tx_announced (ub : bytes) : Z := le_dec (ztake 2 (zdrop 2 ub)).

(** Whether the next allocation fails. *)
Definition alloc_fails (oom : list bool) : bool :=
  match oom with true :: _ => true | _ => false end.

(** The error of a write(2), in the order the checks are made; [None] when the
    packet goes out. [ubuf] is what the caller's pointer gives access to. *)
Definition write_error (f : file) (ubuf : ptr bytes) (count : Z) (d : gxfp_dev)
    (oom : list bool) : option Z :=
  match ubuf with
  | None => Some (- ENODEV)
  | Some ub =>
    let n := tx_announced ub in
    if negb (private_data f) then Some (- ENODEV)
    else if count <? 8 then Some (- EINVAL)
    else if zlen ub <? 8 then Some (- EFAULT)
    else if (GXFP_IOCTL_TX_PAYLOAD_MAX <? n) || negb (count =? 8 + n) then Some (- EINVAL)
    else if alloc_fails oom then Some (- ENOMEM)
    else if zlen ub <? 8 + n then Some (- EFAULT)
    else if bool_decide (mailbox_mmio (dev_hw d) = None) then Some (- ENODEV)
    else if 500 <? n then Some (- EOVERFLOW)
    else if alloc_fails (tail oom) then Some (- ENOMEM)
    else None
  end.

(** A readable buffer of at least a header, as the header reader sees it. *)
Lemma tx_hdr_any ub :
  8 <= zlen ub → bytes_ok ub →
  ∃ flags pad l fl t, ub = (flags :: pad :: l ++ fl) ++ t ∧ zlen fl = 4 ∧ zlen t = zlen ub - 8 ∧
    l = le_enc 2 (tx_announced ub) ∧ 0 <= tx_announced ub < 65536 ∧
    is_u8 flags ∧ bytes_ok t ∧
    slice ub 0 TX_PKT_HDR_SIZE = Some (flags :: pad :: l ++ fl) ∧
    tx_pkt_hdr_of (flags :: pad :: l ++ fl)
    = Some {| tx_mp_flags := flags; tx_pad0 := pad; tx_payload_len := tx_announced ub;
              tx_flags := le_dec fl |}.
Proof.
  intros Hl Hok. destruct (split3 ub 0 8) as (p & h & t & -> & Hp & Hh); [lia..|].
  assert (p = []) as -> by (apply zlen_0; lia). cbn [app] in *.
  destruct h as [|b0 [|b1 [|b2 [|b3 [|b4 [|b5 [|b6 [|b7 [|]]]]]]]]];
    rewrite ?zlen_cons, ?zlen_nil in Hh; try (lia || (match type of Hh with
      context [zlen ?x] => pose proof (zlen_nonneg x) end; lia)).
  apply bytes_ok_app in Hok as (Hh8 & Ht).
  assert (Hl2 : bytes_ok [b2; b3]).
  { rewrite !bytes_ok_cons in Hh8. rewrite !bytes_ok_cons. destruct Hh8 as (_ & _ & H2 & H3 & _).
    split_and!; [done|done|constructor]. }
  pose proof (le_dec_bound _ Hl2) as Hb. change (256 ^ zlen [b2; b3]) with 65536 in Hb.
  exists b0, b1, [b2; b3], [b4; b5; b6; b7], t. cbn [app].
  assert (Ha : tx_announced (b0 :: b1 :: b2 :: b3 :: b4 :: b5 :: b6 :: b7 :: t) = le_dec [b2; b3])
    by reflexivity.
  rewrite Ha. split_and!; try done; try lia.
  - rewrite !zlen_cons. lia.
  - symmetry. by apply le_enc_dec.
  - by apply (Forall_inv Hh8).
  - by apply (slice_prefix [b0; b1; b2; b3; b4; b5; b6; b7] t).
Qed.

(** The second copy from the caller: the payload, when it is all readable. *)
Lemma payload_slice ub n :
  8 <= zlen ub → 0 <= n →
  (if negb (n =? 0) then slice ub TX_PKT_HDR_SIZE n else Some [])
  = if zlen ub <? 8 + n then None else Some (ztake n (zdrop 8 ub)).
Proof.
  intros H8 Hn. destruct (Z.eqb_spec n 0) as [->|]; cbn [negb].
  { by rewrite (proj2 (Z.ltb_ge _ _)) by lia. }
  destruct (Z.ltb_spec (zlen ub) (8 + n)); [|by apply slice_Some].
  destruct (slice ub TX_PKT_HDR_SIZE n) eqn:Es; [|done].
  apply slice_inv in Es. unfold TX_PKT_HDR_SIZE in *. lia.
Qed.

(** The part of a write that builds the frame, for a payload already checked:
    what follows runs on the filled header. *)
Lemma write_fill flags n b :
  0 <= n <= GXFP_IOCTL_TX_PAYLOAD_MAX → zlen b = 4 + n →
  ∃ b4, (∀ pl, zlen pl = n → blit b4 4 pl = Some (mp_frame flags pl)) ∧
    ∀ A (k : bytes → M uworld A) u, (mp ← lift (wr b 0 flags);
     mp ← lift (wr mp 1 (u8 (Z.land n 255)));
     mp ← lift (wr mp 2 (u8 (Z.land (Z.shiftr n 8) 255)));
     b0 ← lift (rd mp 0); b1 ← lift (rd mp 1); b2 ← lift (rd mp 2);
     mp ← lift (wr mp 3 (u8 (b0 + b1 + b2)));
     k mp) u = k b4 u.
Proof.
  intros Hn Hb. assert (Hz : zlen (zeros n) = n) by (apply zlen_zeros; lia).
  destruct (fill_mp_local b flags (zeros n)) as (b4 & Efill & _); [lia..|].
  assert (Hall : ∀ pl, zlen pl = n → blit b4 4 pl = Some (mp_frame flags pl)).
  { intros pl Hpl. destruct (fill_mp_local b flags pl) as (b4' & E' & Hbl); [lia..|].
    rewrite Hpl in E'. rewrite Hz in Efill. congruence. }
  rewrite Hz in Efill. exists b4. split; [done|]. intros A k u.
  apply opt_bind_inv in Efill as (m0 & -> & Efill). rewrite bind_lift.
  apply opt_bind_inv in Efill as (m1 & -> & Efill). rewrite bind_lift.
  apply opt_bind_inv in Efill as (m2 & -> & Efill). rewrite bind_lift.
  apply opt_bind_inv in Efill as (x0 & -> & Efill). rewrite bind_lift.
  apply opt_bind_inv in Efill as (x1 & -> & Efill). rewrite bind_lift.
  apply opt_bind_inv in Efill as (x2 & -> & Efill). by rewrite bind_lift, Efill, bind_lift.
Qed.

(** The mailbox's answer to the frame of a write. *)
Lemma write_tail_run flags pl count (u : uworld) d :
  w_dev (u_k u) = Some d → is_u8 flags → bytes_ok pl → zlen pl <= GXFP_IOCTL_TX_PAYLOAD_MAX →
  ∃ ret k', (ret ← in_kernel (gxfp_espi_write (Some (mp_frame flags pl)) (4 + zlen pl));
             if negb (ret =? 0) then mret ret else mret count) u
            = Some (ret, {| u_k := k'; u_uapi := u_uapi u |}) ∧
    match mailbox_mmio (dev_hw d) with
    | None => ret = - ENODEV ∧ k' = u_k u
    | Some base =>
      if 500 <? zlen pl then ret = - EOVERFLOW ∧ k' = u_k u
      else if alloc_fails (w_oom (u_k u)) then ret = - ENOMEM ∧ k' = pop_oom (u_k u)
      else ret = count ∧ k' = set_dev (set_seq16 (next_seq d) d)
             (push (write_events base d (mp_frame flags pl)) (pop_oom (u_k u)))
    end.
Proof using EO.
  intros Hd Hf Hpl Hmax. pose proof (zlen_nonneg pl).
  destruct (mailbox_mmio (dev_hw d)) as [base|] eqn:Hm.
  2: { eexists _, _. split; [|done].
       erewrite run_bind; [|apply in_kernel_run with (a := - ENODEV) (k := u_k u)]; [done|].
       unfold gxfp_espi_write. mstep (gdev_null_run (u_k u) d Hd).
       rewrite bool_decide_eq_false_2 by done. cbn [orb].
       rewrite (proj2 (Z.eqb_neq _ 0)) by lia. mstep (gdev_run (u_k u) d Hd).
       rewrite Hm. by rewrite bool_decide_eq_true_2. }
  unfold GXFP_IOCTL_TX_PAYLOAD_MAX in *.
  pose proof (espi_write_run (u_k u) d base (mp_frame flags pl) [] Hd Hm) as Hw.
  rewrite app_nil_r, zlen_mp_frame in Hw.
  specialize (Hw (mp_frame_ok _ _ Hf Hpl) ltac:(lia)).
  replace (504 <? 4 + zlen pl) with (500 <? zlen pl) in Hw by lia.
  destruct (500 <? zlen pl).
  { eexists _, _. split; [erewrite run_bind by (eapply in_kernel_run, Hw); done|done]. }
  destruct (w_oom (u_k u)) as [|[] o]; cbn [alloc_fails];
    (eexists _, _; split; [erewrite run_bind by (eapply in_kernel_run, Hw); done|done]).
Qed.

(** write(2) of a packet. *)
Lemma uapi_write_run flags pad fl pl rest count u d base f :
  w_dev (u_k u) = Some d → mailbox_mmio (dev_hw d) = Some base → w_oom (u_k u) = [] →
  private_data f = true → is_u8 flags → bytes_ok pl → zlen fl = 4 → zlen pl < 65536 →
  gxfp_uapi_write f (Some (tx_packet flags pad fl pl ++ rest)) count u
  = Some (if (GXFP_IOCTL_TX_PAYLOAD_MAX <? zlen pl) || negb (count =? 8 + zlen pl)
          then (- EINVAL, u)
          else if 500 <? zlen pl then (- EOVERFLOW, u)
          else (count, {| u_k := set_dev (set_seq16 (next_seq d) d)
                                   (push (write_events base d (mp_frame flags pl)) (u_k u));
                          u_uapi := u_uapi u |})).
Proof using EO.
  intros Hd Hm Ho Hp Hf Hpl Hfl Hlen. pose proof (zlen_nonneg pl).
  destruct (tx_hdr_read flags pad fl pl rest Hfl Hlen) as (Eh & Et & Es).
  unfold gxfp_uapi_write. rewrite Hp. cbn [negb]. unfold TX_PKT_HDR_SIZE in *.
  destruct (Z.ltb_spec count 8) as [Hc|Hc].
  { rewrite (proj2 (Z.eqb_neq count _)), orb_true_r by lia. done. }
  rewrite Eh. cbv iota. rewrite Et, bind_lift. cbn [tx_payload_len tx_mp_flags].
  destruct (GXFP_IOCTL_TX_PAYLOAD_MAX <? zlen pl) eqn:Emax; cbn [orb]; [done|].
  destruct (Z.eqb_spec count (8 + zlen pl)) as [->|]; cbn [negb]; [|done].
  apply Z.ltb_ge in Emax.
  assert (Hk : kmalloc (4 + zlen pl) (u_k u)
               = Some (Some (uninit (w_trace (u_k u)) (4 + zlen pl)), u_k u))
    by (rewrite kmalloc_run, Ho; destruct (u_k u); cbn in *; by subst).
  erewrite run_bind by (eapply in_kernel_run, Hk). rewrite bool_decide_eq_false_2 by done.
  rewrite bind_lift.
  assert (Hu : zlen (uninit (w_trace (u_k u)) (4 + zlen pl)) = 4 + zlen pl)
    by (apply uninit_len; lia).
  destruct (fill_mp_local _ flags pl Hu Emax) as (b4 & Efill & Eb).
  apply opt_bind_inv in Efill as (m0 & -> & Efill). rewrite bind_lift.
  apply opt_bind_inv in Efill as (m1 & -> & Efill). rewrite bind_lift.
  apply opt_bind_inv in Efill as (m2 & -> & Efill). rewrite bind_lift.
  apply opt_bind_inv in Efill as (x0 & -> & Efill). rewrite bind_lift.
  apply opt_bind_inv in Efill as (x1 & -> & Efill). rewrite bind_lift.
  apply opt_bind_inv in Efill as (x2 & -> & Efill). rewrite bind_lift, Efill, bind_lift.
  assert (Hpick : (if negb (zlen pl =? 0) then Some pl else Some []) = Some pl).
  { destruct (Z.eqb_spec (zlen pl) 0); [|done]. cbn. by rewrite (zlen_0 pl). }
  rewrite Es, Hpick, Eb, bind_lift.
  pose proof (espi_write_run (u_k u) d base (mp_frame flags pl) [] Hd Hm) as Hw.
  rewrite app_nil_r, zlen_mp_frame in Hw. rewrite Ho in Hw.
  unfold GXFP_IOCTL_TX_PAYLOAD_MAX in *.
  specialize (Hw (mp_frame_ok _ _ Hf Hpl) ltac:(lia)).
  destruct (Z.ltb_spec 500 (zlen pl)).
  - rewrite (proj2 (Z.ltb_lt 504 _)) in Hw by lia.
    erewrite run_bind by (eapply in_kernel_run, Hw). by destruct u.
  - rewrite (proj2 (Z.ltb_ge 504 _)) in Hw by lia.
    erewrite run_bind by (eapply in_kernel_run, Hw). destruct u as [k s]. cbn [u_k u_uapi] in *.
    destruct k as [dv tr oom]. cbn in Ho. by subst oom.
Qed.

(** C8: write(2), every call on a device. The call is refused with the error
    [write_error] finds - not opened, no buffer or no mailbox (ENODEV), a short
    count, a length over 508 or a count that disagrees with the header (EINVAL), a
    header or a payload that cannot be read (EFAULT), a payload of 501 to 508
    bytes (EOVERFLOW), no memory for the frame or for its wrapper (ENOMEM) - and
    then nothing reaches the sensor and the device is unchanged. Otherwise the
    caller's buffer starts with a header announcing the payload behind it, that
    payload goes out as one MP frame with the header's flags under the next
    sequence number, and the call returns the bytes consumed. *)
Theorem uapi_write_sends f ubuf count u d :
  w_dev (u_k u) = Some d → (∀ ub, ubuf = Some ub → bytes_ok ub) →
  ∃ u', gxfp_uapi_write f ubuf count u
        = Some (default count (write_error f ubuf count d (w_oom (u_k u))), u') ∧
    u_uapi u' = u_uapi u ∧
    match write_error f ubuf count d (w_oom (u_k u)) with
    | Some _ => w_dev (u_k u') = w_dev (u_k u) ∧ w_trace (u_k u') = w_trace (u_k u)
    | None => ∃ base flags pad fl pl rest,
        mailbox_mmio (dev_hw d) = Some base ∧
        ubuf = Some (tx_packet flags pad fl pl ++ rest) ∧ zlen fl = 4 ∧
        count = 8 + zlen pl ∧ zlen pl <= 500 ∧
        u_k u' = set_dev (set_seq16 (next_seq d) d)
                   (push (write_events base d (mp_frame flags pl)) (pop_oom (pop_oom (u_k u))))
    end.
Proof using EO.
  intros Hd Hok. unfold gxfp_uapi_write, write_error.
  destruct ubuf as [ub|]; [|by exists u]. specialize (Hok ub eq_refl).
  destruct (private_data f); cbn [negb]; [|by exists u]. unfold TX_PKT_HDR_SIZE.
  destruct (Z.ltb_spec count 8) as [Hc|Hc]; [by exists u|].
  destruct (Z.ltb_spec (zlen ub) 8) as [H8|H8].
  { assert (slice ub 0 8 = None) as ->; [|by exists u].
    destruct (slice ub 0 8) eqn:Es; [|done]. apply slice_inv in Es. lia. }
  destruct (tx_hdr_any ub H8 Hok) as (flags & pad & l & fl & t & Eub & Hfl & Hzt & El & Hn & Hf &
    Ht & Es & Eh). unfold TX_PKT_HDR_SIZE in Es. rewrite Es, Eh, bind_lift.
  cbn [tx_payload_len tx_mp_flags]. set (n := tx_announced ub) in *. clearbody n.
  destruct (Z.ltb_spec GXFP_IOCTL_TX_PAYLOAD_MAX n) as [|Hmax]; cbn [orb]; [by exists u|].
  destruct (Z.eqb_spec count (8 + n)) as [->|]; cbn [negb]; [|by exists u].
  erewrite run_bind by (eapply in_kernel_run, kmalloc_run).
  destruct (alloc_fails (w_oom (u_k u))) eqn:Eo.
  { destruct (w_oom (u_k u)) as [|[] o] eqn:Eow; try done.
    rewrite bool_decide_eq_true_2 by done. eexists. split; [done|]. done. }
  replace (match w_oom (u_k u) with true :: _ => None | _ => Some (uninit (w_trace (u_k u)) (4 + n)) end)
    with (Some (uninit (w_trace (u_k u)) (4 + n))) by (destruct (w_oom (u_k u)) as [|[] o]; done).
  rewrite bool_decide_eq_false_2 by done. rewrite bind_lift. set (u1 := {| u_k := _ |}).
  destruct (write_fill flags n (uninit (w_trace (u_k u)) (4 + n)))
    as (b4 & Hbl & Hfill); [lia|apply uninit_len; lia|].
  rewrite Hfill. clear Hfill.
  pose proof (payload_slice ub n H8 ltac:(lia)) as Hpick. unfold TX_PKT_HDR_SIZE in Hpick.
  rewrite Hpick. destruct (Z.ltb_spec (zlen ub) (8 + n)) as [Hs|Hs]; [by exists u1|].
  assert (Hh : zlen (flags :: pad :: l ++ fl) = 8)
    by (rewrite El, !zlen_cons, zlen_app, zlen_le_enc; lia).
  assert (Hpl : zlen (ztake n t) = n) by (apply zlen_ztake; lia).
  rewrite Eub, zdrop_app, (Hbl _ Hpl), bind_lift by done.
  destruct (write_tail_run flags (ztake n t) (8 + n) u1 d) as (ret & k' & Et & Hw);
    [done|done|by auto with gxfp|lia|]. rewrite Hpl in Et, Hw. rewrite Et. clear Et.
  change (w_oom (u_k u1)) with (tail (w_oom (u_k u))) in Hw.
  destruct (mailbox_mmio (dev_hw d)) as [base|]; cycle 1.
  { rewrite bool_decide_eq_true_2 by done. destruct Hw as (-> & ->).
    eexists. split; [reflexivity|done]. }
  rewrite bool_decide_eq_false_2 by done.
  destruct (Z.ltb_spec 500 n).
  { destruct Hw as (-> & ->). eexists. split; [reflexivity|done]. }
  destruct (alloc_fails (tail _)); destruct Hw as (-> & ->);
    (eexists; split; [reflexivity|]); [done|].
  split; [done|]. exists base, flags, pad, fl, (ztake n t), (zdrop n t).
  split_and!; try done; try lia. f_equal. rewrite El. unfold tx_packet. rewrite Hpl.
  cbn [app]. rewrite <- !app_assoc. by rewrite ztake_zdrop.
Qed.
End handlers.

(** * Concrete inputs *)

Definition demo_uapi (queue : bytes) : gxfp_uapi (K:=list_kfifo) :=
  {| misc_registered := true; rxq_fifo := (GXFP_RXQ_FIFO_BYTES, queue); rxq_buf := true;
     rxq_inited := true; rxq_reader_open := true |}.

Definition demo_uworld (queue : bytes) : uworld (K:=list_kfifo) :=
  {| u_k := demo_world; u_uapi := demo_uapi queue |}.

Definition demo_file : file := {| f_read := true; f_nonblock := true; private_data := true |}.

Definition demo_record : record := (hdr_of 5 160 [1; 2; 3], [1; 2; 3]).

Lemma rxq_push_record_witness :
  ∃ f, gxfp_uapi_rxq_push_packet (E:=packet_env demo_pkt) (Some (mp_frame 160 [1; 2; 3] ++ [0])) 8
         (demo_uworld []) = Some ((), with_fifo f (demo_uworld [])) ∧ zlen (contents f) = 43.
Proof.
  destruct (rxq_push_record (KO:=list_kfifo_ok) (E:=packet_env demo_pkt)
    160 [1; 2; 3] [0] 8 (demo_uworld []) demo_dev) as (f & E & _ & Hc & Hl).
  - done.
  - done.
  - unfold is_u8; lia.
  - vm_compute; tauto.
  - done.
  - done.
  - exists f. split; [exact E|]. rewrite Hc. vm_compute. reflexivity.
Defined.

(** A blocking file, and a wait during which one record is queued. *)
Definition demo_file_blocking : file :=
  {| f_read := true; f_nonblock := false; private_data := true |}.

Definition demo_wait (ret : Z) (queue : bytes) : M (uworld (K:=list_kfifo)) Z :=
  λ u, Some (ret, {| u_k := u_k u; u_uapi := demo_uapi queue |}).

Lemma demo_queued rs :
  Forall rec_ok rs → zlen (queue_bytes rs) <= GXFP_RXQ_FIFO_BYTES →
  queued (KO:=list_kfifo_ok) (demo_uworld (queue_bytes rs)) rs.
Proof. intros Hrs Hz. split_and!; [by apply ztake_short|done|done]. Qed.

Lemma demo_wakes ret rs u :
  Forall rec_ok rs → zlen (queue_bytes rs) <= GXFP_RXQ_FIFO_BYTES → (ret = 0 → rs ≠ []) →
  wakes (KO:=list_kfifo_ok) (demo_wait ret (queue_bytes rs)) u.
Proof.
  intros Hrs Hz Hne. exists ret, {| u_k := u_k u; u_uapi := demo_uapi (queue_bytes rs) |}, rs.
  split; [done|]. split; [|intros E0 _; by apply Hne]. split_and!; [by apply ztake_short|done|done].
Qed.

(** Two records are queued and the first is read; a blocking reader of the empty
    queue gets the record that comes; one interrupted by a signal gets nothing;
    a nonblocking one is told to try again. *)
Lemma read_takes_head_witness :
  let go wait f queue := gxfp_uapi_read (E:=packet_env demo_pkt) 2 wait 0 f (zeros 64) 64
                           (demo_uworld queue) in
  (∃ u', go (demo_wait 0 []) demo_file (queue_bytes [demo_record; demo_record])
         = Some ((43, rec_bytes demo_record ++ zeros 21), u') ∧
     u_contents (KO:=list_kfifo_ok) u' = rec_bytes demo_record) ∧
  (∃ u', go (demo_wait 0 (queue_bytes [demo_record])) demo_file_blocking []
         = Some ((43, rec_bytes demo_record ++ zeros 21), u')) ∧
  (∃ u', go (demo_wait (- 512) (queue_bytes [])) demo_file_blocking [] = Some ((- 512, zeros 64), u')) ∧
  (∃ u', go (demo_wait (- 512) (queue_bytes [])) demo_file [] = Some ((- EAGAIN, zeros 64), u')).
Proof.
  intros go.
  assert (Hr : rec_ok demo_record) by (split_and!; vm_compute; reflexivity).
  pose proof (λ wait f rs Hq Hw, read_takes_head (KO:=list_kfifo_ok)
    (EO:=packet_env_ok demo_pkt (proj1 demo_pkt_ok)) 2 wait 0 f rs (zeros 64) 64
    (demo_uworld (queue_bytes rs)) (le_n 2) Hq Hw) as H.
  assert (H0 : queued (KO:=list_kfifo_ok) (demo_uworld []) [])
    by (apply (demo_queued []); [constructor|by vm_compute]).
  split_and!.
  - destruct (H (demo_wait 0 []) demo_file [demo_record; demo_record])
      as (ret & b & u' & E & _ & Hx).
    + apply demo_queued; [by repeat constructor|by vm_compute].
    + done.
    + change (64 <? TAP_HDR_SIZE + zlen demo_record.2) with false in Hx.
      cbn [w_oom demo_uworld u_k demo_world] in Hx. destruct Hx as (Hc & Hx).
      change (TAP_HDR_SIZE + zlen demo_record.2 <=? zlen (zeros 64)) with true in Hx.
      destruct Hx as (-> & ->). exists u'. split; [exact E|]. rewrite Hc. by vm_compute.
  - destruct (H (demo_wait 0 (queue_bytes [demo_record])) demo_file_blocking [])
      as (ret & b & u' & E & _).
    + done.
    + intros _. apply demo_wakes; [by constructor|by vm_compute|done].
    + pose proof E as E2. vm_compute in E2. injection E2 as <- <- _. exists u'. exact E.
  - destruct (H (demo_wait (- 512) (queue_bytes [])) demo_file_blocking [])
      as (ret & b & u' & E & wret & u1 & Ew & Hx).
    + done.
    + intros _. apply demo_wakes; [by constructor|by vm_compute|done].
    + injection Ew as <- <-. destruct Hx as (-> & -> & ->). eexists. exact E.
  - destruct (H (demo_wait (- 512) (queue_bytes [])) demo_file []) as (ret & b & u' & E & -> & -> & ->).
    + done.
    + intros _. apply demo_wakes; [by constructor|by vm_compute|done].
    + eexists. exact E.
Defined.

Definition demo_file_closed : file := {| f_read := true; f_nonblock := true; private_data := false |}.

(** A packet that is sent; one whose payload cannot be read; one the interface
    admits and the mailbox refuses; one on a file that was not opened. *)
Lemma uapi_write_sends_witness :
  let go f ub count := gxfp_uapi_write (E:=packet_env demo_pkt) f (Some ub) count (demo_uworld []) in
  (∃ u', go demo_file (tx_packet 160 0 [0; 0; 0; 0] [1; 2; 3]) 11 = Some (11, u') ∧
     length (w_trace (u_k u')) = length (write_events 0 demo_dev (mp_frame 160 [1; 2; 3]))) ∧
  (∃ u', go demo_file (ztake 10 (tx_packet 160 0 [0; 0; 0; 0] [1; 2; 3])) 11 = Some (- EFAULT, u') ∧
     w_trace (u_k u') = []) ∧
  (∃ u', go demo_file (tx_packet 160 0 [0; 0; 0; 0] (zeros 508)) 516 = Some (- EOVERFLOW, u') ∧
     w_trace (u_k u') = []) ∧
  (∃ u', go demo_file_closed (tx_packet 160 0 [0; 0; 0; 0] [1; 2; 3]) 11 = Some (- ENODEV, u') ∧
     w_trace (u_k u') = []).
Proof.
  intros go.
  pose proof (λ f ub count Hb, uapi_write_sends (EO:=packet_env_ok demo_pkt (proj1 demo_pkt_ok))
    f (Some ub) count (demo_uworld []) demo_dev eq_refl Hb) as H.
  assert (Hok : ∀ b : bytes, forallb (λ x, (0 <=? x) && (x <? 256)) b = true →
    ∀ ub, Some b = Some ub → bytes_ok ub).
  { intros b Hb ? [= <-]. apply Forall_forall. intros x Hx%list_elem_of_In.
    rewrite List.forallb_forall in Hb. specialize (Hb x Hx). unfold is_u8. lia. }
  split_and!.
  - destruct (H demo_file (tx_packet 160 0 [0; 0; 0; 0] [1; 2; 3]) 11) as (u' & E & _ & Hx);
      [by apply Hok|]. exists u'. split; [exact E|]. vm_compute in E. by injection E as <-.
  - destruct (H demo_file (ztake 10 (tx_packet 160 0 [0; 0; 0; 0] [1; 2; 3])) 11)
      as (u' & E & _ & _ & Hx); [by apply Hok|]. exists u'. split; [exact E|exact Hx].
  - destruct (H demo_file (tx_packet 160 0 [0; 0; 0; 0] (zeros 508)) 516)
      as (u' & E & _ & Hx); [by apply Hok|]. vm_compute in E, Hx.
    exists u'. split; [exact E|apply Hx].
  - destruct (H demo_file_closed (tx_packet 160 0 [0; 0; 0; 0] [1; 2; 3]) 11)
      as (u' & E & _ & _ & Hx); [by apply Hok|]. exists u'. split; [exact E|exact Hx].
Defined.
