(* ===== verification/KUapiConc.v ===== *)
(** The character device under concurrency: every thread of user space that reads
    or flushes, the interrupt thread that queues packets, and the removal of the
    device, interleaved at the granularity of the driver's locks.

    A step runs one critical section of [KUapi] (a spinlock region), or takes,
    gives up or waits for the mutex [rxq_mutex]; what the kernel itself does in
    between (time, the hardware) is the step [S_kernel]. The state starts where
    [gxfp_uapi_register] leaves it. The ghost history lists what happened to the
    queue and what read(2) returned. *)
From Stdlib Require Import ZArith Lia.
From stdpp Require Import prelude list.
From S2P Require Import Prelude KMpProto KWorld KEspi KUapi.

Open Scope Z_scope.

Definition ERESTARTSYS : Z := 512.

(** * States *)

(** The arguments of a read(2) in progress. *)
Record rcall := { c_file : file; c_ubuf : bytes; c_count : Z }.

(** Where a thread is: waiting for [rxq_mutex] ([..Lock]), or holding it. *)
Inductive tpc :=
| TIdle
| TReadLock (c : rcall)
| TReadCheck (c : rcall)
| TReadSleep (c : rcall)
| TReadPeek (c : rcall)
| TReadPop (c : rcall) (need : Z)
| TFlushLock
| TFlush.

Inductive upc := UIdle | ULock | UDo | UDone.

Inductive who := Thr (t : nat) | Unreg.

#[export] Instance who_eq_dec : EqDecision who.
Proof. solve_decision. Defined.

Inductive ev :=
| EvPush (r : record)
| EvDrop (r : record)
| EvPop (b : bytes)
| EvFlush
| EvClose
| EvRet (t : nat) (ret : Z) (ubuf : bytes).

Inductive label := LPush | LSignal (t : nat) | LOther.

Definition holds (p : tpc) : bool :=
  match p with
  | TReadCheck _ | TReadSleep _ | TReadPeek _ | TReadPop _ _ | TFlush => true
  | TIdle | TReadLock _ | TFlushLock => false
  end.

Definition upd (t : nat) (p : tpc) (f : nat → tpc) : nat → tpc :=
  λ t', if decide (t' = t) then p else f t'.

Section conc.
Context {K : Kfifo} {KO : KfifoOk K} {E : Kenv} {size : Z} {EO : KenvOk E size}.

Record cstate := {
  c_u : uworld;
  c_owner : option who;
  c_threads : nat → tpc;
  c_irq : option record;
  c_unreg : upc;
  c_readers : nat;
  c_hist : list ev
}.

(** Thread [t] moves to [p]; the mutex, the device and the history change. *)
Definition thread (t : nat) (p : tpc) (o : option who) (u : uworld) (h : list ev)
    (s : cstate) : cstate :=
  {| c_u := u; c_owner := o; c_threads := upd t p (c_threads s); c_irq := c_irq s;
     c_unreg := c_unreg s; c_readers := c_readers s; c_hist := c_hist s ++ h |}.

Definition irq_thread (r : option record) (u : uworld) (h : list ev) (s : cstate) : cstate :=
  {| c_u := u; c_owner := c_owner s; c_threads := c_threads s; c_irq := r;
     c_unreg := c_unreg s; c_readers := c_readers s; c_hist := c_hist s ++ h |}.

Definition remover (p : upc) (o : option who) (u : uworld) (h : list ev) (s : cstate) : cstate :=
  {| c_u := u; c_owner := o; c_threads := c_threads s; c_irq := c_irq s;
     c_unreg := p; c_readers := c_readers s; c_hist := c_hist s ++ h |}.

Definition files (n : nat) (u : uworld) (s : cstate) : cstate :=
  {| c_u := u; c_owner := c_owner s; c_threads := c_threads s; c_irq := c_irq s;
     c_unreg := c_unreg s; c_readers := n; c_hist := c_hist s |}.

(** The condition a sleeping reader is woken on. *)
Definition wake_condition (u : uworld) : option bool :=
  '(ready, _) ← gxfp_uapi_rxq_ready u;
  Some (ready || negb (rxq_inited (u_uapi u))).

(** * Steps *)

Inductive step : cstate → label → cstate → Prop :=
(* the rest of the kernel *)
| S_kernel s k :
    is_Some (w_dev k) →
    step s LOther (files (c_readers s) {| u_k := k; u_uapi := u_uapi (c_u s) |} s)
(* the interrupt thread: gxfp_uapi_rxq_push_packet *)
| S_push_prepare s b len r u :
    c_irq s = None → bytes_ok b → 0 <= len <= zlen b →
    push_prepare (Some b) len (c_u s) = Some (r, u) →
    step s LPush (irq_thread r u [] s)
| S_push_commit s r u :
    c_irq s = Some r → push_commit r.1 r.2 (c_u s) = Some ((), u) →
    step s LOther
      (irq_thread None u
         [if rxq_inited (u_uapi (c_u s)) &&
             negb (kfifo_avail (rxq_fifo (u_uapi (c_u s))) <? TAP_HDR_SIZE + zlen r.2)
          then EvPush r else EvDrop r] s)
(* gxfp_uapi_read *)
| S_read_nodev s t c :
    c_threads s t = TIdle →
    negb (private_data (c_file c)) || negb (rxq_inited (u_uapi (c_u s))) = true →
    step s LOther (thread t TIdle (c_owner s) (c_u s) [EvRet t (- ENODEV) (c_ubuf c)] s)
| S_read_zero s t c :
    c_threads s t = TIdle → private_data (c_file c) = true →
    rxq_inited (u_uapi (c_u s)) = true → c_count c = 0 →
    step s LOther (thread t TIdle (c_owner s) (c_u s) [EvRet t 0 (c_ubuf c)] s)
| S_read_enter s t c :
    c_threads s t = TIdle → private_data (c_file c) = true →
    rxq_inited (u_uapi (c_u s)) = true → c_count c ≠ 0 →
    step s LOther (thread t (TReadLock c) (c_owner s) (c_u s) [] s)
| S_read_interrupted s t c :
    c_threads s t = TReadLock c →
    step s (LSignal t) (thread t TIdle (c_owner s) (c_u s) [EvRet t (- ERESTARTSYS) (c_ubuf c)] s)
| S_read_lock s t c :
    c_threads s t = TReadLock c → c_owner s = None →
    step s LOther (thread t (TReadCheck c) (Some (Thr t)) (c_u s) [] s)
| S_read_check_fail s t c e u :
    c_threads s t = TReadCheck c → wait_check (c_file c) (c_u s) = Some (Some e, u) → e ≠ 0 →
    step s LOther (thread t TIdle None u [EvRet t e (c_ubuf c)] s)
| S_read_check_ok s t c u :
    c_threads s t = TReadCheck c → wait_check (c_file c) (c_u s) = Some (Some 0, u) →
    step s LOther (thread t (TReadPeek c) (c_owner s) u [] s)
| S_read_sleep s t c u :
    c_threads s t = TReadCheck c → wait_check (c_file c) (c_u s) = Some (None, u) →
    step s LOther (thread t (TReadSleep c) (c_owner s) u [] s)
| S_read_wake s t c :
    c_threads s t = TReadSleep c → wake_condition (c_u s) = Some true →
    step s LOther (thread t (TReadCheck c) (c_owner s) (c_u s) [] s)
| S_read_signal s t c :
    c_threads s t = TReadSleep c →
    step s (LSignal t) (thread t TIdle None (c_u s) [EvRet t (- ERESTARTSYS) (c_ubuf c)] s)
| S_read_peek_fail s t c e need u :
    c_threads s t = TReadPeek c →
    gxfp_uapi_peek_need (c_count c) (Some 0) (c_u s) = Some ((e, need), u) → e ≠ 0 →
    step s LOther (thread t TIdle None u [EvRet t e (c_ubuf c)] s)
| S_read_peek_ok s t c need u :
    c_threads s t = TReadPeek c →
    gxfp_uapi_peek_need (c_count c) (Some 0) (c_u s) = Some ((0, Some need), u) →
    step s LOther (thread t (TReadPop c need) (c_owner s) u [] s)
| S_read_nomem s t c need :
    c_threads s t = TReadPop c need →
    step s LOther (thread t TIdle None (c_u s) [EvRet t (- ENOMEM) (c_ubuf c)] s)
| S_read_pop_fail s t c need tmp e tmp' popped u :
    c_threads s t = TReadPop c need → zlen tmp = need →
    gxfp_uapi_pop_record tmp need (Some 0) (c_u s) = Some ((e, tmp', popped), u) → e ≠ 0 →
    step s LOther (thread t TIdle None u [EvRet t e (c_ubuf c)] s)
| S_read_pop s t c need tmp tmp' popped u r :
    c_threads s t = TReadPop c need → zlen tmp = need →
    gxfp_uapi_pop_record tmp need (Some 0) (c_u s) = Some ((0, tmp', Some popped), u) →
    read_copyout (c_ubuf c) tmp' popped need = Some r →
    step s LOther (thread t TIdle None u [EvPop (ztake popped tmp'); EvRet t r.1 r.2] s)
(* gxfp_uapi_unlocked_ioctl, GXFP_IOCTL_FLUSH_RXQ *)
| S_flush_enter s t :
    c_threads s t = TIdle →
    step s LOther (thread t TFlushLock (c_owner s) (c_u s) [] s)
| S_flush_interrupted s t :
    c_threads s t = TFlushLock →
    step s (LSignal t) (thread t TIdle (c_owner s) (c_u s) [] s)
| S_flush_lock s t :
    c_threads s t = TFlushLock → c_owner s = None →
    step s LOther (thread t TFlush (Some (Thr t)) (c_u s) [] s)
| S_flush s t u :
    c_threads s t = TFlush → gxfp_uapi_rxq_flush_locked (c_u s) = Some ((), u) →
    step s LOther (thread t TIdle None u [EvFlush] s)
(* gxfp_uapi_open and gxfp_uapi_release, for reading *)
| S_open s f f' u :
    f_read f = true → gxfp_uapi_open true f (c_u s) = Some ((0, f'), u) →
    step s LOther (files (S (c_readers s)) u s)
| S_release s f n u :
    f_read f = true → private_data f = true → c_readers s = S n →
    gxfp_uapi_release f (c_u s) = Some (0, u) →
    step s LOther (files n u s)
(* gxfp_uapi_unregister *)
| S_unregister s u :
    c_unreg s = UIdle → unregister_misc (c_u s) = Some (true, u) →
    step s LOther (remover ULock (c_owner s) u [] s)
| S_unregister_lock s :
    c_unreg s = ULock → c_owner s = None →
    step s LOther (remover UDo (Some Unreg) (c_u s) [] s)
| S_unregister_do s u :
    c_unreg s = UDo → unregister_rxq (c_u s) = Some ((), u) →
    step s LOther (remover UDone None u [EvClose] s).

(** The state after a successful [gxfp_uapi_register]. *)
Definition initial (s : cstate) : Prop :=
  is_Some (w_dev (u_k (c_u s))) ∧
  (∃ u0, misc_registered (u_uapi u0) = false ∧ gxfp_uapi_register 0 u0 = Some (0, c_u s)) ∧
  c_owner s = None ∧ (∀ t, c_threads s t = TIdle) ∧ c_irq s = None ∧ c_unreg s = UIdle ∧
  c_readers s = 0%nat ∧ c_hist s = [].

Inductive reachable : cstate → Prop :=
| R_initial s : initial s → reachable s
| R_step s l s' : reachable s → step s l s' → reachable s'.

(** * What the history says *)

(** The queue as a list of records, and what each event does to it: a packet is
    appended, a read takes the head and must have returned it. *)
Definition replay1 (o : option (list record)) (e : ev) : option (list record) :=
  q ← o;
  match e with
  | EvPush r => Some (q ++ [r])
  | EvPop b => match q with
               | r :: q' => if decide (b = rec_bytes r) then Some q' else None
               | [] => None
               end
  | EvFlush | EvClose => Some []
  | EvDrop _ | EvRet _ _ _ => Some q
  end.

Definition replay (h : list ev) : option (list record) := foldl replay1 (Some []) h.

Definition pushes (h : list ev) : list bytes :=
  omap (λ e, match e with EvPush r => Some (rec_bytes r) | _ => None end) h.
Definition pops (h : list ev) : list bytes :=
  omap (λ e, match e with EvPop b => Some b | _ => None end) h.

(** What read(2) may return: never EIO, and with a positive result the bytes of
    a record taken from the queue. *)
Definition ret_ok (h : list ev) (e : ev) : Prop :=
  match e with
  | EvRet t ret b => ret ≠ - EIO ∧
      (0 < ret → ∃ r, EvPop r ∈ h ∧ ret = zlen r ∧ ztake ret b = r)
  | _ => True
  end.

Lemma replay_snoc h e : replay (h ++ [e]) = replay1 (replay h) e.
Proof. unfold replay. by rewrite foldl_app. Qed.

Lemma replay_ret h t x b : replay (h ++ [EvRet t x b]) = replay h.
Proof. rewrite replay_snoc. unfold replay1. by destruct (replay h). Qed.

(** Delivered records are queued ones: in order, whole, and never twice. *)
Lemma replay_sublist h q :
  replay h = Some q → sublist (pops h ++ (rec_bytes <$> q)) (pushes h).
Proof.
  revert q. induction h as [|e h IH] using rev_ind; intros q.
  { intros [= <-]. constructor. }
  rewrite replay_snoc. unfold pops, pushes. rewrite !omap_app. cbn [omap list_omap].
  fold (pops h) (pushes h). destruct (replay h) as [q0|] eqn:Er; [|done].
  specialize (IH q0 eq_refl). unfold replay1. cbn [mbind option_bind].
  destruct e as [r|r|b| | |t x b]; cbn [omap list_omap]; rewrite ?app_nil_r.
  - intros [= <-]. rewrite fmap_app, app_assoc. by apply sublist_app.
  - by intros [= <-].
  - destruct q0 as [|r q0]; [done|]. case_decide as Hb; [|done]. intros [= <-]. subst b.
    rewrite <- app_assoc. exact IH.
  - intros [= <-]. cbn. rewrite app_nil_r. etrans; [|exact IH]. by apply sublist_inserts_r.
  - intros [= <-]. cbn. rewrite app_nil_r. etrans; [|exact IH]. by apply sublist_inserts_r.
  - by intros [= <-].
Qed.

Lemma ret_ok_mono h h' e : ret_ok h e → ret_ok (h ++ h') e.
Proof.
  destruct e as [| | | | |t x b]; cbn; try done. intros (He & Hp). split; [done|].
  intros Hx. destruct (Hp Hx) as (r & Hr & ? & ?). exists r. split_and!; [|done|done].
  apply elem_of_app. by left.
Qed.

(** * The invariant *)

Definition local (u : uworld) (q : list record) (p : tpc) : Prop :=
  match p with
  | TReadSleep _ => u_inited u = true
  | TReadPeek _ => u_inited u = true ∧ q ≠ []
  | TReadPop _ need => u_inited u = true ∧
      ∃ r q', q = r :: q' ∧ need = TAP_HDR_SIZE + zlen r.2
  | _ => True
  end.

(** The device and its queue. *)
Record uinv (u : uworld) (q : list record) (n : nat) (up : upc) : Prop := {
  ui_dev : is_Some (w_dev (u_k u));
  ui_contents : u_contents u = queue_bytes q;
  ui_records : Forall rec_ok q;
  ui_size : fifo_size (u_fifo u) = GXFP_RXQ_FIFO_BYTES;
  ui_inited : u_inited u = true ↔ up ≠ UDone;
  ui_closed : u_inited u = false → q = [];
  ui_readers : if u_inited u then n = (if rxq_reader_open (u_uapi u) then 1 else 0)%nat
               else (n <= 1)%nat
}.

Record inv (s : cstate) (q : list record) : Prop := {
  iv_u : uinv (c_u s) q (c_readers s) (c_unreg s);
  iv_own : ∀ t, holds (c_threads s t) = true ↔ c_owner s = Some (Thr t);
  iv_unreg : c_unreg s = UDo ↔ c_owner s = Some Unreg;
  iv_local : ∀ t, local (c_u s) q (c_threads s t);
  iv_irq : ∀ r, c_irq s = Some r → rec_ok r;
  iv_replay : replay (c_hist s) = Some q;
  iv_rets : Forall (ret_ok (c_hist s)) (c_hist s)
}.

Lemma local_free u q p : holds p = false → local u q p.
Proof. by destruct p. Qed.

Lemma local_mono u u' q r p :
  u_inited u' = u_inited u → local u q p → local u' (q ++ [r]) p.
Proof.
  intros Hi. destruct p; cbn; try done.
  - by rewrite Hi.
  - rewrite Hi. intros (? & ?). split; [done|]. by destruct q.
  - rewrite Hi. intros (? & x & q' & -> & ->). split; [done|]. by exists x, (q' ++ [r]).
Qed.

Lemma local_same u u' q p : u_inited u' = u_inited u → local u q p → local u' q p.
Proof. intros Hi. destruct p; cbn; rewrite ?Hi; done. Qed.

Lemma rets_app h l :
  Forall (ret_ok h) h → Forall (ret_ok (h ++ l)) l → Forall (ret_ok (h ++ l)) (h ++ l).
Proof.
  intros Hh Hl. apply Forall_app. split; [|done].
  eapply Forall_impl; [exact Hh|]. intros e. apply ret_ok_mono.
Qed.

(** How a step of a thread may move the mutex. *)
Definition lock_move (s : cstate) (t : nat) (p : tpc) (o : option who) : Prop :=
  (holds p = holds (c_threads s t) ∧ o = c_owner s) ∨
  (c_owner s = None ∧ holds p = true ∧ o = Some (Thr t)) ∨
  (holds (c_threads s t) = true ∧ holds p = false ∧ o = None).

Lemma inv_thread s q q' t p o u h :
  inv s q → uinv u q' (c_readers s) (c_unreg s) → lock_move s t p o → local u q' p →
  ((q' = q ∧ u_inited u = u_inited (c_u s)) ∨ holds (c_threads s t) = true) →
  replay (c_hist s ++ h) = Some q' → Forall (ret_ok (c_hist s ++ h)) h →
  inv (thread t p o u h s) q'.
Proof.
  intros I Hu Hm Hl Hs Hr Hret. split; cbn.
  - exact Hu.
  - intros t'. unfold upd. pose proof (iv_own s q I) as Ho. case_decide as Et.
    + subst t'. destruct Hm as [(-> & ->)|[(_ & -> & ->)|(_ & -> & ->)]]; [apply Ho| |]; done.
    + destruct Hm as [(_ & ->)|[(Hn & _ & ->)|(Hh & _ & ->)]]; [apply Ho| |].
      * rewrite (Ho t'), Hn. split; [done|]. intros [= <-]. done.
      * apply Ho in Hh. rewrite (Ho t'), Hh. split; [intros [= <-]; done|done].
  - pose proof (iv_unreg s q I) as Ho. destruct Hm as [(_ & ->)|[(Hn & _ & ->)|(Hh & _ & ->)]]; [done| |].
    + rewrite Ho, Hn. done.
    + apply (iv_own s q I) in Hh. rewrite Ho, Hh. done.
  - intros t'. unfold upd. case_decide as Et; [done|].
    destruct Hs as [(-> & Hi)|Hh].
    + eapply local_same; [exact Hi|]. apply (iv_local s q I).
    + apply local_free. destruct (holds (c_threads s t')) eqn:Hh'; [|done].
      apply (iv_own s q I) in Hh, Hh'. rewrite Hh in Hh'. injection Hh' as ->. done.
  - apply (iv_irq s q I).
  - done.
  - apply rets_app; [apply (iv_rets s q I)|done].
Qed.

(** The common case: the device does not change, the thread returns or moves. *)
Lemma inv_thread_same s q t p o h :
  inv s q → lock_move s t p o → local (c_u s) q p →
  (h = [] ∨ ∃ x b, h = [EvRet t x b] ∧ x <= 0 ∧ x ≠ - EIO) →
  inv (thread t p o (c_u s) h s) q.
Proof.
  intros I Hm Hl Hh. eapply inv_thread; [exact I|apply (iv_u s q I)|done|done|by left| |].
  - destruct Hh as [->|(x & b & -> & _)]; [rewrite app_nil_r|rewrite replay_ret]; apply (iv_replay s q I).
  - destruct Hh as [->|(x & b & -> & Hx & Hne)]; [constructor|].
    constructor; [|constructor]. split; [done|lia].
Qed.

Lemma queue_empty u q n up :
  uinv u q n up → kfifo_is_empty (u_fifo u) = bool_decide (q = []).
Proof using KO.
  intros [_ Hc Hr _ _ _ _]. unfold u_contents in Hc. rewrite empty_spec, Hc.
  destruct q as [|r q]; [done|]. rewrite queue_cons. inversion Hr as [|? ? Hr0]; subst.
  rewrite !bool_decide_eq_false_2; [done..|]. intros Hn. apply (f_equal zlen) in Hn.
  rewrite zlen_app, zlen_rec in Hn by done. pose proof (zlen_nonneg r.2).
  pose proof (zlen_nonneg (queue_bytes q)). unfold TAP_HDR_SIZE in *. change (zlen []) with 0 in Hn. lia.
Qed.

Lemma wait_check_run f u :
  wait_check f u = Some (if negb (u_inited u) then Some (- ENODEV) else
                         if negb (kfifo_is_empty (u_fifo u)) then Some 0 else
                         if f_nonblock f then Some (- EAGAIN) else None, u).
Proof.
  unfold wait_check. rewrite (run_bind _ _ _ _ _ (get_uapi_run u)). unfold u_inited, u_fifo.
  by destruct (rxq_inited _), (kfifo_is_empty _), (f_nonblock f).
Qed.

(** The queue replaced by one with the same size and records. *)
Lemma uinv_fifo u q n up f q' :
  uinv u q n up → contents f = queue_bytes q' → Forall rec_ok q' →
  fifo_size f = fifo_size (u_fifo u) → (u_inited u = false → q' = []) →
  uinv (with_fifo f u) q' n up.
Proof.
  intros [? ? ? Hs ? ? ?] Hc Hr Hf Hcl. split; try done. change (fifo_size f = GXFP_RXQ_FIFO_BYTES).
  by rewrite Hf.
Qed.


(** ** The steps that change the queue *)

Lemma push_prepare_ok b len u r u' :
  bytes_ok b → 0 <= len <= zlen b → push_prepare (Some b) len u = Some (r, u') →
  u' = u ∧ match r with Some r => rec_ok r | None => True end.
Proof.
  intros Hb Hlen. unfold push_prepare.
  rewrite (run_bind _ _ _ (bool_decide (w_dev (u_k u) = None)) u) by (by destruct u).
  rewrite (run_bind _ _ _ _ _ (get_uapi_run u)).
  destruct (_ || _ || _ || _) eqn:Hg; [by intros [= <- <-]|].
  destruct (parse_mp_dec b len mp_frame_zero Hb Hlen)
    as [(f & Ef)|(flags & pl & rest & -> & Ht & Hmax & Hfit & Hf & Ep)].
  { rewrite Ef, !bind_lift. cbn [negb orb]. by intros [= <- <-]. }
  apply orb_false_elim in Hg as [Hg Hl0]. apply orb_false_elim in Hg as [Hg Hnull].
  apply orb_false_elim in Hg as [Hd Hi]. apply bool_decide_eq_false in Hd.
  destruct (w_dev (u_k u)) as [d|] eqn:Ed; [|done]. apply negb_false_iff in Hi.
  intros Hr. pose proof (push_prepare_frame flags pl rest len u d Ed Hi Hf Ht Hmax Hfit) as Hp.
  unfold push_prepare in Hp.
  rewrite (run_bind _ _ _ _ _ (u_null_run u d Ed)), (run_bind _ _ _ _ _ (get_uapi_run u)) in Hp.
  rewrite Hi, Hnull, Hl0 in Hp. cbn [negb orb] in Hp. rewrite Hr in Hp. injection Hp as -> ->.
  split; [done|]. apply hdr_of_ok. unfold GXFP_GOODIX_MP_LEN_MAX in *. lia.
Qed.

Lemma inv_push_commit s q r u :
  inv s q → c_irq s = Some r → push_commit r.1 r.2 (c_u s) = Some ((), u) →
  ∃ q', inv (irq_thread None u
    [if rxq_inited (u_uapi (c_u s)) &&
        negb (kfifo_avail (rxq_fifo (u_uapi (c_u s))) <? TAP_HDR_SIZE + zlen r.2)
     then EvPush r else EvDrop r] s) q'.
Proof using KO.
  intros I Hr Hc. destruct r as [h p]. pose proof (iv_irq s q I _ Hr) as Hok.
  destruct (push_commit_run h p (c_u s) Hok) as (f & Ef & Hcf & Hsf).
  cbn [fst snd] in Hc. rewrite Ef in Hc. injection Hc as <-. rewrite avail_spec.
  unfold u_inited, u_contents, u_fifo in Hcf. cbn [fst snd].
  rewrite Z.ltb_antisym, negb_involutive.
  pose proof (iv_u s q I) as [Hd Hq Hrec Hsz Hi Hcl Hrd]. unfold u_contents, u_fifo in Hq.
  destruct (rxq_inited (u_uapi (c_u s)) && _) eqn:Hfit.
  - exists (q ++ [(h, p)]). split; cbn.
    + apply (uinv_fifo _ q); [by split|..]; [by rewrite queue_snoc, Hcf, Hq| |done|].
      * apply Forall_app. auto.
      * apply andb_prop in Hfit as (Hin & _). unfold u_inited. by rewrite Hin.
    + apply (iv_own s q I).
    + apply (iv_unreg s q I).
    + intros t. eapply local_mono; [|apply (iv_local s q I)]. done.
    + done.
    + rewrite replay_snoc, (iv_replay s q I). done.
    + apply rets_app; [apply (iv_rets s q I)|repeat constructor].
  - exists q. split; cbn.
    + apply (uinv_fifo _ q); [by split|..]; [by rewrite Hcf|done..].
    + apply (iv_own s q I).
    + apply (iv_unreg s q I).
    + intros t. eapply local_same; [|apply (iv_local s q I)]. done.
    + done.
    + rewrite replay_snoc, (iv_replay s q I). done.
    + apply rets_app; [apply (iv_rets s q I)|repeat constructor].
Qed.

Lemma inv_read_pop s q t c need tmp tmp' popped u r :
  inv s q → c_threads s t = TReadPop c need → zlen tmp = need →
  gxfp_uapi_pop_record tmp need (Some 0) (c_u s) = Some ((0, tmp', Some popped), u) →
  read_copyout (c_ubuf c) tmp' popped need = Some r →
  ∃ q', inv (thread t TIdle None u [EvPop (ztake popped tmp'); EvRet t r.1 r.2] s) q'.
Proof using KO.
  intros I Ht Hl Hp Hr. pose proof (iv_local s q I t) as Hloc. rewrite Ht in Hloc.
  destruct Hloc as (Hi & x & q' & -> & ->). pose proof (iv_u s _ I) as U.
  pose proof (ui_records _ _ _ _ U) as Hrec. inversion Hrec as [|? ? Hx Hrec']; subst.
  pose proof (zlen_rec x Hx) as Hxl.
  destruct (pop_record_run x q' tmp (c_u s) Hi (ui_contents _ _ _ _ U) Hx Hl) as (f & Ef & Hcf & Hsf).
  rewrite Ef in Hp. injection Hp as <- <- <-. exists q'.
  rewrite <- Hxl in *. rewrite ztake_all by done.
  eapply inv_thread; [exact I| | |done| | |].
  - eapply uinv_fifo; [exact U|done..|]. by rewrite Hi.
  - right; right. by rewrite Ht.
  - right. by rewrite Ht.
  - change [EvPop (rec_bytes x); EvRet t r.1 r.2] with ([EvPop (rec_bytes x)] ++ [EvRet t r.1 r.2]).
    rewrite app_assoc, replay_ret, replay_snoc, (iv_replay s _ I).
    cbn. by rewrite decide_True.
  - constructor; [done|]. constructor; [|constructor]. unfold read_copyout in Hr.
    rewrite Z.eqb_refl, slice_full in Hr by done. cbn [negb mbind option_bind] in Hr.
    destruct (blit (c_ubuf c) 0 (rec_bytes x)) as [b|] eqn:Eb; injection Hr as <-;
      cbn [fst snd ret_ok].
    + apply blit_inv in Eb as (_ & _ & -> & _). rewrite Z.add_0_l.
      pose proof (fifo_bounded (u_fifo (c_u s))) as Hb. rewrite (ui_size _ _ _ _ U) in Hb.
      pose proof (ui_contents _ _ _ _ U) as Hcu. unfold u_contents in Hcu.
      rewrite Hcu, queue_cons, zlen_app in Hb.
      pose proof (zlen_nonneg (queue_bytes q')). pose proof (zlen_nonneg (rec_bytes x)).
      unfold GXFP_RXQ_FIFO_BYTES in Hb.
      assert (Hs : s32 (zlen (rec_bytes x)) = zlen (rec_bytes x)) by zint.
      rewrite Hs. split; [unfold EIO; lia|]. intros _. exists (rec_bytes x).
      split_and!; [|done|].
      * apply elem_of_app. right. left.
      * change (ztake 0 (c_ubuf c)) with (@nil Z). cbn [app]. by apply ztake_app.
    + split; [done|]. unfold EFAULT. lia.
Qed.

Lemma flush_run u :
  is_Some (w_dev (u_k u)) →
  ∃ f, gxfp_uapi_rxq_flush_locked u = Some ((), with_fifo f u) ∧
    fifo_size f = fifo_size (u_fifo u) ∧ (u_inited u = true → contents f = []) ∧
    (u_inited u = false → f = u_fifo u).
Proof using KO.
  intros (d & Hd). unfold gxfp_uapi_rxq_flush_locked.
  rewrite (run_bind _ _ _ _ _ (u_null_run u d Hd)), (run_bind _ _ _ _ _ (get_uapi_run u)).
  cbn [orb]. rewrite negb_involutive. unfold u_inited, u_fifo.
  destruct (rxq_inited (u_uapi u)) eqn:Hi; cbn [when].
  - exists (kfifo_reset (rxq_fifo (u_uapi u))). pose proof (reset_spec (rxq_fifo (u_uapi u))) as (? & ?).
    split_and!; done.
  - exists (rxq_fifo (u_uapi u)). split_and!; try done. by destruct u as [? []].
Qed.

(** ** Every step keeps the invariant *)

(** A step of the interrupt thread or the remover that leaves the threads alone. *)
Lemma inv_frame s q s' q' :
  inv s q → uinv (c_u s') q' (c_readers s') (c_unreg s') →
  c_threads s' = c_threads s → (c_owner s' = c_owner s ∧ (c_unreg s' = UDo ↔ c_unreg s = UDo)) →
  (q' = q ∧ u_inited (c_u s') = u_inited (c_u s)) →
  (∀ r, c_irq s' = Some r → rec_ok r) → c_hist s' = c_hist s → inv s' q'.
Proof.
  intros I Hu Ht (Ho & Hun) (-> & Hi) Hirq Hh. split.
  - done.
  - intros t. rewrite Ht, Ho. apply (iv_own s q I).
  - rewrite Ho, Hun. apply (iv_unreg s q I).
  - intros t. rewrite Ht. eapply local_same; [exact Hi|]. apply (iv_local s q I).
  - done.
  - rewrite Hh. apply (iv_replay s q I).
  - rewrite Hh. apply (iv_rets s q I).
Qed.

Lemma inv_flush s q t u :
  inv s q → c_threads s t = TFlush → gxfp_uapi_rxq_flush_locked (c_u s) = Some ((), u) →
  inv (thread t TIdle None u [EvFlush] s) [].
Proof using KO.
  intros I Ht Hf. pose proof (iv_u s q I) as U.
  destruct (flush_run (c_u s) (ui_dev _ _ _ _ U)) as (f & Ef & Hs & Hin & Hout).
  rewrite Ef in Hf. injection Hf as <-. eapply inv_thread; [exact I| | |done| | |].
  - eapply uinv_fifo; [exact U| |constructor|done|done].
    destruct (u_inited (c_u s)) eqn:Hi; [by apply Hin|]. rewrite Hout by done.
    pose proof (ui_contents _ _ _ _ U) as Hc. by rewrite (ui_closed _ _ _ _ U Hi) in Hc.
  - right; right. by rewrite Ht.
  - right. by rewrite Ht.
  - rewrite replay_snoc, (iv_replay s q I). done.
  - repeat constructor.
Qed.

Lemma inv_open s q f f' u :
  inv s q → f_read f = true → gxfp_uapi_open true f (c_u s) = Some ((0, f'), u) →
  inv (files (S (c_readers s)) u s) q.
Proof.
  intros I Hf Ho. pose proof (iv_u s q I) as U. unfold gxfp_uapi_open in Ho. cbn [negb] in Ho.
  rewrite Hf, (run_bind _ _ _ _ _ (get_uapi_run _)) in Ho.
  destruct (rxq_inited (u_uapi (c_u s))) eqn:Hi; [|done]. cbn [negb] in Ho.
  destruct (rxq_reader_open (u_uapi (c_u s))) eqn:Hr; [done|].
  erewrite run_bind in Ho by reflexivity. injection Ho as <- <-.
  eapply (inv_frame s q); try done; [|apply (iv_irq s q I)].
  destruct U as [? ? ? ? Hin ? Hrd]. unfold u_inited in *. rewrite Hi, Hr in Hrd.
  split; try done. cbn. unfold u_inited. cbn. by rewrite Hi, Hrd.
Qed.

Lemma inv_release s q f n u :
  inv s q → f_read f = true → private_data f = true → c_readers s = S n →
  gxfp_uapi_release f (c_u s) = Some (0, u) → inv (files n u s) q.
Proof.
  intros I Hf Hp Hn Ho. pose proof (iv_u s q I) as U. unfold gxfp_uapi_release in Ho.
  rewrite Hp, Hf in Ho. cbn [negb when] in Ho. erewrite run_bind in Ho by reflexivity.
  injection Ho as <-. eapply (inv_frame s q); try done; [|apply (iv_irq s q I)].
  destruct U as [? ? ? ? Hin ? Hrd]. rewrite Hn in Hrd.
  split; try done. cbn [c_readers files]. unfold u_inited in *. cbn in *.
  destruct (rxq_inited (u_uapi (c_u s))); [|lia].
  destruct (rxq_reader_open (u_uapi (c_u s))); [|done]. by injection Hrd.
Qed.

Lemma inv_unregister_do s q u :
  inv s q → c_unreg s = UDo → unregister_rxq (c_u s) = Some ((), u) →
  inv (remover UDone None u [EvClose] s) [].
Proof using KO.
  intros I Hu Hr. pose proof (iv_u s q I) as U. pose proof (proj1 (iv_unreg s q I) Hu) as Ho.
  assert (Hfree : ∀ t, holds (c_threads s t) = false).
  { intros t. destruct (holds (c_threads s t)) eqn:Hh; [|done].
    apply (iv_own s q I) in Hh. by rewrite Ho in Hh. }
  unfold unregister_rxq in Hr. erewrite run_bind in Hr by reflexivity. injection Hr as <-.
  destruct (reset_spec (u_fifo (c_u s))) as (Hrc & Hrs).
  destruct U as [? ? ? Hsz Hin Hcl Hrd].
  split; cbn.
  - split; cbn; try done.
    + change (fifo_size (kfifo_reset (u_fifo (c_u s))) = GXFP_RXQ_FIFO_BYTES). by rewrite Hrs.
    + unfold u_inited in *. destruct (rxq_inited (u_uapi (c_u s))); [|done].
      rewrite Hrd. destruct (rxq_reader_open _); lia.
  - intros t. by rewrite Hfree.
  - done.
  - intros t. by apply local_free.
  - apply (iv_irq s q I).
  - rewrite replay_snoc, (iv_replay s q I). done.
  - apply rets_app; [apply (iv_rets s q I)|repeat constructor].
Qed.

Lemma unregister_misc_run u r u' :
  is_Some (w_dev (u_k u)) → unregister_misc u = Some (r, u') →
  ∃ b, u' = {| u_k := u_k u; u_uapi := set_misc b (u_uapi u) |}.
Proof.
  intros (d & Hd) Hr. unfold unregister_misc in Hr.
  rewrite (run_bind _ _ _ _ _ (u_null_run _ d Hd)), (run_bind _ _ _ _ _ (get_uapi_run _)) in Hr.
  assert (Hsame : ∃ b, u = {| u_k := u_k u; u_uapi := set_misc b (u_uapi u) |})
    by (destruct u as [? [m]]; by exists m).
  destruct (negb _ && _); [by injection Hr as _ <-|].
  destruct (misc_registered (u_uapi u)); cbn [when] in Hr; erewrite run_bind in Hr by reflexivity;
    injection Hr as _ <-; [by exists false|done].
Qed.

Lemma inv_unregister s q u :
  inv s q → c_unreg s = UIdle → unregister_misc (c_u s) = Some (true, u) →
  inv (remover ULock (c_owner s) u [] s) q.
Proof.
  intros I Hu Hr. pose proof (iv_u s q I) as U.
  destruct (unregister_misc_run _ _ _ (ui_dev _ _ _ _ U) Hr) as (b & ->).
  eapply (inv_frame s q); try done; [| |apply (iv_irq s q I)|].
  - destruct U as [? ? ? ? Hin ? ?]. rewrite Hu in Hin. split; try done. cbn.
    split; [done|]. intros _. by apply Hin.
  - split; [done|]. cbn. by rewrite Hu.
  - cbn. apply app_nil_r.
Qed.

Ltac same I :=
  eexists; apply inv_thread_same;
    [exact I|unfold lock_move; cbn [holds]|cbn [local]|]; rewrite ?app_nil_r.

Lemma step_inv s l s' q : inv s q → step s l s' → ∃ q', inv s' q'.
Proof using KO.
  intros I Hs. pose proof (iv_u s q I) as U.
  destruct Hs as
    [s k Hk|s b len r u Hn Hb Hl Hp|s r u Hr Hc|s t c Ht Hg|s t c Ht Hp Hi Hc|s t c Ht Hp Hi Hc
    |s t c Ht|s t c Ht Ho|s t c e u Ht Hw He|s t c u Ht Hw|s t c u Ht Hw|s t c Ht Hw|s t c Ht
    |s t c e need u Ht Hp He|s t c need u Ht Hp|s t c need Ht
    |s t c need tmp e tmp' popped u Ht Hl Hp He|s t c need tmp tmp' popped u r Ht Hl Hp Hr
    |s t Ht|s t Ht|s t Ht Ho|s t u Ht Hf|s f f' u Hf Ho|s f n u Hf Hp Hn Ho|s u Hu Hr|s Hu Ho|s u Hu Hr].
  - exists q. eapply (inv_frame s q); try done; [|apply (iv_irq s q I)]. destruct U. by split.
  - destruct (push_prepare_ok _ _ _ _ _ Hb Hl Hp) as (-> & Hok). exists q.
    eapply (inv_frame s q); try done; [|cbn; apply app_nil_r].
    intros r0 Hr0. cbn in Hr0. by subst r.
  - by apply (inv_push_commit s q r u).
  - same I; [left; by rewrite Ht|done|]. right. do 2 eexists. by split.
  - same I; [left; by rewrite Ht|done|]. right. do 2 eexists. by split.
  - same I; [left; by rewrite Ht|done|by left].
  - same I; [left; by rewrite Ht|done|]. right. do 2 eexists. by split.
  - same I; [right; by left|done|by left].
  - rewrite wait_check_run in Hw. injection Hw as Hw <-.
    same I; [right; right; by rewrite Ht|done|]. right. do 2 eexists. split; [done|].
    repeat case_match; by simplify_eq.
  - rewrite wait_check_run, (queue_empty _ _ _ _ U) in Hw.
    assert (Hu : u = c_u s) by congruence. subst u.
    same I; [left; by rewrite Ht| |by left].
    destruct (u_inited (c_u s)); [|done]. split; [done|]. intros ->.
    rewrite bool_decide_eq_true_2 in Hw by done. cbn [negb] in Hw. by destruct (f_nonblock _).
  - rewrite wait_check_run in Hw. assert (Hu : u = c_u s) by congruence. subst u.
    same I; [left; by rewrite Ht| |by left]. by destruct (u_inited (c_u s)).
  - same I; [left; by rewrite Ht|done|by left].
  - same I; [right; right; by rewrite Ht|done|]. right. do 2 eexists. by split.
  - pose proof (iv_local s q I t) as Hloc. rewrite Ht in Hloc. destruct Hloc as (Hi & Hq).
    destruct q as [|r q]; [done|]. pose proof (ui_records _ _ _ _ U) as Hrec.
    inversion Hrec; subst. erewrite (peek_need_run r q) in Hp by (done || apply U).
    destruct (_ <? _); injection Hp as <- <- <-; [|done].
    same I; [right; right; by rewrite Ht|done|]. right. do 2 eexists. by split.
  - pose proof (iv_local s q I t) as Hloc. rewrite Ht in Hloc. destruct Hloc as (Hi & Hq).
    destruct q as [|r q]; [done|]. pose proof (ui_records _ _ _ _ U) as Hrec.
    inversion Hrec; subst. erewrite (peek_need_run r q) in Hp by (done || apply U).
    destruct (_ <? _); [done|]. injection Hp as <- <-.
    same I; [left; by rewrite Ht| |by left]. split; [done|]. by eexists _, _.
  - same I; [right; right; by rewrite Ht|done|]. right. do 2 eexists. by split.
  - exfalso. pose proof (iv_local s q I t) as Hloc. rewrite Ht in Hloc.
    destruct Hloc as (Hi & x & q' & -> & ->). pose proof (ui_records _ _ _ _ U) as Hrec.
    inversion Hrec; subst.
    destruct (pop_record_run x q' tmp (c_u s) Hi (ui_contents _ _ _ _ U) ltac:(done) Hl) as (f & Ef & _).
    rewrite Ef in Hp. by simplify_eq.
  - by eapply inv_read_pop.
  - same I; [left; by rewrite Ht|done|by left].
  - same I; [left; by rewrite Ht|done|by left].
  - same I; [right; by left|done|by left].
  - eexists. by apply (inv_flush s q).
  - exists q. by eapply inv_open.
  - exists q. by eapply inv_release.
  - exists q. by apply inv_unregister.
  - exists q. split; cbn.
    + destruct U as [? ? ? ? Hin ? ?]. split; try done. by rewrite Hin, Hu.
    + intros t. rewrite (iv_own s q I t), Ho. done.
    + done.
    + apply (iv_local s q I).
    + apply (iv_irq s q I).
    + rewrite app_nil_r. apply (iv_replay s q I).
    + rewrite app_nil_r. apply (iv_rets s q I).
  - exists []. by apply (inv_unregister_do s q).
Qed.

(** ** What every reachable state satisfies *)

Lemma register_run u u' :
  misc_registered (u_uapi u) = false → gxfp_uapi_register 0 u = Some (0, u') →
  u_inited u' = true ∧ rxq_reader_open (u_uapi u') = false ∧ contents (u_fifo u') = [] ∧
  fifo_size (u_fifo u') = GXFP_RXQ_FIFO_BYTES.
Proof using KO.
  intros Hm. unfold gxfp_uapi_register.
  rewrite (run_bind _ _ _ (bool_decide (w_dev (u_k u) = None)) u) by (by destruct u).
  case_bool_decide; [done|]. rewrite (run_bind _ _ _ _ _ (get_uapi_run u)), Hm.
  erewrite run_bind by reflexivity. erewrite run_bind by (eapply in_kernel_run, kmalloc_run).
  destruct (w_oom _) as [|[] ?]; cbn [bool_decide];
    [rewrite bool_decide_eq_false_2 by done|rewrite bool_decide_eq_true_2 by done
    |rewrite bool_decide_eq_false_2 by done].
  2: by erewrite run_bind by reflexivity.
  all: erewrite run_bind by reflexivity; rewrite (run_bind _ _ _ _ _ (get_uapi_run _));
    cbn [u_uapi rxq_fifo set_buf set_reader set_inited];
    destruct (kfifo_init (rxq_fifo (u_uapi u)) GXFP_RXQ_FIFO_BYTES) as [rc f] eqn:Ek;
    erewrite run_bind by reflexivity;
    destruct (Z.eqb_spec rc 0) as [->|Hrc]; cbn [negb];
    [|erewrite run_bind by reflexivity; intros [= -> <-]; done];
    erewrite run_bind by reflexivity; cbn [negb Z.eqb]; erewrite run_bind by reflexivity;
    intros [= <-]; destruct (init_spec _ _ _ _ Ek eq_refl) as (Hs & Hc);
    unfold u_inited, u_fifo; cbn; done.
Qed.

Lemma initial_inv s : initial s → inv s [].
Proof using KO.
  intros (Hd & (u0 & Hm & Hr) & Ho & Ht & Hirq & Hu & Hn & Hh).
  destruct (register_run _ _ Hm Hr) as (Hi & Hro & Hc & Hs). split.
  - split; [done|done|constructor|done|by rewrite Hu|by rewrite Hi|by rewrite Hi, Hro, Hn].
  - intros t. by rewrite Ht, Ho.
  - by rewrite Hu, Ho.
  - intros t. by rewrite Ht.
  - by rewrite Hirq.
  - by rewrite Hh.
  - rewrite Hh. constructor.
Qed.

Lemma reachable_inv s : reachable s → ∃ q, inv s q.
Proof using KO.
  induction 1 as [s Hs|s l s' _ (q & IH) Hs]; [eauto using initial_inv|by eapply step_inv].
Qed.

(** C2: whatever the interleaving of the interrupt thread, any number of reading
    and flushing threads, opens, releases and the removal of the device, the byte
    queue always holds a sequence of whole records: the one obtained by replaying
    the history, in which a read takes exactly the head. What was delivered is a
    subsequence of what was queued, in order; no read fails with EIO; a successful
    read returned exactly the bytes of a record it took; and at most one file is
    open for reading. *)
Theorem rxq_linearizable s :
  reachable s →
  ∃ q, replay (c_hist s) = Some q ∧ Forall rec_ok q ∧ u_contents (c_u s) = queue_bytes q ∧
    sublist (pops (c_hist s) ++ (rec_bytes <$> q)) (pushes (c_hist s)) ∧
    Forall (ret_ok (c_hist s)) (c_hist s) ∧ (c_readers s <= 1)%nat.
Proof using KO.
  intros (q & I)%reachable_inv. exists q. pose proof (iv_u s q I) as U.
  split_and!; try apply I; try apply U.
  - apply replay_sublist, I.
  - pose proof (ui_readers _ _ _ _ U) as Hn. destruct (u_inited _); [|done].
    rewrite Hn. destruct (rxq_reader_open _); lia.
Qed.

(** ** A blocked reader blocks the removal of the device *)

Definition blocked (s : cstate) (t : nat) (c : rcall) : Prop :=
  (∃ q, inv s q) ∧ c_threads s t = TReadSleep c ∧ u_contents (c_u s) = [] ∧ c_irq s = None.

Definition quiet (t : nat) (s s' : cstate) : Prop :=
  ∃ l, step s l s' ∧ l ≠ LPush ∧ l ≠ LSignal t.

Lemma other_idle s q t t' :
  inv s q → holds (c_threads s t) = true → t' ≠ t → holds (c_threads s t') = false.
Proof.
  intros I Ht Hne. destruct (holds (c_threads s t')) eqn:H'; [|done].
  apply (iv_own s q I) in Ht, H'. rewrite Ht in H'. by injection H'.
Qed.

Lemma blocked_step s s' t c : blocked s t c → quiet t s s' → blocked s' t c.
Proof using KO.
  intros ((q & I) & Ht & Hc & Hirq) (l & Hs & Hlp & Hls).
  assert (Hh : holds (c_threads s t) = true) by by rewrite Ht.
  pose proof (proj1 (iv_own s q I t) Hh) as Ho.
  assert (Hun : c_unreg s ≠ UDo) by (intros Hu; apply (iv_unreg s q I) in Hu; by rewrite Hu in Ho).
  assert (Hnot : ∀ t' p, c_threads s t' = p → holds p = true → t' = t).
  { intros t' p Hp Hhp. destruct (decide (t' = t)) as [|Hne]; [done|].
    by rewrite <- Hp, (other_idle s q t t' I Hh Hne) in Hhp. }
  pose proof (step_inv s l s' q I Hs) as HI. split; [exact HI|].
  assert (Hfree : ∀ t' p, c_threads s t' = p → holds p = false → t' ≠ t)
    by (intros t' p Hp Hhp ->; by rewrite <- Hp, Hh in Hhp).
  inversion Hs; subst; try done;
    try (match goal with
         | H : c_threads s ?t' = ?p |- _ =>
           first [ assert (t' = t) by (by apply (Hnot _ _ H)); subst t'; congruence
                 | pose proof (Hfree _ _ H eq_refl); cbn; unfold upd;
                   rewrite decide_False by done; done ]
         end); try congruence.
  - match goal with H : c_threads s ?t' = TReadSleep _ |- _ =>
      assert (t' = t) by (by apply (Hnot _ _ H)); subst t' end.
    match goal with H : wake_condition _ = _ |- _ => rename H into Hw end.
    exfalso. unfold wake_condition, gxfp_uapi_rxq_ready in Hw.
    rewrite (run_bind _ _ _ _ _ (get_uapi_run (c_u s))) in Hw. cbn in Hw.
    pose proof (iv_local s q I t) as Hloc. rewrite Ht in Hloc. cbn in Hloc.
    unfold u_inited, u_contents, u_fifo in *. rewrite Hloc, empty_spec, Hc in Hw. done.
  - match goal with H : gxfp_uapi_open _ _ _ = _ |- _ => rename H into Hop end.
    unfold gxfp_uapi_open in Hop. match goal with H : f_read _ = true |- _ => rewrite H in Hop end.
    cbn [negb] in Hop. rewrite (run_bind _ _ _ _ _ (get_uapi_run _)) in Hop.
    destruct (negb _); [done|]. destruct (rxq_reader_open _); [done|].
    erewrite run_bind in Hop by reflexivity. by injection Hop as _ <-.
  - match goal with H : gxfp_uapi_release _ _ = _ |- _ => rename H into Hop end.
    unfold gxfp_uapi_release in Hop.
    match goal with H : f_read _ = true |- _ => rewrite H in Hop end.
    match goal with H : private_data _ = true |- _ => rewrite H in Hop end.
    cbn [negb when] in Hop. erewrite run_bind in Hop by reflexivity. by injection Hop as <-.
  - match goal with H : unregister_misc _ = _ |- _ => rename H into Hr end.
    pose proof (iv_u s q I) as U.
    by destruct (unregister_misc_run _ _ _ (ui_dev _ _ _ _ U) Hr) as (b & ->).
Qed.

(** C3: a read(2) asleep on the empty queue holds the mutex that the removal of
    the device takes before it wakes the readers. So, until a packet is queued
    or that reader gets a signal, [gxfp_uapi_unregister] never returns (nor does
    the flush ioctl of another thread), whatever else runs. The removal has
    disabled the interrupt by then, so no packet will be queued. *)
Theorem blocked_reader_blocks_removal s s' t c :
  reachable s → c_threads s t = TReadSleep c → u_contents (c_u s) = [] → c_irq s = None →
  rtc (quiet t) s s' →
  c_threads s' t = TReadSleep c ∧ c_owner s' = Some (Thr t) ∧
  c_unreg s' ≠ UDo ∧ c_unreg s' ≠ UDone ∧ ∀ t', c_threads s' t' ≠ TFlush.
Proof using KO.
  intros Hr Ht Hc Hi Hrun. assert (Hb : blocked s t c) by (split; [by apply reachable_inv|done]).
  clear Hr Ht Hc Hi. induction Hrun as [s|s s1 s2 H1 _ IH];
    [|apply IH; by eapply blocked_step].
  destruct Hb as ((q & I) & Ht & Hc & _).
  assert (Hh : holds (c_threads s t) = true) by by rewrite Ht.
  pose proof (proj1 (iv_own s q I t) Hh) as Ho. split_and!; [done|done| | |].
  - intros Hu. apply (iv_unreg s q I) in Hu. by rewrite Hu in Ho.
  - pose proof (iv_local s q I t) as Hl. rewrite Ht in Hl.
    apply (ui_inited _ _ _ _ (iv_u s q I)), Hl.
  - intros t' Ht'. destruct (decide (t' = t)) as [->|Hne]; [by rewrite Ht in Ht'|].
    pose proof (other_idle s q t t' I Hh Hne) as Hf. by rewrite Ht' in Hf.
Qed.
End conc.

(** * Concrete runs *)

Abbreviation demo_cstate := (cstate (K:=list_kfifo)).

(** Just registered. *)
Definition fresh : demo_cstate :=
  {| c_u := {| u_k := demo_world;
               u_uapi := {| misc_registered := true; rxq_fifo := (GXFP_RXQ_FIFO_BYTES, []);
                            rxq_buf := true; rxq_inited := true; rxq_reader_open := false |} |};
     c_owner := None; c_threads := λ _, TIdle; c_irq := None; c_unreg := UIdle;
     c_readers := 0; c_hist := [] |}.

Definition blocking_read : rcall :=
  {| c_file := {| f_read := true; f_nonblock := false; private_data := true |};
     c_ubuf := zeros 64; c_count := 64 |}.

Definition unregistered : uworld (K:=list_kfifo) :=
  {| u_k := demo_world;
     u_uapi := {| misc_registered := false; rxq_fifo := (0, []); rxq_buf := false;
                  rxq_inited := false; rxq_reader_open := false |} |}.

Lemma fresh_reachable : reachable (E:=packet_env demo_pkt) fresh.
Proof.
  apply R_initial. split; [by eexists|]. split.
  - exists unregistered. split; [done|]. vm_compute. reflexivity.
  - done.
Qed.

(** A packet arrives. *)
Definition one_record : record := (hdr_of 0 160 [1; 2; 3], [1; 2; 3]).

Definition one_prepared : demo_cstate := irq_thread (Some one_record) (c_u fresh) [] fresh.

Definition one_packet : demo_cstate :=
  irq_thread None (with_fifo (GXFP_RXQ_FIFO_BYTES, rec_bytes one_record) (c_u fresh))
    [EvPush one_record] one_prepared.

Lemma one_packet_reachable : reachable (E:=packet_env demo_pkt) one_packet.
Proof.
  assert (Hp : reachable (E:=packet_env demo_pkt) one_prepared).
  { eapply R_step; [exact fresh_reachable|].
    apply (S_push_prepare (E:=packet_env demo_pkt) fresh (mp_frame 160 [1; 2; 3]) 7);
      [done| |by split|].
    - apply mp_frame_ok; [unfold is_u8; lia|].
      repeat (apply Forall_cons; split; [unfold is_u8; lia|]). constructor.
    - vm_compute. reflexivity. }
  eapply R_step; [exact Hp|].
  exact (S_push_commit (E:=packet_env demo_pkt) one_prepared one_record
           (with_fifo (GXFP_RXQ_FIFO_BYTES, rec_bytes one_record) (c_u fresh)) eq_refl eq_refl).
Qed.

Lemma rxq_linearizable_witness :
  ∃ q, replay (c_hist one_packet) = Some q ∧ length q = 1%nat ∧
    u_contents (KO:=list_kfifo_ok) (c_u one_packet) = queue_bytes q.
Proof.
  destruct (rxq_linearizable (KO:=list_kfifo_ok) (E:=packet_env demo_pkt) one_packet
    one_packet_reachable) as (q & Hq & _ & Hc & _).
  exists q. split; [exact Hq|]. split; [|exact Hc].
  vm_compute in Hq. injection Hq as <-. reflexivity.
Defined.

(** A reader goes to sleep on the empty queue; then the device is removed. *)
Definition entered : demo_cstate := thread 0 (TReadLock blocking_read) None (c_u fresh) [] fresh.
Definition locked : demo_cstate :=
  thread 0 (TReadCheck blocking_read) (Some (Thr 0)) (c_u fresh) [] entered.
Definition asleep : demo_cstate :=
  thread 0 (TReadSleep blocking_read) (Some (Thr 0)) (c_u fresh) [] locked.

Definition removing : demo_cstate :=
  remover ULock (Some (Thr 0))
    {| u_k := demo_world; u_uapi := set_misc false (u_uapi (c_u fresh)) |} [] asleep.

Lemma asleep_reachable : reachable (E:=packet_env demo_pkt) asleep.
Proof.
  assert (H1 : reachable (E:=packet_env demo_pkt) entered).
  { eapply R_step; [exact fresh_reachable|].
    by apply (S_read_enter (E:=packet_env demo_pkt) fresh 0 blocking_read). }
  assert (H2 : reachable (E:=packet_env demo_pkt) locked).
  { eapply R_step; [exact H1|].
    by apply (S_read_lock (E:=packet_env demo_pkt) entered 0 blocking_read). }
  eapply R_step; [exact H2|].
  exact (S_read_sleep (E:=packet_env demo_pkt) locked 0 blocking_read (c_u fresh) eq_refl eq_refl).
Qed.

Lemma blocked_reader_blocks_removal_witness :
  rtc (quiet (E:=packet_env demo_pkt) 0) asleep removing ∧
  c_owner removing = Some (Thr 0) ∧ c_unreg removing ≠ UDone.
Proof.
  assert (Hrun : rtc (quiet (E:=packet_env demo_pkt) 0) asleep removing).
  { apply rtc_once. exists LOther. split; [|done].
    apply (S_unregister (E:=packet_env demo_pkt) asleep); vm_compute; reflexivity. }
  split; [exact Hrun|].
  destruct (blocked_reader_blocks_removal (KO:=list_kfifo_ok) (E:=packet_env demo_pkt)
    asleep removing 0 blocking_read asleep_reachable) as (_ & Ho & _ & Hu & _).
  - reflexivity.
  - vm_compute. reflexivity.
  - reflexivity.
  - exact Hrun.
  - split; [exact Ho|exact Hu].
Defined.
