(* ===== verification/KIrq.v ===== *)
(** The interrupt thread, [kernel/driver/gxfp_irq.c]: one step of the assembly of
    [KEspi] under the device mutex, READ_DONE cleared, and a completed packet
    handed to the queue of [KUapi]. The theorems are about the whole receive path,
    from what the sensor shows in the mailbox to the record read(2) will find. *)
From Stdlib Require Import ZArith Lia.
From stdpp Require Import prelude list.
From S2P Require Import Prelude KMpProto KWorld KEspi KUapi.

Open Scope Z_scope.

Definition IRQ_NONE : Z := 0.
Definition IRQ_HANDLED : Z := 1.

Section irq.
Context {K : Kfifo} {E : Kenv}.

Definition gxfp_irq_thread : M uworld Z :=
  n ← in_kernel gdev_null;
  if (n : bool) then mret IRQ_NONE else
  d ← in_kernel gdev;
  if bool_decide (rx_buf (dev_irq d) = None) || (rx_cap (dev_irq d) <? 16)
  then mret IRQ_NONE else
  '(ret, buf, rx_len, complete) ←
    in_kernel (gxfp_espi_irq_read_step (rx_buf (dev_irq d)) (rx_cap (dev_irq d))
                 (Some 0) (Some false));
  in_kernel (mod_gdev (λ d, set_irq (set_rx_buf buf (dev_irq d)) d));;
  rx_len ← lift rx_len;
  complete ← lift complete;
  let push := (ret =? 0) && (complete : bool) && negb (rx_len =? 0) in
  in_kernel (gxfp_gpio_set_read_done 0);;
  when push (gxfp_uapi_rxq_push_packet buf rx_len);;
  mret IRQ_HANDLED.

(** [n] interrupts, one after the other. *)
Fixpoint irq_threads (n : nat) : M uworld () :=
  match n with
  | O => mret ()
  | S n => _ ← gxfp_irq_thread; irq_threads n
  end.
End irq.

Section receive.
Context {K : Kfifo} {KO : KfifoOk K} {E : Kenv} {size : Z} {EO : KenvOk E size}.
Context (base cap : Z) (flags : Z) (pl : bytes) (tr0 : list event).
Context (Hserve : serves base (mp_frame flags pl) tr0).
Context (Hf : is_u8 flags) (Ht : mp_type_ok (Z.shiftr flags 4)) (Hpl : bytes_ok pl)
        (Hmax : zlen pl < GXFP_GOODIX_MP_LEN_MAX) (Hcap : 4 + zlen pl <= cap)
        (Hchunk : GXFP_ESPI_CHUNK_MAX <= cap).

(** The number of windows of the frame. *)
Definition windows : Z := (4 + zlen pl - 1) / GXFP_ESPI_CHUNK_MAX + 1.

(** Waiting for the frame, with the receive buffers in place. *)
Definition irq_idle (k : kworld) : Prop :=
  ∃ d t b, w_dev k = Some d ∧ mapped size base d ∧ gpio_read_done (dev_hw d) = true ∧
    rx_tmp (dev_irq d) = Some t ∧ zlen t = GXFP_ESPI_CHUNK_MAX ∧
    rx_buf (dev_irq d) = Some b ∧ zlen b = cap ∧ rx_cap (dev_irq d) = cap ∧
    assem_active (dev_irq d) = false.

(** The state of the driver between two interrupts of one frame. *)
Definition irq_assembling (k : kworld) (s : list event) : Prop :=
  ∃ d b, w_dev k = Some d ∧ rx_buf (dev_irq d) = Some b ∧ rx_cap (dev_irq d) = cap ∧
    assembling (size:=size) base cap (mp_frame flags pl) tr0 k b s.

Lemma frame_ok : packet_ok cap (mp_frame flags pl).
Proof using Hf Ht Hpl Hmax Hcap.
  pose proof (zlen_nonneg pl). split; [by apply mp_frame_ok|]. rewrite zlen_mp_frame.
  split; [lia|]. unfold mp_frame, mp_head, GXFP_GOODIX_MP_LEN_MAX in *. cbn [app head_len].
  assert (Hd : zlen pl mod 256 + 256 * (zlen pl / 256 mod 256) = zlen pl) by zint.
  rewrite Hd. split_and!; [done|done|]. unfold head_ok.
  edestruct (check_mp_head_spec flags (zlen pl mod 256) (zlen pl / 256 mod 256))
    as (ok & Eh & Hok); [done|zint|zint| |reflexivity|rewrite Eh]; [zint|].
  apply Hok. rewrite Hd. done.
Qed.

(** The kernel's state after a step: the buffer put back, READ_DONE cleared. *)
Definition after_step (b : bytes) (d : gxfp_dev) (k : kworld) : kworld :=
  push (set_read_done_events true 0) (set_dev (set_irq (set_rx_buf (Some b) (dev_irq d)) d) k).

Lemma irq_thread_run u d b o c b' k' d' :
  w_dev (u_k u) = Some d → rx_buf (dev_irq d) = Some b → rx_cap (dev_irq d) = cap →
  gxfp_espi_irq_read_step (Some b) cap (Some 0) (Some false) (u_k u)
  = Some ((0, Some b', Some o, Some c), k') →
  w_dev k' = Some d' → gpio_read_done (dev_hw d') = true →
  gxfp_irq_thread u
  = ((when (c && negb (o =? 0)) (gxfp_uapi_rxq_push_packet (Some b') o);; mret IRQ_HANDLED)
       {| u_k := after_step b' d' k'; u_uapi := u_uapi u |}).
Proof using Hchunk.
  intros Hd Hb Hc Hs Hd' Hg. unfold gxfp_irq_thread.
  rewrite (run_bind _ _ _ _ _ (u_null_run u d Hd)). cbv beta iota.
  rewrite (run_bind _ _ _ _ _ (in_kernel_run _ u _ _ (gdev_run _ d Hd))).
  rewrite Hb, Hc, bool_decide_eq_false_2 by done. cbn [orb].
  rewrite (proj2 (Z.ltb_ge cap 16)) by (unfold GXFP_ESPI_CHUNK_MAX, GXFP_READ_CHUNK_MAX in *; lia).
  erewrite run_bind by (eapply in_kernel_run, Hs). cbv beta iota.
  erewrite run_bind by (eapply in_kernel_run, mod_gdev_run, Hd').
  rewrite !bind_lift. cbv zeta. cbn [Z.eqb andb].
  pose proof (set_read_done_run 0 (set_dev (set_irq (set_rx_buf (Some b') (dev_irq d')) d') k')
    _ eq_refl) as Hr. cbn [dev_hw set_irq] in Hr. rewrite Hg in Hr.
  rewrite (run_bind _ _ _ _ _ (in_kernel_run _
    {| u_k := set_dev (set_irq (set_rx_buf (Some b') (dev_irq d')) d') k';
       u_uapi := u_uapi u |} _ _ Hr)). done.
Qed.

(** Clearing READ_DONE is not a pulse, and storing the buffer changes no length. *)
Lemma assembling_after k b s d :
  assembling (size:=size) base cap (mp_frame flags pl) tr0 k b s → w_dev k = Some d →
  irq_assembling (after_step b d k) (s ++ set_read_done_events true 0).
Proof.
  intros (d' & t & Hd & Hm & Hg & Htt & Htl & Hrc & Ha & Htot & Hw & Hb & Hc) Hd'.
  rewrite Hd in Hd'. injection Hd' as ->.
  eexists _, b. split; [reflexivity|]. split; [done|]. split; [done|].
  eexists _, t. split; [reflexivity|]. cbn. rewrite Hw, read_pulses_app, <- app_assoc. cbn.
  rewrite !Z.add_0_r. by destruct d as [? [] []].
Qed.

(** What one more interrupt does. *)
Definition queued (u u' : uworld) : Prop :=
  u_inited u' = true ∧ fifo_size (u_fifo u') = fifo_size (u_fifo u) ∧
  irq_idle (u_k u') ∧
  ∃ ts, let r := (hdr_of ts flags pl, pl) in
    u_contents u' = if TAP_HDR_SIZE + zlen pl <=? fifo_size (u_fifo u) - zlen (u_contents u)
                    then u_contents u ++ rec_bytes r else u_contents u.

Lemma received_queued u b' k' n :
  u_inited u = true → received (size:=size) base cap (mp_frame flags pl) tr0 k' b' n →
  ∃ d', w_dev k' = Some d' ∧ gpio_read_done (dev_hw d') = true ∧
    ∃ u', (gxfp_uapi_rxq_push_packet (Some b') (4 + zlen pl);; mret IRQ_HANDLED)
            {| u_k := after_step b' d' k'; u_uapi := u_uapi u |} = Some (IRQ_HANDLED, u') ∧
      queued u u' ∧ read_pulses (w_trace (u_k u')) = read_pulses tr0 + n.
Proof using KO Hf Ht Hmax.
  intros Hi (Hpre & Hb & d & t & s & Hd & Hm & Hg & Htt & Htl & Hrc & Ha & Hw & Hn).
  exists d. split; [done|]. split; [done|].
  pose proof (ztake_zdrop (4 + zlen pl) b') as Hsplit. rewrite zlen_mp_frame in Hpre.
  rewrite Hpre in Hsplit.
  set (u1 := {| u_k := after_step b' d k'; u_uapi := u_uapi u |}).
  destruct (push_frame_run flags pl (zdrop (4 + zlen pl) b') (4 + zlen pl) u1 _ eq_refl Hi Hf Ht Hmax)
    as (f & Ef & Hsz & Hc & _); [lia|].
  rewrite Hsplit in Ef. erewrite run_bind by exact Ef. eexists. split; [reflexivity|]. split.
  - split; [exact Hi|]. split; [exact Hsz|]. split; [|eexists; exact Hc].
    eexists _, t, b'. split; [reflexivity|]. cbn. done.
  - cbn. rewrite Hw, !read_pulses_app, Hn. cbn. lia.
Qed.

Lemma frame_pos : 4 + zlen pl <> 0.
Proof. pose proof (zlen_nonneg pl). lia. Qed.

Lemma next_interrupt u s :
  irq_assembling (u_k u) s → u_inited u = true →
  ∃ u', gxfp_irq_thread u = Some (IRQ_HANDLED, u') ∧
    if 4 + zlen pl <=? (read_pulses s + 1) * GXFP_ESPI_CHUNK_MAX
    then queued u u' ∧ read_pulses (w_trace (u_k u')) = read_pulses tr0 + (read_pulses s + 1)
    else u_uapi u' = u_uapi u ∧
         ∃ s', irq_assembling (u_k u') s' ∧ read_pulses s' = read_pulses s + 1.
Proof using KO EO Hserve Hf Ht Hpl Hmax Hcap Hchunk.
  intros (d & b & Hd & Hb & Hrc & Has) Hi.
  destruct (assembling_step (size:=size) base cap _ tr0 Hserve frame_ok (u_k u) b s 0 Has Hchunk)
    as (b' & k' & s' & Es & Hpost).
  rewrite zlen_mp_frame in *.
  destruct (4 + zlen pl <=? (read_pulses s + 1) * GXFP_ESPI_CHUNK_MAX) eqn:Hlast.
  - destruct (received_queued u b' k' _ Hi Hpost) as (d' & Hd' & Hg & u' & Eu & Hq).
    exists u'. split; [|done]. rewrite (irq_thread_run u d b _ _ b' k' d') by done.
    pose proof frame_pos. rewrite (proj2 (Z.eqb_neq _ 0)) by done. exact Eu.
  - destruct Hpost as (Has' & Hp). pose proof Has' as (d' & t' & Hd' & _ & Hg & _).
    eexists. rewrite (irq_thread_run u d b _ _ b' k' d') by done. split; [reflexivity|].
    split; [done|]. eexists. split; [by apply assembling_after|].
    rewrite read_pulses_app. cbn. lia.
Qed.

Lemma first_interrupt u :
  irq_idle (u_k u) → w_trace (u_k u) = tr0 → u_inited u = true →
  ∃ u', gxfp_irq_thread u = Some (IRQ_HANDLED, u') ∧
    if 4 + zlen pl <=? GXFP_ESPI_CHUNK_MAX
    then queued u u' ∧ read_pulses (w_trace (u_k u')) = read_pulses tr0 + 1
    else u_uapi u' = u_uapi u ∧ ∃ s', irq_assembling (u_k u') s' ∧ read_pulses s' = 1.
Proof using KO EO Hserve Hf Ht Hpl Hmax Hcap Hchunk.
  intros (d & t & b & Hd & Hm & Hg & Htt & Htl & Hb & Hbl & Hrc & Ha) Hw Hi.
  destruct (first_step (size:=size) base cap _ tr0 Hserve frame_ok (u_k u) d t b 0)
    as (b' & k' & s' & Es & Hpost); try done.
  rewrite zlen_mp_frame in *. destruct (4 + zlen pl <=? GXFP_ESPI_CHUNK_MAX) eqn:Hlast.
  - destruct (received_queued u b' k' _ Hi Hpost) as (d' & Hd' & Hg' & u' & Eu & Hq).
    exists u'. split; [|done]. rewrite (irq_thread_run u d b _ _ b' k' d') by done.
    pose proof frame_pos. rewrite (proj2 (Z.eqb_neq _ 0)) by done. exact Eu.
  - destruct Hpost as (Has' & Hp). pose proof Has' as (d' & t' & Hd' & _ & Hg' & _).
    eexists. rewrite (irq_thread_run u d b _ _ b' k' d') by done. split; [reflexivity|].
    split; [done|]. eexists. split; [by apply assembling_after|].
    rewrite read_pulses_app. cbn. lia.
Qed.

Lemma windows_spec n : n < windows ↔ n * GXFP_ESPI_CHUNK_MAX < 4 + zlen pl.
Proof. unfold windows, GXFP_ESPI_CHUNK_MAX, GXFP_READ_CHUNK_MAX. zdm. Qed.

Lemma queued_same u u1 u' : u_uapi u1 = u_uapi u → queued u1 u' → queued u u'.
Proof. unfold queued, u_contents, u_fifo. by intros ->. Qed.

Lemma further_interrupts m : ∀ u s,
  irq_assembling (u_k u) s → u_inited u = true →
  1 <= read_pulses s < windows → Z.of_nat m <= windows - read_pulses s →
  ∃ u', irq_threads m u = Some ((), u') ∧
    if Z.of_nat m =? windows - read_pulses s
    then queued u u' ∧ read_pulses (w_trace (u_k u')) = read_pulses tr0 + windows
    else u_uapi u' = u_uapi u.
Proof using KO EO Hserve Hf Ht Hpl Hmax Hcap Hchunk.
  induction m as [|m IH]; intros u s Has Hi Hs Hm.
  { exists u. split; [done|]. by rewrite (proj2 (Z.eqb_neq _ _)) by lia. }
  cbn [irq_threads]. destruct (next_interrupt u s Has Hi) as (u1 & E1 & H1).
  rewrite (run_bind _ _ _ _ _ E1). pose proof (zlen_nonneg pl).
  destruct (Z.leb_spec (4 + zlen pl) ((read_pulses s + 1) * GXFP_ESPI_CHUNK_MAX)) as [Hl|Hl].
  - assert (Hw : windows = read_pulses s + 1)
      by (pose proof (windows_spec (read_pulses s + 1)); lia).
    assert (m = 0%nat) as -> by lia. exists u1. split; [done|].
    rewrite (proj2 (Z.eqb_eq _ _)) by lia. by rewrite Hw.
  - destruct H1 as (Hu & s' & Has' & Hs').
    assert (Hi' : u_inited u1 = true) by (unfold u_inited; by rewrite Hu).
    pose proof (windows_spec (read_pulses s + 1)).
    destruct (IH u1 s' Has' Hi') as (u' & E' & H'); [lia..|].
    exists u'. split; [exact E'|].
    replace (Z.of_nat (S m) =? windows - read_pulses s)
      with (Z.of_nat m =? windows - read_pulses s') by (apply eqb_shift; lia).
    destruct (_ =? _); [|by rewrite H'].
    destruct H' as (Hq & Hp). split; [by eapply queued_same|done].
Qed.

(** C1: the receive path, end to end. A sensor that shows window [k] of an MP
    frame after [k] READ_DONE pulses gets the frame into the read queue, as one
    record with its payload and header, after exactly ceil((4 + len) / 0xe00)
    runs of the interrupt thread: no earlier interrupt changes the queue, none
    fails, READ_DONE is raised once per window, and the driver is then ready for
    the next frame. Only a queue with too little space loses the frame. *)
Theorem irq_thread_delivers m u :
  irq_idle (u_k u) → w_trace (u_k u) = tr0 → u_inited u = true → Z.of_nat m <= windows →
  ∃ u', irq_threads m u = Some ((), u') ∧
    if Z.of_nat m =? windows
    then queued u u' ∧ read_pulses (w_trace (u_k u')) = read_pulses tr0 + windows
    else u_uapi u' = u_uapi u.
Proof using KO EO Hserve Hf Ht Hpl Hmax Hcap Hchunk.
  intros Hidle Hw Hi Hm. pose proof (zlen_nonneg pl).
  pose proof (windows_spec 0) as Hw0. pose proof (windows_spec 1) as Hw1.
  destruct m as [|m].
  { exists u. split; [done|]. by rewrite (proj2 (Z.eqb_neq _ _)) by lia. }
  cbn [irq_threads]. destruct (first_interrupt u Hidle Hw Hi) as (u1 & E1 & H1).
  rewrite (run_bind _ _ _ _ _ E1).
  destruct (Z.leb_spec (4 + zlen pl) GXFP_ESPI_CHUNK_MAX) as [Hl|Hl].
  - assert (Hw2 : windows = 1) by lia.
    assert (m = 0%nat) as -> by lia. exists u1. split; [done|].
    rewrite (proj2 (Z.eqb_eq _ _)) by lia. by rewrite Hw2.
  - destruct H1 as (Hu & s' & Has' & Hs').
    assert (Hi' : u_inited u1 = true) by (unfold u_inited; by rewrite Hu).
    destruct (further_interrupts m u1 s' Has' Hi') as (u' & E' & H'); [lia..|].
    exists u'. split; [exact E'|].
    replace (Z.of_nat (S m) =? windows) with (Z.of_nat m =? windows - read_pulses s')
      by (apply eqb_shift; lia).
    destruct (_ =? _); [|by rewrite H'].
    destruct H' as (Hq & Hp). split; [by eapply queued_same|done].
Qed.
End receive.

Lemma irq_thread_delivers_witness :
  ∃ u', irq_threads (E:=packet_env demo_pkt) 2 (demo_uworld []) = Some ((), u') ∧
    zlen (u_contents (KO:=list_kfifo_ok) u') = 4040.
Proof.
  destruct (irq_thread_delivers (KO:=list_kfifo_ok)
    (EO:=packet_env_ok demo_pkt (proj1 demo_pkt_ok)) 0 8192 160 (replicate 4000 7) []
    (packet_env_serves demo_pkt)) with (m := 2%nat) (u := demo_uworld []) as (u' & E & H).
  - unfold is_u8; lia.
  - vm_compute; tauto.
  - apply Forall_replicate. unfold is_u8; lia.
  - vm_compute. reflexivity.
  - vm_compute. discriminate.
  - vm_compute. discriminate.
  - exists demo_dev, (zeros 3584), (zeros 8192). split_and!; try reflexivity. exact demo_mapped.
  - reflexivity.
  - reflexivity.
  - vm_compute. discriminate.
  - exists u'. split; [exact E|].
    assert (Hw : (Z.of_nat 2 =? windows (replicate 4000 7)) = true) by (vm_compute; reflexivity).
    rewrite Hw in H. destruct H as ((_ & _ & _ & ts & Hc) & _).
    assert (Hfit : (TAP_HDR_SIZE + zlen (replicate 4000 7) <=?
              fifo_size (u_fifo (demo_uworld [])) - zlen (u_contents (KO:=list_kfifo_ok) (demo_uworld []))) = true)
      by (vm_compute; reflexivity).
    rewrite Hfit in Hc. rewrite Hc. change (u_contents (demo_uworld [])) with (@nil Z).
    cbn [app]. rewrite zlen_rec by (apply hdr_of_ok; vm_compute; reflexivity).
    vm_compute. reflexivity.
Defined.
