(* ===== verification/KTrace.v ===== *)
(** The trace ring of the driver, [kernel/driver/gxfp_trace.c]: log lines kept in
    a ring of 1024 slots, printed oldest first by the debugfs file.

    A line is the text the C array holds up to its terminator. The message is
    the formatted text [vscnprintf] would produce from the format and its
    arguments; debugfs itself is not modelled. *)
From Stdlib Require Import ZArith Lia.
From stdpp Require Import prelude list.
From S2P Require Import Prelude.

Open Scope Z_scope.

Definition GXFP_TRACE_RING_SIZE : Z := 1024.
Definition GXFP_TRACE_LINE_MAX : Z := 192.
Definition GXFP_TRACE_DEFAULT_ENABLE : bool := false.

Record gxfp_trace := {
  tr_inited : bool;
  tr_enabled : bool;
  tr_seq : Z;
  tr_head : Z;
  tr_count : Z;
  tr_lines : list bytes;
  tr_dir : bool
}.

Definition set_ring (head count : Z) (lines : list bytes) (t : gxfp_trace) : gxfp_trace :=
  {| tr_inited := tr_inited t; tr_enabled := tr_enabled t; tr_seq := tr_seq t;
     tr_head := head; tr_count := count; tr_lines := lines; tr_dir := tr_dir t |}.
Definition set_tr_seq (s : Z) (t : gxfp_trace) : gxfp_trace :=
  {| tr_inited := tr_inited t; tr_enabled := tr_enabled t; tr_seq := s;
     tr_head := tr_head t; tr_count := tr_count t; tr_lines := tr_lines t; tr_dir := tr_dir t |}.

(** [strscpy (dst, src, size)] and [scnprintf (dst, size, ...)]: at most
    [size - 1] characters, then a terminator. *)
Definition strscpy (src : bytes) (size : Z) : bytes := ztake (size - 1) src.

(** [%u], [%llu]: decimal digits. [fuel] bounds the number of digits. *)
Fixpoint decimal (fuel : nat) (n : Z) : bytes :=
  match fuel with
  | O => []
  | S fuel => (if n / 10 =? 0 then [] else decimal fuel (n / 10)) ++ [48 + n mod 10]
  end.
Definition dec64 (n : Z) : bytes := decimal 20 n.

Definition get_line (lines : list bytes) (i : Z) : option bytes :=
  if 0 <=? i then lines !! Z.to_nat i else None.
Definition set_line (lines : list bytes) (i : Z) (l : bytes) : option (list bytes) :=
  _ ← get_line lines i; Some (<[Z.to_nat i := l]> lines).

Definition gxfp_trace_push_locked (line : ptr bytes) : M gxfp_trace () :=
  match line with
  | None => mret ()
  | Some line =>
    t ← getw;
    let idx := tr_head t in
    lines ← lift (set_line (tr_lines t) idx (strscpy line GXFP_TRACE_LINE_MAX));
    let head := u32 (idx + 1) mod GXFP_TRACE_RING_SIZE in
    let count := if tr_count t <? GXFP_TRACE_RING_SIZE then u32 (tr_count t + 1) else tr_count t in
    modw (set_ring head count lines)
  end.

(** The line a message becomes: [msg] is cut to the buffer [char msg[128]]. *)
Definition trace_line (seq ts : Z) (msg : bytes) : bytes :=
  strscpy (dec64 seq ++ [32] ++ dec64 ts ++ [32] ++ strscpy msg 128) GXFP_TRACE_LINE_MAX.

Definition gxfp_trace_logf (msg : ptr bytes) (ts : Z) : M gxfp_trace () :=
  t ← getw;
  match msg with
  | None => mret ()
  | Some msg =>
    if negb (tr_inited t) || negb (tr_enabled t) then mret () else
    let seq := u32 (tr_seq t + 1) in
    modw (set_tr_seq seq);;
    gxfp_trace_push_locked (Some (trace_line seq (u64 ts) msg))
  end.

Definition gxfp_trace_clear : M gxfp_trace () :=
  modw (λ t, set_ring 0 0 (tr_lines t) t).

(** The lines printed: the state line, the legend, the snapshot. The state line
    and the legend are given by their numbers. *)
Inductive trace_out :=
| OutState (enabled : bool) (ring_size count : Z)
| OutLegend
| OutLine (l : bytes).

(** [snapshot] is the array kcalloc returns, or NULL. *)
Definition gxfp_trace_dump_show (snapshot : ptr (list bytes)) : M gxfp_trace (Z * list trace_out) :=
  match snapshot with
  | None => mret (- ENOMEM, [])
  | Some snapshot =>
    t ← getw;
    let count := tr_count t in
    let start := u32 (tr_head t + GXFP_TRACE_RING_SIZE - count) mod GXFP_TRACE_RING_SIZE in
    snapshot ← forN (Z.to_nat count) 0 (λ i snapshot,
      let idx := u32 (start + i) mod GXFP_TRACE_RING_SIZE in
      l ← lift (get_line (tr_lines t) idx);
      lift (set_line snapshot i (strscpy l GXFP_TRACE_LINE_MAX))) snapshot;
    out ← forN (Z.to_nat count) 0 (λ i out,
      l ← lift (get_line snapshot i);
      mret (out ++ [OutLine l])) [];
    mret (0, OutState (tr_enabled t) GXFP_TRACE_RING_SIZE count :: OutLegend :: out)
  end.

Definition gxfp_trace_clear_write (count : Z) : M gxfp_trace Z :=
  gxfp_trace_clear;;
  mret count.

(** [dir]: debugfs_create_dir succeeded. *)
Definition gxfp_trace_init (dir : bool) : M gxfp_trace Z :=
  t ← getw;
  if tr_inited t then mret 0 else
  modw (λ _, {| tr_inited := true; tr_enabled := GXFP_TRACE_DEFAULT_ENABLE; tr_seq := 0;
                tr_head := 0; tr_count := 0;
                tr_lines := replicate (Z.to_nat GXFP_TRACE_RING_SIZE) []; tr_dir := dir |});;
  mret 0.

Definition gxfp_trace_exit : M gxfp_trace () :=
  t ← getw;
  if negb (tr_inited t) then mret () else
  modw (λ t, {| tr_inited := false; tr_enabled := tr_enabled t; tr_seq := tr_seq t;
                tr_head := tr_head t; tr_count := tr_count t; tr_lines := tr_lines t;
                tr_dir := false |}).

(** * The ring is the list of the last lines *)

Definition ring (h c : Z) (i : Z) : nat :=
  Z.to_nat ((h + GXFP_TRACE_RING_SIZE - c + i) mod GXFP_TRACE_RING_SIZE).

(** [t] holds the lines [l], oldest first. *)
Definition trace_inv (t : gxfp_trace) (l : list bytes) : Prop :=
  zlen (tr_lines t) = GXFP_TRACE_RING_SIZE ∧ 0 <= tr_head t < GXFP_TRACE_RING_SIZE ∧
  tr_count t = zlen l ∧ zlen l <= GXFP_TRACE_RING_SIZE ∧
  Forall (λ x, zlen x < GXFP_TRACE_LINE_MAX) l ∧
  ∀ i, 0 <= i < zlen l → tr_lines t !! ring (tr_head t) (zlen l) i = l !! Z.to_nat i.

(** The last [n] elements. *)
Definition last_n {A} (n : Z) (l : list A) : list A := drop (Z.to_nat (zlen l - n)) l.

Lemma get_line_lookup lines i : 0 <= i → get_line lines i = lines !! Z.to_nat i.
Proof. intros. unfold get_line. by rewrite (proj2 (Z.leb_le 0 i)). Qed.

Lemma set_line_run (lines : list bytes) i l :
  0 <= i < zlen lines → set_line lines i l = Some (<[Z.to_nat i := l]> lines).
Proof.
  intros Hi. unfold set_line. rewrite get_line_lookup by lia.
  destruct (lookup_lt_is_Some_2 lines (Z.to_nat i)) as (x & ->); [unfold zlen in *; lia|done].
Qed.

Lemma strscpy_short l n : zlen l < n → strscpy l n = l.
Proof. intros. unfold strscpy, ztake, zlen in *. apply take_ge. lia. Qed.

Lemma zlen_strscpy l n : 0 < n → zlen (strscpy l n) < n.
Proof. intros. unfold strscpy, ztake, zlen. rewrite length_take. lia. Qed.

Lemma zlen_last_n {A} n (l : list A) : 0 <= n → zlen (last_n n l) = n `min` zlen l.
Proof. intros. unfold zlen, last_n. rewrite length_drop. unfold zlen. lia. Qed.

Lemma last_n_short {A} n (l : list A) : zlen l <= n → last_n n l = l.
Proof. intros. unfold last_n. by replace (Z.to_nat (zlen l - n)) with 0%nat by lia. Qed.

Lemma u32_succ h : 0 <= h < GXFP_TRACE_RING_SIZE → u32 (h + 1) = h + 1.
Proof. unfold GXFP_TRACE_RING_SIZE. intros. zint. Qed.

Section slots.
Context (h c i j : Z).
Context (Hh : 0 <= h < 1024) (Hc : 0 <= c <= 1024).
Context (Hi : 0 <= i) (Hj : j = i + (c + 1 - 1024 `min` (c + 1))).

Lemma ring_last : j = c → ring ((h + 1) mod 1024) (1024 `min` (c + 1)) i = Z.to_nat h.
Proof using Hh Hc Hi Hj. intros. unfold ring, GXFP_TRACE_RING_SIZE. f_equal. zdm. Qed.

Lemma ring_next :
  j < c → ring ((h + 1) mod 1024) (1024 `min` (c + 1)) i = ring h c j.
Proof using Hh Hc Hi Hj. intros. unfold ring, GXFP_TRACE_RING_SIZE. f_equal. zdm. Qed.

Lemma ring_free : j < c → Z.to_nat h ≠ ring h c j.
Proof using Hh Hc Hi Hj. intros. unfold ring, GXFP_TRACE_RING_SIZE. zdm. Qed.
End slots.

(** Logging appends a line and forgets the oldest one of a full ring. *)
Lemma push_locked_inv t l line :
  trace_inv t l →
  ∃ t', gxfp_trace_push_locked (Some line) t = Some ((), t') ∧
    trace_inv t' (last_n GXFP_TRACE_RING_SIZE (l ++ [strscpy line GXFP_TRACE_LINE_MAX])) ∧
    tr_inited t' = tr_inited t ∧ tr_enabled t' = tr_enabled t ∧ tr_seq t' = tr_seq t.
Proof.
  intros (Hl & Hh & Hc & Hmax & Hshort & Hring). unfold gxfp_trace_push_locked.
  rewrite bind_getw, set_line_run by lia. rewrite bind_lift. eexists. split; [reflexivity|].
  split; [|done]. pose proof (zlen_nonneg l).
  set (x := strscpy line GXFP_TRACE_LINE_MAX) in *.
  assert (Hx : zlen x < GXFP_TRACE_LINE_MAX) by (by apply zlen_strscpy).
  unfold GXFP_TRACE_RING_SIZE in *.
  assert (Hlast : zlen (last_n 1024 (l ++ [x])) = 1024 `min` (zlen l + 1))
    by (rewrite zlen_last_n, zlen_app by lia; done).
  split_and!; cbn [tr_lines tr_head tr_count set_ring].
  - by rewrite zlen_insert.
  - unfold GXFP_TRACE_RING_SIZE. zint.
  - unfold GXFP_TRACE_RING_SIZE. zint.
  - unfold GXFP_TRACE_RING_SIZE. rewrite Hlast, Hc.
    destruct (Z.ltb_spec (zlen l) 1024); [|lia]. unfold u32. rewrite Z.mod_small; lia.
  - unfold GXFP_TRACE_RING_SIZE in *. lia.
  - apply Forall_drop, Forall_app. auto.
  - intros i Hi. rewrite Hlast in Hi |- *.
    rewrite u32_succ by (unfold GXFP_TRACE_RING_SIZE; lia). set (c' := 1024 `min` (zlen l + 1)) in *.
    unfold last_n. rewrite lookup_drop, zlen_app. change (zlen [x]) with 1.
    replace (Z.to_nat (zlen l + 1 - 1024) + Z.to_nat i)%nat
      with (Z.to_nat (i + (zlen l + 1 - c'))) by lia.
    set (j := i + (zlen l + 1 - c')) in *.
    destruct (Z.eq_dec j (zlen l)) as [Hj|Hj].
    + unfold c'. rewrite (ring_last (tr_head t) (zlen l) i j) by lia. rewrite list_lookup_insert_eq by (unfold zlen in *; lia).
      rewrite Hj. rewrite lookup_app_r by (unfold zlen in *; lia).
      by replace (Z.to_nat (zlen l) - length l)%nat with 0%nat by (unfold zlen in *; lia).
    + unfold c'. rewrite (ring_next (tr_head t) (zlen l) i j) by lia.
      rewrite list_lookup_insert_ne by (apply (ring_free (tr_head t) (zlen l) i j); lia).
      rewrite Hring by lia. rewrite lookup_app_l by (unfold zlen in *; lia). done.
Qed.

Lemma logf_inv t l msg ts :
  trace_inv t l →
  ∃ t', gxfp_trace_logf (Some msg) ts t = Some ((), t') ∧
    tr_inited t' = tr_inited t ∧ tr_enabled t' = tr_enabled t ∧
    if tr_inited t && tr_enabled t
    then tr_seq t' = u32 (tr_seq t + 1) ∧
      trace_inv t' (last_n GXFP_TRACE_RING_SIZE
                      (l ++ [trace_line (u32 (tr_seq t + 1)) (u64 ts) msg]))
    else t' = t.
Proof.
  intros Hinv. unfold gxfp_trace_logf. rewrite bind_getw.
  destruct (tr_inited t) eqn:Hi, (tr_enabled t) eqn:He; cbn [negb orb andb];
    try (eexists; split; [reflexivity|]; by rewrite Hi, He).
  erewrite run_bind by reflexivity.
  destruct (push_locked_inv (set_tr_seq (u32 (tr_seq t + 1)) t) l
    (trace_line (u32 (tr_seq t + 1)) (u64 ts) msg) Hinv) as (t' & E & Hinv' & Hi' & He' & Hs').
  exists t'. split; [exact E|]. cbn in Hi', He', Hs'. rewrite Hi', He', Hs'.
  split; [done|]. split; [done|]. split; [done|].
  unfold trace_line in Hinv' |- *. rewrite (strscpy_short (strscpy _ _)) in Hinv'; [done|].
  by apply zlen_strscpy.
Qed.

(** ** Printing the ring *)

Lemma dump_copy t l n k snapshot start :
  start = u32 (tr_head t + GXFP_TRACE_RING_SIZE - zlen l) mod GXFP_TRACE_RING_SIZE →
  trace_inv t l → 0 <= k → k + Z.of_nat n = zlen l → zlen snapshot = GXFP_TRACE_RING_SIZE →
  take (Z.to_nat k) snapshot = take (Z.to_nat k) l →
  ∃ snapshot', forN n k (λ i snapshot,
      let idx := u32 (start + i) mod GXFP_TRACE_RING_SIZE in
      l ← lift (get_line (tr_lines t) idx);
      lift (set_line snapshot i (strscpy l GXFP_TRACE_LINE_MAX))) snapshot t
    = Some (snapshot', t) ∧
    zlen snapshot' = GXFP_TRACE_RING_SIZE ∧ take (length l) snapshot' = l.
Proof.
  intros Hst Hinv. revert k snapshot. pose proof Hinv as (Hl & Hh & Hc & Hmax & Hshort & Hring).
  unfold GXFP_TRACE_RING_SIZE in *.
  induction n as [|n IH]; intros k snapshot Hk Hn Hsn Hpre; cbn [forN].
  - exists snapshot. split_and!; [done|done|]. replace (length l) with (Z.to_nat k) by (unfold zlen in *; lia).
    rewrite Hpre. apply take_ge. unfold zlen in *; lia.
  - assert (Hidx : u32 (start + k) mod 1024 = Z.of_nat (ring (tr_head t) (zlen l) k)).
    { rewrite Hst. unfold ring, GXFP_TRACE_RING_SIZE. rewrite Z2Nat.id by zdm. zint. }
    destruct (lookup_lt_is_Some_2 l (Z.to_nat k)) as (x & Hx); [unfold zlen in *; lia|].
    assert (Hxs : zlen x < GXFP_TRACE_LINE_MAX) by (by apply (Forall_lookup_1 _ _ _ _ Hshort Hx)).
    rewrite bind_assoc. cbv zeta. rewrite Hidx, get_line_lookup, Nat2Z.id, Hring, Hx, bind_lift by lia.
    rewrite set_line_run, bind_lift, strscpy_short by (done || lia).
    apply IH; [lia|lia|by rewrite zlen_insert|].
    replace (Z.to_nat (k + 1)) with (S (Z.to_nat k)) by lia.
    rewrite (take_S_r l _ x) by done.
    rewrite (take_S_r _ _ x) by (rewrite list_lookup_insert_eq; [done|unfold zlen in *; lia]).
    by rewrite take_insert_ge, Hpre by lia.
Qed.

Lemma dump_print n k (snapshot : list bytes) out (t : gxfp_trace) :
  0 <= k → k + Z.of_nat n <= zlen snapshot →
  forN (F:=M gxfp_trace) n k
    (λ i out, l ← lift (get_line snapshot i); mret (out ++ [OutLine l])) out t
  = Some (out ++ (OutLine <$> take n (drop (Z.to_nat k) snapshot)), t).
Proof.
  revert k out. induction n as [|n IH]; intros k out Hk Hn; cbn [forN].
  - cbn. by rewrite app_nil_r.
  - destruct (lookup_lt_is_Some_2 snapshot (Z.to_nat k)) as (x & Hx); [unfold zlen in *; lia|].
    rewrite get_line_lookup, Hx, bind_assoc, bind_lift, bind_ret, IH by lia.
    rewrite (drop_S snapshot x (Z.to_nat k)) by done.
    replace (Z.to_nat (k + 1)) with (S (Z.to_nat k)) by lia. cbn [take fmap list_fmap].
    by rewrite <- app_assoc.
Qed.

Lemma dump_run t l snapshot :
  trace_inv t l → zlen snapshot = GXFP_TRACE_RING_SIZE →
  gxfp_trace_dump_show (Some snapshot) t
  = Some ((0, OutState (tr_enabled t) GXFP_TRACE_RING_SIZE (zlen l) :: OutLegend :: (OutLine <$> l)), t).
Proof.
  intros Hinv Hsn. unfold gxfp_trace_dump_show. rewrite bind_getw.
  pose proof Hinv as (Hl & Hh & Hc & Hmax & _). rewrite Hc.
  destruct (dump_copy t l (Z.to_nat (zlen l)) 0 snapshot _ eq_refl Hinv) as (sn & E & Hsl & Hpre);
    [lia|pose proof (zlen_nonneg l); lia|done|done|].
  cbv zeta in E |- *. rewrite (run_bind _ _ _ _ _ E).
  rewrite (run_bind _ _ _ _ _ (dump_print (Z.to_nat (zlen l)) 0 sn [] t ltac:(lia) ltac:(lia))). cbn [app].
  change (drop (Z.to_nat 0) sn) with sn. replace (Z.to_nat (zlen l)) with (length l) by (unfold zlen; lia). by rewrite Hpre.
Qed.

(** ** Logging many lines *)

Fixpoint log_all (msgs : list (bytes * Z)) : M gxfp_trace () :=
  match msgs with
  | [] => mret ()
  | (msg, ts) :: msgs => gxfp_trace_logf (Some msg) ts;; log_all msgs
  end.

Fixpoint trace_lines (seq : Z) (msgs : list (bytes * Z)) : list bytes :=
  match msgs with
  | [] => []
  | (msg, ts) :: msgs =>
    trace_line (u32 (seq + 1)) (u64 ts) msg :: trace_lines (u32 (seq + 1)) msgs
  end.

Lemma last_n_app {A} n (a b : list A) : 0 <= n → last_n n (last_n n a ++ b) = last_n n (a ++ b).
Proof.
  intros Hn. unfold last_n at 2. rewrite <- drop_app_le by (unfold zlen; lia).
  unfold last_n. rewrite drop_drop. f_equal. unfold zlen. rewrite length_drop, length_app. lia.
Qed.

Lemma log_all_inv msgs : ∀ t l,
  trace_inv t l → tr_inited t = true → tr_enabled t = true →
  ∃ t', log_all msgs t = Some ((), t') ∧ tr_inited t' = true ∧ tr_enabled t' = true ∧
    trace_inv t' (last_n GXFP_TRACE_RING_SIZE (l ++ trace_lines (tr_seq t) msgs)).
Proof.
  induction msgs as [|[msg ts] msgs IH]; intros t l Hinv Hi He; cbn [log_all trace_lines].
  - exists t. rewrite app_nil_r, last_n_short by apply Hinv. done.
  - destruct (logf_inv t l msg ts Hinv) as (t1 & E1 & Hi1 & He1 & H1).
    rewrite Hi, He in *. destruct H1 as (Hs & Hinv1). rewrite (run_bind _ _ _ _ _ E1).
    destruct (IH t1 _ Hinv1 Hi1 He1) as (t' & E' & Hi' & He' & Hinv').
    exists t'. split_and!; try done.
    rewrite last_n_app, <- app_assoc, Hs in Hinv' by (unfold GXFP_TRACE_RING_SIZE; lia). done.
Qed.

(** C18: the trace file. Reading it after any number of messages prints the last
    1024 lines logged, oldest first, each with its sequence number, time and text
    cut to the line buffer, and their number; the ring's indices never leave the
    array. Logging while the trace is off changes nothing, and clearing empties it. *)
Theorem trace_dump_last msgs t l snapshot :
  trace_inv t l → zlen snapshot = GXFP_TRACE_RING_SIZE → tr_inited t = true →
  let shown t' k := gxfp_trace_dump_show (Some snapshot) t'
    = Some ((0, OutState (tr_enabled t) GXFP_TRACE_RING_SIZE (zlen k) :: OutLegend ::
                (OutLine <$> k)), t') in
  (∃ t', log_all msgs t = Some ((), t') ∧
     if tr_enabled t
     then shown t' (last_n GXFP_TRACE_RING_SIZE (l ++ trace_lines (tr_seq t) msgs))
     else t' = t ∧ shown t l) ∧
  (∃ t', gxfp_trace_clear t = Some ((), t') ∧ shown t' []).
Proof.
  intros Hinv Hsn Hi shown. split.
  - destruct (tr_enabled t) eqn:He.
    + destruct (log_all_inv msgs t l Hinv Hi He) as (t' & E & Hi' & He' & Hinv').
      exists t'. split; [done|]. unfold shown. rewrite <- He'. by apply dump_run.
    + exists t. split; [|split; [done|unfold shown; rewrite <- He; by apply dump_run]]. clear Hinv shown.
      induction msgs as [|[msg ts] msgs IH]; [done|]. cbn [log_all].
      erewrite run_bind; [exact IH|]. unfold gxfp_trace_logf. rewrite bind_getw, Hi, He. done.
  - eexists. split; [reflexivity|]. unfold shown.
    apply (dump_run (set_ring 0 0 (tr_lines t) t)); [|done].
    destruct Hinv as (Hl & _). split_and!; try done. by intros i [? ?%Z.le_ngt].
Qed.

Lemma init_inv dir t :
  tr_inited t = false → ∃ t', gxfp_trace_init dir t = Some (0, t') ∧ trace_inv t' [] ∧
    tr_inited t' = true ∧ tr_enabled t' = false.
Proof.
  intros Hi. unfold gxfp_trace_init. rewrite bind_getw, Hi. eexists. split; [reflexivity|].
  split; [|done]. split_and!; try done. by intros i [? ?%Z.le_ngt].
Qed.

(** The ring after initialisation, switched on through debugfs. *)
Definition demo_trace : gxfp_trace :=
  {| tr_inited := true; tr_enabled := true; tr_seq := 0; tr_head := 0; tr_count := 0;
     tr_lines := replicate 1024 []; tr_dir := true |}.

Lemma trace_dump_last_witness :
  ∃ t', log_all [([104; 105], 7); ([111; 107], 25)] demo_trace = Some ((), t') ∧
    gxfp_trace_dump_show (Some (replicate 1024 [])) t'
    = Some ((0, [OutState true 1024 2; OutLegend; OutLine [49; 32; 55; 32; 104; 105];
                 OutLine [50; 32; 50; 53; 32; 111; 107]]), t').
Proof.
  destruct (trace_dump_last [([104; 105], 7); ([111; 107], 25)] demo_trace []
    (replicate 1024 [])) as ((t' & E & H) & _).
  - split_and!; try done. intros i [Hi1 Hi2]. exfalso. apply (Z.lt_irrefl 0). by apply (Z.le_lt_trans _ i).
  - reflexivity.
  - reflexivity.
  - exists t'. split; [exact E|]. exact H.
Defined.
