(* ===== verification/KProbe.v ===== *)
(** Bringing the device up and down: [kernel/hw/gxfp_acpi.c],
    [kernel/driver/gxfp_platform.c] and [kernel/gxfp_main.c].

    The answers of the platform (the ACPI resources, the memory window, the GPIO
    descriptors, the interrupt, misc_register) are the class [Platform]. The
    state is that of the device, the trace ring, the GPIO mapping the driver has
    installed, and the list of what it asked of the interrupt controller. What
    the driver core does after a failed probe (devm frees) is not modelled. *)
From Stdlib Require Import ZArith Lia.
From stdpp Require Import prelude list.
From S2P Require Import Prelude KWorld KEspi KTransport KCmd KUapi KTrace KIrq.

Open Scope Z_scope.

(** * gxfp_acpi.c *)

Definition ACPI_RESOURCE_GPIO_TYPE_INT : Z := 0.
Definition ACPI_RESOURCE_GPIO_TYPE_IO : Z := 1.

Record acpi_resource_gpio := {
  pin_table : list Z;
  connection_type : Z;
  polarity : Z
}.

(** The resources of a _CRS: GPIOs, and the others. *)
Inductive acpi_resource :=
| AcpiGpio (g : acpi_resource_gpio)
| AcpiOther.

Record gxfp_acpi_res_state := {
  gpio_seen : Z;
  gpio_io_seen : Z;
  gpio_io_pin : list Z;
  gpio_io_pol : list Z;
  gpio_io_crs_index : list Z;
  gpio_int_seen : Z;
  gpio_int_crs_index : Z
}.

Definition set_seen (n : Z) (st : gxfp_acpi_res_state) : gxfp_acpi_res_state :=
  {| gpio_seen := n; gpio_io_seen := gpio_io_seen st; gpio_io_pin := gpio_io_pin st;
     gpio_io_pol := gpio_io_pol st; gpio_io_crs_index := gpio_io_crs_index st;
     gpio_int_seen := gpio_int_seen st; gpio_int_crs_index := gpio_int_crs_index st |}.
Definition set_int (n i : Z) (st : gxfp_acpi_res_state) : gxfp_acpi_res_state :=
  {| gpio_seen := gpio_seen st; gpio_io_seen := gpio_io_seen st; gpio_io_pin := gpio_io_pin st;
     gpio_io_pol := gpio_io_pol st; gpio_io_crs_index := gpio_io_crs_index st;
     gpio_int_seen := n; gpio_int_crs_index := i |}.
Definition set_io (n : Z) (pin pol idx : list Z) (st : gxfp_acpi_res_state) : gxfp_acpi_res_state :=
  {| gpio_seen := gpio_seen st; gpio_io_seen := n; gpio_io_pin := pin;
     gpio_io_pol := pol; gpio_io_crs_index := idx;
     gpio_int_seen := gpio_int_seen st; gpio_int_crs_index := gpio_int_crs_index st |}.

(** Called for each resource; the context and its device are not NULL. *)
Definition gxfp_acpi_res_cb (ares : acpi_resource) (st : gxfp_acpi_res_state)
    : option (Z * gxfp_acpi_res_state) :=
  match ares with
  | AcpiGpio g =>
    let st := set_seen (gpio_seen st + 1) st in
    if zlen (pin_table g) <? 1 then Some (0, st) else
    pin0 ← rd (pin_table g) 0;
    if connection_type g =? ACPI_RESOURCE_GPIO_TYPE_INT then
      let n := gpio_int_seen st + 1 in
      Some (0, set_int n (if n =? 1 then gpio_seen st - 1 else gpio_int_crs_index st) st)
    else if connection_type g =? ACPI_RESOURCE_GPIO_TYPE_IO then
      if gpio_io_seen st <? 2 then
        pin ← wr (gpio_io_pin st) (gpio_io_seen st) pin0;
        pol ← wr (gpio_io_pol st) (gpio_io_seen st) (polarity g);
        idx ← wr (gpio_io_crs_index st) (gpio_io_seen st) (gpio_seen st - 1);
        Some (0, set_io (gpio_io_seen st + 1) pin pol idx st)
      else Some (0, st)
    else Some (0, st)
  | AcpiOther => Some (0, st)
  end.

(** [acpi_dev_get_resources] calls the callback on each resource until it
    returns a negative value. *)
Fixpoint acpi_walk_resources (l : list acpi_resource) (st : gxfp_acpi_res_state)
    : option gxfp_acpi_res_state :=
  match l with
  | [] => Some st
  | r :: l => '(ret, st) ← gxfp_acpi_res_cb r st;
              if ret <? 0 then Some st else acpi_walk_resources l st
  end.

(** * The platform *)

Inductive gpio_name := WriteDone | ReadDone | Irq.

#[export] Instance gpio_name_eq_dec : EqDecision gpio_name.
Proof. solve_decision. Defined.

(** One line of the mapping installed with devm_acpi_dev_add_driver_gpios. *)
Record gpio_param := { gp_name : gpio_name; crs_entry_index : Z; active_low : bool }.

Inductive pevent :=
| PSetType (irq type : Z)
| PRequest (irq flags : Z)
| PEnable (irq : Z)
| PDisable (irq : Z)
| PSync (irq : Z).

(** An error pointer is [inl] of the error. *)
Class Platform := {
  acpi_companion : bool;
  acpi_crs : list acpi_resource;
  acpi_crs_rc : Z;
  acpi_device_hid : ptr bytes;
  plat_mem_size : option Z;
  plat_ioremap : Z + Z;
  plat_gpiod_get : option (list gpio_param) → gpio_name → Z + bool;
  plat_add_gpios : list gpio_param → Z;
  plat_gpiod_to_irq : Z;
  plat_trigger_type : list pevent → Z;
  plat_request_irq : Z;
  plat_misc_register : Z;
  plat_debugfs : bool
}.

(** Error pointers hold negative error numbers, and calls that fail return them. *)
Class PlatformOk (P : Platform) := {
  ioremap_err : ∀ e, plat_ioremap = inl e → e < 0;
  gpiod_err : ∀ m n e, plat_gpiod_get m n = inl e → e < 0
}.

Record dworld {K : Kfifo} := {
  d_u : uworld;
  d_trace : gxfp_trace;
  d_map : option (list gpio_param);
  d_ev : list pevent
}.
Arguments dworld : clear implicits.
Arguments dworld {K}.

Section platform.
Context {K : Kfifo} {E : Kenv} {P : Platform}.

Definition in_u {A} (m : M uworld A) : M dworld A :=
  zoom d_u (λ u d, {| d_u := u; d_trace := d_trace d; d_map := d_map d; d_ev := d_ev d |}) m.
Definition in_k {A} (m : M kworld A) : M dworld A := in_u (in_kernel m).
Definition in_t {A} (m : M gxfp_trace A) : M dworld A :=
  zoom d_trace (λ t d, {| d_u := d_u d; d_trace := t; d_map := d_map d; d_ev := d_ev d |}) m.
Definition pemit (e : pevent) : M dworld () := modw (λ d,
  {| d_u := d_u d; d_trace := d_trace d; d_map := d_map d; d_ev := d_ev d ++ [e] |}).
Definition set_drvdata (g : gxfp_dev) : M dworld () := in_k (modw (λ k,
  {| w_dev := Some g; w_trace := w_trace k; w_oom := w_oom k |})).

Definition acpi_state0 : gxfp_acpi_res_state :=
  {| gpio_seen := 0; gpio_io_seen := 0; gpio_io_pin := [0; 0]; gpio_io_pol := [0; 0];
     gpio_io_crs_index := [-1; -1]; gpio_int_seen := 0; gpio_int_crs_index := -1 |}.

(** The three out parameters are NULL or not together at every call. *)
Definition gxfp_acpi_get_gpio_crs_indexes (dev : bool) (out : ptr (Z * list Z * bool))
    : option (Z * ptr (Z * list Z * bool)) :=
  if negb dev || bool_decide (out = None) then Some (- EINVAL, out) else
  if negb acpi_companion then Some (- ENODEV, out) else
  st ← acpi_walk_resources acpi_crs acpi_state0;
  if acpi_crs_rc <=? 0 then Some (- ENOENT, out) else
  if (gpio_int_seen st <? 1) || (gpio_int_crs_index st <? 0) then Some (- ENOENT, out) else
  i0 ← rd (gpio_io_crs_index st) 0;
  i1 ← rd (gpio_io_crs_index st) 1;
  if (gpio_io_seen st <? 2) || (i0 <? 0) || (i1 <? 0) then Some (- ENOENT, out) else
  pol0 ← rd (gpio_io_pol st) 0;
  pol1 ← rd (gpio_io_pol st) 1;
  let p0 := negb (pol0 =? 0) in
  let p1 := negb (pol1 =? 0) in
  if negb (Bool.eqb p0 p1) then Some (- EINVAL, out) else
  Some (0, setp out (gpio_int_crs_index st, [i0; i1], p0)).

(** [strlen]: undefined without a terminator. *)
Fixpoint strlen (b : bytes) : option Z :=
  match b with
  | [] => None
  | c :: b => if c =? 0 then Some 0 else n ← strlen b; Some (n + 1)
  end.

Definition gxfp_acpi_get_hid (dev : bool) (buf : ptr bytes) (bufsz : Z)
    : option (Z * ptr bytes) :=
  match buf with
  | None => Some (- EINVAL, buf)
  | Some b =>
    if negb dev || (bufsz <? 2) then Some (- EINVAL, buf) else
    if negb acpi_companion then Some (- ENODEV, buf) else
    match acpi_device_hid with
    | None => Some (- ENOENT, buf)
    | Some hid =>
      h0 ← rd hid 0;
      if h0 =? 0 then Some (- ENOENT, buf) else
      len ← strlen hid;
      if bufsz <=? len then Some (- ENOSPC, buf) else
      b ← memcpy b 0 hid 0 (len + 1);
      Some (0, Some b)
    end
  end.

(** The sysfs attribute: [sysfs_emit (page, ...)] gives the text. *)
Definition acpi_id_show (m : bool) : M dworld (Z * bytes) :=
  hid ← in_k (stack_array 16);
  if negb m then mret (- ENODEV, []) else
  n ← in_k gdev_null;
  if (n : bool) then mret (- ENODEV, []) else
  '(rc, hid) ← lift (gxfp_acpi_get_hid true (Some hid) 16);
  if negb (rc =? 0) then mret (1, [10]) else
  hid ← lift hid;
  len ← lift (strlen hid);
  mret (len + 1, ztake len hid ++ [10]).

(** * gxfp_platform.c *)

Definition GXFP_IRQ_RX_CAP : Z := 131072.
Definition IRQ_TYPE_NONE : Z := 0.
Definition IRQ_TYPE_LEVEL_HIGH : Z := 4.
Definition IRQF_ONESHOT : Z := 8192.
Definition IRQF_NO_AUTOEN : Z := 524288.

Definition gxfp_platform_add_acpi_driver_gpios : M dworld Z :=
  n ← in_k gdev_null;
  if (n : bool) then mret (- EINVAL) else
  '(rc, out) ← lift (gxfp_acpi_get_gpio_crs_indexes true (Some (0, [0; 0], false)));
  if negb (rc =? 0) then mret rc else
  params ← in_k (kmalloc 0);
  map ← in_k (kmalloc 0);
  if bool_decide (params = None) || bool_decide (map = None) then mret (- ENOMEM) else
  '(irq_idx, done_idx, done_active_low) ← lift out;
  d0 ← lift (rd done_idx 0);
  d1 ← lift (rd done_idx 1);
  let map := [{| gp_name := Irq; crs_entry_index := u32 irq_idx; active_low := false |};
              {| gp_name := WriteDone; crs_entry_index := u32 d0; active_low := done_active_low |};
              {| gp_name := ReadDone; crs_entry_index := u32 d1; active_low := done_active_low |}] in
  let rc := plat_add_gpios map in
  if negb (rc =? 0) then mret rc else
  modw (λ d, {| d_u := d_u d; d_trace := d_trace d; d_map := Some map; d_ev := d_ev d |});;
  mret 0.

Definition devm_gpiod_get (name : gpio_name) : M dworld (Z + bool) :=
  gets (λ d, plat_gpiod_get (d_map d) name).

(** Get a descriptor; when it is missing and no mapping was added yet, add the
    mapping and try again. *)
Definition get_or_map (added : bool) (name : gpio_name) : M dworld (bool * (Z + bool)) :=
  d ← devm_gpiod_get name;
  if negb added && bool_decide (d = inl (- ENOENT)) then
    gxfp_platform_add_acpi_driver_gpios;;
    d ← devm_gpiod_get name;
    mret (true, d)
  else mret (added, d).

Definition set_hw (h : gxfp_hw → gxfp_hw) (d : gxfp_dev) : gxfp_dev :=
  {| mailbox_seq16 := mailbox_seq16 d; dev_hw := h (dev_hw d); dev_irq := dev_irq d |}.
Definition set_gpio (n : gpio_name) (v : bool) (h : gxfp_hw) : gxfp_hw :=
  {| mailbox_mmio := mailbox_mmio h; mailbox_size := mailbox_size h;
     gpio_write_done := if decide (n = WriteDone) then v else gpio_write_done h;
     gpio_read_done := if decide (n = ReadDone) then v else gpio_read_done h;
     gpio_irq := if decide (n = Irq) then v else gpio_irq h;
     irq := irq h |}.
Definition set_irq_num (i : Z) (h : gxfp_hw) : gxfp_hw :=
  {| mailbox_mmio := mailbox_mmio h; mailbox_size := mailbox_size h;
     gpio_write_done := gpio_write_done h; gpio_read_done := gpio_read_done h;
     gpio_irq := gpio_irq h; irq := i |}.

(** An error pointer stored in the device is not read again: the probe fails. *)
Definition gxfp_platform_init_gpios : M dworld Z :=
  '(added, d) ← get_or_map false WriteDone;
  match d with
  | inl e => mret e
  | inr d =>
    in_k (mod_gdev (set_hw (set_gpio WriteDone d)));;
    '(added, d) ← get_or_map added ReadDone;
    match d with
    | inl e => mret e
    | inr d =>
      in_k (mod_gdev (set_hw (set_gpio ReadDone d)));;
      '(added, d) ← get_or_map added Irq;
      match d with
      | inl e => mret e
      | inr d =>
        in_k (mod_gdev (set_hw (set_gpio Irq d)));;
        g ← in_k gdev;
        if negb (gpio_write_done (dev_hw g)) || negb (gpio_read_done (dev_hw g)) ||
           negb (gpio_irq (dev_hw g))
        then mret (- EINVAL) else
        in_k (gxfp_gpio_force_done_deassert true);;
        mret 0
      end
    end
  end.

Definition dev_zero : gxfp_dev :=
  {| mailbox_seq16 := GXFP_ESPI_SEQ16_INIT;
     dev_hw := {| mailbox_mmio := None; mailbox_size := 0; gpio_write_done := false;
                  gpio_read_done := false; gpio_irq := false; irq := 0 |};
     dev_irq := {| rx_buf := None; rx_cap := 0; rx_tmp := None; assem_active := false;
                   assem_total := 0; assem_copied := 0 |} |}.
Definition set_window (base sz : Z) (h : gxfp_hw) : gxfp_hw :=
  {| mailbox_mmio := Some base; mailbox_size := sz;
     gpio_write_done := gpio_write_done h; gpio_read_done := gpio_read_done h;
     gpio_irq := gpio_irq h; irq := irq h |}.
Definition set_rx_cap (c : Z) (i : gxfp_irq) : gxfp_irq :=
  {| rx_buf := rx_buf i; rx_cap := c; rx_tmp := rx_tmp i; assem_active := assem_active i;
     assem_total := assem_total i; assem_copied := assem_copied i |}.

(** The cleared uapi member of a fresh device. *)
Definition uapi_zero : M dworld () :=
  in_u (mod_uapi (λ s, set_misc false (set_inited false (set_buf false (set_reader false s))))).

(** The last part of the probe: the buffers and the interrupt. *)
Definition probe_irq : M dworld Z :=
  in_k (mod_gdev (λ d, set_irq (set_rx_cap GXFP_IRQ_RX_CAP (dev_irq d)) d));;
  b ← in_k (kmalloc GXFP_IRQ_RX_CAP);
  in_k (mod_gdev (λ d, set_irq (set_rx_buf b (dev_irq d)) d));;
  if bool_decide (b = None) then mret (- ENOMEM) else
  b ← in_k (kmalloc GXFP_READ_CHUNK_MAX);
  in_k (mod_gdev (λ d, set_irq (set_rx_tmp b (dev_irq d)) d));;
  if bool_decide (b = None) then mret (- ENOMEM) else
  in_k (mod_gdev (set_hw (set_irq_num plat_gpiod_to_irq)));;
  if plat_gpiod_to_irq <? 0 then mret plat_gpiod_to_irq else
  ev ← gets d_ev;
  when (plat_trigger_type ev =? IRQ_TYPE_NONE)
    (pemit (PSetType plat_gpiod_to_irq IRQ_TYPE_LEVEL_HIGH));;
  let irq_flags := Z.lor IRQF_ONESHOT IRQF_NO_AUTOEN in
  let ret := plat_request_irq in
  if negb (ret =? 0) then
    in_k (mod_gdev (set_hw (set_irq_num 0)));;
    mret ret
  else
  pemit (PRequest plat_gpiod_to_irq irq_flags);;
  mret 0.

Definition gxfp_platform_probe : M dworld Z :=
  g ← in_k (kmalloc 0);
  if bool_decide (g = None) then mret (- ENOMEM) else
  uapi_zero;;
  match plat_mem_size with
  | None => mret (- ENODEV)
  | Some sz =>
    match plat_ioremap with
    | inl e => mret e
    | inr base =>
      set_drvdata (set_hw (set_window base sz) dev_zero);;
      in_t (gxfp_trace_init plat_debugfs);;
      gpio_rc ← gxfp_platform_init_gpios;
      if negb (gpio_rc =? 0) then in_t gxfp_trace_exit;; mret gpio_rc else
      ret ← in_u (gxfp_uapi_register plat_misc_register);
      if negb (ret =? 0) then in_t gxfp_trace_exit;; mret ret else
      ret ← probe_irq;
      if negb (ret =? 0) then
        in_u gxfp_uapi_unregister;;
        in_t gxfp_trace_exit;;
        mret ret
      else mret 0
    end
  end.

Definition gxfp_platform_remove : M dworld () :=
  n ← in_k gdev_null;
  when (negb n)
    (g ← in_k gdev;
     when (0 <? irq (dev_hw g))
       (pemit (PDisable (irq (dev_hw g)));;
        pemit (PSync (irq (dev_hw g)))));;
  in_t gxfp_trace_exit;;
  in_u gxfp_uapi_unregister.

(** * gxfp_main.c *)

(** Up to [n] version queries, 20 ms apart, until one returns 0. [ver] is the
    result so far. *)
Fixpoint version_loop (n : nat) (ver : gxfp_get_version_result)
    : M kworld gxfp_get_version_result :=
  match n with
  | O => mret ver
  | S n =>
    '(rc, ver) ← gxfp_cmd_get_version;
    if rc =? 0 then mret ver else
    when (negb (bool_decide (n = O))) (emit (EvMsleep 20));;
    version_loop n ver
  end.

Definition ver_zero : gxfp_get_version_result :=
  version_result 0 0 0 0 0 (zeros GXFP_MAX_VERSION_ASCII) (zeros GXFP_MAX_VERSION_RAW).

Definition gxfp_startup_sequence : M kworld Z :=
  n ← gdev_null;
  if (n : bool) then mret (- ENODEV) else
  emit (EvMsleep 150);;
  ver ← version_loop 3 ver_zero;
  '(mcu_rc, mcu) ← gxfp_cmd_query_mcu_state (Some mcu_state_zero);
  ver ← (if negb (status ver =? 0) then
           gxfp_cmd_recover_session true;;
           '(_, ver) ← gxfp_cmd_get_version;
           mret ver
         else mret ver);
  if negb (status ver =? 0) then mret (s32 (status ver)) else mret 0.

Definition gxfp_shutdown_sequence (pdev : bool) : M kworld () :=
  if negb pdev then mret () else
  n ← gdev_null;
  if (n : bool) then mret () else
  gxfp_cmd_notify_power_state 1;;
  gxfp_cmd_sleep_cleanup 0;;
  mret ().

Definition gxfp_probe : M dworld Z :=
  ret ← gxfp_platform_probe;
  if negb (ret =? 0) then mret ret else
  ret ← in_k gxfp_startup_sequence;
  if negb (ret =? 0) then gxfp_platform_remove;; mret ret else
  n ← in_k gdev_null;
  when (negb n)
    (g ← in_k gdev;
     when (0 <? irq (dev_hw g)) (pemit (PEnable (irq (dev_hw g)))));;
  mret 0.

Definition gxfp_remove : M dworld () :=
  in_k (gxfp_shutdown_sequence true);;
  gxfp_platform_remove.
End platform.

(** * The GPIO indexes *)

(** The GPIO resources with their rank among the GPIO resources, those of a kind
    that have a pin. *)
Fixpoint gpios (n : Z) (l : list acpi_resource) : list (Z * acpi_resource_gpio) :=
  match l with
  | [] => []
  | AcpiGpio g :: l => (n, g) :: gpios (n + 1) l
  | AcpiOther :: l => gpios n l
  end.

Definition of_kind (kind : Z) (x : Z * acpi_resource_gpio) : bool :=
  negb (zlen (pin_table x.2) <? 1) && (connection_type x.2 =? kind).
Definition pick (kind n : Z) (l : list acpi_resource) : list (Z * acpi_resource_gpio) :=
  filter (λ x, of_kind kind x = true) (gpios n l).

Definition nth_or {A} (l : list A) (i : nat) (f : A → Z) (d : Z) : Z :=
  match l !! i with Some x => f x | None => d end.
Definition pin_of (x : Z * acpi_resource_gpio) : Z := nth_or (pin_table x.2) 0 id 0.
Definition pol_of (x : Z * acpi_resource_gpio) : Z := polarity x.2.

(** The state after [n] GPIO resources, of which [ins] are interrupts and [outs]
    outputs. *)
Definition st_of (n : Z) (ins outs : list (Z * acpi_resource_gpio)) : gxfp_acpi_res_state :=
  {| gpio_seen := n; gpio_io_seen := zlen outs `min` 2;
     gpio_io_pin := [nth_or outs 0 pin_of 0; nth_or outs 1 pin_of 0];
     gpio_io_pol := [nth_or outs 0 pol_of 0; nth_or outs 1 pol_of 0];
     gpio_io_crs_index := [nth_or outs 0 fst (-1); nth_or outs 1 fst (-1)];
     gpio_int_seen := zlen ins; gpio_int_crs_index := nth_or ins 0 fst (-1) |}.

Lemma res_cb_run g n ins outs :
  gxfp_acpi_res_cb (AcpiGpio g) (st_of n ins outs)
  = Some (0, st_of (n + 1)
      (ins ++ if of_kind ACPI_RESOURCE_GPIO_TYPE_INT (n, g) then [(n, g)] else [])
      (outs ++ if of_kind ACPI_RESOURCE_GPIO_TYPE_IO (n, g) then [(n, g)] else [])).
Proof.
  unfold gxfp_acpi_res_cb, of_kind. cbn [snd]. destruct (pin_table g) as [|p0 ps] eqn:Hp.
  { cbn. by rewrite !app_nil_r. }
  rewrite zlen_cons. pose proof (zlen_nonneg ps). rewrite (proj2 (Z.ltb_ge _ 1)) by lia.
  cbn [negb andb]. change (rd (p0 :: ps) 0) with (Some p0). cbn [mbind option_bind].
  unfold ACPI_RESOURCE_GPIO_TYPE_INT, ACPI_RESOURCE_GPIO_TYPE_IO.
  destruct (Z.eqb_spec (connection_type g) 0) as [->|Hi].
  - cbn [Z.eqb]. rewrite app_nil_r. do 2 f_equal. unfold set_int, set_seen, st_of.
    cbn [gpio_seen gpio_io_seen gpio_io_pin gpio_io_pol gpio_io_crs_index gpio_int_seen
         gpio_int_crs_index]. rewrite zlen_app. f_equal. destruct ins as [|i ins].
    + change (n + 1 - 1 = n). lia.
    + rewrite zlen_cons. pose proof (zlen_nonneg ins).
      rewrite (proj2 (Z.eqb_neq _ 1)) by lia. done.
  - destruct (Z.eqb_spec (connection_type g) 1) as [_|_]; [|by rewrite !app_nil_r].
    rewrite app_nil_r. unfold set_io, set_seen, st_of.
    cbn [gpio_seen gpio_io_seen gpio_io_pin gpio_io_pol gpio_io_crs_index gpio_int_seen
         gpio_int_crs_index]. replace (n + 1 - 1) with n by lia.
    assert (Hpin : pin_of (n, g) = p0) by (unfold pin_of, nth_or; cbn; by rewrite Hp).
    destruct outs as [|o1 [|o2 outs]].
    + cbn. unfold nth_or; cbn. by rewrite Hpin.
    + cbn. unfold nth_or; cbn. by rewrite Hpin.
    + rewrite !zlen_app, !zlen_cons. pose proof (zlen_nonneg outs).
      rewrite (proj2 (Z.ltb_ge _ 2)) by lia. do 3 f_equal.
      change (zlen (@nil (Z * acpi_resource_gpio))) with 0. lia.
Qed.

Lemma walk_run l : ∀ n ins outs,
  acpi_walk_resources l (st_of n ins outs)
  = Some (st_of (n + zlen (gpios n l)) (ins ++ pick ACPI_RESOURCE_GPIO_TYPE_INT n l)
                (outs ++ pick ACPI_RESOURCE_GPIO_TYPE_IO n l)).
Proof.
  induction l as [|[g|] l IH]; intros n ins outs; cbn [acpi_walk_resources gpios].
  - unfold pick. cbn. by rewrite Z.add_0_r, !app_nil_r.
  - rewrite res_cb_run. cbn [mbind option_bind Z.ltb Z.compare]. rewrite IH, zlen_cons.
    unfold pick. cbn [gpios]. rewrite <- !app_assoc. do 2 f_equal; [lia|f_equal|f_equal].
    + by destruct (of_kind ACPI_RESOURCE_GPIO_TYPE_INT (n, g)) eqn:Hk;
        rewrite ?filter_cons_True, ?filter_cons_False by congruence.
    + by destruct (of_kind ACPI_RESOURCE_GPIO_TYPE_IO (n, g)) eqn:Hk;
        rewrite ?filter_cons_True, ?filter_cons_False by congruence.
  - cbn. apply IH.
Qed.

Lemma gpios_rank l : ∀ n, Forall (λ x, n <= x.1) (gpios n l).
Proof.
  induction l as [|[g|] l IH]; intros n; cbn [gpios]; [constructor| |apply IH].
  constructor; [cbn; lia|]. eapply Forall_impl; [apply IH|]. cbn. lia.
Qed.

Lemma pick_rank kind l i g rest : pick kind 0 l = (i, g) :: rest →
  0 <= i ∧ Forall (λ x, 0 <= x.1) rest.
Proof.
  intros Hp.
  assert (Hf : Forall (λ x, 0 <= x.1) (pick kind 0 l)).
  { apply Forall_forall. intros x (_ & Hx)%list_elem_of_filter.
    by apply (proj1 (Forall_forall _ _) (gpios_rank l 0)). }
  rewrite Hp in Hf. by inversion Hf.
Qed.

Lemma acpi_indexes_run {P : Platform} o :
  acpi_companion = true →
  gxfp_acpi_get_gpio_crs_indexes true (Some o)
  = Some (if acpi_crs_rc <=? 0 then (- ENOENT, Some o) else
          match pick ACPI_RESOURCE_GPIO_TYPE_INT 0 acpi_crs, pick ACPI_RESOURCE_GPIO_TYPE_IO 0 acpi_crs with
          | (i, _) :: _, (a, ga) :: (b, gb) :: _ =>
            if Bool.eqb (negb (polarity ga =? 0)) (negb (polarity gb =? 0))
            then (0, Some (i, [a; b], negb (polarity ga =? 0)))
            else (- EINVAL, Some o)
          | _, _ => (- ENOENT, Some o)
          end).
Proof.
  intros Hc. unfold gxfp_acpi_get_gpio_crs_indexes. rewrite Hc, bool_decide_eq_false_2 by done.
  cbn [negb orb]. change acpi_state0 with (st_of 0 [] []). rewrite walk_run. cbn [mbind option_bind app].
  destruct (acpi_crs_rc <=? 0); [done|].
  destruct (pick ACPI_RESOURCE_GPIO_TYPE_INT 0 acpi_crs) as [|[i gi] ins] eqn:Hi; [done|].
  destruct (pick_rank _ _ _ _ _ Hi) as (Hi0 & _).
  unfold st_of. cbn [gpio_int_seen gpio_int_crs_index gpio_io_seen gpio_io_crs_index gpio_io_pol].
  change (nth_or ((i, gi) :: ins) 0 fst (-1)) with i. pose proof (zlen_nonneg ins).
  rewrite zlen_cons, (proj2 (Z.ltb_ge _ 1)), (proj2 (Z.ltb_ge i 0)) by lia. cbn [orb].
  destruct (pick ACPI_RESOURCE_GPIO_TYPE_IO 0 acpi_crs) as [|[a ga] [|[b gb] outs]] eqn:Ho; [done|done|].
  destruct (pick_rank _ _ _ _ _ Ho) as (Ha & Hb%Forall_cons_1). destruct Hb as (Hb & _). cbn in Hb.
  unfold nth_or. cbn [lookup list_lookup fst]. change (rd [a; b] 0) with (Some a).
  change (rd [a; b] 1) with (Some b). cbn [mbind option_bind]. rewrite !zlen_cons.
  pose proof (zlen_nonneg outs).
  rewrite (proj2 (Z.ltb_ge _ 2)), (proj2 (Z.ltb_ge a 0)), (proj2 (Z.ltb_ge b 0)) by lia. cbn [orb].
  unfold pol_of; cbn [snd]. change (rd [polarity ga; polarity gb] 0) with (Some (polarity ga)).
  change (rd [polarity ga; polarity gb] 1) with (Some (polarity gb)). cbn [mbind option_bind].
  by destruct (Bool.eqb _ _).
Qed.

(** The driver takes the first interrupt GPIO and the first two output GPIOs
    of the ACPI resources, by their rank among all GPIO resources, with the common
    polarity of the outputs; too few of either kind is ENOENT, two outputs of
    different polarity EINVAL, and the out parameters are then left alone. *)
Theorem acpi_indexes_spec {P : Platform} o :
  acpi_companion = true →
  gxfp_acpi_get_gpio_crs_indexes true (Some o)
  = Some (if acpi_crs_rc <=? 0 then (- ENOENT, Some o) else
          match pick ACPI_RESOURCE_GPIO_TYPE_INT 0 acpi_crs, pick ACPI_RESOURCE_GPIO_TYPE_IO 0 acpi_crs with
          | (i, _) :: _, (a, ga) :: (b, gb) :: _ =>
            if Bool.eqb (negb (polarity ga =? 0)) (negb (polarity gb =? 0))
            then (0, Some (i, [a; b], negb (polarity ga =? 0)))
            else (- EINVAL, Some o)
          | _, _ => (- ENOENT, Some o)
          end).
Proof. apply acpi_indexes_run. Qed.

(** * Startup and shutdown *)

Section startup.
Context {E : Kenv} {size : Z} {EO : KenvOk E size}.
Context {fit : gxfp_dev → Prop} {T : TransportOk fit}.

(** [v] is what some version query returned. *)
Definition queried (v : gxfp_get_version_result) : Prop :=
  is_u32 (status v) ∧ ∃ rc w w', gxfp_cmd_get_version w = Some ((rc, v), w').

Lemma get_version_queried w d :
  w_dev w = Some d → fit d →
  wp gxfp_cmd_get_version (λ r w', continues fit 8 w w' ∧ queried r.2) w.
Proof using EO T.
  intros Hd Hf. destruct (wp_inv _ _ _ (get_version_wp w d Hd Hf)) as ([ret v] & w' & Er & Hc & Hv).
  eapply wp_eq; [exact Er|]. split; [exact Hc|]. split; [|by exists ret, w, w'].
  cbn [snd]. case_bool_decide.
  - destruct Hv as (pl & _ & _ & _ & _ & ->). case_bool_decide; by vm_compute.
  - destruct Hv as (-> & _). zint.
Qed.

Lemma version_loop_wp n : ∀ ver w d,
  w_dev w = Some d → fit d →
  wp (version_loop n ver)
     (λ v w', continues fit (8 * Z.of_nat n) w w' ∧ (n ≠ 0%nat ∨ queried ver → queried v)) w.
Proof using EO T.
  induction n as [|n IH]; intros ver w d Hd Hf; cbn [version_loop].
  { apply wp_ret. split; [by eapply continues_refl|by intros []]. }
  apply wp_bind. eapply wp_mono; [by eapply get_version_queried|].
  intros [rc v] w1 (Hc1 & Hq). cbn [snd] in Hq.
  destruct (rc =? 0).
  { apply wp_ret. split; [|done]. destruct Hc1 as (d1 & s1 & ? & ? & ? & ?).
    exists d1, s1. split_and!; try done. lia. }
  destruct (continues_dev _ _ _ _ Hc1) as (d1 & Hd1 & Hf1).
  apply wp_bind. eapply (wp_mono _ (λ _ w2, continues fit 0 w1 w2)).
  { destruct n; cbn; [by eapply continues_refl|]. by eapply (continues_push _ _ d1). }
  intros _ w2 Hc2. destruct (continues_dev _ _ _ _ Hc2) as (d2 & Hd2 & Hf2).
  eapply wp_mono; [by eapply IH|]. intros v' w3 (Hc3 & Hq3). split.
  - eapply continues_trans; [exact Hc1|eapply continues_trans; [exact Hc2|exact Hc3|reflexivity]|lia].
  - intros _. apply Hq3. by right.
Qed.

Lemma startup_wp w d :
  w_dev w = Some d → fit d →
  wp gxfp_startup_sequence
     (λ r w', continues fit 52 w w' ∧
        ∃ v, queried v ∧ r = if status v =? 0 then 0 else s32 (status v)) w.
Proof using EO T.
  intros Hd Hf. unfold gxfp_startup_sequence. apply wp_bind.
  eapply wp_eq; [by eapply gdev_null_run|]. cbv beta iota.
  apply wp_bind. eapply wp_eq; [apply emit_run|].
  pose proof (continues_push fit w d [EvMsleep 150] Hd Hf eq_refl) as Hc0.
  apply wp_bind. eapply wp_mono; [by apply (version_loop_wp 3 _ _ d)|].
  intros v w1 (Hc1 & Hq). assert (Hv : queried v) by (apply Hq; by left).
  destruct (continues_dev _ _ _ _ Hc1) as (d1 & Hd1 & Hf1).
  apply wp_bind. eapply wp_mono; [by eapply query_mcu_state_wp|].
  intros [mrc mcu] w2 (Hc2 & _). destruct (continues_dev _ _ _ _ Hc2) as (d2 & Hd2 & Hf2).
  assert (Hc : continues fit 32 w w2).
  { eapply continues_trans; [exact Hc0|eapply continues_trans; [exact Hc1|exact Hc2|reflexivity]|].
    by vm_compute. }
  apply wp_bind. eapply (wp_mono _ (λ v' w3, continues fit 20 w2 w3 ∧ queried v' )).
  { destruct (negb (status v =? 0)).
    - destruct (recover_session_run true w2 d2 Hd2 Hf2) as (rs & w3 & _ & Er & Hc3 & _).
      apply wp_bind. eapply wp_eq; [exact Er|].
      destruct (continues_dev _ _ _ _ Hc3) as (d3 & Hd3 & Hf3).
      apply wp_bind. eapply wp_mono; [by eapply get_version_queried|].
      intros [rc v'] w4 (Hc4 & Hq4). apply wp_ret. split; [|done].
      eapply continues_trans; [exact Hc3|exact Hc4|done].
    - apply wp_ret. split; [|done]. by exists d2, []; rewrite app_nil_r. }
  intros v' w3 (Hc3 & Hq3). destruct (status v' =? 0) eqn:Hs; cbn [negb]; apply wp_ret; (split;
    [eapply continues_trans; [exact Hc|exact Hc3|done]|]); exists v'; by rewrite Hs.
Qed.

Lemma shutdown_wp w d :
  w_dev w = Some d → fit d →
  wp (gxfp_shutdown_sequence true) (λ _ w', continues fit 2 w w') w.
Proof using EO T.
  intros Hd Hf. unfold gxfp_shutdown_sequence. cbn [negb].
  apply wp_bind. eapply wp_eq; [by eapply gdev_null_run|]. cbv beta iota.
  refine (step_bind 1 1 (gxfp_cmd_notify_power_state 1) _ _ _ w d Hd Hf).
  - apply notify_ok. by vm_compute.
  - intros _. refine (step_bind 1 0 (gxfp_cmd_sleep_cleanup 0) _ _ _); [apply sleep_ok|].
    intros _. apply step_ret.
Qed.
End startup.

(** * The probe *)

Section probe.
Context {K : Kfifo} {KO : KfifoOk K} {E : Kenv} {size : Z} {EO : KenvOk E size}.
Context {P : Platform} {PO : PlatformOk P}.

Definition d_dev (D : dworld) : ptr gxfp_dev := w_dev (u_k (d_u D)).
Definition d_uapi (D : dworld) : gxfp_uapi := u_uapi (d_u D).

(** Nothing but the kernel's state below the character device has changed. *)
Definition same_rest (D D' : dworld) : Prop :=
  d_uapi D' = d_uapi D ∧ d_trace D' = d_trace D ∧ d_ev D' = d_ev D.

(** The device differs in its GPIO descriptors at most. *)
Definition same_but_gpios (g g' : gxfp_dev) : Prop :=
  mailbox_seq16 g' = mailbox_seq16 g ∧ dev_irq g' = dev_irq g ∧
  mailbox_mmio (dev_hw g') = mailbox_mmio (dev_hw g) ∧
  mailbox_size (dev_hw g') = mailbox_size (dev_hw g) ∧ irq (dev_hw g') = irq (dev_hw g).

Lemma same_rest_refl D : same_rest D D.
Proof. done. Qed.

Lemma same_rest_trans D1 D2 D3 : same_rest D1 D2 → same_rest D2 D3 → same_rest D1 D3.
Proof. unfold same_rest. intuition congruence. Qed.

Lemma in_u_wp {A} (m : M uworld A) Q D :
  wp m (λ a u, Q a {| d_u := u; d_trace := d_trace D; d_map := d_map D; d_ev := d_ev D |}) (d_u D) →
  wp (in_u m) Q D.
Proof. unfold wp, in_u, zoom. by destruct (m (d_u D)) as [[a u]|]. Qed.

Lemma in_k_wp {A} (m : M kworld A) Q D :
  wp m (λ a k, Q a {| d_u := {| u_k := k; u_uapi := d_uapi D |};
                      d_trace := d_trace D; d_map := d_map D; d_ev := d_ev D |}) (u_k (d_u D)) →
  wp (in_k m) Q D.
Proof.
  intros Hm. apply in_u_wp. unfold wp, in_kernel, zoom in *.
  by destruct (m (u_k (d_u D))) as [[a k]|].
Qed.

Lemma in_t_wp {A} (m : M gxfp_trace A) Q D :
  wp m (λ a t, Q a {| d_u := d_u D; d_trace := t; d_map := d_map D; d_ev := d_ev D |}) (d_trace D) →
  wp (in_t m) Q D.
Proof. unfold wp, in_t, zoom. by destruct (m (d_trace D)) as [[a t]|]. Qed.

Lemma acpi_indexes_defined o :
  ∃ r out, gxfp_acpi_get_gpio_crs_indexes true (Some o) = Some (r, out) ∧
    (r = 0 → ∃ i a b low, out = Some (i, [a; b], low)).
Proof.
  destruct acpi_companion eqn:Hc.
  - rewrite (acpi_indexes_run o Hc).
    destruct (acpi_crs_rc <=? 0); [by eexists _, _|].
    destruct (pick ACPI_RESOURCE_GPIO_TYPE_INT _ _) as [|[i gi] ins]; [by eexists _, _|].
    destruct (pick ACPI_RESOURCE_GPIO_TYPE_IO _ _) as [|[a ga] [|[b gb] outs]]; [by eexists _, _..|].
    destruct (Bool.eqb _ _); eexists _, _; split; [done| |done|done]. eauto.
  - unfold gxfp_acpi_get_gpio_crs_indexes. rewrite Hc, bool_decide_eq_false_2 by done.
    by eexists _, _.
Qed.

(** Adding the mapping is defined and leaves the device alone. *)
Lemma add_gpios_wp D g :
  d_dev D = Some g →
  wp gxfp_platform_add_acpi_driver_gpios (λ _ D', d_dev D' = Some g ∧ same_rest D D') D.
Proof.
  intros Hg. unfold gxfp_platform_add_acpi_driver_gpios. apply wp_bind, in_k_wp.
  eapply wp_eq; [by eapply gdev_null_run|]. cbv beta iota.
  destruct (acpi_indexes_defined (0, [0; 0], false)) as (r & out & -> & Hout).
  apply wp_bind. eapply wp_lift; [reflexivity|]. cbv beta iota.
  destruct (Z.eqb_spec r 0) as [->|]; cbn [negb]; [|by apply wp_ret].
  destruct (Hout eq_refl) as (i & a & b & low & ->).
  apply wp_bind, in_k_wp. eapply wp_eq; [apply kmalloc_run|].
  apply wp_bind, in_k_wp. eapply wp_eq; [apply kmalloc_run|].
  destruct (_ || _); [by apply wp_ret|].
  apply wp_bind. eapply wp_lift; [reflexivity|]. cbv beta iota.
  apply wp_bind. eapply wp_lift; [reflexivity|]. apply wp_bind. eapply wp_lift; [reflexivity|].
  cbv zeta. destruct (negb _); [by apply wp_ret|]. apply wp_bind, wp_modw. by apply wp_ret.
Qed.

Lemma get_or_map_wp added n D g :
  d_dev D = Some g →
  wp (get_or_map added n)
     (λ r D', d_dev D' = Some g ∧ same_rest D D' ∧ (∀ e, r.2 = inl e → e < 0)) D.
Proof using PO.
  intros Hg. unfold get_or_map. apply wp_bind, wp_gets. cbv beta.
  destruct (negb added && _).
  - apply wp_bind. eapply wp_mono; [by apply add_gpios_wp|]. intros r D' (Hg' & Hs). cbv beta.
    apply wp_bind, wp_gets. apply wp_ret. split_and!; [done..|]. intros e. apply gpiod_err.
  - apply wp_ret. split_and!; [done..|]. intros e. apply gpiod_err.
Qed.

(** Descriptors are looked up one after the other; the device then has all
    three, or the call fails. *)
Lemma set_hw_wp f (D : dworld) g :
  d_dev D = Some g →
  wp (in_k (mod_gdev (set_hw f))) (λ _ D', d_dev D' = Some (set_hw f g) ∧ same_rest D D') D.
Proof. intros Hg. apply in_k_wp. eapply wp_eq; [by apply mod_gdev_run|]. done. Qed.

Lemma force_deassert_wp (D : dworld) g :
  d_dev D = Some g →
  wp (in_k (gxfp_gpio_force_done_deassert true)) (λ _ D', d_dev D' = Some g ∧ same_rest D D') D.
Proof.
  intros Hg. apply in_k_wp. unfold gxfp_gpio_force_done_deassert.
  apply wp_bind. eapply wp_eq; [by eapply gdev_null_run|]. cbn [negb orb].
  apply wp_bind. eapply wp_eq; [by eapply gdev_run|].
  by destruct (gpio_write_done (dev_hw g)), (gpio_read_done (dev_hw g)).
Qed.

Definition all_gpios (g : gxfp_dev) : Prop :=
  gpio_write_done (dev_hw g) = true ∧ gpio_read_done (dev_hw g) = true ∧
  gpio_irq (dev_hw g) = true.

Lemma init_gpios_wp D g :
  d_dev D = Some g →
  wp gxfp_platform_init_gpios
     (λ r D', same_rest D D' ∧ ∃ g', d_dev D' = Some g' ∧ same_but_gpios g g' ∧
        (r = 0 → all_gpios g')) D.
Proof using PO.
  intros Hg. unfold gxfp_platform_init_gpios.
  apply wp_bind. eapply wp_mono; [by apply get_or_map_wp|].
  intros [added [e|v1]] D1 (Hg1 & S1 & He); cbv beta iota.
  { apply wp_ret. split; [done|]. exists g. split_and!; [done..|]. specialize (He e eq_refl). lia. }
  apply wp_bind. eapply wp_mono; [by apply set_hw_wp|]. intros _ D2 (Hg2 & S2).
  apply wp_bind. eapply wp_mono; [by apply get_or_map_wp|].
  intros [added2 [e|v2]] D3 (Hg3 & S3 & He2); cbv beta iota.
  { apply wp_ret. split; [by eauto using same_rest_trans|]. eexists. split; [exact Hg3|].
    split; [done|]. specialize (He2 e eq_refl). lia. }
  apply wp_bind. eapply wp_mono; [by apply set_hw_wp|]. intros _ D4 (Hg4 & S4).
  apply wp_bind. eapply wp_mono; [by apply get_or_map_wp|].
  intros [added3 [e|v3]] D5 (Hg5 & S5 & He3); cbv beta iota.
  { apply wp_ret. split; [by eauto 6 using same_rest_trans|]. eexists. split; [exact Hg5|].
    split; [done|]. specialize (He3 e eq_refl). lia. }
  apply wp_bind. eapply wp_mono; [by apply set_hw_wp|]. intros _ D6 (Hg6 & S6).
  assert (S : same_rest D D6) by (by eauto 8 using same_rest_trans).
  apply wp_bind, in_k_wp. eapply wp_eq; [by eapply gdev_run|].
  cbn [gpio_write_done gpio_read_done gpio_irq dev_hw set_hw set_gpio].
  set (D6' := {| d_u := _; d_trace := _; d_map := _; d_ev := _ |}).
  assert (HD : D6' = D6) by (by destruct D6 as [[]]). rewrite HD. clear D6' HD.
  destruct v1, v2, v3; cbn [negb orb]; try (apply wp_ret; split; [done|]; by eexists).
  apply wp_bind. eapply wp_mono; [by apply force_deassert_wp|]. intros _ D7 (Hg7 & S7).
  apply wp_ret. split; [by eauto using same_rest_trans|]. by eexists.
Qed.

(** The character device, registered or left as it was. *)
Definition uapi_ready (s : gxfp_uapi) : Prop :=
  misc_registered s = true ∧ rxq_inited s = true ∧ rxq_reader_open s = false ∧
  contents (rxq_fifo s) = [] ∧ fifo_size (rxq_fifo s) = GXFP_RXQ_FIFO_BYTES.
Definition uapi_off (s : gxfp_uapi) : Prop := misc_registered s = false ∧ rxq_inited s = false.

Lemma register_wp u misc_ret d :
  w_dev (u_k u) = Some d → uapi_off (u_uapi u) →
  wp (gxfp_uapi_register misc_ret)
     (λ r u', w_dev (u_k u') = Some d ∧
        (if r =? 0 then uapi_ready (u_uapi u') else uapi_off (u_uapi u'))) u.
Proof using KO.
  intros Hd (Hm & _). unfold gxfp_uapi_register.
  apply wp_bind. eapply wp_eq; [by eapply u_null_run|]. cbv beta iota.
  apply wp_bind. eapply wp_eq; [apply get_uapi_run|]. rewrite Hm.
  apply wp_bind, wp_modw.
  apply wp_bind. eapply wp_eq; [apply in_kernel_run, kmalloc_run|].
  destruct (bool_decide _); [apply wp_bind, wp_modw, wp_ret; done|].
  apply wp_bind, wp_modw. apply wp_bind. eapply wp_eq; [apply get_uapi_run|].
  cbn [u_uapi rxq_fifo set_buf set_reader set_inited].
  destruct (kfifo_init (rxq_fifo (u_uapi u)) GXFP_RXQ_FIFO_BYTES) as [rc f] eqn:Ek.
  apply wp_bind, wp_modw. destruct (Z.eqb_spec rc 0) as [->|Hrc]; cbn [negb].
  2: { apply wp_bind, wp_modw, wp_ret. by rewrite (proj2 (Z.eqb_neq rc 0)). }
  destruct (init_spec _ _ _ _ Ek eq_refl) as (Hs & Hc).
  apply wp_bind, wp_modw. destruct (Z.eqb_spec misc_ret 0) as [->|Hr]; cbn [negb].
  - by apply wp_bind, wp_modw, wp_ret.
  - apply wp_bind, wp_modw, wp_ret. by rewrite (proj2 (Z.eqb_neq misc_ret 0)).
Qed.

Lemma unregister_wp u d :
  w_dev (u_k u) = Some d →
  wp gxfp_uapi_unregister (λ _ u', u_k u' = u_k u ∧ uapi_off (u_uapi u')) u.
Proof.
  intros Hd. unfold gxfp_uapi_unregister, unregister_misc.
  apply wp_bind, wp_bind. eapply wp_eq; [by eapply u_null_run|]. cbv beta iota.
  apply wp_bind. eapply wp_eq; [apply get_uapi_run|].
  destruct (misc_registered (u_uapi u)) eqn:Hm, (rxq_inited (u_uapi u)) eqn:Hi; cbn [negb andb when].
  1,2: apply wp_bind, wp_modw, wp_bind; eapply wp_eq; [apply get_uapi_run|];
    apply wp_ret; cbn [u_uapi rxq_inited set_misc]; rewrite Hi; by cbn.
  - apply wp_bind, wp_ret, wp_bind. eapply wp_eq; [apply get_uapi_run|].
    apply wp_ret. rewrite Hi. by cbn.
  - by apply wp_ret, wp_ret.
Qed.

(** The receive buffers of a probed device, ready for [KIrq]. *)
Definition buffers_ready (g : gxfp_dev) : Prop :=
  (∃ b, rx_buf (dev_irq g) = Some b ∧ zlen b = GXFP_IRQ_RX_CAP) ∧
  rx_cap (dev_irq g) = GXFP_IRQ_RX_CAP ∧
  (∃ t, rx_tmp (dev_irq g) = Some t ∧ zlen t = GXFP_ESPI_CHUNK_MAX).

Lemma mod_dev_wp f (D : dworld) g :
  d_dev D = Some g →
  wp (in_k (mod_gdev f)) (λ _ D', d_dev D' = Some (f g) ∧ same_rest D D') D.
Proof. intros Hg. apply in_k_wp. eapply wp_eq; [by apply mod_gdev_run|]. done. Qed.

Lemma alloc_wp n (D : dworld) g :
  d_dev D = Some g → 0 <= n →
  wp (in_k (kmalloc n)) (λ b D', d_dev D' = Some g ∧ same_rest D D' ∧
                           (∀ b', b = Some b' → zlen b' = n)) D.
Proof using EO.
  intros Hg Hn. apply in_k_wp. eapply wp_eq; [apply kmalloc_run|].
  split_and!; [done..|]. intros b'. destruct (w_oom _) as [|[] ?]; [|done|];
    intros [= <-]; by apply uninit_len.
Qed.

Lemma probe_irq_wp D g :
  d_dev D = Some g → assem_active (dev_irq g) = false →
  wp probe_irq
     (λ r D', d_uapi D' = d_uapi D ∧ d_trace D' = d_trace D ∧ ∃ g', d_dev D' = Some g' ∧
        if r =? 0
        then buffers_ready g' ∧ 0 <= plat_gpiod_to_irq ∧ assem_active (dev_irq g') = false ∧
             mailbox_seq16 g' = mailbox_seq16 g ∧
             dev_hw g' = set_irq_num plat_gpiod_to_irq (dev_hw g) ∧
             (∃ evs, d_ev D' = d_ev D ++ evs ++
                [PRequest plat_gpiod_to_irq (Z.lor IRQF_ONESHOT IRQF_NO_AUTOEN)] ∧
                Forall (λ e, ∃ i t, e = PSetType i t) evs)
        else ∃ evs, d_ev D' = d_ev D ++ evs ∧ Forall (λ e, ∃ i t, e = PSetType i t) evs) D.
Proof using EO.
  intros Hg Ha. unfold probe_irq.
  apply wp_bind. eapply wp_mono; [by apply mod_dev_wp|]. intros _ D1 (Hg1 & S1).
  apply wp_bind. eapply wp_mono; [apply (alloc_wp _ _ _ Hg1); by vm_compute|].
  intros b D2 (Hg2 & S2 & Hb). apply wp_bind. eapply wp_mono; [by apply mod_dev_wp|].
  intros _ D3 (Hg3 & S3). assert (S : same_rest D D3) by eauto using same_rest_trans.
  destruct b as [b|]; cbn [bool_decide]; cycle 1.
  { rewrite bool_decide_eq_true_2 by done. apply wp_ret. destruct S as (-> & -> & ->).
    split_and!; [done..|]. eexists. split; [exact Hg3|]. exists []. by rewrite app_nil_r. }
  rewrite bool_decide_eq_false_2 by done.
  apply wp_bind. eapply wp_mono; [apply (alloc_wp _ _ _ Hg3); by vm_compute|].
  intros t D4 (Hg4 & S4 & Ht). apply wp_bind. eapply wp_mono; [by apply mod_dev_wp|].
  intros _ D5 (Hg5 & S5). assert (S' : same_rest D D5) by eauto 6 using same_rest_trans.
  clear S. destruct t as [t|]; cycle 1.
  { rewrite bool_decide_eq_true_2 by done. apply wp_ret. destruct S' as (-> & -> & ->).
    split_and!; [done..|]. eexists. split; [exact Hg5|]. exists []. by rewrite app_nil_r. }
  rewrite bool_decide_eq_false_2 by done.
  apply wp_bind. eapply wp_mono; [by apply mod_dev_wp|]. intros _ D6 (Hg6 & S6).
  assert (S : same_rest D D6) by eauto using same_rest_trans. clear S'.
  destruct (Z.ltb_spec plat_gpiod_to_irq 0) as [Hi|Hi].
  { apply wp_ret. destruct S as (-> & -> & ->). split_and!; [done..|]. eexists. split; [exact Hg6|].
    rewrite (proj2 (Z.eqb_neq _ 0)) by lia. exists []. by rewrite app_nil_r. }
  apply wp_bind, wp_gets. destruct S as (Hu & Htr & Hev).
  apply wp_bind. eapply (wp_mono _ (λ _ D7, d_dev D7 = d_dev D6 ∧ d_uapi D7 = d_uapi D6 ∧
    d_trace D7 = d_trace D6 ∧ ∃ evs, d_ev D7 = d_ev D6 ++ evs ∧ Forall (λ e, ∃ i t, e = PSetType i t) evs)).
  { destruct (_ =? IRQ_TYPE_NONE); cbn [when].
    - apply wp_modw. split_and!; [done..|]. eexists. split; [done|]. constructor; [eauto|done].
    - apply wp_ret. split_and!; [done..|]. exists []. by rewrite app_nil_r. }
  intros _ D7 (Hg7 & Hu7 & Ht7 & evs & Hev7 & Hty). rewrite Hg6 in Hg7. cbv zeta.
  rewrite <- Hu, <- Htr, <- Hev, <- Hu7, <- Ht7.
  destruct (Z.eqb_spec plat_request_irq 0) as [Hr|Hr]; cbn [negb].
  - apply wp_bind, wp_modw, wp_ret. split_and!; [done..|]. eexists. split; [exact Hg7|].
    cbn [Z.eqb]. split_and!; try done.
    + split; [by exists b; split; [|apply Hb]|]. split; [done|]. by exists t; split; [|apply Ht].
    + exists evs. cbn [d_ev]. rewrite Hev7, <- app_assoc. done.
  - apply wp_bind. eapply wp_mono; [by apply mod_dev_wp|]. intros _ D8 (Hg8 & (Hu8 & Ht8 & Hev8)).
    apply wp_ret. rewrite (proj2 (Z.eqb_neq _ 0)) by done. split_and!; [done..|].
    eexists. split; [exact Hg8|]. exists evs. by rewrite Hev8.
Qed.

(** Events of a failed probe: the trigger type may have been set, no more. *)
Definition only_types (evs : list pevent) : Prop := Forall (λ e, ∃ i t, e = PSetType i t) evs.

(** A device that has been probed: everything in place, the interrupt requested
    and not enabled yet. *)
Definition probed (evs0 : list pevent) (D : dworld) : Prop :=
  ∃ g base sz, d_dev D = Some g ∧ plat_ioremap = inr base ∧ plat_mem_size = Some sz ∧
    mailbox_mmio (dev_hw g) = Some base ∧ mailbox_size (dev_hw g) = sz ∧ all_gpios g ∧
    irq (dev_hw g) = plat_gpiod_to_irq ∧ 0 <= plat_gpiod_to_irq ∧
    mailbox_seq16 g = GXFP_ESPI_SEQ16_INIT ∧ assem_active (dev_irq g) = false ∧
    buffers_ready g ∧ uapi_ready (d_uapi D) ∧ tr_inited (d_trace D) = true ∧
    ∃ evs, only_types evs ∧ d_ev D = evs0 ++ evs ++
      [PRequest plat_gpiod_to_irq (Z.lor IRQF_ONESHOT IRQF_NO_AUTOEN)].

(** Nothing is left of the device. *)
Definition released (D : dworld) : Prop :=
  uapi_off (d_uapi D) ∧ tr_inited (d_trace D) = false.

Lemma trace_init_wp b t : tr_inited t = false →
  wp (gxfp_trace_init b) (λ _ t', tr_inited t' = true) t.
Proof. intros Ht. unfold gxfp_trace_init. apply wp_bind, wp_getw. rewrite Ht. by apply wp_bind, wp_modw, wp_ret. Qed.

Lemma trace_exit_wp (D : dworld) :
  wp (in_t gxfp_trace_exit) (λ _ D', d_u D' = d_u D ∧ d_map D' = d_map D ∧ d_ev D' = d_ev D ∧
    tr_inited (d_trace D') = false) D.
Proof.
  apply in_t_wp. unfold gxfp_trace_exit. apply wp_bind, wp_getw.
  destruct (tr_inited (d_trace D)) eqn:Ht; cbn [negb]; [by apply wp_modw|by apply wp_ret].
Qed.

Definition probe_post (evs0 : list pevent) (r : Z) (D : dworld) : Prop :=
  if r =? 0 then probed evs0 D
  else released D ∧ ∃ evs, d_ev D = evs0 ++ evs ∧ only_types evs.

Lemma fail_post r e D0 (D : dworld) :
  r ≠ 0 → released D → d_ev D = d_ev D0 ++ e → only_types e → probe_post (d_ev D0) r D.
Proof. intros Hr ? ? ?. unfold probe_post. rewrite (proj2 (Z.eqb_neq r 0)) by done. eauto. Qed.

(** From the point where the device is in place. *)
Lemma probe_rest_wp base sz D0 D g :
  plat_mem_size = Some sz → plat_ioremap = inr base →
  d_dev D = Some g → g = set_hw (set_window base sz) dev_zero → uapi_off (d_uapi D) →
  tr_inited (d_trace D) = true → d_ev D = d_ev D0 →
  wp (gpio_rc ← gxfp_platform_init_gpios;
      if negb (gpio_rc =? 0) then in_t gxfp_trace_exit;; mret gpio_rc else
      ret ← in_u (gxfp_uapi_register plat_misc_register);
      if negb (ret =? 0) then in_t gxfp_trace_exit;; mret ret else
      ret ← probe_irq;
      if negb (ret =? 0) then
        in_u gxfp_uapi_unregister;;
        in_t gxfp_trace_exit;;
        mret ret
      else mret 0) (probe_post (d_ev D0)) D.
Proof using KO EO PO.
  intros Hsz Hbase Hg Hgeq Hoff Htr Hev. apply wp_bind. eapply wp_mono; [by apply init_gpios_wp|].
  intros rc D1 ((Hu1 & Ht1 & He1) & g1 & Hg1 & (Hseq & Hirq & Hm & Hs & Hi) & Hall).
  destruct (Z.eqb_spec rc 0) as [->|Hrc]; cbn [negb]; cycle 1.
  { apply wp_bind. eapply wp_mono; [apply trace_exit_wp|]. intros _ D2 (Hu2 & _ & He2 & Ht2).
    apply wp_ret. apply (fail_post rc []); [done| |by rewrite He2, He1, app_nil_r|constructor].
    split; [|done]. unfold d_uapi in *. by rewrite Hu2, Hu1. }
  apply wp_bind, in_u_wp. eapply wp_mono; [apply (register_wp _ _ g1 Hg1); unfold d_uapi in *; by rewrite Hu1|].
  intros r u2 (Hg2 & Hr). destruct (Z.eqb_spec r 0) as [->|Hrn]; cbn [negb]; cycle 1.
  { apply wp_bind. eapply wp_mono; [apply trace_exit_wp|]. intros _ D2 (Hu2 & _ & He2 & Ht2).
    apply wp_ret. apply (fail_post r []); [done| |cbn in He2; by rewrite He2, He1, app_nil_r|constructor].
    split; [|done]. unfold d_uapi in *. by rewrite Hu2. }
  set (D2 := {| d_u := u2; d_trace := _; d_map := _; d_ev := _ |}).
  apply wp_bind. eapply wp_mono; [apply (probe_irq_wp D2 g1 Hg2); by rewrite Hirq, Hgeq|].
  intros r D3 (Hu3 & Ht3 & g3 & Hg3 & H3).
  destruct (Z.eqb_spec r 0) as [->|Hrn]; cbn [negb].
  - destruct H3 as (Hbuf & Hpos & Ha3 & Hs3 & Hhw & evs & He3 & Hty). apply wp_ret.
    exists g3, base, sz. rewrite Hhw. cbn [mailbox_mmio mailbox_size irq set_irq_num].
    rewrite Hm, Hs, Hs3, Hseq, Hgeq. split_and!; try done.
    + unfold all_gpios. rewrite Hhw. by apply Hall.
    + by rewrite Hu3.
    + rewrite Ht3. cbn. by rewrite Ht1.
    + exists evs. split; [done|]. rewrite He3. cbn. by rewrite He1, Hev.
  - destruct H3 as (evs & He3 & Hty). apply wp_bind, in_u_wp.
    eapply wp_mono; [by apply (unregister_wp _ g3)|]. intros _ u4 (Hg4 & Hoff4).
    apply wp_bind. eapply wp_mono; [apply trace_exit_wp|]. intros _ D5 (Hu5 & _ & He5 & Ht5).
    apply wp_ret. apply (fail_post r evs); [done| |cbn in He5; rewrite He5, He3; cbn; by rewrite He1, Hev|done].
    split; [|done]. unfold d_uapi. by rewrite Hu5.
Qed.

Lemma platform_probe_wp D0 :
  tr_inited (d_trace D0) = false → uapi_off (d_uapi D0) →
  wp gxfp_platform_probe (probe_post (d_ev D0)) D0.
Proof using KO EO PO.
  intros Ht Hoff. unfold gxfp_platform_probe. apply wp_bind, in_k_wp. eapply wp_eq; [apply kmalloc_run|].
  destruct (bool_decide _).
  { apply wp_ret, (fail_post _ []); [done|done|by rewrite app_nil_r|constructor]. }
  apply wp_bind, in_u_wp, wp_modw. cbv beta.
  destruct plat_mem_size as [sz|] eqn:Hsz; cycle 1.
  { apply wp_ret, (fail_post _ []); [done|done|by rewrite app_nil_r|constructor]. }
  destruct plat_ioremap as [e|base] eqn:Hbase.
  { pose proof (ioremap_err e Hbase).
    apply wp_ret, (fail_post _ []); [lia|done|by rewrite app_nil_r|constructor]. }
  apply wp_bind, in_k_wp, wp_modw. apply wp_bind, in_t_wp.
  eapply wp_mono; [by apply trace_init_wp|]. intros ? tr' Htr'.
  by eapply (probe_rest_wp base sz D0).
Qed.

(** Probing the platform device is all or nothing, whatever ACPI, the GPIO
    and interrupt subsystems, misc_register and the allocator answer. On success
    every resource is in place, with an empty queue, no assembly under way and
    the interrupt requested but not enabled. On any failure the character device
    is unregistered, its queue released, the trace closed, and no interrupt was
    requested. *)
Theorem platform_probe_all_or_nothing D0 :
  tr_inited (d_trace D0) = false → uapi_off (d_uapi D0) →
  ∃ r D, gxfp_platform_probe D0 = Some (r, D) ∧
    if r =? 0 then probed (d_ev D0) D
    else released D ∧ ∃ evs, d_ev D = d_ev D0 ++ evs ∧ only_types evs.
Proof using KO EO PO.
  intros Ht Hoff. destruct (wp_inv _ _ _ (platform_probe_wp D0 Ht Hoff)) as (r & D & HE & H). eauto.
Qed.

(** What the commands of the start-up cannot change. *)
Definition kept (hw : gxfp_hw) (g : gxfp_dev) : Prop :=
  dev_hw g = hw ∧ assem_active (dev_irq g) = false ∧ rx_cap (dev_irq g) = GXFP_IRQ_RX_CAP ∧
  ∃ b, rx_buf (dev_irq g) = Some b ∧ zlen b = GXFP_IRQ_RX_CAP.

Abbreviation fit base hw := (λ d, espi_fit size base d ∧ kept hw d).

Lemma kept_transport base hw : TransportOk (fit base hw).
Proof using EO. by apply (espi_transport_with (EO:=EO) base (kept hw)). Qed.

(** The window the platform gives is big enough. *)
Definition window_ok : Prop :=
  (∀ base, plat_ioremap = inr base → 0 <= base ∧ base + GXFP_MAILBOX_MIN_SIZE <= size) ∧
  (∀ sz, plat_mem_size = Some sz → GXFP_MAILBOX_MIN_SIZE <= sz).

Lemma remove_wp (D : dworld) g :
  d_dev D = Some g →
  wp gxfp_platform_remove (λ _ D', w_trace (u_k (d_u D')) = w_trace (u_k (d_u D)) ∧ released D' ∧
    d_ev D' = d_ev D ++ if 0 <? irq (dev_hw g)
                        then [PDisable (irq (dev_hw g)); PSync (irq (dev_hw g))] else []) D.
Proof.
  intros Hg. unfold gxfp_platform_remove. apply wp_bind, in_k_wp.
  eapply wp_eq; [by eapply gdev_null_run|]. cbn [negb when].
  apply wp_bind. eapply (wp_mono _ (λ _ D1, u_k (d_u D1) = u_k (d_u D) ∧
    d_ev D1 = d_ev D ++ if 0 <? irq (dev_hw g)
                        then [PDisable (irq (dev_hw g)); PSync (irq (dev_hw g))] else [])).
  { apply wp_bind, in_k_wp. eapply wp_eq; [by eapply gdev_run|].
    destruct (0 <? irq (dev_hw g)); cbn [when].
    - apply wp_bind, wp_modw, wp_modw. cbn [d_ev]. by rewrite <- app_assoc.
    - apply wp_ret. by rewrite app_nil_r. }
  intros _ D1 (Hg1 & He1). apply wp_bind. eapply wp_mono; [apply trace_exit_wp|].
  intros _ D2 (Hu2 & _ & He2 & Ht2). apply in_u_wp.
  eapply wp_mono; [apply (unregister_wp _ g); by rewrite Hu2, Hg1|].
  intros _ u3 (Hg3 & Hoff). cbn [d_u d_ev]. rewrite Hg3, Hu2, Hg1, He2. by split_and!.
Qed.

(** The device once [gxfp_probe] has returned 0: the receive path is as
    [KIrq.irq_idle] asks, the character device is open for business. *)
Definition running (D : dworld) : Prop :=
  ∃ base hw g, plat_ioremap = inr base ∧ d_dev D = Some g ∧ fit base hw g ∧
    irq_idle (size:=size) base GXFP_IRQ_RX_CAP (u_k (d_u D)) ∧ irq hw = plat_gpiod_to_irq ∧
    uapi_ready (d_uapi D) ∧ tr_inited (d_trace D) = true.

Definition no_enable (evs : list pevent) : Prop := Forall (λ e, ∀ i, e ≠ PEnable i) evs.

Lemma only_types_no_enable evs : only_types evs → no_enable evs.
Proof. intros H. eapply Forall_impl; [exact H|]. by intros e (i & t & ->). Qed.

(** The interrupt of a running device. *)
Definition enable_events : list pevent :=
  if 0 <? plat_gpiod_to_irq then [PEnable plat_gpiod_to_irq] else [].

Definition gxfp_probe_post (evs0 : list pevent) (r : Z) (D : dworld) : Prop :=
  if r =? 0 then
    running D ∧ (∃ v, queried v ∧ status v = 0) ∧
    ∃ evs, only_types evs ∧ d_ev D = evs0 ++ evs ++
      PRequest plat_gpiod_to_irq (Z.lor IRQF_ONESHOT IRQF_NO_AUTOEN) :: enable_events
  else released D ∧ ∃ evs, no_enable evs ∧ d_ev D = evs0 ++ evs.

Lemma s32_zero x : is_u32 x → s32 x = 0 → x = 0.
Proof. intros. zint. Qed.

Lemma probed_fit evs0 D :
  window_ok → probed evs0 D →
  ∃ g base hw, d_dev D = Some g ∧ plat_ioremap = inr base ∧ fit base hw g ∧
    gpio_read_done hw = true ∧ irq hw = plat_gpiod_to_irq.
Proof.
  intros (Hwin & Hsz) (g & base & sz & Hg & Hb & Hs & Hm & Hms & Hall & Hirq & _ & _ & Ha & Hbuf & _).
  destruct (Hwin base Hb). specialize (Hsz sz Hs). destruct Hbuf as (Hrb & Hrc & Hrt).
  exists g, base, (dev_hw g). split_and!; try done; [|by apply Hall].
  split; [unfold mapped; by rewrite Hms|done].
Qed.

Lemma gxfp_probe_wp D0 :
  window_ok → tr_inited (d_trace D0) = false → uapi_off (d_uapi D0) →
  wp gxfp_probe (gxfp_probe_post (d_ev D0)) D0.
Proof using KO EO PO.
  intros Hwin Ht Hoff. unfold gxfp_probe. apply wp_bind.
  eapply wp_mono; [by apply platform_probe_wp|]. intros r D1 H1. unfold probe_post in H1.
  destruct (Z.eqb_spec r 0) as [->|Hr]; cbn [negb]; cycle 1.
  { apply wp_ret. unfold gxfp_probe_post. rewrite (proj2 (Z.eqb_neq r 0)) by done.
    destruct H1 as (Hrel & evs & He & Hty). split; [done|]. exists evs. split; [|done].
    by apply only_types_no_enable. }
  destruct (probed_fit _ _ Hwin H1) as (g & base & hw & Hg & Hb & Hfit & Hrd & Hirq).
  destruct H1 as (_ & _ & _ & _ & _ & _ & _ & _ & _ & _ & _ & _ & _ & _ & Hup & Htr & evs & Hty & He).
  apply wp_bind, in_k_wp. eapply wp_mono; [by apply (startup_wp (T:=kept_transport base hw) _ g)|].
  intros r k2 (Hc2 & v & (Hv32 & Hv) & ->).
  destruct (continues_dev _ _ _ _ Hc2) as (g2 & Hg2 & Hfit2).
  pose proof Hfit2 as ((Hmap & t & Htt & Htl) & Hhw & Ha2 & Hrc2 & b & Hrb & Hbl).
  set (D2 := {| d_u := _; d_trace := _; d_map := _; d_ev := _ |}).
  destruct (Z.eqb_spec (status v) 0) as [Hs|Hs]; cbn [Z.eqb negb].
  - apply wp_bind, in_k_wp. eapply wp_eq; [by eapply gdev_null_run|]. cbn [negb when].
    apply wp_bind. eapply (wp_mono _ (λ _ D3, d_u D3 = d_u D2 ∧ d_trace D3 = d_trace D1 ∧
      d_ev D3 = d_ev D1 ++ enable_events)).
    { apply wp_bind, in_k_wp. eapply wp_eq; [by eapply gdev_run|].
      unfold enable_events. rewrite Hhw, Hirq.
      destruct (0 <? plat_gpiod_to_irq); cbn [when]; [by apply wp_modw|].
      apply wp_ret. by rewrite app_nil_r. }
    intros _ D3 (Hu3 & Ht3 & He3). apply wp_ret. split; [|split; [by exists v|]].
    + exists base, hw, g2. unfold d_dev, d_uapi. rewrite Hu3, Ht3. split_and!; try done; try apply Hfit2.
      exists g2, t, b. rewrite Hhw. by split_and!.
    + exists evs. split; [done|]. rewrite He3, He. by rewrite <- !app_assoc.
  - assert (Hne : s32 (status v) ≠ 0) by (intros H0; by apply Hs, s32_zero).
    rewrite (proj2 (Z.eqb_neq _ 0) Hne). cbn [negb].
    apply wp_bind. eapply wp_mono; [by apply (remove_wp D2 g2)|]. intros _ D3 (_ & Hrel & He3).
    apply wp_ret. unfold gxfp_probe_post. rewrite (proj2 (Z.eqb_neq _ 0) Hne). split; [done|].
    cbn [d_ev D2] in He3. rewrite He, <- !app_assoc in He3. eexists. split; [|exact He3].
    apply Forall_app. split; [by apply only_types_no_enable|]. constructor; [done|].
    destruct (0 <? irq (dev_hw g2)); by repeat constructor.
Qed.

(** C6: probing the driver either leaves a running device (mailbox and buffers
    ready for the interrupt thread, an empty read queue, a firmware version
    that was read with status 0, and the interrupt enabled last), or undoes
    everything and never enables the interrupt. No sensor makes it undefined. *)
Theorem probe_runs_or_undoes D0 :
  window_ok → tr_inited (d_trace D0) = false → uapi_off (d_uapi D0) →
  ∃ r D, gxfp_probe D0 = Some (r, D) ∧ gxfp_probe_post (d_ev D0) r D.
Proof using KO EO PO.
  intros Hw Ht Hoff. destruct (wp_inv _ _ _ (gxfp_probe_wp D0 Hw Ht Hoff)) as (r & D & HE & H). eauto.
Qed.

(** Removing a running device notifies the sensor and puts it to sleep (at
    most two packets), then disables its interrupt and waits for the handler,
    before the trace is closed and the character device unregistered. *)
Theorem remove_undoes D :
  running D →
  ∃ D', gxfp_remove D = Some ((), D') ∧ released D' ∧
    d_ev D' = d_ev D ++ (if 0 <? plat_gpiod_to_irq
                         then [PDisable plat_gpiod_to_irq; PSync plat_gpiod_to_irq] else []) ∧
    ∃ s, w_trace (u_k (d_u D')) = w_trace (u_k (d_u D)) ++ s ∧ sends s <= 2.
Proof using EO.
  intros (base & hw & g & _ & Hg & Hfit & _ & Hirq & _). pose proof Hfit as (_ & Hhw & _).
  assert (Hw : wp gxfp_remove (λ _ D', released D' ∧
    d_ev D' = d_ev D ++ (if 0 <? plat_gpiod_to_irq
                         then [PDisable plat_gpiod_to_irq; PSync plat_gpiod_to_irq] else []) ∧
    ∃ s, w_trace (u_k (d_u D')) = w_trace (u_k (d_u D)) ++ s ∧ sends s <= 2) D).
  { unfold gxfp_remove. apply wp_bind, in_k_wp.
    eapply wp_mono; [by apply (shutdown_wp (T:=kept_transport base hw) _ g)|].
    intros _ k2 (g2 & s & Hg2 & (_ & Hhw2 & _) & Htr & Hs).
    set (D2 := {| d_u := _; d_trace := _; d_map := _; d_ev := _ |}).
    eapply wp_mono; [by apply (remove_wp D2 g2)|]. intros _ D3 (Htr3 & Hrel & He3).
    split; [done|]. rewrite Hhw2, Hirq in He3. split; [exact He3|]. exists s. by rewrite Htr3. }
  destruct (wp_inv _ _ _ Hw) as ([] & D' & HE & H). eauto.
Qed.
End probe.

(** * A platform with one sensor *)

Definition demo_gpio (kind : Z) : acpi_resource :=
  AcpiGpio {| pin_table := [3]; connection_type := kind; polarity := 0 |}.

(** The descriptors appear once the mapping is installed. *)
Definition demo_platform : Platform :=
  {| acpi_companion := true;
     acpi_crs := [demo_gpio 1; AcpiOther; demo_gpio 0; demo_gpio 1];
     acpi_crs_rc := 2; acpi_device_hid := Some [71; 88; 70; 80; 0];
     plat_mem_size := Some 4096; plat_ioremap := inr 0;
     plat_gpiod_get m _ := if bool_decide (m = None) then inl (- ENOENT) else inr true;
     plat_add_gpios _ := 0; plat_gpiod_to_irq := 17; plat_trigger_type _ := 0;
     plat_request_irq := 0; plat_misc_register := 0; plat_debugfs := true |}.

Lemma demo_platform_ok : PlatformOk demo_platform.
Proof. split; [done|]. intros m n e. cbn. case_bool_decide; [by intros [= <-]|done]. Qed.

(** Before the probe. *)
Definition demo_dworld : dworld (K:=list_kfifo) :=
  {| d_u := {| u_k := {| w_dev := None; w_trace := []; w_oom := [] |};
               u_uapi := {| misc_registered := false; rxq_fifo := (0, []) : Z * bytes;
                            rxq_buf := false; rxq_inited := false; rxq_reader_open := false |} |};
     d_trace := {| tr_inited := false; tr_enabled := false; tr_seq := 0; tr_head := 0;
                   tr_count := 0; tr_lines := []; tr_dir := false |};
     d_map := None; d_ev := [] |}.

Lemma acpi_indexes_spec_witness :
  gxfp_acpi_get_gpio_crs_indexes (P:=demo_platform) true (Some (0, [0; 0], true))
  = Some (0, Some (1, [0; 2], false)).
Proof. rewrite (acpi_indexes_spec (P:=demo_platform) (0, [0; 0], true) eq_refl). vm_compute. reflexivity. Defined.

Lemma platform_probe_all_or_nothing_witness :
  ∃ r D, gxfp_platform_probe (E:=demo_env) (P:=demo_platform) demo_dworld = Some (r, D) ∧
    if r =? 0 then probed (KO:=list_kfifo_ok) (P:=demo_platform) [] D
    else released D ∧ ∃ evs, d_ev D = [] ++ evs ∧ only_types evs.
Proof.
  apply (platform_probe_all_or_nothing (KO:=list_kfifo_ok) (EO:=demo_env_ok)
           (PO:=demo_platform_ok) demo_dworld).
  - reflexivity.
  - split; reflexivity.
Defined.

Lemma demo_window : window_ok (size:=4096) (P:=demo_platform).
Proof. split; [by intros base [= <-]|by intros sz [= <-]]. Qed.

Lemma probe_runs_or_undoes_witness :
  ∃ r D, gxfp_probe (E:=demo_env) (P:=demo_platform) demo_dworld = Some (r, D) ∧
    gxfp_probe_post (KO:=list_kfifo_ok) (E:=demo_env) (size:=4096) (P:=demo_platform) [] r D.
Proof.
  apply (probe_runs_or_undoes (KO:=list_kfifo_ok) (EO:=demo_env_ok)
           (PO:=demo_platform_ok) demo_dworld).
  - exact demo_window.
  - reflexivity.
  - split; reflexivity.
Defined.

(** A running device with the receive buffer [b]. *)
Definition demo_running_dev (b : bytes) : gxfp_dev :=
  {| mailbox_seq16 := GXFP_ESPI_SEQ16_INIT;
     dev_hw := {| mailbox_mmio := Some 0; mailbox_size := 4096; gpio_write_done := true;
                  gpio_read_done := true; gpio_irq := true; irq := 17 |};
     dev_irq := {| rx_buf := Some b; rx_cap := GXFP_IRQ_RX_CAP;
                   rx_tmp := Some (zeros 3584); assem_active := false; assem_total := 0;
                   assem_copied := 0 |} |}.

Definition demo_running (b : bytes) : dworld (K:=list_kfifo) :=
  {| d_u := {| u_k := {| w_dev := Some (demo_running_dev b); w_trace := []; w_oom := [] |};
               u_uapi := {| misc_registered := true; rxq_fifo := (GXFP_RXQ_FIFO_BYTES, []) : Z * bytes;
                            rxq_buf := true; rxq_inited := true; rxq_reader_open := false |} |};
     d_trace := demo_trace; d_map := None; d_ev := [] |}.

Lemma demo_running_ok b :
  zlen b = GXFP_IRQ_RX_CAP →
  running (KO:=list_kfifo_ok) (size:=4096) (P:=demo_platform) (demo_running b).
Proof.
  intros Hb. assert (Ht : zlen (zeros 3584) = GXFP_ESPI_CHUNK_MAX) by (by vm_compute).
  exists 0, (dev_hw (demo_running_dev b)), (demo_running_dev b).
  split; [reflexivity|]. split; [reflexivity|].
  split; [split; [split; [by vm_compute|by exists (zeros 3584)]|]|].
  { repeat split. by exists b. }
  split; [|by vm_compute]. exists (demo_running_dev b), (zeros 3584), b.
  repeat split; try assumption; by vm_compute.
Qed.

Lemma remove_undoes_witness :
  ∃ D', gxfp_remove (E:=demo_env) (demo_running (zeros GXFP_IRQ_RX_CAP)) = Some ((), D') ∧ released D' ∧
    d_ev D' = [PDisable 17; PSync 17].
Proof.
  destruct (remove_undoes (KO:=list_kfifo_ok) (EO:=demo_env_ok) (P:=demo_platform)
    (demo_running (zeros GXFP_IRQ_RX_CAP))) as (D' & HE & Hr & He & _).
  { apply demo_running_ok, zlen_zeros. vm_compute. discriminate. }
  exists D'. split; [exact HE|]. split; [exact Hr|]. rewrite He. reflexivity.
Defined.
