(* ===== verification/UWorld.v ===== *)
(** What is around the library of [userspace/src]: the system calls it makes,
    the clocks it reads and the memory it is given. The answers of the system are
    the interface [Uenv], functions of the calls made so far; its documented
    behaviour is [UenvOk], and [UclockOk] says that time passes. *)
From Stdlib Require Import ZArith Lia.
From stdpp Require Import prelude list.
From S2P Require Import Prelude.

Open Scope Z_scope.

(** * The world *)

Inductive clockid := CLOCK_MONOTONIC | CLOCK_REALTIME.

Inductive uevent :=
| EvOpen (path : bytes) (flags : Z)
| EvFcntl (fd cmd arg : Z)
| EvPoll (fd timeout_ms : Z)
| EvRead (fd cap : Z)
| EvWrite (fd : Z) (b : bytes)
| EvIoctl (fd req : Z)
| EvClose (fd : Z)
| EvClock (c : clockid).

(** [l_dev] is the [struct gxfp_dev] the library is called with, its [fd]; the
    trace holds the calls made, the oldest first; [l_oom] says which of the next
    allocations fail. *)
Record lworld := {
  l_dev : ptr Z;
  l_trace : list uevent;
  l_oom : list bool
}.

(** The answers of the system to the last call of a trace. A negative answer
    [- e] is the result -1 with [errno = e]; [read] answers [inl e] for that. *)
Class Uenv := {
  sys_open : list uevent → Z;
  sys_fcntl : list uevent → Z;
  sys_poll : list uevent → Z * Z;
  sys_read : list uevent → Z + bytes;
  sys_write : list uevent → Z;
  sys_ioctl : list uevent → Z;
  sys_clock : clockid → list uevent → Z * Z;
  u_uninit : list uevent → Z → bytes
}.

(** [read] delivers at most the bytes asked for, and error numbers are in the
    range of the Linux ABI. *)
Class UenvOk (E : Uenv) := {
  read_ok : ∀ tr fd cap b, 0 <= cap → sys_read (tr ++ [EvRead fd cap]) = inr b →
    bytes_ok b ∧ zlen b <= cap;
  read_errno : ∀ tr fd cap e, sys_read (tr ++ [EvRead fd cap]) = inl e → 0 < e <= 4095;
  u_uninit_len : ∀ tr n, 0 <= n → zlen (u_uninit tr n) = n;
  u_uninit_bytes : ∀ tr n, bytes_ok (u_uninit tr n)
}.

Section calls.
Context {E : Uenv}.

Definition uemit (e : uevent) : M lworld () := modw (λ w,
  {| l_dev := l_dev w; l_trace := l_trace w ++ [e]; l_oom := l_oom w |}).

(** Make a system call and take its answer. *)
Definition syscall {A} (e : uevent) (ans : list uevent → A) : M lworld A :=
  uemit e;; gets (λ w, ans (l_trace w)).

(** [malloc]: fails when the schedule says so; the memory is not cleared. *)
Definition umalloc (n : Z) : M lworld (ptr bytes) := λ w,
  let w' := {| l_dev := l_dev w; l_trace := l_trace w; l_oom := tail (l_oom w) |} in
  match l_oom w with
  | true :: _ => Some (None, w')
  | _ => Some (Some (u_uninit (l_trace w) n), w')
  end.

(** [calloc] of one structure: whether it succeeds. *)
Definition ucalloc_struct : M lworld bool := p ← umalloc 0; mret (negb (bool_decide (p = None))).

(** An array on the stack with no initialiser. *)
Definition u_stack (n : Z) : M lworld bytes := gets (λ w, u_uninit (l_trace w) n).

Definition set_fd (fd : Z) : M lworld () := modw (λ w,
  {| l_dev := Some fd; l_trace := l_trace w; l_oom := l_oom w |}).

(** [gxfp_monotonic_ms] (algo/common.c): the seconds and nanoseconds of the
    clock in milliseconds. *)
Definition gxfp_monotonic_ms : M lworld Z :=
  ts ← syscall (EvClock CLOCK_MONOTONIC) (sys_clock CLOCK_MONOTONIC);
  mret (ts.1 * 1000 + Z.quot ts.2 1000000).

(** The time the clock shows at a point of the trace. *)
Definition ms_at (tr : list uevent) : Z :=
  let ts := sys_clock CLOCK_MONOTONIC tr in ts.1 * 1000 + Z.quot ts.2 1000000.
End calls.

(** Time never goes back, and [B] calls to the system take at least one
    millisecond. *)
Class UclockOk (E : Uenv) (B : nat) := {
  clock_mono : ∀ tr evs, ms_at tr <= ms_at (tr ++ evs);
  clock_runs : ∀ tr evs, (B <= length evs)%nat → ms_at tr + 1 <= ms_at (tr ++ evs)
}.

(** The reads of [evs], made after [tr], that delivered something. *)
Fixpoint delivered {E : Uenv} (tr evs : list uevent) : nat :=
  match evs with
  | [] => 0
  | e :: evs =>
    (match e with
     | EvRead _ _ => match sys_read (tr ++ [e]) with inr _ => 1 | inl _ => 0 end
     | _ => 0
     end + delivered (tr ++ [e]) evs)%nat
  end.

(** The device delivers at most [N] times in a run. *)
Class UfiniteOk (E : Uenv) (N : nat) := {
  delivered_max : ∀ tr, (delivered [] tr <= N)%nat
}.

(** * Lemmas *)

(** The world after some more calls. *)
Definition calls (evs : list uevent) (w : lworld) : lworld :=
  {| l_dev := l_dev w; l_trace := l_trace w ++ evs; l_oom := l_oom w |}.

Definition pop_alloc (w : lworld) : lworld :=
  {| l_dev := l_dev w; l_trace := l_trace w; l_oom := tail (l_oom w) |}.

Definition with_fd (fd : Z) (w : lworld) : lworld :=
  {| l_dev := Some fd; l_trace := l_trace w; l_oom := l_oom w |}.

Lemma calls_nil w : calls [] w = w.
Proof. unfold calls. rewrite app_nil_r. by destruct w. Qed.

Lemma calls_calls a b w : calls a (calls b w) = calls (b ++ a) w.
Proof. unfold calls. cbn. by rewrite app_assoc. Qed.

(** A computation whose result is given as a pair. *)
Lemma wp_run {W A} (m : M W A) p Q w : m w = Some p → Q p.1 p.2 → wp m Q w.
Proof. unfold wp. intros ->. by destruct p. Qed.

Section call_rules.
Context {E : Uenv}.

Lemma syscall_run {A} e (ans : list uevent → A) w :
  syscall e ans w = Some (ans (l_trace w ++ [e]), calls [e] w).
Proof. done. Qed.

Lemma umalloc_run n w :
  umalloc n w = Some (match l_oom w with
                      | true :: _ => None
                      | _ => Some (u_uninit (l_trace w) n)
                      end, pop_alloc w).
Proof. unfold umalloc, pop_alloc. by destruct (l_oom w) as [|[] l]. Qed.

Lemma monotonic_run w :
  gxfp_monotonic_ms w
  = Some (ms_at (l_trace w ++ [EvClock CLOCK_MONOTONIC]), calls [EvClock CLOCK_MONOTONIC] w).
Proof. done. Qed.

Lemma wp_syscall {A} e (ans : list uevent → A) Q w :
  Q (ans (l_trace w ++ [e])) (calls [e] w) → wp (syscall e ans) Q w.
Proof. done. Qed.

Lemma wp_monotonic Q w :
  Q (ms_at (l_trace w ++ [EvClock CLOCK_MONOTONIC])) (calls [EvClock CLOCK_MONOTONIC] w) →
  wp gxfp_monotonic_ms Q w.
Proof. done. Qed.

Lemma calloc_struct_wp Q w :
  (∀ ok, Q ok (pop_alloc w)) → wp ucalloc_struct Q w.
Proof.
  intros HQ. unfold ucalloc_struct. apply wp_bind. eapply wp_run; [apply umalloc_run|]. apply wp_ret, HQ.
Qed.

Lemma malloc_wp {EO : UenvOk E} n Q w :
  (l_oom w ≠ [] → Q None (pop_alloc w)) → (∀ b, (0 <= n → zlen b = n) → bytes_ok b → Q (Some b) (pop_alloc w)) →
  wp (umalloc n) Q w.
Proof.
  intros H0 H1. eapply wp_run; [apply umalloc_run|].
  destruct (l_oom w) as [|[] oom]; cbn [fst snd]; [|by apply H0|]; apply H1;
    (intros; by apply u_uninit_len) || apply u_uninit_bytes.
Qed.

Lemma delivered_app tr a b : delivered tr (a ++ b) = (delivered tr a + delivered (tr ++ a) b)%nat.
Proof.
  revert tr. induction a as [|e a IH]; intros tr; cbn [app delivered]; [by rewrite app_nil_r|].
  rewrite IH, <- app_assoc. cbn [app]. lia.
Qed.

(** [extends w w']: [w'] comes after [w]: more calls were made, and some of the
    allocations were used up. *)
Definition extends (w w' : lworld) : Prop :=
  l_dev w' = l_dev w ∧ (∃ used, l_oom w = used ++ l_oom w') ∧ ∃ evs, l_trace w' = l_trace w ++ evs.

Lemma extends_refl w : extends w w.
Proof. split; [done|]. split; exists []; [done|by rewrite app_nil_r]. Qed.

Lemma extends_trans w1 w2 w3 : extends w1 w2 → extends w2 w3 → extends w1 w3.
Proof.
  intros (H1 & (o1 & O1) & e1 & E1) (H2 & (o2 & O2) & e2 & E2). split; [congruence|]. split.
  - exists (o1 ++ o2). by rewrite O1, O2, app_assoc.
  - exists (e1 ++ e2). by rewrite E2, E1, app_assoc.
Qed.

Lemma extends_calls evs w : extends w (calls evs w).
Proof. split; [done|]. split; [by exists []|by exists evs]. Qed.

Lemma extends_pop w : extends w (pop_alloc w).
Proof.
  split; [done|]. split; [|exists []; by rewrite app_nil_r].
  unfold pop_alloc. destruct (l_oom w) as [|o l]; [by exists []|by exists [o]].
Qed.

Lemma extends_oom w w' : extends w w' → l_oom w = [] → l_oom w' = [].
Proof. intros (_ & (used & ->) & _) Ho. by apply app_eq_nil in Ho as (_ & ->). Qed.
End call_rules.

#[export] Hint Resolve extends_refl extends_calls extends_pop : gxfp.
#[export] Instance extends_preorder : PreOrder extends.
Proof. split; [exact extends_refl|exact extends_trans]. Qed.

(** * A concrete system

    [script_env reads ms writes] answers the reads from a script, each call
    taking [1] millisecond, and accepts everything written. *)

Definition reads_made (tr : list uevent) : nat :=
  length (List.filter (λ e, match e with EvRead _ _ => true | _ => false end) tr).

Lemma reads_made_snoc tr e :
  reads_made (tr ++ [e])
  = (reads_made tr + match e with EvRead _ _ => 1 | _ => 0 end)%nat.
Proof.
  unfold reads_made. rewrite List.filter_app, length_app. f_equal. by destruct e.
Qed.

(** Answer number [n] of the script, cut at what was asked for; then nothing. *)
Definition script_read (script : list bytes) (tr : list uevent) : Z + bytes :=
  match last tr with
  | Some (EvRead _ cap) =>
    match script !! (reads_made tr - 1)%nat with
    | Some b => inr (ztake cap b)
    | None => inl EAGAIN
    end
  | _ => inl EAGAIN
  end.

Definition script_env (script : list bytes) : Uenv :=
  {| sys_open := λ _, 3;
     sys_fcntl := λ _, 0;
     sys_poll := λ tr, (if (reads_made tr <? length script)%nat then 1 else 0, 1);
     sys_read := script_read script;
     sys_write := λ tr, match last tr with Some (EvWrite _ b) => zlen b | _ => 0 end;
     sys_ioctl := λ _, 0;
     sys_clock := λ _ tr, (zlen tr / 1000, zlen tr mod 1000 * 1000000);
     u_uninit := λ _ n, zeros n |}.

#[export] Instance script_env_ok script :
  Forall bytes_ok script → UenvOk (script_env script).
Proof.
  intros Hs. split; intros tr.
  - intros fd cap b Hcap. cbn. unfold script_read. rewrite last_snoc.
    destruct (script !! _) as [b'|] eqn:Hb; [|done]. intros [= <-].
    split; [by apply bytes_ok_ztake, (Forall_lookup_1 _ _ _ _ Hs Hb)|].
    unfold zlen, ztake. rewrite length_take. lia.
  - intros fd cap e. cbn. unfold script_read. rewrite last_snoc.
    destruct (script !! _); [done|]. intros [= <-]. done.
  - intros n Hn. by apply zlen_zeros.
  - intros n. apply bytes_ok_zeros.
Qed.

#[export] Instance script_env_clock script : UclockOk (script_env script) 1.
Proof.
  assert (Hms : ∀ tr, ms_at (E:=script_env script) tr = zlen tr).
  { intros tr. unfold ms_at. cbn. pose proof (zlen_nonneg tr).
    rewrite Z.quot_mul by lia. zdm. }
  split; intros tr evs; rewrite !Hms, zlen_app; unfold zlen; lia.
Qed.

Lemma script_delivered script evs tr :
  (delivered (E:=script_env script) tr evs <= length script - reads_made tr)%nat.
Proof.
  revert tr. induction evs as [|e evs IH]; intros tr; cbn [delivered]; [lia|].
  specialize (IH (tr ++ [e])). rewrite reads_made_snoc in IH.
  destruct e; try (rewrite Nat.add_0_r in IH; lia).
  cbn [sys_read script_env]. unfold script_read. rewrite last_snoc, reads_made_snoc.
  replace (reads_made tr + 1 - 1)%nat with (reads_made tr) by lia.
  destruct (script !! reads_made tr) eqn:Hs; [|lia].
  apply lookup_lt_Some in Hs. lia.
Qed.

#[export] Instance script_env_finite script : UfiniteOk (script_env script) (length script).
Proof. split. intros tr. pose proof (script_delivered script tr []) as H. cbn in H. lia. Qed.
