(* ===== verification/UDev.v ===== *)
(** The library's access to the driver's character device:
    [userspace/src/io/dev.c]. *)
From Stdlib Require Import ZArith Lia.
From stdpp Require Import prelude list.
From S2P Require Import Prelude KMpProto KWorld KEspi KUapi UGoodixProto UWorld.

Open Scope Z_scope.

Definition GXFP_IOCTL_TAP_PAYLOAD_MAX : Z := 131072.

(** open(2), fcntl(2) and poll(2) constants of the Linux ABI. *)
Definition O_NONBLOCK : Z := 2048.
Definition O_CLOEXEC : Z := 524288.
Definition F_GETFL : Z := 3.
Definition F_SETFL : Z := 4.
Definition POLL_ERR_BITS : Z := 56. (* POLLERR | POLLHUP | POLLNVAL *)

(** The fields of a record header, from its bytes. *)
Definition tap_hdr_of (b : bytes) : option gxfp_tap_hdr :=
  len ← slice b 0 4;
  ty ← slice b 4 4;
  rs ← slice b 8 4;
  ts ← slice b 16 8;
  head ← slice b 24 16;
  Some {| th_len := le_dec len; th_type := le_dec ty; th_rsvd0 := le_dec rs;
          th_ts_ns := le_dec ts; th_head16 := head |}.

Definition parse_tap_record (data : ptr bytes) (len : Z) (out_hdr : ptr gxfp_tap_hdr)
    (out_payload : ptr (ptr bytes)) (out_payload_len : ptr Z)
    : option (Z * ptr gxfp_tap_hdr * ptr (ptr bytes) * ptr Z) :=
  match data with
  | None => Some (- EINVAL, out_hdr, out_payload, out_payload_len)
  | Some d =>
    if len <? TAP_HDR_SIZE then Some (- EBADMSG, out_hdr, out_payload, out_payload_len) else
    h ← slice d 0 TAP_HDR_SIZE;
    hdr ← tap_hdr_of h;
    let need := TAP_HDR_SIZE + th_len hdr in
    if negb (need =? len) then Some (- EBADMSG, out_hdr, out_payload, out_payload_len) else
    Some (0, setp out_hdr hdr, setp out_payload (Some (zdrop TAP_HDR_SIZE d)),
          setp out_payload_len (th_len hdr))
  end.

(** The bytes of a header handed to write(2). *)
Definition tx_pkt_hdr_bytes (h : gxfp_tx_pkt_hdr) : bytes :=
  tx_mp_flags h :: tx_pad0 h :: le_enc 2 (tx_payload_len h) ++ le_enc 4 (tx_flags h).

Section dev.
Context {E : Uenv}.

(** [!dev || dev->fd < 0] *)
Definition dev_closed : M lworld bool := gets (λ w,
  match l_dev w with
  | None => true
  | Some fd => fd <? 0
  end).

Definition dev_fd : M lworld Z := w ← getw; lift (l_dev w).

Definition gxfp_dev_open (path : ptr bytes) (flags : Z) : M lworld Z :=
  w ← getw;
  match l_dev w, path with
  | Some _, Some path =>
    fd ← syscall (EvOpen path (Z.lor flags O_CLOEXEC)) sys_open;
    if fd <? 0 then set_fd (- 1);; mret fd
    else set_fd fd;; mret 0
  | _, _ => mret (- EINVAL)
  end.

Definition gxfp_dev_set_nonblock (nonblock : bool) : M lworld Z :=
  closed ← dev_closed;
  if (closed : bool) then mret (- EINVAL) else
  fd ← dev_fd;
  flags ← syscall (EvFcntl fd F_GETFL 0) sys_fcntl;
  if flags <? 0 then mret flags else
  let flags := if nonblock then Z.lor flags O_NONBLOCK else Z.ldiff flags O_NONBLOCK in
  r ← syscall (EvFcntl fd F_SETFL flags) sys_fcntl;
  if negb (r =? 0) then mret r else
  mret 0.

Definition gxfp_dev_poll_readable (timeout_ms : Z) : M lworld Z :=
  closed ← dev_closed;
  if (closed : bool) then mret (- EINVAL) else
  fd ← dev_fd;
  '(r, revents) ← syscall (EvPoll fd timeout_ms) sys_poll;
  if r <? 0 then mret r else
  if r =? 0 then mret (- EAGAIN) else
  if negb (Z.land revents POLL_ERR_BITS =? 0) then mret (- EIO) else
  mret 0.

Definition gxfp_dev_close : M lworld () :=
  w ← getw;
  match l_dev w with
  | None => mret ()
  | Some fd =>
    (if 0 <=? fd then uemit (EvClose fd) else mret ());;
    set_fd (- 1)
  end.

(** [buf] receives what was read. *)
Definition gxfp_dev_read_record (buf : ptr bytes) (buf_cap : Z) (out_hdr : ptr gxfp_tap_hdr)
    (out_payload : ptr (ptr bytes)) (out_payload_len : ptr Z)
    : M lworld (Z * ptr bytes * ptr gxfp_tap_hdr * ptr (ptr bytes) * ptr Z) :=
  closed ← dev_closed;
  match buf with
  | Some b =>
    if (closed : bool) || (buf_cap =? 0)
    then mret (- EINVAL, buf, out_hdr, out_payload, out_payload_len) else
    fd ← dev_fd;
    r ← syscall (EvRead fd buf_cap) sys_read;
    match r with
    | inl errno => mret (- errno, buf, out_hdr, out_payload, out_payload_len)
    | inr got =>
      b ← lift (blit b 0 got);
      if zlen got =? 0 then mret (- EAGAIN, Some b, out_hdr, out_payload, out_payload_len) else
      '(pr, out_hdr, out_payload, out_payload_len) ←
        lift (parse_tap_record (Some b) (zlen got) out_hdr out_payload out_payload_len);
      if pr <? 0 then mret (pr, Some b, out_hdr, out_payload, out_payload_len) else
      mret (zlen got, Some b, out_hdr, out_payload, out_payload_len)
    end
  | None => mret (- EINVAL, buf, out_hdr, out_payload, out_payload_len)
  end.

Definition gxfp_dev_flush_rxq : M lworld Z :=
  closed ← dev_closed;
  if (closed : bool) then mret (- EINVAL) else
  fd ← dev_fd;
  r ← syscall (EvIoctl fd GXFP_IOCTL_FLUSH_RXQ) sys_ioctl;
  if negb (r =? 0) then mret r else
  mret 0.

Definition gxfp_dev_send_packet (mp_type : Z) (payload : ptr bytes) (payload_len : Z)
    : M lworld Z :=
  closed ← dev_closed;
  if (closed : bool) then mret (- EINVAL) else
  if negb (payload_len =? 0) && bool_decide (payload = None) then mret (- EINVAL) else
  if GXFP_IOCTL_TX_PAYLOAD_MAX <? payload_len then mret (- EMSGSIZE) else
  let total := TX_PKT_HDR_SIZE + payload_len in
  buf ← umalloc total;
  match buf with
  | None => mret (- ENOMEM)
  | Some b =>
    let txh := {| tx_mp_flags := GOODIX_MP_FLAGS_FROM_TYPE mp_type; tx_pad0 := 0;
                  tx_payload_len := payload_len; tx_flags := 0 |} in
    b ← lift (blit b 0 (tx_pkt_hdr_bytes txh));
    b ← lift (if negb (payload_len =? 0)
              then p ← payload; memcpy b TX_PKT_HDR_SIZE p 0 payload_len
              else Some b);
    fd ← dev_fd;
    sent ← lift (slice b 0 total);
    wr ← syscall (EvWrite fd sent) sys_write;
    if wr <? 0 then mret wr else
    if negb (wr =? total) then mret (- EIO) else
    mret 0
  end.
End dev.

(** * Lemmas *)

(** A header as the driver fills it: every field in its width. *)
Definition hdr_ok (h : gxfp_tap_hdr) : Prop :=
  is_u32 (th_len h) ∧ is_u32 (th_type h) ∧ is_u32 (th_rsvd0 h) ∧ is_u64 (th_ts_ns h) ∧
  zlen (th_head16 h) = 16.

Lemma le_dec_small n v : 0 <= v < 256 ^ Z.of_nat n → le_dec (le_enc n v) = v.
Proof. intros. rewrite le_dec_enc. by apply Z.mod_small. Qed.

Lemma tap_hdr_roundtrip h : hdr_ok h → tap_hdr_of (tap_hdr_bytes h) = Some h.
Proof.
  intros (Hl & Ht & Hr & Hs & Hh). unfold tap_hdr_of, tap_hdr_bytes.
  set (a := le_enc 4 (th_len h)). set (b := le_enc 4 (th_type h)).
  set (c := le_enc 4 (th_rsvd0 h)). set (t := le_enc 8 (th_ts_ns h)).
  assert (S1 : slice (a ++ b ++ c ++ zeros 4 ++ t ++ th_head16 h) 0 4 = Some a)
    by (by apply slice_prefix).
  assert (S2 : slice (a ++ b ++ c ++ zeros 4 ++ t ++ th_head16 h) 4 4 = Some b)
    by (by apply slice_app).
  assert (S3 : slice (a ++ b ++ c ++ zeros 4 ++ t ++ th_head16 h) 8 4 = Some c)
    by (rewrite (app_assoc a); by apply slice_app).
  assert (S4 : slice (a ++ b ++ c ++ zeros 4 ++ t ++ th_head16 h) 16 8 = Some t)
    by (rewrite (app_assoc c), (app_assoc b), (app_assoc a); by apply slice_app).
  assert (S5 : slice (a ++ b ++ c ++ zeros 4 ++ t ++ th_head16 h) 24 16 = Some (th_head16 h)).
  { rewrite (app_assoc (zeros 4)), (app_assoc c), (app_assoc b), (app_assoc a).
    rewrite <- (app_nil_r (th_head16 h)) at 1. by apply slice_app. }
  rewrite S1, S2, S3, S4, S5. cbn [mbind option_bind]. unfold a, b, c, t.
  rewrite !le_dec_small by done. by destruct h.
Qed.

Lemma parse_tap_run r rest len o op ol :
  rec_ok r → hdr_ok r.1 →
  parse_tap_record (Some (rec_bytes r ++ rest)) len o op ol
  = Some (if len =? TAP_HDR_SIZE + zlen r.2
          then (0, setp o r.1, setp op (Some (r.2 ++ rest)), setp ol (zlen r.2))
          else (- EBADMSG, o, op, ol)).
Proof.
  intros (Hl & Hb & Hh) Hok. unfold parse_tap_record. pose proof (zlen_nonneg r.2).
  assert (HT : zlen (tap_hdr_bytes r.1) = TAP_HDR_SIZE) by by apply zlen_tap_hdr.
  destruct (Z.ltb_spec len TAP_HDR_SIZE).
  { by rewrite (proj2 (Z.eqb_neq len _)) by lia. }
  unfold rec_bytes. rewrite <- app_assoc.
  rewrite slice_prefix by done. cbn [mbind option_bind].
  rewrite tap_hdr_roundtrip by done. cbn [mbind option_bind]. rewrite Hl, Z.eqb_sym.
  destruct (len =? _); cbn [negb]; [|done]. by rewrite zdrop_app.
Qed.

(** On any bytes the parser is defined, and what it accepts is exactly the header
    and a payload of the announced length. *)
Lemma parse_tap_total d len o op ol :
  0 <= len <= zlen d →
  ∃ r o' op' ol', parse_tap_record (Some d) len o op ol = Some (r, o', op', ol') ∧
    (r < 0 → o' = o ∧ op' = op ∧ ol' = ol ∧ r = - EBADMSG) ∧
    (0 <= r → r = 0 ∧ TAP_HDR_SIZE <= len ∧ (∃ h, o' = setp o h ∧ th_len h = len - TAP_HDR_SIZE) ∧
       op' = setp op (Some (zdrop TAP_HDR_SIZE d)) ∧ ol' = setp ol (len - TAP_HDR_SIZE)).
Proof.
  intros Hlen. unfold parse_tap_record. destruct (Z.ltb_spec len TAP_HDR_SIZE).
  { eexists _, _, _, _. split; [done|]. unfold EBADMSG. split; [done|lia]. }
  rewrite slice_Some by (unfold TAP_HDR_SIZE in *; lia). cbn [mbind option_bind].
  change (zdrop 0 d) with d.
  assert (Hs : zlen (ztake TAP_HDR_SIZE d) = 40) by (apply zlen_ztake; unfold TAP_HDR_SIZE in *; lia).
  unfold tap_hdr_of. rewrite !slice_Some by lia. cbn [mbind option_bind th_len].
  destruct (Z.eqb_spec (TAP_HDR_SIZE + le_dec (ztake 4 (zdrop 0 (ztake TAP_HDR_SIZE d)))) len);
    cbn [negb]; eexists _, _, _, _; (split; [done|]); unfold EBADMSG.
  - split; [lia|]. intros _. split_and!; [done|lia|eexists; split; [done|cbn; lia]|done|f_equal; lia].
  - split; [done|lia].
Qed.

Section dev_rules.
Context {E : Uenv} {EO : UenvOk E}.

Definition dev_open (w : lworld) (fd : Z) : Prop := l_dev w = Some fd ∧ 0 <= fd.

Lemma dev_open_extends w w' fd : dev_open w fd → extends w w' → dev_open w' fd.
Proof. intros (H1 & H2) (H3 & _). split; [congruence|done]. Qed.

Lemma dev_closed_run w fd : dev_open w fd → dev_closed w = Some (false, w).
Proof. intros (H1 & H2). unfold dev_closed, gets. rewrite H1. by rewrite (proj2 (Z.ltb_ge _ _)). Qed.

Lemma dev_fd_run w fd : dev_open w fd → dev_fd w = Some (fd, w).
Proof. intros (H1 & _). unfold dev_fd. by rewrite bind_getw, H1. Qed.

(** What the library makes of poll's answer. *)
Definition poll_result (a : Z * Z) : Z :=
  if a.1 <? 0 then a.1 else if a.1 =? 0 then - EAGAIN else
  if negb (Z.land a.2 POLL_ERR_BITS =? 0) then - EIO else 0.

Lemma poll_readable_run ms w fd :
  dev_open w fd →
  gxfp_dev_poll_readable ms w
  = Some (poll_result (sys_poll (l_trace w ++ [EvPoll fd ms])), calls [EvPoll fd ms] w).
Proof.
  intros Hd. unfold gxfp_dev_poll_readable.
  rewrite (run_bind _ _ _ _ _ (dev_closed_run w fd Hd)). cbv iota.
  rewrite (run_bind _ _ _ _ _ (dev_fd_run w fd Hd)).
  rewrite (run_bind _ _ _ _ _ (syscall_run _ _ w)). unfold poll_result.
  destruct (sys_poll _) as [r rev]. cbn [fst snd].
  destruct (r <? 0); [done|]. destruct (r =? 0); [done|]. by destruct (negb _).
Qed.

(** Reading into a buffer of the announced size is always defined; on success
    the buffer starts with a record of exactly the bytes read. *)
Lemma read_record_total b cap o w fd :
  dev_open w fd → zlen b = cap → 0 < cap →
  wp (gxfp_dev_read_record (Some b) cap (Some o) (Some None) (Some 0))
     (λ '(r, b', o', op, ol) w',
        w' = calls [EvRead fd cap] w ∧ (bytes_ok b → ∀ x, b' = Some x → bytes_ok x) ∧
        (∃ x, b' = Some x ∧ zlen x = cap) ∧ - 4096 < r ∧
        (0 <= r → ∃ h pl, o' = Some h ∧ op = Some (Some pl) ∧ ol = Some (r - TAP_HDR_SIZE) ∧
           th_len h = r - TAP_HDR_SIZE ∧ (∃ got, sys_read (l_trace w ++ [EvRead fd cap]) = inr got) ∧
           TAP_HDR_SIZE <= r <= cap ∧ zlen pl = cap - TAP_HDR_SIZE ∧
           (bytes_ok b → bytes_ok pl))) w.
Proof using EO.
  intros Hd Hb Hcap. unfold gxfp_dev_read_record.
  apply wp_bind. eapply wp_eq; [by apply (dev_closed_run w fd)|].
  rewrite (proj2 (Z.eqb_neq cap 0)) by lia. cbn [orb].
  apply wp_bind. eapply wp_eq; [by apply (dev_fd_run w fd)|].
  apply wp_bind, wp_syscall.
  destruct (sys_read (l_trace w ++ [EvRead fd cap])) as [e|got] eqn:Eg.
  { apply wp_ret. pose proof (read_errno _ _ _ _ Eg). split_and!; [done| |by exists b|lia|lia].
    by intros ? x [= <-]. }
  assert (H0 : 0 <= cap) by lia. destruct (read_ok _ _ _ _ H0 Eg) as (Hgb & Hgl).
  destruct (blit b 0 got) as [b1|] eqn:Eb; cycle 1.
  { rewrite blit_Some in Eb by lia. done. }
  destruct (blit_inv _ _ _ _ Eb) as (_ & _ & Hb1 & Hl1). rewrite Hb in Hl1.
  assert (Hbok : bytes_ok b → bytes_ok b1).
  { intros Hbb. subst b1. rewrite !bytes_ok_app. eauto using bytes_ok_ztake, bytes_ok_zdrop. }
  apply wp_bind, (wp_lift _ b1); [done|]. pose proof (zlen_nonneg got).
  destruct (Z.eqb_spec (zlen got) 0).
  { apply wp_ret. split_and!; [done| |by exists b1|unfold EAGAIN; lia|unfold EAGAIN; lia].
    intros ? x [= <-]. auto. }
  destruct (parse_tap_total b1 (zlen got) (Some o) (Some None) (Some 0))
    as (pr & o' & op & ol & Ep & Hbad & Hgood); [lia|].
  apply wp_bind. eapply wp_lift; [exact Ep|]. cbv beta iota.
  destruct (Z.ltb_spec pr 0).
  { destruct Hbad as (_ & _ & _ & ->); [done|]. unfold EBADMSG.
    apply wp_ret. split_and!; [done| |by exists b1|lia|lia]. intros ? x [= <-]. auto. }
  destruct Hgood as (-> & Hge & (h & -> & Hh) & -> & ->); [lia|].
  apply wp_ret. split_and!; [done| |by exists b1|lia|]. { intros ? x [= <-]. auto. }
  intros _. exists h, (zdrop TAP_HDR_SIZE b1). cbn. split_and!; try done.
  - by exists got.
  - rewrite zlen_zdrop; unfold TAP_HDR_SIZE in *; lia.
  - intros. auto using bytes_ok_zdrop.
Qed.

Lemma zlen_tx_packet flags pad fl pl : zlen fl = 4 → zlen (tx_packet flags pad fl pl) = 8 + zlen pl.
Proof. intros. unfold tx_packet. rewrite !zlen_cons, !zlen_app, zlen_le_enc. lia. Qed.

(** The packet the library writes for a payload. *)
Definition user_packet (mp_type : Z) (pl : bytes) : bytes :=
  tx_packet (GOODIX_MP_FLAGS_FROM_TYPE mp_type) 0 (le_enc 4 0) pl.

Lemma send_packet_run mp_type pl rest w fd :
  dev_open w fd →
  gxfp_dev_send_packet mp_type (Some (pl ++ rest)) (zlen pl) w
  = Some (if GXFP_IOCTL_TX_PAYLOAD_MAX <? zlen pl then (- EMSGSIZE, w) else
          match l_oom w with
          | true :: _ => (- ENOMEM, pop_alloc w)
          | _ =>
            let wr := sys_write (l_trace w ++ [EvWrite fd (user_packet mp_type pl)]) in
            ((if wr <? 0 then wr else if wr =? 8 + zlen pl then 0 else - EIO),
             calls [EvWrite fd (user_packet mp_type pl)] (pop_alloc w))
          end).
Proof using EO.
  intros Hd. pose proof (zlen_nonneg pl). unfold gxfp_dev_send_packet.
  rewrite (run_bind _ _ _ _ _ (dev_closed_run w fd Hd)). cbv iota.
  rewrite (bool_decide_eq_false_2 (Some _ = None)), andb_false_r by done.
  destruct (_ <? _); [done|]. cbv zeta. unfold TX_PKT_HDR_SIZE.
  rewrite (run_bind _ _ _ _ _ (umalloc_run _ w)).
  destruct (l_oom w) as [|[] oom] eqn:Eo; [|done|].
  all: cbv iota; set (u := u_uninit _ _).
  all: assert (Hu : zlen u = 8 + zlen pl) by (apply u_uninit_len; lia).
  all: assert (Hh : ∀ n, zlen (tx_pkt_hdr_bytes {| tx_mp_flags := GOODIX_MP_FLAGS_FROM_TYPE mp_type;
         tx_pad0 := 0; tx_payload_len := n; tx_flags := 0 |}) = 8) by done.
  all: destruct (split3 u 0 8) as (p & m & q & Eu & Hp & Hm); [lia..|].
  all: rewrite (zlen_0 p) in Eu by lia; cbn [app] in Eu; rewrite Eu.
  all: assert (Hq : zlen q = zlen pl) by (rewrite Eu, zlen_app in Hu; lia).
  all: rewrite (blit_app [] m q) by (rewrite ?Hh; done); rewrite bind_lift; cbn [app].
  all: set (hd := tx_pkt_hdr_bytes _).
  all: assert (Hpk : user_packet mp_type pl = hd ++ pl)
         by (unfold user_packet, tx_packet, hd, tx_pkt_hdr_bytes; cbn -[le_enc]; by rewrite <- app_assoc).
  all: assert (Ef : (if negb (zlen pl =? 0)
                 then p ← Some (pl ++ rest); memcpy (hd ++ q) 8 p 0 (zlen pl) else Some (hd ++ q))
                = Some (user_packet mp_type pl)).
  1, 3: destruct (Z.eqb_spec (zlen pl) 0) as [E0|]; cbn [negb mbind option_bind];
         [rewrite Hpk, (zlen_0 pl), (zlen_0 q) by lia; done|].
  1, 2: unfold memcpy; rewrite slice_prefix by done; cbn [mbind option_bind];
         rewrite (blit_eq (hd ++ q) 8 pl hd q []) by (rewrite ?app_nil_r; done);
         by rewrite app_nil_r, <- Hpk.
  all: rewrite Ef, bind_lift.
  all: assert (Hd' : dev_open (pop_alloc w) fd) by (by apply (dev_open_extends w); auto with gxfp).
  all: rewrite (run_bind _ _ _ _ _ (dev_fd_run _ _ Hd')).
  all: rewrite slice_full by (unfold user_packet; by rewrite zlen_tx_packet).
  all: rewrite bind_lift, (run_bind _ _ _ _ _ (syscall_run _ _ _)); cbn [pop_alloc l_trace].
  all: destruct (_ <? 0); [done|]; by destruct (sys_write _ =? _).
Qed.
End dev_rules.

(** * The library on the driver *)

Section on_driver.
Context {K : Kfifo} {KO : KfifoOk K} {E : Kenv} {size : Z} {EO : KenvOk E size}.
Context {U : Uenv} {UO : UenvOk U}.

Lemma mp_flags_u8 t : is_u8 (GOODIX_MP_FLAGS_FROM_TYPE t).
Proof. unfold GOODIX_MP_FLAGS_FROM_TYPE. zint. Qed.

(** C36: what the library writes for a packet is what the driver's write(2)
    takes: a payload of at most 500 bytes goes out as one MP frame of the packet's
    type and the library reports success; the payloads of 501 to 508 bytes that
    the library lets through come back as -EOVERFLOW, and larger ones are refused
    before any system call. *)
Theorem library_write_reaches_wire mp_type pl w fd u d base f :
  dev_open w fd → l_oom w = [] →
  w_dev (u_k u) = Some d → mailbox_mmio (dev_hw d) = Some base → w_oom (u_k u) = [] →
  private_data f = true → bytes_ok pl →
  let pk := user_packet mp_type pl in
  let frame := mp_frame (GOODIX_MP_FLAGS_FROM_TYPE mp_type) pl in
  (GXFP_IOCTL_TX_PAYLOAD_MAX < zlen pl →
    gxfp_dev_send_packet mp_type (Some pl) (zlen pl) w = Some (- EMSGSIZE, w)) ∧
  (zlen pl <= GXFP_IOCTL_TX_PAYLOAD_MAX →
    ∃ ret u', gxfp_uapi_write f (Some pk) (zlen pk) u = Some (ret, u') ∧
      (zlen pl <= 500 →
        u' = {| u_k := set_dev (set_seq16 (next_seq d) d) (push (write_events base d frame) (u_k u));
                u_uapi := u_uapi u |}) ∧
      (sys_write (l_trace w ++ [EvWrite fd pk]) = ret →
        gxfp_dev_send_packet mp_type (Some pl) (zlen pl) w
        = Some (if zlen pl <=? 500 then 0 else - EOVERFLOW, calls [EvWrite fd pk] w))).
Proof using EO UO.
  intros Hd Ho Hk Hm Hko Hp Hb pk frame.
  pose proof (zlen_nonneg pl). assert (Hrun := send_packet_run mp_type pl [] w fd Hd).
  rewrite app_nil_r, Ho in Hrun. fold pk in Hrun. cbv zeta in Hrun.
  assert (Hpop : pop_alloc w = w) by (destruct w; cbn in *; by subst).
  unfold GXFP_IOCTL_TX_PAYLOAD_MAX in *. split; intros Hlen.
  { rewrite Hrun. by rewrite (proj2 (Z.ltb_lt 508 _)). }
  rewrite (proj2 (Z.ltb_ge 508 _)) in Hrun by lia.
  assert (Hpk : zlen pk = 8 + zlen pl) by by apply zlen_tx_packet.
  pose proof (uapi_write_run (GOODIX_MP_FLAGS_FROM_TYPE mp_type) 0 (le_enc 4 0) pl [] (zlen pk) u
    d base f Hk Hm Hko Hp (mp_flags_u8 _) Hb eq_refl ltac:(lia)) as Hw.
  unfold GXFP_IOCTL_TX_PAYLOAD_MAX in Hw. rewrite app_nil_r in Hw.
  change (tx_packet _ _ _ _) with pk in Hw.
  rewrite (proj2 (Z.ltb_ge 508 _)), Hpk, Z.eqb_refl in Hw by lia. cbn [negb orb] in Hw.
  rewrite Hpk. destruct (Z.ltb_spec 500 (zlen pl)).
  - eexists _, _. split; [exact Hw|]. split; [lia|]. intros Hs.
    rewrite Hrun, Hs, (proj2 (Z.leb_gt _ _)), Hpop by lia. done.
  - eexists _, _. split; [exact Hw|]. split; [done|]. intros Hs.
    rewrite Hrun, Hs, (proj2 (Z.leb_le _ _)), Hpop, Z.eqb_refl by lia.
    by rewrite (proj2 (Z.ltb_ge (8 + _) 0)) by lia.
Qed.

(** What the driver's read(2) hands out is what the library parses: reading
    the first record of the queue into a buffer it fits in gives the library that
    record's header, payload and length, and takes it off the queue. *)
Theorem library_reads_driver_record r q b cap o w fd u :
  dev_open w fd → u_inited u = true → u_contents u = queue_bytes (r :: q) →
  rec_ok r → hdr_ok r.1 → fifo_size (u_fifo u) <= GXFP_RXQ_FIFO_BYTES → w_oom (u_k u) = [] →
  zlen b = cap → TAP_HDR_SIZE + zlen r.2 <= cap →
  ∃ x u', read_record b cap u = Some ((TAP_HDR_SIZE + zlen r.2, x), u') ∧
    u_contents u' = queue_bytes q ∧
    (sys_read (l_trace w ++ [EvRead fd cap]) = inr (ztake (TAP_HDR_SIZE + zlen r.2) x) →
     ∃ rest, gxfp_dev_read_record (Some b) cap (Some o) (Some None) (Some 0) w
     = Some ((TAP_HDR_SIZE + zlen r.2, Some x, Some r.1, Some (Some (r.2 ++ rest)),
              Some (zlen r.2)), calls [EvRead fd cap] w)).
Proof using EO KO UO.
  intros Hd Hi Hc Hr Hh Hsz Ho Hb Hcap. set (need := TAP_HDR_SIZE + zlen r.2) in *.
  pose proof (zlen_nonneg r.2).
  destruct (read_record_run r q b cap u Hi Hc Hr Hsz) as (ret & x & u' & Er & _ & Hres).
  fold need in Hres. rewrite (proj2 (Z.ltb_ge cap need)), Ho in Hres by lia.
  rewrite Hb, (proj2 (Z.leb_le need cap)) in Hres by lia. destruct Hres as (Hc' & -> & ->).
  assert (Hrl : zlen (rec_bytes r) = need) by by apply zlen_rec.
  eexists _, u'. split; [exact Er|]. split; [done|]. rewrite ztake_app by done. intros Hs.
  exists (zdrop need b). unfold gxfp_dev_read_record.
  rewrite (run_bind _ _ _ _ _ (dev_closed_run w fd Hd)).
  rewrite (proj2 (Z.eqb_neq cap 0)) by (unfold need, TAP_HDR_SIZE in *; lia). cbn [orb].
  rewrite (run_bind _ _ _ _ _ (dev_fd_run w fd Hd)).
  rewrite (run_bind _ _ _ _ _ (syscall_run _ _ w)), Hs.
  rewrite blit_Some by lia. rewrite Hrl. change (ztake 0 b) with (@nil Z). cbn [app].
  rewrite Z.add_0_l, bind_lift.
  rewrite (proj2 (Z.eqb_neq need 0)) by (unfold need, TAP_HDR_SIZE in *; lia).
  rewrite parse_tap_run by done. fold need. rewrite Z.eqb_refl, bind_lift. done.
Qed.
End on_driver.

Definition demo_lworld : lworld := {| l_dev := Some 3; l_trace := []; l_oom := [] |}.

Lemma demo_dev_open : dev_open demo_lworld 3.
Proof. split; [done|lia]. Qed.

Lemma library_write_reaches_wire_witness :
  gxfp_dev_send_packet (E:=script_env []) 10 (Some [1; 2; 3]) 3 demo_lworld
  = Some (0, calls [EvWrite 3 (user_packet 10 [1; 2; 3])] demo_lworld).
Proof.
  destruct (library_write_reaches_wire (EO:=packet_env_ok demo_pkt (proj1 demo_pkt_ok))
    (UO:=script_env_ok [] (Forall_nil_2 _)) 10 [1; 2; 3] demo_lworld 3 (demo_uworld []) demo_dev 0
    demo_file) as (_ & H).
  - exact demo_dev_open.
  - done.
  - done.
  - done.
  - done.
  - done.
  - repeat constructor; unfold is_u8; lia.
  - destruct H as (ret & u' & Hw & _ & H); [vm_compute; discriminate|].
    apply H. vm_compute in Hw. by injection Hw as <- _.
Defined.

Lemma library_reads_driver_record_witness :
  ∃ x rest, gxfp_dev_read_record (E:=script_env [rec_bytes demo_record]) (Some (zeros 64)) 64
    (Some demo_record.1) (Some None) (Some 0) demo_lworld
  = Some ((43, Some x, Some demo_record.1, Some (Some ([1; 2; 3] ++ rest)), Some 3),
          calls [EvRead 3 64] demo_lworld).
Proof.
  destruct (library_reads_driver_record (KO:=list_kfifo_ok) (U:=script_env [rec_bytes demo_record])
    (EO:=packet_env_ok demo_pkt (proj1 demo_pkt_ok))
    (UO:=script_env_ok [rec_bytes demo_record] ltac:(vm_compute; repeat constructor; discriminate))
    demo_record [] (zeros 64) 64 demo_record.1 demo_lworld 3
    (demo_uworld (queue_bytes [demo_record]))) as (x & u' & Hr & _ & H).
  - exact demo_dev_open.
  - done.
  - vm_compute. reflexivity.
  - split_and!; vm_compute; reflexivity.
  - split_and!; vm_compute; done.
  - vm_compute. discriminate.
  - done.
  - done.
  - vm_compute. discriminate.
  - destruct H as (rest & H); [|by exists x, rest].
    vm_compute in Hr. injection Hr as <- _. vm_compute. reflexivity.
Defined.
