(* ===== verification/UCommon.v ===== *)
(** The library's helpers: [userspace/src/algo/common.c] (its clock is in
    [UWorld]). *)
From Stdlib Require Import ZArith Lia.
From stdpp Require Import prelude list.
From S2P Require Import Prelude UWorld.

Open Scope Z_scope.

Definition SIZE_BITS : Z := 64.

(** [size_t] arithmetic wraps at 64 bits; [~3u] is a 32-bit constant. *)
Definition ALIGN4_MASK : Z := 4294967292.

Definition gxfp_le16 (p : bytes) : option Z :=
  p0 ← rd p 0;
  p1 ← rd p 1;
  Some (Z.lor p0 (Z.shiftl p1 8)).

Definition gxfp_le32 (p : bytes) : option Z :=
  p0 ← rd p 0;
  p1 ← rd p 1;
  p2 ← rd p 2;
  p3 ← rd p 3;
  Some (Z.lor (Z.lor (Z.lor p0 (Z.shiftl p1 8)) (Z.shiftl p2 16)) (Z.shiftl p3 24)).

Definition gxfp_le32enc (out : bytes) (v : Z) : option bytes :=
  out ← wr out 0 (u8 (Z.land v 255));
  out ← wr out 1 (u8 (Z.land (Z.shiftr v 8) 255));
  out ← wr out 2 (u8 (Z.land (Z.shiftr v 16) 255));
  wr out 3 (u8 (Z.land (Z.shiftr v 24) 255)).

(** * gxfp_read_file_all *)

(** A file as stdio shows it: the errno of fopen (0 when it opens), what each
    fread returns (0 bytes once the list is used up), and ferror at the end. *)
Record stdio_file := {
  fopen_errno : Z;
  fread_answers : list bytes;
  ferror : bool
}.

Definition FREAD_MAX : Z := 1024.
Definition FILE_CAP0 : Z := 4096.
Definition FILE_CAP_LIMIT : Z := 67108864. (* 64 * 1024 * 1024 *)

(** The file as stdio gives it: reads of 1 to 1024 bytes. *)
Definition stdio_ok (f : stdio_file) : Prop :=
  Forall (λ c, bytes_ok c ∧ 0 < zlen c <= FREAD_MAX) (fread_answers f).

Section common.
Context {E : Uenv}.

(** [realloc]: the old bytes, then fresh memory. *)
Definition urealloc (old : bytes) (n : Z) : M lworld (ptr bytes) :=
  p ← umalloc n;
  match p with
  | None => mret None
  | Some fresh =>
    b ← lift (blit fresh 0 (ztake n old));
    mret (Some b)
  end.

(** [while (new_cap < need) ...]: [None] is -EOVERFLOW. *)
Fixpoint grow_cap (fuel : nat) (new_cap need : Z) : option (option Z) :=
  if need <=? new_cap then Some (Some new_cap) else
  match fuel with
  | O => None
  | S fuel =>
    if FILE_CAP_LIMIT <? new_cap then Some None else
    grow_cap fuel (new_cap * 2) need
  end.

(** The reading loop over the answers of fread. *)
Fixpoint read_file_loop (answers : list bytes) (buf : bytes) (len : Z)
    : M lworld (Z * bytes * Z) :=
  match answers with
  | [] => mret (0, buf, len)
  | tmp :: answers =>
    let n := zlen tmp in
    if n =? 0 then mret (0, buf, len) else
    if zlen buf <? len + n then
      grown ← lift (grow_cap 64 (zlen buf) (len + n));
      match grown with
      | None => mret (- EOVERFLOW, buf, len)
      | Some new_cap =>
        p ← urealloc buf new_cap;
        match p with
        | None => mret (- ENOMEM, buf, len)
        | Some buf =>
          buf ← lift (blit buf len tmp);
          read_file_loop answers buf (len + n)
        end
      end
    else
      buf ← lift (blit buf len tmp);
      read_file_loop answers buf (len + n)
  end.

Definition gxfp_read_file_all (path : ptr stdio_file) (out_buf : ptr (ptr bytes))
    (out_len : ptr Z) : M lworld (Z * ptr (ptr bytes) * ptr Z) :=
  match path, out_buf, out_len with
  | Some f, Some _, Some _ =>
    if negb (fopen_errno f =? 0) then mret (- fopen_errno f, out_buf, out_len) else
    buf ← umalloc FILE_CAP0;
    match buf with
    | None => mret (- ENOMEM, out_buf, out_len)
    | Some buf =>
      '(r, buf, len) ← read_file_loop (fread_answers f) buf 0;
      if negb (r =? 0) then mret (r, out_buf, out_len) else
      if ferror f then mret (- EIO, out_buf, out_len) else
      mret (0, Some (Some buf), Some len)
    end
  | _, _, _ => mret (- EINVAL, out_buf, out_len)
  end.

(** * gxfp_align_blob *)

Definition gxfp_align_blob (blob : ptr (ptr bytes)) (len : ptr Z)
    : M lworld (Z * ptr (ptr bytes) * ptr Z) :=
  match blob, len with
  | Some b, Some n =>
    match b with
    | Some bs =>
      if n =? 0 then mret (- EINVAL, blob, len) else
      let len_aligned := Z.land (u64 (n + 3)) ALIGN4_MASK in
      if len_aligned =? n then mret (0, blob, len) else
      if 65535 <? len_aligned then mret (- EMSGSIZE, blob, len) else
      nb ← urealloc bs len_aligned;
      match nb with
      | None => mret (- ENOMEM, blob, len)
      | Some nb =>
        nb ← lift (blit nb n (zeros (u64 (len_aligned - n))));
        mret (0, Some (Some nb), Some len_aligned)
      end
    | None => mret (- EINVAL, blob, len)
    end
  | _, _ => mret (- EINVAL, blob, len)
  end.
End common.

(** * Lemmas *)

(** The first bytes of a buffer. *)
Lemma rd_c0 a t : rd (a :: t) 0 = Some a.
Proof. done. Qed.
Lemma rd_c1 a b t : rd (a :: b :: t) 1 = Some b.
Proof. done. Qed.
Lemma rd_c2 a b c t : rd (a :: b :: c :: t) 2 = Some c.
Proof. done. Qed.
Lemma rd_c3 a b c d t : rd (a :: b :: c :: d :: t) 3 = Some d.
Proof. done. Qed.

(** Run reads of the first bytes. *)
Ltac rds := rewrite ?rd_c0, ?rd_c1, ?rd_c2, ?rd_c3; cbn [mbind option_bind].

(** Storing one byte inside a buffer. *)
Lemma wr_insert b i v : 0 <= i < zlen b → wr b i v = Some (<[Z.to_nat i := v]> b).
Proof.
  intros Hi. unfold wr. rewrite blit_Some by (change (zlen [v]) with 1; lia).
  change (zlen [v]) with 1. f_equal. unfold ztake, zdrop, zlen in *.
  rewrite insert_take_drop by lia. by replace (Z.to_nat (i + 1)) with (S (Z.to_nat i)) by lia.
Qed.

Lemma bytes_ok_insert b i v : bytes_ok b → is_u8 v → bytes_ok (<[i := v]> b).
Proof. intros. by apply Forall_insert. Qed.

Lemma rd_lookup c i : 0 <= i < zlen c → rd c i = Some (default 0 (c !! Z.to_nat i)).
Proof.
  intros Hi. unfold rd. rewrite (proj2 (Z.leb_le 0 i)) by lia.
  destruct (c !! Z.to_nat i) eqn:Hl; [done|]. apply lookup_ge_None in Hl.
  unfold zlen in *. lia.
Qed.

Lemma le16_run a b t : is_u8 a → gxfp_le16 (a :: b :: t) = Some (le_dec [a; b]).
Proof. intros. unfold gxfp_le16. rds. rewrite lor16 by done. cbn [le_dec]. f_equal. lia. Qed.

Lemma le16_bound p v : bytes_ok p → gxfp_le16 p = Some v → is_u16 v.
Proof.
  intros Hp. unfold gxfp_le16. destruct (rd p 0) as [a|] eqn:Ea; [|done].
  destruct (rd p 1) as [b|] eqn:Eb; [|done]. cbn. intros [= <-].
  pose proof (rd_ok _ _ _ Hp Ea). pose proof (rd_ok _ _ _ Hp Eb).
  rewrite lor16 by done. unfold is_u8, is_u16 in *. lia.
Qed.

Lemma le16_Some p : 2 <= zlen p → is_Some (gxfp_le16 p).
Proof.
  intros Hp. unfold gxfp_le16. destruct (rd_Some p 0) as (a & ->); [lia|].
  destruct (rd_Some p 1) as (b & ->); [lia|]. by eexists.
Qed.

Lemma le32_run a b c d t :
  is_u8 a → is_u8 b → is_u8 c →
  gxfp_le32 (a :: b :: c :: d :: t) = Some (le_dec [a; b; c; d]).
Proof.
  unfold is_u8. intros Ha Hb Hc. unfold gxfp_le32. rds. cbn [le_dec]. f_equal.
  rewrite (lor_shiftl a b 8), (lor_shiftl _ c 16), (lor_shiftl _ d 24); lia.
Qed.

Lemma le32enc_run a b c d t v :
  gxfp_le32enc (a :: b :: c :: d :: t) v = Some (le_enc 4 v ++ t).
Proof.
  unfold gxfp_le32enc. rewrite wr_0. cbn [mbind option_bind]. rewrite wr_1. cbn [mbind option_bind].
  rewrite wr_2. cbn [mbind option_bind]. rewrite wr_3. rewrite !land_255, !shiftr_div by lia.
  cbn [le_enc app]. do 2 f_equal; [zint|]. f_equal; [zint|]. f_equal; [zint|]. f_equal. zint.
Qed.

(** What is encoded is decoded. *)
Lemma le32_roundtrip v t : is_u32 v → gxfp_le32 (le_enc 4 v ++ t) = Some v.
Proof.
  intros Hv. cbn [le_enc app]. rewrite le32_run by zint.
  f_equal. change (le_dec (le_enc 4 v) = v). rewrite le_dec_enc. apply Z.mod_small. done.
Qed.

Section common_rules.
Context {E : Uenv} {EO : UenvOk E}.

Lemma urealloc_run old n w :
  zlen old <= n → l_oom w = [] →
  ∃ fresh, urealloc old n w = Some (Some (old ++ fresh), w) ∧ zlen fresh = n - zlen old.
Proof using EO.
  intros Hn Ho. pose proof (zlen_nonneg old). unfold urealloc.
  rewrite (run_bind _ _ _ _ _ (umalloc_run _ w)), Ho.
  assert (Hw : pop_alloc w = w) by (destruct w; cbn in *; by subst).
  rewrite Hw. cbv iota. set (u := u_uninit _ _).
  assert (Hu : zlen u = n) by (apply u_uninit_len; lia).
  destruct (split3 u 0 (zlen old)) as (p & m & q & Eu & Hp & Hm); [lia..|].
  rewrite (zlen_0 p) in Eu by lia. cbn [app] in Eu.
  assert (Ht : ztake n old = old).
  { unfold ztake, zlen in *. rewrite take_ge; [done|lia]. }
  rewrite Ht, Eu, (blit_app [] m q) by done. rewrite bind_lift. exists q. split; [done|].
  rewrite Eu, zlen_app in Hu. lia.
Qed.

(** The capacities the loop goes through. *)
Definition cap_ok (cap : Z) : Prop := ∃ k, 0 <= k <= 15 ∧ cap = FILE_CAP0 * 2 ^ k.

Definition FILE_MAX : Z := 134217728. (* 128 MiB *)

Lemma grow_cap_run cap need :
  cap_ok cap → cap < need <= cap + FREAD_MAX →
  (cap < FILE_MAX ∧ cap_ok (cap * 2) ∧ grow_cap 64 cap need = Some (Some (cap * 2))) ∨
  (cap = FILE_MAX ∧ grow_cap 64 cap need = Some None).
Proof using Type.
  intros (k & Hk & ->) Hn. unfold FILE_CAP0, FREAD_MAX, FILE_MAX in *.
  assert (Hp : 1 <= 2 ^ k) by (apply (Z.pow_le_mono_r 2 0); lia).
  cbn [grow_cap]. rewrite (proj2 (Z.leb_gt need _)) by lia. unfold FILE_CAP_LIMIT.
  destruct (Z.eq_dec k 15) as [->|Hk']; [right; done|left].
  assert (Hp14 : 2 ^ k <= 2 ^ 14) by (apply Z.pow_le_mono_r; lia). change (2 ^ 14) with 16384 in Hp14.
  rewrite (proj2 (Z.ltb_ge 67108864 _)) by lia. split; [lia|]. split.
  - exists (k + 1). split; [lia|]. unfold FILE_CAP0. rewrite Z.pow_add_r by lia. lia.
  - by rewrite (proj2 (Z.leb_le need _)) by lia.
Qed.

Lemma cap_ok_max cap : cap_ok cap → FILE_CAP0 <= cap <= FILE_MAX.
Proof using Type.
  intros (k & Hk & ->). unfold FILE_CAP0, FILE_MAX.
  assert (2 ^ 0 <= 2 ^ k <= 2 ^ 15) by (split; apply Z.pow_le_mono_r; lia).
  change (2 ^ 15) with 32768 in *. change (2 ^ 0) with 1 in *. lia.
Qed.

(** The loop keeps what it has read at the start of the buffer, and gives up
    exactly when the file is longer than 128 MiB. *)
Lemma read_file_loop_run answers buf len w :
  Forall (λ c, bytes_ok c ∧ 0 < zlen c <= FREAD_MAX) answers → l_oom w = [] →
  cap_ok (zlen buf) → 0 <= len <= zlen buf →
  let total := len + zlen (concat answers) in
  ∃ r buf' len', read_file_loop answers buf len w = Some ((r, buf', len'), w) ∧
    (total <= FILE_MAX → r = 0 ∧ len' = total ∧ ztake total buf' = ztake len buf ++ concat answers) ∧
    (FILE_MAX < total → r = - EOVERFLOW).
Proof using EO.
  intros Ha Ho. revert buf len. induction Ha as [|c answers (Hc & Hn) _ IH];
    intros buf len Hcap Hlen total; unfold total; clear total.
  { pose proof (cap_ok_max _ Hcap). cbn [concat]. rewrite zlen_nil, app_nil_r.
    exists 0, buf, len. split; [done|]. rewrite Z.add_0_r. split; [done|lia]. }
  cbn [concat read_file_loop]. cbv zeta. rewrite (proj2 (Z.eqb_neq (zlen c) 0)) by lia.
  pose proof (zlen_nonneg (concat answers)). rewrite zlen_app.
  assert (Hstore : ∀ b, cap_ok (zlen b) → len + zlen c <= zlen b → ztake len b = ztake len buf →
    ∃ r buf' len', (b ← lift (blit b len c); read_file_loop answers b (len + zlen c)) w
                   = Some ((r, buf', len'), w) ∧
      (len + (zlen c + zlen (concat answers)) <= FILE_MAX → r = 0 ∧
         len' = len + (zlen c + zlen (concat answers)) ∧
         ztake (len + (zlen c + zlen (concat answers))) buf' = ztake len buf ++ c ++ concat answers) ∧
      (FILE_MAX < len + (zlen c + zlen (concat answers)) → r = - EOVERFLOW)).
  { intros b Hb Hle Ht. rewrite blit_Some, bind_lift by lia.
    set (b1 := ztake len b ++ c ++ zdrop (len + zlen c) b).
    assert (Hb1 : zlen b1 = zlen b)
      by (unfold b1; rewrite !zlen_app, zlen_ztake, zlen_zdrop by lia; lia).
    assert (Ht1 : ztake (len + zlen c) b1 = ztake len buf ++ c).
    { unfold b1. rewrite app_assoc, ztake_app by (rewrite zlen_app, zlen_ztake by lia; lia).
      by rewrite Ht. }
    destruct (IH b1 (len + zlen c)) as (r & buf' & len' & Er & H1 & H2); [by rewrite Hb1|lia|].
    exists r, buf', len'. split; [done|]. rewrite Ht1, <- app_assoc, <- Z.add_assoc in H1.
    rewrite <- Z.add_assoc in H2. done. }
  destruct (Z.ltb_spec (zlen buf) (len + zlen c)) as [Hlt|]; [|by apply Hstore].
  destruct (grow_cap_run (zlen buf) (len + zlen c)) as [(Hm & Hcap' & ->)|(Hm & ->)]; [done|lia|..].
  - rewrite bind_lift. destruct (urealloc_run buf (zlen buf * 2) w) as (fresh & Eu & Hf); [lia|done|].
    rewrite (run_bind _ _ _ _ _ Eu). unfold FREAD_MAX, FILE_CAP0 in *.
    pose proof (cap_ok_max _ Hcap). unfold FILE_CAP0 in *.
    apply Hstore.
    + replace (zlen (buf ++ fresh)) with (zlen buf * 2) by (rewrite zlen_app; lia). done.
    + rewrite zlen_app. lia.
    + unfold ztake, zlen in *. rewrite take_app_le; [done|lia].
  - rewrite bind_lift. eexists _, _, _. split; [done|]. split; [lia|done].
Qed.

(** Reading a file hands over its exact contents and their length, whatever
    the sizes of the reads, for files of up to 128 MiB; longer files are refused
    with -EOVERFLOW and a stream error with -EIO, without touching the outputs. *)
Theorem read_file_contents f ob ol w :
  stdio_ok f → fopen_errno f = 0 → l_oom w = [] →
  let total := zlen (concat (fread_answers f)) in
  ∃ r ob' ol', gxfp_read_file_all (Some f) (Some ob) (Some ol) w = Some ((r, ob', ol'), w) ∧
    (FILE_MAX < total → r = - EOVERFLOW) ∧
    (total <= FILE_MAX → r = if ferror f then - EIO else 0) ∧
    (r ≠ 0 → ob' = Some ob ∧ ol' = Some ol) ∧
    (r = 0 → ∃ buf, ob' = Some (Some buf) ∧ ol' = Some total ∧
       ztake total buf = concat (fread_answers f)).
Proof using EO.
  intros Hf Hopen Ho total. unfold gxfp_read_file_all. rewrite Hopen. cbn [Z.eqb negb].
  rewrite (run_bind _ _ _ _ _ (umalloc_run _ w)), Ho. cbv iota.
  assert (Hw : pop_alloc w = w) by (destruct w; cbn in *; by subst). rewrite Hw.
  set (u := u_uninit _ _). assert (Hu : zlen u = FILE_CAP0) by (apply u_uninit_len; done).
  destruct (read_file_loop_run (fread_answers f) u 0 w) as (r & b & len & Er & H1 & H2).
  - done.
  - done.
  - rewrite Hu. by exists 0.
  - unfold FILE_CAP0 in *. lia.
  - rewrite Z.add_0_l in H1, H2. fold total in H1, H2. rewrite (run_bind _ _ _ _ _ Er).
    destruct (Z.le_gt_cases total FILE_MAX) as [Hle|Hgt].
    + destruct (H1 Hle) as (-> & -> & Ht). cbn [Z.eqb negb]. destruct (ferror f).
      * eexists _, _, _. split; [done|]. unfold EIO. split_and!; [lia|done|done|done].
      * eexists _, _, _. split; [done|]. split_and!; [lia|done|done|]. intros _.
        exists b. done.
    + rewrite (H2 Hgt). eexists _, _, _. split; [done|]. unfold EOVERFLOW.
      split_and!; [done|lia|done|done].
Qed.

(** Reading a file with any memory: the contents, or an error. *)
Lemma read_file_loop_total answers buf len w :
  Forall (λ c, bytes_ok c ∧ 0 < zlen c <= FREAD_MAX) answers → cap_ok (zlen buf) → 0 <= len <= zlen buf →
  wp (read_file_loop answers buf len)
     (λ '(r, b, n) w', extends w w' ∧ (r = 0 ∧ 0 <= n <= zlen b ∨ r < 0)) w.
Proof using EO.
  intros Ha. revert buf len w. induction Ha as [|c answers (Hc & Hn) _ IH]; intros buf len w Hcap Hlen.
  { apply wp_ret. split; [done|]. by left. }
  cbn [read_file_loop]. cbv zeta. rewrite (proj2 (Z.eqb_neq (zlen c) 0)) by lia.
  assert (Hstore : ∀ b w1, extends w w1 → cap_ok (zlen b) → len + zlen c <= zlen b →
    wp (b ← lift (blit b len c); read_file_loop answers b (len + zlen c))
       (λ '(r, b, n) w', extends w w' ∧ (r = 0 ∧ 0 <= n <= zlen b ∨ r < 0)) w1).
  { intros b w1 Hx Hb Hle. rewrite blit_Some by lia. apply wp_bind. eapply wp_lift; [done|].
    set (b1 := ztake len b ++ c ++ zdrop (len + zlen c) b).
    assert (Hb1 : zlen b1 = zlen b) by (unfold b1; rewrite !zlen_app, zlen_ztake, zlen_zdrop by lia; lia).
    eapply wp_mono; [apply IH; [by rewrite Hb1|lia]|]. intros [[r b'] n] w2 (Hx2 & Hr). split; [by etrans|done]. }
  destruct (Z.ltb_spec (zlen buf) (len + zlen c)) as [Hlt|]; [|by apply Hstore].
  apply wp_bind. destruct (grow_cap_run (zlen buf) (len + zlen c)) as [(Hm & Hcap' & ->)|(Hm & ->)]; [done|lia|..];
    (eapply wp_lift; [done|]); [|apply wp_ret; split; [done|by right]].
  pose proof (cap_ok_max _ Hcap) as Hmax. unfold FILE_CAP0, FREAD_MAX in *. apply wp_bind. unfold urealloc. apply wp_bind, malloc_wp.
  { intros _. apply wp_ret, wp_ret. split; [apply extends_pop|by right]. }
  intros u Hu _. specialize (Hu ltac:(lia)). assert (Ht : ztake (zlen buf * 2) buf = buf) by (unfold ztake, zlen in *; apply take_ge; lia).
  rewrite Ht, blit_Some by lia. apply wp_bind.
  eapply wp_lift; [done|]. apply wp_ret. apply Hstore; [apply extends_pop|..].
  - replace (zlen _) with (zlen buf * 2); [done|]. rewrite !zlen_app, zlen_ztake, zlen_zdrop by lia. lia.
  - rewrite !zlen_app, zlen_ztake, zlen_zdrop by lia. lia.
Qed.

Lemma read_file_total f ob ol w :
  stdio_ok f → 0 <= fopen_errno f →
  wp (gxfp_read_file_all (Some f) (Some ob) (Some ol))
     (λ '(r, ob', ol') w', extends w w' ∧
        (r < 0 ∨ r = 0 ∧ ∃ b n, ob' = Some (Some b) ∧ ol' = Some n ∧ 0 <= n <= zlen b)) w.
Proof using EO.
  intros Hf He. unfold gxfp_read_file_all. destruct (Z.eqb_spec (fopen_errno f) 0) as [H0|H0]; cbn [negb].
  2: { apply wp_ret. split; [done|]. left. lia. }
  apply wp_bind, malloc_wp. { intros _. apply wp_ret. split; [apply extends_pop|by left]. }
  intros u Hu _. assert (Hl : zlen u = FILE_CAP0) by by apply Hu.
  apply wp_bind. eapply wp_mono; [apply read_file_loop_total; [done| |]|].
  - rewrite Hl. by exists 0.
  - rewrite Hl. done.
  - intros [[r b] n] w2 (Hx & Hr). assert (Hx' : extends w w2) by (etrans; [apply extends_pop|done]).
    destruct (Z.eqb_spec r 0) as [->|]; cbn [negb].
    + destruct Hr as [(_ & Hn)|?]; [|lia]. destruct (ferror f); apply wp_ret; (split; [done|]); [by left|]. right. split; [done|].
      by exists b, n.
    + apply wp_ret. split; [done|]. left. lia.
Qed.

(** Padding a blob to a multiple of four. *)
Lemma align4_spec n : 0 <= n < 2 ^ 32 - 3 → Z.land (u64 (n + 3)) ALIGN4_MASK = (n + 3) / 4 * 4.
Proof using Type.
  intros Hn. unfold ALIGN4_MASK. replace (u64 (n + 3)) with (n + 3) by zint.
  change 4294967292 with (Z.shiftl (Z.ones 30) 2).
  rewrite <- (Z.shiftl_mul_pow2 _ 2), <- (Z.shiftr_div_pow2 _ 2) by lia.
  apply Z.bits_inj'. intros i Hi. rewrite Z.land_spec.
  destruct (Z.lt_ge_cases i 2) as [Hlt|Hge].
  { rewrite !Z.shiftl_spec_low by done. apply andb_false_r. }
  rewrite !Z.shiftl_spec, Z.shiftr_spec by lia. replace (i - 2 + 2) with i by lia.
  destruct (Z.lt_ge_cases i 32).
  - rewrite Z.ones_spec_low by lia. apply andb_true_r.
  - rewrite (testbit_above (n + 3) 32) by lia. done.
Qed.
End common_rules.

Section align.
Context {E : Uenv} {EO : UenvOk E}.

(** A blob that is not empty and whose padded length fits 16 bits is padded with
    zeros to a multiple of four; a longer one is refused. *)
Lemma align_blob_run b n w :
  zlen b = n → 0 < n < 2 ^ 32 - 3 → l_oom w = [] →
  let n4 := (n + 3) / 4 * 4 in
  gxfp_align_blob (Some (Some b)) (Some n) w
  = Some (if n4 =? n then (0, Some (Some b), Some n)
          else if 65535 <? n4 then (- EMSGSIZE, Some (Some b), Some n)
          else (0, Some (Some (b ++ zeros (n4 - n))), Some n4), w).
Proof using EO.
  intros Hb Hn Ho n4. unfold gxfp_align_blob. rewrite (proj2 (Z.eqb_neq n 0)) by lia.
  rewrite align4_spec by lia. fold n4.
  destruct (n4 =? n); [done|]. destruct (65535 <? n4); [done|].
  assert (H4 : n <= n4 < n + 4) by (unfold n4; clear -Hn; zdm).
  destruct (urealloc_run b n4 w) as (fresh & Er & Hf); [lia|done|].
  rewrite (run_bind _ _ _ _ _ Er). replace (u64 (n4 - n)) with (n4 - n) by zint.
  rewrite (blit_eq (b ++ fresh) n (zeros (n4 - n)) b fresh []).
  - by rewrite bind_lift, app_nil_r.
  - by rewrite app_nil_r.
  - done.
  - rewrite zlen_zeros by lia. lia.
Qed.
End align.

(** The mask is 32 bits wide: past 4 GiB the padded length loses its high bits,
    and the padding runs outside the blob. *)
Lemma align_blob_4gib {E : Uenv} {EO : UenvOk E} b w :
  zlen b = 2 ^ 32 + 1 → l_oom w = [] →
  gxfp_align_blob (Some (Some b)) (Some (2 ^ 32 + 1)) w = None.
Proof.
  intros Hb Ho. unfold gxfp_align_blob.
  change (2 ^ 32 + 1 =? 0) with false. change (Z.land (u64 (2 ^ 32 + 1 + 3)) ALIGN4_MASK) with 4.
  change (4 =? 2 ^ 32 + 1) with false. change (65535 <? 4) with false. cbv iota.
  unfold urealloc. rewrite bind_assoc. rewrite (run_bind _ _ _ _ _ (umalloc_run _ w)), Ho. cbv iota.
  set (u := u_uninit _ _). assert (Hu : zlen u = 4) by (by apply u_uninit_len).
  rewrite bind_assoc. unfold mbind at 1, M_bind at 1.
  assert (Ht : zlen (ztake 4 b) = 4) by (apply zlen_ztake; lia).
  rewrite blit_Some by lia. cbn [lift]. rewrite bind_ret.
  match goal with |- (lift ?o ≫= _) _ = _ => assert (Ho' : o = None) end.
  { unfold blit. destruct (_ && _) eqn:Hc; [|done]. exfalso.
    apply andb_prop in Hc as (_ & Hc). apply Z.leb_le in Hc.
    match type of Hc with _ + zlen ?z <= _ => pose proof (zlen_nonneg z) end.
    rewrite !zlen_app, Ht in Hc. rewrite zlen_zdrop in Hc by lia.
    change (zlen (ztake 0 u)) with 0 in Hc. lia. }
  by rewrite Ho'.
Qed.

Lemma read_file_contents_witness :
  ∃ b, gxfp_read_file_all (E:=script_env [])
    (Some {| fopen_errno := 0; fread_answers := [[1; 2]; [3]]; ferror := false |})
    (Some None) (Some 0) {| l_dev := None; l_trace := []; l_oom := [] |}
  = Some ((0, Some (Some b), Some 3), {| l_dev := None; l_trace := []; l_oom := [] |}) ∧
  ztake 3 b = [1; 2; 3].
Proof.
  destruct (read_file_contents (EO:=script_env_ok [] (Forall_nil_2 _))
    {| fopen_errno := 0; fread_answers := [[1; 2]; [3]]; ferror := false |} None 0
    {| l_dev := None; l_trace := []; l_oom := [] |}) as (r & ob & ol & Er & _ & H0 & _ & H1).
  - unfold stdio_ok; cbn. repeat (apply Forall_cons; split); try apply Forall_nil_2;
      repeat (split || apply Forall_cons || apply Forall_nil_2); unfold is_u8; vm_compute; done.
  - reflexivity.
  - reflexivity.
  - rewrite H0 in * by (vm_compute; discriminate). cbn in H1.
    destruct (H1 eq_refl) as (b & -> & -> & Ht). exists b. split; [exact Er|exact Ht].
Defined.
