(* ===== verification/UXfer.v ===== *)
(** Requests to the sensor through the device file:
    [userspace/src/cmd/goodix_xfer.c].

    The loops of the code have no bound of their own but the clock; here they
    carry fuel, and the theorem shows that fuel in proportion to the timeout is
    enough on any system where time passes ([UclockOk]). *)
From Stdlib Require Import ZArith Lia.
From stdpp Require Import prelude list.
From S2P Require Import Prelude KGoodixProto KUapi UGoodixProto UWorld UDev.

Open Scope Z_scope.

(** A selector looks at a frame: negative refuses it with that error, 0 skips it. *)
Abbreviation selector := (gxfp_frame_parsed → option Z).

Definition select_any_frame : selector := λ _, Some 1.

(** [sizeof tap_buf] and [sizeof buf] *)
Definition TAP_BUF_SIZE : Z := 131112. (* sizeof (struct gxfp_tap_hdr) + GXFP_IOCTL_TAP_PAYLOAD_MAX *)
Definition GOODIX_TX_BUF_SIZE : Z := 65284. (* 1 + 2 + GOODIX_PAYLOAD_MAX + 1 *)

(** A header variable before it is filled. *)
Definition hdr_unset : gxfp_tap_hdr :=
  {| th_len := 0; th_type := 0; th_rsvd0 := 0; th_ts_ns := 0; th_head16 := [] |}.

Section xfer.
Context {E : Uenv}.

Definition gxfp_goodix_send_async (cmd : Z) (payload : ptr bytes) (payload_len : Z)
    : M lworld Z :=
  buf ← u_stack GOODIX_TX_BUF_SIZE;
  '(frame_len, buf) ← lift (gxfp_goodix_build_frame cmd payload payload_len (Some buf)
                              GOODIX_TX_BUF_SIZE);
  if frame_len <? 0 then mret frame_len else
  gxfp_dev_send_packet GOODIX_MP_TYPE_CMD buf (u16 frame_len).

(** What the loop does with a record it has read: skip it, or return. *)
Definition select_record (expect_cmd : Z) (fn : selector) (rx : bytes) (rx_cap : Z)
    (out_rx_len : ptr Z) (hdr : gxfp_tap_hdr) (pl : ptr bytes) (pl_len : Z)
    : option (option (Z * bytes * ptr Z)) :=
  if negb (th_type hdr =? GOODIX_MP_TYPE_CMD) then Some None else
  '(ok, frame) ← gxfp_parse_goodix_body pl pl_len (Some frame_zero);
  frame ← frame;
  if negb ok || negb (valid frame) then Some None else
  if negb (cmd frame =? expect_cmd) then Some None else
  sel ← fn frame;
  if sel <? 0 then Some (Some (sel, rx, out_rx_len)) else
  if sel =? 0 then Some None else
  if rx_cap <? pl_len then Some (Some (- EMSGSIZE, rx, out_rx_len)) else
  src ← pl;
  rx ← memcpy rx 0 src 0 pl_len;
  Some (Some (0, rx, setp out_rx_len (u32 pl_len))).

Fixpoint wait_loop (fuel : nat) (expect_cmd : Z) (rx : bytes) (rx_cap : Z) (out_rx_len : ptr Z)
    (deadline : Z) (fn : selector) (tap_buf : bytes) : M lworld (Z * bytes * ptr Z) :=
  match fuel with
  | O => ub
  | S fuel =>
    now ← gxfp_monotonic_ms;
    let remain := deadline - now in
    if remain <=? 0 then mret (- ETIMEDOUT, rx, out_rx_len) else
    r ← gxfp_dev_poll_readable (s32 remain);
    if r =? - EAGAIN then wait_loop fuel expect_cmd rx rx_cap out_rx_len deadline fn tap_buf else
    if negb (r =? 0) then mret (r, rx, out_rx_len) else
    '(r, buf, hdr, pl, pl_len) ←
      gxfp_dev_read_record (Some tap_buf) TAP_BUF_SIZE (Some hdr_unset) (Some None) (Some 0);
    tap_buf ← lift buf;
    let r := s32 r in
    if r <? 0 then
      if r =? - EAGAIN then wait_loop fuel expect_cmd rx rx_cap out_rx_len deadline fn tap_buf
      else mret (r, rx, out_rx_len)
    else
    hdr ← lift hdr;
    pl ← lift pl;
    pl_len ← lift pl_len;
    done ← lift (select_record expect_cmd fn rx rx_cap out_rx_len hdr pl pl_len);
    match done with
    | Some res => mret res
    | None => wait_loop fuel expect_cmd rx rx_cap out_rx_len deadline fn tap_buf
    end
  end.

Definition gxfp_goodix_wait_selected (fuel : nat) (expect_cmd : Z) (rx : ptr bytes) (rx_cap : Z)
    (out_rx_len : ptr Z) (timeout_ms : Z) (fn : ptr selector)
    : M lworld (Z * ptr bytes * ptr Z) :=
  w ← getw;
  match l_dev w, rx with
  | Some _, Some b =>
    if rx_cap =? 0 then mret (- EINVAL, rx, out_rx_len) else
    tap_buf ← u_stack TAP_BUF_SIZE;
    let fn := default select_any_frame fn in
    let out_rx_len := setp out_rx_len 0 in
    now ← gxfp_monotonic_ms;
    let deadline := now + (if 0 <? timeout_ms then timeout_ms else 1000) in
    '(r, b, out_rx_len) ← wait_loop fuel expect_cmd b rx_cap out_rx_len deadline fn tap_buf;
    mret (r, Some b, out_rx_len)
  | _, _ => mret (- EINVAL, rx, out_rx_len)
  end.

(** [n] attempts are left. *)
Fixpoint request_loop (n : nat) (fuel : nat) (req_cmd expect_cmd : Z) (payload : ptr bytes)
    (payload_len : Z) (rx : ptr bytes) (rx_cap : Z) (out_rx_len : ptr Z) (timeout_ms : Z)
    (fn : ptr selector) : M lworld (Z * ptr bytes * ptr Z) :=
  match n with
  | O => mret (- ETIMEDOUT, rx, out_rx_len)
  | S n =>
    r ← gxfp_goodix_send_async req_cmd payload payload_len;
    if negb (r =? 0) then mret (r, rx, out_rx_len) else
    '(r, rx, out_rx_len) ←
      gxfp_goodix_wait_selected fuel expect_cmd rx rx_cap out_rx_len timeout_ms fn;
    if r =? - ETIMEDOUT
    then request_loop n fuel req_cmd expect_cmd payload payload_len rx rx_cap out_rx_len
           timeout_ms fn
    else mret (r, rx, out_rx_len)
  end.

Definition gxfp_goodix_request_selected (fuel : nat) (req_cmd expect_cmd : Z)
    (payload : ptr bytes) (payload_len : Z) (rx : ptr bytes) (rx_cap : Z) (out_rx_len : ptr Z)
    (tries timeout_ms : Z) (fn : ptr selector) : M lworld (Z * ptr bytes * ptr Z) :=
  w ← getw;
  match l_dev w, rx with
  | Some _, Some _ =>
    if rx_cap =? 0 then mret (- EINVAL, rx, out_rx_len) else
    let attempt_max := if 0 <? tries then tries else 1 in
    request_loop (Z.to_nat attempt_max) fuel req_cmd expect_cmd payload payload_len rx rx_cap
      (setp out_rx_len 0) timeout_ms fn
  | _, _ => mret (- EINVAL, rx, out_rx_len)
  end.
End xfer.

(** * Lemmas *)

(** The frame the parser makes of a body [c pl ck] with [rest] after it. *)
Definition body_frame (c : Z) (pl : bytes) (ck : Z) (rest : bytes) : gxfp_frame_parsed :=
  {| valid := true; proto_checksum_ok := goodix_ck c pl =? ck; cmd := c;
     decl_len := 1 + zlen pl; payload := Some (pl ++ ck :: rest); payload_len := zlen pl;
     proto_checksum := ck |}.

(** A selector that is defined on every frame the parser makes. *)
Definition sel_total (fn : selector) : Prop :=
  ∀ c pl ck rest, bytes_ok pl → is_Some (fn (body_frame c pl ck rest)).

(** [rx'] holds a packet that carries command [c], which the selector took. *)
Definition answered (c : Z) (fn : selector) (rx rx' : bytes) (out out' : ptr Z) : Prop :=
  ∃ pl ck extra more s,
    let p := goodix_body c pl ck ++ extra in
    bytes_ok p ∧ zlen pl < 65535 ∧ zlen p <= zlen rx ∧ rx' = p ++ zdrop (zlen p) rx ∧
    out' = setp out (zlen p) ∧ fn (body_frame c pl ck more) = Some s ∧ 0 < s.

(** What a call leaves: an answer, or the caller's buffer as it was. *)
Definition outcome (c : Z) (fn : selector) (rx : bytes) (out : ptr Z) (res : Z * bytes * ptr Z) : Prop :=
  let '(r, rx', out') := res in
  zlen rx' = zlen rx ∧ (r = 0 → answered c fn rx rx' out out') ∧
  (r ≠ 0 → rx' = rx ∧ out' = out).

(** The packets written, in order. *)
Definition writes (tr : list uevent) : list bytes :=
  omap (λ e, match e with EvWrite _ b => Some b | _ => None end) tr.

(** [waits w w']: calls were made from [w] to [w'], and nothing was written. *)
Definition waits (w w' : lworld) : Prop :=
  extends w w' ∧ writes (l_trace w') = writes (l_trace w).

Lemma waits_refl w : waits w w.
Proof. split; [apply extends_refl|done]. Qed.

#[export] Instance waits_preorder : PreOrder waits.
Proof.
  split; [exact waits_refl|]. intros w1 w2 w3 (H1 & E1) (H2 & E2).
  split; [by rewrite H1|congruence].
Qed.

Lemma waits_calls evs w : writes evs = [] → waits w (calls evs w).
Proof.
  intros He. split; [apply extends_calls|]. cbn. unfold writes in *.
  by rewrite omap_app, He, app_nil_r.
Qed.

Lemma setp_setp {A} (p : ptr A) x y : setp (setp p x) y = setp p y.
Proof. by destruct p. Qed.

Lemma outcome_same c fn rx out r : r ≠ 0 → outcome c fn rx out (r, rx, out).
Proof. done. Qed.

Lemma user_parse_dec b buf_len :
  bytes_ok b → 0 <= buf_len <= zlen b →
  (∃ f, gxfp_parse_goodix_body (Some b) buf_len (Some frame_zero) = Some (false, Some f)) ∨
  (∃ c pl ck rest, b = goodix_body c pl ck ++ rest ∧ zlen pl + 4 <= buf_len ∧
     zlen pl < 65535 ∧ is_u8 c ∧ bytes_ok pl ∧
     gxfp_parse_goodix_body (Some b) buf_len (Some frame_zero)
     = Some (true, Some (body_frame c pl ck rest))).
Proof.
  intros Hb Hlen. rewrite user_parse_eq. unfold body_frame.
  destruct (parse_body_dec b buf_len frame_zero Hb Hlen)
    as [(f & ->)|(c & pl & ck & rest & Eb & Hl & Hmax & Hc & _ & Hpl & ->)]; [eauto|].
  right. exists c, pl, ck, rest. done.
Qed.

(** A packet that carries a body parses to that body, wherever it lies. *)
Lemma user_parse_body c pl ck rest len :
  is_u8 c → zlen pl + 4 <= len → zlen pl < 65535 →
  gxfp_parse_goodix_body (Some (goodix_body c pl ck ++ rest)) len (Some frame_zero)
  = Some (true, Some (body_frame c pl ck rest)).
Proof.
  intros Hc Hlen Hpl. pose proof (zlen_nonneg pl). rewrite user_parse_eq. unfold goodix_body.
  cbn [app]. rewrite <- app_assoc. cbn [app]. by rewrite parse_body_run by zint.
Qed.

Lemma select_record_run c fn rx out h pl n :
  sel_total fn → bytes_ok pl → 0 <= n <= zlen pl → n < 2 ^ 32 →
  ∃ res, select_record c fn rx (zlen rx) out h (Some pl) n = Some res ∧
    (∀ x, res = Some x → outcome c fn rx out x).
Proof.
  intros Hfn Hpl Hn Hn32. unfold select_record.
  destruct (negb (th_type h =? _)); [by exists None|].
  destruct (user_parse_dec pl n Hpl Hn) as [(f & ->)|(c' & p & ck & rest & -> & Hfit & Hmax & Hc & Hp & ->)];
    [by exists None|].
  cbn [mbind option_bind negb orb valid body_frame cmd].
  destruct (Z.eqb_spec c' c) as [->|]; cbn [negb]; [|by exists None].
  destruct (Hfn c p ck rest Hp) as (s & Hs). rewrite Hs. cbn [mbind option_bind].
  destruct (Z.ltb_spec s 0).
  { eexists. split; [done|]. intros x [= <-]. apply outcome_same. lia. }
  destruct (Z.eqb_spec s 0); [by exists None|].
  destruct (Z.ltb_spec (zlen rx) n) as [|Hcap].
  { eexists. split; [done|]. intros x [= <-]. by apply outcome_same. }
  set (b := goodix_body c p ck ++ rest) in *.
  unfold memcpy. rewrite slice_Some by lia. cbn [mbind option_bind]. change (zdrop 0 b) with b.
  assert (Hz : zlen (ztake n b) = n) by (by apply zlen_ztake).
  rewrite blit_Some by lia. cbn [mbind option_bind]. change (ztake 0 rx) with (@nil Z). cbn [app].
  rewrite Hz, Z.add_0_l. eexists. split; [done|]. intros x [= <-]. unfold outcome.
  rewrite zlen_app, zlen_zdrop, Hz by lia. split_and!; [lia| |done]. intros _.
  assert (Eb : ztake n b = goodix_body c p ck ++ ztake (n - (zlen p + 4)) rest).
  { unfold b. replace n with (zlen p + 4 + (n - (zlen p + 4))) at 1 by lia.
    pose proof (zlen_nonneg p).
    rewrite ztake_add by lia. rewrite ztake_app, zdrop_app by apply zlen_goodix_body. done. }
  exists p, ck, (ztake (n - (zlen p + 4)) rest), rest, s. cbv zeta. rewrite <- Eb, Hz.
  split_and!; [by apply bytes_ok_ztake|done|done|done| |done|lia].
  replace (u32 n) with n by zint. done.
Qed.

Section xfer_rules.
Context {E : Uenv} {EO : UenvOk E} {B : nat} {CO : UclockOk E B}.

Lemma clock_steps tr evs k : (k * B <= length evs)%nat → ms_at tr + Z.of_nat k <= ms_at (tr ++ evs).
Proof using CO.
  revert tr evs. induction k as [|k IH]; intros tr evs Hk.
  - pose proof (clock_mono tr evs). lia.
  - rewrite <- (take_drop B evs). rewrite app_assoc.
    assert (ms_at tr + 1 <= ms_at (tr ++ take B evs))
      by (apply clock_runs; rewrite length_take; lia).
    assert (ms_at (tr ++ take B evs) + Z.of_nat k <= ms_at ((tr ++ take B evs) ++ drop B evs))
      by (apply IH; rewrite length_drop; lia).
    lia.
Qed.

Lemma poll_not_etimedout : - EAGAIN ≠ - ETIMEDOUT.
Proof using Type. done. Qed.

(** The loop returns: every turn makes at least one call, and [timeout * B] calls
    bring the clock past the deadline. *)
Lemma wait_loop_run fuel i c rx out t0 timeout fn tap w evs fd :
  dev_open w fd → l_trace w = t0 ++ evs → (i <= length evs)%nat →
  (i <= timeout * B)%nat → (timeout * B < i + fuel)%nat →
  zlen tap = TAP_BUF_SIZE → bytes_ok tap → sel_total fn →
  wp (wait_loop fuel c rx (zlen rx) out (ms_at t0 + Z.of_nat timeout) fn tap)
     (λ res w', waits w w' ∧ outcome c fn rx out res) w.
Proof using EO CO.
  intros Hd Htr Hi Hib Hfuel Htap Htb Hfn. revert i tap w evs Hd Htr Hi Hib Hfuel Htap Htb.
  induction fuel as [|fuel IH]; intros i tap w evs Hd Htr Hi Hib Hfuel Htap Htb; [lia|].
  cbn [wait_loop]. apply wp_bind, wp_monotonic. set (w1 := calls _ w).
  assert (Hx1 : waits w w1) by by apply waits_calls.
  destruct (Z.leb_spec (ms_at t0 + Z.of_nat timeout - ms_at (l_trace w ++ [EvClock CLOCK_MONOTONIC])) 0)
    as [|Hleft].
  { apply wp_ret. split; [done|by apply outcome_same]. }
  assert (Hi' : (i < timeout * B)%nat).
  { destruct (decide (timeout * B <= i)%nat) as [Hge|]; [|lia]. exfalso.
    rewrite Htr, <- app_assoc in Hleft.
    pose proof (clock_steps t0 (evs ++ [EvClock CLOCK_MONOTONIC]) timeout) as Hk.
    rewrite length_app in Hk. specialize (Hk ltac:(lia)). lia. }
  set (ms := s32 _). assert (Hd1 : dev_open w1 fd) by (apply (dev_open_extends w); [done|apply Hx1]).
  apply wp_bind. eapply wp_eq; [by apply poll_readable_run|]. set (w2 := calls _ w1).
  set (r := poll_result _).
  assert (Hx2 : waits w w2) by (rewrite Hx1; by apply waits_calls).
  assert (Hd2 : dev_open w2 fd) by (apply (dev_open_extends w); [done|apply Hx2]).
  assert (Htr2 : l_trace w2 = t0 ++ (evs ++ [EvClock CLOCK_MONOTONIC; EvPoll fd ms])).
  { unfold w2, w1, calls. cbn [l_trace]. by rewrite Htr, <- !app_assoc. }
  assert (Hi2 : (S i <= length (evs ++ [EvClock CLOCK_MONOTONIC; EvPoll fd ms]))%nat)
    by (rewrite length_app; cbn; lia).
  assert (Hagain : ∀ x w3 evs3, waits w2 w3 → l_trace w3 = t0 ++ evs3 → (S i <= length evs3)%nat →
    zlen x = TAP_BUF_SIZE → bytes_ok x →
    wp (wait_loop fuel c rx (zlen rx) out (ms_at t0 + Z.of_nat timeout) fn x)
     (λ res w', waits w w' ∧ outcome c fn rx out res) w3).
  { intros x w3 evs3 Hx3 Htr3 Hi3 Hl3 Hb3. eapply wp_mono.
    - apply (IH (S i) x w3 evs3); try done; try lia. apply (dev_open_extends w2); [done|apply Hx3].
    - intros res w' (Hx' & Ho). split; [by rewrite Hx2, Hx3|done]. }
  destruct (Z.eqb_spec r (- EAGAIN)); [by eapply Hagain|].
  destruct (Z.eqb_spec r 0); cbn [negb]; cycle 1.
  { apply wp_ret. split; [done|by apply outcome_same]. }
  apply wp_bind. eapply wp_mono; [by apply (read_record_total tap TAP_BUF_SIZE hdr_unset w2 fd)|].
  intros ((((r2 & b) & h) & pl) & len) w3 (-> & Hbok & (x & -> & Hxl) & Hr2 & Hgood).
  specialize (Hbok Htb x eq_refl). cbv beta iota. apply wp_bind, (wp_lift _ x); [done|].
  set (w3 := calls _ w2). assert (Hx3 : waits w2 w3) by by apply waits_calls.
  assert (Hagain3 : wp (wait_loop fuel c rx (zlen rx) out (ms_at t0 + Z.of_nat timeout) fn x)
     (λ res w', waits w w' ∧ outcome c fn rx out res) w3).
  { eapply Hagain; [done|unfold w3, calls; cbn [l_trace]; rewrite Htr2, <- app_assoc; done| |done|done].
    rewrite length_app. lia. }
  destruct (Z.ltb_spec (s32 r2) 0).
  { destruct (_ =? _); [done|]. apply wp_ret.
    split; [by rewrite Hx2|apply outcome_same; lia]. }
  destruct (Z.lt_ge_cases r2 0) as [Hneg|Hpos]; [zint|].
  destruct (Hgood Hpos) as (h' & p & -> & -> & -> & _ & _ & Hlen & Hpl & Hpb).
  do 3 (eapply wp_bind, wp_lift; [done|]).
  destruct (select_record_run c fn rx out h' p (r2 - TAP_HDR_SIZE) Hfn (Hpb Htb))
    as (res & Es & Hres); [lia|unfold TAP_BUF_SIZE, TAP_HDR_SIZE in *; lia|].
  eapply wp_bind, wp_lift; [exact Es|]. destruct res as [res|]; [|done].
  apply wp_ret. split; [by rewrite Hx2|by apply Hres].
Qed.

(** The wait in milliseconds. *)
Definition wait_ms (timeout_ms : Z) : nat :=
  Z.to_nat (if 0 <? timeout_ms then timeout_ms else 1000).

Lemma wait_selected_run fuel c rx out timeout_ms fn w fd :
  dev_open w fd → 0 < zlen rx → sel_total (default select_any_frame fn) →
  (wait_ms timeout_ms * B < fuel)%nat →
  wp (gxfp_goodix_wait_selected fuel c (Some rx) (zlen rx) out timeout_ms fn)
     (λ res w', waits w w' ∧ ∃ x, res.1.2 = Some x ∧
        outcome c (default select_any_frame fn) rx (setp out 0) (res.1.1, x, res.2)) w.
Proof using EO CO.
  intros Hd Hrx Hfn Hfuel. unfold gxfp_goodix_wait_selected. apply wp_bind, wp_getw.
  rewrite (proj1 Hd), (proj2 (Z.eqb_neq (zlen rx) 0)) by lia.
  apply wp_bind, wp_gets, wp_bind, wp_monotonic. set (w1 := calls _ w).
  replace (if 0 <? timeout_ms then timeout_ms else 1000) with (Z.of_nat (wait_ms timeout_ms))
    by (unfold wait_ms; destruct (Z.ltb_spec 0 timeout_ms); lia).
  apply wp_bind. eapply wp_mono.
  - apply (wait_loop_run fuel 0 c rx _ (l_trace w1) (wait_ms timeout_ms) _ _ w1 [] fd).
    + by apply (dev_open_extends w); [|apply extends_calls].
    + by rewrite app_nil_r.
    + cbn; lia.
    + lia.
    + lia.
    + by apply u_uninit_len.
    + apply u_uninit_bytes.
    + done.
  - intros ((r & x) & o) w' (Hx & Ho). apply wp_ret. split.
    + rewrite <- Hx. by apply waits_calls.
    + by exists x.
Qed.

(** A command is sent as one packet; one that does not fit is refused at once. *)
Lemma send_async_run c pl rest w fd :
  dev_open w fd → is_u8 c → zlen pl <= GOODIX_PAYLOAD_MAX →
  let pk := user_packet GOODIX_MP_TYPE_CMD (goodix_frame c pl) in
  gxfp_goodix_send_async c (Some (pl ++ rest)) (zlen pl) w
  = Some (if GXFP_IOCTL_TX_PAYLOAD_MAX <? zlen pl + 4 then (- EMSGSIZE, w) else
          match l_oom w with
          | true :: _ => (- ENOMEM, pop_alloc w)
          | _ =>
            let wr := sys_write (l_trace w ++ [EvWrite fd pk]) in
            ((if wr <? 0 then wr else if wr =? 12 + zlen pl then 0 else - EIO),
             calls [EvWrite fd pk] (pop_alloc w))
          end).
Proof using EO.
  intros Hd Hc Hpl pk. pose proof (zlen_nonneg pl). unfold gxfp_goodix_send_async.
  unfold u_stack. rewrite bind_gets.
  assert (Hu : zlen (u_uninit (l_trace w) GOODIX_TX_BUF_SIZE) = GOODIX_TX_BUF_SIZE)
    by (by apply u_uninit_len).
  unfold GOODIX_PAYLOAD_MAX, GOODIX_TX_BUF_SIZE in *.
  rewrite user_build_run by (unfold GOODIX_PAYLOAD_MAX; try done; lia). rewrite bind_lift.
  rewrite (proj2 (Z.ltb_ge _ 0)) by lia. replace (u16 (zlen pl + 4)) with (zlen pl + 4) by zint.
  rewrite <- zlen_goodix_frame with (cmd:=c), (send_packet_run _ _ _ w fd Hd).
  fold pk. rewrite zlen_goodix_frame. by replace (8 + (zlen pl + 4)) with (12 + zlen pl) by lia.
Qed.

(** What a request leaves in the trace: [k] copies of its packet. *)
Definition sent (k : nat) (c : Z) (pl : bytes) (w w' : lworld) : Prop :=
  extends w w' ∧
  writes (l_trace w')
  = writes (l_trace w) ++ replicate k (user_packet GOODIX_MP_TYPE_CMD (goodix_frame c pl)).

Lemma sent_waits k c pl w w1 w2 : sent k c pl w w1 → waits w1 w2 → sent k c pl w w2.
Proof using Type. intros (H1 & E1) (H2 & E2). split; [by rewrite H1|congruence]. Qed.

Lemma sent_more j k c pl w w1 w2 :
  sent j c pl w w1 → sent k c pl w1 w2 → sent (j + k) c pl w w2.
Proof using Type.
  intros (H1 & E1) (H2 & E2). split; [by rewrite H1|].
  by rewrite E2, E1, <- app_assoc, replicate_add.
Qed.

Lemma send_async_sent c pl rest w fd :
  dev_open w fd → is_u8 c → zlen pl <= GOODIX_PAYLOAD_MAX →
  wp (gxfp_goodix_send_async c (Some (pl ++ rest)) (zlen pl))
     (λ r w', ∃ k, (k <= 1)%nat ∧ sent k c pl w w' ∧
        (GXFP_IOCTL_TX_PAYLOAD_MAX < zlen pl + 4 → r = - EMSGSIZE ∧ k = 0%nat) ∧
        (r = 0 → k = 1%nat) ∧
        (l_oom w = [] → zlen pl + 4 <= GXFP_IOCTL_TX_PAYLOAD_MAX → k = 1%nat)) w.
Proof using EO.
  intros Hd Hc Hpl. eapply wp_run; [by apply (send_async_run c pl rest w fd)|]. cbv zeta.
  destruct (Z.ltb_spec GXFP_IOCTL_TX_PAYLOAD_MAX (zlen pl + 4)) as [Hbig|Hfit].
  { exists 0%nat. split; [lia|]. split; [|split; [done|split; [done|lia]]].
    split; [apply extends_refl|]. by rewrite app_nil_r. }
  set (pk := user_packet _ _).
  assert (H1 : sent 1 c pl w (calls [EvWrite fd pk] (pop_alloc w))).
  { split; [by rewrite <- extends_calls; apply extends_pop|].
    cbn. unfold writes. by rewrite omap_app. }
  destruct (l_oom w) as [|[] oom].
  - exists 1%nat. split; [lia|]. split; [exact H1|]. split; [lia|done].
  - exists 0%nat. split; [lia|]. split; [|split; [lia|done]].
    split; [apply extends_pop|]. by rewrite app_nil_r.
  - exists 1%nat. split; [lia|]. split; [exact H1|]. split; [lia|done].
Qed.

(** The attempts, one after the other. *)
Lemma request_loop_run n fuel c e pl rest rx out timeout_ms fn w fd :
  dev_open w fd → 0 < zlen rx → sel_total (default select_any_frame fn) → is_u8 c →
  zlen pl <= GOODIX_PAYLOAD_MAX → (wait_ms timeout_ms * B < fuel)%nat →
  wp (request_loop n fuel c e (Some (pl ++ rest)) (zlen pl) (Some rx) (zlen rx) (setp out 0)
        timeout_ms fn)
     (λ res w', ∃ x k, res.1.2 = Some x ∧ (k <= n)%nat ∧ sent k c pl w w' ∧
        outcome e (default select_any_frame fn) rx (setp out 0) (res.1.1, x, res.2) ∧
        (GXFP_IOCTL_TX_PAYLOAD_MAX < zlen pl + 4 → n ≠ 0%nat → res.1.1 = - EMSGSIZE ∧ k = 0%nat) ∧
        (res.1.1 = 0 → (1 <= k)%nat) ∧
        (l_oom w = [] → zlen pl + 4 <= GXFP_IOCTL_TX_PAYLOAD_MAX → n ≠ 0%nat → (1 <= k)%nat)) w.
Proof using EO CO.
  intros Hd Hrx Hfn Hc Hpl Hfuel. revert w Hd. induction n as [|n IH]; intros w Hd; cbn [request_loop].
  { apply wp_ret. exists rx, 0%nat. split; [done|]. split; [lia|].
    split; [split; [apply extends_refl|by rewrite app_nil_r]|]. split; [by apply outcome_same|].
    split; [done|]. done. }
  apply wp_bind. eapply wp_mono; [by apply (send_async_sent c pl rest w fd)|].
  intros r w1 (k & Hk & Hs & Hbig & Hone & Hall).
  destruct (Z.eqb_spec r 0) as [->|Hr]; cbn [negb]; cycle 1.
  { apply wp_ret. exists rx, k. split; [done|]. split; [lia|]. split; [done|].
    split; [by apply outcome_same|]. split; [intros Hb _; by apply Hbig|]. split; [done|].
    intros Ho Hf _. rewrite Hall by done. lia. }
  assert (Hd1 : dev_open w1 fd) by (apply (dev_open_extends w); [done|apply Hs]).
  apply wp_bind. eapply wp_mono; [by apply (wait_selected_run fuel e rx (setp out 0) timeout_ms fn w1 fd)|].
  intros ((r & b) & o) w2 (Hw & x & Ex & Ho). cbn [fst snd] in *. subst b. rewrite setp_setp in Ho.
  assert (Hs2 : sent k c pl w w2) by by eapply sent_waits.
  assert (Hnb : ¬ GXFP_IOCTL_TX_PAYLOAD_MAX < zlen pl + 4).
  { intros Hb. destruct (Hbig Hb) as (Hbad & _). done. }
  destruct (Z.eqb_spec r (- ETIMEDOUT)) as [->|].
  - destruct Ho as (_ & _ & Hsame). destruct Hsame as (-> & ->); [done|].
    eapply wp_mono; [apply IH; apply (dev_open_extends w); [done|apply Hs2]|].
    intros res w' (y & j & Ey & Hj & Hsj & Hoy & _ & H0 & _). exists y, (k + j)%nat.
    split; [done|]. split; [lia|]. split; [by eapply sent_more|]. split; [done|].
    split; [done|]. rewrite Hone by done. split; [intros Hr; specialize (H0 Hr)|]; lia.
  - apply wp_ret. exists x, k. split; [done|]. split; [lia|]. split; [done|].
    split; [done|]. split; [done|]. rewrite Hone by done. lia.
Qed.

(** The number of attempts of a request. *)
Definition attempts (tries : Z) : nat := Z.to_nat (if 0 <? tries then tries else 1).

Lemma request_selected_run fuel c e pl rest rx out tries timeout_ms fn w fd :
  dev_open w fd → 0 < zlen rx → sel_total (default select_any_frame fn) → is_u8 c →
  zlen pl <= GOODIX_PAYLOAD_MAX → (wait_ms timeout_ms * B < fuel)%nat →
  wp (gxfp_goodix_request_selected fuel c e (Some (pl ++ rest)) (zlen pl) (Some rx) (zlen rx) out
        tries timeout_ms fn)
     (λ res w', ∃ x k, res.1.2 = Some x ∧ (k <= attempts tries)%nat ∧ sent k c pl w w' ∧
        outcome e (default select_any_frame fn) rx (setp out 0) (res.1.1, x, res.2) ∧
        (GXFP_IOCTL_TX_PAYLOAD_MAX < zlen pl + 4 → res.1.1 = - EMSGSIZE ∧ k = 0%nat) ∧
        (res.1.1 = 0 → (1 <= k)%nat) ∧
        (l_oom w = [] → zlen pl + 4 <= GXFP_IOCTL_TX_PAYLOAD_MAX → (1 <= k)%nat)) w.
Proof using EO CO.
  intros Hd Hrx Hfn Hc Hpl Hfuel. unfold gxfp_goodix_request_selected. apply wp_bind, wp_getw.
  rewrite (proj1 Hd), (proj2 (Z.eqb_neq (zlen rx) 0)) by lia. fold (attempts tries).
  assert (Ha : attempts tries ≠ 0%nat)
    by (unfold attempts; destruct (Z.ltb_spec 0 tries); lia).
  eapply wp_mono; [by apply (request_loop_run _ _ _ _ _ _ _ _ _ _ w fd)|].
  intros res w' (x & k & H1 & H2 & H3 & H4 & H5 & H6 & H7). exists x, k. auto 9.
Qed.
End xfer_rules.

(** * A device that answers *)

(** A system on which writes are taken whole, the device is always readable and
    shows the record [r], and time does not run out between two looks at the
    clock. *)
Record answers_with (E : Uenv) (r : record) (timeout : nat) : Prop := {
  aw_write : ∀ tr fd b, sys_write (tr ++ [EvWrite fd b]) = zlen b;
  aw_poll : ∀ tr fd ms, poll_result (sys_poll (tr ++ [EvPoll fd ms])) = 0;
  aw_read : ∀ tr fd cap, zlen (rec_bytes r) <= cap → sys_read (tr ++ [EvRead fd cap]) = inr (rec_bytes r);
  aw_clock : ∀ tr, let now := tr ++ [EvClock CLOCK_MONOTONIC] in
    ms_at (now ++ [EvClock CLOCK_MONOTONIC]) < ms_at now + Z.of_nat timeout
}.

Section answered.
Context {E : Uenv} {EO : UenvOk E}.

Lemma read_record_is r b cap o w fd :
  dev_open w fd → rec_ok r → hdr_ok r.1 → zlen b = cap → TAP_HDR_SIZE + zlen r.2 <= cap →
  sys_read (l_trace w ++ [EvRead fd cap]) = inr (rec_bytes r) →
  gxfp_dev_read_record (Some b) cap (Some o) (Some None) (Some 0) w
  = Some ((TAP_HDR_SIZE + zlen r.2, Some (rec_bytes r ++ zdrop (TAP_HDR_SIZE + zlen r.2) b),
           Some r.1, Some (Some (r.2 ++ zdrop (TAP_HDR_SIZE + zlen r.2) b)), Some (zlen r.2)),
          calls [EvRead fd cap] w).
Proof using Type.
  intros Hd Hr Hh Hb Hcap Hs. pose proof (zlen_nonneg r.2).
  assert (Hrl := zlen_rec r Hr). unfold TAP_HDR_SIZE in *. unfold gxfp_dev_read_record.
  rewrite (run_bind _ _ _ _ _ (dev_closed_run w fd Hd)), (proj2 (Z.eqb_neq cap 0)) by lia.
  cbn [orb]. rewrite (run_bind _ _ _ _ _ (dev_fd_run w fd Hd)).
  rewrite (run_bind _ _ _ _ _ (syscall_run _ _ w)), Hs.
  rewrite blit_Some by lia. rewrite Hrl. change (ztake 0 b) with (@nil Z). cbn [app].
  rewrite Z.add_0_l, bind_lift, (proj2 (Z.eqb_neq (40 + _) 0)) by lia.
  rewrite parse_tap_run by done. unfold TAP_HDR_SIZE. rewrite Z.eqb_refl, bind_lift. done.
Qed.

(** The record of a command body. *)
Definition body_record (h : gxfp_tap_hdr) (c : Z) (pl : bytes) (ck : Z) : record :=
  (h, goodix_body c pl ck).

Lemma select_body c fn rx out h pl ck more :
  is_u8 c → zlen pl < 65535 → th_type h = GOODIX_MP_TYPE_CMD →
  (∃ s, fn (body_frame c pl ck more) = Some s ∧ 0 < s) → zlen pl + 4 <= zlen rx →
  select_record c fn rx (zlen rx) out h (Some (goodix_body c pl ck ++ more)) (zlen pl + 4)
  = Some (Some (0, goodix_body c pl ck ++ zdrop (zlen pl + 4) rx, setp out (zlen pl + 4))).
Proof using Type.
  intros Hc Hpl Ht (s & Hs & Hs0) Hrx. pose proof (zlen_nonneg pl).
  unfold select_record. rewrite Ht, Z.eqb_refl. cbn [negb].
  rewrite user_parse_body by (done || lia). cbn [mbind option_bind negb orb valid body_frame cmd].
  rewrite Z.eqb_refl. cbn [negb]. rewrite Hs. cbn [mbind option_bind].
  rewrite (proj2 (Z.ltb_ge s 0)), (proj2 (Z.eqb_neq s 0)), (proj2 (Z.ltb_ge (zlen rx) _)) by lia.
  unfold memcpy. rewrite slice_prefix by apply zlen_goodix_body. cbn [mbind option_bind].
  rewrite blit_Some by (rewrite ?zlen_goodix_body; lia). cbn [mbind option_bind].
  rewrite zlen_goodix_body. change (ztake 0 rx) with (@nil Z). cbn [app]. rewrite Z.add_0_l.
  replace (u32 (zlen pl + 4)) with (zlen pl + 4) by zint. cbn [mbind option_bind].
  done.
Qed.

(** One turn of the loop on such a system. *)
Lemma wait_selected_answered fuel h c pl ck rx out timeout_ms fn w fd :
  answers_with E (body_record h c pl ck) (wait_ms timeout_ms) →
  dev_open w fd → is_u8 c → bytes_ok pl → zlen pl < 65535 → zlen pl + 4 <= zlen rx →
  rec_ok (body_record h c pl ck) → hdr_ok h → th_type h = GOODIX_MP_TYPE_CMD →
  (∀ more, ∃ s, default select_any_frame fn (body_frame c pl ck more) = Some s ∧ 0 < s) →
  wait_ms timeout_ms ≠ 0%nat → Z.of_nat (wait_ms timeout_ms) < 2 ^ 31 →
  ∃ w', gxfp_goodix_wait_selected (S fuel) c (Some rx) (zlen rx) out timeout_ms fn w
  = Some ((0, Some (goodix_body c pl ck ++ zdrop (zlen pl + 4) rx), setp out (zlen pl + 4)), w') ∧
    waits w w'.
Proof using EO.
  intros Ha Hd Hc Hpb Hpl Hrx Hr Hh Ht Hfn Ht0 Ht31. pose proof (zlen_nonneg pl).
  unfold gxfp_goodix_wait_selected. rewrite bind_getw, (proj1 Hd).
  rewrite (proj2 (Z.eqb_neq (zlen rx) 0)) by lia. unfold u_stack. rewrite bind_gets.
  rewrite (run_bind _ _ _ _ _ (monotonic_run w)). cbv zeta.
  replace (if 0 <? timeout_ms then timeout_ms else 1000) with (Z.of_nat (wait_ms timeout_ms))
    by (unfold wait_ms; destruct (Z.ltb_spec 0 timeout_ms); lia).
  set (w1 := calls _ w). cbn [wait_loop].
  rewrite bind_assoc, (run_bind _ _ _ _ _ (monotonic_run w1)). cbv zeta.
  pose proof (aw_clock _ _ _ Ha (l_trace w)) as Hclk. cbv zeta in Hclk. cbn [l_trace w1 calls].
  set (now := ms_at (l_trace w ++ [EvClock CLOCK_MONOTONIC])) in *.
  set (later := ms_at ((l_trace w ++ _) ++ _)) in *.
  rewrite (proj2 (Z.leb_gt _ 0)) by lia.
  set (w2 := calls _ w1).
  assert (Hd2 : dev_open w2 fd).
  { apply (dev_open_extends w); [done|].
    apply (extends_trans w w1 w2); apply extends_calls. }
  rewrite bind_assoc, (run_bind _ _ _ _ _ (poll_readable_run _ w2 fd Hd2)).
  rewrite (aw_poll _ _ _ Ha). change (0 =? - EAGAIN) with false. change (negb (0 =? 0)) with false. cbv iota.
  set (w3 := calls _ w2). assert (Hd3 : dev_open w3 fd).
  { apply (dev_open_extends w2); [done|]. apply extends_calls. }
  assert (Hb : zlen (u_uninit (l_trace w) TAP_BUF_SIZE) = TAP_BUF_SIZE) by (by apply u_uninit_len).
  assert (Hzr : zlen (body_record h c pl ck).2 = zlen pl + 4) by apply zlen_goodix_body.
  rewrite bind_assoc. erewrite run_bind.
  2: { apply (read_record_is (body_record h c pl ck)); [done..| |apply Ha; rewrite zlen_rec by done];
         rewrite Hzr; unfold TAP_HDR_SIZE, TAP_BUF_SIZE; lia. }
  rewrite Hzr. cbv beta iota. rewrite bind_assoc, bind_lift.
  unfold TAP_HDR_SIZE at 1. replace (s32 (40 + (zlen pl + 4))) with (44 + zlen pl) by zint.
  rewrite (proj2 (Z.ltb_ge _ 0)) by lia. rewrite !bind_assoc, bind_lift.
  rewrite bind_assoc, bind_lift, bind_assoc, bind_lift. rewrite bind_assoc.
  change (body_record h c pl ck).1 with h. change (body_record h c pl ck).2 with (goodix_body c pl ck).
  rewrite select_body by (done || lia). rewrite bind_lift, bind_ret, setp_setp. eexists. split; [done|].
  do 3 (etrans; [|by apply waits_calls]). by apply waits_calls.
Qed.
End answered.

(** * Properties *)

Section properties.
Context {E : Uenv} {EO : UenvOk E} {B : nat} {CO : UclockOk E B}.

(** C19: a request returns, on any device and with any answers, once the loop is
    given one turn per call that fits in its timeout. It sends its packet at most
    [tries] times and nothing else, and at least once when the command fits a packet
    and memory does not run out; a command that does not fit is refused without
    being sent. It succeeds only with a packet that parses as a body of the expected
    command and that the selector took, copied whole; otherwise the caller's buffer
    is untouched. The checksum byte of that body can be any: the code does not look
    at [proto_checksum_ok]. *)
Theorem request_returns fuel c e pl rest rx out tries timeout_ms fn w fd :
  dev_open w fd → 0 < zlen rx → sel_total (default select_any_frame fn) → is_u8 c →
  zlen pl <= GOODIX_PAYLOAD_MAX → (wait_ms timeout_ms * B < fuel)%nat →
  ∃ r x out' w' k,
    gxfp_goodix_request_selected fuel c e (Some (pl ++ rest)) (zlen pl) (Some rx) (zlen rx) out
      tries timeout_ms fn w = Some ((r, Some x, out'), w') ∧
    (k <= attempts tries)%nat ∧ sent k c pl w w' ∧
    zlen x = zlen rx ∧
    (r = 0 → answered e (default select_any_frame fn) rx x (setp out 0) out') ∧
    (r ≠ 0 → x = rx ∧ out' = setp out 0) ∧
    (GXFP_IOCTL_TX_PAYLOAD_MAX < zlen pl + 4 → r = - EMSGSIZE ∧ k = 0%nat) ∧
    (r = 0 → (1 <= k)%nat) ∧
    (l_oom w = [] → zlen pl + 4 <= GXFP_IOCTL_TX_PAYLOAD_MAX → (1 <= k)%nat).
Proof using EO CO.
  intros Hd Hrx Hfn Hc Hpl Hfuel.
  destruct (wp_inv _ _ _ (request_selected_run fuel c e pl rest rx out tries timeout_ms fn w fd
    Hd Hrx Hfn Hc Hpl Hfuel)) as (((r & b) & o) & w' & Er & x & k & Ex & Hk & Hs & Ho & Hbig & Hone & Hall).
  cbn [fst snd] in *. subst b. destruct Ho as (Hl & H0 & H1).
  exists r, x, o, w', k. done.
Qed.

(** The first attempt on a device that answers. *)
Lemma request_answered_run fuel h c e req rest pl ck rx out tries timeout_ms fn w fd :
  answers_with E (body_record h e pl ck) (wait_ms timeout_ms) →
  dev_open w fd → l_oom w = [] → is_u8 c → zlen req + 4 <= GXFP_IOCTL_TX_PAYLOAD_MAX →
  is_u8 e → bytes_ok pl → zlen pl < 65535 → zlen pl + 4 <= zlen rx →
  rec_ok (body_record h e pl ck) → hdr_ok h → th_type h = GOODIX_MP_TYPE_CMD →
  (∀ more, ∃ s, default select_any_frame fn (body_frame e pl ck more) = Some s ∧ 0 < s) →
  Z.of_nat (wait_ms timeout_ms) < 2 ^ 31 →
  ∃ w', gxfp_goodix_request_selected (S fuel) c e (Some (req ++ rest)) (zlen req) (Some rx)
          (zlen rx) out tries timeout_ms fn w
  = Some ((0, Some (goodix_body e pl ck ++ zdrop (zlen pl + 4) rx), setp out (zlen pl + 4)), w') ∧
    sent 1 c req w w'.
Proof using EO.
  intros Ha Hd Ho Hc Hreq He Hpb Hpl Hrx Hr Hh Ht Hfn Ht31.
  pose proof (zlen_nonneg pl). pose proof (zlen_nonneg req).
  unfold gxfp_goodix_request_selected. rewrite bind_getw, (proj1 Hd).
  rewrite (proj2 (Z.eqb_neq (zlen rx) 0)) by lia. fold (attempts tries).
  assert (Hn : ∃ n, attempts tries = S n).
  { unfold attempts. exists (Nat.pred (Z.to_nat (if 0 <? tries then tries else 1))).
    destruct (Z.ltb_spec 0 tries); lia. }
  destruct Hn as (n & ->). cbn [request_loop].
  unfold GXFP_IOCTL_TX_PAYLOAD_MAX in *.
  assert (Hsend := send_async_run c req rest w fd Hd Hc). cbv zeta in Hsend.
  unfold GXFP_IOCTL_TX_PAYLOAD_MAX in Hsend.
  rewrite (proj2 (Z.ltb_ge 508 _)), Ho, (aw_write _ _ _ Ha) in Hsend by lia.
  assert (Hpk : zlen (user_packet GOODIX_MP_TYPE_CMD (goodix_frame c req)) = 12 + zlen req)
    by (unfold user_packet; rewrite zlen_tx_packet, zlen_goodix_frame by done; lia).
  rewrite Hpk, (proj2 (Z.ltb_ge (12 + zlen req) 0)), Z.eqb_refl in Hsend by lia.
  rewrite (run_bind _ _ _ _ _ (Hsend ltac:(unfold GOODIX_PAYLOAD_MAX; lia))).
  change (negb (0 =? 0)) with false. cbv iota. set (w1 := calls _ _).
  assert (Hd1 : dev_open w1 fd).
  { apply (dev_open_extends w); [done|].
    apply (extends_trans w (pop_alloc w) w1); [apply extends_pop|apply extends_calls]. }
  destruct (wait_selected_answered fuel h e pl ck rx (setp out 0) timeout_ms fn w1 fd)
    as (w' & Ew & Hw); try done.
  { unfold wait_ms. destruct (Z.ltb_spec 0 timeout_ms); lia. }
  rewrite (run_bind _ _ _ _ _ Ew), setp_setp. exists w'. split; [done|].
  apply (sent_waits _ _ _ _ w1); [|done]. split.
  { apply (extends_trans w (pop_alloc w) w1); [apply extends_pop|apply extends_calls]. }
  unfold w1. cbn [calls l_trace]. unfold writes. by rewrite omap_app.
Qed.

(** A request is answered: on a device that shows a packet with the expected
    command that the selector takes, the first attempt returns success with the
    packet in the caller's buffer and its length. *)
Theorem request_gets_answer fuel h c e req rest pl ck rx out tries timeout_ms fn w fd :
  answers_with E (body_record h e pl ck) (wait_ms timeout_ms) →
  dev_open w fd → l_oom w = [] → is_u8 c → zlen req + 4 <= GXFP_IOCTL_TX_PAYLOAD_MAX →
  is_u8 e → bytes_ok pl → zlen pl < 65535 → zlen pl + 4 <= zlen rx →
  rec_ok (body_record h e pl ck) → hdr_ok h → th_type h = GOODIX_MP_TYPE_CMD →
  (∀ more, ∃ s, default select_any_frame fn (body_frame e pl ck more) = Some s ∧ 0 < s) →
  Z.of_nat (wait_ms timeout_ms) < 2 ^ 31 →
  ∃ w', gxfp_goodix_request_selected (S fuel) c e (Some (req ++ rest)) (zlen req) (Some rx)
          (zlen rx) out tries timeout_ms fn w
  = Some ((0, Some (goodix_body e pl ck ++ zdrop (zlen pl + 4) rx), setp out (zlen pl + 4)), w').
Proof using EO.
  intros. destruct (request_answered_run fuel h c e req rest pl ck rx out tries timeout_ms fn w fd)
    as (w' & Er & _); try done. by exists w'.
Qed.
End properties.

Definition demo_answer : record :=
  body_record (hdr_of 5 160 (goodix_body 176 [1] 9)) 176 [1] 9.

Lemma demo_answer_ok : rec_ok demo_answer ∧ hdr_ok demo_answer.1.
Proof. vm_compute. repeat split; discriminate. Qed.

Definition answer_env (r : record) : Uenv :=
  {| sys_open := λ _, 3; sys_fcntl := λ _, 0; sys_poll := λ _, (1, 1);
     sys_read := λ tr, match last tr with
                       | Some (EvRead _ cap) => inr (ztake cap (rec_bytes r))
                       | _ => inl EAGAIN
                       end;
     sys_write := λ tr, match last tr with Some (EvWrite _ b) => zlen b | _ => 0 end;
     sys_ioctl := λ _, 0;
     sys_clock := λ _ tr, (zlen tr / 1000, zlen tr mod 1000 * 1000000);
     u_uninit := λ _ n, zeros n |}.

#[export] Instance answer_env_ok r : bytes_ok (rec_bytes r) → UenvOk (answer_env r).
Proof.
  intros Hr. split; intros tr.
  - intros fd cap b Hcap. cbn. rewrite last_snoc. intros [= <-].
    split; [by apply bytes_ok_ztake|]. unfold zlen, ztake. rewrite length_take. lia.
  - intros fd cap e. cbn. by rewrite last_snoc.
  - intros n Hn. by apply zlen_zeros.
  - intros n. apply bytes_ok_zeros.
Qed.

Lemma answer_env_ms r tr : ms_at (E:=answer_env r) tr = zlen tr.
Proof. unfold ms_at. cbn. pose proof (zlen_nonneg tr). rewrite Z.quot_mul by lia. zdm. Qed.

#[export] Instance answer_env_clock r : UclockOk (answer_env r) 1.
Proof. split; intros tr evs; rewrite !answer_env_ms, zlen_app; unfold zlen; lia. Qed.

(** Every call takes a millisecond, so a timeout of two is enough. *)
Lemma answer_env_answers r n : (2 <= n)%nat → answers_with (answer_env r) r n.
Proof.
  intros Hn. split; try done.
  - intros tr fd b. cbn. by rewrite last_snoc.
  - intros tr fd cap Hcap. cbn [sys_read answer_env]. rewrite last_snoc. f_equal.
    unfold ztake, zlen in *. apply take_ge. lia.
  - intros tr. cbv zeta. rewrite !answer_env_ms, !zlen_app. unfold zlen. cbn. lia.
Qed.

Lemma demo_answer_bytes : bytes_ok (rec_bytes demo_answer).
Proof. vm_compute. repeat constructor; discriminate. Qed.

Lemma any_total : sel_total (default select_any_frame None).
Proof. intros c pl ck rest _. by eexists. Qed.

Lemma request_gets_answer_witness :
  ∃ w', gxfp_goodix_request_selected (E:=answer_env demo_answer)
    1 14 176 (Some ([1] ++ [])) 1 (Some (zeros 8)) 8 (Some 0) 1 500 None demo_lworld
  = Some ((0, Some (goodix_body 176 [1] 9 ++ zeros 3), Some 5), w').
Proof.
  apply (request_gets_answer (EO:=answer_env_ok _ demo_answer_bytes) 0 demo_answer.1 14 176 [1] []
    [1] 9 (zeros 8) (Some 0) 1 500 None demo_lworld 3).
  - apply answer_env_answers. vm_compute. lia.
  - exact demo_dev_open.
  - reflexivity.
  - unfold is_u8; lia.
  - vm_compute. discriminate.
  - unfold is_u8; lia.
  - repeat constructor; unfold is_u8; lia.
  - vm_compute. reflexivity.
  - vm_compute. discriminate.
  - exact (proj1 demo_answer_ok).
  - exact (proj2 demo_answer_ok).
  - reflexivity.
  - intros more. exists 1. split; [reflexivity|lia].
  - vm_compute. reflexivity.
Defined.

Lemma request_returns_witness :
  ∃ r x out' w', gxfp_goodix_request_selected (E:=answer_env demo_answer)
    501 14 176 (Some ([1] ++ [])) 1 (Some (zeros 8)) 8 (Some 0) 1 500 None demo_lworld
  = Some ((r, Some x, out'), w').
Proof.
  destruct (request_returns (EO:=answer_env_ok _ demo_answer_bytes) (CO:=answer_env_clock _)
    501 14 176 [1] [] (zeros 8) (Some 0) 1 500 None demo_lworld 3) as (r & x & o & w' & k & Er & _).
  - exact demo_dev_open.
  - vm_compute. reflexivity.
  - exact any_total.
  - unfold is_u8; lia.
  - vm_compute. discriminate.
  - vm_compute. lia.
  - exists r, x, o, w'. exact Er.
Defined.
