(* ===== verification/USensorCfg.v ===== *)
(** The sensor's configuration block and the calibration values of its
    one-time-programmable memory: [userspace/src/algo/sensor_cfg.c]. *)
From Stdlib Require Import ZArith Lia.
From stdpp Require Import prelude list.
From S2P Require Import Prelude UWorld UCommon.

Open Scope Z_scope.

(** * The code *)

Definition GXFP_MILANL_CFG_LEN : Z := 224. (* 0xE0 *)
Definition GXFP_MILANL_OTP_IDX_TCODE : Z := 22. (* 0x16 *)
Definition GXFP_MILANL_OTP_IDX_TCODE_NEG : Z := 23. (* 0x17 *)
Definition GXFP_MILANL_OTP_IDX_DAC : Z := 31. (* 0x1f *)
Definition GXFP_MILANL_DEFAULT_TCODE : Z := 128. (* 0x80 *)
Definition GXFP_MILANL_DEFAULT_FDT_DELTA : Z := 21. (* 0x15 *)
Definition GXFP_CFG_CHECKSUM_WORDS : Z := 111. (* 0x6f *)
Definition GXFP_CFG_CHECKSUM_OFF : Z := 222. (* 0xde *)

Record gxfp_milanl_otp_cfg := {
  tcode : Z;
  fdt_delta : Z;
  dac : Z;
  has_dac : Z;
  has_tcode_delta : Z
}.

(** [gxfp_le16_at (b + off)] *)
Definition gxfp_le16_at (b : bytes) (off : Z) : option Z :=
  p0 ← rd b off;
  p1 ← rd b (off + 1);
  Some (u16 (Z.lor p0 (Z.shiftl p1 8))).

Definition gxfp_cfg_recalc_checksum (cfg : ptr bytes) (cfg_len : Z) : option (ptr bytes) :=
  match cfg with
  | None => Some cfg
  | Some c =>
    if cfg_len <? GXFP_MILANL_CFG_LEN then Some cfg else
    sum ← forN (Z.to_nat GXFP_CFG_CHECKSUM_WORDS) 0 (λ i sum,
            w ← gxfp_le16_at c (i * 2);
            Some (s16 (sum + s16 w))) (s16 42405);
    let sum := s16 (- sum) in
    c ← wr c GXFP_CFG_CHECKSUM_OFF (u8 (Z.land sum 255));
    c ← wr c (GXFP_CFG_CHECKSUM_OFF + 1) (u8 (Z.land (Z.shiftr (u16 sum) 8) 255));
    Some (Some c)
  end.

(** The scan of a section for a register: [step] is a [uint8_t] and wraps. *)
Fixpoint patch_loop (fuel : nat) (step : Z) (cfg : bytes)
    (reg val section_off section_len write_mode : Z) : option (Z * bytes) :=
  match fuel with
  | O => None
  | S fuel =>
    if negb (step <? section_len) then Some (- ENOENT, cfg) else
    let off := section_off + step in
    if GXFP_MILANL_CFG_LEN <? off + 4 then Some (- EBADMSG, cfg) else
    cur ← gxfp_le16_at cfg off;
    if negb (cur =? reg)
    then patch_loop fuel (u8 (step + 4)) cfg reg val section_off section_len write_mode
    else
      cfg ← (if (write_mode =? 0) || (write_mode =? 1)
             then wr cfg (off + 2) (u8 (Z.land val 255)) else Some cfg);
      cfg ← (if (write_mode =? 0) || (write_mode =? 2)
             then wr cfg (off + 3) (u8 (Z.land (Z.shiftr val 8) 255)) else Some cfg);
      c ← gxfp_cfg_recalc_checksum (Some cfg) GXFP_MILANL_CFG_LEN;
      cfg ← c;
      Some (0, cfg)
  end.

Definition gxfp_cfg_patch_reg (cfg : ptr bytes) (cfg_len reg val section_idx write_mode : Z)
    : option (Z * ptr bytes) :=
  match cfg with
  | None => Some (- EINVAL, cfg)
  | Some c =>
    if negb (cfg_len =? GXFP_MILANL_CFG_LEN) then Some (- EINVAL, cfg) else
    if 7 <? section_idx then Some (- EINVAL, cfg) else
    section_off ← rd c (1 + section_idx * 2);
    section_len ← rd c (2 + section_idx * 2);
    if cfg_len <? section_off + section_len then Some (- EBADMSG, cfg) else
    '(r, c) ← patch_loop 65 0 c reg val section_off section_len write_mode;
    Some (r, Some c)
  end.

Definition gxfp_milanl_cfg_template : bytes :=
  [48; 17; 100; 117; 0; 117; 44; 161; 28; 189; 24; 213; 0; 213; 0; 213;
   0; 186; 0; 0; 128; 202; 0; 6; 0; 132; 0; 190; 178; 134; 0; 197;
   185; 136; 0; 181; 173; 138; 0; 157; 149; 140; 0; 0; 190; 142; 0; 0;
   197; 144; 0; 0; 181; 146; 0; 0; 157; 148; 0; 0; 175; 150; 0; 0;
   191; 152; 0; 0; 182; 154; 0; 0; 167; 210; 0; 0; 0; 212; 0; 0;
   0; 214; 0; 0; 0; 216; 0; 0; 0; 18; 0; 3; 4; 208; 0; 0;
   0; 112; 0; 0; 0; 114; 0; 120; 86; 116; 0; 52; 18; 32; 0; 16;
   64; 32; 2; 8; 16; 42; 1; 130; 3; 34; 0; 1; 32; 36; 0; 20;
   0; 128; 0; 1; 4; 92; 0; 0; 1; 86; 0; 12; 36; 88; 0; 5;
   0; 50; 0; 8; 2; 102; 0; 0; 2; 124; 0; 0; 56; 130; 0; 128;
   21; 42; 1; 8; 0; 92; 0; 128; 0; 84; 0; 0; 1; 98; 0; 56;
   4; 100; 0; 16; 0; 102; 0; 0; 2; 124; 0; 1; 56; 42; 1; 8;
   0; 92; 0; 128; 0; 82; 0; 8; 0; 84; 0; 0; 1; 102; 0; 0;
   2; 124; 0; 1; 56; 0; 0; 0; 0; 0; 0; 0; 0; 0; 0; 0].

Definition otp_cfg_zero : gxfp_milanl_otp_cfg :=
  {| tcode := 0; fdt_delta := 0; dac := 0; has_dac := 0; has_tcode_delta := 0 |}.

Definition gxfp_milanl_parse_otp (otp : ptr bytes) (otp_len : Z)
    (out : ptr gxfp_milanl_otp_cfg) : option (Z * ptr gxfp_milanl_otp_cfg) :=
  match otp, out with
  | Some o, Some _ =>
    if otp_len <=? GXFP_MILANL_OTP_IDX_DAC then Some (- EBADMSG, out) else
    d ← rd o GXFP_MILANL_OTP_IDX_DAC;
    let dac := u16 (Z.lor (u16 (Z.shiftl d 4)) 8) in
    let base := {| tcode := GXFP_MILANL_DEFAULT_TCODE; fdt_delta := GXFP_MILANL_DEFAULT_FDT_DELTA;
                   dac := dac; has_dac := 1; has_tcode_delta := 0 |} in
    raw_tcode ← rd o GXFP_MILANL_OTP_IDX_TCODE;
    neg ← rd o GXFP_MILANL_OTP_IDX_TCODE_NEG;
    if negb (raw_tcode =? 0) && (u8 (raw_tcode + neg) =? 255) then
      let tcode := u16 (u32 ((u16 (Z.shiftr raw_tcode 4) + 1) * 16)) in
      if negb (tcode =? 0) then
        let fdt_delta :=
          Z.shiftr (u32 ((Z.land raw_tcode 15 + 2) * 25600) / tcode / 3) 4 in
        Some (0, Some {| tcode := tcode; fdt_delta := u16 (Z.land fdt_delta 65535);
                         dac := dac; has_dac := 1; has_tcode_delta := 1 |})
      else Some (0, Some base)
    else Some (0, Some base)
  | _, _ => Some (- EINVAL, out)
  end.

Definition gxfp_milanl_prepare_cfg_blob (template_data : ptr bytes) (template_len : Z)
    (out_cfg : ptr bytes) (out_cfg_cap : Z) : option (Z * ptr bytes) :=
  match template_data, out_cfg with
  | Some t, Some o =>
    if negb (template_len =? GXFP_MILANL_CFG_LEN) then Some (- EINVAL, out_cfg) else
    if out_cfg_cap <? template_len then Some (- EMSGSIZE, out_cfg) else
    o ← memcpy o 0 t 0 template_len;
    Some (template_len, Some o)
  | _, _ => Some (- EINVAL, out_cfg)
  end.

Definition gxfp_milanl_apply_otp_patch (cfg : ptr bytes) (cfg_len : Z)
    (otp_cfg : ptr gxfp_milanl_otp_cfg) : option (Z * ptr bytes) :=
  match cfg, otp_cfg with
  | Some _, Some oc =>
    if negb (cfg_len =? GXFP_MILANL_CFG_LEN) then Some (- EINVAL, cfg) else
    '(r, cfg) ← gxfp_cfg_patch_reg cfg cfg_len 544 (dac oc) 0 0;
    if r <? 0 then Some (r, cfg) else
    if negb (has_tcode_delta oc =? 0) then
      '(r, cfg) ← gxfp_cfg_patch_reg cfg cfg_len 92 (tcode oc) 4 0;
      if r <? 0 then Some (r, cfg) else
      '(r, cfg) ← gxfp_cfg_patch_reg cfg cfg_len 130 (u16 (Z.shiftl (fdt_delta oc) 8)) 2 2;
      if r <? 0 then Some (r, cfg) else
      Some (0, cfg)
    else Some (0, cfg)
  | _, _ => Some (- EINVAL, cfg)
  end.

Definition gxfp_milanl_apply_default_patch (cfg : ptr bytes) (cfg_len : Z)
    : option (Z * ptr bytes) :=
  match cfg with
  | None => Some (- EINVAL, cfg)
  | Some _ =>
    let defaults := {| tcode := GXFP_MILANL_DEFAULT_TCODE;
                       fdt_delta := GXFP_MILANL_DEFAULT_FDT_DELTA; dac := 8; has_dac := 1;
                       has_tcode_delta := 1 |} in
    gxfp_milanl_apply_otp_patch cfg cfg_len (Some defaults)
  end.

Definition gxfp_milanl_get_default_cfg_template (out_template : ptr (ptr bytes)) (out_len : ptr Z)
    : Z * ptr (ptr bytes) * ptr Z :=
  match out_template, out_len with
  | Some _, Some _ =>
    (0, Some (Some gxfp_milanl_cfg_template), Some (zlen gxfp_milanl_cfg_template))
  | _, _ => (- EINVAL, out_template, out_len)
  end.

Example template_len : zlen gxfp_milanl_cfg_template = GXFP_MILANL_CFG_LEN.
Proof. reflexivity. Qed.

(** The shipped template, patched with the default values. *)
Example default_patch :
  fst <$> gxfp_milanl_apply_default_patch (Some gxfp_milanl_cfg_template) 224 = Some 0.
Proof. vm_compute. reflexivity. Qed.

(** * Lemmas *)

(** The 16-bit little-endian word at a byte offset, 0 outside the buffer. *)
Definition word_at (c : bytes) (off : nat) : Z :=
  default 0 (c !! off) + 256 * default 0 (c !! S off).

Fixpoint word_sum (n : nat) (c : bytes) : Z :=
  match n with
  | O => 0
  | S n => word_sum n c + word_at c (2 * n)
  end.

(** The 112 words of a configuration and the seed sum to 0 modulo 65536. *)
Definition checksum_ok (c : bytes) : Prop := (42405 + word_sum 112 c) mod 65536 = 0.

Lemma lookup_u8 c i : bytes_ok c → is_u8 (default 0 (c !! i)).
Proof.
  intros Hc. destruct (c !! i) eqn:Hl; cbn; [by apply (Forall_lookup_1 _ _ _ _ Hc Hl)|unfold is_u8; lia].
Qed.

Lemma word_at_u16 c off : bytes_ok c → is_u16 (word_at c off).
Proof.
  intros Hc. pose proof (lookup_u8 c off Hc). pose proof (lookup_u8 c (S off) Hc).
  unfold word_at, is_u8, is_u16 in *. lia.
Qed.

Lemma le16_at_run c off :
  bytes_ok c → 0 <= off → off + 2 <= zlen c → gxfp_le16_at c off = Some (word_at c (Z.to_nat off)).
Proof.
  intros Hc Ho Hl. unfold gxfp_le16_at. rewrite !rd_lookup by lia. cbn [mbind option_bind].
  pose proof (lookup_u8 c (Z.to_nat off) Hc). rewrite lor16 by done. unfold word_at.
  replace (Z.to_nat (off + 1)) with (S (Z.to_nat off)) by lia. f_equal.
  pose proof (lookup_u8 c (S (Z.to_nat off)) Hc). zint.
Qed.

(** The two bytes that make the words sum to 0. *)
Definition ck_low (c : bytes) : Z := (- (42405 + word_sum 111 c)) mod 65536 mod 256.
Definition ck_high (c : bytes) : Z := (- (42405 + word_sum 111 c)) mod 65536 / 256.

(** A configuration with its checksum. *)
Definition seal (c : bytes) : bytes := <[223%nat := ck_high c]> (<[222%nat := ck_low c]> c).

Lemma ck_bytes c : is_u8 (ck_low c) ∧ is_u8 (ck_high c).
Proof. unfold ck_low, ck_high. split; zint. Qed.

Lemma recalc_run c :
  zlen c = GXFP_MILANL_CFG_LEN → bytes_ok c →
  gxfp_cfg_recalc_checksum (Some c) GXFP_MILANL_CFG_LEN = Some (Some (seal c)).
Proof.
  intros Hl Hc. unfold gxfp_cfg_recalc_checksum, GXFP_MILANL_CFG_LEN in *. cbn [Z.ltb Z.compare].
  change (224 <? 224) with false. cbv iota.
  destruct (forN_option (λ i sum, 0 <= i ∧ sum = s16 (42405 + word_sum (Z.to_nat i) c))
    (λ i sum, w ← gxfp_le16_at c (i * 2); Some (s16 (sum + s16 w)))
    (Z.to_nat GXFP_CFG_CHECKSUM_WORDS) 0 (s16 42405)) as (sum & Es & _ & Hsum).
  - done.
  - intros i a Hi (Hi0 & ->). change (Z.of_nat (Z.to_nat GXFP_CFG_CHECKSUM_WORDS)) with 111 in Hi.
    rewrite le16_at_run by (done || lia). cbn [mbind option_bind]. eexists. split; [done|].
    split; [lia|]. replace (Z.to_nat (i + 1)) with (S (Z.to_nat i)) by lia. cbn [word_sum].
    replace (Z.to_nat (i * 2)) with (2 * Z.to_nat i)%nat by lia.
    pose proof (word_at_u16 c (2 * Z.to_nat i) Hc). zint.
  - rewrite Es. cbn [mbind option_bind].
    change (Z.to_nat (0 + Z.of_nat (Z.to_nat GXFP_CFG_CHECKSUM_WORDS))) with 111%nat in Hsum.
    unfold GXFP_CFG_CHECKSUM_OFF. rewrite wr_insert by lia. cbn [mbind option_bind].
    rewrite wr_insert by (rewrite zlen_insert; lia). cbn [mbind option_bind].
    change (Z.to_nat (222 + 1)) with 223%nat. change (Z.to_nat 222) with 222%nat.
    rewrite !land_255, shiftr_div by lia. do 2 f_equal. unfold seal, ck_low, ck_high. subst sum.
    f_equal; [zint|]. f_equal. zint.
Qed.

Lemma word_sum_S n c : word_sum (S n) c = word_sum n c + word_at c (2 * n).
Proof. done. Qed.

Lemma word_sum_insert n c i v :
  (2 * n <= i)%nat → word_sum n (<[i := v]> c) = word_sum n c.
Proof.
  induction n as [|n IH]; intros Hn; [done|]. cbn [word_sum]. rewrite IH by lia. f_equal.
  unfold word_at. by rewrite !list_lookup_insert_ne by lia.
Qed.

Lemma seal_ok c :
  zlen c = GXFP_MILANL_CFG_LEN → bytes_ok c →
  checksum_ok (seal c) ∧ zlen (seal c) = GXFP_MILANL_CFG_LEN ∧ bytes_ok (seal c) ∧
  (∀ i, (i < 222)%nat → seal c !! i = c !! i).
Proof.
  unfold GXFP_MILANL_CFG_LEN. intros Hl Hc. destruct (ck_bytes c).
  assert (Hlen : length c = 224%nat) by (unfold zlen in Hl; lia). split_and!.
  - unfold checksum_ok, seal. rewrite (word_sum_S 111).
    rewrite !word_sum_insert by lia. change (2 * 111)%nat with 222%nat. unfold word_at.
    rewrite list_lookup_insert_eq by (rewrite length_insert; lia).
    rewrite list_lookup_insert_ne by lia. rewrite list_lookup_insert_eq by lia. cbn [default].
    unfold ck_low, ck_high, id. generalize (word_sum 111 c). intros s. clear. zdm.
  - unfold seal. by rewrite !zlen_insert.
  - unfold seal. by repeat apply bytes_ok_insert.
  - intros i Hi. unfold seal. by rewrite !list_lookup_insert_ne by lia.
Qed.

(** The value bytes of the entry at [off], as the write mode says. *)
Definition set_value (c : bytes) (off val mode : Z) : bytes :=
  let c := if (mode =? 0) || (mode =? 1) then <[Z.to_nat (off + 2) := val mod 256]> c else c in
  if (mode =? 0) || (mode =? 2) then <[Z.to_nat (off + 3) := val / 256 mod 256]> c else c.

Lemma set_value_ok c off val mode :
  bytes_ok c → zlen (set_value c off val mode) = zlen c ∧ bytes_ok (set_value c off val mode).
Proof.
  intros Hc. unfold set_value. destruct (_ || _), (_ || _); rewrite ?zlen_insert;
    split; try done; repeat apply bytes_ok_insert; try done; zint.
Qed.

(** Where the scan finds the register: its offset, or the error. *)
Fixpoint scan_reg (fuel : nat) (c : bytes) (reg off left : Z) : Z + Z :=
  match fuel with
  | O => inl (- ENOENT)
  | S fuel =>
    if left <=? 0 then inl (- ENOENT) else
    if GXFP_MILANL_CFG_LEN <? off + 4 then inl (- EBADMSG) else
    if word_at c (Z.to_nat off) =? reg then inr off else
    scan_reg fuel c reg (off + 4) (left - 4)
  end.

Lemma patch_loop_run fuel step c reg val off len mode :
  zlen c = GXFP_MILANL_CFG_LEN → bytes_ok c → 0 <= off → 0 <= len → off + len <= GXFP_MILANL_CFG_LEN →
  0 <= step → step < len + 4 → len - step <= 4 * Z.of_nat fuel - 4 →
  patch_loop fuel step c reg val off len mode
  = Some (match scan_reg fuel c reg (off + step) (len - step) with
          | inl e => (e, c)
          | inr o => (0, seal (set_value c o val mode))
          end).
Proof.
  unfold GXFP_MILANL_CFG_LEN. intros Hl Hc Ho Hlen Hsum. revert step.
  induction fuel as [|fuel IH]; intros step Hs Hs2 Hf; [lia|]. cbn [patch_loop scan_reg].
  unfold GXFP_MILANL_CFG_LEN.
  destruct (Z.ltb_spec step len); cbn [negb]; cycle 1.
  { by rewrite (proj2 (Z.leb_le _ 0)) by lia. }
  rewrite (proj2 (Z.leb_gt _ 0)) by lia. destruct (Z.ltb_spec 224 (off + step + 4)); [done|].
  rewrite le16_at_run by (done || lia). cbn [mbind option_bind].
  destruct (word_at c (Z.to_nat (off + step)) =? reg) eqn:Er; cbn [negb]; cycle 1.
  { replace (u8 (step + 4)) with (step + 4) by zint. rewrite IH by lia.
    by replace (off + (step + 4)) with (off + step + 4) by lia;
       replace (len - (step + 4)) with (len - step - 4) by lia. }
  destruct (set_value_ok c (off + step) val mode Hc) as (Hl' & Hc'). rewrite Hl in Hl'.
  assert (E : (cfg ← (if (mode =? 0) || (mode =? 1)
             then wr c (off + step + 2) (u8 (Z.land val 255)) else Some c);
      (if (mode =? 0) || (mode =? 2)
             then wr cfg (off + step + 3) (u8 (Z.land (Z.shiftr val 8) 255)) else Some cfg))
      = Some (set_value c (off + step) val mode)).
  { unfold set_value. rewrite !land_255, shiftr_div by lia.
    replace (u8 (val mod 256)) with (val mod 256) by zint. change (2 ^ 8) with 256.
    replace (u8 (val / 256 mod 256)) with (val / 256 mod 256) by zint.
    destruct ((mode =? 0) || (mode =? 1)); destruct ((mode =? 0) || (mode =? 2));
      rewrite ?(wr_insert c) by lia; cbn [mbind option_bind];
      rewrite ?wr_insert by (rewrite ?zlen_insert; lia); done. }
  apply opt_bind_inv in E as (c1 & -> & E2). cbn [mbind option_bind]. rewrite E2.
  cbn [mbind option_bind]. change 224 with GXFP_MILANL_CFG_LEN at 1.
  by rewrite recalc_run.
Qed.

(** The whole search: the section's bounds, then the scan. *)
Definition locate (c : bytes) (reg section_idx : Z) : Z + Z :=
  let off := default 0 (c !! Z.to_nat (1 + section_idx * 2)) in
  let len := default 0 (c !! Z.to_nat (2 + section_idx * 2)) in
  if GXFP_MILANL_CFG_LEN <? off + len then inl (- EBADMSG) else scan_reg 65 c reg off len.

Lemma patch_reg_run c reg val idx mode :
  zlen c = GXFP_MILANL_CFG_LEN → bytes_ok c → 0 <= idx →
  gxfp_cfg_patch_reg (Some c) GXFP_MILANL_CFG_LEN reg val idx mode
  = Some (if 7 <? idx then (- EINVAL, Some c) else
          match locate c reg idx with
          | inl e => (e, Some c)
          | inr o => (0, Some (seal (set_value c o val mode)))
          end).
Proof.
  unfold GXFP_MILANL_CFG_LEN. intros Hl Hc Hi. unfold gxfp_cfg_patch_reg, locate, GXFP_MILANL_CFG_LEN.
  change (negb (224 =? 224)) with false. cbv iota. destruct (Z.ltb_spec 7 idx); [done|].
  rewrite !rd_lookup by lia. cbn [mbind option_bind].
  pose proof (lookup_u8 c (Z.to_nat (1 + idx * 2)) Hc) as H1.
  pose proof (lookup_u8 c (Z.to_nat (2 + idx * 2)) Hc) as H2.
  set (off := default 0 (c !! Z.to_nat (1 + _))) in *. set (len := default 0 (c !! Z.to_nat (2 + _))) in *. unfold is_u8 in *.
  destruct (Z.ltb_spec 224 (off + len)); [done|].
  rewrite patch_loop_run by (unfold GXFP_MILANL_CFG_LEN; done || lia).
  rewrite Z.add_0_r, Z.sub_0_r. by destruct (scan_reg 65 c reg off len).
Qed.

Lemma scan_reg_spec fuel c reg off rem :
  0 <= off →
  match scan_reg fuel c reg off rem with
  | inl e => e = - ENOENT ∨ e = - EBADMSG
  | inr o => off <= o ∧ o + 4 <= GXFP_MILANL_CFG_LEN ∧ word_at c (Z.to_nat o) = reg
  end.
Proof.
  revert off rem. induction fuel as [|fuel IH]; intros off rem Ho; cbn [scan_reg]; [by left|].
  destruct (rem <=? 0); [by left|].
  destruct (Z.ltb_spec GXFP_MILANL_CFG_LEN (off + 4)); [by right|].
  destruct (Z.eqb_spec (word_at c (Z.to_nat off)) reg); [split_and!; [lia|lia|done]|].
  specialize (IH (off + 4) (rem - 4) ltac:(lia)). destruct (scan_reg _ _ _ _ _); [done|].
  split_and!; [lia|apply IH..].
Qed.

Lemma locate_spec c reg idx :
  bytes_ok c →
  match locate c reg idx with
  | inl e => e = - ENOENT ∨ e = - EBADMSG
  | inr o => 0 <= o ∧ o + 4 <= GXFP_MILANL_CFG_LEN ∧ word_at c (Z.to_nat o) = reg
  end.
Proof.
  intros Hc. unfold locate. pose proof (lookup_u8 c (Z.to_nat (1 + idx * 2)) Hc) as H1.
  set (off := default 0 (c !! Z.to_nat (1 + _))) in *. unfold is_u8 in *.
  destruct (_ <? _); [by right|].
  pose proof (scan_reg_spec 65 c reg off (default 0 (c !! Z.to_nat (2 + idx * 2))) (proj1 H1)) as Hs.
  destruct (scan_reg _ _ _ _ _); [done|]. split_and!; [lia|apply Hs..].
Qed.

Lemma set_value_lookup c off val mode i :
  0 <= off → i ≠ Z.to_nat (off + 2) ∨ mode = 2 → i ≠ Z.to_nat (off + 3) →
  set_value c off val mode !! i = c !! i.
Proof.
  intros Ho H2 H3. unfold set_value. destruct H2 as [H2| ->].
  - destruct (_ || _), (_ || _); by rewrite ?list_lookup_insert_ne by congruence.
  - change ((2 =? 0) || (2 =? 1)) with false. change ((2 =? 0) || (2 =? 2)) with true. cbv iota.
    by rewrite list_lookup_insert_ne by congruence.
Qed.

(** Writing the whole value puts it in the word after the register's. *)
Lemma set_value_word c off val :
  0 <= off → off + 4 <= zlen c → is_u16 val →
  word_at (set_value c off val 0) (Z.to_nat (off + 2)) = val.
Proof.
  intros Ho Hl Hv. unfold set_value, word_at. cbn [Z.eqb orb]. unfold zlen in Hl.
  rewrite list_lookup_insert_ne by lia. rewrite list_lookup_insert_eq by lia.
  replace (S (Z.to_nat (off + 2))) with (Z.to_nat (off + 3)) by lia.
  rewrite list_lookup_insert_eq by (rewrite length_insert; lia). cbn. zint.
Qed.

Lemma word_at_ext c c' off :
  c !! off = c' !! off → c !! S off = c' !! S off → word_at c off = word_at c' off.
Proof. unfold word_at. by intros -> ->. Qed.

(** A value byte written alone. *)
Lemma set_value_high c off val :
  0 <= off → off + 4 <= zlen c → set_value c off val 2 !! Z.to_nat (off + 3) = Some (val / 256 mod 256).
Proof.
  intros Ho Hl. unfold set_value. change ((2 =? 0) || (2 =? 1)) with false. change ((2 =? 0) || (2 =? 2)) with true. cbv iota. rewrite list_lookup_insert_eq; [done|].
  unfold zlen in Hl. lia.
Qed.

(** ** The shipped template *)

Lemma template_ok : zlen gxfp_milanl_cfg_template = GXFP_MILANL_CFG_LEN ∧ bytes_ok gxfp_milanl_cfg_template.
Proof. split; [done|]. vm_compute. repeat constructor; discriminate. Qed.

(** Where the three patched registers are, whatever the values before them. *)
Lemma locate_dac : locate gxfp_milanl_cfg_template 544 0 = inr 113.
Proof. vm_compute. reflexivity. Qed.

(** A configuration after a whole value was written, as its bytes. *)
Lemma seal_set c o v :
  seal (set_value c o v 0)
  = <[223%nat := ck_high (set_value c o v 0)]> (<[222%nat := ck_low (set_value c o v 0)]>
      (<[Z.to_nat (o + 3) := v / 256 mod 256]> (<[Z.to_nat (o + 2) := v mod 256]> c))).
Proof. reflexivity. Qed.

Lemma locate_tcode v : locate (seal (set_value gxfp_milanl_cfg_template 113 v 0)) 92 4 = inr 193.
Proof.
  rewrite seal_set. generalize (ck_high (set_value gxfp_milanl_cfg_template 113 v 0)).
  generalize (ck_low (set_value gxfp_milanl_cfg_template 113 v 0)).
  generalize (v / 256 mod 256) (v mod 256). intros a b l h. vm_compute. reflexivity.
Qed.

Lemma locate_delta v v' :
  locate (seal (set_value (seal (set_value gxfp_milanl_cfg_template 113 v 0)) 193 v' 0)) 130 2
  = inr 157.
Proof.
  rewrite (seal_set (seal _)). set (c1 := seal (set_value gxfp_milanl_cfg_template 113 v 0)).
  generalize (ck_high (set_value c1 193 v' 0)) (ck_low (set_value c1 193 v' 0)).
  unfold c1. clear c1. rewrite seal_set.
  generalize (ck_high (set_value gxfp_milanl_cfg_template 113 v 0)).
  generalize (ck_low (set_value gxfp_milanl_cfg_template 113 v 0)).
  generalize (v / 256 mod 256) (v mod 256) (v' / 256 mod 256) (v' mod 256).
  intros a b a' b' l h l' h'. vm_compute. reflexivity.
Qed.

(** One patched register: the configuration afterwards. *)
Lemma patch_step c reg val idx mode o :
  zlen c = GXFP_MILANL_CFG_LEN → bytes_ok c → 0 <= idx <= 7 → locate c reg idx = inr o →
  let c' := seal (set_value c o val mode) in
  gxfp_cfg_patch_reg (Some c) GXFP_MILANL_CFG_LEN reg val idx mode = Some (0, Some c') ∧
  zlen c' = GXFP_MILANL_CFG_LEN ∧ bytes_ok c' ∧ checksum_ok c' ∧
  (∀ i, (i < 222)%nat → i ≠ Z.to_nat (o + 2) ∨ mode = 2 → i ≠ Z.to_nat (o + 3) →
    c' !! i = c !! i).
Proof.
  intros Hl Hc Hi Ho c'. pose proof (locate_spec c reg idx Hc) as Hs. rewrite Ho in Hs.
  destruct (set_value_ok c o val mode Hc) as (Hl1 & Hc1). rewrite Hl in Hl1.
  destruct (seal_ok _ Hl1 Hc1) as (H1 & H2 & H3 & H4). split_and!; [|done..|].
  - rewrite patch_reg_run by (done || lia). rewrite (proj2 (Z.ltb_ge 7 idx)), Ho by lia. done.
  - intros i Hi' Ha Hb. unfold c'. rewrite H4 by done. apply set_value_lookup; [lia|done..].
Qed.

(** What a patched register holds. *)
Lemma seal_word c off val :
  zlen c = GXFP_MILANL_CFG_LEN → bytes_ok c → 0 <= off → off + 4 <= 222 → is_u16 val →
  word_at (seal (set_value c off val 0)) (Z.to_nat (off + 2)) = val.
Proof.
  intros Hl Hc Ho H4 Hv. destruct (set_value_ok c off val 0 Hc) as (Hl1 & Hc1). rewrite Hl in Hl1.
  destruct (seal_ok _ Hl1 Hc1) as (_ & _ & _ & Hs). unfold GXFP_MILANL_CFG_LEN in *.
  rewrite (word_at_ext _ (set_value c off val 0)) by (apply Hs; lia). apply set_value_word; [lia|lia|done].
Qed.

Lemma seal_high c off val :
  zlen c = GXFP_MILANL_CFG_LEN → bytes_ok c → 0 <= off → off + 4 <= 222 →
  seal (set_value c off val 2) !! Z.to_nat (off + 3) = Some (val / 256 mod 256).
Proof.
  intros Hl Hc Ho H4. destruct (set_value_ok c off val 2 Hc) as (Hl1 & Hc1). rewrite Hl in Hl1.
  destruct (seal_ok _ Hl1 Hc1) as (_ & _ & _ & Hs). unfold GXFP_MILANL_CFG_LEN in *.
  rewrite Hs by lia. apply set_value_high; lia.
Qed.

Lemma delta_high v : u16 (Z.shiftl v 8) / 256 mod 256 = v mod 256.
Proof. rewrite Z.shiftl_mul_pow2 by lia. zint. Qed.

(** A configuration whose bytes below the checksum are those of [c], but for the
    word at [a] (or its high byte only). *)
Definition same_but (c c' : bytes) (l : list nat) : Prop :=
  ∀ i, (i < 222)%nat → i ∉ l → c' !! i = c !! i.

Lemma same_but_word c c' l a :
  same_but c c' l → (S a < 222)%nat → a ∉ l → S a ∉ l → word_at c' a = word_at c a.
Proof. intros Hs Ha H1 H2. apply word_at_ext; apply Hs; (done || lia). Qed.

Lemma patch_dac v :
  is_u16 v →
  ∃ c1, gxfp_cfg_patch_reg (Some gxfp_milanl_cfg_template) GXFP_MILANL_CFG_LEN 544 v 0 0
        = Some (0, Some c1) ∧
    zlen c1 = GXFP_MILANL_CFG_LEN ∧ bytes_ok c1 ∧ checksum_ok c1 ∧ word_at c1 115 = v ∧
    same_but gxfp_milanl_cfg_template c1 [115; 116]%nat ∧ locate c1 92 4 = inr 193 ∧
    (∀ v', locate (seal (set_value c1 193 v' 0)) 130 2 = inr 157).
Proof.
  assert (I0 : 0 <= 0 <= 7) by lia. intros Hv. destruct template_ok as (HL & HC).
  destruct (patch_step _ 544 v 0 0 113 HL HC I0 locate_dac)
    as (E & L1 & C1 & K1 & U1).
  exists (seal (set_value gxfp_milanl_cfg_template 113 v 0)).
  split; [exact E|]. split; [exact L1|]. split; [exact C1|]. split; [exact K1|].
  split; [apply (seal_word _ 113 v HL HC); [lia|lia|exact Hv]|]. split.
  - intros i Hi Hn. rewrite !not_elem_of_cons in Hn.
    apply U1; [exact Hi|left; apply Hn|apply Hn].
  - split; [apply locate_tcode|intros v'; apply locate_delta].
Qed.

Lemma patch_word c reg v idx o :
  zlen c = GXFP_MILANL_CFG_LEN → bytes_ok c → 0 <= idx <= 7 → locate c reg idx = inr o →
  0 <= o → o + 4 <= 222 → is_u16 v →
  gxfp_cfg_patch_reg (Some c) GXFP_MILANL_CFG_LEN reg v idx 0
    = Some (0, Some (seal (set_value c o v 0))) ∧
  zlen (seal (set_value c o v 0)) = GXFP_MILANL_CFG_LEN ∧ bytes_ok (seal (set_value c o v 0)) ∧
  checksum_ok (seal (set_value c o v 0)) ∧
  word_at (seal (set_value c o v 0)) (Z.to_nat (o + 2)) = v ∧
  same_but c (seal (set_value c o v 0)) [Z.to_nat (o + 2); Z.to_nat (o + 3)].
Proof.
  intros Hl Hc Hi Ho H0 H4 Hv. destruct (patch_step c reg v idx 0 o Hl Hc Hi Ho) as (E & L & C & K & U).
  split; [exact E|]. split; [exact L|]. split; [exact C|]. split; [exact K|].
  split; [by apply seal_word|]. intros i Hi' Hn. rewrite !not_elem_of_cons in Hn.
  apply U; [exact Hi'|left; apply Hn|apply Hn].
Qed.

Lemma patch_high c reg v idx o :
  zlen c = GXFP_MILANL_CFG_LEN → bytes_ok c → 0 <= idx <= 7 → locate c reg idx = inr o →
  0 <= o → o + 4 <= 222 →
  gxfp_cfg_patch_reg (Some c) GXFP_MILANL_CFG_LEN reg (u16 (Z.shiftl v 8)) idx 2
    = Some (0, Some (seal (set_value c o (u16 (Z.shiftl v 8)) 2))) ∧
  zlen (seal (set_value c o (u16 (Z.shiftl v 8)) 2)) = GXFP_MILANL_CFG_LEN ∧
  bytes_ok (seal (set_value c o (u16 (Z.shiftl v 8)) 2)) ∧
  checksum_ok (seal (set_value c o (u16 (Z.shiftl v 8)) 2)) ∧
  seal (set_value c o (u16 (Z.shiftl v 8)) 2) !! Z.to_nat (o + 3) = Some (v mod 256) ∧
  same_but c (seal (set_value c o (u16 (Z.shiftl v 8)) 2)) [Z.to_nat (o + 3)].
Proof.
  intros Hl Hc Hi Ho H0 H4.
  destruct (patch_step c reg (u16 (Z.shiftl v 8)) idx 2 o Hl Hc Hi Ho) as (E & L & C & K & U).
  split; [exact E|]. split; [exact L|]. split; [exact C|]. split; [exact K|].
  split; [rewrite seal_high, delta_high by done; done|].
  intros i Hi' Hn. rewrite !not_elem_of_cons in Hn. apply U; [exact Hi'|by right|apply Hn].
Qed.

Lemma same_but_trans c1 c2 c3 l l' :
  same_but c1 c2 l → same_but c2 c3 l' → same_but c1 c3 (l ++ l').
Proof.
  intros H1 H2 i Hi Hn. rewrite not_elem_of_app in Hn. rewrite (H2 i), (H1 i); [done|done|apply Hn..|done|apply Hn].
Qed.

(** What the patch makes of the template. *)
Definition patched_with (dac_v tcode_v delta_v : Z) (c : bytes) : Prop :=
  zlen c = GXFP_MILANL_CFG_LEN ∧ bytes_ok c ∧ checksum_ok c ∧
  word_at c 115 = dac_v ∧ word_at c 195 = tcode_v ∧ c !! 160%nat = Some delta_v ∧
  same_but gxfp_milanl_cfg_template c [115; 116; 195; 196; 160]%nat.

Lemma same_but_weaken c c' l l' : same_but c c' l → l ⊆ l' → same_but c c' l'.
Proof. intros H Hl i Hi Hn. apply H; [done|]. intros Hin. by apply Hn, Hl. Qed.

(** Membership in a list of literal positions. *)
Ltac pos := first [lia | by (rewrite !not_elem_of_cons; split_and!; try lia; apply not_elem_of_nil)].

Lemma apply_template_run oc :
  is_u16 (dac oc) → is_u16 (tcode oc) →
  ∃ c, gxfp_milanl_apply_otp_patch (Some gxfp_milanl_cfg_template) GXFP_MILANL_CFG_LEN (Some oc)
       = Some (0, Some c) ∧
    patched_with (dac oc) (if negb (has_tcode_delta oc =? 0) then tcode oc else 128)
      (if negb (has_tcode_delta oc =? 0) then fdt_delta oc mod 256 else 21) c.
Proof.
  assert (I4 : 0 <= 4 <= 7) by lia. assert (I2 : 0 <= 2 <= 7) by lia.
  intros Hd Ht. unfold gxfp_milanl_apply_otp_patch. rewrite Z.eqb_refl. cbn [negb].
  destruct (patch_dac (dac oc) Hd) as (c1 & -> & L1 & C1 & K1 & W1 & S1 & Loc2 & Loc3).
  cbn [mbind option_bind]. change (0 <? 0) with false. cbv iota.
  destruct (has_tcode_delta oc =? 0); cbn [negb].
  { exists c1. split; [reflexivity|]. split; [exact L1|]. split; [exact C1|]. split; [exact K1|].
    split; [exact W1|].
    split; [by rewrite (same_but_word _ _ _ _ S1) by pos|].
    split; [by rewrite (S1 160%nat) by pos|].
    apply (same_but_weaken _ _ _ _ S1). set_solver. }
  destruct (patch_word c1 92 (tcode oc) 4 193 L1 C1 I4 Loc2) as (-> & L2 & C2 & K2 & W2 & S2);
    [lia|lia|exact Ht|].
  specialize (Loc3 (tcode oc)). set (c2 := seal _) in *. clearbody c2.
  cbn [mbind option_bind]. change (0 <? 0) with false. cbv iota.
  destruct (patch_high c2 130 (fdt_delta oc) 2 157 L2 C2 I2 Loc3) as (-> & L3 & C3 & K3 & W3 & S3);
    [lia|lia|].
  set (c3 := seal _) in *. clearbody c3.
  cbn [mbind option_bind]. change (0 <? 0) with false. cbv iota.
  change (Z.to_nat (193 + 2)) with 195%nat in *. change (Z.to_nat (193 + 3)) with 196%nat in *.
  change (Z.to_nat (157 + 3)) with 160%nat in *.
  exists c3. split; [reflexivity|]. split; [exact L3|]. split; [exact C3|]. split; [exact K3|].
  split; [rewrite (same_but_word _ _ _ _ S3), (same_but_word _ _ _ _ S2) by pos; exact W1|].
  split; [rewrite (same_but_word _ _ _ _ S3) by pos; exact W2|]. split; [exact W3|].
  apply (same_but_weaken _ _ _ _ (same_but_trans _ _ _ _ _ (same_but_trans _ _ _ _ _ S1 S2) S3)).
  set_solver.
Qed.

(** The values the memory asks for. *)
Definition otp_dac (o : bytes) : Z := default 0 (o !! 31%nat) * 16 + 8.
Definition otp_valid (o : bytes) : bool :=
  negb (default 0 (o !! 22%nat) =? 0) &&
  ((default 0 (o !! 22%nat) + default 0 (o !! 23%nat)) mod 256 =? 255).
Definition otp_tcode (o : bytes) : Z := (default 0 (o !! 22%nat) / 16 + 1) * 16.
Definition otp_delta (o : bytes) : Z :=
  (default 0 (o !! 22%nat) mod 16 + 2) * 25600 / otp_tcode o / 3 / 16.

Lemma parse_otp_run o n out :
  bytes_ok o → 32 <= n <= zlen o →
  gxfp_milanl_parse_otp (Some o) n (Some out)
  = Some (0, Some {| tcode := if otp_valid o then otp_tcode o else 128;
                     fdt_delta := if otp_valid o then otp_delta o else 21;
                     dac := otp_dac o; has_dac := 1;
                     has_tcode_delta := if otp_valid o then 1 else 0 |}).
Proof.
  intros Ho Hn. unfold gxfp_milanl_parse_otp, GXFP_MILANL_OTP_IDX_DAC, GXFP_MILANL_OTP_IDX_TCODE,
    GXFP_MILANL_OTP_IDX_TCODE_NEG.
  rewrite (proj2 (Z.leb_gt n 31)), !rd_lookup by lia. cbn [mbind option_bind].
  change (Z.to_nat 31) with 31%nat. change (Z.to_nat 22) with 22%nat. change (Z.to_nat 23) with 23%nat.
  unfold otp_valid, otp_tcode, otp_delta, otp_dac, otp_tcode.
  pose proof (lookup_u8 o 31 Ho) as H31. pose proof (lookup_u8 o 22 Ho) as H22.
  pose proof (lookup_u8 o 23 Ho) as H23.
  generalize dependent (default 0 (o !! 31%nat)). intros d H31.
  generalize dependent (default 0 (o !! 22%nat)). intros r H22.
  generalize dependent (default 0 (o !! 23%nat)). intros m H23. clear Ho Hn.
  assert (Ed : u16 (Z.lor (u16 (Z.shiftl d 4)) 8) = d * 16 + 8).
  { rewrite Z.shiftl_mul_pow2 by lia. replace (u16 (d * 2 ^ 4)) with (d * 2 ^ 4) by zint.
    rewrite <- Z.shiftl_mul_pow2, Z.lor_comm, lor_shiftl by lia. zint. }
  rewrite Ed, land_15, !shiftr_div by lia. change (2 ^ 4) with 16.
  assert (Et : u16 (u32 ((u16 (r / 16) + 1) * 16)) = (r / 16 + 1) * 16) by zint.
  rewrite Et. change (u8 (r + m) =? 255) with ((r + m) mod 256 =? 255).
  destruct (negb (r =? 0) && ((r + m) mod 256 =? 255)); [|done].
  assert (Ht : 16 <= (r / 16 + 1) * 16 <= 256) by (unfold is_u8 in *; zdm).
  rewrite (proj2 (Z.eqb_neq _ 0)) by lia. cbn [negb]. do 3 f_equal.
  set (t := (r / 16 + 1) * 16) in *.
  assert (Hb : 0 <= r mod 16 < 16) by (apply Z.mod_pos_bound; lia).
  replace (u32 ((r mod 16 + 2) * 25600)) with ((r mod 16 + 2) * 25600) by (clear -Hb; zint).
  assert (Hq : 0 <= (r mod 16 + 2) * 25600 / t / 3 / 16 < 65536).
  { split; [repeat (apply Z.div_pos; [|lia]); lia|].
    apply Z.div_lt_upper_bound; [lia|]. apply Z.div_lt_upper_bound; [lia|].
    apply Z.div_lt_upper_bound; [lia|]. nia. }
  change 65535 with (Z.ones 16). rewrite Z.land_ones by lia. unfold u16.
  by rewrite Z.mod_mod, Z.mod_small by lia.
Qed.

Lemma otp_values_bound o :
  bytes_ok o → 16 <= otp_tcode o <= 256 ∧ 0 <= otp_delta o <= 566 ∧ 8 <= otp_dac o <= 4088.
Proof.
  intros Ho. pose proof (lookup_u8 o 31 Ho) as H31. pose proof (lookup_u8 o 22 Ho) as H22.
  unfold otp_delta, otp_tcode, otp_dac. unfold is_u8 in *. clear Ho.
  generalize dependent (default 0 (o !! 31%nat)). intros d H31.
  generalize dependent (default 0 (o !! 22%nat)). intros r H22.
  assert (Ht : 16 <= (r / 16 + 1) * 16 <= 256) by zdm. split; [exact Ht|]. split; [|lia].
  set (t := (r / 16 + 1) * 16) in *.
  assert (Hb : 0 <= r mod 16 < 16) by (apply Z.mod_pos_bound; lia). split.
  - repeat (apply Z.div_pos; [|lia]). lia.
  - apply Z.lt_succ_r. apply Z.div_lt_upper_bound; [lia|]. apply Z.div_lt_upper_bound; [lia|].
    apply Z.div_lt_upper_bound; [lia|]. nia.
Qed.

(** * Properties *)

(** C21: patching a register terminates on any 224-byte block, whatever section
    table it has: the 8-bit step of the scan never wraps. It fails with an error
    and an unchanged block, or writes the value next to an entry of that register
    and leaves a block whose 112 words sum to 0, every other byte below the
    checksum being as it was. *)
Theorem config_patch_total c reg val idx mode :
  zlen c = GXFP_MILANL_CFG_LEN → bytes_ok c → 0 <= idx →
  ∃ r c', gxfp_cfg_patch_reg (Some c) GXFP_MILANL_CFG_LEN reg val idx mode = Some (r, Some c') ∧
    zlen c' = GXFP_MILANL_CFG_LEN ∧ bytes_ok c' ∧
    ((r = - EINVAL ∨ r = - ENOENT ∨ r = - EBADMSG) ∧ c' = c ∨
     r = 0 ∧ checksum_ok c' ∧ ∃ o, 0 <= o ∧ o + 4 <= GXFP_MILANL_CFG_LEN ∧
       word_at c (Z.to_nat o) = reg ∧
       (∀ i, (i < 222)%nat → i ≠ Z.to_nat (o + 2) ∨ mode = 2 → i ≠ Z.to_nat (o + 3) →
          c' !! i = c !! i) ∧
       (mode = 0 → is_u16 val → o + 4 <= 222 → word_at c' (Z.to_nat (o + 2)) = val)).
Proof.
  intros Hl Hc Hi. rewrite patch_reg_run by done.
  destruct (Z.ltb_spec 7 idx) as [|H7].
  { eexists _, c. split; [reflexivity|]. split; [exact Hl|]. split; [exact Hc|].
    left. split; [by left|done]. }
  pose proof (locate_spec c reg idx Hc) as Hs. destruct (locate c reg idx) as [e|o] eqn:El.
  - eexists _, c. split; [reflexivity|]. split; [exact Hl|]. split; [exact Hc|]. left.
    split; [right; exact Hs|reflexivity].
  - destruct (patch_step c reg val idx mode o Hl Hc (conj Hi H7) El) as (_ & L & C & K & U).
    eexists _, _. split; [reflexivity|]. split; [exact L|]. split; [exact C|]. right.
    split; [done|]. split; [exact K|]. exists o. split; [apply Hs|]. split; [apply Hs|].
    split; [apply Hs|]. split; [exact U|]. intros -> Hv H4. apply seal_word; (done || apply Hs).
Qed.

(** C22: every calibration memory gives a configuration the sensor can be sent:
    from any 32 bytes or more, parsing succeeds with values in range, and patching
    the shipped template succeeds and leaves the DAC word, and, where the memory's
    check byte matches, the temperature code and the low 8 bits of the delta, in
    their registers, with a valid checksum and every other byte untouched. The delta
    can be as large as 566, so its high bits can be lost. *)
Theorem otp_config_valid o n out :
  bytes_ok o → 32 <= n <= zlen o →
  ∃ oc c, gxfp_milanl_parse_otp (Some o) n (Some out) = Some (0, Some oc) ∧
    gxfp_milanl_apply_otp_patch (Some gxfp_milanl_cfg_template) GXFP_MILANL_CFG_LEN (Some oc)
      = Some (0, Some c) ∧
    patched_with (otp_dac o) (if otp_valid o then otp_tcode o else 128)
      (if otp_valid o then otp_delta o mod 256 else 21) c ∧
    16 <= otp_tcode o <= 256 ∧ 0 <= otp_delta o <= 566 ∧ 8 <= otp_dac o <= 4088.
Proof.
  intros Ho Hn. destruct (otp_values_bound o Ho) as (Ht & Hd & Hk).
  eexists. rewrite (parse_otp_run o n out Ho Hn). set (oc := Build_gxfp_milanl_otp_cfg _ _ _ _ _).
  destruct (apply_template_run oc) as (c & Ec & Hc).
  - cbn. unfold is_u16. lia.
  - cbn. unfold is_u16. destruct (otp_valid o); lia.
  - exists c. split; [reflexivity|]. split; [exact Ec|].
    split; [|split; [exact Ht|split; [exact Hd|exact Hk]]].
    cbn in Hc. by destruct (otp_valid o).
Qed.

Definition demo_otp : bytes := zeros 22 ++ [15; 240] ++ zeros 8.

(** The delta this memory asks for does not fit the byte it is written to. *)
Example delta_truncated : otp_valid demo_otp = true ∧ otp_delta demo_otp = 566 ∧ 566 mod 256 = 54.
Proof. vm_compute. auto. Qed.

Lemma config_patch_total_witness :
  ∃ r c', gxfp_cfg_patch_reg (Some gxfp_milanl_cfg_template) GXFP_MILANL_CFG_LEN 544 8 0 0
          = Some (r, Some c').
Proof.
  destruct (config_patch_total gxfp_milanl_cfg_template 544 8 0 0) as (r & c' & Er & _).
  - exact (proj1 template_ok).
  - exact (proj2 template_ok).
  - lia.
  - exists r, c'. exact Er.
Defined.

Lemma otp_config_valid_witness :
  ∃ oc c, gxfp_milanl_parse_otp (Some demo_otp) 32 (Some otp_cfg_zero) = Some (0, Some oc) ∧
    gxfp_milanl_apply_otp_patch (Some gxfp_milanl_cfg_template) GXFP_MILANL_CFG_LEN (Some oc)
      = Some (0, Some c) ∧ c !! 160%nat = Some 54.
Proof.
  destruct (otp_config_valid demo_otp 32 otp_cfg_zero) as (oc & c & E1 & E2 & Hp & _).
  - vm_compute. repeat constructor; discriminate.
  - vm_compute. split; discriminate.
  - exists oc, c. split; [exact E1|]. split; [exact E2|].
    destruct Hp as (_ & _ & _ & _ & _ & Hb & _). exact Hb.
Defined.
