(* ===== verification/UCmds.v ===== *)
(** The library's commands: [userspace/src/cmd/] ([device_recovery_cmd.c],
    [tls_cmd.c], [register_cmd.c], [sensor_cfg_cmd.c], [mcu_state_cmd.c],
    [production_cmd.c]) and [userspace/src/flow/device_recovery.c].

    Every command is a request of [UXfer] and a decoding of its answer; [fuel] is
    the fuel of that request. *)
From Stdlib Require Import ZArith Lia.
From stdpp Require Import prelude list.
From S2P Require Import Prelude KGoodixProto KUapi UGoodixProto UWorld UDev UCommon UXfer.

Open Scope Z_scope.

(** * goodix_cmd.h *)

Definition GXFP_CMD_SEND_NOP : Z := 1. (* 0x01 *)
Definition GXFP_CMD_NOTIFY_POWER_STATE : Z := 14. (* 0x0E *)
Definition GXFP_CMD_RESET_DEVICE : Z := 161. (* 0xA1 *)
Definition GXFP_CMD_READ_OTP : Z := 166. (* 0xA6 *)
Definition GXFP_CMD_FDT_DOWN : Z := 50. (* 0x32 *)
Definition GXFP_CMD_FDT_UP : Z := 52. (* 0x34 *)
Definition GXFP_CMD_FDT_MODE : Z := 54. (* 0x36 *)
Definition GXFP_CMD_FDT_STATUS : Z := 218. (* 0xDA *)
Definition GXFP_CMD_GET_IMAGE : Z := 32. (* 0x20 *)
Definition GXFP_CMD_QUERY_MCU_STATE : Z := 174. (* 0xAE *)
Definition GXFP_CMD_TRIGGER_MCU_STATE : Z := 175. (* 0xAF *)
Definition GXFP_CMD_ACK : Z := 176. (* 0xB0 *)
Definition GXFP_CMD_UPLOAD_CONFIG_MCU : Z := 144. (* 0x90 *)
Definition GXFP_CMD_REG_READ : Z := 130. (* 0x82 *)
Definition GXFP_CMD_TLS_SERVER_INIT : Z := 208. (* 0xD0 *)
Definition GXFP_CMD_D01 : Z := 209. (* 0xD1 *)
Definition GXFP_CMD_SET_SLEEP_MODE : Z := 210. (* 0xD2 *)
Definition GXFP_CMD_TLS_UNLOCK : Z := 212. (* 0xD4 *)
Definition GXFP_CMD_TLS_UNLOCK_FORCE : Z := 213. (* 0xD5 *)
Definition GXFP_CMD_PRODUCTION_WRITE_MCU : Z := 224. (* 0xE0 *)
Definition GXFP_CMD_PRESET_PSK_READ : Z := 228. (* 0xE4 *)

(** mcu_state_cmd.h *)
Definition GXFP_MCU_STATE_LEN : Z := 20.

Record gxfp_mcu_state := {
  version : Z;
  b1_raw : Z;
  is_pov_image_valid : Z;
  is_tls_connected : Z;
  is_locked : Z;
  avail_img_cnt : Z;
  pov_img_cnt : Z;
  raw_3_8 : bytes;
  ec_falling_count : Z;
  flags9_pba : Z;
  flags9_tls_session : Z;
  flags9_bit6 : Z;
  raw_10_14 : bytes;
  config_down_flag : Z;
  raw_16_19 : bytes
}.

Definition mcu_state_zero : gxfp_mcu_state :=
  {| version := 0; b1_raw := 0; is_pov_image_valid := 0; is_tls_connected := 0; is_locked := 0;
     avail_img_cnt := 0; pov_img_cnt := 0; raw_3_8 := zeros 6; ec_falling_count := 0;
     flags9_pba := 0; flags9_tls_session := 0; flags9_bit6 := 0; raw_10_14 := zeros 5;
     config_down_flag := 0; raw_16_19 := zeros 4 |}.

Section cmds.
Context {E : Uenv}.

Definition dev_null : M lworld bool := gets (λ w, bool_decide (l_dev w = None)).

(** [gxfp_parse_goodix_body (rx, rx_len, &frame)] *)
Definition parse_reply (rx : ptr bytes) (rx_len : ptr Z) : M lworld (bool * gxfp_frame_parsed) :=
  n ← lift rx_len;
  '(ok, frame) ← lift (gxfp_parse_goodix_body rx n (Some frame_zero));
  frame ← lift frame;
  mret (ok, frame).

(** * device_recovery_cmd.c *)

Definition GXFP_RESET_DELAY_MAGIC : Z := 20. (* 0x14 *)
Definition GXFP_RECOVERY_CMD_TIMEOUT_MS : Z := 500.

Definition gxfp_cmd_send_expect_ack (fuel : nat) (c : Z) (payload : ptr bytes) (payload_len : Z)
    (tries timeout_ms : Z) : M lworld Z :=
  rx ← u_stack GXFP_IOCTL_TAP_PAYLOAD_MAX;
  '(rc, rx, rx_len) ←
    gxfp_goodix_request_selected fuel c GXFP_CMD_ACK payload payload_len (Some rx)
      GXFP_IOCTL_TAP_PAYLOAD_MAX (Some 0) tries timeout_ms None;
  if negb (rc =? 0) then mret rc else
  '(ok, frame) ← parse_reply rx rx_len;
  if negb ok || negb (valid frame) then mret (- EBADMSG) else
  if negb (cmd frame =? GXFP_CMD_ACK) then mret (- EBADMSG) else
  mret 0.

Definition gxfp_cmd_notify_power_state (fuel : nat) : M lworld Z :=
  null ← dev_null;
  if (null : bool) then mret (- EINVAL) else
  gxfp_cmd_send_expect_ack fuel GXFP_CMD_NOTIFY_POWER_STATE (Some [1]) 1 1
    GXFP_RECOVERY_CMD_TIMEOUT_MS.

Definition gxfp_cmd_send_nop (fuel : nat) : M lworld Z :=
  null ← dev_null;
  if (null : bool) then mret (- EINVAL) else
  gxfp_cmd_send_expect_ack fuel GXFP_CMD_SEND_NOP (Some [0; 0; 0; 0]) 4 1
    GXFP_RECOVERY_CMD_TIMEOUT_MS.

Definition gxfp_cmd_set_sleep_mode (fuel : nat) : M lworld Z :=
  null ← dev_null;
  if (null : bool) then mret (- EINVAL) else
  gxfp_cmd_send_expect_ack fuel GXFP_CMD_SET_SLEEP_MODE (Some [0; 0]) 2 1
    GXFP_RECOVERY_CMD_TIMEOUT_MS.

Definition gxfp_cmd_d01 (fuel : nat) : M lworld Z :=
  null ← dev_null;
  if (null : bool) then mret (- EINVAL) else
  gxfp_cmd_send_expect_ack fuel GXFP_CMD_D01 (Some [0; 0]) 2 1 GXFP_RECOVERY_CMD_TIMEOUT_MS.

Definition gxfp_cmd_reset_device (fuel : nat) (reset_flag : Z) : M lworld Z :=
  null ← dev_null;
  if (null : bool) then mret (- EINVAL) else
  gxfp_cmd_send_expect_ack fuel GXFP_CMD_RESET_DEVICE (Some [reset_flag; GXFP_RESET_DELAY_MAGIC]) 2
    6 GXFP_RECOVERY_CMD_TIMEOUT_MS.

(** * tls_cmd.c *)

Definition gxfp_tls_cmd_send_expect_ack (fuel : nat) (c : Z) (payload : ptr bytes)
    (payload_len timeout_ms : Z) : M lworld Z :=
  rx ← u_stack GXFP_IOCTL_TAP_PAYLOAD_MAX;
  '(rc, rx, rx_len) ←
    gxfp_goodix_request_selected fuel c GXFP_CMD_ACK payload payload_len (Some rx)
      GXFP_IOCTL_TAP_PAYLOAD_MAX (Some 0) 1 timeout_ms None;
  if negb (rc =? 0) then mret rc else
  '(ok, frame) ← parse_reply rx rx_len;
  if negb ok || negb (valid frame) then mret (- EBADMSG) else
  if negb (cmd frame =? GXFP_CMD_ACK) then mret (- EBADMSG) else
  mret 0.

Definition gxfp_cmd_tls_server_init : M lworld Z :=
  null ← dev_null;
  if (null : bool) then mret (- EINVAL) else
  gxfp_goodix_send_async GXFP_CMD_TLS_SERVER_INIT (Some [0; 0]) 2.

Definition gxfp_cmd_get_image : M lworld Z :=
  null ← dev_null;
  if (null : bool) then mret (- EINVAL) else
  gxfp_goodix_send_async GXFP_CMD_GET_IMAGE (Some [1; 0]) 2.

Definition gxfp_cmd_tls_unlock (fuel : nat) : M lworld Z :=
  null ← dev_null;
  if (null : bool) then mret (- EINVAL) else
  gxfp_tls_cmd_send_expect_ack fuel GXFP_CMD_TLS_UNLOCK (Some [0; 0]) 2 500.

Definition gxfp_cmd_tls_unlock_force : M lworld Z :=
  null ← dev_null;
  if (null : bool) then mret (- EINVAL) else
  gxfp_goodix_send_async GXFP_CMD_TLS_UNLOCK_FORCE (Some [0; 0]) 2.

(** * register_cmd.c *)

Definition gxfp_cmd_read_reg (fuel : nat) (reg : Z) (out : ptr bytes) (out_len : Z)
    : M lworld (Z * ptr bytes) :=
  null ← dev_null;
  match out with
  | Some o =>
    if (null : bool) || (out_len =? 0) then mret (- EINVAL, out) else
    let req := [0; u8 (Z.land reg 255); u8 (Z.land (Z.shiftr reg 8) 255);
                u8 (Z.land out_len 255); u8 (Z.land (Z.shiftr out_len 8) 255)] in
    rx ← u_stack GXFP_IOCTL_TAP_PAYLOAD_MAX;
    '(rc, rx, rx_len) ←
      gxfp_goodix_request_selected fuel GXFP_CMD_REG_READ GXFP_CMD_REG_READ (Some req) 5
        (Some rx) GXFP_IOCTL_TAP_PAYLOAD_MAX (Some 0) 3 500 None;
    if negb (rc =? 0) then mret (rc, out) else
    '(ok, frame) ← parse_reply rx rx_len;
    if negb ok then mret (- EBADMSG, out) else
    match payload frame with
    | None => mret (- EBADMSG, out)
    | Some p =>
      if payload_len frame <? out_len then mret (- EBADMSG, out) else
      o ← lift (memcpy o 0 p 0 out_len);
      mret (0, Some o)
    end
  | None => mret (- EINVAL, out)
  end.
Definition gxfp_cmd_read_chip_id (fuel : nat) (out_chip_id : ptr Z) : M lworld (Z * ptr Z) :=
  null ← dev_null;
  if (null : bool) || bool_decide (out_chip_id = None) then mret (- EINVAL, out_chip_id) else
  let out_chip_id := setp out_chip_id 0 in
  buf ← u_stack 4;
  '(rc, buf) ← gxfp_cmd_read_reg fuel 0 (Some buf) 4;
  if negb (rc =? 0) then mret (rc, out_chip_id) else
  buf ← lift buf;
  b1 ← lift (rd buf 1);
  b2 ← lift (rd buf 2);
  mret (0, setp out_chip_id (u16 (Z.lor b1 (u16 (Z.shiftl b2 8))))).

(** * sensor_cfg_cmd.c *)

Definition gxfp_cmd_read_otp (fuel : nat) (otp : ptr bytes) (otp_cap : Z) (out_otp_len : ptr Z)
    : M lworld (Z * ptr bytes * ptr Z) :=
  null ← dev_null;
  match otp with
  | Some o =>
    if (null : bool) || (otp_cap =? 0) then mret (- EINVAL, otp, out_otp_len) else
    let out_otp_len := setp out_otp_len 0 in
    rx ← u_stack GXFP_IOCTL_TAP_PAYLOAD_MAX;
    '(rc, rx, rx_len) ←
      gxfp_goodix_request_selected fuel GXFP_CMD_READ_OTP GXFP_CMD_READ_OTP (Some [0; 0]) 2
        (Some rx) GXFP_IOCTL_TAP_PAYLOAD_MAX (Some 0) 8 500 None;
    if negb (rc =? 0) then mret (rc, otp, out_otp_len) else
    '(ok, frame) ← parse_reply rx rx_len;
    if negb ok then mret (- EBADMSG, otp, out_otp_len) else
    match payload frame with
    | None => mret (- EBADMSG, otp, out_otp_len)
    | Some p =>
      if otp_cap <? payload_len frame then mret (- EMSGSIZE, otp, out_otp_len) else
      o ← lift (forN (Z.to_nat (payload_len frame)) 0 (λ i o, v ← rd p i; wr o i v) o);
      mret (0, Some o, setp out_otp_len (payload_len frame))
    end
  | None => mret (- EINVAL, otp, out_otp_len)
  end.

Definition gxfp_cmd_upload_config_mcu (fuel : nat) (cfg : ptr bytes) (cfg_len : Z)
    (out_ack_status : ptr Z) : M lworld (Z * ptr Z) :=
  null ← dev_null;
  if (null : bool) || bool_decide (cfg = None) || (cfg_len =? 0)
  then mret (- EINVAL, out_ack_status) else
  let out_ack_status := setp out_ack_status 255 in
  rx ← u_stack GXFP_IOCTL_TAP_PAYLOAD_MAX;
  '(rc, rx, rx_len) ←
    gxfp_goodix_request_selected fuel GXFP_CMD_UPLOAD_CONFIG_MCU GXFP_CMD_ACK cfg cfg_len
      (Some rx) GXFP_IOCTL_TAP_PAYLOAD_MAX (Some 0) 2 2000 None;
  if negb (rc =? 0) then mret (rc, out_ack_status) else
  '(ok, frame) ← parse_reply rx rx_len;
  if negb ok then mret (- EBADMSG, out_ack_status) else
  status ← lift (match payload frame with
                 | Some p => if 0 <? payload_len frame then rd p 0 else Some 0
                 | None => Some 0
                 end);
  mret (0, setp out_ack_status status).

(** * mcu_state_cmd.c *)

Definition gxfp_mcu_state_parse (buf : ptr bytes) (len : Z) (out : ptr gxfp_mcu_state)
    : option (Z * ptr gxfp_mcu_state) :=
  match buf, out with
  | Some b, Some _ =>
    let out := Some mcu_state_zero in
    if len <? GXFP_MCU_STATE_LEN then Some (- EBADMSG, out) else
    b0 ← rd b 0;
    b1 ← rd b 1;
    b2 ← rd b 2;
    r3 ← memcpy (zeros 6) 0 b 3 6;
    b9 ← rd b 9;
    r10 ← memcpy (zeros 5) 0 b 10 5;
    b15 ← rd b 15;
    r16 ← memcpy (zeros 4) 0 b 16 4;
    Some (0, Some {|
      version := b0; b1_raw := b1;
      is_pov_image_valid := Z.land (Z.shiftr b1 0) 1;
      is_tls_connected := Z.land (Z.shiftr b1 1) 1;
      is_locked := Z.land (Z.shiftr b1 3) 1;
      avail_img_cnt := Z.land b2 15;
      pov_img_cnt := Z.land (Z.shiftr b2 4) 15;
      raw_3_8 := r3;
      ec_falling_count := b9;
      flags9_pba := Z.land (Z.shiftr b9 4) 1;
      flags9_tls_session := Z.land (Z.shiftr b9 5) 1;
      flags9_bit6 := Z.land (Z.shiftr b9 6) 1;
      raw_10_14 := r10;
      config_down_flag := b15;
      raw_16_19 := r16 |})
  | _, _ => Some (- EINVAL, out)
  end.

(** The milliseconds of the current minute, in the 16 bits of the payload. *)
Definition build_trigger_payload : M lworld bytes :=
  ts ← syscall (EvClock CLOCK_REALTIME) (sys_clock CLOCK_REALTIME);
  let ts_u16 := u16 (u64 (u64 (Z.rem ts.1 60) * 1000 + u64 ts.2 / 1000000)) in
  mret [85; u8 (Z.land ts_u16 255); u8 (Z.land (Z.shiftr ts_u16 8) 255); 0; 0].

Definition gxfp_mcu_state_query (fuel : nat) (out_state : ptr gxfp_mcu_state)
    : M lworld (Z * ptr gxfp_mcu_state) :=
  null ← dev_null;
  if (null : bool) || bool_decide (out_state = None) then mret (- EINVAL, out_state) else
  rx ← umalloc 4096;
  if bool_decide (rx = None) then mret (- ENOMEM, out_state) else
  gxfp_dev_flush_rxq;;
  trigger ← build_trigger_payload;
  '(r, rx, rx_len) ←
    gxfp_goodix_request_selected fuel GXFP_CMD_TRIGGER_MCU_STATE GXFP_CMD_QUERY_MCU_STATE
      (Some trigger) 5 rx 4096 (Some 0) 1 500 None;
  if negb (r =? 0) then mret (r, out_state) else
  '(ok, frame) ← parse_reply rx rx_len;
  if negb ok || negb (valid frame) || negb (cmd frame =? GXFP_CMD_QUERY_MCU_STATE)
     || bool_decide (payload frame = None) || (payload_len frame <? GXFP_MCU_STATE_LEN)
  then mret (- EBADMSG, out_state) else
  lift (gxfp_mcu_state_parse (payload frame) (payload_len frame) out_state).

(** * production_cmd.c *)

Definition production_write_selector : selector := λ frame,
  if bool_decide (payload frame = None) then Some (- EBADMSG) else
  if payload_len frame <? 1 then Some 0 else Some 1.

(** [want] is the data type the context asks for, 0 for any. *)
Definition preset_psk_selector (want : Z) : selector := λ frame,
  match payload frame with
  | None => Some (- EBADMSG)
  | Some p =>
    if payload_len frame <? 9 then Some 0 else
    b0 ← rd p 0;
    if negb (b0 =? 0) then Some (- EIO) else
    data_type ← gxfp_le32 (zdrop 1 p);
    data_len ← gxfp_le32 (zdrop 5 p);
    if u32 (payload_len frame - 9) <? data_len then Some (- EBADMSG) else
    if negb (want =? 0) && negb (data_type =? want) then Some 0 else
    Some 1
  end.

Definition gxfp_cmd_production_write_mcu (fuel : nat) (blob : ptr bytes) (blob_len : Z)
    (out_mcu_ret : ptr Z) : M lworld (Z * ptr Z) :=
  null ← dev_null;
  if (null : bool) || bool_decide (blob = None) then mret (- EINVAL, out_mcu_ret) else
  let out_mcu_ret := setp out_mcu_ret 4294967295 in
  rx ← u_stack GXFP_IOCTL_TAP_PAYLOAD_MAX;
  '(rc, rx, rx_len) ←
    gxfp_goodix_request_selected fuel GXFP_CMD_PRODUCTION_WRITE_MCU GXFP_CMD_PRODUCTION_WRITE_MCU
      blob blob_len (Some rx) GXFP_IOCTL_TAP_PAYLOAD_MAX (Some 0) 4 2000
      (Some production_write_selector);
  if negb (rc =? 0) then mret (rc, out_mcu_ret) else
  '(ok, frame) ← parse_reply rx rx_len;
  if negb ok || negb (valid frame) then mret (- EBADMSG, out_mcu_ret) else
  if negb (cmd frame =? GXFP_CMD_PRODUCTION_WRITE_MCU) then mret (- EBADMSG, out_mcu_ret) else
  match payload frame with
  | None => mret (- EBADMSG, out_mcu_ret)
  | Some p =>
    if payload_len frame <? 1 then mret (- EBADMSG, out_mcu_ret) else
    b0 ← lift (rd p 0);
    mret (0, setp out_mcu_ret b0)
  end.

(** The end of [gxfp_cmd_preset_psk_read]: the checks of the answer, and the copy. *)
Definition psk_finish (data_type : Z) (d : bytes) (data_cap : Z) (frame : gxfp_frame_parsed)
    : option (Z * ptr bytes * ptr Z) :=
  match payload frame with
  | None => Some (- EBADMSG, Some d, Some 0)
  | Some p =>
    if payload_len frame <? 9 then Some (- EBADMSG, Some d, Some 0) else
    b0 ← rd p 0;
    if negb (b0 =? 0) then Some (- EIO, Some d, Some 0) else
    ty ← gxfp_le32 (zdrop 1 p);
    if negb (ty =? data_type) then Some (- ENODATA, Some d, Some 0) else
    n ← gxfp_le32 (zdrop 5 p);
    if u32 (payload_len frame - 9) <? n then Some (- EBADMSG, Some d, Some 0) else
    if data_cap <? n then Some (- EMSGSIZE, Some d, Some 0) else
    d ← memcpy d 0 p 9 n;
    Some (0, Some d, Some n)
  end.

Definition gxfp_cmd_preset_psk_read (fuel : nat) (data_type : Z) (data : ptr bytes)
    (data_cap : Z) (out_data_len : ptr Z) : M lworld (Z * ptr bytes * ptr Z) :=
  null ← dev_null;
  match data, out_data_len with
  | Some d, Some _ =>
    if (null : bool) || (data_cap =? 0) then mret (- EINVAL, data, out_data_len) else
    let out_data_len := Some 0 in
    req ← lift (gxfp_le32enc (zeros 8) data_type);
    rx ← u_stack GXFP_IOCTL_TAP_PAYLOAD_MAX;
    '(rc, rx, rx_len) ←
      gxfp_goodix_request_selected fuel GXFP_CMD_PRESET_PSK_READ GXFP_CMD_PRESET_PSK_READ
        (Some req) 8 (Some rx) GXFP_IOCTL_TAP_PAYLOAD_MAX (Some 0) 4 2000
        (Some (preset_psk_selector data_type));
    if negb (rc =? 0) then mret (rc, data, out_data_len) else
    '(ok, frame) ← parse_reply rx rx_len;
    if negb ok || negb (valid frame) then mret (- EBADMSG, data, out_data_len) else
    if negb (cmd frame =? GXFP_CMD_PRESET_PSK_READ) then mret (- EBADMSG, data, out_data_len) else
    lift (psk_finish data_type d data_cap frame)
  | _, _ => mret (- EINVAL, data, out_data_len)
  end.

(** * flow/device_recovery.c *)

Definition gxfp_device_recovery (fuel : nat) (unstick_tls reset_mcu reset_sensor : bool)
    : M lworld Z :=
  null ← dev_null;
  if (null : bool) then mret (- EINVAL) else
  let reset_flag := Z.lor (if reset_mcu then 2 else 0) (if reset_sensor then 1 else 0) in
  gxfp_dev_flush_rxq;;
  gxfp_cmd_notify_power_state fuel;;
  (if unstick_tls
   then gxfp_cmd_d01 fuel;;
        gxfp_cmd_send_nop fuel;;
        gxfp_cmd_tls_unlock fuel;;
        mret ()
   else mret ());;
  gxfp_cmd_set_sleep_mode fuel;;
  rc ← (if negb (reset_flag =? 0) then gxfp_cmd_reset_device fuel reset_flag else mret 0);
  gxfp_dev_flush_rxq;;
  mret rc.
End cmds.

(** * Lemmas *)

Section cmd_rules.
Context {E : Uenv} {EO : UenvOk E} {B : nat} {CO : UclockOk E B}.

Lemma dev_null_run w fd : dev_open w fd → dev_null w = Some (false, w).
Proof using Type. intros (Hd & _). unfold dev_null, gets. by rewrite Hd. Qed.

(** A command fits in a packet. *)
Definition cmd_fits (req : bytes) : Prop := zlen req + 4 <= GXFP_IOCTL_TX_PAYLOAD_MAX.

(** Some copies of a packet were sent, at most [n] of them, and one at least when it
    fits and memory does not run out. *)
Definition sent_upto (n : nat) (c : Z) (req : bytes) (w w' : lworld) : Prop :=
  ∃ k, (k <= n)%nat ∧ sent k c req w w' ∧ (l_oom w = [] → cmd_fits req → (1 <= k)%nat).


(** A request with a fresh receive buffer, and its answer parsed again: either an
    error, or the frame the selector took. *)
Definition reply_ok (e : Z) (fn : selector) (cap : Z) (rx : ptr bytes) (n : ptr Z) (w : lworld) : Prop :=
  ∃ p ck more more' s, parse_reply rx n w = Some ((true, body_frame e p ck more), w) ∧
    bytes_ok p ∧ zlen p < 65535 ∧ zlen p + 4 <= cap ∧
    fn (body_frame e p ck more') = Some s ∧ 0 < s.

Lemma request_reply fuel c e req rest rx cap tries ms fn w fd :
  dev_open w fd → zlen rx = cap → 0 < cap < 2 ^ 32 → sel_total (default select_any_frame fn) → is_u8 c →
  is_u8 e → zlen req <= GOODIX_PAYLOAD_MAX → (wait_ms ms * B < fuel)%nat →
  wp (gxfp_goodix_request_selected fuel c e (Some (req ++ rest)) (zlen req) (Some rx) cap (Some 0)
        tries ms fn)
     (λ res w', ∃ k, (k <= attempts tries)%nat ∧ sent k c req w w' ∧
        (res.1.1 = 0 → (1 <= k)%nat ∧ reply_ok e (default select_any_frame fn) cap res.1.2 res.2 w') ∧
        (l_oom w = [] → cmd_fits req → (1 <= k)%nat)) w.
Proof using EO CO.
  intros Hd <- Hcap Hfn Hc He Hreq Hfuel.
  eapply wp_mono; [apply (request_selected_run fuel c e req rest rx (Some 0) tries ms fn w fd); try done; lia|].
  intros ((r & b) & o) w' (x & k & Ex & Hk & Hs & Ho & _ & H1 & Hall). cbn [fst snd] in *. subst b.
  exists k. split; [done|]. split; [done|]. split; [|done]. intros Hr. split; [by apply H1|].
  destruct Ho as (_ & Ha & _). destruct (Ha Hr) as (p & ck & extra & more & s & Ha').
  cbv zeta in Ha'. destruct Ha' as (Hb & Hp & Hl & -> & -> & Hs1 & Hs0). cbn [setp option_fmap option_map fst snd].
  pose proof (zlen_nonneg p). pose proof (zlen_nonneg extra). rewrite zlen_app, zlen_goodix_body in Hl.
  exists p, ck, (extra ++ zdrop (zlen (goodix_body e p ck ++ extra)) rx), more, s.
  split.
  { unfold parse_reply. change (setp ?q ?v) with (Some v). rewrite bind_lift.
    rewrite <- app_assoc, user_parse_body by (rewrite ?zlen_app, ?zlen_goodix_body; done || lia).
    by rewrite bind_lift, bind_lift. }
  rewrite bytes_ok_app in Hb. destruct Hb as (Hb & _). unfold goodix_body in Hb.
  rewrite !bytes_ok_cons, bytes_ok_app in Hb. split_and!; [apply Hb|done|lia|done|done].
Qed.

Lemma any_frame_total : sel_total (default select_any_frame None).
Proof using Type. intros c pl ck rest _. by eexists. Qed.

Lemma tap_buf_len w : zlen (u_uninit (l_trace w) GXFP_IOCTL_TAP_PAYLOAD_MAX) = GXFP_IOCTL_TAP_PAYLOAD_MAX.
Proof using EO. by apply u_uninit_len. Qed.

Lemma tap_max : 0 < GXFP_IOCTL_TAP_PAYLOAD_MAX < 2 ^ 32.
Proof using Type. done. Qed.

(** A command that only waits for its acknowledgement. *)
Lemma expect_ack_run fuel c req tries ms w fd :
  dev_open w fd → is_u8 c → zlen req <= GOODIX_PAYLOAD_MAX → (wait_ms ms * B < fuel)%nat →
  wp (gxfp_cmd_send_expect_ack fuel c (Some req) (zlen req) tries ms)
     (λ r w', ∃ k, (k <= attempts tries)%nat ∧ sent k c req w w' ∧ (r = 0 → (1 <= k)%nat) ∧
        (l_oom w = [] → cmd_fits req → (1 <= k)%nat)) w.
Proof using EO CO.
  intros Hd Hc Hreq Hfuel. unfold gxfp_cmd_send_expect_ack. apply wp_bind, wp_gets.
  rewrite <- (app_nil_r req) at 1. apply wp_bind. eapply wp_mono.
  { apply (request_reply fuel c GXFP_CMD_ACK req [] _ _ tries ms None w fd); try done;
      [apply tap_buf_len|apply any_frame_total]. }
  intros ((r & rx) & n) w' (k & Hk & Hs & Hr & Hall). cbn [fst snd] in Hr.
  destruct (Z.eqb_spec r 0) as [->|]; cbn [negb]; [|apply wp_ret; exists k; done].
  destruct (Hr eq_refl) as (Hk1 & p & ck & more & _ & _ & Ep & _).
  apply wp_bind. eapply wp_eq; [exact Ep|]. cbn [negb orb valid body_frame cmd].
  rewrite Z.eqb_refl. apply wp_ret. by exists k.
Qed.

Lemma tls_expect_ack_same fuel c req n ms w :
  gxfp_tls_cmd_send_expect_ack fuel c req n ms w = gxfp_cmd_send_expect_ack fuel c req n 1 ms w.
Proof using Type. done. Qed.

Lemma flush_rxq_run w fd : dev_open w fd → wp gxfp_dev_flush_rxq (λ _ w', waits w w') w.
Proof using Type.
  intros Hd. unfold gxfp_dev_flush_rxq. apply wp_bind. eapply wp_eq; [by apply (dev_closed_run w fd)|].
  apply wp_bind. eapply wp_eq; [by apply (dev_fd_run w fd)|]. apply wp_bind, wp_syscall.
  destruct (negb _); apply wp_ret; by apply waits_calls.
Qed.

(** ** The recovery sequence *)

(** [steps l w w']: the packets of [l] were written in order, each some number of
    times within its bound, and nothing else. *)
Fixpoint steps (l : list (nat * Z * bytes)) (w w' : lworld) : Prop :=
  match l with
  | [] => waits w w'
  | (n, c, req) :: l => ∃ w1, sent_upto n c req w w1 ∧ steps l w1 w'
  end.

Lemma steps_app l l' w w1 w2 : steps l w w1 → steps l' w1 w2 → steps (l ++ l') w w2.
Proof using Type.
  revert w. induction l as [|[[n c] req] l IH]; intros w H1 H2; cbn [steps app] in *.
  - destruct l' as [|[[n c] req] l']; cbn [steps] in *; [by rewrite H1|].
    destruct H2 as (w3 & (k & Hk & Hs & Hall) & H2). exists w3. split; [|done]. exists k. split; [done|].
    destruct H1 as (Hx & Hw), Hs as (Hx' & Hw'). split; [split; [by rewrite Hx|by rewrite Hw', Hw]|].
    intros Ho. by apply Hall, (extends_oom w).
  - destruct H1 as (w3 & H & H1). exists w3. split; [done|]. by apply IH.
Qed.

Lemma steps_extends l w w' : steps l w w' → extends w w'.
Proof using Type.
  revert w. induction l as [|[[n c] req] l IH]; intros w H; cbn [steps] in H; [apply H|].
  destruct H as (w1 & (k & _ & (Hs & _) & _) & H). rewrite Hs. by apply IH.
Qed.

Lemma steps_open l w w' fd : dev_open w fd → steps l w w' → dev_open w' fd.
Proof using Type. intros Hd Hs. apply (dev_open_extends w); [done|by eapply steps_extends]. Qed.

(** What the steps leave in the trace. *)
Definition packets (ks : list nat) (l : list (nat * Z * bytes)) : list bytes :=
  concat (zip_with (λ k s, replicate k (user_packet GOODIX_MP_TYPE_CMD (goodix_frame s.1.2 s.2))) ks l).

Lemma steps_writes l w w' :
  steps l w w' → ∃ ks, Forall2 (λ k s, (k <= s.1.1)%nat) ks l ∧
    writes (l_trace w') = writes (l_trace w) ++ packets ks l ∧
    (l_oom w = [] → Forall (λ s, cmd_fits s.2) l → Forall (λ k, (1 <= k)%nat) ks).
Proof using Type.
  revert w. induction l as [|[[n c] req] l IH]; intros w H; cbn [steps] in H.
  - exists []. split; [constructor|]. split; [|constructor]. cbn. rewrite app_nil_r. apply H.
  - destruct H as (w1 & (k & Hk & Hs & Hall) & H). destruct (IH w1 H) as (ks & Hks & Hw & Hks1).
    exists (k :: ks). split; [by constructor|]. unfold packets in *. cbn [zip_with concat fst snd].
    rewrite Hw, (proj2 Hs), <- app_assoc. split; [done|]. intros Ho (Hf & Hfs)%Forall_cons.
    constructor; [by apply Hall|]. apply Hks1; [|done]. by apply (extends_oom w); [apply Hs|].
Qed.

(** One acknowledged command of the sequence, its result ignored or kept. *)
Lemma ack_step fuel c req tries w fd (m : M lworld Z) :
  dev_open w fd → is_u8 c → zlen req <= GOODIX_PAYLOAD_MAX → (500 * B < fuel)%nat →
  m w = gxfp_cmd_send_expect_ack fuel c (Some req) (zlen req) tries 500 w →
  wp m (λ r w', ∃ k, (k <= attempts tries)%nat ∧ sent k c req w w' ∧ (r = 0 → (1 <= k)%nat) ∧
        (l_oom w = [] → cmd_fits req → (1 <= k)%nat)) w.
Proof using EO CO.
  intros Hd Hc Hreq Hfuel Hm. unfold wp. rewrite Hm.
  apply (expect_ack_run fuel c req tries 500 w fd); try done.
Qed.

Lemma ack_steps fuel c req tries w fd (m : M lworld Z) :
  dev_open w fd → is_u8 c → zlen req <= GOODIX_PAYLOAD_MAX → (500 * B < fuel)%nat →
  m w = gxfp_cmd_send_expect_ack fuel c (Some req) (zlen req) tries 500 w →
  wp m (λ _ w', steps [(attempts tries, c, req)] w w') w.
Proof using EO CO.
  intros Hd Hc Hreq Hfuel Hm. eapply wp_mono; [by apply (ack_step fuel c req tries w fd)|].
  intros r w' (k & Hk & Hs & _ & Hall). exists w'. split; [by exists k|apply waits_refl].
Qed.

Lemma skip_null {A} (w : lworld) fd (x y : M lworld A) :
  dev_open w fd → (null ← dev_null; if (null : bool) then x else y) w = y w.
Proof using Type. intros Hd. by rewrite (run_bind _ _ _ _ _ (dev_null_run w fd Hd)). Qed.
(** The register read, the calibration memory and the configuration upload. *)
Lemma read_reg_run fuel reg o n w fd :
  dev_open w fd → 0 < n → n <= zlen o → (500 * B < fuel)%nat →
  wp (gxfp_cmd_read_reg fuel reg (Some o) n)
     (λ '(r, o') w', extends w w' ∧ ∃ x, o' = Some x ∧ zlen x = zlen o) w.
Proof using EO CO.
  intros Hd Hn Ho Hfuel. unfold gxfp_cmd_read_reg.
  apply wp_bind. eapply wp_eq; [by apply (dev_null_run w fd)|].
  rewrite (proj2 (Z.eqb_neq n 0)) by lia. cbn [orb]. cbv zeta.
  apply wp_bind, wp_gets. set (req := [_; _; _; _; _]). rewrite <- (app_nil_r req).
  apply wp_bind. eapply wp_mono.
  { apply (request_reply fuel GXFP_CMD_REG_READ GXFP_CMD_REG_READ req [] _ _ 3 500 None w fd); try done;
      [apply tap_buf_len|apply any_frame_total]. }
  intros ((r & rx) & k) w' (c & _ & Hs & Hr & _). cbn [fst snd] in Hr.
  assert (Hx : extends w w') by apply Hs.
  destruct (Z.eqb_spec r 0) as [->|]; cbn [negb]; [|apply wp_ret; split; [done|by exists o]].
  destruct (Hr eq_refl) as (_ & p & ck & more & _ & _ & Ep & _).
  apply wp_bind. eapply wp_eq; [exact Ep|]. cbn [negb valid body_frame payload payload_len].
  destruct (Z.ltb_spec (zlen p) n); [apply wp_ret; split; [done|by exists o]|].
  pose proof (zlen_nonneg more).
  destruct (memcpy o 0 (p ++ ck :: more) 0 n) as [x|] eqn:Em.
  - apply wp_bind, (wp_lift _ x); [done|]. apply wp_ret. split; [done|]. exists x. split; [done|].
    unfold memcpy in Em. destruct (slice _ _ _) as [y|]; [|done]. by destruct (blit_inv _ _ _ _ Em) as (_ & _ & _ & ?).
  - exfalso. unfold memcpy in Em. rewrite slice_Some in Em by (rewrite ?zlen_app, ?zlen_cons; lia).
    cbn [mbind option_bind] in Em. rewrite blit_Some in Em; [done|lia|].
    rewrite zlen_ztake; rewrite ?zlen_zdrop; rewrite ?zlen_app, ?zlen_cons; lia.
Qed.

Lemma read_chip_id_run fuel o w fd :
  dev_open w fd → (500 * B < fuel)%nat →
  wp (gxfp_cmd_read_chip_id fuel (Some o)) (λ '(r, o') w', extends w w' ∧ is_Some o') w.
Proof using EO CO.
  intros Hd Hfuel. unfold gxfp_cmd_read_chip_id.
  apply wp_bind. eapply wp_eq; [by apply (dev_null_run w fd)|]. rewrite bool_decide_eq_false_2 by done.
  cbn [orb]. cbv zeta. apply wp_bind, wp_gets. apply wp_bind.
  assert (Hl : zlen (u_uninit (l_trace w) 4) = 4) by by apply u_uninit_len.
  eapply wp_mono; [by apply (read_reg_run fuel 0 _ 4 w fd Hd); rewrite ?Hl|].
  intros [r x] w' (Hx & b & -> & Hb). rewrite Hl in Hb.
  destruct (negb _); [by apply wp_ret|]. apply wp_bind, (wp_lift _ b); [done|].
  destruct (rd_Some b 1) as (v1 & H1); [lia|]. destruct (rd_Some b 2) as (v2 & H2); [lia|].
  apply wp_bind, (wp_lift _ v1); [done|]. apply wp_bind, (wp_lift _ v2); [done|]. apply wp_ret. by split.
Qed.
Lemma otp_copy_run p o n :
  0 <= n <= zlen p → n <= zlen o → bytes_ok p → bytes_ok o →
  ∃ x, forN (Z.to_nat n) 0 (λ i o, v ← rd p i; wr o i v) o = Some x ∧ zlen x = zlen o ∧ bytes_ok x.
Proof using Type.
  intros Hp Ho Hpb Hob.
  destruct (forN_option (λ _ x, zlen x = zlen o ∧ bytes_ok x) (λ i o, v ← rd p i; wr o i v) (Z.to_nat n) 0 o)
    as (x & Ex & Hx & Hxb); [done| |by exists x].
  intros j a Hj (Ha & Hab). destruct (rd_Some p j) as (v & Hv); [lia|]. rewrite Hv. cbn [mbind option_bind].
  unfold wr. rewrite blit_Some by (rewrite ?zlen_cons, ?zlen_nil; lia).
  eexists. split; [done|]. rewrite zlen_cons, zlen_nil. split.
  - rewrite !zlen_app, zlen_ztake, zlen_cons, zlen_nil, zlen_zdrop by lia. lia.
  - rewrite !bytes_ok_app, bytes_ok_cons. pose proof (rd_ok p j v Hpb Hv).
    split; [by apply bytes_ok_ztake|]. split; [by split; [|apply bytes_ok_nil]|by apply bytes_ok_zdrop].
Qed.

Lemma read_otp_run fuel o cap w fd :
  dev_open w fd → 0 < cap → zlen o = cap → bytes_ok o → (500 * B < fuel)%nat →
  wp (gxfp_cmd_read_otp fuel (Some o) cap (Some 0))
     (λ '(r, o', n') w', extends w w' ∧ ∃ x n, o' = Some x ∧ n' = Some n ∧ zlen x = cap ∧ bytes_ok x ∧
        0 <= n <= cap) w.
Proof using EO CO.
  intros Hd Hc Ho Hob Hfuel. unfold gxfp_cmd_read_otp.
  apply wp_bind. eapply wp_eq; [by apply (dev_null_run w fd)|].
  rewrite (proj2 (Z.eqb_neq cap 0)) by lia. cbn [orb]. cbv zeta.
  apply wp_bind, wp_gets. change (Some [0; 0]) with (Some ([0; 0] ++ [])).
  apply wp_bind. eapply wp_mono.
  { apply (request_reply fuel GXFP_CMD_READ_OTP GXFP_CMD_READ_OTP [0; 0] [] _ _ 8 500 None w fd); try done;
      [apply tap_buf_len|apply any_frame_total]. }
  intros ((r & rx) & k) w' (c & _ & Hs & Hr & _). cbn [fst snd] in Hr.
  assert (Hx : extends w w') by apply Hs.
  assert (Hsame : extends w w' ∧ ∃ x n, Some o = Some x ∧ setp (Some 0) 0 = Some n ∧ zlen x = cap ∧
    bytes_ok x ∧ 0 <= n <= cap) by (split; [done|]; exists o, 0; split_and!; (done || lia)).
  destruct (Z.eqb_spec r 0) as [->|]; cbn [negb]; [|by apply wp_ret].
  destruct (Hr eq_refl) as (_ & p & ck & more & _ & _ & Ep & Hpb & _).
  apply wp_bind. eapply wp_eq; [exact Ep|]. cbn [negb valid body_frame payload payload_len].
  destruct (Z.ltb_spec cap (zlen p)); [by apply wp_ret|].
  destruct (otp_copy_run p o (zlen p)) as (x & Ex & Hxl & Hxb); [pose proof (zlen_nonneg p); lia..|done|done|].
  assert (Ex' : forN (Z.to_nat (zlen p)) 0 (λ i o, v ← rd (p ++ ck :: more) i; wr o i v) o = Some x).
  { rewrite <- Ex. apply forN_ext. intros i a Hi. by rewrite rd_app_l by lia. }
  apply wp_bind. eapply wp_lift; [exact Ex'|]. apply wp_ret. split; [done|].
  exists x, (zlen p). pose proof (zlen_nonneg p). split_and!; (done || lia).
Qed.

Lemma upload_config_run fuel c n w fd :
  dev_open w fd → 0 < n → zlen c = n → n <= GOODIX_PAYLOAD_MAX → (2000 * B < fuel)%nat →
  wp (gxfp_cmd_upload_config_mcu fuel (Some c) n (Some 255)) (λ _ w', extends w w') w.
Proof using EO CO.
  intros Hd Hn Hc Hmax Hfuel. unfold gxfp_cmd_upload_config_mcu.
  apply wp_bind. eapply wp_eq; [by apply (dev_null_run w fd)|].
  rewrite (proj2 (Z.eqb_neq n 0)) by lia. rewrite bool_decide_eq_false_2 by done. cbn [orb]. cbv zeta.
  apply wp_bind, wp_gets. rewrite <- Hc. rewrite <- (app_nil_r c) at 1. apply wp_bind. eapply wp_mono.
  { apply (request_reply fuel GXFP_CMD_UPLOAD_CONFIG_MCU GXFP_CMD_ACK c [] _ _ 2 2000 None w fd); try done;
      [apply tap_buf_len|apply any_frame_total|lia]. }
  intros ((r & rx) & k) w' (j & _ & Hs & Hr & _). cbn [fst snd] in Hr.
  assert (Hx : extends w w') by apply Hs.
  destruct (Z.eqb_spec r 0) as [->|]; cbn [negb]; [|by apply wp_ret].
  destruct (Hr eq_refl) as (_ & p & ck & more & _ & _ & Ep & _).
  apply wp_bind. eapply wp_eq; [exact Ep|]. cbn [negb valid body_frame payload payload_len].
  destruct (Z.ltb_spec 0 (zlen p)).
  - destruct (rd_Some (p ++ ck :: more) 0) as (v & Hv); [rewrite zlen_app; pose proof (zlen_nonneg (ck :: more)); lia|].
    apply wp_bind, (wp_lift _ v); [done|]. by apply wp_ret.
  - apply wp_bind, (wp_lift _ 0); [done|]. by apply wp_ret.
Qed.
End cmd_rules.

(** * The recovery sequence *)

Definition reset_flag_of (reset_mcu reset_sensor : bool) : Z :=
  Z.lor (if reset_mcu then 2 else 0) (if reset_sensor then 1 else 0).

(** The commands of the sequence, each with the most times it is sent. *)
Definition recovery_plan (unstick_tls : bool) (flag : Z) : list (nat * Z * bytes) :=
  [(1%nat, GXFP_CMD_NOTIFY_POWER_STATE, [1])] ++
  (if unstick_tls then [(1%nat, GXFP_CMD_D01, [0; 0]); (1%nat, GXFP_CMD_SEND_NOP, [0; 0; 0; 0]);
                        (1%nat, GXFP_CMD_TLS_UNLOCK, [0; 0])] else []) ++
  [(1%nat, GXFP_CMD_SET_SLEEP_MODE, [0; 0])] ++
  (if flag =? 0 then [] else [(6%nat, GXFP_CMD_RESET_DEVICE, [flag; GXFP_RESET_DELAY_MAGIC])]).

Section recovery.
Context {E : Uenv} {EO : UenvOk E} {B : nat} {CO : UclockOk E B}.

Lemma waits_steps l w w1 w2 : waits w w1 → steps l w1 w2 → steps l w w2.
Proof using Type. intros H1 H2. by apply (steps_app [] l w w1 w2). Qed.

Lemma steps_waits l w w1 w2 : steps l w w1 → waits w1 w2 → steps l w w2.
Proof using Type. intros H1 H2. rewrite <- (app_nil_r l). by eapply steps_app. Qed.

(** The commands before the reset, whatever follows. *)
Lemma recovery_head {A} fuel unstick w fd (k : M lworld A) Q :
  dev_open w fd → (500 * B < fuel)%nat →
  (∀ w', steps (recovery_plan unstick 0) w w' → wp k Q w') →
  wp (gxfp_dev_flush_rxq;;
      gxfp_cmd_notify_power_state fuel;;
      (if (unstick : bool)
       then gxfp_cmd_d01 fuel;; gxfp_cmd_send_nop fuel;; gxfp_cmd_tls_unlock fuel;; mret ()
       else mret ());;
      gxfp_cmd_set_sleep_mode fuel;;
      k) Q w.
Proof using EO CO.
  intros Hd Hfuel HK.
  apply wp_bind. eapply wp_mono; [by apply (flush_rxq_run w fd)|]. intros ? w1 H1.
  assert (D1 : dev_open w1 fd) by (apply (dev_open_extends w); [done|apply H1]).
  apply wp_bind. eapply wp_mono.
  { apply (ack_steps fuel GXFP_CMD_NOTIFY_POWER_STATE [1] 1 w1 fd); try done.
    by apply (skip_null w1 fd). }
  intros ? w2 H2. pose proof (steps_open _ _ _ fd D1 H2) as D2.
  assert (S2 : steps [(1%nat, GXFP_CMD_NOTIFY_POWER_STATE, [1])] w w2) by by apply (waits_steps _ _ w1).
  apply wp_bind. eapply wp_mono with (P := λ _ w3, steps ([(1%nat, GXFP_CMD_NOTIFY_POWER_STATE, [1])] ++
    (if unstick then [(1%nat, GXFP_CMD_D01, [0; 0]); (1%nat, GXFP_CMD_SEND_NOP, [0; 0; 0; 0]);
                        (1%nat, GXFP_CMD_TLS_UNLOCK, [0; 0])] else [])) w w3).
  { destruct unstick; [|by apply wp_ret].
    apply wp_bind. eapply wp_mono.
    { apply (ack_steps fuel GXFP_CMD_D01 [0; 0] 1 w2 fd); try done. by apply (skip_null w2 fd). }
    intros ? w3 H3. pose proof (steps_open _ _ _ fd D2 H3) as D3.
    apply wp_bind. eapply wp_mono.
    { apply (ack_steps fuel GXFP_CMD_SEND_NOP [0; 0; 0; 0] 1 w3 fd); try done.
      by apply (skip_null w3 fd). }
    intros ? w4 H4. pose proof (steps_open _ _ _ fd D3 H4) as D4.
    apply wp_bind. eapply wp_mono.
    { apply (ack_steps fuel GXFP_CMD_TLS_UNLOCK [0; 0] 1 w4 fd); try done.
      unfold gxfp_cmd_tls_unlock. rewrite (skip_null w4 fd) by done. by rewrite tls_expect_ack_same. }
    intros ? w5 H5. apply wp_ret.
    apply (steps_app _ _ w w2 w5 S2). apply (steps_app [_] _ w2 w3 w5 H3).
    by apply (steps_app [_] _ w3 w4 w5 H4). }
  intros ? w3 S3. pose proof (steps_open _ _ _ fd Hd S3) as D3.
  apply wp_bind. eapply wp_mono.
  { apply (ack_steps fuel GXFP_CMD_SET_SLEEP_MODE [0; 0] 1 w3 fd); try done.
    by apply (skip_null w3 fd). }
  intros ? w4 H4. apply HK. unfold recovery_plan. cbn [Z.eqb]. rewrite app_nil_r, app_assoc.
  by apply (steps_app _ _ w w3 w4).
Qed.

(** A device that acknowledges every command, within the timeout. *)
Definition acknowledges (h : gxfp_tap_hdr) (pl : bytes) (ck ms : Z) : Prop :=
  answers_with E (body_record h GXFP_CMD_ACK pl ck) (wait_ms ms) ∧ Z.of_nat (wait_ms ms) < 2 ^ 31 ∧
  bytes_ok pl ∧ zlen pl < 65535 ∧
  rec_ok (body_record h GXFP_CMD_ACK pl ck) ∧ hdr_ok h ∧ th_type h = GOODIX_MP_TYPE_CMD.

Lemma expect_ack_answered fuel c req tries ms h pl ck w fd :
  acknowledges h pl ck ms → dev_open w fd → l_oom w = [] → is_u8 c → cmd_fits req → fuel ≠ 0%nat →
  ∃ w', gxfp_cmd_send_expect_ack fuel c (Some req) (zlen req) tries ms w = Some (0, w') ∧
    sent 1 c req w w'.
Proof using EO.
  intros (Ha & Hms & Hpl & Hl & Hr & Hh & Ht) Hd Ho Hc Hreq Hf. destruct fuel as [|fuel]; [done|].
  pose proof (zlen_nonneg pl). pose proof (tap_buf_len w) as Hb. unfold GXFP_IOCTL_TAP_PAYLOAD_MAX in *.
  unfold gxfp_cmd_send_expect_ack, u_stack, GXFP_IOCTL_TAP_PAYLOAD_MAX in *. rewrite bind_gets.
  destruct (request_answered_run fuel h c GXFP_CMD_ACK req [] pl ck (u_uninit (l_trace w) 131072) (Some 0)
    tries ms None w fd) as (w' & Er & Hs); try done; try lia.
  { intros more. by eexists. }
  rewrite app_nil_r, Hb in Er. exists w'. split; [|done]. rewrite (run_bind _ _ _ _ _ Er).
  cbn [negb Z.eqb]. change (setp (Some 0) ?v) with (Some v). unfold parse_reply. rewrite bind_assoc, bind_lift.
  rewrite bind_assoc, user_parse_body by (done || lia). by rewrite bind_lift, bind_assoc, bind_lift.
Qed.

Definition reset_payload (flag : Z) : bytes := [flag; GXFP_RESET_DELAY_MAGIC].

(** The reset of a recovery: its bound, and when it is surely sent. *)
Definition reset_done (flag r : Z) (k : nat) (w w' : lworld) : Prop :=
  sent k GXFP_CMD_RESET_DEVICE (reset_payload flag) w w' ∧ (k <= 6)%nat ∧ (r = 0 → (1 <= k)%nat) ∧
  (l_oom w = [] → (1 <= k)%nat) ∧
  (∀ h pl ck, acknowledges h pl ck GXFP_RECOVERY_CMD_TIMEOUT_MS → l_oom w = [] → r = 0 ∧ k = 1%nat).

Lemma sent_count j k c req w w' : sent j c req w w' → sent k c req w w' → j = k.
Proof using Type.
  intros (_ & E1) (_ & E2). rewrite E1 in E2. apply app_inv_head in E2.
  by rewrite <- (length_replicate j (user_packet GOODIX_MP_TYPE_CMD (goodix_frame c req))), E2, length_replicate.
Qed.

Lemma reset_run fuel flag w fd :
  dev_open w fd → (500 * B < fuel)%nat →
  ∃ r w' k, gxfp_cmd_reset_device fuel flag w = Some (r, w') ∧ reset_done flag r k w w'.
Proof using EO CO.
  intros Hd Hf. unfold gxfp_cmd_reset_device. rewrite (skip_null w fd) by done.
  destruct (wp_inv _ _ _ (expect_ack_run fuel GXFP_CMD_RESET_DEVICE (reset_payload flag) 6 500 w fd Hd
    ltac:(done) ltac:(done) ltac:(done))) as (r & w' & Er & k & Hk & Hs & H0 & Hall).
  exists r, w', k. split; [exact Er|]. split; [done|]. split; [done|]. split; [done|].
  split; [intros Ho; by apply Hall|]. intros h pl ck Ha Ho.
  destruct (expect_ack_answered fuel GXFP_CMD_RESET_DEVICE (reset_payload flag) 6 500 h pl ck w fd Ha Hd Ho)
    as (w2 & Er2 & Hs2); [done|done|lia|]. rewrite Er in Er2. injection Er2 as -> ->.
  split; [done|]. by eapply sent_count.
Qed.

(** What a recovery does: the commands of the plan that come before the reset, then
    the reset if one was asked for. *)
Lemma recovery_parts fuel unstick reset_mcu reset_sensor w fd :
  dev_open w fd → (500 * B < fuel)%nat →
  let flag := reset_flag_of reset_mcu reset_sensor in
  wp (gxfp_device_recovery fuel unstick reset_mcu reset_sensor)
    (λ r w', if flag =? 0 then r = 0 ∧ steps (recovery_plan unstick 0) w w' else
       ∃ w1 w2 k, steps (recovery_plan unstick 0) w w1 ∧
         gxfp_cmd_reset_device fuel flag w1 = Some (r, w2) ∧ reset_done flag r k w1 w2 ∧ waits w2 w') w.
Proof using EO CO.
  intros Hd Hfuel flag.
  unfold gxfp_device_recovery. apply wp_bind. eapply wp_eq; [by apply (dev_null_run w fd)|].
  cbv zeta iota beta. fold (reset_flag_of reset_mcu reset_sensor). fold flag.
  apply (recovery_head fuel unstick w fd); [done..|]. intros w1 S1.
  pose proof (steps_open _ _ _ fd Hd S1) as D1.
  apply wp_bind. destruct (Z.eqb_spec flag 0) as [Hf|Hf]; cbn [negb].
  - apply wp_ret, wp_bind. eapply wp_mono; [by apply (flush_rxq_run w1 fd)|]. intros ? w2 H2.
    apply wp_ret. split; [done|]. by apply (steps_waits _ w w1 w2).
  - destruct (reset_run fuel flag w1 fd D1 Hfuel) as (r & w2 & k & Er & Hr). eapply wp_eq; [exact Er|].
    assert (D2 : dev_open w2 fd) by (apply (dev_open_extends w1); [done|apply Hr]).
    apply wp_bind. eapply wp_mono; [by apply (flush_rxq_run w2 fd)|]. intros ? w3 H3.
    apply wp_ret. by exists w1, w2, k.
Qed.

Lemma plan_reset unstick flag :
  recovery_plan unstick flag = recovery_plan unstick 0 ++
    (if flag =? 0 then [] else [(6%nat, GXFP_CMD_RESET_DEVICE, reset_payload flag)]).
Proof. unfold recovery_plan. cbn [Z.eqb]. by rewrite app_nil_r, <- !app_assoc. Qed.

Lemma recovery_run fuel unstick reset_mcu reset_sensor w fd :
  dev_open w fd → (500 * B < fuel)%nat →
  wp (gxfp_device_recovery fuel unstick reset_mcu reset_sensor)
    (λ _ w', steps (recovery_plan unstick (reset_flag_of reset_mcu reset_sensor)) w w') w.
Proof using EO CO.
  intros Hd Hf. eapply wp_mono; [by apply (recovery_parts fuel unstick reset_mcu reset_sensor w fd)|].
  intros r w'. cbv zeta. rewrite (plan_reset unstick (reset_flag_of _ _)). destruct (_ =? 0).
  - intros (_ & Hs). by rewrite app_nil_r.
  - intros (w1 & w2 & k & Hs & _ & (Hr & Hk & _ & Ho & _) & Hw).
    apply (steps_app _ _ w w1 w' Hs). exists w2. split; [|done]. exists k. split; [done|]. split; [done|]. auto.
Qed.

(** Every command of the plan is short. *)
Lemma plan_fits unstick flag : Forall (λ s, cmd_fits s.2) (recovery_plan unstick flag).
Proof.
  unfold recovery_plan. repeat apply Forall_app_2; repeat case_match; repeat constructor;
    unfold cmd_fits; cbn; rewrite ?zlen_cons, ?zlen_nil; unfold GXFP_IOCTL_TX_PAYLOAD_MAX; lia.
Qed.

Lemma plan_once unstick : Forall (λ s, s.1.1 = 1%nat) (recovery_plan unstick 0).
Proof. destruct unstick; by repeat constructor. Qed.

(** Counts within a bound of one and not zero are one. *)
Lemma counts_once ks (l : list (nat * Z * bytes)) :
  Forall2 (λ k s, (k <= s.1.1)%nat) ks l → Forall (λ s, s.1.1 = 1%nat) l → Forall (λ k, (1 <= k)%nat) ks →
  ks = (λ _, 1%nat) <$> l.
Proof using Type.
  induction 1 as [|k s ks l Hk _ IH]; [done|]. rewrite !Forall_cons. intros (Hs & Hl) (Hk1 & Hks).
  cbn. rewrite <- IH by done. f_equal. lia.
Qed.

Lemma packets_app ks1 ks2 l1 l2 :
  length ks1 = length l1 → packets (ks1 ++ ks2) (l1 ++ l2) = packets ks1 l1 ++ packets ks2 l2.
Proof using Type. intros Hl. unfold packets. by rewrite zip_with_app, concat_app by done. Qed.

(** C20: recovering a stuck sensor terminates and sends the commands of the plan in
    its order and nothing else, however the device answers: a command that fails does
    not stop the sequence. As long as memory does not run out, every command before
    the reset (all of the unsticking ones when they are asked for) is sent exactly
    once, and the reset at least once and at most six times. Without a reset the
    result is 0; with one it is the very result of [gxfp_cmd_reset_device] run after
    the other commands, success only when the reset was the last packet sent, and
    success on the first attempt on a device that acknowledges. *)
Theorem recovery_sequence fuel unstick reset_mcu reset_sensor w fd :
  dev_open w fd → (500 * B < fuel)%nat →
  let flag := reset_flag_of reset_mcu reset_sensor in
  let head := recovery_plan unstick 0 in
  ∃ r w' ks k, gxfp_device_recovery fuel unstick reset_mcu reset_sensor w = Some (r, w') ∧
    writes (l_trace w') = writes (l_trace w) ++ packets ks head ++
      replicate k (user_packet GOODIX_MP_TYPE_CMD (goodix_frame GXFP_CMD_RESET_DEVICE (reset_payload flag))) ∧
    Forall2 (λ k s, (k <= s.1.1)%nat) ks head ∧
    (l_oom w = [] → ks = (λ _, 1%nat) <$> head) ∧
    if flag =? 0 then r = 0 ∧ k = 0%nat else
      (k <= 6)%nat ∧ (l_oom w = [] → (1 <= k)%nat) ∧ (r = 0 → (1 <= k)%nat) ∧
      (∃ w1 w2, steps head w w1 ∧ gxfp_cmd_reset_device fuel flag w1 = Some (r, w2) ∧ waits w2 w') ∧
      (∀ h pl ck, acknowledges h pl ck GXFP_RECOVERY_CMD_TIMEOUT_MS → l_oom w = [] → r = 0 ∧ k = 1%nat).
Proof using EO CO.
  intros Hd Hfuel flag head.
  destruct (wp_inv _ _ _ (recovery_parts fuel unstick reset_mcu reset_sensor w fd Hd Hfuel)) as (r & w' & Er & Hres).
  fold flag in Hres. fold head in Hres.
  assert (Hhead : ∀ w1, steps head w w1 → ∃ ks, Forall2 (λ k s, (k <= s.1.1)%nat) ks head ∧
    writes (l_trace w1) = writes (l_trace w) ++ packets ks head ∧
    (l_oom w = [] → ks = (λ _, 1%nat) <$> head)).
  { intros w1 Hs. destruct (steps_writes _ _ _ Hs) as (ks & Hks & Hw & Hone). exists ks. do 2 (split; [done|]).
    intros Ho. apply (counts_once _ _ Hks (plan_once unstick)), Hone; [done|apply plan_fits]. }
  destruct (flag =? 0).
  - destruct Hres as (-> & Hs). destruct (Hhead w' Hs) as (ks & Hks & Hw & Hone).
    exists 0, w', ks, 0%nat. split; [done|]. by rewrite app_nil_r.
  - destruct Hres as (w1 & w2 & k & Hs & Er1 & (Hsent & Hk & H0 & Hall & Hack) & Hw2).
    destruct (Hhead w1 Hs) as (ks & Hks & Hw & Hone).
    assert (Ho1 : l_oom w = [] → l_oom w1 = []) by (apply extends_oom, (steps_extends _ _ _ Hs)).
    exists r, w', ks, k. split; [done|]. split.
    { by rewrite (proj2 Hw2), (proj2 Hsent), Hw, <- app_assoc. }
    split; [done|]. split; [done|]. split; [done|]. split; [auto|]. split; [done|].
    split; [by exists w1, w2|]. intros h pl ck Ha Ho. by apply (Hack h pl ck Ha), Ho1.
Qed.
End recovery.

(** On a device that acknowledges everything, each command goes out once. *)
Lemma recovery_sequence_witness :
  ∃ w', gxfp_device_recovery (E:=answer_env demo_answer) 501 true true false demo_lworld = Some (0, w') ∧
    writes (l_trace w')
    = (λ s, user_packet GOODIX_MP_TYPE_CMD (goodix_frame s.1 s.2)) <$>
      [(GXFP_CMD_NOTIFY_POWER_STATE, [1]); (GXFP_CMD_D01, [0; 0]); (GXFP_CMD_SEND_NOP, [0; 0; 0; 0]);
       (GXFP_CMD_TLS_UNLOCK, [0; 0]); (GXFP_CMD_SET_SLEEP_MODE, [0; 0]); (GXFP_CMD_RESET_DEVICE, [2; 20])].
Proof.
  destruct (recovery_sequence (EO:=answer_env_ok _ demo_answer_bytes) (CO:=answer_env_clock _)
    501 true true false demo_lworld 3) as (r & w' & ks & k & Er & Hw & _ & Hks & Hres).
  - exact demo_dev_open.
  - vm_compute. lia.
  - destruct Hres as (_ & _ & _ & _ & Hack).
    destruct (Hack demo_answer.1 [1] 9) as (-> & ->); [|reflexivity|].
    + split; [apply answer_env_answers; vm_compute; lia|]. split; [by vm_compute|].
      split; [repeat constructor; unfold is_u8; lia|]. split; [by vm_compute|].
      split; [exact (proj1 demo_answer_ok)|]. split; [exact (proj2 demo_answer_ok)|reflexivity].
    + exists w'. split; [exact Er|]. rewrite Hw, Hks by reflexivity. vm_compute. reflexivity.
Defined.

(** * Reading the stored key *)

Lemma le32_prefix t x : bytes_ok t → zlen t = 4 → gxfp_le32 (t ++ x) = Some (le_dec t).
Proof.
  intros Ht Hl. rewrite <- (le_enc_dec t 4) at 1 by (done || (unfold zlen in Hl; lia)).
  apply le32_roundtrip. pose proof (le_dec_bound t Ht). rewrite Hl in *. done.
Qed.

(** An answer to the key query: status, type, length, the field. *)
Definition psk_answer (ty : Z) (field tail : bytes) : bytes :=
  0 :: le_enc 4 ty ++ le_enc 4 (zlen field) ++ field ++ tail.

Lemma zlen_psk_answer ty field tail : zlen (psk_answer ty field tail) = 9 + zlen field + zlen tail.
Proof. unfold psk_answer. rewrite zlen_cons, !zlen_app, !zlen_le_enc. lia. Qed.

Lemma psk_answer_fields ty field tail more :
  is_u32 ty → zlen field < 2 ^ 32 →
  let p := psk_answer ty field tail ++ more in
  rd p 0 = Some 0 ∧ gxfp_le32 (zdrop 1 p) = Some ty ∧
  gxfp_le32 (zdrop 5 p) = Some (zlen field) ∧ slice p 9 (zlen field) = Some field.
Proof.
  intros Ht Hf p. unfold p, psk_answer. pose proof (zlen_nonneg field).
  set (t := le_enc 4 ty). set (n := le_enc 4 (zlen field)).
  assert (Hp : (0 :: t ++ n ++ field ++ tail) ++ more = 0 :: t ++ n ++ field ++ tail ++ more)
    by (cbn [app]; by rewrite <- !app_assoc).
  rewrite Hp. split; [done|]. split; [|split].
  - change (zdrop 1 (0 :: ?x)) with x. by apply le32_roundtrip.
  - change (0 :: t ++ ?x) with ((0 :: t) ++ x). rewrite zdrop_app by done.
    apply le32_roundtrip. unfold is_u32. lia.
  - change (0 :: t ++ n ++ ?x) with ((0 :: t) ++ n ++ x). rewrite app_assoc. by apply slice_app.
Qed.

Lemma psk_selector_total want : sel_total (preset_psk_selector want).
Proof.
  intros c pl ck rest Hpl. unfold preset_psk_selector, body_frame. cbn [payload payload_len].
  destruct (Z.ltb_spec (zlen pl) 9); [by eexists|].
  destruct pl as [|b0 pl]; [rewrite zlen_nil in *; lia|]. rewrite zlen_cons in *.
  rewrite bytes_ok_cons in Hpl. destruct Hpl as (_ & Hpl).
  cbn [app]. rewrite rd_c0. cbn [mbind option_bind].
  destruct (negb (b0 =? 0)); [by eexists|].
  change (zdrop 1 (b0 :: ?x)) with x. change (zdrop 5 (b0 :: ?x)) with (zdrop 4 x).
  assert (Hs : ∀ x, 8 <= zlen x → is_Some (gxfp_le32 (x ++ ck :: rest)) ∧
                               is_Some (gxfp_le32 (zdrop 4 (x ++ ck :: rest)))).
  { intros x Hx. destruct x as [|x0 [|x1 [|x2 [|x3 [|x4 [|x5 [|x6 [|x7 x]]]]]]]]; zlens; try lia.
    split; by eexists. }
  destruct (Hs pl) as ((ty & ->) & (n & ->)); [lia|]. cbn [mbind option_bind].
  destruct (_ <? n); [by eexists|]. destruct (_ && _); by eexists.
Qed.


Lemma psk_finish_total ty d cap c pl ck more :
  bytes_ok pl → zlen pl < 65535 → zlen d = cap →
  ∃ r d' n, psk_finish ty d cap (body_frame c pl ck more) = Some (r, Some d', Some n) ∧
    (r ≠ 0 → d' = d ∧ n = 0) ∧
    (r = 0 → ∃ field tail, pl = psk_answer ty field tail ∧ zlen field = n ∧ n <= cap ∧
       d' = field ++ zdrop n d).
Proof.
  intros Hb Hl Hd. unfold psk_finish. cbn [payload payload_len body_frame].
  destruct (Z.ltb_spec (zlen pl) 9); [by eexists _, _, _|].
  destruct pl as [|b0 pl]; [rewrite zlen_nil in *; lia|]. rewrite zlen_cons in *.
  rewrite bytes_ok_cons in Hb. destruct Hb as (_ & Hb).
  destruct (split3 pl 4 4) as (t & nn & rest & -> & Ht & Hn); [lia..|].
  rewrite !bytes_ok_app in Hb. destruct Hb as (Hbt & Hbn & _). rewrite !zlen_app in Hl.
  cbn [app]. rewrite rd_c0. cbn [mbind option_bind].
  destruct (Z.eqb_spec b0 0) as [->|]; cbn [negb]; [|by eexists _, _, _].
  change (zdrop 1 (0 :: ?x)) with x. rewrite <- !app_assoc.
  rewrite (le32_prefix t) by done. cbn [mbind option_bind].
  destruct (Z.eqb_spec (le_dec t) ty) as [Hty|]; cbn [negb]; [|by eexists _, _, _].
  replace (zdrop 5 (0 :: t ++ nn ++ rest ++ ck :: more)) with (nn ++ rest ++ ck :: more).
  2: { change (0 :: t ++ ?x) with ((0 :: t) ++ x). symmetry. apply zdrop_app. rewrite zlen_cons. lia. }
  pose proof (le_dec_bound nn Hbn) as Hnb. rewrite Hn in Hnb. change (256 ^ 4) with (2 ^ 32) in Hnb.
  rewrite (le32_prefix nn) by done. cbn [mbind option_bind]. set (n := le_dec nn) in *.
  pose proof (zlen_nonneg rest). rewrite !zlen_app, Ht, Hn.
  replace (u32 (1 + (4 + (4 + zlen rest)) - 9)) with (zlen rest) by zint.
  destruct (Z.ltb_spec (zlen rest) n); [by eexists _, _, _|].
  destruct (Z.ltb_spec cap n); [by eexists _, _, _|].
  destruct (split3 rest 0 n) as (p0 & field & tail & -> & Hp0 & Hf); [lia..|].
  apply zlen_0 in Hp0. subst p0. cbn [app].
  unfold memcpy. replace (0 :: t ++ nn ++ (field ++ tail) ++ ck :: more)
    with ((0 :: t ++ nn) ++ field ++ tail ++ ck :: more)
    by (cbn [app]; by rewrite <- !app_assoc).
  rewrite slice_app by (rewrite ?zlen_cons, ?zlen_app; lia). cbn [mbind option_bind].
  rewrite blit_Some by lia. cbn [mbind option_bind]. change (ztake 0 d) with (@nil Z). cbn [app].
  rewrite Hf, Z.add_0_l. eexists _, _, _. split; [done|]. split; [done|]. intros _.
  exists field, tail. split_and!; [|done|done|done].
  unfold psk_answer. rewrite Hf. f_equal. rewrite <- Hty.
  rewrite (le_enc_dec t 4) by (done || (unfold zlen in Ht; lia)).
  unfold n. by rewrite (le_enc_dec nn 4) by (done || (unfold zlen in Hn; lia)).
Qed.

Lemma psk_finish_answer ty d cap c field tail ck more :
  is_u32 ty → zlen field < 65000 → zlen field + zlen tail < 65000 → zlen d = cap → zlen field <= cap →
  psk_finish ty d cap (body_frame c (psk_answer ty field tail) ck more)
  = Some (0, Some (field ++ zdrop (zlen field) d), Some (zlen field)).
Proof.
  intros Ht Hf Hft Hd Hcap. pose proof (zlen_nonneg field). pose proof (zlen_nonneg tail).
  destruct (psk_answer_fields ty field tail (ck :: more) Ht ltac:(lia)) as (F0 & F1 & F5 & F9).
  unfold psk_finish. cbn [payload payload_len body_frame].
  rewrite zlen_psk_answer, (proj2 (Z.ltb_ge _ 9)) by lia.
  rewrite F0. cbn [mbind option_bind Z.eqb negb]. rewrite F1. cbn [mbind option_bind].
  rewrite Z.eqb_refl. cbn [negb]. rewrite F5. cbn [mbind option_bind].
  replace (u32 (9 + zlen field + zlen tail - 9)) with (zlen field + zlen tail) by zint.
  rewrite !(proj2 (Z.ltb_ge _ (zlen field))) by lia.
  unfold memcpy. rewrite F9. cbn [mbind option_bind]. rewrite blit_Some by lia. cbn [mbind option_bind].
  change (ztake 0 d) with (@nil Z). cbn [app]. by rewrite Z.add_0_l.
Qed.

Lemma psk_selector_takes ty field tail c ck more :
  is_u32 ty → zlen field + zlen tail < 65000 →
  preset_psk_selector ty (body_frame c (psk_answer ty field tail) ck more) = Some 1.
Proof.
  intros Ht Hft. pose proof (zlen_nonneg field). pose proof (zlen_nonneg tail).
  destruct (psk_answer_fields ty field tail (ck :: more) Ht ltac:(lia)) as (F0 & F1 & F5 & _).
  unfold preset_psk_selector. cbn [payload payload_len body_frame].
  rewrite zlen_psk_answer, (proj2 (Z.ltb_ge _ 9)) by lia.
  rewrite F0. cbn [mbind option_bind Z.eqb negb]. rewrite F1. cbn [mbind option_bind].
  rewrite F5. cbn [mbind option_bind].
  replace (u32 (9 + zlen field + zlen tail - 9)) with (zlen field + zlen tail) by zint.
  rewrite (proj2 (Z.ltb_ge _ (zlen field))) by lia. rewrite Z.eqb_refl. cbn [negb].
  by rewrite andb_false_r.
Qed.

Section psk_read.
Context {E : Uenv} {EO : UenvOk E} {B : nat} {CO : UclockOk E B}.

(** Reading the stored key, on any device: the call returns, asks for the
    data type at most four times, and on failure leaves the caller's buffer alone
    and reports length 0; on success the buffer starts with the field of an answer
    of the type asked for, whose length is reported and fits. On a device that
    shows such an answer the call succeeds with exactly its field. *)
Theorem psk_read_exact fuel ty d n0 w fd :
  dev_open w fd → 0 < zlen d → is_u32 ty → (2000 * B < fuel)%nat →
  (∃ r d' n w', gxfp_cmd_preset_psk_read fuel ty (Some d) (zlen d) (Some n0) w
      = Some ((r, Some d', Some n), w') ∧
    sent_upto 4 GXFP_CMD_PRESET_PSK_READ (le_enc 4 ty ++ zeros 4) w w' ∧
    (r ≠ 0 → d' = d ∧ n = 0) ∧
    (r = 0 → ∃ pl field tail, pl = psk_answer ty field tail ∧ bytes_ok pl ∧ zlen field = n ∧
       n <= zlen d ∧ d' = field ++ zdrop n d)) ∧
  (∀ h field tail ck,
    answers_with E (body_record h GXFP_CMD_PRESET_PSK_READ (psk_answer ty field tail) ck) 2000 →
    rec_ok (body_record h GXFP_CMD_PRESET_PSK_READ (psk_answer ty field tail) ck) → hdr_ok h →
    th_type h = GOODIX_MP_TYPE_CMD → bytes_ok field → bytes_ok tail →
    zlen field + zlen tail < 65000 → zlen field <= zlen d → l_oom w = [] →
    ∃ w', gxfp_cmd_preset_psk_read fuel ty (Some d) (zlen d) (Some n0) w
    = Some ((0, Some (field ++ zdrop (zlen field) d), Some (zlen field)), w')).
Proof using EO CO.
  intros Hd Hcap Hty Hfuel. unfold gxfp_cmd_preset_psk_read.
  rewrite (run_bind _ _ _ _ _ (dev_null_run w fd Hd)). cbv iota.
  rewrite (proj2 (Z.eqb_neq (zlen d) 0)) by lia. cbn [orb].
  change (zeros 8) with [0; 0; 0; 0; 0; 0; 0; 0]. rewrite le32enc_run, bind_lift.
  change [0; 0; 0; 0] with (zeros 4). set (req := le_enc 4 ty ++ zeros 4).
  assert (Hreq : zlen req = 8) by done. unfold u_stack. rewrite bind_gets.
  set (rx := u_uninit (l_trace w) GXFP_IOCTL_TAP_PAYLOAD_MAX).
  assert (Hrx : zlen rx = GXFP_IOCTL_TAP_PAYLOAD_MAX) by apply tap_buf_len. split.
  - pose proof (request_reply fuel GXFP_CMD_PRESET_PSK_READ GXFP_CMD_PRESET_PSK_READ req []
      rx _ 4 2000 (Some (preset_psk_selector ty)) w fd Hd Hrx tap_max (psk_selector_total ty)
      ltac:(done) ltac:(done) ltac:(done) Hfuel) as H.
    rewrite app_nil_r in H. apply wp_inv in H as (((r & b) & n) & w' & Er & k & Hk & Hs & H & Hall).
    change 8 with (zlen req). rewrite (run_bind _ _ _ _ _ Er). cbn [fst snd] in H.
    assert (Hup : sent_upto 4 GXFP_CMD_PRESET_PSK_READ req w w') by (by exists k).
    destruct (Z.eqb_spec r 0) as [->|Hr]; cbn [negb].
    2: { eexists _, _, _, _. split; [done|]. split; [done|]. done. }
    destruct (H eq_refl) as (_ & p & ck & more & more' & s & Ep & Hb & Hl & Hfit & _).
    rewrite (run_bind _ _ _ _ _ Ep). cbn [negb orb valid body_frame cmd]. rewrite Z.eqb_refl.
    cbn [negb]. fold (body_frame GXFP_CMD_PRESET_PSK_READ p ck more).
    destruct (psk_finish_total ty d (zlen d) GXFP_CMD_PRESET_PSK_READ p ck more Hb Hl eq_refl)
      as (r & d' & m & Ef & H1 & H2).
    eexists r, d', m, w'. split; [by rewrite Ef|]. split; [done|].
    split; [done|]. intros Hr. destruct (H2 Hr) as (field & tail & -> & ? & ? & ?).
    by exists (psk_answer ty field tail), field, tail.
  - intros h field tail ck Ha Hrec Hh Hth Hbf Hbt Hft Hfc Ho.
    pose proof (zlen_nonneg field). pose proof (zlen_nonneg tail).
    assert (Hpb : bytes_ok (psk_answer ty field tail)).
    { unfold psk_answer. rewrite bytes_ok_cons, !bytes_ok_app. split; [done|].
      split_and!; auto with gxfp. }
    destruct fuel as [|fuel]; [lia|].
    destruct (request_answered_run fuel h GXFP_CMD_PRESET_PSK_READ GXFP_CMD_PRESET_PSK_READ req []
      (psk_answer ty field tail) ck rx (Some 0) 4 2000 (Some (preset_psk_selector ty)) w fd)
      as (w' & Er & _); try done.
    { rewrite zlen_psk_answer. lia. }
    { rewrite zlen_psk_answer, Hrx. unfold GXFP_IOCTL_TAP_PAYLOAD_MAX. lia. }
    { intros more. exists 1. split; [|done]. cbn [default]. by apply psk_selector_takes. }
    rewrite app_nil_r, Hrx in Er. change 8 with (zlen req).
    rewrite (run_bind _ _ _ _ _ Er). cbn [Z.eqb negb]. unfold parse_reply.
    change (setp (Some 0) ?v) with (Some v). rewrite bind_assoc, bind_lift.
    rewrite user_parse_body by (rewrite ?zlen_psk_answer; done || lia).
    rewrite bind_assoc, bind_lift, bind_assoc, bind_lift, bind_ret.
    cbn [negb orb valid body_frame cmd]. rewrite Z.eqb_refl. cbn [negb].
    fold (body_frame GXFP_CMD_PRESET_PSK_READ (psk_answer ty field tail) ck
            (zdrop (zlen (psk_answer ty field tail) + 4) rx)).
    pose proof (psk_finish_answer ty d (zlen d) GXFP_CMD_PRESET_PSK_READ field tail ck
      (zdrop (zlen (psk_answer ty field tail) + 4) rx) Hty ltac:(lia) Hft eq_refl Hfc) as Ef.
    rewrite Ef. by exists w'.
Qed.
End psk_read.

Definition demo_psk_body : bytes := psk_answer 3137404930 [7; 8] [].
Definition demo_psk : record :=
  body_record (hdr_of 5 160 (goodix_body 228 demo_psk_body 0)) 228 demo_psk_body 0.

Lemma demo_psk_bytes : bytes_ok (rec_bytes demo_psk).
Proof. vm_compute. repeat constructor; discriminate. Qed.

Lemma psk_read_exact_witness :
  ∃ w', gxfp_cmd_preset_psk_read (E:=answer_env demo_psk) 2001 3137404930 (Some (zeros 4)) 4 (Some 9)
    demo_lworld = Some ((0, Some [7; 8; 0; 0], Some 2), w').
Proof.
  destruct (psk_read_exact (EO:=answer_env_ok _ demo_psk_bytes) (CO:=answer_env_clock _)
    2001 3137404930 (zeros 4) 9 demo_lworld 3) as (_ & H).
  - exact demo_dev_open.
  - vm_compute. reflexivity.
  - vm_compute. split; [discriminate|reflexivity].
  - apply Nat.ltb_lt. vm_compute. reflexivity.
  - apply (H demo_psk.1 [7; 8] [] 0).
    + apply answer_env_answers. apply Nat.leb_le. vm_compute. reflexivity.
    + vm_compute. repeat split; discriminate.
    + vm_compute. repeat split; discriminate.
    + reflexivity.
    + repeat constructor; unfold is_u8; lia.
    + constructor.
    + vm_compute. reflexivity.
    + vm_compute. discriminate.
    + reflexivity.
Defined.

(** * Decoding the state of the sensor *)

Lemma mcu_parse_run b n out :
  bytes_ok b → 20 <= n <= zlen b →
  ∃ b0 b1 b2 r3 b9 r10 b15 r16 rest,
    b = b0 :: b1 :: b2 :: r3 ++ b9 :: r10 ++ b15 :: r16 ++ rest ∧
    zlen r3 = 6 ∧ zlen r10 = 5 ∧ zlen r16 = 4 ∧
    gxfp_mcu_state_parse (Some b) n (Some out)
    = Some (0, Some {|
        version := b0; b1_raw := b1;
        is_pov_image_valid := Z.land (Z.shiftr b1 0) 1;
        is_tls_connected := Z.land (Z.shiftr b1 1) 1;
        is_locked := Z.land (Z.shiftr b1 3) 1;
        avail_img_cnt := Z.land b2 15; pov_img_cnt := Z.land (Z.shiftr b2 4) 15;
        raw_3_8 := r3; ec_falling_count := b9;
        flags9_pba := Z.land (Z.shiftr b9 4) 1;
        flags9_tls_session := Z.land (Z.shiftr b9 5) 1;
        flags9_bit6 := Z.land (Z.shiftr b9 6) 1;
        raw_10_14 := r10; config_down_flag := b15; raw_16_19 := r16 |}).
Proof.
  intros Hb Hn. unfold gxfp_mcu_state_parse, GXFP_MCU_STATE_LEN.
  rewrite (proj2 (Z.ltb_ge n 20)) by lia.
  destruct b as [|b0 [|b1 [|b2 b]]]; zlens; try lia.
  destruct (split3 b 0 6) as (p & r3 & q & -> & Hp & H3); [lia..|]. apply zlen_0 in Hp; subst p.
  cbn [app] in *. rewrite zlen_app in Hn.
  destruct q as [|b9 q]; [rewrite zlen_nil in *; lia|]. rewrite zlen_cons in Hn.
  destruct (split3 q 0 5) as (p' & r10 & q' & -> & Hp' & H10); [lia..|]. apply zlen_0 in Hp'; subst p'.
  cbn [app] in *. rewrite zlen_app in Hn.
  destruct q' as [|b15 q']; [rewrite zlen_nil in *; lia|]. rewrite zlen_cons in Hn.
  destruct (split3 q' 0 4) as (p'' & r16 & rest & -> & Hp'' & H16); [lia..|].
  apply zlen_0 in Hp''; subst p''. cbn [app] in *.
  exists b0, b1, b2, r3, b9, r10, b15, r16, rest. split; [done|]. split; [done|]. split; [done|].
  split; [done|]. set (b := b0 :: _).
  assert (S3 : slice b 3 6 = Some r3) by (by apply (slice_app [b0; b1; b2])).
  assert (E9 : b = (b0 :: b1 :: b2 :: r3) ++ b9 :: r10 ++ b15 :: r16 ++ rest) by done.
  assert (S10 : slice b 10 5 = Some r10).
  { unfold b. change (b0 :: b1 :: b2 :: r3 ++ b9 :: ?x) with ((b0 :: b1 :: b2 :: r3) ++ [b9] ++ x).
    rewrite app_assoc. apply slice_app; [rewrite zlen_app, !zlen_cons; change (zlen (A:=Z) []) with 0; lia|done]. }
  assert (R9 : rd b 9 = Some b9) by (rewrite E9; apply rd_middle; rewrite !zlen_cons; lia).
  assert (E15 : b = ((b0 :: b1 :: b2 :: r3) ++ b9 :: r10) ++ b15 :: r16 ++ rest)
    by (rewrite <- app_assoc; done).
  assert (R15 : rd b 15 = Some b15)
    by (rewrite E15; apply rd_middle; rewrite !zlen_app, !zlen_cons; lia).
  assert (S16 : slice b 16 4 = Some r16).
  { rewrite E15. change (b15 :: r16 ++ rest) with ([b15] ++ r16 ++ rest). rewrite app_assoc.
    apply slice_app; [rewrite !zlen_app, !zlen_cons; change (zlen (A:=Z) []) with 0; lia|done]. }
  change (rd b 0) with (Some b0). change (rd b 1) with (Some b1). change (rd b 2) with (Some b2).
  cbn [mbind option_bind]. unfold memcpy. rewrite S3, R9, S10, R15, S16. cbn [mbind option_bind].
  rewrite !blit_Some by (rewrite ?H3, ?H10, ?H16; done). cbn [mbind option_bind].
  rewrite H3, H10, H16. change (zdrop (0 + 6) (zeros 6)) with (@nil Z).
  change (zdrop (0 + 5) (zeros 5)) with (@nil Z). change (zdrop (0 + 4) (zeros 4)) with (@nil Z).
  by rewrite !app_nil_r.
Qed.
