(* ===== verification/UAgree.v ===== *)
(** The driver and the library decode the sensor's state report alike:
    [kernel/cmd/gxfp_cmd_mcu_state.c] and [userspace/src/cmd/mcu_state_cmd.c]. *)
From Stdlib Require Import ZArith Lia.
From stdpp Require Import prelude list.
From S2P Require Import Prelude KCmd UCmds.

Open Scope Z_scope.

(** [agree k u]: the two decodings name the same bits; the bytes the driver keeps
    as reserved are those the library decodes further. *)
Definition agree (k : KCmd.gxfp_mcu_state) (u : UCmds.gxfp_mcu_state) : Prop :=
  KCmd.version k = UCmds.version u ∧ KCmd.b1_raw k = UCmds.b1_raw u ∧
  KCmd.is_pov_image_valid k = UCmds.is_pov_image_valid u ∧
  KCmd.is_tls_connected k = UCmds.is_tls_connected u ∧
  KCmd.is_locked k = UCmds.is_locked u ∧
  ∃ b2, avail_img_cnt u = b2 mod 16 ∧ pov_img_cnt u = b2 / 16 ∧
    KCmd.reserved k = b2 :: raw_3_8 u ++ ec_falling_count u :: raw_10_14 u ++
                      config_down_flag u :: raw_16_19 u.

(** On every report the driver's and the library's decoders return the same
    code, and when they succeed they agree on every field. *)
Theorem mcu_states_agree b n ko uo :
  bytes_ok b → 0 <= n <= zlen b →
  ∃ r k u, gxfp_cmd_parse_mcu_state_payload (Some b) n (Some ko) = Some (r, Some k) ∧
    gxfp_mcu_state_parse (Some b) n (Some uo) = Some (r, Some u) ∧
    (r = 0 ↔ 20 <= n) ∧ (r = 0 → agree k u).
Proof.
  intros Hb Hn. destruct (Z.lt_ge_cases n 20) as [Hlt|Hge].
  { unfold gxfp_cmd_parse_mcu_state_payload, gxfp_mcu_state_parse,
      KCmd.GXFP_MCU_STATE_LEN, UCmds.GXFP_MCU_STATE_LEN.
    rewrite (proj2 (Z.ltb_lt n 20)) by done. eexists _, _, _. unfold EBADMSG.
    split; [done|]. split; [done|]. split; [lia|done]. }
  destruct (mcu_parse_run b n uo Hb) as (b0 & b1 & b2 & r3 & b9 & r10 & b15 & r16 & rest & Eb &
    H3 & H10 & H16 & Eu); [lia|].
  set (res := b2 :: r3 ++ b9 :: r10 ++ b15 :: r16).
  assert (Hres : zlen res = 18) by (unfold res; rewrite !zlen_cons, !zlen_app, !zlen_cons, zlen_app, zlen_cons; lia).
  assert (Eb' : b = b0 :: b1 :: res ++ rest)
    by (rewrite Eb; unfold res; cbn [app]; do 3 f_equal; rewrite <- app_assoc; cbn [app];
        do 2 f_equal; rewrite <- app_assoc; done).
  assert (Hl : n <= 20 + zlen rest).
  { rewrite Eb', !zlen_cons, zlen_app in Hn. lia. }
  assert (Ek : gxfp_cmd_parse_mcu_state_payload (Some b) n (Some ko)
               = Some (0, Some (mcu_state_of b0 b1 res))).
  { rewrite Eb', parse_mcu_state_run by done. by rewrite (proj2 (Z.ltb_ge n 20)) by lia. }
  eexists 0, _, _. split; [exact Ek|]. split; [exact Eu|]. split; [lia|]. intros _.
  assert (Hb2 : is_u8 b2) by (rewrite Eb in Hb; rewrite !bytes_ok_cons in Hb; apply Hb).
  unfold agree, mcu_state_of. rewrite <- !state_bit by lia. cbn -[Z.land Z.shiftr u8].
  assert (Hbit : ∀ k, u8 (Z.land (Z.shiftr b1 k) 1) = Z.land (Z.shiftr b1 k) 1).
  { intros k. change 1 with (Z.ones 1). rewrite Z.land_ones by lia. zint. }
  rewrite !Hbit. do 5 (split; [done|]). exists b2. split; [apply land_15|].
  split; [|done]. rewrite land_15, shiftr_div by lia. unfold is_u8 in Hb2. zdm.
Qed.

Lemma mcu_states_agree_witness :
  ∃ r k u, gxfp_cmd_parse_mcu_state_payload (Some (zeros 20)) 20 (Some KCmd.mcu_state_zero)
      = Some (r, Some k) ∧
    gxfp_mcu_state_parse (Some (zeros 20)) 20 (Some UCmds.mcu_state_zero) = Some (r, Some u) ∧
    agree k u.
Proof.
  destruct (mcu_states_agree (zeros 20) 20 KCmd.mcu_state_zero UCmds.mcu_state_zero)
    as (r & k & u & Ek & Eu & Hr & Ha).
  - apply bytes_ok_zeros.
  - vm_compute. split; discriminate.
  - exists r, k, u. split; [exact Ek|]. split; [exact Eu|]. apply Ha, Hr. lia.
Defined.
