(* ===== verification/UDecoder.v ===== *)
(** The image decoder: [userspace/src/algo/image/decoder.c]. The sensor packs two
    12-bit samples in three bytes, column by column; the decoder makes an array of
    16-bit pixels, row by row. *)
From Stdlib Require Import ZArith Lia.
From stdpp Require Import prelude list.
From S2P Require Import Prelude UWorld UCommon.

Open Scope Z_scope.

(** [enum gxfp_decode_mode] *)
Inductive gxfp_decode_mode :=
| GXFP_DECODE_AUTO
| GXFP_DECODE_MILANG_RAW
| GXFP_DECODE_MILANG_NAV
| GXFP_DECODE_CHICAGOH_RAW
| GXFP_DECODE_CHICAGOH_NAV
| GXFP_DECODE_CHICAGOH_RAW_U16LE
| GXFP_DECODE_CHICAGOH_NAV_U16LE.
#[export] Instance gxfp_decode_mode_eq_dec : EqDecision gxfp_decode_mode.
Proof. solve_decision. Defined.

(** An array of [uint16_t] is the list of its elements. *)
Record gxfp_decoded_image := {
  pixels : ptr (list Z);
  rows : Z;
  cols : Z
}.

Record gxfp_decode_auto_result := {
  res_mode : gxfp_decode_mode;
  res_payload : bytes;
  res_payload_len : Z
}.

(** An [int] computation: overflow is undefined. *)
Definition ck_int (x : Z) : option Z :=
  if (- 2 ^ 31 <=? x) && (x <? 2 ^ 31) then Some x else None.

Definition unpack_sample4 (b0 b1 b2 b3 b4 b5 : Z) : Z * Z * Z * Z :=
  (u16 (Z.lor (Z.shiftl (Z.land b0 15) 8) b1),
   u16 (Z.lor (Z.shiftl b3 4) (Z.shiftr b0 4)),
   u16 (Z.lor (Z.shiftl (Z.land b5 15) 8) b2),
   u16 (Z.lor (Z.shiftl b4 4) (Z.shiftr b5 4))).

(** The columns without their padding. *)
Definition milan_copy (payload pu : bytes) (cols stride take_per_block : Z) : option bytes :=
  forN (Z.to_nat cols) 0 (λ c pu,
    src ← ck_int (c * stride);
    dst ← ck_int (c * take_per_block);
    memcpy pu dst payload src take_per_block) pu.

(** The unpacking loop; the result is [out_i] and the samples. *)
Fixpoint milan_unpack (fuel : nat) (pu : bytes) (pu_len rows total : Z)
    (out_i in_i : Z) (col_major : list Z) : option (Z * list Z) :=
  match fuel with
  | O => None
  | S fuel =>
    if negb ((in_i <? pu_len) && (out_i <? total)) then Some (out_i, col_major) else
    if Z.rem out_i rows =? rows - 2 then
      if pu_len <? in_i + 4 then Some (out_i, col_major) else
      b0 ← rd pu in_i;
      b1 ← rd pu (in_i + 1);
      b3 ← rd pu (in_i + 3);
      cm ← wr col_major out_i (u16 (Z.lor (Z.shiftl (Z.land b0 15) 8) b1));
      cm ← wr cm (out_i + 1) (u16 (Z.lor (Z.shiftl b3 4) (Z.shiftr b0 4)));
      milan_unpack fuel pu pu_len rows total (out_i + 2) (in_i + 4) cm
    else
      if pu_len <? in_i + 6 then Some (out_i, col_major) else
      b0 ← rd pu in_i;
      b1 ← rd pu (in_i + 1);
      b2 ← rd pu (in_i + 2);
      b3 ← rd pu (in_i + 3);
      b4 ← rd pu (in_i + 4);
      b5 ← rd pu (in_i + 5);
      let '(s0, s1, s2, s3) := unpack_sample4 b0 b1 b2 b3 b4 b5 in
      cm ← wr col_major out_i s0;
      cm ← wr cm (out_i + 1) s1;
      cm ← wr cm (out_i + 2) s2;
      cm ← wr cm (out_i + 3) s3;
      milan_unpack fuel pu pu_len rows total (out_i + 4) (in_i + 6) cm
  end.

(** From columns to rows. *)
Definition milan_transpose (col_major row_major : list Z) (rows cols : Z) : option (list Z) :=
  snd <$> forN (Z.to_nat rows) 0 (λ r acc,
    forN (Z.to_nat cols) 0 (λ c '(idx, rm),
      v ← rd col_major (c * rows + r);
      rm ← wr rm idx v;
      Some (idx + 1, rm)) acc) (0, row_major).

(** The sample of the packed format number [off] of a block. *)
Definition sample_of (s : Z * Z * Z * Z) (off : Z) : Z :=
  let '(s0, s1, s2, s3) := s in
  if off =? 0 then s0 else if off =? 1 then s1 else if off =? 2 then s2 else s3.

(** The inner loop of the packed format: where a block's samples go. *)
Definition chicago_store (rows cols total : Z) (transpose : bool) (out_idx : Z)
    (s : Z * Z * Z * Z) (out_pixels : list Z) : option (list Z) :=
  forN 4 0 (λ off px,
    let i := out_idx + off in
    if transpose then
      let dst := Z.rem i rows * cols + Z.quot i rows in
      if dst <? total then wr px dst (sample_of s off) else Some px
    else
      if i <? total then wr px i (sample_of s off) else Some px) out_pixels.

(** [for (; in_off + 6 <= payload_len; in_off += 6)] *)
Fixpoint chicago_unpack (fuel : nat) (payload : bytes) (payload_len rows cols total : Z)
    (transpose : bool) (in_off out_idx : Z) (out_pixels : list Z) : option (Z * list Z) :=
  match fuel with
  | O => None
  | S fuel =>
    stop ← ck_int (in_off + 6);
    if negb (stop <=? payload_len) then Some (out_idx, out_pixels) else
    b0 ← rd payload in_off;
    b1 ← rd payload (in_off + 1);
    b2 ← rd payload (in_off + 2);
    b3 ← rd payload (in_off + 3);
    b4 ← rd payload (in_off + 4);
    b5 ← rd payload (in_off + 5);
    px ← chicago_store rows cols total transpose out_idx (unpack_sample4 b0 b1 b2 b3 b4 b5)
           out_pixels;
    chicago_unpack fuel payload payload_len rows cols total transpose (in_off + 6) (out_idx + 4) px
  end.

Definition u16le_fill (payload : bytes) (total : Z) (px : list Z) : option (list Z) :=
  forN (Z.to_nat total) 0 (λ i px,
    hi ← rd payload (i * 2 + 1);
    lo ← rd payload (i * 2);
    wr px i (u16 (Z.lor (Z.shiftl hi 8) lo))) px.

Definition modes_table : list (gxfp_decode_mode * Z) :=
  [(GXFP_DECODE_MILANG_RAW, 14784); (* 0x39C0 *)
   (GXFP_DECODE_MILANG_NAV, 1344); (* 0x0540 *)
   (GXFP_DECODE_CHICAGOH_RAW, 7680); (* 0x1E00 *)
   (GXFP_DECODE_CHICAGOH_NAV, 2400); (* 0x0960 *)
   (GXFP_DECODE_CHICAGOH_RAW_U16LE, 10240); (* 0x2800 *)
   (GXFP_DECODE_CHICAGOH_NAV_U16LE, 3200)]. (* 0x0C80 *)

Fixpoint auto_detect_loop (modes : list (gxfp_decode_mode * Z)) (buf : bytes) (len : Z)
    : option gxfp_decode_auto_result :=
  match modes with
  | [] => None
  | (mode, pl) :: modes =>
    if len =? pl then Some {| res_mode := mode; res_payload := buf; res_payload_len := len |} else
    if len =? pl + 4 then Some {| res_mode := mode; res_payload := buf; res_payload_len := pl |} else
    if len =? 5 + pl
    then Some {| res_mode := mode; res_payload := zdrop 5 buf; res_payload_len := pl |} else
    if len =? 5 + pl + 4
    then Some {| res_mode := mode; res_payload := zdrop 5 buf; res_payload_len := pl |} else
    auto_detect_loop modes buf len
  end.

Definition gxfp_decode_auto_detect (buf : ptr bytes) (len : Z) (res : ptr gxfp_decode_auto_result)
    : Z * ptr gxfp_decode_auto_result :=
  match buf, res with
  | Some b, Some _ =>
    match auto_detect_loop modes_table b len with
    | Some r => (0, Some r)
    | None => (- ENOENT, res)
    end
  | _, _ => (- EINVAL, res)
  end.

Definition gxfp_decoded_image_free (img : ptr gxfp_decoded_image) : ptr gxfp_decoded_image :=
  setp img {| pixels := None; rows := 0; cols := 0 |}.

Section decoder.
Context {E : Uenv}.

Definition gxfp_decode_milan (payload : ptr bytes) (payload_len : Z) (rows cols : Z)
    (out : ptr gxfp_decoded_image) : M lworld (Z * ptr gxfp_decoded_image) :=
  match payload, out with
  | Some p, Some _ =>
    if (rows <=? 0) || (cols <=? 0) then mret (- EINVAL, out) else
    s ← lift (ck_int ((rows + 2) * 3));
    t ← lift (ck_int (rows * 3));
    let stride := s / 2 in
    let take_per_block := t / 2 + 1 in
    let need := u64 (stride * cols) in
    if payload_len <? need then mret (- EINVAL, out) else
    let pu_len := u64 (take_per_block * cols) in
    pu ← umalloc pu_len;
    match pu with
    | None => mret (- ENOMEM, out)
    | Some pu =>
      pu ← lift (milan_copy p pu cols stride take_per_block);
      total ← lift (ck_int (rows * cols));
      cm ← umalloc total;
      match cm with
      | None => mret (- ENOMEM, out)
      | Some _ =>
        '(out_i, cm) ← lift (milan_unpack (Z.to_nat total + 1) pu pu_len rows total 0 0 (zeros total));
        if negb (out_i =? total) then mret (- EIO, out) else
        rm ← umalloc total;
        match rm with
        | None => mret (- ENOMEM, out)
        | Some rm =>
          rm ← lift (milan_transpose cm rm rows cols);
          mret (0, Some {| pixels := Some rm; rows := rows; cols := cols |})
        end
      end
    end
  | _, _ => mret (- EINVAL, out)
  end.

Definition gxfp_decode_chicago (payload : ptr bytes) (payload_len : Z) (rows cols : Z)
    (is_u16le : bool) (out : ptr gxfp_decoded_image) : M lworld (Z * ptr gxfp_decoded_image) :=
  match payload, out with
  | Some p, Some _ =>
    if (rows <=? 0) || (cols <=? 0) then mret (- EINVAL, out) else
    total ← lift (ck_int (rows * cols));
    if is_u16le then
      let need := total * 2 in
      if payload_len <? need then mret (- EINVAL, out) else
      px ← umalloc total;
      match px with
      | None => mret (- ENOMEM, out)
      | Some px =>
        px ← lift (u16le_fill p total px);
        mret (0, Some {| pixels := Some px; rows := rows; cols := cols |})
      end
    else
      if payload_len <? 6 then mret (- EINVAL, out) else
      px ← umalloc total;
      match px with
      | None => mret (- ENOMEM, out)
      | Some _ =>
        let transpose := negb (payload_len =? 2400) in
        '(out_idx, px) ← lift (chicago_unpack (Z.to_nat payload_len + 1) p (s32 payload_len)
                                 rows cols total transpose 0 0 (zeros total));
        if negb (out_idx =? total) then mret (- EIO, out) else
        mret (0, Some {| pixels := Some px; rows := rows; cols := cols |})
      end
  | _, _ => mret (- EINVAL, out)
  end.

(** A mode other than AUTO. *)
Definition decode_mode (buf : ptr bytes) (len : Z) (mode : gxfp_decode_mode)
    (out : ptr gxfp_decoded_image) : M lworld (Z * ptr gxfp_decoded_image) :=
  match mode with
  | GXFP_DECODE_MILANG_RAW => gxfp_decode_milan buf len 54 176 out
  | GXFP_DECODE_MILANG_NAV => gxfp_decode_milan buf len 54 16 out
  | GXFP_DECODE_CHICAGOH_RAW => gxfp_decode_chicago buf len 64 80 false out
  | GXFP_DECODE_CHICAGOH_NAV => gxfp_decode_chicago buf len 64 25 false out
  | GXFP_DECODE_CHICAGOH_RAW_U16LE => gxfp_decode_chicago buf len 64 80 true out
  | GXFP_DECODE_CHICAGOH_NAV_U16LE => gxfp_decode_chicago buf len 64 25 true out
  | GXFP_DECODE_AUTO => ub
  end.

(** The recursive call of the AUTO case never meets AUTO again. *)
Definition gxfp_decode_image (buf : ptr bytes) (len : Z) (mode : gxfp_decode_mode)
    (out : ptr gxfp_decoded_image) : M lworld (Z * ptr gxfp_decoded_image) :=
  match buf, out with
  | Some b, Some _ =>
    match mode with
    | GXFP_DECODE_AUTO =>
      let '(r, res) := gxfp_decode_auto_detect buf len
        (Some {| res_mode := GXFP_DECODE_AUTO; res_payload := []; res_payload_len := 0 |}) in
      if r <? 0 then mret (r, out) else
      res ← lift res;
      decode_mode (Some (res_payload res)) (res_payload_len res) (res_mode res) out
    | _ => decode_mode buf len mode out
    end
  | _, _ => mret (- EINVAL, out)
  end.
End decoder.

(** * The samples of a packed column *)

(** The sample number [r] of a column of packed bytes: blocks of six bytes hold
    four samples; the last two samples of a column only use four bytes. *)
Definition packed_sample (b : bytes) (r : nat) : Z :=
  let at_ i := default 0 (b !! (6 * (r / 4) + i)%nat) in
  match (r mod 4)%nat with
  | 0%nat => at_ 0%nat mod 16 * 256 + at_ 1%nat
  | 1%nat => at_ 3%nat * 16 + at_ 0%nat / 16
  | 2%nat => at_ 5%nat mod 16 * 256 + at_ 2%nat
  | _ => at_ 4%nat * 16 + at_ 5%nat / 16
  end.

(** The samples of a column of [4 k + 2], in order. *)
Fixpoint unpack_col (k : nat) (b : bytes) : list Z :=
  match k, b with
  | O, b0 :: b1 :: _ :: b3 :: _ => [b0 mod 16 * 256 + b1; b3 * 16 + b0 / 16]
  | S k, b0 :: b1 :: b2 :: b3 :: b4 :: b5 :: b =>
    b0 mod 16 * 256 + b1 :: b3 * 16 + b0 / 16 :: b5 mod 16 * 256 + b2 :: b4 * 16 + b5 / 16 ::
    unpack_col k b
  | _, _ => []
  end.

Lemma unpack_bits b0 b1 b2 b3 b4 b5 :
  is_u8 b0 → is_u8 b1 → is_u8 b2 → is_u8 b3 → is_u8 b4 → is_u8 b5 →
  unpack_sample4 b0 b1 b2 b3 b4 b5
  = (b0 mod 16 * 256 + b1, b3 * 16 + b0 / 16, b5 mod 16 * 256 + b2, b4 * 16 + b5 / 16).
Proof.
  unfold is_u8. intros H0 H1 H2 H3 H4 H5. unfold unpack_sample4. rewrite !land_15, !shiftr_div by lia.
  change (2 ^ 4) with 16.
  assert (Hhi : ∀ x y, 0 <= x < 256 → 0 <= y < 256 → u16 (Z.lor (Z.shiftl (x mod 16) 8) y) = x mod 16 * 256 + y).
  { intros x y Hx Hy. rewrite Z.lor_comm, lor_shiftl by lia. zint. }
  assert (Hlo : ∀ x y, 0 <= x < 256 → 0 <= y < 256 → u16 (Z.lor (Z.shiftl x 4) (y / 16)) = x * 16 + y / 16).
  { intros x y Hx Hy. rewrite Z.lor_comm, lor_shiftl by (lia || zdm). zint. }
  by rewrite !Hhi, !Hlo by done.
Qed.

Lemma packed_sample_step b0 b1 b2 b3 b4 b5 b r :
  packed_sample (b0 :: b1 :: b2 :: b3 :: b4 :: b5 :: b) (4 + r) = packed_sample b r.
Proof.
  unfold packed_sample. replace ((4 + r) / 4)%nat with (S (r / 4)).
  2: { replace (4 + r)%nat with (r + 1 * 4)%nat by lia. rewrite Nat.div_add by lia. lia. }
  replace ((4 + r) mod 4)%nat with (r mod 4)%nat.
  2: { replace (4 + r)%nat with (r + 1 * 4)%nat by lia. by rewrite Nat.Div0.mod_add. }
  assert (Hl : ∀ i, (b0 :: b1 :: b2 :: b3 :: b4 :: b5 :: b) !! (6 * S (r / 4) + i)%nat
                    = b !! (6 * (r / 4) + i)%nat).
  { intros i. by replace (6 * S (r / 4) + i)%nat with (S (S (S (S (S (S (6 * (r / 4) + i))))))) by lia. }
  by rewrite !Hl.
Qed.

Lemma unpack_col_lookup k b r :
  zlen b = 6 * Z.of_nat k + 4 → (r < 4 * k + 2)%nat → unpack_col k b !! r = Some (packed_sample b r).
Proof.
  revert b r. induction k as [|k IH]; intros b r Hl Hr.
  - destruct b as [|b0 [|b1 [|b2 [|b3 b]]]]; zlens; try lia. cbn [unpack_col].
    destruct r as [|[|r]]; [done|done|lia].
  - destruct b as [|b0 [|b1 [|b2 [|b3 [|b4 [|b5 b]]]]]]; zlens; try lia. cbn [unpack_col].
    destruct r as [|[|[|[|r]]]]; [done|done|done|done|].
    rewrite (packed_sample_step _ _ _ _ _ _ _ r). cbn [lookup list_lookup]. apply IH; lia.
Qed.

Lemma zlen_unpack_col k b : zlen b = 6 * Z.of_nat k + 4 → zlen (unpack_col k b) = 4 * Z.of_nat k + 2.
Proof.
  revert b. induction k as [|k IH]; intros b Hl.
  - destruct b as [|b0 [|b1 [|b2 [|b3 b]]]]; zlens; try lia. done.
  - destruct b as [|b0 [|b1 [|b2 [|b3 [|b4 [|b5 b]]]]]]; zlens; try lia. cbn [unpack_col].
    rewrite !zlen_cons, IH by lia. lia.
Qed.

(** Twelve bits. *)
Lemma packed_sample_bound b r : bytes_ok b → 0 <= packed_sample b r < 4096.
Proof.
  intros Hb. unfold packed_sample.
  assert (H : ∀ i, 0 <= default 0 (b !! i) < 256).
  { intros i. destruct (b !! i) eqn:Hi; cbn; [by apply (Forall_lookup_1 _ _ _ _ Hb Hi)|lia]. }
  destruct (r mod 4)%nat as [|[|[|]]];
    repeat match goal with |- context [b !! ?i] => pose proof (H i); generalize dependent (default 0 (b !! i)); intros end; zdm.
Qed.

(** * The unpacking loop *)

(** Reading and writing at the ends of the parts of a buffer. *)
Lemma rd_at pre b post i j :
  zlen pre = i → 0 <= j < zlen b → rd (pre ++ b ++ post) (i + j) = rd b j.
Proof.
  intros Hp Hj. rewrite rd_app_r by lia. replace (i + j - zlen pre) with j by lia.
  apply rd_app_l. lia.
Qed.

Lemma wr_next done x blank i v : zlen done = i → wr (done ++ x :: blank) i v = Some ((done ++ [v]) ++ blank).
Proof. intros. rewrite wr_app by done. by rewrite <- app_assoc. Qed.

(** One block of four samples. *)
Lemma unpack_block fuel pre b0 b1 b2 b3 b4 b5 post rows total out_i in_i dn x0 x1 x2 x3 blank :
  let pu := pre ++ [b0; b1; b2; b3; b4; b5] ++ post in
  zlen pre = in_i → zlen dn = out_i → out_i < total → Z.rem out_i rows ≠ rows - 2 →
  is_u8 b0 → is_u8 b1 → is_u8 b2 → is_u8 b3 → is_u8 b4 → is_u8 b5 →
  milan_unpack (S fuel) pu (zlen pu) rows total out_i in_i (dn ++ x0 :: x1 :: x2 :: x3 :: blank)
  = milan_unpack fuel pu (zlen pu) rows total (out_i + 4) (in_i + 6)
      ((dn ++ [b0 mod 16 * 256 + b1; b3 * 16 + b0 / 16; b5 mod 16 * 256 + b2; b4 * 16 + b5 / 16]) ++ blank).
Proof.
  intros pu Hp Hd Ho Hr H0 H1 H2 H3 H4 H5. cbn [milan_unpack].
  pose proof (zlen_nonneg post). pose proof (zlen_nonneg dn).
  assert (Hl : zlen pu = in_i + 6 + zlen post) by (unfold pu; rewrite !zlen_app, !zlen_cons, zlen_nil; lia).
  rewrite (proj2 (Z.ltb_lt in_i _)), (proj2 (Z.ltb_lt out_i total)) by lia. cbn [andb negb].
  rewrite (proj2 (Z.eqb_neq _ _) Hr), (proj2 (Z.ltb_ge _ (in_i + 6))) by lia.
  assert (Hrd : ∀ j, 0 <= j < 6 → rd pu (in_i + j) = rd [b0; b1; b2; b3; b4; b5] j)
    by (intros j Hj; by apply rd_at).
  rewrite <- (Z.add_0_r in_i) at 1. rewrite !Hrd by lia.
  change (rd [b0; b1; b2; b3; b4; b5] 0) with (Some b0). change (rd [b0; b1; b2; b3; b4; b5] 1) with (Some b1).
  change (rd [b0; b1; b2; b3; b4; b5] 2) with (Some b2). change (rd [b0; b1; b2; b3; b4; b5] 3) with (Some b3).
  change (rd [b0; b1; b2; b3; b4; b5] 4) with (Some b4). change (rd [b0; b1; b2; b3; b4; b5] 5) with (Some b5).
  cbn [mbind option_bind]. rewrite unpack_bits by done. cbv iota beta.
  rewrite wr_next by done. cbn [mbind option_bind].
  rewrite wr_next by (rewrite zlen_app, zlen_cons, zlen_nil; lia). cbn [mbind option_bind].
  rewrite wr_next by (rewrite !zlen_app, !zlen_cons, zlen_nil; lia). cbn [mbind option_bind].
  rewrite wr_next by (rewrite !zlen_app, !zlen_cons, zlen_nil; lia). cbn [mbind option_bind].
  by rewrite <- !app_assoc.
Qed.

(** The last two samples of a column. *)
Lemma unpack_tail fuel pre b0 b1 b2 b3 post rows total out_i in_i dn x0 x1 blank :
  let pu := pre ++ [b0; b1; b2; b3] ++ post in
  zlen pre = in_i → zlen dn = out_i → out_i < total → Z.rem out_i rows = rows - 2 →
  is_u8 b0 → is_u8 b1 → is_u8 b3 →
  milan_unpack (S fuel) pu (zlen pu) rows total out_i in_i (dn ++ x0 :: x1 :: blank)
  = milan_unpack fuel pu (zlen pu) rows total (out_i + 2) (in_i + 4)
      ((dn ++ [b0 mod 16 * 256 + b1; b3 * 16 + b0 / 16]) ++ blank).
Proof.
  intros pu Hp Hd Ho Hr H0 H1 H3. cbn [milan_unpack].
  pose proof (zlen_nonneg post). pose proof (zlen_nonneg dn).
  assert (Hl : zlen pu = in_i + 4 + zlen post) by (unfold pu; rewrite !zlen_app, !zlen_cons, zlen_nil; lia).
  rewrite (proj2 (Z.ltb_lt in_i _)), (proj2 (Z.ltb_lt out_i total)) by lia. cbn [andb negb].
  rewrite (proj2 (Z.eqb_eq _ _) Hr), (proj2 (Z.ltb_ge _ (in_i + 4))) by lia.
  assert (Hrd : ∀ j, 0 <= j < 4 → rd pu (in_i + j) = rd [b0; b1; b2; b3] j)
    by (intros j Hj; by apply rd_at).
  rewrite <- (Z.add_0_r in_i) at 1. rewrite !Hrd by lia.
  change (rd [b0; b1; b2; b3] 0) with (Some b0). change (rd [b0; b1; b2; b3] 1) with (Some b1).
  change (rd [b0; b1; b2; b3] 3) with (Some b3). cbn [mbind option_bind].
  pose proof (unpack_bits b0 b1 0 b3 0 0 H0 H1 ltac:(done) H3 ltac:(done) ltac:(done)) as Hu.
  unfold unpack_sample4 in Hu. injection Hu as Hs0 Hs1. rewrite Hs0, Hs1.
  rewrite wr_next by done. cbn [mbind option_bind].
  rewrite wr_next by (rewrite zlen_app, zlen_cons, zlen_nil; lia). cbn [mbind option_bind].
  by rewrite <- !app_assoc.
Qed.

(** A list of at least [n] elements, its first ones named. *)
Lemma zlen_4_cons {A} (l : list A) : 4 <= zlen l → ∃ a b c d k, l = a :: b :: c :: d :: k.
Proof.
  intros H. destruct l as [|a [|b [|c [|d l]]]]; rewrite ?zlen_cons, ?zlen_nil in H; try lia.
  by exists a, b, c, d, l.
Qed.

Lemma zlen_2_cons {A} (l : list A) : 2 <= zlen l → ∃ a b k, l = a :: b :: k.
Proof.
  intros H. destruct l as [|a [|b l]]; rewrite ?zlen_cons, ?zlen_nil in H; try lia. by exists a, b, l.
Qed.

(** A column, [K] the number of its full blocks, [k] those that are left. *)
Lemma unpack_column K k fuel pre b post total out_i in_i dn blank :
  let rows := 4 * Z.of_nat K + 2 in let pu := pre ++ b ++ post in
  (k <= K)%nat → zlen b = 6 * Z.of_nat k + 4 → bytes_ok b → zlen pre = in_i → zlen dn = out_i →
  zlen dn + zlen blank = total → 4 * Z.of_nat k + 2 <= zlen blank →
  out_i mod rows = rows - (4 * Z.of_nat k + 2) →
  milan_unpack (S k + fuel) pu (zlen pu) rows total out_i in_i (dn ++ blank)
  = milan_unpack fuel pu (zlen pu) rows total (out_i + (4 * Z.of_nat k + 2)) (in_i + zlen b)
      ((dn ++ unpack_col k b) ++ zdrop (4 * Z.of_nat k + 2) blank).
Proof.
  intros rows pu Hk Hb Hbb Hp Hd Ht Hbl Hm. unfold pu. clear pu.
  revert pre b in_i out_i dn blank Hb Hbb Hp Hd Ht Hbl Hm.
  induction k as [|k IH]; intros pre b in_i out_i dn blank Hb Hbb Hp Hd Ht Hbl Hm;
    pose proof (zlen_nonneg dn).
  - destruct (zlen_4_cons b) as (b0 & b1 & b2 & b3 & t & ->); [lia|]. rewrite !zlen_cons in Hb.
    apply (f_equal (λ x, x - 4)) in Hb. assert (t = []) as -> by (apply zlen_0; lia).
    destruct (zlen_2_cons blank) as (x0 & x1 & blank' & ->); [lia|].
    rewrite !bytes_ok_cons in Hbb. destruct Hbb as (H0 & H1 & _ & H3 & _).
    change (1 + fuel)%nat with (S fuel). rewrite (unpack_tail fuel pre) by (done || lia || (rewrite Z.rem_mod_nonneg by lia; lia)).
    change (unpack_col 0 [b0; b1; b2; b3]) with [b0 mod 16 * 256 + b1; b3 * 16 + b0 / 16].
    change (zdrop (4 * Z.of_nat 0 + 2) (x0 :: x1 :: blank')) with blank'.
    change (zlen [b0; b1; b2; b3]) with 4. by replace (4 * Z.of_nat 0 + 2) with 2 by lia.
  - destruct b as [|b0 [|b1 [|b2 [|b3 [|b4 [|b5 b]]]]]]; rewrite ?zlen_cons, ?zlen_nil in Hb; try lia.
    destruct (zlen_4_cons blank) as (x0 & x1 & x2 & x3 & blank' & ->); [lia|].
    rewrite !zlen_cons in *. rewrite !bytes_ok_cons in Hbb.
    destruct Hbb as (H0 & H1 & H2 & H3 & H4 & H5 & Hbb).
    change (S (S k) + fuel)%nat with (S (S k + fuel)).
    change ((b0 :: b1 :: b2 :: b3 :: b4 :: b5 :: b) ++ post) with ([b0; b1; b2; b3; b4; b5] ++ (b ++ post)).
    assert (Hrem : Z.rem out_i rows ≠ rows - 2) by (rewrite Z.rem_mod_nonneg by lia; lia).
    rewrite (unpack_block _ pre) by (done || lia).
    change ([b0; b1; b2; b3; b4; b5] ++ b ++ post) with ([b0; b1; b2; b3; b4; b5] ++ (b ++ post)).
    rewrite (app_assoc pre). rewrite IH; try done; try lia.
    + f_equal; [lia|lia|]. cbn [unpack_col]. rewrite <- !app_assoc. cbn [app]. do 6 f_equal.
      replace (4 * Z.of_nat (S k) + 2) with (4 + (4 * Z.of_nat k + 2)) by lia.
      change (x0 :: x1 :: x2 :: x3 :: blank') with ([x0; x1; x2; x3] ++ blank').
      by rewrite <- (zdrop_zdrop _ 4), (zdrop_app 4) by (done || lia).
    + rewrite zlen_app, !zlen_cons, zlen_nil. lia.
    + rewrite zlen_app, !zlen_cons, zlen_nil. lia.
    + rewrite zlen_app, !zlen_cons, zlen_nil. lia.
    + replace (out_i + 4) with (out_i + 4) by lia. rewrite Z.add_mod, Hm by lia.
      rewrite (Z.mod_small 4) by lia. rewrite Z.mod_small by lia. lia.
Qed.

(** All the columns, in at most [K + 1] iterations each. *)
Lemma unpack_columns K cs fuel pre total out_i in_i dn blank :
  let rows := 4 * Z.of_nat K + 2 in let pu := pre ++ concat cs in
  Forall (λ b, zlen b = 6 * Z.of_nat K + 4 ∧ bytes_ok b) cs → zlen pre = in_i → zlen dn = out_i →
  zlen blank = rows * Z.of_nat (length cs) → zlen dn + zlen blank = total → out_i mod rows = 0 →
  milan_unpack (length cs * S K + S fuel) pu (zlen pu) rows total out_i in_i (dn ++ blank)
  = Some (total, dn ++ concat (unpack_col K <$> cs)).
Proof.
  intros rows pu Hcs. unfold pu. clear pu.
  revert pre in_i out_i dn blank. induction Hcs as [|b cs [Hb Hbb] Hcs IH];
    intros pre in_i out_i dn blank Hp Hd Hbl Ht Hm.
  - cbn [length] in Hbl. rewrite Z.mul_0_r in Hbl. apply zlen_0 in Hbl. subst blank.
    rewrite zlen_nil in Ht. cbn [length Nat.mul Nat.add milan_unpack concat fmap list_fmap].
    rewrite (proj2 (Z.ltb_ge out_i total)) by lia. rewrite andb_false_r. cbn [negb].
    do 2 f_equal. lia.
  - cbn [length concat fmap list_fmap]. cbn [length] in Hbl.
    replace (S (length cs) * S K + S fuel)%nat with (S K + (length cs * S K + S fuel))%nat by lia.
    assert (Hbl' : zlen blank = rows + rows * Z.of_nat (length cs)) by lia.
    assert (0 <= rows * Z.of_nat (length cs)) by (apply Z.mul_nonneg_nonneg; lia).
    assert (Hrows : rows = 4 * Z.of_nat K + 2) by done.
    etransitivity; [apply (unpack_column K K); first [done|lia|fold rows; lia]|].
    rewrite !app_assoc. rewrite <- (app_assoc dn _ (concat _)), <- (app_assoc pre b).
    rewrite (app_assoc pre b). rewrite IH; try done.
    + by rewrite <- !app_assoc.
    + rewrite zlen_app. lia.
    + rewrite zlen_app, zlen_unpack_col by done. lia.
    + rewrite zlen_zdrop by lia. lia.
    + rewrite zlen_app, zlen_unpack_col, zlen_zdrop by lia. lia.
    + fold rows. rewrite Z.add_mod, Hm, Z.mod_same by lia. by rewrite Z.mod_0_l by lia.
Qed.

(** The bytes of column [c]. *)
Definition milan_column (p : bytes) (stride take c : Z) : bytes := ztake take (zdrop (c * stride) p).

Lemma ck_int_ok x : - 2 ^ 31 <= x < 2 ^ 31 → ck_int x = Some x.
Proof. intros H. unfold ck_int. by rewrite (proj2 (Z.leb_le _ _)), (proj2 (Z.ltb_lt _ _)) by lia. Qed.

Lemma milan_copy_run p pu cols stride take :
  0 < take <= stride → 0 <= cols → stride * cols <= zlen p → stride * cols < 2 ^ 31 →
  zlen pu = take * cols →
  milan_copy p pu cols stride take
  = Some (concat ((λ c, milan_column p stride take (Z.of_nat c)) <$> seq 0 (Z.to_nat cols))).
Proof.
  intros Htk Hc Hp Hlim Hpu.
  destruct (forN_option (λ c a, ∃ rest,
      a = concat ((λ c, milan_column p stride take (Z.of_nat c)) <$> seq 0 (Z.to_nat c)) ++ rest ∧
      zlen (concat ((λ c, milan_column p stride take (Z.of_nat c)) <$> seq 0 (Z.to_nat c))) = take * c ∧
      zlen rest = take * (cols - c))
    (λ c pu, src ← ck_int (c * stride); dst ← ck_int (c * take); memcpy pu dst p src take)
    (Z.to_nat cols) 0 pu) as (a & Ha & rest & -> & _ & Hr).
  - exists pu. cbn. split; [done|]. split; [by rewrite Z.mul_0_r|lia].
  - intros c a Hlt (rest & -> & Hl & Hrest). set (pre := concat _) in *.
    assert (0 <= c * stride /\ c * stride + stride <= stride * cols) by nia.
    assert (0 <= c * take <= c * stride) by nia.
    rewrite !ck_int_ok by lia. cbn [mbind option_bind]. unfold memcpy.
    rewrite slice_Some by lia. cbn [mbind option_bind]. fold (milan_column p stride take c).
    assert (Hcol : zlen (milan_column p stride take c) = take)
      by (apply zlen_ztake; rewrite zlen_zdrop; lia).
    destruct (split3 rest 0 take) as (e & m & q & -> & He & Hm); [lia|lia|nia|].
    apply zlen_0 in He. subst e. cbn [app].
    rewrite (blit_app pre m q) by lia. eexists. split; [done|].
    exists q. replace (Z.to_nat (c + 1)) with (S (Z.to_nat c)) by lia.
    rewrite seq_S, fmap_app, concat_app. fold pre. cbn [Nat.add fmap list_fmap concat].
    rewrite Z2Nat.id by lia. rewrite app_nil_r, <- app_assoc. split; [done|].
    cbn [app] in Hrest. rewrite zlen_app in Hrest. rewrite zlen_app, Hl, Hcol. lia.
  - unfold milan_copy. rewrite Ha. replace (0 + Z.of_nat (Z.to_nat cols)) with cols in * by lia.
    rewrite Z.sub_diag, Z.mul_0_r in Hr. apply zlen_0 in Hr. subst rest. by rewrite app_nil_r.
Qed.

(** ** The transposition *)

(** The row-major array of a matrix given by its entries. *)
Definition row_of (f : Z → Z → Z) (cols r : Z) : list Z :=
  (λ c, f r (Z.of_nat c)) <$> seq 0 (Z.to_nat cols).
Definition rows_of (f : Z → Z → Z) (rows cols : Z) : list Z :=
  concat ((λ r, row_of f cols (Z.of_nat r)) <$> seq 0 (Z.to_nat rows)).

Lemma row_of_S f c r : 0 <= c → row_of f (c + 1) r = row_of f c r ++ [f r c].
Proof.
  intros. unfold row_of. replace (Z.to_nat (c + 1)) with (S (Z.to_nat c)) by lia.
  rewrite seq_S, fmap_app. cbn. by rewrite Z2Nat.id by lia.
Qed.

Lemma zlen_row_of f c r : 0 <= c → zlen (row_of f c r) = c.
Proof. intros. unfold zlen, row_of. rewrite length_fmap, length_seq. lia. Qed.

Lemma rows_of_S f n cols : 0 <= n → rows_of f (n + 1) cols = rows_of f n cols ++ row_of f cols n.
Proof.
  intros. unfold rows_of. replace (Z.to_nat (n + 1)) with (S (Z.to_nat n)) by lia.
  rewrite seq_S, fmap_app, concat_app. cbn. by rewrite Z2Nat.id, app_nil_r by lia.
Qed.

Lemma zlen_rows_of f n cols : 0 <= n → 0 <= cols → zlen (rows_of f n cols) = n * cols.
Proof.
  intros Hn Hc. rewrite <- (Z2Nat.id n) by done. induction (Z.to_nat n) as [|k IH]; [done|].
  rewrite Nat2Z.inj_succ, <- Z.add_1_r, rows_of_S, zlen_app, IH, zlen_row_of by lia. lia.
Qed.

Lemma lookup_rows_of f n cols r c :
  0 <= r < n → 0 <= c < cols → rows_of f n cols !! Z.to_nat (r * cols + c) = Some (f r c).
Proof.
  intros Hr Hc. rewrite <- (Z2Nat.id n) in * by lia. revert Hr.
  induction (Z.to_nat n) as [|k IH]; [lia|]. intros Hr.
  rewrite Nat2Z.inj_succ, <- Z.add_1_r, rows_of_S by lia.
  pose proof (zlen_rows_of f (Z.of_nat k) cols ltac:(lia) ltac:(lia)) as Hl.
  destruct (Z.eq_dec r (Z.of_nat k)) as [->|Hne].
  - rewrite lookup_app_r by (unfold zlen in Hl; lia).
    replace (_ - _)%nat with (Z.to_nat c) by (unfold zlen in Hl; lia).
    unfold row_of. rewrite list_lookup_fmap, lookup_seq_lt by lia. cbn. by rewrite Z2Nat.id by lia.
  - rewrite lookup_app_l by (unfold zlen in Hl; nia). apply IH. lia.
Qed.

Lemma transpose_row cm rows cols r (f : Z → Z → Z) pre q :
  0 <= cols → zlen pre = r * cols → cols <= zlen q →
  (∀ c, 0 <= c < cols → rd cm (c * rows + r) = Some (f r c)) →
  forN (Z.to_nat cols) 0 (λ c '(idx, rm),
      v ← rd cm (c * rows + r);
      rm ← wr rm idx v;
      Some (idx + 1, rm)) (r * cols, pre ++ q)
  = Some ((r + 1) * cols, (pre ++ row_of f cols r) ++ zdrop cols q).
Proof.
  intros Hc Hp Hq Hf.
  destruct (forN_option (λ c a, a = (r * cols + c, (pre ++ row_of f c r) ++ zdrop c q))
    (λ c '(idx, rm), v ← rd cm (c * rows + r); rm ← wr rm idx v; Some (idx + 1, rm))
    (Z.to_nat cols) 0 (r * cols, pre ++ q)) as (a & Ha & ->).
  - cbn. by rewrite app_nil_r, Z.add_0_r.
  - intros c a Hlt ->. rewrite Hf by lia. cbn [mbind option_bind].
    destruct (zlen_pos_inv (zdrop c q) (zlen q - c)) as (x & k & Hx & Hk);
      [rewrite zlen_zdrop by lia; lia|lia|].
    rewrite Hx, wr_next by (rewrite zlen_app, zlen_row_of by lia; lia). cbn [mbind option_bind].
    eexists. split; [done|]. rewrite row_of_S by lia. rewrite <- !app_assoc. f_equal; [lia|].
    do 3 f_equal. rewrite <- (zdrop_zdrop 1 c), Hx by lia. done.
  - rewrite Ha. replace (0 + Z.of_nat (Z.to_nat cols)) with cols by lia. do 2 f_equal. lia.
Qed.

Lemma milan_transpose_run cm rm rows cols (f : Z → Z → Z) :
  0 <= rows → 0 <= cols → zlen rm = rows * cols →
  (∀ r c, 0 <= r < rows → 0 <= c < cols → rd cm (c * rows + r) = Some (f r c)) →
  milan_transpose cm rm rows cols = Some (rows_of f rows cols).
Proof.
  intros Hr Hc Hl Hf. unfold milan_transpose.
  destruct (forN_option (λ r a, a = (r * cols, rows_of f r cols ++ zdrop (r * cols) rm))
    (λ r acc, forN (Z.to_nat cols) 0 (λ c '(idx, rm),
      v ← rd cm (c * rows + r);
      rm ← wr rm idx v;
      Some (idx + 1, rm)) acc)
    (Z.to_nat rows) 0 (0, rm)) as (a & Ha & ->).
  - done.
  - intros r a Hlt ->. assert (r * cols + cols <= rows * cols) by nia.
    assert (0 <= r * cols) by nia.
    eexists. split.
    + apply (transpose_row cm rows cols r f); [done|by rewrite zlen_rows_of by lia| |].
      * rewrite zlen_zdrop by lia. lia.
      * intros c Hc'. apply Hf; lia.
    + rewrite rows_of_S by lia. f_equal. f_equal. rewrite zdrop_zdrop by lia. f_equal. lia.
  - rewrite Ha. replace (0 + Z.of_nat (Z.to_nat rows)) with rows by lia. cbn.
    assert (zdrop (rows * cols) rm = []) as ->.
    { apply zlen_0. rewrite zlen_zdrop by nia. lia. }
    by rewrite app_nil_r.
Qed.

(** ** The decoder of columns *)

(** The pixel at row [r] and column [c]: the sample number [r] of column [c]. *)
Definition milan_pixel (K : nat) (p : bytes) (r c : Z) : Z :=
  packed_sample (milan_column p (6 * Z.of_nat K + 6) (6 * Z.of_nat K + 4) c) (Z.to_nat r).

Lemma unpack_col_row K p c :
  let b := milan_column p (6 * Z.of_nat K + 6) (6 * Z.of_nat K + 4) c in
  zlen b = 6 * Z.of_nat K + 4 →
  unpack_col K b = row_of (λ c r, milan_pixel K p r c) (4 * Z.of_nat K + 2) c.
Proof.
  intros b Hb. pose proof (zlen_unpack_col K b Hb) as Hl. apply list_eq. intros i.
  destruct (decide (i < 4 * K + 2)%nat) as [Hi|Hi].
  - rewrite unpack_col_lookup by done. unfold row_of. rewrite list_lookup_fmap, lookup_seq_lt by lia.
    cbn. unfold milan_pixel. by rewrite Nat2Z.id.
  - rewrite !lookup_ge_None_2; [done| |].
    + unfold row_of. rewrite length_fmap, length_seq. lia.
    + unfold zlen in Hl. lia.
Qed.

Lemma milan_column_len p stride take c :
  0 <= take <= stride → 0 <= c → stride * (c + 1) <= zlen p → zlen (milan_column p stride take c) = take.
Proof. intros. unfold milan_column. apply zlen_ztake. rewrite zlen_zdrop by nia. nia. Qed.

Lemma milan_column_ok p stride take c : bytes_ok p → bytes_ok (milan_column p stride take c).
Proof. intros. unfold milan_column. by apply bytes_ok_ztake, bytes_ok_zdrop. Qed.

Lemma unpack_copied K p cols :
  let rows := 4 * Z.of_nat K + 2 in
  0 <= cols → (6 * Z.of_nat K + 6) * cols <= zlen p → bytes_ok p →
  milan_unpack (Z.to_nat (rows * cols) + 1)
    (concat ((λ c, milan_column p (6 * Z.of_nat K + 6) (6 * Z.of_nat K + 4) (Z.of_nat c))
             <$> seq 0 (Z.to_nat cols)))
    ((6 * Z.of_nat K + 4) * cols) rows (rows * cols) 0 0 (zeros (rows * cols))
  = Some (rows * cols, rows_of (λ c r, milan_pixel K p r c) cols rows).
Proof.
  intros rows Hc Hl Hp. set (cs := _ <$> seq 0 _).
  assert (Hrows : rows = 4 * Z.of_nat K + 2) by done.
  assert (Hn : Z.of_nat (length cs) = cols) by (unfold cs; rewrite length_fmap, length_seq; lia).
  assert (Hcs : Forall (λ b, zlen b = 6 * Z.of_nat K + 4 ∧ bytes_ok b) cs).
  { apply Forall_fmap, Forall_forall. intros c Hin. apply elem_of_seq in Hin. cbn.
    split; [apply milan_column_len; nia|by apply milan_column_ok]. }
  assert (Hzl : zlen (concat cs) = (6 * Z.of_nat K + 4) * cols).
  { rewrite <- Hn. clear Hn Hl. induction Hcs as [|b l [Hb _] _ IH]; cbn [concat length].
    - by rewrite Z.mul_0_r.
    - rewrite zlen_app, Hb, IH. lia. }
  assert (Hfuel : (Z.to_nat (rows * cols) + 1
                   = length cs * S K + S (Z.to_nat (rows * cols) - length cs * S K))%nat).
  { assert (length cs * S K <= Z.to_nat (rows * cols))%nat by (clearbody cs; nia). lia. }
  rewrite Hfuel, <- Hzl.
  etransitivity; [apply (unpack_columns K cs _ [] (rows * cols) 0 0 [] (zeros (rows * cols)))|].
  - exact Hcs.
  - reflexivity.
  - reflexivity.
  - fold rows. rewrite zlen_zeros by nia. by rewrite Hn.
  - rewrite (zlen_zeros (rows * cols)) by nia. reflexivity.
  - fold rows. by rewrite Z.mod_0_l by lia.
  - cbn [app]. do 2 f_equal. unfold rows_of, cs. f_equal. rewrite <- list_fmap_compose.
    apply list_fmap_ext. intros i c Hi. apply lookup_seq in Hi as [-> Hi]. cbn.
    apply unpack_col_row, milan_column_len; nia.
Qed.

Section milan_rules.
Context {E : Uenv} {EO : UenvOk E}.

(** [malloc], its two outcomes. *)
Lemma umalloc_cases n w :
  0 <= n →
  (umalloc n w = Some (None, pop_alloc w) ∧ l_oom w ≠ []) ∨
  (∃ u, umalloc n w = Some (Some u, pop_alloc w) ∧ zlen u = n).
Proof using EO.
  intros Hn. rewrite umalloc_run. destruct (l_oom w) as [|[] l]; [right|by left|right].
  all: eexists; split; [done|by apply u_uninit_len].
Qed.

(** The outcomes of a decoder: the image or the error of [ref], or no memory. *)
Definition decodes (m : M lworld (Z * ptr gxfp_decoded_image)) (out : gxfp_decoded_image)
    (ref : Z + gxfp_decoded_image) (w : lworld) : Prop :=
  ∃ r out' w', m w = Some ((r, out'), w') ∧
    ((match ref with inl e => r = - e ∧ out' = Some out | inr img => r = 0 ∧ out' = Some img end) ∨
     (r = - ENOMEM ∧ out' = Some out ∧ l_oom w ≠ [])).

(** What the decoder of columns does, for rows of the form [4 K + 2]. *)
Lemma decode_milan_run K p len cols out w :
  let rows := 4 * Z.of_nat K + 2 in
  0 < cols → rows <= 2 ^ 24 → (6 * Z.of_nat K + 6) * cols < 2 ^ 31 →
  (6 * Z.of_nat K + 6) * cols <= len <= zlen p → bytes_ok p →
  decodes (gxfp_decode_milan (Some p) len rows cols (Some out)) out
    (inr {| pixels := Some (rows_of (milan_pixel K p) rows cols); rows := rows; cols := cols |}) w.
Proof using EO.
  intros rows Hc Hr24 Hlim Hlen Hp. assert (Hrows : rows = 4 * Z.of_nat K + 2) by done.
  assert (0 <= Z.of_nat K * cols) by nia. unfold decodes, gxfp_decode_milan.
  rewrite (proj2 (Z.leb_gt rows 0)), (proj2 (Z.leb_gt cols 0)) by lia. cbn [orb].
  rewrite !ck_int_ok by nia. rewrite !bind_lift.
  replace ((rows + 2) * 3 / 2) with (6 * Z.of_nat K + 6) by (rewrite Hrows; zdm).
  replace (rows * 3 / 2 + 1) with (6 * Z.of_nat K + 4) by (rewrite Hrows; zdm).
  unfold u64. rewrite !(Z.mod_small _ (2 ^ 64)) by lia. cbv zeta.
  rewrite (proj2 (Z.ltb_ge _ _)) by lia.
  destruct (umalloc_cases ((6 * Z.of_nat K + 4) * cols) w) as [[Eu Ho]|(u & Eu & Hu)]; [lia|..];
    rewrite (run_bind _ _ _ _ _ Eu); cbv iota beta.
  { do 3 eexists. split; [done|]. by right. }
  rewrite (milan_copy_run p u) by lia. rewrite bind_lift, bind_lift.
  destruct (umalloc_cases (rows * cols) (pop_alloc w)) as [[Ev Ho]|(v & Ev & Hv)]; [lia|..];
    rewrite (run_bind _ _ _ _ _ Ev); cbv iota beta.
  { do 3 eexists. split; [done|]. right. split; [done|]. split; [done|].
    intros H0. apply Ho. cbn. by rewrite H0. }
  pose proof (unpack_copied K p cols ltac:(lia) ltac:(lia) Hp) as Hun. fold rows in Hun. cbv zeta in Hun.
  rewrite Hun, bind_lift. cbv iota beta.
  rewrite Z.eqb_refl. cbn [negb].
  destruct (umalloc_cases (rows * cols) (pop_alloc (pop_alloc w))) as [[Ex Ho]|(x & Ex & Hx)]; [lia|..];
    rewrite (run_bind _ _ _ _ _ Ex); cbv iota beta.
  { do 3 eexists. split; [done|]. right. split; [done|]. split; [done|].
    intros H0. apply Ho. cbn. by rewrite H0. }
  rewrite (milan_transpose_run _ x rows cols (milan_pixel K p)); [|lia|lia|done|].
  - rewrite bind_lift. do 3 eexists. split; [done|]. by left.
  - intros r c Hr Hc'. rewrite rd_lookup by (rewrite zlen_rows_of by lia; nia).
    by rewrite lookup_rows_of by lia.
Qed.
End milan_rules.

(** * The packed format without padding *)

(** Where the sample number [i] goes. *)
Definition chicago_pos (rows cols : Z) (transpose : bool) (i : Z) : Z :=
  if transpose then (i mod rows) * cols + i / rows else i.

Lemma chicago_pos_bound rows cols t i :
  0 < rows → 0 < cols → 0 <= i < rows * cols → 0 <= chicago_pos rows cols t i < rows * cols.
Proof.
  intros Hr Hc Hi. unfold chicago_pos. destruct t; [|done].
  assert (0 <= i / rows < cols) by (split; [apply Z.div_pos; lia|apply Z.div_lt_upper_bound; lia]).
  pose proof (Z.mod_pos_bound i rows Hr). nia.
Qed.

Lemma chicago_pos_inj rows cols t i j :
  0 < rows → 0 < cols → 0 <= i < rows * cols → 0 <= j < rows * cols →
  chicago_pos rows cols t i = chicago_pos rows cols t j → i = j.
Proof.
  intros Hr Hc Hi Hj. unfold chicago_pos. destruct t; [|done]. intros He.
  assert (0 <= i / rows < cols) by (split; [apply Z.div_pos; lia|apply Z.div_lt_upper_bound; lia]).
  assert (0 <= j / rows < cols) by (split; [apply Z.div_pos; lia|apply Z.div_lt_upper_bound; lia]).
  assert (i mod rows = j mod rows ∧ i / rows = j / rows) as [Hm Hd].
  { apply (Z.div_mod_unique cols); [lia|lia|lia]. }
  rewrite (Z.div_mod i rows), (Z.div_mod j rows) by lia. by rewrite Hm, Hd.
Qed.

(** The samples of the block at [6 k]. *)
Lemma sample_block p k :
  bytes_ok p → 0 <= k → 6 * k + 6 <= zlen p →
  ∃ b0 b1 b2 b3 b4 b5,
    rd p (6 * k) = Some b0 ∧ rd p (6 * k + 1) = Some b1 ∧ rd p (6 * k + 2) = Some b2 ∧
    rd p (6 * k + 3) = Some b3 ∧ rd p (6 * k + 4) = Some b4 ∧ rd p (6 * k + 5) = Some b5 ∧
    ∀ off, 0 <= off < 4 →
      sample_of (unpack_sample4 b0 b1 b2 b3 b4 b5) off = packed_sample p (Z.to_nat (4 * k + off)).
Proof.
  intros Hp Hk Hl.
  assert (H : ∀ j, 0 <= j < 6 → ∃ b, rd p (6 * k + j) = Some b ∧ is_u8 b ∧
            default 0 (p !! (6 * Z.to_nat k + Z.to_nat j)%nat) = b).
  { intros j Hj. rewrite rd_lookup by lia. eexists. split; [done|].
    replace (Z.to_nat (6 * k + j)) with (6 * Z.to_nat k + Z.to_nat j)%nat by lia. split; [|done].
    apply (rd_ok p (6 * k + j)); [done|]. rewrite rd_lookup by lia.
    by replace (Z.to_nat (6 * k + j)) with (6 * Z.to_nat k + Z.to_nat j)%nat by lia. }
  destruct (H 0) as (b0 & R0 & U0 & D0); [lia|]. destruct (H 1) as (b1 & R1 & U1 & D1); [lia|].
  destruct (H 2) as (b2 & R2 & U2 & D2); [lia|]. destruct (H 3) as (b3 & R3 & U3 & D3); [lia|].
  destruct (H 4) as (b4 & R4 & U4 & D4); [lia|]. destruct (H 5) as (b5 & R5 & U5 & D5); [lia|].
  rewrite Z.add_0_r in R0. exists b0, b1, b2, b3, b4, b5. do 6 (split; [done|]).
  intros o Ho. rewrite unpack_bits by done. unfold packed_sample.
  replace (Z.to_nat (4 * k + o)) with (Z.to_nat o + Z.to_nat k * 4)%nat by lia.
  rewrite Nat.div_add, Nat.Div0.mod_add, (Nat.div_small (Z.to_nat o)), (Nat.mod_small (Z.to_nat o)) by lia.
  change (Z.to_nat 0) with 0%nat in D0. change (Z.to_nat 1) with 1%nat in D1.
  change (Z.to_nat 2) with 2%nat in D2. change (Z.to_nat 3) with 3%nat in D3.
  change (Z.to_nat 4) with 4%nat in D4. change (Z.to_nat 5) with 5%nat in D5.
  rewrite Nat.add_0_l, D0, D1, D2, D3, D4, D5.
  assert (o = 0 ∨ o = 1 ∨ o = 2 ∨ o = 3) as [-> | [-> | [-> | ->]]] by lia; reflexivity.
Qed.

(** The first [n] samples are in their places. *)
Definition placed (rows cols : Z) (t : bool) (p : bytes) (n : Z) (px : list Z) : Prop :=
  zlen px = rows * cols ∧
  (n <= rows * cols → ∀ i, 0 <= i < n →
     px !! Z.to_nat (chicago_pos rows cols t i) = Some (packed_sample p (Z.to_nat i))).

Lemma placed_write rows cols t p n px :
  0 < rows → 0 < cols → 0 <= n → placed rows cols t p n px →
  ∃ px', (let v := packed_sample p (Z.to_nat n) in
          if t then
            let dst := Z.rem n rows * cols + Z.quot n rows in
            if dst <? rows * cols then wr px dst v else Some px
          else if n <? rows * cols then wr px n v else Some px) = Some px' ∧
         placed rows cols t p (n + 1) px'.
Proof.
  intros Hr Hc Hn [Hl Hpx]. cbv zeta. rewrite Z.rem_mod_nonneg, Z.quot_div_nonneg by lia.
  assert (Hpos : 0 <= (n mod rows) * cols + n / rows).
  { pose proof (Z.mod_pos_bound n rows Hr). pose proof (Z.div_pos n rows Hn Hr). nia. }
  assert (Hgo : ∃ px', (if chicago_pos rows cols t n <? rows * cols
                        then wr px (chicago_pos rows cols t n) (packed_sample p (Z.to_nat n))
                        else Some px) = Some px' ∧ placed rows cols t p (n + 1) px').
  { assert (0 <= chicago_pos rows cols t n) by (unfold chicago_pos; destruct t; lia).
    destruct (Z.ltb_spec (chicago_pos rows cols t n) (rows * cols)).
    - rewrite wr_insert by lia. eexists. split; [done|]. split; [by rewrite zlen_insert|].
      intros Hn1 i Hi. destruct (Z.eq_dec i n) as [->|Hne].
      + rewrite list_lookup_insert_eq; [done|]. unfold zlen in Hl. lia.
      + rewrite list_lookup_insert_ne; [apply Hpx; lia|]. intros He. apply Hne. symmetry.
        apply (chicago_pos_inj rows cols t); [lia..|].
        pose proof (chicago_pos_bound rows cols t i Hr Hc). lia.
    - eexists. split; [done|]. split; [done|]. intros Hn1.
      pose proof (chicago_pos_bound rows cols t n Hr Hc). lia. }
  unfold chicago_pos in Hgo at 1 2. by destruct t.
Qed.

Lemma chicago_store_run rows cols t p n s px :
  0 < rows → 0 < cols → 0 <= n →
  (∀ off, 0 <= off < 4 → sample_of s off = packed_sample p (Z.to_nat (n + off))) →
  placed rows cols t p n px →
  ∃ px', chicago_store rows cols (rows * cols) t n s px = Some px' ∧ placed rows cols t p (n + 4) px'.
Proof.
  intros Hr Hc Hn Hs Hp. unfold chicago_store.
  apply (forN_option (λ off a, placed rows cols t p (n + off) a) _ 4 0).
  { by rewrite Z.add_0_r. }
  intros off a Hoff Ha. cbv zeta. rewrite Hs by lia. rewrite Z.add_assoc.
  apply (placed_write rows cols t p (n + off) a Hr Hc); [lia|done].
Qed.

Lemma chicago_unpack_run rows cols t p len fuel k px :
  0 < rows → 0 < cols → bytes_ok p → len <= zlen p → len < 2 ^ 31 - 6 → 0 <= k → 6 * k <= len →
  (Z.to_nat (len - 6 * k) < fuel)%nat → placed rows cols t p (4 * k) px →
  ∃ px', chicago_unpack fuel p len rows cols (rows * cols) t (6 * k) (4 * k) px
         = Some (4 * (len / 6), px') ∧ placed rows cols t p (4 * (len / 6)) px'.
Proof.
  intros Hr Hc Hb Hl H31. revert k px. induction fuel as [|fuel IH]; intros k px Hk Hk6 Hf Hp; [lia|].
  cbn [chicago_unpack]. rewrite ck_int_ok by lia. cbn [mbind option_bind].
  destruct (Z.leb_spec (6 * k + 6) len) as [Hle|Hgt]; cbn [negb].
  - destruct (sample_block p k) as (b0 & b1 & b2 & b3 & b4 & b5 & -> & -> & -> & -> & -> & -> & Hs);
      [done|lia..|]. cbn [mbind option_bind].
    destruct (chicago_store_run rows cols t p (4 * k) _ px Hr Hc ltac:(lia) Hs Hp) as (px1 & -> & Hp1).
    cbn [mbind option_bind]. replace (6 * k + 6) with (6 * (k + 1)) by lia.
    replace (4 * k + 4) with (4 * (k + 1)) in * by lia. apply IH; [lia..|done].
  - assert (len / 6 = k) as -> by zdm. by exists px.
Qed.

(** The pixels, row by row. *)
Definition packed_pixel (rows cols : Z) (t : bool) (p : bytes) (r c : Z) : Z :=
  packed_sample p (Z.to_nat (if t then c * rows + r else r * cols + c)).

Lemma rows_of_ext f n cols px :
  0 <= n → 0 < cols → zlen px = n * cols →
  (∀ r c, 0 <= r < n → 0 <= c < cols → px !! Z.to_nat (r * cols + c) = Some (f r c)) →
  px = rows_of f n cols.
Proof.
  intros Hn Hc Hl Hpx. pose proof (zlen_rows_of f n cols Hn ltac:(lia)) as Hl'.
  apply list_eq. intros i. destruct (decide (Z.of_nat i < n * cols)) as [Hi|Hi].
  - pose proof (Z.div_mod (Z.of_nat i) cols ltac:(lia)) as Hdm.
    pose proof (Z.mod_pos_bound (Z.of_nat i) cols Hc).
    assert (0 <= Z.of_nat i / cols < n)
      by (split; [apply Z.div_pos; lia|apply Z.div_lt_upper_bound; lia]).
    replace i with (Z.to_nat (Z.of_nat i / cols * cols + Z.of_nat i mod cols)) by lia.
    by rewrite Hpx, lookup_rows_of.
  - rewrite !lookup_ge_None_2; [done|unfold zlen in *; lia..].
Qed.

Lemma placed_all rows cols t p px :
  0 < rows → 0 < cols → placed rows cols t p (rows * cols) px →
  px = rows_of (packed_pixel rows cols t p) rows cols.
Proof.
  intros Hr Hc [Hl Hpx]. apply rows_of_ext; [lia|lia|done|]. intros r c Hr' Hc'.
  unfold packed_pixel. rewrite <- (Hpx ltac:(lia)).
  - f_equal. f_equal. unfold chicago_pos. destruct t; [|done].
    rewrite (Z.add_comm (c * rows)), Z.mod_add, Z.div_add, Z.mod_small, Z.div_small by lia. lia.
  - destruct t; nia.
Qed.

(** A pixel of two bytes, little-endian. *)
Definition word_pixel (cols : Z) (p : bytes) (r c : Z) : Z :=
  let i := Z.to_nat (2 * (r * cols + c)) in
  default 0 (p !! i) + 256 * default 0 (p !! S i).

Lemma u16le_fill_run p rows cols px :
  0 < rows → 0 < cols → bytes_ok p → 2 * (rows * cols) <= zlen p → zlen px = rows * cols →
  u16le_fill p (rows * cols) px = Some (rows_of (word_pixel cols p) rows cols).
Proof.
  intros Hr Hc Hb Hp Hl. unfold u16le_fill.
  set (g := λ i, default 0 (p !! Z.to_nat (2 * i)) + 256 * default 0 (p !! S (Z.to_nat (2 * i)))).
  destruct (forN_option (λ n a, zlen a = rows * cols ∧ ∀ i, 0 <= i < n → a !! Z.to_nat i = Some (g i))
    (λ i px, hi ← rd p (i * 2 + 1); lo ← rd p (i * 2); wr px i (u16 (Z.lor (Z.shiftl hi 8) lo)))
    (Z.to_nat (rows * cols)) 0 px) as (a & -> & Ha & Hg).
  - split; [done|]. intros; lia.
  - intros n a Hn (Ha & Hg). rewrite !rd_lookup by lia. cbn [mbind option_bind].
    rewrite wr_insert by lia. eexists. split; [done|]. split; [by rewrite zlen_insert|].
    intros i Hi. destruct (Z.eq_dec i n) as [->|Hne].
    + rewrite list_lookup_insert_eq by (unfold zlen in Ha; lia). f_equal. unfold g.
      replace (Z.to_nat (n * 2 + 1)) with (S (Z.to_nat (2 * n))) by lia.
      replace (n * 2) with (2 * n) by lia.
      assert (Hd : ∀ j, is_u8 (default 0 (p !! j))).
      { intros j. destruct (p !! j) eqn:Hj; cbn; [by apply (Forall_lookup_1 _ _ _ _ Hb Hj)|done]. }
      pose proof (Hd (Z.to_nat (2 * n))). pose proof (Hd (S (Z.to_nat (2 * n)))).
      unfold is_u8 in *. rewrite Z.lor_comm, lor_shiftl by lia. zint.
    + rewrite list_lookup_insert_ne by lia. apply Hg. lia.
  - f_equal. apply rows_of_ext; [lia|lia|done|]. intros r c Hr' Hc'. rewrite Hg by nia. done.
Qed.

(** * The decoder as a whole *)

Definition image (f : Z → Z → Z) (n m : Z) : gxfp_decoded_image :=
  {| pixels := Some (rows_of f n m); rows := n; cols := m |}.

(** The formats, by the place of each sample. *)
Definition ref_packed (p : bytes) (len n m : Z) : Z + gxfp_decoded_image :=
  if len <? 6 then inl EINVAL else
  if 4 * (len / 6) =? n * m then inr (image (packed_pixel n m (negb (len =? 2400)) p) n m) else inl EIO.

Definition ref_mode (mode : gxfp_decode_mode) (p : bytes) (len : Z) : Z + gxfp_decoded_image :=
  match mode with
  | GXFP_DECODE_AUTO => inl ENOENT
  | GXFP_DECODE_MILANG_RAW => if len <? 14784 then inl EINVAL else inr (image (milan_pixel 13 p) 54 176)
  | GXFP_DECODE_MILANG_NAV => if len <? 1344 then inl EINVAL else inr (image (milan_pixel 13 p) 54 16)
  | GXFP_DECODE_CHICAGOH_RAW => ref_packed p len 64 80
  | GXFP_DECODE_CHICAGOH_NAV => ref_packed p len 64 25
  | GXFP_DECODE_CHICAGOH_RAW_U16LE =>
    if len <? 10240 then inl EINVAL else inr (image (word_pixel 80 p) 64 80)
  | GXFP_DECODE_CHICAGOH_NAV_U16LE =>
    if len <? 3200 then inl EINVAL else inr (image (word_pixel 25 p) 64 25)
  end.

(** The format a length stands for: that of the payload, with a header of 5 bytes, a
    checksum of 4 bytes, or both. *)
Definition extra_lengths : list Z := [0; 4; 5; 9].
Definition detected (len : Z) : option (gxfp_decode_mode * Z) :=
  head (filter (λ '(_, pl), len - pl ∈ extra_lengths) modes_table).

Definition ref_decode (mode : gxfp_decode_mode) (p : bytes) (len : Z) : Z + gxfp_decoded_image :=
  match mode with
  | GXFP_DECODE_AUTO =>
    match detected len with
    | Some (m, pl) => ref_mode m (if len - pl <? 5 then p else zdrop 5 p) pl
    | None => inl ENOENT
    end
  | _ => ref_mode mode p len
  end.

Lemma auto_detect_run modes buf len :
  auto_detect_loop modes buf len
  = (λ '(m, pl), {| res_mode := m; res_payload := if len - pl <? 5 then buf else zdrop 5 buf;
                    res_payload_len := pl |})
    <$> head (filter (λ '(_, pl), len - pl ∈ extra_lengths) modes).
Proof.
  induction modes as [|[m pl] modes IH]; [done|]. cbn [auto_detect_loop]. rewrite filter_cons.
  unfold extra_lengths in *.
  destruct (Z.eqb_spec len pl) as [->|H0].
  { rewrite decide_True by (rewrite !elem_of_cons; lia). cbn. by rewrite (proj2 (Z.ltb_lt _ _)) by lia. }
  destruct (Z.eqb_spec len (pl + 4)) as [->|H4].
  { rewrite decide_True by (rewrite !elem_of_cons; lia). cbn.
    by rewrite (proj2 (Z.ltb_lt _ _)) by lia. }
  destruct (Z.eqb_spec len (5 + pl)) as [->|H5].
  { rewrite decide_True by (rewrite !elem_of_cons; lia). cbn.
    by rewrite (proj2 (Z.ltb_ge _ _)) by lia. }
  destruct (Z.eqb_spec len (5 + pl + 4)) as [->|H9].
  { rewrite decide_True by (rewrite !elem_of_cons; lia). cbn.
    by rewrite (proj2 (Z.ltb_ge _ _)) by lia. }
  rewrite decide_False; [done|]. rewrite !elem_of_cons, elem_of_nil. lia.
Qed.

Section decoder_rules.
Context {E : Uenv} {EO : UenvOk E}.

(** The decoder of columns, short buffers included. *)
Lemma decode_columns_run K p len cols need out w :
  let rows := 4 * Z.of_nat K + 2 in
  0 < cols → rows <= 2 ^ 24 → need = (6 * Z.of_nat K + 6) * cols → need < 2 ^ 31 →
  len <= zlen p → bytes_ok p →
  decodes (gxfp_decode_milan (Some p) len rows cols (Some out)) out
    (if len <? need then inl EINVAL else inr (image (milan_pixel K p) rows cols)) w.
Proof using EO.
  intros rows Hc Hr -> Hn Hl Hp. destruct (Z.ltb_spec len ((6 * Z.of_nat K + 6) * cols)).
  - assert (Hrows : rows = 4 * Z.of_nat K + 2) by done.
    assert (0 <= Z.of_nat K * cols) by nia. unfold decodes, gxfp_decode_milan.
    rewrite (proj2 (Z.leb_gt rows 0)), (proj2 (Z.leb_gt cols 0)) by lia. cbn [orb].
    rewrite !ck_int_ok by nia. rewrite !bind_lift.
    replace ((rows + 2) * 3 / 2) with (6 * Z.of_nat K + 6) by (rewrite Hrows; zdm).
    unfold u64. rewrite (Z.mod_small ((6 * Z.of_nat K + 6) * cols)) by lia. cbv zeta.
    rewrite (proj2 (Z.ltb_lt _ _)) by lia. do 3 eexists. split; [done|]. by left.
  - by apply decode_milan_run.
Qed.

Lemma decode_packed_run p len n m out w :
  0 < n → 0 < m → n * m < 2 ^ 31 → len <= zlen p → len < 2 ^ 31 - 6 → bytes_ok p →
  decodes (gxfp_decode_chicago (Some p) len n m false (Some out)) out (ref_packed p len n m) w.
Proof using EO.
  intros Hn Hm Hnm Hl H31 Hp. unfold decodes, gxfp_decode_chicago, ref_packed.
  rewrite (proj2 (Z.leb_gt n 0)), (proj2 (Z.leb_gt m 0)) by lia. cbn [orb].
  rewrite ck_int_ok, bind_lift by lia. destruct (Z.ltb_spec len 6) as [|H6].
  { do 3 eexists. split; [done|]. by left. }
  destruct (umalloc_cases (n * m) w) as [[Eu Ho]|(u & Eu & Hu)]; [lia|..];
    rewrite (run_bind _ _ _ _ _ Eu); cbv iota beta zeta.
  { do 3 eexists. split; [done|]. by right. }
  replace (s32 len) with len by zint.
  destruct (chicago_unpack_run n m (negb (len =? 2400)) p len (Z.to_nat len + 1) 0 (zeros (n * m)))
    as (px & Epx & Hpx); [done..|lia|lia|lia| |].
  { split; [apply zlen_zeros; lia|]. intros _ i Hi. lia. }
  rewrite !Z.mul_0_r in Epx. rewrite Epx, bind_lift. cbv iota beta.
  destruct (Z.eqb_spec (4 * (len / 6)) (n * m)) as [He|He]; cbn [negb];
    do 3 eexists; (split; [done|]); left; [|done].
  rewrite He in Hpx. split; [done|]. unfold image. by rewrite <- (placed_all n m _ p px Hn Hm Hpx).
Qed.

Lemma decode_words_run p len n m need out w :
  0 < n → 0 < m → need = 2 * (n * m) → need < 2 ^ 31 → len <= zlen p → bytes_ok p →
  decodes (gxfp_decode_chicago (Some p) len n m true (Some out)) out
    (if len <? need then inl EINVAL else inr (image (word_pixel m p) n m)) w.
Proof using EO.
  intros Hn Hm -> Hnm Hl Hp. unfold decodes, gxfp_decode_chicago.
  rewrite (proj2 (Z.leb_gt n 0)), (proj2 (Z.leb_gt m 0)) by lia. cbn [orb].
  rewrite ck_int_ok, bind_lift by lia. cbv zeta. rewrite (Z.mul_comm (n * m) 2).
  destruct (Z.ltb_spec len (2 * (n * m))) as [|Hle].
  { do 3 eexists. split; [done|]. by left. }
  destruct (umalloc_cases (n * m) w) as [[Eu Ho]|(u & Eu & Hu)]; [lia|..];
    rewrite (run_bind _ _ _ _ _ Eu); cbv iota beta.
  { do 3 eexists. split; [done|]. by right. }
  rewrite u16le_fill_run by (done || lia). rewrite bind_lift. do 3 eexists. split; [done|]. by left.
Qed.

Lemma decode_mode_run p len mode out w :
  mode ≠ GXFP_DECODE_AUTO → len <= zlen p → len < 2 ^ 31 - 6 → bytes_ok p →
  decodes (decode_mode (Some p) len mode (Some out)) out (ref_mode mode p len) w.
Proof using EO.
  intros Hm Hl H31 Hp. destruct mode; [done|..]; cbn [decode_mode ref_mode].
  - by apply (decode_columns_run 13 p len 176).
  - by apply (decode_columns_run 13 p len 16).
  - by apply decode_packed_run.
  - by apply decode_packed_run.
  - by apply decode_words_run.
  - by apply decode_words_run.
Qed.

Lemma detected_mode len m pl :
  detected len = Some (m, pl) → m ≠ GXFP_DECODE_AUTO ∧ 0 <= pl <= len - (if len - pl <? 5 then 0 else 5).
Proof.
  unfold detected. intros Hh.
  assert (Hin : (m, pl) ∈ filter (λ '(_, pl), len - pl ∈ extra_lengths) modes_table)
    by (destruct (filter _ _) as [|x l]; [done|]; cbn in Hh; injection Hh as ->; apply list_elem_of_here).
  apply list_elem_of_filter in Hin as [Hx Hin]. unfold extra_lengths, modes_table in *.
  rewrite !elem_of_cons, elem_of_nil in Hx. rewrite !elem_of_cons, elem_of_nil in Hin. split; [naive_solver|].
  destruct (Z.ltb_spec (len - pl) 5); naive_solver lia.
Qed.

(** The run of [gxfp_decode_image]. *)
Lemma decode_image_run p len mode out w :
  len <= zlen p → len < 2 ^ 31 - 6 → bytes_ok p →
  decodes (gxfp_decode_image (Some p) len mode (Some out)) out (ref_decode mode p len) w.
Proof using EO.
  intros Hl H31 Hp. destruct (decide (mode = GXFP_DECODE_AUTO)) as [->|Hm].
  - unfold gxfp_decode_image, ref_decode, gxfp_decode_auto_detect. cbn [gxfp_decode_auto_detect].
    rewrite auto_detect_run. fold (detected len). destruct (detected len) as [[m pl]|] eqn:Hd.
    + destruct (detected_mode _ _ _ Hd) as [Hm Hpl]. cbn [fmap option_fmap option_map].
      change (0 <? 0) with false. cbv iota. unfold decodes. rewrite bind_lift.
      cbn [res_payload res_payload_len res_mode].
      apply decode_mode_run; [done|..].
      * destruct (len - pl <? 5); [lia|]. rewrite zlen_zdrop; lia.
      * destruct (len - pl <? 5); lia.
      * destruct (len - pl <? 5); [done|]. by apply bytes_ok_zdrop.
    + do 3 eexists. split; [done|]. by left.
  - unfold gxfp_decode_image, ref_decode. destruct mode; [done|..]; by apply decode_mode_run.
Qed.

(** C32: [gxfp_decode_image] is the reference decoder: for every buffer and every mode,
    AUTO included, it is defined (no access outside the buffers, no overflow), and the
    image is the one whose pixel at row r and column c is the sample of the packed
    stream the format puts there; the lengths that fit no format are refused with the
    error of the reference and the image argument unchanged; only a failed allocation
    (-ENOMEM) can replace the result. *)
Theorem decode_image_pixels p len mode out w
    (Hlen : len <= zlen p) (Hint : len < 2 ^ 31 - 6) (Hp : bytes_ok p) :
  decodes (gxfp_decode_image (Some p) len mode (Some out)) out (ref_decode mode p len) w.
Proof using EO. by apply decode_image_run. Qed.

(** ** The type of an image *)

(** Rows, columns and bits of a pixel. *)
Definition mode_dims (mode : gxfp_decode_mode) : option (Z * Z * Z) :=
  match mode with
  | GXFP_DECODE_AUTO => None
  | GXFP_DECODE_MILANG_RAW => Some (54, 176, 12)
  | GXFP_DECODE_MILANG_NAV => Some (54, 16, 12)
  | GXFP_DECODE_CHICAGOH_RAW => Some (64, 80, 12)
  | GXFP_DECODE_CHICAGOH_NAV => Some (64, 25, 12)
  | GXFP_DECODE_CHICAGOH_RAW_U16LE => Some (64, 80, 16)
  | GXFP_DECODE_CHICAGOH_NAV_U16LE => Some (64, 25, 16)
  end.

Definition image_ok (n m bits : Z) (img : gxfp_decoded_image) : Prop :=
  rows img = n ∧ cols img = m ∧
  ∃ px, pixels img = Some px ∧ zlen px = n * m ∧ Forall (λ v, 0 <= v < 2 ^ bits) px.

Lemma image_typed f n m bits :
  0 <= n → 0 <= m → (∀ r c, 0 <= f r c < 2 ^ bits) → image_ok n m bits (image f n m).
Proof using Type.
  intros Hn Hm Hf. split; [done|]. split; [done|]. eexists. split; [done|].
  split; [by apply zlen_rows_of|]. apply Forall_concat, Forall_fmap, Forall_true. intros r.
  apply Forall_fmap, Forall_true. intros c. apply Hf.
Qed.

Lemma word_pixel_bound m p r c : bytes_ok p → 0 <= word_pixel m p r c < 2 ^ 16.
Proof using Type.
  intros Hp. unfold word_pixel.
  assert (H : ∀ i, 0 <= default 0 (p !! i) < 256).
  { intros i. destruct (p !! i) eqn:Hi; cbn; [by apply (Forall_lookup_1 _ _ _ _ Hp Hi)|lia]. }
  pose proof (H (Z.to_nat (2 * (r * m + c)))). pose proof (H (S (Z.to_nat (2 * (r * m + c))))). lia.
Qed.

Lemma ref_mode_typed mode p len img :
  bytes_ok p → ref_mode mode p len = inr img →
  ∃ n m bits, mode_dims mode = Some (n, m, bits) ∧ image_ok n m bits img.
Proof using Type.
  intros Hp Hr. assert (H12 : ∀ n m t r c, 0 <= packed_pixel n m t p r c < 2 ^ 12)
    by (intros; by apply packed_sample_bound).
  assert (Hc12 : ∀ r c, 0 <= milan_pixel 13 p r c < 2 ^ 12)
    by (intros; by apply packed_sample_bound, milan_column_ok).
  destruct mode; cbn [ref_mode mode_dims] in *; unfold ref_packed in *; try done;
    repeat case_match; simplify_eq; do 3 eexists; (split; [done|]); apply image_typed; try lia;
    eauto using word_pixel_bound.
Qed.

(** C35: what a decoded image is: when [gxfp_decode_image] returns 0 the image has the
    rows and columns of its mode (for AUTO, of the detected one), exactly rows times
    columns pixels, and every pixel fits in the 12 bits of the packed modes or the 16
    bits of the word modes; it never returns 0 when the length is that of no format. *)
Theorem decode_image_typed p len mode out w out' w'
    (Hlen : len <= zlen p) (Hint : len < 2 ^ 31 - 6) (Hp : bytes_ok p)
    (Hrun : gxfp_decode_image (Some p) len mode (Some out) w = Some ((0, out'), w')) :
  ∃ img m n c bits,
    out' = Some img ∧ image_ok n c bits img ∧ mode_dims m = Some (n, c, bits) ∧
    (match mode with GXFP_DECODE_AUTO => fst <$> detected len | _ => Some mode end) = Some m.
Proof using EO.
  destruct (decode_image_run p len mode out w Hlen Hint Hp) as (r & o & w1 & Hr & Hcase).
  rewrite Hr in Hrun. injection Hrun as -> -> _.
  destruct Hcase as [Hcase|(? & _)]; [|done]. unfold ref_decode in Hcase.
  assert (Hgo : ∀ m q l, bytes_ok q →
    match ref_mode m q l with inl e => 0 = - e ∧ out' = Some out | inr img => 0 = 0 ∧ out' = Some img end →
    ∃ img n c bits, out' = Some img ∧ image_ok n c bits img ∧ mode_dims m = Some (n, c, bits)).
  { intros m q l Hq H. destruct (ref_mode m q l) as [e|img] eqn:He.
    - destruct H as [H _]. destruct m; cbn [ref_mode] in He; unfold ref_packed in He;
        repeat case_match; simplify_eq.
    - destruct (ref_mode_typed m q l img Hq He) as (n & c & bits & Hd & Hi).
      destruct H as [_ ->]. by exists img, n, c, bits. }
  destruct (decide (mode = GXFP_DECODE_AUTO)) as [->|Hm].
  - destruct (detected len) as [[m pl]|] eqn:Hd; [|by destruct Hcase].
    apply Hgo in Hcase; [|destruct (len - pl <? 5); [done|by apply bytes_ok_zdrop]].
    destruct Hcase as (img & n & c & bits & -> & Hi & Hdm). by exists img, m, n, c, bits.
  - assert (Hmd : match ref_mode mode p len with
            | inl e => 0 = - e ∧ out' = Some out | inr img => 0 = 0 ∧ out' = Some img end)
      by (destruct mode; done).
    apply Hgo in Hmd; [|done]. destruct Hmd as (img & n & c & bits & -> & Hi & Hdm).
    exists img, mode, n, c, bits. by destruct mode.
Qed.
End decoder_rules.

(** * A concrete decoding *)

Definition nav_buffer : bytes := replicate 1349 171.
Definition no_image : gxfp_decoded_image := {| pixels := None; rows := 0; cols := 0 |}.
Definition fresh_world : lworld := {| l_dev := None; l_trace := []; l_oom := [] |}.

#[local] Instance silent_ok : UenvOk (script_env []).
Proof. apply script_env_ok. constructor. Defined.

Lemma nav_buffer_ok : bytes_ok nav_buffer.
Proof. by apply Forall_replicate. Qed.

(** A MILAN navigation image behind its 5-byte header. *)
Lemma decode_image_pixels_witness :
  1349 <= zlen nav_buffer ∧
  decodes (gxfp_decode_image (E := script_env []) (Some nav_buffer) 1349 GXFP_DECODE_AUTO (Some no_image))
    no_image (inr (image (milan_pixel 13 (zdrop 5 nav_buffer)) 54 16)) fresh_world.
Proof.
  split; [done|]. change (inr _) with (ref_decode GXFP_DECODE_AUTO nav_buffer 1349).
  apply (decode_image_pixels (E := script_env [])); [done|lia|exact nav_buffer_ok].
Defined.

Lemma decode_image_typed_witness :
  ∃ out' w', gxfp_decode_image (E := script_env []) (Some nav_buffer) 1349 GXFP_DECODE_AUTO
               (Some no_image) fresh_world = Some ((0, out'), w') ∧
  ∃ img m n c bits,
    out' = Some img ∧ image_ok n c bits img ∧ mode_dims m = Some (n, c, bits) ∧
    fst <$> detected 1349 = Some m.
Proof.
  pose proof (decode_image_run (E := script_env []) nav_buffer 1349 GXFP_DECODE_AUTO no_image
    fresh_world ltac:(done) ltac:(lia) nav_buffer_ok) as (r & o & w1 & Hr & Hcase).
  assert (Href : ref_decode GXFP_DECODE_AUTO nav_buffer 1349
                 = inr (image (milan_pixel 13 (zdrop 5 nav_buffer)) 54 16)) by reflexivity.
  rewrite Href in Hcase. clear Href.
  destruct Hcase as [Hcase|(_ & _ & Hn)]; [|by destruct Hn]. destruct Hcase as [H0 _]. subst r.
  exists o, w1. split; [exact Hr|].
  pose proof (decode_image_typed (E := script_env []) nav_buffer 1349 GXFP_DECODE_AUTO no_image
    fresh_world o w1 ltac:(done) ltac:(lia) nav_buffer_ok Hr) as Ht.
  exact Ht.
Defined.
