(* ===== verification/UPlain.v ===== *)
(** The decrypted image stream: [userspace/src/algo/image/plain.c]. Frames of the
    stream whose command is an image are kept when their checksum, a CRC-32 computed
    with a table, is right. *)
From Stdlib Require Import ZArith Lia.
From stdpp Require Import prelude list.
From S2P Require Import Prelude KGoodixProto UGoodixProto UWorld UCommon UXfer.

Open Scope Z_scope.

(** [static uint32_t table[256]; static int table_inited;] *)
Record crc_static := {
  table : list Z;
  table_inited : Z
}.

Definition crc_static0 : crc_static := {| table := zeros 256; table_inited := 0 |}.

(** The inner loop: [bit] from 0 to 7. *)
Definition crc32_mpeg2_bits (local_c : Z) : option (Z * Z) :=
  forN 8 0 (λ _ '(local_c, local_crc),
    let local_crc :=
      if Z.land (Z.lxor local_c local_crc) 2147483648 =? 0 then u32 (Z.shiftl local_crc 1)
      else Z.lxor (u32 (Z.shiftl local_crc 1)) 79764919 in (* 0x04C11DB7 *)
    Some (u32 (Z.shiftl local_c 1), local_crc)) (local_c, 0).

Definition crc32_mpeg2_init_table (t : list Z) : option (list Z) :=
  forN 256 0 (λ i t,
    '(_, local_crc) ← crc32_mpeg2_bits (u32 (Z.shiftl i 24));
    wr t i local_crc) t.

Definition crc32_mpeg2 (st : crc_static) (buf : bytes) (len : Z) : option (Z * crc_static) :=
  st ← (if table_inited st =? 0
        then t ← crc32_mpeg2_init_table (table st); Some {| table := t; table_inited := 1 |}
        else Some st);
  crc ← forN (Z.to_nat len) 0 (λ i crc,
          b ← rd buf i;
          e ← rd (table st) (Z.land (Z.lxor (Z.shiftr crc 24) b) 255);
          Some (Z.lxor e (u32 (Z.shiftl crc 8)))) 4294967295;
  Some (crc, st).

Definition gxfp_image_crc_check (st : crc_static) (buf : ptr bytes) (len : Z)
    : option (bool * crc_static) :=
  match buf with
  | None => Some (false, st)
  | Some b =>
    if len <? 4 then Some (false, st) else
    '(crc, st) ← crc32_mpeg2 st b (len - 4);
    x2 ← rd b (len - 2);
    x1 ← rd b (len - 1);
    x4 ← rd b (len - 4);
    x3 ← rd b (len - 3);
    let expected := Z.lor (Z.lor (Z.lor (Z.shiftl x2 24) (Z.shiftl x1 16)) (Z.shiftl x4 8)) x3 in
    Some (crc =? expected, st)
  end.

Record gxfp_plain_image_sink := {
  hdr : bytes;
  body : ptr bytes;
  body_len : Z;
  have_oneframe : Z
}.

Section plain.
Context {E : Uenv}.

Definition gxfp_plain_image_sink_append (st : crc_static) (s : ptr gxfp_plain_image_sink)
    (p : ptr bytes) (n : Z) : M lworld (Z * crc_static * ptr gxfp_plain_image_sink) :=
  match s, p with
  | Some k, Some b =>
    if n =? 0 then mret (0, st, s) else
    if negb (have_oneframe k =? 0) then mret (0, st, s) else
    if n <? 5 then mret (0, st, s) else
    let bd := zdrop 5 b in
    let bd_len := n - 5 in
    '(ok, st) ← lift (gxfp_image_crc_check st (Some bd) bd_len);
    if negb ok then mret (0, st, s) else
    buf ← umalloc bd_len;
    match buf with
    | None => mret (- ENOMEM, st, s)
    | Some buf =>
      buf ← lift (memcpy buf 0 bd 0 bd_len);
      h ← lift (memcpy (hdr k) 0 b 0 5);
      mret (0, st, Some {| hdr := h; body := Some buf; body_len := bd_len; have_oneframe := 1 |})
    end
  | _, _ => mret (0, st, s)
  end.

(** The body is cleared, then freed. *)
Definition gxfp_plain_image_sink_reset (s : ptr gxfp_plain_image_sink)
    : option (ptr gxfp_plain_image_sink) :=
  match s with
  | None => Some None
  | Some k =>
    _ ← match body k with
        | Some b => if body_len k =? 0 then Some b else memset0 b (body_len k)
        | None => Some []
        end;
    h ← memset0 (hdr k) 5;
    Some (Some {| hdr := h; body := None; body_len := 0; have_oneframe := 0 |})
  end.

Definition gxfp_plain_image_sink_extract (s : ptr gxfp_plain_image_sink) (out_hdr : ptr bytes)
    (out_body : ptr (ptr bytes)) (out_body_len : ptr Z)
    : M lworld (Z * ptr gxfp_plain_image_sink * ptr bytes * ptr (ptr bytes) * ptr Z) :=
  match s, out_body, out_body_len with
  | Some k, Some _, Some _ =>
    let out_body := setp out_body None in
    let out_body_len := setp out_body_len 0 in
    out_hdr ← lift (match out_hdr with
                    | Some h => h ← memset0 h 5; Some (Some h)
                    | None => Some None
                    end);
    match body k with
    | None => mret (0, s, out_hdr, out_body, out_body_len)
    | Some b =>
      if (have_oneframe k =? 0) || (body_len k =? 0)
      then mret (0, s, out_hdr, out_body, out_body_len) else
      let len := body_len k in
      copy ← umalloc len;
      match copy with
      | None => mret (- ENOMEM, s, out_hdr, out_body, out_body_len)
      | Some copy =>
        copy ← lift (memcpy copy 0 b 0 len);
        out_hdr ← lift (match out_hdr with
                        | Some h => h ← memcpy h 0 (hdr k) 0 5; Some (Some h)
                        | None => Some None
                        end);
        lift (memset0 b len);;
        mret (1, Some {| hdr := hdr k; body := None; body_len := 0; have_oneframe := 0 |},
              out_hdr, setp out_body (Some copy), setp out_body_len len)
      end
    end
  | _, _, _ => mret (- EINVAL, s, out_hdr, out_body, out_body_len)
  end.

(** What the scan does with a frame: an image is offered to the sink. *)
Definition scan_frame (st : crc_static) (sink : ptr gxfp_plain_image_sink) (frame : gxfp_frame_parsed)
    : M lworld (crc_static * ptr gxfp_plain_image_sink) :=
  let cmd0 := u8 (Z.land (Z.shiftr (cmd frame) 4) 15) in
  if cmd0 =? 2 then
    if negb (5 <=? payload_len frame) then mret (st, sink) else
    p ← lift (payload frame);
    b0 ← lift (rd p 0);
    if negb (b0 =? 170) then
      '(_, st, sink) ← gxfp_plain_image_sink_append st sink (payload frame) (payload_len frame);
      mret (st, sink)
    else mret (st, sink)
  else mret (st, sink).

(** [for (off = 0; off + 4 <= len; off++)] *)
Fixpoint scan_loop (fuel : nat) (st : crc_static) (buf : bytes) (len off : Z)
    (sink : ptr gxfp_plain_image_sink) : M lworld (crc_static * ptr gxfp_plain_image_sink) :=
  match fuel with
  | O => ub
  | S fuel =>
    if negb (off + 4 <=? len) then mret (st, sink) else
    '(ok, frame) ← lift (gxfp_parse_goodix_body (Some (zdrop off buf)) (len - off) (Some frame_zero));
    frame ← lift frame;
    if negb ok || negb (valid frame) then scan_loop fuel st buf len (off + 1) sink else
    let total := payload_len frame + 4 in
    '(st, sink) ← scan_frame st sink frame;
    let off := if (0 <? total) && (off + total <=? len) then off + (total - 1) else off in
    scan_loop fuel st buf len (off + 1) sink
  end.

Definition gxfp_plain_scan_for_nonpov_image_chunks (st : crc_static) (buf : ptr bytes) (len : Z)
    (sink : ptr gxfp_plain_image_sink) : M lworld (crc_static * ptr gxfp_plain_image_sink) :=
  match buf, sink with
  | Some b, Some _ =>
    if len <? 8 then mret (st, sink) else
    scan_loop (S (Z.to_nat len)) st b len 0 sink
  | _, _ => mret (st, sink)
  end.
End plain.

(** * The checksum, bit by bit *)

(** One bit: the register moves left, and the polynomial is added when a one leaves. *)
Definition crc_step (x : Z) : Z :=
  Z.lxor (u32 (Z.shiftl x 1)) (if Z.testbit x 31 then 79764919 else 0).

(** One byte. *)
Definition crc_byte (c b : Z) : Z := Nat.iter 8 crc_step (Z.lxor c (Z.shiftl b 24)).

(** CRC-32/MPEG-2. *)
Definition crc_spec (b : bytes) : Z := foldl crc_byte 4294967295 b.

(** ** The register *)

Lemma u32_shiftl_lxor x y n :
  0 <= n → u32 (Z.shiftl (Z.lxor x y) n) = Z.lxor (u32 (Z.shiftl x n)) (u32 (Z.shiftl y n)).
Proof.
  intros Hn. unfold u32. apply Z.bits_inj'. intros i Hi. rewrite Z.lxor_spec.
  destruct (Z.lt_ge_cases i 32).
  - rewrite !Z.mod_pow2_bits_low by lia. rewrite !Z.shiftl_spec by lia. apply Z.lxor_spec.
  - by rewrite !Z.mod_pow2_bits_high by lia.
Qed.

(** The register's step is linear. *)
Lemma crc_step_lxor x y : crc_step (Z.lxor x y) = Z.lxor (crc_step x) (crc_step y).
Proof.
  unfold crc_step. rewrite u32_shiftl_lxor, Z.lxor_spec by lia.
  set (a := u32 (Z.shiftl x 1)). set (b := u32 (Z.shiftl y 1)). set (q := 79764919).
  destruct (Z.testbit x 31), (Z.testbit y 31); cbn [xorb]; apply Z.bits_inj'; intros i _;
    rewrite !Z.lxor_spec, ?Z.bits_0;
    by destruct (Z.testbit a i), (Z.testbit b i), (Z.testbit q i).
Qed.

Lemma crc_iter_lxor n x y :
  Nat.iter n crc_step (Z.lxor x y) = Z.lxor (Nat.iter n crc_step x) (Nat.iter n crc_step y).
Proof. induction n as [|n IH]; [done|]. rewrite !Nat.iter_succ, IH. apply crc_step_lxor. Qed.

Lemma testbit31 x : is_u32 x → Z.testbit x 31 = (2 ^ 31 <=? x).
Proof.
  unfold is_u32. intros Hx. rewrite Z.testbit_eqb by lia. destruct (Z.leb_spec (2 ^ 31) x).
  - assert (x / 2 ^ 31 = 1) as -> by zdm. done.
  - assert (x / 2 ^ 31 = 0) as -> by zdm. done.
Qed.

Lemma lxor_u32 x y : is_u32 x → is_u32 y → is_u32 (Z.lxor x y).
Proof.
  unfold is_u32. intros Hx Hy. split; [by apply Z.lxor_nonneg; split; lia|].
  destruct (Z.eq_dec (Z.lxor x y) 0) as [->|Hne]; [done|].
  assert (0 <= Z.lxor x y) by (apply Z.lxor_nonneg; split; lia).
  apply Z.log2_lt_pow2; [lia|]. pose proof (Z.log2_lxor x y ltac:(lia) ltac:(lia)).
  assert (∀ z, 0 <= z < 2 ^ 32 → Z.log2 z < 32).
  { intros z Hz. destruct (Z.eq_dec z 0) as [->|]; [done|]. apply Z.log2_lt_pow2; lia. }
  pose proof (H1 x Hx). pose proof (H1 y Hy). lia.
Qed.

Lemma crc_step_u32 x : is_u32 (crc_step x).
Proof. unfold crc_step. apply lxor_u32; [zint|by destruct (Z.testbit x 31)]. Qed.

(** A byte can be found again from what it makes of the register. *)
Lemma crc_step_inj x y : is_u32 x → is_u32 y → crc_step x = crc_step y → x = y.
Proof.
  intros Hx Hy He. pose proof (f_equal (λ z, Z.testbit z 0) He) as H0. unfold crc_step in He, H0.
  rewrite !testbit31 in He, H0 by done. rewrite !Z.lxor_spec in H0.
  assert (Hev : ∀ z, Z.testbit (u32 (Z.shiftl z 1)) 0 = false).
  { intros z. unfold u32. rewrite Z.mod_pow2_bits_low by lia. by rewrite Z.shiftl_spec_low by lia. }
  rewrite !Hev in H0. cbn [xorb] in H0.
  assert (Hsame : (2 ^ 31 <=? x) = (2 ^ 31 <=? y)) by (destruct (2 ^ 31 <=? x), (2 ^ 31 <=? y); done).
  rewrite Hsame in He. apply (f_equal (λ z, Z.lxor z (if 2 ^ 31 <=? y then 79764919 else 0))) in He.
  rewrite !Z.lxor_assoc, !Z.lxor_nilpotent, !Z.lxor_0_r in He. rewrite !Z.shiftl_mul_pow2 in He by lia.
  destruct (Z.leb_spec (2 ^ 31) x), (Z.leb_spec (2 ^ 31) y); try done; zint.
Qed.

Lemma crc_iter_inj n x y :
  is_u32 x → is_u32 y → Nat.iter n crc_step x = Nat.iter n crc_step y → x = y.
Proof.
  intros Hx Hy. induction n as [|n IH]; [done|]. rewrite !Nat.iter_succ. intros He. apply IH.
  apply crc_step_inj; [..|done]; destruct n; rewrite ?Nat.iter_succ; try done; apply crc_step_u32.
Qed.

Lemma shiftl24_u32 b : is_u8 b → is_u32 (Z.shiftl b 24).
Proof. intros. rewrite Z.shiftl_mul_pow2 by lia. zint. Qed.

Lemma crc_byte_u32 c b : is_u32 (crc_byte c b).
Proof. unfold crc_byte. rewrite Nat.iter_succ. apply crc_step_u32. Qed.

Lemma lxor_cancel a x y : Z.lxor a x = Z.lxor a y → x = y.
Proof.
  intros H. apply (f_equal (Z.lxor a)) in H.
  by rewrite <- !Z.lxor_assoc, Z.lxor_nilpotent, !Z.lxor_0_l in H.
Qed.

Lemma crc_byte_inj c d x y :
  is_u32 c → is_u32 d → is_u8 x → is_u8 y → crc_byte c x = crc_byte d y →
  Z.lxor c (Z.shiftl x 24) = Z.lxor d (Z.shiftl y 24).
Proof.
  intros Hc Hd Hx Hy. unfold crc_byte. apply crc_iter_inj; apply lxor_u32; auto using shiftl24_u32.
Qed.

Lemma crc_byte_inj_l c d b : is_u32 c → is_u32 d → is_u8 b → crc_byte c b = crc_byte d b → c = d.
Proof.
  intros Hc Hd Hb He. apply crc_byte_inj in He; [|done..].
  rewrite !(Z.lxor_comm _ (Z.shiftl b 24)) in He. by apply lxor_cancel in He.
Qed.

Lemma crc_byte_inj_r c x y : is_u32 c → is_u8 x → is_u8 y → crc_byte c x = crc_byte c y → x = y.
Proof.
  intros Hc Hx Hy He. apply crc_byte_inj in He; [|done..]. apply lxor_cancel in He.
  rewrite !Z.shiftl_mul_pow2 in He by lia. lia.
Qed.

Lemma crc_fold_u32 b c : is_u32 c → is_u32 (foldl crc_byte c b).
Proof. revert c. induction b as [|x b IH]; intros c Hc; [done|]. cbn [foldl]. apply IH, crc_byte_u32. Qed.

Lemma crc_fold_inj b c d :
  bytes_ok b → is_u32 c → is_u32 d → foldl crc_byte c b = foldl crc_byte d b → c = d.
Proof.
  revert c d. induction b as [|x b IH]; intros c d Hb Hc Hd He; [done|].
  apply bytes_ok_cons in Hb as [Hx Hb]. cbn [foldl] in He.
  apply IH in He; [|exact Hb|apply crc_byte_u32..]. exact (crc_byte_inj_l _ _ _ Hc Hd Hx He).
Qed.

(** A change of one byte changes the checksum. *)
Lemma crc_one_byte p x y q :
  bytes_ok q → is_u8 x → is_u8 y → crc_spec (p ++ x :: q) = crc_spec (p ++ y :: q) → x = y.
Proof.
  intros Hq Hx Hy He. unfold crc_spec in He. rewrite !foldl_app in He. cbn [foldl] in He.
  apply crc_fold_inj in He; [|exact Hq|apply crc_byte_u32..].
  apply (crc_byte_inj_r (foldl crc_byte 4294967295 p)); [by apply crc_fold_u32|done|done|exact He].
Qed.

(** ** The table *)

Definition crc_table : list Z := (λ i, Nat.iter 8 crc_step (Z.shiftl (Z.of_nat i) 24)) <$> seq 0 256.

(** The static variables, before the first use or after it. *)
Definition static_ok (st : crc_static) : Prop :=
  (table_inited st = 0 ∧ table st = zeros 256) ∨ (table_inited st = 1 ∧ table st = crc_table).

Lemma init_table_run : crc32_mpeg2_init_table (zeros 256) = Some crc_table.
Proof. vm_compute. reflexivity. Qed.

(** Eight steps of a register whose top byte is 0 move it by a byte. *)
Lemma crc_iter_small n l :
  (n <= 8)%nat → 0 <= l < 2 ^ 24 → Nat.iter n crc_step l = l * 2 ^ Z.of_nat n.
Proof.
  intros Hn Hl. induction n as [|n IH]; [cbn; lia|]. rewrite Nat.iter_succ, IH by lia.
  assert (Hp : 1 <= 2 ^ Z.of_nat n <= 2 ^ 7)
    by (split; [apply (Z.pow_le_mono_r 2 0)|apply Z.pow_le_mono_r]; lia).
  set (v := l * 2 ^ Z.of_nat n). assert (Hv : 0 <= v < 2 ^ 31) by (unfold v; nia).
  unfold crc_step. rewrite testbit31 by (unfold is_u32; lia).
  rewrite (proj2 (Z.leb_gt _ _)), Z.lxor_0_r, Z.shiftl_mul_pow2 by lia.
  unfold u32. rewrite Z.mod_small by lia. unfold v.
  rewrite Nat2Z.inj_succ, Z.pow_succ_r by lia. lia.
Qed.

Lemma crc_entry c b :
  is_u32 c → is_u8 b →
  rd crc_table (Z.land (Z.lxor (Z.shiftr c 24) b) 255)
  = Some (Nat.iter 8 crc_step (Z.shiftl (Z.lxor (c / 2 ^ 24) b) 24)).
Proof.
  intros Hc Hb. rewrite shiftr_div by lia.
  assert (Hx : is_u8 (Z.lxor (c / 2 ^ 24) b)).
  { assert (is_u8 (c / 2 ^ 24)) by zint.
    assert (0 <= Z.lxor (c / 2 ^ 24) b) by (apply Z.lxor_nonneg; unfold is_u8 in *; split; lia).
    split; [done|]. destruct (Z.eq_dec (Z.lxor (c / 2 ^ 24) b) 0) as [->|]; [done|].
    apply Z.log2_lt_pow2; [lia|]. unfold is_u8 in *.
    pose proof (Z.log2_lxor (c / 2 ^ 24) b ltac:(lia) ltac:(lia)).
    assert (Hlog : ∀ z, 0 <= z < 2 ^ 8 → Z.log2 z < 8).
    { intros z Hz. destruct (Z.eq_dec z 0) as [->|]; [done|]. apply Z.log2_lt_pow2; lia. }
    pose proof (Hlog (c / 2 ^ 24) ltac:(lia)). pose proof (Hlog b ltac:(lia)). lia. }
  rewrite land_255. unfold is_u8 in Hx. rewrite Z.mod_small by lia.
  set (i := Z.lxor _ _) in *. unfold rd. rewrite (proj2 (Z.leb_le 0 i)) by lia.
  unfold crc_table. rewrite list_lookup_fmap, lookup_seq_lt by lia. cbn [fmap option_fmap option_map].
  by rewrite Nat.add_0_l, Z2Nat.id by lia.
Qed.

(** A byte through the table is a byte through the register. *)
Lemma crc_table_step c b :
  is_u32 c → is_u8 b →
  Z.lxor (Nat.iter 8 crc_step (Z.shiftl (Z.lxor (c / 2 ^ 24) b) 24)) (u32 (Z.shiftl c 8)) = crc_byte c b.
Proof.
  intros Hc Hb. unfold crc_byte.
  assert (Hsplit : Z.lxor c (Z.shiftl b 24)
                   = Z.lxor (Z.shiftl (Z.lxor (c / 2 ^ 24) b) 24) (c mod 2 ^ 24)).
  { rewrite Z.shiftl_lxor, (Z.lxor_comm (Z.shiftl (c / 2 ^ 24) 24)), Z.lxor_assoc.
    rewrite (Z.lxor_comm c). f_equal. rewrite Z.shiftl_mul_pow2 by lia.
    apply Z.bits_inj'. intros i Hi. rewrite Z.lxor_spec, <- Z.shiftl_mul_pow2, Z.shiftl_spec by lia.
    destruct (Z.lt_ge_cases i 24).
    - rewrite (Z.testbit_neg_r (c / 2 ^ 24)), Z.mod_pow2_bits_low by lia. by destruct (Z.testbit c i).
    - rewrite Z.mod_pow2_bits_high, Z.div_pow2_bits by lia.
      replace (i - 24 + 24) with i by lia. by destruct (Z.testbit c i). }
  rewrite Hsplit, crc_iter_lxor. f_equal. rewrite crc_iter_small by (lia || zdm).
  rewrite Z.shiftl_mul_pow2 by lia. change (Z.of_nat 8) with 8. unfold is_u32 in Hc. zint.
Qed.

(** The loop over a buffer. *)
Lemma crc_loop pre b rest c :
  is_u32 c → bytes_ok b →
  forN (length b) (zlen pre) (λ i crc,
    b0 ← rd (pre ++ b ++ rest) i;
    e ← rd crc_table (Z.land (Z.lxor (Z.shiftr crc 24) b0) 255);
    Some (Z.lxor e (u32 (Z.shiftl crc 8)))) c
  = Some (foldl crc_byte c b).
Proof.
  revert pre c. induction b as [|x b IH]; intros pre c Hc Hb; [done|].
  apply bytes_ok_cons in Hb as [Hx Hb]. cbn [length forN foldl].
  change ((x :: b) ++ rest) with (x :: b ++ rest). rewrite rd_middle by done.
  cbn [mbind option_bind]. rewrite (crc_entry c x Hc Hx). cbn [mbind option_bind].
  rewrite crc_table_step by done.
  change (pre ++ x :: b ++ rest) with (pre ++ [x] ++ b ++ rest). rewrite (app_assoc pre).
  replace (zlen pre + 1) with (zlen (pre ++ [x])) by (rewrite zlen_app; done).
  apply IH; [apply crc_byte_u32|done].
Qed.

Definition static_on : crc_static := {| table := crc_table; table_inited := 1 |}.

Lemma crc32_run st b rest :
  static_ok st → bytes_ok b →
  crc32_mpeg2 st (b ++ rest) (zlen b) = Some (crc_spec b, static_on).
Proof.
  intros Hst Hb. unfold crc32_mpeg2.
  assert (Hi : (if table_inited st =? 0
                then t ← crc32_mpeg2_init_table (table st); Some {| table := t; table_inited := 1 |}
                else Some st) = Some static_on).
  { destruct Hst as [(-> & ->)|(E1 & E2)].
    - cbn [Z.eqb]. by rewrite init_table_run.
    - rewrite E1. cbn [Z.eqb]. unfold static_on. rewrite <- E2, <- E1. by destruct st. }
  rewrite Hi. cbn [mbind option_bind static_on table].
  pose proof (crc_loop [] b rest 4294967295 ltac:(done) Hb) as Hl.
  replace (Z.to_nat (zlen b)) with (length b) by (unfold zlen; lia).
  change (@zlen Z []) with 0 in Hl. cbn [app] in Hl. by rewrite Hl.
Qed.

(** The four bytes that end an image: the checksum, its halves exchanged. *)
Definition crc_trailer (crc : Z) : bytes :=
  [crc / 2 ^ 8 mod 2 ^ 8; crc mod 2 ^ 8; crc / 2 ^ 24; crc / 2 ^ 16 mod 2 ^ 8].

Definition image_ok (b : bytes) : Prop :=
  ∃ content, b = content ++ crc_trailer (crc_spec content).

Lemma trailer_inj c x4 x3 x2 x1 :
  is_u32 c → is_u8 x4 → is_u8 x3 → is_u8 x2 → is_u8 x1 →
  (c =? Z.lor (Z.lor (Z.lor (Z.shiftl x2 24) (Z.shiftl x1 16)) (Z.shiftl x4 8)) x3)
  = bool_decide ([x4; x3; x2; x1] = crc_trailer c).
Proof.
  intros Hc H4 H3 H2 H1. unfold is_u8, is_u32 in *.
  assert (Ev : Z.lor (Z.lor (Z.lor (Z.shiftl x2 24) (Z.shiftl x1 16)) (Z.shiftl x4 8)) x3
               = x3 + x4 * 2 ^ 8 + x1 * 2 ^ 16 + x2 * 2 ^ 24).
  { rewrite <- (Z.lor_assoc (Z.lor (Z.shiftl x2 24) _)), (Z.lor_comm (Z.shiftl x4 8)), (lor_shiftl x3 x4 8) by lia.
    rewrite <- Z.lor_assoc, (Z.lor_comm (Z.shiftl x2 24)), (Z.lor_comm (Z.shiftl x1 16)).
    rewrite (lor_shiftl _ x1 16), (lor_shiftl _ x2 24) by lia. lia. }
  rewrite Ev. symmetry. destruct (Z.eqb_spec c (x3 + x4 * 2 ^ 8 + x1 * 2 ^ 16 + x2 * 2 ^ 24)) as [->|Hne].
  - apply bool_decide_eq_true_2. unfold crc_trailer. do 3 (f_equal; [zdm|]). f_equal. zdm.
  - apply bool_decide_eq_false_2. unfold crc_trailer. intros [= E4 E3 E2 E1]. apply Hne.
    rewrite E4, E3, E2, E1. zdm.
Qed.

(** The image check, as a property of the bytes. *)
Definition image_okb (b : bytes) : bool :=
  (4 <=? zlen b) &&
  bool_decide (zdrop (zlen b - 4) b = crc_trailer (crc_spec (ztake (zlen b - 4) b))).

Lemma image_okb_spec b : image_okb b = true ↔ image_ok b.
Proof.
  unfold image_okb, image_ok. rewrite andb_true_iff, Z.leb_le, bool_decide_eq_true. split.
  - intros (Hl & He). exists (ztake (zlen b - 4) b). rewrite <- He. by rewrite ztake_zdrop.
  - intros (c & ->). rewrite !zlen_app. change (zlen (crc_trailer _)) with 4.
    pose proof (zlen_nonneg c). split; [lia|]. replace (zlen c + 4 - 4) with (zlen c) by lia.
    by rewrite zdrop_app, ztake_app.
Qed.

Lemma image_crc_run st b rest :
  static_ok st → bytes_ok b →
  ∃ st', gxfp_image_crc_check st (Some (b ++ rest)) (zlen b) = Some (image_okb b, st') ∧ static_ok st'.
Proof.
  intros Hst Hb. unfold gxfp_image_crc_check, image_okb.
  destruct (Z.ltb_spec (zlen b) 4) as [H4|H4].
  { exists st. by rewrite (proj2 (Z.leb_gt 4 _)). }
  rewrite (proj2 (Z.leb_le 4 _)) by done. cbn [andb].
  set (content := ztake (zlen b - 4) b). set (t := zdrop (zlen b - 4) b).
  assert (Eb : b = content ++ t) by (symmetry; apply ztake_zdrop).
  assert (Hc : zlen content = zlen b - 4) by (apply zlen_ztake; lia).
  assert (Ht : zlen t = 4) by (unfold t; rewrite zlen_zdrop by lia; lia).
  clearbody content t. subst b. rewrite zlen_app, Ht in *. clear H4.
  replace (zlen content + 4 - 4) with (zlen content) by lia.
  apply bytes_ok_app in Hb as [Hbc Hbt].
  destruct t as [|x4 [|x3 [|x2 [|x1 [|x0 t]]]]]; try discriminate Ht; cycle 1.
  { rewrite !zlen_cons in Ht. pose proof (zlen_nonneg t). lia. }
  rewrite !bytes_ok_cons in Hbt. destruct Hbt as (H4 & H3 & H2 & H1 & _).
  rewrite <- app_assoc. rewrite crc32_run by done. cbn [mbind option_bind].
  assert (Hrd : ∀ j, 0 <= j < 4 → rd (content ++ [x4; x3; x2; x1] ++ rest) (zlen content + j) = rd [x4; x3; x2; x1] j).
  { intros j Hj. rewrite rd_app_r by lia. replace (zlen content + j - zlen content) with j by lia.
    apply rd_app_l. change (zlen [x4; x3; x2; x1]) with 4. lia. }
  replace (zlen content + 4 - 2) with (zlen content + 2) by lia.
  replace (zlen content + 4 - 1) with (zlen content + 3) by lia.
  replace (zlen content + 4 - 3) with (zlen content + 1) by lia.
  replace (rd (content ++ [x4; x3; x2; x1] ++ rest) (zlen content)) with (Some x4)
    by (symmetry; by apply rd_middle).
  rewrite !Hrd by lia.
  change (rd [x4; x3; x2; x1] 2) with (Some x2). change (rd [x4; x3; x2; x1] 3) with (Some x1).
  change (rd [x4; x3; x2; x1] 1) with (Some x3). cbn [mbind option_bind].
  exists static_on. rewrite trailer_inj by (done || by apply crc_fold_u32).
  split; [done|]. by right.
Qed.

(** * The sink *)

(** A kept image. *)
Definition captured (pl : bytes) : gxfp_plain_image_sink :=
  {| hdr := ztake 5 pl; body := Some (zdrop 5 pl); body_len := zlen pl - 5; have_oneframe := 1 |}.

(** The frames that are kept: an image command, a payload that is not a
    point-of-view image, and a right checksum. *)
Definition is_image (c : Z) (pl : bytes) : bool :=
  (c / 16 =? 2) && (5 <=? zlen pl) && negb (default 0 (head pl) =? 170) && image_okb (zdrop 5 pl).

Section plain_rules.
Context {E : Uenv} {EO : UenvOk E}.

Lemma append_full st k p n w :
  have_oneframe k ≠ 0 → gxfp_plain_image_sink_append st (Some k) (Some p) n w = Some ((0, st, Some k), w).
Proof using Type.
  intros Hk. unfold gxfp_plain_image_sink_append. destruct (n =? 0); [done|].
  by rewrite (proj2 (Z.eqb_neq _ _) Hk).
Qed.

Lemma append_run st k pl rest w :
  static_ok st → have_oneframe k = 0 → zlen (hdr k) = 5 → bytes_ok pl → 5 <= zlen pl →
  wp (gxfp_plain_image_sink_append st (Some k) (Some (pl ++ rest)) (zlen pl))
     (λ '(r, st', s') w', static_ok st' ∧ (w' = w ∨ w' = pop_alloc w) ∧
        (if image_okb (zdrop 5 pl)
         then s' = Some (captured pl) ∨ (s' = Some k ∧ r = - ENOMEM ∧ l_oom w ≠ [])
         else s' = Some k)) w.
Proof using EO.
  intros Hst Hk Hh Hpl Hn. unfold gxfp_plain_image_sink_append.
  rewrite (proj2 (Z.eqb_neq _ _)) by lia. rewrite Hk. cbn [Z.eqb negb].
  rewrite (proj2 (Z.ltb_ge _ 5)) by lia.
  assert (Ed : zdrop 5 (pl ++ rest) = zdrop 5 pl ++ rest).
  { rewrite <- (ztake_zdrop 5 pl) at 1. rewrite <- app_assoc. apply zdrop_app, zlen_ztake. lia. }
  rewrite Ed. replace (zlen pl - 5) with (zlen (zdrop 5 pl)) by (rewrite zlen_zdrop by lia; lia).
  destruct (image_crc_run st (zdrop 5 pl) rest Hst) as (st' & -> & Hst'); [by apply bytes_ok_zdrop|].
  apply wp_bind. eapply wp_lift; [done|]. cbv zeta iota beta.
  destruct (image_okb (zdrop 5 pl)); cbn [negb]; [|by apply wp_ret; split; [|split; [left|]]].
  apply wp_bind. unfold wp. rewrite umalloc_run. destruct (l_oom w) as [|[] oom] eqn:Ho.
  2: { split; [done|]. split; [by right|]. right. done. }
  all: set (u := u_uninit _ _).
  all: assert (Hu : zlen u = zlen (zdrop 5 pl)) by (apply u_uninit_len, zlen_nonneg).
  all: assert (Hm : memcpy u 0 (zdrop 5 pl ++ rest) 0 (zlen (zdrop 5 pl)) = Some (zdrop 5 pl)).
  1,3: unfold memcpy; rewrite slice_prefix by done; cbn [mbind option_bind];
    rewrite (blit_eq u 0 (zdrop 5 pl) [] u []) by (rewrite ?app_nil_r; done);
    by rewrite app_nil_r.
  all: rewrite Hm, bind_lift.
  all: assert (Hm2 : memcpy (hdr k) 0 (pl ++ rest) 0 5 = Some (ztake 5 pl)).
  1,3: unfold memcpy; rewrite <- (ztake_zdrop 5 pl) at 1; rewrite <- app_assoc;
    rewrite slice_prefix by (apply zlen_ztake; lia); cbn [mbind option_bind];
    rewrite (blit_eq (hdr k) 0 (ztake 5 pl) [] (hdr k) []) by (rewrite ?app_nil_r, ?zlen_ztake; done || lia);
    by rewrite app_nil_r.
  all: rewrite Hm2, bind_lift; split; [done|]; split; [by right|]; left; unfold captured;
    by rewrite zlen_zdrop by lia.
Qed.

(** A sink as it is between calls. *)
Definition sink_ok (k : gxfp_plain_image_sink) : Prop := have_oneframe k ≠ 0 ∨ zlen (hdr k) = 5.

Definition keeps (k : gxfp_plain_image_sink) (c : Z) (pl : bytes) : bool :=
  (have_oneframe k =? 0) && is_image c pl.

Lemma scan_frame_run st k c pl ck rest w :
  static_ok st → sink_ok k → is_u8 c → bytes_ok pl →
  wp (scan_frame st (Some k) (body_frame c pl ck rest))
     (λ '(st', s') w', static_ok st' ∧ (w' = w ∨ w' = pop_alloc w) ∧
        (if keeps k c pl then s' = Some (captured pl) ∨ (s' = Some k ∧ l_oom w ≠ []) else s' = Some k)) w.
Proof using EO.
  intros Hst Hk Hc Hpl. unfold scan_frame, keeps, is_image. cbn [cmd payload payload_len body_frame].
  assert (Hsame : ∀ b : bool, b = false → wp (W := lworld) (mret (st, Some k))
     (λ '(st', s') w', static_ok st' ∧ (w' = w ∨ w' = pop_alloc w) ∧
        (if b then s' = Some (captured pl) ∨ (s' = Some k ∧ l_oom w ≠ []) else s' = Some k)) w).
  { intros b ->. apply wp_ret. split; [done|]. split; [by left|done]. }
  replace (u8 (Z.land (Z.shiftr c 4) 15)) with (c / 16)
    by (rewrite land_15, shiftr_div by lia; unfold is_u8 in Hc; change (2 ^ 4) with 16; zint).
  destruct (Z.eqb_spec (c / 16) 2) as [H2|]; [|by apply Hsame; rewrite andb_false_r].
  destruct (Z.leb_spec 5 (zlen pl)) as [H5|]; cbn [negb andb]; [|by apply Hsame; rewrite andb_false_r].
  apply wp_bind. eapply wp_lift; [done|].
  destruct (zlen_pos_inv pl (zlen pl)) as (b0 & pl' & -> & _); [done|lia|].
  apply wp_bind. apply (wp_lift _ b0); [done|]. cbn [head default from_option id].
  destruct (Z.eqb_spec b0 170) as [->|Hb0]; cbn [negb andb]; [by apply Hsame; rewrite andb_false_r|].
  apply wp_bind. destruct (Z.eqb_spec (have_oneframe k) 0) as [Hf|Hf]; cbn [andb].
  - eapply wp_mono; [apply (append_run st k (b0 :: pl') (ck :: rest) w); try done; by destruct Hk|].
    intros [[r st'] s'] w' (Hst' & Hw & Hs). apply wp_ret. split; [done|]. split; [done|].
    destruct (image_okb _); [|done]. destruct Hs as [|(? & _ & ?)]; [by left|by right].
  - eapply wp_eq; [by apply append_full|]. apply wp_ret. split; [done|]. by split; [left|].
Qed.

Lemma captured_full pl : have_oneframe (captured pl) ≠ 0.
Proof using Type. done. Qed.

(** The scan of any bytes. *)
Lemma scan_any fuel st buf len off k w :
  static_ok st → sink_ok k → bytes_ok buf → 0 <= off → len <= zlen buf →
  (Z.to_nat (len - off) < fuel)%nat →
  wp (scan_loop fuel st buf len off (Some k))
     (λ '(st', s') w', static_ok st' ∧ waits w w' ∧
        (s' = Some k ∨ have_oneframe k = 0 ∧ ∃ c pl ck pre post, s' = Some (captured pl) ∧
           is_image c pl = true ∧ ztake len buf = pre ++ goodix_body c pl ck ++ post)) w.
Proof using EO.
  intros Hst Hk Hb Hoff Hl Hf. revert st off k w Hst Hk Hoff Hf.
  induction fuel as [|fuel IH]; intros st off k w Hst Hk Hoff Hf; [lia|]. cbn [scan_loop].
  destruct (Z.leb_spec (off + 4) len); cbn [negb]; [|by apply wp_ret; split_and!; [|apply waits_refl|left]].
  destruct (user_parse_dec (zdrop off buf) (len - off))
    as [(f & ->)|(c & pl & ck & rest & Ed & Hfit & Hmax & Hc & Hpl & ->)];
    [by apply bytes_ok_zdrop|rewrite zlen_zdrop by lia; lia| |].
  { apply wp_bind. eapply wp_lift; [done|]. apply wp_bind. eapply wp_lift; [done|].
    cbn [negb orb]. apply IH; [done|done|lia|lia]. }
  apply wp_bind. eapply wp_lift; [done|]. apply wp_bind. eapply wp_lift; [done|].
  cbn [negb orb valid body_frame]. apply wp_bind.
  eapply wp_mono; [by apply (scan_frame_run st k c pl ck rest w)|].
  intros [st' s'] w' (Hst' & Hw0 & Hs). cbn [payload_len body_frame].
  assert (Hw : waits w w') by (destruct Hw0 as [-> | ->]; [done|split; [apply extends_pop|done]]). pose proof (zlen_nonneg pl).
  rewrite (proj2 (Z.ltb_lt 0 _)), (proj2 (Z.leb_le _ len)) by lia. cbn [andb].
  assert (Hrest : ∀ k', s' = Some k' → sink_ok k' →
    wp (scan_loop fuel st' buf len (off + (zlen pl + 4 - 1) + 1) s')
       (λ '(st', s') w2, static_ok st' ∧ waits w w2 ∧
        (s' = Some k' ∨ have_oneframe k' = 0 ∧ ∃ c pl ck pre post, s' = Some (captured pl) ∧
           is_image c pl = true ∧ ztake len buf = pre ++ goodix_body c pl ck ++ post)) w').
  { intros k' -> Hk'. eapply wp_mono; [apply IH; [done|done|lia|lia]|].
    intros [st2 s2] w2 (H1 & H2 & H3). split; [done|]. split; [by rewrite Hw|done]. }
  unfold keeps in Hs. destruct (Z.eqb_spec (have_oneframe k) 0) as [Hh|Hh]; cbn [andb] in Hs.
  - destruct (is_image c pl) eqn:Himg; [destruct Hs as [Hs|(Hs & _)]|].
    + eapply wp_mono; [apply (Hrest (captured pl) Hs); by left|].
      intros [st2 s2] w2 (Hst2 & Hw2 & [->|(Hbad & _)]); [|by destruct (captured_full pl)].
      split; [done|]. split; [done|]. right. split; [done|].
      exists c, pl, ck, (ztake off buf), (ztake (len - off - (zlen pl + 4)) rest). split; [done|]. split; [done|].
      replace len with (off + (zlen pl + 4 + (len - off - (zlen pl + 4)))) at 1 by lia.
      rewrite ztake_add, Ed, ztake_add by lia. 
      by rewrite ztake_app, zdrop_app by apply zlen_goodix_body.
    + by apply Hrest.
    + by apply Hrest.
  - by apply Hrest.
Qed.
(** The frames of a stream. *)
Definition stream (fs : list (Z * bytes * Z)) : bytes := concat ((λ '(c, pl, ck), goodix_body c pl ck) <$> fs).

Definition frame_fits (q : Z * bytes * Z) : Prop :=
  is_u8 q.1.1 ∧ bytes_ok q.1.2 ∧ zlen q.1.2 < 65535.

(** The first image of a stream. *)
Definition first_image (fs : list (Z * bytes * Z)) : option bytes :=
  (λ q, q.1.2) <$> head (filter (λ q, is_image q.1.1 q.1.2 = true) fs).

Definition scanned (k : gxfp_plain_image_sink) (fs : list (Z * bytes * Z)) : gxfp_plain_image_sink :=
  if have_oneframe k =? 0 then match first_image fs with Some pl => captured pl | None => k end else k.

Lemma scanned_cons k c pl ck fs :
  scanned k ((c, pl, ck) :: fs) = scanned (if keeps k c pl then captured pl else k) fs.
Proof using Type.
  unfold scanned, keeps, first_image. rewrite filter_cons. cbn [fst snd].
  destruct (Z.eqb_spec (have_oneframe k) 0) as [Hk|Hk]; cbn [andb].
  - destruct (is_image c pl) eqn:Hi.
    + by rewrite decide_True by done.
    + rewrite decide_False by done. by rewrite Hk.
  - by rewrite (proj2 (Z.eqb_neq _ _) Hk).
Qed.

Lemma scan_stream fuel st pre fs tail k w :
  static_ok st → sink_ok k → Forall frame_fits fs → zlen tail < 4 → l_oom w = [] →
  (length fs < fuel)%nat →
  wp (scan_loop fuel st (pre ++ stream fs ++ tail) (zlen (pre ++ stream fs ++ tail)) (zlen pre) (Some k))
     (λ '(st', s') w', static_ok st' ∧ w' = w ∧ s' = Some (scanned k fs)) w.
Proof using EO.
  intros Hst Hk Hfs Ht Ho Hf. revert fuel st pre k Hst Hk Hf.
  induction Hfs as [|[[c pl] ck] fs (Hc & Hpl & Hmax) Hfs IH]; intros fuel st pre k Hst Hk Hf;
    (destruct fuel as [|fuel]; [cbn in Hf; lia|]); cbn [scan_loop].
  - change (stream [] ++ tail) with tail. rewrite zlen_app, (proj2 (Z.leb_gt _ _)) by lia. cbn [negb].
    apply wp_ret. split; [done|]. split; [done|]. unfold scanned. cbn. by destruct (_ =? 0).
  - cbn [length fst snd] in *. change (stream ((c, pl, ck) :: fs)) with (goodix_body c pl ck ++ stream fs).
    rewrite <- (app_assoc (goodix_body c pl ck)). set (tl := stream fs ++ tail).
    pose proof (zlen_nonneg tl). pose proof (zlen_nonneg pl). pose proof (zlen_nonneg pre).
    rewrite !zlen_app, zlen_goodix_body.
    rewrite (proj2 (Z.leb_le _ _)) by lia. cbn [negb]. rewrite zdrop_app by done.
    rewrite user_parse_body by (done || lia). apply wp_bind. eapply wp_lift; [done|].
    apply wp_bind. eapply wp_lift; [done|]. cbn [negb orb valid body_frame].
    apply wp_bind. eapply wp_mono; [by apply (scan_frame_run st k c pl ck tl w)|].
    intros [st' s'] w' (Hst' & Hw & Hs). cbn [payload_len body_frame].
    rewrite (proj2 (Z.ltb_lt 0 _)), (proj2 (Z.leb_le (zlen pre + _) _)) by lia. cbn [andb].
    assert (w' = w) as ->.
    { destruct Hw as [|Hw]; [done|]. subst w'. unfold pop_alloc. destruct w. cbn in *. by subst. }
    assert (Hs' : s' = Some (if keeps k c pl then captured pl else k)).
    { destruct (keeps k c pl); [|done]. destruct Hs as [|(_ & Hn)]; done. }
    subst s'. rewrite scanned_cons. rewrite app_assoc. unfold tl.
    replace (zlen pre + (zlen pl + 4 - 1) + 1) with (zlen (pre ++ goodix_body c pl ck))
      by (rewrite zlen_app, zlen_goodix_body; lia).
    replace (zlen pre + (zlen pl + 4 + zlen (stream fs ++ tail)))
      with (zlen ((pre ++ goodix_body c pl ck) ++ stream fs ++ tail))
      by (rewrite !zlen_app, zlen_goodix_body; lia).
    apply IH; [done| |lia]. destruct (keeps k c pl); [by left|done].
Qed.
Lemma umalloc_fresh n w :
  0 <= n → l_oom w = [] → ∃ u, umalloc n w = Some (Some u, w) ∧ zlen u = n.
Proof using EO.
  intros Hn Ho. rewrite umalloc_run, Ho. exists (u_uninit (l_trace w) n).
  split; [|by apply u_uninit_len]. unfold pop_alloc. destruct w. cbn in *. by subst.
Qed.

Lemma memcpy_fill u s n : zlen u = n → zlen s = n → memcpy u 0 s 0 n = Some s.
Proof using Type.
  intros Hu Hs. unfold memcpy. rewrite slice_full by done. cbn [mbind option_bind].
  rewrite (blit_eq u 0 s [] u []) by (rewrite ?app_nil_r; done || lia). by rewrite app_nil_r.
Qed.

Lemma sink_extract_run pl h w :
  5 < zlen pl → zlen h = 5 → l_oom w = [] →
  gxfp_plain_image_sink_extract (Some (captured pl)) (Some h) (Some None) (Some 0) w
  = Some ((1, Some {| hdr := ztake 5 pl; body := None; body_len := 0; have_oneframe := 0 |},
           Some (ztake 5 pl), Some (Some (zdrop 5 pl)), Some (zlen pl - 5)), w).
Proof using EO.
  intros Hpl Hh Ho. unfold gxfp_plain_image_sink_extract, captured. cbn [body body_len have_oneframe hdr].
  rewrite (memset0_full h 5) by done. cbn [mbind option_bind]. rewrite bind_lift. cbn [Z.eqb orb].
  rewrite (proj2 (Z.eqb_neq (zlen pl - 5) 0)) by lia. cbv zeta.
  assert (Hd : zlen (zdrop 5 pl) = zlen pl - 5) by (rewrite zlen_zdrop by lia; lia).
  destruct (umalloc_fresh (zlen pl - 5) w) as (u & Eu & Hu); [lia|done|].
  rewrite (run_bind _ _ _ _ _ Eu). cbv iota.
  rewrite (memcpy_fill u (zdrop 5 pl) (zlen pl - 5)), bind_lift by done.
  rewrite (memcpy_fill (zeros 5) (ztake 5 pl) 5) by (done || apply zlen_ztake; lia). cbn [mbind option_bind]. rewrite bind_lift.
  rewrite (memset0_full (zdrop 5 pl)) by done. by rewrite bind_lift.
Qed.

(** C33: the image checksum is CRC-32/MPEG-2 and catches any change of one byte: the
    table filled on the first call makes the function equal to the bit-by-bit register
    with polynomial 0x04C11DB7 on every buffer, on the first call and on later ones; the
    check accepts exactly the buffers that end with the checksum of what comes before
    (its 16-bit halves exchanged), and refuses an accepted buffer in which any one
    byte of the content was replaced. *)
Theorem image_crc_detects st b rest :
  static_ok st → bytes_ok b →
  (∃ st', crc32_mpeg2 st (b ++ rest) (zlen b) = Some (crc_spec b, st') ∧ static_ok st') ∧
  (∃ ok st', gxfp_image_crc_check st (Some (b ++ rest)) (zlen b) = Some (ok, st') ∧ static_ok st' ∧
     (ok = true ↔ image_ok b)) ∧
  (∀ p x y q t, b = p ++ x :: q ++ t → zlen t = 4 → is_u8 y → y ≠ x → image_ok b →
     ∃ st', gxfp_image_crc_check st (Some (p ++ y :: q ++ t)) (zlen b) = Some (false, st')).
Proof using Type.
  intros Hst Hb. split; [|split].
  - exists static_on. split; [by apply crc32_run|by right].
  - destruct (image_crc_run st b rest Hst Hb) as (st' & Hr & Hst'). exists (image_okb b), st'.
    split; [done|]. split; [done|]. apply image_okb_spec.
  - intros p x y q t -> Ht Hy Hxy (content & Hc).
    rewrite bytes_ok_app, bytes_ok_cons, bytes_ok_app in Hb. destruct Hb as (Hbp & Hbx & Hbq & Hbt).
    assert (Hby : bytes_ok (p ++ y :: q ++ t)) by (rewrite bytes_ok_app, bytes_ok_cons, bytes_ok_app; done).
    destruct (image_crc_run st (p ++ y :: q ++ t) [] Hst Hby) as (st' & Hr & _).
    rewrite app_nil_r in Hr. exists st'.
    replace (zlen (p ++ x :: q ++ t)) with (zlen (p ++ y :: q ++ t)) by (rewrite !zlen_app, !zlen_cons; done).
    rewrite Hr. do 2 f_equal. apply not_true_iff_false. rewrite image_okb_spec. intros (content' & Hc').
    assert (Hsplit : ∀ (a b c d : bytes), a ++ b = c ++ d → zlen b = zlen d → a = c ∧ b = d).
    { intros a b c d He Hl. apply app_inj_2; [|done]. unfold zlen in Hl. lia. }
    rewrite app_comm_cons, app_assoc in Hc, Hc'.
    apply Hsplit in Hc as [Hc1 Hc2]; [|by rewrite Ht]. apply Hsplit in Hc' as [Hc1' Hc2']; [|by rewrite Ht].
    subst content content'. rewrite Hc2 in Hc2'. apply Hxy.
    apply (crc_one_byte p y x q); [done|done|done|].
    assert (Hv : ∀ c, is_u32 c → c = le_dec [c mod 2 ^ 8; c / 2 ^ 8 mod 2 ^ 8; c / 2 ^ 16 mod 2 ^ 8; c / 2 ^ 24]).
    { intros c Hu. cbn [le_dec]. unfold is_u32 in Hu. zdm. }
    unfold crc_trailer in Hc2'. injection Hc2' as E1 E2 E3 E4.
    rewrite (Hv (crc_spec (p ++ y :: q))), (Hv (crc_spec (p ++ x :: q))) by (by apply crc_fold_u32).
    by rewrite E1, E2, E3, E4.
Qed.

(** C34: the scan of a decrypted stream terminates and is defined on any bytes, and a
    sink it fills holds an image that is in them: a frame with an image command,
    a payload that is not a point-of-view image and a right checksum; a sink that
    is full stays as it is. On a stream of frames the sink gets exactly the first such
    image, and extracting it hands over its header and its body and empties the
    sink. *)
Theorem plain_scan_first_image st b len k w :
  static_ok st → sink_ok k → bytes_ok b → len <= zlen b →
  (∃ st' s' w', gxfp_plain_scan_for_nonpov_image_chunks st (Some b) len (Some k) w
                = Some ((st', s'), w') ∧ static_ok st' ∧
     (s' = Some k ∨ have_oneframe k = 0 ∧ ∃ c pl ck pre post, s' = Some (captured pl) ∧
        is_image c pl = true ∧ ztake len b = pre ++ goodix_body c pl ck ++ post)) ∧
  (∀ fs tail, b = stream fs ++ tail → len = zlen b → 8 <= len → Forall frame_fits fs →
     zlen tail < 4 → l_oom w = [] →
     ∃ st', gxfp_plain_scan_for_nonpov_image_chunks st (Some b) len (Some k) w
            = Some ((st', Some (scanned k fs)), w)) ∧
  (∀ c pl h, is_image c pl = true → zlen h = 5 → l_oom w = [] →
     gxfp_plain_image_sink_extract (Some (captured pl)) (Some h) (Some None) (Some 0) w
     = Some ((1, Some {| hdr := ztake 5 pl; body := None; body_len := 0; have_oneframe := 0 |},
              Some (ztake 5 pl), Some (Some (zdrop 5 pl)), Some (zlen pl - 5)), w)).
Proof using EO.
  intros Hst Hk Hb Hl. unfold gxfp_plain_scan_for_nonpov_image_chunks. split; [|split].
  - destruct (Z.ltb_spec len 8).
    { exists st, (Some k), w. split; [done|]. split; [done|by left]. }
    destruct (wp_inv _ _ _ (scan_any (S (Z.to_nat len)) st b len 0 k w Hst Hk Hb ltac:(lia) Hl ltac:(lia)))
      as ([st' s'] & w' & Hr & Hst' & _ & Hs). by exists st', s', w'.
  - intros fs tail Hbs Hlen H8 Hfs Ht Ho. rewrite (proj2 (Z.ltb_ge len 8)) by lia.
    assert (Hn : (length fs <= Z.to_nat len)%nat).
    { assert (Hs : Z.of_nat (length fs) <= zlen (stream fs)).
      { clear -Hfs. induction fs as [|[[c pl] ck] fs IH]; [done|].
        change (stream ((c, pl, ck) :: fs)) with (goodix_body c pl ck ++ stream fs).
        rewrite zlen_app, zlen_goodix_body. pose proof (zlen_nonneg pl). cbn [length].
        apply Forall_cons in Hfs as [_ Hfs]. specialize (IH Hfs). lia. }
      subst len b. rewrite zlen_app. pose proof (zlen_nonneg tail). lia. }
    destruct (wp_inv _ _ _ (scan_stream (S (Z.to_nat len)) st [] fs tail k w Hst Hk Hfs Ht Ho ltac:(lia)))
      as ([st' s'] & w' & Hr & _ & -> & ->).
    exists st'. subst b. rewrite Hlen in *. exact Hr.
  - intros c pl h Himg Hh Ho. apply sink_extract_run; [|done|done].
    unfold is_image, image_okb in Himg. rewrite !andb_true_iff, !Z.leb_le in Himg.
    destruct Himg as (((_ & H5) & _) & (H4 & _)). rewrite zlen_zdrop in H4 by lia. lia.
Qed.
End plain_rules.

(** * A stream *)

(** "123456789", whose CRC-32/MPEG-2 is 0x0376E6E7. *)
Definition check_string : bytes := [49; 50; 51; 52; 53; 54; 55; 56; 57].
Definition demo_body : bytes := check_string ++ crc_trailer 58124007.

Lemma check_string_crc : crc_spec check_string = 58124007.
Proof. vm_compute. reflexivity. Qed.

Lemma demo_body_image : image_ok demo_body.
Proof. exists check_string. by rewrite check_string_crc. Qed.

Lemma demo_body_ok : bytes_ok demo_body.
Proof. vm_compute. repeat constructor; discriminate. Qed.

Lemma image_crc_detects_witness :
  ∃ st', gxfp_image_crc_check crc_static0 (Some ([49] ++ 51 :: [51; 52; 53; 54; 55; 56; 57] ++ crc_trailer 58124007)) 13
         = Some (false, st').
Proof.
  destruct (image_crc_detects crc_static0 demo_body []) as (_ & _ & H); [by left|exact demo_body_ok|].
  apply (H [49] 50 51 [51; 52; 53; 54; 55; 56; 57] (crc_trailer 58124007));
    [reflexivity|reflexivity|done|done|exact demo_body_image].
Defined.

Definition demo_payload : bytes := [1; 2; 3; 4; 5] ++ demo_body.
Definition demo_frames : list (Z * bytes * Z) :=
  [(1, [5], 0); (32, demo_payload, goodix_ck 32 demo_payload); (33, demo_payload, 0)].
Definition empty_sink : gxfp_plain_image_sink :=
  {| hdr := zeros 5; body := None; body_len := 0; have_oneframe := 0 |}.
Definition quiet_world : lworld := {| l_dev := None; l_trace := []; l_oom := [] |}.

#[local] Instance quiet_ok : UenvOk (script_env []).
Proof. apply script_env_ok. constructor. Defined.

Lemma demo_first_image : first_image demo_frames = Some demo_payload.
Proof. vm_compute. reflexivity. Qed.

Lemma demo_frames_fit : Forall frame_fits demo_frames.
Proof. vm_compute. repeat constructor; discriminate. Qed.

Lemma demo_stream_ok : bytes_ok (stream demo_frames ++ []).
Proof. vm_compute. repeat constructor; discriminate. Qed.

Lemma plain_scan_first_image_witness :
  ∃ st', gxfp_plain_scan_for_nonpov_image_chunks (E := script_env []) crc_static0
           (Some (stream demo_frames ++ [])) 49 (Some empty_sink) quiet_world
         = Some ((st', Some (scanned empty_sink demo_frames)), quiet_world).
Proof.
  destruct (plain_scan_first_image (E := script_env []) crc_static0 (stream demo_frames ++ []) 49 empty_sink
    quiet_world) as (_ & H & _); [by left|by right|exact demo_stream_ok|done|].
  apply (H demo_frames []); [reflexivity|reflexivity|lia|exact demo_frames_fit|done|done].
Defined.
