(* ===== verification/UFdt.v ===== *)
(** Finger detection: [userspace/src/cmd/fdt_cmd.c] and [userspace/src/flow/fdt.c].

    The sensor compares its readings with baseline tables the host sends. The flow
    is a state machine: it arms the sensor for a finger that comes or leaves, learns
    the next tables from the reports, and arms again when the report that a finger
    left does not come. *)
From Stdlib Require Import ZArith Lia.
From stdpp Require Import prelude list.
From S2P Require Import Prelude KGoodixProto KUapi UGoodixProto UWorld UDev UCommon UXfer UCmds.

Open Scope Z_scope.

(** * fdt_cmd.c *)

Definition GXFP_FDT_BASE_TABLE_LEN : Z := 24.
Definition FDT_CMD_DOWN_MAGIC_0 : Z := 8. (* 0x08 *)
Definition FDT_CMD_DOWN_MAGIC_1 : Z := 1.
Definition FDT_CMD_MODE_MAGIC_0 : Z := 9. (* 0x09 *)
Definition FDT_CMD_MODE_MAGIC_1 : Z := 1.
Definition FDT_CMD_UP_MAGIC_0 : Z := 10. (* 0x0A *)
Definition FDT_CMD_UP_MAGIC_1 : Z := 1.
Definition GXFP_FDT_WIRE_TRAILER_LEN : Z := 8.
Definition FDT_PAYLOAD_SIZE_DOWN : Z := 2 + GXFP_FDT_BASE_TABLE_LEN + GXFP_FDT_WIRE_TRAILER_LEN.
Definition FDT_PAYLOAD_SIZE_MODE : Z := 2 + GXFP_FDT_BASE_TABLE_LEN + GXFP_FDT_WIRE_TRAILER_LEN.
Definition FDT_PAYLOAD_SIZE_UP : Z := 2 + GXFP_FDT_BASE_TABLE_LEN + GXFP_FDT_WIRE_TRAILER_LEN.

Record gxfp_cmd_fdt_state := {
  down_table_5130 : bytes;
  up_table_5130 : bytes;
  manual_table_5130 : bytes;
  base_table_inited : Z;
  up_second_flag : Z;
  up_need_twice : Z;
  up_diff_use : Z;
  up_dac_offset : Z;
  up_round : Z
}.

Definition set_down t s : gxfp_cmd_fdt_state :=
  {| down_table_5130 := t; up_table_5130 := up_table_5130 s; manual_table_5130 := manual_table_5130 s;
     base_table_inited := base_table_inited s; up_second_flag := up_second_flag s;
     up_need_twice := up_need_twice s; up_diff_use := up_diff_use s;
     up_dac_offset := up_dac_offset s; up_round := up_round s |}.
Definition set_up t s : gxfp_cmd_fdt_state :=
  {| down_table_5130 := down_table_5130 s; up_table_5130 := t; manual_table_5130 := manual_table_5130 s;
     base_table_inited := base_table_inited s; up_second_flag := up_second_flag s;
     up_need_twice := up_need_twice s; up_diff_use := up_diff_use s;
     up_dac_offset := up_dac_offset s; up_round := up_round s |}.
Definition set_manual t s : gxfp_cmd_fdt_state :=
  {| down_table_5130 := down_table_5130 s; up_table_5130 := up_table_5130 s; manual_table_5130 := t;
     base_table_inited := base_table_inited s; up_second_flag := up_second_flag s;
     up_need_twice := up_need_twice s; up_diff_use := up_diff_use s;
     up_dac_offset := up_dac_offset s; up_round := up_round s |}.
Definition set_round n s : gxfp_cmd_fdt_state :=
  {| down_table_5130 := down_table_5130 s; up_table_5130 := up_table_5130 s;
     manual_table_5130 := manual_table_5130 s;
     base_table_inited := base_table_inited s; up_second_flag := up_second_flag s;
     up_need_twice := up_need_twice s; up_diff_use := up_diff_use s;
     up_dac_offset := up_dac_offset s; up_round := n |}.

(** [memset] then [base_table_inited = 1] *)
Definition gxfp_cmd_fdt_state_init (state : ptr gxfp_cmd_fdt_state) : ptr gxfp_cmd_fdt_state :=
  setp state
    {| down_table_5130 := zeros GXFP_FDT_BASE_TABLE_LEN; up_table_5130 := zeros GXFP_FDT_BASE_TABLE_LEN;
       manual_table_5130 := zeros GXFP_FDT_BASE_TABLE_LEN; base_table_inited := 1;
       up_second_flag := 0; up_need_twice := 0; up_diff_use := 0; up_dac_offset := 0; up_round := 0 |}.

Definition gxfp_cmd_fdt_state_set_runtime (state : ptr gxfp_cmd_fdt_state)
    (second_flag need_fdt_up_twice diff_use dac_offset : Z) : ptr gxfp_cmd_fdt_state :=
  (λ s, {| down_table_5130 := down_table_5130 s; up_table_5130 := up_table_5130 s;
           manual_table_5130 := manual_table_5130 s; base_table_inited := base_table_inited s;
           up_second_flag := if second_flag =? 0 then 0 else 1;
           up_need_twice := if need_fdt_up_twice =? 0 then 0 else 1;
           up_diff_use := if diff_use =? 0 then 0 else 1;
           up_dac_offset := dac_offset; up_round := 0 |}) <$> state.

Definition fdt_down_payload_build (state : ptr gxfp_cmd_fdt_state) (payload : bytes) : option bytes :=
  match state with
  | None => Some payload
  | Some s =>
    p ← memset0 payload FDT_PAYLOAD_SIZE_DOWN;
    p ← memcpy p 0 [FDT_CMD_DOWN_MAGIC_0; FDT_CMD_DOWN_MAGIC_1] 0 2;
    memcpy p 2 (down_table_5130 s) 0 GXFP_FDT_BASE_TABLE_LEN
  end.

Definition fdt_mode_payload_build (state : ptr gxfp_cmd_fdt_state) (payload : bytes) : option bytes :=
  match state with
  | None => Some payload
  | Some s =>
    p ← memset0 payload FDT_PAYLOAD_SIZE_MODE;
    p ← memcpy p 0 [FDT_CMD_MODE_MAGIC_0; FDT_CMD_MODE_MAGIC_1] 0 2;
    memcpy p 2 (manual_table_5130 s) 0 GXFP_FDT_BASE_TABLE_LEN
  end.

Definition fdt_up_payload_build (state : ptr gxfp_cmd_fdt_state) (payload : bytes) : option bytes :=
  match state with
  | None => Some payload
  | Some s =>
    p ← memset0 payload FDT_PAYLOAD_SIZE_UP;
    p ← memcpy p 0 [FDT_CMD_UP_MAGIC_0; FDT_CMD_UP_MAGIC_1] 0 2;
    memcpy p 2 (up_table_5130 s) 0 GXFP_FDT_BASE_TABLE_LEN
  end.

Section fdt_cmd.
Context {E : Uenv}.

Definition gxfp_cmd_fdt_set_mode (state : ptr gxfp_cmd_fdt_state)
    : M lworld (Z * ptr gxfp_cmd_fdt_state) :=
  payload_mode ← u_stack FDT_PAYLOAD_SIZE_MODE;
  null ← dev_null;
  match state with
  | None => mret (- EINVAL, state)
  | Some s =>
    if (null : bool) then mret (- EINVAL, state) else
    m ← lift (memcpy (manual_table_5130 s) 0 (down_table_5130 s) 0 GXFP_FDT_BASE_TABLE_LEN);
    let s := set_manual m s in
    p ← lift (fdt_mode_payload_build (Some s) payload_mode);
    r ← gxfp_goodix_send_async GXFP_CMD_FDT_MODE (Some p) FDT_PAYLOAD_SIZE_MODE;
    mret (r, Some s)
  end.

Definition gxfp_cmd_fdt_send_down (state : ptr gxfp_cmd_fdt_state) : M lworld Z :=
  payload_down ← u_stack FDT_PAYLOAD_SIZE_DOWN;
  null ← dev_null;
  if (null : bool) || bool_decide (state = None) then mret (- EINVAL) else
  p ← lift (fdt_down_payload_build state payload_down);
  gxfp_goodix_send_async GXFP_CMD_FDT_DOWN (Some p) FDT_PAYLOAD_SIZE_DOWN.

Definition gxfp_cmd_fdt_send_up (state : ptr gxfp_cmd_fdt_state) : M lworld Z :=
  payload_up ← u_stack FDT_PAYLOAD_SIZE_UP;
  null ← dev_null;
  if (null : bool) || bool_decide (state = None) then mret (- EINVAL) else
  p ← lift (fdt_up_payload_build state payload_up);
  gxfp_goodix_send_async GXFP_CMD_FDT_UP (Some p) FDT_PAYLOAD_SIZE_UP.
End fdt_cmd.

(** * fdt.c *)

Definition GXFP_FDT_BASE_UPDATE_ENTRIES : Z := 10.
Definition FDT_STATUS_DOWN_GET_UP_BASE : Z := 2. (* 0x0002 *)
Definition FDT_STATUS_UP : Z := 512. (* 0x0200 *)
Definition FDT_STATUS_IRQ_DOWN_GET_UP_BASE : Z := 2.
Definition FDT_STATUS_IRQ_UP_GET_DOWN_BASE : Z := 512.
Definition FDT_STATUS_IRQ_REVERSE_0 : Z := 128. (* 0x0080 *)
Definition FDT_STATUS_IRQ_REVERSE_2 : Z := 130. (* 0x0082 *)
Definition FDT_UP_DEFAULT_OFFSET : Z := 21. (* 0x15 *)
Definition FDT_UP_NOTOUCH_FALLBACK : Z := 4864. (* 0x1300 *)
Definition FDT_WAIT_UP_RETRY_MS : Z := 750.
Definition FDT_WAIT_UP_MAX_RETRIES : Z := 20.

(** [enum gxfp_fdt_mode], [gxfp_fdt_state], [gxfp_fdt_event]: an [enum] variable
    holds any integer. *)
Definition GXFP_FDT_MODE_IDLE : Z := 0.
Definition GXFP_FDT_MODE_WAIT_DOWN : Z := 1.
Definition GXFP_FDT_MODE_WAIT_UP : Z := 2.
Definition GXFP_FDT_STATE_UNKNOWN : Z := 0.
Definition GXFP_FDT_STATE_UP : Z := 1.
Definition GXFP_FDT_STATE_DOWN : Z := 2.
Definition GXFP_FDT_EVENT_NONE : Z := 0.
Definition GXFP_FDT_EVENT_DOWN : Z := 1.
Definition GXFP_FDT_EVENT_UP : Z := 2.
Definition GXFP_FDT_EVENT_REVERSE : Z := 4.

Record gxfp_fdt_flow := {
  cmd : gxfp_cmd_fdt_state;
  mode : Z;
  state : Z;
  last_status : Z;
  armed_up_table : bytes;
  last_good_up_table : bytes;
  last_good_up_valid : Z;
  wait_up_retries : Z;
  wait_up_armed_ms : Z
}.

(** [table[2 i]] and [table[2 i + 1]] *)
Definition put_entry (table : bytes) (i v : Z) : option bytes :=
  t ← wr table (i * 2) (u8 (Z.land v 255));
  wr t (i * 2 + 1) (u8 (Z.land (Z.shiftr v 8) 255)).

Definition fdt_downbase_from_raw (raw_base : ptr bytes) (raw_len : Z) (out_table : ptr bytes)
    : option (ptr bytes) :=
  match raw_base, out_table with
  | Some rb, Some t =>
    if raw_len <? 2 then Some out_table else
    let entries := (raw_len / 2) `min` GXFP_FDT_BASE_UPDATE_ENTRIES in
    t ← forN (Z.to_nat entries) 0 (λ i t,
          raw ← gxfp_le16 (zdrop (i * 2) rb);
          let half := u16 (Z.land (Z.shiftr raw 1) 65535) in
          let encoded := u16 (Z.lor (Z.shiftl half 8) 128) in
          put_entry t i encoded) t;
    Some (Some t)
  | _, _ => Some out_table
  end.

(** The value of one entry. *)
Definition up_entry (touchflag second_flag diff_use dac_offset raw prev : Z) (i : Z) : Z :=
  let half := u16 (Z.land (Z.shiftr raw 1) 65535) in
  let offset := if dac_offset =? 0 then FDT_UP_DEFAULT_OFFSET else u16 dac_offset in
  let encoded := u16 (Z.lor (Z.shiftl (half + offset) 8) (half + offset)) in
  let encoded :=
    if (second_flag =? 0) && (Z.land (Z.shiftr touchflag i) 1 =? 0) then
      if dac_offset =? 0 then u16 (Z.lor (Z.shiftr encoded 8) FDT_UP_NOTOUCH_FALLBACK)
      else u16 (Z.lor (Z.shiftl (u16 (dac_offset - 2)) 8) (Z.shiftr encoded 8))
    else encoded in
  if (diff_use =? 1) && (prev <? encoded) then prev else encoded.

Definition fdt_upbase_from_raw (touchflag second_flag diff_use dac_offset : Z)
    (raw_base : ptr bytes) (raw_len : Z) (out_table : ptr bytes) : option (ptr bytes) :=
  match raw_base, out_table with
  | Some rb, Some t =>
    if raw_len <? 2 then Some out_table else
    let entries := (raw_len / 2) `min` GXFP_FDT_BASE_UPDATE_ENTRIES in
    merged ← slice t 0 GXFP_FDT_BASE_TABLE_LEN;
    merged ← forN (Z.to_nat entries) 0 (λ i merged,
               raw ← gxfp_le16 (zdrop (i * 2) rb);
               prev ← gxfp_le16 (zdrop (i * 2) merged);
               put_entry merged i
                 (up_entry touchflag second_flag diff_use dac_offset raw prev i)) merged;
    t ← memcpy t 0 merged 0 GXFP_FDT_BASE_TABLE_LEN;
    Some (Some t)
  | _, _ => Some out_table
  end.

Definition fdt_base_table_update_from_frame (st : ptr gxfp_cmd_fdt_state)
    (frame : ptr gxfp_frame_parsed) : option (ptr gxfp_cmd_fdt_state) :=
  match st, frame with
  | Some s, Some f =>
    p ← payload f;
    irq_status ← gxfp_le16 p;
    if irq_status =? FDT_STATUS_IRQ_DOWN_GET_UP_BASE then
      if payload_len f <? 4 then Some st else
      touchflag ← gxfp_le16 (zdrop 2 p);
      let raw_base := zdrop 4 p in
      let raw_len := payload_len f - 4 in
      let '(second_flag, s) :=
        if negb (up_need_twice s =? 0)
        then (if 0 <? up_round s then 1 else 0, set_round (Z.lxor (up_round s) 1) s)
        else (up_second_flag s, s) in
      t ← fdt_upbase_from_raw touchflag second_flag (up_diff_use s) (up_dac_offset s)
            (Some raw_base) raw_len (Some (up_table_5130 s));
      t ← t;
      Some (Some (set_up t s))
    else
    if (irq_status =? FDT_STATUS_IRQ_UP_GET_DOWN_BASE) || (irq_status =? FDT_STATUS_IRQ_REVERSE_0) ||
       (irq_status =? FDT_STATUS_IRQ_REVERSE_2) then
      if payload_len f <? 4 then Some st else
      let raw_base := zdrop 4 p in
      let raw_len := (payload_len f - 4) `min` (GXFP_FDT_BASE_UPDATE_ENTRIES * 2) in
      t ← fdt_downbase_from_raw (Some raw_base) raw_len (Some (down_table_5130 s));
      t ← t;
      Some (Some (set_down t s))
    else Some st
  | _, _ => Some st
  end.

Definition fdt_update_state_from_record (st : ptr gxfp_cmd_fdt_state) (tap_hdr : ptr gxfp_tap_hdr)
    (pl : ptr bytes) (pl_len : Z) (out_status : ptr Z)
    : option (Z * ptr gxfp_cmd_fdt_state * ptr Z) :=
  match st, tap_hdr, pl with
  | Some s, Some h, Some _ =>
    if negb (th_type h =? GOODIX_MP_TYPE_CMD) && negb (th_type h =? GOODIX_MP_TYPE_NOTICE)
    then Some (- ENOENT, st, out_status) else
    '(ok, frame) ← gxfp_parse_goodix_body pl pl_len (Some frame_zero);
    f ← frame;
    if negb ok || negb (valid f) then Some (- ENOENT, st, out_status) else
    if payload_len f <? 2 then Some (- ENOENT, st, out_status) else
    let c := KGoodixProto.cmd f in
    if negb (c =? GXFP_CMD_FDT_STATUS) && negb (c =? GXFP_CMD_FDT_DOWN) &&
       negb (c =? GXFP_CMD_FDT_MODE) && negb (c =? GXFP_CMD_FDT_UP)
    then Some (- ENOENT, st, out_status) else
    let st := if base_table_inited s =? 0 then gxfp_cmd_fdt_state_init st else st in
    st ← fdt_base_table_update_from_frame st frame;
    p ← payload f;
    status ← gxfp_le16 p;
    Some (0, st, setp out_status status)
  | _, _, _ => Some (- EINVAL, st, out_status)
  end.

Definition gxfp_fdt_flow_init (flow : ptr gxfp_fdt_flow) : option (ptr gxfp_fdt_flow) :=
  match flow with
  | None => Some None
  | Some _ =>
    let z := zeros GXFP_FDT_BASE_TABLE_LEN in
    let s0 := {| down_table_5130 := z; up_table_5130 := z; manual_table_5130 := z;
                 base_table_inited := 0; up_second_flag := 0; up_need_twice := 0;
                 up_diff_use := 0; up_dac_offset := 0; up_round := 0 |} in
    s ← gxfp_cmd_fdt_state_init (Some s0);
    Some (Some {| cmd := s; mode := GXFP_FDT_MODE_IDLE; state := GXFP_FDT_STATE_UNKNOWN;
                  last_status := 0; armed_up_table := z; last_good_up_table := z;
                  last_good_up_valid := 0; wait_up_retries := 0; wait_up_armed_ms := 0 |})
  end.

(** Assignments to the fields of the flow. *)
Definition set_cmd s f : gxfp_fdt_flow :=
  {| cmd := s; mode := mode f; state := state f; last_status := last_status f;
     armed_up_table := armed_up_table f; last_good_up_table := last_good_up_table f;
     last_good_up_valid := last_good_up_valid f; wait_up_retries := wait_up_retries f;
     wait_up_armed_ms := wait_up_armed_ms f |}.
Definition set_flow_mode m f : gxfp_fdt_flow :=
  {| cmd := cmd f; mode := m; state := state f; last_status := last_status f;
     armed_up_table := armed_up_table f; last_good_up_table := last_good_up_table f;
     last_good_up_valid := last_good_up_valid f; wait_up_retries := wait_up_retries f;
     wait_up_armed_ms := wait_up_armed_ms f |}.
Definition set_flow_state m f : gxfp_fdt_flow :=
  {| cmd := cmd f; mode := mode f; state := m; last_status := last_status f;
     armed_up_table := armed_up_table f; last_good_up_table := last_good_up_table f;
     last_good_up_valid := last_good_up_valid f; wait_up_retries := wait_up_retries f;
     wait_up_armed_ms := wait_up_armed_ms f |}.
Definition set_last_status m f : gxfp_fdt_flow :=
  {| cmd := cmd f; mode := mode f; state := state f; last_status := m;
     armed_up_table := armed_up_table f; last_good_up_table := last_good_up_table f;
     last_good_up_valid := last_good_up_valid f; wait_up_retries := wait_up_retries f;
     wait_up_armed_ms := wait_up_armed_ms f |}.
Definition set_last_good t f : gxfp_fdt_flow :=
  {| cmd := cmd f; mode := mode f; state := state f; last_status := last_status f;
     armed_up_table := armed_up_table f; last_good_up_table := t; last_good_up_valid := 1;
     wait_up_retries := wait_up_retries f; wait_up_armed_ms := wait_up_armed_ms f |}.
Definition set_armed t ms retries f : gxfp_fdt_flow :=
  {| cmd := cmd f; mode := mode f; state := state f; last_status := last_status f;
     armed_up_table := t; last_good_up_table := last_good_up_table f;
     last_good_up_valid := last_good_up_valid f; wait_up_retries := retries;
     wait_up_armed_ms := ms |}.

Definition fdt_status_to_events (status : Z) : Z :=
  if status =? FDT_STATUS_DOWN_GET_UP_BASE then GXFP_FDT_EVENT_DOWN else
  if status =? FDT_STATUS_UP then GXFP_FDT_EVENT_UP else
  if (status =? FDT_STATUS_IRQ_REVERSE_0) || (status =? FDT_STATUS_IRQ_REVERSE_2)
  then GXFP_FDT_EVENT_REVERSE else GXFP_FDT_EVENT_NONE.

Definition gxfp_fdt_flow_wait_up_retry_due (flow : ptr gxfp_fdt_flow) (now_ms : Z) : Z :=
  match flow with
  | None => - EINVAL
  | Some f =>
    if negb (mode f =? GXFP_FDT_MODE_WAIT_UP) || (state f =? GXFP_FDT_STATE_UP) then 0 else
    if (wait_up_armed_ms f <=? 0) || (now_ms <? wait_up_armed_ms f) then 0 else
    if now_ms - wait_up_armed_ms f <? FDT_WAIT_UP_RETRY_MS then 0 else
    if FDT_WAIT_UP_MAX_RETRIES <=? wait_up_retries f then - ETIMEDOUT else 1
  end.

Definition gxfp_fdt_flow_get_state (flow : ptr gxfp_fdt_flow) : Z :=
  match flow with
  | None => GXFP_FDT_STATE_UNKNOWN
  | Some f => state f
  end.

Section fdt_flow.
Context {E : Uenv}.

Definition gxfp_fdt_flow_set_mode (flow : ptr gxfp_fdt_flow) (new_mode : Z)
    : M lworld (Z * ptr gxfp_fdt_flow) :=
  null ← dev_null;
  match flow with
  | None => mret (- EINVAL, flow)
  | Some f =>
    if (null : bool) then mret (- EINVAL, flow) else
    if new_mode =? mode f then mret (0, flow) else
    if new_mode =? GXFP_FDT_MODE_IDLE then mret (0, Some (set_flow_mode GXFP_FDT_MODE_IDLE f)) else
    if new_mode =? GXFP_FDT_MODE_WAIT_DOWN then
      '(r, s) ← gxfp_cmd_fdt_set_mode (Some (cmd f));
      s ← lift s;
      let f := set_cmd s f in
      if r <? 0 then mret (r, Some f) else
      r ← gxfp_cmd_fdt_send_down (Some (cmd f));
      if r <? 0 then mret (r, Some f) else
      mret (0, Some (set_flow_mode GXFP_FDT_MODE_WAIT_DOWN f))
    else
    if new_mode =? GXFP_FDT_MODE_WAIT_UP then
      '(r, s) ← gxfp_cmd_fdt_set_mode (Some (cmd f));
      s ← lift s;
      let f := set_cmd s f in
      if r <? 0 then mret (r, Some f) else
      r ← gxfp_cmd_fdt_send_up (Some (cmd f));
      if r <? 0 then mret (r, Some f) else
      armed ← lift (memcpy (armed_up_table f) 0 (up_table_5130 (cmd f)) 0 GXFP_FDT_BASE_TABLE_LEN);
      now ← gxfp_monotonic_ms;
      mret (0, Some (set_flow_mode GXFP_FDT_MODE_WAIT_UP (set_armed armed now 0 f)))
    else mret (- EINVAL, flow)
  end.

Definition gxfp_fdt_flow_feed_record (flow : ptr gxfp_fdt_flow) (tap_hdr : ptr gxfp_tap_hdr)
    (pl : ptr bytes) (pl_len : Z) (out_events : ptr Z)
    : M lworld (Z * ptr gxfp_fdt_flow * ptr Z) :=
  null ← dev_null;
  match flow with
  | None => mret (- EINVAL, flow, out_events)
  | Some f =>
    if (null : bool) || bool_decide (tap_hdr = None) || bool_decide (pl = None) ||
       bool_decide (out_events = None) then mret (- EINVAL, flow, out_events) else
    let out_events := setp out_events GXFP_FDT_EVENT_NONE in
    '(r, s, status) ← lift (fdt_update_state_from_record (Some (cmd f)) tap_hdr pl pl_len (Some 0));
    s ← lift s;
    let f := set_cmd s f in
    if r <? 0
    then mret (if (r =? - EAGAIN) || (r =? - ENOENT) then - EAGAIN else r, Some f, out_events) else
    status ← lift status;
    let f := set_last_status status f in
    let events := fdt_status_to_events status in
    '(r, f) ← (if negb (Z.land events GXFP_FDT_EVENT_REVERSE =? 0) &&
                  (mode f =? GXFP_FDT_MODE_WAIT_DOWN) then
                 '(r, s) ← gxfp_cmd_fdt_set_mode (Some (cmd f));
                 s ← lift s;
                 let f := set_cmd s f in
                 if r <? 0 then mret (r, f) else
                 r ← gxfp_cmd_fdt_send_down (Some (cmd f));
                 mret (r, f)
               else mret (0, f));
    if r <? 0 then mret (r, Some f, out_events) else
    let events :=
      if negb (Z.land events GXFP_FDT_EVENT_REVERSE =? 0) && (mode f =? GXFP_FDT_MODE_WAIT_UP)
      then Z.lor events GXFP_FDT_EVENT_UP else events in
    let f := if negb (Z.land events GXFP_FDT_EVENT_DOWN =? 0)
             then set_flow_state GXFP_FDT_STATE_DOWN f else f in
    f ← lift (if negb (Z.land events GXFP_FDT_EVENT_UP =? 0) then
                let f := set_flow_state GXFP_FDT_STATE_UP f in
                t ← memcpy (last_good_up_table f) 0 (armed_up_table f) 0 GXFP_FDT_BASE_TABLE_LEN;
                Some (set_last_good t f)
              else Some f);
    let out_events := setp out_events events in
    if events =? GXFP_FDT_EVENT_NONE then mret (- EAGAIN, Some f, out_events) else
    mret (0, Some f, out_events)
  end.

Definition gxfp_fdt_flow_poll (flow : ptr gxfp_fdt_flow) (now_ms : Z)
    : M lworld (Z * ptr gxfp_fdt_flow) :=
  null ← dev_null;
  match flow with
  | None => mret (- EINVAL, flow)
  | Some f =>
    if (null : bool) then mret (- EINVAL, flow) else
    let due := gxfp_fdt_flow_wait_up_retry_due flow now_ms in
    if due <=? 0 then mret (due, flow) else
    f ← lift (if negb (last_good_up_valid f =? 0) then
                t ← memcpy (up_table_5130 (cmd f)) 0 (last_good_up_table f) 0 GXFP_FDT_BASE_TABLE_LEN;
                Some (set_cmd (set_up t (cmd f)) f)
              else Some f);
    '(r, s) ← gxfp_cmd_fdt_set_mode (Some (cmd f));
    s ← lift s;
    let f := set_cmd s f in
    if r <? 0 then mret (r, Some f) else
    r ← gxfp_cmd_fdt_send_up (Some (cmd f));
    if r <? 0 then mret (r, Some f) else
    armed ← lift (memcpy (armed_up_table f) 0 (up_table_5130 (cmd f)) 0 GXFP_FDT_BASE_TABLE_LEN);
    mret (0, Some (set_armed armed now_ms (wait_up_retries f + 1) f))
  end.
End fdt_flow.

(** * Lemmas: the tables *)

(** A baseline table: ten entries of two bytes, then four bytes never set. *)
Definition table_ok (t : bytes) : Prop := zlen t = 24 ∧ bytes_ok t ∧ zdrop 20 t = zeros 4.

Lemma table_zeros : table_ok (zeros 24).
Proof. split; [done|]. split; [apply bytes_ok_zeros|done]. Qed.

Lemma put_entry_ok t i v : table_ok t → 0 <= i < 10 → ∃ t', put_entry t i v = Some t' ∧ table_ok t'.
Proof.
  intros (Hl & Hb & Hz) Hi. unfold put_entry. rewrite wr_insert by lia. cbn [mbind option_bind].
  rewrite wr_insert by (rewrite zlen_insert; lia). eexists. split; [done|]. split; [by rewrite !zlen_insert|].
  split; [repeat apply bytes_ok_insert; [done|zint|zint]|].
  rewrite <- Hz. unfold zdrop. rewrite !drop_insert_lt by lia. done.
Qed.

Lemma le16_zdrop b i : bytes_ok b → 0 <= i → i + 2 <= zlen b → ∃ v, gxfp_le16 (zdrop i b) = Some v ∧ is_u16 v.
Proof.
  intros Hb Hi Hl. destruct (le16_Some (zdrop i b)) as (v & Hv); [rewrite zlen_zdrop; lia|].
  exists v. split; [done|]. eapply le16_bound; [|exact Hv]. by apply bytes_ok_zdrop.
Qed.

Lemma memcpy_table t u : zlen t = 24 → zlen u = 24 → memcpy t 0 u 0 GXFP_FDT_BASE_TABLE_LEN = Some u.
Proof.
  intros Ht Hu. unfold memcpy, GXFP_FDT_BASE_TABLE_LEN. rewrite slice_full by done. cbn [mbind option_bind].
  rewrite <- (app_nil_r t). change (t ++ []) with ([] ++ t ++ []).
  rewrite blit_app by (done || lia). by rewrite app_nil_r.
Qed.

Lemma downbase_ok rb n t :
  bytes_ok rb → 0 <= n <= zlen rb → table_ok t →
  ∃ t', fdt_downbase_from_raw (Some rb) n (Some t) = Some (Some t') ∧ table_ok t'.
Proof.
  intros Hb Hn Ht. unfold fdt_downbase_from_raw. destruct (Z.ltb_spec n 2); [by exists t|].
  unfold GXFP_FDT_BASE_UPDATE_ENTRIES. cbv zeta.
  edestruct (forN_option (λ _ t, table_ok t)) as (t' & -> & Ht'); [exact Ht| |by exists t'].
  intros i a Hi Ha. cbn beta. destruct (le16_zdrop rb (i * 2)) as (v & -> & Hv); [done|lia|zdm|].
  cbn [mbind option_bind]. apply put_entry_ok; [done|lia].
Qed.

Lemma upbase_ok tf sf du dac rb n t :
  bytes_ok rb → 0 <= n <= zlen rb → table_ok t →
  ∃ t', fdt_upbase_from_raw tf sf du dac (Some rb) n (Some t) = Some (Some t') ∧ table_ok t'.
Proof.
  intros Hb Hn Ht. unfold fdt_upbase_from_raw. destruct (Z.ltb_spec n 2); [by exists t|].
  unfold GXFP_FDT_BASE_UPDATE_ENTRIES. cbv zeta. destruct Ht as (Hl & Ht). unfold GXFP_FDT_BASE_TABLE_LEN at 1.
  rewrite slice_full by done. cbn [mbind option_bind].
  edestruct (forN_option (λ _ t, table_ok t)) as (t' & -> & Ht'); [exact (conj Hl Ht)| |].
  - intros i a Hi Ha. cbn beta. destruct (le16_zdrop rb (i * 2)) as (v & -> & Hv); [done|lia|zdm|].
    destruct (le16_zdrop a (i * 2)) as (u & -> & Hu); [apply Ha|lia|destruct Ha as (-> & _); lia|].
    cbn [mbind option_bind]. apply put_entry_ok; [done|lia].
  - cbn [mbind option_bind]. rewrite memcpy_table by (done || apply Ht'). by exists t'.
Qed.

(** ** The command state *)

Definition cmd_ok (s : gxfp_cmd_fdt_state) : Prop :=
  table_ok (down_table_5130 s) ∧ table_ok (up_table_5130 s) ∧ table_ok (manual_table_5130 s) ∧
  base_table_inited s = 1 ∧ 0 <= up_round s <= 1.

Lemma base_update_ok s p f :
  cmd_ok s → payload f = Some p → bytes_ok p → 2 <= payload_len f <= zlen p →
  ∃ s', fdt_base_table_update_from_frame (Some s) (Some f) = Some (Some s') ∧ cmd_ok s'.
Proof.
  intros (Hd & Hu & Hm & Hi & Hr) Hp Hb Hl. unfold fdt_base_table_update_from_frame. rewrite Hp.
  cbn [mbind option_bind]. destruct (le16_zdrop p 0) as (st & Hst & _); [done|lia|lia|].
  rewrite zdrop_0 in Hst. rewrite Hst. cbn [mbind option_bind].
  destruct (st =? _).
  { destruct (Z.ltb_spec (payload_len f) 4); [by exists s|].
    destruct (le16_zdrop p 2) as (tf & -> & _); [done|lia|lia|]. cbn [mbind option_bind].
    destruct (negb (up_need_twice s =? 0)).
    - cbn [set_round up_table_5130 up_diff_use up_dac_offset].
      edestruct (upbase_ok tf (if 0 <? up_round s then 1 else 0)) as (t & -> & Ht); [by apply bytes_ok_zdrop| |exact Hu|].
      { rewrite zlen_zdrop; lia. }
      cbn [mbind option_bind]. eexists. split; [done|]. do 4 (split; [done|]). cbn.
      assert (up_round s = 0 ∨ up_round s = 1) as [-> | ->] by lia; done.
    - edestruct (upbase_ok tf (up_second_flag s)) as (t & -> & Ht); [by apply bytes_ok_zdrop| |exact Hu|].
      { rewrite zlen_zdrop; lia. }
      cbn [mbind option_bind]. eexists. split; [done|]. by do 4 (split; [done|]). }
  destruct (_ || _); [|by exists s].
  destruct (Z.ltb_spec (payload_len f) 4); [by exists s|].
  edestruct downbase_ok as (t & -> & Ht); [by apply bytes_ok_zdrop| |exact Hd|].
  { rewrite zlen_zdrop; unfold GXFP_FDT_BASE_UPDATE_ENTRIES; lia. }
  cbn [mbind option_bind]. eexists. split; [done|]. by do 4 (split; [done|]).
Qed.

(** Any record is taken or skipped. *)
Lemma update_state_ok s h b n x :
  cmd_ok s → bytes_ok b → 0 <= n <= zlen b →
  ∃ r s' st, fdt_update_state_from_record (Some s) (Some h) (Some b) n (Some x)
             = Some (r, Some s', Some st) ∧ cmd_ok s' ∧ (r = 0 ∨ r = - ENOENT ∧ s' = s) ∧
             (r = 0 → is_u16 st).
Proof.
  intros Hs Hb Hn. unfold fdt_update_state_from_record.
  destruct (negb _ && negb _). { exists (- ENOENT), s, x. split; [done|]. split; [done|]. by split; [right|]. }
  destruct (user_parse_dec b n Hb Hn) as [(f & ->)|(c & pl & ck & rest & -> & Hl & Hmax & Hc & Hpl & ->)].
  { cbn [mbind option_bind negb orb]. exists (- ENOENT), s, x. split; [done|]. split; [done|]. by split; [right|]. }
  cbn [mbind option_bind negb orb valid body_frame payload_len].
  destruct (Z.ltb_spec (zlen pl) 2).
  { exists (- ENOENT), s, x. split; [done|]. split; [done|]. by split; [right|]. }
  destruct (negb _ && negb _ && negb _ && negb _).
  { exists (- ENOENT), s, x. split; [done|]. split; [done|]. by split; [right|]. }
  assert (Hi : base_table_inited s = 1) by apply Hs. rewrite Hi. cbn [Z.eqb].
  unfold goodix_body in Hb. cbn [app] in Hb. rewrite !bytes_ok_cons, <- app_assoc in Hb.
  destruct Hb as (_ & _ & _ & Hb). cbn [app] in Hb.
  pose proof (zlen_nonneg rest).
  destruct (base_update_ok s (pl ++ ck :: rest) (body_frame c pl ck rest)) as (s' & -> & Hs'); [done|done|done| |].
  { cbn. rewrite zlen_app, zlen_cons. lia. }
  cbn [mbind option_bind payload body_frame].
  destruct (le16_zdrop (pl ++ ck :: rest) 0) as (st & Hst & Hu); [done|lia|rewrite zlen_app, zlen_cons; lia|].
  rewrite zdrop_0 in Hst. rewrite Hst. cbn [mbind option_bind].
  exists 0, s', st. split; [done|]. split; [done|]. by split; [left|].
Qed.

(** * Lemmas: the packets *)

(** The payload of a finger-detection command. *)
Definition fdt_payload (magic : Z) (table : bytes) : bytes := [magic; 1] ++ table ++ zeros 8.

Lemma payload_build magic table p :
  zlen p = 34 → zlen table = 24 →
  (p ← memset0 p 34; p ← memcpy p 0 [magic; 1] 0 2; memcpy p 2 table 0 24)
  = Some (fdt_payload magic table).
Proof.
  intros Hp Ht. rewrite memset0_full by done. cbn [mbind option_bind].
  change (zeros 34) with ([] ++ [0; 0] ++ (zeros 24 ++ zeros 8)). unfold memcpy at 2.
  rewrite slice_full by done. cbn [mbind option_bind]. rewrite blit_app by done. cbn [mbind option_bind].
  change ([] ++ [magic; 1] ++ zeros 24 ++ zeros 8) with ([magic; 1] ++ zeros 24 ++ zeros 8).
  unfold memcpy. rewrite slice_full by done. cbn [mbind option_bind].
  by rewrite blit_app by (done || by rewrite Ht).
Qed.

(** What is on the wire. *)
Definition fdt_wire (q : Z * bytes) : bytes := user_packet GOODIX_MP_TYPE_CMD (goodix_frame q.1 q.2).
Definition mode_packet t : Z * bytes := (GXFP_CMD_FDT_MODE, fdt_payload FDT_CMD_MODE_MAGIC_0 t).
Definition down_packet t : Z * bytes := (GXFP_CMD_FDT_DOWN, fdt_payload FDT_CMD_DOWN_MAGIC_0 t).
Definition up_packet t : Z * bytes := (GXFP_CMD_FDT_UP, fdt_payload FDT_CMD_UP_MAGIC_0 t).

Lemma zlen_fdt_payload m t : zlen t = 24 → zlen (fdt_payload m t) = 34.
Proof. intros Ht. unfold fdt_payload. rewrite !zlen_app, Ht. done. Qed.

Section fdt_rules.
Context {E : Uenv} {EO : UenvOk E}.

(** A command is its packet, sent. *)
Lemma fdt_set_mode_run s w fd :
  dev_open w fd → cmd_ok s →
  gxfp_cmd_fdt_set_mode (Some s) w
  = (r ← gxfp_goodix_send_async GXFP_CMD_FDT_MODE (Some (mode_packet (down_table_5130 s)).2) 34;
     mret (r, Some (set_manual (down_table_5130 s) s))) w.
Proof using EO.
  intros Hd (Ht & _ & Hm & _). unfold gxfp_cmd_fdt_set_mode, u_stack. rewrite bind_gets.
  rewrite (run_bind _ _ _ _ _ (dev_null_run w fd Hd)). cbv iota.
  rewrite memcpy_table by (apply Ht || apply Hm). rewrite bind_lift.
  unfold fdt_mode_payload_build. cbn [set_manual manual_table_5130].
  pose proof (payload_build FDT_CMD_MODE_MAGIC_0 (down_table_5130 s)
    (u_uninit (l_trace w) FDT_PAYLOAD_SIZE_MODE)) as Hb.
  unfold FDT_PAYLOAD_SIZE_MODE, FDT_CMD_MODE_MAGIC_1, GXFP_FDT_BASE_TABLE_LEN, GXFP_FDT_WIRE_TRAILER_LEN in *.
  change (2 + 24 + 8) with 34 in *. cbv zeta.
  rewrite Hb, bind_lift; [done|by apply u_uninit_len|apply Ht].
Qed.

Lemma fdt_send_down_run s w fd :
  dev_open w fd → cmd_ok s →
  gxfp_cmd_fdt_send_down (Some s) w
  = gxfp_goodix_send_async GXFP_CMD_FDT_DOWN (Some (down_packet (down_table_5130 s)).2) 34 w.
Proof using EO.
  intros Hd (Ht & _). unfold gxfp_cmd_fdt_send_down, u_stack. rewrite bind_gets.
  rewrite (run_bind _ _ _ _ _ (dev_null_run w fd Hd)). cbv iota.
  rewrite bool_decide_eq_false_2 by done. cbn [orb]. unfold fdt_down_payload_build.
  pose proof (payload_build FDT_CMD_DOWN_MAGIC_0 (down_table_5130 s)
    (u_uninit (l_trace w) FDT_PAYLOAD_SIZE_DOWN)) as Hb.
  unfold FDT_PAYLOAD_SIZE_DOWN, FDT_CMD_DOWN_MAGIC_1, GXFP_FDT_BASE_TABLE_LEN, GXFP_FDT_WIRE_TRAILER_LEN in *.
  change (2 + 24 + 8) with 34 in *.
  rewrite Hb, bind_lift; [done|by apply u_uninit_len|apply Ht].
Qed.

Lemma fdt_send_up_run s w fd :
  dev_open w fd → cmd_ok s →
  gxfp_cmd_fdt_send_up (Some s) w
  = gxfp_goodix_send_async GXFP_CMD_FDT_UP (Some (up_packet (up_table_5130 s)).2) 34 w.
Proof using EO.
  intros Hd (_ & Ht & _). unfold gxfp_cmd_fdt_send_up, u_stack. rewrite bind_gets.
  rewrite (run_bind _ _ _ _ _ (dev_null_run w fd Hd)). cbv iota.
  rewrite bool_decide_eq_false_2 by done. cbn [orb]. unfold fdt_up_payload_build.
  pose proof (payload_build FDT_CMD_UP_MAGIC_0 (up_table_5130 s)
    (u_uninit (l_trace w) FDT_PAYLOAD_SIZE_UP)) as Hb.
  unfold FDT_PAYLOAD_SIZE_UP, FDT_CMD_UP_MAGIC_1, GXFP_FDT_BASE_TABLE_LEN, GXFP_FDT_WIRE_TRAILER_LEN in *.
  change (2 + 24 + 8) with 34 in *.
  rewrite Hb, bind_lift; [done|by apply u_uninit_len|apply Ht].
Qed.

(** [posts l w w']: the packets of [l] were written, in order, and nothing else. *)
Definition posts (l : list (Z * bytes)) (w w' : lworld) : Prop :=
  extends w w' ∧ writes (l_trace w') = writes (l_trace w) ++ (fdt_wire <$> l).

Lemma posts_nil w : posts [] w w.
Proof using Type. split; [apply extends_refl|]. cbn. by rewrite app_nil_r. Qed.

Lemma posts_app l k w1 w2 w3 : posts l w1 w2 → posts k w2 w3 → posts (l ++ k) w1 w3.
Proof using Type.
  intros (H1 & E1) (H2 & E2). split; [by rewrite H1|]. by rewrite E2, E1, fmap_app, app_assoc.
Qed.

Lemma posts_open l w w' fd : dev_open w fd → posts l w w' → dev_open w' fd.
Proof using Type. intros Hd (H & _). by apply (dev_open_extends w). Qed.

(** A packet goes out, or the call fails. *)
Lemma async_posts c pl w fd :
  dev_open w fd → is_u8 c → zlen pl = 34 →
  wp (gxfp_goodix_send_async c (Some pl) 34)
     (λ r w', r <= 0 ∧ ∃ l, posts l w w' ∧ (l = [] ∨ l = [(c, pl)]) ∧ (r = 0 → l = [(c, pl)])) w.
Proof using EO.
  intros Hd Hc Hl. rewrite <- Hl. rewrite <- (app_nil_r pl) at 1.
  eapply wp_run; [apply (send_async_run c pl [] w fd Hd Hc); rewrite Hl; done|]. cbv zeta.
  rewrite (proj2 (Z.ltb_ge _ (zlen pl + 4))) by (rewrite Hl; done).
  assert (H1 : ∀ pk, pk = fdt_wire (c, pl) → posts [(c, pl)] w (calls [EvWrite fd pk] (pop_alloc w))).
  { intros pk ->. split; [by rewrite <- extends_calls; apply extends_pop|].
    cbn. unfold writes. by rewrite omap_app. }
  destruct (l_oom w) as [|[] oom]; cbn [fst snd].
  2: { split; [done|]. exists []. split; [|by split; [left|]].
       split; [apply extends_pop|]. cbn. by rewrite app_nil_r. }
  all: split; [repeat case_match; unfold EIO; lia|].
  all: exists [(c, pl)]; split; [by apply H1|]; by split; [right|].
Qed.

Lemma set_mode_posts s w fd :
  dev_open w fd → cmd_ok s →
  wp (gxfp_cmd_fdt_set_mode (Some s))
     (λ '(r, s') w', r <= 0 ∧ s' = Some (set_manual (down_table_5130 s) s) ∧
        ∃ l, posts l w w' ∧ (l = [] ∨ l = [mode_packet (down_table_5130 s)]) ∧
          (r = 0 → l = [mode_packet (down_table_5130 s)])) w.
Proof using EO.
  intros Hd Hs. eapply wp_ext; [apply (fdt_set_mode_run s w fd Hd Hs)|]. apply wp_bind.
  eapply wp_mono; [apply (async_posts _ _ w fd Hd); [done|apply zlen_fdt_payload, Hs]|].
  intros r w' (Hr & Hl). by apply wp_ret.
Qed.

Lemma send_down_posts s w fd :
  dev_open w fd → cmd_ok s →
  wp (gxfp_cmd_fdt_send_down (Some s))
     (λ r w', r <= 0 ∧ ∃ l, posts l w w' ∧ (l = [] ∨ l = [down_packet (down_table_5130 s)]) ∧
        (r = 0 → l = [down_packet (down_table_5130 s)])) w.
Proof using EO.
  intros Hd Hs. eapply wp_ext; [apply (fdt_send_down_run s w fd Hd Hs)|].
  apply (async_posts _ _ w fd Hd); [done|apply zlen_fdt_payload, Hs].
Qed.

Lemma send_up_posts s w fd :
  dev_open w fd → cmd_ok s →
  wp (gxfp_cmd_fdt_send_up (Some s))
     (λ r w', r <= 0 ∧ ∃ l, posts l w w' ∧ (l = [] ∨ l = [up_packet (up_table_5130 s)]) ∧
        (r = 0 → l = [up_packet (up_table_5130 s)])) w.
Proof using EO.
  intros Hd Hs. eapply wp_ext; [apply (fdt_send_up_run s w fd Hd Hs)|].
  apply (async_posts _ _ w fd Hd); [done|apply zlen_fdt_payload, Hs].
Qed.

(** ** The invariant *)

(** A table is either still blank or was sent to the sensor in an FDT_UP. *)
Definition learned (t : bytes) (l : list (Z * bytes)) : Prop := t = zeros 24 ∨ up_packet t ∈ l.

(** The packets of the flow. *)
Definition fdt_packet (q : Z * bytes) : Prop :=
  ∃ t, table_ok t ∧ (q = mode_packet t ∨ q = down_packet t ∨ q = up_packet t).

(** [l]: the packets sent since the flow was made. *)
Record flow_inv (f : gxfp_fdt_flow) (l : list (Z * bytes)) : Prop := {
  fi_cmd : cmd_ok (cmd f);
  fi_armed : table_ok (armed_up_table f) ∧ learned (armed_up_table f) l;
  fi_good : table_ok (last_good_up_table f) ∧ learned (last_good_up_table f) l;
  fi_mode : mode f ∈ [GXFP_FDT_MODE_IDLE; GXFP_FDT_MODE_WAIT_DOWN; GXFP_FDT_MODE_WAIT_UP];
  fi_state : state f ∈ [GXFP_FDT_STATE_UNKNOWN; GXFP_FDT_STATE_UP; GXFP_FDT_STATE_DOWN];
  fi_status : is_u16 (last_status f);
  fi_valid : 0 <= last_good_up_valid f <= 1;
  fi_retries : 0 <= wait_up_retries f <= FDT_WAIT_UP_MAX_RETRIES;
  fi_up : mode f = GXFP_FDT_MODE_WAIT_UP → up_packet (armed_up_table f) ∈ l;
  fi_down : mode f = GXFP_FDT_MODE_WAIT_DOWN → ∃ t, down_packet t ∈ l
}.

Lemma learned_app t l k : learned t l → learned t (l ++ k).
Proof using Type. unfold learned. rewrite elem_of_app. naive_solver. Qed.

Lemma flow_inv_more f l k : flow_inv f l → flow_inv f (l ++ k).
Proof using Type.
  intros []. destruct fi_armed0, fi_good0. split; try done; rewrite ?elem_of_app; auto using learned_app.
  intros Hm. destruct (fi_down0 Hm) as (t & Ht). exists t. rewrite elem_of_app. by left.
Qed.

Lemma flow_inv_cmd s f l : cmd_ok s → flow_inv f l → flow_inv (set_cmd s f) l.
Proof using Type. intros Hs []. by split. Qed.

Lemma cmd_ok_manual t s : table_ok t → cmd_ok s → cmd_ok (set_manual t s).
Proof using Type. intros Ht (H1 & H2 & H3 & H4). done. Qed.

Lemma packets_mode t l : table_ok t → l = [] ∨ l = [mode_packet t] → Forall fdt_packet l.
Proof using Type. intros Ht [-> | ->]; [by constructor|]. apply Forall_singleton. exists t. auto. Qed.

Lemma packets_down t l : table_ok t → l = [] ∨ l = [down_packet t] → Forall fdt_packet l.
Proof using Type. intros Ht [-> | ->]; [by constructor|]. apply Forall_singleton. exists t. auto. Qed.

Lemma packets_up t l : table_ok t → l = [] ∨ l = [up_packet t] → Forall fdt_packet l.
Proof using Type. intros Ht [-> | ->]; [by constructor|]. apply Forall_singleton. exists t. auto. Qed.

(** The result of an operation on the flow. *)
Definition flow_post (l : list (Z * bytes)) (w : lworld) (f' : ptr gxfp_fdt_flow) (w' : lworld) : Prop :=
  ∃ f1 k, f' = Some f1 ∧ posts k w w' ∧ Forall fdt_packet k ∧ flow_inv f1 (l ++ k).

Lemma flow_post_same f l w : flow_inv f l → flow_post l w (Some f) w.
Proof using Type.
  intros H. exists f, []. split; [done|]. split; [apply posts_nil|]. split; [by constructor|].
  by rewrite app_nil_r.
Qed.

(** Arming the sensor: the mode packet, then the one of [send]. *)
Lemma arm_then_wp {A} (send : ptr gxfp_cmd_fdt_state → M lworld Z)
    (pk : gxfp_cmd_fdt_state → Z * bytes) f l w fd (bad next : Z → gxfp_fdt_flow → M lworld A) Q :
  dev_open w fd → flow_inv f l →
  (∀ s w, dev_open w fd → cmd_ok s →
     wp (send (Some s)) (λ r w', r <= 0 ∧ ∃ l, posts l w w' ∧ (l = [] ∨ l = [pk s]) ∧ (r = 0 → l = [pk s])) w) →
  (∀ s, cmd_ok s → fdt_packet (pk s)) →
  let s := set_manual (down_table_5130 (cmd f)) (cmd f) in
  (∀ r w' k, r < 0 → posts k w w' → Forall fdt_packet k → flow_inv (set_cmd s f) (l ++ k) →
     wp (bad r (set_cmd s f)) Q w') →
  (∀ r w' k, r <= 0 → posts k w w' → Forall fdt_packet k → (r = 0 → pk s ∈ k) →
     flow_inv (set_cmd s f) (l ++ k) → wp (next r (set_cmd s f)) Q w') →
  wp ('(r, s) ← gxfp_cmd_fdt_set_mode (Some (cmd f));
      s ← lift s;
      let f := set_cmd s f in
      if r <? 0 then bad r f else
      r ← send (Some (cmd f));
      next r f) Q w.
Proof using EO.
  intros Hd Hf Hsend Hpk s Hbad Hnext. pose proof (fi_cmd _ _ Hf) as Hc.
  apply wp_bind. eapply wp_mono; [by apply (set_mode_posts (cmd f) w fd)|].
  intros [r s'] w1 (Hr & -> & k1 & Hk1 & Hk & H0). apply wp_bind, (wp_lift _ s); [done|]. cbv zeta. fold s.
  assert (Hs : cmd_ok s) by (apply cmd_ok_manual; [apply Hc|done]).
  assert (Hp1 : Forall fdt_packet k1) by exact (packets_mode _ _ (proj1 Hc) Hk).
  assert (Hf1 : flow_inv (set_cmd s f) (l ++ k1)) by (by apply flow_inv_more, flow_inv_cmd).
  destruct (Z.ltb_spec r 0) as [Hneg|]; [by apply (Hbad r w1 k1)|].
  apply wp_bind. eapply wp_mono; [apply Hsend; [by eapply posts_open|done]|].
  intros r2 w2 (Hr2 & k2 & Hk2 & Hkk & H02). cbn [cmd set_cmd] in *.
  assert (Hposts : posts (k1 ++ k2) w w2) by (by eapply posts_app).
  apply (Hnext r2 w2 (k1 ++ k2)); [done|done| | |by apply flow_inv_more, flow_inv_cmd].
  - apply Forall_app. split; [done|]. destruct Hkk as [-> | ->]; [by constructor|].
    apply Forall_singleton, Hpk, Hs.
  - intros H2. rewrite H02 by done. rewrite elem_of_app. right. apply list_elem_of_here.
Qed.

(** The same where a failed [send] ends the operation. *)
Lemma arm_wp {A} (send : ptr gxfp_cmd_fdt_state → M lworld Z) (pk : gxfp_cmd_fdt_state → Z * bytes)
    f l w fd (bad : Z → gxfp_fdt_flow → M lworld A) (good : gxfp_fdt_flow → M lworld A) Q :
  dev_open w fd → flow_inv f l →
  (∀ s w, dev_open w fd → cmd_ok s →
     wp (send (Some s)) (λ r w', r <= 0 ∧ ∃ l, posts l w w' ∧ (l = [] ∨ l = [pk s]) ∧ (r = 0 → l = [pk s])) w) →
  (∀ s, cmd_ok s → fdt_packet (pk s)) →
  let s := set_manual (down_table_5130 (cmd f)) (cmd f) in
  (∀ r w' k, r < 0 → posts k w w' → Forall fdt_packet k → flow_inv (set_cmd s f) (l ++ k) →
     wp (bad r (set_cmd s f)) Q w') →
  (∀ w' k, posts k w w' → Forall fdt_packet k → pk s ∈ k → flow_inv (set_cmd s f) (l ++ k) →
     wp (good (set_cmd s f)) Q w') →
  wp ('(r, s) ← gxfp_cmd_fdt_set_mode (Some (cmd f));
      s ← lift s;
      let f := set_cmd s f in
      if r <? 0 then bad r f else
      r ← send (Some (cmd f));
      if r <? 0 then bad r f else good f) Q w.
Proof using EO.
  intros Hd Hf Hsend Hpk s Hbad Hgood.
  apply (arm_then_wp send pk f l w fd bad (λ r f, if r <? 0 then bad r f else good f)); try done.
  intros r w' k Hr Hk Hp Hin Hi. destruct (Z.ltb_spec r 0); [by apply (Hbad r w' k)|].
  apply (Hgood w' k); [done|done|apply Hin; lia|done].
Qed.

(** The sensor is armed for a finger that leaves. *)
Lemma flow_inv_armed f l ms n :
  flow_inv f l → up_packet (up_table_5130 (cmd f)) ∈ l → 0 <= n <= FDT_WAIT_UP_MAX_RETRIES →
  flow_inv (set_armed (up_table_5130 (cmd f)) ms n f) l.
Proof using Type.
  intros [] Hup Hn. split; try done. cbn. split; [apply fi_cmd0|by right].
Qed.

Lemma flow_inv_mode f l m :
  flow_inv f l → m ∈ [GXFP_FDT_MODE_IDLE; GXFP_FDT_MODE_WAIT_DOWN; GXFP_FDT_MODE_WAIT_UP] →
  (m = GXFP_FDT_MODE_WAIT_UP → up_packet (armed_up_table f) ∈ l) →
  (m = GXFP_FDT_MODE_WAIT_DOWN → ∃ t, down_packet t ∈ l) → flow_inv (set_flow_mode m f) l.
Proof using Type. intros [] H1 H2 H3. by split. Qed.

Lemma memcpy_up t f l : table_ok t → flow_inv f l →
  memcpy t 0 (up_table_5130 (cmd f)) 0 GXFP_FDT_BASE_TABLE_LEN = Some (up_table_5130 (cmd f)).
Proof using Type. intros Ht Hf. apply memcpy_table; [apply Ht|apply (fi_cmd _ _ Hf)]. Qed.

Lemma set_mode_wp m f l w fd :
  dev_open w fd → flow_inv f l →
  wp (gxfp_fdt_flow_set_mode (Some f) m) (λ '(r, f') w', flow_post l w f' w') w.
Proof using EO.
  intros Hd Hf. unfold gxfp_fdt_flow_set_mode.
  apply wp_bind. eapply wp_eq; [by apply (dev_null_run w fd)|]. cbv iota.
  destruct (m =? mode f); [by apply wp_ret, flow_post_same|].
  destruct (m =? GXFP_FDT_MODE_IDLE).
  { apply wp_ret, flow_post_same, flow_inv_mode; [done|apply list_elem_of_here|done|done]. }
  destruct (m =? GXFP_FDT_MODE_WAIT_DOWN).
  { apply (arm_wp gxfp_cmd_fdt_send_down (λ s, down_packet (down_table_5130 s)) f l w fd
             (λ r f, mret (r, Some f)) (λ f, mret (0, Some (set_flow_mode GXFP_FDT_MODE_WAIT_DOWN f))));
      [done|done| | | |].
    - intros. by apply (send_down_posts _ _ fd).
    - intros s Hs. exists (down_table_5130 s). split; [apply Hs|auto].
    - intros r w' k _ Hk Hp Hi. apply wp_ret. by exists (set_cmd (set_manual (down_table_5130 (cmd f)) (cmd f)) f), k.
    - intros w' k Hk Hp Hin Hi. apply wp_ret. eexists _, k. split; [done|]. split; [done|]. split; [done|].
      apply flow_inv_mode; [done|set_solver|done|]. intros _. eexists. rewrite elem_of_app. by right. }
  destruct (m =? GXFP_FDT_MODE_WAIT_UP); [|by apply wp_ret, flow_post_same].
  apply (arm_wp gxfp_cmd_fdt_send_up (λ s, up_packet (up_table_5130 s)) f l w fd
           (λ r f, mret (r, Some f))
           (λ f, armed ← lift (memcpy (armed_up_table f) 0 (up_table_5130 (cmd f)) 0 GXFP_FDT_BASE_TABLE_LEN);
                 now ← gxfp_monotonic_ms;
                 mret (0, Some (set_flow_mode GXFP_FDT_MODE_WAIT_UP (set_armed armed now 0 f)))));
    [done|done| | | |].
  - intros. by apply (send_up_posts _ _ fd).
  - intros s Hs. exists (up_table_5130 s). split; [apply Hs|auto].
  - intros r w' k _ Hk Hp Hi. apply wp_ret. by exists (set_cmd (set_manual (down_table_5130 (cmd f)) (cmd f)) f), k.
  - intros w' k Hk Hp Hin Hi. set (f1 := set_cmd _ f) in *.
    apply wp_bind. eapply wp_lift; [by apply (memcpy_up _ f1 (l ++ k)); [apply (fi_armed _ _ Hi)|]|].
    apply wp_bind, wp_monotonic, wp_ret. eexists _, k. split; [done|]. split.
    { rewrite <- (app_nil_r k). eapply posts_app; [done|]. split; [apply extends_calls|].
      cbn. unfold writes. rewrite omap_app. by rewrite !app_nil_r. }
    split; [done|]. assert (Hin' : up_packet (up_table_5130 (cmd f1)) ∈ l ++ k) by (rewrite elem_of_app; by right).
    apply flow_inv_mode; [|set_solver|done|done].
    apply flow_inv_armed; [done|done|done].
Qed.

Lemma poll_wp now f l w fd :
  dev_open w fd → flow_inv f l →
  wp (gxfp_fdt_flow_poll (Some f) now) (λ '(r, f') w', flow_post l w f' w') w.
Proof using EO.
  intros Hd Hf. unfold gxfp_fdt_flow_poll.
  apply wp_bind. eapply wp_eq; [by apply (dev_null_run w fd)|]. cbv iota zeta.
  destruct (Z.leb_spec (gxfp_fdt_flow_wait_up_retry_due (Some f) now) 0) as [|Hdue];
    [by apply wp_ret, flow_post_same|].
  assert (Hret : wait_up_retries f < FDT_WAIT_UP_MAX_RETRIES).
  { unfold gxfp_fdt_flow_wait_up_retry_due in Hdue. repeat case_match; try lia; unfold ETIMEDOUT in *; lia. }
  assert (Hgo : ∀ f0, flow_inv f0 l → wait_up_retries f0 = wait_up_retries f →
    wp ('(r, s) ← gxfp_cmd_fdt_set_mode (Some (cmd f0));
        s ← lift s;
        let f := set_cmd s f0 in
        if r <? 0 then mret (r, Some f) else
        r ← gxfp_cmd_fdt_send_up (Some (cmd f));
        if r <? 0 then mret (r, Some f) else
        armed ← lift (memcpy (armed_up_table f) 0 (up_table_5130 (cmd f)) 0 GXFP_FDT_BASE_TABLE_LEN);
        mret (0, Some (set_armed armed now (wait_up_retries f + 1) f)))
      (λ '(r, f') w', flow_post l w f' w') w).
  { intros f0 Hf0 Hr0. apply (arm_wp gxfp_cmd_fdt_send_up (λ s, up_packet (up_table_5130 s)) f0 l w fd
           (λ r f, mret (r, Some f))
           (λ f, armed ← lift (memcpy (armed_up_table f) 0 (up_table_5130 (cmd f)) 0 GXFP_FDT_BASE_TABLE_LEN);
                 mret (0, Some (set_armed armed now (wait_up_retries f + 1) f))));
      [done|done| | | |].
    - intros. by apply (send_up_posts _ _ fd).
    - intros s Hs. exists (up_table_5130 s). split; [apply Hs|auto].
    - intros r w' k _ Hk Hp Hi. apply wp_ret. by eexists _, k.
    - intros w' k Hk Hp Hin Hi. set (f1 := set_cmd _ f0) in *.
      apply wp_bind. eapply wp_lift; [by apply (memcpy_up _ f1 (l ++ k)); [apply (fi_armed _ _ Hi)|]|].
      apply wp_ret. eexists _, k. split; [done|]. split; [done|]. split; [done|].
      apply flow_inv_armed; [done|rewrite elem_of_app; by right|].
      pose proof (fi_retries _ _ Hf). change (wait_up_retries f1) with (wait_up_retries f0). lia. }
  apply wp_bind. destruct (negb (last_good_up_valid f =? 0)).
  - eapply wp_lift.
    + rewrite memcpy_table; [done| |]; [apply (fi_cmd _ _ Hf)|apply (fi_good _ _ Hf)].
    + apply Hgo; [|done]. apply flow_inv_cmd; [|done]. pose proof (fi_cmd _ _ Hf) as (H1 & H2 & H3 & H4).
      split; [done|]. split; [apply (fi_good _ _ Hf)|done].
  - eapply wp_lift; [done|]. by apply Hgo.
Qed.

Lemma flow_inv_state f l m :
  flow_inv f l → m ∈ [GXFP_FDT_STATE_UNKNOWN; GXFP_FDT_STATE_UP; GXFP_FDT_STATE_DOWN] →
  flow_inv (set_flow_state m f) l.
Proof using Type. intros [] Hm. by split. Qed.

Lemma flow_inv_good f l : flow_inv f l → flow_inv (set_last_good (armed_up_table f) f) l.
Proof using Type. intros []. by split. Qed.

Lemma flow_inv_status f l st : flow_inv f l → is_u16 st → flow_inv (set_last_status st f) l.
Proof using Type. intros [] Hs. by split. Qed.

(** The end of [feed_record]: the events and the state of the finger. *)
Lemma feed_end events f l (o : ptr Z) (w : lworld) :
  flow_inv f l →
  wp (W := lworld) (A := Z * ptr gxfp_fdt_flow * ptr Z)
     (let f := if negb (Z.land events GXFP_FDT_EVENT_DOWN =? 0)
               then set_flow_state GXFP_FDT_STATE_DOWN f else f in
      f ← lift (if negb (Z.land events GXFP_FDT_EVENT_UP =? 0) then
                  let f := set_flow_state GXFP_FDT_STATE_UP f in
                  t ← memcpy (last_good_up_table f) 0 (armed_up_table f) 0 GXFP_FDT_BASE_TABLE_LEN;
                  Some (set_last_good t f)
                else Some f);
      let out_events := setp o events in
      if events =? GXFP_FDT_EVENT_NONE then mret (- EAGAIN, Some f, out_events) else
      mret (0, Some f, out_events))
    (λ (res : Z * ptr gxfp_fdt_flow * ptr Z) w', ∃ f1, res.1.2 = Some f1 ∧ w' = w ∧ flow_inv f1 l) w.
Proof using EO.
  intros Hf. cbv zeta.
  set (f1 := if negb (Z.land events GXFP_FDT_EVENT_DOWN =? 0) then set_flow_state GXFP_FDT_STATE_DOWN f else f).
  assert (Hf1 : flow_inv f1 l).
  { unfold f1. destruct (negb _); [|done]. apply flow_inv_state; [done|set_solver]. }
  clearbody f1. clear f Hf. apply wp_bind. destruct (negb (Z.land events GXFP_FDT_EVENT_UP =? 0)).
  - eapply wp_lift.
    + rewrite memcpy_table; [done|apply (fi_good _ _ Hf1)|apply (fi_armed _ _ Hf1)].
    + assert (Hf2 : flow_inv (set_last_good (armed_up_table f1) (set_flow_state GXFP_FDT_STATE_UP f1)) l).
      { apply (flow_inv_good (set_flow_state GXFP_FDT_STATE_UP f1)), flow_inv_state; [done|set_solver]. }
      destruct (_ =? _); apply wp_ret; by eexists.
  - eapply wp_lift; [done|]. destruct (_ =? _); apply wp_ret; by eexists.
Qed.

Lemma feed_wp h b n o f l w fd :
  dev_open w fd → flow_inv f l → bytes_ok b → 0 <= n <= zlen b →
  wp (gxfp_fdt_flow_feed_record (Some f) (Some h) (Some b) n (Some o))
     (λ '(r, f', _) w', flow_post l w f' w') w.
Proof using EO.
  intros Hd Hf Hb Hn. unfold gxfp_fdt_flow_feed_record.
  apply wp_bind. eapply wp_eq; [by apply (dev_null_run w fd)|].
  rewrite !bool_decide_eq_false_2 by done. cbn [orb]. cbv zeta.
  destruct (update_state_ok (cmd f) h b n 0 (fi_cmd _ _ Hf) Hb Hn) as (r & s & st & -> & Hs & Hr & Hst).
  apply wp_bind. eapply wp_lift; [done|]. apply wp_bind. eapply wp_lift; [done|].
  pose proof (flow_inv_cmd s f l Hs Hf) as Hf1.
  destruct (Z.ltb_spec r 0); [by apply wp_ret, flow_post_same|].
  assert (Hr0 : r = 0) by (destruct Hr as [|(-> & _)]; [done|unfold ENOENT in *; lia]). specialize (Hst Hr0).
  apply wp_bind. eapply wp_lift; [done|].
  pose proof (flow_inv_status _ l st Hf1 Hst) as Hf2. set (f2 := set_last_status st (set_cmd s f)) in *.
  clearbody f2. clear f s Hf Hf1 Hs Hr. set (ev := fdt_status_to_events st).
  apply wp_bind.
  assert (Hend : ∀ r f1 k w', posts k w w' → Forall fdt_packet k → flow_inv f1 (l ++ k) →
    wp (if r <? 0 then mret (r, Some f1, Some GXFP_FDT_EVENT_NONE) else
        let events := if negb (Z.land ev GXFP_FDT_EVENT_REVERSE =? 0) && (mode f1 =? GXFP_FDT_MODE_WAIT_UP)
                      then Z.lor ev GXFP_FDT_EVENT_UP else ev in
        let f := if negb (Z.land events GXFP_FDT_EVENT_DOWN =? 0)
                 then set_flow_state GXFP_FDT_STATE_DOWN f1 else f1 in
        f ← lift (if negb (Z.land events GXFP_FDT_EVENT_UP =? 0) then
                    let f := set_flow_state GXFP_FDT_STATE_UP f in
                    t ← memcpy (last_good_up_table f) 0 (armed_up_table f) 0 GXFP_FDT_BASE_TABLE_LEN;
                    Some (set_last_good t f)
                  else Some f);
        let out_events := setp (Some GXFP_FDT_EVENT_NONE) events in
        if events =? GXFP_FDT_EVENT_NONE then mret (- EAGAIN, Some f, out_events) else
        mret (0, Some f, out_events))
      (λ '(r, f', _) w', flow_post l w f' w') w').
  { intros r1 f1 k w' Hk Hp Hi. destruct (r1 <? 0). { apply wp_ret. by exists f1, k. }
    cbv zeta. eapply wp_mono; [by apply (feed_end _ f1 (l ++ k))|].
    intros [[r2 f'] o'] w2 (f3 & Hf3 & -> & Hi'). cbn in Hf3. subst f'. by exists f3, k. }
  destruct (negb _ && _).
  - apply (arm_then_wp gxfp_cmd_fdt_send_down (λ s, down_packet (down_table_5130 s)) f2 l w fd
      (λ r f, mret (r, f)) (λ r f, mret (r, f))); [done|done| | | |].
    + intros. by apply (send_down_posts _ _ fd).
    + intros s Hs. exists (down_table_5130 s). split; [apply Hs|auto].
    + intros r1 w' k _ Hk Hp Hi. apply wp_ret. by apply (Hend _ _ k).
    + intros r1 w' k _ Hk Hp _ Hi. apply wp_ret. by apply (Hend _ _ k).
  - apply wp_ret. apply (Hend _ _ []); [apply posts_nil|by constructor|by rewrite app_nil_r].
Qed.

(** ** Any sequence of calls *)

(** A call into the flow. *)
Inductive fdt_op :=
| OpRuntime (second_flag need_fdt_up_twice diff_use dac_offset : Z)
| OpMode (m : Z)
| OpFeed (h : gxfp_tap_hdr) (b : bytes) (n : Z)
| OpPoll (now : Z).

Definition op_ok (op : fdt_op) : Prop :=
  match op with
  | OpFeed _ b n => bytes_ok b ∧ 0 <= n <= zlen b
  | _ => True
  end.

Definition run_op (op : fdt_op) (f : gxfp_fdt_flow) : M lworld (ptr gxfp_fdt_flow) :=
  match op with
  | OpRuntime sf nt du dac =>
    s ← lift (gxfp_cmd_fdt_state_set_runtime (Some (cmd f)) sf nt du dac);
    mret (Some (set_cmd s f))
  | OpMode m => '(_, f) ← gxfp_fdt_flow_set_mode (Some f) m; mret f
  | OpFeed h b n => '(_, f, _) ← gxfp_fdt_flow_feed_record (Some f) (Some h) (Some b) n (Some 0); mret f
  | OpPoll now => '(_, f) ← gxfp_fdt_flow_poll (Some f) now; mret f
  end.

Fixpoint run_ops (ops : list fdt_op) (f : gxfp_fdt_flow) : M lworld gxfp_fdt_flow :=
  match ops with
  | [] => mret f
  | op :: ops => f ← run_op op f; f ← lift f; run_ops ops f
  end.

Lemma run_op_wp op f l w fd :
  dev_open w fd → flow_inv f l → op_ok op → wp (run_op op f) (λ f' w', flow_post l w f' w') w.
Proof using EO.
  intros Hd Hf Hop. destruct op as [sf nt du dac|m|h b n|now]; cbn [run_op].
  - apply wp_bind. eapply wp_lift; [done|]. apply wp_ret, flow_post_same, flow_inv_cmd; [|done].
    destruct (fi_cmd _ _ Hf) as (H1 & H2 & H3 & H4 & H5). by do 4 (split; [done|]).
  - apply wp_bind. eapply wp_mono; [by apply (set_mode_wp m f l w fd)|]. by intros [r f'] w' H.
  - destruct Hop as [Hb Hn]. apply wp_bind. eapply wp_mono; [by apply (feed_wp h b n 0 f l w fd)|]. by intros [[r f'] o] w' H.
  - apply wp_bind. eapply wp_mono; [by apply (poll_wp now f l w fd)|]. by intros [r f'] w' H.
Qed.

Lemma run_ops_wp ops f l w fd :
  dev_open w fd → flow_inv f l → Forall op_ok ops →
  wp (run_ops ops f) (λ f' w', ∃ k, posts k w w' ∧ Forall fdt_packet k ∧ flow_inv f' (l ++ k)) w.
Proof using EO.
  intros Hd Hf Hops. revert f l w Hd Hf. induction Hops as [|op ops Hop Hops IH]; intros f l w Hd Hf; cbn [run_ops].
  - apply wp_ret. exists []. split; [apply posts_nil|]. split; [by constructor|]. by rewrite app_nil_r.
  - apply wp_bind. eapply wp_mono; [by apply (run_op_wp op f l w fd)|].
    intros f' w1 (f1 & k1 & -> & Hk1 & Hp1 & Hi). apply wp_bind. eapply wp_lift; [done|].
    eapply wp_mono; [apply (IH f1 (l ++ k1) w1); [by eapply posts_open|done]|].
    intros f2 w2 (k2 & Hk2 & Hp2 & Hi2). exists (k1 ++ k2). split; [by eapply posts_app|].
    split; [by apply Forall_app|]. by rewrite app_assoc.
Qed.

Lemma flow_init_inv f0 : ∃ f, gxfp_fdt_flow_init (Some f0) = Some (Some f) ∧ flow_inv f [].
Proof using Type.
  eexists. split; [done|].
  assert (Hz : table_ok (zeros GXFP_FDT_BASE_TABLE_LEN) ∧ learned (zeros GXFP_FDT_BASE_TABLE_LEN) [])
    by (split; [apply table_zeros|by left]).
  split; try done; cbn.
  - do 3 (split; [apply table_zeros|]). done.
  - apply list_elem_of_here.
  - apply list_elem_of_here.
Qed.

(** C39: finger detection never leaves its invariant: from [gxfp_fdt_flow_init], every
    sequence of mode changes, runtime settings, polls and records, whatever bytes the
    records hold and whatever the device answers, is defined (no access outside a
    record or a table) and keeps the mode, the state, the retry count (at most 20) and
    the tables in their ranges, the last four bytes of every table blank. It writes
    only FDT_MODE, FDT_DOWN and FDT_UP packets that carry such a table; while it waits
    for a finger to leave, the table it holds as armed is one it sent in an FDT_UP; and
    the table it goes back to is one it sent, or the blank one of the start. *)
Theorem fdt_flow_invariant ops f0 w fd :
  dev_open w fd → Forall op_ok ops →
  ∃ f1 f w' l, gxfp_fdt_flow_init (Some f0) = Some (Some f1) ∧ run_ops ops f1 w = Some (f, w') ∧
    posts l w w' ∧ Forall fdt_packet l ∧ flow_inv f l.
Proof using EO.
  intros Hd Hops. destruct (flow_init_inv f0) as (f1 & Hi & Hf).
  destruct (wp_inv _ _ _ (run_ops_wp ops f1 [] w fd Hd Hf Hops)) as (f & w' & Hr & l & Hl & Hp & Hinv).
  by exists f1, f, w', l.
Qed.

(** ** Waiting for the finger to leave *)

(** The polls of a caller, until one fails. *)
Fixpoint polls (ts : list Z) (f : gxfp_fdt_flow) : M lworld (Z * ptr gxfp_fdt_flow) :=
  match ts with
  | [] => mret (0, Some f)
  | t :: ts =>
    '(r, f) ← gxfp_fdt_flow_poll (Some f) t;
    if r <? 0 then mret (r, f) else
    f ← lift f;
    polls ts f
  end.

(** Times at least [FDT_WAIT_UP_RETRY_MS] apart. *)
Fixpoint spaced (t0 : Z) (ts : list Z) : Prop :=
  match ts with
  | [] => True
  | t :: ts => t0 + FDT_WAIT_UP_RETRY_MS <= t ∧ spaced t ts
  end.

(** The table a re-arm sends: the one in use when a finger last left, if any. *)
Definition rearm_table (f : gxfp_fdt_flow) : bytes :=
  if last_good_up_valid f =? 0 then up_table_5130 (cmd f) else last_good_up_table f.

Definition rearmed (f : gxfp_fdt_flow) (now : Z) : gxfp_fdt_flow :=
  let s := set_up (rearm_table f) (cmd f) in
  set_armed (rearm_table f) now (wait_up_retries f + 1) (set_cmd (set_manual (down_table_5130 s) s) f).

Definition rearm_packets (f : gxfp_fdt_flow) : list (Z * bytes) :=
  [mode_packet (down_table_5130 (cmd f)); up_packet (rearm_table f)].

(** A device that takes every packet whole. *)
Definition accepting : Prop := ∀ tr fd pk, sys_write (tr ++ [EvWrite fd pk]) = zlen pk.

Lemma async_accepted c pl w fd :
  dev_open w fd → is_u8 c → zlen pl = 34 → accepting → l_oom w = [] →
  wp (gxfp_goodix_send_async c (Some pl) 34) (λ r w', r = 0 ∧ l_oom w' = []) w.
Proof using EO.
  intros Hd Hc Hl Ha Ho. rewrite <- Hl. rewrite <- (app_nil_r pl) at 1.
  eapply wp_run; [apply (send_async_run c pl [] w fd Hd Hc); rewrite Hl; done|]. cbv zeta.
  rewrite (proj2 (Z.ltb_ge _ (zlen pl + 4))) by (rewrite Hl; done). rewrite Ho, Ha.
  unfold user_packet. rewrite zlen_tx_packet, zlen_goodix_frame, Hl by done.
  cbn [fst snd]. split; [done|]. cbn. by rewrite Ho.
Qed.

Lemma async_step c pl w fd :
  dev_open w fd → is_u8 c → zlen pl = 34 →
  wp (gxfp_goodix_send_async c (Some pl) 34)
     (λ r w', (r <= 0 ∧ ∃ l, posts l w w' ∧ (l = [] ∨ l = [(c, pl)]) ∧ (r = 0 → l = [(c, pl)])) ∧
              (accepting → l_oom w = [] → r = 0 ∧ l_oom w' = [])) w.
Proof using EO.
  intros Hd Hc Hl. apply wp_and; [by apply (async_posts c pl w fd)|].
  destruct (wp_inv _ _ _ (async_posts c pl w fd Hd Hc Hl)) as (r & w' & Hr & _).
  eapply wp_eq; [exact Hr|]. intros Ha Ho.
  destruct (wp_inv _ _ _ (async_accepted c pl w fd Hd Hc Hl Ha Ho)) as (r1 & w1 & Hr1 & H).
  rewrite Hr in Hr1. by injection Hr1 as <- <-.
Qed.

(** A poll that is due. *)
Lemma poll_due f l now w fd :
  dev_open w fd → flow_inv f l → gxfp_fdt_flow_wait_up_retry_due (Some f) now = 1 →
  wp (gxfp_fdt_flow_poll (Some f) now)
     (λ '(r, f') w', r <= 0 ∧ (∃ k, posts k w w' ∧ (length k <= 2)%nat ∧
          (r = 0 → k = rearm_packets f ∧ f' = Some (rearmed f now))) ∧
        (accepting → l_oom w = [] → r = 0 ∧ l_oom w' = [])) w.
Proof using EO.
  intros Hd Hf Hdue. unfold gxfp_fdt_flow_poll.
  apply wp_bind. eapply wp_eq; [by apply (dev_null_run w fd)|]. cbv iota zeta. rewrite Hdue. cbn [Z.leb Z.compare].
  set (s := set_up (rearm_table f) (cmd f)).
  assert (Hs : cmd_ok s).
  { destruct (fi_cmd _ _ Hf) as (H1 & H2 & H3 & H4). split; [done|]. split; [|done].
    cbn. unfold rearm_table. destruct (_ =? 0); [done|apply (fi_good _ _ Hf)]. }
  apply wp_bind. apply (wp_lift _ (set_cmd s f)).
  { unfold s, rearm_table. destruct (last_good_up_valid f =? 0); cbn [negb]; [by destruct f as [[] ? ? ? ? ? ? ? ?]|].
    by rewrite memcpy_table by (apply (fi_cmd _ _ Hf) || apply (fi_good _ _ Hf)). }
  cbn [cmd set_cmd]. apply wp_bind. eapply wp_ext; [by apply (fdt_set_mode_run s w fd)|].
  apply wp_bind. eapply wp_mono; [apply (async_step _ _ w fd Hd); [done|apply zlen_fdt_payload, Hs]|].
  intros r w1 ((Hr & k1 & Hk1 & Hkk & H0) & Hacc). apply wp_ret. apply wp_bind. eapply wp_lift; [done|]. cbv zeta.
  destruct (Z.ltb_spec r 0) as [Hneg|].
  { apply wp_ret. split; [lia|]. split; [|intros Ha Ho; destruct (Hacc Ha Ho); lia].
    exists k1. split; [done|]. split; [|lia]. destruct Hkk as [-> | ->]; cbn; lia. }
  specialize (H0 ltac:(lia)). subst k1.
  apply wp_bind. eapply wp_ext; [apply (fdt_send_up_run _ w1 fd); [by eapply posts_open|by apply cmd_ok_manual; [apply Hs|]]|].
  cbn [cmd set_cmd set_manual up_table_5130 set_up].
  eapply wp_mono; [apply (async_step _ _ w1 fd); [by eapply posts_open|done|apply zlen_fdt_payload, Hs]|].
  intros r2 w2 ((Hr2 & k2 & Hk2 & Hkk2 & H02) & Hacc2).
  assert (Hposts : posts ([mode_packet (down_table_5130 s)] ++ k2) w w2) by (by eapply posts_app).
  destruct (Z.ltb_spec r2 0) as [Hneg|].
  { apply wp_ret. split; [lia|]. split.
    - exists ([mode_packet (down_table_5130 s)] ++ k2). split; [done|]. split; [|lia].
      destruct Hkk2 as [-> | ->]; cbn; lia.
    - intros Ha Ho. destruct (Hacc Ha Ho) as (_ & Ho1). destruct (Hacc2 Ha Ho1). lia. }
  specialize (H02 ltac:(lia)). subst k2. apply wp_bind.
  eapply wp_lift; [by apply memcpy_table; [apply (fi_armed _ _ Hf)|apply Hs]|].
  apply wp_ret. split; [done|]. split.
  - eexists. split; [exact Hposts|]. split; [done|]. intros _. split; [done|]. done.
  - intros Ha Ho. destruct (Hacc Ha Ho) as (_ & Ho1). destruct (Hacc2 Ha Ho1). by split; [|].
Qed.

Lemma poll_not_due f now w fd :
  dev_open w fd → gxfp_fdt_flow_wait_up_retry_due (Some f) now <= 0 →
  gxfp_fdt_flow_poll (Some f) now w = Some ((gxfp_fdt_flow_wait_up_retry_due (Some f) now, Some f), w).
Proof using Type.
  intros Hd H. unfold gxfp_fdt_flow_poll. rewrite (run_bind _ _ _ _ _ (dev_null_run w fd Hd)). cbv iota zeta.
  by rewrite (proj2 (Z.leb_le _ 0)).
Qed.

(** Waiting, armed. *)
Definition waiting (f : gxfp_fdt_flow) : Prop :=
  mode f = GXFP_FDT_MODE_WAIT_UP ∧ state f ≠ GXFP_FDT_STATE_UP ∧ 0 < wait_up_armed_ms f.

Lemma due_run f now :
  waiting f →
  gxfp_fdt_flow_wait_up_retry_due (Some f) now
  = if now <? wait_up_armed_ms f + FDT_WAIT_UP_RETRY_MS then 0
    else if FDT_WAIT_UP_MAX_RETRIES <=? wait_up_retries f then - ETIMEDOUT else 1.
Proof using Type.
  intros (Hm & Hst & Ha). unfold gxfp_fdt_flow_wait_up_retry_due, FDT_WAIT_UP_RETRY_MS in *.
  rewrite Hm, (proj2 (Z.eqb_neq _ _) Hst), (proj2 (Z.leb_gt _ 0) Ha). cbn [negb orb Z.eqb].
  rewrite Z.eqb_refl. cbn [negb orb].
  destruct (Z.ltb_spec now (wait_up_armed_ms f)), (Z.ltb_spec (now - wait_up_armed_ms f) 750),
    (Z.ltb_spec now (wait_up_armed_ms f + 750)); done || lia.
Qed.

Lemma rearmed_same f now :
  0 < now → waiting f →
  waiting (rearmed f now) ∧ rearm_packets (rearmed f now) = rearm_packets f.
Proof using Type.
  intros Hn (Hm & Hs & Ha). split; [done|]. unfold rearm_packets, rearm_table. cbn.
  unfold rearm_table. by destruct (last_good_up_valid f =? 0).
Qed.

(** The re-arms that are left. *)
Definition rearms_left (f : gxfp_fdt_flow) : nat := Z.to_nat (FDT_WAIT_UP_MAX_RETRIES - wait_up_retries f).

Lemma polls_run ts f l w fd :
  dev_open w fd → flow_inv f l → waiting f → spaced (wait_up_armed_ms f) ts →
  (rearms_left f < length ts)%nat →
  wp (polls ts f)
     (λ '(r, f') w', r < 0 ∧ ∃ k, posts k w w' ∧ (length k <= 2 * rearms_left f)%nat ∧
        (accepting → l_oom w = [] →
           r = - ETIMEDOUT ∧ k = concat (replicate (rearms_left f) (rearm_packets f)))) w.
Proof using EO.
  revert f l w. induction ts as [|t ts IH]; intros f l w Hd Hf Hw Hsp Hlen; [cbn in Hlen; lia|].
  destruct Hsp as [Ht Hsp]. cbn [length] in Hlen. pose proof (fi_retries _ _ Hf) as Hret.
  pose proof (due_run f t Hw) as Hdue. rewrite (proj2 (Z.ltb_ge t _)) in Hdue by lia.
  cbn [polls]. apply wp_bind. unfold rearms_left in *.
  destruct (Z.leb_spec FDT_WAIT_UP_MAX_RETRIES (wait_up_retries f)) as [Hmax|Hlt].
  - eapply wp_eq; [apply (poll_not_due f t w fd Hd); rewrite Hdue; done|]. rewrite Hdue. cbn [Z.ltb Z.compare].
    change (- ETIMEDOUT <? 0) with true. cbv iota. apply wp_ret. split; [done|]. exists [].
    split; [apply posts_nil|]. split; [cbn; lia|]. intros _ _.
    by replace (FDT_WAIT_UP_MAX_RETRIES - wait_up_retries f) with 0 by lia.
  - eapply wp_mono; [apply wp_and; [by apply (poll_due f l t w fd)|by apply (poll_wp t f l w fd)]|].
    intros [r f'] w1 ((Hr & (k1 & Hk1 & Hl1 & H0) & Hacc) & (f1 & k1' & Hf1 & Hk1' & _ & Hi)).
    destruct (Z.ltb_spec r 0) as [Hneg|].
    { apply wp_ret. split; [done|]. exists k1. split; [done|]. split; [lia|].
      intros Ha Ho. destruct (Hacc Ha Ho). lia. }
    destruct (H0 ltac:(lia)) as (-> & E1). rewrite Hf1 in E1. injection E1 as ->. subst f'.
    apply wp_bind. eapply wp_lift; [done|].
    destruct Hw as (Hw1 & Hw2 & Hw3). unfold FDT_WAIT_UP_RETRY_MS in *.
    destruct (rearmed_same f t ltac:(lia) (conj Hw1 (conj Hw2 Hw3))) as (Hw' & Hpk).
    eapply wp_mono; [apply (IH (rearmed f t) (l ++ k1') w1); [by eapply posts_open|done|done|exact Hsp|]|].
    { change (wait_up_retries (rearmed f t)) with (wait_up_retries f + 1). lia. }
    change (wait_up_retries (rearmed f t)) with (wait_up_retries f + 1). rewrite Hpk.
    replace (Z.to_nat (FDT_WAIT_UP_MAX_RETRIES - wait_up_retries f))
      with (S (Z.to_nat (FDT_WAIT_UP_MAX_RETRIES - (wait_up_retries f + 1)))) by lia.
    intros [r2 f2] w2 (Hr2 & k2 & Hk2 & Hl2 & Hacc2). split; [done|].
    exists (rearm_packets f ++ k2). split; [by eapply posts_app|]. split.
    { rewrite length_app. cbn [length rearm_packets]. lia. }
    intros Ha Ho. destruct (Hacc Ha Ho) as (_ & Ho1). destruct (Hacc2 Ha Ho1) as (-> & ->). done.
Qed.

(** C40: waiting for a finger to leave ends: while no report says it left, a poll
    less than 750 ms after the last arming changes nothing, and of polls at least 750 ms
    apart the one after the last of the 20 re-arms fails, or an earlier one does
    because a packet could not be sent. On a device that takes its packets the result
    is -ETIMEDOUT after exactly the re-arms that were left, each of them one FDT_MODE
    and one FDT_UP with the same two tables: the one the flow had when a finger last
    left, whether or not it was ever sent, and the last one learnt if none left. *)
Theorem wait_up_ends ts f l w fd :
  dev_open w fd → flow_inv f l → waiting f → spaced (wait_up_armed_ms f) ts →
  (rearms_left f < length ts)%nat →
  (∀ now, now < wait_up_armed_ms f + FDT_WAIT_UP_RETRY_MS →
     gxfp_fdt_flow_poll (Some f) now w = Some ((0, Some f), w)) ∧
  ∃ r f' w' k, polls ts f w = Some ((r, f'), w') ∧ r < 0 ∧ posts k w w' ∧
    (length k <= 2 * rearms_left f)%nat ∧
    (accepting → l_oom w = [] →
       r = - ETIMEDOUT ∧ k = concat (replicate (rearms_left f) (rearm_packets f))).
Proof using EO.
  intros Hd Hf Hw Hsp Hlen. split.
  - intros now Hnow. pose proof (due_run f now Hw) as Hdue. rewrite (proj2 (Z.ltb_lt now _)) in Hdue by done.
    rewrite (poll_not_due f now w fd Hd) by (rewrite Hdue; done). by rewrite Hdue.
  - destruct (wp_inv _ _ _ (polls_run ts f l w fd Hd Hf Hw Hsp Hlen)) as ([r f'] & w' & Hr & Hneg & k & Hk).
    by exists r, f', w', k.
Qed.
End fdt_rules.

(** * A finger that stays *)

(** The sensor is armed for a finger that comes, reports one that left (a touch too
    short to see), then one that comes; the host waits for it to leave. *)
Definition demo_fdt_world : lworld := {| l_dev := Some 3; l_trace := [EvClock CLOCK_MONOTONIC]; l_oom := [] |}.
Definition demo_tap : gxfp_tap_hdr :=
  {| th_len := 0; th_type := GOODIX_MP_TYPE_CMD; th_rsvd0 := 0; th_ts_ns := 0; th_head16 := zeros 16 |}.
Definition demo_report (status : Z) : bytes :=
  goodix_frame GXFP_CMD_FDT_STATUS (le_enc 2 status ++ [1; 0] ++ [64; 1; 66; 1]).
Definition demo_ops : list fdt_op :=
  [OpMode GXFP_FDT_MODE_WAIT_DOWN; OpFeed demo_tap (demo_report FDT_STATUS_UP) 12;
   OpFeed demo_tap (demo_report FDT_STATUS_DOWN_GET_UP_BASE) 12; OpMode GXFP_FDT_MODE_WAIT_UP].

#[local] Instance fdt_env_ok : UenvOk (script_env []).
Proof. apply script_env_ok. constructor. Defined.

Lemma demo_ops_ok : Forall op_ok demo_ops.
Proof.
  repeat constructor; cbn; try done.
Qed.

Definition blank_flow : gxfp_fdt_flow :=
  {| cmd := {| down_table_5130 := zeros 24; up_table_5130 := zeros 24; manual_table_5130 := zeros 24;
               base_table_inited := 1; up_second_flag := 0; up_need_twice := 0; up_diff_use := 0;
               up_dac_offset := 0; up_round := 0 |};
     mode := 0; state := 0; last_status := 0; armed_up_table := zeros 24; last_good_up_table := zeros 24;
     last_good_up_valid := 0; wait_up_retries := 0; wait_up_armed_ms := 0 |}.

(** The table of the re-arm is the blank one, although the flow armed the sensor with
    a table it had learnt: a report of a finger that left is taken before any FDT_UP. *)
Lemma rearm_table_never_sent :
  wp (run_ops (E := script_env []) demo_ops blank_flow)
     (λ f w', waiting f ∧ l_oom w' = [] ∧ wait_up_retries f = 0 ∧ wait_up_armed_ms f < 1000 ∧
        rearm_table f = zeros 24 ∧ armed_up_table f = [181; 181; 182; 19] ++ zeros 20) demo_fdt_world.
Proof. vm_compute. repeat split; discriminate. Qed.

Lemma fdt_flow_invariant_witness :
  dev_open demo_fdt_world 3 ∧
  ∃ f1 f w' l, gxfp_fdt_flow_init (Some blank_flow) = Some (Some f1) ∧
    run_ops (E := script_env []) demo_ops f1 demo_fdt_world = Some (f, w') ∧
    posts l demo_fdt_world w' ∧ Forall fdt_packet l ∧ flow_inv f l.
Proof.
  split; [done|].
  apply (fdt_flow_invariant (E := script_env []) demo_ops blank_flow demo_fdt_world 3); [done|exact demo_ops_ok].
Defined.

Lemma demo_dev : dev_open demo_fdt_world 3.
Proof. done. Qed.

Definition demo_times : list Z := (λ i, 2000 + 750 * Z.of_nat i) <$> seq 0 21.

Lemma script_accepting : accepting (E := script_env []).
Proof. intros tr fd pk. cbn. by rewrite last_snoc. Qed.

Lemma blank_flow_inv : flow_inv blank_flow [].
Proof. destruct (flow_init_inv blank_flow) as (f & Hi & Hf). by injection Hi as <-. Qed.

Lemma wait_up_ends_witness :
  ∃ f w, waiting f ∧ rearm_table f = zeros 24 ∧
  ∃ r f' w' k, polls (E := script_env []) demo_times f w = Some ((r, f'), w') ∧
    r = - ETIMEDOUT ∧ posts k w w' ∧ k = concat (replicate 20 (rearm_packets f)).
Proof.
  pose proof (run_ops_wp (E := script_env []) demo_ops blank_flow [] demo_fdt_world 3
    demo_dev blank_flow_inv demo_ops_ok) as Hinv.
  destruct (wp_inv _ _ _ (wp_and _ _ _ _ rearm_table_never_sent Hinv))
    as (f & w & _ & (Hw & Ho & Hn & Hms & Ht & _) & k & Hk & _ & Hf). clear Hinv.
  exists f, w. split; [exact Hw|]. split; [exact Ht|].
  assert (Hleft : rearms_left f = 20%nat) by (unfold rearms_left; by rewrite Hn).
  destruct (wait_up_ends (E := script_env []) demo_times f ([] ++ k) w 3
    (posts_open k demo_fdt_world w 3 demo_dev Hk) Hf Hw) as (_ & r & f' & w' & k' & H1 & _ & H2 & _ & H3).
  - cbn. unfold FDT_WAIT_UP_RETRY_MS. lia.
  - rewrite Hleft. cbn. lia.
  - destruct (H3 script_accepting Ho) as (-> & ->). rewrite Hleft in H2.
    exists (- ETIMEDOUT), f', w', (concat (replicate 20 (rearm_packets f))).
    exact (conj H1 (conj eq_refl (conj H2 eq_refl))).
Defined.
