(* ===== verification/UFpn.v ===== *)
(** Fixed pattern noise: [userspace/src/algo/image/fpn.c]. The dark frame is subtracted,
    then the pixels are stretched to 12 bits, in double precision: IEEE 754 binary64,
    rounding to nearest even, as in [SpecFloat]. *)
From Stdlib Require Import ZArith Lia SpecFloat.
From stdpp Require Import prelude list.
From S2P Require Import Prelude UWorld UCommon UXfer UDecoder.

Open Scope Z_scope.

(** * Doubles *)

Definition dbl_of_Z (n : Z) : spec_float := binary_normalize 53 1024 n 0 false.
Definition dbl_half : spec_float := S754_finite false 4503599627370496 (- 53). (* 0.5 *)
Definition dsub : spec_float → spec_float → spec_float := SFsub 53 1024.
Definition dmul : spec_float → spec_float → spec_float := SFmul 53 1024.
Definition dadd : spec_float → spec_float → spec_float := SFadd 53 1024.
Definition ddiv : spec_float → spec_float → spec_float := SFdiv 53 1024.

(** The integral part, towards zero. *)
Definition dbl_trunc (f : spec_float) : option Z :=
  match f with
  | S754_zero _ => Some 0
  | S754_finite s m e =>
    let a := if 0 <=? e then Zpos m * 2 ^ e else Zpos m / 2 ^ (- e) in
    Some (if s then - a else a)
  | _ => None
  end.

(** [(uint16_t)f]: undefined when the integral part does not fit. *)
Definition u16_of_dbl (f : spec_float) : option Z :=
  z ← dbl_trunc f;
  if (0 <=? z) && (z <=? 65535) then Some z else None.

(** * fpn.c *)

Record gxfp_fpn_dark := {
  dark_pixels : ptr (list Z);
  dark_rows : Z;
  dark_cols : Z
}.

Definition gxfp_fpn_free (dark : ptr gxfp_fpn_dark) : ptr gxfp_fpn_dark :=
  setp dark {| dark_pixels := None; dark_rows := 0; dark_cols := 0 |}.

(** [pixels[i]] less the dark one. *)
Definition dark_subtract (total : Z) (px dk : list Z) : option (list Z) :=
  forN (Z.to_nat total) 0 (λ i px,
    p ← rd px i;
    d ← rd dk i;
    let v := p - d in
    wr px i (u16 (if 0 <=? v then v else - v))) px.

(** The smallest and the largest value inside the border. *)
Definition inner_range (rows cols : Z) (px : list Z) : option (Z * Z) :=
  forN (Z.to_nat (rows - 2)) 1 (λ y acc,
    forN (Z.to_nat (cols - 2)) 1 (λ x '(gmin, gmax),
      v ← rd px (y * cols + x);
      Some (if v <? gmin then v else gmin, if gmax <? v then v else gmax)) acc) (4095, 0).

(** The new value of a pixel. *)
Definition stretch_pixel (gmin : Z) (scale : spec_float) (p : Z) : option Z :=
  let v := dmul (dsub (dbl_of_Z p) (dbl_of_Z gmin)) scale in
  let v := if SFltb v (dbl_of_Z 0) then dbl_of_Z 0 else v in
  let v := if SFltb (dbl_of_Z 4095) v then dbl_of_Z 4095 else v in
  u16_of_dbl (dadd v dbl_half).

Definition stretch (rows cols gmin gmax : Z) (px : list Z) : option (list Z) :=
  let scale := ddiv (dbl_of_Z 4095) (dbl_of_Z (gmax - gmin)) in
  forN (Z.to_nat rows) 0 (λ y px,
    forN (Z.to_nat cols) 0 (λ x px,
      p ← rd px (y * cols + x);
      q ← stretch_pixel gmin scale p;
      wr px (y * cols + x) q) px) px.

Definition gxfp_fpn_correct (px : ptr (list Z)) (rows cols : Z) (dark : ptr gxfp_fpn_dark)
    : option (Z * ptr (list Z)) :=
  match px with
  | None => Some (- EINVAL, px)
  | Some p =>
    if (rows <=? 0) || (cols <=? 0) then Some (- EINVAL, px) else
    total ← ck_int (rows * cols);
    let finish p :=
      '(gmin, gmax) ← inner_range rows cols p;
      p ← (if gmin <? gmax then stretch rows cols gmin gmax p else Some p);
      Some (0, Some p) in
    match dark with
    | None => finish p
    | Some d =>
      if negb (dark_rows d =? rows) || negb (dark_cols d =? cols) then Some (- EINVAL, px) else
      match dark_pixels d with
      | None => Some (- EINVAL, px)
      | Some dk => p ← dark_subtract total p dk; finish p
      end
    end
  end.

(** * Rounding *)

(** [r] is [m0] shifted right by [k]; what was lost is in its two bits. *)
Definition shifted (m0 : Z) (r : shr_record) (k : Z) : Prop :=
  0 <= shr_m r ∧ 0 <= k ∧ shr_m r * 2 ^ k <= m0 < (shr_m r + 1) * 2 ^ k ∧
  (shr_m r * 2 ^ k = m0 → shr_r r = false ∧ shr_s r = false).

Lemma shr_1_shifted m0 r k : shifted m0 r k → shifted m0 (shr_1 r) (k + 1).
Proof.
  intros (Hm & Hk & Hb & He). destruct r as [m rr ss]. cbn [shr_m shr_r shr_s] in *.
  unfold shifted. rewrite Z.pow_add_r by lia. change (2 ^ 1) with 2.
  set (p := 2 ^ k) in *. assert (0 < p) by (apply Z.pow_pos_nonneg; lia).
  destruct m as [|[q|q|]|]; cbn [shr_1 shr_m shr_r shr_s]; [| | | |lia].
  - split; [lia|]. split; [lia|]. split; [nia|]. intros H0. by destruct He as (-> & ->).
  - rewrite (Pos2Z.inj_xI q) in *. split; [lia|]. split; [lia|]. split; [nia|]. intros H0. nia.
  - rewrite (Pos2Z.inj_xO q) in *. split; [lia|]. split; [lia|]. split; [nia|].
    intros H0. destruct He as (-> & ->); [nia|done].
  - split; [lia|]. split; [lia|]. split; [nia|]. intros H0. nia.
Qed.

Lemma iter_shifted m0 p r k : shifted m0 r k → shifted m0 (SpecFloat.iter_pos shr_1 p r) (k + Zpos p).
Proof.
  revert r k. induction p as [p IH|p IH|]; intros r k H; cbn [iter_pos].
  - rewrite (Pos2Z.inj_xI p). replace (k + (2 * Zpos p + 1)) with (k + 1 + Zpos p + Zpos p) by lia.
    by apply IH, IH, shr_1_shifted.
  - rewrite (Pos2Z.inj_xO p). replace (k + 2 * Zpos p) with (k + Zpos p + Zpos p) by lia. by apply IH, IH.
  - by apply shr_1_shifted.
Qed.

(** The number of digits. *)
Lemma digits_bounds p : 2 ^ (Zpos (digits2_pos p) - 1) <= Zpos p < 2 ^ Zpos (digits2_pos p).
Proof.
  induction p as [p IH|p IH|]; cbn [digits2_pos]; [| |done].
  all: rewrite Pos2Z.inj_succ; replace (Z.succ (Zpos (digits2_pos p)) - 1) with (Zpos (digits2_pos p) - 1 + 1) by lia.
  all: rewrite Z.pow_succ_r, Z.pow_add_r by lia; change (2 ^ 1) with 2.
  1: rewrite (Pos2Z.inj_xI p). 2: rewrite (Pos2Z.inj_xO p). all: lia.
Qed.

(** The shift to the precision: an exact start, [k] bits lost, at most 53 left. *)
Lemma shr_fexp_shifted m e :
  0 <= m →
  ∃ r k, shr_fexp 53 1024 m e loc_Exact = (r, e + k) ∧ shifted m r k ∧ shr_m r < 2 ^ 53 ∧
    k = Z.max 0 (fexp 53 1024 (Zdigits2 m + e) - e).
Proof.
  intros Hm. unfold shr_fexp. cbn [shr_record_of_loc]. set (n := fexp 53 1024 (Zdigits2 m + e) - e).
  assert (Hstart : shifted m {| shr_m := m; shr_r := false; shr_s := false |} 0).
  { unfold shifted. cbn [shr_m shr_r shr_s]. rewrite Z.pow_0_r. split_and!; (done || lia). }
  assert (Hd : m < 2 ^ Zdigits2 m) by (destruct m as [|p|]; [done|apply digits_bounds|lia]).
  assert (H0 : 0 <= Zdigits2 m) by by destruct m.
  assert (Hn : Zdigits2 m - 53 <= n) by (unfold n, fexp; lia).
  destruct n as [|p|p] eqn:En; cbn [shr].
  2: { exists (SpecFloat.iter_pos shr_1 p {| shr_m := m; shr_r := false; shr_s := false |}), (Zpos p).
       split; [done|]. pose proof (iter_shifted m p _ 0 Hstart) as Hs. rewrite Z.add_0_l in Hs.
       split; [done|]. split; [|lia]. destruct Hs as (H1 & _ & (H2 & _) & _). set (x := shr_m _) in *.
       assert (x * 2 ^ Zpos p < 2 ^ 53 * 2 ^ Zpos p); [|apply (Z.mul_lt_mono_pos_r (2 ^ Zpos p)); [lia|done]].
       rewrite <- Z.pow_add_r by lia. assert (2 ^ Zdigits2 m <= 2 ^ (53 + Zpos p)) by (apply Z.pow_le_mono_r; lia). lia. }
  all: exists {| shr_m := m; shr_r := false; shr_s := false |}, 0; rewrite Z.add_0_r; (split; [done|]);
    split; [done|]; cbn [shr_m]; assert (2 ^ Zdigits2 m <= 2 ^ 53) by (apply Z.pow_le_mono_r; lia);
    (split; lia).
Qed.

(** A double that is not NaN, its mantissa of at most 53 bits. *)
Definition regular (f : spec_float) : Prop :=
  match f with
  | S754_nan => False
  | S754_finite _ m _ => Zpos m < 2 ^ 53
  | _ => True
  end.

Lemma round_even_bounds m l : m <= round_nearest_even m l <= m + 1 ∧ (l = loc_Exact → round_nearest_even m l = m).
Proof. destruct l as [|[]]; cbn; try destruct (Z.even m); split; (lia || done). Qed.

(** Rounding an exact value: below a bound [b / 2 ^ j] that the precision can express,
    the result is below it too, and it is not NaN. *)
Lemma round_aux_regular s m e : 0 <= m → regular (binary_round_aux 53 1024 s m e loc_Exact).
Proof.
  intros Hm. unfold binary_round_aux.
  destruct (shr_fexp_shifted m e Hm) as (r & k & -> & (Hr & _) & _).
  pose proof (round_even_bounds (shr_m r) (loc_of_shr_record r)) as (Hb & _).
  destruct (shr_fexp_shifted (round_nearest_even (shr_m r) (loc_of_shr_record r)) (e + k)) as (r2 & k2 & -> & (Hr2 & _) & Hlt & _); [lia|].
  destruct (shr_m r2) as [|p|p]; [done| |lia]. destruct (_ <=? _); done.
Qed.

Lemma binary_round_regular s m e : regular (binary_round 53 1024 s m e).
Proof. unfold binary_round. destruct (shl_align _ _ _) as [mz ez]. by apply round_aux_regular. Qed.

Lemma normalize_regular m e b : regular (binary_normalize 53 1024 m e b).
Proof. destruct m; [done|apply binary_round_regular..]. Qed.

Lemma dsub_regular x y :
  regular x → regular y → (∀ s, x ≠ S754_infinity s) → (∀ s, y ≠ S754_infinity s) → regular (dsub x y).
Proof.
  intros Hx Hy Hix Hiy. unfold dsub.
  destruct x as [sx|sx| |sx mx ex], y as [sy|sy| |sy my ey]; try done;
    try (by destruct (Hix sx)); try (by destruct (Hiy sy)).
  - by destruct sx, sy.
  - apply normalize_regular.
Qed.

Lemma dmul_regular x m e : regular x → regular (dmul x (S754_finite false m e)).
Proof. intros Hx. destruct x as [sx|sx| |sx mx ex]; try done. by apply round_aux_regular. Qed.

(** ** Exact results *)

Lemma digits_unique p d : 2 ^ (d - 1) <= Zpos p < 2 ^ d → Zpos (digits2_pos p) = d.
Proof.
  intros Hp. pose proof (digits_bounds p) as Hd. set (x := Zpos (digits2_pos p)) in *. assert (1 <= x) by lia.
  destruct (Z.lt_trichotomy x d) as [Hlt|[|Hlt]]; [|done|].
  - assert (2 ^ x <= 2 ^ (d - 1)) by (apply Z.pow_le_mono_r; lia). lia.
  - destruct (Z.lt_ge_cases d 0); [rewrite (Z.pow_neg_r 2 d) in Hp by done; lia|].
    assert (2 ^ d <= 2 ^ (x - 1)) by (apply Z.pow_le_mono_r; lia). lia.
Qed.

(** A mantissa of exactly 53 bits stays. *)
Definition full (m : Z) : Prop := 2 ^ 52 <= m < 2 ^ 53.

Lemma shr_full m e l :
  full (Zpos m) → - 1074 <= e → shr_fexp 53 1024 (Zpos m) e l = (shr_record_of_loc (Zpos m) l, e).
Proof.
  intros Hm He. unfold shr_fexp. cbn [Zdigits2]. rewrite (digits_unique m 53) by done.
  replace (fexp 53 1024 (53 + e) - e) with 0 by (unfold fexp, emin; lia). done.
Qed.

Lemma round_full s m e : full (Zpos m) → - 1074 <= e <= 971 →
  binary_round_aux 53 1024 s (Zpos m) e loc_Exact = S754_finite s m e.
Proof.
  intros Hm He. unfold binary_round_aux. rewrite shr_full by (done || lia).
  cbn [shr_record_of_loc shr_m loc_of_shr_record round_nearest_even].
  rewrite shr_full by (done || lia). cbn [shr_record_of_loc shr_m].
  by rewrite (proj2 (Z.leb_le e (1024 - 53))) by lia.
Qed.

Lemma iter_xO m d : Zpos (Pos.iter xO m d) = Zpos m * 2 ^ Zpos d.
Proof.
  induction d as [|d IH] using Pos.peano_ind; [cbn; lia|].
  rewrite Pos.iter_succ, Pos2Z.inj_succ, Z.pow_succ_r, (Pos2Z.inj_xO (Pos.iter _ _ _)), IH by lia. lia.
Qed.

(** A value that a full mantissa gives exactly. *)
Lemma round_exact s M e m k :
  full (Zpos m) → - 1074 <= e + k <= 971 →
  (0 <= k ∧ Zpos M = Zpos m * 2 ^ k ∨ k <= 0 ∧ Zpos M * 2 ^ (- k) = Zpos m) →
  binary_round 53 1024 s M e = S754_finite s m (e + k).
Proof.
  intros Hm He HM. unfold binary_round.
  assert (Hd : Zpos (digits2_pos M) = 53 + k).
  { apply digits_unique. destruct HM as [(Hk & HM)|(Hk & HM)].
    - rewrite HM. replace (53 + k - 1) with (52 + k) by lia. rewrite !Z.pow_add_r by lia.
      unfold full in Hm. nia.
    - pose proof (digits_bounds M) as Hb. set (x := Zpos (digits2_pos M)) in *. assert (1 <= x) by lia.
      assert (Hx : x = 53 + k); [|by rewrite <- Hx].
      assert (H1 : 2 ^ (x - 1 + - k) <= Zpos m < 2 ^ (x + - k)).
      { rewrite !Z.pow_add_r by lia. rewrite <- HM. assert (0 < 2 ^ (- k)) by (apply Z.pow_pos_nonneg; lia). nia. }
      pose proof (digits_unique m (x + - k)) as Hu. rewrite (digits_unique m 53) in Hu by done.
      replace (x + - k - 1) with (x - 1 + - k) in Hu by lia. specialize (Hu H1). lia. }
  rewrite Hd. replace (fexp 53 1024 (53 + k + e)) with (e + k) by (unfold fexp, emin; lia).
  unfold shl_align. replace (e + k - e) with k by lia. destruct k as [|k|k].
  - assert (HMm : M = m) by (destruct HM as [(_ & HM)|(_ & HM)]; try change (- 0) with 0 in HM; rewrite Z.pow_0_r in HM; lia).
    subst M. rewrite Z.add_0_r. apply round_full; [done|lia].
  - destruct HM as [(_ & HM)|]; [|lia]. unfold binary_round_aux.
    destruct (shr_fexp_shifted (Zpos M) e) as (r & n & Er & (H1 & H2 & H3 & H4) & _ & Hn); [lia|].
    cbn [Zdigits2] in Hn. rewrite Hd in Hn.
    replace (fexp 53 1024 (53 + Zpos k + e) - e) with (Zpos k) in Hn by (unfold fexp, emin; lia).
    rewrite Z.max_r in Hn by lia. subst n. assert (0 < 2 ^ Zpos k) by (apply Z.pow_pos_nonneg; lia).
    assert (Hr : shr_m r = Zpos m) by nia. destruct H4 as (H5 & H6); [by rewrite Hr|].
    rewrite Er. destruct r as [rm rr rs]. cbn [shr_m shr_r shr_s] in *. subst rm rr rs.
    cbn [loc_of_shr_record round_nearest_even]. rewrite shr_full by (done || lia).
    cbn [shr_record_of_loc shr_m]. by rewrite (proj2 (Z.leb_le _ (1024 - 53))) by lia.
  - destruct HM as [|(_ & HM)]; [lia|]. replace (Pos.iter xO M k) with m
      by (apply Pos2Z.inj; rewrite iter_xO, <- HM; done).
    apply round_full; [done|lia].
Qed.

(** An integer below [2 ^ 53] is a double. *)
Definition dbl_int (n : positive) : spec_float :=
  let d := Zpos (digits2_pos n) in S754_finite false (Z.to_pos (Zpos n * 2 ^ (53 - d))) (d - 53).

Lemma digits_le p d : Zpos p < 2 ^ d → Zpos (digits2_pos p) <= d.
Proof.
  intros Hp. pose proof (digits_bounds p) as Hd. destruct (Z.le_gt_cases (Zpos (digits2_pos p)) d); [done|].
  destruct (Z.lt_ge_cases d 0); [rewrite Z.pow_neg_r in Hp by done; lia|].
  assert (2 ^ d <= 2 ^ (Zpos (digits2_pos p) - 1)) by (apply Z.pow_le_mono_r; lia). lia.
Qed.

Lemma dbl_int_full n : Zpos n < 2 ^ 53 →
  let d := Zpos (digits2_pos n) in
  1 <= d <= 53 ∧ Zpos (Z.to_pos (Zpos n * 2 ^ (53 - d))) = Zpos n * 2 ^ (53 - d) ∧ full (Zpos n * 2 ^ (53 - d)).
Proof.
  intros Hn d. pose proof (digits_le n 53 Hn). fold d in H. pose proof (digits_bounds n) as Hb. fold d in Hb.
  assert (1 <= d) by (unfold d; lia). assert (0 < 2 ^ (53 - d)) by (apply Z.pow_pos_nonneg; lia).
  split; [lia|]. split; [apply Z2Pos.id; lia|]. unfold full.
  replace (2 ^ 52) with (2 ^ (d - 1) * 2 ^ (53 - d)) by (rewrite <- Z.pow_add_r by lia; f_equal; lia).
  replace (2 ^ 53) with (2 ^ d * 2 ^ (53 - d)) by (rewrite <- Z.pow_add_r by lia; f_equal; lia). nia.
Qed.

(** A multiple of a power of two below [2 ^ 53] rounds to it. *)
Lemma round_dbl_int n M j :
  Zpos n < 2 ^ 53 → 0 <= j <= 1000 → Zpos M = Zpos n * 2 ^ j → binary_round 53 1024 false M (- j) = dbl_int n.
Proof.
  intros Hn Hj HM. destruct (dbl_int_full n Hn) as (Hd & Hp & Hf). unfold dbl_int.
  set (d := Zpos (digits2_pos n)) in *. replace (d - 53) with (- j + (j + d - 53)) by lia.
  apply round_exact; [by rewrite Hp|lia|]. rewrite Hp. destruct (Z.le_gt_cases 0 (j + d - 53)).
  - left. split; [done|]. rewrite HM, <- Z.mul_assoc, <- Z.pow_add_r by lia. do 2 f_equal. lia.
  - right. split; [lia|]. rewrite HM, <- Z.mul_assoc, <- Z.pow_add_r by lia. do 2 f_equal. lia.
Qed.

Lemma dbl_of_Z_int n : Zpos n < 2 ^ 53 → dbl_of_Z (Zpos n) = dbl_int n.
Proof.
  intros Hn. unfold dbl_of_Z, binary_normalize. apply (round_dbl_int n n 0); [done|lia|]. by rewrite Z.pow_0_r, Z.mul_1_r.
Qed.

(** ** The bound *)

(** A value of at most 4095.5 rounds to one whose integral part is at most 4095. *)
Lemma round_aux_below A j :
  0 <= A → 53 <= j → 2 * A <= 8191 * 2 ^ j →
  ∃ z, dbl_trunc (binary_round_aux 53 1024 false A (- j) loc_Exact) = Some z ∧ 0 <= z <= 4095.
Proof.
  intros HA Hj Hb. unfold binary_round_aux.
  destruct (shr_fexp_shifted A (- j) HA) as (r & k & -> & (Hr & Hk0 & (Hr1 & Hr2) & Hex) & _ & Hk).
  assert (HD : Zdigits2 A <= 12 + j).
  { destruct A as [|p|]; [cbn; lia| |lia]. cbn [Zdigits2]. apply digits_le. rewrite Z.pow_add_r by lia.
    change (2 ^ 12) with 4096. lia. }
  assert (Hk1 : k <= j - 1) by (rewrite Hk; unfold fexp, emin; lia).
  assert (Hj1 : 2 ^ j = 2 * 2 ^ (j - 1 - k) * 2 ^ k).
  { replace j with (1 + (j - 1 - k) + k) at 1 by lia. rewrite !Z.pow_add_r by lia. change (2 ^ 1) with 2. lia. }
  set (K := 8191 * 2 ^ (j - 1 - k)). assert (0 < 2 ^ k) by (apply Z.pow_pos_nonneg; lia).
  assert (HAK : A <= K * 2 ^ k) by (unfold K; lia).
  set (m1 := round_nearest_even (shr_m r) (loc_of_shr_record r)).
  assert (Hm1 : 0 <= m1 <= K).
  { destruct (round_even_bounds (shr_m r) (loc_of_shr_record r)) as (H1 & H2). fold m1 in H1, H2.
    assert (shr_m r <= K) by nia. destruct (Z.eq_dec (shr_m r * 2 ^ k) A) as [He|Hne]; [|nia].
    destruct (Hex He) as (E1 & E2). destruct r as [rm rr rs]. cbn [shr_m shr_r shr_s] in *. subst rr rs.
    rewrite H2 by done. lia. }
  destruct (shr_fexp_shifted m1 (- j + k)) as (r2 & k2 & -> & (Hs & Hk20 & (Hs1 & _) & _) & _ & Hk2); [lia|].
  assert (HD2 : Zdigits2 m1 <= 12 + (j - k)).
  { destruct m1 as [|p|] eqn:Em; [cbn; lia| |lia]. cbn [Zdigits2]. apply digits_le. rewrite Z.pow_add_r by lia.
    change (2 ^ 12) with 4096. replace (j - k) with (1 + (j - 1 - k)) by lia. rewrite Z.pow_add_r by lia.
    change (2 ^ 1) with 2. assert (0 < 2 ^ (j - 1 - k)) by (apply Z.pow_pos_nonneg; lia). lia. }
  set (e := - j + k + k2). assert (He : e <= - 1) by (unfold e; rewrite Hk2; unfold fexp, emin; lia).
  destruct (shr_m r2) as [|p|p] eqn:Er2; [by exists 0| |lia].
  rewrite (proj2 (Z.leb_le e (1024 - 53))) by lia. cbn [dbl_trunc]. rewrite (proj2 (Z.leb_gt 0 e)) by lia.
  eexists. split; [done|]. assert (0 < 2 ^ (- e)) by (apply Z.pow_pos_nonneg; lia).
  split; [apply Z.div_pos; lia|]. apply Z.lt_succ_r, Z.div_lt_upper_bound; [done|].
  assert (HK : K = 8191 * 2 ^ (- e - 1) * 2 ^ k2).
  { unfold K. rewrite <- Z.mul_assoc, <- Z.pow_add_r by (unfold e in *; lia). do 2 f_equal. unfold e. lia. }
  assert (0 < 2 ^ k2) by (apply Z.pow_pos_nonneg; lia).
  assert (Zpos p <= 8191 * 2 ^ (- e - 1)) by nia.
  replace (- e) with (1 + (- e - 1)) by lia. rewrite Z.pow_add_r by lia. change (2 ^ 1) with 2.
  assert (0 < 2 ^ (- e - 1)) by (apply Z.pow_pos_nonneg; lia). lia.
Qed.

Lemma shl_align_eq m e e' :
  let '(m', e1) := shl_align m e e' in
  e1 = Z.min e e' ∧ Zpos m' = Zpos m * 2 ^ (e - e1).
Proof.
  unfold shl_align. destruct (e' - e) as [|d|d] eqn:Ed.
  - split; [lia|]. replace (e - e) with 0 by lia. by rewrite Z.pow_0_r, Z.mul_1_r.
  - split; [lia|]. replace (e - e) with 0 by lia. by rewrite Z.pow_0_r, Z.mul_1_r.
  - split; [lia|]. rewrite iter_xO. do 2 f_equal. lia.
Qed.

Lemma round_below A j :
  53 <= j → 2 * Zpos A <= 8191 * 2 ^ j →
  ∃ z, dbl_trunc (binary_round 53 1024 false A (- j)) = Some z ∧ 0 <= z <= 4095.
Proof.
  intros Hj Hb. unfold binary_round. set (fe := fexp _ _ _).
  pose proof (shl_align_eq A (- j) fe) as Hs. destruct (shl_align A (- j) fe) as [m e1]. destruct Hs as (He1 & Hm).
  replace e1 with (- - e1) by lia. apply round_aux_below; [lia|lia|]. rewrite Hm.
  replace (- e1) with (j + (- j - e1)) by lia. rewrite (Z.pow_add_r 2 j) by lia. nia.
Qed.

(** Adding a half to a double of at most 4095, and rounding down. *)
Lemma half_up_bound m e :
  regular (S754_finite false m e) → SFltb (dbl_of_Z 4095) (S754_finite false m e) = false →
  ∃ z, u16_of_dbl (dadd (S754_finite false m e) dbl_half) = Some z ∧ 0 <= z <= 4095.
Proof.
  intros Hm Hle. cbn [regular] in Hm.
  assert (H4095 : dbl_of_Z 4095 = S754_finite false 9005000231485440 (- 41)) by (vm_compute; reflexivity).
  rewrite H4095 in Hle. unfold SFltb in Hle. cbn [SFcompare] in Hle.
  assert (Hv : e = - 41 ∧ Zpos m <= 9005000231485440 ∨ e < - 41).
  { destruct (Z.compare_spec (- 41) e) as [He|He|He]; [left|done|right; lia]. split; [lia|].
    destruct (Z.le_gt_cases (Zpos m) 9005000231485440) as [|Hgt]; [assumption|].
    assert (Hc : (9005000231485440 ?= m)%positive = Lt) by (apply Pos.compare_lt_iff; exact Hgt).
    unfold Pos.compare in Hc. rewrite Hc in Hle. discriminate. }
  enough (Hz : ∃ z, dbl_trunc (dadd (S754_finite false m e) dbl_half) = Some z ∧ 0 <= z <= 4095).
  { destruct Hz as (z & Ez & Hz). exists z. unfold u16_of_dbl. rewrite Ez. cbn [mbind option_bind].
    by rewrite (proj2 (Z.leb_le 0 z)), (proj2 (Z.leb_le z 65535)) by lia. }
  unfold dadd, dbl_half, SFadd. set (ez := Z.min e (- 53)).
  pose proof (shl_align_eq m e ez) as H1. pose proof (shl_align_eq 4503599627370496 (- 53) ez) as H2.
  destruct (shl_align m e ez) as [m1 e1], (shl_align _ (- 53) ez) as [m2 e2]. cbn [fst cond_Zopp].
  destruct H1 as (-> & H1), H2 as (-> & H2). replace (Z.min e ez) with ez in H1 by lia.
  replace (Z.min (- 53) ez) with ez in H2 by lia.
  change (Zpos m1 + Zpos m2) with (Zpos (m1 + m2)). cbn [binary_normalize].
  replace ez with (- - ez) by lia. apply round_below; [lia|]. rewrite Pos2Z.inj_add, H1, H2.
  assert (E2 : 4503599627370496 * 2 ^ (- 53 - ez) * 2 = 2 ^ (- ez)).
  { change 4503599627370496 with (2 ^ 52). rewrite <- Z.pow_add_r by lia. change 2 with (2 ^ 1) at 2.
    rewrite <- Z.pow_add_r by lia. f_equal. lia. }
  assert (E1 : Zpos m * 2 ^ (e - ez) <= 4095 * 2 ^ (- ez)); [|lia].
  destruct Hv as [(-> & Hmle)|He].
  - replace (2 ^ (- ez)) with (2 ^ 41 * 2 ^ (- 41 - ez)) by (rewrite <- Z.pow_add_r by lia; f_equal; lia).
    assert (0 < 2 ^ (- 41 - ez)) by (apply Z.pow_pos_nonneg; lia). change (2 ^ 41) with 2199023255552. nia.
  - assert (2 ^ 53 * 2 ^ (e - ez) <= 2 ^ 11 * 2 ^ (- ez)).
    { rewrite <- !Z.pow_add_r by lia. apply Z.pow_le_mono_r; lia. }
    assert (0 < 2 ^ (e - ez)) by (apply Z.pow_pos_nonneg; lia).
    assert (0 < 2 ^ (- ez)) by (apply Z.pow_pos_nonneg; lia). change (2 ^ 11) with 2048 in *. nia.
Qed.

(** ** The scale *)

(** A mantissa of 53 or 54 bits, shifted to 53. *)
Lemma shr_near M e l :
  2 ^ 52 <= M < 2 ^ 54 → - 1074 <= e →
  ∃ r k, shr_fexp 53 1024 M e l = (r, e + k) ∧ 2 ^ 52 <= shr_m r < 2 ^ 53 ∧ 0 <= k <= 1.
Proof.
  intros HM He. destruct M as [|p|p]; [lia| |lia]. destruct (Z.lt_ge_cases (Zpos p) (2 ^ 53)).
  - exists (shr_record_of_loc (Zpos p) l), 0. rewrite shr_full, Z.add_0_r by (unfold full; lia).
    split; [done|]. split; [destruct l as [|[]]; cbn [shr_record_of_loc shr_m]; lia|lia].
  - unfold shr_fexp. cbn [Zdigits2]. rewrite (digits_unique p 54) by lia.
    replace (fexp 53 1024 (54 + e) - e) with 1 by (unfold fexp, emin; lia). cbn [shr SpecFloat.iter_pos].
    eexists _, 1. split; [reflexivity|]. split; [|lia].
    assert (Hs : shr_m (shr_1 (shr_record_of_loc (Zpos p) l)) = Zpos p / 2).
    { destruct l as [|[]], p as [p|p|]; cbn [shr_record_of_loc shr_1 shr_m];
        rewrite ?(Pos2Z.inj_xI p), ?(Pos2Z.inj_xO p); zdm. }
    rewrite Hs. change (2 ^ 54) with (2 * 2 ^ 53) in HM. change (2 ^ 53) with (2 * 2 ^ 52) in *. zdm.
Qed.

Lemma round_near M e l :
  2 ^ 52 <= M < 2 ^ 54 → - 1074 <= e <= 900 →
  ∃ m e', binary_round_aux 53 1024 false M e l = S754_finite false m e' ∧ Zpos m < 2 ^ 53.
Proof.
  intros HM He. unfold binary_round_aux. destruct (shr_near M e l HM) as (r & k & -> & Hr & Hk); [lia|].
  destruct (round_even_bounds (shr_m r) (loc_of_shr_record r)) as (Hb & _). change (2 ^ 54) with (2 * 2 ^ 53) in *.
  destruct (shr_near (round_nearest_even (shr_m r) (loc_of_shr_record r)) (e + k) loc_Exact) as (r2 & k2 & -> & Hr2 & Hk2);
    [change (2 ^ 54) with (2 * 2 ^ 53); lia|lia|].
  destruct (shr_m r2) as [|p|p]; [lia| |lia]. rewrite (proj2 (Z.leb_le _ (1024 - 53))) by lia. exists p, (e + k + k2).
  split; [done|lia].
Qed.

Lemma scale_finite d :
  1 <= d <= 65535 → ∃ m e, ddiv (dbl_of_Z 4095) (dbl_of_Z d) = S754_finite false m e ∧ Zpos m < 2 ^ 53.
Proof.
  intros Hd. destruct d as [|d|]; [lia| |lia]. rewrite (dbl_of_Z_int d) by lia. rewrite (dbl_of_Z_int 4095) by done.
  destruct (dbl_int_full d) as (Hdd & Hp2 & Hf2); [lia|]. destruct (dbl_int_full 4095) as (_ & Hp1 & Hf1); [done|].
  pose proof (digits_le d 16 ltac:(lia)) as H16. unfold ddiv, dbl_int, SFdiv.
  set (D := Zpos (digits2_pos d)) in *. change (Zpos (digits2_pos 4095)) with 12 in *.
  set (m1 := Z.to_pos (4095 * 2 ^ (53 - 12))) in *. set (m2 := Z.to_pos (Zpos d * 2 ^ (53 - D))) in *.
  rewrite <- Hp1 in Hf1. rewrite <- Hp2 in Hf2. unfold SFdiv_core_binary. cbn [Zdigits2].
  rewrite (digits_unique m1 53), (digits_unique m2 53) by done.
  replace (Z.min (fexp 53 1024 (53 + (12 - 53) - (53 + (D - 53)))) (12 - 53 - (D - 53))) with (12 - D - 53)
    by (unfold fexp, emin; lia).
  replace (12 - 53 - (D - 53) - (12 - D - 53)) with 53 by lia. rewrite Z.shiftl_mul_pow2 by lia.
  pose proof (Z_div_mod (Zpos m1 * 2 ^ 53) (Zpos m2) ltac:(lia)) as Hq.
  destruct (Z.div_eucl _ _) as [q r]. destruct Hq as (Hq & Hr). unfold full in *.
  destruct (round_near q (12 - D - 53) (new_location (Zpos m2) r)) as (m & e & Em & Hm); [|lia|by exists m, e].
  change (2 ^ 54) with (4 * 2 ^ 52). change (2 ^ 53) with (2 * 2 ^ 52) in *. nia.
Qed.

(** * The pixels *)

(** The difference of two pixels, exactly. *)
Lemma dsub_regular_int p g :
  0 <= p <= 65535 → 0 <= g <= 65535 → regular (dsub (dbl_of_Z p) (dbl_of_Z g)).
Proof.
  intros Hp Hg. assert (Hfin : ∀ n, 0 <= n <= 65535 → ∀ s, dbl_of_Z n ≠ S754_infinity s).
  { intros n Hn s. destruct n as [|n|]; [done| |lia]. by rewrite dbl_of_Z_int by lia. }
  apply dsub_regular; try apply normalize_regular; by apply Hfin.
Qed.

Lemma stretch_pixel_bound gmin d p :
  0 <= gmin <= 65535 → 1 <= d <= 65535 → 0 <= p <= 65535 →
  ∃ z, stretch_pixel gmin (ddiv (dbl_of_Z 4095) (dbl_of_Z d)) p = Some z ∧ 0 <= z <= 4095.
Proof.
  intros Hg Hd Hp. destruct (scale_finite d Hd) as (m & e & -> & Hm). unfold stretch_pixel. cbv zeta.
  assert (Hv := dmul_regular _ m e (dsub_regular_int p gmin Hp Hg)). set (v := dmul _ _) in *. clearbody v.
  change (dbl_of_Z 0) with (S754_zero false).
  assert (H0 : ∀ s, u16_of_dbl (dadd (S754_zero s) dbl_half) = Some 0) by (intros []; vm_compute; reflexivity).
  assert (H4095 : u16_of_dbl (dadd (dbl_of_Z 4095) dbl_half) = Some 4095) by (vm_compute; reflexivity).
  assert (Hz : ∀ s, SFltb (dbl_of_Z 4095) (S754_zero s) = false) by (intros []; vm_compute; reflexivity).
  destruct v as [s|s| |s vm ve]; cbn [regular] in Hv; [| |done|].
  - change (SFltb (S754_zero s) (S754_zero false)) with false. cbv iota. rewrite Hz. exists 0. split; [done|lia].
  - destruct s.
    + change (SFltb (S754_infinity true) (S754_zero false)) with true. cbv iota. rewrite Hz. exists 0. split; [done|lia].
    + change (SFltb (S754_infinity false) (S754_zero false)) with false. cbv iota.
      replace (SFltb (dbl_of_Z 4095) (S754_infinity false)) with true by (vm_compute; reflexivity).
      exists 4095. split; [done|lia].
  - destruct s.
    + change (SFltb (S754_finite true vm ve) (S754_zero false)) with true. cbv iota. rewrite Hz. exists 0. split; [done|lia].
    + change (SFltb (S754_finite false vm ve) (S754_zero false)) with false. cbv iota.
      destruct (SFltb (dbl_of_Z 4095) (S754_finite false vm ve)) eqn:Elt.
      * exists 4095. split; [done|lia].
      * by apply half_up_bound.
Qed.

(** The darkest pixel becomes black. *)
Lemma stretch_pixel_black g d :
  0 <= g <= 65535 → 1 <= d <= 65535 → stretch_pixel g (ddiv (dbl_of_Z 4095) (dbl_of_Z d)) g = Some 0.
Proof.
  intros Hg Hd. destruct (scale_finite d Hd) as (m & e & -> & _). unfold stretch_pixel.
  assert (Hz : dsub (dbl_of_Z g) (dbl_of_Z g) = S754_zero false).
  { destruct g as [|g|]; [done| |lia]. rewrite dbl_of_Z_int by lia. unfold dsub, dbl_int, SFsub. cbv zeta.
    cbn [cond_Zopp]. by rewrite Z.sub_diag. }
  rewrite Hz. vm_compute. reflexivity.
Qed.

(** A loop that replaces the elements of a row one by one. *)
Lemma forN_map (g : nat → Z → Z) (body : Z → list Z → option (list Z)) base l rest d i :
  zlen d = base + i →
  (∀ k x d r, l !! k = Some x → zlen d = base + (i + Z.of_nat k) →
     body (i + Z.of_nat k) (d ++ x :: r) = Some (d ++ g k x :: r)) →
  forN (length l) i body (d ++ l ++ rest) = Some (d ++ imap g l ++ rest).
Proof.
  revert g d i. induction l as [|x l IH]; intros g d i Hd Hbody; [done|].
  cbn [length forN app]. rewrite <- (Z.add_0_r i) at 1. rewrite (Hbody 0%nat x d) by (done || lia).
  cbn [mbind option_bind]. cbn [imap].
  replace (d ++ g 0%nat x :: l ++ rest) with ((d ++ [g 0%nat x]) ++ l ++ rest) by (by rewrite <- app_assoc).
  rewrite (IH (g ∘ S)).
  - by rewrite <- app_assoc.
  - rewrite zlen_app, zlen_cons, zlen_nil. lia.
  - intros k y d' r Hk Hd'. specialize (Hbody (S k) y d' r Hk).
    replace (i + Z.of_nat (S k)) with (i + 1 + Z.of_nat k) in Hbody by lia. by apply Hbody.
Qed.

Lemma rd_here (d : list Z) x r i : zlen d = i → rd (d ++ x :: r) i = Some x.
Proof. apply rd_middle. Qed.

Lemma rd_total (l : list Z) i : 0 <= i < zlen l → rd l i = Some (default 0 (l !! Z.to_nat i)).
Proof. apply rd_lookup. Qed.

(** Pixels are 16-bit words. *)
Definition pixels_ok (px : list Z) : Prop := Forall (λ p, 0 <= p <= 65535) px.

Definition dark_diff (dk : list Z) (k : nat) (p : Z) : Z := Z.abs (p - default 0 (dk !! k)).

Lemma dark_subtract_run px dk :
  pixels_ok px → pixels_ok dk → zlen dk = zlen px →
  dark_subtract (zlen px) px dk = Some (imap (dark_diff dk) px) ∧ pixels_ok (imap (dark_diff dk) px).
Proof.
  intros Hp Hk Hl.
  assert (Hb : ∀ k p, px !! k = Some p → 0 <= dark_diff dk k p <= 65535).
  { intros k p Hkp. pose proof (Forall_lookup_1 _ _ _ _ Hp Hkp) as H. cbn in H. unfold dark_diff.
    destruct (dk !! k) as [q|] eqn:Eq; cbn [default from_option id]; [|lia].
    pose proof (Forall_lookup_1 _ _ _ _ Hk Eq) as H'. cbn in H'. lia. }
  split.
  - unfold dark_subtract. replace (Z.to_nat (zlen px)) with (length px) by (unfold zlen; lia).
    rewrite <- (app_nil_r px) at 2. change (px ++ []) with ([] ++ px ++ []).
    rewrite (forN_map (dark_diff dk) _ 0); [by rewrite app_nil_r|done|].
    intros k p d r Hkp Hd. rewrite (rd_here d) by lia. cbn [mbind option_bind].
    pose proof (lookup_lt_Some _ _ _ Hkp). rewrite rd_total by (unfold zlen in *; lia).
    replace (Z.to_nat (0 + Z.of_nat k)) with k by lia. cbn [mbind option_bind]. cbv zeta.
    rewrite wr_app by lia. do 3 f_equal. specialize (Hb k p Hkp). unfold dark_diff in *.
    set (q := default 0 _) in *. destruct (Z.leb_spec 0 (p - q)); zint.
  - apply Forall_lookup. intros k q. rewrite list_lookup_imap. destruct (px !! k) as [p|] eqn:Ep; [|done].
    intros [= <-]. by apply Hb.
Qed.

(** The value of a pixel after the stretch. *)
Definition stretched (gmin gmax p : Z) : Z :=
  default 0 (stretch_pixel gmin (ddiv (dbl_of_Z 4095) (dbl_of_Z (gmax - gmin))) p).

Lemma stretch_rows gmin gmax n cols d l y :
  0 <= gmin <= 65535 → 0 <= gmax <= 65535 → gmin < gmax → 0 <= cols → pixels_ok l →
  zlen l = Z.of_nat n * cols → zlen d = y * cols → 0 <= y →
  forN n y (λ y px,
    forN (Z.to_nat cols) 0 (λ x px,
      p ← rd px (y * cols + x);
      q ← stretch_pixel gmin (ddiv (dbl_of_Z 4095) (dbl_of_Z (gmax - gmin))) p;
      wr px (y * cols + x) q) px) (d ++ l) = Some (d ++ (stretched gmin gmax <$> l)).
Proof.
  intros Hgmin Hgmax Hlt Hc. revert d l y. induction n as [|n IH]; intros d l y Hl Hz Hd Hy; cbn [forN].
  { rewrite (zlen_0 l) by lia. done. }
  assert (Hn : zlen l = cols + Z.of_nat n * cols) by lia.
  assert (Hlen : zlen (ztake cols l) = cols) by (apply zlen_ztake; nia).
  rewrite <- (ztake_zdrop cols l) in Hl |- * at 1. unfold pixels_ok in Hl. apply Forall_app in Hl as [Hl1 Hl2].
  pose proof (forN_map (λ _, stretched gmin gmax) (λ x px,
      p ← rd px (y * cols + x);
      q ← stretch_pixel gmin (ddiv (dbl_of_Z 4095) (dbl_of_Z (gmax - gmin))) p;
      wr px (y * cols + x) q) (y * cols) (ztake cols l) (zdrop cols l) d 0) as Hrow.
  replace (length (ztake cols l)) with (Z.to_nat cols) in Hrow by (unfold zlen in Hlen; lia).
  rewrite Hrow; [|lia|].
  - cbn [mbind option_bind]. rewrite app_assoc, IH.
    + rewrite <- app_assoc. do 2 f_equal. rewrite <- (ztake_zdrop cols l) at 3. rewrite fmap_app. f_equal.
      clear. generalize (ztake cols l). intros k. induction k as [|a k IHk]; [done|]. cbn. by rewrite <- IHk.
    + done.
    + rewrite zlen_zdrop; nia.
    + rewrite zlen_app. unfold zlen in *. rewrite length_imap. lia.
    + lia.
  - intros k p d' r Hk Hd'. rewrite (rd_here d') by lia. cbn [mbind option_bind].
    pose proof (Forall_lookup_1 _ _ _ _ Hl1 Hk) as Hp. cbn in Hp.
    destruct (stretch_pixel_bound gmin (gmax - gmin) p) as (z & Ez & _); [lia..|].
    unfold stretched. rewrite Ez. cbn [mbind option_bind default from_option id]. by rewrite wr_app by lia.
Qed.

(** The pixel at a row and a column. *)
Definition pix (px : list Z) (cols y x : Z) : Z := default 0 (px !! Z.to_nat (y * cols + x)).

Lemma inner_range_run rows cols px :
  pixels_ok px → zlen px = rows * cols → 0 < rows → 0 < cols →
  ∃ gmin gmax, inner_range rows cols px = Some (gmin, gmax) ∧ 0 <= gmin <= 4095 ∧ 0 <= gmax <= 65535 ∧
    ∀ y x, 1 <= y < rows - 1 → 1 <= x < cols - 1 → gmin <= pix px cols y x <= gmax.
Proof.
  intros Hp Hl Hr Hc. unfold inner_range.
  set (ok := λ (acc : Z * Z), 0 <= acc.1 <= 4095 ∧ 0 <= acc.2 <= 65535).
  set (seen := λ y x (acc : Z * Z), acc.1 <= pix px cols y x <= acc.2).
  edestruct (forN_option (λ j acc, ok acc ∧ ∀ y x, 1 <= y < j → 1 <= x < cols - 1 → seen y x acc))
    as ((gmin & gmax) & -> & (H1 & H2) & H3); [split; [unfold ok; cbn; lia|lia]| |].
  2: { exists gmin, gmax. split; [done|]. split; [done|]. split; [done|]. intros y x Hy Hx. apply H3; lia. }
  intros j acc Hj (Hok & Hseen). cbv beta.
  edestruct (forN_option (λ i acc, ok acc ∧ (∀ y x, 1 <= y < j → 1 <= x < cols - 1 → seen y x acc) ∧
    ∀ x, 1 <= x < i → seen j x acc) (λ x '(gmin, gmax),
      v ← rd px (j * cols + x);
      Some (if v <? gmin then v else gmin, if gmax <? v then v else gmax)) (Z.to_nat (cols - 2)) 1 acc)
    as (acc' & Er & Hok' & Hs1 & Hs2).
  - split; [done|]. split; [done|lia].
  - intros i [gmin gmax] Hi (Hok2 & Hs1 & Hs2). cbv beta.
    assert (Hin : 0 <= j * cols + i < zlen px) by (rewrite Hl; nia).
    rewrite (rd_total px _ Hin). cbn [mbind option_bind]. eexists. split; [done|].
    pose proof (lookup_lt_is_Some_2 px (Z.to_nat (j * cols + i)) ltac:(unfold zlen in *; lia)) as (v & Ev).
    pose proof (Forall_lookup_1 _ _ _ _ Hp Ev) as Hv. cbn in Hv. unfold ok, seen in *. cbn [fst snd] in *.
    rewrite Ev. cbn [default from_option id].
    assert (Hm : ∀ a, gmin <= a <= gmax → (if v <? gmin then v else gmin) <= a <= (if gmax <? v then v else gmax)).
    { intros a Ha. destruct (Z.ltb_spec v gmin), (Z.ltb_spec gmax v); lia. }
    split; [destruct (Z.ltb_spec v gmin), (Z.ltb_spec gmax v); lia|]. split; [intros; by apply Hm, Hs1|].
    intros x Hx. destruct (Z.eq_dec x i) as [->|]; [|apply Hm, Hs2; lia]. unfold pix at 1 2. rewrite Ev.
    cbn [default from_option id]. destruct (Z.ltb_spec v gmin), (Z.ltb_spec gmax v); lia.
  - exists acc'. split; [exact Er|]. split; [done|]. intros y x Hy Hx.
    destruct (Z.eq_dec y j) as [->|]; [apply Hs2; lia|apply Hs1; lia].
Qed.

(** The image to stretch: the pixels, or what is left of them without the dark frame. *)
Definition subtracted (px : list Z) (dark : ptr gxfp_fpn_dark) : list Z :=
  match dark with
  | Some d => imap (dark_diff (default [] (dark_pixels d))) px
  | None => px
  end.

(** A dark frame that fits an image. *)
Definition dark_ok (rows cols : Z) (dark : ptr gxfp_fpn_dark) : Prop :=
  ∀ d, dark = Some d → dark_rows d = rows ∧ dark_cols d = cols ∧
    ∃ dk, dark_pixels d = Some dk ∧ pixels_ok dk ∧ zlen dk = rows * cols.

Definition corrected (gmin gmax : Z) (q : list Z) : list Z :=
  if gmin <? gmax then stretched gmin gmax <$> q else q.

Lemma fpn_correct_run px rows cols dark :
  pixels_ok px → zlen px = rows * cols → 0 < rows → 0 < cols → rows * cols < 2 ^ 31 → dark_ok rows cols dark →
  let q := subtracted px dark in
  pixels_ok q ∧ zlen q = zlen px ∧
  ∃ gmin gmax, inner_range rows cols q = Some (gmin, gmax) ∧ 0 <= gmin <= 4095 ∧ 0 <= gmax <= 65535 ∧
    (∀ y x, 1 <= y < rows - 1 → 1 <= x < cols - 1 → gmin <= pix q cols y x <= gmax) ∧
    gxfp_fpn_correct (Some px) rows cols dark = Some (0, Some (corrected gmin gmax q)).
Proof.
  intros Hp Hl Hr Hc Hmax Hd q.
  assert (Hq : pixels_ok q ∧ zlen q = zlen px).
  { unfold q, subtracted. destruct dark as [d|]; [|done]. destruct (Hd d eq_refl) as (_ & _ & dk & -> & Hdk & Hdl).
    cbn [default from_option id]. split; [apply dark_subtract_run; [done|done|lia]|]. unfold zlen. by rewrite length_imap. }
  destruct Hq as (Hq & Hql). split; [done|]. split; [done|].
  destruct (inner_range_run rows cols q Hq) as (gmin & gmax & Er & H1 & H2 & H3); [lia..|].
  exists gmin, gmax. do 4 (split; [done|]).
  unfold gxfp_fpn_correct. rewrite !(proj2 (Z.leb_gt _ 0)) by lia. cbn [orb]. rewrite ck_int_ok by nia.
  cbn [mbind option_bind]. cbv zeta.
  assert (Hfin : ('(gmin, gmax) ← inner_range rows cols q;
      p ← (if gmin <? gmax then stretch rows cols gmin gmax q else Some q); Some (0, Some p))
    = Some (0, Some (corrected gmin gmax q))).
  { rewrite Er. cbn [mbind option_bind]. unfold corrected. destruct (Z.ltb_spec gmin gmax); [|done].
    unfold stretch. cbv zeta. rewrite <- (app_nil_l q) at 1.
    rewrite stretch_rows; [done|lia..|done|rewrite Z2Nat.id by lia; lia|done|lia]. }
  unfold q, subtracted in Hfin |- *. destruct dark as [d|]; [|exact Hfin].
  destruct (Hd d eq_refl) as (-> & -> & dk & Edk & Hdk & Hdl). rewrite Edk in *. rewrite !Z.eqb_refl. cbn [negb orb].
  cbn [default from_option id] in *. rewrite <- Hl. rewrite (proj1 (dark_subtract_run px dk Hp Hdk ltac:(lia))).
  exact Hfin.
Qed.

Lemma corrected_range gmin gmax q :
  pixels_ok q → gmin < gmax → 0 <= gmin <= 4095 → 0 <= gmax <= 65535 →
  Forall (λ p, 0 <= p <= 4095) (corrected gmin gmax q).
Proof.
  intros Hq Hlt H0 H1. unfold corrected. rewrite (proj2 (Z.ltb_lt _ _)) by done.
  apply Forall_fmap. eapply Forall_impl; [exact Hq|].
  intros p Hpp. cbn in Hpp |- *. destruct (stretch_pixel_bound gmin (gmax - gmin) p) as (z & Ez & Hz); [lia..|].
  unfold stretched. by rewrite Ez.
Qed.

Lemma corrected_ok gmin gmax q :
  pixels_ok q → 0 <= gmin <= 4095 → 0 <= gmax <= 65535 →
  pixels_ok (corrected gmin gmax q) ∧ zlen (corrected gmin gmax q) = zlen q.
Proof.
  intros Hq H0 H1. destruct (Z.lt_ge_cases gmin gmax) as [Hlt|Hge].
  - split; [eapply Forall_impl; [by apply corrected_range|cbn; lia]|].
    unfold corrected, zlen. rewrite (proj2 (Z.ltb_lt _ _)) by done. by rewrite length_fmap.
  - unfold corrected. by rewrite (proj2 (Z.ltb_ge _ _)).
Qed.

Lemma fpn_correct_refused px rows cols d :
  0 < rows → 0 < cols → rows * cols < 2 ^ 31 → dark_rows d ≠ rows ∨ dark_cols d ≠ cols →
  gxfp_fpn_correct (Some px) rows cols (Some d) = Some (- EINVAL, Some px).
Proof.
  intros Hr Hc Hmax Hne. unfold gxfp_fpn_correct. rewrite !(proj2 (Z.leb_gt _ 0)) by lia. cbn [orb].
  rewrite ck_int_ok by nia. cbn [mbind option_bind]. cbv zeta.
  destruct (Z.eqb_spec (dark_rows d) rows), (Z.eqb_spec (dark_cols d) cols); try done. by destruct Hne.
Qed.


(** A 3 by 4 image and its dark frame. *)
Definition demo_pixels : list Z := [10; 20; 30; 40;  50; 60; 1070; 80;  90; 100; 110; 5000].
Definition demo_dark : gxfp_fpn_dark :=
  {| dark_pixels := Some (replicate 12 50); dark_rows := 3; dark_cols := 4 |}.

