(* ===== verification/UTls.v ===== *)
(** The TLS engine: [userspace/src/tls/tls_engine_mbedtls.c].

    The engine stands between mbedTLS and the device: it queues the records the
    sensor sends, hands their bytes to mbedTLS when it asks, and puts the records
    mbedTLS writes on the wire, one packet each.

    mbedTLS is a parameter ([Mbedtls]): its state, and for each call a finite tree of
    the reads and writes it makes before it returns. What the code relies on is in
    [MbedtlsOk]. *)
From Stdlib Require Import ZArith Lia.
From stdpp Require Import prelude list.
From S2P Require Import Prelude KGoodixProto KUapi UGoodixProto UWorld UDev UCommon UXfer UCmds UPlain.

Open Scope Z_scope.

(** * tls_constants.h *)

Definition TLS_REC_HDR_LEN : Z := 5.
Definition TLS_REC_MAX_PLAIN : Z := 16384. (* 16u * 1024u *)
Definition GXFP5130_PSK_LEN : Z := 32.
Definition GXFP5130_PSK_IDENTITY : bytes := (* "Client_identity" *)
  [67; 108; 105; 101; 110; 116; 95; 105; 100; 101; 110; 116; 105; 116; 121].
Definition ENGINE_RXQ_CAP : Z := 262144. (* 256u * 1024u *)

(** * mbedTLS *)

(** A call that has started: it returns a code, what it wrote in the caller's buffer
    and its new state; or it calls [f_recv] for at most [len] bytes, or [f_send], and
    goes on with the answer. *)
Inductive ssl_call (S : Type) :=
| SslRet (r : Z) (out : bytes) (s : S)
| SslRecv (len : Z) (k : Z → bytes → ssl_call S)
| SslSend (b : bytes) (k : Z → ssl_call S).
Arguments SslRet {S}.
Arguments SslRecv {S}.
Arguments SslSend {S}.

(** [ssl] is the state of the four contexts of the engine; the seeding of the random
    generator reads the system, here the trace. *)
Class Mbedtls := {
  ssl : Type;
  ssl_init : ssl;
  MBEDTLS_ERR_SSL_WANT_READ : Z;
  MBEDTLS_ERR_SSL_WANT_WRITE : Z;
  MBEDTLS_ERR_SSL_BAD_INPUT_DATA : Z;
  MBEDTLS_ERR_SSL_INTERNAL_ERROR : Z;
  MBEDTLS_SSL_IS_SERVER : Z;
  MBEDTLS_SSL_TRANSPORT_STREAM : Z;
  MBEDTLS_SSL_PRESET_DEFAULT : Z;
  MBEDTLS_SSL_VERSION_TLS1_2 : Z;
  mbedtls_ctr_drbg_seed : list uevent → bytes → ssl → Z * ssl;
  mbedtls_ssl_config_defaults : Z → Z → Z → ssl → Z * ssl;
  mbedtls_ssl_conf_rng : ssl → ssl;
  mbedtls_ssl_conf_min_tls_version : Z → ssl → ssl;
  mbedtls_ssl_conf_max_tls_version : Z → ssl → ssl;
  mbedtls_ssl_conf_psk : bytes → bytes → ssl → Z * ssl;
  mbedtls_ssl_setup : ssl → Z * ssl;
  mbedtls_ssl_set_bio : ssl → ssl;
  mbedtls_ssl_handshake : ssl → ssl_call ssl;
  mbedtls_ssl_read : Z → ssl → ssl_call ssl
}.

(** What holds of every way a call can go: it asks for at least one byte, sends bytes,
    and returns as [P] says. [budget] bounds the plaintext it can still deliver: it
    grows by what is received. *)
Fixpoint call_ok {S} (P : Z → bytes → S → Z → Prop) (budget : Z) (c : ssl_call S) : Prop :=
  match c with
  | SslRet r out s => P r out s budget
  | SslRecv len k =>
    0 < len ∧ ∀ r b, bytes_ok b → zlen b <= len → (if 0 <? r then r = zlen b else b = []) →
      call_ok P (budget + zlen b) (k r b)
  | SslSend b k => bytes_ok b ∧ ∀ r, call_ok P budget (k r)
  end.

(** The documented behaviour of mbedTLS: error codes are negative; the handshake
    returns 0 or an error; a read fills at most the buffer it is given and returns the
    number of bytes; no more plaintext comes out than ciphertext went in, and what a
    context holds back is bounded. *)
Class MbedtlsOk (T : Mbedtls) := {
  plain_max : Z;
  plain_left : ssl → Z;
  plain_left_nonneg : ∀ s, 0 <= plain_left s;
  plain_left_max : ∀ s, plain_left s <= plain_max;
  want_read_neg : MBEDTLS_ERR_SSL_WANT_READ < 0;
  want_write_neg : MBEDTLS_ERR_SSL_WANT_WRITE < 0;
  handshake_ok : ∀ s, call_ok (λ r _ s' n, r <= 0 ∧ plain_left s' <= n) (plain_left s)
                        (mbedtls_ssl_handshake s);
  ssl_read_ok : ∀ cap s, 0 < cap →
    call_ok (λ r out s' n, bytes_ok out ∧ zlen out <= cap ∧ (0 < r → r = zlen out) ∧
               plain_left s' + Z.max 0 r <= n) (plain_left s) (mbedtls_ssl_read cap s)
}.

(** * tls_engine_mbedtls.c *)

Section engine.
Context {E : Uenv} {T : Mbedtls}.

(** The type of [gxfp_tls_send_record_fn], its context applied. *)
Abbreviation send_record_fn := (ptr bytes → Z → M lworld Z).

Record gxfp_tls_engine := {
  send_fn : ptr send_record_fn;
  rxq : bytes;
  rxq_cap : Z;
  rxq_len : Z;
  hs_done : Z;
  e_ssl : ssl
}.

Definition set_rxq q n e : gxfp_tls_engine :=
  {| send_fn := send_fn e; rxq := q; rxq_cap := rxq_cap e; rxq_len := n; hs_done := hs_done e;
     e_ssl := e_ssl e |}.
Definition set_hs_done v e : gxfp_tls_engine :=
  {| send_fn := send_fn e; rxq := rxq e; rxq_cap := rxq_cap e; rxq_len := rxq_len e; hs_done := v;
     e_ssl := e_ssl e |}.
Definition set_ssl s e : gxfp_tls_engine :=
  {| send_fn := send_fn e; rxq := rxq e; rxq_cap := rxq_cap e; rxq_len := rxq_len e;
     hs_done := hs_done e; e_ssl := s |}.

Definition rxq_push (e : ptr gxfp_tls_engine) (data : ptr bytes) (len : Z)
    : option (Z * ptr gxfp_tls_engine) :=
  match e, data with
  | Some g, Some d =>
    if rxq_cap g <? rxq_len g + len then Some (- ENOSPC, e) else
    q ← memcpy (rxq g) (rxq_len g) d 0 len;
    Some (0, Some (set_rxq q (rxq_len g + len) g))
  | _, _ => Some (- EINVAL, e)
  end.

(** Gives the bytes written at the start of [out]. *)
Definition rxq_pop (e : ptr gxfp_tls_engine) (out_cap : Z) : option (Z * bytes * ptr gxfp_tls_engine) :=
  match e with
  | None => Some (- EINVAL, [], e)
  | Some g =>
    if out_cap =? 0 then Some (- EINVAL, [], e) else
    if rxq_len g =? 0 then Some (0, [], e) else
    let n := if out_cap <? rxq_len g then out_cap else rxq_len g in
    out ← slice (rxq g) 0 n;
    q ← (if n <? rxq_len g then memcpy (rxq g) 0 (rxq g) n (rxq_len g - n) else Some (rxq g));
    Some (n, out, Some (set_rxq q (rxq_len g - n) g))
  end.

Definition bio_recv (e : ptr gxfp_tls_engine) (len : Z) : option (Z * bytes * ptr gxfp_tls_engine) :=
  if bool_decide (e = None) || (len =? 0) then Some (MBEDTLS_ERR_SSL_BAD_INPUT_DATA, [], e) else
  '(n, out, e) ← rxq_pop e len;
  if 0 <? n then Some (n, out, e) else
  if n <? 0 then Some (MBEDTLS_ERR_SSL_INTERNAL_ERROR, [], e) else
  Some (MBEDTLS_ERR_SSL_WANT_READ, [], e).

(** [while (off + TLS_REC_HDR_LEN <= len)]: gives where it stopped, or the code to return. *)
Fixpoint bio_send_loop (fuel : nat) (send : send_record_fn) (buf : bytes) (len off : Z)
    : M lworld (Z + Z) :=
  match fuel with
  | O => ub
  | S fuel =>
    if negb (off + TLS_REC_HDR_LEN <=? len) then mret (inr off) else
    b3 ← lift (rd buf (off + 3));
    b4 ← lift (rd buf (off + 4));
    let rec_len := u16 (Z.lor (Z.shiftl b3 8) b4) in
    let total := TLS_REC_HDR_LEN + rec_len in
    if len <? off + total then mret (inr off) else
    r ← send (Some (zdrop off buf)) total;
    if r <? 0 then
      if (r =? - EAGAIN) || (r =? - EINTR) then mret (inl MBEDTLS_ERR_SSL_WANT_WRITE)
      else mret (inl MBEDTLS_ERR_SSL_INTERNAL_ERROR)
    else bio_send_loop fuel send buf len (off + total)
  end.

Definition bio_send (e : ptr gxfp_tls_engine) (buf : ptr bytes) (len : Z) : M lworld Z :=
  match e, buf with
  | Some g, Some b =>
    match send_fn g with
    | None => mret MBEDTLS_ERR_SSL_BAD_INPUT_DATA
    | Some send =>
      res ← bio_send_loop (S (Z.to_nat len)) send b len 0;
      match res with
      | inl r => mret r
      | inr off => if negb (off =? len) then mret MBEDTLS_ERR_SSL_INTERNAL_ERROR else mret (s32 len)
      end
    end
  | _, _ => mret MBEDTLS_ERR_SSL_BAD_INPUT_DATA
  end.

(** A call into mbedTLS, its callbacks run on the engine. *)
Fixpoint run_ssl (c : ssl_call ssl) (g : gxfp_tls_engine) : M lworld (Z * bytes * gxfp_tls_engine) :=
  match c with
  | SslRet r out s => mret (r, out, set_ssl s g)
  | SslRecv len k =>
    '(n, b, e) ← lift (bio_recv (Some g) len);
    g ← lift e;
    run_ssl (k n b) g
  | SslSend b k =>
    r ← bio_send (Some g) (Some b) (zlen b);
    run_ssl (k r) g
  end.

(** "gxfp_tls" *)
Definition TLS_PERS : bytes := [103; 120; 102; 112; 95; 116; 108; 115].

Definition setup_ssl (g : gxfp_tls_engine) (psk : bytes) (psk_len : Z) : M lworld (Z * gxfp_tls_engine) :=
  let s := ssl_init in
  '(r, s) ← gets (λ w, mbedtls_ctr_drbg_seed (l_trace w) TLS_PERS s);
  if negb (r =? 0) then mret (- EIO, set_ssl s g) else
  let '(r, s) := mbedtls_ssl_config_defaults MBEDTLS_SSL_IS_SERVER MBEDTLS_SSL_TRANSPORT_STREAM
                   MBEDTLS_SSL_PRESET_DEFAULT s in
  if negb (r =? 0) then mret (- EIO, set_ssl s g) else
  let s := mbedtls_ssl_conf_rng s in
  let s := mbedtls_ssl_conf_min_tls_version MBEDTLS_SSL_VERSION_TLS1_2 s in
  let s := mbedtls_ssl_conf_max_tls_version MBEDTLS_SSL_VERSION_TLS1_2 s in
  key ← lift (slice psk 0 psk_len);
  let '(r, s) := mbedtls_ssl_conf_psk key GXFP5130_PSK_IDENTITY s in
  if negb (r =? 0) then mret (- EIO, set_ssl s g) else
  let '(r, s) := mbedtls_ssl_setup s in
  if negb (r =? 0) then mret (- EIO, set_ssl s g) else
  mret (0, set_ssl (mbedtls_ssl_set_bio s) g).

Definition gxfp_tls_engine_create (out : ptr (ptr gxfp_tls_engine)) (psk : ptr bytes) (psk_len : Z)
    (send : ptr send_record_fn) : M lworld (Z * ptr (ptr gxfp_tls_engine)) :=
  match out, psk, send with
  | Some _, Some key, Some _ =>
    if negb (psk_len =? GXFP5130_PSK_LEN) then mret (- EINVAL, out) else
    let out := setp out None in
    ok ← ucalloc_struct;
    if negb ok then mret (- ENOMEM, out) else
    q ← umalloc ENGINE_RXQ_CAP;
    match q with
    | None => mret (- ENOMEM, out)
    | Some q =>
      '(r, g) ← setup_ssl {| send_fn := send; rxq := q; rxq_cap := ENGINE_RXQ_CAP; rxq_len := 0;
                             hs_done := 0; e_ssl := ssl_init |} key psk_len;
      if r <? 0 then mret (r, out) else
      mret (0, setp out (Some g))
    end
  | _, _, _ => mret (- EINVAL, out)
  end.

Definition gxfp_tls_engine_feed_cipher_record (e : ptr gxfp_tls_engine) (rec : ptr bytes) (rec_len : Z)
    : option (Z * ptr gxfp_tls_engine) :=
  if bool_decide (e = None) || bool_decide (rec = None) || (rec_len =? 0) then Some (- EINVAL, e)
  else rxq_push e rec rec_len.

Definition gxfp_tls_engine_handshake_step (e : ptr gxfp_tls_engine) : M lworld (Z * ptr gxfp_tls_engine) :=
  match e with
  | None => mret (- EINVAL, e)
  | Some g =>
    if negb (hs_done g =? 0) then mret (1, e) else
    '(r, _, g) ← run_ssl (mbedtls_ssl_handshake (e_ssl g)) g;
    if r =? 0 then mret (1, Some (set_hs_done 1 g)) else
    if (r =? MBEDTLS_ERR_SSL_WANT_READ) || (r =? MBEDTLS_ERR_SSL_WANT_WRITE)
    then mret (- EAGAIN, Some g) else
    mret (r, Some g)
  end.

Definition gxfp_tls_engine_pull_plain (e : ptr gxfp_tls_engine) (out : ptr bytes) (out_cap : Z)
    (out_len : ptr Z) : M lworld (Z * ptr gxfp_tls_engine * ptr bytes * ptr Z) :=
  match e, out, out_len with
  | Some g, Some o, Some _ =>
    if out_cap =? 0 then mret (- EINVAL, e, out, out_len) else
    let out_len := setp out_len 0 in
    '(r, data, g) ← run_ssl (mbedtls_ssl_read out_cap (e_ssl g)) g;
    o ← lift (blit o 0 data);
    if 0 <? r then mret (1, Some g, Some o, setp out_len r) else
    if (r =? MBEDTLS_ERR_SSL_WANT_READ) || (r =? MBEDTLS_ERR_SSL_WANT_WRITE)
    then mret (- EAGAIN, Some g, Some o, out_len) else
    if r =? 0 then mret (- EPIPE, Some g, Some o, out_len) else
    mret (r, Some g, Some o, out_len)
  | _, _, _ => mret (- EINVAL, e, out, out_len)
  end.
End engine.

(** * The callback of tls_service.c *)

Section callback.
Context {E : Uenv}.

(** [ctx] is the service, which is there and holds the device. *)
Definition send_tls_record_cb (rec : ptr bytes) (rec_len : Z) : M lworld Z :=
  null ← dev_null;
  if (null : bool) || bool_decide (rec = None) || (rec_len =? 0) || (65535 <? rec_len)
  then mret (- EINVAL) else
  gxfp_dev_send_packet GOODIX_MP_TYPE_TLS rec (u16 rec_len).
End callback.

(** * Lemmas: the receive queue *)

Section engine_rules.
Context {E : Uenv} {EO : UenvOk E} {T : Mbedtls}.

(** The engine of a service: its queue is within its buffer. *)
Record eng_ok (g : gxfp_tls_engine) : Prop := {
  eo_cap : rxq_cap g = ENGINE_RXQ_CAP;
  eo_buf : zlen (rxq g) = rxq_cap g;
  eo_len : 0 <= rxq_len g <= rxq_cap g;
  eo_bytes : bytes_ok (rxq g);
  eo_send : send_fn g = Some send_tls_record_cb
}.

(** What is in the queue. *)
Definition queued (g : gxfp_tls_engine) : bytes := ztake (rxq_len g) (rxq g).

(** The rest of the engine. *)
Definition same_engine (g g' : gxfp_tls_engine) : Prop :=
  rxq_cap g' = rxq_cap g ∧ send_fn g' = send_fn g ∧ hs_done g' = hs_done g ∧ e_ssl g' = e_ssl g.

Lemma zlen_queued g : eng_ok g → zlen (queued g) = rxq_len g.
Proof using Type. intros [? ? ? ? ?]. apply zlen_ztake. lia. Qed.

Lemma queue_split g : eng_ok g → ∃ junk, rxq g = queued g ++ junk.
Proof using Type. intros _. exists (zdrop (rxq_len g) (rxq g)). unfold queued. by rewrite ztake_zdrop. Qed.

Lemma eng_ok_queue g q n :
  eng_ok g → zlen q = zlen (rxq g) → bytes_ok q → 0 <= n <= rxq_cap g → eng_ok (set_rxq q n g).
Proof using Type. intros [H1 H2 H3 H4 H5] Hq Hb Hn. split; cbn; [done|lia|lia|done|done]. Qed.

(** Pushing appends, or refuses. *)
Lemma rxq_push_run g d rest :
  eng_ok g → bytes_ok d →
  ∃ r g', rxq_push (Some g) (Some (d ++ rest)) (zlen d) = Some (r, Some g') ∧ eng_ok g' ∧
    same_engine g g' ∧
    (if ENGINE_RXQ_CAP <? rxq_len g + zlen d then r = - ENOSPC ∧ g' = g
     else r = 0 ∧ queued g' = queued g ++ d).
Proof using Type.
  intros Hg Hd. unfold rxq_push. rewrite (eo_cap g Hg). pose proof (zlen_nonneg d).
  destruct (Z.ltb_spec ENGINE_RXQ_CAP (rxq_len g + zlen d)).
  { exists (- ENOSPC), g. by split_and!. }
  pose proof (eo_buf g Hg) as Hb. pose proof (eo_len g Hg) as Hl. rewrite (eo_cap g Hg) in Hb, Hl.
  destruct (split3 (rxq g) (rxq_len g) (zlen d)) as (p & m & q & Eq & Hp & Hm); [lia..|].
  unfold memcpy. rewrite slice_prefix by done. cbn [mbind option_bind].
  rewrite Eq, blit_app by done. cbn [mbind option_bind].
  exists 0, (set_rxq (p ++ d ++ q) (rxq_len g + zlen d) g). split; [done|].
  pose proof (eo_bytes g Hg) as Hby. rewrite Eq, !bytes_ok_app in Hby. destruct Hby as (Hb1 & _ & Hb3).
  split; [|split; [done|split; [done|]]].
  - apply eng_ok_queue; [done| |rewrite !bytes_ok_app; done|rewrite (eo_cap g Hg); lia].
    rewrite Eq, !zlen_app. lia.
  - unfold queued. cbn [set_rxq rxq rxq_len]. rewrite Eq, (ztake_app (rxq_len g)) by done.
    rewrite app_assoc. apply ztake_app. rewrite zlen_app. lia.
Qed.

Lemma feed_cipher_run g d rest :
  eng_ok g → bytes_ok d → d ≠ [] →
  ∃ r g', gxfp_tls_engine_feed_cipher_record (Some g) (Some (d ++ rest)) (zlen d) = Some (r, Some g') ∧
    eng_ok g' ∧ same_engine g g' ∧
    (if ENGINE_RXQ_CAP <? rxq_len g + zlen d then r = - ENOSPC ∧ g' = g
     else r = 0 ∧ queued g' = queued g ++ d).
Proof using Type.
  intros Hg Hd Hne. unfold gxfp_tls_engine_feed_cipher_record. rewrite !bool_decide_eq_false_2 by done.
  assert (zlen d ≠ 0) by (by intros ?%zlen_0). rewrite (proj2 (Z.eqb_neq _ _)) by done.
  by apply rxq_push_run.
Qed.

(** Popping takes from the front. *)
Lemma rxq_pop_run g cap :
  eng_ok g → 0 < cap →
  let n := Z.min cap (rxq_len g) in
  ∃ g', rxq_pop (Some g) cap = Some (n, ztake n (queued g), Some g') ∧ eng_ok g' ∧
    same_engine g g' ∧ queued g' = zdrop n (queued g).
Proof using Type.
  intros Hg Hcap n. unfold rxq_pop. rewrite (proj2 (Z.eqb_neq cap 0)) by lia.
  pose proof (eo_buf g Hg) as Hb. pose proof (eo_len g Hg) as Hl. pose proof (zlen_queued g Hg) as Hq.
  destruct (Z.eqb_spec (rxq_len g) 0) as [H0|H0].
  { exists g. assert (Hn : n = 0) by lia. rewrite Hn, ztake_0, zdrop_0. by split_and!. }
  replace (if cap <? rxq_len g then cap else rxq_len g) with n
    by (unfold n; destruct (Z.ltb_spec cap (rxq_len g)); lia).
  assert (Hn : 0 < n <= rxq_len g) by lia.
  destruct (queue_split g Hg) as (junk & Ej).
  rewrite slice_Some by lia. rewrite zdrop_0. cbn [mbind option_bind].
  replace (ztake n (rxq g)) with (ztake n (queued g)) by (unfold queued; apply ztake_ztake; lia).
  pose proof (eo_bytes g Hg) as Hby. rewrite Ej, bytes_ok_app in Hby. destruct Hby as (Hb1 & Hb2).
  set (a := ztake n (queued g)). set (b := zdrop n (queued g)).
  assert (Eab : queued g = a ++ b) by (unfold a, b; by rewrite ztake_zdrop).
  assert (Ha : zlen a = n) by (apply zlen_ztake; lia).
  assert (Hbl : zlen b = rxq_len g - n) by (unfold b; rewrite zlen_zdrop by lia; lia).
  rewrite Eab, bytes_ok_app in Hb1. destruct Hb1 as (Hba & Hbb).
  destruct (Z.ltb_spec n (rxq_len g)).
  - unfold memcpy. rewrite Ej, Eab. rewrite <- app_assoc, slice_app by done. cbn [mbind option_bind].
    destruct (split3 (a ++ b ++ junk) 0 (zlen b)) as (p & m & q & Eq & Hp & Hm);
      [lia|lia|rewrite !zlen_app; pose proof (zlen_nonneg junk); lia|].
    rewrite (zlen_0 p) in Eq by done. rewrite Eq. cbn [app].
    rewrite (blit_app [] m q) by done. cbn [mbind option_bind app].
    exists (set_rxq (b ++ q) (rxq_len g - n) g). split; [done|].
    assert (Hbq : bytes_ok (a ++ b ++ junk)) by (rewrite !bytes_ok_app; done).
    rewrite Eq in Hbq. cbn [app] in Hbq. rewrite bytes_ok_app in Hbq.
    assert (Hz : zlen (b ++ q) = zlen (rxq g)).
    { rewrite Ej, Eab, <- app_assoc, Eq. cbn [app]. rewrite !zlen_app. lia. }
    split; [apply eng_ok_queue; [done|done|rewrite bytes_ok_app; tauto|lia]|].
    split; [done|]. unfold queued. cbn [set_rxq rxq rxq_len]. by apply ztake_app.
  - exists (set_rxq (rxq g) (rxq_len g - n) g). cbn [mbind option_bind]. split; [done|].
    split; [apply eng_ok_queue; [done|done|apply (eo_bytes g Hg)|lia]|]. split; [done|].
    unfold queued at 1. cbn [set_rxq rxq rxq_len]. rewrite (zlen_0 b) by lia.
    by replace (rxq_len g - n) with 0 by lia.
Qed.

(** ** What is written *)

(** From [w] to [w'] only packets that satisfy [P] were written. *)
Definition wrote (P : bytes → Prop) (w w' : lworld) : Prop :=
  extends w w' ∧ ∃ l, writes (l_trace w') = writes (l_trace w) ++ l ∧ Forall P l.

Lemma wrote_refl P w : wrote P w w.
Proof using Type. split; [done|]. exists []. by rewrite app_nil_r. Qed.

Lemma wrote_trans P w1 w2 w3 : wrote P w1 w2 → wrote P w2 w3 → wrote P w1 w3.
Proof using Type.
  intros (H1 & l1 & E1 & F1) (H2 & l2 & E2 & F2). split; [by rewrite H1|].
  exists (l1 ++ l2). rewrite E2, E1, app_assoc. split; [done|]. by apply Forall_app.
Qed.

Lemma wrote_mono (P Q : bytes → Prop) w w' : (∀ p, P p → Q p) → wrote P w w' → wrote Q w w'.
Proof using Type.
  intros HPQ (H & l & El & Fl). split; [done|]. exists l. split; [done|]. by eapply Forall_impl.
Qed.

Lemma wrote_waits P w w' : waits w w' → wrote P w w'.
Proof using Type. intros (H & El). split; [done|]. exists []. by rewrite app_nil_r. Qed.

Lemma wrote_calls P evs w : writes evs = [] → wrote P w (calls evs w).
Proof using Type. intros. by apply wrote_waits, waits_calls. Qed.

Lemma wrote_pop P w : wrote P w (pop_alloc w).
Proof using Type. split; [apply extends_pop|]. exists []. by rewrite app_nil_r. Qed.

Lemma wrote_one (P : bytes → Prop) fd p w : P p → wrote P w (calls [EvWrite fd p] (pop_alloc w)).
Proof using Type.
  intros Hp. split; [by rewrite <- extends_calls; apply extends_pop|].
  exists [p]. split; [|by apply Forall_singleton]. cbn. unfold writes. by rewrite omap_app.
Qed.

Lemma wrote_open P w w' fd : dev_open w fd → wrote P w w' → dev_open w' fd.
Proof using Type. intros Hd (H & _). by apply (dev_open_extends w). Qed.

(** A TLS record on the wire. *)
Definition tls_packet (p : bytes) : Prop := ∃ rec, bytes_ok rec ∧ p = user_packet GOODIX_MP_TYPE_TLS rec.

(** [p] was written, or nothing was and the result [x] is an error. *)
Definition sent_or_failed (p : bytes) (x : Z) (w w' : lworld) : Prop :=
  writes (l_trace w') = writes (l_trace w) ∧ x < 0 ∨ writes (l_trace w') = writes (l_trace w) ++ [p].

(** Sending a packet: it goes out, or the call fails. *)
Lemma send_packet_sends (P : bytes → Prop) ty pl rest w fd :
  dev_open w fd → P (user_packet ty pl) →
  wp (gxfp_dev_send_packet ty (Some (pl ++ rest)) (zlen pl))
     (λ r w', r <= 0 ∧ wrote P w w' ∧ sent_or_failed (user_packet ty pl) r w w') w.
Proof using EO.
  intros Hd HP. eapply wp_run; [by apply (send_packet_run ty pl rest w fd)|].
  destruct (_ <? zlen pl). { split; [done|]. split; [apply wrote_refl|by left]. }
  destruct (l_oom w) as [|[] oom]; cbn [fst snd].
  2: { split; [done|]. split; [apply wrote_pop|by left]. }
  all: split; [repeat case_match; unfold EIO; lia|]; split; [by apply wrote_one|].
  all: right; cbn; unfold writes; by rewrite omap_app.
Qed.

(** ** The records of a buffer *)

(** The length a record announces. *)
Definition record_len (b : bytes) : option Z :=
  match b with
  | _ :: _ :: _ :: b3 :: b4 :: _ => Some (TLS_REC_HDR_LEN + (b3 * 256 + b4))
  | _ => None
  end.

Definition is_record (b : bytes) : Prop := record_len b = Some (zlen b).

(** Bytes that do not start with a whole record. *)
Definition no_record (b : bytes) : Prop :=
  match record_len b with
  | Some n => zlen b < n
  | None => True
  end.

Lemma record_len_app a b n : record_len a = Some n → record_len (a ++ b) = Some n.
Proof using Type. by destruct a as [|? [|? [|? [|? [|? ?]]]]]. Qed.

Lemma record_len_None b : record_len b = None → zlen b < 5.
Proof using Type.
  destruct b as [|? [|? [|? [|? [|? ?]]]]]; intros; try done; rewrite ?zlen_cons, ?zlen_nil; lia.
Qed.

Lemma record_len_fields b n :
  record_len b = Some n → 5 <= zlen b ∧ ∃ b3 b4, rd b 3 = Some b3 ∧ rd b 4 = Some b4 ∧ n = 5 + (b3 * 256 + b4).
Proof using Type.
  destruct b as [|? [|? [|? [|b3 [|b4 t]]]]]; intros Hn; try done. injection Hn as <-.
  split; [rewrite !zlen_cons; pose proof (zlen_nonneg t); lia|]. by exists b3, b4.
Qed.

Lemma is_record_len r : is_record r → 5 <= zlen r.
Proof using Type. intros Hr. by apply record_len_fields in Hr as [? _]. Qed.

(** Every buffer is records, then bytes that are not one. *)
Lemma split_records b : bytes_ok b → ∃ recs tail, b = concat recs ++ tail ∧ Forall is_record recs ∧ no_record tail.
Proof using Type.
  remember (length b) as n eqn:Hn. revert b Hn. induction (lt_wf n) as [n _ IH]. intros b -> Hb.
  destruct (record_len b) as [m|] eqn:Em; cycle 1.
  { exists [], b. unfold no_record. rewrite Em. by split_and!. }
  destruct (Z.lt_ge_cases (zlen b) m).
  { exists [], b. unfold no_record. rewrite Em. by split_and!. }
  destruct (record_len_fields b m Em) as (H5 & b3 & b4 & H3 & H4 & ->).
  pose proof (rd_ok _ _ _ Hb H3). pose proof (rd_ok _ _ _ Hb H4). unfold is_u8 in *.
  set (m := 5 + (b3 * 256 + b4)) in *. assert (5 <= m) by lia.
  assert (Hl : zlen (ztake m b) = m) by (apply zlen_ztake; lia).
  destruct (IH (length (zdrop m b))) with (zdrop m b) as (recs & tail & Et & Hr & Ht).
  - unfold zdrop. rewrite length_drop. unfold zlen in *. lia.
  - done.
  - by apply bytes_ok_zdrop.
  - exists (ztake m b :: recs), tail. cbn [concat]. rewrite <- app_assoc, <- Et, ztake_zdrop.
    split; [done|]. split; [|done]. constructor; [|done]. unfold is_record. rewrite Hl, <- Em.
    destruct b as [|c0 [|c1 [|c2 [|c3 [|c4 t]]]]]; try done.
    replace m with (1 + (1 + (1 + (1 + (1 + (m - 5)))))) by lia. unfold ztake.
    by rewrite !Z2Nat.inj_add by lia.
Qed.

(** The records of a list, sent one by one until one fails. *)
Fixpoint send_records (recs : list bytes) : M lworld Z :=
  match recs with
  | [] => mret 0
  | r :: recs =>
    x ← send_tls_record_cb (Some r) (zlen r);
    if x <? 0 then mret x else send_records recs
  end.

(** What [bio_send] makes of a failure. *)
Definition send_error (x : Z) : Z :=
  if (x =? - EAGAIN) || (x =? - EINTR) then MBEDTLS_ERR_SSL_WANT_WRITE else MBEDTLS_ERR_SSL_INTERNAL_ERROR.

Lemma send_cb_run r rest w fd :
  dev_open w fd → 0 < zlen r →
  send_tls_record_cb (Some (r ++ rest)) (zlen r) w
  = if 65535 <? zlen r then Some (- EINVAL, w)
    else gxfp_dev_send_packet GOODIX_MP_TYPE_TLS (Some (r ++ rest)) (zlen r) w.
Proof using Type.
  intros Hd Hr. unfold send_tls_record_cb. rewrite (run_bind _ _ _ _ _ (dev_null_run w fd Hd)).
  rewrite bool_decide_eq_false_2 by done. rewrite (proj2 (Z.eqb_neq _ _)) by lia. cbn [orb].
  destruct (Z.ltb_spec 65535 (zlen r)); [done|]. by replace (u16 (zlen r)) with (zlen r) by zint.
Qed.

Lemma send_cb_prefix r rest w fd :
  dev_open w fd → 0 < zlen r →
  send_tls_record_cb (Some (r ++ rest)) (zlen r) w = send_tls_record_cb (Some r) (zlen r) w.
Proof using EO.
  intros Hd Hr. rewrite (send_cb_run r rest w fd) by done.
  rewrite <- (app_nil_r r) at 4. rewrite (send_cb_run r [] w fd) by done.
  by rewrite !(send_packet_run _ _ _ w fd).
Qed.

Lemma send_cb_sends r rest w fd :
  dev_open w fd → bytes_ok r → 0 < zlen r →
  wp (send_tls_record_cb (Some (r ++ rest)) (zlen r))
     (λ x w', x <= 0 ∧ wrote tls_packet w w' ∧
        sent_or_failed (user_packet GOODIX_MP_TYPE_TLS r) x w w') w.
Proof using EO.
  intros Hd Hb Hr. unfold wp. rewrite (send_cb_run r rest w fd) by done. destruct (_ <? _).
  - split; [done|]. split; [apply wrote_refl|by left].
  - apply (send_packet_sends _ _ _ _ _ fd); [done|by exists r].
Qed.

(** The header of a record in a buffer. *)
Lemma header_run pre b q m :
  bytes_ok b → record_len b = Some m →
  ∃ b3 b4, rd (pre ++ b ++ q) (zlen pre + 3) = Some b3 ∧ rd (pre ++ b ++ q) (zlen pre + 4) = Some b4 ∧
    TLS_REC_HDR_LEN + u16 (Z.lor (Z.shiftl b3 8) b4) = m ∧ 5 <= zlen b ∧ 5 <= m.
Proof using Type.
  intros Hb Hm. destruct (record_len_fields b m Hm) as (H5 & b3 & b4 & H3 & H4 & ->).
  pose proof (rd_ok _ _ _ Hb H3) as U3. pose proof (rd_ok _ _ _ Hb H4) as U4.
  exists b3, b4. rewrite !(rd_app_r pre) by lia. rewrite !rd_app_l by lia.
  replace (zlen pre + 3 - zlen pre) with 3 by lia. replace (zlen pre + 4 - zlen pre) with 4 by lia.
  split; [done|]. split; [done|]. rewrite Z.lor_comm, lor16 by done. unfold TLS_REC_HDR_LEN.
  unfold is_u8 in *. split; [|lia]. zint.
Qed.

Lemma bio_send_loop_run fuel pre recs tail len w fd :
  dev_open w fd → Forall is_record recs → no_record tail → bytes_ok (concat recs ++ tail) →
  len = zlen pre + zlen (concat recs) + zlen tail → (length recs < fuel)%nat →
  bio_send_loop fuel send_tls_record_cb (pre ++ concat recs ++ tail) len (zlen pre) w
  = (x ← send_records recs;
     mret (if x <? 0 then inl (send_error x) else inr (len - zlen tail))) w.
Proof using EO.
  intros Hd Hr Ht Hb Hlen Hf. revert pre recs w Hd Hr Hb Hlen Hf.
  induction fuel as [|fuel IH]; intros pre recs w Hd Hr Hb Hlen Hf; [lia|]. cbn [bio_send_loop].
  pose proof (zlen_nonneg tail). destruct recs as [|r recs]; cbn [concat send_records] in *.
  - rewrite zlen_nil in Hlen. cbn [app] in *. rewrite bind_ret. change (0 <? 0) with false. cbv iota.
    replace (len - zlen tail) with (zlen pre) by lia.
    destruct (Z.leb_spec (zlen pre + TLS_REC_HDR_LEN) len); cbn [negb]; [|done].
    unfold no_record in Ht. unfold TLS_REC_HDR_LEN in *.
    destruct (record_len tail) as [m|] eqn:Em; [|apply record_len_None in Em; lia].
    destruct (header_run pre tail [] m Hb Em) as (b3 & b4 & H3 & H4 & Hm & _).
    rewrite app_nil_r in H3, H4. rewrite H3, H4, !bind_lift. unfold TLS_REC_HDR_LEN in Hm. cbv zeta.
    rewrite Hm, (proj2 (Z.ltb_lt len _)) by lia. done.
  - apply Forall_cons in Hr as [Hr Hrs]. rewrite <- !app_assoc in *. rewrite bytes_ok_app in Hb.
    destruct Hb as [Hb Hbs]. pose proof (zlen_nonneg (concat recs)).
    destruct (header_run pre r (concat recs ++ tail) (zlen r) Hb Hr) as (b3 & b4 & H3 & H4 & Hm & H5 & _).
    rewrite zlen_app in Hlen. unfold TLS_REC_HDR_LEN in *.
    rewrite (proj2 (Z.leb_le _ len)) by lia. cbn [negb].
    rewrite H3, H4, !bind_lift. cbv zeta. rewrite Hm, (proj2 (Z.ltb_ge len _)) by lia.
    rewrite zdrop_app by done.
    destruct (wp_inv _ _ _ (send_cb_sends r (concat recs ++ tail) w fd Hd Hb ltac:(lia))) as (x & w' & Ex & _ & Hw & _).
    rewrite (run_bind _ _ _ _ _ Ex). rewrite (send_cb_prefix r _ w fd Hd ltac:(lia)) in Ex.
    rewrite bind_assoc, (run_bind _ _ _ _ _ Ex). destruct (Z.ltb_spec x 0) as [Hx|Hx].
    + rewrite bind_ret, (proj2 (Z.ltb_lt x 0)) by done. unfold send_error. by destruct (_ || _).
    + rewrite <- (IH (pre ++ r) recs w'); [by rewrite <- app_assoc, zlen_app|by eapply wrote_open|done|done| |cbn in Hf; lia].
      rewrite zlen_app. lia.
Qed.

(** Sending a buffer is sending its records. *)
Lemma bio_send_run g recs tail w fd :
  dev_open w fd → send_fn g = Some send_tls_record_cb →
  Forall is_record recs → no_record tail → bytes_ok (concat recs ++ tail) →
  let len := zlen (concat recs ++ tail) in
  bio_send (Some g) (Some (concat recs ++ tail)) len w
  = (x ← send_records recs;
     mret (if x <? 0 then send_error x
           else if bool_decide (tail = []) then s32 len else MBEDTLS_ERR_SSL_INTERNAL_ERROR)) w.
Proof using EO.
  intros Hd Hg Hr Ht Hb len. unfold bio_send. rewrite Hg. pose proof (zlen_nonneg tail).
  assert (Hn : Z.of_nat (length recs) <= zlen (concat recs)).
  { clear -Hr. induction Hr as [|r recs Hr Hrs IH]; [done|]. cbn [concat length].
    pose proof (is_record_len r Hr). rewrite zlen_app. lia. }
  assert (Hl : len = zlen (concat recs) + zlen tail) by (unfold len; by rewrite zlen_app).
  pose proof (bio_send_loop_run (S (Z.to_nat len)) [] recs tail len w fd Hd Hr Ht Hb) as Hrun.
  rewrite zlen_nil in Hrun. specialize (Hrun ltac:(lia) ltac:(lia)). cbn [app] in Hrun.
  destruct (send_records recs w) as [[x w']|] eqn:Es.
  2: { unfold mbind, M_bind in *. rewrite Es in *. by rewrite Hrun. }
  rewrite (run_bind _ _ _ _ _ Es), ret_run in Hrun. rewrite (run_bind _ _ _ _ _ Es), (run_bind _ _ _ _ _ Hrun).
  destruct (x <? 0); [done|].
  destruct (bool_decide_reflect (tail = [])) as [->|Hne].
  - by rewrite zlen_nil, Z.sub_0_r, Z.eqb_refl.
  - assert (zlen tail ≠ 0) by (by intros ?%zlen_0).
    by rewrite (proj2 (Z.eqb_neq _ _)) by lia.
Qed.

(** The records go out in order; a failure stops after the ones before it. *)
Lemma send_records_wp recs w fd :
  dev_open w fd → Forall is_record recs → bytes_ok (concat recs) →
  wp (send_records recs)
     (λ x w', x <= 0 ∧ wrote tls_packet w w' ∧ ∃ k, (k <= length recs)%nat ∧
        writes (l_trace w') = writes (l_trace w) ++ (user_packet GOODIX_MP_TYPE_TLS <$> take k recs) ∧
        (x = 0 → k = length recs)) w.
Proof using EO.
  intros Hd Hr. revert w Hd. induction Hr as [|r recs Hr Hrs IH]; intros w Hd Hb; cbn [send_records concat] in *.
  { apply wp_ret. split; [done|]. split; [apply wrote_refl|]. exists 0%nat. by rewrite app_nil_r. }
  rewrite bytes_ok_app in Hb. destruct Hb as [Hb Hbs]. pose proof (is_record_len r Hr). apply wp_bind.
  rewrite <- (app_nil_r r) at 1.
  eapply wp_mono; [apply (send_cb_sends r [] w fd); [done|done|lia]|]. intros x w' (Hx & Hw & Hsent). cbn beta in *.
  destruct (Z.ltb_spec x 0) as [Hneg|].
  { apply wp_ret. split; [done|]. split; [done|].
    destruct Hsent as [(Es & _)|Es]; [exists 0%nat|exists 1%nat]; cbn [take fmap list_fmap length];
      rewrite ?app_nil_r; (split; [lia|]; split; [exact Es|lia]). }
  eapply wp_mono; [apply (IH w'); [by eapply wrote_open|done]|].
  intros y w'' (Hy & Hw' & k & Hk & El & Hall). split; [done|]. split; [by eapply wrote_trans|].
  exists (S k). cbn [take fmap list_fmap length]. split; [lia|]. split; [|intros; f_equal; auto].
  destruct Hsent as [(_ & ?)|Es]; [lia|]. by rewrite El, Es, <- app_assoc.
Qed.

Lemma bio_send_wp g b w fd :
  dev_open w fd → eng_ok g → bytes_ok b →
  wp (bio_send (Some g) (Some b) (zlen b)) (λ _ w', wrote tls_packet w w') w.
Proof using EO.
  intros Hd Hg Hb. destruct (split_records b Hb) as (recs & tail & -> & Hr & Ht).
  unfold wp. rewrite (bio_send_run g recs tail w fd Hd (eo_send g Hg) Hr Ht Hb).
  rewrite bytes_ok_app in Hb.
  eapply wp_bind, wp_mono; [by apply (send_records_wp recs w fd); [| |apply Hb]|].
  intros x w' (_ & Hw & _). by apply wp_ret.
Qed.

(** ** Calls into mbedTLS *)

Context {TO : MbedtlsOk T}.

Lemma bio_recv_run g len :
  eng_ok g → 0 < len →
  ∃ r b g', bio_recv (Some g) len = Some (r, b, Some g') ∧ eng_ok g' ∧ same_engine g g' ∧
    queued g = b ++ queued g' ∧ zlen b <= len ∧ (if 0 <? r then r = zlen b else b = []).
Proof using TO.
  intros Hg Hlen. unfold bio_recv. rewrite bool_decide_eq_false_2 by done.
  rewrite (proj2 (Z.eqb_neq len 0)) by lia. cbn [orb].
  destruct (rxq_pop_run g len Hg Hlen) as (g' & -> & Hg' & Hs & Hq). cbn [mbind option_bind].
  pose proof (eo_len g Hg). pose proof (zlen_queued g Hg) as Hz.
  set (n := Z.min len (rxq_len g)) in *. assert (Hn : 0 <= n <= zlen (queued g)) by lia.
  destruct (Z.ltb_spec 0 n).
  - exists n, (ztake n (queued g)), g'. rewrite Hq, ztake_zdrop, zlen_ztake by done.
    rewrite (proj2 (Z.ltb_lt 0 n)) by lia. split_and!; try done; lia.
  - rewrite (proj2 (Z.ltb_ge n 0)) by lia.
    exists MBEDTLS_ERR_SSL_WANT_READ, [], g'. pose proof want_read_neg.
    rewrite (proj2 (Z.ltb_ge 0 _)) by lia. replace n with 0 in Hq by lia.
    split_and!; try done. rewrite zlen_nil. lia.
Qed.

(** A call in progress keeps the engine, sends only TLS records, and takes what it
    receives from the front of the queue. *)
Lemma run_ssl_wp P budget c g w fd :
  dev_open w fd → eng_ok g → call_ok P budget c →
  wp (run_ssl c g)
     (λ '(r, out, g') w', eng_ok g' ∧ hs_done g' = hs_done g ∧ wrote tls_packet w w' ∧
        P r out (e_ssl g') (budget + rxq_len g - rxq_len g') ∧ (∃ got, queued g = got ++ queued g')) w.
Proof using EO TO.
  intros Hd Hg. revert budget g w Hd Hg.
  induction c as [r out s|len k IH|b k IH]; intros budget g w Hd Hg Hc; cbn [run_ssl call_ok] in *.
  - apply wp_ret. replace (budget + rxq_len g - rxq_len (set_ssl s g)) with budget by (cbn; lia).
    split; [by destruct Hg|]. split; [done|]. split; [apply wrote_refl|]. split; [done|]. by exists [].
  - destruct Hc as (Hlen & Hk). destruct (bio_recv_run g len Hg Hlen) as (r & b & g1 & -> & Hg1 & Hs & Hq & Hb & Hr).
    apply wp_bind. eapply wp_lift; [done|]. apply wp_bind. eapply wp_lift; [done|].
    pose proof (zlen_queued g Hg) as Hz0. pose proof (zlen_queued g1 Hg1).
    assert (Hz : rxq_len g = zlen b + rxq_len g1) by (rewrite Hq, zlen_app in Hz0; lia).
    assert (Hbb : bytes_ok b).
    { pose proof (eo_bytes g Hg) as Hbg. destruct (queue_split g Hg) as (j & Ej).
      rewrite Ej, Hq, !bytes_ok_app in Hbg. tauto. }
    eapply wp_mono; [apply (IH r b (budget + zlen b) g1 w Hd Hg1); by apply Hk|].
    intros [[r' out] g'] w' (Hg' & Hh & Hw & HP & got & Hgot). destruct Hs as (_ & _ & Hh1 & _).
    split; [done|]. split; [by rewrite Hh|]. split; [done|]. split.
    + by replace (budget + rxq_len g - rxq_len g') with (budget + zlen b + rxq_len g1 - rxq_len g') by lia.
    + exists (b ++ got). by rewrite Hq, Hgot, app_assoc.
  - destruct Hc as (Hb & Hk). apply wp_bind. eapply wp_mono; [by apply (bio_send_wp g b w fd)|].
    intros r w' Hw. cbn beta in Hw. eapply wp_mono; [apply (IH r budget g w'); [exact (wrote_open _ _ _ _ Hd Hw)|done|by apply Hk]|].
    intros [[r' out] g'] w'' (Hg' & Hh & Hw' & HP & Hq). split_and!; try done. by eapply wrote_trans.
Qed.

(** Plaintext that can still come out. *)
Definition plain_bound (g : gxfp_tls_engine) : Z := plain_left (e_ssl g) + rxq_len g.

Lemma plain_bound_nonneg g : eng_ok g → 0 <= plain_bound g.
Proof using Type. intros Hg. pose proof (plain_left_nonneg (e_ssl g)). pose proof (eo_len g Hg). unfold plain_bound. lia. Qed.

(** Enough fuel to pull all of it. *)
Definition pull_fuel : nat := S (Z.to_nat (ENGINE_RXQ_CAP + plain_max)).

Lemma pull_fuel_enough g : eng_ok g → (Z.to_nat (plain_bound g) < pull_fuel)%nat.
Proof using Type.
  intros Hg. pose proof (plain_bound_nonneg g Hg). pose proof (plain_left_max (e_ssl g)).
  pose proof (eo_len g Hg) as Hl. rewrite (eo_cap g Hg) in Hl. unfold plain_bound, pull_fuel in *. lia.
Qed.

Lemma setup_ssl_run g psk w :
  GXFP5130_PSK_LEN <= zlen psk →
  ∃ r s, setup_ssl g psk GXFP5130_PSK_LEN w = Some ((r, set_ssl s g), w) ∧ (r = 0 ∨ r = - EIO).
Proof using Type.
  intros Hl. unfold setup_ssl. rewrite bind_gets.
  destruct (mbedtls_ctr_drbg_seed _ _ _) as [r s]. destruct (negb (r =? 0)); [exists (- EIO), s; auto|].
  destruct (mbedtls_ssl_config_defaults _ _ _ _) as [r1 s1].
  destruct (negb (r1 =? 0)); [exists (- EIO), s1; auto|]. cbv zeta.
  rewrite slice_Some by (unfold GXFP5130_PSK_LEN in *; lia). rewrite bind_lift.
  destruct (mbedtls_ssl_conf_psk _ _ _) as [r2 s2]. destruct (negb (r2 =? 0)); [exists (- EIO), s2; auto|].
  destruct (mbedtls_ssl_setup _) as [r3 s3]. destruct (negb (r3 =? 0)); [exists (- EIO), s3; auto|].
  exists 0, (mbedtls_ssl_set_bio s3). auto.
Qed.

Lemma waits_pop w : waits w (pop_alloc w).
Proof using Type. split; [apply extends_pop|done]. Qed.

Lemma engine_create_wp psk w :
  GXFP5130_PSK_LEN <= zlen psk →
  wp (gxfp_tls_engine_create (Some None) (Some psk) GXFP5130_PSK_LEN (Some send_tls_record_cb))
     (λ '(r, out) w', waits w w' ∧ (r < 0 ∨ r = 0 ∧ ∃ g, out = Some (Some g) ∧ eng_ok g)) w.
Proof using EO.
  intros Hl. unfold gxfp_tls_engine_create. rewrite Z.eqb_refl. cbn [negb]. cbv zeta.
  apply wp_bind, calloc_struct_wp. intros [|]; cbn [negb].
  2: { apply wp_ret. split; [apply waits_pop|by left]. }
  apply wp_bind, malloc_wp.
  { intros _. apply wp_ret. split; [by rewrite <- waits_pop; apply waits_pop|by left]. }
  intros q Hq Hqb. set (w2 := pop_alloc (pop_alloc w)).
  assert (Hw2 : waits w w2) by (unfold w2; by rewrite <- waits_pop; apply waits_pop).
  edestruct (setup_ssl_run) as (r & s & Es & Hr); [exact Hl|].
  apply wp_bind. eapply wp_eq; [exact Es|]. destruct Hr as [-> | ->].
  - change (0 <? 0) with false. apply wp_ret. split; [done|]. right. split; [done|]. eexists. split; [done|].
    split; cbn [set_ssl rxq rxq_cap rxq_len send_fn]; [done|by apply Hq|unfold ENGINE_RXQ_CAP; lia|done|done].
  - change (- EIO <? 0) with true. apply wp_ret. split; [done|by left].
Qed.

Lemma handshake_step_wp g w fd :
  dev_open w fd → eng_ok g →
  wp (gxfp_tls_engine_handshake_step (Some g))
     (λ '(r, e) w', ∃ g', e = Some g' ∧ eng_ok g' ∧ wrote tls_packet w w' ∧ (r = 1 ∨ r < 0) ∧
        plain_bound g' <= plain_bound g) w.
Proof using EO TO.
  intros Hd Hg. unfold gxfp_tls_engine_handshake_step.
  destruct (negb (hs_done g =? 0)).
  { apply wp_ret. exists g. split_and!; try done; [apply wrote_refl|by left]. }
  apply wp_bind. eapply wp_mono; [by apply (run_ssl_wp _ _ _ g w fd Hd Hg (handshake_ok _))|].
  intros [[r out] g'] w' (Hg' & Hh & Hw & (Hr & Hp) & _). cbn beta in *.
  assert (Hpb : plain_bound g' <= plain_bound g) by (unfold plain_bound; lia).
  destruct (Z.eqb_spec r 0).
  { apply wp_ret. exists (set_hs_done 1 g'). split_and!; try done; [by destruct Hg'|by left]. }
  destruct (_ || _); apply wp_ret; exists g'; split_and!; try done; right; unfold EAGAIN; lia.
Qed.

Lemma pull_plain_wp g o w fd :
  dev_open w fd → eng_ok g → zlen o = TLS_REC_MAX_PLAIN → bytes_ok o →
  wp (gxfp_tls_engine_pull_plain (Some g) (Some o) TLS_REC_MAX_PLAIN (Some 0))
     (λ '(r, e, out, n) w', ∃ g' o' n', e = Some g' ∧ out = Some o' ∧ n = Some n' ∧ eng_ok g' ∧
        wrote tls_packet w w' ∧ bytes_ok o' ∧ zlen o' = TLS_REC_MAX_PLAIN ∧ 0 <= n' <= TLS_REC_MAX_PLAIN ∧
        (r = 1 ∧ plain_bound g' < plain_bound g ∨ r < 0)) w.
Proof using EO TO.
  intros Hd Hg Ho Hob. unfold gxfp_tls_engine_pull_plain.
  change (TLS_REC_MAX_PLAIN =? 0) with false. cbv iota zeta. apply wp_bind.
  eapply wp_mono; [by apply (run_ssl_wp _ _ _ g w fd Hd Hg (ssl_read_ok TLS_REC_MAX_PLAIN _ ltac:(done)))|].
  intros [[r out] g'] w' (Hg' & Hh & Hw & (Hb & Hl & Hr & Hp) & _).
  destruct (blit o 0 out) as [o'|] eqn:Eo; cycle 1.
  { rewrite blit_Some in Eo; [done|done|]. rewrite Ho. cbn. lia. }
  destruct (blit_inv _ _ _ _ Eo) as (_ & _ & Eo' & Hl').
  assert (Hob' : bytes_ok o').
  { rewrite Eo', !bytes_ok_app. auto using bytes_ok_ztake, bytes_ok_zdrop. }
  apply wp_bind. eapply wp_lift; [done|]. unfold TLS_REC_MAX_PLAIN in *.
  destruct (Z.ltb_spec 0 r).
  { apply wp_ret. exists g', o', r. pose proof (Hr ltac:(done)).
    split_and!; try done; try lia. left. split; [done|]. unfold plain_bound. lia. }
  assert (Hend : ∀ x, x < 0 → wp (W := lworld) (mret (x, Some g', Some o', setp (Some 0) 0))
    (λ '(r, e, out, n) w', ∃ g' o' n', e = Some g' ∧ out = Some o' ∧ n = Some n' ∧ eng_ok g' ∧
        wrote tls_packet w w' ∧ bytes_ok o' ∧ zlen o' = 16384 ∧ 0 <= n' <= 16384 ∧
        (r = 1 ∧ plain_bound g' < plain_bound g ∨ r < 0)) w').
  { intros x Hx. apply wp_ret. exists g', o', 0. split_and!; try done; lia. }
  destruct (_ || _); [by apply Hend|]. destruct (Z.eqb_spec r 0); apply Hend; unfold EPIPE; lia.
Qed.

(** ** The engine as a stream *)

(** An engine for its sending side only. *)
Definition sender : gxfp_tls_engine :=
  {| send_fn := Some send_tls_record_cb; rxq := []; rxq_cap := 0; rxq_len := 0; hs_done := 0;
     e_ssl := ssl_init |}.

(** What a call sees when the receive queue is just the bytes that are waiting. *)
Fixpoint stream_ssl (c : ssl_call ssl) (q : bytes) : M lworld (Z * bytes * ssl * bytes) :=
  match c with
  | SslRet r out s => mret (r, out, s, q)
  | SslRecv len k =>
    if bool_decide (q = []) then stream_ssl (k MBEDTLS_ERR_SSL_WANT_READ []) q
    else let b := ztake len q in stream_ssl (k (zlen b) b) (zdrop len q)
  | SslSend b k =>
    r ← bio_send (Some sender) (Some b) (zlen b);
    stream_ssl (k r) q
  end.

Lemma bio_recv_stream g len :
  eng_ok g → 0 < len →
  ∃ g', eng_ok g' ∧ same_engine g g' ∧
    if bool_decide (queued g = [])
    then bio_recv (Some g) len = Some (MBEDTLS_ERR_SSL_WANT_READ, [], Some g') ∧ queued g' = []
    else bio_recv (Some g) len
         = Some (zlen (ztake len (queued g)), ztake len (queued g), Some g') ∧
         queued g' = zdrop len (queued g).
Proof using Type.
  intros Hg Hlen. unfold bio_recv. rewrite (bool_decide_eq_false_2 (Some g = None)) by done.
  rewrite (proj2 (Z.eqb_neq len 0)) by lia. cbn [orb].
  destruct (rxq_pop_run g len Hg Hlen) as (g' & -> & Hg' & Hs & Hq). cbn [mbind option_bind].
  exists g'. split; [done|]. split; [done|]. pose proof (zlen_queued g Hg) as Hz.
  pose proof (eo_len g Hg).
  destruct (bool_decide_reflect (queued g = [])) as [H0|H0].
  - assert (Hn : Z.min len (rxq_len g) = 0) by (rewrite H0, zlen_nil in Hz; lia).
    rewrite Hn in *. split; [done|]. by rewrite Hq, H0.
  - assert (zlen (queued g) ≠ 0) by (by intros ?%zlen_0).
    rewrite (proj2 (Z.ltb_lt 0 _)) by lia.
    assert (Hmin : ztake (Z.min len (rxq_len g)) (queued g) = ztake len (queued g) ∧
      zdrop (Z.min len (rxq_len g)) (queued g) = zdrop len (queued g)).
    { destruct (Z.min_spec len (rxq_len g)) as [(_ & ->)|(Hle & ->)]; [done|]. unfold ztake, zdrop, zlen in *.
      rewrite !take_ge, !drop_ge by lia. done. }
    destruct Hmin as (Hm1 & Hm2). rewrite Hq, Hm2, <- Hm1, zlen_ztake by lia. done.
Qed.

Lemma run_ssl_stream P budget c g w fd :
  dev_open w fd → eng_ok g → call_ok P budget c →
  ∃ r out s q g' w', stream_ssl c (queued g) w = Some ((r, out, s, q), w') ∧
    run_ssl c g w = Some ((r, out, g'), w') ∧ queued g' = q ∧ e_ssl g' = s ∧ eng_ok g'.
Proof using EO TO.
  intros Hd Hg. revert budget g w Hd Hg.
  induction c as [r out s|len k IH|b k IH]; intros budget g w Hd Hg Hc; cbn [run_ssl stream_ssl call_ok] in *.
  - exists r, out, s, (queued g), (set_ssl s g), w. split_and!; try done. by destruct Hg.
  - destruct Hc as (Hlen & Hk). destruct (bio_recv_stream g len Hg Hlen) as (g1 & Hg1 & _ & Hb).
    destruct (bool_decide (queued g = [])) eqn:E0.
    + apply bool_decide_eq_true in E0. destruct Hb as (-> & Hq1). rewrite !bind_lift, E0.
      pose proof (IH MBEDTLS_ERR_SSL_WANT_READ [] (budget + zlen (A:=Z) []) g1 w Hd Hg1) as H.
      rewrite Hq1 in H. apply H, Hk; [apply bytes_ok_nil|rewrite zlen_nil; lia|].
      rewrite (proj2 (Z.ltb_ge 0 _)); [done|]. pose proof want_read_neg. lia.
    + apply bool_decide_eq_false in E0. destruct Hb as (-> & Hq1). rewrite !bind_lift, <- Hq1.
      set (b := ztake len (queued g)) in *. pose proof (zlen_nonneg b).
      apply (IH (zlen b) b (budget + zlen b) g1 w Hd Hg1), Hk.
      * apply bytes_ok_ztake. by apply bytes_ok_ztake, (eo_bytes g Hg).
      * unfold b, ztake, zlen. rewrite length_take. lia.
      * destruct (Z.ltb_spec 0 (zlen b)); [done|]. apply zlen_0. lia.
  - destruct Hc as (Hb & Hk).
    assert (Eb : ∀ g', send_fn g' = Some send_tls_record_cb →
      bio_send (Some g') (Some b) (zlen b) w = bio_send (Some g) (Some b) (zlen b) w).
    { intros g' Hs. unfold bio_send. by rewrite Hs, (eo_send g Hg). }
    destruct (wp_inv _ _ _ (bio_send_wp g b w fd Hd Hg Hb)) as (r & w' & Er & Hw).
    rewrite (run_bind _ _ _ _ _ Er). rewrite <- (Eb sender eq_refl) in Er. rewrite (run_bind _ _ _ _ _ Er).
    apply (IH r budget g w'); [by eapply wrote_open|done|apply Hk].
Qed.

(** C28: the engine's queue is a stream: whatever mbedTLS does in a call, it sees the
    front of the bytes that wait and nothing else, as if the 256 KiB buffer with its
    copies were an unbounded byte stream; the call is defined and leaves the buffer in
    order. A record from the device is appended to the stream, or refused with
    -ENOSPC, the stream unchanged, when the buffer has no room for all of it. *)
Theorem engine_refines_stream P budget c g d rest w fd :
  dev_open w fd → eng_ok g → call_ok P budget c → bytes_ok d → d ≠ [] →
  (∃ r out s q g' w', stream_ssl c (queued g) w = Some ((r, out, s, q), w') ∧
     run_ssl c g w = Some ((r, out, g'), w') ∧ queued g' = q ∧ e_ssl g' = s ∧ eng_ok g') ∧
  (∃ r g', gxfp_tls_engine_feed_cipher_record (Some g) (Some (d ++ rest)) (zlen d) = Some (r, Some g') ∧
     eng_ok g' ∧ same_engine g g' ∧
     if zlen (queued g) + zlen d <=? ENGINE_RXQ_CAP then r = 0 ∧ queued g' = queued g ++ d
     else r = - ENOSPC ∧ g' = g).
Proof using EO TO.
  intros Hd Hg Hc Hb Hne. split; [by apply (run_ssl_stream P budget c g w fd)|].
  destruct (feed_cipher_run g d rest Hg Hb Hne) as (r & g' & Hr & Hg' & Hs & Hres).
  exists r, g'. split; [done|]. split; [done|]. split; [done|]. rewrite zlen_queued by done.
  rewrite Z.leb_antisym. by destruct (_ <? _).
Qed.

(** Every buffer mbedTLS hands over is a sequence of whole TLS records and a rest
    that is not one. The records go to the device one by one, in order, one packet of
    the TLS type each, until one fails: -EAGAIN and -EINTR ask mbedTLS to try again,
    another error is an internal error, and so is a rest that is not empty. The call
    reports the whole length only when every record was sent. *)
Theorem bio_send_records b g w fd :
  dev_open w fd → eng_ok g → bytes_ok b → zlen b < 2 ^ 31 →
  ∃ recs tail x w' k, b = concat recs ++ tail ∧ Forall is_record recs ∧ no_record tail ∧
    send_records recs w = Some (x, w') ∧ (k <= length recs)%nat ∧
    writes (l_trace w') = writes (l_trace w) ++ (user_packet GOODIX_MP_TYPE_TLS <$> take k recs) ∧
    (x = 0 → k = length recs) ∧
    bio_send (Some g) (Some b) (zlen b) w
    = Some (if x <? 0 then send_error x
            else if bool_decide (tail = []) then zlen b else MBEDTLS_ERR_SSL_INTERNAL_ERROR, w').
Proof using EO.
  intros Hd Hg Hb Hl. destruct (split_records b Hb) as (recs & tail & -> & Hr & Ht).
  assert (Hbc : bytes_ok (concat recs)) by (rewrite bytes_ok_app in Hb; apply Hb).
  destruct (wp_inv _ _ _ (send_records_wp recs w fd Hd Hr Hbc)) as (x & w' & Ex & _ & _ & k & Hk & Hw & Hall).
  exists recs, tail, x, w', k. do 7 (split; [done|]).
  rewrite (bio_send_run g recs tail w fd Hd (eo_send g Hg) Hr Ht Hb), (run_bind _ _ _ _ _ Ex).
  replace (s32 (zlen (concat recs ++ tail))) with (zlen (concat recs ++ tail)); [done|].
  pose proof (zlen_nonneg (concat recs ++ tail)). symmetry. zint.
Qed.
End engine_rules.

(** * A concrete mbedTLS

    A server with no cipher: it waits for five bytes, answers with one record, and
    from then on hands over what it receives. *)
Definition plain_tls : Mbedtls :=
  {| ssl := Z;
     ssl_init := 0;
     MBEDTLS_ERR_SSL_WANT_READ := - 26880;
     MBEDTLS_ERR_SSL_WANT_WRITE := - 26752;
     MBEDTLS_ERR_SSL_BAD_INPUT_DATA := - 28928;
     MBEDTLS_ERR_SSL_INTERNAL_ERROR := - 27648;
     MBEDTLS_SSL_IS_SERVER := 1;
     MBEDTLS_SSL_TRANSPORT_STREAM := 0;
     MBEDTLS_SSL_PRESET_DEFAULT := 0;
     MBEDTLS_SSL_VERSION_TLS1_2 := 771;
     mbedtls_ctr_drbg_seed := λ _ _ s, (0, s);
     mbedtls_ssl_config_defaults := λ _ _ _ s, (0, s);
     mbedtls_ssl_conf_rng := λ s, s;
     mbedtls_ssl_conf_min_tls_version := λ _ s, s;
     mbedtls_ssl_conf_max_tls_version := λ _ s, s;
     mbedtls_ssl_conf_psk := λ _ _ s, (0, s);
     mbedtls_ssl_setup := λ s, (0, s);
     mbedtls_ssl_set_bio := λ s, s;
     mbedtls_ssl_handshake := λ s,
       SslRecv 5 (λ r b, if 0 <? r
         then SslSend [22; 3; 3; 0; 1; 2] (λ x, SslRet (if x <? 0 then x else 0) [] s)
         else SslRet r [] s);
     mbedtls_ssl_read := λ cap s, SslRecv cap (λ r b, SslRet r b s) |}.

#[export] Instance plain_tls_ok : MbedtlsOk plain_tls.
Proof.
  refine {| plain_max := 0; plain_left := λ s : @ssl plain_tls, 0 |}; try done.
  - intros s. split; [done|]. intros r b Hb Hl Hr. pose proof (zlen_nonneg b).
    destruct (Z.ltb_spec 0 r).
    + split; [repeat constructor; done|]. intros x. cbn [call_ok]. destruct (Z.ltb_spec x 0); lia.
    + cbn [call_ok]. lia.
  - intros cap s Hcap. split; [done|]. intros r b Hb Hl Hr. cbn [call_ok]. pose proof (zlen_nonneg b).
    destruct (Z.ltb_spec 0 r); subst; split_and!; (done || lia).
Qed.

Definition demo_engine : @gxfp_tls_engine plain_tls :=
  {| send_fn := Some (send_tls_record_cb (E := script_env [])); rxq := zeros ENGINE_RXQ_CAP; rxq_cap := ENGINE_RXQ_CAP;
     rxq_len := 0; hs_done := 0; e_ssl := ssl_init |}.

Lemma demo_engine_ok : eng_ok (E := script_env []) demo_engine.
Proof.
  split; [done|by apply zlen_zeros|cbn; unfold ENGINE_RXQ_CAP; lia|apply bytes_ok_zeros|done].
Qed.

Lemma engine_refines_stream_witness :
  ∃ g', gxfp_tls_engine_feed_cipher_record (Some demo_engine) (Some [1; 2; 3]) 3 = Some (0, Some g') ∧
    queued g' = [1; 2; 3].
Proof.
  destruct (engine_refines_stream (E := script_env []) (EO := script_env_ok [] (Forall_nil_2 _))
    (TO := plain_tls_ok) _ _ _ demo_engine [1; 2; 3] [] demo_lworld 3 demo_dev_open demo_engine_ok
    (handshake_ok (MbedtlsOk := plain_tls_ok) (@ssl_init plain_tls))) as (_ & r & g' & Hr & _ & _ & Hres).
  - repeat constructor; unfold is_u8; lia.
  - done.
  - assert (Hq : queued demo_engine = []) by done. rewrite Hq in Hres. destruct Hres as (-> & Hg').
    exists g'. split; [exact Hr|exact Hg'].
Defined.

Lemma bio_send_records_witness :
  bio_send (T := plain_tls) (Some demo_engine) (Some [22; 3; 3; 0; 1; 2]) 6 demo_lworld
  = Some (6, calls [EvWrite 3 (user_packet GOODIX_MP_TYPE_TLS [22; 3; 3; 0; 1; 2])] demo_lworld).
Proof.
  destruct (bio_send_records (E := script_env []) (EO := script_env_ok [] (Forall_nil_2 _))
    [22; 3; 3; 0; 1; 2] demo_engine demo_lworld 3 demo_dev_open demo_engine_ok)
    as (recs & tail & x & w' & k & _ & _ & _ & _ & _ & _ & _ & Hr).
  - repeat constructor; unfold is_u8; lia.
  - done.
  - vm_compute. reflexivity.
Defined.
