(* ===== verification/UTlsSvc.v ===== *)
(** The TLS service: [userspace/src/tls/tls_service.c]. A state machine over the engine
    of [UTls]: handshake, request of an image, scan of the decrypted stream, image. *)
From Stdlib Require Import ZArith Lia.
From stdpp Require Import prelude list.
From S2P Require Import Prelude KGoodixProto KUapi UGoodixProto UWorld UDev UCommon UXfer UCmds UPlain UTls.

Open Scope Z_scope.

(** * tls_service.c *)

(** [enum gxfp_tls_hs_state] *)
Inductive gxfp_tls_hs_state :=
| GXFP_TLS_HS_INIT
| GXFP_TLS_HS_CONNECTING
| GXFP_TLS_HS_CONNECTED
| GXFP_TLS_HS_CAPTURING
| GXFP_TLS_HS_DONE
| GXFP_TLS_HS_ERROR.

#[export] Instance hs_state_eq_dec : EqDecision gxfp_tls_hs_state.
Proof. solve_decision. Defined.

Record gxfp_tls_hs_cfg := {
  timeout_ms : Z;
  manual_pending_request : Z
}.

Section service.
Context {E : Uenv} {T : Mbedtls}.

(** [dev] is the device of the world; [engine] is set once the service exists. *)
Record gxfp_tls_service_impl := {
  cfg : gxfp_tls_hs_cfg;
  hs : gxfp_tls_hs_state;
  err : Z;
  pending_capture : Z;
  capture_sent : Z;
  handshake_start_ms : Z;
  last_plain_ms : Z;
  last_tls_rx_ms : Z;
  engine : ptr gxfp_tls_engine;
  img : gxfp_plain_image_sink
}.

Definition set_hs v s : gxfp_tls_service_impl :=
  {| cfg := cfg s; hs := v; err := err s; pending_capture := pending_capture s;
     capture_sent := capture_sent s; handshake_start_ms := handshake_start_ms s;
     last_plain_ms := last_plain_ms s; last_tls_rx_ms := last_tls_rx_ms s; engine := engine s;
     img := img s |}.
(** [s->err = r; s->state = GXFP_TLS_HS_ERROR;] *)
Definition set_failed r s : gxfp_tls_service_impl :=
  {| cfg := cfg s; hs := GXFP_TLS_HS_ERROR; err := r; pending_capture := pending_capture s;
     capture_sent := capture_sent s; handshake_start_ms := handshake_start_ms s;
     last_plain_ms := last_plain_ms s; last_tls_rx_ms := last_tls_rx_ms s; engine := engine s;
     img := img s |}.
Definition set_capture pending sent s : gxfp_tls_service_impl :=
  {| cfg := cfg s; hs := hs s; err := err s; pending_capture := pending; capture_sent := sent;
     handshake_start_ms := handshake_start_ms s; last_plain_ms := last_plain_ms s;
     last_tls_rx_ms := last_tls_rx_ms s; engine := engine s; img := img s |}.
Definition set_times hs_start plain rx s : gxfp_tls_service_impl :=
  {| cfg := cfg s; hs := hs s; err := err s; pending_capture := pending_capture s;
     capture_sent := capture_sent s; handshake_start_ms := hs_start; last_plain_ms := plain;
     last_tls_rx_ms := rx; engine := engine s; img := img s |}.
Definition set_engine e s : gxfp_tls_service_impl :=
  {| cfg := cfg s; hs := hs s; err := err s; pending_capture := pending_capture s;
     capture_sent := capture_sent s; handshake_start_ms := handshake_start_ms s;
     last_plain_ms := last_plain_ms s; last_tls_rx_ms := last_tls_rx_ms s; engine := e; img := img s |}.
Definition set_img k s : gxfp_tls_service_impl :=
  {| cfg := cfg s; hs := hs s; err := err s; pending_capture := pending_capture s;
     capture_sent := capture_sent s; handshake_start_ms := handshake_start_ms s;
     last_plain_ms := last_plain_ms s; last_tls_rx_ms := last_tls_rx_ms s; engine := engine s; img := k |}.

(** The handle: a pointer to the [struct gxfp_tls_service], its [impl]. *)
Definition gxfp_tls_service : Type := ptr (ptr gxfp_tls_service_impl).

Definition svc_mark_capture_started (s : gxfp_tls_service_impl) : M lworld gxfp_tls_service_impl :=
  now ← gxfp_monotonic_ms;
  mret (set_times (handshake_start_ms s) now now (set_hs GXFP_TLS_HS_CAPTURING (set_capture 0 1 s))).

Definition svc_capture_timed_out (s : gxfp_tls_service_impl) : M lworld bool :=
  now ← gxfp_monotonic_ms;
  mret ((timeout_ms (cfg s) <? u32 (now - last_plain_ms s)) &&
        (timeout_ms (cfg s) <? u32 (now - last_tls_rx_ms s))).

Definition sink_blank : gxfp_plain_image_sink :=
  {| hdr := zeros 5; body := None; body_len := 0; have_oneframe := 0 |}.

Definition gxfp_tls_service_init (svc : gxfp_tls_service) (c : ptr gxfp_tls_hs_cfg) (psk : ptr bytes)
    (psk_len : Z) : M lworld (Z * gxfp_tls_service) :=
  null ← dev_null;
  match svc, psk with
  | Some impl, Some _ =>
    if (null : bool) || negb (psk_len =? GXFP5130_PSK_LEN) then mret (- EINVAL, svc) else
    match impl with
    | Some _ => mret (- EALREADY, svc)
    | None =>
      ok ← ucalloc_struct;
      if negb ok then mret (- ENOMEM, svc) else
      now ← gxfp_monotonic_ms;
      let cf := default {| timeout_ms := 0; manual_pending_request := 0 |} c in
      k ← lift (gxfp_plain_image_sink_reset (Some sink_blank));
      k ← lift k;
      '(r, e) ← gxfp_tls_engine_create (Some None) psk psk_len (Some send_tls_record_cb);
      if r <? 0 then mret (r, svc) else
      e ← lift e;
      gxfp_dev_set_nonblock true;;
      gxfp_dev_flush_rxq;;
      r ← gxfp_cmd_tls_server_init;
      if r <? 0 then mret (r, svc) else
      start ← gxfp_monotonic_ms;
      mret (0, Some (Some {|
        cfg := cf; hs := GXFP_TLS_HS_CONNECTING; err := 0; pending_capture := 0; capture_sent := 0;
        handshake_start_ms := start; last_plain_ms := now; last_tls_rx_ms := now;
        engine := e; img := k |}))
    end
  | _, _ => mret (- EINVAL, svc)
  end.

(** The image buffer is cleared before the service goes. *)
Definition gxfp_tls_service_free (svc : gxfp_tls_service) : option gxfp_tls_service :=
  match svc with
  | None => Some None
  | Some None => Some svc
  | Some (Some s) => _ ← gxfp_plain_image_sink_reset (Some (img s)); Some (Some None)
  end.

Definition gxfp_tls_service_feed_tap_record (svc : gxfp_tls_service) (h : gxfp_tap_hdr)
    (pl : ptr bytes) (pl_len : Z) : M lworld (Z * gxfp_tls_service) :=
  match svc with
  | Some (Some s) =>
    if th_type h =? GOODIX_MP_TYPE_TLS then
      now ← gxfp_monotonic_ms;
      let s := set_times (handshake_start_ms s) (last_plain_ms s) now s in
      '(r, e) ← lift (gxfp_tls_engine_feed_cipher_record (engine s) pl pl_len);
      let s := set_engine e s in
      if r <? 0 then mret (r, Some (Some (set_failed r s))) else
      mret (0, Some (Some s))
    else mret (0, svc)
  | _ => mret (- EINVAL, svc)
  end.

Definition gxfp_tls_service_request_capture (svc : gxfp_tls_service) : option (Z * gxfp_tls_service) :=
  match svc with
  | Some (Some s) =>
    if negb (bool_decide (hs s = GXFP_TLS_HS_CONNECTED)) && negb (bool_decide (hs s = GXFP_TLS_HS_DONE))
    then Some (- EBUSY, svc) else
    k ← gxfp_plain_image_sink_reset (Some (img s));
    k ← k;
    Some (0, Some (Some (set_hs GXFP_TLS_HS_CONNECTED (set_img k (set_capture 1 0 s)))))
  | _ => Some (- EINVAL, svc)
  end.

(** [for (;;)]: gives the code to return, or nothing when it breaks off, and whether
    it progressed. *)
Fixpoint pull_loop (fuel : nat) (st : crc_static) (s : gxfp_tls_service_impl) (progressed : bool)
    : M lworld (option Z * bool * crc_static * gxfp_tls_service_impl) :=
  match fuel with
  | O => ub
  | S fuel =>
    plain ← u_stack TLS_REC_MAX_PLAIN;
    '(r, e, plain, plain_len) ←
      gxfp_tls_engine_pull_plain (engine s) (Some plain) TLS_REC_MAX_PLAIN (Some 0);
    let s := set_engine e s in
    if r =? 1 then
      n ← lift plain_len;
      '(st, k) ← gxfp_plain_scan_for_nonpov_image_chunks st plain n (Some (img s));
      k ← lift k;
      now ← gxfp_monotonic_ms;
      let s := set_times (handshake_start_ms s) now (last_tls_rx_ms s) (set_img k s) in
      if negb (have_oneframe (img s) =? 0)
      then mret (Some 1, true, st, set_hs GXFP_TLS_HS_DONE s)
      else pull_loop fuel st s true
    else
    if r =? - EAGAIN then mret (None, progressed, st, s) else
    mret (Some r, progressed, st, set_failed r s)
  end.

Definition step_connecting (s : gxfp_tls_service_impl) : M lworld (Z * gxfp_tls_service_impl) :=
  '(r, e) ← gxfp_tls_engine_handshake_step (engine s);
  let s := set_engine e s in
  if r =? 1 then
    let s := set_hs GXFP_TLS_HS_CONNECTED s in
    mret (0, if manual_pending_request (cfg s) =? 0 then set_capture 1 (capture_sent s) s else s)
  else
  if r =? - EAGAIN then
    now ← gxfp_monotonic_ms;
    if timeout_ms (cfg s) <? u32 (now - handshake_start_ms s)
    then mret (- ETIMEDOUT, set_failed (- ETIMEDOUT) s)
    else mret (- EAGAIN, s)
  else mret (r, set_failed r s).

Definition step_capturing (fuel : nat) (st : crc_static) (s : gxfp_tls_service_impl)
    : M lworld (Z * crc_static * gxfp_tls_service_impl) :=
  '(ret, progressed, st, s) ← pull_loop fuel st s false;
  match ret with
  | Some r => mret (r, st, s)
  | None =>
    if (progressed : bool) then mret (0, st, s) else
    late ← svc_capture_timed_out s;
    if (late : bool) then mret (- ETIMEDOUT, st, set_failed (- ETIMEDOUT) s) else
    mret (- EAGAIN, st, s)
  end.

Definition gxfp_tls_service_step (fuel : nat) (st : crc_static) (svc : gxfp_tls_service)
    : M lworld (Z * crc_static * gxfp_tls_service) :=
  match svc with
  | Some (Some s) =>
    match hs s with
    | GXFP_TLS_HS_ERROR => mret (if err s =? 0 then - EIO else err s, st, svc)
    | GXFP_TLS_HS_CONNECTING =>
      '(r, s) ← step_connecting s;
      mret (r, st, Some (Some s))
    | _ =>
      '(r, s) ← (if bool_decide (hs s = GXFP_TLS_HS_CONNECTED) && negb (pending_capture s =? 0)
                    && (capture_sent s =? 0) then
                   r ← gxfp_cmd_get_image;
                   if r <? 0 then mret (r, set_failed r s) else
                   s ← svc_mark_capture_started s;
                   mret (0, s)
                 else mret (0, s));
      if r <? 0 then mret (r, st, Some (Some s)) else
      match hs s with
      | GXFP_TLS_HS_CAPTURING =>
        '(r, st, s) ← step_capturing fuel st s;
        mret (r, st, Some (Some s))
      | GXFP_TLS_HS_DONE => mret (1, st, Some (Some s))
      | _ => mret (- EAGAIN, st, Some (Some s))
      end
    end
  | _ => mret (- EINVAL, st, svc)
  end.

Definition gxfp_tls_service_get_raw_image (svc : gxfp_tls_service) (out_hdr : ptr bytes)
    (out_body : ptr (ptr bytes)) (out_body_len : ptr Z)
    : M lworld (Z * gxfp_tls_service * ptr bytes * ptr (ptr bytes) * ptr Z) :=
  match svc with
  | Some (Some s) =>
    if bool_decide (out_hdr = None) || bool_decide (out_body = None) || bool_decide (out_body_len = None)
    then mret (- EINVAL, svc, out_hdr, out_body, out_body_len) else
    if have_oneframe (img s) =? 0 then mret (0, svc, out_hdr, out_body, out_body_len) else
    '(r, k, out_hdr, out_body, out_body_len) ←
      gxfp_plain_image_sink_extract (Some (img s)) out_hdr out_body out_body_len;
    k ← lift k;
    mret (r, Some (Some (set_img k s)), out_hdr, out_body, out_body_len)
  | _ => mret (- EINVAL, svc, out_hdr, out_body, out_body_len)
  end.

Definition gxfp_tls_service_state (svc : gxfp_tls_service) : gxfp_tls_hs_state :=
  match svc with
  | Some (Some s) => hs s
  | _ => GXFP_TLS_HS_INIT
  end.

Definition gxfp_tls_service_error (svc : gxfp_tls_service) : Z :=
  match svc with
  | Some (Some s) => err s
  | _ => - EINVAL
  end.
End service.


(** * Lemmas *)

Section service_rules.
Context {E : Uenv} {EO : UenvOk E} {T : Mbedtls} {TO : MbedtlsOk T}.

(** The packets of the service: TLS records and its two commands. *)
Definition svc_packet (p : bytes) : Prop :=
  tls_packet p ∨
  p ∈ [user_packet GOODIX_MP_TYPE_CMD (goodix_frame GXFP_CMD_TLS_SERVER_INIT [0; 0]);
       user_packet GOODIX_MP_TYPE_CMD (goodix_frame GXFP_CMD_GET_IMAGE [1; 0])].

Lemma wrote_tls w w' : wrote tls_packet w w' → wrote svc_packet w w'.
Proof using Type. apply wrote_mono. by left. Qed.

(** A frame of the plaintext that carries an image. *)
Definition image_frame (c : Z) (pl : bytes) : Prop :=
  is_image c pl = true ∧ bytes_ok pl ∧ zlen pl < 65536.

(** A sink of a service: empty, or with an image that was checked. *)
Definition sink_inv (k : gxfp_plain_image_sink) : Prop :=
  (zlen (hdr k) = 5 ∧ body k = None ∧ body_len k = 0 ∧ have_oneframe k = 0) ∨
  ∃ c pl, image_frame c pl ∧ k = captured pl.

Lemma sink_inv_ok k : sink_inv k → sink_ok k.
Proof using Type. intros [(H & _)|(c & pl & _ & ->)]; [by right|by left]. Qed.

Lemma sink_blank_inv : sink_inv sink_blank.
Proof using Type. left. done. Qed.

Lemma image_long c pl : image_frame c pl → 5 < zlen pl.
Proof using Type.
  unfold image_frame, is_image, image_okb. rewrite !andb_true_iff, !Z.leb_le. intros ((((_ & H5) & _) & (H4 & _)) & _).
  rewrite zlen_zdrop in H4 by lia. lia.
Qed.

Lemma sink_reset_run k : sink_inv k → gxfp_plain_image_sink_reset (Some k) = Some (Some sink_blank).
Proof using Type.
  intros [(Hh & Hb & Hl & _)|(c & pl & Hi & ->)]; unfold gxfp_plain_image_sink_reset.
  - rewrite Hb. cbn [mbind option_bind]. by rewrite (memset0_full (hdr k) 5) by done.
  - pose proof (image_long c pl Hi). cbn [captured body body_len hdr].
    rewrite (proj2 (Z.eqb_neq _ _)), (memset0_full (zdrop 5 pl)) by (rewrite ?zlen_zdrop; lia).
    cbn [mbind option_bind]. by rewrite (memset0_full (ztake 5 pl) 5) by (apply zlen_ztake; lia).
Qed.

(** A service between calls. *)
Record svc_inv (s : gxfp_tls_service_impl) : Prop := {
  si_engine : ∃ g, engine s = Some g ∧ eng_ok g;
  si_sink : sink_inv (img s);
  si_state : hs s ≠ GXFP_TLS_HS_INIT;
  si_err : hs s = GXFP_TLS_HS_ERROR → err s < 0;
  si_capturing : hs s = GXFP_TLS_HS_CAPTURING → capture_sent s = 1 ∧ pending_capture s = 0
}.

(** The handle of a caller: the service is there, or not yet, or no more. *)
Definition handle_inv (svc : gxfp_tls_service) : Prop :=
  svc = Some None ∨ ∃ s, svc = Some (Some s) ∧ svc_inv s.

Lemma svc_inv_times a b c s : svc_inv s → svc_inv (set_times a b c s).
Proof using Type. by intros []. Qed.

Lemma svc_inv_failed r s : r < 0 → svc_inv s → svc_inv (set_failed r s).
Proof using Type. intros Hr []. by split. Qed.

Lemma svc_inv_engine g s : eng_ok g → svc_inv s → svc_inv (set_engine (Some g) s).
Proof using Type. intros Hg []. split; try done. by exists g. Qed.

Lemma svc_inv_img k s : sink_inv k → svc_inv s → svc_inv (set_img k s).
Proof using Type. intros Hk []. by split. Qed.

Lemma svc_inv_connected s : svc_inv s → svc_inv (set_hs GXFP_TLS_HS_CONNECTED s).
Proof using Type. intros []. by split. Qed.

Lemma svc_inv_done s : svc_inv s → svc_inv (set_hs GXFP_TLS_HS_DONE s).
Proof using Type. intros []. by split. Qed.

Lemma svc_inv_capture p c s : hs s ≠ GXFP_TLS_HS_CAPTURING → svc_inv s → svc_inv (set_capture p c s).
Proof using Type. intros H []. by split. Qed.

(** ** Commands without an answer *)

Lemma async_wrote (P : bytes → Prop) c pl w fd :
  dev_open w fd → is_u8 c → zlen pl <= GOODIX_PAYLOAD_MAX →
  P (user_packet GOODIX_MP_TYPE_CMD (goodix_frame c pl)) →
  wp (gxfp_goodix_send_async c (Some pl) (zlen pl)) (λ r w', r <= 0 ∧ wrote P w w') w.
Proof using EO.
  intros Hd Hc Hl HP. rewrite <- (app_nil_r pl) at 1.
  eapply wp_run; [by apply (send_async_run c pl [] w fd)|]. cbv zeta.
  destruct (_ <? zlen pl + 4). { split; [done|apply wrote_refl]. }
  destruct (l_oom w) as [|[] oom]; cbn [fst snd].
  2: { split; [done|apply wrote_pop]. }
  all: split; [repeat case_match; unfold EIO; lia|by apply wrote_one].
Qed.

Lemma server_init_wp w fd :
  dev_open w fd → wp gxfp_cmd_tls_server_init (λ r w', r <= 0 ∧ wrote svc_packet w w') w.
Proof using EO.
  intros Hd. unfold gxfp_cmd_tls_server_init. apply wp_bind.
  eapply wp_eq; [by apply (dev_null_run w fd)|]. cbv iota.
  apply (async_wrote _ _ [0; 0] w fd); [done|done|done|]. right. apply list_elem_of_here.
Qed.

Lemma get_image_wp w fd :
  dev_open w fd → wp gxfp_cmd_get_image (λ r w', r <= 0 ∧ wrote svc_packet w w') w.
Proof using EO.
  intros Hd. unfold gxfp_cmd_get_image. apply wp_bind.
  eapply wp_eq; [by apply (dev_null_run w fd)|]. cbv iota.
  apply (async_wrote _ _ [1; 0] w fd); [done|done|done|]. right. set_solver.
Qed.

(** ** The capture loop *)

Lemma scan_chunk_wp st b n k w :
  static_ok st → sink_inv k → bytes_ok b → n <= zlen b → zlen b < 65536 →
  wp (gxfp_plain_scan_for_nonpov_image_chunks st (Some b) n (Some k))
     (λ '(st', k') w', static_ok st' ∧ waits w w' ∧ ∃ k1, k' = Some k1 ∧ sink_inv k1) w.
Proof using EO.
  intros Hst Hk Hb Hn Hmax. unfold gxfp_plain_scan_for_nonpov_image_chunks.
  destruct (n <? 8). { apply wp_ret. split; [done|]. split; [done|by exists k]. }
  eapply wp_mono; [apply (scan_any (S (Z.to_nat n)) st b n 0 k w Hst (sink_inv_ok k Hk) Hb); lia|].
  intros [st' k'] w' (Hst' & Hw & Hs). split; [done|]. split; [done|].
  destruct Hs as [->|(_ & c & pl & ck & pre & post & -> & Hi & Hin)]; [by exists k|].
  exists (captured pl). split; [done|]. right. exists c, pl. split; [|done].
  assert (Hz : zlen (ztake n b) <= zlen b) by (unfold zlen, ztake; rewrite length_take; lia).
  assert (Hzb : bytes_ok (ztake n b)) by by apply bytes_ok_ztake.
  rewrite Hin in Hz, Hzb. unfold goodix_body in Hz, Hzb. rewrite !zlen_app, !zlen_cons, zlen_app in Hz.
  rewrite !bytes_ok_app, !bytes_ok_cons, bytes_ok_app in Hzb.
  pose proof (zlen_nonneg pre). pose proof (zlen_nonneg post). pose proof (zlen_nonneg [ck]).
  split_and!; [done|apply Hzb|lia].
Qed.

(** An image was captured: the sink holds a checked one. *)
Definition has_image (s : gxfp_tls_service_impl) : Prop :=
  ∃ c pl, image_frame c pl ∧ img s = captured pl.

Lemma sink_full s : svc_inv s → have_oneframe (img s) ≠ 0 → has_image s.
Proof using Type.
  intros Hs Hf. destruct (si_sink s Hs) as [(_ & _ & _ & ?)|(c & pl & Hi & He)]; [done|by exists c, pl].
Qed.

(** What a call that stops with [r] leaves: an image, or the error. *)
Definition stopped (r : Z) (s : gxfp_tls_service_impl) : Prop :=
  r = 1 ∧ hs s = GXFP_TLS_HS_DONE ∧ has_image s ∨
  r < 0 ∧ hs s = GXFP_TLS_HS_ERROR ∧ err s = r ∧ r ≠ - EAGAIN.

Definition same_times (s s' : gxfp_tls_service_impl) : Prop :=
  cfg s' = cfg s ∧ handshake_start_ms s' = handshake_start_ms s ∧ last_tls_rx_ms s' = last_tls_rx_ms s.

Lemma pull_loop_wp fuel st s g p w fd :
  dev_open w fd → static_ok st → svc_inv s → hs s = GXFP_TLS_HS_CAPTURING → engine s = Some g →
  (Z.to_nat (plain_bound g) < fuel)%nat →
  wp (pull_loop fuel st s p)
     (λ '(ret, p', st', s') w', static_ok st' ∧ wrote svc_packet w w' ∧ svc_inv s' ∧ same_times s s' ∧
        match ret with
        | Some r => stopped r s'
        | None => hs s' = GXFP_TLS_HS_CAPTURING ∧
                  (p' = false → p = false ∧ last_plain_ms s' = last_plain_ms s)
        end) w.
Proof using EO TO.
  intros Hd. revert st s g p w Hd. induction fuel as [|fuel IH]; intros st s g p w Hd Hst Hs Hh Hg Hf; [lia|].
  cbn [pull_loop]. apply wp_bind. unfold u_stack. apply wp_gets.
  assert (Hgok : eng_ok g) by (destruct (si_engine s Hs) as (g0 & E0 & ?); congruence).
  rewrite Hg. apply wp_bind.
  eapply wp_mono; [apply (pull_plain_wp g _ w fd Hd Hgok); [by apply u_uninit_len|apply u_uninit_bytes]|].
  intros [[[r e] o] n] w1 (g1 & o1 & n1 & -> & -> & -> & Hg1 & Hw1 & Hob & Hol & Hn1 & Hr).
  apply wrote_tls in Hw1. assert (Hd1 : dev_open w1 fd) by by eapply wrote_open.
  pose proof (svc_inv_engine g1 s Hg1 Hs) as Hs1. cbv zeta.
  destruct (Z.eqb_spec r 1) as [->|Hr1].
  - destruct Hr as [(_ & Hpb)|?]; [|lia]. pose proof (plain_bound_nonneg g1 Hg1).
    apply wp_bind. eapply wp_lift; [done|]. apply wp_bind. cbn [img set_engine].
    eapply wp_mono; [apply (scan_chunk_wp st o1 n1 (img s) w1 Hst (si_sink s Hs) Hob); unfold TLS_REC_MAX_PLAIN in *; lia|].
    intros [st2 k2] w2 (Hst2 & Hw2 & k & -> & Hk). apply wp_bind. eapply wp_lift; [done|].
    apply wp_bind, wp_monotonic. set (w3 := calls _ w2).
    assert (Hw3 : wrote svc_packet w w3).
    { eapply wrote_trans; [exact Hw1|]. eapply wrote_trans; [by apply wrote_waits|]. by apply wrote_calls. }
    set (s2 := set_times _ _ _ _). assert (Hs2 : svc_inv s2) by by apply svc_inv_times, svc_inv_img.
    destruct (Z.eqb_spec (have_oneframe (img s2)) 0); cbn [negb].
    + eapply wp_mono; [apply (IH st2 s2 g1 true w3); [exact (wrote_open _ _ _ _ Hd Hw3)|done|done|done|done|lia]|].
      intros [[[ret p'] st'] s'] w' (H1 & H2 & H3 & H4 & H5). split; [done|].
      split; [exact (wrote_trans _ _ _ _ Hw3 H2)|]. split; [done|]. split; [done|]. destruct ret as [x|]; [done|]. destruct H5 as (H5 & H6). split; [done|].
      intros Hp. by destruct (H6 Hp).
    + apply wp_ret. split; [done|]. split; [done|]. split; [by apply svc_inv_done|]. split; [done|].
      left. split; [done|]. split; [done|]. by apply (sink_full s2).
  - destruct Hr as [(? & _)|Hneg]; [done|]. destruct (Z.eqb_spec r (- EAGAIN)); apply wp_ret.
    + by split_and!.
    + split; [done|]. split; [done|]. split; [by apply svc_inv_failed|]. split; [done|]. by right.
Qed.

(** ** The state machine *)

(** A call into the service. *)
Inductive svc_op :=
| SvcInit (c : ptr gxfp_tls_hs_cfg) (psk : bytes)
| SvcStep
| SvcFeed (h : gxfp_tap_hdr) (b : bytes) (n : Z)
| SvcRequest
| SvcImage (out_hdr : bytes)
| SvcFree.

(** The states a call can leave. *)
Definition next_states (op : svc_op) (st : gxfp_tls_hs_state) : list gxfp_tls_hs_state :=
  match op, st with
  | SvcInit _ _, GXFP_TLS_HS_INIT => [GXFP_TLS_HS_INIT; GXFP_TLS_HS_CONNECTING]
  | SvcStep, GXFP_TLS_HS_CONNECTING => [GXFP_TLS_HS_CONNECTING; GXFP_TLS_HS_CONNECTED; GXFP_TLS_HS_ERROR]
  | SvcStep, GXFP_TLS_HS_CONNECTED =>
    [GXFP_TLS_HS_CONNECTED; GXFP_TLS_HS_CAPTURING; GXFP_TLS_HS_DONE; GXFP_TLS_HS_ERROR]
  | SvcStep, GXFP_TLS_HS_CAPTURING => [GXFP_TLS_HS_CAPTURING; GXFP_TLS_HS_DONE; GXFP_TLS_HS_ERROR]
  | SvcFeed _ _ _, GXFP_TLS_HS_INIT => [GXFP_TLS_HS_INIT]
  | SvcFeed _ _ _, st => [st; GXFP_TLS_HS_ERROR]
  | SvcRequest, GXFP_TLS_HS_CONNECTED | SvcRequest, GXFP_TLS_HS_DONE => [GXFP_TLS_HS_CONNECTED]
  | SvcFree, _ => [GXFP_TLS_HS_INIT]
  | _, st => [st]
  end.

(** What the result of a step says. *)
Definition step_result (r : Z) (s' : gxfp_tls_service_impl) : Prop :=
  r = 1 ∧ hs s' = GXFP_TLS_HS_DONE ∨
  r = 0 ∧ hs s' ∈ [GXFP_TLS_HS_CONNECTED; GXFP_TLS_HS_CAPTURING] ∨
  r = - EAGAIN ∧ hs s' ∈ [GXFP_TLS_HS_CONNECTING; GXFP_TLS_HS_CONNECTED; GXFP_TLS_HS_CAPTURING] ∨
  r < 0 ∧ hs s' = GXFP_TLS_HS_ERROR ∧ err s' = r.

(** Calls were made. *)
Definition later (w w' : lworld) : Prop := ∃ evs, evs ≠ [] ∧ l_trace w' = l_trace w ++ evs.

Lemma later_call P e w w1 : wrote P w w1 → later w (calls [e] w1).
Proof using Type.
  intros ((_ & _ & evs & Ee) & _). exists (evs ++ [e]). split; [by destruct evs|].
  cbn [calls l_trace]. by rewrite Ee, app_assoc.
Qed.

Lemma step_connecting_wp s w fd :
  dev_open w fd → svc_inv s → hs s = GXFP_TLS_HS_CONNECTING →
  wp (step_connecting s)
     (λ '(r, s') w', wrote svc_packet w w' ∧ svc_inv s' ∧ cfg s' = cfg s ∧
        (r = 0 ∧ hs s' = GXFP_TLS_HS_CONNECTED ∨
         r < 0 ∧ hs s' = GXFP_TLS_HS_ERROR ∧ err s' = r ∧ r ≠ - EAGAIN ∨
         r = - EAGAIN ∧ hs s' = GXFP_TLS_HS_CONNECTING ∧ handshake_start_ms s' = handshake_start_ms s ∧
         u32 (ms_at (l_trace w') - handshake_start_ms s) <= timeout_ms (cfg s) ∧ later w w')) w.
Proof using EO TO.
  intros Hd Hs Hh. unfold step_connecting. destruct (si_engine s Hs) as (g & Hg & Hgok). rewrite Hg.
  apply wp_bind. eapply wp_mono; [by apply (handshake_step_wp g w fd)|].
  intros [r e] w1 (g1 & -> & Hg1 & Hw1 & Hr & _). apply wrote_tls in Hw1.
  pose proof (svc_inv_engine g1 s Hg1 Hs) as Hs1. cbv zeta. destruct (Z.eqb_spec r 1) as [->|Hr1].
  { apply wp_ret. split; [done|]. pose proof (svc_inv_connected _ Hs1) as Hs2.
    destruct (manual_pending_request _ =? 0); (split; [|split; [done|by left]]); [|done].
    by apply svc_inv_capture. }
  destruct Hr as [?|Hneg]; [done|]. destruct (Z.eqb_spec r (- EAGAIN)).
  2: { apply wp_ret. split; [done|]. split; [by apply svc_inv_failed|]. split; [done|]. right. by left. }
  apply wp_bind, wp_monotonic. set (w2 := calls _ w1).
  assert (Hw2 : wrote svc_packet w w2) by (eapply wrote_trans; [exact Hw1|by apply wrote_calls]).
  destruct (Z.ltb_spec (timeout_ms (cfg s)) (u32 (ms_at (l_trace w1 ++ [EvClock CLOCK_MONOTONIC]) - handshake_start_ms s))) as [Hl|Hl];
    cbn [set_engine cfg handshake_start_ms]; [rewrite (proj2 (Z.ltb_lt _ _) Hl)|rewrite (proj2 (Z.ltb_ge _ _) Hl)];
    apply wp_ret; (split; [done|]).
  - split; [by apply svc_inv_failed|]. split; [done|]. right. by left.
  - split; [done|]. split; [done|]. right. right. do 4 (split; [done|]).
    by eapply later_call.
Qed.

Lemma step_capturing_wp fuel st s g w fd :
  dev_open w fd → static_ok st → svc_inv s → hs s = GXFP_TLS_HS_CAPTURING → engine s = Some g →
  (Z.to_nat (plain_bound g) < fuel)%nat →
  wp (step_capturing fuel st s)
     (λ '(r, st', s') w', static_ok st' ∧ wrote svc_packet w w' ∧ svc_inv s' ∧ same_times s s' ∧
        (stopped r s' ∨ r = 0 ∧ hs s' = GXFP_TLS_HS_CAPTURING ∨
         r = - EAGAIN ∧ hs s' = GXFP_TLS_HS_CAPTURING ∧ last_plain_ms s' = last_plain_ms s ∧
         (u32 (ms_at (l_trace w') - last_plain_ms s) <= timeout_ms (cfg s) ∨
          u32 (ms_at (l_trace w') - last_tls_rx_ms s) <= timeout_ms (cfg s)) ∧ later w w')) w.
Proof using EO TO.
  intros Hd Hst Hs Hh Hg Hf. unfold step_capturing. apply wp_bind.
  eapply wp_mono; [by apply (pull_loop_wp fuel st s g false w fd)|].
  intros [[[ret p] st1] s1] w1 (Hst1 & Hw1 & Hs1 & Ht & Hres). destruct ret as [r|].
  { apply wp_ret. split; [done|]. split; [done|]. split; [done|]. split; [done|]. by left. }
  destruct Hres as (Hh1 & Hp). destruct p.
  { apply wp_ret. split; [done|]. split; [done|]. split; [done|]. split; [done|]. right. by left. }
  destruct (Hp eq_refl) as (_ & Hpl). destruct Ht as (Hc & Hhs & Hrx).
  apply wp_bind. unfold svc_capture_timed_out. apply wp_bind, wp_monotonic, wp_ret. set (w2 := calls _ w1).
  assert (Hw2 : wrote svc_packet w w2) by (eapply wrote_trans; [exact Hw1|by apply wrote_calls]).
  set (now := ms_at _). destruct ((_ <? _) && _) eqn:Elate; apply wp_ret; (split; [done|]); (split; [done|]).
  - split; [by apply svc_inv_failed|]. split; [done|]. left. by right.
  - split; [done|]. split; [done|]. right. right. split; [done|]. split; [done|]. split; [done|].
    split; [|by eapply later_call]. change (ms_at (l_trace w2)) with now. rewrite Hc, Hpl, Hrx in Elate.
    apply andb_false_iff in Elate. rewrite !Z.ltb_ge in Elate. destruct Elate; [by left|by right].
Qed.

(** A whole step. *)
Lemma step_wp fuel st s w fd :
  dev_open w fd → static_ok st → svc_inv s → (pull_fuel <= fuel)%nat →
  wp (gxfp_tls_service_step fuel st (Some (Some s)))
     (λ '(r, st', svc') w', static_ok st' ∧ wrote svc_packet w w' ∧
        ∃ s', svc' = Some (Some s') ∧ svc_inv s' ∧ cfg s' = cfg s ∧ hs s' ∈ next_states SvcStep (hs s) ∧
          step_result r s' ∧ (hs s' = GXFP_TLS_HS_DONE → hs s ≠ GXFP_TLS_HS_DONE → has_image s')) w.
Proof using EO TO.
  intros Hd Hst Hs Hf. unfold gxfp_tls_service_step.
  assert (Hcap : ∀ s1 w1, hs s1 = GXFP_TLS_HS_CAPTURING → svc_inv s1 → cfg s1 = cfg s → wrote svc_packet w w1 →
    (∀ x, x ∈ [GXFP_TLS_HS_CAPTURING; GXFP_TLS_HS_DONE; GXFP_TLS_HS_ERROR] → x ∈ next_states SvcStep (hs s)) →
    wp ('(r, st, s) ← step_capturing fuel st s1; mret (r, st, Some (Some s)))
     (λ '(r, st', svc') w', static_ok st' ∧ wrote svc_packet w w' ∧
        ∃ s', svc' = Some (Some s') ∧ svc_inv s' ∧ cfg s' = cfg s ∧ hs s' ∈ next_states SvcStep (hs s) ∧
          step_result r s' ∧ (hs s' = GXFP_TLS_HS_DONE → hs s ≠ GXFP_TLS_HS_DONE → has_image s')) w1).
  { intros s1 w1 Hh1 Hs1 Hc1 Hw1 Hold. destruct (si_engine s1 Hs1) as (g & Hg & Hgok). apply wp_bind.
    pose proof (pull_fuel_enough g Hgok).
    eapply wp_mono; [apply (step_capturing_wp fuel st s1 g w1 fd); [by eapply wrote_open|done|done|done|done|lia]|].
    intros [[r st2] s2] w2 (Hst2 & Hw2 & Hs2 & (Hc2 & _) & Hres). apply wp_ret.
    split; [done|]. split; [exact (wrote_trans _ _ _ _ Hw1 Hw2)|].
    exists s2. split; [done|]. split; [done|]. split; [by rewrite Hc2|].
    unfold step_result.
    destruct Hres as [[(-> & Hh2 & Hi)|(Hr & Hh2 & He & _)]|[(-> & Hh2)|(-> & Hh2 & _)]]; rewrite Hh2;
      (split; [apply Hold; set_solver|]; split; [|done]).
    - by left.
    - right. right. by right.
    - right. left. split; [done|set_solver].
    - right. right. left. split; [done|set_solver]. }
  destruct (hs s) eqn:Hh.
  - by destruct (si_state s Hs).
  - apply wp_bind. eapply wp_mono; [by apply (step_connecting_wp s w fd)|].
    intros [r s1] w1 (Hw1 & Hs1 & Hc1 & Hres). apply wp_ret. split; [done|]. split; [done|].
    exists s1. split; [done|]. split; [done|]. split; [done|]. unfold step_result, next_states.
    destruct Hres as [(-> & Hh1)|[(Hr & Hh1 & He & _)|(-> & Hh1 & _)]]; rewrite Hh1; (split; [set_solver|]; split; [|done]).
    + right. left. split; [done|set_solver].
    + right. right. by right.
    + right. right. left. split; [done|set_solver].
  - rewrite bool_decide_eq_true_2 by done. cbn [andb].
    destruct (negb (pending_capture s =? 0) && (capture_sent s =? 0)).
    + apply wp_bind, wp_bind. eapply wp_mono; [by apply (get_image_wp w fd)|]. intros r w1 (Hr & Hw1).
      destruct (Z.ltb_spec r 0) as [Hneg|].
      { apply wp_ret. rewrite (proj2 (Z.ltb_lt r 0)) by done. apply wp_ret. split; [done|]. split; [done|].
        eexists. split; [done|]. split; [by apply svc_inv_failed|]. split; [done|]. cbn [set_failed hs].
        split; [set_solver|]. split; [|done]. right. right. by right. }
      apply wp_bind. unfold svc_mark_capture_started. apply wp_bind, wp_monotonic, wp_ret. apply wp_ret.
      change (0 <? 0) with false. cbn [set_times set_hs set_capture hs]. cbv iota. apply Hcap; try done.
      * destruct Hs. by split.
      * eapply wrote_trans; [exact Hw1|by apply wrote_calls].
      * set_solver.
    + apply wp_bind, wp_ret. change (0 <? 0) with false. cbv iota. rewrite Hh. apply wp_ret.
      split; [done|]. split; [apply wrote_refl|]. exists s. do 3 (split; [done|]). rewrite Hh.
      split; [set_solver|]. split; [|done]. right. right. left. rewrite Hh. split; [done|set_solver].
  - rewrite bool_decide_eq_false_2 by done. cbn [andb]. apply wp_bind, wp_ret. change (0 <? 0) with false.
    cbv iota. rewrite Hh. apply Hcap; try done. apply wrote_refl.
  - rewrite bool_decide_eq_false_2 by done. cbn [andb]. apply wp_bind, wp_ret. change (0 <? 0) with false.
    cbv iota. rewrite Hh. apply wp_ret. split; [done|]. split; [apply wrote_refl|].
    exists s. do 3 (split; [done|]). rewrite Hh. split; [set_solver|]. split; [by left|done].
  - apply wp_ret. split; [done|]. split; [apply wrote_refl|]. exists s. do 3 (split; [done|]). rewrite Hh.
    split; [set_solver|]. split; [|done]. right. right. right. pose proof (si_err s Hs Hh).
    by rewrite (proj2 (Z.eqb_neq _ _)) by lia.
Qed.

(** ** The other calls *)

Lemma set_nonblock_run b w fd : dev_open w fd → wp (gxfp_dev_set_nonblock b) (λ _ w', waits w w') w.
Proof using Type.
  intros Hd. unfold gxfp_dev_set_nonblock. apply wp_bind. eapply wp_eq; [by apply (dev_closed_run w fd)|].
  cbv iota. apply wp_bind. eapply wp_eq; [by apply (dev_fd_run w fd)|]. apply wp_bind, wp_syscall.
  set (w1 := calls _ w). assert (Hw1 : waits w w1) by by apply waits_calls.
  destruct (_ <? 0); [by apply wp_ret|]. cbv zeta. apply wp_bind, wp_syscall.
  assert (Hw2 : ∀ e, writes [e] = [] → waits w (calls [e] w1)) by (intros; rewrite Hw1; by apply waits_calls).
  destruct (negb _); apply wp_ret; by apply Hw2.
Qed.

Lemma service_init_wp c psk w fd :
  dev_open w fd → GXFP5130_PSK_LEN <= zlen psk →
  wp (gxfp_tls_service_init (Some None) c (Some psk) GXFP5130_PSK_LEN)
     (λ '(r, svc') w', wrote svc_packet w w' ∧
        (r < 0 ∧ svc' = Some None ∨
         r = 0 ∧ ∃ s, svc' = Some (Some s) ∧ svc_inv s ∧ hs s = GXFP_TLS_HS_CONNECTING ∧
           cfg s = default {| timeout_ms := 0; manual_pending_request := 0 |} c)) w.
Proof using EO.
  intros Hd Hl. unfold gxfp_tls_service_init. apply wp_bind.
  eapply wp_eq; [by apply (dev_null_run w fd)|]. rewrite Z.eqb_refl. cbn [negb orb].
  apply wp_bind, calloc_struct_wp. intros [|]; cbn [negb].
  2: { apply wp_ret. split; [apply wrote_pop|by left]. }
  apply wp_bind, wp_monotonic. set (w1 := calls _ _). cbv zeta.
  assert (Hw1 : wrote svc_packet w w1) by (eapply wrote_trans; [apply wrote_pop|by apply wrote_calls]).
  apply wp_bind. eapply wp_lift; [apply sink_reset_run, sink_blank_inv|]. apply wp_bind. eapply wp_lift; [done|].
  apply wp_bind. eapply wp_mono; [by apply engine_create_wp|].
  intros [r e] w2 (Hw & Hres). assert (Hw2 : wrote svc_packet w w2) by (eapply wrote_trans; [exact Hw1|by apply wrote_waits]).
  destruct Hres as [Hneg|(-> & g & -> & Hg)].
  { rewrite (proj2 (Z.ltb_lt r 0)) by done. apply wp_ret. split; [done|by left]. }
  change (0 <? 0) with false. cbv iota. apply wp_bind. eapply wp_lift; [done|].
  assert (Hd2 : dev_open w2 fd) by by eapply wrote_open.
  apply wp_bind. eapply wp_mono; [by apply (set_nonblock_run true w2 fd)|]. intros ? w3 Hw3.
  assert (Hd3 : dev_open w3 fd) by (eapply dev_open_extends; [exact Hd2|apply Hw3]).
  apply wp_bind. eapply wp_mono; [by apply (flush_rxq_run w3 fd)|]. intros ? w4 Hw4. cbn beta in *.
  assert (Hw24 : wrote svc_packet w w4) by (eapply wrote_trans; [exact Hw2|apply wrote_waits; by rewrite Hw3]).
  apply wp_bind. eapply wp_mono; [apply (server_init_wp w4 fd); exact (wrote_open _ _ _ _ Hd Hw24)|]. intros r w5 (Hr & Hw5).
  assert (Hw05 : wrote svc_packet w w5) by exact (wrote_trans _ _ _ _ Hw24 Hw5).
  destruct (Z.ltb_spec r 0); [by apply wp_ret; split; [|left]|].
  apply wp_bind, wp_monotonic, wp_ret. split; [eapply wrote_trans; [exact Hw05|by apply wrote_calls]|].
  right. split; [done|]. eexists. split; [done|]. split; [|done].
  split; cbn [engine img hs err]; try done; [by exists g|apply sink_blank_inv].
Qed.

(** A handle with a service already: nothing happens. *)
Lemma service_init_again c psk s w fd :
  dev_open w fd →
  gxfp_tls_service_init (Some (Some s)) c (Some psk) GXFP5130_PSK_LEN w = Some ((- EALREADY, Some (Some s)), w).
Proof using Type.
  intros Hd. unfold gxfp_tls_service_init. by rewrite (run_bind _ _ _ _ _ (dev_null_run w fd Hd)).
Qed.

Lemma feed_tap_wp h b n s w :
  svc_inv s → bytes_ok b → 0 <= n <= zlen b →
  wp (gxfp_tls_service_feed_tap_record (Some (Some s)) h (Some b) n)
     (λ '(r, svc') w', waits w w' ∧ ∃ s', svc' = Some (Some s') ∧ svc_inv s' ∧
        (cfg s' = cfg s ∧ img s' = img s) ∧ (r = 0 ∧ hs s' = hs s ∨ r < 0 ∧ hs s' = GXFP_TLS_HS_ERROR ∧ err s' = r)) w.
Proof using EO.
  intros Hs Hb Hn. unfold gxfp_tls_service_feed_tap_record.
  destruct (th_type h =? _); [|apply wp_ret; split; [done|]; exists s; split_and!; auto].
  apply wp_bind, wp_monotonic. cbv zeta. set (s1 := set_times _ _ _ s).
  assert (Hs1 : svc_inv s1) by by apply svc_inv_times.
  destruct (si_engine s1 Hs1) as (g & Eg & Hg).
  assert (Hf : ∃ r g', gxfp_tls_engine_feed_cipher_record (engine s1) (Some b) n = Some (r, Some g') ∧
    eng_ok g' ∧ (r = 0 ∨ r < 0)).
  { rewrite Eg. destruct (Z.eq_dec n 0) as [->|].
    { exists (- EINVAL), g. by split_and!; [|done|right]. }
    destruct (feed_cipher_run g (ztake n b) (zdrop n b) Hg) as (r & g' & Hr & Hg' & _ & Hres).
    - by apply bytes_ok_ztake.
    - intros Hz. apply (f_equal zlen) in Hz. rewrite zlen_ztake, zlen_nil in Hz by lia. lia.
    - exists r, g'. rewrite ztake_zdrop, (zlen_ztake n b) in Hr by lia. split; [exact Hr|]. split; [done|].
      destruct (_ <? _); [right|left]; destruct Hres as (-> & _); done. }
  destruct Hf as (r & g' & -> & Hg' & Hr). apply wp_bind. eapply wp_lift; [done|].
  pose proof (svc_inv_engine g' s1 Hg' Hs1) as Hs2.
  cbv beta iota zeta. destruct (r <? 0) eqn:Elt; apply wp_ret; (split; [by apply waits_calls|]); eexists; (split; [done|]).
  - apply Z.ltb_lt in Elt. split; [by apply svc_inv_failed|]. split; [done|]. by right.
  - apply Z.ltb_ge in Elt. destruct Hr as [->|]; [|lia]. split; [done|]. split; [done|]. by left.
Qed.

Lemma request_capture_run s :
  svc_inv s →
  ∃ r s', gxfp_tls_service_request_capture (Some (Some s)) = Some (r, Some (Some s')) ∧ svc_inv s' ∧
    cfg s' = cfg s ∧
    (r = 0 ∧ (hs s ∈ [GXFP_TLS_HS_CONNECTED; GXFP_TLS_HS_DONE]) ∧ hs s' = GXFP_TLS_HS_CONNECTED ∧
       pending_capture s' = 1 ∧ capture_sent s' = 0 ∧ img s' = sink_blank ∨
     r = - EBUSY ∧ (hs s ∉ [GXFP_TLS_HS_CONNECTED; GXFP_TLS_HS_DONE]) ∧ s' = s).
Proof using EO.
  intros Hs. unfold gxfp_tls_service_request_capture.
  destruct (negb (bool_decide (hs s = _)) && negb (bool_decide (hs s = _))) eqn:Eb.
  - exists (- EBUSY), s. do 3 (split; [done|]). right. split; [done|]. split; [|done].
    rewrite andb_true_iff, !negb_true_iff, !bool_decide_eq_false in Eb. destruct Eb. set_solver.
  - rewrite (sink_reset_run (img s) (si_sink s Hs)). cbn [mbind option_bind].
    eexists 0, _. split; [done|].
    assert (Hin : hs s ∈ [GXFP_TLS_HS_CONNECTED; GXFP_TLS_HS_DONE]).
    { apply andb_false_iff in Eb. rewrite !negb_false_iff, !bool_decide_eq_true in Eb. set_solver. }
    assert (Hs1 : svc_inv (set_capture 1 0 s)).
    { apply svc_inv_capture; [|done]. intros Hc. rewrite Hc in Hin. set_solver. }
    split; [by apply svc_inv_connected, svc_inv_img; [apply sink_blank_inv|]|]. split; [done|]. left. done.
Qed.

(** Taking the image. *)
Lemma raw_image_wp h s w :
  svc_inv s → zlen h = 5 →
  wp (gxfp_tls_service_get_raw_image (Some (Some s)) (Some h) (Some None) (Some 0))
     (λ '(r, svc', h', body', len') w', waits w w' ∧ (l_oom w = [] → l_oom w' = []) ∧
        ∃ s', svc' = Some (Some s') ∧ svc_inv s' ∧ cfg s' = cfg s ∧ hs s' = hs s ∧
        (r = 0 ∧ s' = s ∧ ¬ has_image s ∨ r = - ENOMEM ∧ s' = s ∧ has_image s ∧ l_oom w ≠ [] ∨
         r = 1 ∧ ∃ c pl, image_frame c pl ∧ img s = captured pl ∧ h' = Some (ztake 5 pl) ∧
           body' = Some (Some (zdrop 5 pl)) ∧ len' = Some (zlen pl - 5) ∧ ¬ has_image s')) w.
Proof using EO.
  intros Hs Hh. unfold gxfp_tls_service_get_raw_image. rewrite !bool_decide_eq_false_2 by done. cbn [orb].
  assert (Hno : ∀ s0, have_oneframe (img s0) = 0 → ¬ has_image s0).
  { intros s0 H0 (c & pl & _ & Hi). by rewrite Hi in H0. }
  destruct (Z.eqb_spec (have_oneframe (img s)) 0) as [H0|H0].
  { apply wp_ret. split; [done|]. split; [done|]. exists s. do 4 (split; [done|]). left. auto. }
  destruct (sink_full s Hs H0) as (c & pl & Hi & Ei). rewrite Ei. pose proof (image_long c pl Hi).
  apply wp_bind. unfold gxfp_plain_image_sink_extract, captured. cbn [body body_len have_oneframe hdr].
  rewrite (memset0_full h 5) by done. cbn [mbind option_bind]. apply wp_bind. eapply wp_lift; [done|].
  cbn [Z.eqb orb]. rewrite (proj2 (Z.eqb_neq (zlen pl - 5) 0)) by lia. cbv zeta.
  assert (Hz : zlen (zdrop 5 pl) = zlen pl - 5) by (rewrite zlen_zdrop by lia; lia).
  apply wp_bind, malloc_wp.
  - intros Ho. apply wp_ret. apply wp_bind. eapply wp_lift; [done|]. apply wp_ret. split; [apply waits_pop|].
    split; [done|]. exists s. split; [|do 3 (split; [done|]); right; left; by split_and!; [| |exists c, pl|]].
    destruct s; cbn in *. by rewrite Ei.
  - intros u Hu _. rewrite (memcpy_fill u (zdrop 5 pl) (zlen pl - 5)) by (done || apply Hu; lia).
    apply wp_bind. eapply wp_lift; [done|].
    rewrite (memcpy_fill (zeros 5) (ztake 5 pl) 5) by (done || apply zlen_ztake; lia).
    cbn [mbind option_bind]. apply wp_bind. eapply wp_lift; [done|].
    rewrite (memset0_full (zdrop 5 pl)) by done. apply wp_bind. eapply wp_lift; [done|]. apply wp_ret.
    apply wp_bind. eapply wp_lift; [done|]. apply wp_ret. split; [apply waits_pop|].
    split; [by cbn; intros ->|]. eexists. split; [done|].
    split; [apply svc_inv_img; [left; split_and!; try done; apply zlen_ztake; lia|done]|].
    split; [done|]. split; [done|]. right. right. split; [done|]. exists c, pl. do 5 (split; [done|]).
    by apply Hno.
Qed.

Lemma service_free_run svc : handle_inv svc → gxfp_tls_service_free svc = Some (Some None).
Proof using Type.
  intros [->|(s & -> & Hs)]; [done|]. unfold gxfp_tls_service_free.
  by rewrite (sink_reset_run (img s) (si_sink s Hs)).
Qed.

(** ** Any sequence of calls *)

Definition svc_op_ok (op : svc_op) : Prop :=
  match op with
  | SvcInit _ psk => GXFP5130_PSK_LEN <= zlen psk
  | SvcFeed _ b n => bytes_ok b ∧ 0 <= n <= zlen b
  | SvcImage h => zlen h = 5
  | _ => True
  end.

Definition run_svc (fuel : nat) (op : svc_op) (st : crc_static) (svc : gxfp_tls_service)
    : M lworld (Z * crc_static * gxfp_tls_service) :=
  match op with
  | SvcInit c psk =>
    '(r, svc) ← gxfp_tls_service_init svc c (Some psk) GXFP5130_PSK_LEN; mret (r, st, svc)
  | SvcStep => gxfp_tls_service_step fuel st svc
  | SvcFeed h b n => '(r, svc) ← gxfp_tls_service_feed_tap_record svc h (Some b) n; mret (r, st, svc)
  | SvcRequest => '(r, svc) ← lift (gxfp_tls_service_request_capture svc); mret (r, st, svc)
  | SvcImage h =>
    '(r, svc, _, _, _) ← gxfp_tls_service_get_raw_image svc (Some h) (Some None) (Some 0);
    mret (r, st, svc)
  | SvcFree => svc ← lift (gxfp_tls_service_free svc); mret (0, st, svc)
  end.

(** The calls, and the state after each. *)
Fixpoint run_svcs (fuel : nat) (ops : list svc_op) (st : crc_static) (svc : gxfp_tls_service)
    : M lworld (crc_static * gxfp_tls_service * list gxfp_tls_hs_state) :=
  match ops with
  | [] => mret (st, svc, [])
  | op :: ops =>
    '(_, st, svc) ← run_svc fuel op st svc;
    '(st', svc', path) ← run_svcs fuel ops st svc;
    mret (st', svc', gxfp_tls_service_state svc :: path)
  end.

(** A path of the state machine. *)
Fixpoint follows (ops : list svc_op) (st : gxfp_tls_hs_state) (path : list gxfp_tls_hs_state) : Prop :=
  match ops, path with
  | [], [] => True
  | op :: ops, st' :: path => st' ∈ next_states op st ∧ follows ops st' path
  | _, _ => False
  end.

Definition svc_post (op : svc_op) (svc : gxfp_tls_service) (w : lworld)
    (res : Z * crc_static * gxfp_tls_service) (w' : lworld) : Prop :=
  let '(_, st', svc') := res in
  static_ok st' ∧ wrote svc_packet w w' ∧ handle_inv svc' ∧
  gxfp_tls_service_state svc' ∈ next_states op (gxfp_tls_service_state svc).

(** A handle without a service refuses every other call. *)
Lemma run_svc_none fuel op st w fd :
  dev_open w fd → static_ok st → svc_op_ok op → wp (run_svc fuel op st (Some None)) (svc_post op (Some None) w) w.
Proof using EO TO.
  intros Hd Hst Hop.
  assert (Hsame : ∀ r, gxfp_tls_service_state (Some None) ∈ next_states op GXFP_TLS_HS_INIT →
    wp (W := lworld) (mret (r, st, Some None)) (svc_post op (Some None) w) w).
  { intros r Hin. apply wp_ret. split; [done|]. split; [apply wrote_refl|]. split; [by left|done]. }
  destruct op as [c psk| |h b n| |h|]; cbn [run_svc].
  - apply wp_bind. eapply wp_mono; [by apply (service_init_wp c psk w fd)|].
    intros [r svc'] w' (Hw & [(_ & ->)|(_ & s & -> & Hs & Hh & _)]); apply wp_ret; split_and!; try done.
    + by left.
    + apply list_elem_of_here.
    + right. by exists s.
    + cbn [gxfp_tls_service_state]. rewrite Hh. set_solver.
  - apply Hsame, list_elem_of_here.
  - apply wp_bind, wp_ret, Hsame, list_elem_of_here.
  - apply wp_bind, (wp_lift _ (- EINVAL, Some None)); [done|]. apply Hsame, list_elem_of_here.
  - apply wp_bind, wp_ret, Hsame, list_elem_of_here.
  - apply wp_bind, (wp_lift _ (Some None)); [done|]. apply Hsame, list_elem_of_here.
Qed.

Lemma run_svc_some fuel op st s w fd :
  dev_open w fd → static_ok st → svc_op_ok op → svc_inv s → (pull_fuel <= fuel)%nat →
  wp (run_svc fuel op st (Some (Some s))) (svc_post op (Some (Some s)) w) w.
Proof using EO TO.
  intros Hd Hst Hop Hs Hf.
  assert (Hself : ∀ o, hs s ∈ [hs s; o]) by (intros; apply list_elem_of_here).
  destruct op as [c psk| |h b n| |h|]; cbn [run_svc].
  - apply wp_bind. eapply wp_eq; [by apply (service_init_again c psk s w fd)|]. apply wp_ret.
    split; [done|]. split; [apply wrote_refl|]. split; [right; by exists s|].
    cbn. pose proof (si_state s Hs). destruct (hs s); (done || apply list_elem_of_here).
  - eapply wp_mono; [by apply (step_wp fuel st s w fd)|].
    intros [[r st'] svc'] w' (Hst' & Hw & s' & -> & Hs' & _ & Hin & _). split_and!; try done. right. by exists s'.
  - destruct Hop as (Hb & Hn). apply wp_bind. eapply wp_mono; [by apply (feed_tap_wp h b n s w)|].
    intros [r svc'] w' (Hw & s' & -> & Hs' & _ & Hres). apply wp_ret. split; [done|].
    split; [by apply wrote_waits|]. split; [right; by exists s'|]. cbn [gxfp_tls_service_state].
    pose proof (si_state s Hs). destruct Hres as [(_ & ->)|(_ & -> & _)]; destruct (hs s); try done; set_solver.
  - destruct (request_capture_run s Hs) as (r & s' & -> & Hs' & _ & Hres). apply wp_bind. eapply wp_lift; [done|].
    apply wp_ret. split; [done|]. split; [apply wrote_refl|]. split; [right; by exists s'|].
    cbn [gxfp_tls_service_state next_states].
    destruct Hres as [(_ & Hin & -> & _)|(_ & Hin & ->)]; destruct (hs s); set_solver.
  - apply wp_bind. eapply wp_mono; [by apply (raw_image_wp h s w)|].
    intros [[[[r svc'] h'] b'] l'] w' (Hw & _ & s' & -> & Hs' & _ & Hh & _). apply wp_ret. split; [done|].
    split; [by apply wrote_waits|]. split; [right; by exists s'|]. cbn [gxfp_tls_service_state next_states].
    rewrite Hh. destruct (hs s); apply list_elem_of_here.
  - rewrite service_free_run by (right; by exists s). apply wp_bind, (wp_lift _ (Some None)); [done|].
    apply wp_ret. split; [done|]. split; [apply wrote_refl|]. split; [by left|]. apply list_elem_of_here.
Qed.

Lemma run_svcs_wp fuel ops st svc w fd :
  dev_open w fd → static_ok st → handle_inv svc → Forall svc_op_ok ops → (pull_fuel <= fuel)%nat →
  wp (run_svcs fuel ops st svc)
     (λ '(st', svc', path) w', static_ok st' ∧ wrote svc_packet w w' ∧ handle_inv svc' ∧
        follows ops (gxfp_tls_service_state svc) path) w.
Proof using EO TO.
  intros Hd Hst Hs Hops Hf. revert st svc w Hd Hst Hs.
  induction Hops as [|op ops Hop Hops IH]; intros st svc w Hd Hst Hs; cbn [run_svcs].
  { apply wp_ret. split; [done|]. split; [apply wrote_refl|done]. }
  assert (H1 : wp (run_svc fuel op st svc) (svc_post op svc w) w).
  { destruct Hs as [->|(s & -> & Hs)]; [by apply (run_svc_none _ _ _ _ fd)|by apply (run_svc_some _ _ _ _ _ fd)]. }
  apply wp_bind. eapply wp_mono; [exact H1|]. intros [[r st1] svc1] w1 (Hst1 & Hw1 & Hs1 & Hin).
  apply wp_bind. eapply wp_mono; [apply (IH st1 svc1 w1); [by eapply wrote_open|done|done]|].
  intros [[st2 svc2] path] w2 (Hst2 & Hw2 & Hs2 & Hp). apply wp_ret.
  split; [done|]. split; [exact (wrote_trans _ _ _ _ Hw1 Hw2)|]. split; [done|]. by split.
Qed.

(** C27: the TLS service keeps its state machine: from no service, every sequence of
    initialisations, steps, records, requests, extractions and frees, against any
    device and any mbedTLS that behaves as documented, is defined and terminates (the
    loop that pulls plaintext needs no more turns than bytes can wait), moves only
    along the transitions of [next_states], sends only TLS records and its two
    commands, and leaves a service whose receive queue is within its buffer, whose
    error is negative when it has failed, and whose sink is empty or holds an
    image with a right checksum. *)
Theorem tls_service_invariant fuel ops st w fd :
  dev_open w fd → static_ok st → Forall svc_op_ok ops → (pull_fuel <= fuel)%nat →
  ∃ st' svc path w', run_svcs fuel ops st (Some None) w = Some ((st', svc, path), w') ∧
    wrote svc_packet w w' ∧ handle_inv svc ∧ follows ops GXFP_TLS_HS_INIT path.
Proof using EO TO.
  intros Hd Hst Hops Hf.
  destruct (wp_inv _ _ _ (run_svcs_wp fuel ops st (Some None) w fd Hd Hst ltac:(by left) Hops Hf))
    as ([[st' svc] path] & w' & Hr & _ & Hw & Hs & Hp).
  by exists st', svc, path, w'.
Qed.

(** ** Waiting *)

(** The times a waiting service measures its timeout from. *)
Definition waits_since (s : gxfp_tls_service_impl) : list Z :=
  match hs s with
  | GXFP_TLS_HS_CONNECTING => [handshake_start_ms s]
  | GXFP_TLS_HS_CAPTURING => [last_plain_ms s; last_tls_rx_ms s]
  | _ => []
  end.

(** How a wait ends: connected, plaintext or an image, or an error that stays. *)
Definition wait_over (s : gxfp_tls_service_impl) (r : Z) (s' : gxfp_tls_service_impl) : Prop :=
  r ≠ - EAGAIN ∧
  (r < 0 ∧ hs s' = GXFP_TLS_HS_ERROR ∧ err s' = r ∨
   hs s = GXFP_TLS_HS_CONNECTING ∧ r = 0 ∧ hs s' = GXFP_TLS_HS_CONNECTED ∨
   hs s = GXFP_TLS_HS_CAPTURING ∧
     (r = 0 ∧ hs s' = GXFP_TLS_HS_CAPTURING ∨ r = 1 ∧ hs s' = GXFP_TLS_HS_DONE ∧ has_image s')).

(** The clock as the last call left it is within the timeout of one of these times. *)
Definition in_time (s : gxfp_tls_service_impl) (w : lworld) : Prop :=
  ∃ t, t ∈ waits_since s ∧ u32 (ms_at (l_trace w) - t) <= timeout_ms (cfg s).

(** One step of a service that waits. *)
Lemma step_waits fuel st s w fd :
  dev_open w fd → static_ok st → svc_inv s → (pull_fuel <= fuel)%nat →
  hs s ∈ [GXFP_TLS_HS_CONNECTING; GXFP_TLS_HS_CAPTURING] →
  wp (gxfp_tls_service_step fuel st (Some (Some s)))
     (λ '(r, st', svc') w', static_ok st' ∧ wrote svc_packet w w' ∧
        ∃ s', svc' = Some (Some s') ∧
          (wait_over s r s' ∨
           r = - EAGAIN ∧ svc_inv s' ∧ hs s' = hs s ∧ cfg s' = cfg s ∧
           waits_since s' = waits_since s ∧ in_time s w' ∧ later w w')) w.
Proof using EO TO.
  intros Hd Hst Hs Hf Hin. unfold gxfp_tls_service_step, wait_over, in_time, waits_since.
  rewrite elem_of_cons, list_elem_of_singleton in Hin. destruct Hin as [Hh|Hh]; rewrite Hh.
  - apply wp_bind. eapply wp_mono; [by apply (step_connecting_wp s w fd)|].
    intros [r s1] w1 (Hw1 & Hs1 & Hc1 & Hres). apply wp_ret. split; [done|]. split; [done|].
    exists s1. split; [done|].
    destruct Hres as [(-> & Hh1)|[(Hr & Hh1 & He & Hne)|(-> & Hh1 & Hst1 & Hu & Hl)]]; rewrite Hh1.
    + left. split; [done|]. right. by left.
    + left. split; [done|]. by left.
    + right. rewrite Hst1. do 5 (split; [done|]). split; [|done]. eexists. split; [apply list_elem_of_here|done].
  - rewrite bool_decide_eq_false_2 by done. cbn [andb]. apply wp_bind, wp_ret. change (0 <? 0) with false.
    cbv iota. rewrite Hh. destruct (si_engine s Hs) as (g & Hg & Hgok). pose proof (pull_fuel_enough g Hgok).
    apply wp_bind. eapply wp_mono; [apply (step_capturing_wp fuel st s g w fd); try done; lia|].
    intros [[r st1] s1] w1 (Hst1 & Hw1 & Hs1 & (Hc1 & _ & Hrx) & Hres). apply wp_ret. split; [done|].
    split; [done|]. exists s1. split; [done|].
    destruct Hres as [[(-> & Hh1 & Hi)|(Hr & Hh1 & He & Hne)]|[(-> & Hh1)|(-> & Hh1 & Hp & Hu & Hl)]]; rewrite Hh1.
    + left. split; [done|]. right. right. split; [done|]. by right.
    + left. split; [done|]. by left.
    + left. split; [done|]. right. right. split; [done|]. by left.
    + right. rewrite Hp, Hrx. do 5 (split; [done|]). split; [|done].
      destruct Hu as [Hu|Hu]; eexists; (split; [|exact Hu]); set_solver.
Qed.

(** [n] steps while the service asks to be called again. *)
Fixpoint svc_poll (n fuel : nat) (st : crc_static) (svc : gxfp_tls_service)
    : M lworld (Z * crc_static * gxfp_tls_service) :=
  match n with
  | O => mret (- EAGAIN, st, svc)
  | S n =>
    '(r, st, svc) ← gxfp_tls_service_step fuel st svc;
    if r =? - EAGAIN then svc_poll n fuel st svc else mret (r, st, svc)
  end.

Lemma svc_poll_wp n fuel st s w fd :
  dev_open w fd → static_ok st → svc_inv s → (pull_fuel <= fuel)%nat →
  hs s ∈ [GXFP_TLS_HS_CONNECTING; GXFP_TLS_HS_CAPTURING] →
  wp (svc_poll n fuel st (Some (Some s)))
     (λ '(r, st', svc') w', wrote svc_packet w w' ∧ ∃ s', svc' = Some (Some s') ∧
        (wait_over s r s' ∨
         r = - EAGAIN ∧ hs s' = hs s ∧ match n with O => w' = w | S _ => in_time s w' end ∧
         ∃ evs, (n <= length evs)%nat ∧ l_trace w' = l_trace w ++ evs)) w.
Proof using EO TO.
  revert st s w. induction n as [|n IH]; intros st s w Hd Hst Hs Hf Hh; cbn [svc_poll].
  { apply wp_ret. split; [apply wrote_refl|]. exists s. split; [done|]. right. do 3 (split; [done|]).
    exists []. by rewrite app_nil_r. }
  apply wp_bind. eapply wp_mono; [by apply (step_waits fuel st s w fd)|].
  intros [[r st1] svc1] w1 (Hst1 & Hw1 & s1 & -> & Hres).
  destruct Hres as [Hover|(-> & Hs1 & Hh1 & Hc1 & Hsince & Ht1 & evs1 & Hne & Htr1)].
  { destruct Hover as (Hne & Ho). rewrite (proj2 (Z.eqb_neq r _)) by done. apply wp_ret.
    split; [done|]. exists s1. split; [done|]. by left. }
  rewrite Z.eqb_refl. eapply wp_mono; [apply (IH st1 s1 w1); [by eapply wrote_open|done|done|done|by rewrite Hh1]|].
  intros [[r st2] svc2] w2 (Hw2 & s2 & -> & Hres). split; [exact (wrote_trans _ _ _ _ Hw1 Hw2)|].
  exists s2. split; [done|]. unfold wait_over, in_time in *. rewrite Hsince, Hc1, Hh1 in Hres.
  destruct Hres as [?|(-> & Hh2 & Ht2 & evs2 & Hl & Htr2)]; [by left|]. right. do 2 (split; [done|]). split.
  - destruct n as [|n]; [by rewrite Ht2|done].
  - exists (evs1 ++ evs2). rewrite length_app, Htr2, Htr1, app_assoc. split; [|done].
    destruct evs1; [done|]. cbn [length]. lia.
Qed.

(** C29: the service never waits for ever. A service that waits for the handshake or
    for an image is stepped again as long as it answers EAGAIN, with nothing else
    happening: the wait ends (connected; plaintext or an image; an error that stays,
    ETIMEDOUT among them), or the last reading of the clock still is within the
    timeout of a time the wait is measured from. On a clock that advances a
    millisecond in [B] calls, [B * (timeout + 1)] steps are enough, unless the clock
    has by then run 2^32 milliseconds past that time, where the 32-bit difference
    wraps. In the error state every step returns the same error. *)
Theorem tls_waits_end {B : nat} {CO : UclockOk E B} n fuel st s w fd :
  dev_open w fd → static_ok st → svc_inv s → (pull_fuel <= fuel)%nat → 0 <= timeout_ms (cfg s) →
  (hs s ∈ [GXFP_TLS_HS_CONNECTING; GXFP_TLS_HS_CAPTURING] →
   (∀ t, t ∈ waits_since s → t <= ms_at (l_trace w)) →
   ∃ r st' s' w', svc_poll (S n) fuel st (Some (Some s)) w = Some ((r, st', Some (Some s')), w') ∧
     (wait_over s r s' ∨
      r = - EAGAIN ∧ hs s' = hs s ∧
      ∃ t, t ∈ waits_since s ∧ u32 (ms_at (l_trace w') - t) <= timeout_ms (cfg s) ∧
        ((B * (Z.to_nat (timeout_ms (cfg s)) + 1) <= S n)%nat → 2 ^ 32 <= ms_at (l_trace w') - t))) ∧
  (hs s = GXFP_TLS_HS_ERROR →
   gxfp_tls_service_step fuel st (Some (Some s)) w = Some ((err s, st, Some (Some s)), w) ∧ err s < 0).
Proof using EO TO.
  intros Hd Hst Hs Hf Ht. split.
  2: { intros Hh. pose proof (si_err s Hs Hh). unfold gxfp_tls_service_step.
       by rewrite Hh, (proj2 (Z.eqb_neq _ _)) by lia. }
  intros Hh Hsince.
  destruct (wp_inv _ _ _ (svc_poll_wp (S n) fuel st s w fd Hd Hst Hs Hf Hh))
    as ([[r st'] svc'] & w' & Er & _ & s' & -> & Hres).
  exists r, st', s', w'. split; [done|].
  destruct Hres as [?|(-> & Hh' & (t & Hin & Hu) & evs & Hl & Etr)]; [by left|]. right.
  do 2 (split; [done|]). exists t. do 2 (split; [done|]). intros Hn. specialize (Hsince t Hin).
  pose proof (clock_steps (l_trace w) evs (Z.to_nat (timeout_ms (cfg s)) + 1) ltac:(lia)) as Hc.
  rewrite <- Etr in Hc. apply Z.nlt_ge. intros Hlt.
  assert (u32 (ms_at (l_trace w') - t) = ms_at (l_trace w') - t) by zint. lia.
Qed.

(** C30: a finished capture has its image: when a step ends a capture with 1, the next
    extraction (with memory) hands over the five header bytes and the body of one
    frame whose command is an image, whose first byte is not the point-of-view mark
    and whose checksum is right, and the extraction after it finds none. *)
Theorem tls_image_delivered fuel st s h w fd st' svc' w' :
  dev_open w fd → static_ok st → svc_inv s → (pull_fuel <= fuel)%nat →
  hs s ≠ GXFP_TLS_HS_DONE → zlen h = 5 →
  gxfp_tls_service_step fuel st (Some (Some s)) w = Some ((1, st', svc'), w') → l_oom w' = [] →
  ∃ c pl svc2 w2, image_frame c pl ∧ image_ok (zdrop 5 pl) ∧
    gxfp_tls_service_get_raw_image svc' (Some h) (Some None) (Some 0) w'
    = Some ((1, svc2, Some (ztake 5 pl), Some (Some (zdrop 5 pl)), Some (zlen pl - 5)), w2) ∧
    (∀ h2 b2 n2, gxfp_tls_service_get_raw_image svc2 (Some h2) (Some b2) (Some n2) w2
       = Some ((0, svc2, Some h2, Some b2, Some n2), w2)).
Proof using EO TO.
  intros Hd Hst Hs Hf Hnd Hh Hstep Ho.
  pose proof (wp_elim _ _ _ _ _ (step_wp fuel st s w fd Hd Hst Hs Hf) Hstep) as Hp.
  destruct Hp as (_ & _ & s' & -> & Hs' & _ & _ & Hres & Himg).
  assert (Hdone : hs s' = GXFP_TLS_HS_DONE).
  { destruct Hres as [(_ & ?)|[(? & _)|[(? & _)|(? & _)]]]; (done || unfold EAGAIN in *; lia). }
  destruct (Himg Hdone Hnd) as (c & pl & Hi & Ei). pose proof (image_long c pl Hi).
  exists c, pl. eexists _, w'. split; [done|]. split.
  { destruct Hi as (Hi & _). unfold is_image in Hi. rewrite !andb_true_iff in Hi. apply image_okb_spec, Hi. }
  split.
  - unfold gxfp_tls_service_get_raw_image. rewrite !bool_decide_eq_false_2 by done. cbn [orb].
    rewrite Ei. change (have_oneframe (captured pl) =? 0) with false. cbv iota.
    erewrite run_bind by (apply sink_extract_run; [lia|done|done]). cbv beta iota. rewrite bind_lift. reflexivity.
  - done.
Qed.
End service_rules.

(** * A capture *)

Definition demo_tls_tap : gxfp_tap_hdr :=
  {| th_len := 5; th_type := GOODIX_MP_TYPE_TLS; th_rsvd0 := 0; th_ts_ns := 0; th_head16 := zeros 16 |}.
Definition demo_hello : bytes := [22; 3; 1; 0; 0].
Definition demo_cfg : gxfp_tls_hs_cfg := {| timeout_ms := 20000; manual_pending_request := 1 |}.
Definition demo_svc_ops : list svc_op :=
  [SvcInit (Some demo_cfg) (zeros 32); SvcStep; SvcFeed demo_tls_tap demo_hello 5; SvcStep; SvcRequest; SvcStep;
   SvcFeed demo_tls_tap (stream demo_frames) (zlen (stream demo_frames)); SvcStep; SvcImage (zeros 5); SvcFree].

Lemma demo_static : static_ok crc_static0.
Proof. by left. Qed.

Lemma demo_svc_ops_ok : Forall svc_op_ok demo_svc_ops.
Proof.
  assert (Hs : bytes_ok (stream demo_frames)) by (pose proof demo_stream_ok as H; by rewrite app_nil_r in H).
  repeat constructor; try done; cbn; try apply Hs; unfold is_u8; lia.
Qed.

Lemma tls_service_invariant_witness :
  ∃ st' w', run_svcs (E := script_env []) (T := plain_tls) (pull_fuel (TO := plain_tls_ok)) demo_svc_ops
      crc_static0 (Some None) demo_lworld
    = Some ((st', Some None,
             [GXFP_TLS_HS_CONNECTING; GXFP_TLS_HS_CONNECTING; GXFP_TLS_HS_CONNECTING; GXFP_TLS_HS_CONNECTED;
              GXFP_TLS_HS_CONNECTED; GXFP_TLS_HS_CAPTURING; GXFP_TLS_HS_CAPTURING; GXFP_TLS_HS_DONE;
              GXFP_TLS_HS_DONE; GXFP_TLS_HS_INIT]), w').
Proof.
  destruct (tls_service_invariant (E := script_env []) (EO := script_env_ok [] (Forall_nil_2 _))
    (T := plain_tls) (TO := plain_tls_ok) (pull_fuel (TO := plain_tls_ok)) demo_svc_ops crc_static0 demo_lworld 3
    demo_dev_open demo_static demo_svc_ops_ok (le_n _)) as (st' & svc & path & w' & Hr & _).
  exists st', w'. rewrite Hr. do 2 f_equal.
  assert (Hp : (λ x, (x.1.1.2, x.1.2)) <$> Some ((st', svc, path), w')
    = Some (Some None, [GXFP_TLS_HS_CONNECTING; GXFP_TLS_HS_CONNECTING; GXFP_TLS_HS_CONNECTING;
        GXFP_TLS_HS_CONNECTED; GXFP_TLS_HS_CONNECTED; GXFP_TLS_HS_CAPTURING; GXFP_TLS_HS_CAPTURING;
        GXFP_TLS_HS_DONE; GXFP_TLS_HS_DONE; GXFP_TLS_HS_INIT])) by (rewrite <- Hr; vm_compute; reflexivity).
  cbn in Hp. injection Hp as -> ->. reflexivity.
Defined.

(** A service that waits for an image, its frame in the queue. *)
Definition demo_svc (E : Uenv) (h : gxfp_tls_hs_state) (e : Z) (b : bytes) : @gxfp_tls_service_impl plain_tls :=
  {| cfg := demo_cfg; hs := h; err := e; pending_capture := 0; capture_sent := 1; handshake_start_ms := 0;
     last_plain_ms := 0; last_tls_rx_ms := 0;
     engine := Some {| send_fn := Some (send_tls_record_cb (E := E));
                       rxq := b ++ zeros (ENGINE_RXQ_CAP - zlen b); rxq_cap := ENGINE_RXQ_CAP; rxq_len := zlen b;
                       hs_done := 1; e_ssl := ssl_init |};
     img := sink_blank |}.

Lemma demo_svc_inv (E : Uenv) h e b :
  bytes_ok b → zlen b <= ENGINE_RXQ_CAP → h ≠ GXFP_TLS_HS_INIT → e < 0 →
  svc_inv (E := E) (demo_svc E h e b).
Proof.
  intros Hb Hl Hh He. pose proof (zlen_nonneg b). split; try done.
  - eexists. split; [done|]. split; cbn; try done; [rewrite zlen_app, zlen_zeros; lia|].
    rewrite bytes_ok_app. split; [done|apply bytes_ok_zeros].
  - left. done.
Qed.

Lemma demo_stream_bytes : bytes_ok (stream demo_frames).
Proof. pose proof demo_stream_ok as H. by rewrite app_nil_r in H. Qed.

(** A service that waits on an empty queue, with a timeout of three
    milliseconds; the clock of [script_env] advances one with each call. *)
Definition demo_waiting (h : gxfp_tls_hs_state) : @gxfp_tls_service_impl plain_tls :=
  {| cfg := {| timeout_ms := 3; manual_pending_request := 1 |}; hs := h; err := - 5; pending_capture := 0;
     capture_sent := 1; handshake_start_ms := 0; last_plain_ms := 0; last_tls_rx_ms := 0;
     engine := Some {| send_fn := Some (send_tls_record_cb (E := script_env [])); rxq := zeros ENGINE_RXQ_CAP;
                       rxq_cap := ENGINE_RXQ_CAP; rxq_len := 0; hs_done := 0; e_ssl := ssl_init |};
     img := sink_blank |}.

Lemma demo_waiting_inv h : h ≠ GXFP_TLS_HS_INIT → svc_inv (E := script_env []) (demo_waiting h).
Proof.
  intros Hh. split; try done; [|by left]. eexists. split; [done|].
  split; cbn; try done; apply bytes_ok_zeros.
Qed.

(** Both waits time out when the clock passes the timeout, and an error stays. *)
Lemma tls_waits_end_witness :
  let poll h := svc_poll (E := script_env []) (T := plain_tls) 4 (pull_fuel (TO := plain_tls_ok))
                  crc_static0 (Some (Some (demo_waiting h))) demo_lworld in
  (∃ st' s' w', poll GXFP_TLS_HS_CONNECTING = Some ((- ETIMEDOUT, st', Some (Some s')), w') ∧
     hs s' = GXFP_TLS_HS_ERROR) ∧
  (∃ st' s' w', poll GXFP_TLS_HS_CAPTURING = Some ((- ETIMEDOUT, st', Some (Some s')), w') ∧
     hs s' = GXFP_TLS_HS_ERROR) ∧
  (∃ w', poll GXFP_TLS_HS_ERROR = Some ((- 5, crc_static0, Some (Some (demo_waiting GXFP_TLS_HS_ERROR))), w')).
Proof.
  intros poll.
  pose proof (λ h Hh, tls_waits_end (E := script_env []) (EO := script_env_ok [] (Forall_nil_2 _))
    (T := plain_tls) (TO := plain_tls_ok) (CO := script_env_clock []) 3 (pull_fuel (TO := plain_tls_ok))
    crc_static0 (demo_waiting h) demo_lworld 3 demo_dev_open demo_static (demo_waiting_inv h Hh) (le_n _)
    ltac:(vm_compute; discriminate)) as H.
  assert (Hw : ∀ h, h ∈ [GXFP_TLS_HS_CONNECTING; GXFP_TLS_HS_CAPTURING] →
    (λ x, x.1.1.1) <$> poll h = Some (- ETIMEDOUT) →
    ∃ st' s' w', poll h = Some ((- ETIMEDOUT, st', Some (Some s')), w') ∧ hs s' = GXFP_TLS_HS_ERROR).
  { intros h Hh Hp.
    assert (Hne : h ≠ GXFP_TLS_HS_INIT) by (intros ->; set_solver).
    assert (Ht : ∀ t, t ∈ waits_since (demo_waiting h) →
      t <= ms_at (E := script_env []) (l_trace demo_lworld)).
    { intros t Ht. assert (t = 0) as -> by (unfold waits_since in Ht; cbn in Ht; destruct h; set_solver).
      vm_compute. discriminate. }
    destruct (H h Hne) as (Hx & _). destruct (Hx Hh Ht) as (r & st' & s' & w' & E & Hres).
    exists st', s', w'. unfold poll in *. rewrite E in Hp. cbn in Hp. injection Hp as ->.
    split; [exact E|]. destruct Hres as [(_ & [(_ & Hs' & _)|[(_ & ? & _)|(_ & [(? & _)|(? & _)])]])|(? & _)]; done. }
  split_and!.
  - apply Hw; [set_solver|]. vm_compute. reflexivity.
  - apply Hw; [set_solver|]. vm_compute. reflexivity.
  - destruct (H GXFP_TLS_HS_ERROR ltac:(done)) as (_ & Hx). destruct (Hx eq_refl) as (E & _).
    exists demo_lworld. unfold poll. cbn [svc_poll]. rewrite (run_bind _ _ _ _ _ E). reflexivity.
Defined.

Lemma tls_image_delivered_witness :
  ∃ c pl, image_frame c pl ∧ image_ok (zdrop 5 pl).
Proof.
  set (step := gxfp_tls_service_step (E := script_env []) (T := plain_tls) (pull_fuel (TO := plain_tls_ok))
    crc_static0 (Some (Some (demo_svc (script_env []) GXFP_TLS_HS_CAPTURING (- 1) (stream demo_frames)))) demo_lworld).
  assert (Hstep : ∃ st' svc' w', step = Some ((1, st', svc'), w') ∧ l_oom w' = []).
  { unfold step. destruct (gxfp_tls_service_step _ _ _ _) as [[[[r st'] svc'] w']|] eqn:Es.
    - assert (Hr : (λ x, (x.1.1.1, l_oom x.2)) <$> Some ((r, st', svc'), w') = Some (1, []))
        by (rewrite <- Es; vm_compute; reflexivity).
      cbn in Hr. injection Hr as -> Ho. exists st', svc', w'. split; [reflexivity|exact Ho].
    - assert (Hr : (λ _, tt) <$> @None (Z * crc_static * @gxfp_tls_service plain_tls * lworld) = Some tt)
        by (rewrite <- Es; vm_compute; reflexivity). done. }
  destruct Hstep as (st' & svc' & w' & Es & Ho).
  destruct (tls_image_delivered (E := script_env []) (EO := script_env_ok [] (Forall_nil_2 _))
    (T := plain_tls) (TO := plain_tls_ok) (pull_fuel (TO := plain_tls_ok)) crc_static0
    (demo_svc (script_env []) GXFP_TLS_HS_CAPTURING (- 1) (stream demo_frames)) (zeros 5) demo_lworld 3 st' svc' w'
    demo_dev_open demo_static
    (demo_svc_inv (script_env []) GXFP_TLS_HS_CAPTURING (- 1) (stream demo_frames) demo_stream_bytes ltac:(vm_compute; discriminate) ltac:(done) ltac:(lia))
    (le_n _) ltac:(done) eq_refl Es Ho) as (c & pl & _ & _ & Hi & Hok & _).
  exists c, pl. split; [exact Hi|exact Hok].
Defined.
