(* ===== verification/UProvision.v ===== *)
(** Provisioning payloads: [userspace/src/algo/payload/provision.c]. The cryptographic
    primitives of mbedTLS are parameters; the payloads are laid out as the code does. *)
From Stdlib Require Import ZArith Lia.
From stdpp Require Import prelude list.
From S2P Require Import Prelude UWorld UCommon.

Open Scope Z_scope.

(** * The primitives of mbedTLS

    What they answer may depend on the state of the world (they allocate); a result comes
    with what the output buffer holds after the call. *)
Class Mbedcrypto := {
  gcm_context : Type;
  gcm_blank : gcm_context;
  MBEDTLS_CIPHER_ID_AES : Z;
  md_info_sha256 : lworld → bool;
  mbedtls_md_hmac : lworld → bytes → bytes → Z * bytes;
  mbedtls_sha256 : lworld → bytes → Z → Z * bytes;
  mbedtls_sha512 : lworld → bytes → Z → Z * bytes;
  mbedtls_gcm_setkey : lworld → gcm_context → Z → bytes → Z → Z * gcm_context;
  mbedtls_gcm_encrypt_and_tag : lworld → gcm_context → bytes → bytes → bytes → Z * (bytes * bytes)
}.

(** A call that returns 0 has computed the function of its name. Outputs have their
    length whatever is returned. What was encrypted is decrypted with the same key, vector
    and additional data. *)
Class MbedcryptoOk (C : Mbedcrypto) := {
  hmac256 : bytes → bytes → bytes;
  sha256 : bytes → bytes;
  sha384 : bytes → bytes;
  aes_gcm : bytes → bytes → bytes → bytes → bytes * bytes;
  aes_gcm_open : bytes → bytes → bytes → bytes → bytes → option bytes;
  gcm_keyed : gcm_context → bytes → Prop;
  hmac_len : ∀ w k m, zlen (mbedtls_md_hmac w k m).2 = 32;
  hmac_is : ∀ w k m, (mbedtls_md_hmac w k m).1 = 0 → (mbedtls_md_hmac w k m).2 = hmac256 k m;
  sha256_len : ∀ w m, zlen (mbedtls_sha256 w m 0).2 = 32;
  sha256_is : ∀ w m, (mbedtls_sha256 w m 0).1 = 0 → (mbedtls_sha256 w m 0).2 = sha256 m;
  sha384_len : ∀ w m, zlen (mbedtls_sha512 w m 1).2 = 48;
  sha384_is : ∀ w m, (mbedtls_sha512 w m 1).1 = 0 → (mbedtls_sha512 w m 1).2 = sha384 m;
  setkey_is : ∀ w g k, zlen k = 32 → (mbedtls_gcm_setkey w g MBEDTLS_CIPHER_ID_AES k 256).1 = 0 →
    gcm_keyed (mbedtls_gcm_setkey w g MBEDTLS_CIPHER_ID_AES k 256).2 k;
  gcm_len : ∀ w g iv aad pt, zlen (mbedtls_gcm_encrypt_and_tag w g iv aad pt).2.1 = zlen pt ∧
    zlen (mbedtls_gcm_encrypt_and_tag w g iv aad pt).2.2 = 16;
  gcm_is : ∀ w g k iv aad pt, gcm_keyed g k → (mbedtls_gcm_encrypt_and_tag w g iv aad pt).1 = 0 →
    (mbedtls_gcm_encrypt_and_tag w g iv aad pt).2 = aes_gcm k iv aad pt;
  gcm_opens : ∀ k iv aad pt, aes_gcm_open k iv aad (aes_gcm k iv aad pt).1 (aes_gcm k iv aad pt).2 = Some pt
}.

(** * provision.c *)

Definition GXFP_PSK_LEN : Z := 32.
Definition GXFP_BB010003_WB_HMAC_LEN : Z := 32.
Definition GXFP_BB010003_HDR_LEN : Z := 6.
Definition GXFP_BB010003_SEED16_LEN : Z := 16.
Definition GXFP_BB010003_TAG_LEN : Z := 16.
Definition GXFP_BB010003_PAYLOAD_LEN : Z :=
  GXFP_BB010003_HDR_LEN + GXFP_BB010003_SEED16_LEN + GXFP_PSK_LEN + GXFP_BB010003_TAG_LEN.
Definition GXFP_BB010003_WB_LEN : Z := GXFP_BB010003_WB_HMAC_LEN + GXFP_BB010003_PAYLOAD_LEN.

Definition gxfp_payload_seed32_runtime : bytes :=
  [0x5c; 0xba; 0x6e; 0x25; 0x81; 0x95; 0x18; 0xde;
   0x2d; 0x53; 0xe9; 0x6d; 0xc0; 0x34; 0x7a; 0xb0;
   0xd4; 0x27; 0xd4; 0x08; 0x4b; 0xda; 0x4f; 0xae;
   0x1b; 0xff; 0x2b; 0x09; 0x11; 0x2a; 0x57; 0xe5].

(** [gxfp_le32enc(buf + off, v)] *)
Definition enc32_at (buf : bytes) (off v : Z) : option bytes :=
  if (0 <=? off) && (off <=? zlen buf)
  then t ← gxfp_le32enc (zdrop off buf) v; Some (ztake off buf ++ t) else None.

Definition fill_tls_gcm_aad (aad : bytes) : option bytes :=
  aad ← enc32_at aad 0 0xF0C12D52;
  aad ← enc32_at aad 4 0x077D5699;
  aad ← enc32_at aad 8 0xA3377FF4;
  enc32_at aad 12 0x7D42842A.

Definition fill_ff02_len_hdr (hdr : bytes) (data_len : Z) : option bytes :=
  hdr ← wr hdr 0 0x02;
  hdr ← wr hdr 1 0xFF;
  enc32_at hdr 2 data_len.

Definition local78_from_ctr (ctr : Z) (out : bytes) : option bytes :=
  let uvar6 := Z.land (Z.lor (u32 (ctr * 0x10000)) (Z.shiftr ctr 16)) 0xFFFFFFFF in
  let local78 :=
    Z.lxor (Z.land (Z.lxor (Z.shiftr uvar6 8) (u32 (Z.shiftl uvar6 8))) 0x00FF00FF) (u32 (Z.shiftl uvar6 8)) in
  enc32_at out 0 local78.

(** 'k', 'g', 'o', 'o', 'd', 'w', 'i', 'x', 'g', NUL, 'k', 'a', 'e', 'l', 'r', 'g', 'n',
    'o', 'e', 'r', 'l', 'i', 't', 'h', 'm', and the length in bits. *)
Definition base : bytes :=
  [107; 103; 111; 111; 100; 119; 105; 120; 103; 0;
   107; 97; 101; 108; 114; 103; 110; 111; 101; 114; 108; 105; 116; 104; 109;
   0x00; 0x00; 0x01; 0x80].

Section provision.
Context {E : Uenv} {C : Mbedcrypto}.

Definition hmac_sha256 (key : bytes) (key_len : Z) (msg : bytes) (msg_len : Z) (out : bytes)
    : M lworld (Z * bytes) :=
  md ← gets md_info_sha256;
  if negb md then mret (- EIO, out) else
  k ← lift (slice key 0 key_len);
  m ← lift (slice msg 0 msg_len);
  '(rc, d) ← gets (λ w, mbedtls_md_hmac w k m);
  out ← lift (blit out 0 d);
  if negb (rc =? 0) then mret (- EIO, out) else
  mret (0, out).

Definition compute_bb010003_wb_hmac (key_hmac payload out_hmac : bytes) : M lworld (Z * bytes) :=
  hmac_msg ← u_stack (GXFP_BB010003_HDR_LEN + GXFP_PSK_LEN + GXFP_BB010003_TAG_LEN);
  hmac_msg ← lift (memcpy hmac_msg 0 payload 0 GXFP_BB010003_HDR_LEN);
  hmac_msg ← lift (memcpy hmac_msg GXFP_BB010003_HDR_LEN
                     payload (GXFP_BB010003_HDR_LEN + GXFP_BB010003_SEED16_LEN) GXFP_PSK_LEN);
  hmac_msg ← lift (memcpy hmac_msg (GXFP_BB010003_HDR_LEN + GXFP_PSK_LEN)
                     payload (GXFP_BB010003_HDR_LEN + GXFP_BB010003_SEED16_LEN + GXFP_PSK_LEN)
                     GXFP_BB010003_TAG_LEN);
  hmac_sha256 key_hmac 32 hmac_msg (zlen hmac_msg) out_hmac.

Definition gxfp_payload_calc_seed16 (psk : ptr bytes) (psk_len : Z) (out_seed16 : ptr bytes)
    : M lworld (Z * ptr bytes) :=
  match psk, out_seed16 with
  | Some psk, Some out =>
    if psk_len =? 0 then mret (- EINVAL, Some out) else
    let prefix_len := Z.shiftr psk_len 2 in
    p ← umalloc (u64 (6 + prefix_len + 64));
    match p with
    | None => mret (- ENOMEM, Some out)
    | Some buf =>
      buf ← lift (wr buf 0 0x02);
      buf ← lift (wr buf 1 0xFF);
      buf ← lift (enc32_at buf 2 (u32 psk_len));
      buf ← lift (memcpy buf 6 psk 0 prefix_len);
      '(buf, off) ← lift (forN 16 0 (λ _ '(buf, off),
                            buf ← enc32_at buf off 3; Some (buf, off + 4)) (buf, 6 + prefix_len));
      digest ← u_stack 32;
      m ← lift (slice buf 0 off);
      '(rc, d) ← gets (λ w, mbedtls_sha256 w m 0);
      digest ← lift (blit digest 0 d);
      if negb (rc =? 0) then mret (- EIO, Some out) else
      out ← lift (memcpy out 0 digest 0 16);
      mret (0, Some out)
    end
  | _, _ => mret (- EINVAL, out_seed16)
  end.

Definition gxfp_payload_derive_key_material (seed32 out_aes_key32 out_hmac_key32 : ptr bytes)
    : M lworld (Z * ptr bytes * ptr bytes) :=
  match seed32, out_aes_key32, out_hmac_key32 with
  | Some seed32, Some out_aes, Some out_hmac =>
    msg ← u_stack (4 + zlen base);
    round1 ← u_stack 32;
    round2 ← u_stack 32;
    msg ← lift (local78_from_ctr 1 msg);
    msg ← lift (memcpy msg 4 base 0 (zlen base));
    '(rc, round1) ← hmac_sha256 seed32 32 msg (zlen msg) round1;
    if rc <? 0 then mret (rc, Some out_aes, Some out_hmac) else
    msg ← lift (local78_from_ctr 2 msg);
    msg ← lift (memcpy msg 4 base 0 (zlen base));
    '(rc, round2) ← hmac_sha256 seed32 32 msg (zlen msg) round2;
    if rc <? 0 then mret (rc, Some out_aes, Some out_hmac) else
    out_aes ← lift (memcpy out_aes 0 round1 0 32);
    out_hmac ← lift (memcpy out_hmac 0 round1 16 16);
    out_hmac ← lift (memcpy out_hmac 16 round2 0 16);
    mret (0, Some out_aes, Some out_hmac)
  | _, _, _ => mret (- EINVAL, out_aes_key32, out_hmac_key32)
  end.

(** What the caller gets: the code and its four variables. *)
Definition bb010003_out : Type := Z * ptr (ptr bytes) * ptr Z * ptr (ptr bytes) * ptr Z.

(** What the caller is left with when the payload is not made. *)
Definition bb010003_none (oip : ptr (ptr bytes)) (oipl : ptr Z) (rc : Z) : bb010003_out :=
  (rc, Some None, Some 0, (λ _, None) <$> oip, (λ _, 0) <$> oipl).

(** The parts, put together in new memory. *)
Definition bb010003_assemble (key_hmac seed16 hdr cipher tag hmac_out : bytes) (out_inner_payload : ptr (ptr bytes))
    (out_inner_payload_len : ptr Z) : M lworld bb010003_out :=
  let fail rc : M lworld bb010003_out := mret (bb010003_none out_inner_payload out_inner_payload_len rc) in
  p ← umalloc GXFP_BB010003_PAYLOAD_LEN;
  match p with
  | None => fail (- ENOMEM)
  | Some payload =>
    payload ← lift (memcpy payload 0 hdr 0 GXFP_BB010003_HDR_LEN);
    payload ← lift (memcpy payload GXFP_BB010003_HDR_LEN seed16 0 GXFP_BB010003_SEED16_LEN);
    payload ← lift (memcpy payload (GXFP_BB010003_HDR_LEN + GXFP_BB010003_SEED16_LEN) cipher 0 GXFP_PSK_LEN);
    payload ← lift (memcpy payload (GXFP_BB010003_HDR_LEN + GXFP_BB010003_SEED16_LEN + GXFP_PSK_LEN)
                      tag 0 GXFP_BB010003_TAG_LEN);
    '(rc, hmac_out) ← compute_bb010003_wb_hmac key_hmac payload hmac_out;
    if rc <? 0 then fail rc else
    p ← umalloc GXFP_BB010003_WB_LEN;
    match p with
    | None => fail (- ENOMEM)
    | Some wb =>
      wb ← lift (memcpy wb 0 hmac_out 0 GXFP_BB010003_WB_HMAC_LEN);
      wb ← lift (memcpy wb GXFP_BB010003_WB_HMAC_LEN payload 0 GXFP_BB010003_PAYLOAD_LEN);
      mret (0, Some (Some wb), Some GXFP_BB010003_WB_LEN,
            (λ _, Some payload) <$> out_inner_payload,
            match out_inner_payload with
            | Some _ => (λ _, GXFP_BB010003_PAYLOAD_LEN) <$> out_inner_payload_len
            | None => (λ _, 0) <$> out_inner_payload_len
            end)
    end
  end.

Definition gxfp_payload_build_bb010003 (psk32 seed32 : ptr bytes) (out_wb_data : ptr (ptr bytes))
    (out_wb_data_len : ptr Z) (out_inner_payload : ptr (ptr bytes)) (out_inner_payload_len : ptr Z)
    : M lworld bb010003_out :=
  match psk32, seed32, out_wb_data, out_wb_data_len with
  | Some psk, Some seed, Some _, Some _ =>
    let fail rc : M lworld bb010003_out := mret (bb010003_none out_inner_payload out_inner_payload_len rc) in
    key_aes ← u_stack 32;
    key_hmac ← u_stack 32;
    seed16 ← u_stack 16;
    hdr ← u_stack 6;
    aad ← u_stack 16;
    cipher ← u_stack 32;
    tag ← u_stack 16;
    hmac_out ← u_stack 32;
    '(rc, key_aes, key_hmac) ← gxfp_payload_derive_key_material (Some seed) (Some key_aes) (Some key_hmac);
    if rc <? 0 then fail rc else
    key_aes ← lift key_aes;
    key_hmac ← lift key_hmac;
    '(rc, seed16) ← gxfp_payload_calc_seed16 (Some psk) GXFP_PSK_LEN (Some seed16);
    if rc <? 0 then fail rc else
    seed16 ← lift seed16;
    hdr ← lift (fill_ff02_len_hdr hdr GXFP_PSK_LEN);
    aad ← lift (fill_tls_gcm_aad aad);
    '(rc, gcm) ← gets (λ w, mbedtls_gcm_setkey w gcm_blank MBEDTLS_CIPHER_ID_AES key_aes 256);
    if negb (rc =? 0) then fail (- EIO) else
    pt ← lift (slice psk 0 GXFP_PSK_LEN);
    '(rc, (c, t)) ← gets (λ w, mbedtls_gcm_encrypt_and_tag w gcm seed16 aad pt);
    cipher ← lift (blit cipher 0 c);
    tag ← lift (blit tag 0 t);
    if negb (rc =? 0) then fail (- EIO) else
    bb010003_assemble key_hmac seed16 hdr cipher tag hmac_out out_inner_payload out_inner_payload_len
  | _, _, _, _ => mret (- EINVAL, out_wb_data, out_wb_data_len, out_inner_payload, out_inner_payload_len)
  end.

Definition gxfp_payload_build_bb020003_hash_prefix (bb010003_wb_data : ptr bytes)
    (bb010003_wb_data_len : Z) (out_hash : ptr bytes) (out_hash_len : Z) : M lworld (Z * ptr bytes) :=
  match bb010003_wb_data, out_hash with
  | Some wb, Some out =>
    if bb010003_wb_data_len =? 0 then mret (- EINVAL, Some out) else
    if (out_hash_len =? 0) || (48 <? out_hash_len) then mret (- EINVAL, Some out) else
    digest ← u_stack 48;
    m ← lift (slice wb 0 bb010003_wb_data_len);
    '(rc, d) ← gets (λ w, mbedtls_sha512 w m 1);
    digest ← lift (blit digest 0 d);
    if negb (rc =? 0) then mret (- EIO, Some out) else
    out ← lift (memcpy out 0 digest 0 out_hash_len);
    mret (0, Some out)
  | _, _ => mret (- EINVAL, out_hash)
  end.

(** The writes into the new blob. *)
Definition fill_bb010002 (out : bytes) (sealed_psk : ptr bytes) (sealed_psk_len : Z) (seed8 wb : bytes)
    (wb_len : Z) : option bytes :=
  out ← enc32_at out 0 0xBB010002;
  out ← enc32_at out 4 (u32 (sealed_psk_len + 8));
  out ← (if negb (sealed_psk_len =? 0) then s ← sealed_psk; memcpy out 8 s 0 sealed_psk_len else Some out);
  let off := 8 + sealed_psk_len in
  out ← memcpy out off seed8 0 8;
  let off := off + 8 in
  out ← enc32_at out off 0xBB010003;
  let off := off + 4 in
  out ← enc32_at out off (u32 wb_len);
  let off := off + 4 in
  memcpy out off wb 0 wb_len.

Definition gxfp_payload_build_bb010002 (sealed_psk : ptr bytes) (sealed_psk_len : Z) (seed8 : ptr bytes)
    (bb010003_wb_data : ptr bytes) (bb010003_wb_data_len : Z) (pad4 : bool) (out_blob : ptr (ptr bytes))
    (out_blob_len : ptr Z) : M lworld (Z * ptr (ptr bytes) * ptr Z) :=
  match seed8, bb010003_wb_data, out_blob, out_blob_len with
  | Some seed8, Some wb, Some _, Some _ =>
    if bool_decide (sealed_psk = None) && negb (sealed_psk_len =? 0) || (bb010003_wb_data_len =? 0)
    then mret (- EINVAL, out_blob, out_blob_len) else
    if 0xFFFFFFFF - 8 <? sealed_psk_len then mret (- EOVERFLOW, out_blob, out_blob_len) else
    if 0xFFFFFFFF <? bb010003_wb_data_len then mret (- EOVERFLOW, out_blob, out_blob_len) else
    let out_len := u64 (8 + sealed_psk_len + 8 + 8 + bb010003_wb_data_len) in
    let out_len := if pad4 then Z.land (u64 (out_len + 3)) ALIGN4_MASK else out_len in
    p ← umalloc out_len;
    match p with
    | None => mret (- ENOMEM, out_blob, out_blob_len)
    | Some _ =>
      out ← lift (fill_bb010002 (zeros out_len) sealed_psk sealed_psk_len seed8 wb bb010003_wb_data_len);
      mret (0, Some (Some out), Some out_len)
    end
  | _, _, _, _ => mret (- EINVAL, out_blob, out_blob_len)
  end.
End provision.

(** * What the payloads are *)

Section spec.
Context {C : Mbedcrypto} {CK : MbedcryptoOk C}.

(** The key derivation: HMAC in counter mode, the counter with its high byte first, 48
    bytes. The keys of the cipher and of the checksum overlap in 16 of them. *)
Definition be32 (v : Z) : bytes := rev (le_enc 4 v).
Definition kdf_output (seed : bytes) : bytes := hmac256 seed (be32 1 ++ base) ++ hmac256 seed (be32 2 ++ base).
Definition key_material (seed : bytes) : bytes * bytes :=
  (ztake 32 (kdf_output seed), ztake 32 (zdrop 16 (kdf_output seed))).

(** What the initialisation vector is a digest of: the first quarter of the key only. *)
Definition seed_message (psk : bytes) (n : Z) : bytes :=
  [2; 255] ++ le_enc 4 n ++ ztake (n / 4) psk ++ concat (replicate 16 [3; 0; 0; 0]).
Definition seed16_of (psk : bytes) (n : Z) : bytes := ztake 16 (sha256 (seed_message psk n)).

Definition ff02_header : bytes := [2; 255] ++ le_enc 4 32.
Definition tls_aad : bytes :=
  le_enc 4 0xF0C12D52 ++ le_enc 4 0x077D5699 ++ le_enc 4 0xA3377FF4 ++ le_enc 4 0x7D42842A.

(** The receiver, who has the seed: it checks the checksum and decrypts the key. *)
Definition wb_open (seed wb : bytes) : option bytes :=
  let '(ka, kh) := key_material seed in
  let mac := ztake 32 wb in
  let hdr := ztake 6 (zdrop 32 wb) in
  let iv := ztake 16 (zdrop 38 wb) in
  let c := ztake 32 (zdrop 54 wb) in
  let t := zdrop 86 wb in
  if bool_decide (hdr = ff02_header) && bool_decide (mac = hmac256 kh (hdr ++ c ++ t))
  then aes_gcm_open ka iv tls_aad c t else None.
End spec.

(** The blob of the upload, and its reader: the sealed key, the seed of the seal, the
    payload, the padding. *)
Definition bb010002 (sealed seed8 wb : bytes) : bytes :=
  le_enc 4 0xBB010002 ++ le_enc 4 (zlen sealed + 8) ++ sealed ++ seed8 ++
  le_enc 4 0xBB010003 ++ le_enc 4 (zlen wb) ++ wb.

(** One tagged field. *)
Definition read_tlv (b : bytes) : option (Z * bytes * bytes) :=
  if 8 <=? zlen b then
    let n := le_dec (ztake 4 (zdrop 4 b)) in
    if n <=? zlen b - 8 then Some (le_dec (ztake 4 b), ztake n (zdrop 8 b), zdrop (8 + n) b) else None
  else None.
Definition bb010002_open (b : bytes) : option (bytes * bytes * bytes * bytes) :=
  '(t1, v1, b) ← read_tlv b;
  '(t2, v2, b) ← read_tlv b;
  if (t1 =? 0xBB010002) && (t2 =? 0xBB010003) && (8 <=? zlen v1)
  then Some (ztake (zlen v1 - 8) v1, zdrop (zlen v1 - 8) v1, v2, b) else None.

(** * Lemmas *)

Lemma enc32_app p a q off v :
  zlen p = off → zlen a = 4 → enc32_at (p ++ a ++ q) off v = Some (p ++ le_enc 4 v ++ q).
Proof.
  intros Hp Ha. pose proof (zlen_nonneg p). pose proof (zlen_nonneg q). unfold enc32_at.
  rewrite !zlen_app, Ha, Hp, !(proj2 (Z.leb_le _ _)) by lia. cbn [andb].
  rewrite zdrop_app, ztake_app by done.
  destruct a as [|x0 [|x1 [|x2 [|x3 [|x4 a]]]]]; try discriminate Ha; cycle 1.
  { rewrite !zlen_cons in Ha. pose proof (zlen_nonneg a). lia. }
  cbn [app]. by rewrite le32enc_run.
Qed.

Lemma enc32_eq b off v p a q :
  b = p ++ a ++ q → zlen p = off → zlen a = 4 → enc32_at b off v = Some (p ++ le_enc 4 v ++ q).
Proof. intros ->. apply enc32_app. Qed.

Lemma enc32_len b off v b' : enc32_at b off v = Some b' → zlen b' = zlen b ∧ off + 4 <= zlen b.
Proof.
  unfold enc32_at. destruct (Z.leb_spec 0 off); [|done]. destruct (Z.leb_spec off (zlen b)); [|done]. cbn [andb].
  destruct (gxfp_le32enc (zdrop off b) v) as [t|] eqn:Et; [|done]. cbn. intros [= <-].
  assert (Ht : zlen t = zlen (zdrop off b) ∧ 4 <= zlen (zdrop off b)).
  { destruct (zdrop off b) as [|x0 [|x1 [|x2 [|x3 r]]]]; try discriminate Et.
    rewrite le32enc_run in Et. assert (t = le_enc 4 v ++ r) as -> by congruence.
    rewrite zlen_app, zlen_le_enc, !zlen_cons. pose proof (zlen_nonneg r). lia. }
  rewrite zlen_zdrop in Ht by lia. rewrite zlen_app, zlen_ztake by lia. lia.
Qed.

(** A whole array is filled. *)
Lemma blit_fresh u s n : zlen u = n → zlen s = n → blit u 0 s = Some s.
Proof.
  intros Hu Hs. rewrite (blit_eq u 0 s [] u []); [by rewrite app_nil_r|by rewrite app_nil_r|done|lia].
Qed.

(** The next part of a buffer that is filled from the front. *)
Lemma memcpy_next p u q off s soff n m :
  slice s soff n = Some m → zlen p = off → zlen u = n → memcpy (p ++ u ++ q) off s soff n = Some (p ++ m ++ q).
Proof.
  intros Hs Hp Hu. unfold memcpy. rewrite Hs. cbn [mbind option_bind].
  apply slice_inv in Hs as (_ & _ & _ & _ & Hm). apply blit_app; [done|lia].
Qed.

(** A buffer, cut in two. *)
Lemma zcut n k (b : bytes) :
  zlen b = n → 0 <= k <= n → ∃ x y, b = x ++ y ∧ zlen x = k ∧ zlen y = n - k.
Proof.
  intros Hb Hk. exists (ztake k b), (zdrop k b). by rewrite ztake_zdrop, zlen_ztake, zlen_zdrop, Hb by lia.
Qed.

Lemma memcpy_first u q s soff n m :
  slice s soff n = Some m → zlen u = n → memcpy (u ++ q) 0 s soff n = Some (m ++ q).
Proof. intros Hs Hu. by apply (memcpy_next [] u q). Qed.

(** No call is made to the system; memory that does not run out stays so. *)
Definition silent (w w' : lworld) : Prop :=
  l_dev w' = l_dev w ∧ l_trace w' = l_trace w ∧ (l_oom w = [] → l_oom w' = []).

Lemma silent_refl w : silent w w.
Proof. done. Qed.
Lemma silent_pop w : silent w (pop_alloc w).
Proof. split; [done|]. split; [done|]. intros H. cbn. by rewrite H. Qed.
Lemma silent_trans w1 w2 w3 : silent w1 w2 → silent w2 w3 → silent w1 w3.
Proof. intros (? & ? & ?) (? & ? & ?). split; [congruence|]. split; [congruence|auto]. Qed.
#[export] Instance silent_preorder : PreOrder silent.
Proof. split; [exact silent_refl|exact silent_trans]. Qed.

Section rules.
Context {E : Uenv} {EO : UenvOk E} {C : Mbedcrypto} {CK : MbedcryptoOk C}.

(** Every primitive succeeds. *)
Definition crypto_works : Prop := ∀ w,
  md_info_sha256 w = true ∧ (∀ k m, (mbedtls_md_hmac w k m).1 = 0) ∧ (∀ m, (mbedtls_sha256 w m 0).1 = 0) ∧
  (∀ m, (mbedtls_sha512 w m 1).1 = 0) ∧
  (∀ g k, (mbedtls_gcm_setkey w g MBEDTLS_CIPHER_ID_AES k 256).1 = 0) ∧
  (∀ g iv aad pt, (mbedtls_gcm_encrypt_and_tag w g iv aad pt).1 = 0).

Lemma hmac_run key msg out w :
  zlen key = 32 → zlen out = 32 →
  ∃ r o, hmac_sha256 key 32 msg (zlen msg) out w = Some ((r, o), w) ∧ zlen o = 32 ∧
    (r = 0 ∧ o = hmac256 key msg ∨ r = - EIO ∧ ¬ crypto_works).
Proof using CK.
  intros Hk Ho. unfold hmac_sha256. rewrite bind_gets. destruct (md_info_sha256 w) eqn:Hmd; cbn [negb].
  2: { exists (- EIO), out. split; [done|]. split; [done|]. right. split; [done|]. intros Hw. destruct (Hw w). congruence. }
  rewrite (slice_full key 32), bind_lift, (slice_full msg), bind_lift, bind_gets by done.
  pose proof (hmac_len w key msg) as Hl. pose proof (hmac_is w key msg) as Hi.
  pose proof (λ Hw : crypto_works, proj1 (proj2 (Hw w)) key msg) as Hgo.
  destruct (mbedtls_md_hmac w key msg) as [rc d]. cbn [fst snd] in *.
  rewrite (blit_fresh out d 32), bind_lift by done. destruct (Z.eqb_spec rc 0) as [->|Hne]; cbn [negb].
  - exists 0, d. split; [done|]. split; [done|]. left. auto.
  - exists (- EIO), d. split; [done|]. split; [done|]. right. split; [done|]. intros Hw. auto.
Qed.

Lemma local78_run ctr msg :
  ctr = 1 ∨ ctr = 2 → 4 <= zlen msg → local78_from_ctr ctr msg = Some (be32 ctr ++ zdrop 4 msg).
Proof using Type.
  intros Hc Hl. unfold local78_from_ctr. cbv zeta.
  rewrite (enc32_eq msg 0 _ [] (ztake 4 msg) (zdrop 4 msg)); [|by rewrite ztake_zdrop|done|by apply zlen_ztake].
  destruct Hc as [-> | ->]; reflexivity.
Qed.

Lemma kdf_message ctr msg :
  ctr = 1 ∨ ctr = 2 → zlen msg = 33 →
  (msg ← local78_from_ctr ctr msg; memcpy msg 4 base 0 (zlen base)) = Some (be32 ctr ++ base).
Proof using Type.
  intros Hc Hl. rewrite local78_run by (done || lia). cbn [mbind option_bind].
  rewrite <- (app_nil_r (be32 ctr ++ zdrop 4 msg)), <- app_assoc.
  rewrite (memcpy_next (be32 ctr) (zdrop 4 msg) [] 4 base 0 (zlen base) base); [by rewrite app_nil_r| |done|].
  - by apply slice_full.
  - rewrite zlen_zdrop by lia. rewrite Hl. done.
Qed.

Lemma zlen_kdf ctr : zlen (be32 ctr ++ base) = 33.
Proof using Type. done. Qed.

Lemma derive_run seed a h w :
  zlen seed = 32 → zlen a = 32 → zlen h = 32 →
  ∃ r a' h', gxfp_payload_derive_key_material (Some seed) (Some a) (Some h) w = Some ((r, Some a', Some h'), w) ∧
    zlen a' = 32 ∧ zlen h' = 32 ∧ (r = 0 ∧ (a', h') = key_material seed ∨ r = - EIO ∧ ¬ crypto_works).
Proof using EO CK.
  intros Hs Ha Hh. unfold gxfp_payload_derive_key_material, u_stack. rewrite !bind_gets.
  assert (Hu : zlen (u_uninit (l_trace w) (4 + zlen base)) = 33) by (by rewrite u_uninit_len).
  pose proof (kdf_message 1 _ (or_introl eq_refl) Hu) as E1. apply opt_bind_inv in E1 as (m1 & E1 & E1').
  rewrite E1, bind_lift, E1', bind_lift, zlen_kdf.
  destruct (hmac_run seed (be32 1 ++ base) (u_uninit (l_trace w) 32) w Hs) as (r1 & o1 & R1 & Hl1 & H1); [by apply u_uninit_len|].
  rewrite (run_bind _ _ _ _ _ R1). cbv beta iota.
  destruct H1 as [(-> & Ho1)|(-> & Hw)].
  2: { change (- EIO <? 0) with true. cbv iota. exists (- EIO), a, h. split; [done|]. split; [done|]. split; [done|]. by right. }
  change (0 <? 0) with false. cbv iota.
  pose proof (kdf_message 2 (be32 1 ++ base) (or_intror eq_refl) eq_refl) as E2. apply opt_bind_inv in E2 as (m2 & E2 & E2').
  rewrite E2, bind_lift, E2', bind_lift, zlen_kdf.
  destruct (hmac_run seed (be32 2 ++ base) (u_uninit (l_trace w) 32) w Hs) as (r2 & o2 & R2 & Hl2 & H2); [by apply u_uninit_len|].
  rewrite (run_bind _ _ _ _ _ R2). cbv beta iota.
  destruct H2 as [(-> & Ho2)|(-> & Hw)].
  2: { change (- EIO <? 0) with true. cbv iota. exists (- EIO), a, h. split; [done|]. split; [done|]. split; [done|]. by right. }
  change (0 <? 0) with false. cbv iota.
  unfold memcpy. rewrite (slice_full o1 32) by done. cbn [mbind option_bind].
  rewrite (blit_fresh a o1 32), bind_lift by done.
  assert (Hsplit : ∀ o, zlen o = 32 → o = ztake 16 o ++ zdrop 16 o ∧ zlen (ztake 16 o) = 16 ∧ zlen (zdrop 16 o) = 16).
  { intros o Hl. rewrite ztake_zdrop, zlen_ztake, zlen_zdrop by lia. split; [done|lia]. }
  destruct (Hsplit o1 Hl1) as (S1 & La1 & Lb1), (Hsplit o2 Hl2) as (S2 & La2 & Lb2), (Hsplit h Hh) as (S3 & La3 & Lb3).
  set (a1 := ztake 16 o1) in *. set (b1 := zdrop 16 o1) in *. set (a2 := ztake 16 o2) in *. set (b2 := zdrop 16 o2) in *.
  clearbody a1 b1 a2 b2.
  assert (G1 : slice o1 16 16 = Some b1) by (rewrite S1; by rewrite <- (slice_app a1 b1 [] 16 16), app_nil_r).
  assert (G2 : slice o2 0 16 = Some a2) by (rewrite S2; by apply slice_prefix).
  rewrite G1. cbn [mbind option_bind].
  rewrite (blit_eq h 0 b1 [] (ztake 16 h) (zdrop 16 h)), bind_lift by (done || lia).
  rewrite G2. cbn [mbind option_bind app].
  rewrite (blit_eq (b1 ++ zdrop 16 h) 16 a2 b1 (zdrop 16 h) []), bind_lift by (by rewrite app_nil_r || done || lia).
  exists 0, o1, (b1 ++ a2 ++ []). split; [done|]. split; [done|]. split; [by rewrite !zlen_app, Lb1, La2|].
  left. split; [done|]. unfold key_material, kdf_output. rewrite <- Ho1, <- Ho2, app_nil_r. f_equal.
  - by rewrite ztake_app.
  - rewrite S1 at 1. rewrite S2 at 1. rewrite <- app_assoc, zdrop_app, app_assoc, ztake_app by (rewrite ?zlen_app; lia). done.
Qed.

(** ** The initialisation vector *)

Lemma marks_run n i p u :
  zlen u = 4 * Z.of_nat n →
  forN n i (λ _ '(buf, off), buf ← enc32_at buf off 3; Some (buf, off + 4)) (p ++ u, zlen p)
  = Some (p ++ concat (replicate n [3; 0; 0; 0]), zlen p + 4 * Z.of_nat n).
Proof using Type.
  revert i p u. induction n as [|n IH]; intros i p u Hu; cbn [forN].
  { destruct u; [|rewrite zlen_cons in Hu; pose proof (zlen_nonneg u); lia]. cbn [replicate concat].
    cbn [mret option_ret]. do 2 f_equal. lia. }
  rewrite (enc32_eq (p ++ u) (zlen p) 3 p (ztake 4 u) (zdrop 4 u)); [|by rewrite ztake_zdrop|done|apply zlen_ztake; lia].
  cbn [mbind option_bind]. change (le_enc 4 3) with [3; 0; 0; 0]. rewrite app_assoc.
  replace (zlen p + 4) with (zlen (p ++ [3; 0; 0; 0])) by (rewrite zlen_app; done).
  rewrite IH by (rewrite zlen_zdrop; lia). cbn [replicate concat]. rewrite <- app_assoc, zlen_app.
  change (zlen [3; 0; 0; 0]) with 4. do 2 f_equal. lia.
Qed.

Lemma seed_message_run psk n u :
  0 < n < 2 ^ 32 → n <= zlen psk → zlen u = 6 + n / 4 + 64 →
  (buf ← wr u 0 2; buf ← wr buf 1 255; buf ← enc32_at buf 2 (u32 n); buf ← memcpy buf 6 psk 0 (Z.shiftr n 2);
   '(buf, off) ← forN 16 0 (λ _ '(buf, off), buf ← enc32_at buf off 3; Some (buf, off + 4)) (buf, 6 + Z.shiftr n 2);
   m ← slice buf 0 off; Some (off, m)) = Some (zlen (seed_message psk n), seed_message psk n).
Proof using Type.
  intros Hn Hp Hu. rewrite Z.shiftr_div_pow2 by lia. change (2 ^ 2) with 4.
  assert (Hq : 0 <= n / 4 <= n) by zdm.
  assert (Eu : ∃ u0 u1 v r, u = u0 :: u1 :: v ++ r ∧ zlen v = 4 ∧ zlen r = n / 4 + 64).
  { destruct u as [|u0 [|u1 u]]; [change (zlen []) with 0 in Hu; lia|change (zlen [u0]) with 1 in Hu; lia|]. rewrite !zlen_cons in Hu.
    exists u0, u1, (ztake 4 u), (zdrop 4 u). rewrite ztake_zdrop. split; [done|].
    rewrite zlen_ztake, zlen_zdrop by lia. lia. }
  destruct Eu as (u0 & u1 & v & r & -> & Hv & Hr). rewrite wr_0. cbn [mbind option_bind]. rewrite wr_1. cbn [mbind option_bind].
  rewrite (enc32_eq _ 2 (u32 n) [2; 255] v r) by done. cbn [mbind option_bind].
  set (k := ztake (n / 4) psk). assert (Hk : zlen k = n / 4) by (apply zlen_ztake; lia).
  replace ([2; 255] ++ le_enc 4 (u32 n) ++ r) with (([2; 255] ++ le_enc 4 n) ++ ztake (n / 4) r ++ zdrop (n / 4) r).
  2: { rewrite ztake_zdrop, <- app_assoc. replace (u32 n) with n; [done|]. symmetry. apply Z.mod_small. lia. }
  rewrite (memcpy_next _ (ztake (n / 4) r) _ 6 psk 0 (n / 4) k); cycle 1.
  { by rewrite slice_Some, zdrop_0 by lia. }
  { by rewrite zlen_app, zlen_le_enc. }
  { apply zlen_ztake. lia. }
  cbn [mbind option_bind].
  replace (6 + n / 4) with (zlen (([2; 255] ++ le_enc 4 n) ++ k)) by (rewrite !zlen_app, zlen_le_enc, Hk; done).
  rewrite app_assoc, (marks_run 16) by (rewrite zlen_zdrop; lia). cbn [mbind option_bind].
  assert (Es : (([2; 255] ++ le_enc 4 n) ++ k) ++ concat (replicate 16 [3; 0; 0; 0]) = seed_message psk n).
  { unfold seed_message. by rewrite <- !app_assoc. }
  assert (El : zlen (([2; 255] ++ le_enc 4 n) ++ k) + 4 * Z.of_nat 16 = zlen (seed_message psk n)).
  { by rewrite <- Es, (zlen_app (_ ++ k)). }
  rewrite Es, El, slice_full by done. done.
Qed.

Lemma seed16_wp psk n out w :
  0 < n < 2 ^ 32 → n <= zlen psk → zlen out = 16 →
  wp (gxfp_payload_calc_seed16 (Some psk) n (Some out))
     (λ '(r, o) w', silent w w' ∧ ∃ o', o = Some o' ∧ zlen o' = 16 ∧
        (r = 0 ∧ o' = seed16_of psk n ∨ (r = - EIO ∨ r = - ENOMEM) ∧ (l_oom w = [] → ¬ crypto_works))) w.
Proof using EO CK.
  intros Hn Hp Ho. unfold gxfp_payload_calc_seed16. rewrite (proj2 (Z.eqb_neq n 0)) by lia. cbv zeta.
  assert (Hq : 0 <= n / 4 <= n) by zdm.
  assert (Hs : Z.shiftr n 2 = n / 4) by (by rewrite Z.shiftr_div_pow2 by lia).
  apply wp_bind, malloc_wp.
  { intros Hoom. apply wp_ret. split; [apply silent_pop|]. exists out. split; [done|]. split; [done|]. right. split; [by right|done]. }
  intros u Hu _. assert (Hz : zlen u = 6 + n / 4 + 64).
  { rewrite Hs in Hu. replace (u64 (6 + n / 4 + 64)) with (6 + n / 4 + 64) in Hu by zint. apply Hu. lia. }
  pose proof (seed_message_run psk n u Hn Hp Hz) as Em.
  apply opt_bind_inv in Em as (b1 & E1 & Em). apply opt_bind_inv in Em as (b2 & E2 & Em).
  apply opt_bind_inv in Em as (b3 & E3 & Em). apply opt_bind_inv in Em as (b4 & E4 & Em).
  apply opt_bind_inv in Em as ([b5 off] & E5 & Em). apply opt_bind_inv in Em as (m & E6 & Em).
  injection Em as Eoff Em. apply wp_bind. eapply wp_lift; [exact E1|]. apply wp_bind. eapply wp_lift; [exact E2|].
  apply wp_bind. eapply wp_lift; [exact E3|]. apply wp_bind. eapply wp_lift; [exact E4|].
  apply wp_bind. eapply wp_lift; [exact E5|]. apply wp_bind, wp_gets.
  apply wp_bind. eapply wp_lift; [exact E6|]. apply wp_bind, wp_gets. rewrite Em.
  set (w1 := pop_alloc w). pose proof (sha256_len w1 (seed_message psk n)) as Hl.
  pose proof (sha256_is w1 (seed_message psk n)) as Hi.
  pose proof (λ Hw : crypto_works, proj1 (proj2 (proj2 (Hw w1))) (seed_message psk n)) as Hgo.
  destruct (mbedtls_sha256 w1 (seed_message psk n) 0) as [rc d]. cbn [fst snd] in *.
  apply wp_bind. eapply wp_lift; [by apply (blit_fresh _ d 32); [apply u_uninit_len|]|].
  destruct (Z.eqb_spec rc 0) as [->|Hne]; cbn [negb].
  - apply wp_bind. eapply (wp_lift _ (ztake 16 d)).
    { unfold memcpy. rewrite slice_Some, zdrop_0 by lia. cbn [mbind option_bind]. apply (blit_fresh _ _ 16); [done|].
      apply zlen_ztake. lia. }
    apply wp_ret. split; [apply silent_pop|]. eexists. split; [done|]. split; [apply zlen_ztake; lia|]. left.
    split; [done|]. unfold seed16_of. by rewrite <- Hi.
  - apply wp_ret. split; [apply silent_pop|]. exists out. split; [done|]. split; [done|]. right. split; [by left|].
    intros _ Hw. auto.
Qed.

(** ** The sealed payload *)

Lemma hdr_run h : zlen h = 6 → fill_ff02_len_hdr h 32 = Some ff02_header.
Proof using Type.
  intros Hh. destruct h as [|h0 [|h1 h]]; [done|done|]. rewrite !zlen_cons in Hh.
  unfold fill_ff02_len_hdr. rewrite wr_0. cbn [mbind option_bind]. rewrite wr_1. cbn [mbind option_bind].
  rewrite (enc32_eq _ 2 32 [2; 255] h []); [done|by rewrite app_nil_r|done|lia].
Qed.

Lemma aad_run a : zlen a = 16 → fill_tls_gcm_aad a = Some tls_aad.
Proof using Type.
  intros Ha. unfold fill_tls_gcm_aad. destruct (zcut 16 4 a Ha) as (x1 & r1 & -> & H1 & R1); [lia|].
  rewrite (enc32_eq _ 0 _ [] x1 r1) by done. cbn [mbind option_bind app].
  destruct (zcut 12 4 r1 R1) as (x2 & r2 & -> & H2 & R2); [lia|].
  rewrite (enc32_app _ x2 r2 4) by done. cbn [mbind option_bind].
  destruct (zcut 8 4 r2 R2) as (x3 & x4 & -> & H3 & R3); [lia|].
  rewrite (enc32_eq _ 8 _ (le_enc 4 0xF0C12D52 ++ le_enc 4 0x077D5699) x3 x4) by (by rewrite <- ?app_assoc). cbn [mbind option_bind].
  rewrite (enc32_eq _ 12 _ ((le_enc 4 0xF0C12D52 ++ le_enc 4 0x077D5699) ++ le_enc 4 0xA3377FF4) x4 []).
  - by rewrite app_nil_r, <- !app_assoc.
  - by rewrite app_nil_r, <- !app_assoc.
  - done.
  - lia.
Qed.

(** Four parts, one behind the other. *)
Lemma payload_run u hdr iv c t :
  zlen u = 70 → zlen hdr = 6 → zlen iv = 16 → zlen c = 32 → zlen t = 16 →
  (p ← memcpy u 0 hdr 0 6; p ← memcpy p 6 iv 0 16; p ← memcpy p 22 c 0 32; memcpy p 54 t 0 16)
  = Some (hdr ++ iv ++ c ++ t).
Proof using Type.
  intros Hu Hh Hi Hc Ht. destruct (zcut 70 6 u Hu) as (u1 & r1 & -> & H1 & R1); [lia|].
  rewrite (memcpy_first u1 r1 hdr 0 6 hdr) by (done || by apply slice_full). cbn [mbind option_bind].
  destruct (zcut 64 16 r1 R1) as (u2 & r2 & -> & H2 & R2); [lia|].
  rewrite (memcpy_next hdr u2 r2 6 iv 0 16 iv) by (done || by apply slice_full). cbn [mbind option_bind].
  destruct (zcut 48 32 r2 R2) as (u3 & u4 & -> & H3 & R3); [lia|].
  rewrite (app_assoc hdr iv (u3 ++ u4)), (memcpy_next (hdr ++ iv) u3 u4 22 c 0 32 c) by (done || (by apply slice_full) || (rewrite zlen_app; lia)).
  cbn [mbind option_bind]. rewrite (app_assoc (hdr ++ iv) c u4), <- (app_nil_r u4).
  rewrite (memcpy_next ((hdr ++ iv) ++ c) u4 [] 54 t 0 16 t) by ((by apply slice_full) || (rewrite ?zlen_app; lia)).
  by rewrite app_nil_r, <- !app_assoc.
Qed.

Lemma wb_hmac_run key hdr iv c t o w :
  zlen key = 32 → zlen hdr = 6 → zlen iv = 16 → zlen c = 32 → zlen t = 16 → zlen o = 32 →
  ∃ r o', compute_bb010003_wb_hmac key (hdr ++ iv ++ c ++ t) o w = Some ((r, o'), w) ∧ zlen o' = 32 ∧
    (r = 0 ∧ o' = hmac256 key (hdr ++ c ++ t) ∨ r = - EIO ∧ ¬ crypto_works).
Proof using EO CK.
  intros Hk Hh Hi Hc Ht Ho. unfold compute_bb010003_wb_hmac, u_stack. rewrite bind_gets.
  set (u := u_uninit _ _). assert (Hu : zlen u = 54) by (by apply u_uninit_len). clearbody u.
  change (GXFP_BB010003_HDR_LEN + GXFP_BB010003_SEED16_LEN) with 22. change GXFP_BB010003_HDR_LEN with 6.
  change (22 + GXFP_PSK_LEN) with 54. change (6 + GXFP_PSK_LEN) with 38. change GXFP_PSK_LEN with 32.
  change GXFP_BB010003_TAG_LEN with 16.
  destruct (zcut 54 6 u Hu) as (u1 & r1 & -> & H1 & R1); [lia|].
  rewrite (memcpy_first u1 r1 _ 0 6 hdr), bind_lift by (done || by apply slice_prefix).
  destruct (zcut 48 32 r1 R1) as (u2 & u3 & -> & H2 & R2); [lia|].
  rewrite (memcpy_next hdr u2 u3 6 _ 22 32 c), bind_lift; [|rewrite app_assoc; apply slice_app; [rewrite zlen_app; lia|done]|done|done].
  rewrite (app_assoc hdr c u3), <- (app_nil_r u3).
  rewrite (memcpy_next (hdr ++ c) u3 [] 38 _ 54 16 t), bind_lift; [| |rewrite zlen_app; lia|lia].
  2: { rewrite <- (app_nil_r t) at 1. rewrite !app_assoc, <- (app_assoc _ t). apply slice_app; [rewrite !zlen_app; lia|done]. }
  rewrite app_nil_r, <- (app_assoc hdr). by apply hmac_run.
Qed.
(** What the receiver finds in a payload whose parts are in their places. *)
Lemma wb_open_parts seed iv psk mac :
  zlen iv = 16 → zlen mac = 32 →
  let '(ka, kh) := key_material seed in
  let '(c, t) := aes_gcm ka iv tls_aad psk in
  zlen c = 32 → zlen t = 16 → mac = hmac256 kh (ff02_header ++ c ++ t) →
  wb_open seed (mac ++ ff02_header ++ iv ++ c ++ t) = Some psk.
Proof using Type.
  intros Hi Hm. destruct (key_material seed) as [ka kh] eqn:Ek. pose proof (gcm_opens ka iv tls_aad psk) as Ho.
  destruct (aes_gcm ka iv tls_aad psk) as [c t]. cbn [fst snd] in Ho. intros Hc Ht Hmac. unfold wb_open. rewrite Ek.
  rewrite ztake_app by done. set (b := mac ++ ff02_header ++ iv ++ c ++ t).
  assert (D1 : zdrop 32 b = ff02_header ++ iv ++ c ++ t) by by apply zdrop_app.
  assert (D2 : zdrop 38 b = iv ++ c ++ t).
  { change 38 with (32 + 6). rewrite <- zdrop_zdrop, D1 by lia. by apply zdrop_app. }
  assert (D3 : zdrop 54 b = c ++ t).
  { change 54 with (38 + 16). rewrite <- zdrop_zdrop, D2 by lia. by apply zdrop_app. }
  assert (D4 : zdrop 86 b = t).
  { change 86 with (54 + 32). rewrite <- zdrop_zdrop, D3 by lia. by apply zdrop_app. }
  rewrite D1, D2, D3, D4, !ztake_app by done. rewrite !bool_decide_eq_true_2 by done. exact Ho.
Qed.

(** A payload that opens, or nothing and the reason. *)
Definition seals (psk seed : bytes) (oip : ptr (ptr bytes)) (oipl : ptr Z) (w : lworld) (x : bb010003_out) : Prop :=
  (∃ b, zlen b = GXFP_BB010003_WB_LEN ∧
     x = (0, Some (Some b), Some (zlen b), (λ _, Some (zdrop 32 b)) <$> oip,
          (λ _, if bool_decide (oip = None) then 0 else 70) <$> oipl) ∧
     ztake 16 (zdrop 38 b) = seed16_of psk 32 ∧ wb_open seed b = Some psk) ∨
  (∃ r, (r = - EIO ∨ r = - ENOMEM) ∧ x = bb010003_none oip oipl r ∧ (l_oom w = [] → ¬ crypto_works)).

Lemma seals_none psk seed oip oipl w w' r :
  silent w w' → (r = - EIO ∨ r = - ENOMEM) → (l_oom w = [] → ¬ crypto_works) →
  silent w w' ∧ seals psk seed oip oipl w (bb010003_none oip oipl r).
Proof using Type. intros Hw Hr Hn. split; [done|]. right. by exists r. Qed.

Lemma assemble_wp psk seed ka kh iv c t o oip oipl w w0 :
  silent w0 w → key_material seed = (ka, kh) → zlen kh = 32 → iv = seed16_of psk 32 → zlen iv = 16 →
  aes_gcm ka iv tls_aad psk = (c, t) → zlen c = 32 → zlen t = 16 → zlen o = 32 →
  wp (bb010003_assemble kh iv ff02_header c t o oip oipl) (λ x w', silent w0 w' ∧ seals psk seed oip oipl w0 x) w.
Proof using EO CK.
  intros Hw Ek Hkh Eiv Hiv Ec Hc Ht Ho. unfold bb010003_assemble. cbv zeta.
  assert (Hoom : l_oom w ≠ [] → l_oom w0 = [] → ¬ crypto_works) by (intros H1 H2; by destruct H1; apply Hw).
  apply wp_bind, malloc_wp.
  { intros Hm. apply wp_ret, seals_none; [by rewrite Hw; apply silent_pop|by right|by apply Hoom]. }
  intros u Hu _. set (w1 := pop_alloc w). assert (Hw1 : silent w0 w1) by (rewrite Hw; apply silent_pop).
  pose proof (payload_run u ff02_header iv c t (Hu ltac:(done)) eq_refl Hiv Hc Ht) as Ep.
  apply opt_bind_inv in Ep as (p1 & E1 & Ep). apply opt_bind_inv in Ep as (p2 & E2 & Ep).
  apply opt_bind_inv in Ep as (p3 & E3 & Ep).
  apply wp_bind. eapply wp_lift; [exact E1|]. apply wp_bind. eapply wp_lift; [exact E2|].
  apply wp_bind. eapply wp_lift; [exact E3|]. apply wp_bind. eapply wp_lift; [exact Ep|].
  destruct (wb_hmac_run kh ff02_header iv c t o w1 Hkh eq_refl Hiv Hc Ht Ho) as (r & mac & Er & Hmac & Hr).
  apply wp_bind. eapply wp_eq; [exact Er|]. cbv beta iota. destruct Hr as [(-> & Emac)|(-> & Hn)].
  2: { change (- EIO <? 0) with true. apply wp_ret, seals_none; [done|by left|done]. }
  change (0 <? 0) with false. cbv iota. apply wp_bind, malloc_wp.
  { intros Hm. apply wp_ret, seals_none; [by rewrite Hw1; apply silent_pop|by right|].
    intros H0 _. apply Hm. by apply Hw1. }
  intros v Hv _. set (pl := ff02_header ++ iv ++ c ++ t).
  assert (Hpl : zlen pl = 70) by (unfold pl; rewrite !zlen_app, Hiv, Hc, Ht; done).
  destruct (zcut 102 32 v (Hv ltac:(done))) as (v1 & v2 & -> & Hv1 & Hv2); [lia|].
  apply wp_bind, (wp_lift _ (mac ++ v2)); [by apply memcpy_first; [apply slice_full|]|].
  apply wp_bind, (wp_lift _ (mac ++ pl)).
  { rewrite <- (app_nil_r v2), <- (app_nil_r pl) at 1. change GXFP_BB010003_WB_HMAC_LEN with 32.
    rewrite (memcpy_next mac v2 [] 32 _ 0 GXFP_BB010003_PAYLOAD_LEN pl); [by rewrite app_nil_r| |done|done].
    rewrite app_nil_r. by apply slice_full. }
  apply wp_ret. split; [by rewrite Hw1; apply silent_pop|]. left. exists (mac ++ pl).
  assert (Hl : zlen (mac ++ pl) = GXFP_BB010003_WB_LEN) by (rewrite zlen_app, Hmac, Hpl; done).
  rewrite Hl. split; [done|]. rewrite zdrop_app by done. split; [by destruct oip, oipl|]. split.
  - change 38 with (32 + 6). rewrite <- zdrop_zdrop, zdrop_app by (done || lia). unfold pl. rewrite zdrop_app, ztake_app; done.
  - pose proof (wb_open_parts seed iv psk mac Hiv Hmac) as Ho2. rewrite Ek, Ec in Ho2. by apply Ho2.
Qed.

Lemma build_wp psk seed owb olen oip oipl w :
  zlen psk = 32 → zlen seed = 32 →
  wp (gxfp_payload_build_bb010003 (Some psk) (Some seed) (Some owb) (Some olen) oip oipl)
     (λ x w', silent w w' ∧ seals psk seed oip oipl w x) w.
Proof using EO CK.
  intros Hp Hs. unfold gxfp_payload_build_bb010003. cbv zeta. unfold u_stack.
  do 8 (apply wp_bind, wp_gets).
  set (u := u_uninit (l_trace w)). assert (Hu : ∀ n, 0 <= n → zlen (u n) = n) by (intros; by apply u_uninit_len).
  destruct (derive_run seed (u 32) (u 32) w Hs) as (r1 & ka & kh & R1 & Hka & Hkh & H1); [by apply Hu|by apply Hu|].
  apply wp_bind. eapply wp_eq; [exact R1|]. cbv beta iota.
  destruct H1 as [(-> & Hkm)|(-> & Hn)].
  2: { change (- EIO <? 0) with true. apply wp_ret, seals_none; [done|by left|done]. }
  change (0 <? 0) with false. cbv iota. apply wp_bind, (wp_lift _ ka); [done|]. apply wp_bind, (wp_lift _ kh); [done|].
  apply wp_bind. eapply wp_mono; [apply (seed16_wp psk 32 (u 16) w); [done|lia|by apply Hu]|].
  intros [r2 o2] w2 (Hw2 & iv & -> & Hiv & H2). destruct H2 as [(-> & Eiv)|(Hr2 & Hn)].
  2: { rewrite (proj2 (Z.ltb_lt r2 0)) by by destruct Hr2 as [-> | ->]. by apply wp_ret, seals_none. }
  change (0 <? 0) with false. cbv iota. apply wp_bind, (wp_lift _ iv); [done|].
  apply wp_bind, (wp_lift _ ff02_header); [by apply hdr_run, Hu|].
  apply wp_bind, (wp_lift _ tls_aad); [by apply aad_run, Hu|]. apply wp_bind, wp_gets.
  pose proof (setkey_is w2 gcm_blank ka Hka) as Hset.
  pose proof (λ Hw : crypto_works, proj1 (proj2 (proj2 (proj2 (proj2 (Hw w2))))) gcm_blank ka) as Hgo.
  destruct (mbedtls_gcm_setkey w2 gcm_blank _ ka 256) as [rc g]. cbn [fst snd] in *.
  destruct (Z.eqb_spec rc 0) as [->|Hne]; cbn [negb].
  2: { apply wp_ret, seals_none; [done|by left|]. intros _ Hw. auto. }
  apply wp_bind, (wp_lift _ psk); [by apply slice_full|]. apply wp_bind, wp_gets.
  destruct (gcm_len w2 g iv tls_aad psk) as (Hcl & Htl).
  pose proof (gcm_is w2 g ka iv tls_aad psk (Hset eq_refl)) as Henc.
  pose proof (λ Hw : crypto_works, proj2 (proj2 (proj2 (proj2 (proj2 (Hw w2))))) g iv tls_aad psk) as Hgo2.
  destruct (mbedtls_gcm_encrypt_and_tag w2 g iv tls_aad psk) as [rc [c t]]. cbn [fst snd] in *. rewrite Hp in Hcl.
  apply wp_bind, (wp_lift _ c); [apply (blit_fresh _ c 32); [by apply Hu|done]|].
  apply wp_bind, (wp_lift _ t); [apply (blit_fresh _ t 16); [by apply Hu|done]|].
  destruct (Z.eqb_spec rc 0) as [->|Hne]; cbn [negb].
  2: { apply wp_ret, seals_none; [done|by left|]. intros _ Hw. auto. }
  apply (assemble_wp psk seed ka kh iv c t _ oip oipl w2 w); try done; [by rewrite Henc|by apply Hu].
Qed.
(** ** The blob of the upload *)

Lemma zlen_bb010002 s d wb : zlen (bb010002 s d wb) = 16 + zlen s + zlen d + zlen wb.
Proof using Type. unfold bb010002. rewrite !zlen_app, !zlen_le_enc. lia. Qed.

(** The bytes of the sealed key; without one the length is 0. *)
Definition sealed_key (sp : ptr bytes) : bytes := default [] sp.

Lemma fill_run out sp d wb :
  zlen d = 8 → zlen (sealed_key sp) + 8 < 2 ^ 32 → zlen wb < 2 ^ 32 →
  zlen (bb010002 (sealed_key sp) d wb) <= zlen out →
  fill_bb010002 out sp (zlen (sealed_key sp)) d wb (zlen wb)
  = Some (bb010002 (sealed_key sp) d wb ++ zdrop (zlen (bb010002 (sealed_key sp) d wb)) out).
Proof using Type.
  intros Hd Hs Hw Hl. rewrite zlen_bb010002, Hd in *. set (s := sealed_key sp) in *. set (n := zlen s) in *.
  pose proof (zlen_nonneg s : 0 <= n) as Hn. pose proof (zlen_nonneg wb). unfold fill_bb010002. cbv zeta.
  assert (Hu1 : u32 (n + 8) = n + 8) by (apply Z.mod_small; lia).
  assert (Hu2 : u32 (zlen wb) = zlen wb) by (apply Z.mod_small; lia).
  assert (Hrest : ∀ a b, a ++ b = out → zlen a = 16 + n + 8 + zlen wb → zdrop (16 + n + 8 + zlen wb) out = b).
  { intros a b <- Ha. by apply zdrop_app. }
  destruct (zcut _ 4 out eq_refl) as (x1 & r1 & E1 & H1 & R1); [lia|].
  destruct (zcut _ 4 r1 R1) as (x2 & r2 & E2 & H2 & R2); [lia|].
  destruct (zcut _ n r2 R2) as (x3 & r3 & E3 & H3 & R3); [lia|].
  destruct (zcut _ 8 r3 R3) as (x4 & r4 & E4 & H4 & R4); [lia|].
  destruct (zcut _ 4 r4 R4) as (x5 & r5 & E5 & H5 & R5); [lia|].
  destruct (zcut _ 4 r5 R5) as (x6 & r6 & E6 & H6 & R6); [lia|].
  destruct (zcut _ (zlen wb) r6 R6) as (x7 & r7 & E7 & H7 & R7); [lia|].
  rewrite (Hrest (x1 ++ x2 ++ x3 ++ x4 ++ x5 ++ x6 ++ x7) r7); cycle 1.
  { rewrite E1, E2, E3, E4, E5, E6, E7. by rewrite <- !app_assoc. }
  { rewrite !zlen_app. lia. }
  rewrite (enc32_eq out 0 _ [] x1 r1) by done. cbn [mbind option_bind app].
  rewrite E2, (enc32_app _ x2 r2 4), Hu1 by done. cbn [mbind option_bind].
  set (h := le_enc 4 3137404930 ++ le_enc 4 (n + 8)).
  assert (Hh : zlen h = 8) by done.
  assert (Es : (if negb (n =? 0) then s0 ← sp; memcpy (h ++ r2) 8 s0 0 n else Some (h ++ r2)) = Some (h ++ s ++ r3)).
  { destruct (Z.eqb_spec n 0) as [H0|H0]; cbn [negb].
    - rewrite E3. rewrite H0 in H3. apply zlen_0 in H3 as ->. apply zlen_0 in H0 as ->. done.
    - destruct sp as [b|]; [|done]. cbn [mbind option_bind]. rewrite E3. apply memcpy_next; [by apply slice_full|done|done]. }
  rewrite app_assoc. fold h. rewrite Es. cbn [mbind option_bind].
  rewrite E4, app_assoc, (memcpy_next (h ++ s) x4 r4 (8 + n) d 0 8 d); [|by apply slice_full|by rewrite zlen_app, Hh|done].
  cbn [mbind option_bind].
  rewrite E5, app_assoc, (enc32_app ((h ++ s) ++ d) x5 r5) by (done || (rewrite !zlen_app, Hh; fold n; lia)).
  cbn [mbind option_bind].
  rewrite E6, app_assoc, (enc32_app (((h ++ s) ++ d) ++ _) x6 r6), Hu2 by (done || (rewrite !zlen_app, zlen_le_enc, Hh; fold n; lia)).
  cbn [mbind option_bind].
  rewrite E7, app_assoc, (memcpy_next _ x7 r7 _ wb 0 (zlen wb) wb);
    [|by apply slice_full|rewrite !zlen_app, !zlen_le_enc, Hh; fold n; lia|done].
  unfold bb010002, h. by rewrite <- !app_assoc.
Qed.

(** Writing past the end of the block is not defined. *)
Lemma fill_short out sp d wb :
  zlen out < zlen (bb010002 (sealed_key sp) d wb) → zlen d = 8 →
  fill_bb010002 out sp (zlen (sealed_key sp)) d wb (zlen wb) = None.
Proof using Type.
  intros Hl Hd. rewrite zlen_bb010002, Hd in Hl. destruct (fill_bb010002 _ _ _ _ _ _) as [b|] eqn:Eb; [|done].
  exfalso. revert Eb. unfold fill_bb010002. cbv zeta. intros Eb.
  apply opt_bind_inv in Eb as (b1 & E1 & Eb). apply enc32_len in E1 as (L1 & _).
  apply opt_bind_inv in Eb as (b2 & E2 & Eb). apply enc32_len in E2 as (L2 & _).
  apply opt_bind_inv in Eb as (b3 & E3 & Eb).
  assert (L3 : zlen b3 = zlen b2).
  { destruct (negb _); [|by injection E3 as <-]. apply opt_bind_inv in E3 as (s & -> & E3).
    unfold memcpy in E3. apply opt_bind_inv in E3 as (x & _ & E3). by apply blit_inv in E3 as (_ & _ & _ & ?). }
  apply opt_bind_inv in Eb as (b4 & E4 & Eb). unfold memcpy in E4. apply opt_bind_inv in E4 as (x & _ & E4).
  apply blit_inv in E4 as (_ & _ & _ & L4).
  apply opt_bind_inv in Eb as (b5 & E5 & Eb). apply enc32_len in E5 as (L5 & _).
  apply opt_bind_inv in Eb as (b6 & E6 & Eb). apply enc32_len in E6 as (L6 & _).
  unfold memcpy in Eb. apply opt_bind_inv in Eb as (y & Ey & Eb).
  apply slice_inv in Ey as (_ & _ & _ & _ & Ly). apply blit_inv in Eb as (_ & L7 & _). lia.
Qed.

Lemma read_tlv_run t n v rest :
  is_u32 t → zlen v = n → is_u32 n → read_tlv (le_enc 4 t ++ le_enc 4 n ++ v ++ rest) = Some (t, v, rest).
Proof using Type.
  intros Ht Hv Hn. unfold read_tlv. rewrite !zlen_app, !zlen_le_enc, Hv. pose proof (zlen_nonneg rest).
  destruct Hn as [Hn0 Hn]. rewrite (proj2 (Z.leb_le 8 _)) by lia.
  rewrite ztake_app by apply zlen_le_enc. rewrite zdrop_app by apply zlen_le_enc. rewrite ztake_app by apply zlen_le_enc.
  rewrite !le_dec_enc, !Z.mod_small by done. rewrite (proj2 (Z.leb_le n _)) by lia.
  assert (E8 : zdrop 8 (le_enc 4 t ++ le_enc 4 n ++ v ++ rest) = v ++ rest).
  { change 8 with (4 + 4). rewrite <- zdrop_zdrop by lia. rewrite zdrop_app by apply zlen_le_enc.
    by apply zdrop_app, zlen_le_enc. }
  rewrite <- zdrop_zdrop, E8, ztake_app, zdrop_app by lia. done.
Qed.

Lemma blob_opens s d wb p :
  zlen d = 8 → zlen s + 8 < 2 ^ 32 → zlen wb < 2 ^ 32 → bb010002_open (bb010002 s d wb ++ p) = Some (s, d, wb, p).
Proof using Type.
  intros Hd Hs Hw. pose proof (zlen_nonneg s). pose proof (zlen_nonneg wb). unfold bb010002_open, bb010002.
  rewrite <- !app_assoc, (app_assoc s d), (read_tlv_run _ (zlen s + 8) (s ++ d)) by (done || (rewrite ?zlen_app; unfold is_u32; lia)).
  cbn [mbind option_bind]. rewrite read_tlv_run by (done || (unfold is_u32; lia)). cbn [mbind option_bind].
  rewrite !Z.eqb_refl, zlen_app, Hd, (proj2 (Z.leb_le 8 _)) by lia. cbn [andb].
  replace (zlen s + 8 - 8) with (zlen s) by lia. by rewrite ztake_app, zdrop_app.
Qed.
(** The mask keeps 32 bits. *)
Lemma mask4 x : 0 <= x → Z.land x ALIGN4_MASK = (x mod 2 ^ 32) / 4 * 4.
Proof using Type.
  intros Hx. change ALIGN4_MASK with (Z.land (Z.ones 32) ALIGN4_MASK).
  rewrite Z.land_assoc, Z.land_ones by lia. set (m := x mod 2 ^ 32).
  assert (Hm : 0 <= m < 2 ^ 32) by by apply Z.mod_pos_bound. clearbody m.
  destruct (Z.le_gt_cases 3 m) as [H3|H3].
  - pose proof (align4_spec (m - 3)) as H. replace (u64 (m - 3 + 3)) with m in H by zint.
    replace (m - 3 + 3) with m in H by lia. apply H. lia.
  - assert (m = 0 ∨ m = 1 ∨ m = 2) as [-> | [-> | ->]] by lia; reflexivity.
Qed.

(** The prefix of the digest that is sent to check the payload. *)
Lemma hash_prefix_run wb n out k w :
  0 < n <= zlen wb → 0 < k <= 48 → k <= zlen out →
  ∃ r o, gxfp_payload_build_bb020003_hash_prefix (Some wb) n (Some out) k w = Some ((r, Some o), w) ∧
    (r = 0 ∧ o = ztake k (sha384 (ztake n wb)) ++ zdrop k out ∨ r = - EIO ∧ o = out ∧ ¬ crypto_works).
Proof using EO CK.
  intros Hn Hk Ho. unfold gxfp_payload_build_bb020003_hash_prefix, u_stack.
  rewrite (proj2 (Z.eqb_neq n 0)), (proj2 (Z.eqb_neq k 0)), (proj2 (Z.ltb_ge 48 k)) by lia. cbn [orb].
  rewrite bind_gets, slice_Some, zdrop_0, bind_lift, bind_gets by lia. set (m := ztake n wb).
  pose proof (sha384_len w m) as Hl. pose proof (sha384_is w m) as Hi.
  pose proof (λ Hw : crypto_works, proj1 (proj2 (proj2 (proj2 (Hw w)))) m) as Hgo.
  destruct (mbedtls_sha512 w m 1) as [rc d]. cbn [fst snd] in *.
  rewrite (blit_fresh _ d 48), bind_lift by (done || by apply u_uninit_len).
  destruct (Z.eqb_spec rc 0) as [->|Hne]; cbn [negb].
  - unfold memcpy. rewrite slice_Some, zdrop_0 by lia. cbn [mbind option_bind].
    rewrite blit_Some by (rewrite ?zlen_ztake; lia). rewrite bind_lift. exists 0. eexists. split; [done|]. left.
    split; [done|]. rewrite zlen_ztake, ztake_0 by lia. by rewrite <- Hi.
  - exists (- EIO), out. split; [done|]. right. split; [done|]. split; [done|]. intros Hw. auto.
Qed.

(** ** The properties *)

(** C37: what is provisioned is the key: for any key and seed of 32 bytes, the payload is
    either made, 102 bytes that a receiver with the same seed opens to the key (its
    checksum right, its initialisation vector the digest of the first quarter of the key),
    with a copy of its inner part if one is asked for; or it is not, with -EIO or -ENOMEM,
    and the caller is left with NULL and 0. It is made whenever memory is not exhausted and
    the primitives succeed. No system call is made. *)
Theorem provision_opens psk seed owb olen oip oipl w :
  zlen psk = 32 → zlen seed = 32 →
  ∃ x w', gxfp_payload_build_bb010003 (Some psk) (Some seed) (Some owb) (Some olen) oip oipl w = Some (x, w') ∧
    silent w w' ∧
    ((∃ b, zlen b = GXFP_BB010003_WB_LEN ∧
        x = (0, Some (Some b), Some (zlen b), (λ _, Some (zdrop 32 b)) <$> oip,
             (λ _, if bool_decide (oip = None) then 0 else 70) <$> oipl) ∧
        ztake 16 (zdrop 38 b) = seed16_of psk 32 ∧ wb_open seed b = Some psk) ∨
     (∃ r, (r = - EIO ∨ r = - ENOMEM) ∧ x = bb010003_none oip oipl r ∧ (l_oom w = [] → ¬ crypto_works))).
Proof using EO CK.
  intros Hp Hs. destruct (wp_inv _ _ _ (build_wp psk seed owb olen oip oipl w Hp Hs)) as (x & w' & Er & Hw & Hx).
  exists x, w'. split; [exact Er|]. by split.
Qed.

(** C38: the blob of the upload, up to its length limits: below 4 GiB it is the two tagged
    fields, padded with zeros to a multiple of four if asked for, and reading it gives back
    its parts; memory that runs out and lengths that do not fit their fields are refused
    with the caller's variables as they were. Past 4 GiB the mask of the padding, which is
    32 bits wide, cuts the length of the block short, and the fields are written outside
    of it. *)
Theorem bb010002_layout sp seed8 wb (pad4 : bool) ob ol w :
  zlen seed8 = 8 → wb ≠ [] →
  let s := sealed_key sp in
  let total := zlen (bb010002 s seed8 wb) in
  let run := gxfp_payload_build_bb010002 sp (zlen s) (Some seed8) (Some wb) (zlen wb) pad4 (Some ob) (Some ol) w in
  if (2 ^ 32 - 9 <? zlen s) || (2 ^ 32 - 1 <? zlen wb) then run = Some ((- EOVERFLOW, Some ob, Some ol), w) else
  if bool_decide (head (l_oom w) = Some true) then run = Some ((- ENOMEM, Some ob, Some ol), pop_alloc w) else
  if pad4 && (2 ^ 32 <=? total + 3) then run = None else
  let p := if pad4 then (- total) mod 4 else 0 in
  let b := bb010002 s seed8 wb ++ zeros p in
  run = Some ((0, Some (Some b), Some (total + p)), pop_alloc w) ∧ zlen b = total + p ∧
  bb010002_open b = Some (s, seed8, wb, zeros p).
Proof using EO.
  intros Hd Hwb s total run. pose proof (zlen_nonneg s). pose proof (zlen_nonneg wb).
  assert (Htot : total = 24 + zlen s + zlen wb) by (unfold total; rewrite zlen_bb010002, Hd; lia).
  subst run. unfold gxfp_payload_build_bb010002.
  assert (Hnull : bool_decide (sp = None) && negb (zlen s =? 0) || (zlen wb =? 0) = false).
  { rewrite (proj2 (Z.eqb_neq (zlen wb) 0)) by (intros Hz; by apply zlen_0 in Hz). rewrite orb_false_r.
    unfold s, sealed_key. by destruct sp. }
  rewrite Hnull. change (0xFFFFFFFF - 8) with (2 ^ 32 - 9). change 0xFFFFFFFF with (2 ^ 32 - 1).
  destruct (Z.ltb_spec (2 ^ 32 - 9) (zlen s)) as [|Hs]; cbn [orb]; [done|].
  destruct (Z.ltb_spec (2 ^ 32 - 1) (zlen wb)) as [|Hw]; [done|]. cbv zeta.
  assert (Hu : u64 (8 + zlen s + 8 + 8 + zlen wb) = total) by (unfold u64; rewrite Z.mod_small; lia). rewrite Hu.
  set (n := if pad4 then _ else total). rewrite (run_bind _ _ _ _ _ (umalloc_run n w)).
  destruct (bool_decide_reflect (head (l_oom w) = Some true)) as [Ho|Ho].
  { destruct (l_oom w) as [|[] oom]; try discriminate Ho. done. }
  replace (match l_oom w with true :: _ => None | _ => Some (u_uninit (l_trace w) n) end)
    with (Some (u_uninit (l_trace w) n)) by (by destruct (l_oom w) as [|[] oom]).
  destruct (pad4 && (2 ^ 32 <=? total + 3)) eqn:Hover.
  - apply andb_true_iff in Hover as (-> & Hover%Z.leb_le). unfold n. rewrite fill_short; [done| |done].
    fold s. fold total.
    rewrite zlen_zeros; replace (u64 (total + 3)) with (total + 3) by zint; rewrite mask4 by lia; clear - Hover; zdm.
  - assert (Hn : n = total + (if pad4 then (- total) mod 4 else 0)).
    { unfold n. destruct pad4; [|lia]. cbn [andb] in Hover. apply Z.leb_gt in Hover.
      replace (u64 (total + 3)) with (total + 3) by zint. rewrite mask4, Z.mod_small by lia. clear. zdm. }
    set (p := if pad4 then (- total) mod 4 else 0) in *.
    assert (Hp : 0 <= p) by (unfold p; destruct pad4; [apply Z.mod_pos_bound|]; lia).
    assert (Ez : zeros n = zeros total ++ zeros p) by (rewrite Hn; apply zeros_add; lia).
    rewrite fill_run; fold s; fold total; [|done|lia|lia|rewrite Ez, zlen_app, !zlen_zeros; lia].
    rewrite Ez, zdrop_app, bind_lift by (apply zlen_zeros; lia). rewrite Hn. split; [done|]. split.
    + by rewrite zlen_app, zlen_zeros.
    + apply blob_opens; [done|lia|lia].
Qed.
End rules.

(** * A toy cipher

    Digests that repeat a sum; a cipher that adds nothing. *)
Definition toy_digest (n : nat) (m : bytes) : bytes := replicate n (foldr Z.add 0 m mod 256).
Definition toy_crypto : Mbedcrypto :=
  {| gcm_context := bytes; gcm_blank := []; MBEDTLS_CIPHER_ID_AES := 2; md_info_sha256 := λ _, true;
     mbedtls_md_hmac := λ _ k m, (0, toy_digest 32 (k ++ m));
     mbedtls_sha256 := λ _ m _, (0, toy_digest 32 m);
     mbedtls_sha512 := λ _ m _, (0, toy_digest 48 m);
     mbedtls_gcm_setkey := λ _ _ _ k _, (0, k);
     mbedtls_gcm_encrypt_and_tag := λ _ g iv aad pt, (0, (pt, toy_digest 16 (g ++ iv ++ aad ++ pt))) |}.

#[export] Instance toy_crypto_ok : MbedcryptoOk toy_crypto.
Proof.
  refine {| hmac256 := λ k m, toy_digest 32 (k ++ m); sha256 := toy_digest 32; sha384 := toy_digest 48;
            aes_gcm := λ k iv aad pt, (pt, toy_digest 16 (k ++ iv ++ aad ++ pt));
            aes_gcm_open := λ k iv aad c t,
              if bool_decide (t = toy_digest 16 (k ++ iv ++ aad ++ c)) then Some c else None;
            gcm_keyed := λ g : @gcm_context toy_crypto, λ k, g = k |}; try done.
  - by intros w g k iv aad pt -> _.
  - intros k iv aad pt. cbn [fst snd]. by rewrite bool_decide_eq_true_2.
Defined.

Lemma provision_opens_witness :
  ∃ w' b, gxfp_payload_build_bb010003 (E := script_env []) (C := toy_crypto) (Some (zeros 32))
      (Some gxfp_payload_seed32_runtime) (Some None) (Some 0) None None
      {| l_dev := None; l_trace := []; l_oom := [] |} = Some ((0, Some (Some b), Some (zlen b), None, None), w') ∧
    wb_open (CK := toy_crypto_ok) gxfp_payload_seed32_runtime b = Some (zeros 32).
Proof.
  destruct (provision_opens (E := script_env []) (EO := script_env_ok [] (Forall_nil_2 _)) (CK := toy_crypto_ok)
    (zeros 32) gxfp_payload_seed32_runtime None 0 None None {| l_dev := None; l_trace := []; l_oom := [] |})
    as (x & w' & Er & _ & [(b & _ & -> & _ & Hb)|(r & _ & _ & Hr)]).
  - reflexivity.
  - reflexivity.
  - exists w', b. split; [exact Er|exact Hb].
  - exfalso. apply Hr; [reflexivity|]. intros w. repeat split; reflexivity.
Defined.

(** A sealed key of nearly 4 GiB: the padded length wraps to 104 bytes. *)
Lemma bb010002_layout_witness :
  gxfp_payload_build_bb010002 (E := script_env []) (Some (zeros (2 ^ 32 - 16))) (zlen (sealed_key (Some (zeros (2 ^ 32 - 16)))))
    (Some (zeros 8)) (Some (zeros 102)) (zlen (zeros 102)) true (Some None) (Some 0)
    {| l_dev := None; l_trace := []; l_oom := [] |} = None.
Proof.
  pose proof (bb010002_layout (E := script_env []) (EO := script_env_ok [] (Forall_nil_2 _))
    (Some (zeros (2 ^ 32 - 16))) (zeros 8) (zeros 102) true None 0 {| l_dev := None; l_trace := []; l_oom := [] |}
    eq_refl ltac:(discriminate)) as H. cbv zeta in H.
  assert (Hs : zlen (sealed_key (Some (zeros (2 ^ 32 - 16)))) = 2 ^ 32 - 16) by (apply zlen_zeros; lia).
  rewrite zlen_bb010002, Hs in H. rewrite Hs. exact H.
Defined.
