(* ===== verification/USession.v ===== *)
(** The session: [userspace/src/flow/session.c]. It owns the device, the TLS service, the
    finger detection and the frames, and turns requests of its caller, records of the
    device and the passage of time into modes, events and images. *)
From Stdlib Require Import ZArith Lia.
From stdpp Require Import prelude list.
From S2P Require Import Prelude KGoodixProto KUapi UGoodixProto UWorld UDev UCommon UXfer USensorCfg UCmds.
From S2P Require Import UDecoder UPlain UFdt UFpn UTls UTlsSvc.

Open Scope Z_scope.

(** * Data *)

(** [enum gxfp_session_mode] *)
Inductive gxfp_session_mode :=
| GXFP_MODE_CLOSED
| GXFP_MODE_READY
| GXFP_MODE_ACTIVATING_TLS
| GXFP_MODE_ACTIVATING_WAIT_UP
| GXFP_MODE_ACTIVATING_DARK_CAPTURE
| GXFP_MODE_IDLE
| GXFP_MODE_WAIT_FINGER_ON
| GXFP_MODE_CAPTURING
| GXFP_MODE_WAIT_FINGER_OFF
| GXFP_MODE_FAILED.

(** [enum gxfp_session_state]: what the caller asks for. *)
Inductive gxfp_session_state :=
| GXFP_SESSION_STATE_INACTIVE
| GXFP_SESSION_STATE_IDLE
| GXFP_SESSION_STATE_AWAIT_FINGER_ON
| GXFP_SESSION_STATE_CAPTURE
| GXFP_SESSION_STATE_AWAIT_FINGER_OFF.

Inductive gxfp_session_error_target :=
| GXFP_SESSION_ERR_TARGET_GENERIC
| GXFP_SESSION_ERR_TARGET_ACTIVATE
| GXFP_SESSION_ERR_TARGET_CAPTURE.

Inductive gxfp_cleanup_goal :=
| GXFP_CLEANUP_DEACTIVATE
| GXFP_CLEANUP_CLOSE.

#[export] Instance session_mode_eq_dec : EqDecision gxfp_session_mode.
Proof. solve_decision. Defined.
#[export] Instance error_target_eq_dec : EqDecision gxfp_session_error_target.
Proof. solve_decision. Defined.

Definition GXFP_SESSION_IO_ERR : Z := 8. (* 1u << 3 *)
Definition GXFP_SESSION_IO_HUP : Z := 16. (* 1u << 4 *)
Definition GXFP_SESSION_IO_NVAL : Z := 32. (* 1u << 5 *)
Definition O_RDWR : Z := 2.

(** [struct gxfp_session_events], without the text of the error. *)
Record gxfp_session_events := {
  activate_complete : Z;
  deactivate_complete : Z;
  close_complete : Z;
  session_error : Z;
  finger_status_changed : Z;
  finger_present : Z;
  image_ready : Z;
  request_tick : Z;
  tick_delay_ms : Z;
  cancel_tick : Z;
  error_code : Z;
  error_target : gxfp_session_error_target
}.

Definition events_zero : gxfp_session_events :=
  {| activate_complete := 0; deactivate_complete := 0; close_complete := 0; session_error := 0;
     finger_status_changed := 0; finger_present := 0; image_ready := 0; request_tick := 0;
     tick_delay_ms := 0; cancel_tick := 0; error_code := 0;
     error_target := GXFP_SESSION_ERR_TARGET_GENERIC |}.

(** Assignments to the fields the code sets together. *)
Definition ev_error c t e : gxfp_session_events :=
  {| activate_complete := activate_complete e; deactivate_complete := deactivate_complete e;
     close_complete := close_complete e; session_error := 1;
     finger_status_changed := finger_status_changed e; finger_present := finger_present e;
     image_ready := image_ready e; request_tick := request_tick e; tick_delay_ms := tick_delay_ms e;
     cancel_tick := cancel_tick e; error_code := c; error_target := t |}.
Definition ev_tick ms e : gxfp_session_events :=
  {| activate_complete := activate_complete e; deactivate_complete := deactivate_complete e;
     close_complete := close_complete e; session_error := session_error e;
     finger_status_changed := finger_status_changed e; finger_present := finger_present e;
     image_ready := image_ready e; request_tick := 1; tick_delay_ms := ms;
     cancel_tick := cancel_tick e; error_code := error_code e; error_target := error_target e |}.
Definition ev_cancel e : gxfp_session_events :=
  {| activate_complete := activate_complete e; deactivate_complete := deactivate_complete e;
     close_complete := close_complete e; session_error := session_error e;
     finger_status_changed := finger_status_changed e; finger_present := finger_present e;
     image_ready := image_ready e; request_tick := request_tick e; tick_delay_ms := tick_delay_ms e;
     cancel_tick := 1; error_code := error_code e; error_target := error_target e |}.
Definition ev_finger p e : gxfp_session_events :=
  {| activate_complete := activate_complete e; deactivate_complete := deactivate_complete e;
     close_complete := close_complete e; session_error := session_error e;
     finger_status_changed := 1; finger_present := p;
     image_ready := image_ready e; request_tick := request_tick e; tick_delay_ms := tick_delay_ms e;
     cancel_tick := cancel_tick e; error_code := error_code e; error_target := error_target e |}.
Definition ev_image e : gxfp_session_events :=
  {| activate_complete := activate_complete e; deactivate_complete := deactivate_complete e;
     close_complete := close_complete e; session_error := session_error e;
     finger_status_changed := finger_status_changed e; finger_present := finger_present e;
     image_ready := 1; request_tick := request_tick e; tick_delay_ms := tick_delay_ms e;
     cancel_tick := cancel_tick e; error_code := error_code e; error_target := error_target e |}.
(** [ev->activate_complete], [->deactivate_complete] or [->close_complete = 1] *)
Definition ev_done a d c e : gxfp_session_events :=
  {| activate_complete := if (a : bool) then 1 else activate_complete e;
     deactivate_complete := if (d : bool) then 1 else deactivate_complete e;
     close_complete := if (c : bool) then 1 else close_complete e; session_error := session_error e;
     finger_status_changed := finger_status_changed e; finger_present := finger_present e;
     image_ready := image_ready e; request_tick := request_tick e; tick_delay_ms := tick_delay_ms e;
     cancel_tick := cancel_tick e; error_code := error_code e; error_target := error_target e |}.

Section session.
Context {E : Uenv} {T : Mbedtls}.

(** [struct gxfp_session_impl]. The device is that of the world; the handle of the TLS
    service is a pointer to its implementation. *)
Record gxfp_session_impl := {
  svc : ptr gxfp_tls_service_impl;
  fdt : gxfp_fdt_flow;
  psk : ptr bytes;
  psk_len : Z;
  tap_io_buf : ptr bytes;
  tap_io_cap : Z;
  s_mode : gxfp_session_mode;
  dark : gxfp_fpn_dark;
  dark_loaded : Z;
  pending_img : gxfp_decoded_image;
  pending_img_ready : Z;
  otp_tcode : Z;
  otp_fdt_delta : Z;
  otp_has_tcode_delta : Z
}.

Definition set_svc v s : gxfp_session_impl :=
  {| svc := v; fdt := fdt s; psk := psk s; psk_len := psk_len s; tap_io_buf := tap_io_buf s;
     tap_io_cap := tap_io_cap s; s_mode := s_mode s; dark := dark s; dark_loaded := dark_loaded s;
     pending_img := pending_img s; pending_img_ready := pending_img_ready s; otp_tcode := otp_tcode s;
     otp_fdt_delta := otp_fdt_delta s; otp_has_tcode_delta := otp_has_tcode_delta s |}.
Definition set_fdt v s : gxfp_session_impl :=
  {| svc := svc s; fdt := v; psk := psk s; psk_len := psk_len s; tap_io_buf := tap_io_buf s;
     tap_io_cap := tap_io_cap s; s_mode := s_mode s; dark := dark s; dark_loaded := dark_loaded s;
     pending_img := pending_img s; pending_img_ready := pending_img_ready s; otp_tcode := otp_tcode s;
     otp_fdt_delta := otp_fdt_delta s; otp_has_tcode_delta := otp_has_tcode_delta s |}.
Definition set_psk v n s : gxfp_session_impl :=
  {| svc := svc s; fdt := fdt s; psk := v; psk_len := n; tap_io_buf := tap_io_buf s;
     tap_io_cap := tap_io_cap s; s_mode := s_mode s; dark := dark s; dark_loaded := dark_loaded s;
     pending_img := pending_img s; pending_img_ready := pending_img_ready s; otp_tcode := otp_tcode s;
     otp_fdt_delta := otp_fdt_delta s; otp_has_tcode_delta := otp_has_tcode_delta s |}.
Definition set_tap v n s : gxfp_session_impl :=
  {| svc := svc s; fdt := fdt s; psk := psk s; psk_len := psk_len s; tap_io_buf := v;
     tap_io_cap := n; s_mode := s_mode s; dark := dark s; dark_loaded := dark_loaded s;
     pending_img := pending_img s; pending_img_ready := pending_img_ready s; otp_tcode := otp_tcode s;
     otp_fdt_delta := otp_fdt_delta s; otp_has_tcode_delta := otp_has_tcode_delta s |}.
Definition set_mode v s : gxfp_session_impl :=
  {| svc := svc s; fdt := fdt s; psk := psk s; psk_len := psk_len s; tap_io_buf := tap_io_buf s;
     tap_io_cap := tap_io_cap s; s_mode := v; dark := dark s; dark_loaded := dark_loaded s;
     pending_img := pending_img s; pending_img_ready := pending_img_ready s; otp_tcode := otp_tcode s;
     otp_fdt_delta := otp_fdt_delta s; otp_has_tcode_delta := otp_has_tcode_delta s |}.
Definition set_dark v n s : gxfp_session_impl :=
  {| svc := svc s; fdt := fdt s; psk := psk s; psk_len := psk_len s; tap_io_buf := tap_io_buf s;
     tap_io_cap := tap_io_cap s; s_mode := s_mode s; dark := v; dark_loaded := n;
     pending_img := pending_img s; pending_img_ready := pending_img_ready s; otp_tcode := otp_tcode s;
     otp_fdt_delta := otp_fdt_delta s; otp_has_tcode_delta := otp_has_tcode_delta s |}.
Definition set_pending v n s : gxfp_session_impl :=
  {| svc := svc s; fdt := fdt s; psk := psk s; psk_len := psk_len s; tap_io_buf := tap_io_buf s;
     tap_io_cap := tap_io_cap s; s_mode := s_mode s; dark := dark s; dark_loaded := dark_loaded s;
     pending_img := v; pending_img_ready := n; otp_tcode := otp_tcode s;
     otp_fdt_delta := otp_fdt_delta s; otp_has_tcode_delta := otp_has_tcode_delta s |}.
Definition set_otp t d h s : gxfp_session_impl :=
  {| svc := svc s; fdt := fdt s; psk := psk s; psk_len := psk_len s; tap_io_buf := tap_io_buf s;
     tap_io_cap := tap_io_cap s; s_mode := s_mode s; dark := dark s; dark_loaded := dark_loaded s;
     pending_img := pending_img s; pending_img_ready := pending_img_ready s; otp_tcode := t;
     otp_fdt_delta := d; otp_has_tcode_delta := h |}.

(** The world of a call: the system, the static table of the checksum, the session and
    the events the caller passes (pointers both; [impl] is NULL until it is made). *)
Record sworld := {
  s_l : lworld;
  s_crc : crc_static;
  s_sess : ptr (ptr gxfp_session_impl);
  s_ev : ptr gxfp_session_events
}.

Definition io {A} (m : M lworld A) : M sworld A :=
  zoom s_l (λ l w, {| s_l := l; s_crc := s_crc w; s_sess := s_sess w; s_ev := s_ev w |}) m.
Definition put_crc (c : crc_static) : M sworld () := modw (λ w,
  {| s_l := s_l w; s_crc := c; s_sess := s_sess w; s_ev := s_ev w |}).
Definition put_sess (p : ptr gxfp_session_impl) : M sworld () := modw (λ w,
  {| s_l := s_l w; s_crc := s_crc w; s_sess := Some p; s_ev := s_ev w |}).

(** [!s || !s->impl], [!ev] *)
Definition no_impl : M sworld bool := gets (λ w,
  match s_sess w with Some (Some _) => false | _ => true end).
Definition no_ev : M sworld bool := gets (λ w, bool_decide (s_ev w = None)).

(** [*SESSION(s)], [*ev] *)
Definition sess : M sworld gxfp_session_impl := w ← getw; p ← lift (s_sess w); lift p.
Definition mod_sess (f : gxfp_session_impl → gxfp_session_impl) : M sworld () :=
  s ← sess; put_sess (Some (f s)).
Definition ev : M sworld gxfp_session_events := w ← getw; lift (s_ev w).
Definition mod_ev (f : gxfp_session_events → gxfp_session_events) : M sworld () :=
  e ← ev;
  modw (λ w, {| s_l := s_l w; s_crc := s_crc w; s_sess := s_sess w; s_ev := Some (f e) |}).

(** * session.c *)

(** Memory from [calloc] and [memset]. *)
Definition flow_zero : gxfp_fdt_flow :=
  let z := zeros GXFP_FDT_BASE_TABLE_LEN in
  {| cmd := {| down_table_5130 := z; up_table_5130 := z; manual_table_5130 := z;
               base_table_inited := 0; up_second_flag := 0; up_need_twice := 0;
               up_diff_use := 0; up_dac_offset := 0; up_round := 0 |};
     mode := GXFP_FDT_MODE_IDLE; state := GXFP_FDT_STATE_UNKNOWN; last_status := 0;
     armed_up_table := z; last_good_up_table := z; last_good_up_valid := 0; wait_up_retries := 0;
     wait_up_armed_ms := 0 |}.
Definition dark_zero : gxfp_fpn_dark := {| dark_pixels := None; dark_rows := 0; dark_cols := 0 |}.
Definition img_zero : gxfp_decoded_image := {| pixels := None; rows := 0; cols := 0 |}.
Definition impl_zero : gxfp_session_impl :=
  {| svc := None; fdt := flow_zero; psk := None; psk_len := 0; tap_io_buf := None; tap_io_cap := 0;
     s_mode := GXFP_MODE_CLOSED; dark := dark_zero; dark_loaded := 0; pending_img := img_zero;
     pending_img_ready := 0; otp_tcode := 0; otp_fdt_delta := 0; otp_has_tcode_delta := 0 |}.

(** [gxfp_fdt_flow_init(&SESSION(s)->fdt)] *)
Definition init_fdt : M sworld () :=
  s ← sess;
  f ← lift (gxfp_fdt_flow_init (Some (fdt s)));
  f ← lift f;
  mod_sess (set_fdt f).

(** The device of new memory has descriptor 0. *)
Definition session_ensure_impl : M sworld Z :=
  w ← getw;
  match s_sess w with
  | None => mret (- EINVAL)
  | Some (Some _) => mret 0
  | Some None =>
    ok ← io ucalloc_struct;
    if negb ok then mret (- ENOMEM) else
    io (set_fd 0);;
    put_sess (Some impl_zero);;
    init_fdt;;
    mod_sess (set_mode GXFP_MODE_CLOSED);;
    mret 0
  end.

Definition gxfp_session_mode_has_io : M sworld bool :=
  null ← no_impl;
  if (null : bool) then mret false else
  s ← sess;
  mret (negb (bool_decide (s_mode s = GXFP_MODE_CLOSED))).

Definition session_apply_fdt_runtime_from_otp : M sworld () :=
  null ← no_impl;
  if (null : bool) then mret () else
  s ← sess;
  let fdt_delta := if negb (otp_has_tcode_delta s =? 0) then s16 (otp_fdt_delta s) else 0 in
  c ← lift (gxfp_cmd_fdt_state_set_runtime (Some (cmd (fdt s))) 0 0 0 fdt_delta);
  mod_sess (set_fdt (set_cmd c (fdt s))).

Definition session_apply_milanl_cfg (fuel : nat) : M sworld Z :=
  null ← no_impl;
  if (null : bool) then mret (- EINVAL) else
  otp ← io (u_stack 256);
  '(r, otp, otp_len) ← io (gxfp_cmd_read_otp fuel (Some otp) 256 (Some 0));
  if r <? 0 then mret r else
  n ← lift otp_len;
  '(r, otp_cfg) ← lift (gxfp_milanl_parse_otp otp n (Some otp_cfg_zero));
  if r <? 0 then mret r else
  let '(r, template_data, template_len) :=
    gxfp_milanl_get_default_cfg_template (Some None) (Some 0) in
  if r <? 0 then mret r else
  template_data ← lift template_data;
  template_len ← lift template_len;
  blob ← io (u_stack GXFP_MILANL_CFG_LEN);
  '(blob_len, blob) ←
    lift (gxfp_milanl_prepare_cfg_blob template_data template_len (Some blob) GXFP_MILANL_CFG_LEN);
  if blob_len <? 0 then mret blob_len else
  '(r, blob) ← lift (gxfp_milanl_apply_otp_patch blob blob_len otp_cfg);
  if r <? 0 then mret r else
  '(r, _) ← io (gxfp_cmd_upload_config_mcu fuel blob (u16 blob_len) (Some 255));
  if r <? 0 then mret r else
  c ← lift otp_cfg;
  mod_sess (set_otp (tcode c) (fdt_delta c) (has_tcode_delta c));;
  session_apply_fdt_runtime_from_otp;;
  mret 0.

(** The errors that put the sensor through a recovery. *)
Definition recovers (err : Z) (target : gxfp_session_error_target) : bool :=
  negb (err =? - ECANCELED) && negb (bool_decide (target = GXFP_SESSION_ERR_TARGET_CAPTURE)).

Definition session_set_error (fuel : nat) (err : Z) (target : gxfp_session_error_target)
    : M sworld () :=
  null ← no_ev;
  if (null : bool) then mret () else
  mod_ev (ev_error err target);;
  has_io ← gxfp_session_mode_has_io;
  (if recovers err target && has_io then io (gxfp_device_recovery fuel true true false);; mret ()
   else mret ());;
  null ← no_impl;
  if (null : bool) then mret () else
  mod_sess (set_mode GXFP_MODE_FAILED).

Definition gxfp_session_stop_run : M sworld () :=
  null ← no_impl;
  if (null : bool) then mret () else
  s ← sess;
  if negb (bool_decide (s_mode s = GXFP_MODE_CLOSED)) then mod_sess (set_mode GXFP_MODE_READY)
  else mret ().

Definition session_reset_buffers : M sworld () :=
  s ← sess;
  (if negb (dark_loaded s =? 0) then
     d ← lift (gxfp_fpn_free (Some (dark s)));
     mod_sess (set_dark d 0)
   else mret ());;
  s ← sess;
  if negb (pending_img_ready s =? 0) then
    i ← lift (gxfp_decoded_image_free (Some (pending_img s)));
    mod_sess (set_pending i 0)
  else mret ().

Definition free_svc : M sworld () :=
  s ← sess;
  v ← lift (gxfp_tls_service_free (Some (svc s)));
  v ← lift v;
  mod_sess (set_svc v).

Definition gxfp_session_reset_runtime : M sworld () :=
  null ← no_impl;
  if (null : bool) then mret () else
  has_io ← gxfp_session_mode_has_io;
  (if (has_io : bool) then free_svc;; io gxfp_dev_close else mret ());;
  io (set_fd 0);;
  mod_sess (set_svc None);;
  init_fdt;;
  mod_sess (set_otp 0 0 0);;
  session_apply_fdt_runtime_from_otp;;
  mod_sess (set_psk None 0);;
  session_reset_buffers;;
  mod_sess (set_mode GXFP_MODE_CLOSED).

Definition session_begin_cleanup (fuel : nat) (goal : gxfp_cleanup_goal) (reset_mcu : bool)
    : M sworld () :=
  null ← no_impl;
  null_ev ← no_ev;
  if (null : bool) || (null_ev : bool) then mret () else
  gxfp_session_stop_run;;
  mod_ev ev_cancel;;
  has_io ← gxfp_session_mode_has_io;
  if negb has_io then
    match goal with
    | GXFP_CLEANUP_CLOSE => mod_ev (ev_done false false true)
    | GXFP_CLEANUP_DEACTIVATE => mod_ev (ev_done false true false)
    end
  else
  match goal with
  | GXFP_CLEANUP_DEACTIVATE =>
    mod_sess (set_mode GXFP_MODE_READY);;
    mod_ev (ev_done false true false)
  | GXFP_CLEANUP_CLOSE =>
    (if reset_mcu then io (gxfp_device_recovery fuel true true false);; mret () else mret ());;
    gxfp_session_reset_runtime;;
    mod_ev (ev_done false false true)
  end.

Definition session_ensure_tap_io_buffer : M sworld Z :=
  null ← no_impl;
  if (null : bool) then mret (- EINVAL) else
  s ← sess;
  match tap_io_buf s with
  | Some _ => mret 0
  | None =>
    b ← io (umalloc TAP_BUF_SIZE);
    match b with
    | None => mret (- ENOMEM)
    | Some b => mod_sess (set_tap (Some b) TAP_BUF_SIZE);; mret 0
    end
  end.

Definition session_set_fdt_mode (fuel : nat) (m : Z) : M sworld () :=
  has_io ← gxfp_session_mode_has_io;
  null ← no_ev;
  if negb has_io || (null : bool) then mret () else
  s ← sess;
  '(r, f) ← io (gxfp_fdt_flow_set_mode (Some (fdt s)) m);
  f ← lift f;
  mod_sess (set_fdt f);;
  if r <? 0 then session_set_error fuel r GXFP_SESSION_ERR_TARGET_GENERIC else mret ().

Definition session_tls_init : M sworld Z :=
  s ← sess;
  '(r, v) ← io (gxfp_tls_service_init (Some (svc s))
                  (Some {| timeout_ms := 20000; manual_pending_request := 1 |}) (psk s) (psk_len s));
  v ← lift v;
  mod_sess (set_svc v);;
  mret r.

Definition session_rearm_tls_if_needed (fuel : nat) : M sworld () :=
  s ← sess;
  match gxfp_tls_service_state (Some (svc s)) with
  | GXFP_TLS_HS_ERROR =>
    free_svc;;
    io gxfp_dev_flush_rxq;;
    r ← session_tls_init;
    if r <? 0 then session_set_error fuel r GXFP_SESSION_ERR_TARGET_ACTIVATE else mret ()
  | _ => mret ()
  end.

Definition session_set_dark_from_image (img : ptr gxfp_decoded_image) : M sworld Z :=
  null ← no_impl;
  match img with
  | Some i =>
    match pixels i with
    | Some px =>
      if (null : bool) || (rows i <=? 0) || (cols i <=? 0) then mret (- EINVAL) else
      let count := rows i * cols i in
      p ← io (umalloc (count * 2));
      match p with
      | None => mret (- ENOMEM)
      | Some _ =>
        px ← lift (slice px 0 count);
        mod_sess (set_dark {| dark_pixels := Some px; dark_rows := rows i; dark_cols := cols i |} 1);;
        mret 0
      end
    | None => mret (- EINVAL)
    end
  | None => mret (- EINVAL)
  end.

Definition gxfp_session_events_clear : M sworld () :=
  null ← no_ev;
  if (null : bool) then mret () else
  mod_ev (λ _, events_zero).

Definition gxfp_session_init : M sworld () :=
  w ← getw;
  match s_sess w with
  | None => mret ()
  | Some _ =>
    put_sess None;;
    session_ensure_impl;;
    mret ()
  end.

Definition gxfp_session_dispose : M sworld () :=
  null ← no_impl;
  if (null : bool) then mret () else
  gxfp_session_reset_runtime;;
  mod_sess (set_tap None 0);;
  put_sess None.

(** An [open] that fails after the device was opened. *)
Definition open_fail (r : Z) : M sworld Z :=
  gxfp_session_reset_runtime;;
  mret r.

Definition gxfp_session_open (fuel : nat) (dev_path psk : ptr bytes) (psk_len : Z) : M sworld Z :=
  w ← getw;
  match s_sess w, dev_path, psk with
  | Some _, Some _, Some key =>
    if psk_len =? 0 then mret (- EINVAL) else
    r ← session_ensure_impl;
    if r <? 0 then mret r else
    gxfp_session_reset_runtime;;
    r ← io (gxfp_dev_open dev_path (Z.lor O_RDWR O_NONBLOCK));
    if r <? 0 then mret r else
    mod_sess (set_mode GXFP_MODE_READY);;
    r ← session_ensure_tap_io_buffer;
    if r <? 0 then open_fail r else
    io gxfp_dev_flush_rxq;;
    '(r, chip_id) ← io (gxfp_cmd_read_chip_id fuel (Some 0));
    chip_id ← lift chip_id;
    r ← (if (r =? 0) && (chip_id =? 8712) (* 0x2208 *) then session_apply_milanl_cfg fuel else mret 0);
    if r <? 0 then open_fail r else
    p ← io (umalloc psk_len);
    match p with
    | None => open_fail (- ENOMEM)
    | Some b =>
      b ← lift (memcpy b 0 key 0 psk_len);
      mod_sess (set_psk (Some b) psk_len);;
      r ← session_tls_init;
      if r <? 0 then open_fail r else
      init_fdt;;
      session_apply_fdt_runtime_from_otp;;
      mod_sess (set_mode GXFP_MODE_READY);;
      mret 0
    end
  | _, _, _ => mret (- EINVAL)
  end.

Definition gxfp_session_request_close (fuel : nat) (reset_mcu : bool) : M sworld () :=
  session_begin_cleanup fuel GXFP_CLEANUP_CLOSE reset_mcu.

Definition gxfp_session_request_deactivate (fuel : nat) : M sworld () :=
  session_begin_cleanup fuel GXFP_CLEANUP_DEACTIVATE false.

Definition gxfp_session_activate (fuel : nat) : M sworld Z :=
  null ← no_impl;
  null_ev ← no_ev;
  if (null : bool) || (null_ev : bool) then mret (- EINVAL) else
  has_io ← gxfp_session_mode_has_io;
  if negb has_io then mret (- EINVAL) else
  s ← sess;
  (if bool_decide (s_mode s = GXFP_MODE_FAILED) then mod_sess (set_mode GXFP_MODE_READY) else mret ());;
  session_rearm_tls_if_needed fuel;;
  e ← ev;
  if negb (session_error e =? 0) then
    mret (if negb (error_code e =? 0) then error_code e else - EIO)
  else
  init_fdt;;
  session_apply_fdt_runtime_from_otp;;
  mod_sess (set_mode GXFP_MODE_ACTIVATING_TLS);;
  mod_ev (ev_tick 0);;
  mret 0.

Definition session_maybe_finish_activation (fuel : nat) : M sworld () :=
  null ← no_impl;
  if (null : bool) then mret () else
  s ← sess;
  if negb (bool_decide (s_mode s = GXFP_MODE_ACTIVATING_TLS)) then mret () else
  match gxfp_tls_service_state (Some (svc s)) with
  | GXFP_TLS_HS_CONNECTED | GXFP_TLS_HS_DONE =>
    session_set_fdt_mode fuel GXFP_FDT_MODE_WAIT_UP;;
    e ← ev;
    if negb (session_error e =? 0) then mret () else
    mod_sess (set_mode GXFP_MODE_ACTIVATING_WAIT_UP);;
    mod_ev (ev_tick 0)
  | _ => mret ()
  end.

(** A decoded image becomes the dark frame, or the image the caller can take. *)
Definition finish_dark (fuel : nat) (img : gxfp_decoded_image) : M sworld () :=
  r ← session_set_dark_from_image (Some img);
  if r <? 0 then session_set_error fuel r GXFP_SESSION_ERR_TARGET_ACTIVATE else
  session_set_fdt_mode fuel GXFP_FDT_MODE_IDLE;;
  e ← ev;
  if negb (session_error e =? 0) then mret () else
  mod_sess (set_mode GXFP_MODE_IDLE);;
  mod_ev (ev_done true false false).

Definition finish_image (fuel : nat) (img : gxfp_decoded_image) : M sworld () :=
  s ← sess;
  '(r, px) ← lift (if negb (dark_loaded s =? 0)
                   then gxfp_fpn_correct (pixels img) (rows img) (cols img) (Some (dark s))
                   else Some (0, pixels img));
  if r <? 0 then session_set_error fuel r GXFP_SESSION_ERR_TARGET_CAPTURE else
  mod_sess (set_pending {| pixels := px; rows := rows img; cols := cols img |} 1);;
  mod_sess (set_mode GXFP_MODE_IDLE);;
  mod_ev ev_image.

Definition session_finalize_capture (fuel : nat) (target : gxfp_session_error_target) : M sworld () :=
  null ← no_impl;
  if (null : bool) then mret () else
  s ← sess;
  match gxfp_tls_service_state (Some (svc s)) with
  | GXFP_TLS_HS_DONE =>
    h ← io (u_stack 5);
    '(r, v, _, body, body_len) ←
      io (gxfp_tls_service_get_raw_image (Some (svc s)) (Some h) (Some None) (Some 0));
    v ← lift v;
    mod_sess (set_svc v);;
    if r <=? 0 then session_set_error fuel (if r <? 0 then r else - EIO) target else
    body ← lift body;
    n ← lift body_len;
    '(r, img) ← io (gxfp_decode_image body n GXFP_DECODE_AUTO (Some img_zero));
    if r <? 0 then session_set_error fuel r target else
    img ← lift img;
    s ← sess;
    if bool_decide (s_mode s = GXFP_MODE_ACTIVATING_DARK_CAPTURE)
    then finish_dark fuel img
    else finish_image fuel img
  | _ => mret ()
  end.

(** [for (i = 0; i < 64; i++)], with [n] turns to go. *)
Fixpoint poll_tls_loop (fuel : nat) (n : nat) (i : Z) : M sworld () :=
  match n with
  | O => mret ()
  | S n =>
    s ← sess;
    w ← getw;
    '(r, c, v) ← io (gxfp_tls_service_step fuel (s_crc w) (Some (svc s)));
    v ← lift v;
    put_crc c;;
    mod_sess (set_svc v);;
    if (r =? - EAGAIN) || (r =? 1) then mret () else
    if r <? 0 then session_set_error fuel r GXFP_SESSION_ERR_TARGET_GENERIC else
    (if i =? 63 then mod_ev (ev_tick 0) else mret ());;
    poll_tls_loop fuel n (i + 1)
  end.

Definition session_poll_tls (fuel : nat) : M sworld () := poll_tls_loop fuel 64 0.

(** The modes in which nothing runs, and those of an action that can be cancelled. *)
Definition inert (m : gxfp_session_mode) : bool :=
  match m with
  | GXFP_MODE_CLOSED | GXFP_MODE_READY | GXFP_MODE_FAILED => true
  | _ => false
  end.
Definition in_action (m : gxfp_session_mode) : bool :=
  match m with
  | GXFP_MODE_ACTIVATING_TLS | GXFP_MODE_ACTIVATING_WAIT_UP | GXFP_MODE_ACTIVATING_DARK_CAPTURE
  | GXFP_MODE_CAPTURING => true
  | _ => false
  end.

(** The re-arms of the wait for a finger to leave. Gives the code of the poll. *)
Definition pump_fdt : M sworld Z :=
  s ← sess;
  match s_mode s with
  | GXFP_MODE_WAIT_FINGER_OFF | GXFP_MODE_ACTIVATING_WAIT_UP =>
    now ← io gxfp_monotonic_ms;
    '(r, f) ← io (gxfp_fdt_flow_poll (Some (fdt s)) now);
    f ← lift f;
    mod_sess (set_fdt f);;
    mret r
  | _ => mret 0
  end.

(** The image of a capture that is done. *)
Definition pump_capture (fuel : nat) : M sworld () :=
  s ← sess;
  match s_mode s with
  | GXFP_MODE_CAPTURING => session_finalize_capture fuel GXFP_SESSION_ERR_TARGET_CAPTURE
  | GXFP_MODE_ACTIVATING_DARK_CAPTURE =>
    session_finalize_capture fuel GXFP_SESSION_ERR_TARGET_ACTIVATE
  | _ => mret ()
  end.

(** When the caller is to look again. *)
Definition pump_tick : M sworld () :=
  s ← sess;
  match s_mode s, gxfp_tls_service_state (Some (svc s)) with
  | GXFP_MODE_ACTIVATING_TLS, GXFP_TLS_HS_CONNECTED => mret ()
  | GXFP_MODE_ACTIVATING_TLS, GXFP_TLS_HS_ERROR => mret ()
  | GXFP_MODE_ACTIVATING_TLS, _ => mod_ev (ev_tick 20)
  | GXFP_MODE_ACTIVATING_DARK_CAPTURE, GXFP_TLS_HS_DONE | GXFP_MODE_CAPTURING, GXFP_TLS_HS_DONE => mret ()
  | GXFP_MODE_ACTIVATING_DARK_CAPTURE, GXFP_TLS_HS_ERROR | GXFP_MODE_CAPTURING, GXFP_TLS_HS_ERROR => mret ()
  | GXFP_MODE_ACTIVATING_DARK_CAPTURE, _ | GXFP_MODE_CAPTURING, _ => mod_ev (ev_tick 20)
  | GXFP_MODE_WAIT_FINGER_ON, _ | GXFP_MODE_WAIT_FINGER_OFF, _ | GXFP_MODE_ACTIVATING_WAIT_UP, _ =>
    mod_ev (ev_tick 20)
  | _, _ => mret ()
  end.

Definition gxfp_session_pump (fuel : nat) (action_cancelled : bool) : M sworld () :=
  null ← no_impl;
  null_ev ← no_ev;
  if (null : bool) || (null_ev : bool) then mret () else
  s ← sess;
  if inert (s_mode s) then mret () else
  if action_cancelled && in_action (s_mode s) then
    session_set_error fuel (- ECANCELED)
      (if bool_decide (s_mode s = GXFP_MODE_CAPTURING) then GXFP_SESSION_ERR_TARGET_CAPTURE
       else GXFP_SESSION_ERR_TARGET_ACTIVATE);;
    mod_ev ev_cancel
  else
  session_poll_tls fuel;;
  e ← ev;
  if negb (session_error e =? 0) then mret () else
  session_maybe_finish_activation fuel;;
  e ← ev;
  if negb (session_error e =? 0) then mret () else
  r ← pump_fdt;
  if r <? 0 then session_set_error fuel r GXFP_SESSION_ERR_TARGET_GENERIC else
  pump_capture fuel;;
  pump_tick.

(** What a record means for the session: finger events, and the start of the dark frame.
    Gives the code of the capture request. *)
Definition record_events (fdt_events : Z) : M sworld Z :=
  s ← sess;
  match s_mode s with
  | GXFP_MODE_WAIT_FINGER_ON =>
    (if negb (Z.land fdt_events GXFP_FDT_EVENT_DOWN =? 0) then mod_ev (ev_finger 1) else mret ());;
    mret 0
  | GXFP_MODE_WAIT_FINGER_OFF =>
    (if negb (Z.land fdt_events GXFP_FDT_EVENT_UP =? 0) then mod_ev (ev_finger 0) else mret ());;
    mret 0
  | GXFP_MODE_ACTIVATING_WAIT_UP =>
    if Z.land fdt_events GXFP_FDT_EVENT_UP =? 0 then mret 0 else
    '(r, v) ← lift (gxfp_tls_service_request_capture (Some (svc s)));
    v ← lift v;
    mod_sess (set_svc v);;
    if r <? 0 then mret r else
    mod_sess (set_mode GXFP_MODE_ACTIVATING_DARK_CAPTURE);;
    mod_ev (ev_tick 0);;
    mret 0
  | _ => mret 0
  end.

(** [for (;;)] *)
Fixpoint on_fd_loop (fuel : nat) (turns : nat) : M sworld () :=
  match turns with
  | O => ub
  | S turns =>
    s ← sess;
    if bool_decide (tap_io_buf s = None) || (tap_io_cap s =? 0)
    then session_set_error fuel (- ENOMEM) GXFP_SESSION_ERR_TARGET_GENERIC else
    '(n, buf, tap_hdr, tap_payload, _) ←
      io (gxfp_dev_read_record (tap_io_buf s) (tap_io_cap s) (Some hdr_unset) (Some None) (Some 0));
    mod_sess (set_tap buf (tap_io_cap s));;
    if n <? 0 then
      if n =? - EAGAIN then mret () else
      session_set_error fuel n GXFP_SESSION_ERR_TARGET_GENERIC
    else
    if n =? 0 then mret () else
    h ← lift tap_hdr;
    pl ← lift tap_payload;
    s ← sess;
    '(r, f, fdt_events) ←
      io (gxfp_fdt_flow_feed_record (Some (fdt s)) (Some h) pl (th_len h) (Some GXFP_FDT_EVENT_NONE));
    f ← lift f;
    fdt_events ← lift fdt_events;
    mod_sess (set_fdt f);;
    if (r <? 0) && negb (r =? - EAGAIN)
    then session_set_error fuel r GXFP_SESSION_ERR_TARGET_GENERIC else
    r ← record_events fdt_events;
    if r <? 0 then session_set_error fuel r GXFP_SESSION_ERR_TARGET_ACTIVATE else
    s ← sess;
    '(r, v) ← io (gxfp_tls_service_feed_tap_record (Some (svc s)) h pl (th_len h));
    v ← lift v;
    mod_sess (set_svc v);;
    if r <? 0 then session_set_error fuel r GXFP_SESSION_ERR_TARGET_GENERIC else
    on_fd_loop fuel turns
  end.

Definition gxfp_session_on_fd (fuel : nat) (condition : Z) (action_cancelled : bool) : M sworld () :=
  null ← no_impl;
  null_ev ← no_ev;
  if (null : bool) || (null_ev : bool) then mret () else
  s ← sess;
  if inert (s_mode s) then mret () else
  if negb (Z.land condition (Z.lor (Z.lor GXFP_SESSION_IO_ERR GXFP_SESSION_IO_HUP) GXFP_SESSION_IO_NVAL) =? 0)
  then session_set_error fuel (- EIO) GXFP_SESSION_ERR_TARGET_GENERIC else
  on_fd_loop fuel fuel;;
  gxfp_session_pump fuel action_cancelled.

Definition gxfp_session_change_state (fuel : nat) (st : gxfp_session_state) : M sworld () :=
  null ← no_impl;
  null_ev ← no_ev;
  if (null : bool) || (null_ev : bool) then mret () else
  has_io ← gxfp_session_mode_has_io;
  s ← sess;
  if negb has_io || bool_decide (s_mode s = GXFP_MODE_FAILED) then mret () else
  let tick := (e ← ev; if session_error e =? 0 then mod_ev (ev_tick 0) else mret ()) in
  match st with
  | GXFP_SESSION_STATE_AWAIT_FINGER_ON =>
    mod_sess (set_mode GXFP_MODE_WAIT_FINGER_ON);;
    session_set_fdt_mode fuel GXFP_FDT_MODE_WAIT_DOWN;;
    tick
  | GXFP_SESSION_STATE_CAPTURE =>
    if negb (bool_decide (s_mode s = GXFP_MODE_IDLE)) &&
       negb (bool_decide (s_mode s = GXFP_MODE_WAIT_FINGER_ON))
    then session_set_error fuel (- EINVAL) GXFP_SESSION_ERR_TARGET_CAPTURE else
    '(r, v) ← lift (gxfp_tls_service_request_capture (Some (svc s)));
    v ← lift v;
    mod_sess (set_svc v);;
    if r <? 0 then session_set_error fuel r GXFP_SESSION_ERR_TARGET_CAPTURE else
    mod_sess (set_mode GXFP_MODE_CAPTURING);;
    mod_ev (ev_tick 0)
  | GXFP_SESSION_STATE_AWAIT_FINGER_OFF =>
    mod_sess (set_mode GXFP_MODE_WAIT_FINGER_OFF);;
    session_set_fdt_mode fuel GXFP_FDT_MODE_WAIT_UP;;
    tick
  | GXFP_SESSION_STATE_IDLE =>
    mod_sess (set_mode GXFP_MODE_IDLE);;
    session_set_fdt_mode fuel GXFP_FDT_MODE_IDLE
  | GXFP_SESSION_STATE_INACTIVE =>
    gxfp_session_stop_run;;
    session_set_fdt_mode fuel GXFP_FDT_MODE_IDLE
  end.

Definition gxfp_session_take_image (out : ptr gxfp_decoded_image) : M sworld (Z * ptr gxfp_decoded_image) :=
  null ← no_impl;
  if (null : bool) || bool_decide (out = None) then mret (- EINVAL, out) else
  s ← sess;
  if pending_img_ready s =? 0 then mret (- ENOENT, out) else
  mod_sess (set_pending img_zero 0);;
  mret (0, Some (pending_img s)).

Definition gxfp_session_poll_readable (timeout_ms : Z) : M sworld Z :=
  has_io ← gxfp_session_mode_has_io;
  if negb has_io then mret (- EINVAL) else
  io (gxfp_dev_poll_readable timeout_ms).
End session.

(** * Lemmas *)

Section session_rules.
Context {E : Uenv} {EO : UenvOk E} {T : Mbedtls} {TO : MbedtlsOk T} {B : nat} {CO : UclockOk E B}.

(** A world whose session and events exist. *)
Definition W (l : lworld) (c : crc_static) (s : gxfp_session_impl) (e : gxfp_session_events) : sworld :=
  {| s_l := l; s_crc := c; s_sess := Some (Some s); s_ev := Some e |}.

Lemma wp_io {A} (m : M lworld A) Q l c s e :
  wp m (λ a l', Q a (W l' c s e)) l → wp (io m) Q (W l c s e).
Proof using Type. unfold wp, io, zoom. cbn. by destruct (m l) as [[a l']|]. Qed.

Lemma io_run {A} (m : M lworld A) a l l' c s e :
  m l = Some (a, l') → io m (W l c s e) = Some (a, W l' c s e).
Proof using Type. unfold io, zoom. cbn. by intros ->. Qed.

Lemma has_io_run l c s e :
  gxfp_session_mode_has_io (W l c s e)
  = Some (negb (bool_decide (s_mode s = GXFP_MODE_CLOSED)), W l c s e).
Proof using Type. done. Qed.

Lemma wp_has_io Q l c s e :
  Q (negb (bool_decide (s_mode s = GXFP_MODE_CLOSED))) (W l c s e) →
  wp gxfp_session_mode_has_io Q (W l c s e).
Proof using Type. done. Qed.

(** Steps that only read or assign fields are taken by computation. *)
Lemma wp_sess Q l c s e : Q s (W l c s e) → wp sess Q (W l c s e).
Proof using Type. done. Qed.
Lemma wp_mod_sess f Q l c s e : Q () (W l c (f s) e) → wp (mod_sess f) Q (W l c s e).
Proof using Type. done. Qed.
Lemma wp_mod_ev f Q l c s e : Q () (W l c s (f e)) → wp (mod_ev f) Q (W l c s e).
Proof using Type. done. Qed.
Lemma wp_ev Q l c s e : Q e (W l c s e) → wp ev Q (W l c s e).
Proof using Type. done. Qed.
Lemma wp_no_impl Q l c s e : Q false (W l c s e) → wp no_impl Q (W l c s e).
Proof using Type. done. Qed.
Lemma wp_no_ev Q l c s e : Q false (W l c s e) → wp no_ev Q (W l c s e).
Proof using Type. done. Qed.

(** ** The invariant *)

Definition dims_ok (n m : Z) : Prop := 0 < n ∧ 0 < m ∧ n * m < 2 ^ 31.

(** Frames and images: 16-bit pixels, as many as rows and columns say. *)
Definition frame_ok (d : gxfp_fpn_dark) : Prop :=
  dims_ok (dark_rows d) (dark_cols d) ∧
  ∃ px, dark_pixels d = Some px ∧ pixels_ok px ∧ zlen px = dark_rows d * dark_cols d.
Definition img_ok (i : gxfp_decoded_image) : Prop :=
  dims_ok (rows i) (cols i) ∧ ∃ px, pixels i = Some px ∧ pixels_ok px ∧ zlen px = rows i * cols i.

Definition captures (m : gxfp_session_mode) : Prop :=
  m = GXFP_MODE_ACTIVATING_DARK_CAPTURE ∨ m = GXFP_MODE_CAPTURING.

(** The TLS service of a session, and what it holds when a capture waits for it. *)
Definition svc_ok (v : ptr gxfp_tls_service_impl) : Prop := handle_inv (Some v).
Definition capture_ok (v : ptr gxfp_tls_service_impl) : Prop :=
  ∀ s, v = Some s → hs s = GXFP_TLS_HS_DONE → has_image s.

(** The invariant while a call runs. *)
Record base (s : gxfp_session_impl) (l : lworld) : Prop := {
  b_dev : is_Some (l_dev l);
  b_open : s_mode s ≠ GXFP_MODE_CLOSED → ∃ fd, dev_open l fd;
  b_svc : svc_ok (svc s);
  b_fdt : ∃ q, flow_inv (fdt s) q;
  b_tap : tap_io_buf s = None ∧ tap_io_cap s = 0 ∨
          ∃ b, tap_io_buf s = Some b ∧ zlen b = TAP_BUF_SIZE ∧ bytes_ok b ∧ tap_io_cap s = TAP_BUF_SIZE;
  b_dark : dark_loaded s = 0 ∨ dark_loaded s = 1 ∧ frame_ok (dark s);
  b_img : pending_img_ready s = 0 ∨ pending_img_ready s = 1 ∧ img_ok (pending_img s);
  b_psk : ∀ b, psk s = Some b → zlen b = psk_len s
}.

(** A session that is open; between calls, a capture that is done has its image. *)
Record awake (s : gxfp_session_impl) (l : lworld) : Prop := {
  a_base : base s l;
  a_tap : is_Some (tap_io_buf s);
  a_mode : s_mode s ≠ GXFP_MODE_CLOSED
}.
Record live (s : gxfp_session_impl) (l : lworld) : Prop := {
  l_awake : awake s l;
  l_capture : captures (s_mode s) → capture_ok (svc s)
}.
(** A session that is not open holds nothing. *)
Record closed (s : gxfp_session_impl) : Prop := {
  c_mode : s_mode s = GXFP_MODE_CLOSED;
  c_svc : svc s = None;
  c_psk : psk s = None ∧ psk_len s = 0;
  c_dark : dark_loaded s = 0;
  c_img : pending_img_ready s = 0
}.
Definition sess_inv (s : gxfp_session_impl) (l : lworld) : Prop :=
  live s l ∨ closed s ∧ base s l.

Lemma base_extends s l l' : base s l → extends l l' → base s l'.
Proof using Type.
  intros [] Hx. split; try done.
  - by rewrite (proj1 Hx).
  - intros Hm. destruct (b_open0 Hm) as (fd & Hd). exists fd. by eapply dev_open_extends.
Qed.

#[local] Hint Extern 0 (awake _ _) => solve [apply l_awake; assumption] : core.

Lemma awake_extends s l l' : awake s l → extends l l' → awake s l'.
Proof using Type. intros [] Hx. split; [by eapply base_extends|done|done]. Qed.

Lemma live_extends s l l' : live s l → extends l l' → live s l'.
Proof using Type. intros [] Hx. split; [by eapply awake_extends|done]. Qed.

Lemma base_mode m s l :
  (m ≠ GXFP_MODE_CLOSED → s_mode s = GXFP_MODE_CLOSED → ∃ fd, dev_open l fd) →
  base s l → base (set_mode m s) l.
Proof using Type.
  intros Ho []. split; try done. intros Hm. cbn in Hm.
  destruct (decide (s_mode s = GXFP_MODE_CLOSED)); auto.
Qed.

Lemma base_svc v s l : svc_ok v → base s l → base (set_svc v s) l.
Proof using Type. intros Hv []. by split. Qed.

Lemma base_fdt f q s l : flow_inv f q → base s l → base (set_fdt f s) l.
Proof using Type. intros Hf []. split; try done. by exists q. Qed.

Lemma base_dark d n s l : n = 0 ∨ n = 1 ∧ frame_ok d → base s l → base (set_dark d n s) l.
Proof using Type. intros Hd []. by split. Qed.

Lemma base_pending i n s l : n = 0 ∨ n = 1 ∧ img_ok i → base s l → base (set_pending i n s) l.
Proof using Type. intros Hd []. by split. Qed.

Lemma base_psk p n s l : (∀ b, p = Some b → zlen b = n) → base s l → base (set_psk p n s) l.
Proof using Type. intros Hd []. by split. Qed.

Lemma base_otp t d h s l : base s l → base (set_otp t d h s) l.
Proof using Type. intros []. by split. Qed.

Lemma base_tap b s l :
  zlen b = TAP_BUF_SIZE → bytes_ok b → base s l → base (set_tap (Some b) TAP_BUF_SIZE s) l.
Proof using Type. intros H1 H2 []. split; try done. right. by exists b. Qed.

Lemma awake_mode m s l : m ≠ GXFP_MODE_CLOSED → awake s l → awake (set_mode m s) l.
Proof using Type. intros Hm []. split; [by apply base_mode|done|done]. Qed.

Lemma awake_svc v s l : svc_ok v → awake s l → awake (set_svc v s) l.
Proof using Type. intros Hv []. split; [by apply base_svc|done|done]. Qed.

Lemma awake_fdt f q s l : flow_inv f q → awake s l → awake (set_fdt f s) l.
Proof using Type. intros Hv []. split; [by eapply base_fdt|done|done]. Qed.

Lemma awake_dark d n s l : n = 0 ∨ n = 1 ∧ frame_ok d → awake s l → awake (set_dark d n s) l.
Proof using Type. intros Hv []. split; [by apply base_dark|done|done]. Qed.

Lemma awake_pending i n s l : n = 0 ∨ n = 1 ∧ img_ok i → awake s l → awake (set_pending i n s) l.
Proof using Type. intros Hv []. split; [by apply base_pending|done|done]. Qed.

Lemma live_mode m s l :
  m ≠ GXFP_MODE_CLOSED → (captures m → capture_ok (svc s)) → awake s l → live (set_mode m s) l.
Proof using Type. intros Hm Hc Hs. split; [by apply awake_mode|done]. Qed.

(** Outside a capture nothing is asked of the service. *)
Lemma live_mode_free m s l : ¬ captures m → m ≠ GXFP_MODE_CLOSED → awake s l → live (set_mode m s) l.
Proof using Type. intros Hm Hc Hs. apply live_mode; [done|by intros ?|done]. Qed.

Lemma live_svc v s l :
  svc_ok v → (captures (s_mode s) → capture_ok v) → live s l → live (set_svc v s) l.
Proof using Type. intros Hv Hc []. split; [by apply awake_svc|done]. Qed.

Lemma live_fdt f q s l : flow_inv f q → live s l → live (set_fdt f s) l.
Proof using Type. intros Hv []. split; [by eapply awake_fdt|done]. Qed.

Lemma live_tap b s l :
  zlen b = TAP_BUF_SIZE → bytes_ok b → live s l → live (set_tap (Some b) TAP_BUF_SIZE s) l.
Proof using Type. intros H1 H2 [[]]. split; [split; [by apply base_tap|by eexists|done]|done]. Qed.

Lemma awake_dev s l : awake s l → ∃ fd, dev_open l fd.
Proof using Type. intros []. by apply (b_open s l). Qed.

Lemma live_dev s l : live s l → ∃ fd, dev_open l fd.
Proof using Type. intros [? _]. by eapply awake_dev. Qed.

Lemma l_base s l : live s l → base s l.
Proof using Type. by intros [[]]. Qed.

Lemma l_tap s l : live s l → is_Some (tap_io_buf s).
Proof using Type. by intros [[]]. Qed.

Lemma l_mode s l : live s l → s_mode s ≠ GXFP_MODE_CLOSED.
Proof using Type. by intros [[]]. Qed.

Lemma live_svc_ok s l : live s l → svc_ok (svc s).
Proof using Type. intros Hs. by apply (b_svc s l), l_base. Qed.

Lemma awake_flow s l : awake s l → ∃ q, flow_inv (fdt s) q.
Proof using Type. intros []. by apply (b_fdt s l). Qed.

Lemma live_flow s l : live s l → ∃ q, flow_inv (fdt s) q.
Proof using Type. intros [? _]. by eapply awake_flow. Qed.

(** ** Errors *)

Lemma set_error_wp fuel err target l c s e :
  awake s l → (500 * B < fuel)%nat →
  wp (session_set_error fuel err target)
     (λ _ w', ∃ l', w' = W l' c (set_mode GXFP_MODE_FAILED s) (ev_error err target e) ∧ extends l l' ∧
        (recovers err target = false → l' = l)) (W l c s e).
Proof using EO CO.
  intros Hs Hf. destruct (awake_dev s l Hs) as (fd & Hd). unfold session_set_error.
  apply wp_bind, wp_no_ev, wp_bind, wp_mod_ev, wp_bind, wp_has_io.
  rewrite bool_decide_eq_false_2 by apply (a_mode s l Hs). cbn [negb].
  apply wp_bind. destruct (recovers err target) eqn:Hr; cbn [andb].
  - apply wp_bind, wp_io. eapply wp_mono; [by apply (recovery_run fuel true true false l fd)|].
    intros r l' Hst. cbv beta in Hst. apply wp_ret, wp_bind, wp_no_impl, wp_mod_sess.
    exists l'. split; [done|]. split; [by eapply steps_extends|done].
  - apply wp_ret, wp_bind, wp_no_impl, wp_mod_sess. by exists l.
Qed.

Lemma live_failed s l : awake s l → live (set_mode GXFP_MODE_FAILED s) l.
Proof using Type. apply live_mode_free; [by intros [?|?]|done]. Qed.

(** What a session that failed tells its caller. *)
Definition failed (s : gxfp_session_impl) (e : gxfp_session_events) : Prop :=
  s_mode s = GXFP_MODE_FAILED ∧ session_error e = 1 ∧ error_code e < 0.

(** The world after a call on an open session: it is open still, and [P] holds. *)
Definition lives (P : gxfp_session_impl → gxfp_session_events → Prop) (l : lworld) (w : sworld) : Prop :=
  ∃ l' c s e, w = W l' c s e ∧ extends l l' ∧ static_ok c ∧ live s l' ∧ P s e.

Lemma lives_here (P : gxfp_session_impl → gxfp_session_events → Prop) l l' c s e :
  extends l l' → static_ok c → live s l' → P s e → lives P l (W l' c s e).
Proof using Type. intros. by exists l', c, s, e. Qed.

Lemma lives_mono (P Q : gxfp_session_impl → gxfp_session_events → Prop) l0 l w :
  extends l0 l → (∀ s e, P s e → Q s e) → lives P l w → lives Q l0 w.
Proof using Type.
  intros Hx HPQ (l' & c & s & e & -> & Hx' & Hc & Hs & HP). exists l', c, s, e.
  split; [done|]. split; [by rewrite Hx|]. auto.
Qed.

Lemma set_error_lives (P : gxfp_session_impl → gxfp_session_events → Prop) fuel err target l0 l c s e :
  extends l0 l → static_ok c → awake s l → (500 * B < fuel)%nat → err < 0 →
  (∀ s' e', failed s' e' → P s' e') →
  wp (session_set_error fuel err target) (λ _, lives P l0) (W l c s e).
Proof using EO CO.
  intros Hx Hc Hs Hf He HP. eapply wp_mono; [by apply set_error_wp|]. cbn beta.
  intros _ w' (l' & -> & Hx' & _). apply lives_here.
  - by rewrite Hx.
  - done.
  - apply live_failed. by eapply awake_extends.
  - apply HP. done.
Qed.

(** ** The parts *)

Lemma free_svc_run l c s e :
  svc_ok (svc s) → free_svc (W l c s e) = Some ((), W l c (set_svc None s) e).
Proof using Type.
  intros Hv. unfold free_svc. rewrite (run_bind _ _ _ s (W l c s e)) by done.
  rewrite service_free_run by done. by rewrite bind_lift, bind_lift.
Qed.

Lemma flow_init_run f0 : ∃ f, gxfp_fdt_flow_init (Some f0) = Some (Some f) ∧ flow_inv f [].
Proof using Type. apply flow_init_inv. Qed.

Lemma init_fdt_run l c s e :
  ∃ f, init_fdt (W l c s e) = Some ((), W l c (set_fdt f s) e) ∧ flow_inv f [].
Proof using Type.
  destruct (flow_init_inv (fdt s)) as (f & Ef & Hf). exists f. split; [|done].
  unfold init_fdt. rewrite (run_bind _ _ _ s (W l c s e)) by done. rewrite Ef. by rewrite bind_lift, bind_lift.
Qed.

Lemma runtime_run l c s e q :
  flow_inv (fdt s) q →
  ∃ f, session_apply_fdt_runtime_from_otp (W l c s e) = Some ((), W l c (set_fdt f s) e) ∧ flow_inv f q.
Proof using Type.
  intros Hf. set (dac := if negb (otp_has_tcode_delta s =? 0) then s16 (otp_fdt_delta s) else 0).
  destruct (gxfp_cmd_fdt_state_set_runtime (Some (cmd (fdt s))) 0 0 0 dac) as [k|] eqn:Ek; [|done].
  exists (set_cmd k (fdt s)). split.
  - unfold session_apply_fdt_runtime_from_otp. rewrite (run_bind _ _ _ false (W l c s e)) by done.
    rewrite (run_bind _ _ _ s (W l c s e)) by done. cbv zeta. fold dac. by rewrite Ek, bind_lift.
  - injection Ek as <-. apply flow_inv_cmd; [|done].
    destruct (fi_cmd _ _ Hf) as (H1 & H2 & H3 & H4 & H5). by do 4 (split; [done|]).
Qed.

Lemma dev_null_any l fd : l_dev l = Some fd → dev_null l = Some (false, l).
Proof using Type. intros Hd. unfold dev_null, gets. by rewrite Hd. Qed.

(** A fresh TLS service, or none and an error. *)
Lemma tls_init_wp l c s e fd :
  base s l → svc s = None → dev_open l fd →
  wp session_tls_init
     (λ r w', ∃ l' v, w' = W l' c (set_svc v s) e ∧ extends l l' ∧ svc_ok v ∧
        (r < 0 ∧ v = None ∨ r = 0 ∧ ∃ i, v = Some i ∧ hs i = GXFP_TLS_HS_CONNECTING)) (W l c s e).
Proof using EO.
  intros Hb Hv Hd. unfold session_tls_init. apply wp_bind, wp_sess. rewrite Hv.
  assert (Hn : svc_ok None) by by left.
  assert (Hbad : ∀ x, gxfp_tls_service_init (Some None) x (psk s) (psk_len s) l = Some ((- EINVAL, Some None), l) →
    wp ('(r, v) ← io (gxfp_tls_service_init (Some None) x (psk s) (psk_len s)); v ← lift v;
        mod_sess (set_svc v);; mret r)
      (λ r w', ∃ l' v, w' = W l' c (set_svc v s) e ∧ extends l l' ∧ svc_ok v ∧
        (r < 0 ∧ v = None ∨ r = 0 ∧ ∃ i, v = Some i ∧ hs i = GXFP_TLS_HS_CONNECTING)) (W l c s e)).
  { intros x Hx. apply wp_bind. eapply wp_eq; [by apply io_run|]. apply wp_bind, (wp_lift _ None); [done|].
    apply wp_bind, wp_mod_sess, wp_ret. exists l, None. split; [done|]. split; [done|]. split; [done|]. by left. }
  destruct (psk s) as [k|] eqn:Hk.
  2: { apply Hbad. unfold gxfp_tls_service_init. by rewrite (run_bind _ _ _ _ _ (dev_null_run l fd Hd)). }
  destruct (Z.eq_dec (psk_len s) GXFP5130_PSK_LEN) as [Hl|Hl].
  2: { apply Hbad. unfold gxfp_tls_service_init. rewrite (run_bind _ _ _ _ _ (dev_null_run l fd Hd)).
       by rewrite (proj2 (Z.eqb_neq _ _)). }
  clear Hbad. rewrite Hl. apply wp_bind, wp_io.
  pose proof (b_psk s l Hb k Hk) as Hkl.
  eapply wp_mono; [apply (service_init_wp _ k l fd Hd); lia|].
  intros [r v] l' (Hw & Hr). cbn beta. assert (Hx : extends l l') by apply Hw.
  destruct Hr as [(Hr & ->)|(-> & i & -> & Hi & Hh & _)].
  - apply wp_bind, (wp_lift _ None); [done|]. apply wp_bind, wp_mod_sess, wp_ret.
    exists l', None. split; [done|]. split; [done|]. split; [done|]. by left.
  - apply wp_bind, (wp_lift _ (Some i)); [done|]. apply wp_bind, wp_mod_sess, wp_ret.
    exists l', (Some i). split; [done|]. split; [done|]. split; [by right; exists i|]. right.
    split; [done|]. by exists i.
Qed.

Lemma set_fdt_mode_wp fuel m l c s e :
  live s l → static_ok c → (500 * B < fuel)%nat →
  wp (session_set_fdt_mode fuel m)
     (λ _, lives (λ s' e', (∃ f, s' = set_fdt f s) ∧ e' = e ∨ failed s' e') l) (W l c s e).
Proof using EO CO.
  intros Hs Hc Hf. destruct (live_dev s l Hs) as (fd & Hd). destruct (live_flow s l Hs) as (q & Hq).
  unfold session_set_fdt_mode. apply wp_bind, wp_has_io, wp_bind, wp_no_ev.
  rewrite bool_decide_eq_false_2 by apply (l_mode s l Hs). cbn [negb orb].
  apply wp_bind, wp_sess, wp_bind, wp_io. eapply wp_mono; [by apply (set_mode_wp m _ q l fd)|].
  intros [r f'] l' (f & k & -> & Hp & _ & Hq'). apply wp_bind, (wp_lift _ f); [done|]. apply wp_bind, wp_mod_sess.
  assert (Hx : extends l l') by apply Hp.
  assert (Hs' : live (set_fdt f s) l') by (eapply live_fdt, live_extends; done).
  destruct (Z.ltb_spec r 0).
  - apply set_error_lives; try done. by right.
  - apply wp_ret, lives_here; try done. left. split; [by exists f|done].
Qed.

(** Going idle needs no packet and cannot fail. *)
Lemma set_fdt_idle_run fuel l c s e :
  awake s l →
  ∃ f, session_set_fdt_mode fuel GXFP_FDT_MODE_IDLE (W l c s e) = Some ((), W l c (set_fdt f s) e) ∧
    awake (set_fdt f s) l.
Proof using Type.
  intros Hs. destruct (awake_dev s l Hs) as (fd & Hd). destruct (awake_flow s l Hs) as (q & Hq).
  unfold session_set_fdt_mode. rewrite (run_bind _ _ _ _ _ (has_io_run l c s e)).
  rewrite (run_bind _ _ _ false (W l c s e)) by done.
  rewrite bool_decide_eq_false_2 by apply (a_mode s l Hs). cbn [negb orb].
  rewrite (run_bind _ _ _ s (W l c s e)) by done.
  assert (Hm : ∃ f, gxfp_fdt_flow_set_mode (Some (fdt s)) GXFP_FDT_MODE_IDLE l = Some ((0, Some f), l) ∧ flow_inv f q).
  { unfold gxfp_fdt_flow_set_mode. rewrite (run_bind _ _ _ _ _ (dev_null_run l fd Hd)).
    destruct (_ =? UFdt.mode _); [by eexists|]. eexists. split; [done|].
    apply flow_inv_mode; [done|apply list_elem_of_here|done|done]. }
  destruct Hm as (f & Ef & Hf). exists f. split; [|by eapply awake_fdt].
  rewrite (run_bind _ _ _ _ _ (io_run _ _ _ _ c s e Ef)). by rewrite bind_lift.
Qed.

Lemma capture_ok_none : capture_ok None.
Proof using Type. intros ? [=]. Qed.

Lemma rearm_wp fuel l c s e :
  live s l → static_ok c → (500 * B < fuel)%nat →
  wp (session_rearm_tls_if_needed fuel)
     (λ _, lives (λ s' e', s_mode s' = s_mode s ∧ e' = e ∧ gxfp_tls_service_state (Some (svc s')) ≠ GXFP_TLS_HS_ERROR ∨
                           failed s' e' ∧ svc s' = None) l) (W l c s e).
Proof using EO CO.
  intros Hs Hc Hf. destruct (live_dev s l Hs) as (fd & Hd). unfold session_rearm_tls_if_needed.
  apply wp_bind, wp_sess.
  destruct (gxfp_tls_service_state (Some (svc s))) eqn:Hst.
  1-5: (apply wp_ret, lives_here; [done|done|done|]; left; split; [done|]; split; [done|]; by rewrite Hst).
  apply wp_bind. eapply wp_eq; [by apply free_svc_run, (live_svc_ok s l)|].
  assert (Hs1 : live (set_svc None s) l) by (apply live_svc; [by left|intros _; apply capture_ok_none|done]).
  apply wp_bind, wp_io. eapply wp_mono; [by apply (flush_rxq_run l fd)|]. intros ? l1 (Hx1 & _).
  assert (Hs2 : live (set_svc None s) l1) by by eapply live_extends.
  apply wp_bind. eapply wp_mono.
  { apply (tls_init_wp l1 c _ e fd (l_base _ _ Hs2)); [done|by eapply dev_open_extends]. }
  intros r w2 (l2 & v & -> & Hx2 & Hv & Hr). cbn beta.
  change (set_svc v (set_svc None s)) with (set_svc v s).
  assert (Hx : extends l l2) by by rewrite Hx1.
  assert (Hcv : capture_ok v).
  { destruct Hr as [(_ & ->)|(_ & i & -> & Hi)]; [apply capture_ok_none|]. intros j [= <-]. by rewrite Hi. }
  assert (Hs3 : live (set_svc v s) l2) by (apply live_svc; [done|done|by eapply live_extends]).
  destruct (Z.ltb_spec r 0).
  - eapply wp_mono; [by apply set_error_wp|]. intros _ w' (l' & -> & Hx3 & _). apply lives_here.
    + by rewrite Hx.
    + done.
    + apply live_failed. by eapply live_extends.
    + right. split; [by split|]. by destruct Hr as [(_ & ->)|(? & _)]; [|lia].
  - apply wp_ret, lives_here; [done|done|done|]. left. split; [done|]. split; [done|].
    destruct Hr as [(? & _)|(_ & i & -> & Hi)]; [lia|]. cbn. by rewrite Hi.
Qed.

Lemma activate_wp fuel l c s e :
  live s l → static_ok c → (500 * B < fuel)%nat → session_error e = 0 →
  wp (gxfp_session_activate fuel)
     (λ r, lives (λ s' e', r = 0 ∧ s_mode s' = GXFP_MODE_ACTIVATING_TLS ∧ session_error e' = 0 ∨
                           r < 0 ∧ failed s' e' ∧ error_code e' = r ∧ svc s' = None) l) (W l c s e).
Proof using EO CO.
  intros Hs Hc Hf He. unfold gxfp_session_activate.
  apply wp_bind, wp_no_impl, wp_bind, wp_no_ev. cbn [orb]. apply wp_bind, wp_has_io.
  rewrite bool_decide_eq_false_2 by apply (l_mode s l Hs). cbn [negb].
  apply wp_bind, wp_sess, wp_bind.
  assert (Hgo : ∀ s1, live s1 l → wp (session_rearm_tls_if_needed fuel;;
      e ← ev;
      if negb (session_error e =? 0) then mret (if negb (error_code e =? 0) then error_code e else - EIO)
      else init_fdt;; session_apply_fdt_runtime_from_otp;;
           mod_sess (set_mode GXFP_MODE_ACTIVATING_TLS);; mod_ev (ev_tick 0);; mret 0)
    (λ r, lives (λ s' e', r = 0 ∧ s_mode s' = GXFP_MODE_ACTIVATING_TLS ∧ session_error e' = 0 ∨
                           r < 0 ∧ failed s' e' ∧ error_code e' = r ∧ svc s' = None) l) (W l c s1 e)).
  { intros s1 Hs1. apply wp_bind. eapply wp_mono; [by apply rearm_wp|].
    intros _ w' (l' & c' & s' & e' & -> & Hx & Hc' & Hs' & Hr). apply wp_bind, wp_ev.
    destruct Hr as [(_ & -> & _)|((Hm & H1 & Hn) & Hv)].
    - rewrite He. cbn [negb Z.eqb]. apply wp_bind. destruct (init_fdt_run l' c' s' e) as (f & Ef & Hfl).
      eapply wp_eq; [exact Ef|]. apply wp_bind.
      destruct (runtime_run l' c' (set_fdt f s') e [] Hfl) as (f2 & Ef2 & Hf2).
      eapply wp_eq; [exact Ef2|]. apply wp_bind, wp_mod_sess, wp_bind, wp_mod_ev, wp_ret.
      apply lives_here; [done|done| |by left].
      apply live_mode; [done|by intros [?|?]|]. by apply (live_fdt f2 []), (live_fdt f []).
    - rewrite H1. cbn [negb Z.eqb]. rewrite (proj2 (Z.eqb_neq _ _)) by lia. cbn [negb].
      apply wp_ret, lives_here; [done|done|done|]. by right. }
  destruct (bool_decide_reflect (s_mode s = GXFP_MODE_FAILED)) as [Hm|Hm].
  - apply wp_mod_sess. apply Hgo. apply live_mode; [done|by intros [?|?]|done].
  - by apply wp_ret, Hgo.
Qed.

Lemma step_done fuel st i l :
  hs i = GXFP_TLS_HS_DONE →
  gxfp_tls_service_step fuel st (Some (Some i)) l = Some ((1, st, Some (Some i)), l).
Proof using Type.
  intros Hh. unfold gxfp_tls_service_step. rewrite Hh. rewrite bool_decide_eq_false_2 by done. cbn [andb].
  rewrite bind_ret. change (0 <? 0) with false. cbv iota. by rewrite Hh.
Qed.

(** A step of the service of a session, which may not be there. *)
Lemma svc_step_wp fuel st v l fd :
  dev_open l fd → static_ok st → svc_ok v → (pull_fuel <= fuel)%nat →
  wp (gxfp_tls_service_step fuel st (Some v))
     (λ '(r, st', p) l', extends l l' ∧ static_ok st' ∧
        ∃ v', p = Some v' ∧ svc_ok v' ∧ (capture_ok v → capture_ok v')) l.
Proof using EO TO.
  intros Hd Hst Hv Hf. destruct Hv as [[= ->]|(i & [= ->] & Hi)].
  { apply wp_ret. split; [done|]. split; [done|]. exists None. split; [done|]. split; [by left|done]. }
  destruct (decide (hs i = GXFP_TLS_HS_DONE)) as [Hdone|Hnd].
  { eapply wp_eq; [by apply step_done|]. split; [done|]. split; [done|]. exists (Some i).
    split; [done|]. split; [right; by exists i|done]. }
  eapply wp_mono; [by apply (step_wp fuel st i l fd)|].
  intros [[r st'] p] l' (Hst' & Hw & i' & -> & Hi' & _ & _ & _ & Himg). split; [apply Hw|]. split; [done|].
  exists (Some i'). split; [done|]. split; [right; by exists i'|]. intros _ j [= <-] Hj. by apply Himg.
Qed.

Lemma poll_tls_loop_wp fuel n i l c s e :
  live s l → static_ok c → (500 * B < fuel)%nat → (pull_fuel <= fuel)%nat →
  wp (poll_tls_loop fuel n i)
     (λ _, lives (λ s' e', (∃ v, s' = set_svc v s) ∧ (e' = e ∨ e' = ev_tick 0 e) ∨ failed s' e') l) (W l c s e).
Proof using EO TO CO.
  intros Hs Hc Hf Hp. revert i l c s e Hs Hc. induction n as [|n IH]; intros i l c s e Hs Hc; cbn [poll_tls_loop].
  { apply wp_ret, lives_here; [done|done|done|]. left. split; [|by left]. exists (svc s). by destruct s. }
  destruct (live_dev s l Hs) as (fd & Hd).
  apply wp_bind, wp_sess, wp_bind, wp_getw, wp_bind, wp_io.
  eapply wp_mono; [by apply (svc_step_wp fuel c (svc s) l fd Hd Hc (live_svc_ok s l Hs))|].
  intros [[r c1] p] l1 (Hx & Hc1 & v & -> & Hv & Hcap). apply wp_bind, (wp_lift _ v); [done|].
  apply wp_bind. unfold put_crc. apply wp_modw. change {| s_l := _ |} with (W l1 c1 s e).
  apply wp_bind, wp_mod_sess.
  assert (Hs1 : live (set_svc v s) l1).
  { apply live_svc; [done| |by eapply live_extends]. intros Hm. by apply Hcap, (l_capture s l Hs). }
  destruct ((r =? - EAGAIN) || (r =? 1)).
  { apply wp_ret, lives_here; [done|done|done|]. left. split; [by exists v|by left]. }
  destruct (Z.ltb_spec r 0); [apply set_error_lives; try done; by right|].
  apply wp_bind.
  assert (Hgo : ∀ e1, (e1 = e ∨ e1 = ev_tick 0 e) → wp (poll_tls_loop fuel n (i + 1))
    (λ _, lives (λ s' e', (∃ v, s' = set_svc v s) ∧ (e' = e ∨ e' = ev_tick 0 e) ∨ failed s' e') l)
    (W l1 c1 (set_svc v s) e1)).
  { intros e1 He1. eapply wp_mono; [by apply IH|]. intros ? w'. apply lives_mono; [done|].
    intros s' e' [((v2 & Es') & He)|H1]; [|by right]. rewrite Es'. left. split; [by exists v2|].
    destruct He1 as [->| ->]; [done|]. destruct He as [->| ->]; by right. }
  destruct (i =? 63); [apply wp_mod_ev|apply wp_ret]; apply Hgo; auto.
Qed.

Lemma poll_tls_wp fuel l c s e :
  live s l → static_ok c → (500 * B < fuel)%nat → (pull_fuel <= fuel)%nat →
  wp (session_poll_tls fuel)
     (λ _, lives (λ s' e', (∃ v, s' = set_svc v s) ∧ (e' = e ∨ e' = ev_tick 0 e) ∨ failed s' e') l) (W l c s e).
Proof using EO TO CO. apply poll_tls_loop_wp. Qed.

Lemma finish_activation_wp fuel l c s e :
  live s l → static_ok c → (500 * B < fuel)%nat → session_error e = 0 →
  wp (session_maybe_finish_activation fuel)
     (λ _, lives (λ s' e', session_error e' = 0 ∧
        (s' = s ∨ s_mode s = GXFP_MODE_ACTIVATING_TLS ∧ s_mode s' = GXFP_MODE_ACTIVATING_WAIT_UP) ∨ failed s' e') l)
     (W l c s e).
Proof using EO CO.
  intros Hs Hc Hf He. unfold session_maybe_finish_activation.
  apply wp_bind, wp_no_impl, wp_bind, wp_sess.
  assert (Hsame : ∀ P, lives (λ s' e', session_error e' = 0 ∧ (s' = s ∨ P s') ∨ failed s' e') l (W l c s e)).
  { intros P. apply lives_here; [done|done|done|]. left. split; [done|by left]. }
  destruct (bool_decide_reflect (s_mode s = GXFP_MODE_ACTIVATING_TLS)) as [Hm|Hm]; cbn [negb]; [|by apply wp_ret].
  assert (Hgo : wp (session_set_fdt_mode fuel GXFP_FDT_MODE_WAIT_UP;;
    e ← ev;
    if negb (session_error e =? 0) then mret () else
    mod_sess (set_mode GXFP_MODE_ACTIVATING_WAIT_UP);; mod_ev (ev_tick 0))
     (λ _, lives (λ s' e', session_error e' = 0 ∧
        (s' = s ∨ s_mode s = GXFP_MODE_ACTIVATING_TLS ∧ s_mode s' = GXFP_MODE_ACTIVATING_WAIT_UP) ∨ failed s' e') l)
     (W l c s e)).
  { apply wp_bind. eapply wp_mono; [by apply set_fdt_mode_wp|].
    intros _ w' (l' & c' & s' & e' & -> & Hx & Hc' & Hs' & Hr). apply wp_bind, wp_ev.
    destruct Hr as [((f & ->) & ->)|Hr].
    - rewrite He. cbn [negb Z.eqb]. apply wp_bind, wp_mod_sess, wp_mod_ev. apply lives_here; [done|done| |].
      + apply live_mode; [done|by intros [?|?]|done].
      + left. split; [done|]. by right.
    - destruct Hr as (Hr1 & Hr2 & Hr3). rewrite Hr2. cbn [negb Z.eqb]. apply wp_ret, lives_here; [done|done|done|].
      right. by split. }
  destruct (gxfp_tls_service_state (Some (svc s))); try (by apply wp_ret); exact Hgo.
Qed.

(** ** Decoding *)

(** A computation that makes no system call. *)
Definition quiet {A} (m : M lworld A) : Prop := ∀ w a w', m w = Some (a, w') →
  extends w w' ∧ (l_oom w = [] → l_oom w' = []).

Lemma quiet_ret {A} (a : A) : quiet (mret a).
Proof using Type. intros w b w' [= _ <-]. done. Qed.

Lemma quiet_lift {A} (o : option A) : quiet (lift o).
Proof using Type. intros w b w'. unfold lift. destruct o; [|done]. by intros [= _ <-]. Qed.

Lemma quiet_ub {A} : quiet (ub : M lworld A).
Proof using Type. intros w b w' [=]. Qed.

Lemma quiet_malloc n : quiet (umalloc n).
Proof using Type.
  intros w b w'. rewrite umalloc_run. intros [= _ <-]. split; [apply extends_pop|]. by cbn; intros ->.
Qed.

Lemma quiet_bind {A A'} (m : M lworld A) (f : A → M lworld A') :
  quiet m → (∀ a, quiet (f a)) → quiet (m ≫= f).
Proof using Type.
  intros Hm Hf w b w' Hr. destruct (bind_inv _ _ _ _ _ Hr) as (a & w1 & E1 & E2).
  destruct (Hm _ _ _ E1) as (X1 & O1), (Hf _ _ _ _ E2) as (X2 & O2). split; [by rewrite X1|auto].
Qed.

Ltac quiet := repeat first
  [ apply quiet_ret | apply quiet_ub | apply quiet_lift | apply quiet_malloc
  | apply quiet_bind; [|intros]; cbv beta iota zeta
  | case_match ].

Lemma decode_quiet buf len mode out : quiet (gxfp_decode_image buf len mode out).
Proof using Type.
  assert (Hm : ∀ b n m o, quiet (decode_mode b n m o)).
  { intros b n m o. unfold decode_mode, gxfp_decode_milan, gxfp_decode_chicago. quiet. }
  unfold gxfp_decode_image. quiet; apply Hm.
Qed.

(** ** Images *)

Lemma ref_decode_ok mode p len img :
  bytes_ok p → ref_decode mode p len = inr img → img_ok img.
Proof using Type.
  intros Hp Hr.
  assert (Hgo : ∀ m q n, bytes_ok q → ref_mode m q n = inr img → img_ok img).
  { intros m q n Hq Hm. destruct (ref_mode_typed m q n img Hq Hm) as (a & b & bits & Hd & <- & <- & px & Epx & Hl & Hf).
    assert (Hdim : dims_ok (rows img) (cols img) ∧ bits <= 16 ∧ 0 <= bits).
    { unfold dims_ok. destruct m; cbn in Hd; try done; injection Hd as <- <- <-; lia. }
    split; [apply Hdim|]. exists px. split; [done|]. split; [|done].
    eapply Forall_impl; [exact Hf|]. cbn. intros v Hv.
    assert (2 ^ bits <= 2 ^ 16) by (apply Z.pow_le_mono_r; lia). lia. }
  unfold ref_decode in Hr. destruct mode; [|by eapply Hgo..].
  destruct (detected len) as [[m n]|]; [|done]. eapply Hgo; [|exact Hr].
  destruct (_ <? 5); [done|by apply bytes_ok_zdrop].
Qed.

Lemma ref_decode_err mode p len x : ref_decode mode p len = inl x → 0 < x.
Proof using Type.
  assert (Hgo : ∀ m q n, ref_mode m q n = inl x → 0 < x).
  { intros m q n. unfold ref_mode, ref_packed. destruct m; repeat case_match; intros [= <-]; done. }
  unfold ref_decode. destruct mode; [|by apply Hgo..].
  destruct (detected len) as [[m n]|]; [by apply Hgo|by intros [= <-]].
Qed.

(** An image without the fixed pattern of the dark frame. *)
Definition fpn_image (d : gxfp_fpn_dark) (i : gxfp_decoded_image) : gxfp_decoded_image :=
  let q := subtracted (default [] (pixels i)) (Some d) in
  match inner_range (rows i) (cols i) q with
  | Some (gmin, gmax) => {| pixels := Some (corrected gmin gmax q); rows := rows i; cols := cols i |}
  | None => i
  end.

(** What the session makes of a decoded image, or the error. *)
Definition session_image (s : gxfp_session_impl) (i : gxfp_decoded_image) : Z + gxfp_decoded_image :=
  if dark_loaded s =? 0 then inr i else
  if (dark_rows (dark s) =? rows i) && (dark_cols (dark s) =? cols i) then inr (fpn_image (dark s) i)
  else inl EINVAL.

Lemma session_image_run s i :
  img_ok i → (dark_loaded s = 0 ∨ dark_loaded s = 1 ∧ frame_ok (dark s)) →
  (if negb (dark_loaded s =? 0) then gxfp_fpn_correct (pixels i) (rows i) (cols i) (Some (dark s))
   else Some (0, pixels i))
  = Some (match session_image s i with inr j => (0, pixels j) | inl x => (- x, pixels i) end) ∧
  (∀ j, session_image s i = inr j → img_ok j ∧ rows j = rows i ∧ cols j = cols i) ∧
  (∀ x, session_image s i = inl x → x = EINVAL).
Proof using Type.
  intros ((Hr & Hc & Hm) & px & Epx & Hp & Hl) Hd. unfold session_image.
  destruct Hd as [->|(-> & (_ & _ & Hdm) & dk & Edk & Hdk & Hdl)]; cbn [Z.eqb negb].
  { split; [done|]. split; [|done]. intros j [= <-]. split; [|done]. split; [done|]. by exists px. }
  rewrite Epx. destruct (Z.eqb_spec (dark_rows (dark s)) (rows i)) as [Er|Er]; cbn [andb].
  2: { rewrite fpn_correct_refused by (done || by left). split; [done|]. split; [done|]. by intros x [= <-]. }
  destruct (Z.eqb_spec (dark_cols (dark s)) (cols i)) as [Ec|Ec].
  2: { rewrite fpn_correct_refused by (done || by right). split; [done|]. split; [done|]. by intros x [= <-]. }
  destruct (fpn_correct_run px (rows i) (cols i) (Some (dark s)) Hp Hl Hr Hc Hm) as (Hq & Hql & gmin & gmax & Ei & H0 & H1 & _ & Hrun).
  { intros d [= <-]. split; [done|]. split; [done|]. exists dk. split; [done|]. split; [done|]. by rewrite Hdl, Er, Ec. }
  unfold fpn_image. rewrite Epx. cbn [default from_option id]. rewrite Ei.
  split; [exact Hrun|]. split; [|done]. intros j [= <-]. split; [|done].
  destruct (corrected_ok gmin gmax _ Hq H0 H1) as (Ho & Hol).
  split; [done|]. eexists. split; [done|]. split; [exact Ho|]. exact (eq_trans Hol (eq_trans Hql Hl)).
Qed.

Definition frame_of (i : gxfp_decoded_image) : gxfp_fpn_dark :=
  {| dark_pixels := pixels i; dark_rows := rows i; dark_cols := cols i |}.

Lemma set_dark_wp i l c s e :
  img_ok i →
  wp (session_set_dark_from_image (Some i))
     (λ r w', r = 0 ∧ w' = W (pop_alloc l) c (set_dark (frame_of i) 1 s) e ∨
              r = - ENOMEM ∧ w' = W (pop_alloc l) c s e ∧ l_oom l ≠ []) (W l c s e).
Proof using EO.
  intros ((Hr & Hc & Hm) & px & Epx & Hp & Hl). unfold session_set_dark_from_image.
  apply wp_bind, wp_no_impl. rewrite Epx. rewrite !(proj2 (Z.leb_gt _ _)) by lia. cbn [orb]. cbv zeta.
  apply wp_bind, wp_io, malloc_wp.
  - intros Ho. apply wp_ret. by right.
  - intros b _ _. apply wp_bind. eapply wp_lift; [by apply slice_full|]. apply wp_bind, wp_mod_sess, wp_ret.
    left. split; [done|]. unfold frame_of. by rewrite Epx.
Qed.

(** What the caller and the session get from a capture. *)
Definition got_image (s s' : gxfp_session_impl) (e' : gxfp_session_events) (i : gxfp_decoded_image) : Prop :=
  s_mode s' = GXFP_MODE_IDLE ∧ session_error e' = 0 ∧
  if bool_decide (s_mode s = GXFP_MODE_ACTIVATING_DARK_CAPTURE)
  then dark s' = frame_of i ∧ dark_loaded s' = 1 ∧ activate_complete e' = 1 ∧
       pending_img_ready s' = pending_img_ready s
  else pending_img s' = i ∧ pending_img_ready s' = 1 ∧ image_ready e' = 1 ∧ dark s' = dark s.

Lemma finish_dark_wp fuel i l c s e :
  awake s l → static_ok c → (500 * B < fuel)%nat → session_error e = 0 → img_ok i →
  s_mode s = GXFP_MODE_ACTIVATING_DARK_CAPTURE →
  wp (finish_dark fuel i) (λ _, lives (λ s' e', got_image s s' e' i ∨ failed s' e' ∧ l_oom l ≠ []) l) (W l c s e).
Proof using EO CO.
  intros Hs Hc Hf He Hi Hm. unfold finish_dark. apply wp_bind. eapply wp_mono; [by apply set_dark_wp|].
  intros r w' [(-> & ->)|(-> & -> & Ho)].
  - change (0 <? 0) with false. cbv iota.
    assert (Hs1 : awake (set_dark (frame_of i) 1 s) (pop_alloc l)).
    { apply awake_dark; [right; split; [done|exact Hi]|]. by eapply awake_extends, extends_pop. }
    apply wp_bind. destruct (set_fdt_idle_run fuel (pop_alloc l) c _ e Hs1) as (f & Ef & Hs2).
    eapply wp_eq; [exact Ef|]. apply wp_bind, wp_ev. rewrite He. cbn [negb Z.eqb].
    apply wp_bind, wp_mod_sess, wp_mod_ev. apply lives_here; [apply extends_pop|done| |].
    + apply live_mode_free; [by intros [?|?]|done|done].
    + left. split; [done|]. split; [done|]. rewrite bool_decide_eq_true_2 by done. done.
  - change (- ENOMEM <? 0) with true. cbv iota.
    apply set_error_lives; [apply extends_pop|done|by eapply awake_extends, extends_pop|done|done|]. by right.
Qed.

Lemma finish_image_wp fuel i l c s e :
  awake s l → static_ok c → (500 * B < fuel)%nat → session_error e = 0 → img_ok i →
  s_mode s = GXFP_MODE_CAPTURING →
  wp (finish_image fuel i)
     (λ _, lives (λ s' e', match session_image s i with
                           | inr j => got_image s s' e' j
                           | inl x => failed s' e' ∧ error_code e' = - x
                           end) l) (W l c s e).
Proof using EO CO.
  intros Hs Hc Hf He Hi Hm. unfold finish_image. apply wp_bind, wp_sess.
  destruct (session_image_run s i Hi (b_dark s l (a_base s l Hs))) as (Er & Hj & Hx). rewrite Er.
  apply wp_bind. eapply wp_lift; [done|]. destruct (session_image s i) as [x|j].
  - rewrite (Hx x eq_refl). change (- EINVAL <? 0) with true. cbv iota.
    eapply wp_mono; [by apply set_error_wp|]. intros _ w' (l' & -> & Hxl & _).
    apply lives_here; [done|done|apply live_failed; by eapply awake_extends|by split].
  - change (0 <? 0) with false. cbv iota. destruct (Hj j eq_refl) as (Hok & Hrow & Hcol).
    apply wp_bind, wp_mod_sess, wp_bind, wp_mod_sess, wp_mod_ev.
    assert (Ej : {| pixels := pixels j; rows := rows i; cols := cols i |} = j) by (destruct j; cbn in *; congruence).
    rewrite Ej. apply lives_here; [done|done| |].
    + apply live_mode_free; [by intros [?|?]|done|]. apply awake_pending; [by right|done].
    + split; [done|]. split; [done|]. by rewrite Hm.
Qed.

(** The image a captured frame stands for, in the mode of the session. *)
Definition capture_result (s : gxfp_session_impl) (body : bytes) : Z + gxfp_decoded_image :=
  match ref_decode GXFP_DECODE_AUTO body (zlen body) with
  | inl x => inl x
  | inr i => if bool_decide (s_mode s = GXFP_MODE_ACTIVATING_DARK_CAPTURE) then inr i else session_image s i
  end.

Definition finalized (oom : list bool) (s s' : gxfp_session_impl) (e' : gxfp_session_events) (pl : bytes) : Prop :=
  match capture_result s (zdrop 5 pl) with
  | inr i => got_image s s' e' i ∨ failed s' e' ∧ oom ≠ []
  | inl x => failed s' e' ∧ (error_code e' = - x ∨ oom ≠ [])
  end.

Lemma captured_inj pl pl' : captured pl = captured pl' → pl = pl'.
Proof using Type. intros [= H1 H2 _]. by rewrite <- (ztake_zdrop 5 pl), <- (ztake_zdrop 5 pl'), H1, H2. Qed.

Lemma finalize_wp fuel target l c s e i :
  live s l → static_ok c → (500 * B < fuel)%nat → session_error e = 0 → captures (s_mode s) →
  svc s = Some i → hs i = GXFP_TLS_HS_DONE →
  wp (session_finalize_capture fuel target)
     (λ _, lives (λ s' e', ∃ k pl, image_frame k pl ∧ img i = captured pl ∧ finalized (l_oom l) s s' e' pl) l)
     (W l c s e).
Proof using EO CO.
  intros Hs Hc Hf He Hm Hv Hh. unfold session_finalize_capture.
  apply wp_bind, wp_no_impl, wp_bind, wp_sess. rewrite Hv. cbn [gxfp_tls_service_state]. rewrite Hh.
  destruct (live_svc_ok s l Hs) as [Hn|(i' & [= Ei'] & Hi)]; [by rewrite Hv in Hn|].
  rewrite Hv in Ei'. injection Ei' as <-.
  destruct (l_capture s l Hs Hm i Hv Hh) as (k & pl & Hfr & Ei).
  apply wp_bind, wp_io. unfold u_stack. apply wp_gets.
  apply wp_bind, wp_io.
  eapply wp_mono; [by apply (raw_image_wp _ i l Hi); apply u_uninit_len|].
  intros [[[[r p] h'] b'] n'] l1 (Hw & Ho & i1 & -> & Hi1 & _ & Hh1 & Hr). cbv beta iota.
  assert (Hx1 : extends l l1) by apply Hw.
  assert (Hs1 : awake (set_svc (Some i1) s) l1).
  { apply awake_svc; [right; by exists i1|]. apply (awake_extends s l); [done|exact Hx1]. }
  apply wp_bind, (wp_lift _ (Some i1)); [done|]. apply wp_bind, wp_mod_sess.
  assert (Hpost : ∀ s' e', finalized (l_oom l) s s' e' pl →
    ∃ k pl, image_frame k pl ∧ img i = captured pl ∧ finalized (l_oom l) s s' e' pl) by (intros; by exists k, pl).
  assert (Hbad : l_oom l ≠ [] → ∀ s' e', failed s' e' → finalized (l_oom l) s s' e' pl).
  { intros Hne s' e' Hf'. unfold finalized. destruct (capture_result _ _); [by split; [|right]|by right]. }
  destruct Hr as [(_ & _ & Hno)|[(-> & _ & _ & Hne)|(-> & k' & pl' & Hfr' & Ei' & -> & -> & -> & _)]].
  { exfalso. apply Hno. by exists k, pl. }
  { change (- ENOMEM <=? 0) with true. change (- ENOMEM <? 0) with true. cbv iota.
    apply set_error_lives; try done. intros. by apply Hpost, Hbad. }
  assert (pl' = pl) as -> by (rewrite Ei in Ei'; by apply captured_inj in Ei'). clear k' Hfr' Ei'.
  change (1 <=? 0) with false. cbv iota.
  apply wp_bind, (wp_lift _ (Some (zdrop 5 pl))); [done|]. apply wp_bind, (wp_lift _ (zlen pl - 5)); [done|].
  pose proof (image_long k pl Hfr) as Hlong. destruct Hfr as (Himg & Hplb & Hpll).
  assert (Hz : zlen (zdrop 5 pl) = zlen pl - 5) by (rewrite zlen_zdrop; lia).
  assert (Hzb : bytes_ok (zdrop 5 pl)) by by apply bytes_ok_zdrop.
  destruct (decode_image_run (zdrop 5 pl) (zlen pl - 5) GXFP_DECODE_AUTO img_zero l1) as (r & o & l2 & Er & Hcase);
    [lia|lia|done|]. rewrite <- Hz in Hcase at 1.
  destruct (decode_quiet _ _ _ _ _ _ _ Er) as (Hx2 & Ho2).
  assert (Hs2 : awake (set_svc (Some i1) s) l2) by by eapply awake_extends.
  assert (Hx : extends l l2) by by rewrite Hx1.
  apply wp_bind. eapply wp_eq; [by apply io_run|]. cbv beta iota.
  assert (Hoom : l_oom l1 ≠ [] → l_oom l ≠ []) by naive_solver.
  assert (Hoom2 : l_oom l2 ≠ [] → l_oom l ≠ []) by naive_solver.
  destruct Hcase as [Hcase|(-> & _ & Hne)]; cycle 1.
  { change (- ENOMEM <? 0) with true. cbv iota.
    apply set_error_lives; try done. intros. by apply Hpost, Hbad; [apply Hoom|]. }
  destruct (ref_decode GXFP_DECODE_AUTO (zdrop 5 pl) (zlen (zdrop 5 pl))) as [x|im] eqn:Eref.
  - destruct Hcase as (-> & _). pose proof (ref_decode_err _ _ _ _ Eref).
    rewrite (proj2 (Z.ltb_lt (- x) 0)) by lia.
    eapply wp_mono; [by apply set_error_wp|]. intros _ w' (l3 & -> & Hx3 & _).
    apply lives_here; [by rewrite Hx|done|apply live_failed; by eapply awake_extends|].
    apply Hpost. unfold finalized, capture_result. rewrite Eref. split; [split; [done|split; [done|cbn; lia]]|by left].
  - destruct Hcase as (-> & ->). change (0 <? 0) with false. cbv iota.
    pose proof (ref_decode_ok _ _ _ _ Hzb Eref) as Him.
    apply wp_bind, (wp_lift _ im); [done|]. apply wp_bind, wp_sess. cbn [s_mode set_svc].
    destruct (bool_decide_reflect (s_mode s = GXFP_MODE_ACTIVATING_DARK_CAPTURE)) as [Hd|Hd].
    + eapply wp_mono; [by apply finish_dark_wp|]. intros ? w'. apply lives_mono; [done|].
      intros s' e' Hr. apply Hpost. unfold finalized, capture_result. rewrite Eref, bool_decide_eq_true_2 by done.
      destruct Hr as [Hr|(Hr & Hne)]; [by left|right; auto].
    + assert (Hcap : s_mode s = GXFP_MODE_CAPTURING) by by destruct Hm.
      eapply wp_mono; [by apply finish_image_wp|]. intros ? w'. apply lives_mono; [done|].
      intros s' e' Hr. apply Hpost. unfold finalized, capture_result. rewrite Eref, bool_decide_eq_false_2 by done.
      change (session_image (set_svc (Some i1) s) im) with (session_image s im) in Hr.
      destruct (session_image s im); [destruct Hr; by split; [|left]|by left].
Qed.

End session_rules.

#[export] Hint Extern 0 (awake _ _) => solve [apply l_awake; assumption] : core.
