(* ===== verification/USessionCalls.v ===== *)
(** The calls of a session: the pump, the records of the device, the requests of the caller,
    opening and closing, each from the invariant of USession to the invariant. *)
From Stdlib Require Import ZArith Lia.
From stdpp Require Import prelude list.
From S2P Require Import Prelude KGoodixProto KUapi UGoodixProto UWorld UDev UCommon UXfer USensorCfg UCmds.
From S2P Require Import UDecoder UPlain UFdt UFpn UTls UTlsSvc USession.

Open Scope Z_scope.

Section session_calls.
Context {E : Uenv} {EO : UenvOk E} {T : Mbedtls} {TO : MbedtlsOk T} {B : nat} {CO : UclockOk E B}.

(** ** The pump *)

Lemma pump_fdt_wp l c s e :
  live s l → static_ok c →
  wp pump_fdt (λ _, lives (λ s' e', (∃ f, s' = set_fdt f s) ∧ e' = e) l) (W l c s e).
Proof using EO.
  intros Hs Hc. destruct (live_dev s l Hs) as (fd & Hd). destruct (live_flow s l Hs) as (q & Hq).
  unfold pump_fdt. apply wp_bind, wp_sess.
  assert (Hsame : lives (λ s' e', (∃ f, s' = set_fdt f s) ∧ e' = e) l (W l c s e)).
  { apply lives_here; try done. split; [|done]. exists (fdt s). by destruct s. }
  assert (Hpoll : wp (now ← io gxfp_monotonic_ms;
      '(r, f) ← io (gxfp_fdt_flow_poll (Some (fdt s)) now); f ← lift f; mod_sess (set_fdt f);; mret r)
      (λ _, lives (λ s' e', (∃ f, s' = set_fdt f s) ∧ e' = e) l) (W l c s e)).
  { apply wp_bind, wp_io, wp_monotonic, wp_bind, wp_io. set (l1 := calls _ l).
    assert (Hx1 : extends l l1) by apply extends_calls.
    eapply wp_mono; [apply (poll_wp _ _ q l1 fd); [by eapply dev_open_extends|done]|].
    intros [r f'] l2 (f & k & -> & (Hx2 & _) & _ & Hq'). apply wp_bind, (wp_lift _ f); [done|].
    apply wp_bind, wp_mod_sess, wp_ret, lives_here; [by rewrite Hx1|done| |by split; [exists f|]].
    eapply live_fdt; [done|]. eapply live_extends; [done|]. by rewrite Hx1. }
  destruct (s_mode s); first [exact Hpoll|by apply wp_ret].
Qed.

Lemma pump_tick_wp l c s e :
  wp pump_tick (λ _ w', w' = W l c s e ∨ w' = W l c s (ev_tick 20 e)) (W l c s e).
Proof using Type.
  unfold pump_tick. apply wp_bind, wp_sess.
  destruct (s_mode s), (gxfp_tls_service_state (Some (svc s)));
    first [by apply wp_ret; left|by apply wp_mod_ev; right].
Qed.

(** The modes a pump can leave, without an error. *)
Definition pump_next (m : gxfp_session_mode) : list gxfp_session_mode :=
  match m with
  | GXFP_MODE_ACTIVATING_TLS => [GXFP_MODE_ACTIVATING_TLS; GXFP_MODE_ACTIVATING_WAIT_UP]
  | GXFP_MODE_ACTIVATING_DARK_CAPTURE => [GXFP_MODE_ACTIVATING_DARK_CAPTURE; GXFP_MODE_IDLE]
  | GXFP_MODE_CAPTURING => [GXFP_MODE_CAPTURING; GXFP_MODE_IDLE]
  | m => [m]
  end.

Lemma pump_next_self m : m ∈ pump_next m.
Proof using Type. destruct m; apply list_elem_of_here. Qed.

(** [moves m next]: no error, and a mode of [next]; or a failure that is reported. *)
Definition moves (next : list gxfp_session_mode) (s' : gxfp_session_impl) (e' : gxfp_session_events) : Prop :=
  session_error e' = 0 ∧ s_mode s' ∈ next ∨ failed s' e'.

(** The end of a pump: an image may be there. *)
Lemma pump_end_wp fuel l c s e m :
  live s l → static_ok c → (500 * B < fuel)%nat → session_error e = 0 → s_mode s = m →
  wp (pump_capture fuel;; pump_tick) (λ _, lives (moves [m; GXFP_MODE_IDLE]) l) (W l c s e) ∧
  (¬ captures m → wp (pump_capture fuel;; pump_tick) (λ _, lives (moves [m]) l) (W l c s e)).
Proof using EO CO.
  intros Hs Hc Hf He Hm.
  assert (Htick : ∀ (P : gxfp_session_impl → gxfp_session_events → Prop) w,
    (∀ s e, P s e → P s (ev_tick 20 e)) → lives P l w → wp pump_tick (λ _, lives P l) w).
  { intros P w HP (l' & c' & s' & e' & -> & Hx & Hc' & Hs' & Hp).
    eapply wp_mono; [apply pump_tick_wp|]. intros _ w' [->| ->]; apply lives_here; auto. }
  assert (Hmv : ∀ next s e, moves next s e → moves next s (ev_tick 20 e)).
  { intros next s0 e0 [H|H]; [by left|by right]. }
  assert (Hrun : ∀ (m0 : M sworld ()) (P : gxfp_session_impl → gxfp_session_events → Prop),
    (∀ s e, P s e → P s (ev_tick 20 e)) → wp m0 (λ _, lives P l) (W l c s e) →
    wp (m0;; pump_tick) (λ _, lives P l) (W l c s e)).
  { intros m0 P HP H0. apply wp_bind. eapply wp_mono; [exact H0|]. intros ? w'. by apply Htick. }
  assert (Hself : ∀ next, m ∈ next → lives (moves next) l (W l c s e)).
  { intros next Hin. apply lives_here; try done. left. by rewrite Hm. }
  assert (Hfin : ∀ t, captures m → wp (session_finalize_capture fuel t)
    (λ _, lives (moves [m; GXFP_MODE_IDLE]) l) (W l c s e)).
  { intros t Hcap. rewrite <- Hm in Hcap.
    destruct (decide (gxfp_tls_service_state (Some (svc s)) = GXFP_TLS_HS_DONE)) as [Hd|Hd].
    - destruct (svc s) as [i|] eqn:Hv; [|done]. cbn in Hd.
      eapply wp_mono; [by apply (finalize_wp fuel t l c s e i)|]. intros ? w'.
      apply lives_mono; [done|]. intros s' e' (k & pl & _ & _ & Hz). unfold finalized in Hz.
      destruct (capture_result s (zdrop 5 pl)); [right; apply Hz|].
      destruct Hz as [(H1 & H2 & _)|(Hz & _)]; [left|by right]. split; [done|]. rewrite H1. set_solver.
    - assert (Hnone : session_finalize_capture fuel t (W l c s e) = Some ((), W l c s e)).
      { unfold session_finalize_capture. rewrite (run_bind _ _ _ false (W l c s e)) by done.
        rewrite (run_bind _ _ _ s (W l c s e)) by done. by destruct (gxfp_tls_service_state (Some (svc s))). }
      eapply wp_eq; [exact Hnone|]. apply Hself, list_elem_of_here. }
  split; [|intros Hn]; (apply Hrun; [apply Hmv|]); apply wp_bind, wp_sess; rewrite Hm.
  - destruct m; first [by apply Hfin; left|by apply Hfin; right|apply wp_ret, Hself, list_elem_of_here].
  - destruct m; first [by destruct Hn; left|by destruct Hn; right|apply wp_ret, Hself, list_elem_of_here].
Qed.

Lemma moves_failed next s e : failed s e → moves next s e.
Proof using Type. by right. Qed.

(** Cancelling an action calls nothing. *)
Lemma pump_cancel_run fuel l c s e :
  live s l → in_action (s_mode s) = true → (500 * B < fuel)%nat →
  gxfp_session_pump fuel true (W l c s e)
  = Some ((), W l c (set_mode GXFP_MODE_FAILED s)
      (ev_cancel (ev_error (- ECANCELED) (if bool_decide (s_mode s = GXFP_MODE_CAPTURING)
         then GXFP_SESSION_ERR_TARGET_CAPTURE else GXFP_SESSION_ERR_TARGET_ACTIVATE) e))).
Proof using EO CO.
  intros Hs Ha Hf. unfold gxfp_session_pump.
  rewrite (run_bind _ _ _ false (W l c s e)), (run_bind _ _ _ false (W l c s e)) by done. cbn [orb].
  rewrite (run_bind _ _ _ s (W l c s e)) by done.
  assert (inert (s_mode s) = false) as -> by by destruct (s_mode s). rewrite Ha. cbn [andb].
  destruct (wp_inv _ _ _ (set_error_wp fuel (- ECANCELED) (if bool_decide (s_mode s = GXFP_MODE_CAPTURING)
         then GXFP_SESSION_ERR_TARGET_CAPTURE else GXFP_SESSION_ERR_TARGET_ACTIVATE) l c s e (l_awake s l Hs) Hf))
    as ([] & w' & Er & l' & -> & _ & Hl). rewrite (run_bind _ _ _ _ _ Er), Hl by done. done.
Qed.

Lemma pump_wp fuel cancel l c s e :
  live s l → static_ok c → (500 * B < fuel)%nat → (pull_fuel <= fuel)%nat → session_error e = 0 →
  wp (gxfp_session_pump fuel cancel) (λ _, lives (moves (pump_next (s_mode s))) l) (W l c s e).
Proof using EO TO CO.
  intros Hs Hc Hf Hp He.
  destruct (cancel && in_action (s_mode s)) eqn:Hca.
  { apply andb_true_iff in Hca. destruct Hca as (-> & Ha). eapply wp_eq; [by apply pump_cancel_run|].
    apply lives_here; [done|done|by apply live_failed|]. right. split; [done|]. split; [done|]. cbn. unfold ECANCELED. lia. }
  unfold gxfp_session_pump. apply wp_bind, wp_no_impl, wp_bind, wp_no_ev. cbn [orb]. apply wp_bind, wp_sess.
  destruct (inert (s_mode s)).
  { apply wp_ret, lives_here; try done. left. split; [done|apply pump_next_self]. }
  rewrite Hca. apply wp_bind. eapply wp_mono; [by apply poll_tls_wp|].
  intros ? w1 (l1 & c1 & s1 & e1 & -> & Hx1 & Hc1 & Hs1 & Hr1). apply wp_bind, wp_ev.
  destruct Hr1 as [((v & ->) & He1)|Hbad]; cycle 1.
  { rewrite (proj1 (proj2 Hbad)). cbn [negb Z.eqb]. apply wp_ret, lives_here; try done. by right. }
  assert (He1' : session_error e1 = 0) by by destruct He1 as [->| ->].
  rewrite He1'. cbn [negb Z.eqb]. apply wp_bind. eapply wp_mono; [by apply finish_activation_wp|].
  intros ? w2 (l2 & c2 & s2 & e2 & -> & Hx2 & Hc2 & Hs2 & Hr2). apply wp_bind, wp_ev.
  assert (Hx : extends l l2) by by rewrite Hx1.
  destruct Hr2 as [(He2 & Hm2)|Hbad]; cycle 1.
  { rewrite (proj1 (proj2 Hbad)). cbn [negb Z.eqb]. apply wp_ret, lives_here; try done. by right. }
  rewrite He2. cbn [negb Z.eqb]. apply wp_bind. eapply wp_mono; [by apply pump_fdt_wp|].
  intros r w3 (l3 & c3 & s3 & e3 & -> & Hx3 & Hc3 & Hs3 & (f & ->) & ->).
  assert (Hx' : extends l l3) by by rewrite Hx.
  destruct (Z.ltb_spec r 0); [apply set_error_lives; try done; by right|].
  destruct (pump_end_wp fuel l3 c3 (set_fdt f s2) e2 (s_mode s2) Hs3 Hc3 Hf He2 eq_refl) as (H1 & H2).
  assert (Hsub : ∀ m1 m2 : list gxfp_session_mode, m1 ⊆ m2 → ∀ s e, moves m1 s e → moves m2 s e).
  { intros m1 m2 Hm s0 e0 [(Ha & Hb)|Hb]; [left; split; [done|by apply Hm]|by right]. }
  destruct Hm2 as [->|(Hm & Hm2)].
  - change (s_mode (set_svc v s)) with (s_mode s) in *.
    destruct (decide (captures (s_mode s))) as [Hcap|Hcap].
    + eapply wp_mono; [exact H1|]. intros ? w'. apply lives_mono; [done|]. apply Hsub.
      destruct Hcap as [->| ->]; done.
    + eapply wp_mono; [by apply H2|]. intros ? w'. apply lives_mono; [done|]. apply Hsub.
      intros m Hin. apply list_elem_of_singleton in Hin as ->. apply pump_next_self.
  - eapply wp_mono; [apply H2; rewrite Hm2; by intros [?|?]|]. intros ? w'. apply lives_mono; [done|]. apply Hsub.
    change (s_mode (set_svc v s)) with (s_mode s) in Hm. rewrite Hm, Hm2. set_solver.
Qed.

(** ** Records of the device *)

Context {N : nat} {FO : UfiniteOk E N}.

(** A request for an image, on a service that may not be there. *)
Lemma svc_request_run v :
  svc_ok v →
  ∃ r v', gxfp_tls_service_request_capture (Some v) = Some (r, Some v') ∧ svc_ok v' ∧
    (capture_ok v → capture_ok v') ∧ (0 <= r → capture_ok v').
Proof using EO.
  intros [[= ->]|(i & [= ->] & Hi)].
  { exists (- EINVAL), None. split; [done|]. split; [by left|]. split; [done|]. intros _. apply capture_ok_none. }
  destruct (request_capture_run i Hi) as (r & i' & Er & Hi' & _ & Hr). exists r, (Some i').
  split; [done|]. split; [right; by exists i'|].
  destruct Hr as [(-> & _ & Hh & _)|(-> & _ & ->)].
  - split; intros _ j [= <-]; by rewrite Hh.
  - split; [done|]. unfold EBUSY. lia.
Qed.

Lemma svc_feed_wp v h b n l :
  svc_ok v → bytes_ok b → 0 <= n <= zlen b →
  wp (gxfp_tls_service_feed_tap_record (Some v) h (Some b) n)
     (λ '(r, p) l', extends l l' ∧ ∃ v', p = Some v' ∧ svc_ok v' ∧ (capture_ok v → capture_ok v')) l.
Proof using EO.
  intros [[= ->]|(i & [= ->] & Hi)] Hb Hn.
  { apply wp_ret. split; [done|]. exists None. split; [done|]. split; [by left|done]. }
  eapply wp_mono; [by apply (feed_tap_wp h b n i l)|].
  intros [r p] l' (Hw & i' & -> & Hi' & (_ & Himg) & Hr). split; [apply Hw|]. exists (Some i').
  split; [done|]. split; [right; by exists i'|]. intros Hcap j [= <-] Hj.
  destruct Hr as [(_ & Hh)|(_ & Hh & _)]; [|by rewrite Hj in Hh]. rewrite Hh in Hj.
  destruct (Hcap i eq_refl Hj) as (k & pl & Hf & Ei). exists k, pl. by rewrite Himg.
Qed.

(** The modes the records of one wake-up can leave. *)
Definition fed (m m' : gxfp_session_mode) : Prop :=
  m' = m ∨ m = GXFP_MODE_ACTIVATING_WAIT_UP ∧ m' = GXFP_MODE_ACTIVATING_DARK_CAPTURE.

Lemma record_events_wp x l c s e :
  live s l → static_ok c → session_error e = 0 →
  wp (record_events x)
     (λ _, lives (λ s' e', session_error e' = 0 ∧ fed (s_mode s) (s_mode s')) l) (W l c s e).
Proof using EO.
  intros Hs Hc He. unfold record_events. apply wp_bind, wp_sess.
  assert (Hsame : ∀ e', session_error e' = 0 →
    lives (λ s' e', session_error e' = 0 ∧ fed (s_mode s) (s_mode s')) l (W l c s e')).
  { intros e' He'. apply lives_here; try done. split; [done|by left]. }
  assert (Hfinger : ∀ (b : bool) p, wp ((if b then mod_ev (ev_finger p) else mret ());; mret 0)
    (λ _, lives (λ s' e', session_error e' = 0 ∧ fed (s_mode s) (s_mode s')) l) (W l c s e)).
  { intros b p. apply wp_bind. destruct b; [apply wp_mod_ev|apply wp_ret]; by apply wp_ret, Hsame. }
  destruct (s_mode s) eqn:Hm; try (by apply wp_ret, Hsame); try apply Hfinger.
  destruct (_ =? 0); [by apply wp_ret, Hsame|].
  destruct (svc_request_run (svc s) (live_svc_ok s l Hs)) as (r & v & -> & Hv & Hk & Hr0).
  apply wp_bind. eapply wp_lift; [done|]. apply wp_bind, (wp_lift _ v); [done|]. apply wp_bind, wp_mod_sess.
  assert (Hs1 : live (set_svc v s) l).
  { apply live_svc; [done| |done]. intros Hcap. by apply Hk, (l_capture s l Hs). }
  destruct (Z.ltb_spec r 0).
  - apply wp_ret, lives_here; try done. split; [done|]. left. exact Hm.
  - apply wp_bind, wp_mod_sess, wp_bind, wp_mod_ev, wp_ret, lives_here; [done|done| |].
    + apply live_mode; [done|by intros _; apply Hr0|done].
    + split; [done|]. by right.
Qed.

Lemma delivered_extends l l' : extends l l' → (delivered [] (l_trace l) <= delivered [] (l_trace l'))%nat.
Proof using Type. intros (_ & _ & evs & ->). rewrite delivered_app. lia. Qed.

Lemma fed_trans m1 m2 m3 : fed m1 m2 → fed m2 m3 → fed m1 m3.
Proof using Type. unfold fed. intros [->|(-> & ->)] [->|(H & ->)]; auto; done. Qed.

(** What holds of every result of a computation. *)
Definition gives {A} (Q : A → Prop) (m : M lworld A) : Prop := ∀ w a w', m w = Some (a, w') → Q a.

Lemma gives_ret {A} (Q : A → Prop) a : Q a → gives Q (mret a).
Proof using Type. intros Ha w b w' [= <- _]. done. Qed.

Lemma gives_bind {A A'} (Q : A' → Prop) (m : M lworld A) (f : A → M lworld A') :
  (∀ a, gives Q (f a)) → gives Q (m ≫= f).
Proof using Type. intros Hf w b w' Hr. destruct (bind_inv _ _ _ _ _ Hr) as (a & w1 & _ & E2). by eapply Hf. Qed.

Lemma feed_events f h b n o :
  gives (λ '(_, _, ev), is_Some ev) (gxfp_fdt_flow_feed_record f (Some h) (Some b) n (Some o)).
Proof using Type.
  unfold gxfp_fdt_flow_feed_record.
  repeat first [apply gives_ret; by eexists | apply gives_bind; intros; cbv beta iota zeta | case_match].
Qed.

Lemma on_fd_loop_wp fuel turns l c s e :
  live s l → static_ok c → (500 * B < fuel)%nat → session_error e = 0 →
  (N - delivered [] (l_trace l) < turns)%nat →
  wp (on_fd_loop fuel turns)
     (λ _, lives (λ s' e', session_error e' = 0 ∧ fed (s_mode s) (s_mode s') ∨ failed s' e') l) (W l c s e).
Proof using EO CO FO.
  intros Hs Hc Hf. revert l c s e Hs Hc. induction turns as [|turns IH]; intros l c s e Hs Hc He Ht; [lia|].
  cbn [on_fd_loop]. apply wp_bind, wp_sess. destruct (live_dev s l Hs) as (fd & Hd).
  destruct (b_tap s l (l_base s l Hs)) as [(Hn & _)|(b & Eb & Hbl & Hbb & Ecap)].
  { pose proof (l_tap s l Hs) as (? & ?). congruence. }
  rewrite Eb, Ecap, bool_decide_eq_false_2 by done. change (TAP_BUF_SIZE =? 0) with false. cbn [orb].
  apply wp_bind, wp_io. eapply wp_mono; [by apply (read_record_total b TAP_BUF_SIZE hdr_unset l fd)|].
  intros [[[[n b'] o'] op] ol] l1 (-> & Hbok & (x & -> & Hxl) & _ & Hgood).
  specialize (Hbok Hbb x eq_refl). set (l1 := calls _ l). apply wp_bind, wp_mod_sess.
  assert (Hx1 : extends l l1) by apply extends_calls.
  assert (Hs1 : live (set_tap (Some x) TAP_BUF_SIZE s) l1).
  { apply live_tap; [done|done|]. by eapply live_extends. }
  set (s1 := set_tap (Some x) TAP_BUF_SIZE s) in *.
  assert (Hstop : lives (λ s' e', session_error e' = 0 ∧ fed (s_mode s) (s_mode s') ∨ failed s' e') l (W l1 c s1 e)).
  { apply lives_here; try done. left. split; [done|by left]. }
  destruct (Z.ltb_spec n 0).
  { destruct (n =? - EAGAIN); [by apply wp_ret|]. apply set_error_lives; try done. by right. }
  destruct (n =? 0); [by apply wp_ret|].
  destruct Hgood as (h & pl & -> & -> & _ & Hh & (got & Hgot) & Hn & Hpl & Hplb); [lia|].
  specialize (Hplb Hbb). assert (Hhl : 0 <= th_len h <= zlen pl) by lia.
  assert (Hdel : (delivered [] (l_trace l1) = S (delivered [] (l_trace l)))%nat).
  { unfold l1, calls. cbn [l_trace]. rewrite delivered_app. cbn [delivered app]. rewrite Hgot. lia. }
  apply wp_bind, (wp_lift _ h); [done|]. apply wp_bind, (wp_lift _ (Some pl)); [done|].
  apply wp_bind, wp_sess, wp_bind, wp_io.
  destruct (live_flow s1 l1 Hs1) as (q & Hq). assert (Hd1 : dev_open l1 fd) by by eapply dev_open_extends.
  destruct (wp_inv _ _ _ (feed_wp h pl (th_len h) GXFP_FDT_EVENT_NONE (fdt s1) q l1 fd Hd1 Hq Hplb Hhl))
    as ([[r f'] evs] & l2 & Er & f & k & -> & (Hx2 & _) & _ & Hq').
  destruct (feed_events _ _ _ _ _ _ _ _ Er) as (ev2 & ->). eapply wp_eq; [exact Er|]. cbv beta iota.
  apply wp_bind, (wp_lift _ f); [done|]. apply wp_bind, (wp_lift _ ev2); [done|]. apply wp_bind, wp_mod_sess.
  assert (Hs2 : live (set_fdt f s1) l2) by (eapply live_fdt, live_extends; done).
  assert (Hx2' : extends l l2) by by rewrite Hx1.
  destruct ((r <? 0) && negb (r =? - EAGAIN)) eqn:Hrb.
  { apply andb_true_iff in Hrb. destruct Hrb as (Hrb & _). apply Z.ltb_lt in Hrb.
    apply set_error_lives; try done. by right. }
  clear Er Hrb. apply wp_bind. eapply wp_mono; [by apply record_events_wp|].
  intros r2 w3 (l3 & c3 & s3 & e3 & -> & Hx3 & Hc3 & Hs3 & He3 & Hm3).
  assert (Hx3' : extends l l3) by by rewrite Hx2'.
  destruct (Z.ltb_spec r2 0); [apply set_error_lives; try done; by right|].
  apply wp_bind, wp_sess, wp_bind, wp_io.
  eapply wp_mono; [by apply (svc_feed_wp (svc s3) h pl (th_len h) l3 (live_svc_ok s3 l3 Hs3))|].
  intros [r3 p] l4 (Hx4 & v & -> & Hv & Hk). apply wp_bind, (wp_lift _ v); [done|]. apply wp_bind, wp_mod_sess.
  assert (Hs4 : live (set_svc v s3) l4).
  { apply live_svc; [done| |by eapply live_extends]. intros Hcap. by apply Hk, (l_capture s3 l3 Hs3). }
  assert (Hx4' : extends l l4) by by rewrite Hx3'.
  destruct (Z.ltb_spec r3 0); [apply set_error_lives; try done; by right|].
  eapply wp_mono; [apply IH; try done|].
  - pose proof (delivered_max (E:=E) (l_trace l4)). pose proof (delivered_extends l1 l4) as Hmon.
    assert (Hx14 : extends l1 l4) by (by rewrite Hx2, Hx3). specialize (Hmon Hx14).
    pose proof (delivered_max (E:=E) (l_trace l1)). lia.
  - intros ? w'. apply lives_mono; [done|]. intros s' e' [(Ha & Hb)|Hb]; [left|by right]. split; [done|].
    eapply fed_trans; [exact Hm3|exact Hb].
Qed.

(** The modes a wake-up can leave, without an error. *)
Definition fd_next (m : gxfp_session_mode) : list gxfp_session_mode :=
  match m with
  | GXFP_MODE_ACTIVATING_WAIT_UP =>
    [GXFP_MODE_ACTIVATING_WAIT_UP; GXFP_MODE_ACTIVATING_DARK_CAPTURE; GXFP_MODE_IDLE]
  | m => pump_next m
  end.

Lemma on_fd_wp fuel condition cancel l c s e :
  live s l → static_ok c → (500 * B < fuel)%nat → (pull_fuel <= fuel)%nat → (N < fuel)%nat →
  session_error e = 0 →
  wp (gxfp_session_on_fd fuel condition cancel) (λ _, lives (moves (fd_next (s_mode s))) l) (W l c s e).
Proof using EO TO CO FO.
  intros Hs Hc Hf Hp HN He. unfold gxfp_session_on_fd.
  apply wp_bind, wp_no_impl, wp_bind, wp_no_ev. cbn [orb]. apply wp_bind, wp_sess.
  destruct (inert (s_mode s)) eqn:Hin.
  { apply wp_ret, lives_here; try done. left. split; [done|].
    destruct (s_mode s); try done; apply list_elem_of_here. }
  destruct (negb _); [apply set_error_lives; try done; by right|].
  apply wp_bind. eapply wp_mono; [apply on_fd_loop_wp; try done; lia|].
  intros ? w1 (l1 & c1 & s1 & e1 & -> & Hx1 & Hc1 & Hs1 & Hr1).
  destruct Hr1 as [(He1 & Hm1)|Hbad].
  - eapply wp_mono; [by apply pump_wp|]. intros ? w'. apply lives_mono; [done|].
    intros s' e' [(Ha & Hb)|Hb]; [left; split; [done|]|by right].
    destruct Hm1 as [Hm1|(Hm & Hm1)].
    + rewrite Hm1 in Hb. destruct (s_mode s); try exact Hb. cbn [pump_next fd_next] in *. set_solver.
    + rewrite Hm, Hm1 in *. cbn [pump_next fd_next] in *. set_solver.
  - assert (Hnop : gxfp_session_pump fuel cancel (W l1 c1 s1 e1) = Some ((), W l1 c1 s1 e1)).
    { unfold gxfp_session_pump.
      rewrite (run_bind _ _ _ false (W l1 c1 s1 e1)), (run_bind _ _ _ false (W l1 c1 s1 e1)) by done. cbn [orb].
      rewrite (run_bind _ _ _ s1 (W l1 c1 s1 e1)) by done. by rewrite (proj1 Hbad). }
    eapply wp_eq; [exact Hnop|]. apply lives_here; try done. by right.
Qed.

(** ** Requests of the caller *)

(** The modes a request of a state can leave, without an error. *)
Definition state_next (st : gxfp_session_state) (m : gxfp_session_mode) : list gxfp_session_mode :=
  match m, st with
  | GXFP_MODE_CLOSED, _ | GXFP_MODE_FAILED, _ => [m]
  | _, GXFP_SESSION_STATE_AWAIT_FINGER_ON => [GXFP_MODE_WAIT_FINGER_ON]
  | GXFP_MODE_IDLE, GXFP_SESSION_STATE_CAPTURE | GXFP_MODE_WAIT_FINGER_ON, GXFP_SESSION_STATE_CAPTURE =>
    [GXFP_MODE_CAPTURING]
  | _, GXFP_SESSION_STATE_CAPTURE => []
  | _, GXFP_SESSION_STATE_AWAIT_FINGER_OFF => [GXFP_MODE_WAIT_FINGER_OFF]
  | _, GXFP_SESSION_STATE_IDLE => [GXFP_MODE_IDLE]
  | _, GXFP_SESSION_STATE_INACTIVE => [GXFP_MODE_READY]
  end.

(** A mode of the caller, and the finger detection that goes with it. *)
Lemma set_then_fdt_wp fuel m fm l c s e :
  awake s l → static_ok c → (500 * B < fuel)%nat → session_error e = 0 → ¬ captures m → m ≠ GXFP_MODE_CLOSED →
  wp (mod_sess (set_mode m);;
      session_set_fdt_mode fuel fm;;
      e ← ev; if session_error e =? 0 then mod_ev (ev_tick 0) else mret ())
     (λ _, lives (moves [m]) l) (W l c s e).
Proof using EO CO.
  intros Hs Hc Hf He Hm Hmc. apply wp_bind, wp_mod_sess, wp_bind.
  assert (Hs1 : live (set_mode m s) l) by by apply live_mode_free.
  eapply wp_mono; [by apply set_fdt_mode_wp|].
  intros ? w1 (l1 & c1 & s1 & e1 & -> & Hx1 & Hc1 & Hl1 & Hr1). apply wp_bind, wp_ev.
  destruct Hr1 as [((f & ->) & ->)|Hbad].
  - rewrite He. cbn [Z.eqb]. apply wp_mod_ev, lives_here; try done. left. split; [done|apply list_elem_of_here].
  - rewrite (proj1 (proj2 Hbad)). cbn [Z.eqb]. apply wp_ret, lives_here; try done. by right.
Qed.

Lemma change_state_wp fuel st l c s e :
  live s l → static_ok c → (500 * B < fuel)%nat → session_error e = 0 →
  wp (gxfp_session_change_state fuel st) (λ _, lives (moves (state_next st (s_mode s))) l) (W l c s e).
Proof using EO CO.
  intros Hs Hc Hf He. unfold gxfp_session_change_state.
  apply wp_bind, wp_no_impl, wp_bind, wp_no_ev. cbn [orb]. apply wp_bind, wp_has_io, wp_bind, wp_sess.
  pose proof (l_mode s l Hs) as Hmode. rewrite (bool_decide_eq_false_2 (s_mode s = GXFP_MODE_CLOSED)) by done.
  cbn [negb orb]. destruct (bool_decide_reflect (s_mode s = GXFP_MODE_FAILED)) as [Hfl|Hfl].
  { apply wp_ret, lives_here; try done. left. rewrite Hfl. split; [done|apply list_elem_of_here]. }
  cbv zeta. destruct st.
  - assert (Hst : state_next GXFP_SESSION_STATE_INACTIVE (s_mode s) = [GXFP_MODE_READY]) by by destruct (s_mode s).
    rewrite Hst. apply wp_bind. unfold gxfp_session_stop_run. apply wp_bind, wp_no_impl, wp_bind, wp_sess.
    rewrite (bool_decide_eq_false_2 (s_mode s = GXFP_MODE_CLOSED)) by done. cbn [negb]. apply wp_mod_sess.
    assert (Hs1 : live (set_mode GXFP_MODE_READY s) l) by (apply live_mode_free; [by intros [?|?]|done|done]).
    destruct (set_fdt_idle_run fuel l c (set_mode GXFP_MODE_READY s) e) as (f & Ef & Hs2); [done|].
    eapply wp_eq; [exact Ef|]. apply lives_here; [done|done|split; [done|by intros [?|?]]|].
    left. split; [done|apply list_elem_of_here].
  - assert (Hst : state_next GXFP_SESSION_STATE_IDLE (s_mode s) = [GXFP_MODE_IDLE]) by by destruct (s_mode s).
    rewrite Hst. apply wp_bind, wp_mod_sess.
    assert (Hs1 : live (set_mode GXFP_MODE_IDLE s) l) by (apply live_mode_free; [by intros [?|?]|done|done]).
    destruct (set_fdt_idle_run fuel l c (set_mode GXFP_MODE_IDLE s) e) as (f & Ef & Hs2); [done|].
    eapply wp_eq; [exact Ef|]. apply lives_here; [done|done|split; [done|by intros [?|?]]|].
    left. split; [done|apply list_elem_of_here].
  - assert (Hst : state_next GXFP_SESSION_STATE_AWAIT_FINGER_ON (s_mode s) = [GXFP_MODE_WAIT_FINGER_ON])
      by by destruct (s_mode s). rewrite Hst.
    apply set_then_fdt_wp; try done. by intros [?|?].
  - destruct (decide (s_mode s = GXFP_MODE_IDLE ∨ s_mode s = GXFP_MODE_WAIT_FINGER_ON)) as [Hok|Hno].
    + assert (Hst : state_next GXFP_SESSION_STATE_CAPTURE (s_mode s) = [GXFP_MODE_CAPTURING])
        by (by destruct Hok as [-> | ->]). rewrite Hst.
      assert (negb (bool_decide (s_mode s = GXFP_MODE_IDLE)) &&
              negb (bool_decide (s_mode s = GXFP_MODE_WAIT_FINGER_ON)) = false) as ->
        by (destruct Hok as [-> | ->]; done).
      destruct (svc_request_run (svc s) (live_svc_ok s l Hs)) as (r & v & -> & Hv & Hk & Hr0).
      apply wp_bind. eapply wp_lift; [done|]. apply wp_bind, (wp_lift _ v); [done|]. apply wp_bind, wp_mod_sess.
      assert (Hs1 : live (set_svc v s) l).
      { apply live_svc; [done| |done]. intros Hcap. by apply Hk, (l_capture s l Hs). }
      destruct (Z.ltb_spec r 0); [apply set_error_lives; try done; by right|].
      apply wp_bind, wp_mod_sess, wp_mod_ev, lives_here; [done|done| |].
      * apply live_mode; [done|by intros _; apply Hr0|done].
      * left. split; [done|apply list_elem_of_here].
    + rewrite !bool_decide_eq_false_2 by (intros ?; by apply Hno; auto). cbn [negb andb].
      apply set_error_lives; try done. by right.
  - assert (Hst : state_next GXFP_SESSION_STATE_AWAIT_FINGER_OFF (s_mode s) = [GXFP_MODE_WAIT_FINGER_OFF])
      by by destruct (s_mode s). rewrite Hst.
    apply set_then_fdt_wp; try done. by intros [?|?].
Qed.

(** ** Opening and closing *)

Lemma reset_buffers_run l c s e :
  ∃ d i, session_reset_buffers (W l c s e) = Some ((), W l c (set_pending i 0 (set_dark d 0 s)) e).
Proof using Type.
  unfold session_reset_buffers. rewrite (run_bind _ _ _ s (W l c s e)) by done.
  destruct (Z.eqb_spec (dark_loaded s) 0) as [Hd|Hd]; cbn [negb].
  - rewrite bind_ret, (run_bind _ _ _ s (W l c s e)) by done. exists (dark s).
    destruct (Z.eqb_spec (pending_img_ready s) 0) as [Hp|Hp]; cbn [negb].
    + exists (pending_img s). destruct s; cbn in *. by rewrite Hd, Hp.
    + exists img_zero. destruct s; cbn in *. by rewrite Hd.
  - set (s1 := set_dark dark_zero 0 s).
    rewrite (run_bind _ _ _ () (W l c s1 e)), (run_bind _ _ _ s1 (W l c s1 e)) by done. exists dark_zero.
    destruct (Z.eqb_spec (pending_img_ready s1) 0) as [Hp|Hp]; cbn [negb].
    + exists (pending_img s). assert (Hp' : pending_img_ready s = 0) by exact Hp. clear Hp. unfold s1. clear s1.
      destruct s; cbn in *. by rewrite Hp'.
    + exists img_zero. by destruct s.
Qed.

Lemma dev_close_run l fd :
  dev_open l fd → gxfp_dev_close l = Some ((), with_fd (- 1) (calls [EvClose fd] l)).
Proof using Type.
  intros (H1 & H2). unfold gxfp_dev_close. rewrite bind_getw, H1. by rewrite (proj2 (Z.leb_le _ _)) by done.
Qed.

(** A reset closes what is open, forgets the key, the frames and the service. *)
Lemma reset_runtime_run l c s e :
  base s l →
  ∃ l' s', gxfp_session_reset_runtime (W l c s e) = Some ((), W l' c s' e) ∧ closed s' ∧ base s' l' ∧
    l_dev l' = Some 0 ∧ l_oom l' = l_oom l ∧ tap_io_buf s' = tap_io_buf s ∧
    l_trace l' = l_trace l ++
      (if bool_decide (s_mode s = GXFP_MODE_CLOSED) then [] else [EvClose (default 0 (l_dev l))]).
Proof using Type.
  intros Hb. unfold gxfp_session_reset_runtime.
  rewrite (run_bind _ _ _ false (W l c s e)) by done. cbv iota.
  rewrite (run_bind _ _ _ _ _ (has_io_run l c s e)).
  assert (Hmid : ∃ l1 s1, (if negb (bool_decide (s_mode s = GXFP_MODE_CLOSED))
      then free_svc;; io gxfp_dev_close else mret ()) (W l c s e) = Some ((), W l1 c s1 e) ∧
    s1 = set_svc (svc s1) s ∧ l_oom l1 = l_oom l ∧ l_trace l1 = l_trace l ++
      (if bool_decide (s_mode s = GXFP_MODE_CLOSED) then [] else [EvClose (default 0 (l_dev l))])).
  { destruct (bool_decide_reflect (s_mode s = GXFP_MODE_CLOSED)) as [Hm|Hm]; cbn [negb].
    - exists l, s. split; [done|]. split; [by destruct s|]. by rewrite app_nil_r.
    - destruct (b_open s l Hb Hm) as (fd & Hd).
      rewrite (run_bind _ _ _ _ _ (free_svc_run l c s e (b_svc s l Hb))).
      erewrite io_run by by apply dev_close_run. do 2 eexists. split; [done|]. split; [by destruct s|].
      split; [done|]. by rewrite (proj1 Hd). }
  destruct Hmid as (l1 & s1 & E1 & Hs1 & Ho & Htr). rewrite (run_bind _ _ _ _ _ E1).
  rewrite (run_bind _ _ _ () (W (with_fd 0 l1) c s1 e)) by done. set (l2 := with_fd 0 l1).
  rewrite (run_bind _ _ _ () (W l2 c (set_svc None s1) e)) by done.
  destruct (init_fdt_run l2 c (set_svc None s1) e) as (f & Ef & Hf). rewrite (run_bind _ _ _ _ _ Ef).
  set (s2 := set_otp 0 0 0 (set_fdt f (set_svc None s1))).
  rewrite (run_bind _ _ _ () (W l2 c s2 e)) by done.
  destruct (runtime_run l2 c s2 e [] Hf) as (f2 & Ef2 & Hf2). rewrite (run_bind _ _ _ _ _ Ef2).
  set (s3 := set_psk None 0 (set_fdt f2 s2)). rewrite (run_bind _ _ _ () (W l2 c s3 e)) by done.
  destruct (reset_buffers_run l2 c s3 e) as (d & i & Er). rewrite (run_bind _ _ _ _ _ Er).
  exists l2, (set_mode GXFP_MODE_CLOSED (set_pending i 0 (set_dark d 0 s3))). split; [done|].
  assert (Ht : tap_io_buf s1 = tap_io_buf s ∧ tap_io_cap s1 = tap_io_cap s) by by rewrite Hs1.
  destruct Ht as (Ht1 & Ht2). split; [by split|]. split; [|by split_and!].
  pose proof (b_tap s l Hb) as Htap. rewrite <- Ht1, <- Ht2 in Htap.
  split; try done; cbn; [by left|by exists []|by left|by left].
Qed.

(** Closing: whatever the state and the device, the session ends closed. *)
Lemma close_wp fuel reset l c s e :
  sess_inv s l → (500 * B < fuel)%nat →
  wp (gxfp_session_request_close fuel reset)
     (λ _ w', ∃ l' s', w' = W l' c s' (ev_done false false true (ev_cancel e)) ∧ closed s' ∧ base s' l' ∧
        (s_mode s = GXFP_MODE_CLOSED → l' = l ∧ s' = s) ∧
        (s_mode s ≠ GXFP_MODE_CLOSED → ∃ fd l1, l_dev l = Some fd ∧ l_dev l' = Some 0 ∧
           (if (reset : bool) then steps (recovery_plan true 2) l l1 else l1 = l) ∧
           l_trace l' = l_trace l1 ++ [EvClose fd])) (W l c s e).
Proof using EO CO.
  intros Hs Hf. unfold gxfp_session_request_close, session_begin_cleanup.
  apply wp_bind, wp_no_impl, wp_bind, wp_no_ev. cbn [orb]. apply wp_bind.
  unfold gxfp_session_stop_run. apply wp_bind, wp_no_impl, wp_bind, wp_sess.
  destruct (bool_decide_reflect (s_mode s = GXFP_MODE_CLOSED)) as [Hm|Hm]; cbn [negb].
  - apply wp_ret, wp_bind, wp_mod_ev, wp_bind, wp_has_io. rewrite bool_decide_eq_true_2 by done. cbn [negb].
    apply wp_mod_ev. exists l, s. split; [done|]. destruct Hs as [Hs|(Hc & Hb)]; [by destruct (l_mode s l Hs)|].
    by split_and!.
  - destruct Hs as [Hs|(Hc & _)]; [|by destruct Hm; apply (c_mode s Hc)].
    destruct (live_dev s l Hs) as (fd & Hd).
    apply wp_mod_sess, wp_bind, wp_mod_ev, wp_bind, wp_has_io. cbn [s_mode set_mode].
    rewrite bool_decide_eq_false_2 by done. cbn [negb]. set (s1 := set_mode GXFP_MODE_READY s).
    assert (Hb1 : ∀ l1, extends l l1 → base s1 l1).
    { intros l1 Hx. apply base_mode; [by intros|]. by apply (base_extends s l), Hx; apply l_base. }
    assert (Hend : ∀ l1, extends l l1 → (if reset then steps (recovery_plan true 2) l l1 else l1 = l) →
      wp (gxfp_session_reset_runtime;; mod_ev (ev_done false false true))
        (λ _ w', ∃ l' s', w' = W l' c s' (ev_done false false true (ev_cancel e)) ∧ closed s' ∧ base s' l' ∧
        (s_mode s = GXFP_MODE_CLOSED → l' = l ∧ s' = s) ∧
        (s_mode s ≠ GXFP_MODE_CLOSED → ∃ fd l1, l_dev l = Some fd ∧ l_dev l' = Some 0 ∧
           (if (reset : bool) then steps (recovery_plan true 2) l l1 else l1 = l) ∧
           l_trace l' = l_trace l1 ++ [EvClose fd])) (W l1 c s1 (ev_cancel e))).
    { intros l1 Hx Hst. apply wp_bind.
      destruct (reset_runtime_run l1 c s1 (ev_cancel e) (Hb1 l1 Hx)) as (l' & s' & Er & Hc & Hb & Hd0 & _ & _ & Htr).
      eapply wp_eq; [exact Er|]. apply wp_mod_ev. exists l', s'. split; [done|]. split; [done|]. split; [done|].
      split; [done|]. intros _. exists fd, l1. split; [apply Hd|]. split; [done|]. split; [done|].
      rewrite Htr. rewrite bool_decide_eq_false_2 by done.
      by rewrite (proj1 (dev_open_extends l l1 fd Hd Hx)). }
    apply wp_bind. destruct reset.
    + apply wp_bind, wp_io. eapply wp_mono; [by apply (recovery_run fuel true true false l fd)|].
      intros r l1 Hst. cbv beta in Hst. apply wp_ret, Hend; [by eapply steps_extends|exact Hst].
    + by apply wp_ret, Hend.
Qed.

Lemma deactivate_wp fuel l c s e :
  sess_inv s l → static_ok c → session_error e = 0 →
  wp (gxfp_session_request_deactivate fuel)
     (λ _ w', ∃ s', w' = W l c s' (ev_done false true false (ev_cancel e)) ∧ sess_inv s' l ∧
        s_mode s' = match s_mode s with GXFP_MODE_CLOSED => GXFP_MODE_CLOSED | _ => GXFP_MODE_READY end)
     (W l c s e).
Proof using Type.
  intros Hs Hc He. unfold gxfp_session_request_deactivate, session_begin_cleanup.
  apply wp_bind, wp_no_impl, wp_bind, wp_no_ev. cbn [orb]. apply wp_bind.
  unfold gxfp_session_stop_run. apply wp_bind, wp_no_impl, wp_bind, wp_sess.
  destruct (bool_decide_reflect (s_mode s = GXFP_MODE_CLOSED)) as [Hm|Hm]; cbn [negb].
  - apply wp_ret, wp_bind, wp_mod_ev, wp_bind, wp_has_io. rewrite bool_decide_eq_true_2 by done. cbn [negb].
    apply wp_mod_ev. exists s. by rewrite Hm.
  - destruct Hs as [Hs|(Hcl & _)]; [|by destruct Hm; apply (c_mode s Hcl)].
    apply wp_mod_sess, wp_bind, wp_mod_ev, wp_bind, wp_has_io. cbn [s_mode set_mode].
    rewrite bool_decide_eq_false_2 by done. cbn [negb]. apply wp_bind, wp_mod_sess, wp_mod_ev.
    eexists. split; [done|]. split; [left; apply live_mode_free; [by intros [?|?]|done|]|by destruct (s_mode s)].
    apply awake_mode; [done|done].
Qed.

(** The image is handed over once. *)
Lemma take_image_run o l c s e :
  gxfp_session_take_image (Some o) (W l c s e)
  = Some (if pending_img_ready s =? 0 then ((- ENOENT, Some o), W l c s e)
          else ((0, Some (pending_img s)), W l c (set_pending img_zero 0 s) e)).
Proof using Type.
  unfold gxfp_session_take_image. rewrite (run_bind _ _ _ false (W l c s e)) by done.
  rewrite bool_decide_eq_false_2 by done. cbn [orb]. rewrite (run_bind _ _ _ s (W l c s e)) by done.
  by destruct (_ =? 0).
Qed.

Lemma open_fail_wp r l c s e :
  base s l → wp (open_fail r) (λ r' w', r' = r ∧ ∃ l' s', w' = W l' c s' e ∧ closed s' ∧ base s' l') (W l c s e).
Proof using Type.
  intros Hb. unfold open_fail. apply wp_bind.
  destruct (reset_runtime_run l c s e Hb) as (l' & s' & Er & Hc & Hb' & _).
  eapply wp_eq; [exact Er|]. apply wp_ret. split; [done|]. by exists l', s'.
Qed.

(** The configuration of the sensor, from its calibration memory. *)
Lemma apply_milanl_wp fuel l c s e :
  awake s l → (2000 * B < fuel)%nat →
  wp (session_apply_milanl_cfg fuel)
     (λ _ w', ∃ l' f t d h, let s' := set_fdt f (set_otp t d h s) in
        w' = W l' c s' e ∧ extends l l' ∧ awake s' l') (W l c s e).
Proof using EO CO.
  intros Hs Hf. destruct (awake_dev s l Hs) as (fd & Hd). unfold session_apply_milanl_cfg.
  assert (Hsame : ∀ l1, extends l l1 → ∃ l' f t d h, let s' := set_fdt f (set_otp t d h s) in
        W l1 c s e = W l' c s' e ∧ extends l l' ∧ awake s' l').
  { intros l1 Hx. exists l1, (fdt s), (otp_tcode s), (otp_fdt_delta s), (otp_has_tcode_delta s).
    assert (set_fdt (fdt s) (set_otp (otp_tcode s) (otp_fdt_delta s) (otp_has_tcode_delta s) s) = s) as ->
      by by destruct s. split; [done|]. split; [done|]. by apply (awake_extends s l). }
  apply wp_bind, wp_no_impl, wp_bind, wp_io. unfold u_stack. apply wp_gets, wp_bind, wp_io.
  assert (Hol : zlen (u_uninit (l_trace l) 256) = 256) by by apply u_uninit_len.
  eapply wp_mono; [apply (read_otp_run fuel _ 256 l fd Hd); [done|exact Hol|apply u_uninit_bytes|lia]|].
  intros [[r o'] n'] l1 (Hx1 & o & n & -> & -> & Hl & Hob & Hn).
  destruct (r <? 0); [by apply wp_ret, Hsame|]. apply wp_bind, (wp_lift _ n); [done|].
  assert (Hparse : ∃ r2 oc, gxfp_milanl_parse_otp (Some o) n (Some otp_cfg_zero) = Some (r2, Some oc) ∧
    (0 <= r2 → is_u16 (dac oc) ∧ is_u16 (tcode oc))).
  { destruct (Z.leb_spec n 31) as [Hs31|Hb31].
    - exists (- EBADMSG), otp_cfg_zero. split; [|unfold EBADMSG; lia]. unfold gxfp_milanl_parse_otp.
      change GXFP_MILANL_OTP_IDX_DAC with 31. by rewrite (proj2 (Z.leb_le _ _)).
    - do 2 eexists. split; [apply parse_otp_run; [done|lia]|]. intros _.
      pose proof (otp_values_bound o Hob) as Hv. cbn [dac tcode]. unfold is_u16. split; [lia|]. destruct (otp_valid o); lia. }
  destruct Hparse as (r2 & oc & -> & Hoc). apply wp_bind. eapply wp_lift; [done|]. cbv beta iota.
  destruct (Z.ltb_spec r2 0); [by apply wp_ret, Hsame|]. destruct (Hoc ltac:(lia)) as (Hdac & Htc).
  unfold gxfp_milanl_get_default_cfg_template. change (0 <? 0) with false. cbv iota.
  apply wp_bind. eapply wp_lift; [done|]. apply wp_bind. eapply wp_lift; [done|].
  apply wp_bind, wp_io, wp_gets.
  assert (Hbl : zlen (u_uninit (l_trace l1) GXFP_MILANL_CFG_LEN) = GXFP_MILANL_CFG_LEN) by by apply u_uninit_len.
  rewrite template_len.
  assert (Hprep : gxfp_milanl_prepare_cfg_blob (Some gxfp_milanl_cfg_template) GXFP_MILANL_CFG_LEN
      (Some (u_uninit (l_trace l1) GXFP_MILANL_CFG_LEN)) GXFP_MILANL_CFG_LEN
    = Some (GXFP_MILANL_CFG_LEN, Some gxfp_milanl_cfg_template)).
  { unfold gxfp_milanl_prepare_cfg_blob. rewrite Z.eqb_refl, Z.ltb_irrefl. cbn [negb].
    by rewrite memcpy_fill by (exact Hbl || exact template_len). }
  rewrite Hprep. apply wp_bind. eapply wp_lift; [done|]. change (GXFP_MILANL_CFG_LEN <? 0) with false. cbv iota.
  destruct (apply_template_run oc Hdac Htc) as (b & Eb & Hpat). rewrite Eb.
  destruct Hpat as (Hbl2 & _). apply wp_bind. eapply wp_lift; [done|]. change (0 <? 0) with false. cbv iota.
  assert (Hd1 : dev_open l1 fd) by by eapply dev_open_extends.
  apply wp_bind, wp_io. change (u16 GXFP_MILANL_CFG_LEN) with GXFP_MILANL_CFG_LEN.
  eapply wp_mono; [by apply (upload_config_run fuel b GXFP_MILANL_CFG_LEN l1 fd Hd1)|].
  intros [r3 st] l2 Hx2. cbv beta iota. assert (Hx : extends l l2) by by rewrite Hx1.
  destruct (r3 <? 0); [by apply wp_ret, Hsame|]. apply wp_bind, (wp_lift _ oc); [done|].
  apply wp_bind, wp_mod_sess, wp_bind. set (s1 := set_otp _ _ _ s).
  destruct (awake_flow s l Hs) as (q & Hq).
  destruct (runtime_run l2 c s1 e q Hq) as (f & Ef & Hfl). eapply wp_eq; [exact Ef|]. apply wp_ret.
  exists l2, f, (tcode oc), (fdt_delta oc), (has_tcode_delta oc). split; [done|]. split; [done|].
  eapply awake_fdt; [exact Hfl|]. eapply awake_extends; [|exact Hx].
  destruct Hs as [Hb Ht Hm]. split; [by apply base_otp|done|done].
Qed.

Lemma ensure_tap_wp l c s e :
  base s l → s_mode s ≠ GXFP_MODE_CLOSED →
  wp session_ensure_tap_io_buffer
     (λ r w', ∃ l' s', w' = W l' c s' e ∧ extends l l' ∧ svc s' = svc s ∧ s_mode s' = s_mode s ∧
        (r = 0 ∧ awake s' l' ∨ r < 0 ∧ base s' l')) (W l c s e).
Proof using EO.
  intros Hb Hm. unfold session_ensure_tap_io_buffer. apply wp_bind, wp_no_impl, wp_bind, wp_sess.
  destruct (tap_io_buf s) as [b|] eqn:Et.
  { apply wp_ret. exists l, s. do 4 (split; [done|]). left. split; [done|]. split; [done|by eexists|done]. }
  apply wp_bind, wp_io, malloc_wp.
  - intros _. apply wp_ret. exists (pop_alloc l), s. split; [done|]. split; [apply extends_pop|]. do 2 (split; [done|]).
    right. split; [done|]. eapply base_extends; [done|apply extends_pop].
  - intros b Hbl Hbb. apply wp_bind, wp_mod_sess, wp_ret.
    exists (pop_alloc l), (set_tap (Some b) TAP_BUF_SIZE s). split; [done|]. split; [apply extends_pop|].
    do 2 (split; [done|]). left. split; [done|].
    split; [|by eexists|done]. apply base_tap; [by apply Hbl|done|]. eapply base_extends; [done|apply extends_pop].
Qed.

(** What an [open] leaves: a session that is ready, or closed and an error. *)
Definition opened (c : crc_static) (e : gxfp_session_events) (r : Z) (w' : sworld) : Prop :=
  ∃ l' s', w' = W l' c s' e ∧
    (r = 0 ∧ live s' l' ∧ s_mode s' = GXFP_MODE_READY ∨ r < 0 ∧ closed s' ∧ base s' l').

Lemma open_fail_opened r l c s e : base s l → r < 0 → wp (open_fail r) (opened c e) (W l c s e).
Proof using Type.
  intros Hb Hr. eapply wp_mono; [by apply open_fail_wp|]. intros ? w' (-> & l' & s' & -> & Hc & Hb').
  exists l', s'. split; [done|]. by right.
Qed.

Lemma memcpy_prefix b key n :
  0 <= n <= zlen key → zlen b = n → memcpy b 0 key 0 n = Some (ztake n key).
Proof using Type.
  intros Hn Hb. unfold memcpy.
  destruct (split3 key 0 n) as (p & m & q & -> & Hp & Hm); [lia..|]. rewrite (zlen_0 p) by lia. cbn [app].
  rewrite slice_prefix, ztake_app by done. cbn [mbind option_bind].
  rewrite (blit_eq b 0 m [] b []) by (rewrite ?app_nil_r; done || lia). by rewrite app_nil_r.
Qed.

(** The key and the TLS service, on a device that is open. *)
Lemma open_tls_wp key n l c s e :
  0 <= n <= zlen key → awake s l → svc s = None → s_mode s = GXFP_MODE_READY →
  wp (p ← io (umalloc n);
      match p with
      | None => open_fail (- ENOMEM)
      | Some b =>
        b ← lift (memcpy b 0 key 0 n);
        mod_sess (set_psk (Some b) n);;
        r ← session_tls_init;
        if r <? 0 then open_fail r else
        init_fdt;;
        session_apply_fdt_runtime_from_otp;;
        mod_sess (set_mode GXFP_MODE_READY);;
        mret 0
      end) (opened c e) (W l c s e).
Proof using EO.
  intros Hn Hs Hv Hm. destruct (awake_dev s l Hs) as (fd & Hd). apply wp_bind, wp_io, malloc_wp.
  { intros _. apply open_fail_opened; [|done]. eapply base_extends; [apply Hs|apply extends_pop]. }
  intros b Hbl Hbb. rewrite memcpy_prefix by (done || apply Hbl, Hn).
  apply wp_bind, (wp_lift _ (ztake n key)); [done|]. apply wp_bind, wp_mod_sess. set (s1 := set_psk _ _ s). set (l1 := pop_alloc l).
  assert (Hs1 : awake s1 l1).
  { destruct (awake_extends s l l1 Hs (extends_pop l)) as [Hb Ht Hmm].
    split; [|done|done]. apply base_psk; [intros ? [= <-]; by apply zlen_ztake|done]. }
  assert (Hd1 : dev_open l1 fd) by (eapply dev_open_extends; [done|apply extends_pop]).
  apply wp_bind. eapply wp_mono; [by apply (tls_init_wp l1 c s1 e fd (a_base s1 l1 Hs1))|].
  intros r w2 (l2 & v & -> & Hx2 & Hvok & _). cbn beta.
  assert (Hs2 : awake (set_svc v s1) l2) by (apply awake_svc; [done|by eapply awake_extends]).
  destruct (Z.ltb_spec r 0); [apply open_fail_opened; [apply Hs2|done]|].
  apply wp_bind. destruct (init_fdt_run l2 c (set_svc v s1) e) as (f & Ef & Hf). eapply wp_eq; [exact Ef|].
  apply wp_bind. destruct (runtime_run l2 c (set_fdt f (set_svc v s1)) e [] Hf) as (f2 & Ef2 & Hf2).
  eapply wp_eq; [exact Ef2|]. apply wp_bind, wp_mod_sess, wp_ret.
  do 2 eexists. split; [done|]. left. split; [done|]. split; [|done].
  apply live_mode_free; [by intros [?|?]|done|]. by apply (awake_fdt f2 []), (awake_fdt f []).
Qed.

Lemma open_wp fuel path key n l c s e :
  sess_inv s l → (2000 * B < fuel)%nat → 0 < n <= zlen key →
  wp (gxfp_session_open fuel (Some path) (Some key) n) (opened c e) (W l c s e).
Proof using EO CO.
  intros Hs Hf Hk. unfold gxfp_session_open. apply wp_bind, wp_getw. cbn [s_sess W].
  rewrite (proj2 (Z.eqb_neq n 0)) by lia. assert (Hn : 0 <= n <= zlen key) by lia.
  apply wp_bind. apply (wp_eq _ _ _ 0 (W l c s e)); [done|]. change (0 <? 0) with false. cbv iota.
  apply wp_bind. assert (Hb : base s l) by (destruct Hs as [Hs|(_ & Hb)]; [by apply l_base|done]).
  destruct (reset_runtime_run l c s e Hb) as (l1 & s1 & Er & Hc1 & Hb1 & Hd1 & _).
  eapply wp_eq; [exact Er|]. apply wp_bind, wp_io. unfold gxfp_dev_open. apply wp_bind, wp_getw. rewrite Hd1.
  apply wp_bind, wp_syscall. set (l2 := calls _ l1). set (fd := sys_open _).
  assert (Hset : ∀ n, base s1 (with_fd n l2)).
  { intros k. destruct Hb1. split; try done. intros Hm. by destruct Hm; apply (c_mode s1 Hc1). }
  destruct (Z.ltb_spec fd 0).
  { apply wp_bind, wp_modw, wp_ret. rewrite (proj2 (Z.ltb_lt fd 0)) by done. apply wp_ret.
    exists (with_fd (- 1) l2), s1. split; [done|]. by right. }
  apply wp_bind, wp_modw, wp_ret. change (0 <? 0) with false. cbv iota.
  change {| l_dev := Some fd; l_trace := l_trace l2; l_oom := l_oom l2 |} with (with_fd fd l2).
  set (l3 := with_fd fd l2). assert (Hd3 : dev_open l3 fd) by done.
  apply wp_bind, wp_mod_sess. set (s2 := set_mode GXFP_MODE_READY s1).
  assert (Hb2 : base s2 l3) by (apply base_mode; [intros _ _; by exists fd|apply Hset]).
  apply wp_bind. eapply wp_mono; [by apply ensure_tap_wp|].
  intros r w4 (l4 & s4 & -> & Hx4 & Hv4 & Hm4 & Hr4). cbn beta.
  assert (Hv : svc s4 = None) by (rewrite Hv4; apply (c_svc s1 Hc1)).
  destruct Hr4 as [(-> & Hs4)|(Hr & Hb4)]; cycle 1.
  { rewrite (proj2 (Z.ltb_lt r 0)) by done. by apply open_fail_opened. }
  change (0 <? 0) with false. cbv iota. assert (Hd4 : dev_open l4 fd) by by eapply dev_open_extends.
  apply wp_bind, wp_io. eapply wp_mono; [by apply (flush_rxq_run l4 fd)|]. intros ? l5 (Hx5 & _).
  assert (Hs5 : awake s4 l5) by by eapply awake_extends.
  assert (Hd5 : dev_open l5 fd) by by eapply dev_open_extends.
  apply wp_bind, wp_io. eapply wp_mono; [apply (read_chip_id_run fuel 0 l5 fd Hd5); lia|].
  intros [r5 chip] l6 (Hx6 & (id & ->)). cbv beta iota. apply wp_bind, (wp_lift _ id); [done|].
  assert (Hs6 : awake s4 l6) by by eapply awake_extends.
  apply wp_bind. destruct (_ && _).
  - eapply wp_mono; [by apply apply_milanl_wp|].
    intros r7 w7 (l7 & f & t & d & h & -> & Hx7 & Hs7). cbn beta.
    destruct (Z.ltb_spec r7 0); [apply open_fail_opened; [apply Hs7|done]|].
    by apply open_tls_wp.
  - apply wp_ret. change (0 <? 0) with false. cbv iota. by apply open_tls_wp.
Qed.

End session_calls.
