(* ===== verification/USessionRun.v ===== *)
(** Whole sessions: any sequence of calls, closing, captures, the service that is lost. *)
From Stdlib Require Import ZArith Lia.
From stdpp Require Import prelude list.
From S2P Require Import Prelude KGoodixProto KUapi UGoodixProto UWorld UDev UCommon UXfer USensorCfg UCmds.
From S2P Require Import UDecoder UPlain UFdt UFpn UTls UTlsSvc USession USessionCalls.

Open Scope Z_scope.

Section session_runs.
Context {E : Uenv} {EO : UenvOk E} {T : Mbedtls} {TO : MbedtlsOk T} {B : nat} {CO : UclockOk E B}.
Context {N : nat} {FO : UfiniteOk E N}.

(** ** Any sequence of calls *)

(** A call into the session. Its events are cleared before. *)
Inductive session_op :=
| SessInit
| SessOpen (path key : bytes)
| SessActivate
| SessState (st : gxfp_session_state)
| SessFd (condition : Z) (cancelled : bool)
| SessPump (cancelled : bool)
| SessTake
| SessPoll (timeout : Z)
| SessDeactivate
| SessClose (reset_mcu : bool)
| SessDispose.

Definition run_session (fuel : nat) (op : session_op) : M sworld () :=
  gxfp_session_events_clear;;
  match op with
  | SessInit => gxfp_session_init
  | SessOpen path key => gxfp_session_open fuel (Some path) (Some key) (zlen key);; mret ()
  | SessActivate => gxfp_session_activate fuel;; mret ()
  | SessState st => gxfp_session_change_state fuel st
  | SessFd condition cancelled => gxfp_session_on_fd fuel condition cancelled
  | SessPump cancelled => gxfp_session_pump fuel cancelled
  | SessTake => gxfp_session_take_image (Some img_zero);; mret ()
  | SessPoll timeout => gxfp_session_poll_readable timeout;; mret ()
  | SessDeactivate => gxfp_session_request_deactivate fuel
  | SessClose reset_mcu => gxfp_session_request_close fuel reset_mcu
  | SessDispose => gxfp_session_dispose
  end.

(** The key is not empty. *)
Definition session_op_ok (op : session_op) : Prop :=
  match op with
  | SessOpen _ key => key ≠ []
  | _ => True
  end.

(** The modes a call can leave when it reports no error, and the calls that can fail. *)
Definition op_next (op : session_op) (m : gxfp_session_mode) : list gxfp_session_mode :=
  match op, m with
  | SessInit, _ | SessClose _, _ | SessDispose, _ => [GXFP_MODE_CLOSED]
  | SessOpen _ _, _ => [GXFP_MODE_READY; GXFP_MODE_CLOSED]
  | SessActivate, GXFP_MODE_CLOSED | SessDeactivate, GXFP_MODE_CLOSED => [GXFP_MODE_CLOSED]
  | SessActivate, _ => [GXFP_MODE_ACTIVATING_TLS]
  | SessDeactivate, _ => [GXFP_MODE_READY]
  | SessState st, m => state_next st m
  | SessFd _ _, m => fd_next m
  | SessPump _, m => pump_next m
  | SessTake, m | SessPoll _, m => [m]
  end.
Definition can_fail (op : session_op) (m : gxfp_session_mode) : bool :=
  match op with
  | SessActivate => negb (bool_decide (m = GXFP_MODE_CLOSED))
  | SessState _ => negb (bool_decide (m = GXFP_MODE_CLOSED)) && negb (bool_decide (m = GXFP_MODE_FAILED))
  | SessFd _ _ | SessPump _ => negb (inert m)
  | _ => false
  end.

Definition mode_of (w : sworld) : gxfp_session_mode :=
  match s_sess w with
  | Some (Some s) => s_mode s
  | _ => GXFP_MODE_CLOSED
  end.
(** The error the events report; 0 when they report none. *)
Definition error_of (w : sworld) : Z :=
  match s_ev w with
  | Some e => if session_error e =? 0 then 0 else error_code e
  | None => 0
  end.

(** The world between calls. *)
Definition session_inv (w : sworld) : Prop :=
  static_ok (s_crc w) ∧ is_Some (s_ev w) ∧
  ∃ p, s_sess w = Some p ∧ match p with Some s => sess_inv s (s_l w) | None => True end.

Definition step_ok (op : session_op) (m : gxfp_session_mode) (w' : sworld) : Prop :=
  error_of w' = 0 ∧ mode_of w' ∈ op_next op m ∨
  error_of w' < 0 ∧ mode_of w' = GXFP_MODE_FAILED ∧ can_fail op m = true.

Lemma moves_step op m next l w' :
  lives (moves next) l w' → (∀ m', m' ∈ next → m' ∈ op_next op m) → can_fail op m = true →
  session_inv w' ∧ step_ok op m w'.
Proof using Type.
  intros (l' & c & s & e & -> & _ & Hc & Hs & Hm) Hn Hf. split.
  - split; [done|]. split; [by eexists|]. exists (Some s). split; [done|]. by left.
  - unfold step_ok, error_of, mode_of, W. cbn [s_ev s_sess].
    destruct Hm as [(He & Hin)|(Hm & He & Hneg)]; [left|right]; rewrite He; cbn [Z.eqb]; auto.
Qed.

(** A call that leaves the world as it is. *)
Lemma same_step op l c s e :
  sess_inv s l → static_ok c → session_error e = 0 → s_mode s ∈ op_next op (s_mode s) →
  session_inv (W l c s e) ∧ step_ok op (s_mode s) (W l c s e).
Proof using Type.
  intros Hs Hc He Hin. split.
  - split; [done|]. split; [by eexists|]. by exists (Some s).
  - left. unfold error_of, W. cbn [s_ev]. by rewrite He.
Qed.

Lemma inert_fd_run fuel x b l c s e :
  inert (s_mode s) = true → gxfp_session_on_fd fuel x b (W l c s e) = Some ((), W l c s e).
Proof using Type.
  intros Hi. unfold gxfp_session_on_fd.
  rewrite (run_bind _ _ _ false (W l c s e)), (run_bind _ _ _ false (W l c s e)) by done. cbn [orb].
  rewrite (run_bind _ _ _ s (W l c s e)) by done. by rewrite Hi.
Qed.

Lemma inert_pump_run fuel b l c s e :
  inert (s_mode s) = true → gxfp_session_pump fuel b (W l c s e) = Some ((), W l c s e).
Proof using Type.
  intros Hi. unfold gxfp_session_pump.
  rewrite (run_bind _ _ _ false (W l c s e)), (run_bind _ _ _ false (W l c s e)) by done. cbn [orb].
  rewrite (run_bind _ _ _ s (W l c s e)) by done. by rewrite Hi.
Qed.

Lemma inert_state_run fuel st l c s e :
  s_mode s = GXFP_MODE_CLOSED ∨ s_mode s = GXFP_MODE_FAILED →
  gxfp_session_change_state fuel st (W l c s e) = Some ((), W l c s e).
Proof using Type.
  intros Hm. unfold gxfp_session_change_state.
  rewrite (run_bind _ _ _ false (W l c s e)), (run_bind _ _ _ false (W l c s e)) by done. cbn [orb].
  rewrite (run_bind _ _ _ _ _ (has_io_run l c s e)), (run_bind _ _ _ s (W l c s e)) by done.
  by destruct Hm as [-> | ->].
Qed.

Lemma inert_next op m : inert m = true →
  match op with SessFd _ _ | SessPump _ => m ∈ op_next op m | _ => True end.
Proof using Type. destruct op, m; try done; intros _; apply list_elem_of_here. Qed.

(** The world of a session that has no [impl]. *)
Definition W0 (l : lworld) (c : crc_static) (e : gxfp_session_events) : sworld :=
  {| s_l := l; s_crc := c; s_sess := Some None; s_ev := Some e |}.

Lemma ensure_wp l c e :
  wp session_ensure_impl
     (λ r w', r = - ENOMEM ∧ (∃ l', w' = W0 l' c e) ∨
              r = 0 ∧ ∃ l' s', w' = W l' c s' e ∧ closed s' ∧ base s' l') (W0 l c e).
Proof using EO.
  unfold session_ensure_impl. apply wp_bind, wp_getw. cbn [s_sess W0].
  assert (Hc : wp (io ucalloc_struct) (λ ok w', ∃ l', w' = W0 l' c e) (W0 l c e)).
  { unfold wp, io, zoom. cbn [s_l W0]. unfold ucalloc_struct. rewrite (run_bind _ _ _ _ _ (umalloc_run 0 l)).
    rewrite ret_run. by eexists. }
  apply wp_bind. eapply wp_mono; [exact Hc|]. intros ok w' (l1 & ->). destruct ok; cbn [negb].
  2: { apply wp_ret. left. split; [done|]. by exists l1. }
  apply wp_bind. apply (wp_eq _ _ _ () (W0 (with_fd 0 l1) c e)); [done|]. set (l2 := with_fd 0 l1).
  apply wp_bind. apply (wp_eq _ _ _ () (W l2 c impl_zero e)); [done|].
  apply wp_bind. destruct (init_fdt_run l2 c impl_zero e) as (f & Ef & Hf). eapply wp_eq; [exact Ef|].
  apply wp_bind, wp_mod_sess, wp_ret. right. split; [done|]. do 2 eexists. split; [done|]. split; [done|].
  split; try done; cbn; [by left|by exists []|by left|by left|by left].
Qed.

Lemma dispose_wp l c s e :
  base s l → wp gxfp_session_dispose (λ _ w', ∃ l', w' = W0 l' c e) (W l c s e).
Proof using Type.
  intros Hb. unfold gxfp_session_dispose. apply wp_bind, wp_no_impl, wp_bind.
  destruct (reset_runtime_run l c s e Hb) as (l' & s' & Er & _). eapply wp_eq; [exact Er|].
  apply wp_bind, wp_mod_sess. apply wp_modw. by exists l'.
Qed.

Lemma init_wp (w : sworld) e p :
  s_sess w = Some p → s_ev w = Some e →
  wp gxfp_session_init (λ _ w', (∃ l', w' = W0 l' (s_crc w) e) ∨
     ∃ l' s', w' = W l' (s_crc w) s' e ∧ closed s' ∧ base s' l') w.
Proof using EO.
  intros Hp He. unfold gxfp_session_init. apply wp_bind, wp_getw. rewrite Hp. apply wp_bind.
  apply (wp_eq _ _ _ () (W0 (s_l w) (s_crc w) e)); [unfold put_sess, modw; by rewrite He|].
  apply wp_bind. eapply wp_mono; [apply ensure_wp|]. intros r w' Hr. apply wp_ret.
  destruct Hr as [(_ & Hr)|(_ & Hr)]; auto.
Qed.

Lemma sess_inv_closed s l : closed s → base s l → sess_inv s l.
Proof using Type. intros. by right. Qed.

Lemma step_closed op m l c s e :
  closed s → base s l → static_ok c → session_error e = 0 → GXFP_MODE_CLOSED ∈ op_next op m →
  session_inv (W l c s e) ∧ step_ok op m (W l c s e).
Proof using Type.
  intros Hs Hb Hc He Hin. split.
  - split; [done|]. split; [by eexists|]. exists (Some s). split; [done|]. by right.
  - left. unfold error_of, mode_of, W. cbn [s_ev s_sess]. rewrite He. by rewrite (c_mode s Hs).
Qed.

Lemma step_gone op m l c e :
  static_ok c → session_error e = 0 → GXFP_MODE_CLOSED ∈ op_next op m →
  session_inv (W0 l c e) ∧ step_ok op m (W0 l c e).
Proof using Type.
  intros Hc He Hin. split.
  - split; [done|]. split; [by eexists|]. by exists None.
  - left. unfold error_of, W0. cbn [s_ev]. by rewrite He.
Qed.

Lemma opened_step path key m l c s e :
  sess_inv s l → static_ok c → session_error e = 0 → key ≠ [] → ∀ fuel, (2000 * B < fuel)%nat →
  wp (gxfp_session_open fuel (Some path) (Some key) (zlen key);; mret ())
     (λ _ w', session_inv w' ∧ step_ok (SessOpen path key) m w') (W l c s e).
Proof using EO CO.
  intros Hs Hc He Hk fuel Hf. apply wp_bind.
  assert (Hn : 0 < zlen key <= zlen key) by (destruct key; [done|rewrite zlen_cons; pose proof (zlen_nonneg key); lia]).
  eapply wp_mono; [by apply open_wp|].
  intros r w' (l' & s' & -> & Hr). apply wp_ret. destruct Hr as [(_ & Hs' & Hm)|(_ & Hcl & Hb)].
  - split; [split; [done|split; [by eexists|exists (Some s'); split; [done|by left]]]|].
    left. unfold error_of, mode_of, W. cbn [s_ev s_sess]. rewrite He, Hm. split; [done|apply list_elem_of_here].
  - apply step_closed; try done. apply list_elem_of_further, list_elem_of_here.
Qed.

Lemma run_session_none fuel op l c e :
  static_ok c → session_op_ok op → (2000 * B < fuel)%nat →
  wp (run_session fuel op) (λ _ w', session_inv w' ∧ step_ok op GXFP_MODE_CLOSED w') (W0 l c e).
Proof using EO CO.
  intros Hc Hop Hf. unfold run_session. apply wp_bind.
  apply (wp_eq _ _ _ () (W0 l c events_zero)); [done|].
  assert (Hz : session_error events_zero = 0) by done.
  assert (Hsame : ∀ A (m : M sworld A) a, m (W0 l c events_zero) = Some (a, W0 l c events_zero) →
    GXFP_MODE_CLOSED ∈ op_next op GXFP_MODE_CLOSED →
    wp m (λ _ w', session_inv w' ∧ step_ok op GXFP_MODE_CLOSED w') (W0 l c events_zero)).
  { intros A m a Hm Hin. eapply wp_eq; [exact Hm|]. by apply step_gone. }
  destruct op as [|path key| |st|x b|b| |t| |b|]; cbn [op_next state_next fd_next pump_next] in *.
  3-11: (eapply Hsame; [reflexivity|apply list_elem_of_here]).
  - eapply wp_mono; [by eapply init_wp|]. intros ? w' [(l' & ->)|(l' & s' & -> & Hcl & Hb)].
    + apply step_gone; try done. apply list_elem_of_here.
    + apply step_closed; try done. apply list_elem_of_here.
  - apply wp_bind. unfold gxfp_session_open. apply wp_bind, wp_getw. cbn [s_sess W0].
    assert (Hkl : zlen key ≠ 0) by (cbn in Hop; destruct key; [done|rewrite zlen_cons; pose proof (zlen_nonneg key); lia]).
    rewrite (proj2 (Z.eqb_neq _ _)) by done. apply wp_bind. eapply wp_mono; [apply ensure_wp|].
    intros r w' [(-> & l' & ->)|(-> & l' & s' & -> & Hcl & Hb)].
    + change (- ENOMEM <? 0) with true. cbv iota. apply wp_ret, wp_ret. apply step_gone; try done. apply list_elem_of_further, list_elem_of_here.
    + pose proof (opened_step path key GXFP_MODE_CLOSED l' c s' events_zero (sess_inv_closed s' l' Hcl Hb) Hc Hz Hop fuel Hf) as Ho.
      apply wp_bind_inv in Ho. unfold gxfp_session_open in Ho.
      unfold wp in Ho |- *. rewrite bind_getw in Ho. cbn [s_sess W] in Ho. rewrite (proj2 (Z.eqb_neq _ _)) in Ho by done.
      rewrite (run_bind _ _ _ 0 (W l' c s' events_zero)) in Ho by done. exact Ho.
Qed.

Lemma run_session_some fuel op l c s e :
  sess_inv s l → static_ok c → session_op_ok op → (2000 * B < fuel)%nat → (pull_fuel <= fuel)%nat → (N < fuel)%nat →
  wp (run_session fuel op) (λ _ w', session_inv w' ∧ step_ok op (s_mode s) w') (W l c s e).
Proof using EO TO CO FO.
  intros Hs Hc Hop Hf Hp HN. unfold run_session. apply wp_bind.
  apply (wp_eq _ _ _ () (W l c s events_zero)); [done|].
  assert (Hz : session_error events_zero = 0) by done. assert (Hf' : (500 * B < fuel)%nat) by lia.
  assert (Hb : base s l) by (destruct Hs as [Hs|(_ & Hb)]; [by apply l_base|done]).
  assert (Hcm : closed s → s_mode s = GXFP_MODE_CLOSED) by apply c_mode.
  destruct op as [|path key| |st|x b|b| |t| |b|]; cbn [session_op_ok] in Hop.
  - eapply wp_mono; [by eapply init_wp|]. intros ? w' [(l' & ->)|(l' & s' & -> & Hcl & Hb')].
    + apply step_gone; try done. apply list_elem_of_here.
    + apply step_closed; try done. apply list_elem_of_here.
  - by apply opened_step.
  - apply wp_bind. destruct Hs as [Hs|(Hcl & _)].
    + eapply wp_mono; [by apply activate_wp|]. intros r w' (l' & c' & s' & e' & -> & Hx & Hc' & Hs' & Hr).
      apply wp_ret. apply (moves_step _ _ [GXFP_MODE_ACTIVATING_TLS] l).
      * apply lives_here; try done. destruct Hr as [(_ & Hm & He)|(_ & Hr & _)]; [left|by right].
        rewrite Hm. split; [done|apply list_elem_of_here].
      * intros m Hm. pose proof (l_mode s l Hs). cbn [op_next]. by destruct (s_mode s).
      * cbn [can_fail]. by rewrite bool_decide_eq_false_2 by apply (l_mode s l Hs).
    + apply (wp_eq _ _ _ (- EINVAL) (W l c s events_zero)).
      { unfold gxfp_session_activate.
        rewrite (run_bind _ _ _ false (W l c s events_zero)), (run_bind _ _ _ false (W l c s events_zero)) by done.
        cbn [orb]. rewrite (run_bind _ _ _ _ _ (has_io_run l c s events_zero)). by rewrite (Hcm Hcl). }
      apply wp_ret. apply step_closed; try done. rewrite (Hcm Hcl). apply list_elem_of_here.
  - destruct (decide (s_mode s = GXFP_MODE_CLOSED ∨ s_mode s = GXFP_MODE_FAILED)) as [Hm|Hm].
    + eapply wp_eq; [by apply inert_state_run|]. apply same_step; try done.
      destruct Hm as [-> | ->]; apply list_elem_of_here.
    + destruct Hs as [Hs|(Hcl & _)]; [|destruct Hm; left; auto].
      eapply wp_mono; [by apply change_state_wp|]. intros ? w' Hl. eapply moves_step; [exact Hl|done|].
      cbn [can_fail]. rewrite !bool_decide_eq_false_2 by (intros ?; apply Hm; auto). done.
  - destruct (inert (s_mode s)) eqn:Hi.
    + eapply wp_eq; [by apply inert_fd_run|]. apply same_step; try done. by apply (inert_next (SessFd x b)).
    + destruct Hs as [Hs|(Hcl & _)]; [|by rewrite (Hcm Hcl) in Hi].
      eapply wp_mono; [by apply on_fd_wp|]. intros ? w' Hl. eapply moves_step; [exact Hl|done|]. cbn. by rewrite Hi.
  - destruct (inert (s_mode s)) eqn:Hi.
    + eapply wp_eq; [by apply inert_pump_run|]. apply same_step; try done. by apply (inert_next (SessPump b)).
    + destruct Hs as [Hs|(Hcl & _)]; [|by rewrite (Hcm Hcl) in Hi].
      eapply wp_mono; [by apply pump_wp|]. intros ? w' Hl. eapply moves_step; [exact Hl|done|]. cbn. by rewrite Hi.
  - apply wp_bind. eapply wp_run; [apply take_image_run|].
    destruct (pending_img_ready s =? 0); cbn [fst snd].
    + apply wp_ret. apply same_step; try done. apply list_elem_of_here.
    + apply wp_ret. set (s1 := set_pending img_zero 0 s). change (s_mode s) with (s_mode s1).
      apply same_step; try done; [|apply list_elem_of_here]. destruct Hs as [[Hs Hcap]|([] & Hb')].
      * left. split; [|done]. apply awake_pending; [by left|done].
      * right. split; [by split|]. apply base_pending; [by left|done].
  - apply wp_bind. unfold gxfp_session_poll_readable.
    destruct Hs as [Hs|(Hcl & _)].
    + destruct (live_dev s l Hs) as (fd & Hd). apply wp_bind, wp_has_io.
      rewrite bool_decide_eq_false_2 by apply (l_mode s l Hs). cbn [negb].
      eapply wp_eq; [apply io_run; by apply poll_readable_run|]. apply wp_ret.
      apply same_step; try done; [|apply list_elem_of_here]. left. eapply live_extends; [done|apply extends_calls].
    + apply wp_bind, wp_has_io. rewrite bool_decide_eq_true_2 by auto. cbn [negb]. apply wp_ret, wp_ret.
      apply same_step; try done; [by right|apply list_elem_of_here].
  - eapply wp_mono; [by apply deactivate_wp|]. intros ? w' (s' & -> & Hs' & Hm). split.
    + split; [done|]. split; [by eexists|]. by exists (Some s').
    + left. split; [done|]. unfold mode_of, W. cbn [s_sess]. rewrite Hm. destruct (s_mode s); apply list_elem_of_here.
  - eapply wp_mono; [by apply close_wp|]. intros ? w' (l' & s' & -> & Hcl & Hb' & _).
    apply step_closed; try done. apply list_elem_of_here.
  - eapply wp_mono; [by apply dispose_wp|]. intros ? w' (l' & ->). apply step_gone; try done. apply list_elem_of_here.
Qed.

(** The calls one after the other, with the mode and the error each leaves. *)
Fixpoint run_sessions (fuel : nat) (ops : list session_op) : M sworld (list (gxfp_session_mode * Z)) :=
  match ops with
  | [] => mret []
  | op :: ops =>
    run_session fuel op;;
    w ← getw;
    rest ← run_sessions fuel ops;
    mret ((mode_of w, error_of w) :: rest)
  end.

Fixpoint session_path (ops : list session_op) (m : gxfp_session_mode) (path : list (gxfp_session_mode * Z)) : Prop :=
  match ops, path with
  | [], [] => True
  | op :: ops, (m', err) :: path =>
    (err = 0 ∧ m' ∈ op_next op m ∨ err < 0 ∧ m' = GXFP_MODE_FAILED ∧ can_fail op m = true) ∧ session_path ops m' path
  | _, _ => False
  end.

Lemma run_session_wp fuel op w :
  session_inv w → session_op_ok op → (2000 * B < fuel)%nat → (pull_fuel <= fuel)%nat → (N < fuel)%nat →
  wp (run_session fuel op) (λ _ w', session_inv w' ∧ step_ok op (mode_of w) w') w.
Proof using EO TO CO FO.
  intros (Hc & (e & He) & p & Hp & Hs) Hop Hf Hpf HN. destruct w as [l c se v]. cbn in *. subst.
  destruct p as [s|]; [by apply run_session_some|by apply run_session_none].
Qed.

Lemma run_sessions_wp fuel ops w :
  session_inv w → Forall session_op_ok ops → (2000 * B < fuel)%nat → (pull_fuel <= fuel)%nat → (N < fuel)%nat →
  wp (run_sessions fuel ops) (λ path w', session_inv w' ∧ session_path ops (mode_of w) path) w.
Proof using EO TO CO FO.
  intros Hw Hops Hf Hp HN. revert w Hw. induction Hops as [|op ops Hop Hops IH]; intros w Hw; cbn [run_sessions].
  { by apply wp_ret. }
  apply wp_bind. eapply wp_mono; [by apply run_session_wp|]. intros ? w1 (Hw1 & Hst).
  apply wp_bind, wp_getw, wp_bind. eapply wp_mono; [by apply IH|]. intros path w2 (Hw2 & Hpath).
  apply wp_ret. split; [done|]. by split.
Qed.

(** C23: the session keeps its modes: from a session that was just initialised (or has
    no memory), every sequence of calls (open, activate, change of state, wake-ups by
    the device, pumps, images taken, deactivate, close, dispose), against any device that
    delivers finitely many records and any mbedTLS that behaves as documented, is
    defined and terminates. Each call moves along [op_next], or reports a negative error
    and leaves the mode FAILED; the calls that cannot fail never do. What is left keeps
    the invariant: an open session has its device, its buffer, a TLS service in order and
    finger detection in order; its frames and images have the pixels they announce; a
    capture that is done has its image; a closed session holds no key, frame or service. *)
Theorem session_invariant fuel ops w :
  session_inv w → Forall session_op_ok ops → (2000 * B < fuel)%nat → (pull_fuel <= fuel)%nat → (N < fuel)%nat →
  ∃ path w', run_sessions fuel ops w = Some (path, w') ∧ session_inv w' ∧ session_path ops (mode_of w) path.
Proof using EO TO CO FO.
  intros Hw Hops Hf Hp HN. destruct (wp_inv _ _ _ (run_sessions_wp fuel ops w Hw Hops Hf Hp HN)) as (path & w' & H).
  by exists path, w'.
Qed.

(** ** Closing *)

Lemma writes_app a b : writes (a ++ b) = writes a ++ writes b.
Proof using Type. apply omap_app. Qed.

(** C25: closing always completes: whatever mode the session is in, whatever the device
    answers to the recovery it may ask for, [gxfp_session_request_close] is defined and
    returns with [close_complete], the mode CLOSED, and no key, frame, image or service
    left. A session with no device makes no system call. An open one closes its own
    descriptor, as the last call; before that it writes the packets of the recovery plan
    if a reset was asked for, and nothing if not. *)
Theorem session_close_completes fuel reset l c s e :
  sess_inv s l → (500 * B < fuel)%nat →
  ∃ l' s', gxfp_session_request_close fuel reset (W l c s e)
           = Some ((), W l' c s' (ev_done false false true (ev_cancel e))) ∧
    s_mode s' = GXFP_MODE_CLOSED ∧ svc s' = None ∧ psk s' = None ∧ psk_len s' = 0 ∧ dark_loaded s' = 0 ∧
    pending_img_ready s' = 0 ∧
    (s_mode s = GXFP_MODE_CLOSED → l' = l) ∧
    (s_mode s ≠ GXFP_MODE_CLOSED → ∃ fd evs ks, l_dev l = Some fd ∧ l_trace l' = l_trace l ++ evs ++ [EvClose fd] ∧
       (reset = false → evs = []) ∧
       Forall2 (λ k p, (k <= p.1.1)%nat) ks (if reset then recovery_plan true 2 else []) ∧
       writes evs = concat (zip_with (λ k p, replicate k (user_packet GOODIX_MP_TYPE_CMD (goodix_frame p.1.2 p.2)))
                              ks (if reset then recovery_plan true 2 else []))).
Proof using EO CO.
  intros Hs Hf. destruct (wp_inv _ _ _ (close_wp fuel reset l c s e Hs Hf)) as ([] & w' & Er & l' & s' & -> & Hc & _ & H0 & H1).
  exists l', s'. split; [exact Er|]. destruct Hc as [Hm Hv [Hp1 Hp2] Hd Hi]. do 6 (split; [done|]).
  split; [apply H0|]. intros Hne. destruct (H1 Hne) as (fd & l1 & Hd1 & _ & Hst & Htr). destruct reset.
  - destruct (steps_extends _ _ _ Hst) as (_ & _ & evs & Hevs). destruct (steps_writes _ _ _ Hst) as (ks & Hks & Hw & _).
    exists fd, evs, ks. split; [done|]. split; [by rewrite Htr, Hevs, <- app_assoc|]. split; [done|]. split; [done|].
    rewrite Hevs, writes_app in Hw. by apply app_inv_head in Hw.
  - subst l1. exists fd, [], []. split; [done|]. split; [done|]. split; [done|]. by split; [constructor|].
Qed.

(** ** The image of a capture *)

Lemma poll_tls_done fuel l c s e i :
  svc s = Some i → hs i = GXFP_TLS_HS_DONE → session_poll_tls fuel (W l c s e) = Some ((), W l c s e).
Proof using Type.
  intros Hv Hh. unfold session_poll_tls. cbn [poll_tls_loop].
  rewrite (run_bind _ _ _ s (W l c s e)), bind_getw by done. rewrite Hv.
  rewrite (run_bind _ _ _ _ _ (io_run _ _ _ _ c s e (step_done fuel c i l Hh))). cbv beta iota.
  rewrite bind_lift, (run_bind _ _ _ () (W l c s e)), (run_bind _ _ _ () (W l c (set_svc (Some i) s) e)) by done.
  rewrite <- Hv. change (1 =? - EAGAIN) with false. cbn [orb Z.eqb Pos.eqb]. by destruct s.
Qed.

Lemma captures_busy m : captures m → inert m = false ∧ m ≠ GXFP_MODE_ACTIVATING_TLS ∧ m ≠ GXFP_MODE_CLOSED.
Proof using Type. by intros [-> | ->]. Qed.

Lemma pump_done_wp fuel l c s e i :
  live s l → static_ok c → (500 * B < fuel)%nat → session_error e = 0 → captures (s_mode s) →
  svc s = Some i → hs i = GXFP_TLS_HS_DONE →
  wp (gxfp_session_pump fuel false)
     (λ _, lives (λ s' e', ∃ k pl, image_frame k pl ∧ img i = captured pl ∧ finalized (l_oom l) s s' e' pl) l)
     (W l c s e).
Proof using EO CO.
  intros Hs Hc Hf He Hm Hv Hh. destruct (captures_busy _ Hm) as (Hin & Hat & _). unfold gxfp_session_pump.
  apply wp_bind, wp_no_impl, wp_bind, wp_no_ev. cbn [orb]. apply wp_bind, wp_sess. rewrite Hin. cbn [andb].
  apply wp_bind. eapply wp_eq; [by eapply poll_tls_done|]. apply wp_bind, wp_ev. rewrite He. cbn [negb Z.eqb].
  apply wp_bind. apply (wp_eq _ _ _ () (W l c s e)).
  { unfold session_maybe_finish_activation. rewrite (run_bind _ _ _ false (W l c s e)) by done.
    rewrite (run_bind _ _ _ s (W l c s e)) by done. by rewrite bool_decide_eq_false_2. }
  apply wp_bind, wp_ev. rewrite He. cbn [negb Z.eqb].
  apply wp_bind. apply (wp_eq _ _ _ 0 (W l c s e)).
  { unfold pump_fdt. rewrite (run_bind _ _ _ s (W l c s e)) by done. by destruct Hm as [-> | ->]. }
  change (0 <? 0) with false. cbv iota. apply wp_bind.
  assert (Hfin : wp (pump_capture fuel) (λ _, lives (λ s' e', ∃ k pl, image_frame k pl ∧ img i = captured pl ∧
      finalized (l_oom l) s s' e' pl) l) (W l c s e)).
  { unfold pump_capture. apply wp_bind, wp_sess. destruct Hm as [Hm|Hm]; rewrite Hm.
    - apply finalize_wp; try done. by left.
    - apply finalize_wp; try done. by right. }
  eapply wp_mono; [exact Hfin|]. intros ? w' (l' & c' & s' & e' & -> & Hx & Hc' & Hs' & k & pl & Hfr & Ei & Hz).
  eapply wp_mono; [apply pump_tick_wp|]. intros _ w'' [->| ->]; apply lives_here; try done; exists k, pl; try done.
Qed.

(** C24: the caller gets the picture the sensor sent: when the TLS service has the image of
    a capture, and memory is not exhausted, one pump decodes its body with the reference
    decoder, by its length, and makes it the dark frame of an activation (complete then),
    or, without the fixed pattern of the dark frame if there is one, the image that
    [gxfp_session_take_image] hands over exactly once. A body of no known length, or an
    image of another size than the dark frame, fails with the error of the decoder or
    -EINVAL, and the mode is FAILED. *)
Theorem session_capture_image fuel l c s e i :
  live s l → static_ok c → (500 * B < fuel)%nat → session_error e = 0 → captures (s_mode s) →
  svc s = Some i → hs i = GXFP_TLS_HS_DONE → l_oom l = [] →
  ∃ k pl l' c' s' e', image_frame k pl ∧ img i = captured pl ∧
    gxfp_session_pump fuel false (W l c s e) = Some ((), W l' c' s' e') ∧
    match capture_result s (zdrop 5 pl) with
    | inl x => s_mode s' = GXFP_MODE_FAILED ∧ session_error e' = 1 ∧ error_code e' = - x
    | inr im =>
      s_mode s' = GXFP_MODE_IDLE ∧ session_error e' = 0 ∧
      (s_mode s = GXFP_MODE_ACTIVATING_DARK_CAPTURE →
         dark s' = frame_of im ∧ dark_loaded s' = 1 ∧ activate_complete e' = 1) ∧
      (s_mode s = GXFP_MODE_CAPTURING →
         image_ready e' = 1 ∧ ∀ o, ∃ w2,
           gxfp_session_take_image (Some o) (W l' c' s' e') = Some ((0, Some im), w2) ∧
           gxfp_session_take_image (Some o) w2 = Some ((- ENOENT, Some o), w2))
    end.
Proof using EO CO.
  intros Hs Hc Hf He Hm Hv Hh Ho.
  destruct (wp_inv _ _ _ (pump_done_wp fuel l c s e i Hs Hc Hf He Hm Hv Hh))
    as ([] & w' & Er & l' & c' & s' & e' & -> & _ & _ & _ & k & pl & Hfr & Ei & Hz).
  exists k, pl, l', c', s', e'. split; [done|]. split; [done|]. split; [exact Er|].
  unfold finalized in Hz. rewrite Ho in Hz. destruct (capture_result s (zdrop 5 pl)) as [x|im].
  - destruct Hz as ((H1 & H2 & _) & [H3|]); done.
  - destruct Hz as [(H1 & H2 & H3)|(_ & Hne)]; [|done]. split; [done|]. split; [done|].
    destruct Hm as [Hm|Hm]; rewrite Hm in H3 |- *; split; try done.
    + intros _. by destruct H3 as (? & ? & ? & _).
    + intros _. cbn in H3. destruct H3 as (Hi1 & Hi2 & Hi3 & _). split; [done|]. intros o.
      exists (W l' c' (set_pending img_zero 0 s') e'). rewrite !take_image_run, Hi2. cbn [Z.eqb]. by rewrite <- Hi1.
Qed.

(** ** The TLS service that is lost *)

(** The caller tries again: new events, an activation and a pump; what it is told. *)
Definition session_retry (fuel : nat) : M sworld (Z * Z) :=
  gxfp_session_events_clear;;
  r ← gxfp_session_activate fuel;
  gxfp_session_pump fuel false;;
  e ← ev;
  mret (r, if session_error e =? 0 then 0 else error_code e).
Fixpoint session_retries (fuel n : nat) : M sworld (list (Z * Z)) :=
  match n with
  | O => mret []
  | S n => x ← session_retry fuel; xs ← session_retries fuel n; mret (x :: xs)
  end.

Lemma activate_none_wp fuel l c s e :
  live s l → svc s = None → session_error e = 0 →
  wp (gxfp_session_activate fuel)
     (λ r w', r = 0 ∧ ∃ s', w' = W l c s' (ev_tick 0 e) ∧ live s' l ∧
              s_mode s' = GXFP_MODE_ACTIVATING_TLS ∧ svc s' = None) (W l c s e).
Proof using Type.
  intros Hs Hv He. unfold gxfp_session_activate.
  apply wp_bind, wp_no_impl, wp_bind, wp_no_ev. cbn [orb]. apply wp_bind, wp_has_io.
  rewrite bool_decide_eq_false_2 by apply (l_mode s l Hs). cbn [negb].
  apply wp_bind, wp_sess, wp_bind.
  assert (Hgo : ∀ s1, live s1 l → svc s1 = None → wp (session_rearm_tls_if_needed fuel;;
      e ← ev;
      if negb (session_error e =? 0) then mret (if negb (error_code e =? 0) then error_code e else - EIO)
      else init_fdt;; session_apply_fdt_runtime_from_otp;;
           mod_sess (set_mode GXFP_MODE_ACTIVATING_TLS);; mod_ev (ev_tick 0);; mret 0)
    (λ r w', r = 0 ∧ ∃ s', w' = W l c s' (ev_tick 0 e) ∧ live s' l ∧
              s_mode s' = GXFP_MODE_ACTIVATING_TLS ∧ svc s' = None) (W l c s1 e)).
  { intros s1 Hs1 Hv1. apply wp_bind. unfold session_rearm_tls_if_needed. apply wp_bind, wp_sess.
    rewrite Hv1. cbn [gxfp_tls_service_state]. apply wp_ret, wp_bind, wp_ev. rewrite He. cbn [negb Z.eqb].
    apply wp_bind. destruct (init_fdt_run l c s1 e) as (f & Ef & Hfl). eapply wp_eq; [exact Ef|]. apply wp_bind.
    destruct (runtime_run l c (set_fdt f s1) e [] Hfl) as (f2 & Ef2 & Hf2).
    eapply wp_eq; [exact Ef2|]. apply wp_bind, wp_mod_sess, wp_bind, wp_mod_ev, wp_ret.
    split; [done|]. eexists. split; [done|]. split; [|by split].
    apply live_mode; [done|by intros [?|?]|]. by apply (live_fdt f2 []), (live_fdt f []). }
  destruct (bool_decide_reflect (s_mode s = GXFP_MODE_FAILED)) as [Hm|Hm].
  - apply wp_mod_sess. apply Hgo; [|done]. apply live_mode; [done|by intros [?|?]|done].
  - by apply wp_ret, Hgo.
Qed.

Lemma pump_none_wp fuel l c s e :
  live s l → (500 * B < fuel)%nat → s_mode s = GXFP_MODE_ACTIVATING_TLS → svc s = None →
  wp (gxfp_session_pump fuel false)
     (λ _ w', ∃ l', w' = W l' c (set_mode GXFP_MODE_FAILED s) (ev_error (- EINVAL) GXFP_SESSION_ERR_TARGET_GENERIC e) ∧
              extends l l') (W l c s e).
Proof using EO CO.
  intros Hs Hf Hm Hv. unfold gxfp_session_pump.
  apply wp_bind, wp_no_impl, wp_bind, wp_no_ev. cbn [orb]. apply wp_bind, wp_sess.
  rewrite Hm. cbn [inert andb]. apply wp_bind. unfold session_poll_tls. cbn [poll_tls_loop].
  apply wp_bind, wp_sess, wp_bind, wp_getw, wp_bind, wp_io. rewrite Hv. apply wp_ret.
  apply wp_bind, (wp_lift _ None); [done|]. apply wp_bind. unfold put_crc. apply wp_modw.
  apply wp_bind, (wp_mod_sess _ _ l c s e).
  replace (set_svc None s) with s by (rewrite <- Hv; by destruct s).
  change ((- EINVAL =? - EAGAIN) || (- EINVAL =? 1)) with false. change (- EINVAL <? 0) with true. cbv iota.
  eapply wp_mono; [by apply set_error_wp|]. intros ? w' (l' & -> & Hx & _).
  apply wp_bind, wp_ev. by apply wp_ret; exists l'.
Qed.

Lemma retry_wp fuel l c s e :
  live s l → (500 * B < fuel)%nat → svc s = None →
  wp (session_retry fuel)
     (λ r w', r = (0, - EINVAL) ∧ ∃ l' s' e', w' = W l' c s' e' ∧ live s' l' ∧ svc s' = None ∧ extends l l') (W l c s e).
Proof using EO CO.
  intros Hs Hf Hv. unfold session_retry. apply wp_bind. unfold gxfp_session_events_clear.
  apply wp_bind, wp_no_ev, wp_mod_ev. apply wp_bind. eapply wp_mono; [by apply activate_none_wp|].
  intros r w' (-> & s1 & -> & Hs1 & Hm1 & Hv1). apply wp_bind. eapply wp_mono; [by apply pump_none_wp|].
  intros ? w' (l' & -> & Hx). apply wp_bind, wp_ev, wp_ret. split; [done|].
  eexists l', _, _. split; [done|]. split; [|by split]. eapply live_failed, awake_extends; [|exact Hx]. by apply l_awake.
Qed.

Lemma retries_wp fuel n l c s e :
  live s l → (500 * B < fuel)%nat → svc s = None →
  wp (session_retries fuel n)
     (λ r w', r = replicate n (0, - EINVAL) ∧ ∃ l' s' e', w' = W l' c s' e' ∧ svc s' = None ∧ extends l l') (W l c s e).
Proof using EO CO.
  intros Hs Hf. revert l s e Hs. induction n as [|n IH]; intros l s e Hs Hv; cbn [session_retries replicate].
  { apply wp_ret. split; [done|]. by exists l, s, e. }
  apply wp_bind. eapply wp_mono; [by apply retry_wp|]. intros r w' (-> & l1 & s1 & e1 & -> & Hs1 & Hv1 & Hx1).
  apply wp_bind. eapply wp_mono; [by apply IH|]. intros r w' (-> & l2 & s2 & e2 & -> & Hv2 & Hx2).
  apply wp_ret. split; [done|]. exists l2, s2, e2. split; [done|]. split; [done|]. by rewrite Hx1.
Qed.

(** C26: an activation can lose the TLS service for good. An activation of an open session
    that fails has freed the service and made no other; the state of no service reads
    INIT, which is taken for a service that needs no re-arming. So every later activation,
    in whatever number, returns success and the pump after it reports -EINVAL (and resets
    the sensor), with memory and the device in order: only closing the session and
    opening it again makes a new service. *)
Theorem session_reinit_lost fuel n l c s e :
  live s l → static_ok c → (500 * B < fuel)%nat → session_error e = 0 →
  ∃ r l' c' s' e', gxfp_session_activate fuel (W l c s e) = Some (r, W l' c' s' e') ∧
    (r < 0 → svc s' = None ∧ s_mode s' = GXFP_MODE_FAILED ∧
       ∃ l2 s2 e2, session_retries fuel n (W l' c' s' e')
                   = Some (replicate n (0, - EINVAL), W l2 c' s2 e2) ∧ svc s2 = None).
Proof using EO CO.
  intros Hs Hc Hf He.
  destruct (wp_inv _ _ _ (activate_wp fuel l c s e Hs Hc Hf He)) as (r & w' & Er & l' & c' & s' & e' & -> & _ & _ & Hs' & Hr).
  exists r, l', c', s', e'. split; [exact Er|]. intros Hneg.
  destruct Hr as [(-> & _)|(_ & (Hm & _) & _ & Hv)]; [lia|]. split; [done|]. split; [done|].
  destruct (wp_inv _ _ _ (retries_wp fuel n l' c' s' e' Hs' Hf Hv)) as (xs & w2 & E2 & -> & l2 & s2 & e2 & -> & Hv2 & _).
  by exists l2, s2, e2.
Qed.
End session_runs.

(** * Sessions *)

Definition demo_session_fuel : nat := 2001 + pull_fuel (TO := plain_tls_ok).

(** An open session. *)
Definition demo_flow : gxfp_fdt_flow :=
  match gxfp_fdt_flow_init (Some flow_zero) with Some (Some f) => f | _ => flow_zero end.
Definition demo_session (m : gxfp_session_mode) (v : ptr (@gxfp_tls_service_impl plain_tls)) : gxfp_session_impl :=
  {| svc := v; fdt := demo_flow; psk := Some (zeros 32); psk_len := 32; tap_io_buf := Some (zeros TAP_BUF_SIZE);
     tap_io_cap := TAP_BUF_SIZE; s_mode := m; dark := dark_zero; dark_loaded := 0; pending_img := img_zero;
     pending_img_ready := 0; otp_tcode := 0; otp_fdt_delta := 0; otp_has_tcode_delta := 0 |}.

Lemma demo_session_live (E : Uenv) m v l :
  m ≠ GXFP_MODE_CLOSED → svc_ok (E := E) v → capture_ok v → dev_open l 3 →
  live (E := E) (demo_session m v) l.
Proof.
  intros Hm Hv Hc Hl. split; [|by intros _]. split; [|by eexists|done]. split; cbn [demo_session svc fdt psk psk_len tap_io_buf tap_io_cap s_mode dark dark_loaded pending_img pending_img_ready].
  - exists 3. apply Hl.
  - intros _. by exists 3.
  - done.
  - exists []. unfold demo_flow. destruct (flow_init_inv flow_zero) as (f & -> & Hf). exact Hf.
  - right. exists (zeros TAP_BUF_SIZE). split; [reflexivity|]. split; [by apply zlen_zeros|]. split; [apply bytes_ok_zeros|reflexivity].
  - by left.
  - by left.
  - intros b [= <-]. by apply zlen_zeros.
Qed.

Lemma session_close_completes_witness :
  ∃ l' s', gxfp_session_request_close (E := script_env []) 501 true
      (W demo_lworld crc_static0 (demo_session GXFP_MODE_FAILED None) events_zero)
    = Some ((), W l' crc_static0 s' (ev_done false false true (ev_cancel events_zero))) ∧ s_mode s' = GXFP_MODE_CLOSED.
Proof.
  destruct (session_close_completes (E := script_env []) (EO := script_env_ok [] (Forall_nil_2 _)) (T := plain_tls) (B := 1)
    501 true demo_lworld crc_static0 (demo_session GXFP_MODE_FAILED None) events_zero) as (l' & s' & Hr & Hm & _).
  - left. apply demo_session_live; [discriminate|by left|apply capture_ok_none|exact demo_dev_open].
  - lia.
  - exists l', s'. split; [exact Hr|exact Hm].
Defined.

(** A picture of the NAV format, with its checksum, in a service that has it. *)
Definition demo_picture : bytes :=
  [1; 2; 3; 4; 5] ++ replicate 1344 85 ++ crc_trailer (crc_spec (replicate 1344 85)).
Definition demo_svc_done : @gxfp_tls_service_impl plain_tls :=
  set_img (captured demo_picture) (demo_svc (script_env []) GXFP_TLS_HS_DONE (- 1) []).

Lemma demo_picture_frame : image_frame 32 demo_picture.
Proof.
  split; [vm_compute; reflexivity|]. split; [|vm_compute; reflexivity].
  apply bytes_ok_app. split; [repeat constructor; unfold is_u8; lia|]. apply bytes_ok_app. split.
  - apply Forall_replicate. unfold is_u8. lia.
  - vm_compute. repeat constructor; discriminate.
Qed.

Lemma demo_svc_done_ok : svc_ok (E := script_env []) (Some demo_svc_done) ∧ capture_ok (Some demo_svc_done).
Proof.
  split.
  - right. exists demo_svc_done. split; [reflexivity|]. apply svc_inv_img.
    + right. exists 32, demo_picture. split; [exact demo_picture_frame|reflexivity].
    + apply demo_svc_inv; [apply bytes_ok_nil|vm_compute; discriminate|discriminate|lia].
  - intros s [= <-] _. exists 32, demo_picture. split; [exact demo_picture_frame|reflexivity].
Qed.

(** The caller of a capture gets a picture of 54 rows and 16 columns, once. *)
Lemma session_capture_image_witness :
  ∃ w' im w2, gxfp_session_pump (E := script_env []) 501 false
      (W demo_lworld crc_static0 (demo_session GXFP_MODE_CAPTURING (Some demo_svc_done)) events_zero) = Some ((), w') ∧
    gxfp_session_take_image (Some img_zero) w' = Some ((0, Some im), w2) ∧ rows im = 54 ∧ cols im = 16 ∧
    gxfp_session_take_image (Some img_zero) w2 = Some ((- ENOENT, Some img_zero), w2).
Proof.
  destruct (session_capture_image (E := script_env []) (EO := script_env_ok [] (Forall_nil_2 _)) (T := plain_tls) (B := 1)
    501 demo_lworld crc_static0 (demo_session GXFP_MODE_CAPTURING (Some demo_svc_done)) events_zero demo_svc_done)
    as (k & pl & l' & c' & s' & e' & Hpl & Himg & Hr & H).
  - apply demo_session_live; [discriminate|apply demo_svc_done_ok|apply demo_svc_done_ok|exact demo_dev_open].
  - exact demo_static.
  - lia.
  - reflexivity.
  - by right.
  - reflexivity.
  - reflexivity.
  - reflexivity.
  - assert (Epl : pl = demo_picture) by (symmetry; apply captured_inj, Himg). subst pl.
    assert (Hc : (λ i, (rows i, cols i)) <$> match capture_result (demo_session GXFP_MODE_CAPTURING (Some demo_svc_done))
      (zdrop 5 demo_picture) with inl _ => None | inr i => Some i end = Some (54, 16)) by (vm_compute; reflexivity).
    destruct (capture_result _ _) as [|im]; [discriminate Hc|]. cbn in Hc. injection Hc as Hrow Hcol.
    destruct H as (_ & _ & _ & H). destruct (H eq_refl) as (_ & Htake). destruct (Htake img_zero) as (w2 & Ht1 & Ht2).
    exists (W l' c' s' e'), im, w2. split; [exact Hr|]. split; [exact Ht1|]. split; [exact Hrow|]. split; [exact Hcol|exact Ht2].
Defined.

(** The life of an open session. The sensor is connected and reports that no finger is
    there; the caller cancels the dark frame, waits for a finger, asks for a picture, lets
    it go, activates again and closes. *)
Definition tap_of (t : Z) (pl : bytes) : record :=
  ({| th_len := zlen pl; th_type := t; th_rsvd0 := 0; th_ts_ns := 0; th_head16 := zeros 16 |}, pl).
Definition demo_records : list bytes :=
  [rec_bytes (tap_of GOODIX_MP_TYPE_CMD (demo_report FDT_STATUS_UP))].

Definition demo_session_ops : list session_op :=
  [SessActivate; SessPump false; SessFd 1 false; SessPump true; SessState GXFP_SESSION_STATE_CAPTURE; SessActivate;
   SessState GXFP_SESSION_STATE_AWAIT_FINGER_ON; SessPump false; SessTake; SessState GXFP_SESSION_STATE_IDLE;
   SessDeactivate; SessClose false; SessActivate; SessDispose].
Definition demo_session_path : list (gxfp_session_mode * Z) :=
  [(GXFP_MODE_ACTIVATING_TLS, 0); (GXFP_MODE_ACTIVATING_WAIT_UP, 0); (GXFP_MODE_ACTIVATING_DARK_CAPTURE, 0);
   (GXFP_MODE_FAILED, - ECANCELED); (GXFP_MODE_FAILED, 0); (GXFP_MODE_ACTIVATING_TLS, 0);
   (GXFP_MODE_WAIT_FINGER_ON, 0); (GXFP_MODE_WAIT_FINGER_ON, 0); (GXFP_MODE_WAIT_FINGER_ON, 0); (GXFP_MODE_IDLE, 0);
   (GXFP_MODE_READY, 0); (GXFP_MODE_CLOSED, 0); (GXFP_MODE_CLOSED, 0); (GXFP_MODE_CLOSED, 0)].
Definition demo_ready : sworld (T := plain_tls) :=
  W demo_lworld crc_static0 (demo_session GXFP_MODE_READY (Some (demo_svc (script_env demo_records) GXFP_TLS_HS_CONNECTED (- 1) []))) events_zero.

Lemma demo_records_ok : Forall bytes_ok demo_records.
Proof. vm_compute. repeat constructor; discriminate. Qed.

Lemma demo_svc_ready : svc_ok (E := script_env demo_records) (Some (demo_svc (script_env demo_records) GXFP_TLS_HS_CONNECTED (- 1) [])).
Proof.
  right. eexists. split; [reflexivity|].
  apply demo_svc_inv; [apply bytes_ok_nil|vm_compute; discriminate|discriminate|lia].
Qed.

Lemma session_invariant_witness :
  ∃ w', run_sessions (E := script_env demo_records) demo_session_fuel demo_session_ops demo_ready
    = Some (demo_session_path, w') ∧ session_inv (E := script_env demo_records) w'.
Proof.
  destruct (session_invariant (E := script_env demo_records) (EO := script_env_ok demo_records demo_records_ok)
    (T := plain_tls) (TO := plain_tls_ok) (B := 1) (N := 1) (FO := script_env_finite demo_records)
    demo_session_fuel demo_session_ops demo_ready) as (path & w' & Hr & Hw & _).
  - split; [exact demo_static|]. split; [by eexists|]. eexists. split; [reflexivity|]. left.
    apply demo_session_live; [discriminate|exact demo_svc_ready| |exact demo_dev_open].
    intros i [= <-]. discriminate.
  - repeat constructor.
  - unfold demo_session_fuel. lia.
  - unfold demo_session_fuel. lia.
  - unfold demo_session_fuel. lia.
  - exists w'. split; [|exact Hw].
    assert (Hp : fst <$> Some (path, w') = Some demo_session_path) by (rewrite <- Hr; vm_compute; reflexivity).
    cbn [fst fmap option_fmap option_map] in Hp. injection Hp as ->. exact Hr.
Defined.

(** A device that is silent, on a clock that runs a second per call: no wait is long. *)
Definition demo_fast : Uenv :=
  {| sys_open := λ _, 3; sys_fcntl := λ _, 0; sys_poll := λ _, (0, 0); sys_read := λ _, inl EAGAIN;
     sys_write := λ tr, match last tr with Some (EvWrite _ b) => zlen b | _ => 0 end; sys_ioctl := λ _, 0;
     sys_clock := λ _ tr, (zlen tr, 0); u_uninit := λ _ n, zeros n |}.

#[local] Instance demo_fast_ok : UenvOk demo_fast.
Proof.
  split; intros tr; try discriminate.
  - intros fd cap e [= <-]. done.
  - intros n Hn. by apply zlen_zeros.
  - intros n. apply bytes_ok_zeros.
Qed.

#[local] Instance demo_fast_clock : UclockOk demo_fast 1.
Proof.
  assert (Hms : ∀ tr, ms_at (E := demo_fast) tr = 1000 * zlen tr).
  { intros tr. unfold ms_at. cbn [demo_fast sys_clock fst snd]. change (Z.quot 0 1000000) with 0. lia. }
  split; intros tr evs; rewrite !Hms, zlen_app; unfold zlen; lia.
Qed.

(** A re-arm that finds no memory: three retries, three failures. *)
Definition demo_oom_lworld : lworld := {| l_dev := Some 3; l_trace := []; l_oom := [true] |}.

Lemma session_reinit_lost_witness :
  ∃ w' w2, gxfp_session_activate (E := demo_fast) 501
      (W demo_oom_lworld crc_static0 (demo_session GXFP_MODE_FAILED (Some (demo_svc demo_fast GXFP_TLS_HS_ERROR (- 5) []))) events_zero)
    = Some (- ENOMEM, w') ∧
    session_retries (E := demo_fast) 501 3 w' = Some ([(0, - EINVAL); (0, - EINVAL); (0, - EINVAL)], w2).
Proof.
  destruct (session_reinit_lost (E := demo_fast) (EO := demo_fast_ok) (T := plain_tls) (B := 1)
    501 3 demo_oom_lworld crc_static0
    (demo_session GXFP_MODE_FAILED (Some (demo_svc demo_fast GXFP_TLS_HS_ERROR (- 5) []))) events_zero)
    as (r & l' & c' & s' & e' & Hr & H).
  - apply demo_session_live; [discriminate| | |by split].
    + right. eexists. split; [reflexivity|]. apply demo_svc_inv; [apply bytes_ok_nil|vm_compute; discriminate|discriminate|lia].
    + intros i [= <-]. discriminate.
  - exact demo_static.
  - lia.
  - reflexivity.
  - assert (Er : fst <$> Some (r, W l' c' s' e') = Some (- ENOMEM)) by (rewrite <- Hr; vm_compute; reflexivity).
    cbn in Er. injection Er as ->. destruct (H ltac:(done)) as (_ & _ & l2 & s2 & e2 & Hn & _).
    exists (W l' c' s' e'), (W l2 c' s2 e2). split; [exact Hr|exact Hn].
Defined.
