(* ===== verification/USessionEvents.v ===== *)
(** What the calls of a session tell their caller: the events each call can raise in each
    mode, and that a session that waits asks to be looked at again. These are facts of
    partial correctness ([wlp]); USessionCalls shows that the calls are defined. *)
From Stdlib Require Import ZArith Lia.
From stdpp Require Import prelude list.
From S2P Require Import Prelude KGoodixProto KUapi UGoodixProto UWorld UDev UCommon UXfer USensorCfg UCmds.
From S2P Require Import UDecoder UPlain UFdt UFpn UTls UTlsSvc USession USessionCalls USessionRun.

Open Scope Z_scope.

(** * Partial correctness *)

(** If [m] is defined, its result satisfies [Q]. *)
Definition wlp {W A} (m : M W A) (Q : A → W → Prop) (w : W) : Prop :=
  ∀ a w', m w = Some (a, w') → Q a w'.

Section wlp_rules.
Context {W : Type}.

Lemma wlp_ret {A} (a : A) Q (w : W) : Q a w → wlp (mret a) Q w.
Proof. by intros ? ? ? [= <- <-]. Qed.

Lemma wlp_bind {A B} (m : M W A) (f : A → M W B) Q w :
  wlp m (λ a w', wlp (f a) Q w') w → wlp (m ≫= f) Q w.
Proof. intros Hm b w' Hr. destruct (bind_inv _ _ _ _ _ Hr) as (a & w1 & E1 & E2). by apply (Hm a w1). Qed.

Lemma wlp_any {A B} (m : M W A) (f : A → M W B) Q w :
  (∀ a w', wlp (f a) Q w') → wlp (m ≫= f) Q w.
Proof. intros Hf. apply wlp_bind. by intros a w' _. Qed.

Lemma wlp_mono {A} (m : M W A) (P Q : A → W → Prop) w :
  wlp m P w → (∀ a w', P a w' → Q a w') → wlp m Q w.
Proof. intros Hm HPQ a w' Hr. by apply HPQ, Hm. Qed.

Lemma wlp_lift {A} (o : option A) Q (w : W) : (∀ a, o = Some a → Q a w) → wlp (lift o) Q w.
Proof. intros Ho a w'. unfold lift. destruct o; [|done]. intros [= <- <-]. by apply Ho. Qed.

Lemma wlp_wp {A} (m : M W A) (P Q : A → W → Prop) w :
  wp m P w → wlp m Q w → wp m (λ a w', P a w' ∧ Q a w') w.
Proof. intros Hm Hq. destruct (wp_inv _ _ _ Hm) as (a & w' & Hr & HP). eapply wp_eq; [exact Hr|]. auto. Qed.

Lemma wlp_eq {A} (m : M W A) Q w a w' : m w = Some (a, w') → Q a w' → wlp m Q w.
Proof. intros Hr HQ b w2 Hr2. rewrite Hr in Hr2. by injection Hr2 as <- <-. Qed.
End wlp_rules.

(** Take any branch of a conditional or a match. *)
Ltac wlp_case := repeat (case_match; simplify_eq).

(** * The service *)

(** [write(2)] on the device does not ask to try again: the driver's never does. *)
Class UwriteOk (E : Uenv) := { write_no_again : ∀ tr, sys_write tr ≠ - EAGAIN }.

Section service_events.
Context {E : Uenv} {WO : UwriteOk E} {T : Mbedtls}.

Lemma wlp_syscall {A} e (ans : list uevent → A) Q w :
  Q (ans (l_trace w ++ [e])) (calls [e] w) → wlp (syscall e ans) Q w.
Proof using Type. intros HQ. by eapply wlp_eq. Qed.

Lemma send_packet_again t p n w : wlp (gxfp_dev_send_packet t p n) (λ r _, r ≠ - EAGAIN) w.
Proof using WO.
  unfold gxfp_dev_send_packet. apply wlp_any. intros c w1. destruct c; [by apply wlp_ret|].
  destruct (_ && _); [by apply wlp_ret|]. destruct (_ <? _); [by apply wlp_ret|]. apply wlp_any. intros b w2.
  destruct b; [|by apply wlp_ret]. do 4 (apply wlp_any; intros ? ?). apply wlp_bind, wlp_syscall.
  destruct (_ <? 0); [apply wlp_ret, write_no_again|]. destruct (negb _); by apply wlp_ret.
Qed.

Lemma send_async_again c p w : wlp (gxfp_goodix_send_async c (Some p) 2) (λ r _, r ≠ - EAGAIN) w.
Proof using WO.
  unfold gxfp_goodix_send_async. apply wlp_any. intros b w1. apply wlp_bind, wlp_lift. intros [r b'] Hb.
  assert (Hr : r ≠ - EAGAIN).
  { unfold gxfp_goodix_build_frame in Hb. repeat (case_match; simplify_eq; try done).
    repeat (apply bind_Some in Hb as (? & _ & Hb)). by simplify_eq. }
  destruct (r <? 0); [by apply wlp_ret|apply send_packet_again].
Qed.

Lemma get_image_again w : wlp gxfp_cmd_get_image (λ r _, r ≠ - EAGAIN) w.
Proof using WO.
  unfold gxfp_cmd_get_image. apply wlp_any. intros n w1. destruct n; [by apply wlp_ret|]. apply send_async_again.
Qed.

Lemma pull_plain_sign e o n l w : wlp (gxfp_tls_engine_pull_plain e o n l) (λ x _, x.1.1.1 = 1 ∨ x.1.1.1 < 0) w.
Proof using Type.
  unfold gxfp_tls_engine_pull_plain. wlp_case; try (apply wlp_ret; cbn; by right).
  apply wlp_any. intros [[r data] g1] w1. apply wlp_any. intros o1 w2.
  destruct (Z.ltb_spec 0 r); [apply wlp_ret; by left|].
  destruct (_ || _); [apply wlp_ret; by right|].
  destruct (Z.eqb_spec r 0); apply wlp_ret; cbn; [by right|right; lia].
Qed.

(** A step that asks to try again does not leave a service that failed. *)
Definition goes_on (r : Z) (s : gxfp_tls_service_impl) : Prop :=
  r = - EAGAIN → hs s ≠ GXFP_TLS_HS_ERROR.

Lemma pull_loop_goes fuel st s p w :
  wlp (pull_loop fuel st s p)
      (λ '(ret, _, _, s') _, match ret with
         | Some r => r = 1 ∧ hs s' = GXFP_TLS_HS_DONE ∨ r < 0 ∧ r ≠ - EAGAIN
         | None => hs s' = hs s
         end) w.
Proof using Type.
  revert st s p w. induction fuel as [|fuel IH]; intros st s p w; cbn [pull_loop]; [by intros ? ?|].
  apply wlp_any. intros b w1. apply wlp_bind. eapply wlp_mono; [apply pull_plain_sign|].
  intros [[[r e] o] l] w2 Hr. cbn in Hr. destruct (Z.eqb_spec r 1) as [->|Hr1].
  - apply wlp_any. intros n w3. apply wlp_any. intros [st' k] w4. apply wlp_any. intros k' w5.
    apply wlp_any. intros now w6. destruct (negb _); [apply wlp_ret; by left|]. eapply wlp_mono; [apply IH|].
    intros [[[ret p'] st2] s2] w7. by destruct ret.
  - destruct (Z.eqb_spec r (- EAGAIN)); apply wlp_ret; [done|right; lia].
Qed.

Lemma step_goes_on fuel st s w :
  hs s ≠ GXFP_TLS_HS_ERROR →
  wlp (gxfp_tls_service_step fuel st (Some (Some s)))
      (λ '(r, _, p) _, ∃ s', p = Some (Some s') ∧ goes_on r s') w.
Proof using WO.
  intros Hs. unfold gxfp_tls_service_step.
  assert (Hcap : ∀ s1 w1, hs s1 = GXFP_TLS_HS_CAPTURING →
    wlp ('(r, st, s) ← step_capturing fuel st s1; mret (r, st, Some (Some s)))
      (λ '(r, _, p) _, ∃ s', p = Some (Some s') ∧ goes_on r s') w1).
  { intros s1 w1 Hh. apply wlp_bind. unfold step_capturing. apply wlp_bind.
    eapply wlp_mono; [apply pull_loop_goes|]. intros [[[ret p] st'] s2] w2 Hr. cbn in Hr. destruct ret as [r|].
    { apply wlp_ret, wlp_ret. exists s2. split; [done|]. intros ->. by destruct Hr as [(? & _)|(_ & ?)]. }
    destruct p; [apply wlp_ret, wlp_ret; exists s2; split; [done|]; intros _; by rewrite Hr, Hh|].
    apply wlp_any. intros late w3. destruct late; apply wlp_ret, wlp_ret; eexists; (split; [done|]).
    - by intros ?.
    - intros _. by rewrite Hr, Hh. }
  assert (Hnext : ∀ (m : M lworld (Z * gxfp_tls_service_impl)) w0,
    wlp m (λ '(r, s1) _, r < 0 ∧ r ≠ - EAGAIN ∨ r = 0 ∧ hs s1 ≠ GXFP_TLS_HS_ERROR) w0 →
    wlp ('(r, s) ← m; if r <? 0 then mret (r, st, Some (Some s)) else
      match hs s with
      | GXFP_TLS_HS_CAPTURING => '(r, st, s) ← step_capturing fuel st s; mret (r, st, Some (Some s))
      | GXFP_TLS_HS_DONE => mret (1, st, Some (Some s))
      | _ => mret (- EAGAIN, st, Some (Some s))
      end) (λ '(r, _, p) _, ∃ s', p = Some (Some s') ∧ goes_on r s') w0).
  { intros m w0 Hm. apply wlp_bind. eapply wlp_mono; [exact Hm|]. intros [r s1] w1 [(Hr & Hr')|(-> & Hh)].
    - rewrite (proj2 (Z.ltb_lt _ _)) by done. apply wlp_ret. exists s1. split; [done|]. by intros ?.
    - change (0 <? 0) with false. cbv iota. destruct (hs s1) eqn:Hh1; try done; try (apply Hcap; done);
        apply wlp_ret; exists s1; (split; [done|]; intros _; by rewrite Hh1). }
  set (m := if bool_decide (hs s = GXFP_TLS_HS_CONNECTED) && _ && _ then _ else _).
  assert (Hsend : wlp (if bool_decide (hs s = GXFP_TLS_HS_CONNECTED) && negb (pending_capture s =? 0)
                    && (capture_sent s =? 0) then
                   r ← gxfp_cmd_get_image;
                   if r <? 0 then mret (r, set_failed r s) else
                   s ← svc_mark_capture_started s;
                   mret (0, s)
                 else mret (0, s))
      (λ '(r, s1) _, r < 0 ∧ r ≠ - EAGAIN ∨ r = 0 ∧ hs s1 ≠ GXFP_TLS_HS_ERROR) w).
  { destruct (_ && _); [|apply wlp_ret; by right]. apply wlp_bind. eapply wlp_mono; [apply get_image_again|].
    intros r w1 Hr. destruct (Z.ltb_spec r 0); [apply wlp_ret; by left|]. apply wlp_bind. unfold svc_mark_capture_started.
    apply wlp_any. intros now w2. apply wlp_ret, wlp_ret. by right. }
  change (wlp m (λ '(r, s1) _, r < 0 ∧ r ≠ - EAGAIN ∨ r = 0 ∧ hs s1 ≠ GXFP_TLS_HS_ERROR) w) in Hsend. clearbody m.
  destruct (hs s) eqn:Hh; try (by apply Hnext); [|done].
  apply wlp_bind. unfold step_connecting. apply wlp_any. intros [r e] w1.
  destruct (r =? 1); [apply wlp_ret, wlp_ret; eexists; split; [done|]; intros _; by destruct (_ =? 0)|].
  destruct (Z.eqb_spec r (- EAGAIN)).
  - apply wlp_any. intros now w2. destruct (_ <? _); apply wlp_ret, wlp_ret; eexists; (split; [done|]).
    + by intros ?.
    + intros _. cbn. by rewrite Hh.
  - apply wlp_ret, wlp_ret. eexists. split; [done|]. by intros ?.
Qed.
End service_events.

(** * The parts of a session *)

(** The modes of an activation, and those in which something is waited for. *)
Definition activating (m : gxfp_session_mode) : bool :=
  match m with
  | GXFP_MODE_ACTIVATING_TLS | GXFP_MODE_ACTIVATING_WAIT_UP | GXFP_MODE_ACTIVATING_DARK_CAPTURE => true
  | _ => false
  end.
Definition waits (m : gxfp_session_mode) : bool :=
  match m with
  | GXFP_MODE_WAIT_FINGER_ON | GXFP_MODE_WAIT_FINGER_OFF | GXFP_MODE_CAPTURING => true
  | m => activating m
  end.

Section session_events.
Context {E : Uenv} {EO : UenvOk E} {WO : UwriteOk E} {T : Mbedtls} {TO : MbedtlsOk T} {B : nat} {CO : UclockOk E B}.
Context {N : nat} {FO : UfiniteOk E N}.

(** The TLS service of the session, if any, has not failed. *)
Definition alive (s : gxfp_session_impl) : Prop := gxfp_tls_service_state (Some (svc s)) ≠ GXFP_TLS_HS_ERROR.

Definition ticked (e e' : gxfp_session_events) : Prop := e' = e ∨ ∃ k, e' = ev_tick k e.

Lemma ticked_trans e1 e2 e3 : ticked e1 e2 → ticked e2 e3 → ticked e1 e3.
Proof using Type. intros [->|(k & ->)] [->|(j & ->)]; unfold ticked; eauto. Qed.

Lemma wlp_io {A} (m : M lworld A) Q l c s e :
  wlp m (λ a l', Q a (W l' c s e)) l → wlp (io m) Q (W l c s e).
Proof using Type.
  intros Hm a w'. unfold io, zoom. cbn. destruct (m l) as [[a1 l1]|] eqn:Hr; [|done].
  intros [= <- <-]. by apply (Hm a1 l1).
Qed.

Lemma wlp_io_any {A} (m : M lworld A) Q l c s e : (∀ a l', Q a (W l' c s e)) → wlp (io m) Q (W l c s e).
Proof using Type. intros HQ. apply wlp_io. by intros a l' _. Qed.

(** Steps that only read or assign fields are taken by computation. *)
Ltac wlp_run := eapply wlp_eq; [reflexivity|].
Ltac wlp_next := apply wlp_bind; wlp_run.

Lemma set_error_ev fuel err target l c s e :
  wlp (session_set_error fuel err target)
      (λ _ w', ∃ l', w' = W l' c (set_mode GXFP_MODE_FAILED s) (ev_error err target e)) (W l c s e).
Proof using Type.
  unfold session_set_error. do 3 wlp_next. apply wlp_bind. destruct (_ && _).
  - apply wlp_bind, wlp_io_any. intros _ l'. apply wlp_ret. wlp_next. wlp_run. by exists l'.
  - apply wlp_ret. wlp_next. wlp_run. by exists l.
Qed.

Lemma set_fdt_ev fuel m l c s e :
  wlp (session_set_fdt_mode fuel m)
      (λ _ w', ∃ l' f, w' = W l' c (set_fdt f s) e ∨
         ∃ r, w' = W l' c (set_mode GXFP_MODE_FAILED (set_fdt f s)) (ev_error r GXFP_SESSION_ERR_TARGET_GENERIC e)) (W l c s e).
Proof using Type.
  unfold session_set_fdt_mode. do 2 wlp_next. destruct (negb _ || _).
  { apply wlp_ret. exists l, (fdt s). left. by destruct s. }
  wlp_next. apply wlp_bind, wlp_io_any. intros [r f] l1. apply wlp_bind, wlp_lift. intros f' _. wlp_next.
  destruct (r <? 0); [|apply wlp_ret; exists l1, f'; by left].
  eapply wlp_mono; [apply set_error_ev|]. intros _ w' (l2 & ->). exists l2, f'. right. by exists r.
Qed.

(** Polling the service: it goes on, or its failure is reported. *)
Definition polled (s : gxfp_session_impl) (e : gxfp_session_events) (s' : gxfp_session_impl) (e' : gxfp_session_events) : Prop :=
  (∃ v, s' = set_svc v s) ∧ ticked e e' ∧ alive s' ∨
  s_mode s' = GXFP_MODE_FAILED ∧ ∃ r e1, ticked e e1 ∧ e' = ev_error r GXFP_SESSION_ERR_TARGET_GENERIC e1.

Lemma wp_then {W A} (m : M W A) P Q w : wp m P w → (∀ a w', P a w' → Q a w') → wlp m Q w.
Proof using Type. intros Hm HPQ a w' Hr. by eapply HPQ, wp_elim. Qed.

Lemma svc_step_alive fuel st s l fd :
  dev_open l fd → static_ok st → svc_ok (svc s) → (pull_fuel <= fuel)%nat → alive s →
  wlp (gxfp_tls_service_step fuel st (Some (svc s)))
      (λ '(r, st', p) l', static_ok st' ∧ ∃ v, p = Some v ∧ svc_ok v ∧ extends l l' ∧
         (r = - EAGAIN ∨ 0 <= r → gxfp_tls_service_state (Some v) ≠ GXFP_TLS_HS_ERROR)) l.
Proof using EO TO WO.
  intros Hd Hst Hv Hf Ha. destruct Hv as [Hn|(i & Hi & Hinv)].
  { injection Hn as Hn. rewrite Hn. apply wlp_ret. split; [done|]. exists None. split; [done|]. split; [by left|done]. }
  injection Hi as Hi. unfold alive in Ha. rewrite Hi in Ha |- *.
  intros [[r st'] p] l' Hr. pose proof (step_goes_on fuel st i l Ha _ _ Hr) as (i' & -> & Hgo). cbn in Hgo.
  pose proof (wp_elim _ _ _ _ _ (step_wp fuel st i l fd Hd Hst Hinv Hf) Hr) as (Hst' & Hw & i2 & [= <-] & Hinv' & _ & _ & Hres & _).
  split; [done|]. exists (Some i'). split; [done|]. split; [right; by exists i'|]. split; [apply Hw|].
  intros Hr'. cbn. destruct Hr' as [Hr'|Hr']; [by apply Hgo|].
  destruct Hres as [(_ & ->)|[(_ & Hh)|[(-> & _)|(? & _)]]]; [done| |done|lia].
  intros He. rewrite He in Hh. by apply (bool_decide_eq_true_2 _) in Hh.
Qed.

Lemma poll_loop_ev fuel n i l c s e fd :
  dev_open l fd → static_ok c → svc_ok (svc s) → (pull_fuel <= fuel)%nat → alive s →
  wlp (poll_tls_loop fuel n i) (λ _ w', ∃ l' c' s' e', w' = W l' c' s' e' ∧ polled s e s' e') (W l c s e).
Proof using EO TO WO.
  intros Hd Hc Hv Hp Ha. revert i l c s e Hd Hc Hv Ha. induction n as [|n IH]; intros i l c s e Hd Hc Hv Ha; cbn [poll_tls_loop].
  { apply wlp_ret. do 4 eexists. split; [done|]. left. split; [exists (svc s); by destruct s|]. split; [by left|done]. }
  do 2 wlp_next. apply wlp_bind, wlp_io.
  eapply wlp_mono; [by apply (svc_step_alive fuel c s l fd Hd Hc Hv)|].
  intros [[r c1] p] l1 (Hc1 & v & -> & Hv1 & Hx & Hal). apply wlp_bind, wlp_lift. intros v' [= <-].
  do 2 wlp_next.
  assert (Hstop : (r = - EAGAIN ∨ 0 <= r) → ∃ l' c' s' e', W l1 c1 (set_svc v s) e = W l' c' s' e' ∧ polled s e s' e').
  { intros Hr. do 4 eexists. split; [done|]. left. split; [by exists v|]. split; [by left|]. by apply Hal. }
  destruct (Z.eqb_spec r (- EAGAIN)) as [Hr|Hr]; cbn [orb]; [apply wlp_ret, Hstop; by left|].
  destruct (Z.eqb_spec r 1) as [Hr1|Hr1]; [apply wlp_ret, Hstop; right; lia|].
  destruct (Z.ltb_spec r 0).
  { eapply wlp_mono; [apply set_error_ev|]. intros _ w' (l2 & ->). do 4 eexists. split; [done|]. right.
    split; [done|]. exists r, e. split; [by left|done]. }
  assert (Hgo : ∀ e1, ticked e e1 → wlp (poll_tls_loop fuel n (i + 1))
    (λ _ w', ∃ l' c' s' e', w' = W l' c' s' e' ∧ polled s e s' e') (W l1 c1 (set_svc v s) e1)).
  { intros e1 He1. eapply wlp_mono; [apply IH; [by eapply dev_open_extends|done|done|apply Hal; by right]|].
    intros _ w' (l' & c' & s' & e' & -> & Hr'). do 4 eexists. split; [done|].
    destruct Hr' as [((v' & ->) & He' & Ha')|(Hm & r' & e2 & He2 & ->)].
    - left. split; [by exists v'|]. split; [by eapply ticked_trans|done].
    - right. split; [done|]. exists r', e2. split; [by eapply ticked_trans|done]. }
  apply wlp_bind. destruct (i =? 63); [wlp_run|apply wlp_ret]; apply Hgo; [right; by exists 0|by left].
Qed.

Lemma finish_activation_ev fuel l c s e :
  session_error e = 0 →
  wlp (session_maybe_finish_activation fuel)
      (λ _ w', ∃ l' s' e', w' = W l' c s' e' ∧
         (s' = s ∧ e' = e ∧ (s_mode s = GXFP_MODE_ACTIVATING_TLS →
            gxfp_tls_service_state (Some (svc s)) ∉ [GXFP_TLS_HS_CONNECTED; GXFP_TLS_HS_DONE]) ∨
          s_mode s = GXFP_MODE_ACTIVATING_TLS ∧ (∃ f, s' = set_mode GXFP_MODE_ACTIVATING_WAIT_UP (set_fdt f s)) ∧ e' = ev_tick 0 e ∨
          s_mode s' = GXFP_MODE_FAILED ∧ ∃ r, e' = ev_error r GXFP_SESSION_ERR_TARGET_GENERIC e)) (W l c s e).
Proof using Type.
  intros He. unfold session_maybe_finish_activation. do 2 wlp_next.
  destruct (bool_decide_reflect (s_mode s = GXFP_MODE_ACTIVATING_TLS)) as [Hm|Hm]; cbn [negb].
  2: { apply wlp_ret. do 3 eexists. split; [done|]. by left. }
  assert (Hgo : wlp (session_set_fdt_mode fuel GXFP_FDT_MODE_WAIT_UP;;
    e ← ev;
    if negb (session_error e =? 0) then mret () else
    mod_sess (set_mode GXFP_MODE_ACTIVATING_WAIT_UP);; mod_ev (ev_tick 0))
      (λ _ w', ∃ l' s' e', w' = W l' c s' e' ∧
          (s_mode s = GXFP_MODE_ACTIVATING_TLS ∧ (∃ f, s' = set_mode GXFP_MODE_ACTIVATING_WAIT_UP (set_fdt f s)) ∧ e' = ev_tick 0 e ∨
          s_mode s' = GXFP_MODE_FAILED ∧ ∃ r, e' = ev_error r GXFP_SESSION_ERR_TARGET_GENERIC e)) (W l c s e)).
  { apply wlp_bind. eapply wlp_mono; [apply set_fdt_ev|]. intros _ w' (l1 & f & [->|(r & ->)]); wlp_next.
    - rewrite He. cbn [negb Z.eqb]. wlp_next. wlp_run. do 3 eexists. split; [done|]. left. split; [done|]. split; [by exists f|done].
    - cbn [ev_error session_error negb Z.eqb]. apply wlp_ret. do 3 eexists. split; [done|]. right. split; [done|]. by exists r. }
  assert (Hno : gxfp_tls_service_state (Some (svc s)) ∉ [GXFP_TLS_HS_CONNECTED; GXFP_TLS_HS_DONE] →
    wlp (mret ()) (λ _ w', ∃ l' s' e', w' = W l' c s' e' ∧
         (s' = s ∧ e' = e ∧ (s_mode s = GXFP_MODE_ACTIVATING_TLS →
            gxfp_tls_service_state (Some (svc s)) ∉ [GXFP_TLS_HS_CONNECTED; GXFP_TLS_HS_DONE]) ∨
          s_mode s = GXFP_MODE_ACTIVATING_TLS ∧ (∃ f, s' = set_mode GXFP_MODE_ACTIVATING_WAIT_UP (set_fdt f s)) ∧ e' = ev_tick 0 e ∨
          s_mode s' = GXFP_MODE_FAILED ∧ ∃ r, e' = ev_error r GXFP_SESSION_ERR_TARGET_GENERIC e)) (W l c s e)).
  { intros Hst. apply wlp_ret. do 3 eexists. split; [done|]. by left. }
  destruct (gxfp_tls_service_state (Some (svc s)));
    first [apply Hno; by repeat (apply not_elem_of_cons; split; [done|]); apply not_elem_of_nil
          |eapply wlp_mono; [exact Hgo|]; intros _ w' (l' & s' & e' & -> & Hr); do 3 eexists; split; [done|]; by right].
Qed.

Lemma pump_fdt_ev l c s e : wlp pump_fdt (λ _ w', ∃ l' f, w' = W l' c (set_fdt f s) e) (W l c s e).
Proof using Type.
  assert (Hgo : wlp (now ← io gxfp_monotonic_ms;
      '(r, f) ← io (gxfp_fdt_flow_poll (Some (fdt s)) now); f ← lift f; mod_sess (set_fdt f);; mret r)
      (λ _ w', ∃ l' f, w' = W l' c (set_fdt f s) e) (W l c s e)).
  { apply wlp_bind, wlp_io_any. intros now l1. apply wlp_bind, wlp_io_any. intros [r f] l2.
    apply wlp_bind, wlp_lift. intros f' _. wlp_next. apply wlp_ret. by exists l2, f'. }
  assert (Hno : wlp (mret 0) (λ _ w', ∃ l' f, w' = W l' c (set_fdt f s) e) (W l c s e)).
  { apply wlp_ret. exists l, (fdt s). by destruct s. }
  unfold pump_fdt. wlp_next. destruct (s_mode s); assumption.
Qed.

(** The end of a capture, in mode [m]: nothing yet, an error, a dark frame or an image. *)
Definition finalized_ev (m : gxfp_session_mode) (s : gxfp_session_impl) (e : gxfp_session_events)
    (s' : gxfp_session_impl) (e' : gxfp_session_events) : Prop :=
  s' = s ∧ e' = e ∧ gxfp_tls_service_state (Some (svc s)) ≠ GXFP_TLS_HS_DONE ∨
  s_mode s' = GXFP_MODE_FAILED ∧ (∃ r t, e' = ev_error r t e ∧
     (t = GXFP_SESSION_ERR_TARGET_ACTIVATE → m = GXFP_MODE_ACTIVATING_DARK_CAPTURE)) ∨
  m = GXFP_MODE_ACTIVATING_DARK_CAPTURE ∧ s_mode s' = GXFP_MODE_IDLE ∧ alive s' ∧ e' = ev_done true false false e ∨
  m = GXFP_MODE_CAPTURING ∧ s_mode s' = GXFP_MODE_IDLE ∧ alive s' ∧ pending_img_ready s' = 1 ∧ e' = ev_image e.

(** The same from a session that was changed in between. *)
Lemma finish_dark_ev fuel i l c s e :
  session_error e = 0 → alive s →
  wlp (finish_dark fuel i)
      (λ _ w', ∃ l' s' e', w' = W l' c s' e' ∧
         (s_mode s' = GXFP_MODE_FAILED ∧ (∃ r t, e' = ev_error r t e) ∨
          s_mode s' = GXFP_MODE_IDLE ∧ alive s' ∧ e' = ev_done true false false e)) (W l c s e).
Proof using Type.
  intros He Ha. unfold finish_dark. apply wlp_bind.
  assert (Hd : wlp (session_set_dark_from_image (Some i))
    (λ r w', ∃ l' d n, w' = W l' c (set_dark d n s) e) (W l c s e)).
  { assert (Hsame : ∀ l', ∃ l'' d n, W l' c s e = W l'' c (set_dark d n s) e).
    { intros l'. exists l', (dark s), (dark_loaded s). by destruct s. }
    unfold session_set_dark_from_image. wlp_next. destruct (pixels i); [|apply wlp_ret, Hsame].
    destruct (_ || _); [apply wlp_ret, Hsame|]. apply wlp_bind, wlp_io_any. intros [p|] l1; [|apply wlp_ret, Hsame].
    apply wlp_bind, wlp_lift. intros px _. wlp_next. apply wlp_ret. by do 3 eexists. }
  eapply wlp_mono; [exact Hd|]. intros r w' (l1 & d & n & ->). destruct (r <? 0).
  { eapply wlp_mono; [apply set_error_ev|]. intros _ w' (l2 & ->). do 3 eexists. split; [done|]. left. split; [done|]. by do 2 eexists. }
  apply wlp_bind. eapply wlp_mono; [apply set_fdt_ev|]. intros _ w' (l2 & f & [->|(r' & ->)]); wlp_next.
  - rewrite He. cbn [negb Z.eqb]. wlp_next. wlp_run. do 3 eexists. split; [done|]. by right.
  - cbn [ev_error session_error negb Z.eqb]. apply wlp_ret. do 3 eexists. split; [done|]. left. split; [done|]. by do 2 eexists.
Qed.

Lemma finish_image_ev fuel i l c s e :
  alive s →
  wlp (finish_image fuel i)
      (λ _ w', ∃ l' s' e', w' = W l' c s' e' ∧
         (s_mode s' = GXFP_MODE_FAILED ∧ (∃ r, e' = ev_error r GXFP_SESSION_ERR_TARGET_CAPTURE e) ∨
          s_mode s' = GXFP_MODE_IDLE ∧ alive s' ∧ pending_img_ready s' = 1 ∧ e' = ev_image e)) (W l c s e).
Proof using Type.
  intros Ha. unfold finish_image. wlp_next. apply wlp_bind, wlp_lift. intros [r px] _. destruct (r <? 0).
  { eapply wlp_mono; [apply set_error_ev|]. intros _ w' (l2 & ->). do 3 eexists. split; [done|]. left. split; [done|]. by eexists. }
  do 2 wlp_next. wlp_run. do 3 eexists. split; [done|]. by right.
Qed.

Lemma finalize_ev fuel target l c s e :
  session_error e = 0 → captures (s_mode s) →
  (target = GXFP_SESSION_ERR_TARGET_ACTIVATE → s_mode s = GXFP_MODE_ACTIVATING_DARK_CAPTURE) →
  wlp (session_finalize_capture fuel target)
      (λ _ w', ∃ l' s' e', w' = W l' c s' e' ∧ finalized_ev (s_mode s) s e s' e') (W l c s e).
Proof using Type.
  intros He Hm Ht. unfold session_finalize_capture. do 2 wlp_next.
  assert (Herr : ∀ r l' s1, wlp (session_set_error fuel r target)
      (λ _ w', ∃ l' s' e', w' = W l' c s' e' ∧ finalized_ev (s_mode s) s e s' e') (W l' c s1 e)).
  { intros r l1 s1. eapply wlp_mono; [apply set_error_ev|]. intros _ w' (l2 & ->). do 3 eexists. split; [done|].
    right. left. split; [done|]. by exists r, target. }
  destruct (gxfp_tls_service_state (Some (svc s))) eqn:Hst;
    try (apply wlp_ret; do 3 eexists; split; [done|]; left; split; [done|]; split; [done|]; by rewrite Hst).
  apply wlp_bind, wlp_io_any. intros h l1. apply wlp_bind, wlp_io.
  assert (Hraw : wlp (gxfp_tls_service_get_raw_image (Some (svc s)) (Some h) (Some None) (Some 0))
    (λ '(r, v, _, body, _) _, ∀ v', v = Some v' → gxfp_tls_service_state (Some v') = GXFP_TLS_HS_DONE) l1).
  { unfold gxfp_tls_service_get_raw_image. destruct (svc s) as [i|] eqn:Hv.
    - cbn in Hst. cbn [bool_decide orb]. destruct (_ =? 0); [apply wlp_ret; by intros v' [= <-]|].
      apply wlp_any. intros [[[[r k] h'] b'] n'] l2. apply wlp_any. intros k' l3. apply wlp_ret. by intros v' [= <-].
    - apply wlp_ret. by intros v' [= <-]. }
  eapply wlp_mono; [exact Hraw|]. intros [[[[r v] h'] body] n] l2 Hv. apply wlp_bind, wlp_lift. intros v' ->.
  specialize (Hv v' eq_refl). wlp_next. destruct (r <=? 0); [apply Herr|].
  apply wlp_bind, wlp_lift. intros b _. apply wlp_bind, wlp_lift. intros n' _. apply wlp_bind, wlp_io_any. intros [r2 im] l3.
  destruct (r2 <? 0); [apply Herr|]. apply wlp_bind, wlp_lift. intros im' _. wlp_next. cbn [s_mode set_svc].
  assert (Ha : alive (set_svc v' s)) by (unfold alive; cbn [svc set_svc]; by rewrite Hv).
  destruct (bool_decide_reflect (s_mode s = GXFP_MODE_ACTIVATING_DARK_CAPTURE)) as [Hd|Hd].
  - eapply wlp_mono; [by apply finish_dark_ev|]. intros _ w' (l4 & s' & e' & -> & Hr). do 3 eexists. split; [done|].
    destruct Hr as [(Hf & r3 & t & ->)|Hr]; [right; left; split; [done|]; by exists r3, t|right; right; left; done].
  - assert (Hc : s_mode s = GXFP_MODE_CAPTURING) by (by destruct Hm).
    eapply wlp_mono; [by apply finish_image_ev|]. intros _ w' (l4 & s' & e' & -> & Hr). do 3 eexists. split; [done|].
    destruct Hr as [(Hf & r3 & ->)|Hr]; [right; left; split; [done|]; by exists r3, GXFP_SESSION_ERR_TARGET_CAPTURE|right; right; right; done].
Qed.

(** * The pump *)

(** What a pump in mode [m] adds to the events [e]. *)
Record pumped (m : gxfp_session_mode) (e : gxfp_session_events) (s' : gxfp_session_impl) (e' : gxfp_session_events) : Prop := {
  pu_done : deactivate_complete e' = deactivate_complete e ∧ close_complete e' = close_complete e;
  pu_finger : finger_status_changed e' = finger_status_changed e ∧ finger_present e' = finger_present e;
  pu_active : activate_complete e' = activate_complete e ∨
              activating m = true ∧ s_mode s' = GXFP_MODE_IDLE ∧ session_error e' = session_error e;
  pu_image : image_ready e' = image_ready e ∨
             m = GXFP_MODE_CAPTURING ∧ s_mode s' = GXFP_MODE_IDLE ∧ session_error e' = session_error e ∧ pending_img_ready s' = 1;
  pu_error : session_error e' = session_error e ∨
             s_mode s' = GXFP_MODE_FAILED ∧ session_error e' = 1 ∧
             (error_target e' = GXFP_SESSION_ERR_TARGET_ACTIVATE → activating m = true);
  pu_cancel : cancel_tick e' = cancel_tick e ∨ session_error e' = 1;
  pu_tick : session_error e' = 0 → waits (s_mode s') = true → request_tick e' = 1;
  pu_alive : session_error e' = 0 → alive s';
  pu_up : activating m = true → s_mode s' = GXFP_MODE_IDLE → activate_complete e' = 1;
  pu_taken : m = GXFP_MODE_CAPTURING → s_mode s' = GXFP_MODE_IDLE → image_ready e' = 1
}.

(** An error that is the last event. *)
Lemma pumped_error m e s' e1 r t :
  s_mode s' = GXFP_MODE_FAILED → ticked e e1 → (t = GXFP_SESSION_ERR_TARGET_ACTIVATE → activating m = true) →
  pumped m e s' (ev_error r t e1).
Proof using Type. intros Hm He Ht. destruct He as [->|(k & ->)]; split; cbn; auto; congruence. Qed.

Lemma pumped_ticked m e e1 s' e' : ticked e e1 → pumped m e1 s' e' → pumped m e s' e'.
Proof using Type. intros [->|(k & ->)]; [done|]. intros []. by split. Qed.

(** A pump that moved the session on to mode [m1] has the events of one in that mode. *)
Lemma pumped_mode m m1 e s' e' :
  activating m1 = activating m → (m1 = GXFP_MODE_CAPTURING ↔ m = GXFP_MODE_CAPTURING) →
  pumped m1 e s' e' → pumped m e s' e'.
Proof using Type.
  intros Ha Hc []. rewrite Ha in *. split; try done.
  - destruct pu_image0 as [?|(? & ?)]; [by left|right; tauto].
  - by rewrite <- Hc.
Qed.

Lemma pump_end_ev fuel l c s e :
  session_error e = 0 → alive s →
  (s_mode s = GXFP_MODE_ACTIVATING_TLS →
     gxfp_tls_service_state (Some (svc s)) ∉ [GXFP_TLS_HS_CONNECTED; GXFP_TLS_HS_DONE]) →
  wlp (pump_capture fuel;; pump_tick) (λ _ w', ∃ l' s' e', w' = W l' c s' e' ∧ pumped (s_mode s) e s' e') (W l c s e).
Proof using Type.
  intros He Ha Hact. apply wlp_bind.
  assert (Htick : ∀ l1 s1 e1, s_mode s1 = s_mode s → svc s1 = svc s → e1 = e →
    (captures (s_mode s) → gxfp_tls_service_state (Some (svc s)) ≠ GXFP_TLS_HS_DONE) →
    wlp pump_tick (λ _ w', ∃ l' s' e', w' = W l' c s' e' ∧ pumped (s_mode s) e s' e') (W l1 c s1 e1)).
  { intros l1 s1 e1 Hm Hv -> Hdone. unfold pump_tick. wlp_next. rewrite Hm, Hv.
    assert (Hup : activating (s_mode s) = true → s_mode s1 ≠ GXFP_MODE_IDLE).
    { rewrite Hm. by destruct (s_mode s). }
    assert (Htk : s_mode s = GXFP_MODE_CAPTURING → s_mode s1 ≠ GXFP_MODE_IDLE) by (rewrite Hm; by intros ->).
    assert (H0 : waits (s_mode s) = false →
      ∃ l' s' e', W l1 c s1 e = W l' c s' e' ∧ pumped (s_mode s) e s' e').
    { intros Hw. do 3 eexists. split; [done|]. split; auto; [rewrite Hm; congruence|by unfold alive; rewrite Hv| |].
      - intros Ha1 Hi. by destruct Hup.
      - intros Hc Hi. by destruct Htk. }
    assert (H1 : wlp (mod_ev (ev_tick 20)) (λ _ w', ∃ l' s' e', w' = W l' c s' e' ∧ pumped (s_mode s) e s' e') (W l1 c s1 e)).
    { wlp_run. do 3 eexists. split; [done|]. split; auto; [by unfold alive; rewrite Hv| |].
      - intros Ha1 Hi. by destruct Hup.
      - intros Hc Hi. by destruct Htk. }
    unfold alive in Ha. unfold captures in Hdone.
    assert (Hact' : s_mode s = GXFP_MODE_ACTIVATING_TLS → gxfp_tls_service_state (Some (svc s)) ≠ GXFP_TLS_HS_CONNECTED).
    { intros Hm' Hst. apply Hact; [done|]. rewrite Hst. apply list_elem_of_here. }
    destruct (s_mode s), (gxfp_tls_service_state (Some (svc s)));
      first [exact H1 | apply wlp_ret, H0; reflexivity | by destruct Ha | by destruct Hact' | destruct Hdone; auto; done]. }
  assert (Hcap : ∀ target, captures (s_mode s) →
    (target = GXFP_SESSION_ERR_TARGET_ACTIVATE → s_mode s = GXFP_MODE_ACTIVATING_DARK_CAPTURE) →
    wlp (session_finalize_capture fuel target) (λ _ w', wlp pump_tick
      (λ _ w', ∃ l' s' e', w' = W l' c s' e' ∧ pumped (s_mode s) e s' e') w') (W l c s e)).
  { intros target Hc Ht. eapply wlp_mono; [by apply finalize_ev|]. intros _ w' (l1 & s1 & e1 & -> & Hr).
    destruct Hr as [(-> & -> & Hnd)|[(Hm & r & t & -> & Htt)|[(Hm & Hm1 & Ha1 & ->)|(Hm & Hm1 & Ha1 & Hp & ->)]]].
    - by apply Htick.
    - unfold pump_tick. wlp_next. rewrite Hm. apply wlp_ret. do 3 eexists. split; [done|].
      apply pumped_error; [done|by left|]. intros Hta. by rewrite (Htt Hta).
    - unfold pump_tick. wlp_next. rewrite Hm1. apply wlp_ret. do 3 eexists. split; [done|].
      split; auto; [right; by rewrite Hm|by rewrite Hm1|by rewrite Hm].
    - unfold pump_tick. wlp_next. rewrite Hm1. apply wlp_ret. do 3 eexists. split; [done|].
      split; auto; [by rewrite Hm1|by rewrite Hm]. }
  unfold pump_capture. wlp_next.
  assert (Hsame : ¬ captures (s_mode s) → wlp (mret ()) (λ _ w', wlp pump_tick
      (λ _ w', ∃ l' s' e', w' = W l' c s' e' ∧ pumped (s_mode s) e s' e') w') (W l c s e)).
  { intros Hn. by apply wlp_ret, Htick. }
  unfold captures in *. destruct (s_mode s) eqn:Hm; first [apply Hsame; by intros [?|?] | apply Hcap; auto; done].
Qed.

Lemma captures_activating m : activating m = true → inert m = false.
Proof using Type. by destruct m. Qed.

Lemma pump_ev fuel cancel l c s e :
  live s l → static_ok c → (500 * B < fuel)%nat → (pull_fuel <= fuel)%nat → session_error e = 0 →
  inert (s_mode s) = false → alive s →
  wlp (gxfp_session_pump fuel cancel) (λ _ w', ∃ l' c' s' e', w' = W l' c' s' e' ∧ pumped (s_mode s) e s' e') (W l c s e).
Proof using EO TO WO CO.
  intros Hs Hc Hf Hp He Hin Ha. destruct (cancel && in_action (s_mode s)) eqn:Hcan.
  { apply andb_true_iff in Hcan as [-> Hact]. eapply wlp_eq; [by apply pump_cancel_run|]. do 4 eexists. split; [done|].
    split; cbn; auto; try done. right. split; [done|]. split; [done|]. by destruct (s_mode s). }
  unfold gxfp_session_pump. do 3 wlp_next. rewrite Hin, Hcan. apply wlp_bind.
  destruct (live_dev s l Hs) as (fd & Hd).
  eapply wlp_mono; [by apply (poll_loop_ev fuel 64 0 l c s e fd Hd Hc (live_svc_ok s l Hs))|].
  intros _ w' (l1 & c1 & s1 & e1 & -> & Hr). wlp_next.
  destruct Hr as [((v & ->) & Ht & Ha1)|(Hm & r & e2 & Ht & ->)].
  2: { cbn [ev_error session_error negb Z.eqb]. apply wlp_ret. do 4 eexists. split; [done|]. by apply pumped_error. }
  assert (He1 : session_error e1 = 0) by (destruct Ht as [->|(k & ->)]; done).
  rewrite He1. cbn [negb Z.eqb]. apply wlp_bind. eapply wlp_mono; [by apply finish_activation_ev|].
  intros _ w' (l2 & s2 & e2 & -> & Hr). wlp_next. cbn [s_mode set_svc] in Hr.
  assert (Hrest : ∀ s2 e2, session_error e2 = 0 → ticked e e2 → alive s2 →
    activating (s_mode s2) = activating (s_mode s) →
    (s_mode s2 = GXFP_MODE_CAPTURING ↔ s_mode s = GXFP_MODE_CAPTURING) →
    (s_mode s2 = GXFP_MODE_ACTIVATING_TLS →
     gxfp_tls_service_state (Some (svc s2)) ∉ [GXFP_TLS_HS_CONNECTED; GXFP_TLS_HS_DONE]) →
    wlp (r ← pump_fdt;
         if r <? 0 then session_set_error fuel r GXFP_SESSION_ERR_TARGET_GENERIC else
         pump_capture fuel;; pump_tick)
      (λ _ w', ∃ l' c' s' e', w' = W l' c' s' e' ∧ pumped (s_mode s) e s' e') (W l2 c1 s2 e2)).
  { intros s3 e3 He3 Ht3 Ha3 Hact Hcap Hst. apply wlp_bind. eapply wlp_mono; [apply pump_fdt_ev|].
    intros r w' (l3 & f & ->). destruct (r <? 0).
    - eapply wlp_mono; [apply set_error_ev|]. intros _ w' (l4 & ->). do 4 eexists. split; [done|]. by apply pumped_error.
    - eapply wlp_mono; [by apply pump_end_ev|]. intros _ w' (l4 & s4 & e4 & -> & Hpu). do 4 eexists. split; [done|].
      eapply pumped_ticked; [exact Ht3|]. by apply (pumped_mode _ (s_mode s3)). }
  destruct Hr as [(-> & -> & Hst)|[(Hm & (f & ->) & ->)|(Hm & r & ->)]].
  - rewrite He1. cbn [negb Z.eqb]. by apply Hrest.
  - cbn [ev_tick session_error]. rewrite He1. cbn [negb Z.eqb]. apply Hrest; try done.
    + eapply ticked_trans; [exact Ht|]. right. by exists 0.
    + cbn [s_mode set_mode set_fdt]. by rewrite Hm.
    + cbn [s_mode set_mode set_fdt]. by rewrite Hm.
  - cbn [ev_error session_error negb Z.eqb]. apply wlp_ret. do 4 eexists. split; [done|]. by apply pumped_error.
Qed.

(** * The records of the device *)

(** What the loop over the records in mode [m] adds to the events [e]. *)
Record fed_ev (m : gxfp_session_mode) (e : gxfp_session_events) (s' : gxfp_session_impl) (e' : gxfp_session_events) : Prop := {
  fe_done : deactivate_complete e' = deactivate_complete e ∧ close_complete e' = close_complete e;
  fe_rest : activate_complete e' = activate_complete e ∧ image_ready e' = image_ready e ∧ cancel_tick e' = cancel_tick e;
  fe_finger : finger_status_changed e' = finger_status_changed e ∧ finger_present e' = finger_present e ∨
              m = GXFP_MODE_WAIT_FINGER_ON ∧ finger_present e' = 1 ∨ m = GXFP_MODE_WAIT_FINGER_OFF ∧ finger_present e' = 0;
  fe_error : session_error e' = session_error e ∧ fed m (s_mode s') ∧ alive s' ∨
             s_mode s' = GXFP_MODE_FAILED ∧ session_error e' = 1 ∧
             (error_target e' = GXFP_SESSION_ERR_TARGET_ACTIVATE → activating m = true)
}.

Lemma fed_ev_error m e s1 e1 s' r t :
  fed_ev m e s1 e1 → (t = GXFP_SESSION_ERR_TARGET_ACTIVATE → activating m = true) →
  s_mode s' = GXFP_MODE_FAILED → fed_ev m e s' (ev_error r t e1).
Proof using Type. intros [] Ht Hm. split; auto. Qed.

Lemma request_alive v r p :
  gxfp_tls_service_request_capture (Some v) = Some (r, Some p) → 0 <= r →
  gxfp_tls_service_state (Some p) = GXFP_TLS_HS_CONNECTED.
Proof using Type.
  unfold gxfp_tls_service_request_capture. destruct v as [i|]; [|by intros [= <- <-]].
  destruct (_ && _); [by intros [= <- <-]|]. intros Hr _.
  destruct (gxfp_plain_image_sink_reset (Some (img i))) as [[k|]|]; try done. by injection Hr as <- <-.
Qed.

Lemma feed_alive v h b n l :
  wlp (gxfp_tls_service_feed_tap_record (Some v) h b n)
      (λ '(r, p) _, 0 <= r → gxfp_tls_service_state p = gxfp_tls_service_state (Some v)) l.
Proof using Type.
  unfold gxfp_tls_service_feed_tap_record. destruct v as [i|]; [|by apply wlp_ret].
  destruct (_ =? _); [|by apply wlp_ret]. apply wlp_any. intros now l1. apply wlp_bind, wlp_lift. intros [r e] _.
  destruct (Z.ltb_spec r 0); [apply wlp_ret; lia|by apply wlp_ret].
Qed.

Lemma record_ev x l c s e :
  alive s → session_error e = 0 →
  wlp (record_events x)
      (λ r w', ∃ s' e', w' = W l c s' e' ∧ (0 <= r ∧ fed_ev (s_mode s) e s' e' ∧ session_error e' = 0 ∧ fed (s_mode s) (s_mode s') ∧ alive s' ∨
         r < 0 ∧ activating (s_mode s) = true ∧ e' = e)) (W l c s e).
Proof using Type.
  intros Ha He. unfold record_events. wlp_next.
  assert (Hsame : ∃ s' e', W l c s e = W l c s' e' ∧ (0 <= 0 ∧ fed_ev (s_mode s) e s' e' ∧ session_error e' = 0 ∧ fed (s_mode s) (s_mode s') ∧ alive s' ∨
         0 < 0 ∧ activating (s_mode s) = true ∧ e' = e)).
  { do 2 eexists. split; [done|]. left. split; [done|]. split; [|split; [done|split; [by left|done]]].
    split; auto. left. split; [done|]. split; [by left|done]. }
  assert (Hfinger : ∀ (b : bool) p,
    (s_mode s = GXFP_MODE_WAIT_FINGER_ON ∧ p = 1 ∨ s_mode s = GXFP_MODE_WAIT_FINGER_OFF ∧ p = 0) →
    wlp ((if b then mod_ev (ev_finger p) else mret ());; mret 0)
      (λ r w', ∃ s' e', w' = W l c s' e' ∧ (0 <= r ∧ fed_ev (s_mode s) e s' e' ∧ session_error e' = 0 ∧ fed (s_mode s) (s_mode s') ∧ alive s' ∨
         r < 0 ∧ activating (s_mode s) = true ∧ e' = e)) (W l c s e)).
  { intros b p Hp. apply wlp_bind. destruct b; [|by apply wlp_ret, wlp_ret]. wlp_run. apply wlp_ret.
    do 2 eexists. split; [done|]. left. split; [done|]. split; [|split; [done|split; [by left|done]]].
    split; auto. left. split; [done|]. split; [by left|done]. }
  destruct (s_mode s) eqn:Hm; try (by apply wlp_ret); try (apply Hfinger; tauto).
  destruct (_ =? 0); [by apply wlp_ret|]. apply wlp_bind, wlp_lift. intros [r v] Hr. apply wlp_bind, wlp_lift. intros v' ->.
  wlp_next. destruct (Z.ltb_spec r 0).
  { apply wlp_ret. do 2 eexists. split; [done|]. by right. }
  do 2 wlp_next. apply wlp_ret. do 2 eexists. split; [done|]. left. split; [done|].
  assert (Ha' : alive (set_mode GXFP_MODE_ACTIVATING_DARK_CAPTURE (set_svc v' s))).
  { unfold alive. cbn [svc set_mode set_svc]. by rewrite (request_alive _ _ _ Hr). }
  assert (Hfed : fed GXFP_MODE_ACTIVATING_WAIT_UP GXFP_MODE_ACTIVATING_DARK_CAPTURE) by by right.
  split; [|by split]. split; auto.
Qed.

Lemma fed_activating m m' : fed m m' → activating m' = activating m ∧ (m' = GXFP_MODE_CAPTURING → m = GXFP_MODE_CAPTURING).
Proof using Type. by intros [->|(-> & ->)]. Qed.

Lemma fed_ev_trans m m1 e s1 e1 s' e' :
  fed m m1 → fed_ev m e s1 e1 → session_error e1 = session_error e → fed_ev m1 e1 s' e' → fed_ev m e s' e'.
Proof using Type.
  intros Hm [] He []. destruct (fed_activating _ _ Hm) as (Hact & _). split.
  - destruct fe_done0, fe_done1. split; congruence.
  - destruct fe_rest0 as (? & ? & ?), fe_rest1 as (? & ? & ?). split; [congruence|]. split; congruence.
  - destruct fe_finger1 as [(-> & ->)|Hf]; [done|]. right.
    destruct Hm as [->|(-> & ->)]; [done|]. by destruct Hf as [(? & _)|(? & _)].
  - destruct fe_error1 as [(-> & Hf & Ha)|(H1 & H2 & H3)].
    + left. split; [done|]. split; [by eapply fed_trans|done].
    + right. split; [done|]. split; [done|]. by rewrite <- Hact.
Qed.

Lemma on_fd_loop_ev fuel turns l c s e :
  alive s → session_error e = 0 →
  wlp (on_fd_loop fuel turns) (λ _ w', ∃ l' s' e', w' = W l' c s' e' ∧ fed_ev (s_mode s) e s' e') (W l c s e).
Proof using Type.
  revert l s e. induction turns as [|turns IH]; intros l s e Ha He; cbn [on_fd_loop]; [by intros ? ?|].
  assert (Hid : ∀ s1, s_mode s1 = s_mode s → alive s1 → fed_ev (s_mode s) e s1 e).
  { intros s1 Hm Ha1. split; auto. left. split; [done|]. split; [by left|done]. }
  assert (Herr : ∀ r t l1 s1 s2 e2, fed_ev (s_mode s) e s2 e2 → (t = GXFP_SESSION_ERR_TARGET_ACTIVATE → activating (s_mode s) = true) →
    wlp (session_set_error fuel r t) (λ _ w', ∃ l' s' e', w' = W l' c s' e' ∧ fed_ev (s_mode s) e s' e') (W l1 c s1 e2)).
  { intros r t l1 s1 s2 e2 Hf Ht. eapply wlp_mono; [apply set_error_ev|]. intros _ w' (l2 & ->). do 3 eexists. split; [done|].
    by eapply fed_ev_error. }
  assert (Hidd : fed_ev (s_mode s) e s e) by by apply Hid.
  wlp_next. destruct (_ || _); [by eapply Herr|]. apply wlp_bind, wlp_io_any. intros [[[[n b] h] pl] k] l1. wlp_next.
  destruct (n <? 0). { destruct (n =? - EAGAIN); [|by eapply Herr]. apply wlp_ret. do 3 eexists. split; [done|]. by apply Hid. }
  destruct (n =? 0). { apply wlp_ret. do 3 eexists. split; [done|]. by apply Hid. }
  apply wlp_bind, wlp_lift. intros h' _. apply wlp_bind, wlp_lift. intros pl' _. wlp_next.
  apply wlp_bind, wlp_io_any. intros [[r f] x] l2. apply wlp_bind, wlp_lift. intros f' _. apply wlp_bind, wlp_lift. intros x' _.
  wlp_next. destruct (_ && _); [by eapply Herr|]. apply wlp_bind. eapply wlp_mono; [by apply record_ev|].
  intros r2 w' (s2 & e2 & -> & Hr). cbn [s_mode set_fdt set_tap] in Hr.
  destruct Hr as [(Hr0 & Hf & He2 & Hm2 & Ha2)|(Hr0 & Hact & ->)]; cycle 1.
  { rewrite (proj2 (Z.ltb_lt _ _)) by done. by eapply Herr. }
  rewrite (proj2 (Z.ltb_ge _ _)) by done. wlp_next. apply wlp_bind, wlp_io. eapply wlp_mono; [apply feed_alive|].
  intros [r3 v] l3 Hv. apply wlp_bind, wlp_lift. intros v' ->. wlp_next. destruct (Z.ltb_spec r3 0); [by eapply Herr|].
  eapply wlp_mono; [apply IH; [|done]|].
  - unfold alive. cbn [svc set_svc]. by rewrite Hv.
  - intros _ w' (l4 & s4 & e4 & -> & Hf4). do 3 eexists. split; [done|]. eapply fed_ev_trans; [exact Hm2|exact Hf|congruence|exact Hf4].
Qed.

(** * What the calls report *)

(** The events of a pump, or of a wake-up by the device, in mode [m]. *)
Record reports (m : gxfp_session_mode) (s' : gxfp_session_impl) (e' : gxfp_session_events) : Prop := {
  rp_done : deactivate_complete e' = 0 ∧ close_complete e' = 0;
  rp_finger : finger_status_changed e' = 0 ∨
              m = GXFP_MODE_WAIT_FINGER_ON ∧ finger_present e' = 1 ∨ m = GXFP_MODE_WAIT_FINGER_OFF ∧ finger_present e' = 0;
  rp_active : activate_complete e' = 0 ∨ activating m = true ∧ s_mode s' = GXFP_MODE_IDLE ∧ session_error e' = 0;
  rp_image : image_ready e' = 0 ∨
             m = GXFP_MODE_CAPTURING ∧ s_mode s' = GXFP_MODE_IDLE ∧ session_error e' = 0 ∧ pending_img_ready s' = 1;
  rp_error : session_error e' = 0 ∧ alive s' ∧ s_mode s' ∈ fd_next m ∨
             session_error e' = 1 ∧ s_mode s' = GXFP_MODE_FAILED ∧
             (error_target e' = GXFP_SESSION_ERR_TARGET_ACTIVATE → activating m = true);
  rp_cancel : cancel_tick e' = 0 ∨ session_error e' = 1;
  rp_tick : session_error e' = 0 → waits (s_mode s') = true → request_tick e' = 1;
  rp_up : activating m = true → s_mode s' = GXFP_MODE_IDLE → activate_complete e' = 1;
  rp_taken : m = GXFP_MODE_CAPTURING → s_mode s' = GXFP_MODE_IDLE → image_ready e' = 1
}.

Lemma pump_in_fd m m' : m' ∈ pump_next m → m' ∈ fd_next m.
Proof using Type.
  destruct m; try done. cbn [pump_next fd_next]. intros Hm. apply list_elem_of_singleton in Hm as ->. apply list_elem_of_here.
Qed.

Lemma moves_of next s' e' : moves next s' e' → session_error e' = 0 → s_mode s' ∈ next.
Proof using Type. intros [(_ & Hm)|(_ & He & _)]; [done|]. by rewrite He. Qed.

(** The two views of the end of a call. *)
Lemma lives_both (P Q : gxfp_session_impl → gxfp_session_events → Prop) (R : gxfp_session_impl → gxfp_session_events → Prop) l w :
  lives P l w → (∃ l' c' s' e', w = W l' c' s' e' ∧ Q s' e') → (∀ s' e', P s' e' → Q s' e' → R s' e') → lives R l w.
Proof using Type.
  intros (l1 & c1 & s1 & e1 & -> & Hx & Hc & Hs & HP) (l2 & c2 & s2 & e2 & Heq & HQ) HR.
  unfold W in Heq. injection Heq as <- <- <- <-. apply lives_here; auto.
Qed.

(** A loop over the records and a pump, or a pump alone, from no events. *)
Lemma pumped_reports m m1 s1 e1 s' e' :
  fed m m1 → fed_ev m events_zero s1 e1 → session_error e1 = 0 → pumped m1 e1 s' e' →
  (session_error e' = 0 → s_mode s' ∈ fd_next m) → reports m s' e'.
Proof using Type.
  intros Hm [] He1 [] Hnext. destruct (fed_activating _ _ Hm) as (Hact & Hcap).
  destruct fe_done0 as (Hd1 & Hd2), fe_rest0 as (Hr1 & Hr2 & Hr3). cbn in *. rewrite He1 in *.
  split.
  - destruct pu_done0. split; congruence.
  - destruct pu_finger0 as (-> & ->). by destruct fe_finger0 as [(-> & _)|Hf]; [left|right].
  - destruct pu_active0 as [->|(Ha & ?)]; [by left|right]. by rewrite <- Hact.
  - destruct pu_image0 as [->|(Hc & ?)]; [by left|right]. split; [by apply Hcap|done].
  - destruct pu_error0 as [Hz|(? & ? & Ht)]; [left|right]; [by auto|]. split; [done|]. split; [done|]. by rewrite <- Hact.
  - by destruct pu_cancel0 as [->|?]; [left|right].
  - done.
  - by rewrite <- Hact.
  - intros ->. apply pu_taken0. by destruct Hm as [->|(? & _)].
Qed.

Lemma no_records m s : s_mode s = m → alive s → fed_ev m events_zero s events_zero.
Proof using Type. intros Hm Ha. split; cbn; auto. left. split; [done|]. split; [by left|done]. Qed.

Lemma pump_reports fuel cancel l c s :
  live s l → static_ok c → (500 * B < fuel)%nat → (pull_fuel <= fuel)%nat → inert (s_mode s) = false → alive s →
  wp (gxfp_session_pump fuel cancel) (λ _, lives (reports (s_mode s)) l) (W l c s events_zero).
Proof using EO TO WO CO.
  intros Hs Hc Hf Hp Hin Ha. eapply wp_mono.
  { apply wlp_wp; [by apply pump_wp|by apply pump_ev]. }
  intros ? w' (Hl & Hq). eapply lives_both; [exact Hl|exact Hq|]. intros s' e' Hmv Hpu.
  apply (pumped_reports _ (s_mode s) s events_zero); [by left|by apply no_records|done|done|].
  intros Hz. by eapply pump_in_fd, moves_of.
Qed.

Lemma failed_reports m s' e1 :
  fed_ev m events_zero s' e1 → s_mode s' = GXFP_MODE_FAILED → session_error e1 = 1 → reports m s' e1.
Proof using Type.
  intros [] Hm He. destruct fe_done0 as (Hd1 & Hd2), fe_rest0 as (Hr1 & Hr2 & Hr3). cbn in *.
  split; auto; rewrite ?He; try done.
  - by destruct fe_finger0 as [(-> & _)|Hf]; [left|right].
  - right. destruct fe_error0 as [(H0 & _)|(_ & _ & Ht)]; [congruence|]. auto.
  - congruence.
  - congruence.
Qed.

Lemma on_fd_reports fuel cancel l c s :
  live s l → static_ok c → (500 * B < fuel)%nat → (pull_fuel <= fuel)%nat → (N < fuel)%nat →
  inert (s_mode s) = false → alive s →
  wp (gxfp_session_on_fd fuel 1 cancel) (λ _, lives (reports (s_mode s)) l) (W l c s events_zero).
Proof using EO TO WO CO FO.
  intros Hs Hc Hf Hp HN Hin Ha.
  assert (Hmv : wp (gxfp_session_on_fd fuel 1 cancel) (λ _, lives (moves (fd_next (s_mode s))) l) (W l c s events_zero))
    by by apply on_fd_wp.
  assert (Hev : wlp (gxfp_session_on_fd fuel 1 cancel)
    (λ _ w', ∃ l' c' s' e', w' = W l' c' s' e' ∧
       ((session_error e' = 0 → s_mode s' ∈ fd_next (s_mode s)) → reports (s_mode s) s' e')) (W l c s events_zero)).
  { unfold gxfp_session_on_fd. do 3 wlp_next. rewrite Hin. change (negb _) with false. cbv iota. apply wlp_bind.
    assert (Hloop : wp (on_fd_loop fuel fuel) (λ _ w', lives (λ s' e', session_error e' = 0 ∧ fed (s_mode s) (s_mode s') ∨ failed s' e') l w' ∧
      ∃ l' s' e', w' = W l' c s' e' ∧ fed_ev (s_mode s) events_zero s' e') (W l c s events_zero)).
    { apply wlp_wp; [apply on_fd_loop_wp; try done; lia|by apply on_fd_loop_ev]. }
    eapply wp_then; [exact Hloop|]. intros _ w' ((l1 & c1 & s1 & e1 & -> & Hx & Hc1 & Hs1 & Hr) & (l2 & s2 & e2 & Heq & Hfe)).
    unfold W in Heq. injection Heq as <- <- <- <-. destruct Hr as [(He1 & Hm1)|(Hm1 & He1 & _)]; cycle 1.
    { eapply wlp_eq; [apply inert_pump_run; by rewrite Hm1|]. do 4 eexists. split; [done|]. intros _. by apply failed_reports. }
    assert (Ha1 : alive s1). { destruct (fe_error _ _ _ _ Hfe) as [(_ & _ & ?)|(_ & ? & _)]; [done|congruence]. }
    assert (Hin1 : inert (s_mode s1) = false) by (destruct Hm1 as [->|(_ & ->)]; done).
    eapply wlp_mono; [by apply pump_ev|]. intros _ w' (l3 & c3 & s3 & e3 & -> & Hpu). do 4 eexists. split; [done|].
    by eapply pumped_reports. }
  eapply wp_mono; [exact (wlp_wp _ _ _ _ Hmv Hev)|]. intros ? w' (Hl & Hq). eapply lives_both; [exact Hl|exact Hq|].
  intros s' e' Hm Hr. apply Hr. intros Hz. by eapply moves_of.
Qed.

(** A change to a state that asks nothing of the device is done at once, without an event. *)
Lemma change_quiet_run fuel st l c s :
  live s l → s_mode s ≠ GXFP_MODE_FAILED → st = GXFP_SESSION_STATE_IDLE ∨ st = GXFP_SESSION_STATE_INACTIVE →
  ∃ s', gxfp_session_change_state fuel st (W l c s events_zero) = Some ((), W l c s' events_zero) ∧ live s' l ∧
    svc s' = svc s ∧ s_mode s' = match st with GXFP_SESSION_STATE_IDLE => GXFP_MODE_IDLE | _ => GXFP_MODE_READY end.
Proof using Type.
  intros Hs Hm Hst. pose proof (l_mode s l Hs) as Hcl. unfold gxfp_session_change_state.
  rewrite (run_bind _ _ _ false (W l c s events_zero)), (run_bind _ _ _ false (W l c s events_zero)) by done. cbn [orb].
  rewrite (run_bind _ _ _ _ _ (has_io_run l c s events_zero)), (run_bind _ _ _ s (W l c s events_zero)) by done.
  rewrite !bool_decide_eq_false_2 by done. cbn [negb orb].
  assert (Hgo : ∀ m, m ≠ GXFP_MODE_CLOSED → ¬ captures m →
    ∃ s', session_set_fdt_mode fuel GXFP_FDT_MODE_IDLE (W l c (set_mode m s) events_zero) = Some ((), W l c s' events_zero) ∧
      live s' l ∧ svc s' = svc s ∧ s_mode s' = m).
  { intros m Hmc Hcap. assert (Hs1 : awake (set_mode m s) l) by (apply awake_mode; [done|by apply l_awake]).
    destruct (set_fdt_idle_run fuel l c _ events_zero Hs1) as (f & Ef & Hs2). exists (set_fdt f (set_mode m s)).
    split; [exact Ef|]. split; [|done]. by split. }
  destruct Hst as [->| ->]; cbv zeta.
  - rewrite (run_bind _ _ _ () (W l c (set_mode GXFP_MODE_IDLE s) events_zero)) by done. apply Hgo; [done|by intros [?|?]].
  - rewrite (run_bind _ _ _ () (W l c (set_mode GXFP_MODE_READY s) events_zero)).
    + apply Hgo; [done|by intros [?|?]].
    + unfold gxfp_session_stop_run. rewrite (run_bind _ _ _ false (W l c s events_zero)) by done.
      rewrite (run_bind _ _ _ s (W l c s events_zero)) by done. by rewrite bool_decide_eq_false_2.
Qed.

(** The mode of a state in which something is waited for. *)
Definition wait_mode (st : gxfp_session_state) : option gxfp_session_mode :=
  match st with
  | GXFP_SESSION_STATE_AWAIT_FINGER_ON => Some GXFP_MODE_WAIT_FINGER_ON
  | GXFP_SESSION_STATE_CAPTURE => Some GXFP_MODE_CAPTURING
  | GXFP_SESSION_STATE_AWAIT_FINGER_OFF => Some GXFP_MODE_WAIT_FINGER_OFF
  | _ => None
  end.

(** An error that is not one of an activation. *)
Definition broke (s' : gxfp_session_impl) (e' : gxfp_session_events) : Prop :=
  s_mode s' = GXFP_MODE_FAILED ∧ ∃ r t, t ≠ GXFP_SESSION_ERR_TARGET_ACTIVATE ∧ e' = ev_error r t events_zero.

(** A change to such a state ends there with a tick, or fails. *)
Lemma change_wait_reports fuel st m l c s :
  live s l → static_ok c → (500 * B < fuel)%nat → s_mode s ≠ GXFP_MODE_FAILED → alive s → wait_mode st = Some m →
  wp (gxfp_session_change_state fuel st)
     (λ _, lives (λ s' e', s_mode s' = m ∧ alive s' ∧ e' = ev_tick 0 events_zero ∨ broke s' e') l) (W l c s events_zero).
Proof using EO CO.
  intros Hs Hc Hf Hm Ha Hst. pose proof (l_mode s l Hs) as Hcl.
  assert (Hev : wlp (gxfp_session_change_state fuel st)
    (λ _ w', ∃ l' c' s' e', w' = W l' c' s' e' ∧ (s_mode s' = m ∧ alive s' ∧ e' = ev_tick 0 events_zero ∨ broke s' e'))
    (W l c s events_zero)).
  { unfold gxfp_session_change_state. do 2 wlp_next. apply wlp_bind. eapply wlp_eq; [apply has_io_run|].
    wlp_next. rewrite !bool_decide_eq_false_2 by done. cbn [negb orb]. cbv zeta.
    assert (Hfdt : ∀ m1 fm, wlp (mod_sess (set_mode m1);; session_set_fdt_mode fuel fm;;
        e ← ev; if session_error e =? 0 then mod_ev (ev_tick 0) else mret ())
      (λ _ w', ∃ l' c' s' e', w' = W l' c' s' e' ∧ (s_mode s' = m1 ∧ alive s' ∧ e' = ev_tick 0 events_zero ∨ broke s' e'))
      (W l c s events_zero)).
    { intros m1 fm. wlp_next. apply wlp_bind. eapply wlp_mono; [apply set_fdt_ev|].
      intros _ w' (l1 & f & [->|(r & ->)]); wlp_next.
      - wlp_run. do 4 eexists. split; [done|]. by left.
      - apply wlp_ret. do 4 eexists. split; [done|]. right. split; [done|]. by exists r, GXFP_SESSION_ERR_TARGET_GENERIC. }
    assert (Herr : ∀ r s1, wlp (session_set_error fuel r GXFP_SESSION_ERR_TARGET_CAPTURE)
      (λ _ w', ∃ l' c' s' e', w' = W l' c' s' e' ∧ (s_mode s' = m ∧ alive s' ∧ e' = ev_tick 0 events_zero ∨ broke s' e'))
      (W l c s1 events_zero)).
    { intros r s1. eapply wlp_mono; [apply set_error_ev|]. intros _ w' (l1 & ->). do 4 eexists. split; [done|]. right.
      split; [done|]. by exists r, GXFP_SESSION_ERR_TARGET_CAPTURE. }
    destruct st; try done; injection Hst as <-; try apply Hfdt.
    destruct (_ && _); [apply Herr|]. apply wlp_bind, wlp_lift. intros [r v] Hr. apply wlp_bind, wlp_lift. intros v' ->.
    wlp_next. destruct (Z.ltb_spec r 0); [apply Herr|]. wlp_next. wlp_run. do 4 eexists. split; [done|]. left.
    split; [done|]. split; [|done]. unfold alive. cbn [svc set_mode set_svc]. by rewrite (request_alive _ _ _ Hr). }
  eapply wp_mono; [apply wlp_wp; [by apply change_state_wp|exact Hev]|].
  intros ? w' (Hl & Hq). by eapply lives_both; [exact Hl|exact Hq|].
Qed.

Lemma rearm_ev fuel l c s e :
  wlp (session_rearm_tls_if_needed fuel)
      (λ _ w', ∃ l' c' s' e', w' = W l' c' s' e' ∧ (e' = e ∨ ∃ r, e' = ev_error r GXFP_SESSION_ERR_TARGET_ACTIVATE e)) (W l c s e).
Proof using Type.
  assert (Hsame : ∃ l' c' s' e', W l c s e = W l' c' s' e' ∧ (e' = e ∨ ∃ r, e' = ev_error r GXFP_SESSION_ERR_TARGET_ACTIVATE e)).
  { do 4 eexists. split; [done|]. by left. }
  unfold session_rearm_tls_if_needed. wlp_next. destruct (gxfp_tls_service_state _); try by apply wlp_ret.
  apply wlp_bind. unfold free_svc. wlp_next. apply wlp_bind, wlp_lift. intros v _. apply wlp_bind, wlp_lift. intros v' _. wlp_run.
  apply wlp_bind, wlp_io_any. intros _ l1. apply wlp_bind. unfold session_tls_init. wlp_next. apply wlp_bind, wlp_io_any.
  intros [r p] l2. apply wlp_bind, wlp_lift. intros v2 _. wlp_next. apply wlp_ret. destruct (r <? 0).
  - eapply wlp_mono; [apply set_error_ev|]. intros _ w' (l3 & ->). do 4 eexists. split; [done|]. right. by exists r.
  - apply wlp_ret. do 4 eexists. split; [done|]. by left.
Qed.

Lemma activate_reports fuel l c s :
  live s l → static_ok c → (500 * B < fuel)%nat →
  wp (gxfp_session_activate fuel)
     (λ r, lives (λ s' e', r = 0 ∧ s_mode s' = GXFP_MODE_ACTIVATING_TLS ∧ alive s' ∧ e' = ev_tick 0 events_zero ∨
                           r < 0 ∧ s_mode s' = GXFP_MODE_FAILED ∧ ∃ r', e' = ev_error r' GXFP_SESSION_ERR_TARGET_ACTIVATE events_zero) l)
     (W l c s events_zero).
Proof using EO CO.
  intros Hs Hc Hf. pose proof (l_mode s l Hs) as Hcl.
  assert (Hev : wlp (gxfp_session_activate fuel)
    (λ r w', ∃ l' c' s' e', w' = W l' c' s' e' ∧ (alive s' ∧ e' = ev_tick 0 events_zero ∨
        ∃ r', e' = ev_error r' GXFP_SESSION_ERR_TARGET_ACTIVATE events_zero)) (W l c s events_zero)).
  { unfold gxfp_session_activate. do 2 wlp_next. apply wlp_bind. eapply wlp_eq; [apply has_io_run|].
    rewrite bool_decide_eq_false_2 by done. cbn [negb orb]. wlp_next. apply wlp_bind.
    assert (Hgo : ∀ s1, live s1 l → wlp (session_rearm_tls_if_needed fuel;;
      e ← ev;
      if negb (session_error e =? 0) then mret (if negb (error_code e =? 0) then error_code e else - EIO)
      else init_fdt;; session_apply_fdt_runtime_from_otp;;
           mod_sess (set_mode GXFP_MODE_ACTIVATING_TLS);; mod_ev (ev_tick 0);; mret 0)
      (λ r w', ∃ l' c' s' e', w' = W l' c' s' e' ∧ (alive s' ∧ e' = ev_tick 0 events_zero ∨
        ∃ r', e' = ev_error r' GXFP_SESSION_ERR_TARGET_ACTIVATE events_zero)) (W l c s1 events_zero)).
    { intros s1 Hs1. apply wlp_bind. eapply wp_then; [apply wlp_wp; [by apply rearm_wp|apply rearm_ev]|].
      intros _ w' ((l1 & c1 & s2 & e2 & -> & _ & _ & Hs2 & Hr) & (l3 & c3 & s3 & e3 & Heq & He)).
      unfold W in Heq. injection Heq as <- <- <- <-. wlp_next. destruct He as [->|(r & ->)].
      - cbn [session_error events_zero negb Z.eqb]. destruct Hr as [(_ & _ & Hal)|((_ & ? & _) & _)]; [|done].
        apply wlp_bind. destruct (init_fdt_run l1 c1 s2 events_zero) as (f & Ef & Hfl). eapply wlp_eq; [exact Ef|].
        apply wlp_bind. destruct (runtime_run l1 c1 (set_fdt f s2) events_zero [] Hfl) as (f2 & Ef2 & _).
        eapply wlp_eq; [exact Ef2|]. do 2 wlp_next. apply wlp_ret. do 4 eexists. split; [done|]. left. by split.
      - cbn [session_error ev_error negb Z.eqb]. apply wlp_ret. do 4 eexists. split; [done|]. right. by exists r. }
    destruct (bool_decide_reflect (s_mode s = GXFP_MODE_FAILED)) as [Hm|Hm].
    - wlp_run. apply Hgo. apply live_mode; [done|by intros [?|?]|by apply l_awake].
    - by apply wlp_ret, Hgo. }
  eapply wp_mono; [apply wlp_wp; [by apply activate_wp|exact Hev]|].
  intros r w' (Hl & Hq). eapply lives_both; [exact Hl|exact Hq|]. intros s' e' Hr He.
  destruct Hr as [(-> & Hm & H0)|(Hr & (Hm & H1 & _) & _)].
  - left. destruct He as [(Ha & ->)|(r' & ->)]; [by split|done].
  - right. split; [done|]. split; [done|]. destruct He as [(_ & ->)|He]; [done|exact He].
Qed.
End session_events.
