(* ===== verification/LImage.v ===== *)
(** The image device of libfprint, as far as the driver of the sensor runs through it:
    [fpi-image-device.c] and [fp-image-device.c] in full, and what they use of
    [fpi-device.c] and [fp-device.c]: one action at a time, its completion in an idle
    callback, its cancellation by the program, by a suspension or by the temperature model,
    the finger status, suspending and unplugging. The driver is a table of functions
    ([FpImageDeviceClass]), which a change of state calls back at once. Log messages, texts
    of errors and the [notify] signals of properties are left out. *)
From Stdlib Require Import ZArith Lia.
From stdpp Require Import prelude list.
From S2P Require Import Prelude.

Open Scope Z_scope.

(** * Data *)

(** [FpiDeviceAction], without the actions an image device has no function for. *)
Inductive FpiDeviceAction :=
| FPI_DEVICE_ACTION_NONE
| FPI_DEVICE_ACTION_OPEN
| FPI_DEVICE_ACTION_CLOSE
| FPI_DEVICE_ACTION_ENROLL
| FPI_DEVICE_ACTION_VERIFY
| FPI_DEVICE_ACTION_IDENTIFY
| FPI_DEVICE_ACTION_CAPTURE.

Inductive FpiImageDeviceState :=
| FPI_IMAGE_DEVICE_STATE_INACTIVE
| FPI_IMAGE_DEVICE_STATE_ACTIVATING
| FPI_IMAGE_DEVICE_STATE_DEACTIVATING
| FPI_IMAGE_DEVICE_STATE_IDLE
| FPI_IMAGE_DEVICE_STATE_AWAIT_FINGER_ON
| FPI_IMAGE_DEVICE_STATE_CAPTURE
| FPI_IMAGE_DEVICE_STATE_AWAIT_FINGER_OFF.

Inductive FpiMatchResult := FPI_MATCH_ERROR | FPI_MATCH_FAIL | FPI_MATCH_SUCCESS.
Inductive FpiPrintType := FPI_PRINT_UNDEFINED | FPI_PRINT_RAW | FPI_PRINT_NBIS | FPI_PRINT_SIGFM.

#[export] Instance action_eq_dec : EqDecision FpiDeviceAction.
Proof. solve_decision. Defined.
#[export] Instance state_eq_dec : EqDecision FpiImageDeviceState.
Proof. solve_decision. Defined.
#[export] Instance match_eq_dec : EqDecision FpiMatchResult.
Proof. solve_decision. Defined.
#[export] Instance print_type_eq_dec : EqDecision FpiPrintType.
Proof. solve_decision. Defined.

(** [GError]: its domain and code. [G_IO_ERROR_CANCELLED] is apart. *)
Inductive gerror :=
| ErrCancelled
| ErrIo (code : Z)
| ErrDevice (code : Z)
| ErrRetry (code : Z).

#[export] Instance gerror_eq_dec : EqDecision gerror.
Proof. solve_decision. Defined.

Definition FP_DEVICE_ERROR_GENERAL : Z := 0.
Definition FP_DEVICE_ERROR_NOT_SUPPORTED : Z := 1.
Definition FP_DEVICE_ERROR_NOT_OPEN : Z := 2.
Definition FP_DEVICE_ERROR_ALREADY_OPEN : Z := 3.
Definition FP_DEVICE_ERROR_BUSY : Z := 4.
Definition FP_DEVICE_ERROR_DATA_INVALID : Z := 6.
Definition FP_DEVICE_ERROR_REMOVED : Z := 0x100.
Definition FP_DEVICE_ERROR_TOO_HOT : Z := 0x101.
Definition FP_DEVICE_RETRY_GENERAL : Z := 0.

Definition FP_FINGER_STATUS_NONE : Z := 0.
Definition FP_FINGER_STATUS_NEEDED : Z := 1.
Definition FP_FINGER_STATUS_PRESENT : Z := 2.

(** [error->domain == FP_DEVICE_RETRY] *)
Definition is_retry (e : gerror) : bool :=
  match e with ErrRetry _ => true | _ => false end.

(** The actions that capture. *)
Definition is_capture (a : FpiDeviceAction) : bool :=
  match a with
  | FPI_DEVICE_ACTION_ENROLL | FPI_DEVICE_ACTION_VERIFY | FPI_DEVICE_ACTION_IDENTIFY | FPI_DEVICE_ACTION_CAPTURE => true
  | _ => false
  end.

Record fp_image := { width : Z; height : Z; image_data : bytes }.

(** What an action hands to [fpi_device_return_task_in_idle]. *)
Inductive task_return :=
| ReturnInt (r : FpiMatchResult)
| ReturnBool
| ReturnPrint
| ReturnImage (i : fp_image)
| ReturnError (e : gerror).

Inductive FpTemperature := FP_TEMPERATURE_COLD | FP_TEMPERATURE_WARM | FP_TEMPERATURE_HOT.

#[export] Instance temperature_eq_dec : EqDecision FpTemperature.
Proof. solve_decision. Defined.

(** Where the ratio of the temperature model is, between [TEMP_COLD_THRESH],
    [TEMP_HOT_WARM_THRESH] and [TEMP_WARM_HOT_THRESH]. *)
Inductive temp_band := BelowCold | BelowHotWarm | BelowWarmHot | AboveWarmHot.

(** The temperature model. The ratio is an exponential of the time that passed: what the
    updates to come find is a list of bands. *)
Record temp_model := {
  temp_current : FpTemperature;
  temp_last_active : bool;
  temp_timeout : bool;
  temp_bands : list temp_band
}.

(** What is connected to the completion of the current task. *)
Inductive completed_handler := EmitRemoved | CompleteSuspendResume | SuspendCompleted.

#[export] Instance handler_eq_dec : EqDecision completed_handler.
Proof. solve_decision. Defined.

(** Unplugging, suspending and resuming. *)
Record power_state := {
  is_removed : bool;
  is_suspended : bool;
  suspend_resume_task : bool; (* != NULL *)
  suspend_error : option gerror;
  on_completed : list completed_handler
}.

(** The fields of [FpDevicePrivate] (fp-device-private.h) in play, and those of the
    [FpMatchData] of the current task, whose match is there or not. The driver has no
    critical section and does not handle suspending. *)
Record fp_device := {
  d_power : power_state;
  d_temp : temp_model;
  d_reason : option gerror;   (* current_cancellation_reason *)
  d_open : bool;              (* is_open *)
  d_action : FpiDeviceAction; (* current_action, and current_task with it *)
  d_cancelled : bool;         (* g_cancellable_is_cancelled (current_cancellable) *)
  d_connected : bool;         (* current_cancellable_id and current_task_cancellable_id *)
  d_idle_cancel : bool;       (* current_idle_cancel_source *)
  d_returns : list task_return; (* the idle sources of the completions *)
  d_finger_status : Z;
  d_enroll_stages : Z;        (* nr_enroll_stages *)
  d_wait_for_finger : bool;
  d_templates : nat;          (* gallery->len *)
  d_reported : bool;          (* result_reported *)
  d_match : bool;             (* match != NULL *)
  d_match_error : option gerror (* error *)
}.

(** [FpImageDevicePrivate] *)
Record FpImageDevicePrivate := {
  p_state : FpiImageDeviceState;
  p_active : bool;
  p_finger_present : bool;
  p_enroll_stage : Z;
  p_scan_active : bool; (* minutiae_scan_active *)
  p_action_error : option gerror;
  p_capture_image : option fp_image;
  p_algorithm : FpiPrintType;
  p_bz3_threshold : Z
}.

(** What the user of the device sees, the failures of [g_return_if_fail], and the changes of
    state that "should not happen". *)
Inductive dev_out :=
| OutCritical
| OutInvalid (from to : FpiImageDeviceState)
| OutProgress (stages : Z) (e : option gerror)
| OutMatch (found : bool) (e : option gerror)
| OutReturned (a : FpiDeviceAction) (r : task_return)
| OutPower (e : option gerror) (* a suspend or a resume returned *)
| OutRemoved
| OutRefused (e : gerror).

(** The result of a scan: what extracting, making the print and matching say. *)
Record scan_result := {
  sc_error : option gerror;        (* fp_image_detect_minutiae_finish *)
  sc_print : option gerror;        (* fpi_print_add_from_image *)
  sc_match : nat → FpiMatchResult * option gerror (* fpi_print_sigfm_match, fpi_print_bz3_match *)
}.

Section data.
Context {D : Type}.

(** The world: the device, the image device, the images being scanned in threads, what
    was seen, and the data of the driver. *)
Record iworld := {
  i_dev : fp_device;
  i_priv : FpImageDevicePrivate;
  i_scans : list fp_image;
  i_out : list dev_out;
  i_drv : D
}.

(** The functions of a driver. *)
Record FpImageDeviceClass := {
  img_open : M iworld ();
  img_close : M iworld ();
  cls_activate : M iworld ();
  cls_change_state : FpiImageDeviceState → M iworld ();
  cls_deactivate : M iworld ()
}.
End data.
Arguments iworld : clear implicits.
Arguments FpImageDeviceClass : clear implicits.

(** ** Assignments *)

Definition set_action a d : fp_device :=
  {| d_power := d_power d; d_temp := d_temp d; d_reason := d_reason d; d_open := d_open d; d_action := a; d_cancelled := d_cancelled d; d_connected := d_connected d;
     d_idle_cancel := d_idle_cancel d; d_returns := d_returns d; d_finger_status := d_finger_status d;
     d_enroll_stages := d_enroll_stages d; d_wait_for_finger := d_wait_for_finger d;
     d_templates := d_templates d; d_reported := d_reported d; d_match := d_match d; d_match_error := d_match_error d |}.
Definition set_open o d : fp_device :=
  {| d_power := d_power d; d_temp := d_temp d; d_reason := d_reason d; d_open := o; d_action := d_action d; d_cancelled := d_cancelled d; d_connected := d_connected d;
     d_idle_cancel := d_idle_cancel d; d_returns := d_returns d; d_finger_status := d_finger_status d;
     d_enroll_stages := d_enroll_stages d; d_wait_for_finger := d_wait_for_finger d;
     d_templates := d_templates d; d_reported := d_reported d; d_match := d_match d; d_match_error := d_match_error d |}.
Definition set_cancel c k i d : fp_device :=
  {| d_power := d_power d; d_temp := d_temp d; d_reason := d_reason d; d_open := d_open d; d_action := d_action d; d_cancelled := c; d_connected := k;
     d_idle_cancel := i; d_returns := d_returns d; d_finger_status := d_finger_status d;
     d_enroll_stages := d_enroll_stages d; d_wait_for_finger := d_wait_for_finger d;
     d_templates := d_templates d; d_reported := d_reported d; d_match := d_match d; d_match_error := d_match_error d |}.
Definition set_returns r d : fp_device :=
  {| d_power := d_power d; d_temp := d_temp d; d_reason := d_reason d; d_open := d_open d; d_action := d_action d; d_cancelled := d_cancelled d; d_connected := d_connected d;
     d_idle_cancel := d_idle_cancel d; d_returns := r; d_finger_status := d_finger_status d;
     d_enroll_stages := d_enroll_stages d; d_wait_for_finger := d_wait_for_finger d;
     d_templates := d_templates d; d_reported := d_reported d; d_match := d_match d; d_match_error := d_match_error d |}.
Definition set_finger_status s d : fp_device :=
  {| d_power := d_power d; d_temp := d_temp d; d_reason := d_reason d; d_open := d_open d; d_action := d_action d; d_cancelled := d_cancelled d; d_connected := d_connected d;
     d_idle_cancel := d_idle_cancel d; d_returns := d_returns d; d_finger_status := s;
     d_enroll_stages := d_enroll_stages d; d_wait_for_finger := d_wait_for_finger d;
     d_templates := d_templates d; d_reported := d_reported d; d_match := d_match d; d_match_error := d_match_error d |}.
(** What a capture and an identification are started with. *)
Definition set_request w n d : fp_device :=
  {| d_power := d_power d; d_temp := d_temp d; d_reason := d_reason d; d_open := d_open d; d_action := d_action d; d_cancelled := d_cancelled d; d_connected := d_connected d;
     d_idle_cancel := d_idle_cancel d; d_returns := d_returns d; d_finger_status := d_finger_status d;
     d_enroll_stages := d_enroll_stages d; d_wait_for_finger := w;
     d_templates := n; d_reported := d_reported d; d_match := d_match d; d_match_error := d_match_error d |}.
Definition set_match r m e d : fp_device :=
  {| d_power := d_power d; d_temp := d_temp d; d_reason := d_reason d; d_open := d_open d; d_action := d_action d; d_cancelled := d_cancelled d; d_connected := d_connected d;
     d_idle_cancel := d_idle_cancel d; d_returns := d_returns d; d_finger_status := d_finger_status d;
     d_enroll_stages := d_enroll_stages d; d_wait_for_finger := d_wait_for_finger d;
     d_templates := d_templates d; d_reported := r; d_match := m; d_match_error := e |}.

Definition set_temp m d : fp_device :=
  {| d_power := d_power d; d_temp := m; d_reason := d_reason d; d_open := d_open d;
     d_action := d_action d; d_cancelled := d_cancelled d; d_connected := d_connected d;
     d_idle_cancel := d_idle_cancel d; d_returns := d_returns d; d_finger_status := d_finger_status d;
     d_enroll_stages := d_enroll_stages d; d_wait_for_finger := d_wait_for_finger d;
     d_templates := d_templates d; d_reported := d_reported d; d_match := d_match d; d_match_error := d_match_error d |}.
Definition set_reason e d : fp_device :=
  {| d_power := d_power d; d_temp := d_temp d; d_reason := e; d_open := d_open d;
     d_action := d_action d; d_cancelled := d_cancelled d; d_connected := d_connected d;
     d_idle_cancel := d_idle_cancel d; d_returns := d_returns d; d_finger_status := d_finger_status d;
     d_enroll_stages := d_enroll_stages d; d_wait_for_finger := d_wait_for_finger d;
     d_templates := d_templates d; d_reported := d_reported d; d_match := d_match d; d_match_error := d_match_error d |}.

Definition set_power m d : fp_device :=
  {| d_power := m; d_temp := d_temp d; d_reason := d_reason d; d_open := d_open d;
     d_action := d_action d; d_cancelled := d_cancelled d; d_connected := d_connected d;
     d_idle_cancel := d_idle_cancel d; d_returns := d_returns d; d_finger_status := d_finger_status d;
     d_enroll_stages := d_enroll_stages d; d_wait_for_finger := d_wait_for_finger d;
     d_templates := d_templates d; d_reported := d_reported d; d_match := d_match d; d_match_error := d_match_error d |}.

Definition set_removed m : power_state :=
  {| is_removed := true; is_suspended := is_suspended m; suspend_resume_task := suspend_resume_task m;
     suspend_error := suspend_error m; on_completed := on_completed m |}.
Definition set_suspended b m : power_state :=
  {| is_removed := is_removed m; is_suspended := b; suspend_resume_task := suspend_resume_task m;
     suspend_error := suspend_error m; on_completed := on_completed m |}.
Definition set_power_task b m : power_state :=
  {| is_removed := is_removed m; is_suspended := is_suspended m; suspend_resume_task := b;
     suspend_error := suspend_error m; on_completed := on_completed m |}.
Definition set_suspend_error e m : power_state :=
  {| is_removed := is_removed m; is_suspended := is_suspended m; suspend_resume_task := suspend_resume_task m;
     suspend_error := e; on_completed := on_completed m |}.
Definition set_on_completed l m : power_state :=
  {| is_removed := is_removed m; is_suspended := is_suspended m; suspend_resume_task := suspend_resume_task m;
     suspend_error := suspend_error m; on_completed := l |}.

Definition set_state s p : FpImageDevicePrivate :=
  {| p_state := s; p_active := p_active p; p_finger_present := p_finger_present p; p_enroll_stage := p_enroll_stage p;
     p_scan_active := p_scan_active p; p_action_error := p_action_error p; p_capture_image := p_capture_image p;
     p_algorithm := p_algorithm p; p_bz3_threshold := p_bz3_threshold p |}.
Definition set_active a f p : FpImageDevicePrivate :=
  {| p_state := p_state p; p_active := a; p_finger_present := f; p_enroll_stage := p_enroll_stage p;
     p_scan_active := p_scan_active p; p_action_error := p_action_error p; p_capture_image := p_capture_image p;
     p_algorithm := p_algorithm p; p_bz3_threshold := p_bz3_threshold p |}.
Definition set_stage n p : FpImageDevicePrivate :=
  {| p_state := p_state p; p_active := p_active p; p_finger_present := p_finger_present p; p_enroll_stage := n;
     p_scan_active := p_scan_active p; p_action_error := p_action_error p; p_capture_image := p_capture_image p;
     p_algorithm := p_algorithm p; p_bz3_threshold := p_bz3_threshold p |}.
Definition set_scan b p : FpImageDevicePrivate :=
  {| p_state := p_state p; p_active := p_active p; p_finger_present := p_finger_present p; p_enroll_stage := p_enroll_stage p;
     p_scan_active := b; p_action_error := p_action_error p; p_capture_image := p_capture_image p;
     p_algorithm := p_algorithm p; p_bz3_threshold := p_bz3_threshold p |}.
Definition set_action_error e p : FpImageDevicePrivate :=
  {| p_state := p_state p; p_active := p_active p; p_finger_present := p_finger_present p; p_enroll_stage := p_enroll_stage p;
     p_scan_active := p_scan_active p; p_action_error := e; p_capture_image := p_capture_image p;
     p_algorithm := p_algorithm p; p_bz3_threshold := p_bz3_threshold p |}.
Definition set_capture_image i p : FpImageDevicePrivate :=
  {| p_state := p_state p; p_active := p_active p; p_finger_present := p_finger_present p; p_enroll_stage := p_enroll_stage p;
     p_scan_active := p_scan_active p; p_action_error := p_action_error p; p_capture_image := i;
     p_algorithm := p_algorithm p; p_bz3_threshold := p_bz3_threshold p |}.

Definition set_matching a n p : FpImageDevicePrivate :=
  {| p_state := p_state p; p_active := p_active p; p_finger_present := p_finger_present p; p_enroll_stage := p_enroll_stage p;
     p_scan_active := p_scan_active p; p_action_error := p_action_error p; p_capture_image := p_capture_image p;
     p_algorithm := a; p_bz3_threshold := n |}.

Section device.
Context {D : Type}.
Abbreviation IM := (M (iworld D)).

Definition out (o : dev_out) : IM () := modw (λ w,
  {| i_dev := i_dev w; i_priv := i_priv w; i_scans := i_scans w; i_out := i_out w ++ [o]; i_drv := i_drv w |}).
Definition dev : IM fp_device := gets i_dev.
Definition mod_dev (f : fp_device → fp_device) : IM () := modw (λ w,
  {| i_dev := f (i_dev w); i_priv := i_priv w; i_scans := i_scans w; i_out := i_out w; i_drv := i_drv w |}).
Definition priv : IM FpImageDevicePrivate := gets i_priv.
Definition mod_priv (f : FpImageDevicePrivate → FpImageDevicePrivate) : IM () := modw (λ w,
  {| i_dev := i_dev w; i_priv := f (i_priv w); i_scans := i_scans w; i_out := i_out w; i_drv := i_drv w |}).
Definition put_scans (l : list fp_image) : IM () := modw (λ w,
  {| i_dev := i_dev w; i_priv := i_priv w; i_scans := l; i_out := i_out w; i_drv := i_drv w |}).

(** [g_return_if_fail (c); m]: a failure is logged, and the function returns. *)
Definition return_if_fail (c : bool) (m : IM ()) : IM () := if c then m else out OutCritical.
(** [g_assert (c)] ends the process. *)
Definition g_assert (c : bool) : IM () := if c then mret () else ub.

(** * fpi-device.c *)

Definition fpi_device_get_current_action : IM FpiDeviceAction := d ← dev; mret (d_action d).

(** The cancellable of the action: whether it was cancelled; NULL without an action. *)
Definition fpi_device_get_cancellable : IM (ptr bool) :=
  d ← dev;
  if bool_decide (d_action d = FPI_DEVICE_ACTION_NONE) then out OutCritical;; mret None
  else mret (Some (d_cancelled d)).

Definition fpi_device_action_is_cancelled : IM bool :=
  d ← dev;
  if bool_decide (d_action d = FPI_DEVICE_ACTION_NONE) then out OutCritical;; mret true
  else mret (d_cancelled d).

Definition fpi_device_report_finger_status (status : Z) : IM () := mod_dev (set_finger_status status).

Definition fpi_device_report_finger_status_changes (added removed : Z) : IM () :=
  d ← dev;
  fpi_device_report_finger_status (Z.land (Z.lor (d_finger_status d) added) (Z.lnot removed)).

Definition clear_device_cancel_action : IM () := mod_dev (λ d, set_cancel (d_cancelled d) false false d).

Definition fpi_device_return_task_in_idle (r : task_return) : IM () :=
  mod_dev (λ d, set_returns (d_returns d ++ [r]) d).

Definition return_error_or (e : option gerror) (r : task_return) : task_return :=
  match e with Some e => ReturnError e | None => r end.

(** The end of an action of kind [a]. *)
Definition complete (a : FpiDeviceAction) (r : fp_device → task_return) : IM () :=
  d ← dev;
  return_if_fail (bool_decide (d_action d = a)) (
    clear_device_cancel_action;;
    fpi_device_report_finger_status FP_FINGER_STATUS_NONE;;
    fpi_device_return_task_in_idle (r d)).

Definition fpi_device_open_complete (error : option gerror) : IM () :=
  complete FPI_DEVICE_ACTION_OPEN (λ _, return_error_or error ReturnBool).

Definition fpi_device_close_complete (error : option gerror) : IM () :=
  complete FPI_DEVICE_ACTION_CLOSE (λ _, return_error_or error ReturnBool).

(** The driver passes a print, whose type is set, or an error. *)
Definition fpi_device_enroll_complete (error : option gerror) : IM () :=
  complete FPI_DEVICE_ACTION_ENROLL (λ _, return_error_or error ReturnPrint).

(** A retry is no result of a verification that ends. *)
Definition no_retry (e : gerror) : gerror := if is_retry e then ErrDevice FP_DEVICE_ERROR_GENERAL else e.

Definition fpi_device_verify_complete (error : option gerror) : IM () :=
  complete FPI_DEVICE_ACTION_VERIFY (λ d,
    match error with
    | Some e => ReturnError (no_retry e)
    | None =>
      if negb (d_reported d) then ReturnError (ErrDevice FP_DEVICE_ERROR_GENERAL) else
      return_error_or (d_match_error d) (ReturnInt (if d_match d then FPI_MATCH_SUCCESS else FPI_MATCH_FAIL))
    end).

Definition fpi_device_identify_complete (error : option gerror) : IM () :=
  complete FPI_DEVICE_ACTION_IDENTIFY (λ d,
    match error with
    | Some e => ReturnError (no_retry e)
    | None =>
      if negb (d_reported d) then ReturnError (ErrDevice FP_DEVICE_ERROR_GENERAL) else
      return_error_or (d_match_error d) ReturnBool
    end).

Definition fpi_device_capture_complete (image : option fp_image) (error : option gerror) : IM () :=
  complete FPI_DEVICE_ACTION_CAPTURE (λ _,
    match error, image with
    | Some e, _ => ReturnError e
    | None, Some i => ReturnImage i
    | None, None => ReturnError (ErrDevice FP_DEVICE_ERROR_GENERAL)
    end).

Definition fpi_device_action_error (error : gerror) : IM () :=
  d ← dev;
  match d_action d with
  | FPI_DEVICE_ACTION_NONE => out OutCritical
  | FPI_DEVICE_ACTION_OPEN => fpi_device_open_complete (Some error)
  | FPI_DEVICE_ACTION_CLOSE => fpi_device_close_complete (Some error)
  | FPI_DEVICE_ACTION_ENROLL => fpi_device_enroll_complete (Some error)
  | FPI_DEVICE_ACTION_VERIFY => fpi_device_verify_complete (Some error)
  | FPI_DEVICE_ACTION_IDENTIFY => fpi_device_identify_complete (Some error)
  | FPI_DEVICE_ACTION_CAPTURE => fpi_device_capture_complete None (Some error)
  end.

Definition fpi_device_enroll_progress (stages : Z) (error : option gerror) : IM () :=
  d ← dev;
  return_if_fail (bool_decide (d_action d = FPI_DEVICE_ACTION_ENROLL)) (
    return_if_fail (from_option is_retry true error) (out (OutProgress stages error))).

Definition fpi_device_verify_report (result : FpiMatchResult) (error : option gerror) : IM () :=
  d ← dev;
  return_if_fail (bool_decide (d_action d = FPI_DEVICE_ACTION_VERIFY)) (
    return_if_fail (negb (d_reported d)) (
      if bool_decide (error ≠ None) || bool_decide (result = FPI_MATCH_ERROR) then
        let e := default (ErrRetry FP_DEVICE_RETRY_GENERAL) error in
        mod_dev (set_match true (d_match d) (Some e));;
        if is_retry e then out (OutMatch (d_match d) (Some e)) else mret ()
      else
        let found := d_match d || bool_decide (result = FPI_MATCH_SUCCESS) in
        mod_dev (set_match true found (d_match_error d));;
        out (OutMatch found (d_match_error d)))).

Definition fpi_device_identify_report (found : bool) (error : option gerror) : IM () :=
  d ← dev;
  return_if_fail (bool_decide (d_action d = FPI_DEVICE_ACTION_IDENTIFY)) (
    return_if_fail (negb (d_reported d)) (
      match error with
      | Some e =>
        mod_dev (set_match true (d_match d) (Some e));;
        if is_retry e then out (OutMatch (d_match d) (Some e)) else mret ()
      | None =>
        mod_dev (set_match true (d_match d || found) (d_match_error d));;
        out (OutMatch (d_match d || found) (d_match_error d))
      end)).

(** [g_cancellable_cancel (priv->current_cancellable)]: the first time, what is connected to it
    runs ([fp_device_cancelled_cb], which makes the idle source). *)
Definition g_cancellable_cancel : IM () :=
  mod_dev (λ d, if d_cancelled d then d else set_cancel true (d_connected d) (d_connected d || d_idle_cancel d) d).

(** The temperature for a ratio, and whether a threshold is ahead. *)
Definition temp_of (band : temp_band) (current : FpTemperature) (is_active : bool) : FpTemperature * bool :=
  match band with
  | BelowCold => (FP_TEMPERATURE_COLD, is_active)
  | BelowHotWarm => (FP_TEMPERATURE_WARM, true)
  | BelowWarmHot => (if bool_decide (current = FP_TEMPERATURE_HOT) then FP_TEMPERATURE_HOT else FP_TEMPERATURE_WARM, true)
  | AboveWarmHot => (FP_TEMPERATURE_HOT, negb is_active)
  end.

Definition fpi_device_update_temp (is_active : bool) : IM () :=
  d ← dev;
  let m := d_temp d in
  let '(current, ahead) := temp_of (default BelowCold (head (temp_bands m))) (temp_current m) is_active in
  mod_dev (set_temp {| temp_current := current; temp_last_active := is_active; temp_timeout := ahead;
                       temp_bands := tail (temp_bands m) |});;
  when (bool_decide (current = FP_TEMPERATURE_HOT) && is_capture (d_action d)) (
    mod_dev (λ d, set_reason (Some (default (ErrDevice FP_DEVICE_ERROR_TOO_HOT) (d_reason d))) d);;
    g_cancellable_cancel).

Definition update_temp_timeout : IM () := d ← dev; fpi_device_update_temp (temp_last_active (d_temp d)).

(** What the task of an action returns: a removed device has an error of its own, unless it was
    just opened, and the reason of an internal cancellation replaces the error. *)
Definition answer_of (removed : bool) (reason : option gerror) (action : FpiDeviceAction) (r : task_return) : task_return :=
  let is_error := match r with ReturnError _ => true | _ => false end in
  if removed && (negb (bool_decide (action = FPI_DEVICE_ACTION_OPEN)) || is_error)
  then ReturnError (ErrDevice FP_DEVICE_ERROR_REMOVED)
  else if is_error then default r (ReturnError <$> reason) else r.

(** ** Unplugging, suspending, resuming *)

Definition mod_power (f : power_state → power_state) : IM () := mod_dev (λ d, set_power (f (d_power d)) d).

(** [g_signal_connect_object (priv->current_task, "notify::completed", ...)] *)
Definition connect_completed (h : completed_handler) : IM () := mod_power (λ m, set_on_completed (on_completed m ++ [h]) m).

Definition emit_removed_on_task_completed : IM () := out OutRemoved.

Definition complete_suspend_resume_task : IM () :=
  d ← dev;
  g_assert (suspend_resume_task (d_power d));;
  mod_power (set_power_task false);;
  out (OutPower None).

(** Configuring the wake-up concerns USB devices only. *)
Definition fpi_device_suspend_completed : IM () :=
  d ← dev;
  mod_power (λ m, set_suspend_error None (set_power_task false m));;
  if suspend_resume_task (d_power d) then out (OutPower (suspend_error (d_power d))) else out OutCritical.

Definition fpi_device_suspend_complete (error : option gerror) : IM () :=
  d ← dev;
  return_if_fail (suspend_resume_task (d_power d)) (
    return_if_fail (bool_decide (suspend_error (d_power d) = None)) (
      mod_power (λ m, set_suspended true (set_suspend_error error m));;
      if bool_decide (error = None) || bool_decide (d_action d = FPI_DEVICE_ACTION_NONE) then fpi_device_suspend_completed
      else
        connect_completed SuspendCompleted;;
        mod_dev (λ d, set_reason (Some (default (ErrDevice FP_DEVICE_ERROR_BUSY) (d_reason d))) d);;
        g_cancellable_cancel)).

(** The driver has no function for it. *)
Definition fpi_device_suspend : IM () :=
  d ← dev;
  match d_action d with
  | FPI_DEVICE_ACTION_NONE => fpi_device_suspend_complete None
  | FPI_DEVICE_ACTION_ENROLL | FPI_DEVICE_ACTION_VERIFY | FPI_DEVICE_ACTION_IDENTIFY | FPI_DEVICE_ACTION_CAPTURE =>
    fpi_device_suspend_complete (Some (ErrDevice FP_DEVICE_ERROR_NOT_SUPPORTED))
  | _ => connect_completed CompleteSuspendResume
  end.

Definition fpi_device_resume_complete (error : option gerror) : IM () :=
  d ← dev;
  return_if_fail (suspend_resume_task (d_power d)) (
    mod_power (λ m, set_power_task false (set_suspended false m));;
    out (OutPower error)).

Definition fpi_device_resume : IM () :=
  d ← dev;
  match d_action d with
  | FPI_DEVICE_ACTION_NONE => fpi_device_resume_complete None
  | FPI_DEVICE_ACTION_ENROLL | FPI_DEVICE_ACTION_VERIFY | FPI_DEVICE_ACTION_IDENTIFY | FPI_DEVICE_ACTION_CAPTURE =>
    fpi_device_resume_complete (Some (ErrDevice FP_DEVICE_ERROR_NOT_SUPPORTED))
  | _ => g_assert false
  end.

Definition fpi_device_remove : IM () :=
  d ← dev;
  return_if_fail (negb (is_removed (d_power d))) (
    mod_power set_removed;;
    if bool_decide (d_action d = FPI_DEVICE_ACTION_NONE) then out OutRemoved else connect_completed EmitRemoved).

Fixpoint run_completed (l : list completed_handler) : IM () :=
  match l with
  | [] => mret ()
  | h :: l =>
    match h with
    | EmitRemoved => emit_removed_on_task_completed
    | CompleteSuspendResume => complete_suspend_resume_task
    | SuspendCompleted => fpi_device_suspend_completed
    end;;
    run_completed l
  end.

(** The idle callback of a completion: the program has its answer, then what is connected to
    the completion of the task runs. *)
Definition fp_device_task_return_in_idle_cb (r : task_return) : IM () :=
  d ← dev;
  let action := d_action d in
  mod_dev (λ d, set_reason None (set_cancel false (d_connected d) (d_idle_cancel d) (set_action FPI_DEVICE_ACTION_NONE d)));;
  fpi_device_update_temp false;;
  (match action, r with
   | FPI_DEVICE_ACTION_OPEN, ReturnError _ => mret ()
   | FPI_DEVICE_ACTION_OPEN, _ => mod_dev (set_open true)
   | FPI_DEVICE_ACTION_CLOSE, _ => mod_dev (set_open false)
   | _, _ => mret ()
   end);;
  if bool_decide (action = FPI_DEVICE_ACTION_NONE) then out OutCritical (* no task to return to *)
  else
    mod_power (set_on_completed []);;
    out (OutReturned action (answer_of (is_removed (d_power d)) (d_reason d) action r));;
    run_completed (on_completed (d_power d)).

(** * fpi-image-device.c *)

Section driver.
Context (cls : FpImageDeviceClass D).

(** The table of [fp_image_device_change_state]. *)
Definition valid_transitions : list (FpiImageDeviceState * FpiImageDeviceState) :=
  [(FPI_IMAGE_DEVICE_STATE_INACTIVE, FPI_IMAGE_DEVICE_STATE_ACTIVATING);
   (FPI_IMAGE_DEVICE_STATE_ACTIVATING, FPI_IMAGE_DEVICE_STATE_IDLE);
   (FPI_IMAGE_DEVICE_STATE_ACTIVATING, FPI_IMAGE_DEVICE_STATE_INACTIVE);
   (FPI_IMAGE_DEVICE_STATE_IDLE, FPI_IMAGE_DEVICE_STATE_AWAIT_FINGER_ON);
   (FPI_IMAGE_DEVICE_STATE_IDLE, FPI_IMAGE_DEVICE_STATE_CAPTURE);
   (FPI_IMAGE_DEVICE_STATE_IDLE, FPI_IMAGE_DEVICE_STATE_DEACTIVATING);
   (FPI_IMAGE_DEVICE_STATE_AWAIT_FINGER_ON, FPI_IMAGE_DEVICE_STATE_CAPTURE);
   (FPI_IMAGE_DEVICE_STATE_AWAIT_FINGER_ON, FPI_IMAGE_DEVICE_STATE_DEACTIVATING);
   (FPI_IMAGE_DEVICE_STATE_CAPTURE, FPI_IMAGE_DEVICE_STATE_AWAIT_FINGER_OFF);
   (FPI_IMAGE_DEVICE_STATE_CAPTURE, FPI_IMAGE_DEVICE_STATE_IDLE);
   (FPI_IMAGE_DEVICE_STATE_CAPTURE, FPI_IMAGE_DEVICE_STATE_DEACTIVATING);
   (FPI_IMAGE_DEVICE_STATE_AWAIT_FINGER_OFF, FPI_IMAGE_DEVICE_STATE_IDLE);
   (FPI_IMAGE_DEVICE_STATE_AWAIT_FINGER_OFF, FPI_IMAGE_DEVICE_STATE_DEACTIVATING);
   (FPI_IMAGE_DEVICE_STATE_DEACTIVATING, FPI_IMAGE_DEVICE_STATE_INACTIVE)].

(** The signal runs the function of the driver. *)
Definition fp_image_device_change_state (state : FpiImageDeviceState) : IM () :=
  p ← priv;
  when (negb (bool_decide ((p_state p, state) ∈ valid_transitions))) (out (OutInvalid (p_state p) state));;
  mod_priv (set_state state);;
  cls_change_state cls state;;
  match state with
  | FPI_IMAGE_DEVICE_STATE_AWAIT_FINGER_ON =>
    fpi_device_report_finger_status_changes FP_FINGER_STATUS_NEEDED FP_FINGER_STATUS_NONE
  | FPI_IMAGE_DEVICE_STATE_AWAIT_FINGER_OFF =>
    fpi_device_report_finger_status_changes FP_FINGER_STATUS_NONE FP_FINGER_STATUS_NEEDED
  | _ => mret ()
  end.

Definition fpi_image_device_activate : IM () :=
  p ← priv;
  g_assert (negb (p_active p));;
  fp_image_device_change_state FPI_IMAGE_DEVICE_STATE_ACTIVATING;;
  cls_activate cls.

(** [cancelling] only decides on a warning. *)
Definition fpi_image_device_deactivate (cancelling : bool) : IM () :=
  p ← priv;
  if negb (p_active p) || bool_decide (p_state p = FPI_IMAGE_DEVICE_STATE_DEACTIVATING) then mret () else
  fp_image_device_change_state FPI_IMAGE_DEVICE_STATE_DEACTIVATING;;
  cls_deactivate cls.

Definition fp_image_device_enroll_maybe_await_finger_on : IM () :=
  p ← priv;
  if p_scan_active p || p_finger_present p then mret () else
  fp_image_device_change_state FPI_IMAGE_DEVICE_STATE_AWAIT_FINGER_ON.

(** The first error is kept, unless it is a retry. *)
Definition keep_error (error : option gerror) : IM () :=
  match error with
  | None => mret ()
  | Some e =>
    p ← priv;
    match p_action_error p with
    | Some e0 => if is_retry e0 then mod_priv (set_action_error (Some e)) else mret ()
    | None => mod_priv (set_action_error (Some e))
    end
  end.

Definition fp_image_device_maybe_complete_action (error : option gerror) : IM () :=
  keep_error error;;
  p ← priv;
  if p_active p || p_scan_active p then mret () else
  (if bool_decide (p_action_error p = None) then
     c ← fpi_device_get_cancellable;
     when (default false c) (mod_priv (set_action_error (Some ErrCancelled)))
   else mret ());;
  p ← priv;
  match p_action_error p with
  | Some e =>
    mod_priv (set_action_error None);;
    fpi_device_action_error e;;
    mod_priv (set_capture_image None)
  | None =>
    action ← fpi_device_get_current_action;
    match action with
    | FPI_DEVICE_ACTION_ENROLL => fpi_device_enroll_complete None
    | FPI_DEVICE_ACTION_VERIFY => fpi_device_verify_complete None
    | FPI_DEVICE_ACTION_IDENTIFY => fpi_device_identify_complete None
    | FPI_DEVICE_ACTION_CAPTURE =>
      mod_priv (set_capture_image None);;
      fpi_device_capture_complete (p_capture_image p) None
    | _ => g_assert false
    end
  end.

(** The templates one after the other, until one matches or an error comes. *)
Fixpoint identify_loop (m : nat → FpiMatchResult * option gerror) (n i : nat) : bool * option gerror :=
  match n with
  | O => (false, None)
  | S n =>
    let '(r, e) := m i in
    if bool_decide (r = FPI_MATCH_SUCCESS) then (true, e) else
    match e with
    | Some _ => (false, e)
    | None => identify_loop m n (S i)
    end
  end.

(** The end of a scan, by the kind of the action. [print]: whether there is a print. *)
Definition enroll_scanned (print : bool) (error : option gerror) : IM () :=
  when print (mod_priv (λ p, set_stage (p_enroll_stage p + 1) p));;
  p ← priv;
  fpi_device_enroll_progress (p_enroll_stage p) error;;
  d ← dev;
  if p_enroll_stage p =? d_enroll_stages d then
    if bool_decide (error = None) then
      fp_image_device_maybe_complete_action None;;
      fpi_image_device_deactivate false
    else ub (* the error was freed by the progress *)
  else fp_image_device_enroll_maybe_await_finger_on.

Definition verify_scanned (m : nat → FpiMatchResult * option gerror) (print : bool) (error : option gerror) : IM () :=
  let '(result, error) :=
    if print then let '(r, e) := m 0%nat in (r, e)
    else (FPI_MATCH_ERROR, error) in
  if from_option is_retry true error then
    fpi_device_verify_report result error;;
    fp_image_device_maybe_complete_action None
  else fp_image_device_maybe_complete_action error.

Definition identify_scanned (m : nat → FpiMatchResult * option gerror) (error : option gerror) : IM () :=
  d ← dev;
  let '(found, error) :=
    match error with
    | Some _ => (false, error)
    | None => identify_loop m (d_templates d) 0
    end in
  if from_option is_retry true error then
    fpi_device_identify_report found error;;
    fp_image_device_maybe_complete_action None
  else fp_image_device_maybe_complete_action error.

Definition fpi_image_device_minutiae_detected (image : fp_image) (r : scan_result) : IM () :=
  mod_priv (set_scan false);;
  match sc_error r with
  | Some ErrCancelled =>
    fp_image_device_maybe_complete_action (Some ErrCancelled);;
    fpi_image_device_deactivate true
  | _ =>
    let error := if bool_decide (sc_error r = None) then None else Some (ErrRetry FP_DEVICE_RETRY_GENERAL) in
    action ← fpi_device_get_current_action;
    if bool_decide (action = FPI_DEVICE_ACTION_CAPTURE) then
      mod_priv (set_capture_image (Some image));;
      fp_image_device_maybe_complete_action error
    else
    let '(print, error) :=
      match error with
      | Some _ => (false, error)
      | None => (bool_decide (sc_print r = None), sc_print r)
      end in
    if negb (from_option is_retry true error) then
      fp_image_device_maybe_complete_action error;;
      fpi_image_device_deactivate true
    else
    match action with
    | FPI_DEVICE_ACTION_ENROLL => enroll_scanned print error
    | FPI_DEVICE_ACTION_VERIFY => verify_scanned (sc_match r) print error
    | FPI_DEVICE_ACTION_IDENTIFY => identify_scanned (sc_match r) error
    | _ => g_assert false
    end
  end.

Definition fpi_image_device_set_bz3_threshold (bz3_threshold : Z) : IM () :=
  return_if_fail (0 <? bz3_threshold) (mod_priv (λ p, set_matching (p_algorithm p) bz3_threshold p)).

Definition fpi_image_device_report_finger_status (present : bool) : IM () :=
  (if present then fpi_device_report_finger_status_changes FP_FINGER_STATUS_PRESENT FP_FINGER_STATUS_NONE
   else fpi_device_report_finger_status_changes FP_FINGER_STATUS_NONE FP_FINGER_STATUS_PRESENT);;
  p ← priv;
  if bool_decide (p_state p = FPI_IMAGE_DEVICE_STATE_INACTIVE) then mret () else
  action ← fpi_device_get_current_action;
  g_assert (negb (bool_decide (action = FPI_DEVICE_ACTION_OPEN)));;
  g_assert (negb (bool_decide (action = FPI_DEVICE_ACTION_CLOSE)));;
  mod_priv (λ p, set_active (p_active p) present p);;
  if present && bool_decide (p_state p = FPI_IMAGE_DEVICE_STATE_AWAIT_FINGER_ON) then
    fp_image_device_change_state FPI_IMAGE_DEVICE_STATE_CAPTURE
  else if negb present && bool_decide (p_state p = FPI_IMAGE_DEVICE_STATE_AWAIT_FINGER_OFF) then
    fp_image_device_change_state FPI_IMAGE_DEVICE_STATE_IDLE;;
    if negb (bool_decide (action = FPI_DEVICE_ACTION_ENROLL)) then fpi_image_device_deactivate false
    else fp_image_device_enroll_maybe_await_finger_on
  else mret ().

(** The scan of an image runs in a thread: [fp_image_extract_sigfm_info] or
    [fp_image_detect_minutiae] start it, [fpi_image_device_minutiae_detected] hears of it. *)
Definition start_scan (image : fp_image) : IM () := w ← getw; put_scans (i_scans w ++ [image]).

Definition fpi_image_device_image_captured (image : fp_image) : IM () :=
  p ← priv;
  action ← fpi_device_get_current_action;
  return_if_fail (bool_decide (p_state p = FPI_IMAGE_DEVICE_STATE_CAPTURE)) (
    return_if_fail (is_capture action) (
      mod_priv (set_scan true);;
      start_scan image;;
      fp_image_device_change_state FPI_IMAGE_DEVICE_STATE_AWAIT_FINGER_OFF)).

Definition fpi_image_device_retry_scan (retry : Z) : IM () :=
  p ← priv;
  action ← fpi_device_get_current_action;
  return_if_fail (negb (bool_decide (p_state p = FPI_IMAGE_DEVICE_STATE_INACTIVE))) (
    return_if_fail (is_capture action) (
      let error := ErrRetry retry in
      match action with
      | FPI_DEVICE_ACTION_ENROLL =>
        fpi_device_enroll_progress (p_enroll_stage p) (Some error);;
        fp_image_device_change_state FPI_IMAGE_DEVICE_STATE_AWAIT_FINGER_OFF
      | FPI_DEVICE_ACTION_VERIFY =>
        fpi_device_verify_report FPI_MATCH_ERROR (Some error);;
        fp_image_device_maybe_complete_action None;;
        fpi_image_device_deactivate true
      | FPI_DEVICE_ACTION_IDENTIFY =>
        fpi_device_identify_report false (Some error);;
        fp_image_device_maybe_complete_action None;;
        fpi_image_device_deactivate true
      | _ =>
        fp_image_device_maybe_complete_action (Some error);;
        fpi_image_device_deactivate true
      end)).

Definition fpi_image_device_activate_complete (error : option gerror) : IM () :=
  p ← priv;
  action ← fpi_device_get_current_action;
  return_if_fail (negb (p_active p)) (
    return_if_fail (bool_decide (p_state p = FPI_IMAGE_DEVICE_STATE_ACTIVATING)) (
      return_if_fail (is_capture action) (
        match error with
        | Some e => fpi_device_action_error e
        | None =>
          mod_priv (λ p, set_active true (p_finger_present p) p);;
          fp_image_device_change_state FPI_IMAGE_DEVICE_STATE_IDLE;;
          fp_image_device_change_state FPI_IMAGE_DEVICE_STATE_AWAIT_FINGER_ON
        end))).

Definition fpi_image_device_session_error (error : option gerror) : IM () :=
  let e := default (ErrDevice FP_DEVICE_ERROR_GENERAL) error in
  let go :=
    fp_image_device_maybe_complete_action (Some e);;
    fpi_image_device_deactivate true in
  p ← priv;
  if negb (p_active p) then
    action ← fpi_device_get_current_action;
    if negb (bool_decide (action = FPI_DEVICE_ACTION_NONE)) then fpi_image_device_activate_complete (Some e)
    else go
  else
  ignored ← (if bool_decide (e = ErrCancelled) then fpi_device_action_is_cancelled else mret false);
  if (ignored : bool) then mret () else
  if bool_decide (p_state p = FPI_IMAGE_DEVICE_STATE_INACTIVE) then mret () else
  go.

Definition fpi_image_device_deactivate_complete (error : option gerror) : IM () :=
  p ← priv;
  return_if_fail (p_active p) (
    return_if_fail (bool_decide (p_state p = FPI_IMAGE_DEVICE_STATE_DEACTIVATING)) (
      mod_priv (set_active false false);;
      fp_image_device_change_state FPI_IMAGE_DEVICE_STATE_INACTIVE;;
      fp_image_device_maybe_complete_action error)).

Definition fpi_image_device_open_complete (error : option gerror) : IM () :=
  p ← priv;
  action ← fpi_device_get_current_action;
  return_if_fail (negb (p_active p)) (
    return_if_fail (bool_decide (action = FPI_DEVICE_ACTION_OPEN)) (
      mod_priv (set_state FPI_IMAGE_DEVICE_STATE_INACTIVE);;
      fpi_device_report_finger_status FP_FINGER_STATUS_NONE;;
      fpi_device_open_complete error)).

Definition fpi_image_device_close_complete (error : option gerror) : IM () :=
  p ← priv;
  action ← fpi_device_get_current_action;
  return_if_fail (negb (p_active p)) (
    return_if_fail (bool_decide (action = FPI_DEVICE_ACTION_CLOSE)) (
      mod_priv (set_state FPI_IMAGE_DEVICE_STATE_INACTIVE);;
      fpi_device_close_complete error)).

(** * fp-image-device.c *)

Definition fp_image_device_open : IM () := img_open cls.

Definition fp_image_device_close : IM () :=
  p ← priv;
  g_assert (negb (p_active p));;
  img_close cls.

Definition fp_image_device_cancel_action : IM () :=
  action ← fpi_device_get_current_action;
  if is_capture action then fpi_image_device_deactivate true else mret ().

Definition fp_image_device_start_capture_action : IM () :=
  d ← dev;
  if bool_decide (d_action d = FPI_DEVICE_ACTION_CAPTURE) && negb (d_wait_for_finger d) then
    fpi_device_action_error (ErrDevice FP_DEVICE_ERROR_NOT_SUPPORTED)
  else
  mod_priv (set_stage 0);;
  p ← priv;
  g_assert (negb (p_finger_present p));;
  g_assert (negb (p_scan_active p));;
  fpi_image_device_activate.

Definition fp_image_device_default_activate : IM () := fpi_image_device_activate_complete None.
Definition fp_image_device_default_deactivate : IM () := fpi_image_device_deactivate_complete None.

Definition BOZORTH3_DEFAULT_THRESHOLD : Z := 40.

(** [threshold] and [algorithm] are those of the class, 0 and undefined when it sets none. *)
Definition fp_image_device_constructed (threshold : Z) (algorithm : FpiPrintType) : IM () :=
  mod_priv (set_matching (if bool_decide (algorithm = FPI_PRINT_UNDEFINED) then FPI_PRINT_NBIS else algorithm)
                         (if 0 <? threshold then threshold else BOZORTH3_DEFAULT_THRESHOLD)).

Definition fp_image_device_finalize : IM () := p ← priv; g_assert (negb (p_active p)).

(** * fp-device.c *)

Definition fp_device_cancel_in_idle_cb : IM () :=
  d ← dev;
  g_assert (negb (bool_decide (d_action d = FPI_DEVICE_ACTION_NONE)));;
  mod_dev (λ d, set_cancel (d_cancelled d) (d_connected d) false d);;
  fp_image_device_cancel_action;;
  fpi_device_report_finger_status FP_FINGER_STATUS_NONE.

(** The cancellable of the caller was cancelled: so is that of the task, as long as it is
    connected. *)
Definition fp_device_task_cancelled_cb : IM () :=
  d ← dev;
  when (d_connected d) g_cancellable_cancel.

(** [priv->current_action = a; priv->current_task = task; setup_task_cancellable (device);]
    The cancellable of the caller is connected; a caller without one is a caller that never
    cancels, whose callback ([OpCancel]) does not come. *)
Definition begin_task (a : FpiDeviceAction) : IM () :=
  mod_dev (λ d, set_cancel false true false (set_action a d)).

Definition refuse (code : Z) : IM () := out (OutRefused (ErrDevice code)).

(** [cancelled]: the cancellable of the caller already is. *)
Definition fp_device_open (cancelled : bool) : IM () :=
  d ← dev;
  if cancelled then out (OutRefused ErrCancelled) else
  if d_open d then refuse FP_DEVICE_ERROR_ALREADY_OPEN else
  if negb (bool_decide (d_action d = FPI_DEVICE_ACTION_NONE)) || is_suspended (d_power d) then refuse FP_DEVICE_ERROR_BUSY else
  begin_task FPI_DEVICE_ACTION_OPEN;;
  fpi_device_report_finger_status FP_FINGER_STATUS_NONE;;
  fp_image_device_open.

Definition fp_device_close (cancelled : bool) : IM () :=
  d ← dev;
  if cancelled then out (OutRefused ErrCancelled) else
  if negb (d_open d) then refuse FP_DEVICE_ERROR_NOT_OPEN else
  if negb (bool_decide (d_action d = FPI_DEVICE_ACTION_NONE)) || is_suspended (d_power d) then refuse FP_DEVICE_ERROR_BUSY else
  begin_task FPI_DEVICE_ACTION_CLOSE;;
  fp_image_device_close.

(** What enroll, verify, identify and capture share: [valid] are the checks of their
    arguments, [data] the fields they set. The image device has all their features. *)
Definition start_action (a : FpiDeviceAction) (cancelled valid : bool) (data : fp_device → fp_device) : IM () :=
  d ← dev;
  if cancelled then out (OutRefused ErrCancelled) else
  if negb (d_open d) then refuse FP_DEVICE_ERROR_NOT_OPEN else
  if negb (bool_decide (d_action d = FPI_DEVICE_ACTION_NONE)) || is_suspended (d_power d) then refuse FP_DEVICE_ERROR_BUSY else
  if negb valid then refuse FP_DEVICE_ERROR_DATA_INVALID else
  fpi_device_update_temp true;;
  d ← dev;
  if bool_decide (temp_current (d_temp d) = FP_TEMPERATURE_HOT) then
    refuse FP_DEVICE_ERROR_TOO_HOT;;
    fpi_device_update_temp false
  else
  begin_task a;;
  mod_dev data;;
  fp_image_device_start_capture_action.

(** The print passed to an enrollment: none, one without data, or one to update. *)
Inductive enroll_template := NoTemplate | NewTemplate | OldTemplate (compatible : bool).
Definition template_valid (t : enroll_template) : bool :=
  match t with NoTemplate => false | NewTemplate => true | OldTemplate compatible => compatible end.

Definition fp_device_enroll (cancelled : bool) (template_print : enroll_template) : IM () :=
  start_action FPI_DEVICE_ACTION_ENROLL cancelled (template_valid template_print) id.

Definition fp_device_verify (cancelled : bool) : IM () :=
  start_action FPI_DEVICE_ACTION_VERIFY cancelled true (set_match false false None).

(** [prints]: the length of the gallery, or no gallery. *)
Definition fp_device_identify (cancelled : bool) (prints : ptr nat) : IM () :=
  start_action FPI_DEVICE_ACTION_IDENTIFY cancelled (bool_decide (is_Some prints))
    (λ d, set_match false false None (set_request (d_wait_for_finger d) (default 0%nat prints) d)).

Definition fp_device_capture (cancelled wait_for_finger : bool) : IM () :=
  start_action FPI_DEVICE_ACTION_CAPTURE cancelled true (λ d, set_request wait_for_finger (d_templates d) d).

Definition fp_device_suspend : IM () :=
  d ← dev;
  if suspend_resume_task (d_power d) || is_suspended (d_power d) then out (OutPower (Some (ErrDevice FP_DEVICE_ERROR_BUSY))) else
  if is_removed (d_power d) then out (OutPower (Some (ErrDevice FP_DEVICE_ERROR_REMOVED))) else
  mod_power (set_power_task true);;
  fpi_device_suspend.

Definition fp_device_resume : IM () :=
  d ← dev;
  if suspend_resume_task (d_power d) || negb (is_suspended (d_power d)) then out (OutPower (Some (ErrDevice FP_DEVICE_ERROR_BUSY))) else
  if is_removed (d_power d) then out (OutPower (Some (ErrDevice FP_DEVICE_ERROR_REMOVED))) else
  mod_power (set_power_task true);;
  fpi_device_resume.
End driver.
End device.
