(* ===== verification/LDriver.v ===== *)
(** The driver of libfprint for the sensor: [libfprint/drivers/gxfp.c], between the image
    device of LImage and the session. Its functions call the image device, whose changes of
    state call them back: [gxfp_class n] is the driver that allows [n] such calls to nest. *)
From Stdlib Require Import ZArith Lia Ascii String.
From stdpp Require Import prelude list.
From S2P Require Import Prelude KGoodixProto KUapi UGoodixProto UWorld UDev UCommon UXfer USensorCfg UCmds.
From S2P Require Import UDecoder UPlain UFdt UFpn UTls UTlsSvc USession LImage.

Open Scope Z_scope.

(** * Data *)

Definition GXFP_SESSION_IO_IN : Z := 1. (* 1u << 0 *)
Definition DEFAULT_ENROLL_SAMPLES : Z := 16.
Definition G_IO_ERROR_NOT_FOUND : Z := 1.

Definition c_string (s : string) : bytes := (λ a, Z.of_nat (nat_of_ascii a)) <$> list_ascii_of_string s.
Definition GXFP_DEFAULT_PSK_PATH : bytes := c_string "/var/lib/fprintd/gxfp/psk_raw32.bin".

(** What the driver asks of the system: the path udev found, the environment, the files,
    and GLib's table of error numbers. *)
Class Host := {
  udev_chardev : ptr bytes;
  env_gxfp_psk : ptr bytes;
  file_at : bytes → stdio_file;
  io_error_from_errno : Z → gerror
}.

Section driver.
Context {E : Uenv} {T : Mbedtls} {H : Host}.

(** [struct _FpiDeviceGxfp]; [timer_source] is the delay of the pump that is scheduled. *)
Record FpiDeviceGxfp := {
  g_sess : sworld;
  timer_source : ptr Z;
  dev_path : ptr bytes;
  psk_path : ptr bytes
}.

Definition dworld : Type := iworld FpiDeviceGxfp.
Abbreviation DM := (M dworld).

Definition self : DM FpiDeviceGxfp := gets i_drv.
Definition put_self (g : FpiDeviceGxfp) : DM () := modw (λ w,
  {| i_dev := i_dev w; i_priv := i_priv w; i_scans := i_scans w; i_out := i_out w; i_drv := g |}).
Definition set_timer (t : ptr Z) : DM () := g ← self;
  put_self {| g_sess := g_sess g; timer_source := t; dev_path := dev_path g; psk_path := psk_path g |}.
Definition set_paths (d p : ptr bytes) : DM () := g ← self;
  put_self {| g_sess := g_sess g; timer_source := timer_source g; dev_path := d; psk_path := p |}.
Definition set_sess (s : sworld) (g : FpiDeviceGxfp) : FpiDeviceGxfp :=
  {| g_sess := s; timer_source := timer_source g; dev_path := dev_path g; psk_path := psk_path g |}.

(** A call into the library. *)
Definition lib {A} (m : M sworld A) : DM A :=
  zoom (λ w, g_sess (i_drv w)) (λ s w,
    {| i_dev := i_dev w; i_priv := i_priv w; i_scans := i_scans w; i_out := i_out w; i_drv := set_sess s (i_drv w) |}) m.

(** [struct gxfp_session_events ev; gxfp_session_events_clear (&ev); r = m (&self->sess, &ev);] *)
Definition with_events {A} (m : M sworld A) : DM (A * gxfp_session_events) :=
  lib (gxfp_session_events_clear;; r ← m; e ← ev; mret (r, e)).

(** * gxfp.c *)

Definition cancel_scheduled_pump : DM () := set_timer None.

Definition free_paths : DM () := set_paths None None.

Definition schedule_pump_soon (delay_ms : Z) : DM () :=
  g ← self;
  match timer_source g with
  | Some _ => mret ()
  | None => set_timer (Some delay_ms)
  end.

(** [(guint8) ((p * 255u) / 4095u)] *)
Definition gray (p : Z) : Z := u8 (u32 (p * 255) / 4095).

(** The loops over rows and columns that fill the image. *)
Definition fill_image (rows cols : Z) (px data : list Z) : option (list Z) :=
  forN (Z.to_nat rows) 0 (λ y data,
    forN (Z.to_nat cols) 0 (λ x data,
      p ← rd px (y * cols + x);
      wr data (y * cols + x) (gray p)) data) data.

Section callbacks.
Context (cls : FpImageDeviceClass FpiDeviceGxfp) (fuel : nat).

Definition general : option gerror := Some (ErrDevice FP_DEVICE_ERROR_GENERAL).

Definition emit_image_captured : DM () :=
  '(r, img) ← lib (gxfp_session_take_image (Some img_zero));
  if r <? 0 then fpi_image_device_session_error cls general else
  img ← lift img;
  px ← lift (pixels img);
  data ← lift (fill_image (rows img) (cols img) px (zeros (cols img * rows img)));
  fpi_image_device_image_captured cls {| width := cols img; height := rows img; image_data := data |}.

Definition handle_session_events (e : gxfp_session_events) : DM () :=
  when (negb (cancel_tick e =? 0)) cancel_scheduled_pump;;
  when (negb (finger_status_changed e =? 0))
    (fpi_image_device_report_finger_status cls (negb (finger_present e =? 0)));;
  when (negb (image_ready e =? 0)) emit_image_captured;;
  if negb (session_error e =? 0) then
    cancel_scheduled_pump;;
    if bool_decide (error_target e = GXFP_SESSION_ERR_TARGET_ACTIVATE)
    then fpi_image_device_activate_complete cls general
    else fpi_image_device_session_error cls general
  else
  when (negb (activate_complete e =? 0)) (fpi_image_device_activate_complete cls None);;
  when (negb (deactivate_complete e =? 0))
    (cancel_scheduled_pump;; fpi_image_device_deactivate_complete cls None);;
  when (negb (close_complete e =? 0))
    (cancel_scheduled_pump;; free_paths;; fpi_image_device_close_complete None);;
  when (negb (request_tick e =? 0)) (schedule_pump_soon (tick_delay_ms e)).

Definition gxfp_pump_timeout_cb : DM () :=
  set_timer None;;
  cancelled ← fpi_device_action_is_cancelled;
  '(_, e) ← with_events (gxfp_session_pump fuel cancelled);
  handle_session_events e;;
  c ← fpi_device_action_is_cancelled;
  if (c : bool) then mret () else
  pr ← lib (gxfp_session_poll_readable 0);
  if (pr =? 0) || (pr =? - EAGAIN) then
    '(_, e) ← with_events (gxfp_session_on_fd fuel GXFP_SESSION_IO_IN cancelled);
    handle_session_events e
  else mret ().

Definition open_failed (e : gerror) : DM () := fpi_image_device_open_complete (Some e).

Definition gxfp_img_open : DM () :=
  match udev_chardev with
  | None | Some [] => open_failed (ErrIo G_IO_ERROR_NOT_FOUND)
  | Some chardev_path =>
    free_paths;;
    let psk_file := match env_gxfp_psk with
                    | None | Some [] => GXFP_DEFAULT_PSK_PATH
                    | Some p => p
                    end in
    set_paths (Some chardev_path) (Some psk_file);;
    '(r, psk_raw, psk_raw_len) ← lib (io (gxfp_read_file_all (Some (file_at psk_file)) (Some None) (Some 0)));
    if r <? 0 then open_failed (io_error_from_errno (- r)) else
    psk_raw ← lift psk_raw;
    n ← lift psk_raw_len;
    r ← lib (gxfp_session_open fuel (Some chardev_path) psk_raw n);
    if r <? 0 then open_failed (io_error_from_errno (- r)) else
    fpi_image_device_open_complete None
  end.

Definition gxfp_img_close : DM () :=
  cancel_scheduled_pump;;
  '(_, e) ← with_events (gxfp_session_request_close fuel false);
  handle_session_events e.

Definition gxfp_activate : DM () :=
  '(r, e) ← with_events (gxfp_session_activate fuel);
  handle_session_events e;;
  if r <? 0 then mret () else schedule_pump_soon 0.

Definition gxfp_deactivate : DM () :=
  cancel_scheduled_pump;;
  '(_, e) ← with_events (gxfp_session_request_deactivate fuel);
  handle_session_events e.

(** The state of the session for a state of the image device. *)
Definition new_state (state : FpiImageDeviceState) : gxfp_session_state :=
  match state with
  | FPI_IMAGE_DEVICE_STATE_INACTIVE => GXFP_SESSION_STATE_INACTIVE
  | FPI_IMAGE_DEVICE_STATE_ACTIVATING | FPI_IMAGE_DEVICE_STATE_DEACTIVATING
  | FPI_IMAGE_DEVICE_STATE_IDLE => GXFP_SESSION_STATE_IDLE
  | FPI_IMAGE_DEVICE_STATE_AWAIT_FINGER_ON => GXFP_SESSION_STATE_AWAIT_FINGER_ON
  | FPI_IMAGE_DEVICE_STATE_CAPTURE => GXFP_SESSION_STATE_CAPTURE
  | FPI_IMAGE_DEVICE_STATE_AWAIT_FINGER_OFF => GXFP_SESSION_STATE_AWAIT_FINGER_OFF
  end.

Definition gxfp_change_state (state : FpiImageDeviceState) : DM () :=
  '(_, e) ← with_events (gxfp_session_change_state fuel (new_state state));
  handle_session_events e.
End callbacks.

(** [fpi_device_gxfp_class_init]: the table of the driver, for [n] nested calls. *)
Fixpoint gxfp_class (fuel n : nat) : FpImageDeviceClass FpiDeviceGxfp :=
  match n with
  | O => {| img_open := ub; img_close := ub; cls_activate := ub; cls_change_state := λ _, ub; cls_deactivate := ub |}
  | S n =>
    let cls := gxfp_class fuel n in
    {| img_open := gxfp_img_open fuel;
       img_close := gxfp_img_close cls fuel;
       cls_activate := gxfp_activate cls fuel;
       cls_change_state := gxfp_change_state cls fuel;
       cls_deactivate := gxfp_deactivate cls fuel |}
  end.

Definition fpi_device_gxfp_init : DM () :=
  lib gxfp_session_init;;
  set_timer None.

Definition fpi_device_gxfp_dispose : DM () :=
  cancel_scheduled_pump;;
  lib gxfp_session_dispose;;
  free_paths.

(** * The main loop *)

(** What the program that uses the device does, and what its main loop dispatches: the idle
    sources of a cancellation and of a completion, the temperature, the pump, the end of a
    scan. *)
Inductive driver_op :=
| OpOpen (cancelled : bool)
| OpClose (cancelled : bool)
| OpEnroll (cancelled : bool) (template_print : enroll_template)
| OpVerify (cancelled : bool)
| OpIdentify (cancelled : bool) (prints : ptr nat)
| OpCapture (cancelled wait_for_finger : bool)
| OpSuspend
| OpResume
| OpRemove
| OpCancel
| OpIdleCancel
| OpIdleReturn
| OpTemp
| OpTimer
| OpScanned (r : scan_result).

(** A task whose cancellable is cancelled ends with that, whatever its thread found. *)
Definition task_result (d : fp_device) (r : scan_result) : scan_result :=
  if d_cancelled d then {| sc_error := Some ErrCancelled; sc_print := sc_print r; sc_match := sc_match r |} else r.

(** A source that is not there is not dispatched. *)
Definition run_op (cls : FpImageDeviceClass FpiDeviceGxfp) (fuel : nat) (op : driver_op) : DM () :=
  w ← getw;
  match op with
  | OpOpen cancelled => fp_device_open cls cancelled
  | OpClose cancelled => fp_device_close cls cancelled
  | OpEnroll cancelled template_print => fp_device_enroll cls cancelled template_print
  | OpVerify cancelled => fp_device_verify cls cancelled
  | OpIdentify cancelled prints => fp_device_identify cls cancelled prints
  | OpCapture cancelled wait => fp_device_capture cls cancelled wait
  | OpSuspend => fp_device_suspend
  | OpResume => fp_device_resume
  | OpRemove => fpi_device_remove
  | OpCancel => fp_device_task_cancelled_cb
  | OpIdleCancel => if d_idle_cancel (i_dev w) then fp_device_cancel_in_idle_cb cls else mret ()
  | OpIdleReturn =>
    match d_returns (i_dev w) with
    | [] => mret ()
    | r :: rest => mod_dev (set_returns rest);; fp_device_task_return_in_idle_cb r
    end
  | OpTemp => when (temp_timeout (d_temp (i_dev w))) update_temp_timeout
  | OpTimer =>
    match timer_source (i_drv w) with
    | None => mret ()
    | Some _ => gxfp_pump_timeout_cb cls fuel
    end
  | OpScanned r =>
    match i_scans w with
    | [] => mret ()
    | image :: rest =>
      put_scans rest;;
      fpi_image_device_minutiae_detected cls image (task_result (i_dev w) r)
    end
  end.

Fixpoint run_ops (cls : FpImageDeviceClass FpiDeviceGxfp) (fuel : nat) (ops : list driver_op) : DM () :=
  match ops with
  | [] => mret ()
  | op :: ops => run_op cls fuel op;; run_ops cls fuel ops
  end.
End driver.
