(* ===== verification/LDriverRun.v ===== *)
(** The driver at work: whatever the program and the main loop do, in any order, against
    any device, the driver, the image device and the session stay together. *)
From Stdlib Require Import ZArith Lia.
From stdpp Require Import prelude list.
From S2P Require Import Prelude KGoodixProto KUapi UGoodixProto UWorld UDev UCommon UXfer USensorCfg UCmds.
From S2P Require Import UDecoder UPlain UFdt UFpn UTls UTlsSvc USession USessionCalls USessionRun USessionEvents.
From S2P Require Import LImage LDriver.

Open Scope Z_scope.

Section driver_rules.
Context {E : Uenv} {EO : UenvOk E} {WO : UwriteOk E} {T : Mbedtls} {TO : MbedtlsOk T} {B : nat} {CO : UclockOk E B}.
Context {N : nat} {FO : UfiniteOk E N} {H : Host}.
Context (fuel : nat) (Hfuel : (2000 * B < fuel)%nat) (Hpull : (pull_fuel <= fuel)%nat) (Hdeliver : (N < fuel)%nat).

(** A world, by its parts. *)
Definition X (d : fp_device) (p : FpImageDevicePrivate) (sc : list fp_image) (o : list dev_out) (sw : sworld)
    (t : ptr Z) (q : ptr bytes * ptr bytes) : dworld :=
  {| i_dev := d; i_priv := p; i_scans := sc; i_out := o;
     i_drv := {| g_sess := sw; timer_source := t; dev_path := q.1; psk_path := q.2 |} |}.

Lemma X_eta w : ∃ d p sc o sw t q, w = X d p sc o sw t q.
Proof using Type.
  destruct w as [d p sc o [sw t a b]]. by exists d, p, sc, o, sw, t, (a, b).
Qed.

(** An open session, in mode [m]; and one whose service has not failed. *)
Definition sess_in (m : gxfp_session_mode) (sw : sworld) : Prop :=
  ∃ l c s e, sw = W l c s e ∧ static_ok c ∧ live s l ∧ s_mode s = m.
Definition up (sw : sworld) : Prop := ∀ l c s e, sw = W l c s e → alive s.

Lemma up_W l c s e : alive s → up (W l c s e).
Proof using Type. intros Ha l' c' s' e' Heq. unfold W in Heq. by injection Heq as <- <- <- <-. Qed.

(** ** Rules *)

Lemma wp_with_events {A} (m : M sworld A) Q d p sc o l c s e t q :
  wp m (λ r w', ∃ l' c' s' e', w' = W l' c' s' e' ∧ Q (r, e') (X d p sc o (W l' c' s' e') t q)) (W l c s events_zero) →
  wp (with_events m) Q (X d p sc o (W l c s e) t q).
Proof using Type.
  intros Hm. destruct (wp_inv _ _ _ Hm) as (r & w' & Hr & l' & c' & s' & e' & -> & HQ).
  unfold with_events, lib, wp, zoom. cbn [X i_drv g_sess].
  rewrite (run_bind _ _ _ () (W l c s events_zero)) by done. rewrite (run_bind _ _ _ _ _ Hr).
  rewrite (run_bind _ _ _ e' (W l' c' s' e')) by done. exact HQ.
Qed.

Lemma wp_lib {A} (m : M sworld A) Q d p sc o sw t q :
  wp m (λ a sw', Q a (X d p sc o sw' t q)) sw → wp (lib m) Q (X d p sc o sw t q).
Proof using Type. unfold wp, lib, zoom. cbn [X i_drv g_sess]. by destruct (m sw) as [[a sw']|]. Qed.

Lemma wp_priv Q d p sc o sw t q : Q p (X d p sc o sw t q) → wp priv Q (X d p sc o sw t q).
Proof using Type. done. Qed.
Lemma wp_dev Q d p sc o sw t q : Q d (X d p sc o sw t q) → wp dev Q (X d p sc o sw t q).
Proof using Type. done. Qed.
Lemma wp_mod_priv f Q d p sc o sw t q : Q () (X d (f p) sc o sw t q) → wp (mod_priv f) Q (X d p sc o sw t q).
Proof using Type. done. Qed.
Lemma wp_mod_dev f Q d p sc o sw t q : Q () (X (f d) p sc o sw t q) → wp (mod_dev f) Q (X d p sc o sw t q).
Proof using Type. done. Qed.
Lemma wp_out x Q d p sc o sw t q : Q () (X d p sc (o ++ [x]) sw t q) → wp (out x) Q (X d p sc o sw t q).
Proof using Type. done. Qed.
Lemma wp_timer v Q d p sc o sw t q : Q () (X d p sc o sw v q) → wp (set_timer v) Q (X d p sc o sw t q).
Proof using Type. by destruct q. Qed.
Lemma wp_action Q d p sc o sw t q :
  Q (d_action d) (X d p sc o sw t q) → wp fpi_device_get_current_action Q (X d p sc o sw t q).
Proof using Type. done. Qed.

(** The pump is scheduled, unless it is already. *)
Definition later (ms : Z) (t : ptr Z) : ptr Z := Some (default ms t).

Lemma wp_schedule ms Q d p sc o sw t q :
  Q () (X d p sc o sw (later ms t) q) → wp (schedule_pump_soon ms) Q (X d p sc o sw t q).
Proof using Type. destruct q, t; done. Qed.

(** What a step leaves of the device: all but the finger status and the match. *)
Record dsame (d d' : fp_device) : Prop := {
  ds_open : d_open d' = d_open d;
  ds_action : d_action d' = d_action d;
  ds_cancelled : d_cancelled d' = d_cancelled d;
  ds_connected : d_connected d' = d_connected d;
  ds_idle : d_idle_cancel d' = d_idle_cancel d;
  ds_returns : d_returns d' = d_returns d;
  ds_stages : d_enroll_stages d' = d_enroll_stages d;
  ds_power : d_power d' = d_power d
}.
(** The device whose action ended: its completion waits for the main loop. *)
Record dended (d d' : fp_device) : Prop := {
  de_open : d_open d' = d_open d;
  de_action : d_action d' = d_action d;
  de_connected : d_connected d' = false;
  de_idle : d_idle_cancel d' = false;
  de_returns : ∃ r, d_returns d' = d_returns d ++ [r];
  de_stages : d_enroll_stages d' = d_enroll_stages d;
  de_power : d_power d' = d_power d
}.

Lemma dsame_refl d : dsame d d.
Proof using Type. done. Qed.
Lemma dsame_trans d1 d2 d3 : dsame d1 d2 → dsame d2 d3 → dsame d1 d3.
Proof using Type. intros [] []. split; congruence. Qed.
Lemma dended_same d1 d2 d3 : dsame d1 d2 → dended d2 d3 → dended d1 d3.
Proof using Type. intros [] []. split; try congruence. by rewrite <- ds_returns0. Qed.
Lemma dended_then d1 d2 d3 : dended d1 d2 → dsame d2 d3 → dended d1 d3.
Proof using Type. intros [] []. split; try congruence. by rewrite ds_returns0. Qed.

(** What the temperature model may change besides: the cancellation of the action. *)
Record dheated (d d' : fp_device) : Prop := {
  dh_open : d_open d' = d_open d;
  dh_action : d_action d' = d_action d;
  dh_connected : d_connected d' = d_connected d;
  dh_idle : d_connected d = false → d_idle_cancel d' = d_idle_cancel d;
  dh_returns : d_returns d' = d_returns d;
  dh_stages : d_enroll_stages d' = d_enroll_stages d;
  dh_power : d_power d' = d_power d
}.

Lemma wp_update_temp b Q d p sc o sw t q :
  (∀ d', dheated d d' → Q () (X d' p sc o sw t q)) → wp (fpi_device_update_temp b) Q (X d p sc o sw t q).
Proof using Type.
  intros HQ. unfold fpi_device_update_temp. apply wp_bind, wp_dev. destruct (temp_of _ _ _) as [cur ahead].
  apply wp_bind, wp_mod_dev. destruct (_ && _); cbn [when]; [|by apply wp_ret, HQ].
  apply wp_bind, wp_mod_dev, wp_mod_dev, HQ. cbn [d_cancelled set_reason set_temp]. destruct (d_cancelled d); [done|].
  split; try done. cbn. by intros ->.
Qed.

Lemma wp_status_changes a b Q d p sc o sw t q :
  (∀ d', dsame d d' → Q () (X d' p sc o sw t q)) →
  wp (fpi_device_report_finger_status_changes a b) Q (X d p sc o sw t q).
Proof using Type. intros HQ. by apply HQ. Qed.

(** ** Completing an action *)

Definition kept (error : option gerror) (p : FpImageDevicePrivate) : FpImageDevicePrivate :=
  match error with
  | None => p
  | Some e =>
    match p_action_error p with
    | Some e0 => if is_retry e0 then set_action_error (Some e) p else p
    | None => set_action_error (Some e) p
    end
  end.

Lemma wp_keep error Q d p sc o sw t q :
  Q () (X d (kept error p) sc o sw t q) → wp (keep_error error) Q (X d p sc o sw t q).
Proof using Type.
  intros HQ. unfold keep_error, kept in *. destruct error as [e|]; [|done]. apply wp_bind, wp_priv.
  destruct (p_action_error p) as [e0|]; [|done]. by destruct (is_retry e0).
Qed.

(** The action goes on; or it is over, and the error with it. *)
Definition completes (d : fp_device) (p : FpImageDevicePrivate) (d' : fp_device) (p' : FpImageDevicePrivate) : Prop :=
  if p_active p || p_scan_active p then d' = d ∧ p' = p
  else dended d d' ∧ ∃ i, p' = set_capture_image i (set_action_error None p).

Lemma wp_complete a r Q d p sc o sw t q :
  d_action d = a → (∀ d', dended d d' → Q () (X d' p sc o sw t q)) → wp (complete a r) Q (X d p sc o sw t q).
Proof using Type.
  intros <- HQ. unfold complete. apply wp_bind, wp_dev. rewrite bool_decide_eq_true_2 by done. cbn [return_if_fail].
  apply wp_bind, wp_mod_dev, wp_bind, wp_mod_dev, wp_mod_dev. apply HQ. split; try done. by eexists.
Qed.

Lemma wp_action_error e Q d p sc o sw t q :
  is_capture (d_action d) = true → (∀ d', dended d d' → Q () (X d' p sc o sw t q)) →
  wp (fpi_device_action_error e) Q (X d p sc o sw t q).
Proof using Type.
  intros Hc HQ. unfold fpi_device_action_error. apply wp_bind, wp_dev.
  destruct (d_action d) eqn:Ha; try done; by apply wp_complete.
Qed.

Lemma wp_maybe_complete error Q d p sc o sw t q :
  is_capture (d_action d) = true → (∀ d' p', completes d (kept error p) d' p' → Q () (X d' p' sc o sw t q)) →
  wp (fp_image_device_maybe_complete_action error) Q (X d p sc o sw t q).
Proof using Type.
  intros Hc HQ. unfold fp_image_device_maybe_complete_action. apply wp_bind, wp_keep, wp_bind, wp_priv.
  set (p1 := kept error p) in *. unfold completes in HQ. destruct (p_active p1 || p_scan_active p1) eqn:Hb.
  { apply wp_ret. by apply HQ. }
  assert (Hne : d_action d ≠ FPI_DEVICE_ACTION_NONE) by (intros Ha; by rewrite Ha in Hc).
  assert (Herr : ∀ p2 e, p_action_error p2 = Some e → set_action_error None p2 = set_action_error None p1 →
    wp (mod_priv (set_action_error None);; fpi_device_action_error e;; mod_priv (set_capture_image None)) Q
       (X d p2 sc o sw t q)).
  { intros p2 e _ Heq. apply wp_bind, wp_mod_priv, wp_bind, wp_action_error; [done|]. intros d' Hd'. apply wp_mod_priv.
    apply HQ. split; [done|]. exists None. by rewrite Heq. }
  assert (Hend : ∀ d' i, dended d d' → p_action_error p1 = None → Q () (X d' (set_capture_image i p1) sc o sw t q)).
  { intros d' i Hd' He. apply HQ. split; [done|]. exists i. destruct p1; cbn in *; by subst. }
  apply wp_bind. destruct (p_action_error p1) as [e|] eqn:He.
  { rewrite bool_decide_eq_false_2 by done. apply wp_ret, wp_bind, wp_priv. rewrite He. by apply (Herr p1 e). }
  rewrite bool_decide_eq_true_2 by done. apply wp_bind. unfold fpi_device_get_cancellable. apply wp_bind, wp_dev.
  rewrite bool_decide_eq_false_2 by done. apply wp_ret. cbn [default from_option id]. destruct (d_cancelled d).
  { apply wp_mod_priv, wp_bind, wp_priv. cbn [p_action_error set_action_error]. by eapply Herr. }
  apply wp_ret, wp_bind, wp_priv. rewrite He. apply wp_bind, wp_action.
  assert (Hsame : ∀ d', dended d d' → Q () (X d' p1 sc o sw t q)).
  { intros d' Hd'. pose proof (Hend d' (p_capture_image p1) Hd' eq_refl) as HQ'. by destruct p1. }
  destruct (d_action d) eqn:Ha; try done; try (by apply wp_complete).
  apply wp_bind, wp_mod_priv, wp_complete; [done|]. intros d' Hd'. by apply Hend.
Qed.

(** ** Changes of state that ask nothing *)

Abbreviation cls n := (gxfp_class fuel n).

Definition quiet_state (st : FpiImageDeviceState) : bool :=
  match st with
  | FPI_IMAGE_DEVICE_STATE_AWAIT_FINGER_ON | FPI_IMAGE_DEVICE_STATE_CAPTURE | FPI_IMAGE_DEVICE_STATE_AWAIT_FINGER_OFF => false
  | _ => true
  end.
Definition quiet_mode (st : FpiImageDeviceState) (m : gxfp_session_mode) : gxfp_session_mode :=
  match m, st with
  | GXFP_MODE_FAILED, _ => m
  | _, FPI_IMAGE_DEVICE_STATE_INACTIVE => GXFP_MODE_READY
  | _, _ => GXFP_MODE_IDLE
  end.

Lemma handle_none_wp n Q w : Q () w → wp (handle_session_events (cls n) events_zero) Q w.
Proof using Type. done. Qed.

Lemma failed_change_wp n st Q d p sc o sw t q :
  sess_in GXFP_MODE_FAILED sw →
  (∀ sw', sess_in GXFP_MODE_FAILED sw' → Q () (X d p sc o sw' t q)) →
  wp (gxfp_change_state (cls n) fuel st) Q (X d p sc o sw t q).
Proof using Type.
  intros (l & c & s & e & -> & Hc & Hs & Hm) HQ. unfold gxfp_change_state. apply wp_bind, wp_with_events.
  eapply wp_eq; [by apply inert_state_run; right|]. do 4 eexists. split; [done|]. apply handle_none_wp, HQ. by exists l, c, s, events_zero.
Qed.

Lemma driver_quiet_wp n st m Q d p sc o sw t q :
  quiet_state st = true → sess_in m sw →
  (∀ sw', sess_in (quiet_mode st m) sw' → (up sw → up sw') → Q () (X d p sc o sw' t q)) →
  wp (gxfp_change_state (cls n) fuel st) Q (X d p sc o sw t q).
Proof using Type.
  intros Hst (l & c & s & e & -> & Hc & Hs & Hm) HQ. unfold gxfp_change_state.
  destruct (decide (m = GXFP_MODE_FAILED)) as [->|Hf].
  { apply wp_bind, wp_with_events. eapply wp_eq; [by apply inert_state_run; right|]. do 4 eexists. split; [done|].
    apply handle_none_wp, HQ; [by exists l, c, s, events_zero|]. intros Hu. by apply up_W, (Hu l c s e). }
  apply wp_bind, wp_with_events.
  assert (Hq : new_state st = GXFP_SESSION_STATE_IDLE ∨ new_state st = GXFP_SESSION_STATE_INACTIVE)
    by (destruct st; try done; auto).
  destruct (change_quiet_run fuel (new_state st) l c s Hs) as (s' & Er & Hs' & Hv & Hm'); [congruence|done|].
  eapply wp_eq; [exact Er|]. do 4 eexists. split; [done|]. apply handle_none_wp, HQ.
  - exists l, c, s', events_zero. do 3 (split; [done|]). rewrite Hm'. destruct st; try done; by destruct m.
  - intros Hu. apply up_W. unfold alive. rewrite Hv. by apply (Hu l c s e).
Qed.

(** What [change_state] does around the driver, for a state without a finger status. *)
Lemma change_quiet_wp n st m Q d p sc o sw t q :
  quiet_state st = true → sess_in m sw →
  (∀ o' sw', sess_in (quiet_mode st m) sw' → (up sw → up sw') → Q () (X d (set_state st p) sc o' sw' t q)) →
  wp (fp_image_device_change_state (cls (S n)) st) Q (X d p sc o sw t q).
Proof using Type.
  intros Hst Hsw HQ. unfold fp_image_device_change_state. apply wp_bind, wp_priv, wp_bind.
  assert (Hgo : ∀ o', wp (mod_priv (set_state st);; cls_change_state (cls (S n)) st;;
    match st with
    | FPI_IMAGE_DEVICE_STATE_AWAIT_FINGER_ON => fpi_device_report_finger_status_changes FP_FINGER_STATUS_NEEDED FP_FINGER_STATUS_NONE
    | FPI_IMAGE_DEVICE_STATE_AWAIT_FINGER_OFF => fpi_device_report_finger_status_changes FP_FINGER_STATUS_NONE FP_FINGER_STATUS_NEEDED
    | _ => mret ()
    end) Q (X d p sc o' sw t q)).
  { intros o'. apply wp_bind, wp_mod_priv, wp_bind. cbn [gxfp_class cls_change_state].
    apply (driver_quiet_wp n st m); [done|done|]. intros sw' Hsw' Hu.
    destruct st; try done; apply wp_ret; by apply HQ. }
  destruct (negb _); [apply wp_out|apply wp_ret]; apply Hgo.
Qed.

(** ** Deactivating *)

Definition off (p : FpImageDevicePrivate) : FpImageDevicePrivate :=
  set_state FPI_IMAGE_DEVICE_STATE_INACTIVE (set_active false false p).

Lemma deactivate_complete_wp n m Q d p sc o sw t q :
  p_active p = true → p_state p = FPI_IMAGE_DEVICE_STATE_DEACTIVATING → is_capture (d_action d) = true → sess_in m sw →
  (∀ d' p' o' sw', completes d (off p) d' p' → sess_in (quiet_mode FPI_IMAGE_DEVICE_STATE_INACTIVE m) sw' →
     Q () (X d' p' sc o' sw' t q)) →
  wp (fpi_image_device_deactivate_complete (cls (S n)) None) Q (X d p sc o sw t q).
Proof using Type.
  intros Ha Hst Hc Hsw HQ. unfold fpi_image_device_deactivate_complete. apply wp_bind, wp_priv.
  rewrite Ha, Hst, bool_decide_eq_true_2 by done. cbn [return_if_fail]. apply wp_bind, wp_mod_priv, wp_bind.
  apply (change_quiet_wp n _ m); [done|done|]. intros o' sw' Hsw' _.
  apply wp_maybe_complete; [done|]. intros d' p' Hco. by eapply HQ.
Qed.

Lemma deactivate_driver_wp n m Q d p sc o sw t q :
  p_active p = true → p_state p = FPI_IMAGE_DEVICE_STATE_DEACTIVATING → is_capture (d_action d) = true → sess_in m sw →
  (∀ d' p' o' sw', completes d (off p) d' p' → sess_in GXFP_MODE_READY sw' → Q () (X d' p' sc o' sw' None q)) →
  wp (gxfp_deactivate (cls (S n)) fuel) Q (X d p sc o sw t q).
Proof using EO CO.
  intros Ha Hst Hc (l & c & s & e & -> & Hcs & Hs & Hm) HQ. unfold gxfp_deactivate.
  apply wp_bind, wp_timer, wp_bind, wp_with_events.
  eapply wp_mono; [by apply deactivate_wp; [left|..]|]. intros r w' (s' & -> & Hs' & Hm'). cbn beta.
  do 4 eexists. split; [done|]. cbn [fst snd].
  assert (Hr : s_mode s' = GXFP_MODE_READY) by (rewrite Hm'; pose proof (l_mode s l Hs); by destruct (s_mode s)).
  assert (Hin : sess_in GXFP_MODE_READY (W l c s' (ev_done false true false (ev_cancel events_zero)))).
  { do 4 eexists. split; [done|]. split; [done|]. split; [|done]. destruct Hs' as [?|(Hcl & _)]; [done|].
    pose proof (c_mode s' Hcl). congruence. }
  unfold handle_session_events. cbn [ev_done ev_cancel events_zero cancel_tick finger_status_changed image_ready session_error
    activate_complete deactivate_complete close_complete request_tick Z.eqb negb when].
  apply wp_bind, wp_timer, wp_bind, wp_ret, wp_bind, wp_ret. cbv iota. apply wp_bind, wp_ret, wp_bind, wp_bind, wp_timer.
  apply (deactivate_complete_wp n GXFP_MODE_READY); [done|done|done|exact Hin|].
  intros d' p' o' sw' Hco Hsw'. apply wp_bind, wp_ret, wp_ret. by eapply HQ.
Qed.

(** The states a device that is active is in. *)
Definition active_state (st : FpiImageDeviceState) : bool :=
  match st with
  | FPI_IMAGE_DEVICE_STATE_IDLE | FPI_IMAGE_DEVICE_STATE_AWAIT_FINGER_ON | FPI_IMAGE_DEVICE_STATE_CAPTURE
  | FPI_IMAGE_DEVICE_STATE_AWAIT_FINGER_OFF => true
  | _ => false
  end.

Lemma deactivate_active_wp n b m Q d p sc o sw t q :
  p_active p = true → active_state (p_state p) = true → is_capture (d_action d) = true → sess_in m sw →
  (∀ d' p' o' sw', completes d (off p) d' p' → sess_in GXFP_MODE_READY sw' → Q () (X d' p' sc o' sw' None q)) →
  wp (fpi_image_device_deactivate (cls (S (S n))) b) Q (X d p sc o sw t q).
Proof using EO CO.
  intros Ha Hst Hc Hsw HQ. unfold fpi_image_device_deactivate. apply wp_bind, wp_priv. rewrite Ha. cbn [negb orb].
  rewrite bool_decide_eq_false_2 by (intros Heq; by rewrite Heq in Hst). apply wp_bind.
  apply (change_quiet_wp (S n) _ m); [done|done|]. intros o' sw' Hsw' _. cbn [gxfp_class cls_deactivate].
  eapply deactivate_driver_wp; [done|done|done|exact Hsw'|]. intros d' p' o2 sw2 Hco Hsw2. by eapply HQ.
Qed.

Lemma deactivate_inactive_wp n b Q d p sc o sw t q :
  p_active p = false → Q () (X d p sc o sw t q) → wp (fpi_image_device_deactivate (cls n) b) Q (X d p sc o sw t q).
Proof using Type.
  intros Ha HQ. unfold fpi_image_device_deactivate. apply wp_bind, wp_priv. rewrite Ha. by apply wp_ret.
Qed.

(** ** Errors of the session *)

Lemma kept_fields e p : p_active (kept e p) = p_active p ∧ p_state (kept e p) = p_state p ∧
  p_scan_active (kept e p) = p_scan_active p ∧ p_finger_present (kept e p) = p_finger_present p ∧
  p_enroll_stage (kept e p) = p_enroll_stage p.
Proof using Type. unfold kept. destruct e as [x|]; [|done]. destruct (p_action_error p) as [y|]; [by destruct (is_retry y)|done]. Qed.

(** An error takes an active device down. *)
Lemma session_error_active_wp n m Q d p sc o sw t q :
  p_active p = true → active_state (p_state p) = true → is_capture (d_action d) = true → sess_in m sw →
  (∀ d' p' o' sw', completes d (off (kept general p)) d' p' → sess_in GXFP_MODE_READY sw' → Q () (X d' p' sc o' sw' None q)) →
  wp (fpi_image_device_session_error (cls (S (S n))) general) Q (X d p sc o sw t q).
Proof using EO CO.
  intros Ha Hst Hc Hsw HQ. unfold fpi_image_device_session_error. cbv zeta.
  apply wp_bind, wp_priv. rewrite Ha. cbn [negb]. apply wp_bind. cbn [general default from_option id].
  rewrite bool_decide_eq_false_2 by done. apply wp_ret. cbv iota.
  rewrite bool_decide_eq_false_2 by (intros Heq; by rewrite Heq in Hst).
  apply wp_bind, wp_maybe_complete; [done|]. intros d' p' Hco. fold general in Hco.
  destruct (kept_fields general p) as (Ka & Ks & _). unfold completes in Hco. rewrite Ka, Ha in Hco. cbn [orb] in Hco.
  destruct Hco as (-> & ->). apply (deactivate_active_wp n true m); [by rewrite Ka|by rewrite Ks|done|done|exact HQ].
Qed.

(** ** Changes of state that wait for something *)

Lemma handle_tick_wp n ms Q d p sc o sw t q :
  Q () (X d p sc o sw (later ms t) q) → wp (handle_session_events (cls n) (ev_tick ms events_zero)) Q (X d p sc o sw t q).
Proof using Type.
  intros HQ. unfold handle_session_events. do 3 (apply wp_bind, wp_ret). do 3 (apply wp_bind, wp_ret).
  by apply wp_schedule.
Qed.

(** An error, and nothing else, on a device that is active. *)
Lemma handle_error_wp n m r tg e0 Q d p sc o sw t q :
  p_active p = true → active_state (p_state p) = true → is_capture (d_action d) = true → sess_in m sw →
  tg ≠ GXFP_SESSION_ERR_TARGET_ACTIVATE → ticked events_zero e0 →
  (∀ d' p' o' sw', completes d (off (kept general p)) d' p' → sess_in GXFP_MODE_READY sw' → Q () (X d' p' sc o' sw' None q)) →
  wp (handle_session_events (cls (S (S n))) (ev_error r tg e0)) Q (X d p sc o sw t q).
Proof using EO CO.
  intros Ha Hst Hc Hsw Ht He HQ. unfold handle_session_events.
  assert (Hz : cancel_tick (ev_error r tg e0) = 0 ∧ finger_status_changed (ev_error r tg e0) = 0 ∧
    image_ready (ev_error r tg e0) = 0) by (destruct He as [->|(k & ->)]; done).
  destruct Hz as (-> & -> & ->). cbn [ev_error session_error error_target]. do 3 (apply wp_bind, wp_ret). cbn [Z.eqb negb].
  apply wp_bind, wp_timer. rewrite bool_decide_eq_false_2 by done. by eapply session_error_active_wp.
Qed.

Lemma driver_wait_wp n st m mw Q d p sc o sw t q :
  wait_mode (new_state st) = Some mw → sess_in m sw → up sw → m ≠ GXFP_MODE_FAILED →
  p_active p = true → active_state (p_state p) = true → is_capture (d_action d) = true →
  (∀ sw', sess_in mw sw' → up sw' → Q () (X d p sc o sw' (later 0 t) q)) →
  (∀ d' p' o' sw', completes d (off (kept general p)) d' p' → sess_in GXFP_MODE_READY sw' → Q () (X d' p' sc o' sw' None q)) →
  wp (gxfp_change_state (cls (S (S n))) fuel st) Q (X d p sc o sw t q).
Proof using EO CO B Hfuel.
  intros Hst (l & c & s & e & -> & Hcs & Hs & Hm) Hu Hf Ha Has Hc Hok Hbad. unfold gxfp_change_state.
  apply wp_bind, wp_with_events. eapply wp_mono; [apply (change_wait_reports fuel (new_state st) mw l c s Hs Hcs); [clear -Hfuel; lia|by rewrite Hm|by apply (Hu l c s e)|exact Hst]|].
  - intros r w' (l' & c' & s' & e' & -> & _ & Hcs' & Hs' & Hr). do 4 eexists. split; [done|]. cbn [fst snd].
    destruct Hr as [(Hm' & Ha' & ->)|(Hm' & r' & tg & Htg & ->)].
    + apply handle_tick_wp, Hok; [by exists l', c', s', (ev_tick 0 events_zero)|by apply up_W].
    + eapply handle_error_wp; [done|done|done| |done|by left|exact Hbad].
      exists l', c', s'. eexists. split; [done|]. done.
Qed.

(** The device and the image device after a change of state that failed. *)
Definition settles (d : fp_device) (p : FpImageDevicePrivate) (d' : fp_device) (p' : FpImageDevicePrivate) : Prop :=
  ∃ d1, completes d p d1 p' ∧ dsame d1 d'.

Lemma change_any_wp n st Q d p sc o sw t q :
  quiet_state st = false →
  (∀ o', wp (gxfp_change_state (cls n) fuel st) (λ _ w', ∃ d1 p1 sc1 o1 sw1 t1 q1, w' = X d1 p1 sc1 o1 sw1 t1 q1 ∧
     ∀ d2, dsame d1 d2 → Q () (X d2 p1 sc1 o1 sw1 t1 q1)) (X d (set_state st p) sc o' sw t q)) →
  wp (fp_image_device_change_state (cls (S n)) st) Q (X d p sc o sw t q).
Proof using Type.
  intros Hst Hgo. unfold fp_image_device_change_state. apply wp_bind, wp_priv, wp_bind.
  assert (Hrest : ∀ o', wp (mod_priv (set_state st);; cls_change_state (cls (S n)) st;;
    match st with
    | FPI_IMAGE_DEVICE_STATE_AWAIT_FINGER_ON => fpi_device_report_finger_status_changes FP_FINGER_STATUS_NEEDED FP_FINGER_STATUS_NONE
    | FPI_IMAGE_DEVICE_STATE_AWAIT_FINGER_OFF => fpi_device_report_finger_status_changes FP_FINGER_STATUS_NONE FP_FINGER_STATUS_NEEDED
    | _ => mret ()
    end) Q (X d p sc o' sw t q)).
  { intros o'. apply wp_bind, wp_mod_priv, wp_bind. cbn [gxfp_class cls_change_state].
    eapply wp_mono; [apply Hgo|]. intros ? w' (d1 & p1 & sc1 & o1 & sw1 & t1 & q1 & -> & HQ).
    destruct st; try done; [by apply wp_status_changes|by apply wp_ret, HQ|by apply wp_status_changes]. }
  destruct (negb _); [apply wp_out|apply wp_ret]; apply Hrest.
Qed.

Lemma change_wait_wp n st m mw Q d p sc o sw t q :
  wait_mode (new_state st) = Some mw → sess_in m sw → up sw → m ≠ GXFP_MODE_FAILED →
  p_active p = true → is_capture (d_action d) = true →
  (∀ d' o' sw', dsame d d' → sess_in mw sw' → up sw' → Q () (X d' (set_state st p) sc o' sw' (later 0 t) q)) →
  (∀ d' p' o' sw', settles d (off (kept general p)) d' p' → sess_in GXFP_MODE_READY sw' → Q () (X d' p' sc o' sw' None q)) →
  wp (fp_image_device_change_state (cls (S (S (S n)))) st) Q (X d p sc o sw t q).
Proof using EO CO B Hfuel.
  intros Hst Hsw Hu Hm Ha Hc Hok Hbad. apply change_any_wp; [by destruct st|]. intros o'.
  apply (driver_wait_wp n st m mw); try done.
  - by destruct st.
  - intros sw' Hsw' Hu'. do 7 eexists. split; [done|]. intros d2 Hd2. by apply Hok.
  - intros d' p' o2 sw2 Hco Hsw2. do 7 eexists. split; [done|]. intros d2 Hd2. apply Hbad; [|done].
    exists d'. split; [|done]. unfold kept in Hco |- *. cbn [general p_action_error set_state] in *.
    by destruct (p_action_error p) as [e0|]; [destruct (is_retry e0)|].
Qed.

Lemma change_failed_wp n st Q d p sc o sw t q :
  quiet_state st = false → sess_in GXFP_MODE_FAILED sw →
  (∀ d' o' sw', dsame d d' → sess_in GXFP_MODE_FAILED sw' → Q () (X d' (set_state st p) sc o' sw' t q)) →
  wp (fp_image_device_change_state (cls (S n)) st) Q (X d p sc o sw t q).
Proof using Type.
  intros Hst Hsw HQ. apply change_any_wp; [done|]. intros o'. apply failed_change_wp; [done|].
  intros sw' Hsw'. do 7 eexists. split; [done|]. intros d2 Hd2. by apply HQ.
Qed.
End driver_rules.
