(* ===== verification/LDriverInv.v ===== *)
(** The driver and the image device together: what their states are in each phase of an
    action, and that every event of the session leads to such a state again. *)
From Stdlib Require Import ZArith Lia.
From stdpp Require Import prelude list.
From S2P Require Import Prelude KGoodixProto KUapi UGoodixProto UWorld UDev UCommon UXfer USensorCfg UCmds.
From S2P Require Import UDecoder UPlain UFdt UFpn UTls UTlsSvc USession USessionCalls USessionRun USessionEvents.
From S2P Require Import LImage LDriver LDriverRun.

Open Scope Z_scope.

(** * The invariant *)

Section phases.
Context {E : Uenv} {T : Mbedtls} {TO : MbedtlsOk T}.

(** The handlers that end a suspend. *)
Definition power_handlers (l : list completed_handler) : list completed_handler :=
  filter (λ h, h ≠ EmitRemoved) l.

(** A suspend is under way as long as the handler that ends it is to run. *)
Definition pending (l : list completed_handler) (m : power_state) : Prop :=
  suspend_resume_task m = false ∧ suspend_error m = None ∧ power_handlers l = [] ∨
  suspend_resume_task m = true ∧ suspend_error m = None ∧ power_handlers l = [CompleteSuspendResume] ∨
  suspend_resume_task m = true ∧ power_handlers l = [SuspendCompleted].

(** Nothing is connected without an action, and a suspended device neither opens nor closes. *)
Record power_ok (a : FpiDeviceAction) (m : power_state) : Prop := {
  pw_suspended : is_suspended m = true → a ≠ FPI_DEVICE_ACTION_OPEN ∧ a ≠ FPI_DEVICE_ACTION_CLOSE;
  pw_none : a = FPI_DEVICE_ACTION_NONE → on_completed m = [];
  pw_pending : pending (on_completed m) m
}.

(** What the handlers show. *)
Definition power_out (o : dev_out) : Prop := match o with OutPower _ | OutRemoved => True | _ => False end.

Lemma run_completed_wp l (Q : () → dworld → Prop) d p sc o sw t q :
  pending l (d_power d) →
  (∀ m after, pending [] m → on_completed m = on_completed (d_power d) → Forall power_out after →
     Q () (X (set_power m d) p sc (o ++ after) sw t q)) →
  wp (run_completed l) Q (X d p sc o sw t q).
Proof using Type.
  revert d o. induction l as [|h l IH]; intros d o Hp HQ; cbn [run_completed].
  { apply wp_ret. pose proof (HQ (d_power d) [] Hp eq_refl (Forall_nil_2 _)) as H. rewrite app_nil_r in H. by destruct d. }
  assert (Hgo : ∀ m x, pending l m → on_completed m = on_completed (d_power d) → power_out x →
    wp (run_completed l) Q (X (set_power m d) p sc (o ++ [x]) sw t q)).
  { intros m x Hm Hon Hx. apply IH; [exact Hm|]. intros m' after Hm' Hon' Ha. rewrite <- (assoc_L (++)).
    apply (HQ m'); [done|by rewrite Hon'|by constructor]. }
  apply wp_bind. destruct h; unfold pending, power_handlers in Hp; rewrite filter_cons in Hp.
  - apply wp_out. assert (H : pending l (d_power d)) by exact Hp. apply (Hgo _ OutRemoved) in H; [|done..]. by destruct d.
  - rewrite decide_True in Hp by done. destruct Hp as [(_ & _ & ?)|[(Ht & He & [= Hl])|(_ & [=])]]; [done|].
    unfold complete_suspend_resume_task. apply wp_bind, wp_dev, wp_bind. rewrite Ht. apply wp_ret, wp_bind, wp_mod_dev, wp_out, Hgo; [|done..].
    left. by split_and!.
  - rewrite decide_True in Hp by done. destruct Hp as [(_ & _ & ?)|[(_ & _ & [=])|(Ht & [= Hl])]]; [done|].
    unfold fpi_device_suspend_completed. apply wp_bind, wp_dev, wp_bind, wp_mod_dev. rewrite Ht. apply wp_out, Hgo; [|done..].
    left. by split_and!.
Qed.

(** An action that captures is under way. *)
Record busy (d : fp_device) (p : FpImageDevicePrivate) (sc : list fp_image) : Prop := {
  bu_action : is_capture (d_action d) = true;
  bu_open : d_open d = true;
  bu_connected : d_connected d = true;
  bu_returns : d_returns d = [];
  bu_stages : 0 <= p_enroll_stage p < d_enroll_stages d;
  bu_power : power_ok (d_action d) (d_power d);
  bu_scans : length sc = if p_scan_active p then 1%nat else 0%nat
}.

(** What the image device and the mode of the session are in each state. *)
Definition phase (d : fp_device) (p : FpImageDevicePrivate) (m : gxfp_session_mode) : Prop :=
  match p_state p with
  | FPI_IMAGE_DEVICE_STATE_ACTIVATING =>
    p_active p = false ∧ p_scan_active p = false ∧ p_finger_present p = false ∧ p_action_error p = None ∧ activating m = true
  | FPI_IMAGE_DEVICE_STATE_IDLE =>
    p_active p = true ∧ p_scan_active p = true ∧ p_finger_present p = false ∧ d_action d = FPI_DEVICE_ACTION_ENROLL ∧
    m = GXFP_MODE_IDLE
  | FPI_IMAGE_DEVICE_STATE_AWAIT_FINGER_ON =>
    p_active p = true ∧ p_scan_active p = false ∧ p_finger_present p = false ∧ m = GXFP_MODE_WAIT_FINGER_ON
  | FPI_IMAGE_DEVICE_STATE_CAPTURE =>
    p_active p = true ∧ p_scan_active p = false ∧ p_finger_present p = true ∧ m = GXFP_MODE_CAPTURING
  | FPI_IMAGE_DEVICE_STATE_AWAIT_FINGER_OFF =>
    p_active p = true ∧ p_finger_present p = true ∧ m = GXFP_MODE_WAIT_FINGER_OFF
  | FPI_IMAGE_DEVICE_STATE_INACTIVE =>
    p_active p = false ∧ p_scan_active p = true ∧ p_finger_present p = false ∧ m = GXFP_MODE_READY
  | FPI_IMAGE_DEVICE_STATE_DEACTIVATING => False
  end.

(** The states in which the pump is to come. *)
Definition ticking (p : FpImageDevicePrivate) : bool :=
  match p_state p with
  | FPI_IMAGE_DEVICE_STATE_IDLE | FPI_IMAGE_DEVICE_STATE_INACTIVE => false
  | _ => true
  end.

Definition running (d : fp_device) (p : FpImageDevicePrivate) (sc : list fp_image) (sw : sworld) : Prop :=
  busy d p sc ∧ ∃ m, phase d p m ∧ sess_in m sw ∧ (m ≠ GXFP_MODE_READY → up sw).

(** Nothing is going on. *)
Record resting (p : FpImageDevicePrivate) (sc : list fp_image) : Prop := {
  re_active : p_active p = false;
  re_scan : p_scan_active p = false;
  re_finger : p_finger_present p = false;
  re_error : p_action_error p = None;
  re_state : p_state p = FPI_IMAGE_DEVICE_STATE_INACTIVE ∨ p_state p = FPI_IMAGE_DEVICE_STATE_ACTIVATING;
  re_scans : sc = []
}.
Definition still (sw : sworld) : Prop := sess_in GXFP_MODE_READY sw ∨ sess_in GXFP_MODE_FAILED sw.

(** The action is over, its completion waits. *)
Record ended (d : fp_device) (p : FpImageDevicePrivate) (sc : list fp_image) (sw : sworld) : Prop := {
  en_action : is_capture (d_action d) = true;
  en_open : d_open d = true;
  en_connected : d_connected d = false;
  en_idle : d_idle_cancel d = false;
  en_returns : ∃ r, d_returns d = [r];
  en_stages : 0 < d_enroll_stages d;
  en_power : power_ok (d_action d) (d_power d);
  en_resting : resting p sc;
  en_sess : still sw
}.

(** An action that captures, at any point between two sources of the main loop; [b]: whether
    the pump is scheduled where it has to be. *)
Definition acting (b : bool) (d : fp_device) (p : FpImageDevicePrivate) (sc : list fp_image) (sw : sworld) (t : ptr Z) : Prop :=
  running d p sc sw ∧ (b = true → ticking p = true → is_Some t) ∨ ended d p sc sw.

(** The device was taken down: a scan is to finish, or nothing is left to do. *)
Definition downed (d : fp_device) (p : FpImageDevicePrivate) (sc : list fp_image) (sw : sworld) : Prop :=
  p_active p = false ∧ p_state p = FPI_IMAGE_DEVICE_STATE_INACTIVE ∧ (running d p sc sw ∨ ended d p sc sw).

Lemma downed_acting b d p sc sw t : downed d p sc sw → acting b d p sc sw t.
Proof using Type. intros (_ & Hst & [Hr|He]); [left|by right]. split; [done|]. unfold ticking. by rewrite Hst. Qed.

Lemma busy_same d d' p sc : dsame d d' → busy d p sc → busy d' p sc.
Proof using Type. intros [] []. split; congruence. Qed.
Lemma ended_same d d' p sc sw : dsame d d' → ended d p sc sw → ended d' p sc sw.
Proof using Type. intros [] []. split; try congruence. by rewrite ds_returns. Qed.
Lemma running_heated d d' p sc sw : dheated d d' → running d p sc sw → running d' p sc sw.
Proof using Type.
  intros [Ho Ha Hc Hi Hr Hs Hp] ([] & m & Hph & Hm). split; [split; congruence|]. exists m. split; [|done].
  unfold phase in *. by rewrite Ha.
Qed.
Lemma acting_heated b d d' p sc sw t : dheated d d' → acting b d p sc sw t → acting b d' p sc sw t.
Proof using Type.
  intros Hd [(Hrun & Ht)|[]]; [left|right]; [by split; [eapply running_heated|]|].
  destruct Hd as [Ho Ha Hc Hi Hr Hs Hp]. split; try congruence; [rewrite Hi; congruence|by rewrite Hr].
Qed.
Lemma running_same d d' p sc sw : dsame d d' → running d p sc sw → running d' p sc sw.
Proof using Type.
  intros Hd (Hb & m & Hp & Hm). split; [by eapply busy_same|]. exists m. split; [|done].
  unfold phase in *. by rewrite (ds_action _ _ Hd).
Qed.
Lemma downed_same d d' p sc sw : dsame d d' → downed d p sc sw → downed d' p sc sw.
Proof using Type.
  intros Hd (Ha & Hs & Hr). split; [done|]. split; [done|]. destruct Hr; [left|right]; [by eapply running_same|by eapply ended_same].
Qed.

(** Assignments that keep an action going. *)
Lemma busy_priv d p p' sc :
  p_scan_active p' = p_scan_active p → p_enroll_stage p' = p_enroll_stage p → busy d p sc → busy d p' sc.
Proof using Type. intros Hs He []. by split; rewrite ?Hs, ?He. Qed.

Lemma dended_ended d p0 p d' i sw :
  busy d p0 [] → dended d d' →
  p_active p = false → p_scan_active p = false → p_finger_present p = false → p_state p = FPI_IMAGE_DEVICE_STATE_INACTIVE →
  still sw → ended d' (set_capture_image i (set_action_error None p)) [] sw.
Proof using Type.
  intros [? ? ? Hr [? ?] ?] [] Ha Hs Hf Hst Hsw. split; try congruence.
  - by rewrite Hr in de_returns.
  - rewrite de_stages. by eapply Z.le_lt_trans.
  - split; try done. by left.
Qed.

Lemma settles_downed d p e d' p' sc sw :
  busy d p sc → settles d (off (kept e p)) d' p' → sess_in GXFP_MODE_READY sw → downed d' p' sc sw.
Proof using Type.
  intros Hb (d1 & Hco & Hd) Hsw. apply (downed_same d1); [done|]. unfold completes in Hco.
  destruct (kept_fields e p) as (_ & _ & Hsc & _ & Hst). cbn [off p_active p_scan_active set_state set_active orb] in Hco.
  destruct (p_scan_active (kept e p)) eqn:Hscan.
  - destruct Hco as (-> & ->). split; [done|]. split; [done|]. left. split; [by apply (busy_priv d p); cbn; [congruence|..]|].
    exists GXFP_MODE_READY. split; [|done]. by cbn.
  - destruct Hco as (Hd1 & i & ->). split; [done|]. split; [done|]. right.
    assert (sc = []) as -> by (pose proof (bu_scans _ _ _ Hb) as Hl; rewrite <- Hsc in Hl; by apply nil_length_inv).
    eapply dended_ended; [exact Hb|exact Hd1|done|done|done|done|by left].
Qed.

Lemma completes_downed d p e d' p' sc sw :
  busy d p sc → completes d (off (kept e p)) d' p' → sess_in GXFP_MODE_READY sw → downed d' p' sc sw.
Proof using Type. intros Hb Hco. apply (settles_downed d p e); [done|]. exists d'. split; [done|apply dsame_refl]. Qed.
End phases.

(** * The image *)

Definition filled (px : list Z) (k : Z) : list Z := (gray <$> ztake k px) ++ zeros (zlen px - k).

Lemma filled_next px k :
  0 <= k < zlen px → (p ← rd px k; wr (filled px k) k (gray p)) = Some (filled px (k + 1)).
Proof.
  intros Hk. rewrite rd_total by done. cbn [mbind option_bind].
  assert (Hl : px !! Z.to_nat k = Some (default 0 (px !! Z.to_nat k))).
  { destruct (lookup_lt_is_Some_2 px (Z.to_nat k)) as (x & ->); [unfold zlen in Hk; lia|done]. }
  assert (Hlen : zlen (gray <$> ztake k px) = k).
  { unfold zlen, ztake. rewrite length_fmap, length_take. unfold zlen in Hk. lia. }
  unfold filled. replace (zeros (zlen px - k)) with (0 :: zeros (zlen px - (k + 1))).
  - rewrite wr_app by done. f_equal. unfold ztake.
    replace (Z.to_nat (k + 1)) with (S (Z.to_nat k)) by lia. rewrite (take_S_r _ _ _ Hl), fmap_app, <- app_assoc. done.
  - unfold zeros. replace (Z.to_nat (zlen px - k)) with (S (Z.to_nat (zlen px - (k + 1)))) by lia. done.
Qed.

(** The loops fill the image with the pixels, one byte for each. *)
Lemma fill_image_some rows cols px :
  0 <= rows → 0 <= cols → zlen px = rows * cols →
  fill_image rows cols px (zeros (cols * rows)) = Some (gray <$> px).
Proof.
  intros Hr Hc Hl. unfold fill_image.
  assert (Hrow : ∀ y d, 0 <= y < rows → d = filled px (y * cols) →
    ∃ d', forN (Z.to_nat cols) 0 (λ x data, p ← rd px (y * cols + x); wr data (y * cols + x) (gray p)) d = Some d' ∧
      d' = filled px ((y + 1) * cols)).
  { intros y d Hy ->.
    destruct (forN_option (λ x d, d = filled px (y * cols + x))
      (λ x data, p ← rd px (y * cols + x); wr data (y * cols + x) (gray p)) (Z.to_nat cols) 0 (filled px (y * cols)))
      as (d' & Ed & ->).
    - by rewrite Z.add_0_r.
    - intros x d Hx ->. rewrite filled_next by nia. eexists. split; [done|]. f_equal. lia.
    - rewrite Ed. eexists. split; [done|]. f_equal. lia. }
  destruct (forN_option (λ y d, d = filled px (y * cols))
    (λ y data, forN (Z.to_nat cols) 0 (λ x data, p ← rd px (y * cols + x); wr data (y * cols + x) (gray p)) data)
    (Z.to_nat rows) 0 (zeros (cols * rows))) as (d' & Ed & ->).
  - unfold filled. cbn [Z.mul]. rewrite Hl, Z.sub_0_r. by rewrite Z.mul_comm.
  - intros y d Hy ->. apply Hrow; [lia|done].
  - rewrite Ed. f_equal. unfold filled. replace ((0 + Z.of_nat (Z.to_nat rows)) * cols) with (zlen px) by (rewrite Hl; lia).
    rewrite Z.sub_diag. unfold ztake, zlen. rewrite Nat2Z.id, firstn_all. by rewrite app_nil_r.
Qed.

(** * The events *)

Section driver_events.
Context {E : Uenv} {EO : UenvOk E} {WO : UwriteOk E} {T : Mbedtls} {TO : MbedtlsOk T} {B : nat} {CO : UclockOk E B}.
Context {N : nat} {FO : UfiniteOk E N} {H : Host}.
Context (fuel : nat) (Hfuel : (2000 * B < fuel)%nat) (Hpull : (pull_fuel <= fuel)%nat) (Hdeliver : (N < fuel)%nat).
Abbreviation cls n := (gxfp_class fuel n).

(** A change to a state that waits. *)
Lemma change_acting_wp n st m mw Q d p sc o sw t q :
  busy d p sc → p_active p = true → wait_mode (new_state st) = Some mw → sess_in m sw → up sw → m ≠ GXFP_MODE_FAILED →
  phase d (set_state st p) mw →
  (∀ d' p' o' sw' t', acting true d' p' sc sw' t' → Q () (X d' p' sc o' sw' t' q)) →
  wp (fp_image_device_change_state (cls (S (S (S n)))) st) Q (X d p sc o sw t q).
Proof using EO CO Hfuel.
  intros Hb Ha Hst Hsw Hu Hm Hph HQ. apply (change_wait_wp fuel Hfuel n st m mw); try assumption; [apply Hb|..].
  - intros d' o' sw' Hd Hsw' Hu'. apply HQ. left. split; [|intros _ _; by eexists]. eapply running_same; [exact Hd|].
    split; [by apply (busy_priv d p)|]. by exists mw.
  - intros d' p' o' sw' Hse Hsw'. by eapply HQ, downed_acting, settles_downed.
Qed.

Lemma await_on_wp n m Q d p sc o sw t q :
  busy d p sc → p_active p = true → p_scan_active p = false → p_finger_present p = false →
  sess_in m sw → up sw → m ≠ GXFP_MODE_FAILED →
  (∀ d' p' o' sw' t', acting true d' p' sc sw' t' → Q () (X d' p' sc o' sw' t' q)) →
  wp (fp_image_device_change_state (cls (S (S (S n)))) FPI_IMAGE_DEVICE_STATE_AWAIT_FINGER_ON) Q (X d p sc o sw t q).
Proof using EO CO Hfuel. intros Hb Ha Hs Hf Hsw Hu Hm. by apply (change_acting_wp n _ m GXFP_MODE_WAIT_FINGER_ON). Qed.

(** ** Finger events *)

Lemma report_finger_wp c present Q d p sc o sw t q :
  is_capture (d_action d) = true → p_state p ≠ FPI_IMAGE_DEVICE_STATE_INACTIVE →
  (∀ d', dsame d d' →
   wp (if present && bool_decide (p_state p = FPI_IMAGE_DEVICE_STATE_AWAIT_FINGER_ON) then
         fp_image_device_change_state c FPI_IMAGE_DEVICE_STATE_CAPTURE
       else if negb present && bool_decide (p_state p = FPI_IMAGE_DEVICE_STATE_AWAIT_FINGER_OFF) then
         fp_image_device_change_state c FPI_IMAGE_DEVICE_STATE_IDLE;;
         if negb (bool_decide (d_action d = FPI_DEVICE_ACTION_ENROLL)) then fpi_image_device_deactivate c false
         else fp_image_device_enroll_maybe_await_finger_on c
       else mret ()) Q (X d' (set_active (p_active p) present p) sc o sw t q)) →
  wp (fpi_image_device_report_finger_status c present) Q (X d p sc o sw t q).
Proof using Type.
  intros Hc Hst HQ. unfold fpi_image_device_report_finger_status. apply wp_bind.
  assert (Hgo : ∀ a b, wp (fpi_device_report_finger_status_changes a b) (λ _ w', wp (p ← priv;
    if bool_decide (p_state p = FPI_IMAGE_DEVICE_STATE_INACTIVE) then mret () else
    action ← fpi_device_get_current_action;
    g_assert (negb (bool_decide (action = FPI_DEVICE_ACTION_OPEN)));;
    g_assert (negb (bool_decide (action = FPI_DEVICE_ACTION_CLOSE)));;
    mod_priv (λ p, set_active (p_active p) present p);;
    if present && bool_decide (p_state p = FPI_IMAGE_DEVICE_STATE_AWAIT_FINGER_ON) then
      fp_image_device_change_state c FPI_IMAGE_DEVICE_STATE_CAPTURE
    else if negb present && bool_decide (p_state p = FPI_IMAGE_DEVICE_STATE_AWAIT_FINGER_OFF) then
      fp_image_device_change_state c FPI_IMAGE_DEVICE_STATE_IDLE;;
      if negb (bool_decide (action = FPI_DEVICE_ACTION_ENROLL)) then fpi_image_device_deactivate c false
      else fp_image_device_enroll_maybe_await_finger_on c
    else mret ()) Q w') (X d p sc o sw t q)).
  { intros a b. apply wp_status_changes. intros d' Hd. apply wp_bind, wp_priv. rewrite bool_decide_eq_false_2 by done.
    apply wp_bind, wp_action. rewrite (ds_action _ _ Hd).
    rewrite (bool_decide_eq_false_2 (d_action d = FPI_DEVICE_ACTION_OPEN)) by (intros Heq; by rewrite Heq in Hc).
    rewrite (bool_decide_eq_false_2 (d_action d = FPI_DEVICE_ACTION_CLOSE)) by (intros Heq; by rewrite Heq in Hc).
    apply wp_bind, wp_ret, wp_bind, wp_ret, wp_bind, wp_mod_priv.
    by apply HQ. }
  destruct present; apply Hgo.
Qed.

(** The finger is down, and the session still waits for it: the capture begins. *)
Lemma finger_on_wp n Q d p sc o sw t q :
  busy d p sc → p_state p = FPI_IMAGE_DEVICE_STATE_AWAIT_FINGER_ON → p_active p = true → p_scan_active p = false →
  sess_in GXFP_MODE_WAIT_FINGER_ON sw → up sw →
  (∀ d' p' o' sw' t', acting true d' p' sc sw' t' → Q () (X d' p' sc o' sw' t' q)) →
  wp (fpi_image_device_report_finger_status (cls (S (S (S n)))) true) Q (X d p sc o sw t q).
Proof using EO CO Hfuel.
  intros Hb Hst Ha Hs Hsw Hu HQ. apply report_finger_wp; [apply Hb|by rewrite Hst|]. intros d' Hd. rewrite Hst. cbn [andb].
  rewrite bool_decide_eq_true_2 by done.
  apply (change_acting_wp n _ GXFP_MODE_WAIT_FINGER_ON GXFP_MODE_CAPTURING); try done.
  by apply (busy_same d), (busy_priv d p).
Qed.

(** The same when the session failed with the record that told so. *)
Lemma finger_on_failed_wp n Q d p sc o sw t q :
  busy d p sc → p_state p = FPI_IMAGE_DEVICE_STATE_AWAIT_FINGER_ON → p_active p = true →
  sess_in GXFP_MODE_FAILED sw →
  (∀ d' p' o' sw', busy d' p' sc → p_active p' = true → active_state (p_state p') = true → sess_in GXFP_MODE_FAILED sw' →
    Q () (X d' p' sc o' sw' t q)) →
  wp (fpi_image_device_report_finger_status (cls (S n)) true) Q (X d p sc o sw t q).
Proof using Type.
  intros Hb Hst Ha Hsw HQ. apply report_finger_wp; [apply Hb|by rewrite Hst|]. intros d' Hd. rewrite Hst. cbn [andb].
  rewrite bool_decide_eq_true_2 by done. apply change_failed_wp; [done|done|]. intros d2 o' sw' Hd2 Hsw'.
  apply HQ; [|done|done|done]. by apply (busy_same d'), (busy_same d), (busy_priv d p).
Qed.

(** The finger has left: the action ends, or the next stage of the enrollment begins. *)
Lemma finger_off_wp n Q d p sc o sw t q :
  busy d p sc → p_state p = FPI_IMAGE_DEVICE_STATE_AWAIT_FINGER_OFF → p_active p = true →
  sess_in GXFP_MODE_WAIT_FINGER_OFF sw → up sw →
  (∀ d' p' o' sw' t', acting true d' p' sc sw' t' → Q () (X d' p' sc o' sw' t' q)) →
  wp (fpi_image_device_report_finger_status (cls (S (S (S n)))) false) Q (X d p sc o sw t q).
Proof using EO CO Hfuel.
  intros Hb Hst Ha Hsw Hu HQ. apply report_finger_wp; [apply Hb|by rewrite Hst|]. intros d' Hd. rewrite Hst. cbn [andb negb].
  rewrite bool_decide_eq_true_2 by done. rewrite Ha.
  assert (Hb' : busy d' (set_state FPI_IMAGE_DEVICE_STATE_IDLE (set_active true false p)) sc)
    by by apply (busy_same d), (busy_priv d p).
  apply wp_bind. eapply change_quiet_wp; [done|exact Hsw|]. intros o' sw' Hsw' Hu'.
  destruct (bool_decide_reflect (d_action d = FPI_DEVICE_ACTION_ENROLL)) as [He|He]; cbn [negb].
  - unfold fp_image_device_enroll_maybe_await_finger_on. apply wp_bind, wp_priv.
    cbn [p_scan_active p_finger_present set_state set_active]. rewrite orb_false_r.
    destruct (p_scan_active p) eqn:Hsc.
    + apply wp_ret, HQ. left. split; [|by cbn]. split; [done|]. exists GXFP_MODE_IDLE. cbn.
      rewrite (ds_action _ _ Hd). split; [done|]. split; [done|]. intros _. by apply Hu'.
    + eapply await_on_wp; [exact Hb'|done|done|done|exact Hsw'|by apply Hu'|done|exact HQ].
  - eapply deactivate_active_wp; [done|done|apply Hb'|exact Hsw'|]. intros d2 p' o2 sw2 Hco Hsw2.
    eapply HQ, downed_acting, (completes_downed _ _ None); [exact Hb'|exact Hco|done].
Qed.

(** What is left of an active device when its session has failed. *)
Definition broken (d : fp_device) (p : FpImageDevicePrivate) (sc : list fp_image) (sw : sworld) : Prop :=
  busy d p sc ∧ p_active p = true ∧ active_state (p_state p) = true ∧ sess_in GXFP_MODE_FAILED sw ∨ downed d p sc sw.

Lemma finger_off_failed_wp n Q d p sc o sw t q :
  busy d p sc → p_state p = FPI_IMAGE_DEVICE_STATE_AWAIT_FINGER_OFF → p_active p = true →
  sess_in GXFP_MODE_FAILED sw →
  (∀ d' p' o' sw' t', broken d' p' sc sw' → Q () (X d' p' sc o' sw' t' q)) →
  wp (fpi_image_device_report_finger_status (cls (S (S n))) false) Q (X d p sc o sw t q).
Proof using EO CO.
  intros Hb Hst Ha Hsw HQ. apply report_finger_wp; [apply Hb|by rewrite Hst|]. intros d' Hd. rewrite Hst. cbn [andb negb].
  rewrite bool_decide_eq_true_2 by done. rewrite Ha.
  assert (Hb' : busy d' (set_state FPI_IMAGE_DEVICE_STATE_IDLE (set_active true false p)) sc)
    by by apply (busy_same d), (busy_priv d p).
  apply wp_bind. eapply change_quiet_wp; [done|exact Hsw|]. intros o' sw' Hsw' _. cbn [quiet_mode] in Hsw'.
  destruct (bool_decide_reflect (d_action d = FPI_DEVICE_ACTION_ENROLL)) as [He|He]; cbn [negb].
  - unfold fp_image_device_enroll_maybe_await_finger_on. apply wp_bind, wp_priv.
    destruct (_ || _); [apply wp_ret, HQ; by left|]. eapply change_failed_wp; [done|done|].
    intros d2 o2 sw2 Hd2 Hsw2. apply HQ. left. split; [|done]. apply (busy_same d'); [done|]. by eapply busy_priv, Hb'.
  - eapply deactivate_active_wp; [done|done|apply Hb'|exact Hsw'|]. intros d2 p' o2 sw2 Hco Hsw2.
    eapply HQ. right. eapply (completes_downed _ _ None); [exact Hb'|exact Hco|done].
Qed.

(** ** Errors of the session *)

Lemma capture_some d : is_capture (d_action d) = true → d_action d ≠ FPI_DEVICE_ACTION_NONE.
Proof using Type. by destruct (d_action d). Qed.

Lemma session_error_broken_wp n Q d p sc o sw t q :
  broken d p sc sw →
  (∀ d' p' o' sw' t', downed d' p' sc sw' → Q () (X d' p' sc o' sw' t' q)) →
  wp (fpi_image_device_session_error (cls (S (S n))) general) Q (X d p sc o sw t q).
Proof using EO CO.
  intros [(Hb & Ha & Hst & Hsw)|Hd] HQ.
  { eapply session_error_active_wp; [done|done|apply Hb|exact Hsw|]. intros d' p' o' sw' Hco Hsw'.
    by eapply HQ, completes_downed. }
  assert (Hc : is_capture (d_action d) = true) by (destruct Hd as (_ & _ & [[[] _]|[]]); done).
  unfold fpi_image_device_session_error. cbv zeta. apply wp_bind, wp_priv. pose proof Hd as (Ha & Hst & _). rewrite Ha. cbn [negb].
  apply wp_bind, wp_action. rewrite bool_decide_eq_false_2 by by apply capture_some. cbn [negb].
  unfold fpi_image_device_activate_complete. apply wp_bind, wp_priv, wp_bind, wp_action. rewrite Ha, Hst. cbn [negb return_if_fail].
  rewrite bool_decide_eq_false_2 by done. by apply wp_out, HQ.
Qed.

(** An activation that fails is over. *)
Lemma activation_error_wp n e Q d p m sc o sw t q :
  busy d p sc → p_state p = FPI_IMAGE_DEVICE_STATE_ACTIVATING → phase d p m → sess_in GXFP_MODE_FAILED sw →
  (∀ d', ended d' p sc sw → d_action d' = d_action d → Q () (X d' p sc o sw t q)) →
  wp (fpi_image_device_activate_complete (cls n) (Some e)) Q (X d p sc o sw t q).
Proof using Type.
  intros Hb Hst Hph Hsw HQ. unfold phase in Hph. rewrite Hst in Hph. destruct Hph as (Ha & Hs & Hf & He & _).
  unfold fpi_image_device_activate_complete. apply wp_bind, wp_priv, wp_bind, wp_action. rewrite Ha, Hst.
  rewrite bool_decide_eq_true_2 by done. rewrite (bu_action _ _ _ Hb). cbn [negb return_if_fail].
  apply wp_action_error; [apply Hb|]. intros d' Hd. apply HQ; [|by apply de_action]. destruct Hb as [? ? ? Hr [? ?] ? Hl], Hd. split; try congruence.
  - by rewrite Hr in de_returns.
  - rewrite de_stages. by eapply Z.le_lt_trans.
  - split; try done; [by right|]. rewrite Hs in Hl. by apply nil_length_inv.
  - by right.
Qed.

Lemma session_error_activating_wp n Q d p m sc o sw t q :
  busy d p sc → p_state p = FPI_IMAGE_DEVICE_STATE_ACTIVATING → phase d p m → sess_in GXFP_MODE_FAILED sw →
  (∀ d', ended d' p sc sw → d_action d' = d_action d → Q () (X d' p sc o sw t q)) →
  wp (fpi_image_device_session_error (cls n) general) Q (X d p sc o sw t q).
Proof using Type.
  intros Hb Hst Hph Hsw HQ. pose proof Hph as Hph'. unfold phase in Hph'. rewrite Hst in Hph'. destruct Hph' as (Ha & _).
  unfold fpi_image_device_session_error. cbv zeta. apply wp_bind, wp_priv. rewrite Ha. cbn [negb].
  apply wp_bind, wp_action. rewrite bool_decide_eq_false_2 by by apply capture_some, Hb. cbn [negb].
  by eapply activation_error_wp.
Qed.

(** ** The end of an activation *)

Lemma activation_done_wp n Q d p m sc o sw t q :
  busy d p sc → p_state p = FPI_IMAGE_DEVICE_STATE_ACTIVATING → phase d p m → sess_in GXFP_MODE_IDLE sw → up sw →
  (∀ d' p' o' sw' t', acting true d' p' sc sw' t' → Q () (X d' p' sc o' sw' t' q)) →
  wp (fpi_image_device_activate_complete (cls (S (S (S n)))) None) Q (X d p sc o sw t q).
Proof using EO CO Hfuel.
  intros Hb Hst Hph Hsw Hu HQ. unfold phase in Hph. rewrite Hst in Hph. destruct Hph as (Ha & Hs & Hf & He & _).
  unfold fpi_image_device_activate_complete. apply wp_bind, wp_priv, wp_bind, wp_action. rewrite Ha, Hst.
  rewrite bool_decide_eq_true_2 by done. rewrite (bu_action _ _ _ Hb). cbn [negb return_if_fail].
  apply wp_bind, wp_mod_priv, wp_bind. eapply change_quiet_wp; [done|exact Hsw|]. intros o' sw' Hsw' Hu'.
  eapply await_on_wp; [by apply (busy_priv d p)|done|done|done|exact Hsw'|by apply Hu'|done|exact HQ].
Qed.


(** ** An image *)

(** The session in mode [m] with an image that waits. *)
Definition has_pending (m : gxfp_session_mode) (sw : sworld) : Prop :=
  ∃ l c s e, sw = W l c s e ∧ static_ok c ∧ live s l ∧ s_mode s = m ∧ alive s ∧ pending_img_ready s = 1.

Lemma image_wp n Q d p sc o sw t q :
  busy d p sc → p_state p = FPI_IMAGE_DEVICE_STATE_CAPTURE → p_active p = true → p_scan_active p = false →
  p_finger_present p = true → has_pending GXFP_MODE_IDLE sw →
  (∀ d' p' sc' o' sw' t', acting true d' p' sc' sw' t' → Q () (X d' p' sc' o' sw' t' q)) →
  wp (emit_image_captured (cls (S (S (S n))))) Q (X d p sc o sw t q).
Proof using EO CO Hfuel.
  intros Hb Hst Ha Hs Hf (l & c & s & e & -> & Hc & [Hw Hcap] & Hm & Hal & Hp) HQ.
  destruct (b_img _ _ (a_base _ _ Hw)) as [?|(_ & ((H1 & H2 & H3) & px & Hpx & Hpo & Hlen))]; [congruence|].
  unfold emit_image_captured. apply wp_bind, wp_lib. eapply wp_run; [apply take_image_run|].
  rewrite Hp. cbn [Z.eqb]. change (0 <? 0) with false. cbv iota.
  apply wp_bind, (wp_lift _ (pending_img s)); [done|]. apply wp_bind, (wp_lift _ px); [done|].
  apply wp_bind, (wp_lift _ (gray <$> px)); [apply fill_image_some; [by apply Z.lt_le_incl|by apply Z.lt_le_incl|exact Hlen]|].
  unfold fpi_image_device_image_captured. apply wp_bind, wp_priv, wp_bind, wp_action. rewrite Hst, bool_decide_eq_true_2 by done.
  rewrite (bu_action _ _ _ Hb). cbn [return_if_fail].
  apply wp_bind, wp_mod_priv, wp_bind. set (image := {| width := _; height := _; image_data := _ |}).
  assert (Hscan : ∀ Q' sw', Q' () (X d (set_scan true p) (sc ++ [image]) o sw' t q) →
    wp (start_scan image) Q' (X d (set_scan true p) sc o sw' t q)) by done.
  apply Hscan. apply (change_acting_wp n _ GXFP_MODE_IDLE GXFP_MODE_WAIT_FINGER_OFF); try done.
  - destruct Hb as [? ? ? ? ? ? Hl]. split; try done. rewrite Hs in Hl. by rewrite (nil_length_inv _ Hl).
  - do 4 eexists. split; [done|]. split; [done|]. split; [|done]. split; [|done]. apply awake_pending; [by left|done].
  - by apply up_W.
  - intros d' p' o' sw' t'. apply HQ.
Qed.

(** ** The events of a call *)

Lemma acting_later b b' d p sc sw t t' :
  acting b d p sc sw t → (b' = true → ticking p = true → b = true) → (is_Some t → is_Some t') → acting b' d p sc sw t'.
Proof using Type. intros [(Hr & Ht)|He] Hb Hs; [left|by right]. split; [done|]. intros -> Hp. by apply Hs, Ht, Hp; apply Hb. Qed.

(** The events that are not errors, after the finger and the image. *)
Definition last_events (c : FpImageDeviceClass FpiDeviceGxfp) (e : gxfp_session_events) : M dworld () :=
  when (negb (deactivate_complete e =? 0)) (cancel_scheduled_pump;; fpi_image_device_deactivate_complete c None);;
  when (negb (close_complete e =? 0)) (cancel_scheduled_pump;; free_paths;; fpi_image_device_close_complete None);;
  when (negb (request_tick e =? 0)) (schedule_pump_soon (tick_delay_ms e)).

Lemma last_events_wp c e Q d p sc o sw t q :
  deactivate_complete e = 0 ∧ close_complete e = 0 →
  (∀ t', (request_tick e = 1 → is_Some t') → (is_Some t → is_Some t') → Q () (X d p sc o sw t' q)) →
  wp (last_events c e) Q (X d p sc o sw t q).
Proof using Type.
  intros (Hd & Hc) HQ. unfold last_events. rewrite Hd, Hc. cbn [Z.eqb negb when]. do 2 apply wp_bind, wp_ret.
  destruct (Z.eqb_spec (request_tick e) 0) as [H0|H0]; cbn [negb when].
  - apply wp_ret, HQ; [congruence|done].
  - apply wp_schedule, HQ; by eexists.
Qed.

Lemma last_acting_wp c e Q d p sc o sw t q :
  deactivate_complete e = 0 ∧ close_complete e = 0 → acting true d p sc sw t →
  (∀ d' p' sc' o' sw' t', acting true d' p' sc' sw' t' → Q () (X d' p' sc' o' sw' t' q)) →
  wp (last_events c e) Q (X d p sc o sw t q).
Proof using Type. intros He Ha HQ. apply last_events_wp; [done|]. intros t' _ Ht. by eapply HQ, acting_later. Qed.

(** [handle_session_events], by what it finds. *)
Lemma handle_split c e Q w :
  session_error e = 0 → cancel_tick e = 0 →
  wp (when (negb (finger_status_changed e =? 0)) (fpi_image_device_report_finger_status c (negb (finger_present e =? 0))))
    (λ _ w, wp (when (negb (image_ready e =? 0)) (emit_image_captured c))
      (λ _ w, wp (when (negb (activate_complete e =? 0)) (fpi_image_device_activate_complete c None))
        (λ _ w, wp (last_events c e) Q w) w) w) w →
  wp (handle_session_events c e) Q w.
Proof using Type.
  intros He Hc Hw. unfold handle_session_events. rewrite He, Hc. cbn [Z.eqb negb when]. apply wp_bind, wp_ret.
  apply wp_bind. eapply wp_mono; [exact Hw|]. intros ? w1 H1. apply wp_bind. eapply wp_mono; [exact H1|]. intros ? w2 H2.
  apply wp_bind. exact H2.
Qed.

(** What the end of a call leaves. *)
Lemma next_activating m m' : activating m = true → m' ∈ fd_next m → m' ≠ GXFP_MODE_IDLE → activating m' = true.
Proof using Type.
  destruct m; try done; intros _ Hin Hne; cbn [fd_next pump_next] in Hin;
    repeat (apply elem_of_cons in Hin as [->|Hin]; [done|]); by apply not_elem_of_nil in Hin.
Qed.

Lemma handle_quiet_wp n m l c s e Q d p sc o t q :
  busy d p sc → phase d p m → static_ok c → live s l → reports m s e → session_error e = 0 → m ≠ GXFP_MODE_READY →
  (∀ d' p' sc' o' sw' t', acting true d' p' sc' sw' t' → Q () (X d' p' sc' o' sw' t' q)) →
  wp (handle_session_events (cls (S (S (S n)))) e) Q (X d p sc o (W l c s e) t q).
Proof using EO CO Hfuel.
  intros Hb Hph Hc Hs [Rd Rf Ra Ri Re Rc Rt Ru Rk] He Hm HQ.
  destruct Re as [(_ & Hal & Hnext)|(Hbad & _)]; [|congruence]. destruct Rc as [Rc|Rc]; [|congruence]. specialize (Rt He).
  apply handle_split; [done|done|].
  assert (Hin : sess_in (s_mode s) (W l c s e)) by by exists l, c, s, e.
  assert (Hu : up (W l c s e)) by by apply up_W.
  assert (Hlast : ∀ d' p' sc' o' sw' t', acting true d' p' sc' sw' t' →
    wp (last_events (cls (S (S (S n)))) e) Q (X d' p' sc' o' sw' t' q)) by (intros; by eapply last_acting_wp).
  (* nothing but a tick *)
  assert (Hstay : finger_status_changed e = 0 → phase d p (s_mode s) → (ticking p = true → waits (s_mode s) = true) →
    activate_complete e = 0 → image_ready e = 0 →
    wp (when (negb (finger_status_changed e =? 0))
          (fpi_image_device_report_finger_status (cls (S (S (S n)))) (negb (finger_present e =? 0))))
    (λ _ w, wp (when (negb (image_ready e =? 0)) (emit_image_captured (cls (S (S (S n))))))
      (λ _ w, wp (when (negb (activate_complete e =? 0)) (fpi_image_device_activate_complete (cls (S (S (S n)))) None))
        (λ _ w, wp (last_events (cls (S (S (S n)))) e) Q w) w) w) (X d p sc o (W l c s e) t q)).
  { intros Hf0 Hph' Hw Ha0 Hi0. rewrite Ha0, Hi0, Hf0. cbn [Z.eqb negb when]. do 3 apply wp_ret.
    apply last_events_wp; [done|]. intros t' Ht' _. apply HQ. left. split; [split; [done|by exists (s_mode s)]|].
    intros _ Htk. by apply Ht', Rt, Hw. }
  assert (Hact : activate_complete e = 0 ∨ activating m = true) by tauto.
  assert (Himg : image_ready e = 0 ∨ m = GXFP_MODE_CAPTURING) by tauto.
  assert (Hph0 := Hph). unfold phase in Hph. unfold ticking, phase in Hstay. destruct (p_state p) eqn:Hst; [by destruct Hm, Hph as (_ & _ & _ & ?)| |done|..].
  - destruct Hph as (Ha & Hsc & Hf & Her & Hma). destruct Rf as [Hf0|[(-> & _)|(-> & _)]]; [|done|done].
    destruct Himg as [Hi0| ->]; [|done]. destruct (Z.eq_dec (activate_complete e) 0) as [Ha0|Ha0].
    + assert (Hma' : activating (s_mode s) = true).
      { eapply next_activating; [exact Hma|done|]. intros Hi. rewrite (Ru Hma Hi) in Ha0. done. }
      apply Hstay; try done. intros _. by destruct (s_mode s).
    + destruct Ra as [?|(_ & Hidle & _)]; [done|]. rewrite Hi0, Hf0, (proj2 (Z.eqb_neq _ _) Ha0). cbn [Z.eqb negb when].
      do 2 apply wp_ret. rewrite Hidle in Hin. eapply activation_done_wp; try done. intros. by eapply Hlast.
  - destruct Hph as (Ha & Hsc & Hf & Hac & ->). cbn [fd_next pump_next] in Hnext. apply list_elem_of_singleton in Hnext as Hnext'.
    destruct Rf as [Hf0|[(? & _)|(? & _)]]; [|done|done]. destruct Hact, Himg; try done. by apply Hstay.
  - destruct Hph as (Ha & Hsc & Hf & ->). cbn [fd_next pump_next] in Hnext. apply list_elem_of_singleton in Hnext as Hnext'.
    destruct Hact as [Ha0|?], Himg as [Hi0|?]; try done.
    destruct (Z.eq_dec (finger_status_changed e) 0) as [Hf0|Hf0]; [apply Hstay; try done; by rewrite Hnext'|].
    destruct Rf as [?|[(_ & Hfp)|(? & _)]]; [done| |done]. rewrite Hi0, Ha0, Hfp, (proj2 (Z.eqb_neq _ _) Hf0). cbn [Z.eqb negb when].
    rewrite Hnext' in Hin. eapply finger_on_wp; try done. intros. do 2 apply wp_ret. by eapply Hlast.
  - destruct Hph as (Ha & Hsc & Hf & ->). destruct Hact as [Ha0|?]; [|done].
    destruct Rf as [Hf0|[(? & _)|(? & _)]]; [|done|done]. destruct (Z.eq_dec (image_ready e) 0) as [Hi0|Hi0].
    + assert (Hcap : s_mode s = GXFP_MODE_CAPTURING).
      { cbn [fd_next pump_next] in Hnext. apply elem_of_cons in Hnext as [?|Hnext]; [done|].
        apply list_elem_of_singleton in Hnext. rewrite (Rk eq_refl Hnext) in Hi0. done. }
      apply Hstay; try done. by rewrite Hcap.
    + destruct Ri as [?|(_ & Hidle & _ & Hp)]; [done|]. rewrite Hf0, Ha0, (proj2 (Z.eqb_neq _ _) Hi0). cbn [Z.eqb negb when].
      apply wp_ret. eapply image_wp; [done|done|done|done|done|by exists l, c, s, e|]. intros. apply wp_ret. by eapply Hlast.
  - destruct Hph as (Ha & Hf & ->). cbn [fd_next pump_next] in Hnext. apply list_elem_of_singleton in Hnext as Hnext'.
    destruct Hact as [Ha0|?], Himg as [Hi0|?]; try done.
    destruct (Z.eq_dec (finger_status_changed e) 0) as [Hf0|Hf0]; [apply Hstay; try done; by rewrite Hnext'|].
    destruct Rf as [?|[(? & _)|(_ & Hfp)]]; [done|done|]. rewrite Hi0, Ha0, Hfp, (proj2 (Z.eqb_neq _ _) Hf0). cbn [Z.eqb negb when].
    rewrite Hnext' in Hin. eapply finger_off_wp; try done. intros. do 2 apply wp_ret. by eapply Hlast.
Qed.

(** A failure of the session takes the device down, after the finger event it came with. *)
Lemma handle_broken_wp n e Q d p sc o sw t q :
  session_error e = 1 → error_target e ≠ GXFP_SESSION_ERR_TARGET_ACTIVATE → image_ready e = 0 →
  (∀ o t, wp (when (negb (finger_status_changed e =? 0))
       (fpi_image_device_report_finger_status (cls (S (S n))) (negb (finger_present e =? 0))))
     (λ _ w, ∃ d' p' o' sw' t', w = X d' p' sc o' sw' t' q ∧ broken d' p' sc sw') (X d p sc o sw t q)) →
  (∀ d' p' sc' o' sw' t', acting true d' p' sc' sw' t' → Q () (X d' p' sc' o' sw' t' q)) →
  wp (handle_session_events (cls (S (S n))) e) Q (X d p sc o sw t q).
Proof using EO CO.
  intros He Ht Hi Hf HQ. unfold handle_session_events. rewrite He, Hi. cbn [Z.eqb negb when].
  assert (Hrest : ∀ t, wp (when (negb (finger_status_changed e =? 0))
      (fpi_image_device_report_finger_status (cls (S (S n))) (negb (finger_present e =? 0)));; mret ();;
      cancel_scheduled_pump;;
      if bool_decide (error_target e = GXFP_SESSION_ERR_TARGET_ACTIVATE)
      then fpi_image_device_activate_complete (cls (S (S n))) general
      else fpi_image_device_session_error (cls (S (S n))) general) Q (X d p sc o sw t q)).
  { intros t1. apply wp_bind. eapply wp_mono; [apply Hf|]. intros ? w' (d' & p' & o' & sw' & t' & -> & Hbr).
    apply wp_bind, wp_ret, wp_bind, wp_timer. rewrite bool_decide_eq_false_2 by done.
    eapply session_error_broken_wp; [exact Hbr|]. intros. by eapply HQ, downed_acting. }
  apply wp_bind. destruct (negb (cancel_tick e =? 0)); [apply wp_timer|apply wp_ret]; apply Hrest.
Qed.

Lemma handle_failed_wp n m l c s e Q d p sc o t q :
  busy d p sc → phase d p m → static_ok c → live s l → reports m s e → session_error e = 1 → m ≠ GXFP_MODE_READY →
  (∀ d' p' sc' o' sw' t', acting true d' p' sc' sw' t' → Q () (X d' p' sc' o' sw' t' q)) →
  wp (handle_session_events (cls (S (S n))) e) Q (X d p sc o (W l c s e) t q).
Proof using EO CO.
  intros Hb Hph Hc Hs [Rd Rf Ra Ri Re _ _ _ _] He Hm HQ.
  destruct Re as [(? & _)|(_ & Hfm & Htg)]; [congruence|].
  assert (Ha0 : activate_complete e = 0) by (destruct Ra as [?|(_ & _ & ?)]; [done|congruence]).
  assert (Hi0 : image_ready e = 0) by (destruct Ri as [?|(_ & _ & ? & _)]; [done|congruence]).
  assert (Hin : sess_in GXFP_MODE_FAILED (W l c s e)) by by exists l, c, s, e.
  assert (Hph0 := Hph). unfold phase in Hph.
  destruct (decide (p_state p = FPI_IMAGE_DEVICE_STATE_ACTIVATING)) as [Hst|Hst].
  { rewrite Hst in Hph. destruct Hph as (_ & _ & _ & _ & Hma).
    assert (Hf0 : finger_status_changed e = 0) by (destruct Rf as [?|[(-> & _)|(-> & _)]]; done).
    unfold handle_session_events. rewrite He, Hi0, Hf0. cbn [Z.eqb negb when].
    assert (Hrest : ∀ t, wp (mret ();; mret ();; cancel_scheduled_pump;;
      if bool_decide (error_target e = GXFP_SESSION_ERR_TARGET_ACTIVATE)
      then fpi_image_device_activate_complete (cls (S (S n))) general
      else fpi_image_device_session_error (cls (S (S n))) general) Q (X d p sc o (W l c s e) t q)).
    { intros t1. do 2 apply wp_bind, wp_ret. apply wp_bind, wp_timer.
      case_bool_decide; [eapply activation_error_wp|eapply session_error_activating_wp]; try done;
        intros; apply HQ; by right. }
    apply wp_bind. destruct (negb (cancel_tick e =? 0)); [apply wp_timer|apply wp_ret]; apply Hrest. }
  assert (Ht : error_target e ≠ GXFP_SESSION_ERR_TARGET_ACTIVATE).
  { intros Hta. specialize (Htg Hta). by destruct (p_state p); try done; decompose [and] Hph; subst m. }
  apply handle_broken_wp; [done|done|done| |exact HQ]. intros o1 t1.
  assert (Hact : p_active p = true ∧ active_state (p_state p) = true).
  { destruct (p_state p); try done; decompose [and] Hph; done. }
  destruct Hact as (Ha & Has).
  destruct (Z.eq_dec (finger_status_changed e) 0) as [Hf0|Hf0].
  { rewrite Hf0. cbn [Z.eqb negb when]. apply wp_ret. do 5 eexists. split; [done|]. by left. }
  destruct Rf as [?|[(-> & Hfp)|(-> & Hfp)]]; [done|..]; rewrite (proj2 (Z.eqb_neq _ _) Hf0), Hfp; cbn [Z.eqb negb when].
  - assert (Hon : p_state p = FPI_IMAGE_DEVICE_STATE_AWAIT_FINGER_ON) by (by destruct (p_state p); decompose [and] Hph).
    eapply finger_on_failed_wp; try done. intros. do 5 eexists. split; [done|]. by left.
  - assert (Hoff : p_state p = FPI_IMAGE_DEVICE_STATE_AWAIT_FINGER_OFF) by (by destruct (p_state p); decompose [and] Hph).
    eapply finger_off_failed_wp; try done. intros. by do 5 eexists.
Qed.

(** ** The pump *)

(** A session that is not open. *)
Definition shut (sw : sworld) : Prop :=
  ∃ l c e, static_ok c ∧ (sw = W0 l c e ∨ ∃ s, sw = W l c s e ∧ closed s ∧ base s l).

(** The sessions for which the pump does nothing. *)
Definition asleep (K : sworld → Prop) : Prop :=
  K = sess_in GXFP_MODE_READY ∨ K = sess_in GXFP_MODE_FAILED ∨ K = shut.

(** A call that looks after the session. *)
Record looks (m : M sworld ()) : Prop := {
  lk_reports : ∀ l c s, live s l → static_ok c → inert (s_mode s) = false → alive s →
    wp m (λ _, lives (reports (s_mode s)) l) (W l c s events_zero);
  lk_inert : ∀ l c s e, inert (s_mode s) = true → m (W l c s e) = Some ((), W l c s e);
  lk_none : ∀ l c e, m (W0 l c e) = Some ((), W0 l c e)
}.

Lemma pump_looks cancel : looks (gxfp_session_pump fuel cancel).
Proof using EO TO WO CO Hfuel Hpull.
  split; [|intros; by apply inert_pump_run|done]. intros. apply pump_reports; [done|done|clear -Hfuel; lia|exact Hpull|done|done].
Qed.

Lemma on_fd_looks cancel : looks (gxfp_session_on_fd fuel GXFP_SESSION_IO_IN cancel).
Proof using EO TO WO CO FO Hfuel Hpull Hdeliver.
  split; [|intros; by apply inert_fd_run|done]. intros. apply on_fd_reports; [done|done|clear -Hfuel; lia|exact Hpull|exact Hdeliver|done|done].
Qed.

Lemma with_events_asleep_wp m c K Q d p sc o sw t q :
  looks m → asleep K → K sw → (∀ sw', K sw' → Q () (X d p sc o sw' t q)) →
  wp ('(_, e) ← with_events m; handle_session_events c e) Q (X d p sc o sw t q).
Proof using Type.
  intros Hm HK Hsw HQ. apply wp_bind.
  assert (Hin : ∀ l c0 s e, sw = W l c0 s e → inert (s_mode s) = true → K (W l c0 s events_zero) →
    wp (with_events m) (λ a w', wp (let '(_, e) := a in handle_session_events c e) Q w') (X d p sc o sw t q)).
  { intros l c0 s e -> Hi HK'. apply wp_with_events. eapply wp_eq; [by apply (lk_inert m Hm)|].
    do 4 eexists. split; [done|]. by apply HQ. }
  destruct HK as [->|[->| ->]].
  - destruct Hsw as (l & c0 & s & e & -> & Hc & Hs & Hmd). eapply Hin; [done|by rewrite Hmd|by exists l, c0, s, events_zero].
  - destruct Hsw as (l & c0 & s & e & -> & Hc & Hs & Hmd). eapply Hin; [done|by rewrite Hmd|by exists l, c0, s, events_zero].
  - destruct Hsw as (l & c0 & e & Hc & [->|(s & -> & Hcl & Hb)]).
    + unfold with_events, lib, wp, zoom. cbn [X i_drv g_sess].
      rewrite (run_bind _ _ _ () (W0 l c0 events_zero)) by done.
      rewrite (run_bind _ _ _ _ _ (lk_none m Hm l c0 events_zero)). apply HQ. exists l, c0, events_zero. split; [done|by left].
    + eapply Hin; [done|by rewrite (c_mode s Hcl)|]. exists l, c0, events_zero. split; [done|]. right. by exists s.
Qed.

Lemma phase_inert d p m : phase d p m → m ≠ GXFP_MODE_READY → inert m = false.
Proof using Type. unfold phase. destruct (p_state p); intros Hp Hm; decompose [and] Hp; subst; try done. by apply captures_activating. Qed.

Lemma with_events_acting_wp n m Q b d p sc o sw t q :
  looks m → acting b d p sc sw t →
  (∀ d' p' sc' o' sw' t', acting true d' p' sc' sw' t' → Q () (X d' p' sc' o' sw' t' q)) →
  wp ('(_, e) ← with_events m; handle_session_events (cls (S (S (S n)))) e) Q (X d p sc o sw t q).
Proof using EO CO Hfuel.
  intros Hm [((Hb & md & Hph & Hsw & Hu) & _)|He] HQ; cycle 1.
  { pose proof (en_sess _ _ _ _ He) as Hs.
    assert (Hgo : ∀ K, asleep K → K sw → (∀ sw', K sw' → still sw') →
      wp ('(_, e) ← with_events m; handle_session_events (cls (S (S (S n)))) e) Q (X d p sc o sw t q)).
    { intros K HK Hk Hst. eapply with_events_asleep_wp; [done|exact HK|done|]. intros sw' Hk'. apply HQ. right.
      destruct He. split; try done. by apply Hst. }
    destruct Hs; (eapply Hgo; [|eassumption|]; [unfold asleep; tauto|unfold still; tauto]). }
  destruct (decide (md = GXFP_MODE_READY)) as [->|Hmd].
  { eapply (with_events_asleep_wp _ _ (sess_in GXFP_MODE_READY)); [done|by left|done|]. intros sw' Hsw'. apply HQ. left.
    split; [split; [done|by exists GXFP_MODE_READY]|]. unfold ticking. unfold phase in Hph. intros _.
    by destruct (p_state p); decompose [and] Hph. }
  destruct Hsw as (l & c & s & e & -> & Hc & Hs & <-). specialize (Hu Hmd).
  apply wp_bind, wp_with_events. eapply wp_mono; [apply (lk_reports m Hm l c s); [done|done|by eapply phase_inert|by apply (Hu l c s e)]|].
  intros ? w' (l' & c' & s' & e' & -> & _ & Hc' & Hs' & Hr). do 4 eexists. split; [done|].
  destruct (rp_error _ _ _ Hr) as [(He & _)|(He & _)].
  - by eapply (handle_quiet_wp n (s_mode s)).
  - by eapply (handle_failed_wp (S n) (s_mode s)).
Qed.

(** Looking whether the device has something to read. *)
Lemma poll_open_wp m sw Q :
  sess_in m sw → (∀ r sw', sess_in m sw' → (up sw → up sw') → Q r sw') → wp (gxfp_session_poll_readable 0) Q sw.
Proof using Type.
  intros (l & c & s & e & -> & Hc & Hs & Hm) HQ. unfold gxfp_session_poll_readable.
  destruct (live_dev s l Hs) as (fd & Hd). apply wp_bind, wp_has_io.
  rewrite bool_decide_eq_false_2 by apply (l_mode s l Hs). cbn [negb].
  eapply wp_eq; [apply io_run; by apply poll_readable_run|]. apply HQ.
  - do 4 eexists. split; [done|]. split; [done|]. split; [|done]. eapply live_extends; [done|apply extends_calls].
  - intros Hu. apply up_W. by apply (Hu l c s e).
Qed.

Lemma poll_asleep_wp K sw Q :
  asleep K → K sw → (∀ r sw', K sw' → Q r sw') → wp (gxfp_session_poll_readable 0) Q sw.
Proof using Type.
  intros [->|[->| ->]] Hsw HQ.
  - eapply poll_open_wp; [exact Hsw|]. auto.
  - eapply poll_open_wp; [exact Hsw|]. auto.
  - destruct Hsw as (l & c & e & Hc & [->|(s & -> & Hcl & Hb)]).
    + apply HQ. exists l, c, e. split; [done|by left].
    + unfold gxfp_session_poll_readable. apply wp_bind, wp_has_io.
      rewrite bool_decide_eq_true_2 by apply (c_mode s Hcl). cbn [negb]. apply wp_ret, HQ. exists l, c, e. split; [done|].
      right. by exists s.
Qed.

Lemma wp_is_cancelled Q d p sc o sw t q :
  (∀ b o', Q b (X d p sc o' sw t q)) → wp fpi_device_action_is_cancelled Q (X d p sc o sw t q).
Proof using Type.
  intros HQ. unfold fpi_device_action_is_cancelled. apply wp_bind, wp_dev.
  destruct (bool_decide _); [apply wp_bind, wp_out, wp_ret, HQ|apply wp_ret, HQ].
Qed.

(** The callback of the pump keeps [P] when its calls and the poll do. *)
Lemma pump_cb_wp c (P P' : fp_device → FpImageDevicePrivate → list fp_image → sworld → ptr Z → Prop) Q d p sc o sw t q :
  P d p sc sw None →
  (∀ m d p sc o sw t Q, looks m → (P d p sc sw t ∨ P' d p sc sw t) →
     (∀ d' p' sc' o' sw' t', P' d' p' sc' sw' t' → Q () (X d' p' sc' o' sw' t' q)) →
     wp ('(_, e) ← with_events m; handle_session_events c e) Q (X d p sc o sw t q)) →
  (∀ d p sc sw t Q', P' d p sc sw t → (∀ r sw', P' d p sc sw' t → Q' r sw') → wp (gxfp_session_poll_readable 0) Q' sw) →
  (∀ d' p' sc' o' sw' t', P' d' p' sc' sw' t' → Q () (X d' p' sc' o' sw' t' q)) →
  wp (gxfp_pump_timeout_cb c fuel) Q (X d p sc o sw t q).
Proof using EO TO WO CO FO Hfuel Hpull Hdeliver.
  intros HP Hlook Hpoll HQ. unfold gxfp_pump_timeout_cb. apply wp_bind, wp_timer, wp_bind, wp_is_cancelled. intros cancelled o1.
  assert (Hrest : ∀ d p sc o sw t, P' d p sc sw t →
    wp (c0 ← fpi_device_action_is_cancelled;
        if (c0 : bool) then mret () else
        pr ← lib (gxfp_session_poll_readable 0);
        if (pr =? 0) || (pr =? - EAGAIN) then
          '(_, e) ← with_events (gxfp_session_on_fd fuel GXFP_SESSION_IO_IN cancelled); handle_session_events c e
        else mret ()) Q (X d p sc o sw t q)).
  { intros d1 p1 sc1 o2 sw1 t1 H1. apply wp_bind, wp_is_cancelled. intros b o3. destruct b; [apply wp_ret; by apply HQ|].
    apply wp_bind, wp_lib. eapply Hpoll; [exact H1|]. intros r sw2 H2. destruct (_ || _); [|apply wp_ret; by apply HQ].
    eapply Hlook; [apply on_fd_looks|by right|exact HQ]. }
  pose proof (Hlook _ d p sc o1 sw None (λ _ w, wp (c0 ← fpi_device_action_is_cancelled;
        if (c0 : bool) then mret () else
        pr ← lib (gxfp_session_poll_readable 0);
        if (pr =? 0) || (pr =? - EAGAIN) then
          '(_, e) ← with_events (gxfp_session_on_fd fuel GXFP_SESSION_IO_IN cancelled); handle_session_events c e
        else mret ()) Q w) (pump_looks cancelled) (or_introl HP)) as Hl.
  apply wp_bind_inv in Hl; [|by intros; apply Hrest]. apply wp_bind. eapply wp_mono; [exact Hl|].
  intros [r e] w' Hw. by apply wp_bind.
Qed.

Lemma pump_acting_wp n Q b d p sc o sw t t0 q :
  acting b d p sc sw t0 →
  (∀ d' p' sc' o' sw' t', acting true d' p' sc' sw' t' → Q () (X d' p' sc' o' sw' t' q)) →
  wp (gxfp_pump_timeout_cb (cls (S (S (S n)))) fuel) Q (X d p sc o sw t q).
Proof using EO TO WO CO FO Hfuel Hpull Hdeliver.
  intros Ha HQ. apply (pump_cb_wp _ (acting false) (acting true)); [| | |exact HQ].
  - destruct Ha as [(Hr & _)|He]; [by left|by right].
  - intros m d1 p1 sc1 o1 sw1 t1 Q1 Hm [H1|H1] HQ1; by eapply with_events_acting_wp.
  - intros d1 p1 sc1 sw1 t1 Q1 H1 HQ1. destruct H1 as [((Hb & m & Hph & Hsw & Hu) & Ht)|He].
    + eapply poll_open_wp; [exact Hsw|]. intros r sw' Hsw' Hu'. apply HQ1. left. split; [|done]. split; [done|].
      exists m. split; [done|]. split; [done|]. intros Hm. by apply Hu', Hu.
    + assert (Hst : ∀ sw', still sw' → ended d1 p1 sc1 sw') by (intros sw' Hs; destruct He; by split).
      destruct (en_sess _ _ _ _ He) as [Hs|Hs]; (eapply poll_open_wp; [exact Hs|]); intros r sw' Hsw' _; apply HQ1; right; apply Hst;
        [by left|by right].
Qed.

Lemma pump_asleep_wp c K Q d p sc o sw t q :
  asleep K → K sw → (∀ o' sw' t', K sw' → Q () (X d p sc o' sw' t' q)) →
  wp (gxfp_pump_timeout_cb c fuel) Q (X d p sc o sw t q).
Proof using EO TO WO CO FO Hfuel Hpull Hdeliver.
  intros HK Hsw HQ.
  apply (pump_cb_wp c (λ d' p' sc' sw' _, d' = d ∧ p' = p ∧ sc' = sc ∧ K sw') (λ d' p' sc' sw' _, d' = d ∧ p' = p ∧ sc' = sc ∧ K sw')).
  - done.
  - intros m d1 p1 sc1 o1 sw1 t1 Q1 Hm H1 HQ1.
    assert (H2 : d1 = d ∧ p1 = p ∧ sc1 = sc ∧ K sw1) by tauto. destruct H2 as (-> & -> & -> & H2).
    eapply with_events_asleep_wp; [done|exact HK|done|]. intros. by apply HQ1.
  - intros d1 p1 sc1 sw1 t1 Q1 (-> & -> & -> & H1) HQ1. eapply poll_asleep_wp; [exact HK|done|]. intros. by apply HQ1.
  - intros d1 p1 sc1 o1 sw1 t1 (-> & -> & -> & H1). by apply HQ.
Qed.
End driver_events.
