(* ===== verification/LDriverOps.v ===== *)
(** The program and the main loop at work: every call of the program, every source of the
    main loop keeps the invariant of the driver, in any order and against any device, but
    for the end of a scan that loses an enrollment ([enroll_lost]). *)
From Stdlib Require Import ZArith Lia.
From stdpp Require Import prelude list.
From S2P Require Import Prelude KGoodixProto KUapi UGoodixProto UWorld UDev UCommon UXfer USensorCfg UCmds.
From S2P Require Import UDecoder UPlain UFdt UFpn UTls UTlsSvc USession USessionCalls USessionRun USessionEvents.
From S2P Require Import LImage LDriver LDriverRun LDriverInv.

Open Scope Z_scope.

(** Files as stdio shows them. *)
Class HostOk (H : Host) := { file_ok : ∀ path, stdio_ok (file_at path) ∧ 0 <= fopen_errno (file_at path) }.

(** * The operations *)

Section driver_ops.
Context {E : Uenv} {EO : UenvOk E} {WO : UwriteOk E} {T : Mbedtls} {TO : MbedtlsOk T} {B : nat} {CO : UclockOk E B}.
Context {N : nat} {FO : UfiniteOk E N} {H : Host} {HO : HostOk H}.
Context (fuel : nat) (Hfuel : (2000 * B < fuel)%nat) (Hpull : (pull_fuel <= fuel)%nat) (Hdeliver : (N < fuel)%nat).
Abbreviation cls n := (gxfp_class fuel n).

(** No action that captures is under way: the device is open or not, or the completion of
    its opening or closing waits. *)
Record calm (d : fp_device) (p : FpImageDevicePrivate) (sc : list fp_image) (sw : sworld) : Prop := {
  ca_resting : resting p sc;
  ca_connected : d_connected d = false;
  ca_idle : d_idle_cancel d = false;
  ca_stages : 0 < d_enroll_stages d;
  ca_power : power_ok (d_action d) (d_power d);
  ca_action : d_action d = FPI_DEVICE_ACTION_NONE ∧ d_returns d = [] ∧ (if d_open d then still sw else shut sw) ∨
              d_action d = FPI_DEVICE_ACTION_OPEN ∧ d_open d = false ∧
                (d_returns d = [ReturnBool] ∧ still sw ∨ ∃ e, d_returns d = [ReturnError e] ∧ shut sw) ∨
              d_action d = FPI_DEVICE_ACTION_CLOSE ∧ d_open d = true ∧ (∃ r, d_returns d = [r]) ∧ shut sw
}.

(** The invariant of the driver between two events of the main loop. *)
Definition driver_inv (w : dworld) : Prop :=
  acting true (i_dev w) (i_priv w) (i_scans w) (g_sess (i_drv w)) (timer_source (i_drv w)) ∨
  calm (i_dev w) (i_priv w) (i_scans w) (g_sess (i_drv w)).

Lemma inv_acting d p sc o sw t q : acting true d p sc sw t → driver_inv (X d p sc o sw t q).
Proof using Type. by left. Qed.
Lemma inv_calm d p sc o sw t q : calm d p sc sw → driver_inv (X d p sc o sw t q).
Proof using Type. by right. Qed.

Lemma calm_heated d d' p sc sw : dheated d d' → calm d p sc sw → calm d' p sc sw.
Proof using Type. intros [Ho Ha Hc Hi Hr Hs Hp] [? ? ? ? ? ?].
  split; [done|congruence|rewrite Hi; congruence|congruence|by rewrite Ha, Hp|].
  by rewrite Ha, Hr, Ho. Qed.

Lemma inv_heated d d' p sc o sw t q : dheated d d' → driver_inv (X d p sc o sw t q) → driver_inv (X d' p sc o sw t q).
Proof using Type. intros Hd [Ha|Hc]; [left; by apply (acting_heated _ d)|right; by apply (calm_heated d)]. Qed.

(** The session of a calm device is asleep. *)
Lemma calm_asleep d p sc sw :
  calm d p sc sw → ∃ K, asleep K ∧ K sw ∧ ∀ sw', K sw' → calm d p sc sw'.
Proof using Type.
  intros [? ? ? ? ? Ha].
  assert (Hst : ∀ P, (∀ sw', still sw' → P sw') → still sw → ∃ K, asleep K ∧ K sw ∧ ∀ sw', K sw' → P sw').
  { intros P HP [Hs|Hs]; eexists; (split; [|split; [exact Hs|]]); unfold asleep, still in *; auto. }
  assert (Hsh : ∀ P : sworld → Prop, (∀ sw', shut sw' → P sw') → shut sw → ∃ K, asleep K ∧ K sw ∧ ∀ sw', K sw' → P sw').
  { intros P HP Hs. exists shut. split; [by right; right|auto]. }
  destruct Ha as [(H1 & H2 & H3)|[(H1 & H2 & [(H3 & H4)|(e & H3 & H4)])|(H1 & H2 & H3 & H4)]].
  - destruct (d_open d) eqn:Ho.
    + apply Hst; [|done]. intros sw' Hs. split; try done. left. by rewrite Ho.
    + apply Hsh; [|done]. intros sw' Hs. split; try done. left. by rewrite Ho.
  - apply Hst; [|done]. intros sw' Hs. split; try done. right. left. auto.
  - apply Hsh; [|done]. intros sw' Hs. split; try done. right. left. split; [done|]. split; [done|]. right. by exists e.
  - apply Hsh; [|done]. intros sw' Hs. split; try done. right. right. auto.
Qed.

(** ** The pump and the cancellation *)

Lemma op_timer_wp n w : driver_inv w → wp (run_op (cls (S (S (S n)))) fuel OpTimer) (λ _ w', driver_inv w') w.
Proof using EO TO WO CO FO Hfuel Hpull Hdeliver.
  destruct (X_eta w) as (d & p & sc & o & sw & t & q & ->). intros Hw. unfold run_op. apply wp_bind, wp_getw.
  destruct (timer_source _); [|by apply wp_ret]. destruct Hw as [Ha|Hc].
  - apply (pump_acting_wp fuel Hfuel Hpull Hdeliver n _ true d p sc o sw t t q Ha). intros. by apply inv_acting.
  - destruct (calm_asleep _ _ _ _ Hc) as (K & HK & Hsw & Hk). eapply pump_asleep_wp; [..|exact HK|exact Hsw|]; try done.
    intros o' sw' t' Hsw'. by apply inv_calm, Hk.
Qed.

Lemma op_cancel_wp n w : driver_inv w → wp (run_op (cls n) fuel OpCancel) (λ _ w', driver_inv w') w.
Proof using Type.
  destruct (X_eta w) as (d & p & sc & o & sw & t & q & ->). intros Hw. unfold run_op. apply wp_bind, wp_getw.
  unfold fp_device_task_cancelled_cb. apply wp_bind, wp_dev.
  destruct (d_connected d) eqn:Hcon; cbn [when]; [|by apply wp_ret].
  apply wp_mod_dev. destruct (d_cancelled d); [done|]. apply (inv_heated d); [|done]. split; try done. congruence.
Qed.

Lemma op_temp_wp n w : driver_inv w → wp (run_op (cls n) fuel OpTemp) (λ _ w', driver_inv w') w.
Proof using Type.
  destruct (X_eta w) as (d & p & sc & o & sw & t & q & ->). intros Hw. unfold run_op. apply wp_bind, wp_getw.
  destruct (temp_timeout _); cbn [when]; [|by apply wp_ret]. unfold update_temp_timeout. apply wp_bind, wp_dev, wp_update_temp.
  intros d' Hd. by apply (inv_heated d).
Qed.

Lemma op_idle_cancel_wp n w : driver_inv w → wp (run_op (cls (S (S n))) fuel OpIdleCancel) (λ _ w', driver_inv w') w.
Proof using EO CO.
  destruct (X_eta w) as (d & p & sc & o & sw & t & q & ->). intros Hw. unfold run_op. apply wp_bind, wp_getw.
  cbn [X i_dev]. destruct (d_idle_cancel d) eqn:Hid; [|by apply wp_ret].
  destruct Hw as [[((Hb & m & Hph & Hm) & Ht)|He]|Hc]; [|destruct He; cbn [X i_dev] in *; congruence|destruct Hc; cbn [X i_dev] in *; congruence].
  cbn [X i_dev i_priv i_scans i_drv g_sess timer_source] in *. pose proof (bu_action _ _ _ Hb) as Hcap.
  unfold fp_device_cancel_in_idle_cb. apply wp_bind, wp_dev, wp_bind.
  rewrite bool_decide_eq_false_2 by by apply capture_some. apply wp_ret, wp_bind, wp_mod_dev, wp_bind.
  set (d1 := set_cancel _ _ _ d). assert (Hb1 : busy d1 p sc) by by destruct Hb.
  unfold fp_image_device_cancel_action. apply wp_bind, wp_action. change (d_action d1) with (d_action d). rewrite Hcap.
  assert (Hact : p_active p = false ∨ p_active p = true ∧ active_state (p_state p) = true).
  { unfold phase in Hph. destruct (p_state p); decompose [and] Hph; auto. }
  destruct Hact as [Hna|(Ha & Hst)].
  - apply deactivate_inactive_wp; [done|]. apply wp_mod_dev, inv_acting. left. split; [|exact Ht]. split; [|by exists m].
    by destruct Hb1.
  - destruct Hm as (Hsw & _). eapply deactivate_active_wp; [done|done|done|exact Hsw|].
    intros d' p' o' sw' Hco Hsw'. apply wp_mod_dev, inv_acting, downed_acting, (downed_same d'); [done|].
    eapply (completes_downed _ _ None); [exact Hb1|exact Hco|done].
Qed.

(** ** The end of a scan *)

(** An action whose scan has just ended. *)
Record scanned (d : fp_device) (p : FpImageDevicePrivate) (sw : sworld) : Prop := {
  sd_busy : busy d p [];
  sd_scan : p_scan_active p = false;
  sd_state : p_active p = true ∧ p_finger_present p = true ∧ p_state p = FPI_IMAGE_DEVICE_STATE_AWAIT_FINGER_OFF ∧
               sess_in GXFP_MODE_WAIT_FINGER_OFF sw ∧ up sw ∨
             p_active p = true ∧ p_finger_present p = false ∧ p_state p = FPI_IMAGE_DEVICE_STATE_IDLE ∧
               sess_in GXFP_MODE_IDLE sw ∧ up sw ∧ d_action d = FPI_DEVICE_ACTION_ENROLL ∨
             p_active p = false ∧ p_finger_present p = false ∧ p_state p = FPI_IMAGE_DEVICE_STATE_INACTIVE ∧
               sess_in GXFP_MODE_READY sw
}.

Lemma running_scanned d p i sc sw : running d p (i :: sc) sw → sc = [] ∧ scanned d (set_scan false p) sw.
Proof using Type.
  intros (Hb & m & Hph & Hsw & Hu). pose proof (bu_scans _ _ _ Hb) as Hl.
  destruct (p_scan_active p) eqn:Hs; [|done]. assert (Hsc : sc = []) by (apply nil_length_inv; cbn in Hl; congruence).
  split; [done|]. subst. split; [by destruct Hb|done|]. cbn [p_active p_finger_present p_state set_scan].
  unfold phase in Hph. destruct (p_state p); decompose [and] Hph; try subst m; try done; try congruence; auto 10.
Qed.

Lemma scanned_kept e d p sw : scanned d p sw → scanned d (kept e p) sw.
Proof using Type.
  destruct (kept_fields e p) as (Ka & Ks & Kc & Kf & Ke). intros [Hb Hs Hst]. split; [|by rewrite Kc|by rewrite Ka, Kf, Ks].
  by apply (busy_priv d p).
Qed.

Lemma scanned_active d p sw : scanned d p sw → p_active p = true → active_state (p_state p) = true ∧ ∃ m, sess_in m sw.
Proof using Type.
  intros [_ _ [(_ & _ & -> & ? & _)|[(_ & _ & -> & ? & _)|(? & _)]]] Ha; [split; [done|by eexists]..|congruence].
Qed.

(** Without the device active, the action is over. *)
Lemma scanned_ended d p d' p' sw :
  scanned d p sw → p_active p = false → completes d p d' p' → ended d' p' [] sw ∧ p_active p' = false.
Proof using Type.
  intros [Hb Hs Hst] Ha Hco. destruct Hst as [(? & _)|[(? & _)|(_ & Hf & Hst & Hsw)]]; [congruence..|].
  unfold completes in Hco. rewrite Ha, Hs in Hco. destruct Hco as (Hd & i & ->).
  split; [|done]. eapply dended_ended; [exact Hb|exact Hd|done|done|done|done|by left].
Qed.

Lemma complete_deactivate_wp n e b Q d p o sw t q :
  scanned d p sw →
  (∀ d' p' o' sw' t', acting true d' p' [] sw' t' → Q () (X d' p' [] o' sw' t' q)) →
  wp (fp_image_device_maybe_complete_action e;; fpi_image_device_deactivate (cls (S (S n))) b) Q (X d p [] o sw t q).
Proof using EO CO.
  intros Hsd HQ. apply wp_bind, wp_maybe_complete; [apply Hsd|]. intros d' p' Hco.
  destruct (p_active p) eqn:Ha.
  - pose proof (scanned_kept e _ _ _ Hsd) as Hk. destruct (kept_fields e p) as (Ka & _).
    unfold completes in Hco. rewrite Ka, Ha in Hco. destruct Hco as (-> & ->).
    destruct (scanned_active _ _ _ Hk) as (Hst & m & Hsw); [congruence|].
    eapply deactivate_active_wp; [congruence|done|apply Hk|exact Hsw|]. intros d2 p2 o2 sw2 Hco2 Hsw2.
    eapply HQ, downed_acting, (completes_downed _ _ None); [apply Hk|exact Hco2|done].
  - pose proof (scanned_kept e _ _ _ Hsd) as Hk. destruct (kept_fields e p) as (Ka & _).
    rewrite Ha in Ka. destruct (scanned_ended _ _ _ _ _ Hk Ka Hco) as (He & Ha').
    apply deactivate_inactive_wp; [done|]. apply HQ. by right.
Qed.

(** The actions of one image wait for the finger to leave, or end. *)
Lemma complete_scan_wp e Q d p o sw t q :
  scanned d p sw → d_action d ≠ FPI_DEVICE_ACTION_ENROLL → (p_active p = true → is_Some t) →
  (∀ d' p' o' sw' t', acting true d' p' [] sw' t' → Q () (X d' p' [] o' sw' t' q)) →
  wp (fp_image_device_maybe_complete_action e) Q (X d p [] o sw t q).
Proof using Type.
  intros Hsd Hne Ht HQ. apply wp_maybe_complete; [apply Hsd|]. intros d' p' Hco. apply HQ.
  pose proof (scanned_kept e _ _ _ Hsd) as Hk. destruct (kept_fields e p) as (Ka & _).
  destruct (p_active p) eqn:Ha.
  - unfold completes in Hco. rewrite Ka in Hco. destruct Hco as (-> & ->). left. split; [|intros _ _; by apply Ht].
    destruct Hk as [Hb Hs [(? & ? & Hst & ? & ?)|[(_ & _ & _ & _ & _ & ?)|(? & _)]]]; [|done|congruence].
    split; [done|]. exists GXFP_MODE_WAIT_FINGER_OFF. unfold phase. by rewrite Hst.
  - right. by apply (scanned_ended d (kept e p)).
Qed.

(** What a report changes of the device. *)
Lemma wp_verify_report r e Q d p sc o sw t q :
  (∀ d' o', dsame d d' → Q () (X d' p sc o' sw t q)) → wp (fpi_device_verify_report r e) Q (X d p sc o sw t q).
Proof using Type.
  intros HQ. unfold fpi_device_verify_report. apply wp_bind, wp_dev.
  destruct (bool_decide (d_action d = _)); [|by apply wp_out, HQ]. destruct (d_reported d); [by apply wp_out, HQ|].
  cbn [negb return_if_fail]. destruct (_ || _); apply wp_bind, wp_mod_dev; [|by apply wp_out, HQ].
  destruct (is_retry _); [by apply wp_out, HQ|by apply wp_ret, HQ].
Qed.

Lemma wp_identify_report r e Q d p sc o sw t q :
  (∀ d' o', dsame d d' → Q () (X d' p sc o' sw t q)) → wp (fpi_device_identify_report r e) Q (X d p sc o sw t q).
Proof using Type.
  intros HQ. unfold fpi_device_identify_report. apply wp_bind, wp_dev.
  destruct (bool_decide (d_action d = _)); [|by apply wp_out, HQ]. destruct (d_reported d); [by apply wp_out, HQ|].
  cbn [negb return_if_fail]. destruct e as [e|]; apply wp_bind, wp_mod_dev; [|by apply wp_out, HQ].
  destruct (is_retry _); [by apply wp_out, HQ|by apply wp_ret, HQ].
Qed.

Lemma scanned_same d d' p sw : dsame d d' → scanned d p sw → scanned d' p sw.
Proof using Type.
  intros Hd [Hb Hs Hst]. split; [by eapply busy_same|done|]. by rewrite (ds_action _ _ Hd).
Qed.

(** A stage of an enrollment is over, on an active device. *)
Lemma enroll_scanned_wp n (print : bool) e Q d p o sw t q :
  scanned d p sw → p_active p = true → is_Some t ∨ p_finger_present p = false → d_action d = FPI_DEVICE_ACTION_ENROLL →
  (if print then e = None else True) → from_option is_retry true e = true →
  (∀ d' p' o' sw' t', acting true d' p' [] sw' t' → Q () (X d' p' [] o' sw' t' q)) →
  wp (enroll_scanned (cls (S (S (S n)))) print e) Q (X d p [] o sw t q).
Proof using EO CO Hfuel.
  intros Hsd Ha Ht Hac Hpr Hre HQ. pose proof (sd_busy _ _ _ Hsd) as Hb. unfold enroll_scanned. apply wp_bind.
  set (p1 := if print then set_stage (p_enroll_stage p + 1) p else p).
  assert (Hrest : wp (p ← priv;
      fpi_device_enroll_progress (p_enroll_stage p) e;;
      d ← dev;
      if p_enroll_stage p =? d_enroll_stages d then
        if bool_decide (e = None) then
          fp_image_device_maybe_complete_action None;; fpi_image_device_deactivate (cls (S (S (S n)))) false
        else ub
      else fp_image_device_enroll_maybe_await_finger_on (cls (S (S (S n))))) Q (X d p1 [] o sw t q)).
  { apply wp_bind, wp_priv, wp_bind. unfold fpi_device_enroll_progress. apply wp_bind, wp_dev.
    rewrite bool_decide_eq_true_2 by done. rewrite Hre. cbn [return_if_fail]. apply wp_out, wp_bind, wp_dev.
    assert (Hp1 : p_active p1 = true ∧ p_scan_active p1 = false ∧ p_finger_present p1 = p_finger_present p ∧ p_state p1 = p_state p).
    { unfold p1. destruct print; cbn; by rewrite ?Ha, ?(sd_scan _ _ _ Hsd). }
    destruct Hp1 as (Ha1 & Hs1 & Hf1 & Hst1). destruct (scanned_active _ _ _ Hsd Ha) as (Hst & m & Hsw).
    pose proof (bu_stages _ _ _ Hb) as Hstg. destruct (Z.eqb_spec (p_enroll_stage p1) (d_enroll_stages d)) as [He|He].
    - unfold p1 in He. destruct print; cbn in He; [|clear -He Hstg; lia]. rewrite bool_decide_eq_true_2 by done.
      apply wp_bind, wp_maybe_complete; [apply Hb|]. intros d' p' Hco. unfold completes, kept in Hco. rewrite Ha1 in Hco.
      destruct Hco as (-> & ->). eapply deactivate_active_wp; [done|by rewrite Hst1|apply Hb|exact Hsw|].
      intros d' p' o' sw' Hco Hsw'. apply HQ. right. unfold completes in Hco. cbn [off p_active p_scan_active set_state set_active orb] in Hco.
      rewrite Hs1 in Hco. destruct Hco as (Hd & i & ->). eapply dended_ended; [exact Hb|exact Hd|done|done|done|done|by left].
    - assert (Hb1 : busy d p1 []).
      { unfold p1 in *. destruct print; [|done]. destruct Hb as [? ? ? ? Hs ? ?]. split; try done. cbn in He |- *. clear -Hs He. lia. }
      unfold fp_image_device_enroll_maybe_await_finger_on. apply wp_bind, wp_priv. rewrite Hs1, Hf1. cbn [orb].
      destruct Hsd as [_ _ [(_ & Hf & Hst2 & Hsw2 & Hu)|[(_ & Hf & Hst2 & Hsw2 & Hu & _)|(? & _)]]]; [| |congruence]; rewrite Hf.
      + destruct Ht as [Ht|?]; [|congruence]. apply wp_ret, HQ. left. split; [|done]. split; [done|].
        exists GXFP_MODE_WAIT_FINGER_OFF. split; [|by split]. unfold phase. rewrite Hst1, Hst2. by rewrite Hf1.
      + eapply await_on_wp; [done|exact Hb1|done|done|by rewrite Hf1|exact Hsw2|done|done|exact HQ]. }
  destruct print; cbn [when]; [apply wp_mod_priv|apply wp_ret]; exact Hrest.
Qed.

(** The last stage of an enrollment is over, on a device that was taken down. *)
Lemma enroll_last_wp n Q d p o sw t q :
  scanned d p sw → p_active p = false → d_action d = FPI_DEVICE_ACTION_ENROLL →
  p_enroll_stage p + 1 = d_enroll_stages d →
  (∀ d' p' o' sw' t', acting true d' p' [] sw' t' → Q () (X d' p' [] o' sw' t' q)) →
  wp (enroll_scanned (cls (S (S (S n)))) true None) Q (X d p [] o sw t q).
Proof using EO CO.
  intros Hsd Ha Hac Hst HQ. pose proof (sd_busy _ _ _ Hsd) as Hb. unfold enroll_scanned. cbn [when].
  apply wp_bind, wp_mod_priv. apply wp_bind, wp_priv, wp_bind. unfold fpi_device_enroll_progress. apply wp_bind, wp_dev.
  rewrite bool_decide_eq_true_2 by done. cbn [from_option return_if_fail]. apply wp_out, wp_bind, wp_dev.
  cbn [p_enroll_stage set_stage]. rewrite (proj2 (Z.eqb_eq _ _) Hst), bool_decide_eq_true_2 by done.
  apply wp_bind, wp_maybe_complete; [apply Hb|]. intros d' p' Hco.
  destruct Hsd as [_ Hs [(? & _)|[(? & _)|(_ & Hf & Hst2 & Hsw)]]]; [congruence..|].
  unfold completes, kept in Hco. cbn [p_active p_scan_active set_stage] in Hco. rewrite Ha, Hs in Hco.
  destruct Hco as (Hd & i & ->). apply deactivate_inactive_wp; [done|]. apply HQ. right.
  eapply dended_ended; [exact Hb|exact Hd|done|done|done|done|by left].
Qed.

(** A scan with this result leaves an enrollment with something to do: a retry, or a
    picture that is not the last. *)
Definition scan_goes_on (d : fp_device) (p : FpImageDevicePrivate) (r : scan_result) : bool :=
  match sc_error r, sc_print r with
  | Some ErrCancelled, _ => false
  | Some _, _ => true
  | None, Some e => is_retry e
  | None, None => negb (p_enroll_stage p + 1 =? d_enroll_stages d)
  end.

Lemma goes_on_false d p r :
  scan_goes_on d p r = false → sc_error r ≠ Some ErrCancelled →
  sc_error r = None ∧ (sc_print r = None ∧ p_enroll_stage p + 1 = d_enroll_stages d ∨
                       ∃ e, sc_print r = Some e ∧ is_retry e = false).
Proof using Type.
  unfold scan_goes_on. intros Hn Hc. destruct (sc_error r) as [[]|]; try done. split; [done|].
  destruct (sc_print r) as [e|]; [right; by exists e|left]. split; [done|]. by apply negb_false_iff, Z.eqb_eq in Hn.
Qed.

(** An enrollment whose device was taken down hears of no scan that goes on. *)
Definition hears (d : fp_device) (p : FpImageDevicePrivate) (r : scan_result) : Prop :=
  d_action d = FPI_DEVICE_ACTION_ENROLL → p_active p = true ∨ scan_goes_on d p r = false.

Lemma detected_wp n image r Q d p o sw t q :
  scanned d (set_scan false p) sw → (p_active p = true → is_Some t ∨ p_finger_present p = false) → hears d p r →
  (∀ d' p' o' sw' t', acting true d' p' [] sw' t' → Q () (X d' p' [] o' sw' t' q)) →
  wp (fpi_image_device_minutiae_detected (cls (S (S (S n)))) image r) Q (X d p [] o sw t q).
Proof using EO CO Hfuel.
  intros Hsd Ht Hh HQ. unfold fpi_image_device_minutiae_detected. apply wp_bind, wp_mod_priv.
  assert (Hsome : p_active p = true → d_action d ≠ FPI_DEVICE_ACTION_ENROLL → is_Some t).
  { intros Ha Hne. destruct (Ht Ha) as [?|Hf]; [done|]. destruct Hsd as [_ _ [(_ & Hf' & _)|[(_ & _ & _ & _ & _ & ?)|(Hn & _)]]]; [|done|].
    - cbn in Hf'. congruence.
    - cbn in Hn. congruence. }
  set (p1 := set_scan false p) in *.
  assert (Hcap : ∀ i, scanned d (set_capture_image i p1) sw) by (intros i; destruct Hsd as [[] ? ?]; by split).
  assert (Hgo : ∀ error, sc_error r ≠ Some ErrCancelled → from_option is_retry true error = true →
    (is_Some error ↔ is_Some (sc_error r)) →
    wp (action ← fpi_device_get_current_action;
        if bool_decide (action = FPI_DEVICE_ACTION_CAPTURE) then
          mod_priv (set_capture_image (Some image));; fp_image_device_maybe_complete_action error
        else
        let '(print, error) :=
          match error with
          | Some _ => (false, error)
          | None => (bool_decide (sc_print r = None), sc_print r)
          end in
        if negb (from_option is_retry true error) then
          fp_image_device_maybe_complete_action error;; fpi_image_device_deactivate (cls (S (S (S n)))) true
        else
        match action with
        | FPI_DEVICE_ACTION_ENROLL => enroll_scanned (cls (S (S (S n)))) print error
        | FPI_DEVICE_ACTION_VERIFY => verify_scanned (sc_match r) print error
        | FPI_DEVICE_ACTION_IDENTIFY => identify_scanned (sc_match r) error
        | _ => g_assert false
        end) Q (X d p1 [] o sw t q)).
  { intros error Hnc Her Hiff. apply wp_bind, wp_action. destruct (bool_decide_reflect (d_action d = FPI_DEVICE_ACTION_CAPTURE)) as [Hc|Hc].
    { apply wp_bind, wp_mod_priv. apply complete_scan_wp; [apply Hcap|by rewrite Hc|intros Ha; apply Hsome; [done|by rewrite Hc]|exact HQ]. }
    set (pe := match error with Some _ => _ | None => _ end).
    assert (Hpe : if pe.1 then pe.2 = None else True).
    { unfold pe. destruct error; cbn; [done|]. by case_bool_decide. }
    destruct pe as [print e] eqn:Epe. cbn [fst snd] in Hpe.
    destruct (from_option is_retry true e) eqn:Hre; cbn [negb]; [|by apply complete_deactivate_wp].
    pose proof (bu_action _ _ _ (sd_busy _ _ _ Hsd)) as Hac. destruct (d_action d) eqn:Had; try done.
    - destruct (p_active p) eqn:Ha.
      { eapply enroll_scanned_wp; [done|done|by apply Ht|done|done|done|exact HQ]. }
      destruct (Hh Had) as [?|Hn]; [congruence|]. destruct (goes_on_false _ _ _ Hn Hnc) as (He0 & Hpr).
      assert (error = None) as -> by (apply eq_None_not_Some; rewrite Hiff, He0; by intros []).
      unfold pe in Epe. destruct Hpr as [(Hp0 & Hst)|(e0 & Hp0 & Hr0)]; rewrite Hp0 in Epe; injection Epe as <- <-.
      + by eapply enroll_last_wp.
      + cbn in Hre. congruence.
    - unfold verify_scanned. assert (Hne : d_action d ≠ FPI_DEVICE_ACTION_ENROLL) by by rewrite Had.
      set (rv := if print then _ else _). destruct rv as [rr re]. destruct (from_option is_retry true re).
      + apply wp_bind, wp_verify_report. intros d' o' Hd. apply complete_scan_wp; [by eapply scanned_same|by rewrite (ds_action _ _ Hd)| |exact HQ].
        intros Ha. by apply Hsome.
      + apply complete_scan_wp; [done|done|intros Ha; by apply Hsome|exact HQ].
    - unfold identify_scanned. assert (Hne : d_action d ≠ FPI_DEVICE_ACTION_ENROLL) by by rewrite Had.
      apply wp_bind, wp_dev. set (rv := match e with Some _ => _ | None => _ end). destruct rv as [rr re]. destruct (from_option is_retry true re).
      + apply wp_bind, wp_identify_report. intros d' o' Hd. apply complete_scan_wp; [by eapply scanned_same|by rewrite (ds_action _ _ Hd)| |exact HQ].
        intros Ha. by apply Hsome.
      + apply complete_scan_wp; [done|done|intros Ha; by apply Hsome|exact HQ]. }
  destruct (sc_error r) as [[]|] eqn:He; [by apply complete_deactivate_wp|..]; cbv zeta; by apply Hgo.
Qed.

(** The step after which an enrollment goes wrong: a scan ends that nobody cancelled, on a
    device that was taken down by an error, and the enrollment goes on. *)
Definition enroll_lost (op : driver_op) (w : dworld) : bool :=
  match op with
  | OpScanned r =>
    bool_decide (d_action (i_dev w) = FPI_DEVICE_ACTION_ENROLL) && negb (p_active (i_priv w)) &&
    negb (d_cancelled (i_dev w)) && negb (bool_decide (i_scans w = [])) && scan_goes_on (i_dev w) (i_priv w) r
  | _ => false
  end.

Lemma op_scanned_wp n r w :
  driver_inv w → enroll_lost (OpScanned r) w = false → wp (run_op (cls (S (S (S n)))) fuel (OpScanned r)) (λ _ w', driver_inv w') w.
Proof using EO CO Hfuel.
  destruct (X_eta w) as (d & p & sc & o & sw & t & q & ->). intros Hw Hel. unfold run_op. apply wp_bind, wp_getw.
  cbn [X i_scans]. destruct sc as [|i sc]; [by apply wp_ret|].
  destruct Hw as [[(Hr & Ht)|He]|Hc]; cbn [X i_dev i_priv i_scans i_drv g_sess timer_source] in *.
  - destruct (running_scanned _ _ _ _ _ Hr) as (-> & Hsd).
    assert (Hput : ∀ Q : () → dworld → Prop, Q () (X d p [] o sw t q) → wp (put_scans []) Q (X d p [i] o sw t q)) by done.
    apply wp_bind, Hput. eapply detected_wp; [exact Hsd| | |].
    + intros Ha. destruct Hr as (_ & m & Hph & _). unfold phase in Hph. unfold ticking in Ht.
      destruct (p_state p); decompose [and] Hph; try (by right); try (left; by apply Ht); congruence.
    + intros Hen. destruct (p_active p) eqn:Ha; [by left|]. right. unfold enroll_lost in Hel. cbn in Hel.
      rewrite bool_decide_eq_true_2, Ha in Hel by done. unfold task_result. cbn in Hel |- *. by destruct (d_cancelled d).
    + intros d' p' o' sw' t' Ha. by apply inv_acting.
  - destruct He as [? ? ? ? ? ? ? [] ?]. done.
  - destruct Hc as [[] ? ? ? ? ?]. done.
Qed.

(** ** The completion of an action *)

(** Whether the device is open once an action returned. *)
Definition open_after (d : fp_device) (r : task_return) : bool :=
  match d_action d, r with
  | FPI_DEVICE_ACTION_OPEN, ReturnError _ => d_open d
  | FPI_DEVICE_ACTION_OPEN, _ => true
  | FPI_DEVICE_ACTION_CLOSE, _ => false
  | _, _ => d_open d
  end.

(** The device after the completion [r] was dispatched, the first of [r :: rest]. *)
Record returned (d : fp_device) (r : task_return) (rest : list task_return) (d' : fp_device) : Prop := {
  rt_open : d_open d' = open_after d r;
  rt_action : d_action d' = FPI_DEVICE_ACTION_NONE;
  rt_connected : d_connected d' = d_connected d;
  rt_idle : d_connected d = false → d_idle_cancel d' = d_idle_cancel d;
  rt_returns : d_returns d' = rest;
  rt_stages : d_enroll_stages d' = d_enroll_stages d;
  rt_power : power_ok FPI_DEVICE_ACTION_NONE (d_power d')
}.

Lemma task_return_wp r rest (Q : () → dworld → Prop) d p sc o sw t q :
  d_action d ≠ FPI_DEVICE_ACTION_NONE → power_ok (d_action d) (d_power d) →
  (∀ d' answer after, returned d r rest d' → Forall power_out after →
     Q () (X d' p sc (o ++ OutReturned (d_action d) answer :: after) sw t q)) →
  wp (mod_dev (set_returns rest);; fp_device_task_return_in_idle_cb r) Q (X d p sc o sw t q).
Proof using Type.
  intros Hne [_ _ Hpw] HQ. apply wp_bind, wp_mod_dev. unfold fp_device_task_return_in_idle_cb.
  apply wp_bind, wp_dev, wp_bind, wp_mod_dev, wp_bind, wp_update_temp. cbn [d_action set_returns d_power].
  set (d0 := set_reason _ _). intros d1 [Ho Ha Hc Hi Hr Hst Hp]. rewrite bool_decide_eq_false_2 by done.
  assert (Hend : ∀ d2, d_open d2 = open_after d r → d_action d2 = d_action d1 → d_connected d2 = d_connected d1 →
    d_idle_cancel d2 = d_idle_cancel d1 → d_returns d2 = d_returns d1 → d_enroll_stages d2 = d_enroll_stages d1 →
    d_power d2 = d_power d1 →
    wp (mod_power (set_on_completed []);;
        out (OutReturned (d_action d) (answer_of (is_removed (d_power d)) (d_reason (set_returns rest d)) (d_action d) r));;
        run_completed (on_completed (d_power d))) Q (X d2 p sc o sw t q)).
  { intros d2 Ho2 Ha2 Hc2 Hi2 Hr2 Hst2 Hp2. apply wp_bind, wp_mod_dev, wp_bind, wp_out, run_completed_wp; cbn [d_power set_power].
    - rewrite Hp2, Hp. exact Hpw.
    - intros m after Hm Hon Haf. rewrite <- (assoc_L (++)). apply HQ; [|exact Haf].
      split; cbn [d_open d_action d_connected d_idle_cancel d_returns d_enroll_stages d_power set_power]; [done|by rewrite Ha2, Ha|by rewrite Hc2, Hc| |by rewrite Hr2, Hr|by rewrite Hst2, Hst|].
      + intros Hcn. rewrite Hi2. exact (Hi Hcn).
      + split; [done|by intros _|by rewrite Hon]. }
  apply wp_bind. unfold open_after in Hend. destruct (d_action d) eqn:Hac; [done| |by apply wp_mod_dev, Hend|by apply wp_ret, Hend..].
  destruct r; first [by apply wp_mod_dev, Hend|by apply wp_ret, Hend].
Qed.

Lemma returned_calm d r d' p sc sw :
  d_connected d = false → d_idle_cancel d = false → 0 < d_enroll_stages d → resting p sc → returned d r [] d' →
  (if open_after d r then still sw else shut sw) → calm d' p sc sw.
Proof using Type.
  intros Hcn Hid Hst Hre [Ho Ha Hc Hi Hr Hs Hp] Hsw.
  split; [done|congruence|rewrite Hi; congruence|congruence|by rewrite Ha|]. left. by rewrite Ha, Hr, Ho.
Qed.

Lemma ended_returned r d d' p sc sw : ended d p sc sw → returned d r [] d' → calm d' p sc sw.
Proof using Type.
  intros [Ha Ho Hcn Hid _ Hst _ Hre Hs] Hr. eapply returned_calm; [done..|exact Hr|].
  unfold open_after. by destruct (d_action d); rewrite ?Ho.
Qed.

Lemma op_return_wp n w : driver_inv w → wp (run_op (cls n) fuel OpIdleReturn) (λ _ w', driver_inv w') w.
Proof using Type.
  destruct (X_eta w) as (d & p & sc & o & sw & t & q & ->). intros Hw. unfold run_op. apply wp_bind, wp_getw.
  cbn [X i_dev]. destruct (d_returns d) as [|r rest] eqn:Hr; [by apply wp_ret|].
  destruct Hw as [[((Hb & _) & _)|He]|Hc]; cbn [X i_dev i_priv i_scans i_drv g_sess timer_source] in *.
  - rewrite (bu_returns _ _ _ Hb) in Hr. done.
  - destruct (en_returns _ _ _ _ He) as (r' & Hr'). rewrite Hr in Hr'. injection Hr' as <- ->.
    apply task_return_wp; [apply capture_some, He|apply He|]. intros d' a after Hd _. by eapply inv_calm, ended_returned.
  - destruct Hc as [Hre Hcn Hid Hst Hpw Hac].
    assert (Hgo : d_action d ≠ FPI_DEVICE_ACTION_NONE → rest = [] → (if open_after d r then still sw else shut sw) →
      wp (mod_dev (set_returns rest);; fp_device_task_return_in_idle_cb r) (λ _ w', driver_inv w') (X d p sc o sw t q)).
    { intros Hne -> Hs. apply task_return_wp; [done|done|]. intros d' a after Hd _. by eapply inv_calm, returned_calm. }
    unfold open_after in Hgo. destruct Hac as [(_ & Hr0 & _)|[(Ha & Ho & [(Hr2 & Hs)|(e & Hr2 & Hs)])|(Ha & Ho & (r2 & Hr2) & Hs)]];
      [by rewrite Hr0 in Hr|..]; rewrite Hr2 in Hr; injection Hr as <- <-; rewrite Ha in Hgo; apply Hgo; try done. by rewrite Ho.
Qed.

(** ** Suspending, resuming, unplugging *)

Lemma inv_power m d p sc o o' sw t q :
  power_ok (d_action d) m → driver_inv (X d p sc o sw t q) → driver_inv (X (set_power m d) p sc o' sw t q).
Proof using Type. intros Hm [[(([] & Hrun) & Ht)|[]]|[]]; [left; left; by split; [split; [|exact Hrun]|]|left; by right|by right]. Qed.

Lemma inv_power_ok w : driver_inv w → power_ok (d_action (i_dev w)) (d_power (i_dev w)).
Proof using Type. intros [[((Hb & _) & _)|He]|Hc]; [apply Hb|apply He|apply Hc]. Qed.

Lemma power_handlers_app l h : power_handlers (l ++ [h]) = power_handlers l ++ power_handlers [h].
Proof using Type. apply filter_app. Qed.

(** Connecting a handler while an action is under way. *)
Lemma wp_connect h Q d p sc o sw t q :
  Q () (X (set_power (set_on_completed (on_completed (d_power d) ++ [h]) (d_power d)) d) p sc o sw t q) →
  wp (connect_completed h) Q (X d p sc o sw t q).
Proof using Type. done. Qed.

Lemma op_remove_wp n w : driver_inv w → wp (run_op (cls n) fuel OpRemove) (λ _ w', driver_inv w') w.
Proof using Type.
  destruct (X_eta w) as (d & p & sc & o & sw & t & q & ->). intros Hw. unfold run_op. apply wp_bind, wp_getw.
  destruct (inv_power_ok _ Hw) as [Hs Hn Hp]. cbn [X i_dev] in *. unfold fpi_device_remove. apply wp_bind, wp_dev.
  destruct (is_removed (d_power d)); cbn [negb return_if_fail]; [by apply wp_out|]. apply wp_bind, wp_mod_dev.
  destruct (bool_decide_reflect (d_action d = FPI_DEVICE_ACTION_NONE)) as [Ha|Ha].
  - apply wp_out. by eapply inv_power.
  - apply wp_connect. cbn [d_power set_power]. eapply (inv_power _ d); [|exact Hw]. split; [exact Hs|done|].
    unfold pending. cbn [on_completed set_on_completed]. rewrite power_handlers_app, app_nil_r. exact Hp.
Qed.

(** No suspend is under way: neither an error nor a handler is left. *)
Lemma power_free a m : power_ok a m → suspend_resume_task m = false → suspend_error m = None ∧ power_handlers (on_completed m) = [].
Proof using Type. intros [_ _ [(_ & ? & ?)|[(? & _)|(? & _)]]] Ht; [done|congruence..]. Qed.

(** A suspend waits for an action only. *)
Lemma power_waits a m : power_ok a m → suspend_resume_task m = true → a ≠ FPI_DEVICE_ACTION_NONE.
Proof using Type.
  intros [_ Hn Hp] Ht Ha. rewrite Hn in Hp by done. destruct Hp as [(? & _)|[(_ & _ & [=])|(_ & [=])]]. congruence.
Qed.

Lemma suspend_complete_wp e Q d p sc o sw t q :
  suspend_resume_task (d_power d) = true → suspend_error (d_power d) = None →
  power_handlers (on_completed (d_power d)) = [] → is_capture (d_action d) = true ∨ d_action d = FPI_DEVICE_ACTION_NONE ∧ on_completed (d_power d) = [] →
  (∀ m d' o', power_ok (d_action d) m → dheated (set_power m d) d' →
     (e ≠ None → is_capture (d_action d) = true →
      d_cancelled d' = true ∧ (d_cancelled d = false → d_connected d = true → d_idle_cancel d' = true)) →
     Q () (X d' p sc o' sw t q)) →
  wp (fpi_device_suspend_complete e) Q (X d p sc o sw t q).
Proof using Type.
  intros Ht He Hh Ha HQ. unfold fpi_device_suspend_complete. apply wp_bind, wp_dev. rewrite Ht, He, bool_decide_eq_true_2 by done.
  cbn [return_if_fail]. apply wp_bind, wp_mod_dev.
  assert (Hoc : d_action d ≠ FPI_DEVICE_ACTION_OPEN ∧ d_action d ≠ FPI_DEVICE_ACTION_CLOSE).
  { destruct Ha as [Ha|(Ha & _)]; [by destruct (d_action d)|by rewrite Ha]. }
  destruct (_ || _) eqn:Hc.
  - unfold fpi_device_suspend_completed. apply wp_bind, wp_dev, wp_bind, wp_mod_dev. cbn [d_power set_power suspend_resume_task set_suspended set_suspend_error].
    rewrite Ht. apply wp_out. eapply HQ; [|by split|].
    + split; [done| |by left]. intros Hn. destruct Ha as [Ha|(_ & Hl)]; [by rewrite Hn in Ha|exact Hl].
    + intros Hes Hcap. apply orb_true_iff in Hc as [Hc|Hc]; apply bool_decide_eq_true_1 in Hc; [done|by rewrite Hc in Hcap].
  - apply orb_false_iff in Hc as (_ & Hne). apply bool_decide_eq_false_1 in Hne.
    apply wp_bind, wp_connect, wp_bind, wp_mod_dev, wp_mod_dev. cbn [d_power set_power on_completed set_suspended set_suspend_error].
    cbn [d_cancelled set_reason set_power]. eapply HQ; [|destruct (d_cancelled d); [by split|by split; try done; cbn; intros ->]|].
    2: { intros _ _. destruct (d_cancelled d) eqn:Hcd; [by split|]. split; [done|]. cbn. by intros _ ->. }
    split; [done|done|]. right. right. split; [exact Ht|]. cbn [on_completed set_on_completed]. by rewrite power_handlers_app, Hh.
Qed.

Lemma op_suspend_wp n w : driver_inv w → wp (run_op (cls n) fuel OpSuspend) (λ _ w', driver_inv w') w.
Proof using Type.
  destruct (X_eta w) as (d & p & sc & o & sw & t & q & ->). intros Hw. unfold run_op. apply wp_bind, wp_getw.
  pose proof (inv_power_ok _ Hw) as Hpw. cbn [X i_dev] in Hpw. unfold fp_device_suspend. apply wp_bind, wp_dev.
  destruct (suspend_resume_task (d_power d)) eqn:Ht; cbn [orb]; [by apply wp_out|].
  destruct (is_suspended (d_power d)) eqn:Hs; [by apply wp_out|]. destruct (is_removed (d_power d)); [by apply wp_out|].
  destruct (power_free _ _ Hpw Ht) as (He & Hh). apply wp_bind, wp_mod_dev. unfold fpi_device_suspend. apply wp_bind, wp_dev.
  set (d1 := set_power _ d).
  assert (Hgo : ∀ e, is_capture (d_action d) = true ∨ d_action d = FPI_DEVICE_ACTION_NONE →
    wp (fpi_device_suspend_complete e) (λ _ w', driver_inv w') (X d1 p sc o sw t q)).
  { intros e Ha. apply suspend_complete_wp; [done|done|done| |].
    - destruct Ha as [Ha|Ha]; [by left|right]. split; [done|]. by apply (pw_none _ _ Hpw).
    - intros m d' o' Hm Hd _. eapply inv_heated; [exact Hd|]. by apply (inv_power m d p sc o). }
  assert (Hwait : d_action d ≠ FPI_DEVICE_ACTION_NONE → wp (connect_completed CompleteSuspendResume) (λ _ w', driver_inv w') (X d1 p sc o sw t q)).
  { intros Hne. apply wp_connect. eapply (inv_power _ d); [|exact Hw]. split; [by cbn; rewrite Hs|done|].
    right. left. split; [done|]. split; [done|]. cbn. by rewrite power_handlers_app, Hh. }
  change (d_action d1) with (d_action d). destruct (d_action d); first [by apply Hgo; auto|by apply Hwait].
Qed.

Lemma op_resume_wp n w : driver_inv w → wp (run_op (cls n) fuel OpResume) (λ _ w', driver_inv w') w.
Proof using Type.
  destruct (X_eta w) as (d & p & sc & o & sw & t & q & ->). intros Hw. unfold run_op. apply wp_bind, wp_getw.
  pose proof (inv_power_ok _ Hw) as Hpw. cbn [X i_dev] in Hpw. unfold fp_device_resume. apply wp_bind, wp_dev.
  destruct (suspend_resume_task (d_power d)) eqn:Ht; cbn [orb]; [by apply wp_out|].
  destruct (is_suspended (d_power d)) eqn:Hs; cbn [negb]; [|by apply wp_out]. destruct (is_removed (d_power d)); [by apply wp_out|].
  destruct (power_free _ _ Hpw Ht) as (He & Hh). destruct (pw_suspended _ _ Hpw Hs) as (Hno & Hnc).
  apply wp_bind, wp_mod_dev. unfold fpi_device_resume. apply wp_bind, wp_dev. set (d1 := set_power _ d).
  assert (Hgo : ∀ e, wp (fpi_device_resume_complete e) (λ _ w', driver_inv w') (X d1 p sc o sw t q)).
  { intros e. unfold fpi_device_resume_complete. apply wp_bind, wp_dev. cbn [return_if_fail]. apply wp_bind, wp_mod_dev, wp_out.
    eapply (inv_power _ d); [|exact Hw]. split; [done|apply (pw_none _ _ Hpw)|by left]. }
  change (d_action d1) with (d_action d). by destruct (d_action d); first [apply Hgo|done].
Qed.

(** ** Starting an action *)

(** A call is refused on a device that is busy. *)
Lemma acting_busy b d p sc sw t : acting b d p sc sw t → d_action d ≠ FPI_DEVICE_ACTION_NONE.
Proof using Type. intros [((Hb & _) & _)|He]; apply capture_some; [apply Hb|apply He]. Qed.

Lemma activate_driver_wp n m Q d p o sw t q :
  busy d p [] → p_state p = FPI_IMAGE_DEVICE_STATE_ACTIVATING → phase d p GXFP_MODE_ACTIVATING_TLS → sess_in m sw →
  (∀ d' p' o' sw' t', acting true d' p' [] sw' t' → Q () (X d' p' [] o' sw' t' q)) →
  wp (gxfp_activate (cls n) fuel) Q (X d p [] o sw t q).
Proof using EO CO Hfuel.
  intros Hb Hst Hph (l & c & s & e & -> & Hc & Hs & Hm) HQ. unfold gxfp_activate. apply wp_bind, wp_with_events.
  eapply wp_mono; [apply (activate_reports fuel l c s); [done|done|clear -Hfuel; lia]|].
  intros r w' (l' & c' & s' & e' & -> & _ & Hc' & Hs' & Hr). do 4 eexists. split; [done|]. cbn [fst snd]. apply wp_bind.
  destruct Hr as [(-> & Hm' & Ha' & ->)|(Hr & Hm' & r' & ->)].
  - apply handle_tick_wp. change (0 <? 0) with false. cbv iota. apply wp_schedule, HQ. left. split; [|intros; by eexists].
    split; [done|]. exists GXFP_MODE_ACTIVATING_TLS. split; [done|]. split; [by do 4 eexists|]. intros _. by apply up_W.
  - unfold handle_session_events. do 3 (apply wp_bind, wp_ret). cbn [ev_error events_zero session_error error_target Z.eqb negb].
    apply wp_bind, wp_timer. rewrite bool_decide_eq_true_2 by done.
    eapply activation_error_wp; [exact Hb|done|exact Hph|by do 4 eexists|].
    intros d' He _. rewrite (proj2 (Z.ltb_lt r 0)) by done. apply wp_ret, HQ. by right.
Qed.

(** A calm device that is open, and free. *)
Lemma calm_still d p sc sw :
  calm d p sc sw → d_action d = FPI_DEVICE_ACTION_NONE → d_open d = true → d_returns d = [] ∧ still sw.
Proof using Type. intros [_ _ _ _ _ [(_ & ? & Hs)|[(? & _)|(? & _)]]] Hn Ho; [by rewrite Ho in Hs|congruence..]. Qed.

(** An action starts on a device that is not suspended. *)
Lemma power_begin a m : power_ok FPI_DEVICE_ACTION_NONE m → is_suspended m = false → power_ok a m.
Proof using Type. intros [_ Hn Hp] Hs. split; [by rewrite Hs|intros _; by apply Hn|done]. Qed.

(** What an action sets of the device when it starts. *)
Definition harmless (data : fp_device → fp_device) : Prop := ∀ d, dsame d (data d).

Lemma begin_action_wp n a data d p sc o sw t q :
  is_capture a = true → harmless data → calm d p sc sw → d_action d = FPI_DEVICE_ACTION_NONE → d_open d = true →
  is_suspended (d_power d) = false →
  wp (begin_task a;; mod_dev data;; fp_image_device_start_capture_action (cls (S n))) (λ _ w', driver_inv w') (X d p sc o sw t q).
Proof using EO CO Hfuel.
  intros Hcap Hdata Hc Hn Ho Hsu. destruct (calm_still _ _ _ _ Hc Hn Ho) as (Hr & Hs). destruct Hc as [Hre Hcn Hid Hst Hpw _].
  rewrite Hn in Hpw. apply (power_begin a) in Hpw; [|done].
  destruct Hre as [Ha Hsc Hf He Hps ->].
  apply wp_bind, wp_mod_dev, wp_bind, wp_mod_dev. set (d1 := data _).
  assert (Hd1 : d_action d1 = a ∧ d_open d1 = true ∧ d_connected d1 = true ∧ d_returns d1 = [] ∧ d_enroll_stages d1 = d_enroll_stages d ∧
    d_power d1 = d_power d).
  { subst d1. destruct (Hdata (set_cancel false true false (set_action a d))) as [E1 E2 _ E3 _ E4 E5 E6].
    rewrite E1, E2, E3, E4, E5, E6. by split_and!. }
  destruct Hd1 as (Hd1 & Ho1 & Hc1 & Hr1 & Hs1 & Hp1). clearbody d1.
  unfold fp_image_device_start_capture_action. apply wp_bind, wp_dev. rewrite Hd1.
  destruct (_ && _).
  { apply wp_action_error; [by rewrite Hd1|]. intros d' []. apply inv_acting. right. split; try congruence.
    - by rewrite Hr1 in de_returns.
    - by split. }
  apply wp_bind, wp_mod_priv, wp_bind, wp_priv, wp_bind. cbn [p_finger_present set_stage]. rewrite Hf. apply wp_ret, wp_bind.
  cbn [p_scan_active set_stage]. rewrite Hsc. apply wp_ret. unfold fpi_image_device_activate. apply wp_bind, wp_priv, wp_bind.
  cbn [p_active set_stage]. rewrite Ha. apply wp_ret, wp_bind.
  assert (Hgo : ∀ m, sess_in m sw →
    wp (fp_image_device_change_state (cls (S n)) FPI_IMAGE_DEVICE_STATE_ACTIVATING)
       (λ _ w', wp (cls_activate (cls (S n))) (λ _ w', driver_inv w') w') (X d1 (set_stage 0 p) [] o sw t q)).
  { intros m Hsw. eapply change_quiet_wp; [done|exact Hsw|]. intros o' sw' Hsw' _. cbn [gxfp_class cls_activate].
    eapply activate_driver_wp; [|done|by split_and!|exact Hsw'|intros; by apply inv_acting].
    split; try congruence; [by rewrite Hs1|]. cbn [p_scan_active set_state set_stage]. by rewrite Hsc. }
  destruct Hs as [Hs|Hs]; by eapply Hgo.
Qed.

(** Enroll, verify, identify, capture. *)
Lemma start_action_wp n a c v data w :
  is_capture a = true → harmless data → driver_inv w → wp (start_action (cls (S n)) a c v data) (λ _ w', driver_inv w') w.
Proof using EO CO Hfuel.
  destruct (X_eta w) as (d & p & sc & o & sw & t & q & ->). intros Hcap Hdata Hw. unfold start_action. apply wp_bind, wp_dev.
  destruct c; [apply wp_out; exact Hw|]. destruct (d_open d) eqn:Ho; cbn [negb]; [|apply wp_out; exact Hw].
  destruct (bool_decide_reflect (d_action d = FPI_DEVICE_ACTION_NONE)) as [Hn|Hn]; cbn [negb orb]; [|apply wp_out; exact Hw].
  destruct (is_suspended (d_power d)) eqn:Hsu; [apply wp_out; exact Hw|]. destruct v; cbn [negb]; [|apply wp_out; exact Hw].
  apply wp_bind, wp_update_temp. intros d' Hd. apply wp_bind, wp_dev. destruct (bool_decide _).
  - apply wp_bind, wp_out, wp_update_temp. intros d2 Hd2. by apply (inv_heated d'), (inv_heated d).
  - destruct Hw as [Ha|Hc]; [by destruct (acting_busy _ _ _ _ _ _ Ha)|]. cbn [X i_dev i_priv i_scans i_drv g_sess] in Hc.
    apply begin_action_wp; [done|done|by apply (calm_heated d)|by rewrite (dh_action _ _ Hd)|by rewrite (dh_open _ _ Hd)|by rewrite (dh_power _ _ Hd)].
Qed.

(** ** Opening and closing *)

Lemma wp_set_paths a b Q d p sc o sw t q : Q () (X d p sc o sw t (a, b)) → wp (set_paths a b) Q (X d p sc o sw t q).
Proof using Type. done. Qed.

Lemma op_close_wp n b w : driver_inv w → wp (run_op (cls (S n)) fuel (OpClose b)) (λ _ w', driver_inv w') w.
Proof using EO CO Hfuel.
  destruct (X_eta w) as (d & p & sc & o & sw & t & q & ->). intros Hw. unfold run_op. apply wp_bind, wp_getw.
  unfold fp_device_close. apply wp_bind, wp_dev. destruct b; [apply wp_out; exact Hw|].
  destruct (d_open d) eqn:Ho; cbn [negb]; [|apply wp_out; exact Hw].
  destruct (bool_decide_reflect (d_action d = FPI_DEVICE_ACTION_NONE)) as [Hn|Hn]; cbn [negb orb]; [|apply wp_out; exact Hw].
  destruct (is_suspended (d_power d)) eqn:Hsu; [apply wp_out; exact Hw|].
  destruct Hw as [Ha|Hca]; [by destruct (acting_busy _ _ _ _ _ _ Ha)|].
  cbn [X i_dev i_priv i_scans i_drv g_sess] in *.
  destruct (calm_still _ _ _ _ Hca Hn Ho) as (Hr & Hs). destruct Hca as [Hre Hcn Hid Hst Hpw _].
  rewrite Hn in Hpw. apply (power_begin FPI_DEVICE_ACTION_CLOSE) in Hpw; [|done]. pose proof (re_active _ _ Hre) as Ha.
  apply wp_bind, wp_mod_dev. set (d1 := set_cancel _ _ _ _).
  unfold fp_image_device_close. apply wp_bind, wp_priv, wp_bind. rewrite Ha. apply wp_ret. cbn [gxfp_class img_close].
  unfold gxfp_img_close. apply wp_bind, wp_timer.
  assert (Hlive : ∃ l c s e, sw = W l c s e ∧ static_ok c ∧ live s l).
  { destruct Hs as [(l & c & s & e & -> & Hc & Hl & _)|(l & c & s & e & -> & Hc & Hl & _)]; by exists l, c, s, e. }
  destruct Hlive as (l & c & s & e & -> & Hc & Hl). apply wp_bind, wp_with_events.
  eapply wp_mono; [apply (close_wp fuel false l c s events_zero); [by left|clear -Hfuel; lia]|].
  intros r w' (l' & s' & -> & Hcl & Hb & _). do 4 eexists. split; [done|]. cbn [fst snd].
  unfold handle_session_events. cbn [ev_done ev_cancel events_zero cancel_tick finger_status_changed image_ready session_error
    activate_complete deactivate_complete close_complete request_tick Z.eqb negb when].
  apply wp_bind, wp_timer. do 2 apply wp_bind, wp_ret. cbv iota. do 2 apply wp_bind, wp_ret.
  apply wp_bind, wp_bind, wp_timer, wp_bind, wp_set_paths. unfold fpi_image_device_close_complete.
  apply wp_bind, wp_priv, wp_bind, wp_action. rewrite Ha, bool_decide_eq_true_2 by done. cbn [negb return_if_fail].
  apply wp_bind, wp_mod_priv, wp_complete; [done|]. intros d' []. apply wp_ret, inv_calm.
  split; try congruence.
  - destruct Hre. split; try done. by left.
  - rewrite de_stages. exact Hst.
  - rewrite de_action, de_power. exact Hpw.
  - right. right. split; [by rewrite de_action|]. split; [by rewrite de_open|]. split.
    + change (d_returns d1) with (d_returns d) in de_returns. rewrite Hr in de_returns. exact de_returns.
    + exists l', c. eexists. split; [done|]. right. by exists s'.
Qed.

Lemma shut_io {A} (m : M lworld A) R sw :
  shut sw → wp m (λ a l', extends (s_l sw) l' ∧ R a) (s_l sw) → wp (io m) (λ a sw', shut sw' ∧ R a) sw.
Proof using Type.
  intros (l & c & e & Hc & Hsw) Hm. destruct (wp_inv _ _ _ Hm) as (a & l' & Hr & Hx & HR).
  apply (wp_eq _ _ _ a {| s_l := l'; s_crc := s_crc sw; s_sess := s_sess sw; s_ev := s_ev sw |}).
  { unfold io, zoom. by rewrite Hr. }
  split; [|done]. exists l', c, e. split; [done|]. destruct Hsw as [->|(s & -> & Hcl & Hb)]; [by left|]. right. exists s.
  split; [done|]. split; [done|]. by eapply base_extends.
Qed.

(** Opening the session of a device that is not open. *)
Lemma open_shut_wp path key n sw :
  shut sw → 0 <= n <= zlen key →
  wp (gxfp_session_open fuel (Some path) (Some key) n)
     (λ r sw', r < 0 ∧ shut sw' ∨ r = 0 ∧ sess_in GXFP_MODE_READY sw') sw.
Proof using EO CO Hfuel.
  intros (l & c & e & Hc & Hsw) Hn.
  assert (Hopened : ∀ r w', opened c e r w' → r < 0 ∧ shut w' ∨ r = 0 ∧ sess_in GXFP_MODE_READY w').
  { intros r w' (l' & s' & -> & [(-> & Hl & Hm)|(Hr & Hcl & Hb)]); [right|left]; (split; [done|]).
    - by do 4 eexists.
    - exists l', c, e. split; [done|]. right. by exists s'. }
  destruct (Z.eq_dec n 0) as [->|Hn0].
  { destruct Hsw as [->|(s & -> & Hcl & Hb)]; (eapply wp_eq; [done|]); left; (split; [done|]); exists l, c, e; (split; [done|]);
      [by left|right; by exists s]. }
  assert (Hn' : 0 < n <= zlen key) by (clear -Hn Hn0; lia).
  assert (Hgo : ∀ l s, closed s → base s l → wp (gxfp_session_open fuel (Some path) (Some key) n)
     (λ r sw', r < 0 ∧ shut sw' ∨ r = 0 ∧ sess_in GXFP_MODE_READY sw') (W l c s e)).
  { intros l1 s1 Hcl Hb. eapply wp_mono; [apply open_wp; [by right|exact Hfuel|done]|]. intros r w'. apply Hopened. }
  destruct Hsw as [->|(s & -> & Hcl & Hb)]; [|by apply Hgo].
  unfold gxfp_session_open. apply wp_bind, wp_getw. cbn [s_sess W0]. rewrite (proj2 (Z.eqb_neq n 0)) by done.
  apply wp_bind. eapply wp_mono; [apply ensure_wp|]. intros r w' [(-> & l' & ->)|(-> & l' & s' & -> & Hcl & Hb)].
  - change (- ENOMEM <? 0) with true. cbv iota. apply wp_ret. left. split; [done|]. exists l', c, e. split; [done|by left].
  - pose proof (Hgo l' s' Hcl Hb) as Ho. unfold gxfp_session_open in Ho. unfold wp in Ho |- *.
    rewrite bind_getw in Ho. cbn [s_sess W] in Ho. rewrite (proj2 (Z.eqb_neq n 0)) in Ho by done.
    rewrite (run_bind _ _ _ 0 (W l' c s' e)) in Ho by done. exact Ho.
Qed.

(** The completion of an opening: the session is ready, or not there. *)
Lemma open_complete_wp e d p sc o sw t q :
  resting p sc → 0 < d_enroll_stages d → power_ok FPI_DEVICE_ACTION_OPEN (d_power d) → d_action d = FPI_DEVICE_ACTION_OPEN → d_open d = false → d_returns d = [] →
  (match e with Some _ => shut sw | None => sess_in GXFP_MODE_READY sw end) →
  wp (fpi_image_device_open_complete e) (λ _ w', driver_inv w') (X d p sc o sw t q).
Proof using Type.
  intros Hre Hst Hpw Ha Ho Hr Hs. unfold fpi_image_device_open_complete. apply wp_bind, wp_priv, wp_bind, wp_action.
  rewrite (re_active _ _ Hre), Ha, bool_decide_eq_true_2 by done. cbn [negb return_if_fail].
  apply wp_bind, wp_mod_priv, wp_bind, wp_mod_dev.
  unfold fpi_device_open_complete, complete. apply wp_bind, wp_dev. cbn [d_action set_finger_status].
  rewrite Ha, bool_decide_eq_true_2 by done. cbn [return_if_fail]. apply wp_bind, wp_mod_dev, wp_bind, wp_mod_dev, wp_mod_dev.
  apply inv_calm. split; try done.
  - destruct Hre. split; try done. by left.
  - cbn. by rewrite Ha.
  - right. left. split; [done|]. split; [done|]. cbn [d_returns set_returns set_finger_status set_cancel]. rewrite Hr.
    destruct e as [e|]; [right; by exists e|left; split; [done|by left]].
Qed.

Lemma op_open_wp n b w : driver_inv w → wp (run_op (cls (S n)) fuel (OpOpen b)) (λ _ w', driver_inv w') w.
Proof using EO CO HO Hfuel.
  destruct (X_eta w) as (d & p & sc & o & sw & t & q & ->). intros Hw. unfold run_op. apply wp_bind, wp_getw.
  unfold fp_device_open. apply wp_bind, wp_dev. destruct b; [apply wp_out; exact Hw|].
  destruct (d_open d) eqn:Ho; [apply wp_out; exact Hw|].
  destruct (bool_decide_reflect (d_action d = FPI_DEVICE_ACTION_NONE)) as [Hn|Hn]; cbn [negb orb]; [|apply wp_out; exact Hw].
  destruct (is_suspended (d_power d)) eqn:Hsu; [apply wp_out; exact Hw|].
  destruct Hw as [Ha|[Hre Hcn Hid Hst Hpw Hac]]; [by destruct (acting_busy _ _ _ _ _ _ Ha)|].
  cbn [X i_dev i_priv i_scans i_drv g_sess] in *.
  assert (Hs : d_returns d = [] ∧ shut sw).
  { rewrite Ho in Hac. destruct Hac as [(_ & ? & ?)|[(? & _)|(? & _)]]; [done|congruence|congruence]. }
  rewrite Hn in Hpw. apply (power_begin FPI_DEVICE_ACTION_OPEN) in Hpw; [|done].
  destruct Hs as (Hr & Hs). apply wp_bind, wp_mod_dev, wp_bind, wp_mod_dev. set (d1 := set_finger_status _ _).
  unfold fp_image_device_open. cbn [gxfp_class img_open].
  assert (Hend : ∀ e sw' q', (match e with Some _ => shut sw' | None => sess_in GXFP_MODE_READY sw' end) →
    wp (fpi_image_device_open_complete e) (λ _ w', driver_inv w') (X d1 p sc o sw' t q')) by (intros; by apply open_complete_wp).
  unfold gxfp_img_open, open_failed.
  assert (Hgo : ∀ chardev file,
    wp (free_paths;; set_paths (Some chardev) (Some file);;
      '(r, psk_raw, psk_raw_len) ← lib (io (gxfp_read_file_all (Some (file_at file)) (Some None) (Some 0)));
      if r <? 0 then fpi_image_device_open_complete (Some (io_error_from_errno (- r))) else
      psk_raw ← lift psk_raw; n ← lift psk_raw_len;
      r ← lib (gxfp_session_open fuel (Some chardev) psk_raw n);
      if r <? 0 then fpi_image_device_open_complete (Some (io_error_from_errno (- r)))
      else fpi_image_device_open_complete None) (λ _ w', driver_inv w') (X d1 p sc o sw t q)).
  { intros chardev file. apply wp_bind, wp_set_paths, wp_bind, wp_set_paths, wp_bind, wp_lib.
    destruct (file_ok file) as (Hf & He). eapply wp_mono.
    { apply (shut_io _ (λ a : Z * ptr (ptr bytes) * ptr Z, a.1.1 < 0 ∨ a.1.1 = 0 ∧ ∃ b n, a.1.2 = Some (Some b) ∧ a.2 = Some n ∧ 0 <= n <= zlen b)); [exact Hs|].
      eapply wp_mono; [by apply read_file_total|]. intros [[r ob] ol] l' (Hx & Hr'). by split. }
    intros [[r ob] ol] sw' (Hs' & [Hr'|(Hr' & b & k & Hb & Hk & Hbk)]); cbn [fst snd] in *.
    - rewrite (proj2 (Z.ltb_lt r 0)) by done. by apply Hend.
    - subst. change (0 <? 0) with false. cbv iota. apply wp_bind, (wp_lift _ (Some b)); [done|]. apply wp_bind, (wp_lift _ k); [done|].
      apply wp_bind, wp_lib. eapply wp_mono; [by apply open_shut_wp|]. intros r sw2 [(Hr2 & Hs2)|(-> & Hs2)].
      + rewrite (proj2 (Z.ltb_lt r 0)) by done. by apply Hend.
      + change (0 <? 0) with false. cbv iota. by apply Hend. }
  destruct udev_chardev as [[|x chardev]|]; [by apply Hend| |by apply Hend]. cbv zeta. apply Hgo.
Qed.

(** * Every operation *)

Lemma driver_op_wp n op w :
  driver_inv w → enroll_lost op w = false → wp (run_op (cls (S (S (S n)))) fuel op) (λ _ w', driver_inv w') w.
Proof using EO TO WO CO FO HO Hfuel Hpull Hdeliver.
  intros Hw Hl. destruct op as [c|c|c tp|c|c prints|c wait| | | | | | | | |r].
  1: by apply op_open_wp.
  1: by apply op_close_wp.
  5: by apply op_suspend_wp.
  5: by apply op_resume_wp.
  5: by apply op_remove_wp.
  5: by apply op_cancel_wp.
  5: by apply op_idle_cancel_wp.
  5: by apply op_return_wp.
  5: by apply op_temp_wp.
  5: by apply op_timer_wp.
  5: by apply op_scanned_wp.
  all: unfold run_op; apply wp_bind, wp_getw.
  - by apply (start_action_wp (S (S n)) FPI_DEVICE_ACTION_ENROLL).
  - by apply (start_action_wp (S (S n)) FPI_DEVICE_ACTION_VERIFY).
  - by apply (start_action_wp (S (S n)) FPI_DEVICE_ACTION_IDENTIFY).
  - by apply (start_action_wp (S (S n)) FPI_DEVICE_ACTION_CAPTURE).
Qed.

(** The operations one after the other: they all keep the invariant, or one of them is
    the end of a scan that loses an enrollment, and those before it keep the invariant. *)
Lemma driver_ops_wp n ops w :
  driver_inv w →
  (∃ w', run_ops (cls (S (S (S n)))) fuel ops w = Some ((), w') ∧ driver_inv w') ∨
  (∃ pre r post w1, ops = pre ++ OpScanned r :: post ∧ run_ops (cls (S (S (S n)))) fuel pre w = Some ((), w1) ∧
     driver_inv w1 ∧ enroll_lost (OpScanned r) w1 = true).
Proof using EO TO WO CO FO HO Hfuel Hpull Hdeliver.
  revert w. induction ops as [|op ops IH]; intros w Hw; cbn [run_ops].
  { left. by exists w. }
  destruct (enroll_lost op w) eqn:Hl.
  { right. destruct op; try done. by exists [], r, ops, w. }
  destruct (wp_inv _ _ _ (driver_op_wp n op w Hw Hl)) as ([] & w1 & Hr & Hw1). rewrite (run_bind _ _ _ _ _ Hr).
  destruct (IH w1 Hw1) as [?|(pre & r & post & w2 & -> & Hpre & Hw2 & Hl2)]; [by left|]. right.
  exists (op :: pre), r, post, w2. split; [done|]. cbn [run_ops]. by rewrite (run_bind _ _ _ _ _ Hr).
Qed.
End driver_ops.
