(* ===== verification/LDriverProps.v ===== *)
(** What the program that uses the device can count on: an action always ends or is waited
    for, a cancellation ends it, the picture is the session's; and the enrollment that does
    not end. *)
From Stdlib Require Import ZArith Lia.
From stdpp Require Import prelude list.
From S2P Require Import Prelude KGoodixProto KUapi UGoodixProto UWorld UDev UCommon UXfer USensorCfg UCmds.
From S2P Require Import UDecoder UPlain UFdt UFpn UTls UTlsSvc USession USessionCalls USessionRun USessionEvents.
From S2P Require Import LImage LDriver LDriverRun LDriverInv LDriverOps.

Open Scope Z_scope.

(** Three calls into the driver nest at most: a change of state fails, the device is
    deactivated, and that changes its state again. *)
Definition NESTING : nat := 3.

Section driver_props.
Context {E : Uenv} {EO : UenvOk E} {WO : UwriteOk E} {T : Mbedtls} {TO : MbedtlsOk T} {B : nat} {CO : UclockOk E B}.
Context {N : nat} {FO : UfiniteOk E N} {H : Host} {HO : HostOk H}.
Context (fuel : nat) (Hfuel : (2000 * B < fuel)%nat) (Hpull : (pull_fuel <= fuel)%nat) (Hdeliver : (N < fuel)%nat).
Abbreviation driver := (gxfp_class fuel NESTING).

(** A device that was just made. *)
Definition power_zero : power_state :=
  {| is_removed := false; is_suspended := false; suspend_resume_task := false; suspend_error := None; on_completed := [] |}.

Record fresh (w : dworld) : Prop := {
  fr_open : d_open (i_dev w) = false;
  fr_action : d_action (i_dev w) = FPI_DEVICE_ACTION_NONE;
  fr_cancel : d_connected (i_dev w) = false ∧ d_idle_cancel (i_dev w) = false;
  fr_returns : d_returns (i_dev w) = [];
  fr_stages : 0 < d_enroll_stages (i_dev w);
  fr_power : d_power (i_dev w) = power_zero;
  fr_priv : resting (i_priv w) (i_scans w);
  fr_sess : static_ok (s_crc (g_sess (i_drv w))) ∧ is_Some (s_sess (g_sess (i_drv w))) ∧ is_Some (s_ev (g_sess (i_drv w)))
}.

Lemma init_driver_wp w : fresh w → wp fpi_device_gxfp_init (λ _ w', driver_inv w') w.
Proof using EO.
  destruct (X_eta w) as (d & p & sc & o & sw & t & q & ->). intros [Ho Ha (Hc & Hi) Hr Hst Hpw Hre (Hcs & (s & Hs) & e & He)].
  cbn [X i_dev i_priv i_scans i_drv g_sess] in *. unfold fpi_device_gxfp_init. apply wp_bind, wp_lib.
  eapply wp_mono; [by eapply init_wp|]. intros ? sw' Hsw'. apply wp_timer, inv_calm. split; try done.
  { rewrite Ha, Hpw. split; [done|done|by left]. }
  left. split; [done|]. split; [done|]. rewrite Ho. destruct Hsw' as [(l & ->)|(l & s' & -> & Hcl & Hb)]; exists l, (s_crc sw), e;
    (split; [done|]); [by left|right; by exists s'].
Qed.

(** A run from a device that was just made. *)
Definition runs (ops : list driver_op) (w w' : dworld) : Prop :=
  (fpi_device_gxfp_init;; run_ops driver fuel ops) w = Some ((), w').

(** Among the steps is one that loses an enrollment: a scan that nobody cancelled ends while
    the device is down, and the enrollment goes on ([enroll_lost]). The steps before it are
    defined and keep the invariant. *)
Definition loses_enrollment (ops : list driver_op) (w : dworld) : Prop :=
  ∃ pre r post w1, ops = pre ++ OpScanned r :: post ∧ runs pre w w1 ∧ driver_inv w1 ∧
    enroll_lost (OpScanned r) w1 = true.

Lemma driver_runs ops w :
  fresh w → (∃ w', runs ops w w' ∧ driver_inv w') ∨ loses_enrollment ops w.
Proof using EO TO WO CO FO HO Hfuel Hpull Hdeliver.
  intros Hw. destruct (wp_inv _ _ _ (init_driver_wp w Hw)) as ([] & w0 & Hr0 & Hw0).
  unfold loses_enrollment, runs.
  destruct (driver_ops_wp fuel Hfuel Hpull Hdeliver 0 ops w0 Hw0) as [(w' & Hr & Hw')|(pre & r & post & w1 & -> & Hr & Hw1 & Hl)].
  - left. exists w'. by rewrite (run_bind _ _ _ _ _ Hr0).
  - right. exists pre, r, post, w1. by rewrite (run_bind _ _ _ _ _ Hr0).
Qed.

Lemma driver_inv_counts w :
  driver_inv w → (length (d_returns (i_dev w)) <= 1)%nat ∧ (length (i_scans w) <= 1)%nat ∧
    (d_action (i_dev w) ≠ FPI_DEVICE_ACTION_NONE →
     d_returns (i_dev w) ≠ [] ∨ is_Some (timer_source (i_drv w)) ∨ i_scans w ≠ []).
Proof using Type.
  intros [[(Hr & Ht)|He]|Hc].
  - destruct Hr as (Hb & m & Hph & _). rewrite (bu_returns _ _ _ Hb). pose proof (bu_scans _ _ _ Hb) as Hl.
    split; [cbn; repeat constructor|]. split; [rewrite Hl; destruct (p_scan_active _); repeat constructor|]. intros _. right.
    destruct (ticking (i_priv w)) eqn:Htk; [left; by apply Ht|right].
    assert (Hs : p_scan_active (i_priv w) = true).
    { unfold ticking in Htk. unfold phase in Hph. by destruct (p_state _); decompose [and] Hph. }
    rewrite Hs in Hl. by destruct (i_scans w).
  - destruct He as [? ? ? ? (r & ->) ? ? [] ?]. split; [cbn; repeat constructor|]. rewrite re_scans. split; [cbn; repeat constructor|]. by left.
  - destruct Hc as [[] ? ? ? ? Ha]. rewrite re_scans.
    destruct Ha as [(Ha & -> & _)|[(_ & _ & [(-> & _)|(e & -> & _)])|(_ & _ & (r & ->) & _)]]; (split; [cbn; repeat constructor|]);
      (split; [cbn; repeat constructor|]); [done|by left..].
Qed.

(** ** Cancelling *)

(** The action [a] was cancelled: it is over, or the device is not active. *)
Definition stopping (a : FpiDeviceAction) (inactive : bool) (w : dworld) : Prop :=
  d_action (i_dev w) = a ∧
  (ended (i_dev w) (i_priv w) (i_scans w) (g_sess (i_drv w)) ∨
   running (i_dev w) (i_priv w) (i_scans w) (g_sess (i_drv w)) ∧ p_active (i_priv w) = false ∧ d_cancelled (i_dev w) = true ∧
   if inactive then p_state (i_priv w) = FPI_IMAGE_DEVICE_STATE_INACTIVE
   else ticking (i_priv w) = true → is_Some (timer_source (i_drv w))).

Lemma cancel_idle_wp d p sc o sw t q :
  running d p sc sw → (ticking p = true → is_Some t) → d_cancelled d = true → d_idle_cancel d = true →
  wp (run_op driver fuel OpIdleCancel) (λ _ w', stopping (d_action d) false w') (X d p sc o sw t q).
Proof using EO CO.
  intros (Hb & m & Hph & Hm) Ht Hcn Hid. pose proof (bu_action _ _ _ Hb) as Hcap.
  unfold run_op. apply wp_bind, wp_getw. cbn [X i_dev]. rewrite Hid.
  unfold fp_device_cancel_in_idle_cb. apply wp_bind, wp_dev, wp_bind.
  rewrite bool_decide_eq_false_2 by by apply capture_some. apply wp_ret, wp_bind, wp_mod_dev, wp_bind.
  set (d1 := set_cancel _ _ _ d). assert (Hb1 : busy d1 p sc) by by destruct Hb.
  unfold fp_image_device_cancel_action. apply wp_bind, wp_action. change (d_action d1) with (d_action d). rewrite Hcap.
  assert (Hact : p_active p = false ∨ p_active p = true ∧ active_state (p_state p) = true).
  { unfold phase in Hph. destruct (p_state p); decompose [and] Hph; auto. }
  destruct Hact as [Hna|(Ha & Hst)].
  - apply deactivate_inactive_wp; [done|]. apply wp_mod_dev. split; [done|]. right. split; [split; [by destruct Hb1|by exists m]|].
    split; [exact Hna|]. split; [exact Hcn|exact Ht].
  - destruct Hm as (Hsw & _). eapply deactivate_active_wp; [done|done|done|exact Hsw|].
    intros d' p' o' sw' Hco Hsw'. apply wp_mod_dev.
    assert (Hds : dsame d' (set_finger_status FP_FINGER_STATUS_NONE d')) by done.
    assert (Hd : d_action d' = d_action d ∧ (d_cancelled d' = true ∨ ended d' p' sc sw')).
    { pose proof (completes_downed _ _ None _ _ _ _ Hb1 Hco Hsw') as (_ & _ & Hr). unfold completes in Hco.
      cbn [kept] in Hco. destruct (p_active (off p) || p_scan_active (off p)).
      - destruct Hco as (-> & _). split; [done|by left].
      - destruct Hco as (Hd & _). split; [by rewrite (de_action _ _ Hd)|]. destruct Hr as [(Hb' & _)|?]; [|by right].
        pose proof (de_connected _ _ Hd). pose proof (bu_connected _ _ _ Hb'). congruence. }
    destruct Hd as (Hd1 & Hd2). pose proof (completes_downed _ _ None _ _ _ _ Hb1 Hco Hsw') as (Hoff & Hst' & Hr).
    split; [exact Hd1|]. destruct Hr as [Hr|He]; [|left; by eapply ended_same].
    destruct Hd2 as [Hc'|He]; [|left; by eapply ended_same]. right. split; [by eapply running_same|]. split; [exact Hoff|].
    split; [exact Hc'|]. unfold ticking. cbn [X i_priv]. by rewrite Hst'.
Qed.

(** The pump of an action that was cancelled ends an activation. *)
Lemma cancel_timer_wp a w : stopping a false w → wp (run_op driver fuel OpTimer) (λ _ w', stopping a true w') w.
Proof using EO TO WO CO FO Hfuel Hpull Hdeliver.
  destruct (X_eta w) as (d & p & sc & o & sw & t & q & ->). intros (Ha & Hw). unfold run_op. apply wp_bind, wp_getw.
  cbn [X i_dev i_priv i_scans i_drv g_sess timer_source] in *.
  assert (Hsame : ∀ K, asleep K → K sw → (∀ sw', K sw' → stopping a true (X d p sc o sw' t q)) →
    wp (match t with None => mret () | Some _ => gxfp_pump_timeout_cb driver fuel end) (λ _ w', stopping a true w') (X d p sc o sw t q)).
  { intros K HK Hk Hst. destruct t as [ms|]; [|by apply wp_ret, Hst].
    eapply (pump_asleep_wp fuel Hfuel Hpull Hdeliver _ K); [done|done|]. intros o' sw' t' Hk'. exact (Hst sw' Hk'). }
  destruct Hw as [He|(Hr & Hna & Hc & Ht)].
  { assert (Hst : ∀ sw', still sw' → stopping a true (X d p sc o sw' t q)).
    { intros sw' Hs'. split; [done|]. left. destruct He. by split. }
    destruct (en_sess _ _ _ _ He) as [Hs|Hs]; (eapply Hsame; [|exact Hs|intros sw' Hs'; apply Hst]); unfold asleep, still; auto. }
  pose proof Hr as (Hb & m & Hph & Hsw & Hu). pose proof Hph as Hph'. unfold phase in Hph'.
  destruct (p_state p) eqn:Hst; decompose [and] Hph'; try congruence; try done; [subst m|].
  { eapply (Hsame (sess_in GXFP_MODE_READY)); [by left|exact Hsw|]. intros sw' Hsw'. split; [done|]. right.
    split; [split; [done|by exists GXFP_MODE_READY]|]. done. }
  destruct Ht as (ms & ->); [by unfold ticking; rewrite Hst|]. destruct Hsw as (l & c & s & e & -> & Hcs & Hl & <-).
  assert (Hin : in_action (s_mode s) = true) by by destruct (s_mode s).
  unfold gxfp_pump_timeout_cb. apply wp_bind, wp_timer, wp_bind. unfold fpi_device_action_is_cancelled at 1.
  apply wp_bind, wp_dev. rewrite bool_decide_eq_false_2 by by apply capture_some, Hb. apply wp_ret. rewrite Hc.
  apply wp_bind, wp_with_events. eapply wp_eq; [apply pump_cancel_run; [done|done|clear -Hfuel; lia]|].
  do 4 eexists. split; [done|]. rewrite bool_decide_eq_false_2 by (intros Hm; by rewrite Hm in *).
  cbn [fst snd]. apply wp_bind. unfold handle_session_events.
  cbn [ev_error ev_cancel events_zero session_error error_target cancel_tick finger_status_changed image_ready Z.eqb negb when].
  apply wp_bind, wp_timer. do 2 apply wp_bind, wp_ret. apply wp_bind, wp_timer. rewrite bool_decide_eq_true_2 by done.
  eapply activation_error_wp; [exact Hb|done|exact Hph| |].
  { do 4 eexists. split; [done|]. split; [done|]. split; [by apply live_failed|done]. }
  intros d' He Hd'. set (K := sess_in GXFP_MODE_FAILED). assert (HK : asleep K) by (by right; left).
  assert (Hend : ∀ o sw' t, K sw' → stopping a true (X d' p sc o sw' t q)).
  { intros o1 sw' t1 Hk. split; [cbn [X i_dev]; congruence|]. left. destruct He. split; try done. by right. }
  assert (Hk : K (W l c (set_mode GXFP_MODE_FAILED s) (ev_cancel (ev_error (- ECANCELED) GXFP_SESSION_ERR_TARGET_ACTIVATE events_zero)))).
  { do 4 eexists. split; [done|]. split; [done|]. split; [by apply live_failed|done]. }
  apply wp_bind, wp_is_cancelled. intros b o'. destruct b; [by apply wp_ret, Hend|]. apply wp_bind, wp_lib.
  eapply poll_asleep_wp; [exact HK|exact Hk|]. intros r sw2 Hk2. destruct (_ || _); [|by apply wp_ret, Hend].
  eapply with_events_asleep_wp; [by apply (on_fd_looks fuel)|exact HK|exact Hk2|]. intros sw3. apply Hend.
Qed.

(** The thread of the scan hears of the cancellation. *)
Lemma cancel_scan_wp a r w :
  stopping a true w →
  wp (run_op driver fuel (OpScanned r))
     (λ _ w', d_action (i_dev w') = a ∧ ended (i_dev w') (i_priv w') (i_scans w') (g_sess (i_drv w'))) w.
Proof using EO CO.
  destruct (X_eta w) as (d & p & sc & o & sw & t & q & ->). intros (Ha & Hw). unfold run_op. apply wp_bind, wp_getw.
  cbn [X i_dev i_priv i_scans i_drv g_sess timer_source] in *. destruct Hw as [He|(Hr & Hna & Hc & Hst)].
  { rewrite (re_scans _ _ (en_resting _ _ _ _ He)) in He |- *. by apply wp_ret. }
  destruct sc as [|i sc].
  { destruct Hr as (Hb & m & Hph & _). pose proof (bu_scans _ _ _ Hb) as Hl. unfold phase in Hph. rewrite Hst in Hph.
    destruct Hph as (_ & Hs & _). by rewrite Hs in Hl. }
  destruct (running_scanned _ _ _ _ _ Hr) as (-> & Hsd).
  assert (Hput : ∀ Q : () → dworld → Prop, Q () (X d p [] o sw t q) → wp (put_scans []) Q (X d p [i] o sw t q)) by done.
  apply wp_bind, Hput. unfold task_result. rewrite Hc. unfold fpi_image_device_minutiae_detected. cbn [sc_error].
  apply wp_bind, wp_mod_priv, wp_bind, wp_maybe_complete; [apply Hsd|]. intros d' p' Hco.
  pose proof (scanned_kept (Some ErrCancelled) _ _ _ Hsd) as Hk.
  assert (Hna' : p_active (kept (Some ErrCancelled) (set_scan false p)) = false) by by rewrite (proj1 (kept_fields _ _)).
  destruct (scanned_ended _ _ _ _ _ Hk Hna' Hco) as (He & Hoff). apply deactivate_inactive_wp; [done|].
  split; [|done]. unfold completes in Hco. rewrite Hna', (sd_scan _ _ _ Hk) in Hco. destruct Hco as (Hd & _).
  exact (eq_trans (de_action _ _ Hd) Ha).
Qed.

(** The completion is handed to the program. *)
Definition answered (a : FpiDeviceAction) (w : dworld) : Prop :=
  d_action (i_dev w) = FPI_DEVICE_ACTION_NONE ∧ driver_inv w ∧
  ∃ before answer after, i_out w = before ++ OutReturned a answer :: after ∧ Forall power_out after.

Lemma ended_return_wp d p sc o sw t q :
  ended d p sc sw → wp (run_op driver fuel OpIdleReturn) (λ _ w', answered (d_action d) w') (X d p sc o sw t q).
Proof using Type.
  intros He. pose proof (en_returns _ _ _ _ He) as (r & Hr). unfold run_op. apply wp_bind, wp_getw. cbn [X i_dev]. rewrite Hr.
  apply task_return_wp; [apply capture_some, He|apply He|]. intros d' a after Hd Haf.
  split; [apply Hd|]. split; [by eapply inv_calm, ended_returned|]. by exists o, a, after.
Qed.

(** What stops an action: the program cancels it, or suspends the device. *)
Definition stops (op : driver_op) (d : fp_device) : bool :=
  match op with
  | OpCancel => true
  | OpSuspend => negb (suspend_resume_task (d_power d) || is_suspended (d_power d) || is_removed (d_power d))
  | _ => false
  end.

Lemma stop_wp op d p sc o sw t q :
  running d p sc sw → d_cancelled d = false → stops op d = true →
  wp (run_op driver fuel op) (λ _ w', ∃ d' o', w' = X d' p sc o' sw t q ∧ running d' p sc sw ∧
    d_action d' = d_action d ∧ d_cancelled d' = true ∧ d_idle_cancel d' = true) (X d p sc o sw t q).
Proof using Type.
  intros Hrun Hc Hs. pose proof Hrun as (Hb & m & Hph & Hm). unfold run_op. apply wp_bind, wp_getw. destruct op; try done.
  - apply negb_true_iff, orb_false_iff in Hs as (Hs & Hre). apply orb_false_iff in Hs as (Ht & Hsu).
    unfold fp_device_suspend. apply wp_bind, wp_dev. rewrite Ht, Hsu, Hre. cbn [orb]. apply wp_bind, wp_mod_dev.
    destruct (power_free _ _ (bu_power _ _ _ Hb) Ht) as (He & Hh). pose proof (bu_action _ _ _ Hb) as Hcap.
    unfold fpi_device_suspend. apply wp_bind, wp_dev. set (d1 := set_power _ d). change (d_action d1) with (d_action d).
    assert (Hgo : wp (fpi_device_suspend_complete (Some (ErrDevice FP_DEVICE_ERROR_NOT_SUPPORTED)))
      (λ _ w', ∃ d' o', w' = X d' p sc o' sw t q ∧ running d' p sc sw ∧
        d_action d' = d_action d ∧ d_cancelled d' = true ∧ d_idle_cancel d' = true) (X d1 p sc o sw t q)).
    { apply suspend_complete_wp; [done|done|done|by left|]. intros m' d' o' Hm' Hd Hcan. exists d', o'. split; [done|].
      destruct Hcan as (Hcan & Hidle); [done|done|]. split.
      - eapply running_heated; [exact Hd|]. split; [by destruct Hb|by exists m].
      - split; [apply (dh_action _ _ Hd)|]. split; [done|]. apply Hidle; [done|apply Hb]. }
    by destruct (d_action d).
  - unfold fp_device_task_cancelled_cb. apply wp_bind, wp_dev. rewrite (bu_connected _ _ _ Hb). cbn [when]. apply wp_mod_dev.
    rewrite Hc, (bu_connected _ _ _ Hb). cbn [orb]. eexists _, o. split; [done|]. split; [|done]. split; [by destruct Hb|by exists m].
Qed.

(** C11: a cancellation ends an action that captures (an enrollment, a verification, an
    identification or a plain capture), and so does a suspension of the device. The state is
    any that satisfies the invariant, so any that a run reaches before it loses an enrollment
    (the inactive enrollment that waits for a finger, where a cancellation does nothing, is
    not one); the action has not been answered or cancelled yet; and a suspension is asked for
    of a device that is present, not suspended and not already suspending or resuming. Then,
    whatever the device, mbedTLS and the scan answer: once the callback of the cancellation,
    one turn of the pump, the scan that may be running and the completion are dispatched, the
    program has its answer, the device is free, and no suspension waits for it any more. *)
Theorem driver_cancel_completes op w r :
  driver_inv w → is_capture (d_action (i_dev w)) = true → d_returns (i_dev w) = [] → d_cancelled (i_dev w) = false →
  stops op (i_dev w) = true →
  ∃ w', run_ops driver fuel [op; OpIdleCancel; OpTimer; OpScanned r; OpIdleReturn] w = Some ((), w') ∧
    answered (d_action (i_dev w)) w' ∧ suspend_resume_task (d_power (i_dev w')) = false.
Proof using EO TO WO CO FO Hfuel Hpull Hdeliver.
  destruct (X_eta w) as (d & p & sc & o & sw & t & q & ->). intros Hw Hcap Hr Hc Hs. cbn [X i_dev] in Hcap, Hr, Hc, Hs.
  assert (Hrun : running d p sc sw ∧ (ticking p = true → is_Some t)).
  { destruct Hw as [[(Hrun & Ht)|He]|Hcalm]; cbn [X i_dev i_priv i_scans i_drv g_sess timer_source] in *.
    - split; [done|]. by apply Ht.
    - destruct (en_returns _ _ _ _ He). congruence.
    - exfalso. destruct (ca_action _ _ _ _ Hcalm) as [(Ha & _)|[(Ha & _)|(Ha & _)]]; by rewrite Ha in Hcap. }
  destruct Hrun as (Hrun & Ht).
  cut (wp (run_ops driver fuel [op; OpIdleCancel; OpTimer; OpScanned r; OpIdleReturn])
    (λ _ w', answered (d_action d) w') (X d p sc o sw t q)).
  { intros Hwp. destruct (wp_inv _ _ _ Hwp) as ([] & w' & Hr' & Hans). exists w'. split; [done|]. split; [done|].
    destruct Hans as (Ha & Hi & _). destruct (suspend_resume_task _) eqn:Ht'; [|done].
    by destruct (power_waits _ _ (inv_power_ok _ Hi) Ht'). }
  cbn [run_ops]. apply wp_bind. eapply wp_mono; [by apply stop_wp|]. intros ? w0 (d1 & o1 & -> & Hrun1 & <- & Hc1 & Hid1).
  apply wp_bind. eapply wp_mono; [by apply cancel_idle_wp|]. intros ? w1 H1.
  apply wp_bind. eapply wp_mono; [apply (cancel_timer_wp (d_action d1)); exact H1|]. intros ? w2 H2.
  apply wp_bind. eapply wp_mono; [apply (cancel_scan_wp (d_action d1)); exact H2|]. intros ? w3 (Ha3 & He3).
  destruct (X_eta w3) as (d3 & p3 & sc3 & o3 & sw3 & t3 & q3 & ->). apply wp_bind. cbn [X i_dev] in Ha3.
  eapply wp_mono; [by apply ended_return_wp|]. intros ? w4 Hans. apply wp_ret. by rewrite <- Ha3.
Qed.

(** C9: from a device that was just made, whatever the program and the main loop do, in
    whatever order, against any device that delivers finitely many records ([UfiniteOk]) and
    whatever mbedTLS and the files answer: either every step is defined - no [g_assert]
    fails, no memory is misused, no more than three calls nest - and after the last the states
    of the image device and of the session fit together, with at most one completion and at
    most one scan pending; or the steps, all defined and with the invariant, come to the end
    of a scan that loses an enrollment: nobody cancelled it, an error took the device down,
    and the enrollment goes on ([enroll_lost]; the last theorem on enrollments below says
    what happens then). The check of a
    [g_return_if_fail] that fails is a message ([OutCritical]) and the call returns, as in
    GLib; it is not excluded. *)
Theorem driver_invariant ops w :
  fresh w →
  (∃ w', runs ops w w' ∧ driver_inv w' ∧
     (length (d_returns (i_dev w')) <= 1)%nat ∧ (length (i_scans w') <= 1)%nat) ∨
  loses_enrollment ops w.
Proof using EO TO WO CO FO HO Hfuel Hpull Hdeliver.
  intros Hw. destruct (driver_runs ops w Hw) as [(w' & Hr & Hw')|Hl]; [left|by right].
  exists w'. destruct (driver_inv_counts w' Hw') as (? & ? & _). done.
Qed.

(** C10: in a run from a device that was just made that loses no enrollment, nothing hangs:
    whenever an action is in progress, or the device is asked to suspend or to resume and has
    not answered, the completion of the action is on its way to the program, or the pump is
    scheduled, or a scan is running. After a step that loses an enrollment none of the three
    need be there: that is the enrollment that does not end, below. *)
Theorem driver_never_stalls ops w :
  fresh w →
  loses_enrollment ops w ∨
  ∃ w', runs ops w w' ∧
    (d_action (i_dev w') ≠ FPI_DEVICE_ACTION_NONE ∨ suspend_resume_task (d_power (i_dev w')) = true →
     d_returns (i_dev w') ≠ [] ∨ is_Some (timer_source (i_drv w')) ∨ i_scans w' ≠ []).
Proof using EO TO WO CO FO HO Hfuel Hpull Hdeliver.
  intros Hw. destruct (driver_runs ops w Hw) as [(w' & Hr & Hw')|Hl]; [right|by left].
  exists w'. split; [done|]. intros Ha. apply driver_inv_counts; [done|].
  destruct Ha as [Ha|Ht]; [done|]. by eapply power_waits, Ht; apply inv_power_ok.
Qed.

(** ** The enrollment that does not end *)

(** An inactive device of an enrollment, and what a change to a waiting state does to it. *)
Definition deaf (w : dworld) : Prop :=
  d_action (i_dev w) = FPI_DEVICE_ACTION_ENROLL ∧ d_returns (i_dev w) = [] ∧ d_connected (i_dev w) = true ∧
  d_cancelled (i_dev w) = false ∧ d_idle_cancel (i_dev w) = false ∧
  p_active (i_priv w) = false ∧ p_state (i_priv w) = FPI_IMAGE_DEVICE_STATE_AWAIT_FINGER_ON ∧ i_scans w = [].

Lemma await_on_deaf_wp d p o sw t q :
  d_action d = FPI_DEVICE_ACTION_ENROLL → d_returns d = [] → d_connected d = true → d_cancelled d = false →
  d_idle_cancel d = false → p_active p = false → sess_in GXFP_MODE_READY sw → up sw →
  wp (fp_image_device_change_state driver FPI_IMAGE_DEVICE_STATE_AWAIT_FINGER_ON) (λ _ w', deaf w') (X d p [] o sw t q).
Proof using EO CO Hfuel.
  intros Ha Hr Hcn Hc Hid Hp (l & c & s & e & -> & Hcs & Hs & Hm) Hu. apply change_any_wp; [done|]. intros o'.
  assert (Hend : ∀ o sw' t', ∃ d1 p1 sc1 o1 sw1 t1 q1, X d (set_state FPI_IMAGE_DEVICE_STATE_AWAIT_FINGER_ON p) [] o sw' t' q = X d1 p1 sc1 o1 sw1 t1 q1 ∧
     ∀ d2, dsame d1 d2 → deaf (X d2 p1 sc1 o1 sw1 t1 q1)).
  { intros o1 sw' t'. do 7 eexists. split; [done|]. intros d2 []. unfold deaf. cbn [X i_dev i_priv i_scans p_active p_state set_state].
    split_and!; congruence. }
  unfold gxfp_change_state. apply wp_bind, wp_with_events.
  eapply wp_mono; [apply (change_wait_reports fuel _ GXFP_MODE_WAIT_FINGER_ON l c s Hs Hcs); [clear -Hfuel; lia|by rewrite Hm|by apply (Hu l c s e)|done]|].
  intros r w' (l' & c' & s' & e' & -> & _ & _ & _ & Hrep). do 4 eexists. split; [done|]. cbn [fst snd].
  destruct Hrep as [(_ & _ & ->)|(_ & r' & tg & Htg & ->)]; [apply handle_tick_wp, Hend|].
  unfold handle_session_events. do 3 (apply wp_bind, wp_ret). cbn [ev_error events_zero session_error error_target Z.eqb negb].
  apply wp_bind, wp_timer. rewrite bool_decide_eq_false_2 by done.
  unfold fpi_image_device_session_error. cbv zeta. apply wp_bind, wp_priv. cbn [p_active set_state]. rewrite Hp. cbn [negb].
  apply wp_bind, wp_action. rewrite Ha, bool_decide_eq_false_2 by done. cbn [negb general default from_option id].
  unfold fpi_image_device_activate_complete. apply wp_bind, wp_priv, wp_bind, wp_action. cbn [p_active p_state set_state].
  rewrite Hp. cbn [negb return_if_fail]. rewrite bool_decide_eq_false_2 by done. apply wp_out, Hend.
Qed.

(** An enrollment that goes on while its device is down. *)
Lemma enroll_deaf_wp (print : bool) e d p o sw t q :
  d_action d = FPI_DEVICE_ACTION_ENROLL → d_returns d = [] → d_connected d = true → d_cancelled d = false →
  d_idle_cancel d = false → p_active p = false → p_scan_active p = false → p_finger_present p = false →
  p_enroll_stage p + (if print then 1 else 0) ≠ d_enroll_stages d → from_option is_retry true e = true →
  sess_in GXFP_MODE_READY sw → up sw →
  wp (enroll_scanned driver print e) (λ _ w', deaf w') (X d p [] o sw t q).
Proof using EO CO Hfuel.
  intros Ha Hr Hcn Hc Hid Hp Hs Hf Hst He Hsw Hu. unfold enroll_scanned.
  set (p1 := if print then set_stage (p_enroll_stage p + 1) p else p).
  assert (Hp1 : p_active p1 = false ∧ p_scan_active p1 = false ∧ p_finger_present p1 = false ∧
    p_enroll_stage p1 ≠ d_enroll_stages d).
  { unfold p1. destruct print; cbn; split_and!; try done. by rewrite Z.add_0_r in Hst. }
  destruct Hp1 as (Hp1 & Hs1 & Hf1 & Hst1).
  assert (Hw : ∀ Q : () → dworld → Prop, Q () (X d p1 [] o sw t q) →
    wp (when print (mod_priv (λ p, set_stage (p_enroll_stage p + 1) p))) Q (X d p [] o sw t q)) by (by destruct print).
  apply wp_bind, Hw, wp_bind, wp_priv, wp_bind. unfold fpi_device_enroll_progress. apply wp_bind, wp_dev.
  rewrite bool_decide_eq_true_2, He by done. cbn [return_if_fail]. apply wp_out, wp_bind, wp_dev.
  rewrite (proj2 (Z.eqb_neq _ _)) by done.
  unfold fp_image_device_enroll_maybe_await_finger_on. apply wp_bind, wp_priv. rewrite Hs1, Hf1. cbn [orb].
  by apply await_on_deaf_wp.
Qed.

(** The scan that loses an enrollment. *)
Lemma lost_scan_wp w r :
  driver_inv w → d_idle_cancel (i_dev w) = false → enroll_lost (OpScanned r) w = true → up (g_sess (i_drv w)) →
  wp (run_op driver fuel (OpScanned r)) (λ _ w', deaf w') w.
Proof using EO CO Hfuel.
  destruct (X_eta w) as (d & p & sc & o & sw & t & q & ->). intros Hw Hid Hel Hu.
  cbn [X i_dev i_priv i_scans i_drv g_sess enroll_lost] in *.
  rewrite !andb_true_iff, !negb_true_iff, bool_decide_eq_true, bool_decide_eq_false in Hel.
  destruct Hel as ((((Ha & Hp) & Hc) & Hsc) & Hgo). destruct sc as [|i sc]; [done|].
  assert (Hrun : running d p (i :: sc) sw).
  { destruct Hw as [[(Hr & _)|He']|Hc']; [exact Hr| |]; exfalso.
    - by pose proof (re_scans _ _ (en_resting _ _ _ _ He')).
    - by pose proof (re_scans _ _ (ca_resting _ _ _ _ Hc')). }
  destruct (running_scanned _ _ _ _ _ Hrun) as (-> & [Hb Hs Hsd]).
  destruct Hsd as [(? & _)|[(? & _)|(_ & Hf & Hstate & Hsw)]]; [cbn in *; congruence..|].
  unfold run_op. apply wp_bind, wp_getw. cbn [X i_scans].
  assert (Hput : ∀ Q : () → dworld → Prop, Q () (X d p [] o sw t q) → wp (put_scans []) Q (X d p [i] o sw t q)) by done.
  apply wp_bind, Hput. unfold task_result. cbn [X i_dev]. rewrite Hc. unfold fpi_image_device_minutiae_detected, scan_goes_on in *.
  apply wp_bind, wp_mod_priv. pose proof (bu_stages _ _ _ Hb) as Hstg. cbn [set_scan p_enroll_stage] in Hstg.
  assert (Hgo' : ∀ (print : bool) e, p_enroll_stage p + (if print then 1 else 0) ≠ d_enroll_stages d →
    from_option is_retry true e = true → wp (enroll_scanned driver print e) (λ _ w', deaf w') (X d (set_scan false p) [] o sw t q)).
  { intros print e Hst He. apply enroll_deaf_wp; try done; apply Hb. }
  destruct (sc_error r) as [[]|]; [done|..]; cbv zeta;
    (apply wp_bind, wp_action; rewrite Ha, bool_decide_eq_false_2 by done);
    [rewrite bool_decide_eq_false_2 by done; apply Hgo'; [cbv iota; clear -Hstg; lia|done]..|].
  rewrite bool_decide_eq_true_2 by done. destruct (sc_print r) as [e|].
  - rewrite bool_decide_eq_false_2 by done. cbn [from_option]. rewrite Hgo. cbn [negb]. apply Hgo'; [cbv iota; clear -Hstg; lia|done].
  - rewrite bool_decide_eq_true_2 by done. cbn [from_option negb]. apply Hgo'; [|done]. by apply negb_true_iff, Z.eqb_neq in Hgo.
Qed.

(** C12: after an error of the session took the device down in an enrollment, a scan that
    nobody cancelled and that leaves the enrollment with something to do (a picture that is
    not the last, or a retry) starts the next stage on the inactive device
    (fpi-image-device.c, minutiae_detected), while the TLS service of the session is there:
    the enrollment goes on waiting for a finger, and a cancellation by the program is
    ignored, since only an active device is deactivated. *)
Theorem enroll_after_error_deaf w r :
  driver_inv w → d_idle_cancel (i_dev w) = false → enroll_lost (OpScanned r) w = true → up (g_sess (i_drv w)) →
  ∃ w', run_ops driver fuel [OpScanned r; OpCancel; OpIdleCancel] w = Some ((), w') ∧
    d_action (i_dev w') = FPI_DEVICE_ACTION_ENROLL ∧ d_cancelled (i_dev w') = true ∧ d_returns (i_dev w') = [] ∧
    p_state (i_priv w') = FPI_IMAGE_DEVICE_STATE_AWAIT_FINGER_ON ∧ p_active (i_priv w') = false ∧ i_scans w' = [].
Proof using EO CO Hfuel.
  intros Hw Hid Hel Hu.
  cut (wp (run_ops driver fuel [OpScanned r; OpCancel; OpIdleCancel])
    (λ _ w', d_action (i_dev w') = FPI_DEVICE_ACTION_ENROLL ∧ d_cancelled (i_dev w') = true ∧ d_returns (i_dev w') = [] ∧
    p_state (i_priv w') = FPI_IMAGE_DEVICE_STATE_AWAIT_FINGER_ON ∧ p_active (i_priv w') = false ∧ i_scans w' = []) w).
  { intros Hwp. destruct (wp_inv _ _ _ Hwp) as ([] & w' & Hr' & HQ). by exists w'. }
  cbn [run_ops]. apply wp_bind. eapply wp_mono; [by apply lost_scan_wp|].
  intros ? w1 (Ha1 & Hr1 & Hcn1 & Hc1 & Hid1 & Hp1 & Hs1 & Hsc1).
  destruct (X_eta w1) as (d1 & p1 & sc1 & o1 & sw1 & t1 & q1 & ->). cbn [X i_dev i_priv i_scans] in *.
  apply wp_bind. unfold run_op at 1. apply wp_bind, wp_getw. unfold fp_device_task_cancelled_cb. apply wp_bind, wp_dev.
  rewrite Hcn1. cbn [when]. apply wp_mod_dev. rewrite Hcn1, Hc1. cbn [orb]. apply wp_bind. unfold run_op. apply wp_bind, wp_getw. cbn [X i_dev d_idle_cancel set_cancel].
  unfold fp_device_cancel_in_idle_cb. apply wp_bind, wp_dev, wp_bind. cbn [d_action set_cancel].
  rewrite Ha1, bool_decide_eq_false_2 by done. apply wp_ret, wp_bind, wp_mod_dev, wp_bind.
  unfold fp_image_device_cancel_action. apply wp_bind, wp_action. cbn [d_action set_cancel]. rewrite Ha1. cbn [is_capture].
  apply deactivate_inactive_wp; [done|]. apply wp_mod_dev, wp_ret. by split_and!.
Qed.
End driver_props.

(** ** The picture *)

Lemma gray_exact p : 0 <= p <= 4095 → gray p = p * 255 / 4095 ∧ 0 <= gray p <= 255.
Proof.
  intros Hp. unfold gray, u32, u8. rewrite (Z.mod_small (p * 255)) by lia.
  assert (Hd : 0 <= p * 255 / 4095 <= 255) by (split; [apply Z.div_pos; lia|apply Z.div_le_upper_bound; lia]).
  rewrite Z.mod_small by lia. done.
Qed.

(** The picture handed to libfprint has one byte for each pixel of the session's
    image, in the same order: its 12-bit value scaled to 8 bits, rounded down, without a
    wrap; black and white are kept, and no two pixels change places in brightness. *)
Theorem driver_image_gray rows cols px :
  0 <= rows → 0 <= cols → zlen px = rows * cols → Forall (λ p, 0 <= p <= 4095) px →
  ∃ data, fill_image rows cols px (zeros (cols * rows)) = Some data ∧
    data = (λ p, p * 255 / 4095) <$> px ∧ bytes_ok data ∧
    (∀ i j a b, px !! i = Some a → px !! j = Some b → a <= b → ∃ x y, data !! i = Some x ∧ data !! j = Some y ∧ x <= y) ∧
    (∀ i, px !! i = Some 0 → data !! i = Some 0) ∧ (∀ i, px !! i = Some 4095 → data !! i = Some 255).
Proof.
  intros Hr Hc Hl Hp. exists (gray <$> px). split; [by apply fill_image_some|].
  assert (Hg : gray <$> px = (λ p, p * 255 / 4095) <$> px).
  { apply list_fmap_ext. intros i x Hx. by apply gray_exact, (Forall_lookup_1 _ _ _ _ Hp Hx). }
  split; [exact Hg|]. split.
  - apply Forall_fmap, (Forall_impl _ _ _ Hp). intros x Hx. unfold is_u8, compose. destruct (gray_exact x Hx). lia.
  - rewrite Hg. split; [|split].
    + intros i j a b Ha Hb Hab. exists (a * 255 / 4095), (b * 255 / 4095). rewrite !list_lookup_fmap, Ha, Hb.
      split; [done|]. split; [done|]. apply Z.div_le_mono; lia.
    + intros i Hi. by rewrite list_lookup_fmap, Hi.
    + intros i Hi. by rewrite list_lookup_fmap, Hi.
Qed.

(** * A driver at work *)

#[local] Instance script_write script : UwriteOk (script_env script).
Proof.
  split. intros tr. cbn. destruct (last tr) as [[]|]; try done. pose proof (zlen_nonneg b). unfold EAGAIN. lia.
Qed.

(** A device at [/d], and a key file of 32 bytes. *)
Definition demo_host : Host :=
  {| udev_chardev := Some [47; 100]; env_gxfp_psk := None;
     file_at := λ _, {| fopen_errno := 0; fread_answers := [zeros 32]; ferror := false |};
     io_error_from_errno := ErrIo |}.

#[local] Instance demo_host_ok : HostOk demo_host.
Proof.
  split. intros path. split; [|done]. apply Forall_singleton. split; [apply bytes_ok_zeros|done].
Qed.

Definition demo_device (a : FpiDeviceAction) (opened : bool) : fp_device :=
  {| d_power := power_zero;
     d_temp := {| temp_current := FP_TEMPERATURE_COLD; temp_last_active := false; temp_timeout := false; temp_bands := [] |};
     d_reason := None; d_open := opened; d_action := a; d_cancelled := false; d_connected := negb (bool_decide (a = FPI_DEVICE_ACTION_NONE));
     d_idle_cancel := false; d_returns := []; d_finger_status := FP_FINGER_STATUS_NONE;
     d_enroll_stages := DEFAULT_ENROLL_SAMPLES; d_wait_for_finger := true; d_templates := 1; d_reported := false;
     d_match := false; d_match_error := None |}.
Definition demo_priv (st : FpiImageDeviceState) (scan : bool) : FpImageDevicePrivate :=
  {| p_state := st; p_active := false; p_finger_present := false; p_enroll_stage := 0; p_scan_active := scan;
     p_action_error := None; p_capture_image := None; p_algorithm := FPI_PRINT_SIGFM; p_bz3_threshold := BOZORTH3_DEFAULT_THRESHOLD |}.
Definition demo_driver (sw : sworld (T := plain_tls)) (t : ptr Z) : FpiDeviceGxfp :=
  {| g_sess := sw; timer_source := t; dev_path := None; psk_path := None |}.

Definition demo_made : dworld (T := plain_tls) :=
  {| i_dev := demo_device FPI_DEVICE_ACTION_NONE false; i_priv := demo_priv FPI_IMAGE_DEVICE_STATE_INACTIVE false;
     i_scans := []; i_out := [];
     i_drv := demo_driver {| s_l := demo_lworld; s_crc := crc_static0; s_sess := Some None; s_ev := Some events_zero |} None |}.

Lemma demo_made_fresh : fresh demo_made.
Proof. split; try done; [by split; try done; left|]. split; [exact demo_static|]. split; by eexists. Qed.

(** The program opens the device and verifies a finger; the pump runs twice. *)
Definition demo_ops : list driver_op := [OpOpen false; OpIdleReturn; OpVerify false; OpTimer; OpTimer].

Lemma demo_ops_keep : ¬ ∃ pre r post, demo_ops = pre ++ OpScanned r :: post.
Proof.
  intros (pre & r & post & Hops). assert (Hin : OpScanned r ∈ demo_ops) by (rewrite Hops; set_solver).
  unfold demo_ops in Hin. set_solver.
Qed.

(** A suspension that is asked for while the device opens waits for the opening and then
    succeeds, but does not mark the device as suspended: it works on, and a resume is refused. *)
Example suspend_while_opening :
  (λ x, (is_suspended (d_power (i_dev (snd x))), i_out (snd x))) <$>
    (fpi_device_gxfp_init (E := script_env []);;
     run_ops (E := script_env []) (gxfp_class (E := script_env []) (H := demo_host) demo_session_fuel NESTING) demo_session_fuel
       [OpOpen false; OpSuspend; OpIdleReturn; OpResume]) demo_made
  = Some (false, [OutReturned FPI_DEVICE_ACTION_OPEN ReturnBool; OutPower None; OutPower (Some (ErrDevice FP_DEVICE_ERROR_BUSY))]).
Proof. vm_compute. reflexivity. Qed.

Lemma driver_invariant_witness :
  ∃ w', (fpi_device_gxfp_init (E := script_env []);;
         run_ops (E := script_env []) (gxfp_class (E := script_env []) (H := demo_host) demo_session_fuel NESTING)
           demo_session_fuel demo_ops) demo_made = Some ((), w') ∧
    d_open (i_dev w') = true ∧ d_action (i_dev w') = FPI_DEVICE_ACTION_VERIFY ∧ driver_inv (E := script_env []) w'.
Proof.
  destruct (driver_invariant (E := script_env []) (EO := script_env_ok [] (Forall_nil_2 _)) (WO := script_write [])
    (T := plain_tls) (TO := plain_tls_ok) (B := 1) (N := 0) (FO := script_env_finite []) (H := demo_host) (HO := demo_host_ok)
    demo_session_fuel ltac:(unfold demo_session_fuel; lia) ltac:(unfold demo_session_fuel; lia) ltac:(unfold demo_session_fuel; lia)
    demo_ops demo_made demo_made_fresh) as [(w' & Hr & Hw & _)|(pre & r & post & w1 & Hops & _)].
  - unfold runs in Hr. exists w'.
    assert (Hp : (λ x, (d_open (i_dev (snd x)), d_action (i_dev (snd x)))) <$> Some ((), w')
      = Some (true, FPI_DEVICE_ACTION_VERIFY)) by (rewrite <- Hr; vm_compute; reflexivity).
    cbn in Hp. injection Hp as Ho Ha. split; [exact Hr|]. split; [exact Ho|]. split; [exact Ha|exact Hw].
  - destruct demo_ops_keep. exists pre, r, post. exact Hops.
Defined.

Lemma driver_never_stalls_witness :
  ∃ w', (fpi_device_gxfp_init (E := script_env []);;
         run_ops (E := script_env []) (gxfp_class (E := script_env []) (H := demo_host) demo_session_fuel NESTING)
           demo_session_fuel demo_ops) demo_made = Some ((), w') ∧
    d_action (i_dev w') ≠ FPI_DEVICE_ACTION_NONE ∧
    (d_returns (i_dev w') ≠ [] ∨ is_Some (timer_source (i_drv w')) ∨ i_scans w' ≠ []).
Proof.
  destruct (driver_never_stalls (E := script_env []) (EO := script_env_ok [] (Forall_nil_2 _)) (WO := script_write [])
    (T := plain_tls) (TO := plain_tls_ok) (B := 1) (N := 0) (FO := script_env_finite []) (H := demo_host) (HO := demo_host_ok)
    demo_session_fuel ltac:(unfold demo_session_fuel; lia) ltac:(unfold demo_session_fuel; lia) ltac:(unfold demo_session_fuel; lia)
    demo_ops demo_made demo_made_fresh) as [(pre & r & post & w1 & Hops & _)|(w' & Hr & Hw)].
  - destruct demo_ops_keep. exists pre, r, post. exact Hops.
  - unfold runs in Hr. exists w'.
    assert (Hp : (λ x, d_action (i_dev (snd x))) <$> Some ((), w')
      = Some FPI_DEVICE_ACTION_VERIFY) by (rewrite <- Hr; vm_compute; reflexivity).
    cbn in Hp. injection Hp as Ha. split; [exact Hr|].
    assert (Hne : d_action (i_dev w') ≠ FPI_DEVICE_ACTION_NONE) by (rewrite Ha; discriminate).
    split; [exact Hne|]. apply Hw. left. exact Hne.
Defined.

(** A session in mode [m], with a TLS service that is connected. *)
Definition demo_open (m : gxfp_session_mode) : sworld (T := plain_tls) :=
  W demo_lworld crc_static0 (demo_session m (Some (demo_svc (script_env []) GXFP_TLS_HS_CONNECTED (- 1) []))) events_zero.

Lemma demo_open_in m : m ≠ GXFP_MODE_CLOSED → sess_in (E := script_env []) m (demo_open m) ∧ up (demo_open m).
Proof.
  intros Hm. split.
  - do 4 eexists. split; [reflexivity|]. split; [exact demo_static|]. split; [|done].
    apply demo_session_live; [done| |intros i [= <-]; discriminate|exact demo_dev_open].
    right. eexists. split; [reflexivity|]. apply demo_svc_inv; [apply bytes_ok_nil|vm_compute; discriminate|discriminate|lia].
  - intros l c s e Heq. unfold demo_open, W in Heq. injection Heq as <- <- <- <-. discriminate.
Qed.

(** A verification whose device is being activated. *)
Definition demo_activating : dworld (T := plain_tls) :=
  X (demo_device FPI_DEVICE_ACTION_VERIFY true) (demo_priv FPI_IMAGE_DEVICE_STATE_ACTIVATING false) [] []
    (demo_open GXFP_MODE_ACTIVATING_TLS) (Some 20) (None, None).

Lemma driver_cancel_completes_witness :
  let r := {| sc_error := None; sc_print := None; sc_match := λ _, (FPI_MATCH_SUCCESS, None) |} in
  ∃ w', run_ops (E := script_env []) (gxfp_class (E := script_env []) (H := demo_host) demo_session_fuel NESTING) demo_session_fuel
      [OpSuspend; OpIdleCancel; OpTimer; OpScanned r; OpIdleReturn] demo_activating = Some ((), w') ∧
    d_action (i_dev w') = FPI_DEVICE_ACTION_NONE ∧ is_suspended (d_power (i_dev w')) = true ∧
    i_out w' = [OutReturned FPI_DEVICE_ACTION_VERIFY (ReturnError (ErrDevice FP_DEVICE_ERROR_BUSY));
                OutPower (Some (ErrDevice FP_DEVICE_ERROR_NOT_SUPPORTED))].
Proof.
  intros r. destruct (driver_cancel_completes (E := script_env []) (EO := script_env_ok [] (Forall_nil_2 _)) (WO := script_write [])
    (T := plain_tls) (TO := plain_tls_ok) (B := 1) (N := 0) (FO := script_env_finite []) (H := demo_host)
    demo_session_fuel ltac:(unfold demo_session_fuel; lia) ltac:(unfold demo_session_fuel; lia) ltac:(unfold demo_session_fuel; lia)
    OpSuspend demo_activating r) as (w' & Hr & (Ha & _) & _).
  - left. left. split; [|intros _ _; by eexists]. split; [split; try done; by split; [done|done|left]|]. exists GXFP_MODE_ACTIVATING_TLS.
    split; [by split_and!|]. destruct (demo_open_in GXFP_MODE_ACTIVATING_TLS); done.
  - reflexivity.
  - reflexivity.
  - reflexivity.
  - reflexivity.
  - exists w'. split; [exact Hr|]. split; [exact Ha|].
    assert (Hp : (λ x, (is_suspended (d_power (i_dev (snd x))), i_out (snd x))) <$> Some ((), w')
      = Some (true, [OutReturned FPI_DEVICE_ACTION_VERIFY (ReturnError (ErrDevice FP_DEVICE_ERROR_BUSY));
                OutPower (Some (ErrDevice FP_DEVICE_ERROR_NOT_SUPPORTED))])) by (rewrite <- Hr; vm_compute; reflexivity).
    cbn in Hp. injection Hp as Hs Ho. split; [exact Hs|exact Ho].
Defined.

(** An enrollment that an error stopped while its first picture was scanned. *)
Definition demo_picture_taken : fp_image := {| width := 1; height := 1; image_data := [0] |}.
Definition demo_stopped : dworld (T := plain_tls) :=
  X (demo_device FPI_DEVICE_ACTION_ENROLL true) (demo_priv FPI_IMAGE_DEVICE_STATE_INACTIVE true) [demo_picture_taken] []
    (demo_open GXFP_MODE_READY) None (None, None).

Lemma enroll_after_error_deaf_witness :
  let r := {| sc_error := None; sc_print := None; sc_match := λ _, (FPI_MATCH_ERROR, None) |} in
  ∃ w', run_ops (E := script_env []) (gxfp_class (E := script_env []) (H := demo_host) demo_session_fuel NESTING) demo_session_fuel
      [OpScanned r; OpCancel; OpIdleCancel] demo_stopped = Some ((), w') ∧
    d_cancelled (i_dev w') = true ∧ d_returns (i_dev w') = [] ∧ p_active (i_priv w') = false.
Proof.
  intros r. destruct (demo_open_in GXFP_MODE_READY) as (Hin & Hup); [discriminate|].
  destruct (enroll_after_error_deaf (E := script_env []) (EO := script_env_ok [] (Forall_nil_2 _))
    (T := plain_tls) (B := 1) (H := demo_host) demo_session_fuel ltac:(unfold demo_session_fuel; lia)
    demo_stopped r) as (w' & Hr & _ & Hc & Hn & _ & Hp & _); try reflexivity.
  - left. left. split; [|done]. split; [split; try done; by split; [done|done|left]|]. exists GXFP_MODE_READY. split; [by split_and!|done].
  - exact Hup.
  - exists w'. split; [exact Hr|]. split; [exact Hc|]. split; [exact Hn|exact Hp].
Defined.

Lemma driver_image_gray_witness :
  ∃ data, fill_image 2 2 [0; 4095; 2048; 16] (zeros 4) = Some data ∧ data = [0; 255; 127; 0].
Proof.
  destruct (driver_image_gray 2 2 [0; 4095; 2048; 16]) as (data & Hf & Hd & _); [lia|lia|reflexivity| |].
  - repeat (apply Forall_cons; split; [lia|]). apply Forall_nil_2.
  - exists data. split; [exact Hf|]. rewrite Hd. reflexivity.
Defined.
